(* ===== verification/_CoqProject ===== *)
-Q . S2P
Prelude.v
Symtab.v
SymIface.v
Ring.v
RingConc.v
Bytes.v
Tools.v
Mbuf.v
Endpoint.v
River.v
RouteTable.v
Decimal.v
RtInv.v
RtSpec.v
RtParser.v
Things.v
RtRefine.v
Stash.v
Send.v
SendSpec.v
Fanout.v
MtCall.v
MtSpec.v
RcvSpecific.v
Owners.v
Holders.v
Wormhole.v
RtConc.v
Rtc.v
RtcSpec.v
RtsSpec.v
MsgTypes.v
Probe.v
Examples.v
Si95.v
Si95Inv.v
Si95Spec.v
Receive.v
Init.v
Si95Addr.v
Si95Poll.v
Logging.v
Stats.v
Diag.v
NngMbuf.v
NngSend.v
NngRcv.v
RawRtc.v
NanoMsg.v
Transports.v
Consts.v
