(* ===== verification/Prelude.v ===== *)
(** Verification of the RIC Message Routing library (RMR).

    * The program

    RMR routes messages between applications by their type.  An application
    gives a message to rmr_send_msg; the library looks up the type (and
    subscription id) in a route table that a route manager distributes, picks an
    endpoint from each round robin group of the entry and writes the message on
    a TCP session to it.  At the other end a thread collects the bytes of each
    session into messages and queues them for the application's receive calls.
    There are three transports: the current one (si: src/src/rmr/common and
    src/src/rmr/si), which most of the development is about, and two deprecated ones
    (nng, nanomsg), which share the common code and lean on a library each.

    The parts call each other as follows.
<<
      application
        | rmr_send_msg, rmr_call, rmr_wh_*         | rmr_rcv_msg, rmr_mt_rcv
      Wormhole  MtCall -----------------------------+ (message ring, chutes)
        | mtosend_msg, send_msg                    |
      Send -> RouteTable (get_rt/release_rt)       Ring, RingConc
        |  -> Endpoint (fd to endpoint map)        ^ queue_normal
        | Transport (SIsendt, SIconnect)           River (mt_data_cb, mt_disc_cb)
      Si95  <-----------  SIwait, callbacks  -----+
        | Kernel (system calls)

      Init (starts what is above, with the collector as a thread)

      Rtc (collector thread, with a context of its own: Wormhole, MtCall, Mbuf)
        | rtc_parse_msg
      RtParser (records of the route manager) -> RouteTable, RtConc, Things
        |                                        Stash (saved records)
      Stats, Diag, Logging (reports)

      Probe, Examples (programs on top of the library)

      NngSend, NngRcv, NngMbuf, RawRtc, NanoMsg, Transports: the other transports,
      on RouteTable, RtParser, Ring, Wormhole
>>
    * Files

    Every file says at its top which source it models.  Names of definitions are
    those of the C functions; the parts of a long function carry names of their own.

    - Prelude: machine integers (u8 .. i64 are the conversions of C), C strings
      lists indexed by [Z], the effect [comp]: [Ret a], or [UB] for undefined behaviour of the C code
      (a nil pointer, freed memory, an access outside of a buffer).
    - Bytes, Tools: byte buffers; common/src/tools_static.c.
    - Symtab, SymIface: common/src/symtab.c; the interface of symbol tables that
      the other parts use, with its two instances (finite maps, and Symtab).
    - Ring, RingConc: common/src/ring_static.c, one thread and several.
    - Mbuf: message buffers, si/src/sr_si_static.c and common/src/mbuf_api.c.
    - Endpoint: endpoints and sessions, si/src/rtable_si_static.c.
    - River: the receive callbacks, si/src/mt_call_si_static.c.
    - RouteTable, RtInv, RtSpec: tables, entries and their life time,
      common/src/rt_generic_static.c; the invariant; the meaning as finite maps.
    - RtParser, RtRefine: the records that build a table; the abstract machine.
    - RtConc: senders and collector sharing the tables.
    - Rtc, RtcSpec: the collector thread, its requests, acknowledgements and drop
      alarm, common/src/rtc_static.c and common/src/alarm.c.
    - Send, SendSpec, Fanout: sending, with the reference for the retries and
      what a send to several groups does; RtsSpec: messages that are returned to their
      sender, and the call and its answer end to end.
    - MtCall, MtSpec: receiving, and calls that wait for an answer, si/src/rmr_si.c;
      RcvSpecific: receiving the message of a given transaction.
    - Owners: the functions that allocate and free messages, on a heap (Mbuf and Send
      have messages as values); Holders: the same for the receive thread, the ring and
      the chutes.
    - Wormhole: common/src/wormholes.c.
    - Si95, Si95Inv, Si95Spec: the socket layer, si/src/si95.
    - Receive: the receive thread, which joins River and Si95 (mt_receive).
    - Init: the life of a context, si/src/rmr_si.c.
    - Things: how a table is cloned through arrays; Stash: the file of saved records;
      Stats: the reports about a table (all three common/src/rt_generic_static.c).
    - Decimal: numbers written and read; Si95Addr: addresses as text; Si95Poll: the
      functions of the socket layer that RMR does not use, and its shutdown.
    - Logging, Consts: common/src/logging.c and common/src/wrapper.c; Diag: what is
      dumped for a person to read (si/src/sr_si_static.c, common/src/symtab.c).
    - MsgTypes: common/include/RIC_message_types.h; Probe: src/src/support/rmr_probe.c;
      Examples: the programs of src/examples.
    - NngMbuf, NngSend, NngRcv: messages, sending, receiving and calls of the nng
      transport, nng/src; RawRtc: its collector, common/src/rtc_static.c.
    - NanoMsg: the nanomsg transport, nanomsg/src; Transports: the route table functions
      of both, the release of their messages and the end of their contexts.

    State is passed explicitly: each component has a record for its C structure
    and a function from state to result and state for each C function.  Shared
    objects (endpoints, route table entries, transport blocks) live in stores and
    are referred to by ids, which are the pointers; freeing takes an object out of
    the store.  What two threads do to the same object is a step relation (RingConc,
    RtConc, [si_step] of Si95Spec, [rx_step] of Receive) with invariants by rule induction.
    The steps of RingConc and RtConc are single accesses; those of the two others are
    whole operations of a thread, see what is not modelled.

    * What the theorems show

    - Route tables.  The parser refines a machine on finite maps
      ([route_records_refine]); entries are allocated exactly as long as a table
      refers to them ([route_entry_lifetime]); a table is built on the side
      ([table_built_on_the_side]) and becomes active as a whole or not at all
      ([end_record_commits_or_rejects]); while threads send, the table they hold
      stays as it is ([held_table_stays]) and the collector does not wait for ever
      ([drain_ends]).  A clone through the arrays misses no entry
      ([clone_captures_every_entry]) and the saved records give the routes again
      ([saved_table_restores_routes]).  Records outside of the protocol are undefined
      ([malformed_records_are_undefined]).
    - Start and end.  Init makes a context from which the theorems of the other files
      can start ([init_establishes_invariants]), but for the last chute
      ([last_call_chute_not_initialised]); shutdown closes every session
      ([shutdown_closes_everything]).
    - The collector.  However the manager divides its records into messages, the
      collector builds the tables of the abstract machine and sends the
      acknowledgements of that machine ([collector_follows_manager]); alarms alternate
      and end ([alarms_alternate], [alarm_cleared_when_stable]).  The rest shows what goes
      wrong: requests for a table end with any message of table data, also one that is
      refused ([any_table_data_ends_requests]), a wormhole of the
      application is closed ([failed_request_closes_users_wormhole]), an unexpected
      message stops the thread ([wrong_type_stops_collector]), acknowledgements end
      ([lost_connection_ends_acks]), drops are not seen ([spread_drops_unnoticed]).
    - Sending and receiving.  What one side sends the other receives, in order and
      unchanged, however TCP cuts the stream ([sent_is_received],
      [river_chunking]); the state of a sent message says what happened
      ([send_msg_equals_reference], [blocked_send_gives_up]), where the setting that
      is to turn retries off stands for a hundred attempts
      ([zero_retries_try_a_hundred_times]); each group of a
      route, when its endpoint is connected, gets the message once
      ([fanout_to_every_group]) and each endpoint of a
      group its turn ([round_robin_gives_each_a_turn]).  Messages of a hostile peer
      stay in their buffer or are dropped ([received_message_in_bounds]), but for
      the cases of [wrapped_lengths_accepted], [zero_length_never_returns] and
      [short_length_split_is_undefined].
    - Queues.  The ring is a FIFO queue ([ring_implements_fifo]), with threads too
      ([blocking_receive_fifo]); a poll has a race ([poll_between_head_stores]).
    - Calls.  A call returns the answer to its request ([call_gets_its_answer]),
      but for the races of [call_races].  End to end, with the other program and its
      rmr_rts_msg between the two ends: [rts_answers_the_source], [call_is_answered].  A
      return that is blocked is not tried again ([rts_is_not_retried]).
      A receive of a given transaction keeps the
      other messages ([specific_receive_spec]), but blocking receives do not find
      them ([put_back_messages_are_stranded]).
    - Memory.  On a heap the functions on messages behave as on values: every message and
      buffer has one owner ([send_owns_one_message], [realloc_payload_ownership],
      [set_trace_handed]), but for the message of a call to several groups ([call_ownership])
      and a reallocation without memory ([realloc_payload_no_memory]).  With the receive
      thread and calls interleaved, every message is held once, by the ring, a chute or the
      application ([messages_have_one_holder], [receive_gives_oldest]); a message that is
      overwritten in a chute is lost for good ([lost_stays], [late_answers_leak]).
    - Sessions.  Under any order of operations that follow each other the list and the
      map of the socket layer stay well formed and no operation is undefined
      ([sessions_stay_linked]), as long as a listen socket is left
      ([closed_listen_socket_dangles], [only_block_dangles]); sends are all or nothing
      ([SIsendt_all_or_error]); the callbacks get the bytes read
      ([streams_handed_over]).  With peers that send what send_msg writes
      ([frame_well_formed]) the receive thread never stops and delivers the complete
      messages of each connection in order, whatever the other threads do between its
      rounds ([life_of_a_connection]), as long as no send closes a session, of which
      the callbacks are not told ([failed_send_closes_silently]).  [si_transport] makes the layer the transport that the
      theorems about sending are stated for.
    - The other transports.  What is sent is received ([nng_sent_is_received],
      [nano_sent_is_received]); a call finds its answer among other messages
      ([nng_call_picks_its_answer]), the receive thread hands each message to the ring or
      its chute ([nng_thread_delivers]), and the collector of raw messages builds the
      tables of the same abstract machine ([raw_collector_follows_manager]).  Their
      headers are not checked ([nng_headers_not_checked], [nano_cut_message_is_good]).
      The copies of the route table functions for nng agree with those of si
      ([nng_tables_agree]), that of nanomsg gives a name several endpoints
      ([nano_add_ep_duplicates]).
    - The programs.  Message types have routes of their own
      ([message_types_have_own_routes]).  The exit status of the probe
      ([probe_exit_status]) hides single failures ([probe_hides_a_failure]); a health
      check that is echoed passes ([echoed_check_passes]), but the status of the
      example is always 0 ([health_check_status_hides_errors]).
    - The smaller parts: symbol tables ([symtab_implements_map]), trace data, payload
      and meid of messages, tokens, addresses ([peer_address_text_roundtrip]), wormhole
      ids, the log ([log_bounded_and_off], with its limits in
      [negative_level_always_written] and [level_set_early_is_lost]), the reports ([stats_report_table],
      [sym_stats_right]), dumps ([dump_shows_bytes]) and the text of the constants.

    * Bounds and fuel

    Integers have their C width.  Loops that are not structural take fuel.  The
    fuel of a search along a list of transport blocks is the number of blocks, and
    [si_ok] shows that it suffices; a cyclic list would be [UB].  The loop of the
    data callback takes fuel for the bytes left over and [None] is a lack of it:
    [river_chunking] shows that there is enough unless a length is 0.  The loops of
    a send take the number of attempts ([send_loop]) and of groups ([send_groups]),
    which their theorems show to be enough.  A wait takes a number of rounds, and
    [None] means that it still waits.

    * Not modelled

    - The cache of buffers of rmr_free_msg, which is not compiled in; the freeing of a
      symbol table and of a ring; SItp_stats, which only writes numbers; what only calls
      the system (options of sockets, starting of threads, gethostbyname).  These are
      arguments where the rest depends on them.
    - The initialisation of the nng and nanomsg transports: it does not compile against
      the common code as it is (fields and parameters that are gone), so that there is
      no behaviour to model.
    - In Probe and Examples the set-up of the poll, the waits for rmr_ready and the
      output; the language bindings and the tests.
    - The libraries nng and nanomsg are interfaces: what their functions answer is
      arbitrary, but for the laws on what reaches the wire.
    - Allocation is taken to succeed but in Init, Things, Owners and the bounds of Consts.
    - Threads inside an operation of the socket layer: a round of the receive thread, a
      connect, a send and a close are each one step of [si_step] and [rx_step],
      although the program runs them in several threads that take no lock for the list
      of sessions.  A close of the listen socket is a step when another one is left.
    - That the system gives the descriptor of a closed session to another one before
      the endpoint of the first notices is not a step of any model. *)

From Stdlib Require Import ZArith Lia.
From stdpp Require Export base tactics numbers list gmap strings.

Global Open Scope Z_scope.

(** ** Machine integers *)

(** Unsigned and signed integers of the widths the C code uses, on [Z]:
    each function is the conversion of a mathematical integer to the type. *)
Definition u8 (z : Z) : Z := z mod 2 ^ 8.
Definition u16 (z : Z) : Z := z mod 2 ^ 16.
Definition u32 (z : Z) : Z := z mod 2 ^ 32.
Definition u64 (z : Z) : Z := z mod 2 ^ 64.
Definition schar (z : Z) : Z := (z + 2 ^ 7) mod 2 ^ 8 - 2 ^ 7.
Definition i32 (z : Z) : Z := (z + 2 ^ 31) mod 2 ^ 32 - 2 ^ 31.
Definition i64 (z : Z) : Z := (z + 2 ^ 63) mod 2 ^ 64 - 2 ^ 63.

Definition INT_MAX : Z := 2 ^ 31 - 1.

(** The value range of the two types that carry invariants. *)
Definition in_i32 (z : Z) : Prop := - 2 ^ 31 <= z < 2 ^ 31.
Definition in_u64 (z : Z) : Prop := 0 <= z < 2 ^ 64.

Lemma u16_id z : 0 <= z < 2 ^ 16 -> u16 z = z.
Proof. intros; apply Z.mod_small; lia. Qed.

Lemma u32_id z : 0 <= z < 2 ^ 32 -> u32 z = z.
Proof. intros; apply Z.mod_small; lia. Qed.

Lemma u64_id z : 0 <= z < 2 ^ 64 -> u64 z = z.
Proof. intros; apply Z.mod_small; lia. Qed.

Lemma i32_id z : in_i32 z -> i32 z = z.
Proof. unfold in_i32, i32; intros; rewrite Z.mod_small; lia. Qed.

Lemma u64_range z : in_u64 (u64 z).
Proof. apply Z.mod_pos_bound; lia. Qed.

Lemma u32_range z : 0 <= u32 z < 2 ^ 32.
Proof. apply Z.mod_pos_bound; lia. Qed.

Lemma i64_range z : - 2 ^ 63 <= i64 z < 2 ^ 63.
Proof. unfold i64; pose proof (Z.mod_pos_bound (z + 2 ^ 63) (2 ^ 64)); lia. Qed.

Lemma i32_range z : in_i32 (i32 z).
Proof. unfold in_i32, i32; pose proof (Z.mod_pos_bound (z + 2 ^ 31) (2 ^ 32)); lia. Qed.

Create HintDb rmr.
#[export] Hint Resolve u64_range u32_range i64_range i32_range : rmr.

(** ** C strings and buffers *)

(** A byte is a [Z] in [0..255]; a buffer is a list of bytes.  A C string is
    the list of its bytes without the terminating nil byte. *)
Definition bytes_of_string (s : string) : list Z :=
  map (fun c => Z.of_N (Ascii.N_of_ascii c)) (String.list_ascii_of_string s).

Declare Scope cstr_scope.
Delimit Scope cstr_scope with C.
Notation "'$' s" := (bytes_of_string s%string) (at level 9, s at level 0, format "'$' s").

(** The string that starts at the head of a buffer: the bytes up to the first
    nil byte (what strlen/strcmp/strdup see). *)
Fixpoint cstr_of (buf : list Z) : list Z :=
  match buf with
  | [] => []
  | b :: buf' => if b =? 0 then [] else b :: cstr_of buf'
  end.

(** A list that can be a C string: bytes, none of them nil. *)
Definition is_cstr (s : list Z) : Prop := Forall (fun b => 0 < b < 256) s.

#[export] Instance is_cstr_dec s : Decision (is_cstr s).
Proof. apply Forall_dec; intros b; apply and_dec; apply Z_lt_dec. Defined.

(** [strcmp( a, b ) == 0] on two C strings. *)
Definition streq (a b : list Z) : bool := bool_decide (a = b).

Lemma streq_true a b : streq a b = true <-> a = b.
Proof. apply bool_decide_eq_true. Qed.

Lemma cstr_of_id s : is_cstr s -> cstr_of s = s.
Proof.
  induction 1 as [|b s Hb _ IH]; simpl; [done|].
  destruct (Z.eqb_spec b 0); [lia|]. by rewrite IH.
Qed.

Lemma cstr_of_app_nil s buf : is_cstr s -> cstr_of (s ++ 0 :: buf) = s.
Proof.
  induction 1 as [|b s Hb _ IH]; simpl; [done|].
  destruct (Z.eqb_spec b 0); [lia|]. by rewrite IH.
Qed.

(** ** Computations that may have undefined behaviour *)

(** A C expression that dereferences a nil pointer, or reads or writes outside
    its object, has no defined result; [UB] is that outcome. *)
Inductive comp (A : Type) : Type :=
| Ret (a : A)
| UB.
Arguments Ret {A} a.
Arguments UB {A}.

#[export] Instance comp_ret : MRet comp := @Ret.
#[export] Instance comp_bind : MBind comp := fun A B f m =>
  match m with Ret a => f a | UB => UB end.

(** Dereference of a pointer modelled as an option. *)
Definition deref {A} (p : option A) : comp A :=
  match p with Some a => Ret a | None => UB end.

Definition is_ret {A} (m : comp A) : bool := match m with Ret _ => true | UB => false end.

Lemma comp_bind_ret {A B} (m : comp A) (f : A -> comp B) b :
  m ≫= f = Ret b <-> exists a, m = Ret a /\ f a = Ret b.
Proof. destruct m; simpl; naive_solver. Qed.

(** ** Generic list lemmas *)

Section lists.
Context {A : Type}.
Implicit Types (l : list A) (ls : list (list A)).

(** Replacing one bucket of a list of lists. *)
Lemma concat_bucket ls i c :
  ls !! i = Some c ->
  concat ls = concat (take i ls) ++ c ++ concat (drop (S i) ls).
Proof.
  intros Hi. rewrite <-(take_drop_middle ls i c Hi) at 1.
  by rewrite concat_app, concat_cons.
Qed.

Lemma concat_alter ls i c f :
  ls !! i = Some c ->
  concat (alter f i ls) = concat (take i ls) ++ f c ++ concat (drop (S i) ls).
Proof.
  intros Hi. assert (alter f i ls !! i = Some (f c)) as Ha.
  { by rewrite list_lookup_alter_eq, Hi. }
  rewrite (concat_bucket _ _ _ Ha). rewrite take_alter, drop_alter.
  by rewrite !decide_False by lia.
Qed.

(** The first element that satisfies a boolean test, its removal and its
    update in place: what the chain searches of the code compute. *)
Fixpoint find_first (p : A -> bool) l : option A :=
  match l with [] => None | x :: l' => if p x then Some x else find_first p l' end.

Fixpoint remove_first (p : A -> bool) l : list A :=
  match l with [] => [] | x :: l' => if p x then l' else x :: remove_first p l' end.

Fixpoint update_first (p : A -> bool) (f : A -> A) l : list A :=
  match l with [] => [] | x :: l' => if p x then f x :: l' else x :: update_first p f l' end.

Lemma find_first_Some p l x :
  find_first p l = Some x ->
  exists l1 l2, l = l1 ++ x :: l2 /\ p x = true /\ Forall (fun y => p y = false) l1.
Proof.
  induction l as [|y l IH]; simpl; [done|]. destruct (p y) eqn:Hy.
  - intros [= ->]. exists [], l. auto.
  - intros (l1 & l2 & -> & ? & ?)%IH. exists (y :: l1), l2. auto.
Qed.

Lemma find_first_None p l : find_first p l = None <-> Forall (fun y => p y = false) l.
Proof.
  induction l as [|y l IH]; simpl; [by split|].
  rewrite Forall_cons, <-IH. destruct (p y); naive_solver.
Qed.

Lemma remove_first_app p l1 x l2 :
  Forall (fun y => p y = false) l1 -> p x = true -> remove_first p (l1 ++ x :: l2) = l1 ++ l2.
Proof. induction 1 as [|y l1 Hy _ IH]; intros Hx; simpl; [by rewrite Hx|]. by rewrite Hy, IH. Qed.

Lemma update_first_app p f l1 x l2 :
  Forall (fun y => p y = false) l1 -> p x = true ->
  update_first p f (l1 ++ x :: l2) = l1 ++ f x :: l2.
Proof. induction 1 as [|y l1 Hy _ IH]; intros Hx; simpl; [by rewrite Hx|]. by rewrite Hy, IH. Qed.
End lists.

Lemma alter_as_insert {A} (f : A -> A) (l : list A) (i : nat) x : l !! i = Some x -> alter f i l = <[i := f x]> l.
Proof. revert i. induction l as [|y l IH]; intros [|i] E; try done; cbn in *; [by injection E as ->|]. f_equal. by apply IH. Qed.

(** ** Running a sequence of operations *)

(** [run exec s ops] executes the operations in order and collects their
    results; used for the implementation and for its specification alike. *)
Fixpoint run {S O R : Type} (exec : S -> O -> R * S) (s : S) (ops : list O) : list R * S :=
  match ops with
  | [] => ([], s)
  | o :: ops' =>
      let r := exec s o in
      let rs := run exec r.2 ops' in
      (r.1 :: rs.1, rs.2)
  end.

(** A simulation of one operation extends to every sequence of operations. *)
Lemma run_simulation {S T O R : Type} (inv : S -> T -> Prop) (ok : O -> Prop)
    (exec : S -> O -> R * S) (spec : T -> O -> R * T) :
  (forall s t o, inv s t -> ok o -> (exec s o).1 = (spec t o).1 /\ inv (exec s o).2 (spec t o).2) ->
  forall ops s t, inv s t -> Forall ok ops ->
    (run exec s ops).1 = (run spec t ops).1 /\ inv (run exec s ops).2 (run spec t ops).2.
Proof.
  intros Hstep ops. induction ops as [|o ops IH]; intros s t Hi Hok; [done|].
  apply Forall_cons in Hok as [Ho Hok]. destruct (Hstep s t o Hi Ho) as [Hr Hi'].
  destruct (IH _ _ Hi' Hok) as [Hrs ?]. simpl. by rewrite Hr, Hrs.
Qed.

(** ** Arithmetic of ring indices *)

Lemma mod_succ a n :
  0 < n -> (a + 1) mod n = if a mod n + 1 =? n then 0 else a mod n + 1.
Proof.
  intros Hn. rewrite <-Zplus_mod_idemp_l. pose proof (Z.mod_pos_bound a n Hn).
  destruct (Z.eqb_spec (a mod n + 1) n) as [->|]; [apply Z_mod_same_full|].
  apply Z.mod_small. lia.
Qed.

Lemma mod_inj_window a b n : 0 < n -> a <= b < a + n -> a mod n = b mod n -> a = b.
Proof.
  intros Hn Hab He.
  assert ((b - a) mod n = 0) as Hz.
  { rewrite Zminus_mod, He, Z.sub_diag. apply Z.mod_0_l. lia. }
  rewrite Z.mod_small in Hz; lia.
Qed.

(** ** Tactics *)

(** Case analysis on the boolean comparisons of the goal and the context. *)
Ltac zcases :=
  repeat match goal with
  | |- context [Z.eqb ?a ?b] => destruct (Z.eqb_spec a b)
  | |- context [Z.ltb ?a ?b] => destruct (Z.ltb_spec a b)
  | |- context [Z.leb ?a ?b] => destruct (Z.leb_spec a b)
  | H : context [Z.eqb ?a ?b] |- _ => destruct (Z.eqb_spec a b)
  | H : context [Z.ltb ?a ?b] |- _ => destruct (Z.ltb_spec a b)
  | H : context [Z.leb ?a ?b] |- _ => destruct (Z.leb_spec a b)
  end.

(** Evaluate sums and differences of literals. *)
Ltac is_lit z := match z with Z0 => idtac | Zpos ?p => is_ground p | Zneg ?p => is_ground p end.
Ltac znorm :=
  repeat match goal with
  | |- context [?a + ?b] => is_lit a; is_lit b;
      let c := eval vm_compute in (a + b) in change (a + b) with c
  | |- context [?a - ?b] => is_lit a; is_lit b;
      let c := eval vm_compute in (a - b) in change (a - b) with c
  end.

