(* ===== verification/Symtab.v ===== *)
(** The symbol table: src/src/rmr/common/src/symtab.c.

    A table is an array of chains; an element is keyed by a string and a class
    (class >= 1) or, in class 0, by an unsigned 64 bit integer.  The route
    table, the endpoint hash, the fd-to-endpoint map and the river hash are all
    symbol tables.  The chains are doubly linked in C; here a chain is the list
    of its elements, head first ([prev] is the position in the list).

    Values ([void*]) are [option V] with [None] for the nil pointer. *)

From S2P Require Import Prelude.

Section symtab.
Context {V : Type}.

(** The [const char*] key argument, which points to a string when the class is
    not 0 and to a [uint64_t] when it is. *)
Inductive sym_key : Type :=
| SKey (s : list Z)
| NKey (n : Z).

Record Sym_ele := MkEle {
  se_name : option (list Z);   (* nil for a numeric key *)
  se_nkey : Z;
  se_val : option V;
  se_mcount : Z;
  se_rcount : Z;
  se_class : Z
}.

Record Sym_tab := MkTab {
  st_symlist : list (list Sym_ele);
  st_inhabitants : Z;
  st_deaths : Z;
  st_size : Z
}.

(** The loop of sym_hash: [t * 79 + *p] in a [long], [char] being signed. *)
Fixpoint sym_hash_loop (t : Z) (n : list Z) : Z :=
  match n with
  | [] => t
  | p :: n' => sym_hash_loop (i64 (t * 79 + schar p)) n'
  end.

Definition sym_hash (n : list Z) (size : Z) : Z :=
  let t := sym_hash_loop 0 n in
  let t := if t <? 0 then Z.lnot t else t in
  i32 (Z.rem t size).

(** [hv] of putin, rmr_sym_del and rmr_sym_get. *)
Definition key_hash (k : sym_key) (size : Z) : Z :=
  match k with
  | SKey s => sym_hash s size
  | NKey n => i32 (n mod size)
  end.

Definition same (c1 c2 : Z) (s1 : option (list Z)) (s2 : list Z) : bool :=
  if negb (c1 =? c2) then false
  else match s1 with Some s => streq s s2 | None => false end.

(** The loop condition of the chain searches: the string search compares class
    and name, the numeric search compares only [nkey]. *)
Definition key_match (k : sym_key) (class : Z) (e : Sym_ele) : bool :=
  match k with
  | SKey s => same class (se_class e) (se_name e) s
  | NKey n => se_nkey e =? n
  end.

Definition chain_of (table : Sym_tab) (hv : Z) : list Sym_ele :=
  default [] (st_symlist table !! Z.to_nat hv).

Definition find_ele (table : Sym_tab) (k : sym_key) (class : Z) : option Sym_ele :=
  find_first (key_match k class) (chain_of table (key_hash k (st_size table))).

Definition set_chain (table : Sym_tab) (hv : Z) (f : list Sym_ele -> list Sym_ele) :
    list (list Sym_ele) :=
  alter f (Z.to_nat hv) (st_symlist table).

(** Unchain the element found by a search; nothing when the search found nil. *)
Definition del_ele (table : Sym_tab) (hv : Z) (p : Sym_ele -> bool) (eptr : option Sym_ele) :
    Sym_tab :=
  match eptr with
  | Some _ =>
      MkTab (set_chain table hv (remove_first p))
            (st_inhabitants table - 1) (st_deaths table + 1) (st_size table)
  | None => table
  end.

Definition del_head_ele (table : Sym_tab) (hv : Z) : Sym_tab :=
  if (hv <? 0) || (st_size table <=? hv) then table
  else match chain_of table hv with
       | [] => table
       | _ :: next =>
           MkTab (set_chain table hv (fun _ => next))
                 (st_inhabitants table - 1) (st_deaths table + 1) (st_size table)
       end.

Definition new_ele (k : sym_key) (class : Z) : Sym_ele :=
  match k with
  | SKey s => MkEle (Some s) 0 None 0 0 class
  | NKey n => MkEle None n None 0 0 class
  end.

Definition touch_val (val : option V) (e : Sym_ele) : Sym_ele :=
  MkEle (se_name e) (se_nkey e) val (u64 (se_mcount e + 1)) (se_rcount e) (se_class e).

(** [mem] tells whether the malloc of a new element succeeds. *)
Definition putin (mem : bool) (table : Sym_tab) (k : sym_key) (class : Z) (val : option V) :
    Z * Sym_tab :=
  let hv := key_hash k (st_size table) in
  match find_ele table k class with
  | Some _ =>
      (0, MkTab (set_chain table hv (update_first (key_match k class) (touch_val val)))
                (st_inhabitants table) (st_deaths table) (st_size table))
  | None =>
      if mem then
        (1, MkTab (set_chain table hv (cons (touch_val val (new_ele k class))))
                  (st_inhabitants table + 1) (st_deaths table) (st_size table))
      else
        (-1, MkTab (st_symlist table) (st_inhabitants table + 1) (st_deaths table) (st_size table))
  end.

(** The inner [while( sym_tab[i] )] of rmr_sym_clear runs once per element. *)
Fixpoint clear_chain (fuel : nat) (table : Sym_tab) (i : Z) : Sym_tab :=
  match fuel with
  | O => table
  | S fuel' =>
      match chain_of table i with
      | [] => table
      | _ :: _ => clear_chain fuel' (del_head_ele table i) i
      end
  end.

Definition rmr_sym_clear (table : Sym_tab) : Sym_tab :=
  foldl (fun t i => clear_chain (length (chain_of t (Z.of_nat i))) t (Z.of_nat i))
        table (seq 0 (Z.to_nat (st_size table))).

(** [mem1] and [mem2] tell whether the two mallocs succeed. *)
Definition rmr_sym_alloc (mem1 mem2 : bool) (size : Z) : option Sym_tab :=
  let size := if size <? 11 then 11 else size in
  if mem1 && mem2 then Some (MkTab (replicate (Z.to_nat size) []) 0 0 size) else None.

Definition rmr_sym_del (table : Sym_tab) (k : sym_key) (class : Z) : Sym_tab :=
  let hv := key_hash k (st_size table) in
  del_ele table hv (key_match k class) (find_ele table k class).

Definition rmr_sym_ndel (table : Sym_tab) (key : Z) : Sym_tab :=
  rmr_sym_del table (NKey key) 0.

Definition touch_ref (e : Sym_ele) : Sym_ele :=
  MkEle (se_name e) (se_nkey e) (se_val e) (se_mcount e) (u64 (se_rcount e + 1)) (se_class e).

Definition rmr_sym_get (vtable : option Sym_tab) (k : sym_key) (class : Z) :
    option V * option Sym_tab :=
  match vtable with
  | None => (None, None)
  | Some table =>
      let hv := key_hash k (st_size table) in
      match find_ele table k class with
      | Some eptr =>
          (se_val eptr,
           Some (MkTab (set_chain table hv (update_first (key_match k class) touch_ref))
                       (st_inhabitants table) (st_deaths table) (st_size table)))
      | None => (None, Some table)
      end
  end.

Definition rmr_sym_pull (vtable : option Sym_tab) (key : Z) : option V * option Sym_tab :=
  rmr_sym_get vtable (NKey key) 0.

Definition rmr_sym_put (mem : bool) (table : Sym_tab) (name : list Z) (class : Z)
    (val : option V) : Z * Sym_tab :=
  let class := if class =? 0 then 1 else class in
  putin mem table (SKey name) class val.

Definition rmr_sym_map (mem : bool) (table : Sym_tab) (key : Z) (val : option V) : Z * Sym_tab :=
  putin mem table (NKey key) 0 val.

(** rmr_sym_foreach_class with a callback that changes the caller's data [X]
    and not the table: every element of the class, bucket by bucket and in
    chain order. *)
Definition rmr_sym_foreach_class {X : Type} (vst : option Sym_tab) (class : Z)
    (user_fun : option (Sym_ele -> X -> X)) (user_data : X) : X :=
  match vst, user_fun with
  | Some st, Some f =>
      foldl (fun x se => if class =? se_class se then f se x else x) user_data
            (concat (take (Z.to_nat (st_size st)) (st_symlist st)))
  | _, _ => user_data
  end.

(** ** The abstract table *)

(** What a key identifies: a class and a string, or a number. *)
Inductive akey : Type :=
| AStr (class : Z) (s : list Z)
| ANum (n : Z).

#[global] Instance akey_eq_dec : EqDecision akey.
Proof. solve_decision. Defined.

#[global] Instance akey_countable : Countable akey.
Proof.
  refine (inj_countable'
    (fun a => match a with AStr c s => inl (c, s) | ANum n => inr n end)
    (fun x => match x with inl (c, s) => AStr c s | inr n => ANum n end) _).
  by intros [].
Defined.

Definition key_id (k : sym_key) (class : Z) : akey :=
  match k with SKey s => AStr class s | NKey n => ANum n end.

Definition ele_key (e : Sym_ele) : akey :=
  if se_class e =? 0 then ANum (se_nkey e) else AStr (se_class e) (default [] (se_name e)).

Definition akey_hash (a : akey) (size : Z) : Z :=
  match a with AStr _ s => sym_hash s size | ANum n => i32 (n mod size) end.

Definition absl (l : list Sym_ele) : gmap akey (option V) :=
  list_to_map ((fun e => (ele_key e, se_val e)) <$> l).

(** The finite map a table stands for. *)
Definition sym_abs (t : Sym_tab) : gmap akey (option V) := absl (concat (st_symlist t)).

(** ** The representation invariant *)

Definition ele_ok (e : Sym_ele) : Prop :=
  if se_class e =? 0 then se_name e = None /\ in_u64 (se_nkey e)
  else is_Some (se_name e) /\ se_nkey e = 0 /\ 0 < se_class e.

Definition ele_in (size : Z) (i : nat) (e : Sym_ele) : Prop :=
  ele_ok e /\ akey_hash (ele_key e) size = Z.of_nat i.

Record sym_wf (t : Sym_tab) : Prop := {
  wf_size : 0 < st_size t <= INT_MAX;
  wf_len : Z.of_nat (length (st_symlist t)) = st_size t;
  wf_ele : forall i c, st_symlist t !! i = Some c -> Forall (ele_in (st_size t) i) c;
  wf_nodup : NoDup (ele_key <$> concat (st_symlist t));
  wf_inhab : st_inhabitants t = Z.of_nat (length (concat (st_symlist t)))
}.

(** Calls the public functions can make: a string key has a class of at least
    1, a numeric key is a [uint64_t] and goes with class 0. *)
Definition key_ok (k : sym_key) (class : Z) : Prop :=
  match k with SKey _ => 0 < class | NKey n => class = 0 /\ in_u64 n end.

(** String elements carry [nkey == 0] and the numeric search does not look at
    the class, so the numeric key 0 is only reliable in a table whose bucket 0
    holds no string element. *)
Definition alias_free (t : Sym_tab) (k : sym_key) : Prop :=
  k = NKey 0 -> Forall (fun e => se_class e = 0) (chain_of t 0).

Lemma sym_hash_range s size : 0 < size <= INT_MAX -> 0 <= sym_hash s size < size.
Proof.
  intros Hs. unfold sym_hash. set (t := sym_hash_loop 0 s).
  assert (0 <= (if t <? 0 then Z.lnot t else t)) as Ht.
  { destruct (Z.ltb_spec t 0); [unfold Z.lnot|]; lia. }
  pose proof (Z.rem_bound_pos _ size Ht ltac:(lia)).
  rewrite i32_id; unfold in_i32, INT_MAX in *; lia.
Qed.

Lemma num_hash_range n size : 0 < size <= INT_MAX -> 0 <= i32 (n mod size) < size.
Proof.
  intros Hs. pose proof (Z.mod_pos_bound n size ltac:(lia)).
  rewrite i32_id; unfold in_i32, INT_MAX in *; lia.
Qed.

Lemma key_hash_id k class size : key_hash k size = akey_hash (key_id k class) size.
Proof. by destruct k. Qed.

Lemma key_hash_range k size : 0 < size <= INT_MAX -> 0 <= key_hash k size < size.
Proof. destruct k; [apply sym_hash_range | apply num_hash_range]. Qed.

Lemma chain_of_lookup t hv :
  sym_wf t -> 0 <= hv < st_size t -> st_symlist t !! Z.to_nat hv = Some (chain_of t hv).
Proof.
  intros [] ?. unfold chain_of.
  destruct (st_symlist t !! Z.to_nat hv) eqn:E; [done|].
  apply lookup_ge_None in E. lia.
Qed.

(** A search test agrees with equality of the identified keys. *)
Lemma key_match_spec t k class e :
  sym_wf t -> key_ok k class -> alias_free t k ->
  e ∈ chain_of t (key_hash k (st_size t)) ->
  key_match k class e = bool_decide (ele_key e = key_id k class).
Proof.
  intros Hwf Hk Ha He. pose proof (key_hash_range k _ (wf_size t Hwf)) as Hr.
  pose proof (wf_ele t Hwf _ _ (chain_of_lookup t _ Hwf Hr)) as Hall.
  rewrite Forall_forall in Hall. destruct (Hall e He) as [Hok _].
  unfold ele_ok, ele_key, key_match, same, streq in *.
  destruct k as [s|n]; simpl in *; destruct (Z.eqb_spec (se_class e) 0) as [E|E].
  - rewrite bool_decide_eq_false_2 by done.
    destruct (Z.eqb_spec class (se_class e)); [lia|done].
  - destruct Hok as ([nm ->] & _ & _). destruct (Z.eqb_spec class (se_class e)); simpl.
    + subst. apply bool_decide_ext. naive_solver.
    + rewrite bool_decide_eq_false_2; congruence.
  - destruct (Z.eqb_spec (se_nkey e) n); symmetry;
      [apply bool_decide_eq_true_2 | apply bool_decide_eq_false_2]; congruence.
  - rewrite bool_decide_eq_false_2 by done. destruct Hok as (_ & Hz & _).
    destruct (Z.eqb_spec (se_nkey e) n) as [En|]; [|done]. exfalso.
    assert (n = 0) as -> by congruence. specialize (Ha eq_refl). rewrite Forall_forall in Ha.
    apply E, Ha. by rewrite Zmod_0_l in He.
Qed.

Lemma absl_perm l l' : NoDup (ele_key <$> l) -> l ≡ₚ l' -> absl l = absl l'.
Proof.
  intros Hnd Hp. apply list_to_map_proper; [|by rewrite Hp].
  by rewrite <-list_fmap_compose.
Qed.

Lemma absl_cons e l : absl (e :: l) = <[ele_key e := se_val e]> (absl l).
Proof. done. Qed.

Lemma absl_None l a : a ∉ ele_key <$> l -> absl l !! a = None.
Proof. intros H. apply not_elem_of_list_to_map_1. by rewrite <-list_fmap_compose. Qed.

(** The table around one bucket: everything else, and the bucket's chain. *)
Lemma bucket_perm t k class :
  sym_wf t -> key_ok k class -> alias_free t k ->
  exists rest,
    concat (st_symlist t) ≡ₚ chain_of t (key_hash k (st_size t)) ++ rest /\
    forall f, concat (set_chain t (key_hash k (st_size t)) f)
              ≡ₚ f (chain_of t (key_hash k (st_size t))) ++ rest.
Proof.
  intros Hwf _ _. pose proof (key_hash_range k _ (wf_size t Hwf)) as Hr.
  pose proof (chain_of_lookup t _ Hwf Hr) as Hl.
  set (i := Z.to_nat (key_hash k (st_size t))) in *.
  exists (concat (take i (st_symlist t)) ++ concat (drop (S i) (st_symlist t))). split.
  - rewrite (concat_bucket _ _ _ Hl). rewrite !app_assoc. f_equiv. apply Permutation_app_comm.
  - intros f. unfold set_chain. fold i. rewrite (concat_alter _ _ _ f Hl).
    rewrite !app_assoc. f_equiv. apply Permutation_app_comm.
Qed.

(** Outside its own bucket a key does not occur. *)
Lemma key_in_bucket t k class e :
  sym_wf t -> e ∈ concat (st_symlist t) -> ele_key e = key_id k class ->
  e ∈ chain_of t (key_hash k (st_size t)).
Proof.
  intros Hwf (c & Hec & Hc)%list_elem_of_In%in_concat Hk.
  apply list_elem_of_In in Hec, Hc. apply list_elem_of_lookup in Hec as [i Hi] .
  pose proof (wf_ele t Hwf i c Hi) as Hall. rewrite Forall_forall in Hall.
  destruct (Hall e Hc) as [_ Hh]. rewrite Hk, <-key_hash_id in Hh.
  unfold chain_of. by rewrite Hh, Nat2Z.id, Hi.
Qed.

(** The two outcomes of a search, with the shape of the table they leave. *)
Lemma find_ele_Some t k class e :
  sym_wf t -> key_ok k class -> alias_free t k -> find_ele t k class = Some e ->
  ele_key e = key_id k class /\ ele_in (st_size t) (Z.to_nat (key_hash k (st_size t))) e /\
  exists l1 l2 rest,
    chain_of t (key_hash k (st_size t)) = l1 ++ e :: l2 /\
    Forall (fun y => key_match k class y = false) l1 /\ key_match k class e = true /\
    concat (st_symlist t) ≡ₚ e :: (l1 ++ l2 ++ rest) /\
    forall f, concat (set_chain t (key_hash k (st_size t)) f)
              ≡ₚ f (chain_of t (key_hash k (st_size t))) ++ rest.
Proof.
  intros Hwf Hk Ha (l1 & l2 & Hc & Hm & Hf)%find_first_Some.
  destruct (bucket_perm t k class Hwf Hk Ha) as (rest & Hp & Hs).
  assert (e ∈ chain_of t (key_hash k (st_size t))) as He.
  { rewrite Hc. set_solver. }
  pose proof Hm as Hm'. rewrite (key_match_spec t) in Hm' by done.
  pose proof (key_hash_range k _ (wf_size t Hwf)) as Hr.
  pose proof (wf_ele t Hwf _ _ (chain_of_lookup t _ Hwf Hr)) as Hall.
  rewrite Forall_forall in Hall.
  split; [by apply bool_decide_eq_true in Hm'|]. split; [by apply Hall|].
  exists l1, l2, rest. split_and!; try done.
  rewrite Hp, Hc, <-app_assoc. simpl. by rewrite <-Permutation_middle.
Qed.

Lemma find_ele_None t k class :
  sym_wf t -> key_ok k class -> alias_free t k -> find_ele t k class = None ->
  key_id k class ∉ ele_key <$> concat (st_symlist t).
Proof.
  intros Hwf Hk Ha Hn%find_first_None. rewrite Forall_forall in Hn.
  intros (e & He & Hc)%list_elem_of_fmap.
  pose proof (key_in_bucket t k class e Hwf Hc (eq_sym He)) as Hin.
  specialize (Hn e Hin). rewrite (key_match_spec t) in Hn by done.
  apply bool_decide_eq_false in Hn. congruence.
Qed.

(** Rebuilding the invariant after one bucket was rewritten. *)
Lemma wf_set_chain t k f inh d :
  sym_wf t ->
  Forall (ele_in (st_size t) (Z.to_nat (key_hash k (st_size t))))
         (f (chain_of t (key_hash k (st_size t)))) ->
  NoDup (ele_key <$> concat (set_chain t (key_hash k (st_size t)) f)) ->
  inh = Z.of_nat (length (concat (set_chain t (key_hash k (st_size t)) f))) ->
  sym_wf (MkTab (set_chain t (key_hash k (st_size t)) f) inh d (st_size t)).
Proof.
  intros Hwf Hf Hnd Hi. pose proof (key_hash_range k _ (wf_size t Hwf)) as Hr.
  pose proof (chain_of_lookup t _ Hwf Hr) as Hl.
  split; simpl; [apply Hwf| |  |done|done].
  - unfold set_chain. rewrite length_alter. apply Hwf.
  - intros i c. unfold set_chain. rewrite list_lookup_alter. case_decide as E.
    + subst i. rewrite Hl. intros [= <-]. done.
    + apply Hwf.
Qed.

Lemma find_ele_hash t k class e :
  sym_wf t -> key_ok k class -> alias_free t k -> find_ele t k class = Some e ->
  sym_abs t !! key_id k class = Some (se_val e).
Proof.
  intros Hwf Hk Ha Hf.
  destruct (find_ele_Some t k class e Hwf Hk Ha Hf) as (He & _ & l1 & l2 & rest & _ & _ & _ & Hp & _).
  unfold sym_abs. rewrite (absl_perm _ _ (wf_nodup t Hwf) Hp), absl_cons, He.
  apply lookup_insert_eq.
Qed.

(** ** The operations against the abstract table *)

Lemma ele_in_touch_val v size i e : ele_in size i (touch_val v e) <-> ele_in size i e.
Proof. done. Qed.

Lemma ele_in_touch_ref size i e : ele_in size i (touch_ref e) <-> ele_in size i e.
Proof. done. Qed.

Lemma new_ele_key k class v : key_ok k class -> ele_key (touch_val v (new_ele k class)) = key_id k class.
Proof.
  destruct k as [s|n]; unfold ele_key; simpl; [|by intros [-> _]].
  intros; destruct (Z.eqb_spec class 0); [lia|done].
Qed.

Lemma new_ele_in t k class v :
  sym_wf t -> key_ok k class ->
  ele_in (st_size t) (Z.to_nat (key_hash k (st_size t))) (touch_val v (new_ele k class)).
Proof.
  intros Hwf Hk. split.
  - destruct k as [s|n]; unfold ele_ok; simpl in *; [|by destruct Hk as [-> ?]].
    destruct (Z.eqb_spec class 0); [lia|]. split_and!; [by eexists|done|done].
  - rewrite (new_ele_key k class v Hk), <-key_hash_id.
    pose proof (key_hash_range k _ (wf_size t Hwf)). lia.
Qed.

(** An element updated in place keeps its key and its bucket. *)
Lemma update_spec t k class e g :
  sym_wf t -> key_ok k class -> alias_free t k -> find_ele t k class = Some e ->
  (forall x, ele_key (g x) = ele_key x) ->
  (forall size i x, ele_in size i (g x) <-> ele_in size i x) ->
  let t' := MkTab (set_chain t (key_hash k (st_size t)) (update_first (key_match k class) g))
                  (st_inhabitants t) (st_deaths t) (st_size t) in
  sym_wf t' /\ sym_abs t' = <[key_id k class := se_val (g e)]> (sym_abs t).
Proof.
  intros Hwf Hk Ha Hf Hg Hin t'.
  destruct (find_ele_Some t k class e Hwf Hk Ha Hf)
    as (He & Hi & l1 & l2 & rest & Hc & Hm1 & Hm & Hp & Hs).
  specialize (Hs (update_first (key_match k class) g)).
  rewrite Hc, (update_first_app _ _ _ _ _ Hm1 Hm), <-app_assoc in Hs. simpl in Hs.
  rewrite <-Permutation_middle in Hs.
  assert (ele_key <$> concat (st_symlist t') ≡ₚ ele_key <$> concat (st_symlist t)) as Hkp.
  { rewrite Hp. simpl. rewrite Hs. simpl. by rewrite Hg. }
  assert (NoDup (ele_key <$> concat (st_symlist t'))) as Hnd.
  { rewrite Hkp. apply Hwf. }
  split.
  - apply wf_set_chain; [done| |done|].
    + rewrite Hc, (update_first_app _ _ _ _ _ Hm1 Hm).
      pose proof (wf_ele t Hwf _ _ (chain_of_lookup t _ Hwf (key_hash_range k _ (wf_size t Hwf)))) as H.
      rewrite Hc in H. rewrite Forall_app, Forall_cons in *. rewrite Hin. done.
    + rewrite (wf_inhab t Hwf), Hp, Hs. done.
  - unfold sym_abs. rewrite (absl_perm _ _ Hnd Hs), (absl_perm _ _ (wf_nodup t Hwf) Hp).
    rewrite !absl_cons, Hg, He. by rewrite insert_insert_eq.
Qed.

Lemma putin_refines_aux t k class v :
  sym_wf t -> key_ok k class -> alias_free t k ->
  let r := putin true t k class v in
  sym_wf r.2 /\ sym_abs r.2 = <[key_id k class := v]> (sym_abs t) /\
  r.1 = (if bool_decide (is_Some (sym_abs t !! key_id k class)) then 0 else 1).
Proof.
  intros Hwf Hk Ha. unfold putin. destruct (find_ele t k class) as [e|] eqn:Hf; simpl.
  - pose proof (find_ele_hash t k class e Hwf Hk Ha Hf) as Hl.
    destruct (update_spec t k class e (touch_val v) Hwf Hk Ha Hf) as [? ?]; try done.
    split_and!; try done. rewrite bool_decide_eq_true_2; [done|]. by eexists.
  - pose proof (find_ele_None t k class Hwf Hk Ha Hf) as Hn.
    destruct (bucket_perm t k class Hwf Hk Ha) as (rest & Hp & Hs).
    specialize (Hs (cons (touch_val v (new_ele k class)))). simpl in Hs.
    rewrite <-Hp in Hs.
    assert (NoDup (ele_key <$> concat (set_chain t (key_hash k (st_size t))
              (cons (touch_val v (new_ele k class)))))) as Hnd.
    { rewrite Hs. csimpl. rewrite new_ele_key by done. constructor; [done|apply Hwf]. }
    split_and!.
    + apply wf_set_chain; [done| |done|].
      * constructor; [by apply new_ele_in|].
        exact (wf_ele t Hwf _ _ (chain_of_lookup t _ Hwf (key_hash_range k _ (wf_size t Hwf)))).
      * rewrite (wf_inhab t Hwf), Hs. simpl. lia.
    + unfold sym_abs; simpl. rewrite (absl_perm _ _ Hnd Hs), absl_cons, new_ele_key by done. done.
    + rewrite bool_decide_eq_false_2; [done|]. unfold sym_abs. rewrite absl_None by done.
      by intros [].
Qed.

Lemma sym_del_refines_aux t k class :
  sym_wf t -> key_ok k class -> alias_free t k ->
  let t' := rmr_sym_del t k class in
  sym_wf t' /\ sym_abs t' = delete (key_id k class) (sym_abs t) /\
  st_inhabitants t' + st_deaths t' = st_inhabitants t + st_deaths t.
Proof.
  intros Hwf Hk Ha. unfold rmr_sym_del. destruct (find_ele t k class) as [e|] eqn:Hf; simpl.
  - destruct (find_ele_Some t k class e Hwf Hk Ha Hf)
      as (He & _ & l1 & l2 & rest & Hc & Hm1 & Hm & Hp & Hs).
    specialize (Hs (remove_first (key_match k class))).
    rewrite Hc, (remove_first_app _ _ _ _ Hm1 Hm), <-app_assoc in Hs.
    pose proof (wf_nodup t Hwf) as Hnd0. rewrite Hp in Hnd0. csimpl in *.
    apply NoDup_cons in Hnd0 as [Hnin Hnd0].
    assert (NoDup (ele_key <$> concat (set_chain t (key_hash k (st_size t))
              (remove_first (key_match k class))))) as Hnd by by rewrite Hs.
    split_and!; [| |lia].
    + apply wf_set_chain; [done| |done|].
      * rewrite Hc, (remove_first_app _ _ _ _ Hm1 Hm).
        pose proof (wf_ele t Hwf _ _ (chain_of_lookup t _ Hwf (key_hash_range k _ (wf_size t Hwf)))) as H.
        rewrite Hc in H. rewrite Forall_app, Forall_cons in H. rewrite Forall_app. naive_solver.
      * rewrite (wf_inhab t Hwf), Hp, Hs. simpl. lia.
    + unfold sym_abs; simpl. rewrite (absl_perm _ _ Hnd Hs), (absl_perm _ _ (wf_nodup t Hwf) Hp).
      rewrite absl_cons, He. rewrite He in Hnin.
      rewrite delete_insert_id; [done|]. by apply absl_None.
  - split_and!; try done. symmetry. apply delete_id. unfold sym_abs.
    apply absl_None. by eapply find_ele_None.
Qed.

Lemma sym_get_refines_aux t k class :
  sym_wf t -> key_ok k class -> alias_free t k ->
  exists t', (rmr_sym_get (Some t) k class).2 = Some t' /\ sym_wf t' /\
    sym_abs t' = sym_abs t /\
    (rmr_sym_get (Some t) k class).1 = default None (sym_abs t !! key_id k class).
Proof.
  intros Hwf Hk Ha. unfold rmr_sym_get. destruct (find_ele t k class) as [e|] eqn:Hf; simpl.
  - pose proof (find_ele_hash t k class e Hwf Hk Ha Hf) as Hl.
    destruct (update_spec t k class e touch_ref Hwf Hk Ha Hf) as [? Habs]; try done.
    eexists. split_and!; try done.
    + simpl in Habs. rewrite Habs. by apply insert_id.
    + by rewrite Hl.
  - exists t. split_and!; try done. unfold sym_abs. rewrite absl_None; [done|].
    by eapply find_ele_None.
Qed.

(** ** Clearing a table *)

Lemma clear_chain_spec n t i :
  0 <= i < st_size t -> st_symlist t !! Z.to_nat i = Some (chain_of t i) ->
  length (chain_of t i) = n ->
  clear_chain n t i =
    MkTab (set_chain t i (fun _ => [])) (st_inhabitants t - Z.of_nat n)
          (st_deaths t + Z.of_nat n) (st_size t).
Proof.
  revert t. induction n as [|n IH]; intros t Hi Hl Hn.
  - simpl. destruct t as [sl inh d size]; unfold set_chain, chain_of in *; simpl in *.
    f_equal; [|lia|lia]. apply length_zero_iff_nil in Hn. rewrite Hn in Hl.
    apply list_eq. intros j. rewrite list_lookup_alter. case_decide; [|done].
    subst j. by rewrite Hl.
  - simpl. destruct (chain_of t i) as [|e c] eqn:Hc; [done|]. simpl in Hn.
    unfold del_head_ele. rewrite (proj2 (Z.ltb_ge i 0)), (proj2 (Z.leb_gt (st_size t) i)) by lia.
    simpl. rewrite Hc.
    set (t1 := MkTab (set_chain t i (fun _ => c)) (st_inhabitants t - 1)
                     (st_deaths t + 1) (st_size t)).
    assert (st_symlist t1 !! Z.to_nat i = Some c) as Hl1.
    { simpl. unfold set_chain. rewrite list_lookup_alter_eq, Hl. done. }
    assert (chain_of t1 i = c) as Hc1 by (unfold chain_of; by rewrite Hl1).
    rewrite IH; [|done|by rewrite Hc1|rewrite Hc1; lia].
    unfold t1, set_chain; simpl. f_equal; [|lia|lia].
    apply list_eq. intros j. rewrite !list_lookup_alter. repeat case_decide.
    all: try done. by rewrite Hl.
Qed.

Lemma clear_buckets t j :
  sym_wf t -> (j <= Z.to_nat (st_size t))%nat ->
  let t' := foldl (fun t i => clear_chain (length (chain_of t (Z.of_nat i))) t (Z.of_nat i))
                  t (seq 0 j) in
  st_symlist t' = replicate j [] ++ drop j (st_symlist t) /\ st_size t' = st_size t /\
  st_inhabitants t' = Z.of_nat (length (concat (drop j (st_symlist t)))) /\
  st_inhabitants t' + st_deaths t' = st_inhabitants t + st_deaths t.
Proof.
  intros Hwf. induction j as [|j IH]; intros Hj t'.
  { subst t'. simpl. rewrite (wf_inhab t Hwf). done. }
  subst t'. rewrite seq_S, foldl_app. simpl.
  set (t1 := foldl _ t (seq 0 j)) in *.
  destruct IH as (Hs & Hz & Hi & Hd); [lia|].
  pose proof (wf_len t Hwf) as Hlen.
  destruct (lookup_lt_is_Some_2 (st_symlist t) j) as [c Hc]; [lia|].
  assert (st_symlist t1 !! j = Some c) as Hl.
  { rewrite Hs, lookup_app_r; rewrite length_replicate; [|lia].
    by rewrite Nat.sub_diag, lookup_drop, Nat.add_0_r. }
  assert (chain_of t1 (Z.of_nat j) = c) as Hch by (unfold chain_of; by rewrite Nat2Z.id, Hl).
  rewrite (clear_chain_spec _ t1); [|lia|by rewrite Nat2Z.id, Hch|done].
  rewrite Hch. simpl. unfold set_chain. rewrite Nat2Z.id, Hs.
  rewrite (drop_S _ _ _ Hc) in *. rewrite alter_app_r_alt by (rewrite length_replicate; lia).
  rewrite length_replicate, Nat.sub_diag. simpl.
  split_and!; [|done| |lia].
  - change ([] :: replicate j [] ++ drop (S j) (st_symlist t))
      with (replicate (S j) [] ++ drop (S j) (st_symlist t)).
    rewrite replicate_S_end, <-(assoc (++)). done.
  - rewrite Hi. simpl. rewrite length_app. lia.
Qed.

Lemma concat_replicate_nil {A} n : concat (replicate n (@nil A)) = [].
Proof. by induction n. Qed.

Lemma wf_empty size inh d :
  0 < size <= INT_MAX -> inh = 0 -> sym_wf (MkTab (replicate (Z.to_nat size) []) inh d size).
Proof.
  intros Hs ->. split; simpl; rewrite ?concat_replicate_nil; simpl; [done| | |by apply NoDup_nil_2|done].
  - rewrite length_replicate. lia.
  - intros i c [-> _]%lookup_replicate_1. done.
Qed.

Lemma sym_clear_spec t :
  sym_wf t ->
  rmr_sym_clear t = MkTab (replicate (Z.to_nat (st_size t)) []) 0
                          (st_deaths t + st_inhabitants t) (st_size t).
Proof.
  intros Hwf. pose proof (wf_len t Hwf) as Hlen.
  destruct (clear_buckets t (Z.to_nat (st_size t)) Hwf) as (Hs & Hz & Hi & Hd); [lia|].
  rewrite drop_ge in Hs, Hi by lia. rewrite app_nil_r in Hs. simpl in Hi.
  unfold rmr_sym_clear. destruct (foldl _ _ _) as [sl inh d size]; simpl in *. subst.
  f_equal. lia.
Qed.

Lemma sym_abs_empty n inh d size : sym_abs (MkTab (replicate n []) inh d size) = ∅.
Proof. unfold sym_abs; simpl. by rewrite concat_replicate_nil. Qed.

(** ** Sequences of calls *)

Inductive sym_call : Type :=
| CallPut (name : list Z) (class : Z) (val : option V)
| CallMap (key : Z) (val : option V)
| CallDel (name : list Z) (class : Z)
| CallNdel (key : Z)
| CallGet (name : list Z) (class : Z)
| CallPull (key : Z)
| CallClear.

Inductive sym_res : Type :=
| RInt (rc : Z)
| RPtr (p : option V)
| RVoid.

Definition get_call (r : option V * option Sym_tab) (t : Sym_tab) : sym_res * Sym_tab :=
  (RPtr r.1, default t r.2).

(** One call of the public interface, allocations succeeding. *)
Definition sym_exec (t : Sym_tab) (c : sym_call) : sym_res * Sym_tab :=
  match c with
  | CallPut n cl v => let r := rmr_sym_put true t n cl v in (RInt r.1, r.2)
  | CallMap k v => let r := rmr_sym_map true t k v in (RInt r.1, r.2)
  | CallDel n cl => (RVoid, rmr_sym_del t (SKey n) cl)
  | CallNdel k => (RVoid, rmr_sym_ndel t k)
  | CallGet n cl => get_call (rmr_sym_get (Some t) (SKey n) cl) t
  | CallPull k => get_call (rmr_sym_pull (Some t) k) t
  | CallClear => (RVoid, rmr_sym_clear t)
  end.

(** The same call on a finite map: what the interface promises. *)
Definition map_put (m : gmap akey (option V)) (a : akey) (v : option V) :
    sym_res * gmap akey (option V) :=
  (RInt (if bool_decide (is_Some (m !! a)) then 0 else 1), <[a := v]> m).

Definition map_exec (m : gmap akey (option V)) (c : sym_call) : sym_res * gmap akey (option V) :=
  match c with
  | CallPut n cl v => map_put m (AStr (if cl =? 0 then 1 else cl) n) v
  | CallMap k v => map_put m (ANum k) v
  | CallDel n cl => (RVoid, delete (AStr cl n) m)
  | CallNdel k => (RVoid, delete (ANum k) m)
  | CallGet n cl => (RPtr (default None (m !! AStr cl n)), m)
  | CallPull k => (RPtr (default None (m !! ANum k)), m)
  | CallClear => (RVoid, ∅)
  end.

(** Calls as the library makes them: classes are unsigned, [get] and [del] with
    a string have a class, and a numeric key is a [uint64_t] other than 0. *)
Definition call_ok (c : sym_call) : Prop :=
  match c with
  | CallPut _ cl _ => 0 <= cl
  | CallDel _ cl | CallGet _ cl => 0 < cl
  | CallMap k _ | CallNdel k | CallPull k => 0 < k < 2 ^ 64
  | CallClear => True
  end.

Lemma nkey_ok k : 0 < k < 2 ^ 64 -> key_ok (NKey k) 0.
Proof. unfold key_ok, in_u64. lia. Qed.

Lemma nkey_alias t k : 0 < k -> alias_free t (NKey k).
Proof. intros Hk [= ->]. lia. Qed.

Lemma skey_alias t s : alias_free t (SKey s).
Proof. by intros [=]. Qed.

#[local] Hint Resolve nkey_ok nkey_alias skey_alias : rmr.

Lemma sym_exec_refines t c :
  sym_wf t -> call_ok c ->
  sym_wf (sym_exec t c).2 /\ map_exec (sym_abs t) c = ((sym_exec t c).1, sym_abs (sym_exec t c).2).
Proof.
  intros Hwf Hc. destruct c as [n cl v|k v|n cl|k|n cl|k|];
    cbn [sym_exec map_exec call_ok fst snd] in *.
  - edestruct (putin_refines_aux t (SKey n) (if cl =? 0 then 1 else cl) v) as (? & Ha & Hr);
      eauto with rmr; [simpl; zcases; lia|].
    unfold rmr_sym_put, map_put. rewrite Hr, Ha. done.
  - edestruct (putin_refines_aux t (NKey k) 0 v) as (? & Ha & Hr); eauto with rmr; [apply nkey_alias; lia|].
    unfold rmr_sym_map, map_put. rewrite Hr, Ha. done.
  - edestruct (sym_del_refines_aux t (SKey n) cl) as (? & Ha & _); eauto with rmr.
    by rewrite Ha.
  - edestruct (sym_del_refines_aux t (NKey k) 0) as (? & Ha & _); eauto with rmr; [apply nkey_alias; lia|].
    unfold rmr_sym_ndel. by rewrite Ha.
  - edestruct (sym_get_refines_aux t (SKey n) cl) as (t' & Ht & ? & Ha & Hr); eauto with rmr.
    unfold get_call. cbn [fst snd]. rewrite Ht, Hr. simpl. by rewrite Ha.
  - edestruct (sym_get_refines_aux t (NKey k) 0) as (t' & Ht & ? & Ha & Hr); eauto with rmr;
      [apply nkey_alias; lia|].
    unfold rmr_sym_pull, get_call. cbn [fst snd]. rewrite Ht, Hr. simpl. by rewrite Ha.
  - rewrite (sym_clear_spec t Hwf), sym_abs_empty. split; [|done].
    apply wf_empty; [apply Hwf|done].
Qed.

Lemma run_refines t cs :
  sym_wf t -> Forall call_ok cs ->
  (run sym_exec t cs).1 = (run map_exec (sym_abs t) cs).1 /\
  sym_wf (run sym_exec t cs).2 /\ sym_abs (run sym_exec t cs).2 = (run map_exec (sym_abs t) cs).2.
Proof.
  intros Hwf Hcs.
  apply (run_simulation (fun t m => sym_wf t /\ sym_abs t = m) call_ok sym_exec map_exec); [|done|done].
  intros t1 m c [Hw <-] Hc. destruct (sym_exec_refines t1 c Hw Hc) as [? ->]. done.
Qed.

(** ** Counters and enumeration *)

Lemma dom_absl l : dom (absl l) = list_to_set (ele_key <$> l).
Proof.
  induction l as [|e l IH]; csimpl; [apply dom_empty_L|].
  rewrite absl_cons, dom_insert_L, IH. done.
Qed.

Lemma size_sym_abs t : sym_wf t -> st_inhabitants t = Z.of_nat (size (sym_abs t)).
Proof.
  intros Hwf. rewrite (wf_inhab t Hwf). f_equal. unfold sym_abs.
  rewrite <-size_dom, dom_absl, size_list_to_set by apply Hwf.
  by rewrite length_fmap.
Qed.

(** The number of results that report a new key. *)
Fixpoint news (rs : list sym_res) : Z :=
  match rs with
  | RInt rc :: rs' => (if rc =? 1 then 1 else 0) + news rs'
  | _ :: rs' => news rs'
  | [] => 0
  end.

Lemma putin_counts t k class v :
  let r := putin true t k class v in
  st_inhabitants r.2 + st_deaths r.2 = st_inhabitants t + st_deaths t + r.1 /\ (r.1 = 0 \/ r.1 = 1).
Proof. unfold putin. destruct (find_ele t k class); simpl; lia. Qed.

Lemma del_counts t k class :
  st_inhabitants (rmr_sym_del t k class) + st_deaths (rmr_sym_del t k class)
  = st_inhabitants t + st_deaths t.
Proof. unfold rmr_sym_del. destruct (find_ele t k class); simpl; lia. Qed.

Lemma get_counts t k class :
  let t' := default t (rmr_sym_get (Some t) k class).2 in
  st_inhabitants t' + st_deaths t' = st_inhabitants t + st_deaths t.
Proof. unfold rmr_sym_get. destruct (find_ele t k class); simpl; lia. Qed.

Lemma foldl_class_filter (P : Sym_ele -> bool) l acc :
  foldl (fun x se => if P se then (fun e y => y ++ [e]) se x else x) acc l
  = acc ++ filter (fun e => P e = true) l.
Proof.
  revert acc. induction l as [|e l IH]; intros acc; simpl; [by rewrite app_nil_r|].
  rewrite IH, filter_cons. destruct (P e) eqn:E; case_decide; try congruence.
  by rewrite <-(assoc (++)).
Qed.

Lemma absl_lookup_Some l a v :
  NoDup (ele_key <$> l) ->
  absl l !! a = Some v <-> exists e, e ∈ l /\ ele_key e = a /\ se_val e = v.
Proof.
  intros Hnd. unfold absl. rewrite <-elem_of_list_to_map; [|by rewrite <-list_fmap_compose].
  rewrite list_elem_of_fmap. naive_solver.
Qed.

Lemma class_elements_spec t class :
  sym_wf t ->
  rmr_sym_foreach_class (Some t) class (Some (fun e y => y ++ [e])) []
  = filter (fun e => (class =? se_class e) = true) (concat (st_symlist t)).
Proof.
  intros Hwf. unfold rmr_sym_foreach_class.
  rewrite take_ge by (pose proof (wf_len t Hwf); lia).
  by rewrite (foldl_class_filter (fun e => class =? se_class e)).
Qed.
End symtab.

Arguments Sym_ele : clear implicits.
Arguments Sym_tab : clear implicits.

(** * Properties *)

(** C18 The symbol table implements a finite map.  From a freshly allocated
    table, any sequence of calls to the public functions (put, map, del, ndel,
    get, pull, clear) returns exactly what the same calls return on a finite
    map from keys (class and string, or number) to values, the final table
    stands for the final map, and its representation invariant holds (every
    element in the bucket of its hash, no key twice, the resident count exact).
    Numeric keys are assumed non-zero (see the aliasing property). *)
Theorem symtab_implements_map {V : Type} (size : Z) (cs : list (sym_call (V := V))) :
  size <= INT_MAX -> Forall call_ok cs ->
  exists t0, rmr_sym_alloc true true size = Some t0 /\
    sym_wf (run sym_exec t0 cs).2 /\
    (run sym_exec t0 cs).1 = (run map_exec ∅ cs).1 /\
    sym_abs (run sym_exec t0 cs).2 = (run map_exec ∅ cs).2.
Proof.
  intros Hs Hcs. unfold rmr_sym_alloc. set (sz := if size <? 11 then 11 else size).
  eexists. split; [reflexivity|].
  rewrite <-(sym_abs_empty (V := V) (Z.to_nat sz) 0 0 sz).
  edestruct (run_refines (MkTab (replicate (Z.to_nat sz) []) 0 0 sz) cs) as (? & ? & ?); try done.
  apply wf_empty; [|done]. subst sz. unfold INT_MAX in *. destruct (Z.ltb_spec size 11); lia.
Qed.

Lemma symtab_implements_map_witness :
  exists t0 : Sym_tab nat, rmr_sym_alloc true true 5 = Some t0 /\
    (run sym_exec t0 [CallMap 12 (Some 1%nat); CallPut ($"abc") 0 (Some 2%nat);
                      CallMap 1 (Some 3%nat); CallNdel 12; CallPull 1; CallGet ($"abc") 1;
                      CallPull 12]).1
    = [RInt 1; RInt 1; RInt 1; RVoid; RPtr (Some 3%nat); RPtr (Some 2%nat); RPtr None].
Proof.
  edestruct (symtab_implements_map (V := nat) 5
    [CallMap 12 (Some 1%nat); CallPut ($"abc") 0 (Some 2%nat); CallMap 1 (Some 3%nat);
     CallNdel 12; CallPull 1; CallGet ($"abc") 1; CallPull 12]) as (t0 & H0 & _ & H & _).
  - unfold INT_MAX. lia.
  - repeat constructor; simpl; lia.
  - exists t0. split; [exact H0|]. rewrite H. vm_compute. reflexivity.
Defined.

(** C24 The counters of a table are exact: after any sequence of calls on a
    fresh table, [inhabitants] is the number of keys present and [inhabitants]
    plus [deaths] is the number of calls that reported a new key. *)
Theorem symtab_counters {V : Type} (size : Z) (cs : list (sym_call (V := V))) (t0 : Sym_tab V) :
  size <= INT_MAX -> Forall call_ok cs -> rmr_sym_alloc true true size = Some t0 ->
  let r := run sym_exec t0 cs in
  st_inhabitants r.2 = Z.of_nat (base.size (sym_abs r.2)) /\
  st_inhabitants r.2 + st_deaths r.2 = news r.1.
Proof.
  intros Hs Hcs Ha r.
  assert (sym_wf t0) as Hwf0.
  { unfold rmr_sym_alloc in Ha. simplify_eq/=. apply wf_empty; [|done].
    unfold INT_MAX in *. destruct (Z.ltb_spec size 11); lia. }
  split; [apply size_sym_abs; by apply run_refines|].
  assert (st_inhabitants t0 + st_deaths t0 = 0) as H0.
  { unfold rmr_sym_alloc in Ha. by simplify_eq/=. }
  subst r. clear Ha Hs. rewrite <-(Z.add_0_l (news _)), <-H0. clear H0.
  revert t0 Hwf0. induction Hcs as [|c cs Hc _ IH]; intros t Hwf; [simpl; lia|].
  destruct (sym_exec_refines t c Hwf Hc) as [Hwf' _]. simpl. rewrite (IH _ Hwf'). clear IH.
  destruct c as [n cl v|k v|n cl|k|n cl|k|]; cbn [sym_exec fst snd get_call news].
  - destruct (putin_counts t (SKey n) (if cl =? 0 then 1 else cl) v) as [Hp [E|E]];
      unfold rmr_sym_put; rewrite Hp, E; simpl; lia.
  - destruct (putin_counts t (NKey k) 0 v) as [Hp [E|E]];
      unfold rmr_sym_map; rewrite Hp, E; simpl; lia.
  - rewrite del_counts. lia.
  - unfold rmr_sym_ndel. rewrite del_counts. lia.
  - rewrite get_counts. lia.
  - unfold rmr_sym_pull. rewrite get_counts. lia.
  - rewrite (sym_clear_spec t Hwf). simpl. lia.
Qed.

Lemma symtab_counters_witness :
  st_inhabitants (run sym_exec (MkTab (replicate 11 []) 0 0 11)
    [CallMap 12 (Some 1%nat); CallPut ($"abc") 0 (Some 2%nat); CallMap 12 None; CallNdel 12]).2 = 1.
Proof.
  edestruct (symtab_counters 5
    [CallMap 12 (Some 1%nat); CallPut ($"abc") 0 (Some 2%nat); CallMap 12 None; CallNdel 12]
    (MkTab (replicate 11 []) 0 0 11)) as [H _].
  - unfold INT_MAX. lia.
  - repeat constructor; simpl; lia.
  - reflexivity.
  - exact H.
Defined.

(** C33 rmr_sym_foreach_class drives the callback exactly once for every entry
    of the class and for no other entry. *)
Theorem foreach_class_complete {V : Type} (t : Sym_tab V) (class : Z) :
  sym_wf t ->
  let visited := rmr_sym_foreach_class (Some t) class (Some (fun e seen => seen ++ [e])) [] in
  NoDup (ele_key <$> visited) /\
  forall a v, (exists e, e ∈ visited /\ ele_key e = a /\ se_val e = v) <->
    sym_abs t !! a = Some v /\ match a with AStr c _ => c = class | ANum _ => class = 0 end.
Proof.
  intros Hwf visited. subst visited. rewrite (class_elements_spec t class Hwf). split.
  - eapply sublist_NoDup; [apply (wf_nodup t Hwf)|].
    apply fmap_sublist, sublist_filter.
  - intros a v. unfold sym_abs. rewrite (absl_lookup_Some _ _ _ (wf_nodup t Hwf)).
    setoid_rewrite list_elem_of_filter. setoid_rewrite Z.eqb_eq. unfold ele_key. split.
    + intros (e & [Hc He] & Hk & Hv). split; [by exists e|].
      subst a. destruct (Z.eqb_spec (se_class e) 0); congruence.
    + intros [(e & He & Hk & Hv) Hc]. exists e. split_and!; try done. subst a.
      destruct (Z.eqb_spec (se_class e) 0); congruence.
Qed.

Lemma foreach_class_complete_witness :
  let t := (rmr_sym_put true (rmr_sym_map true (MkTab (replicate 11 []) 0 0 11) 7
              (Some 1%nat)).2 ($"ep:1") 2 (Some 2%nat)).2 in
  exists e, e ∈ rmr_sym_foreach_class (Some t) 2 (Some (fun e seen => seen ++ [e])) [] /\
            ele_key e = AStr 2 ($"ep:1") /\ se_val e = Some 2%nat.
Proof.
  intros t. apply (proj2 (foreach_class_complete t 2 ltac:(
    apply (proj1 (sym_exec_refines _ (CallPut ($"ep:1") 2 (Some 2%nat))
      (proj1 (sym_exec_refines _ (CallMap 7 (Some 1%nat))
        (wf_empty 11 0 0 ltac:(unfold INT_MAX; lia) eq_refl) ltac:(simpl; lia)))
      ltac:(simpl; lia))))) (AStr 2 ($"ep:1")) (Some 2%nat)).
  split; vm_compute; reflexivity.
Defined.

(** C32 Key aliasing in symtab.c: the numeric search compares only [nkey], and
    string elements store [nkey] 0, so once a string whose hash is 0 is put
    into a table, looking up the numeric key 0 returns the string's value
    although no numeric key was ever stored. *)
Theorem numeric_zero_finds_string {V : Type} (t : Sym_tab V) (s : list Z) (class : Z) (v : option V) :
  sym_wf t -> 0 < class -> sym_hash s (st_size t) = 0 ->
  sym_abs t !! AStr class s = None -> sym_abs t !! ANum 0 = None ->
  let t' := (rmr_sym_put true t s class v).2 in
  sym_abs t' !! ANum 0 = None /\ (rmr_sym_pull (Some t') 0).1 = v.
Proof.
  intros Hwf Hc Hh Hn H0 t'.
  destruct (putin_refines_aux t (SKey s) class v Hwf Hc (skey_alias t s)) as (_ & Ha & _).
  subst t'. unfold rmr_sym_put. rewrite (proj2 (Z.eqb_neq class 0)) by lia. split.
  - rewrite Ha, lookup_insert_ne; done.
  - unfold putin. destruct (find_ele t (SKey s) class) as [e|] eqn:Hf.
    { pose proof (find_ele_hash t (SKey s) class e Hwf Hc (skey_alias t s) Hf) as Hf'.
      simpl in Hf'. congruence. }
    assert (st_symlist t !! 0%nat = Some (chain_of t 0)) as Hl.
    { apply (chain_of_lookup t 0 Hwf). pose proof (wf_size t Hwf). lia. }
    unfold rmr_sym_pull, rmr_sym_get, find_ele, chain_of. simpl.
    rewrite Zmod_0_l. change (Z.to_nat (i32 0)) with 0%nat.
    unfold set_chain. rewrite Hh. change (Z.to_nat 0) with 0%nat.
    rewrite list_lookup_alter_eq, Hl. done.
Qed.

(** The managed element id "gnb_520" hashes to 0 in a route table. *)
Lemma numeric_zero_finds_string_witness :
  (rmr_sym_pull (Some (rmr_sym_put true (MkTab (replicate 10009 []) 0 0 10009)
     ($"gnb_520") 2 (Some true)).2) 0).1 = Some true.
Proof.
  apply (numeric_zero_finds_string (MkTab (replicate (Z.to_nat 10009) []) 0 0 10009)
           ($"gnb_520") 2 (Some true)).
  - apply wf_empty; [unfold INT_MAX; lia|done].
  - lia.
  - vm_compute. reflexivity.
  - by rewrite sym_abs_empty.
  - by rewrite sym_abs_empty.
Defined.
