(* ===== verification/SymIface.v ===== *)
(** The symbol table as the rest of the library sees it: an interface that the
    route table, endpoint, descriptor and river code is written against, and the
    two structures that implement it, finite maps and the hash table of
    Symtab.v. *)

From S2P Require Import Prelude Symtab.

(** Keys the library uses: strings in a class of at least 1, and numbers other
    than 0 (the number 0 is not reliable, see [numeric_zero_finds_string]). *)
Definition valid_key (a : akey) : Prop :=
  match a with AStr c _ => 0 < c | ANum n => 0 < n < 2 ^ 64 end.

#[global] Instance valid_key_dec a : Decision (valid_key a).
Proof. destruct a; simpl; [apply Z_lt_dec|apply and_dec; apply Z_lt_dec]. Defined.

Definition akey_class (a : akey) : Z := match a with AStr c _ => c | ANum _ => 0 end.

(** [sm_abs] is the finite map that a table stands for. *)
Class Symbols (T V : Type) := {
  sm_new : Z -> T;                          (* rmr_sym_alloc *)
  sm_get : T -> akey -> option V;           (* rmr_sym_get, rmr_sym_pull *)
  sm_put : T -> akey -> V -> T;             (* rmr_sym_put, rmr_sym_map *)
  sm_del : T -> akey -> T;                  (* rmr_sym_del, rmr_sym_ndel *)
  sm_class : T -> Z -> list (akey * V);     (* what rmr_sym_foreach_class visits *)
  sm_ok : T -> Prop;
  sm_abs : T -> gmap akey V;
  sm_new_ok size : size <= INT_MAX -> sm_ok (sm_new size);
  sm_put_ok t a v : sm_ok t -> valid_key a -> sm_ok (sm_put t a v);
  sm_del_ok t a : sm_ok t -> valid_key a -> sm_ok (sm_del t a);
  sm_abs_new size : size <= INT_MAX -> sm_abs (sm_new size) = ∅;
  sm_abs_put t a v : sm_ok t -> valid_key a -> sm_abs (sm_put t a v) = <[a := v]> (sm_abs t);
  sm_abs_del t a : sm_ok t -> valid_key a -> sm_abs (sm_del t a) = delete a (sm_abs t);
  sm_get_abs t a : sm_ok t -> valid_key a -> sm_get t a = sm_abs t !! a;
  sm_class_abs t c a v : sm_ok t -> (a, v) ∈ sm_class t c <-> sm_abs t !! a = Some v /\ akey_class a = c;
  sm_class_nodup t c : sm_ok t -> NoDup (sm_class t c).*1
}.

Section derived.
Context `{Symbols T V}.

Lemma sm_get_new size a : size <= INT_MAX -> valid_key a -> sm_get (sm_new size) a = None.
Proof. intros. rewrite sm_get_abs, sm_abs_new by auto using sm_new_ok. apply lookup_empty. Qed.

Lemma sm_get_put t a v b : sm_ok t -> valid_key a -> valid_key b ->
  sm_get (sm_put t a v) b = if decide (a = b) then Some v else sm_get t b.
Proof. intros. rewrite !sm_get_abs, sm_abs_put by auto using sm_put_ok. apply lookup_insert. Qed.

Lemma sm_get_del t a b : sm_ok t -> valid_key a -> valid_key b ->
  sm_get (sm_del t a) b = if decide (a = b) then None else sm_get t b.
Proof. intros. rewrite !sm_get_abs, sm_abs_del by auto using sm_del_ok. apply lookup_delete. Qed.
End derived.

(** ** Finite maps *)

#[global] Instance symbols_gmap V : Symbols (gmap akey V) V.
Proof.
  refine {|
    sm_new _ := ∅;
    sm_get t a := t !! a;
    sm_put t a v := <[a := v]> t;
    sm_del t a := delete a t;
    sm_class t c := filter (fun x => akey_class x.1 = c) (map_to_list t);
    sm_ok _ := True;
    sm_abs t := t
  |}; try done.
  - intros t c a v _. rewrite list_elem_of_filter, elem_of_map_to_list. simpl. tauto.
  - intros t c _. eapply sublist_NoDup; [apply (NoDup_fst_map_to_list t)|].
    apply fmap_sublist, sublist_filter.
Defined.

(** ** The hash table *)

Section hash.
Context {V : Type}.

Definition to_key (a : akey) : sym_key := match a with AStr _ s => SKey s | ANum n => NKey n end.

Definition tab_get (t : Sym_tab V) (a : akey) : option V :=
  match a with
  | AStr c s => (rmr_sym_get (Some t) (SKey s) c).1
  | ANum n => (rmr_sym_pull (Some t) n).1
  end.

Definition tab_put (t : Sym_tab V) (a : akey) (v : V) : Sym_tab V :=
  match a with
  | AStr c s => (rmr_sym_put true t s c (Some v)).2
  | ANum n => (rmr_sym_map true t n (Some v)).2
  end.

Definition tab_del (t : Sym_tab V) (a : akey) : Sym_tab V :=
  match a with AStr c s => rmr_sym_del t (SKey s) c | ANum n => rmr_sym_ndel t n end.

Definition tab_class (t : Sym_tab V) (c : Z) : list (akey * V) :=
  rmr_sym_foreach_class (Some t) c
    (Some (fun e l => l ++ match se_val e with Some v => [(ele_key e, v)] | None => [] end)) [].

Definition tab_new (size : Z) : Sym_tab V :=
  default (MkTab [] 0 0 0) (rmr_sym_alloc true true size).

Lemma valid_key_ok a : valid_key a -> key_ok (to_key a) (akey_class a) /\ key_id (to_key a) (akey_class a) = a.
Proof. destruct a as [c s|n]; simpl; [done|]. unfold in_u64. intros. split; [split; [done|lia]|done]. Qed.

Lemma valid_alias (t : Sym_tab V) a : valid_key a -> alias_free t (to_key a).
Proof. destruct a; simpl; intros; [apply skey_alias|apply nkey_alias; lia]. Qed.

Lemma tab_get_abs t a : sym_wf t -> valid_key a -> tab_get t a = default None (sym_abs t !! a).
Proof.
  intros Hw Ha. destruct (valid_key_ok a Ha) as [Hk Hid].
  destruct (sym_get_refines_aux t (to_key a) (akey_class a) Hw Hk (valid_alias t a Ha)) as (_ & _ & _ & _ & E).
  rewrite Hid in E. by destruct a.
Qed.

Lemma tab_put_abs t a v : sym_wf t -> valid_key a ->
  sym_wf (tab_put t a v) /\ sym_abs (tab_put t a v) = <[a := Some v]> (sym_abs t).
Proof.
  intros Hw Ha. destruct (valid_key_ok a Ha) as [Hk Hid].
  destruct (putin_refines_aux t (to_key a) (akey_class a) (Some v) Hw Hk (valid_alias t a Ha)) as (H1 & H2 & _).
  rewrite Hid in H2. destruct a as [c s|n]; simpl in *; [|done].
  unfold rmr_sym_put. destruct (Z.eqb_spec c 0); [lia|]. done.
Qed.

Lemma tab_del_abs t a : sym_wf t -> valid_key a ->
  sym_wf (tab_del t a) /\ sym_abs (tab_del t a) = delete a (sym_abs t).
Proof.
  intros Hw Ha. destruct (valid_key_ok a Ha) as [Hk Hid].
  destruct (sym_del_refines_aux t (to_key a) (akey_class a) Hw Hk (valid_alias t a Ha)) as (H1 & H2 & _).
  rewrite Hid in H2. by destruct a.
Qed.

Lemma tab_new_ok size : size <= INT_MAX -> sym_wf (tab_new size) /\ sym_abs (tab_new size) = ∅.
Proof.
  intros Hs. unfold tab_new, rmr_sym_alloc. simpl. split; [|apply sym_abs_empty].
  apply wf_empty; [|done]. unfold INT_MAX in *. destruct (Z.ltb_spec size 11); lia.
Qed.

Definition ele_pair (e : Sym_ele V) : option (akey * V) := (fun v => (ele_key e, v)) <$> se_val e.

Lemma tab_class_omap t c : sym_wf t ->
  tab_class t c = omap ele_pair (filter (fun e => (c =? se_class e) = true) (concat (st_symlist t))).
Proof.
  intros Hw. unfold tab_class, rmr_sym_foreach_class.
  rewrite take_ge by (pose proof (wf_len t Hw); lia).
  match goal with |- foldl ?f [] ?l = omap ?g ?k =>
    enough (forall acc, foldl f acc l = acc ++ omap g k) as H by apply (H []) end.
  induction (concat (st_symlist t)) as [|e l IH]; intros acc; simpl.
  { by rewrite app_nil_r. }
  rewrite IH, filter_cons. destruct (c =? se_class e) eqn:E; [rewrite decide_True|rewrite decide_False]; try done.
  rewrite <-app_assoc. f_equal. simpl. unfold ele_pair at 2. by destruct (se_val e).
Qed.

Lemma omap_pair_keys (l : list (Sym_ele V)) : sublist (omap ele_pair l).*1 (ele_key <$> l).
Proof.
  induction l as [|e l IH]; simpl; [done|].
  unfold ele_pair at 1. destruct (se_val e); simpl; by constructor.
Qed.
End hash.

(** Entries whose value is the nil pointer do not count. *)
Definition tab_abs {V} (t : Sym_tab V) : gmap akey V := omap (fun v => v) (sym_abs t).

#[global] Instance symbols_hash V : Symbols (Sym_tab V) V.
Proof.
  refine {|
    sm_new := tab_new;
    sm_get := tab_get;
    sm_put := tab_put;
    sm_del := tab_del;
    sm_class := tab_class;
    sm_ok := sym_wf;
    sm_abs := tab_abs
  |}; unfold tab_abs.
  - intros. by apply tab_new_ok.
  - intros. by apply tab_put_abs.
  - intros. by apply tab_del_abs.
  - intros size Hs. destruct (tab_new_ok (V := V) size Hs) as [_ ->]. apply omap_empty.
  - intros t a v Hw Ha. destruct (tab_put_abs t a v Hw Ha) as [_ ->]. by apply omap_insert_Some.
  - intros t a Hw Ha. destruct (tab_del_abs t a Hw Ha) as [_ ->]. apply omap_delete.
  - intros t a Hw Ha. rewrite tab_get_abs, lookup_omap by done. by destruct (sym_abs t !! a).
  - intros t c a v Hw. rewrite tab_class_omap by done.
    rewrite list_elem_of_omap. setoid_rewrite list_elem_of_filter. setoid_rewrite Z.eqb_eq.
    rewrite lookup_omap. unfold ele_pair, sym_abs.
    transitivity (absl (concat (st_symlist t)) !! a = Some (Some v) /\ akey_class a = c);
      [|by destruct (absl _ !! a) as [[]|]; naive_solver].
    rewrite (absl_lookup_Some _ _ _ (wf_nodup t Hw)). unfold ele_key. split.
    + intros (e & [-> He] & Hp). destruct (se_val e) as [v'|] eqn:Ev; simpl in Hp; [|done].
      injection Hp as <- <-. split; [by exists e|]. by destruct (Z.eqb_spec (se_class e) 0).
    + intros [(e & He & <- & Ev) Hc]. exists e. rewrite Ev. split; [|done]. split; [|done].
      destruct (Z.eqb_spec (se_class e) 0); simpl in Hc; lia.
  - intros t c Hw. rewrite tab_class_omap by done.
    eapply sublist_NoDup; [apply (wf_nodup t Hw)|]. etrans; [apply omap_pair_keys|].
    apply fmap_sublist, sublist_filter.
Defined.

#[export] Hint Resolve sm_new_ok sm_put_ok sm_del_ok : rmr.
