(* ===== verification/Ring.v ===== *)
(** The message ring: src/src/rmr/common/src/ring_static.c.

    A ring is a bounded first-in first-out queue of pointers in an array with
    one slot always left empty.  The receive thread queues messages on it and
    the application's receive calls pull from it.  The first part is the
    sequential behaviour of every function; the second part is the interleaving
    of the receive thread (queue_normal) with a receiving thread (rmr_mt_rcv) at
    the granularity of the assignments in the source. *)

From S2P Require Import Prelude.

Definition RING_RLOCK : Z := 1.
Definition RING_WLOCK : Z := 2.
Definition RING_FRLOCK : Z := 4.
Definition RING_FL_FLOCK : Z := 1.

Section ring.
Context {P : Type}.

(** [r_ctr] is the counter of the event fd (created in semaphore mode);
    [r_rgate] and [r_wgate] tell whether the mutex exists. *)
Record ring_t := MkRing {
  r_head : Z;
  r_tail : Z;
  r_nelements : Z;
  r_data : list (option P);
  r_pfd : Z;
  r_ctr : Z;
  r_flags : Z;
  r_rgate : bool;
  r_wgate : bool
}.

(** [newfd] is the descriptor eventfd() would return. *)
Definition uta_ring_getpfd (newfd : Z) (r : ring_t) : Z * ring_t :=
  if r_pfd r <? 0 then
    (newfd, MkRing (r_head r) (r_tail r) (r_nelements r) (r_data r) newfd 0
                   (r_flags r) (r_rgate r) (r_wgate r))
  else (r_pfd r, r).

(** [mem1], [mem2]: the two mallocs; the slot past [nelements] is allocated but
    not cleared in C, and never used. *)
Definition uta_mk_ring (mem1 mem2 : bool) (newfd : Z) (size : Z) : option ring_t :=
  if size <=? 0 then None
  else if negb mem1 then None
  else
    let max := u16 (0 - 1) in
    let size := if max <=? size then size - 1 else size in
    let nelements := u16 size in
    if negb mem2 then None
    else Some (MkRing 0 0 nelements (replicate (Z.to_nat (nelements + 1)) None)
                      newfd 0 0 false false).

(** The result is the return code; the state keeps what was set before a
    failure. *)
Definition uta_ring_config (memw memr : bool) (vr : option ring_t) (options : Z) :
    Z * option ring_t :=
  match vr with
  | None => (0, None)
  | Some r =>
      let wantw := negb (Z.land options RING_WLOCK =? 0) && negb (r_wgate r) in
      if wantw && negb memw then (0, Some r)
      else
        let r := MkRing (r_head r) (r_tail r) (r_nelements r) (r_data r) (r_pfd r) (r_ctr r)
                        (r_flags r) (r_rgate r) (r_wgate r || wantw) in
        if negb (Z.land options (Z.lor RING_RLOCK RING_FRLOCK) =? 0) then
          if negb (r_rgate r) && negb memr then (0, Some r)
          else
            let flags := if negb (Z.land options RING_FRLOCK =? 0)
                         then Z.lor (r_flags r) RING_FL_FLOCK else r_flags r in
            (1, Some (MkRing (r_head r) (r_tail r) (r_nelements r) (r_data r) (r_pfd r)
                             (r_ctr r) flags true (r_wgate r)))
        else (1, Some r)
  end.

(** A read of the event fd in semaphore mode: one less, or EAGAIN at 0. *)
Definition pfd_read (ctr : Z) : Z := if 0 <? ctr then ctr - 1 else ctr.

(** [r->tail++; if( r->tail >= r->nelements ) r->tail = 0;], same for head. *)
Definition bump (i n : Z) : Z :=
  let i := u16 (i + 1) in if n <=? i then 0 else i.

Definition slot (r : ring_t) (i : Z) : option P := default None (r_data r !! Z.to_nat i).

(** [lk]: the (try)lock of the read gate returns 0. *)
Definition uta_ring_extract (lk : bool) (r : ring_t) : option P * ring_t :=
  if r_tail r =? r_head r then (None, r)
  else if r_rgate r && negb lk then (None, r)
  else
    let ti := r_tail r in
    (slot r ti,
     MkRing (r_head r) (bump (r_tail r) (r_nelements r)) (r_nelements r)
            (<[Z.to_nat ti := None]> (r_data r)) (r_pfd r) (pfd_read (r_ctr r))
            (r_flags r) (r_rgate r) (r_wgate r)).

Definition ring_full (r : ring_t) : bool :=
  (r_head r + 1 =? r_tail r) || ((r_nelements r <=? r_head r + 1) && (r_tail r =? 0)).

(** [lk]: the lock of the write gate returns 0. *)
Definition uta_ring_insert (lk : bool) (r : ring_t) (new_data : option P) : Z * ring_t :=
  if r_wgate r && negb lk then (0, r)
  else if ring_full r then (0, r)
  else
    (1, MkRing (bump (r_head r) (r_nelements r)) (r_tail r) (r_nelements r)
               (<[Z.to_nat (r_head r) := new_data]> (r_data r)) (r_pfd r) (r_ctr r + 1)
               (r_flags r) (r_rgate r) (r_wgate r)).

(** ** Contents and invariant *)

Definition ring_count (r : ring_t) : Z := (r_head r - r_tail r) mod r_nelements r.

(** The queued pointers, oldest first. *)
Definition ring_contents (r : ring_t) : list (option P) :=
  (fun i => slot r ((r_tail r + i) mod r_nelements r)) <$> seqZ 0 (ring_count r).

Record ring_wf (r : ring_t) : Prop := {
  rw_n : 1 <= r_nelements r <= 65535;
  rw_head : 0 <= r_head r < r_nelements r;
  rw_tail : 0 <= r_tail r < r_nelements r;
  rw_len : Z.of_nat (length (r_data r)) = r_nelements r + 1;
  rw_ctr : r_ctr r = ring_count r;
  rw_clear : forall i, 0 <= i < r_nelements r ->
    ring_count r <= (i - r_tail r) mod r_nelements r -> slot r i = None
}.

Lemma bump_mod i n : 1 <= n <= 65535 -> 0 <= i < n -> bump i n = (i + 1) mod n.
Proof.
  intros Hn Hi. unfold bump. rewrite u16_id by lia. rewrite mod_succ, (Z.mod_small i) by lia.
  zcases; lia.
Qed.

Lemma ring_full_spec r : ring_wf r -> ring_full r = (ring_count r =? r_nelements r - 1).
Proof.
  intros [Hn Hh Ht _ _ _]. unfold ring_full, ring_count.
  destruct (Z_lt_le_dec (r_head r) (r_tail r)) as [Hl|Hl].
  - replace ((r_head r - r_tail r) mod r_nelements r) with (r_head r - r_tail r + r_nelements r).
    + zcases; simpl; lia.
    + rewrite <-(Z.mod_small (r_head r - r_tail r + r_nelements r) (r_nelements r)) by lia.
      rewrite <-Zplus_mod_idemp_r, Z_mod_same_full, Z.add_0_r. done.
  - rewrite Z.mod_small by lia. zcases; simpl; lia.
Qed.

Lemma slot_insert r i j v :
  0 <= i < Z.of_nat (length (r_data r)) -> 0 <= j ->
  default None (<[Z.to_nat i := v]> (r_data r) !! Z.to_nat j)
  = if i =? j then v else slot r j.
Proof.
  intros Hi Hj. unfold slot. rewrite list_lookup_insert.
  destruct (Z.eqb_spec i j) as [->|].
  - by rewrite decide_True by lia.
  - by rewrite decide_False by lia.
Qed.

Lemma count_range r : ring_wf r -> 0 <= ring_count r < r_nelements r.
Proof. intros []. apply Z.mod_pos_bound. lia. Qed.

(** Positions relative to the tail. *)
Lemma pos_head r : ring_wf r -> (r_tail r + ring_count r) mod r_nelements r = r_head r.
Proof.
  intros [Hn Hh Ht _ _ _]. unfold ring_count. rewrite Zplus_mod_idemp_r.
  replace (r_tail r + (r_head r - r_tail r)) with (r_head r) by lia. apply Z.mod_small. lia.
Qed.

Lemma pos_inj t n i j :
  0 < n -> 0 <= i < n -> 0 <= j < n -> (t + i) mod n = (t + j) mod n -> i = j.
Proof.
  intros Hn Hi Hj He. destruct (Z_le_gt_dec i j).
  - pose proof (mod_inj_window (t + i) (t + j) n Hn ltac:(lia) He). lia.
  - pose proof (mod_inj_window (t + j) (t + i) n Hn ltac:(lia) (eq_sym He)). lia.
Qed.

Lemma dist_succ t i n :
  0 < n -> 0 <= i < n -> 0 <= t < n -> i <> t ->
  (i - t) mod n = (i - (t + 1) mod n) mod n + 1.
Proof.
  intros Hn Hi Ht Hne. rewrite Zminus_mod_idemp_r.
  replace (i - t) with (i - (t + 1) + 1) by lia. rewrite mod_succ by lia.
  destruct (Z.eqb_spec ((i - (t + 1)) mod n + 1) n) as [E|]; [|done]. exfalso.
  assert ((i - t) mod n = 0) as Hz.
  { replace (i - t) with (i - (t + 1) + 1) by lia. rewrite mod_succ by lia.
    by rewrite (proj2 (Z.eqb_eq _ _) E). }
  apply Z.mod_divide in Hz as [q Hq]; [|lia].
  assert (q = 0 \/ 1 <= q \/ q <= -1) as [->|[?|?]] by lia; nia.
Qed.

Lemma insert_count r lk v :
  ring_wf r -> r_wgate r && negb lk = false -> ring_full r = false ->
  ring_count (uta_ring_insert lk r v).2 = ring_count r + 1.
Proof.
  intros Hw Hg Hf. pose proof (count_range r Hw). unfold uta_ring_insert. rewrite Hg, Hf.
  rewrite ring_full_spec in Hf by done. destruct Hw as [Hn Hh Ht _ _ _].
  unfold ring_count in *. simpl. rewrite bump_mod, Zminus_mod_idemp_l by lia.
  replace (r_head r + 1 - r_tail r) with (r_head r - r_tail r + 1) by lia.
  rewrite mod_succ by lia. zcases; lia.
Qed.

Lemma insert_spec r lk v :
  ring_wf r -> r_wgate r && negb lk = false -> ring_full r = false ->
  (uta_ring_insert lk r v).1 = 1 /\ ring_wf (uta_ring_insert lk r v).2 /\
  ring_contents (uta_ring_insert lk r v).2 = ring_contents r ++ [v].
Proof.
  intros Hw Hg Hf. pose proof (count_range r Hw) as Hc. pose proof (insert_count r lk v Hw Hg Hf) as Hc'.
  pose proof Hf as Hfull. rewrite (ring_full_spec r Hw) in Hfull.
  pose proof (pos_head r Hw) as Hp. destruct Hw as [Hn Hh Ht Hl Hctr Hcl].
  set (r' := (uta_ring_insert lk r v).2) in *.
  assert (forall j, 0 <= j -> slot r' j = if r_head r =? j then v else slot r j) as Hs.
  { intros j Hj. subst r'. unfold uta_ring_insert. rewrite Hg, Hf. apply slot_insert; simpl; lia. }
  assert (r_tail r' = r_tail r /\ r_nelements r' = r_nelements r) as [Et En].
  { subst r'. unfold uta_ring_insert. by rewrite Hg, Hf. }
  split; [unfold uta_ring_insert; by rewrite Hg, Hf|]. split.
  - split; rewrite ?En, ?Et, ?Hc'; try done.
    + subst r'. unfold uta_ring_insert. rewrite Hg, Hf. simpl. rewrite bump_mod by lia.
      apply Z.mod_pos_bound. lia.
    + subst r'. unfold uta_ring_insert. rewrite Hg, Hf. simpl. by rewrite length_insert.
    + subst r'. unfold uta_ring_insert. rewrite Hg, Hf. simpl. lia.
    + intros i Hi Hd. rewrite Hs by lia. destruct (Z.eqb_spec (r_head r) i) as [<-|].
      * unfold ring_count in Hd. lia.
      * apply Hcl; lia.
  - unfold ring_contents. rewrite Hc', En, Et.
    rewrite (seqZ_app 0 (ring_count r) 1) by lia. rewrite fmap_app. f_equal.
    + apply list_fmap_ext. intros k i Hk. apply list_elem_of_lookup_2, elem_of_seqZ in Hk.
      rewrite Hs by (apply Z.mod_pos_bound; lia).
      destruct (Z.eqb_spec (r_head r) ((r_tail r + i) mod r_nelements r)) as [E|]; [|done].
      rewrite <-Hp in E. apply pos_inj in E; lia.
    + rewrite Z.add_0_l, seqZ_cons, seqZ_nil by lia. csimpl. rewrite Hs by (apply Z.mod_pos_bound; lia).
      by rewrite Hp, Z.eqb_refl.
Qed.

Lemma extract_count r lk :
  ring_wf r -> r_rgate r && negb lk = false -> r_tail r <> r_head r ->
  ring_count (uta_ring_extract lk r).2 = ring_count r - 1.
Proof.
  intros [Hn Hh Ht _ _ _] Hg Hne. unfold uta_ring_extract.
  rewrite (proj2 (Z.eqb_neq _ _) Hne), Hg. unfold ring_count. simpl. rewrite bump_mod by lia.
  pose proof (dist_succ (r_tail r) (r_head r) (r_nelements r)). lia.
Qed.

Lemma extract_spec r lk :
  ring_wf r -> r_rgate r && negb lk = false -> r_tail r <> r_head r ->
  ring_wf (uta_ring_extract lk r).2 /\
  ring_contents r = (uta_ring_extract lk r).1 :: ring_contents (uta_ring_extract lk r).2.
Proof.
  intros Hw Hg Hne. pose proof (extract_count r lk Hw Hg Hne) as Hc'.
  pose proof (count_range r Hw) as Hc. destruct Hw as [Hn Hh Ht Hl Hctr Hcl].
  unfold uta_ring_extract in *. rewrite (proj2 (Z.eqb_neq _ _) Hne), Hg in *. simpl in *.
  set (r' := MkRing _ _ _ _ _ _ _ _ _) in *.
  assert (forall j, 0 <= j -> slot r' j = if r_tail r =? j then None else slot r j) as Hs.
  { intros j Hj. apply slot_insert; simpl; lia. }
  assert (0 < ring_count r) as Hpos.
  { pose proof (Z.mod_pos_bound (r_head r - (r_tail r + 1) mod r_nelements r) (r_nelements r)).
    unfold ring_count. rewrite (dist_succ (r_tail r) (r_head r)) by lia. lia. }
  assert (r_tail r' = (r_tail r + 1) mod r_nelements r) as Et by (simpl; apply bump_mod; lia).
  split.
  - split; rewrite ?Et, ?Hc'; simpl; try done.
    + apply Z.mod_pos_bound. lia.
    + by rewrite length_insert.
    + rewrite Hctr. unfold pfd_read. zcases; lia.
    + intros i Hi Hd. rewrite Hs by lia. destruct (Z.eqb_spec (r_tail r) i); [done|].
      apply Hcl; [lia|]. rewrite (dist_succ (r_tail r) i) by lia. lia.
  - unfold ring_contents. rewrite Hc', Et. replace (r_nelements r') with (r_nelements r) by done.
    rewrite (seqZ_cons 0 (ring_count r)) by lia. csimpl. rewrite Z.add_0_r, Z.mod_small by lia.
    f_equal. replace (Z.pred (ring_count r)) with (ring_count r - 1) by lia.
    change (Z.succ 0) with (1 + 0). rewrite <-(fmap_add_seqZ 1 0), <-list_fmap_compose.
    apply list_fmap_ext. intros k i Hk. apply list_elem_of_lookup_2, elem_of_seqZ in Hk.
    simpl. rewrite Hs by (apply Z.mod_pos_bound; lia). rewrite Zplus_mod_idemp_l.
    replace (r_tail r + (1 + i)) with (r_tail r + 1 + i) by lia.
    destruct (Z.eqb_spec (r_tail r) ((r_tail r + 1 + i) mod r_nelements r)) as [E|]; [|done].
    rewrite <-(Z.mod_small (r_tail r) (r_nelements r)) in E at 1 by lia.
    pose proof (mod_inj_window (r_tail r) (r_tail r + 1 + i) (r_nelements r)). lia.
Qed.

(** ** Sequences of ring operations *)

(** [lk] is the outcome of the lock the operation takes, when it takes one. *)
Inductive ring_op : Type :=
| OpInsert (lk : bool) (v : option P)
| OpExtract (lk : bool).

Inductive ring_res : Type :=
| Inserted (rc : Z)
| Extracted (p : option P).

Definition ring_exec (r : ring_t) (o : ring_op) : ring_res * ring_t :=
  match o with
  | OpInsert lk v => let x := uta_ring_insert lk r v in (Inserted x.1, x.2)
  | OpExtract lk => let x := uta_ring_extract lk r in (Extracted x.1, x.2)
  end.

(** The specification: a list with a capacity, and the two gates. *)
Definition fifo_exec (rgate wgate : bool) (cap : Z) (q : list (option P)) (o : ring_op) :
    ring_res * list (option P) :=
  match o with
  | OpInsert lk v =>
      if wgate && negb lk then (Inserted 0, q)
      else if Z.of_nat (length q) =? cap then (Inserted 0, q)
      else (Inserted 1, q ++ [v])
  | OpExtract lk =>
      match q with
      | [] => (Extracted None, q)
      | x :: q' => if rgate && negb lk then (Extracted None, q) else (Extracted x, q')
      end
  end.

(** The part of a ring the operations do not change. *)
Definition ring_cfg (r : ring_t) : bool * bool * Z := (r_rgate r, r_wgate r, r_nelements r).

Lemma length_contents r : ring_wf r -> Z.of_nat (length (ring_contents r)) = ring_count r.
Proof.
  intros Hw. pose proof (count_range r Hw). unfold ring_contents.
  rewrite length_fmap, length_seqZ. lia.
Qed.

Lemma contents_nil r : ring_wf r -> r_tail r = r_head r -> ring_contents r = [].
Proof.
  intros Hw He. apply length_zero_iff_nil.
  pose proof (length_contents r Hw) as Hl. unfold ring_count in Hl.
  rewrite He, Z.sub_diag, Z.mod_0_l in Hl by (pose proof (rw_n r Hw); lia). lia.
Qed.

Lemma ring_exec_refines r o rg wg n :
  ring_wf r -> ring_cfg r = (rg, wg, n) ->
  (ring_exec r o).1 = (fifo_exec rg wg (n - 1) (ring_contents r) o).1 /\
  ring_wf (ring_exec r o).2 /\ ring_cfg (ring_exec r o).2 = (rg, wg, n) /\
  ring_contents (ring_exec r o).2 = (fifo_exec rg wg (n - 1) (ring_contents r) o).2.
Proof.
  intros Hw Hcfg. injection Hcfg as <- <- <-. destruct o as [lk v|lk]; cbn [ring_exec fifo_exec fst snd].
  - rewrite (length_contents r Hw), <-(ring_full_spec r Hw).
    destruct (r_wgate r && negb lk) eqn:Hg.
    { unfold uta_ring_insert. by rewrite Hg. }
    destruct (ring_full r) eqn:Hf.
    { unfold uta_ring_insert. by rewrite Hg, Hf. }
    destruct (insert_spec r lk v Hw Hg Hf) as (-> & ? & ->). split_and!; try done.
    unfold uta_ring_insert. by rewrite Hg, Hf.
  - destruct (decide (r_tail r = r_head r)) as [He|Hne].
    { rewrite (contents_nil r Hw He). unfold uta_ring_extract.
      rewrite (proj2 (Z.eqb_eq _ _) He). cbn [fst snd]. by rewrite (contents_nil r Hw He). }
    destruct (r_rgate r && negb lk) eqn:Hg.
    { unfold uta_ring_extract. rewrite (proj2 (Z.eqb_neq _ _) Hne), Hg.
      cbn [fst snd]. destruct (ring_contents r) eqn:E; by rewrite ?E. }
    destruct (extract_spec r lk Hw Hg Hne) as [? Hc]. rewrite Hc. split_and!; try done.
    unfold uta_ring_extract. by rewrite (proj2 (Z.eqb_neq _ _) Hne), Hg.
Qed.

Lemma ring_run_refines r ops rg wg n :
  ring_wf r -> ring_cfg r = (rg, wg, n) ->
  (run ring_exec r ops).1 = (run (fifo_exec rg wg (n - 1)) (ring_contents r) ops).1 /\
  ring_wf (run ring_exec r ops).2 /\ ring_cfg (run ring_exec r ops).2 = (rg, wg, n) /\
  ring_contents (run ring_exec r ops).2 = (run (fifo_exec rg wg (n - 1)) (ring_contents r) ops).2.
Proof.
  intros Hw Hc.
  destruct (run_simulation (fun r q => ring_wf r /\ ring_cfg r = (rg, wg, n) /\ ring_contents r = q)
    (fun _ => True) ring_exec (fifo_exec rg wg (n - 1)) ) with (ops := ops) (s := r)
    (t := ring_contents r) as (? & ? & ? & ?); try done.
  - intros s q o (Hs & Hcs & <-) _. by apply ring_exec_refines.
  - by apply Forall_true.
Qed.

(** Every ring a configuration call leaves is as good as the ring given. *)
Lemma config_wf mw mr r opts r' rc :
  uta_ring_config mw mr (Some r) opts = (rc, Some r') -> ring_wf r ->
  ring_wf r' /\ ring_contents r' = ring_contents r /\ r_nelements r' = r_nelements r.
Proof.
  unfold uta_ring_config. intros H [] .
  repeat case_match; simplify_eq; done.
Qed.

Lemma mk_ring_wf fd size :
  1 <= size <= 65536 ->
  exists r, uta_mk_ring true true fd size = Some r /\ ring_wf r /\ ring_contents r = [] /\
    r_nelements r = (if 65535 <=? size then size - 1 else size).
Proof.
  intros Hs. unfold uta_mk_ring. rewrite (proj2 (Z.leb_gt size 0)) by lia. simpl.
  change (u16 (0 - 1)) with 65535. set (n := if 65535 <=? size then size - 1 else size).
  assert (1 <= n <= 65535) as Hn by (subst n; destruct (Z.leb_spec 65535 size); lia).
  rewrite u16_id by lia. eexists. split; [done|].
  assert (ring_count (MkRing 0 0 n (replicate (Z.to_nat (n + 1)) (@None P)) fd 0 0 false false) = 0) as Hc.
  { unfold ring_count. simpl. apply Z.mod_0_l. lia. }
  split_and!; [|unfold ring_contents; by rewrite Hc|done].
  split; rewrite ?Hc; simpl; try lia.
  - rewrite length_replicate. lia.
  - intros i Hi _. unfold slot. simpl. rewrite lookup_replicate_2 by lia. done.
Qed.
End ring.
Arguments ring_t : clear implicits.

(** C20 The ring implements a bounded first-in first-out queue.  For every
    requested size up to 65536, a new ring (configured with any of the locking
    options) answers any sequence of inserts and extracts, whatever the lock
    outcomes, exactly as a list of capacity one less than its number of slots:
    inserts return 0 only when the list is full or the lock was not obtained,
    extracts return the oldest pointer, and the counter of the pollable event
    fd is the number of queued pointers. *)
Theorem ring_implements_fifo {P : Type} (fd size opts : Z) (ops : list (ring_op (P := P))) :
  1 <= size <= 65536 ->
  exists r0 r, uta_mk_ring true true fd size = Some r0 /\
    uta_ring_config true true (Some r0) opts = (1, Some r) /\
    let cap := (if 65535 <=? size then size - 1 else size) - 1 in
    let final := (run ring_exec r ops).2 in
    let spec := run (fifo_exec (r_rgate r) (r_wgate r) cap) [] ops in
    (run ring_exec r ops).1 = spec.1 /\ ring_contents final = spec.2 /\
    r_ctr final = Z.of_nat (length spec.2) /\ Z.of_nat (length spec.2) <= cap.
Proof.
  intros Hs. destruct (mk_ring_wf (P := P) fd size Hs) as (r0 & Hr0 & Hw0 & Hc0 & Hn0).
  destruct (uta_ring_config true true (Some r0) opts) as [rc [r|]] eqn:Hcfg;
    [|unfold uta_ring_config in Hcfg; by repeat case_match].
  assert (rc = 1) as ->.
  { unfold uta_ring_config in Hcfg. repeat case_match; simplify_eq; try done.
    all: by rewrite ?andb_false_r in *. }
  destruct (config_wf _ _ _ _ _ _ Hcfg Hw0) as (Hw & Hc & Hn).
  exists r0, r. split; [done|]. split; [done|]. intros cap final spec.
  destruct (ring_run_refines r ops _ _ _ Hw eq_refl) as (Hres & Hwf & Hcf & Hfin).
  rewrite Hc, Hc0, Hn, Hn0 in *. split_and!; [done|done| |].
  - subst final spec cap. rewrite (rw_ctr _ Hwf), <-(length_contents _ Hwf). by rewrite Hfin.
  - subst spec cap. rewrite <-Hfin, (length_contents _ Hwf).
    pose proof (count_range _ Hwf). injection Hcf as _ _ Hnn. lia.
Qed.

Lemma ring_implements_fifo_witness :
  exists r0 r, uta_mk_ring true true 7 3 = Some r0 /\
    uta_ring_config true true (Some r0) RING_RLOCK = (1, Some r) /\
    (run ring_exec r [OpInsert true (Some 1%nat); OpInsert true (Some 2%nat);
                      OpInsert true (Some 3%nat); OpExtract false; OpExtract true]).1
    = [Inserted 1; Inserted 1; Inserted 0; Extracted None; Extracted (Some 1%nat)].
Proof.
  destruct (ring_implements_fifo 7 3 RING_RLOCK
    [OpInsert true (Some 1%nat); OpInsert true (Some 2%nat);
     OpInsert true (Some 3%nat); OpExtract false; OpExtract true] ltac:(lia))
    as (r0 & r & H0 & H1 & H2 & _).
  exists r0, r. split; [exact H0|]. split; [exact H1|]. rewrite H2.
  assert (r_rgate r = true /\ r_wgate r = false) as [-> ->].
  { vm_compute in H0. injection H0 as <-. vm_compute in H1. by injection H1 as <-. }
  vm_compute. reflexivity.
Defined.

(** C34 uta_mk_ring stores the size in 16 bits: a request of 65537 elements
    yields a ring of no elements, which refuses every insert. *)
Theorem mk_ring_65537_never_accepts {P : Type} (fd : Z) (v : option P) (lk : bool) :
  exists r, uta_mk_ring true true fd 65537 = Some r /\ uta_ring_insert lk r v = (0, r).
Proof. eexists. split; reflexivity. Qed.
