(* ===== verification/RingConc.v ===== *)
(** The message ring under concurrency.

    The receive thread (queue_normal in src/src/rmr/si/src/mt_call_si_static.c)
    inserts into the ring without a lock and then posts a semaphore; a receiving
    thread (rmr_mt_rcv in src/src/rmr/si/src/rmr_si.c) extracts, holding the read
    lock of the ring, either after it obtained a semaphore token (blocking and
    timed receive) or straight away (poll, max_wait 0), in which case it pops the
    semaphore after it got a message.

    Each step of the model is one access of the source to the shared fields
    [head], [tail], [data] or to the semaphore.  [c_ins] and [c_taken] are ghost
    state: the pointers inserted so far and the number of tail increments. *)

From S2P Require Import Prelude Ring.

Section conc.
Context {P : Type}.
Variable n : Z.          (* nelements of the ring *)

(** Where the receive thread is in uta_ring_insert/queue_normal. *)
Inductive ppc : Type :=
| PIdle
| PTest1 (v : P)          (* about to test head+1 == tail *)
| PTest2 (v : P)          (* about to test head+1 >= nelements && !tail *)
| PStore (v : P)          (* about to store data[head] *)
| PBump (v : P)           (* about to run head++ *)
| PWrap                   (* about to wrap head *)
| PPost.                  (* about to post the semaphore *)

(** Where the receiving thread is in uta_ring_extract/rmr_mt_rcv; [poll] tells
    the poll path. *)
Inductive cpc : Type :=
| CIdle
| CCheck (poll : bool)
| CBump (poll : bool)
| CWrap (poll : bool) (ti : Z)
| CRead (poll : bool) (ti : Z)
| CClear (poll : bool) (ti : Z) (x : option P)
| CPop.

Record cstate := MkC {
  c_head : Z;
  c_tail : Z;
  c_data : list (option P);
  c_sem : Z;
  c_p : ppc;
  c_c : cpc;
  c_ins : list P;
  c_taken : Z;
  c_out : list (option P);
  c_drops : Z
}.

Inductive event : Type :=
| EvSend (v : P)          (* queue_normal is called *)
| EvP                     (* the receive thread does its next access *)
| EvWait                  (* the semaphore wait of a receive call succeeds *)
| EvPoll                  (* a receive call with max_wait 0 starts *)
| EvC.                    (* the receiving thread does its next access *)

Definition init : cstate :=
  MkC 0 0 (replicate (Z.to_nat (n + 1)) None) 0 PIdle CIdle [] 0 [] 0.

Definition set_p (s : cstate) (p : ppc) : cstate :=
  MkC (c_head s) (c_tail s) (c_data s) (c_sem s) p (c_c s) (c_ins s) (c_taken s) (c_out s) (c_drops s).
Definition set_c (s : cstate) (c : cpc) : cstate :=
  MkC (c_head s) (c_tail s) (c_data s) (c_sem s) (c_p s) c (c_ins s) (c_taken s) (c_out s) (c_drops s).

(** uta_ring_insert and the code of queue_normal around it. *)
Definition pstep (s : cstate) : option cstate :=
  match c_p s with
  | PIdle => None
  | PTest1 v =>
      if c_head s + 1 =? c_tail s
      then Some (MkC (c_head s) (c_tail s) (c_data s) (c_sem s) PIdle (c_c s) (c_ins s)
                     (c_taken s) (c_out s) (c_drops s + 1))
      else Some (set_p s (PTest2 v))
  | PTest2 v =>
      if (n <=? c_head s + 1) && (c_tail s =? 0)
      then Some (MkC (c_head s) (c_tail s) (c_data s) (c_sem s) PIdle (c_c s) (c_ins s)
                     (c_taken s) (c_out s) (c_drops s + 1))
      else Some (set_p s (PStore v))
  | PStore v =>
      Some (MkC (c_head s) (c_tail s) (<[Z.to_nat (c_head s) := Some v]> (c_data s)) (c_sem s)
                (PBump v) (c_c s) (c_ins s) (c_taken s) (c_out s) (c_drops s))
  | PBump v =>
      Some (MkC (u16 (c_head s + 1)) (c_tail s) (c_data s) (c_sem s)
                PWrap (c_c s) (c_ins s ++ [v]) (c_taken s) (c_out s) (c_drops s))
  | PWrap =>
      Some (MkC (if n <=? c_head s then 0 else c_head s) (c_tail s) (c_data s) (c_sem s)
                PPost (c_c s) (c_ins s) (c_taken s) (c_out s) (c_drops s))
  | PPost =>
      Some (MkC (c_head s) (c_tail s) (c_data s) (c_sem s + 1)
                PIdle (c_c s) (c_ins s) (c_taken s) (c_out s) (c_drops s))
  end.

(** uta_ring_extract and the code of rmr_mt_rcv around it. *)
Definition cstep_ext (s : cstate) : option cstate :=
  match c_c s with
  | CIdle => None
  | CCheck poll =>
      if c_tail s =? c_head s
      then Some (MkC (c_head s) (c_tail s) (c_data s) (c_sem s) (c_p s) CIdle (c_ins s)
                     (c_taken s) (c_out s ++ [None]) (c_drops s))
      else Some (set_c s (CBump poll))
  | CBump poll =>
      Some (MkC (c_head s) (u16 (c_tail s + 1)) (c_data s) (c_sem s) (c_p s)
                (CWrap poll (c_tail s)) (c_ins s) (c_taken s + 1) (c_out s) (c_drops s))
  | CWrap poll ti =>
      Some (MkC (c_head s) (if n <=? c_tail s then 0 else c_tail s) (c_data s) (c_sem s) (c_p s)
                (CRead poll ti) (c_ins s) (c_taken s) (c_out s) (c_drops s))
  | CRead poll ti =>
      Some (set_c s (CClear poll ti (default None (c_data s !! Z.to_nat ti))))
  | CClear poll ti x =>
      Some (MkC (c_head s) (c_tail s) (<[Z.to_nat ti := None]> (c_data s)) (c_sem s) (c_p s)
                (match x with Some _ => if poll then CPop else CIdle | None => CIdle end)
                (c_ins s) (c_taken s) (c_out s ++ [x]) (c_drops s))
  | CPop =>
      Some (MkC (c_head s) (c_tail s) (c_data s) (if 0 <? c_sem s then c_sem s - 1 else c_sem s)
                (c_p s) CIdle (c_ins s) (c_taken s) (c_out s) (c_drops s))
  end.

Definition cstep (ev : event) (s : cstate) : option cstate :=
  match ev with
  | EvSend v => match c_p s with PIdle => Some (set_p s (PTest1 v)) | _ => None end
  | EvP => pstep s
  | EvWait =>
      match c_c s with
      | CIdle =>
          if 0 <? c_sem s then
            Some (MkC (c_head s) (c_tail s) (c_data s) (c_sem s - 1) (c_p s) (CCheck false)
                      (c_ins s) (c_taken s) (c_out s) (c_drops s))
          else None
      | _ => None
      end
  | EvPoll => match c_c s with CIdle => Some (set_c s (CCheck true)) | _ => None end
  | EvC => cstep_ext s
  end.

(** States reachable by interleavings; [polls] allows the poll path. *)
Inductive reachable (polls : bool) : cstate -> Prop :=
| reach_init : reachable polls init
| reach_step s ev s' :
    reachable polls s -> (ev = EvPoll -> polls = true) -> cstep ev s = Some s' ->
    reachable polls s'.

(** ** The invariant of the blocking receive *)

Definition W (s : cstate) : Z := Z.of_nat (length (c_ins s)).
Definition R (s : cstate) : Z := c_taken s.

(** Insert done but not posted; token taken but tail not moved; tail moved but
    the pointer not returned. *)
Definition unposted (p : ppc) : Z := match p with PWrap | PPost => 1 | _ => 0 end.
Definition tokens (c : cpc) : Z := match c with CCheck _ | CBump _ => 1 | _ => 0 end.
Definition inflight (c : cpc) : Z := match c with CWrap _ _ | CRead _ _ | CClear _ _ _ => 1 | _ => 0 end.
Definition wrapping (c : cpc) : Prop := match c with CWrap _ _ => True | _ => False end.

Definition room (s : cstate) : Prop := W s + 1 <= R s + n - 1.

Definition p_ok (s : cstate) : Prop :=
  match c_p s with
  | PTest2 _ => W s mod n + 1 < n \/ wrapping (c_c s) -> room s
  | PStore _ => room s
  | PBump v => room s /\ c_data s !! Z.to_nat (W s mod n) = Some (Some v)
  | _ => True
  end.

Definition pending_at (s : cstate) (ti : Z) : Prop :=
  ti = (R s - 1) mod n /\ 1 <= R s.

Definition c_ok (s : cstate) : Prop :=
  match c_c s with
  | CIdle => True
  | CCheck poll | CBump poll => poll = false
  | CWrap poll ti | CRead poll ti =>
      poll = false /\ pending_at s ti /\ c_data s !! Z.to_nat ti = Some (c_ins s !! Z.to_nat (R s - 1))
  | CClear poll ti x => poll = false /\ pending_at s ti /\ x = c_ins s !! Z.to_nat (R s - 1)
  | CPop => False
  end.

Record cinv (s : cstate) : Prop := {
  i_head : c_head s = match c_p s with PWrap => (W s - 1) mod n + 1 | _ => W s mod n end;
  i_tail : c_tail s = match c_c s with CWrap _ _ => (R s - 1) mod n + 1 | _ => R s mod n end;
  i_len : Z.of_nat (length (c_data s)) = n + 1;
  i_sem : 0 <= c_sem s;
  i_bal : c_sem s + R s + unposted (c_p s) + tokens (c_c s) = W s;
  i_taken : inflight (c_c s) <= R s;
  i_win : W s <= R s + n - 1;
  i_data : forall j, R s <= j < W s -> c_data s !! Z.to_nat (j mod n) = Some (c_ins s !! Z.to_nat j);
  i_p : p_ok s;
  i_c : c_ok s;
  i_out : c_out s = Some <$> take (Z.to_nat (R s - inflight (c_c s))) (c_ins s)
}.

Hypothesis Hn : 1 <= n <= 65535.

Lemma mod_range a : 0 <= a mod n < n.
Proof. apply Z.mod_pos_bound. lia. Qed.

Lemma mod_ne a b : 0 < b - a < n -> a mod n <> b mod n.
Proof. intros Hab He. pose proof (mod_inj_window a b n ltac:(lia) ltac:(lia) He). lia. Qed.

(** A store to one index leaves the other indices of the window alone. *)
Lemma store_ne (d : list (option P)) a b v :
  0 < b - a < n \/ 0 < a - b < n ->
  <[Z.to_nat (a mod n) := v]> d !! Z.to_nat (b mod n) = d !! Z.to_nat (b mod n).
Proof.
  intros Hab. apply list_lookup_insert_ne. pose proof (mod_range a). pose proof (mod_range b).
  intros E. assert (a mod n = b mod n) as E' by lia.
  destruct Hab; [apply (mod_ne a b)|apply (mod_ne b a)]; (lia || congruence).
Qed.

Lemma init_inv : cinv init.
Proof.
  split; unfold W, R, p_ok, c_ok, room; simpl; try done; try lia.
  rewrite length_replicate. lia.
Qed.

(** Unfold the invariant of a destructed state. *)
Ltac open_inv :=
  match goal with
  | H : cinv _ |- _ =>
      destruct H as [Ihead Itail Ilen Isem Ibal Itaken Iwin Idata Ip Ic Iout];
      unfold p_ok, c_ok, room, pending_at, W, R in *; simpl in *
  end.
Ltac close_inv := split; unfold p_ok, c_ok, room, pending_at, W, R; simpl; try done; try lia.

Lemma send_inv s v : cinv s -> c_p s = PIdle -> cinv (set_p s (PTest1 v)).
Proof. destruct s; simpl; intros Hi ->. open_inv. close_inv. Qed.

Lemma wait_inv h t d sem p ins tk out dr :
  cinv (MkC h t d sem p CIdle ins tk out dr) -> 0 < sem ->
  cinv (MkC h t d (sem - 1) p (CCheck false) ins tk out dr).
Proof. intros Hi Hs. open_inv. close_inv. Qed.

(** Either test passing leaves room for one more pointer; either failing means
    that n-1 pointers are queued. *)
Lemma test1_pass w r (c : cpc) t :
  w <= r + n - 1 -> t = match c with CWrap _ _ => (r - 1) mod n + 1 | _ => r mod n end ->
  w mod n + 1 <> t -> w mod n + 1 < n \/ wrapping c -> w + 1 <= r + n - 1.
Proof.
  intros Hw Ht Hne Hc. destruct (decide (w = r + n - 1)) as [E|]; [|lia]. exfalso. apply Hne. subst t.
  assert ((r - 1) mod n = w mod n) as Hm.
  { subst w. replace (r + n - 1) with (r - 1 + 1 * n) by lia. by rewrite Z_mod_plus_full. }
  assert (r mod n = (w + 1) mod n) as Hr.
  { subst w. replace (r + n - 1 + 1) with (r + 1 * n) by lia. by rewrite Z_mod_plus_full. }
  rewrite mod_succ in Hr by lia.
  destruct c; simpl in *; rewrite ?Hm, ?Hr; zcases; try lia; destruct Hc; (lia || done).
Qed.

Lemma test2_pass w r :
  w <= r + n - 1 -> n <= w mod n + 1 -> r mod n <> 0 -> w + 1 <= r + n - 1.
Proof.
  intros Hw Hge Hne. destruct (decide (w = r + n - 1)) as [E|]; [|lia]. exfalso. apply Hne.
  replace r with (w + 1 + -1 * n) by lia. rewrite Z_mod_plus_full, mod_succ by lia.
  pose proof (mod_range w). zcases; lia.
Qed.

Lemma test_fail w r (c : cpc) t :
  r <= w <= r + n - 1 -> t = match c with CWrap _ _ => (r - 1) mod n + 1 | _ => r mod n end ->
  w mod n + 1 = t \/ (n <= w mod n + 1 /\ t = 0) -> w = r + n - 1.
Proof.
  intros Hw Ht Hor.
  assert ((w + 1) mod n = r mod n) as Hm.
  { pose proof (mod_range w) as Hr. pose proof (mod_range (r - 1)) as Hr1. pose proof (mod_range r).
    assert (r mod n = if (r - 1) mod n + 1 =? n then 0 else (r - 1) mod n + 1) as Hs.
    { replace r with (r - 1 + 1) at 1 by lia. apply mod_succ. lia. }
    rewrite mod_succ by lia. destruct c; simpl in *; zcases; lia. }
  destruct (decide (w + 1 <= r + n - 1)) as [Hl|]; [|lia].
  assert (r = w + 1) as E by (apply (mod_inj_window r (w + 1) n); lia). lia.
Qed.

Lemma pstep_inv s s' : cinv s -> pstep s = Some s' -> cinv s'.
Proof.
  destruct s as [h t d sem p c ins tk out dr]. intros Hi. unfold pstep; simpl.
  destruct p as [|v|v|v|v| |]; [done|..]; simpl.
  - destruct (Z.eqb_spec (h + 1) t); intros [= <-]; open_inv; close_inv.
    intros Hc. eapply (test1_pass _ _ c); eauto; lia.
  - destruct ((n <=? h + 1) && (t =? 0)) eqn:E; intros [= <-]; open_inv; close_inv.
    pose proof (mod_range (Z.of_nat (length ins))). subst h.
    destruct (Z_lt_le_dec (Z.of_nat (length ins) mod n + 1) n) as [Hl|Hl]; [by apply Ip; left|].
    destruct c; try (apply Ip; right; done); simpl in *;
      apply andb_false_iff in E as [E|E]; zcases; try done;
      apply test2_pass; lia.
  - intros [= <-]. open_inv. pose proof (mod_range (Z.of_nat (length ins))). subst h. close_inv.
    + by rewrite length_insert.
    + intros j Hj. rewrite store_ne by lia. by apply Idata.
    + split; [done|]. rewrite list_lookup_insert_eq; [done|lia].
    + destruct c; try done; destruct Ic as (? & [-> ?] & Hd); split_and!; try done;
        rewrite store_ne by (simpl in *; lia); done.
  - intros [= <-]. open_inv. destruct Ip as [Hroom Hst].
    pose proof (mod_range (Z.of_nat (length ins))).
    assert (0 <= inflight c /\ 0 <= tokens c) by (destruct c; simpl; lia).
    close_inv; rewrite ?length_app; simpl; rewrite ?Nat2Z.inj_add; try lia.
    + subst h. rewrite u16_id by lia.
      replace (Z.of_nat (length ins) + Z.of_nat 1 - 1) with (Z.of_nat (length ins)) by lia. done.
    + intros j Hj. destruct (decide (j = Z.of_nat (length ins))) as [->|].
      * rewrite Hst, Nat2Z.id, lookup_app_r, Nat.sub_diag by lia. done.
      * rewrite lookup_app_l by lia. apply Idata. lia.
    + destruct c; try done; destruct Ic as (? & [? ?] & Hd);
        rewrite lookup_app_l by (simpl in *; lia); done.
    + rewrite take_app_le by (destruct c; simpl in *; lia). done.
  - intros [= <-]. open_inv. close_inv. subst h.
    pose proof (mod_range (Z.of_nat (length ins) - 1)).
    replace (Z.of_nat (length ins) mod n) with ((Z.of_nat (length ins) - 1 + 1) mod n) by (f_equal; lia).
    rewrite mod_succ by lia. zcases; lia.
  - intros [= <-]. open_inv. close_inv.
Qed.

(** With a token in hand the ring is seen non-empty. *)
Lemma check_nonempty s : cinv s -> c_c s = CCheck false -> c_tail s <> c_head s.
Proof.
  destruct s as [h t d sem p c ins tk out dr]. simpl. intros Hi ->. open_inv. subst t h.
  pose proof (mod_range tk). destruct p; simpl in *; try (apply mod_ne; lia).
  replace ((Z.of_nat (length ins) - 1) mod n + 1) with
    (if (Z.of_nat (length ins) - 1) mod n + 1 =? n then n else Z.of_nat (length ins) mod n).
  - zcases; [lia|]. apply mod_ne. lia.
  - replace (Z.of_nat (length ins) mod n) with ((Z.of_nat (length ins) - 1 + 1) mod n) by (f_equal; lia).
    rewrite mod_succ by lia. zcases; lia.
Qed.

Lemma cstep_ext_inv s s' : cinv s -> cstep_ext s = Some s' -> cinv s'.
Proof.
  destruct s as [h t d sem p c ins tk out dr]. intros Hi. unfold cstep_ext; simpl.
  destruct c as [|poll|poll|poll ti|poll ti|poll ti x|]; [done|..]; simpl.
  - assert (poll = false) as -> by apply (i_c _ Hi).
    pose proof (check_nonempty _ Hi eq_refl) as Hne. simpl in Hne.
    destruct (Z.eqb_spec t h); [done|]. intros [= <-]. open_inv. close_inv.
  - intros [= <-]. open_inv. pose proof (mod_range tk). subst poll t.
    assert (0 <= unposted p) by (destruct p; simpl; lia). close_inv.
    + rewrite u16_id by lia. by replace (tk + 1 - 1) with tk by lia.
    + intros j Hj. apply Idata. lia.
    + destruct p; simpl in *; try lia; try tauto. split; [lia|tauto].
    + split_and!; [done| |lia|].
      * by replace (tk + 1 - 1) with tk by lia.
      * replace (tk + 1 - 1) with tk by lia. apply Idata. lia.
    + rewrite Iout. by replace (tk + 1 - 1) with (tk - 0) by lia.
  - intros [= <-]. open_inv. destruct Ic as (-> & [-> ?] & Hd). close_inv.
    + subst t. replace (tk mod n) with ((tk - 1 + 1) mod n) by (f_equal; lia).
      pose proof (mod_range (tk - 1)). rewrite mod_succ by lia. zcases; lia.
    + destruct p; simpl in *; try done. intros [?|[]]. apply Ip. by left.
  - intros [= <-]. open_inv. destruct Ic as (-> & [-> ?] & Hd). close_inv.
    split_and!; try done. by rewrite Hd.
  - intros [= <-]. open_inv. destruct Ic as (-> & [-> ?] & ->).
    assert (0 <= unposted p) by (destruct p; simpl; lia).
    destruct (lookup_lt_is_Some_2 ins (Z.to_nat (tk - 1))) as [y Hy]; [lia|]. rewrite Hy.
    close_inv.
    + by rewrite length_insert.
    + intros j Hj. rewrite store_ne by lia. by apply Idata.
    + destruct p; simpl in *; try done. destruct Ip as [? Hst]. split; [done|].
      rewrite store_ne by lia. done.
    + rewrite Iout. replace (Z.to_nat (tk - 0)) with (S (Z.to_nat (tk - 1))) by lia.
      rewrite (take_S_r _ _ _ Hy), fmap_app. done.
  - intros _. exfalso. apply (i_c _ Hi).
Qed.

Lemma reachable_inv s : reachable false s -> cinv s.
Proof.
  induction 1 as [|s ev s' _ Hi Hpoll Hs]; [apply init_inv|].
  destruct ev as [v| | | |]; simpl in Hs.
  - destruct (c_p s) eqn:E; simplify_eq. by apply send_inv.
  - by eapply pstep_inv.
  - destruct s as [h t d sem p c ins tk out dr]; simpl in *. destruct c; simplify_eq.
    destruct (Z.ltb_spec 0 sem); simplify_eq. by apply wait_inv.
  - by specialize (Hpoll eq_refl).
  - by eapply cstep_ext_inv.
Qed.

(** A drop happens only when n-1 pointers are queued. *)
Lemma drop_full s s' :
  cinv s -> cstep EvP s = Some s' -> c_drops s' <> c_drops s -> W s - R s = n - 1.
Proof.
  destruct s as [h t d sem p c ins tk out dr]. intros Hi. simpl. unfold pstep; simpl.
  destruct p as [|v|v|v|v| |]; simpl; [done|..]; intros Hs Hd; unfold W, R; simpl.
  - destruct (Z.eqb_spec (h + 1) t); simplify_eq/=. open_inv.
    assert (0 <= tokens c) by (destruct c; simpl; lia).
    rewrite (test_fail (Z.of_nat (length ins)) tk c (h + 1)); try lia.
  - destruct (Z.leb_spec n (h + 1)), (Z.eqb_spec t 0); simplify_eq/=. open_inv.
    assert (0 <= tokens c) by (destruct c; simpl; lia).
    rewrite (test_fail (Z.of_nat (length ins)) tk c 0); try lia.
  - by simplify_eq.
  - by simplify_eq.
  - by simplify_eq.
  - by simplify_eq.
Qed.
End conc.
Arguments cstate : clear implicits.
Arguments event : clear implicits.

(** Running a list of events, to exhibit reachable states. *)
Fixpoint exec_events {P} (n : Z) (evs : list (event P)) (s : cstate P) : option (cstate P) :=
  match evs with
  | [] => Some s
  | ev :: evs' => match cstep n ev s with Some s' => exec_events n evs' s' | None => None end
  end.

Lemma exec_reachable {P} n polls (evs : list (event P)) s s' :
  reachable n polls s -> Forall (fun ev => ev = EvPoll -> polls = true) evs ->
  exec_events n evs s = Some s' -> reachable n polls s'.
Proof.
  intros Hr Hf. revert s Hr. induction Hf as [|ev evs Hev _ IH]; intros s Hr; simpl.
  - by intros [= <-].
  - destruct (cstep n ev s) as [s1|] eqn:E; [|done]. apply IH. by eapply reach_step.
Qed.

(** Two interleavings: a receive call that waits, and polls that run while the
    receive thread is between head++ and the wrap of head. *)
Definition wait_trace : list (event nat) :=
  [EvSend 10%nat; EvP; EvP; EvP; EvP; EvP; EvP; EvWait; EvSend 20%nat; EvP; EvC; EvP;
   EvC; EvP; EvP; EvC; EvC; EvC].
Definition poll_trace : list (event nat) :=
  [EvSend 1%nat; EvP; EvP; EvP; EvP; EvP; EvP; EvPoll; EvC; EvC; EvC; EvC; EvC; EvC;
   EvSend 2%nat; EvP; EvP; EvP; EvP; EvP; EvP; EvPoll; EvC; EvC; EvC; EvC; EvC; EvC;
   EvSend 3%nat; EvP; EvP; EvP; EvP;
   EvPoll; EvC; EvC; EvC; EvC; EvC; EvC; EvPoll; EvC; EvC; EvC; EvC; EvC;
   EvP; EvP].

(** C21 Blocking receive is safe without a lock between the two threads.  For
    every interleaving of the receive thread's inserts with receive calls that
    wait for the semaphore first, at the granularity of the single assignments:
    the receive calls return exactly the inserted messages, in order, none lost,
    none twice and never a nil pointer; at most n-1 messages are queued; a
    message is dropped only when n-1 are queued; and when both threads are idle
    and the semaphore is 0, everything inserted was delivered. *)
Theorem blocking_receive_fifo {P : Type} (n : Z) (s : cstate P) :
  1 <= n <= 65535 -> reachable n false s ->
  c_out s = Some <$> take (length (c_out s)) (c_ins s) /\
  W s - R s <= n - 1 /\
  (forall s', cstep n EvP s = Some s' -> c_drops s' <> c_drops s -> W s - R s = n - 1) /\
  (c_p s = PIdle -> c_c s = CIdle -> c_sem s = 0 -> c_out s = Some <$> c_ins s).
Proof.
  intros Hn Hr. pose proof (reachable_inv n Hn s Hr) as Hi.
  assert (0 <= tokens (c_c s) /\ 0 <= unposted (c_p s) /\ 0 <= inflight (c_c s))
    by (destruct (c_c s), (c_p s); simpl; lia).
  pose proof (i_bal _ _ Hi). pose proof (i_win _ _ Hi). pose proof (i_sem _ _ Hi).
  pose proof (i_taken _ _ Hi). unfold W, R in *.
  split_and!; [|lia|intros s'; by apply drop_full|].
  - rewrite (i_out _ _ Hi) at 2. rewrite length_fmap, length_take_le; [apply (i_out _ _ Hi)|].
    unfold R. lia.
  - intros Hp Hc Hs. rewrite (i_out _ _ Hi), take_ge; [done|].
    rewrite Hp, Hc in *. simpl in *. unfold R. lia.
Qed.

Lemma blocking_receive_fifo_witness :
  exists s, reachable 3 false s /\ c_ins s = [10%nat; 20%nat] /\
    c_out s = Some <$> take (length (c_out s)) (c_ins s).
Proof.
  exists (default (init 3) (exec_events 3 wait_trace (init 3))).
  assert (reachable 3 false (default (init 3) (exec_events 3 wait_trace (init 3)))) as Hr.
  { apply (exec_reachable 3 false wait_trace (init 3)); [apply reach_init| |vm_compute; reflexivity].
    repeat constructor; done. }
  split; [exact Hr|]. split; [vm_compute; reflexivity|].
  apply (blocking_receive_fifo 3 _); [lia|exact Hr].
Defined.

(** C40 The poll path is not protected by the semaphore, and head is wrapped in
    two assignments (head++, then head = 0).  A poll that runs between them can
    step past the end of the queue: there is an interleaving after which both
    threads are idle and every inserted message was delivered, yet a poll has
    taken a slot that held no message and the ring now reports that it is full. *)
Theorem poll_between_head_stores :
  exists s : cstate nat, reachable 3 true s /\ c_p s = PIdle /\ c_c s = CIdle /\
    c_out s = (Some <$> c_ins s) ++ [None] /\ c_taken s = Z.of_nat (length (c_ins s)) + 1 /\
    c_head s + 1 = c_tail s.
Proof.
  exists (default (init 3) (exec_events 3 poll_trace (init 3))). split.
  - apply (exec_reachable 3 true poll_trace (init 3)); [apply reach_init| |vm_compute; reflexivity].
    by apply Forall_true.
  - split_and!; vm_compute; reflexivity.
Qed.
