(* ===== verification/Bytes.v ===== *)
(** Byte buffers: the memory operations the message code uses (memcpy, loads
    and stores of 32 bit integers in host and network order) on lists of bytes.
    The host is little endian: src/src/rmr/common/src/rt_generic_static.c
    includes <immintrin.h>, so the library only builds for x86. *)

From S2P Require Import Prelude.

(** ** Integers as bytes *)

(** The [n] low-order bytes of [z], least significant first. *)
Fixpoint le_bytes (n : nat) (z : Z) : list Z :=
  match n with O => [] | S n' => z mod 256 :: le_bytes n' (z / 256) end.

Fixpoint le_val (l : list Z) : Z :=
  match l with [] => 0 | b :: l' => b + 256 * le_val l' end.

Definition be_bytes (n : nat) (z : Z) : list Z := rev (le_bytes n z).
Definition be_val (l : list Z) : Z := le_val (rev l).

(** htonl and ntohl on this host reverse the four bytes. *)
Definition htonl (z : Z) : Z := le_val (be_bytes 4 z).

Definition is_byte (b : Z) : Prop := 0 <= b < 256.

Lemma length_le_bytes n z : length (le_bytes n z) = n.
Proof. revert z; induction n; simpl; auto. Qed.

Lemma length_be_bytes n z : length (be_bytes n z) = n.
Proof. unfold be_bytes. by rewrite length_rev, length_le_bytes. Qed.

Lemma le_val_bytes n z : le_val (le_bytes n z) = z mod 256 ^ Z.of_nat n.
Proof.
  revert z. induction n as [|n IH]; intros z; cbn [le_bytes le_val].
  - by rewrite Z.pow_0_r, Z.mod_1_r.
  - rewrite IH, Nat2Z.inj_succ, Z.pow_succ_r by lia.
    rewrite Z.rem_mul_r by lia. done.
Qed.

Lemma be_val_bytes n z : be_val (be_bytes n z) = z mod 256 ^ Z.of_nat n.
Proof. unfold be_val, be_bytes. by rewrite rev_involutive, le_val_bytes. Qed.

Lemma le_bytes_ok n z : Forall is_byte (le_bytes n z).
Proof.
  revert z. induction n as [|n IH]; intros z; simpl; constructor; [|done].
  apply Z.mod_pos_bound. lia.
Qed.

Lemma le_val_range l : Forall is_byte l -> 0 <= le_val l < 256 ^ Z.of_nat (length l).
Proof.
  induction 1 as [|b l Hb _ IH]; simpl le_val; simpl length; [done|].
  rewrite Nat2Z.inj_succ, Z.pow_succ_r by lia. unfold is_byte in Hb. lia.
Qed.

(** ** Sections of a buffer *)

Definition slice {A} (l : list A) (off n : Z) : list A := take (Z.to_nat n) (drop (Z.to_nat off) l).

(** [l] with the elements from [off] on replaced by [src]. *)
Definition splice {A} (l : list A) (off : Z) (src : list A) : list A :=
  take (Z.to_nat off) l ++ src ++ drop (Z.to_nat off + length src) l.

Definition zlen {A} (l : list A) : Z := Z.of_nat (length l).

Section sections.
Context {A : Type}.
Implicit Types l src : list A.

Lemma zlen_nonneg l : 0 <= zlen l.
Proof. unfold zlen. lia. Qed.

Lemma zlen_app l src : zlen (l ++ src) = zlen l + zlen src.
Proof. unfold zlen. rewrite length_app. lia. Qed.

Lemma zlen_slice l off n : 0 <= off -> 0 <= n -> off + n <= zlen l -> zlen (slice l off n) = n.
Proof. unfold zlen, slice. intros. rewrite length_take, length_drop. lia. Qed.

Lemma zlen_splice l off src :
  0 <= off -> off + zlen src <= zlen l -> zlen (splice l off src) = zlen l.
Proof.
  unfold zlen, splice. intros. rewrite !length_app, length_take, length_drop. lia.
Qed.

Lemma slice_lookup l off n i :
  0 <= off -> 0 <= n -> slice l off n !! i = if decide (Z.of_nat i < n) then l !! (Z.to_nat off + i)%nat else None.
Proof.
  intros. unfold slice. case_decide.
  - rewrite lookup_take_lt by lia. apply lookup_drop.
  - apply lookup_take_ge. lia.
Qed.

Lemma splice_lookup l off src i :
  0 <= off -> off + zlen src <= zlen l ->
  splice l off src !! i =
    if decide (off <= Z.of_nat i < off + zlen src) then src !! (i - Z.to_nat off)%nat else l !! i.
Proof.
  unfold zlen, splice. intros Ho Hl.
  assert (length (take (Z.to_nat off) l) = Z.to_nat off) as Ht by (rewrite length_take; lia).
  destruct (decide (Z.of_nat i < off)).
  - rewrite lookup_app_l by lia. rewrite lookup_take_lt by lia. by rewrite decide_False by lia.
  - rewrite lookup_app_r by lia. rewrite Ht. case_decide.
    + by rewrite lookup_app_l by lia.
    + rewrite lookup_app_r by lia. rewrite lookup_drop. f_equal. lia.
Qed.

(** Reading back a section that was written, and one that was not touched. *)
Lemma slice_splice_eq l off src :
  0 <= off -> off + zlen src <= zlen l -> slice (splice l off src) off (zlen src) = src.
Proof.
  intros Ho Hl. apply list_eq. intros i. pose proof (zlen_nonneg src).
  rewrite slice_lookup, splice_lookup by done. unfold zlen in *. case_decide.
  - rewrite decide_True by lia. f_equal. lia.
  - symmetry. apply lookup_ge_None. lia.
Qed.

Lemma slice_splice_ne l off src off' n :
  0 <= off -> off + zlen src <= zlen l -> 0 <= off' -> 0 <= n ->
  off' + n <= off \/ off + zlen src <= off' ->
  slice (splice l off src) off' n = slice l off' n.
Proof.
  intros. apply list_eq. intros i.
  rewrite !slice_lookup, splice_lookup by done. case_decide; [|done].
  by rewrite decide_False by lia.
Qed.

(** A section inside the written one. *)
Lemma slice_splice_in l off src off' n :
  0 <= off -> off + zlen src <= zlen l -> off <= off' -> 0 <= n -> off' + n <= off + zlen src ->
  slice (splice l off src) off' n = slice src (off' - off) n.
Proof.
  intros. apply list_eq. intros i.
  rewrite !slice_lookup, splice_lookup by lia. case_decide; [|done].
  rewrite decide_True by lia. f_equal. lia.
Qed.

Lemma slice_all l : slice l 0 (zlen l) = l.
Proof. unfold slice, zlen. rewrite Nat2Z.id. by rewrite take_ge by done. Qed.

Lemma slice_slice l off n off' n' :
  0 <= off -> 0 <= off' -> 0 <= n' -> off' + n' <= n ->
  slice (slice l off n) off' n' = slice l (off + off') n'.
Proof.
  intros. apply list_eq. intros i. rewrite !slice_lookup by lia.
  case_decide; [|done]. rewrite decide_True by lia. f_equal. lia.
Qed.

Lemma slice_split l off n n' :
  0 <= off -> 0 <= n -> 0 <= n' -> slice l off (n + n') = slice l off n ++ slice l (off + n) n'.
Proof.
  intros. unfold slice. rewrite !Z2Nat.inj_add by lia. by rewrite <-take_take_drop, drop_drop.
Qed.

Lemma splice_all l src : zlen src = zlen l -> splice l 0 src = src.
Proof.
  unfold zlen, splice. intros. simpl. rewrite drop_ge by lia. apply app_nil_r.
Qed.
End sections.

(** ** memcpy, memset and integer accesses *)

(** [memcpy( dst + doff, src + soff, n )]: undefined when a section is not
    inside its object (a negative count is a huge [size_t]). *)
Definition memcpy (dst : list Z) (doff : Z) (src : list Z) (soff n : Z) : comp (list Z) :=
  if (n <? 0) || (doff <? 0) || (soff <? 0) || (zlen dst <? doff + n) || (zlen src <? soff + n)
  then UB else Ret (splice dst doff (slice src soff n)).

Definition memset (dst : list Z) (doff v n : Z) : comp (list Z) :=
  if (n <? 0) || (doff <? 0) || (zlen dst <? doff + n) then UB
  else Ret (splice dst doff (replicate (Z.to_nat n) v)).

(** A 32 bit load or store in host order, and through ntohl/htonl. *)
Definition load32 (buf : list Z) (off : Z) : Z := le_val (slice buf off 4).
Definition load32n (buf : list Z) (off : Z) : Z := be_val (slice buf off 4).
Definition store32n (buf : list Z) (off v : Z) : list Z := splice buf off (be_bytes 4 v).

Lemma memcpy_ret dst doff src soff n :
  0 <= n -> 0 <= doff -> 0 <= soff -> doff + n <= zlen dst -> soff + n <= zlen src ->
  memcpy dst doff src soff n = Ret (splice dst doff (slice src soff n)).
Proof. intros. unfold memcpy. zcases; simpl; try done; lia. Qed.

Lemma memcpy_UB dst doff src soff n :
  n < 0 \/ zlen dst < doff + n \/ zlen src < soff + n -> memcpy dst doff src soff n = UB.
Proof. intros. unfold memcpy. zcases; simpl; try done; lia. Qed.

Lemma memset_ret dst doff v n :
  0 <= n -> 0 <= doff -> doff + n <= zlen dst ->
  memset dst doff v n = Ret (splice dst doff (replicate (Z.to_nat n) v)).
Proof. intros. unfold memset. zcases; simpl; try done; lia. Qed.

Lemma memcpy_Ret_inv dst doff src soff n l :
  memcpy dst doff src soff n = Ret l ->
  l = splice dst doff (slice src soff n) /\ 0 <= n /\ 0 <= doff /\ 0 <= soff /\
  doff + n <= zlen dst /\ soff + n <= zlen src.
Proof. unfold memcpy. zcases; simpl; try done. intros [= <-]. split; [done|lia]. Qed.

Lemma zlen_be4 v : zlen (be_bytes 4 v) = 4.
Proof. unfold zlen. by rewrite length_be_bytes. Qed.

Lemma zlen_replicate {A} n (v : A) : 0 <= n -> zlen (replicate (Z.to_nat n) v) = n.
Proof. intros. unfold zlen. rewrite length_replicate. lia. Qed.

Lemma load32n_store buf off v :
  0 <= off -> off + 4 <= zlen buf -> load32n (store32n buf off v) off = u32 v.
Proof.
  intros. unfold load32n, store32n. rewrite <-(zlen_be4 v).
  rewrite slice_splice_eq by (rewrite ?zlen_be4; lia). apply be_val_bytes.
Qed.

Lemma load32n_splice_ne buf off src off' :
  0 <= off -> off + zlen src <= zlen buf -> 0 <= off' ->
  off' + 4 <= off \/ off + zlen src <= off' ->
  load32n (splice buf off src) off' = load32n buf off'.
Proof. intros. unfold load32n. by rewrite slice_splice_ne by lia. Qed.

Lemma zlen_store32n buf off v : 0 <= off -> off + 4 <= zlen buf -> zlen (store32n buf off v) = zlen buf.
Proof. intros. unfold store32n. apply zlen_splice; [done|]. by rewrite zlen_be4. Qed.
