(* ===== verification/Tools.v ===== *)
(** String and address tools: src/src/rmr/common/src/tools_static.c.

    Buffers are lists of bytes that hold everything from the pointer to the end
    of the object, so a C string [s] in a buffer is [s ++ 0 :: rest].  Functions
    that only see C strings take the string without its nil byte.  Allocation
    (strdup, malloc) is taken to succeed.  The address list the interfaces give
    (getifaddrs, getnameinfo) and the name service (gethostbyname) are arguments. *)

From stdpp Require Import pretty.
From S2P Require Import Prelude Bytes.

(** ** zt_buf_fill *)

(** The bytes the copy loop moves: [*sp] is read before [n] is tested. *)
Fixpoint zt_copy (sp : list Z) (n len : Z) : comp (list Z) :=
  match sp with
  | [] => UB
  | c :: sp' =>
      if negb (c =? 0) && (n <? len - 1) then
        bytes ← zt_copy sp' (n + 1) len; Ret (c :: bytes)
      else Ret []
  end.

(** The destination starts at [doff] of the object [dest]; the result is the
    number of bytes moved and the updated object. *)
Definition zt_buf_fill (dest : list Z) (doff : Z) (src : list Z) (len : Z) : comp (Z * list Z) :=
  bytes ← zt_copy src 0 len;
  dest' ← memcpy dest doff (bytes ++ [0]) 0 (zlen bytes + 1);
  Ret (zlen bytes, dest').

(** ** Tokenising *)

(** [strchr( buf + from, sep )] as an index into the buffer: the first [sep]
    at or after [from], before the terminating nil. *)
Fixpoint strchr_at (l : list Z) (i : nat) (sep : Z) : option nat :=
  match l with
  | [] => None
  | c :: l' => if c =? sep then Some i else if c =? 0 then None else strchr_at l' (S i) sep
  end.

Definition strchr (buf : list Z) (from : nat) (sep : Z) : option nat :=
  strchr_at (drop from buf) from sep.

(** The loop of uta_tokenise: token pointers are indices into the buffer, and
    each separator found is overwritten with nil. *)
Fixpoint tok_loop (fuel : nat) (n max : Z) (end_ : nat) (sep : Z) (buf : list Z) : list nat * list Z :=
  match fuel with
  | O => ([], buf)
  | S fuel' =>
      if (n <? max) && negb (default 0 (buf !! end_) =? 0) then
        match strchr buf end_ sep with
        | Some e =>
            let r := tok_loop fuel' (n + 1) max (S e) sep (<[e := 0]> buf) in
            (S e :: r.1, r.2)
        | None => ([], buf)
        end
      else ([], buf)
  end.

(** The tokens array (as indices) and the modified buffer.  A round of the loop
    moves [end] forward, so the buffer's length bounds the rounds. *)
Definition uta_tokenise (buf : list Z) (max sep : Z) : list nat * list Z :=
  if default 0 (buf !! 0%nat) =? 0 then ([], buf)
  else let r := tok_loop (length buf) 1 max 0 sep buf in (0%nat :: r.1, r.2).

(** The strings the token pointers reference after the call. *)
Definition token_strings (r : list nat * list Z) : list (list Z) :=
  map (fun p => cstr_of (drop p r.2)) r.1.

(** Reference: split a string at the first [k] separators. *)
Fixpoint tok_split (sep : Z) (k : Z) (s : list Z) : list (list Z) :=
  match s with
  | [] => [[]]
  | c :: s' =>
      if (c =? sep) && (0 <? k) then [] :: tok_split sep (k - 1) s'
      else match tok_split sep k s' with
           | t :: ts => (c :: t) :: ts
           | [] => [[c]]
           end
  end.

(** What a caller of uta_tokenise gets for the C string [s]. *)
Definition tokenise (s : list Z) (max sep : Z) : list (list Z) :=
  match s with [] => [] | _ => tok_split sep (max - 1) s end.

(** ** Address lists *)

Record if_addrs_t := mk_if_addrs {
  addrs : list (option (list Z));      (* the pointers in use, [naddrs] of them *)
}.

Fixpoint is_this_myip_loop (l : list (option (list Z))) (addr : list Z) : bool :=
  match l with
  | [] => false
  | Some a :: l' => if streq addr a then true else is_this_myip_loop l' addr
  | None :: l' => is_this_myip_loop l' addr
  end.

Definition is_this_myip (l : option if_addrs_t) (addr : option (list Z)) : bool :=
  match l, addr with
  | Some l, Some addr => is_this_myip_loop (addrs l) addr
  | _, _ => false
  end.

Definition uta_rmip_tokenise (buf : list Z) (iplist : option if_addrs_t) (max sep : Z) : list (list Z) :=
  (fix loop (toks : list (list Z)) : list (list Z) :=
     match toks with
     | [] => []
     | t :: toks' => if is_this_myip iplist (Some t) then loop toks' else t :: loop toks'
     end) (tokenise buf max sep).

(** The search loops return the index of the first hit. *)
Fixpoint index_of (p : list Z -> bool) (toks : list (list Z)) (i : Z) : Z :=
  match toks with
  | [] => -1
  | t :: toks' => if p t then i else index_of p toks' (i + 1)
  end.

Definition uta_has_str (buf str : list Z) (sep max : Z) : Z :=
  if max <? 2 then -1 else index_of (fun t => streq t str) (tokenise buf max sep) 0.

Definition has_myip (buf : option (list Z)) (iplist : option if_addrs_t) (sep max : Z) : bool :=
  if max <? 2 then false else
  match buf, iplist with
  | Some b, Some l => negb (index_of (fun t => is_this_myip (Some l) (Some t)) (tokenise b max sep) 0 =? -1)
  | _, _ => false
  end.

Definition get_default_ip (iplist : option if_addrs_t) : option (list Z) :=
  match iplist with
  | Some l => match addrs l with a :: _ => a | [] => None end
  | None => None
  end.

(** ** Building the list of our addresses *)

Inductive sa_family := AF_INET | AF_INET6 | AF_OTHER.

(** One element of the interface list: its name and, if it has an address, the
    family and the numeric host string getnameinfo gives for it. *)
Record ifaddr := mk_ifaddr {
  ifa_name : list Z;
  ifa_addr : option (sa_family * list Z);
}.

Definition isdigit (c : Z) : bool := (48 <=? c) && (c <=? 57).

(** snprintf keeps at most [size - 1] bytes. *)
Definition snprintf (size : Z) (s : list Z) : list Z := take (Z.to_nat (size - 1)) s.

Definition NI_MAXHOST : Z := 1025.

(** The string cut at the first occurrence of a character. *)
Fixpoint cut_at (c : Z) (s : list Z) : list Z :=
  match s with [] => [] | b :: s' => if b =? c then [] else b :: cut_at c s' end.

Definition with_port (fam : sa_family) (octs port : list Z) : list Z :=
  match fam with
  | AF_INET6 => $"[" ++ octs ++ $"]:" ++ port
  | _ => octs ++ $":" ++ port
  end.

(** One pass of the loop over the interfaces. *)
Definition ip_list_step (port : list Z) (target_if : option (list Z))
    (l : list (option (list Z))) (ele : ifaddr) : list (option (list Z)) :=
  if negb (streq (ifa_name ele) $"lo") &&
     match target_if with None => true | Some t => streq (ifa_name ele) t end
  then match ifa_addr ele with
       | Some (AF_OTHER, _) => l
       | Some (fam, octs) =>
           match octs with
           | [] => l
           | _ => if zlen l <? 128
                  then l ++ [Some (snprintf (NI_MAXHOST + 128) (with_port fam (cut_at 37 octs) port))]
                  else l
           end
       | None => l
       end
  else l.

Definition mk_ip_list (port : list Z) (env_bind_if : option (list Z)) (ifs : list ifaddr) : if_addrs_t :=
  match env_bind_if with
  | Some envp =>
      match envp with
      | c :: _ => if isdigit c || (c =? 91)
                  then mk_if_addrs [Some (snprintf (NI_MAXHOST + 128) (envp ++ $":" ++ port))]
                  else mk_if_addrs (foldl (ip_list_step port (Some envp)) [] ifs)
      | [] => mk_if_addrs (foldl (ip_list_step port (Some envp)) [] ifs)
      end
  | None => mk_if_addrs (foldl (ip_list_step port None) [] ifs)
  end.

(** ** Name lookup *)

(** The octets are taken from the low end of the host-order address. *)
Fixpoint octets (n : nat) (a : Z) : list Z :=
  match n with O => [] | S n' => octets n' (Z.shiftr a 8) ++ [Z.land a 255] end.

Definition decimal (z : Z) : list Z := bytes_of_string (pretty z).

Definition dotted (octs : list Z) : list Z :=
  match octs with
  | [a; b; c; d] => decimal a ++ $"." ++ decimal b ++ $"." ++ decimal c ++ $"." ++ decimal d
  | _ => []
  end.

(** [gethostbyname] gives the four bytes (network order) of the first address. *)
Definition uta_h2ip (gethostbyname : list Z -> option (list Z)) (hname : list Z) : option (list Z) :=
  if isdigit (default 0 (hname !! 0%nat)) || (default 0 (hname !! 0%nat) =? 91) then Some hname
  else
    let tok := match strchr (hname ++ [0]) 0 58 with
               | Some e => Some (drop (S e) hname) | None => None end in
    let dname := cut_at 58 hname in
    match gethostbyname dname with
    | None => None
    | Some h =>
        let octs := octets 4 (be_val h) in
        Some (snprintf 120 (match tok with
                            | Some p => dotted octs ++ $":" ++ p
                            | None => dotted octs end))
    end.

(** * Theorems *)

(** ** zt_buf_fill *)

Lemma zt_copy_spec src n len :
  0 <= n -> In 0 src \/ len - n <= zlen src -> src <> [] ->
  zt_copy src n len = Ret (take (Z.to_nat (len - 1 - n)) (cstr_of src)).
Proof.
  revert n. induction src as [|c src IH]; intros n Hn Hs Hne; [done|].
  cbn [zt_copy cstr_of]. destruct (Z.eqb_spec c 0) as [->|Hc]; simpl.
  { by rewrite take_nil. }
  destruct (Z.ltb_spec n (len - 1)) as [Hl|Hl].
  - rewrite IH.
    + replace (Z.to_nat (len - 1 - n)) with (S (Z.to_nat (len - 1 - (n + 1)))) by lia. done.
    + lia.
    + unfold zlen in *. simpl in Hs. destruct Hs as [[->|?]|?]; [done|by left|right; lia].
    + intros ->. unfold zlen in *. simpl in Hs. destruct Hs as [[->|[]]|?]; [done|lia].
  - by replace (Z.to_nat (len - 1 - n)) with O by lia.
Qed.

Lemma cstr_of_len buf : zlen (cstr_of buf) <= zlen buf.
Proof.
  induction buf as [|b buf IH]; simpl; [done|].
  destruct (b =? 0); unfold zlen in *; simpl; lia.
Qed.

Lemma cstr_of_take_app n buf rest : is_cstr (cstr_of buf) ->
  cstr_of (take n (cstr_of buf) ++ 0 :: rest) = take n (cstr_of buf).
Proof. intros H. apply cstr_of_app_nil. by apply Forall_take. Qed.

(** A source that is nil terminated, or holds at least [len] bytes, and a
    destination with room for [len] bytes: the copy is defined, and the
    destination starts with the (possibly cut) string and its nil byte. *)
Lemma zt_buf_fill_spec dest doff src len :
  1 <= len -> 0 <= doff -> doff + len <= zlen dest -> In 0 src \/ len <= zlen src ->
  let s := take (Z.to_nat (len - 1)) (cstr_of src) in
  zt_buf_fill dest doff src len = Ret (zlen s, splice dest doff (s ++ [0])).
Proof.
  intros Hl Hd Hroom Hsrc s. unfold zt_buf_fill.
  assert (src <> []) as Hne.
  { intros ->. destruct Hsrc as [[]|H]. unfold zlen in H. simpl in H. lia. }
  rewrite zt_copy_spec by (try done; try lia; rewrite Z.sub_0_r; auto). rewrite Z.sub_0_r. fold s.
  cbn [mbind comp_bind].
  assert (zlen s <= len - 1) as Hs. { unfold s, zlen. rewrite length_take. lia. }
  pose proof (zlen_nonneg s).
  rewrite memcpy_ret by (rewrite ?zlen_app; change (zlen [0]) with 1; lia).
  cbn [mbind comp_bind]. do 2 f_equal.
  replace (zlen s + 1) with (zlen (s ++ [0])) by (rewrite zlen_app; done). by rewrite slice_all.
Qed.

Lemma zt_buf_fill_ex dest doff src len :
  1 <= len -> 0 <= doff -> doff + len <= zlen dest -> In 0 src \/ len <= zlen src ->
  is_cstr (cstr_of src) ->
  exists n dest', zt_buf_fill dest doff src len = Ret (n, dest') /\
  cstr_of (slice dest' doff len) = take (Z.to_nat (len - 1)) (cstr_of src) /\
  n = zlen (cstr_of (slice dest' doff len)) /\ n <= len - 1 /\ zlen dest' = zlen dest /\
  forall i k, 0 <= i -> 0 <= k -> i + k <= doff \/ doff + len <= i ->
    slice dest' i k = slice dest i k.
Proof.
  intros Hl Hd Hroom Hsrc Hc. rewrite zt_buf_fill_spec by done. set (s := take _ _).
  eexists _, _. split; [done|].
  assert (zlen s <= len - 1) as Hs. { unfold s, zlen. rewrite length_take. lia. }
  assert (zlen (s ++ [0]) = zlen s + 1) as Hz by (rewrite zlen_app; done).
  pose proof (zlen_nonneg s).
  assert (cstr_of (slice (splice dest doff (s ++ [0])) doff len) = s) as E.
  { unfold slice, splice.
    rewrite drop_app_length' by (rewrite length_take; unfold zlen in *; lia).
    rewrite <-app_assoc, take_app_ge by (unfold zlen in *; lia). simpl.
    destruct (Z.to_nat len - length s)%nat eqn:El; [unfold zlen in *; lia|].
    simpl. apply cstr_of_take_app. done. }
  rewrite E. split_and!; [done|done|lia|apply zlen_splice; lia|].
  intros i k Hi Hk Hout. apply slice_splice_ne; lia.
Qed.

(** zt_buf_fill of a string into a field of [len] bytes always returns,
    never leaves the field, nil terminates it, leaves the bytes around the field
    alone, and returns the length of the string that a reader of the field then
    sees: the source string cut to [len - 1] bytes. *)
Theorem zt_buf_fill_terminates dest doff src len :
  1 <= len -> 0 <= doff -> doff + len <= zlen dest -> In 0 src \/ len <= zlen src ->
  is_cstr (cstr_of src) ->
  exists n dest', zt_buf_fill dest doff src len = Ret (n, dest') /\
  cstr_of (slice dest' doff len) = take (Z.to_nat (len - 1)) (cstr_of src) /\
  n = zlen (cstr_of (slice dest' doff len)) /\ n <= len - 1 /\ zlen dest' = zlen dest /\
  forall i k, 0 <= i -> 0 <= k -> i + k <= doff \/ doff + len <= i ->
    slice dest' i k = slice dest i k.
Proof. intros. by apply zt_buf_fill_ex. Qed.

Lemma zt_buf_fill_terminates_witness :
  exists n dest', zt_buf_fill (replicate 8 9) 2 ($"routemgr" ++ [0]) 5 = Ret (n, dest') /\
    cstr_of (slice dest' 2 5) = $"rout".
Proof.
  edestruct (zt_buf_fill_terminates (replicate 8 9) 2 ($"routemgr" ++ [0]) 5) as (n & d & E & H & _).
  - lia.
  - lia.
  - vm_compute; discriminate.
  - left. vm_compute. tauto.
  - vm_compute. repeat constructor.
  - exists n, d. split; [exact E|]. rewrite H. vm_compute. reflexivity.
Defined.

(** ** Tokenising *)

Lemma tok_split_nosplit sep k s : k <= 0 \/ sep ∉ s -> tok_split sep k s = [s].
Proof.
  induction s as [|c s IH]; intros H; [done|]. cbn [tok_split].
  rewrite IH by (destruct H; [by left|right; set_solver]).
  destruct (Z.eqb_spec c sep), (Z.ltb_spec 0 k); simpl; try done.
  destruct H; [lia|set_solver].
Qed.

Lemma tok_split_cons sep k t u :
  sep ∉ t -> 0 < k -> tok_split sep k (t ++ sep :: u) = t :: tok_split sep (k - 1) u.
Proof.
  intros Ht Hk. induction t as [|c t IH]; cbn [app tok_split].
  - rewrite Z.eqb_refl. destruct (Z.ltb_spec 0 k); [done|lia].
  - destruct (Z.eqb_spec c sep); [set_solver|]. simpl. rewrite IH by set_solver. done.
Qed.

Lemma first_split (c : Z) (s : list Z) : c ∉ s \/ exists t u, s = t ++ c :: u /\ c ∉ t.
Proof.
  induction s as [|b s IH]; [left; set_solver|].
  destruct (decide (b = c)) as [->|]; [right; exists [], s; set_solver|].
  destruct IH as [?|(t & u & -> & ?)]; [left; set_solver|].
  right. exists (b :: t), u. set_solver.
Qed.

Lemma strchr_at_None s i sep rest :
  is_cstr s -> sep <> 0 -> sep ∉ s -> strchr_at (s ++ 0 :: rest) i sep = None.
Proof.
  intros Hs. revert i. induction Hs as [|c s Hc _ IH]; intros i Hsep Hn; simpl.
  - by destruct sep.
  - destruct (Z.eqb_spec c sep); [set_solver|]. destruct (Z.eqb_spec c 0); [lia|].
    apply IH; set_solver.
Qed.

Lemma strchr_at_Some t u i sep :
  is_cstr t -> sep ∉ t -> strchr_at (t ++ sep :: u) i sep = Some (i + length t)%nat.
Proof.
  intros Hs. revert i. induction Hs as [|c s Hc _ IH]; intros i Hn; simpl.
  - rewrite Z.eqb_refl. f_equal. lia.
  - destruct (Z.eqb_spec c sep); [set_solver|]. destruct (Z.eqb_spec c 0); [lia|].
    rewrite IH by set_solver. f_equal. lia.
Qed.

Lemma lookup_at_pre {A} (pre l : list A) : (pre ++ l) !! length pre = l !! 0%nat.
Proof. rewrite lookup_app_r by lia. by rewrite Nat.sub_diag. Qed.

Lemma tok_loop_spec sep rest fuel : forall s pre n max,
  is_cstr s -> sep <> 0 -> (length s < fuel)%nat ->
  let r := tok_loop fuel n max (length pre) sep (pre ++ s ++ 0 :: rest) in
  exists s', r.2 = pre ++ s' ++ 0 :: rest /\ length s' = length s /\
    cstr_of (s' ++ 0 :: rest) :: token_strings r = tok_split sep (max - n) s.
Proof.
  induction fuel as [|fuel IH]; intros s pre n max Hs Hsep Hf r; [lia|].
  assert (tok_split sep (max - n) s = [s] -> r = ([], pre ++ s ++ 0 :: rest) ->
    exists s', r.2 = pre ++ s' ++ 0 :: rest /\ length s' = length s /\
    cstr_of (s' ++ 0 :: rest) :: token_strings r = tok_split sep (max - n) s) as Hstop.
  { intros -> ->. exists s. by rewrite cstr_of_app_nil. }
  subst r. cbn [tok_loop] in *. rewrite lookup_at_pre in *.
  destruct (Z.ltb_spec n max); cbn [andb] in *;
    [|apply Hstop; [apply tok_split_nosplit; lia|done]].
  destruct s as [|c s0] eqn:Es; [by apply Hstop|]. rewrite <-Es in *.
  assert (default 0 ((s ++ 0 :: rest) !! 0%nat) =? 0 = false) as Hc.
  { subst s. simpl. apply Forall_inv in Hs. apply Z.eqb_neq. lia. }
  rewrite Hc in *. cbn [negb] in *. unfold strchr in *. rewrite drop_app_length in *.
  destruct (first_split sep s) as [Hno|(t & u & -> & Ht)].
  { rewrite strchr_at_None in * by done. apply Hstop; [|done]. apply tok_split_nosplit; auto. }
  clear Hstop. apply Forall_app in Hs as [Hst [_ Hsu]%Forall_cons].
  rewrite <-app_assoc. cbn [app]. rewrite strchr_at_Some by done. cbn [fst snd].
  assert (<[(length pre + length t)%nat := 0]> (pre ++ t ++ sep :: u ++ 0 :: rest)
          = (pre ++ t ++ [0]) ++ u ++ 0 :: rest) as ->.
  { rewrite insert_app_r, insert_app_r_alt, Nat.sub_diag by lia. by rewrite <-!app_assoc. }
  replace (S (length pre + length t)) with (length (pre ++ t ++ [0]))
    by (rewrite !length_app; simpl; lia).
  destruct (IH u (pre ++ t ++ [0]) (n + 1) max Hsu Hsep) as (u' & E2 & Hlen & E1).
  { rewrite length_app in Hf. simpl in Hf. lia. }
  unfold token_strings in *. cbn [fst snd map]. rewrite E2 in *.
  exists (t ++ 0 :: u'). split_and!.
  - by rewrite <-!app_assoc.
  - rewrite !length_app. simpl. lia.
  - rewrite <-app_assoc. cbn [app]. rewrite cstr_of_app_nil by done.
    rewrite tok_split_cons by (try done; lia). f_equal.
    rewrite drop_app_length. rewrite E1. f_equal. lia.
Qed.

Lemma uta_tokenise_spec s rest max sep :
  is_cstr s -> sep <> 0 -> token_strings (uta_tokenise (s ++ 0 :: rest) max sep) = tokenise s max sep.
Proof.
  intros Hs Hsep. unfold uta_tokenise, tokenise. destruct s as [|c s0] eqn:Es; [done|].
  rewrite <-Es in *.
  assert (default 0 ((s ++ 0 :: rest) !! 0%nat) =? 0 = false) as ->.
  { subst s. simpl. apply Forall_inv in Hs. apply Z.eqb_neq. lia. }
  destruct (tok_loop_spec sep rest (length (s ++ 0 :: rest)) s [] 1 max) as (s' & E2 & _ & E1);
    [done|done|rewrite length_app; simpl; lia|].
  cbn [app length] in *. rewrite <-E1. unfold token_strings. cbn [fst snd map]. by rewrite E2.
Qed.

(** The tokens joined with the separator are the string again. *)
Fixpoint join (sep : Z) (toks : list (list Z)) : list Z :=
  match toks with
  | [] => []
  | [t] => t
  | t :: toks' => t ++ sep :: join sep toks'
  end.

Lemma tok_split_nonempty sep k s : tok_split sep k s <> [].
Proof. destruct s; simpl; [done|]. case_match; [done|]. by destruct (tok_split sep k s). Qed.

Lemma join_split sep k s : join sep (tok_split sep k s) = s.
Proof.
  revert k. induction s as [|c s IH]; intros k; [done|]. cbn [tok_split].
  destruct ((c =? sep) && (0 <? k)) eqn:E.
  - apply andb_prop in E as [->%Z.eqb_eq _]. specialize (IH (k - 1)).
    pose proof (tok_split_nonempty sep (k - 1) s). destruct (tok_split sep (k - 1) s); [done|].
    cbn [join app] in *. by rewrite IH.
  - specialize (IH k). pose proof (tok_split_nonempty sep k s).
    destruct (tok_split sep k s) as [|t [|t' ts]]; [done|..]; cbn [join app] in *; by rewrite IH.
Qed.

Definition count_sep (sep : Z) (s : list Z) : Z := zlen (filter (fun c => c = sep) s).

Lemma tok_split_length sep k s : zlen (tok_split sep k s) = 1 + Z.min (Z.max k 0) (count_sep sep s).
Proof.
  unfold count_sep. revert k. induction s as [|c s IH]; intros k; [unfold zlen; simpl; lia|].
  cbn [tok_split]. rewrite filter_cons. destruct (Z.eqb_spec c sep) as [->|Hne].
  - rewrite decide_True by done. destruct (Z.ltb_spec 0 k); cbn [andb].
    + specialize (IH (k - 1)). unfold zlen in *. simpl. lia.
    + specialize (IH k). pose proof (tok_split_nonempty sep k s).
      destruct (tok_split sep k s); [done|]. unfold zlen in *. simpl in *. lia.
  - rewrite decide_False by done. cbn [andb]. specialize (IH k).
    pose proof (tok_split_nonempty sep k s). destruct (tok_split sep k s); [done|].
    unfold zlen in *. simpl in *. lia.
Qed.

Lemma tok_split_free sep k s : Forall (fun t => sep ∉ t) (removelast (tok_split sep k s)).
Proof.
  revert k. induction s as [|c s IH]; intros k; [constructor|]. cbn [tok_split].
  destruct ((c =? sep) && (0 <? k)) eqn:E.
  - specialize (IH (k - 1)). pose proof (tok_split_nonempty sep (k - 1) s).
    destruct (tok_split sep (k - 1) s); [done|]. cbn [removelast] in *. constructor; [set_solver|done].
  - specialize (IH k). pose proof (tok_split_nonempty sep k s) as Hne.
    destruct (Z.ltb_spec 0 k).
    + destruct (Z.eqb_spec c sep); [done|].
      destruct (tok_split sep k s) as [|t [|t' ts]]; [done|constructor|].
      cbn [removelast] in *. apply Forall_cons in IH as [Ht IH]. constructor; [set_solver|done].
    + rewrite tok_split_nosplit by lia. constructor.
Qed.

(** uta_tokenise on a C string: the strings its token pointers reference
    in the modified buffer, joined with the separator, are the original string;
    there are at most [max] of them, one more than separators when that fits,
    and every token but the last is free of separators. *)
Theorem uta_tokenise_roundtrip s rest max sep :
  is_cstr s -> s <> [] -> 0 < sep -> 1 <= max ->
  let toks := token_strings (uta_tokenise (s ++ 0 :: rest) max sep) in
  join sep toks = s /\ zlen toks = Z.min max (1 + count_sep sep s) /\
  Forall (fun t => sep ∉ t) (removelast toks).
Proof.
  intros Hs Hne Hsep Hmax toks. subst toks. rewrite uta_tokenise_spec by (done || lia).
  unfold tokenise. destruct s as [|c s]; [done|].
  rewrite join_split, tok_split_length. split_and!; [done| |apply tok_split_free].
  unfold count_sep. pose proof (zlen_nonneg (filter (fun c0 => c0 = sep) (c :: s))). lia.
Qed.

Lemma uta_tokenise_roundtrip_witness :
  join 124 (token_strings (uta_tokenise ($"rte|10|a:43086" ++ [0; 7]) 64 124)) = $"rte|10|a:43086".
Proof.
  refine (proj1 (uta_tokenise_roundtrip $"rte|10|a:43086" [7] 64 124 _ _ _ _));
    [vm_compute; repeat constructor|vm_compute; discriminate|lia|lia].
Defined.

(** ** Our own addresses *)

Lemma is_this_myip_loop_spec l a : is_this_myip_loop l a = true <-> Some a ∈ l.
Proof.
  induction l as [|[b|] l IH]; simpl; [set_solver| |set_solver].
  destruct (streq a b) eqn:E.
  - apply streq_true in E as ->. set_solver.
  - rewrite IH, elem_of_cons. split; [by right|]. intros [[= ->]|?]; [|done].
    by rewrite (proj2 (streq_true b b) eq_refl) in E.
Qed.

Lemma index_of_spec p toks i : 0 <= i ->
  index_of p toks i <> -1 <-> exists t, t ∈ toks /\ p t = true.
Proof.
  revert i. induction toks as [|t toks IH]; intros i Hi; simpl; [set_solver|].
  setoid_rewrite elem_of_cons. destruct (p t) eqn:E; [split; [eauto|lia]|].
  rewrite IH by lia. naive_solver congruence.
Qed.

Lemma has_myip_spec buf l sep max :
  2 <= max ->
  has_myip (Some buf) (Some l) sep max = true <->
  exists t, t ∈ tokenise buf max sep /\ Some t ∈ addrs l.
Proof.
  intros Hm. unfold has_myip. destruct (Z.ltb_spec max 2); [lia|].
  rewrite negb_true_iff, Z.eqb_neq, index_of_spec by done. simpl.
  by setoid_rewrite is_this_myip_loop_spec.
Qed.

Lemma uta_rmip_tokenise_spec buf l max sep t :
  t ∈ uta_rmip_tokenise buf (Some l) max sep <-> t ∈ tokenise buf max sep /\ Some t ∉ addrs l.
Proof.
  unfold uta_rmip_tokenise. induction (tokenise buf max sep) as [|u toks IH]; [set_solver|].
  simpl. destruct (is_this_myip_loop (addrs l) u) eqn:E.
  - apply is_this_myip_loop_spec in E. rewrite IH. set_solver.
  - assert (Some u ∉ addrs l) by (rewrite <-is_this_myip_loop_spec, E; done).
    rewrite !elem_of_cons, IH. naive_solver.
Qed.

(** The address string an interface contributes, if it contributes one. *)
Definition if_addr (port : list Z) (target : option (list Z)) (ele : ifaddr) : option (list Z) :=
  if decide (ifa_name ele <> $"lo" /\ (target = None \/ target = Some (ifa_name ele))) then
    match ifa_addr ele with
    | Some (AF_INET, c :: octs) => Some (snprintf (NI_MAXHOST + 128) (cut_at 37 (c :: octs) ++ $":" ++ port))
    | Some (AF_INET6, c :: octs) =>
        Some (snprintf (NI_MAXHOST + 128) ($"[" ++ cut_at 37 (c :: octs) ++ $"]:" ++ port))
    | _ => None
    end
  else None.

Lemma ip_list_step_spec port target l ele :
  zlen l < 128 ->
  ip_list_step port target l ele =
    l ++ match if_addr port target ele with Some a => [Some a] | None => [] end.
Proof.
  intros Hl. unfold ip_list_step, if_addr.
  assert (negb (streq (ifa_name ele) $"lo") &&
    match target with None => true | Some t => streq (ifa_name ele) t end =
    bool_decide (ifa_name ele <> $"lo" /\ (target = None \/ target = Some (ifa_name ele)))) as ->.
  { destruct (bool_decide _) eqn:E.
    - apply bool_decide_eq_true in E as [H1 H2]. apply andb_true_intro. split.
      + apply negb_true_iff, not_true_iff_false. by rewrite streq_true.
      + destruct target; [|done]. apply streq_true. naive_solver.
    - apply bool_decide_eq_false in E. apply not_true_iff_false.
      intros [H1 H2]%andb_prop. apply E. split.
      + intros Hn%streq_true. by rewrite Hn in H1.
      + destruct target; [|by left]. apply streq_true in H2. right. congruence. }
  case_bool_decide; [rewrite decide_True by done|rewrite decide_False by done; by rewrite app_nil_r].
  destruct (Z.ltb_spec (zlen l) 128); [|lia].
  destruct (ifa_addr ele) as [[[] [|c octs]]|]; by rewrite ?app_nil_r.
Qed.

Lemma ip_list_fold port target ifs l :
  zlen l + zlen ifs <= 128 ->
  foldl (ip_list_step port target) l ifs =
    l ++ omap (fun ele => Some <$> if_addr port target ele) ifs.
Proof.
  revert l. induction ifs as [|ele ifs IH]; intros l Hl; [by rewrite app_nil_r|].
  assert (zlen (ele :: ifs) = 1 + zlen ifs) as E by (unfold zlen; simpl; lia).
  pose proof (zlen_nonneg ifs). cbn [foldl omap list_omap].
  rewrite ip_list_step_spec by lia. rewrite IH.
  - rewrite <-app_assoc. by destruct (if_addr port target ele).
  - rewrite zlen_app. destruct (if_addr port target ele); unfold zlen at 2; simpl; lia.
Qed.

(** Ownership of route records: with no more than 128 interfaces, a record's
    sender list is recognised as naming this process exactly when one of its
    tokens is "address:port" of a non-loopback interface (of the bound one, when
    a bind interface is named), and stripping our addresses from a list removes
    exactly those tokens. *)
Theorem own_address_recognised port target ifs buf sep max :
  2 <= max -> zlen ifs <= 128 ->
  match target with Some (c :: _) => isdigit c = false /\ c <> 91 | _ => True end ->
  let mine t := exists ele, ele ∈ ifs /\ if_addr port target ele = Some t in
  let l := Some (mk_ip_list port target ifs) in
  (has_myip (Some buf) l sep max = true <-> exists t, t ∈ tokenise buf max sep /\ mine t) /\
  (forall t, t ∈ uta_rmip_tokenise buf l max sep <-> t ∈ tokenise buf max sep /\ ~ mine t).
Proof.
  intros Hmax Hlen Ht mine l.
  assert (addrs (mk_ip_list port target ifs) = omap (fun ele => Some <$> if_addr port target ele) ifs) as E.
  { unfold mk_ip_list. destruct target as [[|c envp]|]; simpl; try by rewrite ip_list_fold.
    destruct Ht as [-> Hc]. destruct (Z.eqb_spec c 91); [done|]. simpl. by rewrite ip_list_fold. }
  assert (forall t, Some t ∈ addrs (mk_ip_list port target ifs) <-> mine t) as Hm.
  { intros t. rewrite E, list_elem_of_omap. unfold mine. split.
    - intros (ele & ? & H). exists ele. split; [done|]. destruct (if_addr _ _ _); naive_solver.
    - intros (ele & ? & H). exists ele. by rewrite H. }
  subst l. split.
  - rewrite has_myip_spec by done. by setoid_rewrite Hm.
  - intros t. rewrite uta_rmip_tokenise_spec. by rewrite Hm.
Qed.

Lemma own_address_recognised_witness :
  let ifs := [mk_ifaddr $"lo" (Some (AF_INET, $"127.0.0.1"));
              mk_ifaddr $"eth0" (Some (AF_INET6, $"fe80::1%eth0"))] in
  has_myip (Some $"a:1,[fe80::1]:4560") (Some (mk_ip_list $"4560" None ifs)) 44 10 = true.
Proof.
  intros ifs. refine (proj2 (proj1 (own_address_recognised $"4560" None ifs $"a:1,[fe80::1]:4560" 44 10 _ _ _)) _).
  - lia.
  - vm_compute; discriminate.
  - exact I.
  - exists ($"[fe80::1]:4560"). split.
    + vm_compute. apply list_elem_of_In. simpl. tauto.
    + exists (mk_ifaddr $"eth0" (Some (AF_INET6, $"fe80::1%eth0"))). split; [|vm_compute; reflexivity].
      apply list_elem_of_In. simpl. tauto.
Defined.
