(* ===== verification/Mbuf.v ===== *)
(** Message buffers: the mbuf functions of src/src/rmr/si/src/sr_si_static.c and
    src/src/rmr/si/src/rmr_si.c, and the header access functions of
    src/src/rmr/common/src/mbuf_api.c.

    A message owns one transport buffer, laid out as
      | transport header (50) | RMR header (280) | trace | d1 | d2 | payload |
    and the pointers in the mbuf (header, payload, xaction) are offsets into it.
    What malloc leaves in fresh memory is not defined, so it is the argument
    [malloc_bytes]; allocation succeeds.  Reads and writes outside a buffer are
    [UB].  Logging and errno are left out, DEBUG code is off as in the build. *)

From S2P Require Import Prelude Bytes Tools.

(** ** Constants *)

Definition TP_HDR_LEN : Z := 50.
Definition TP_SZFIELD_LEN : Z := 9.
Definition TP_SZ_MARKER : Z := 36.
Definition RMR_MAX_XID : Z := 32.
Definition RMR_MAX_MEID : Z := 32.
Definition RMR_MAX_SRC : Z := 64.
Definition RMR_MSG_VER : Z := 3.
Definition UNSET_SUBID : Z := -1.
Definition UNSET_MSGTYPE : Z := -1.

Definition RMR_OK : Z := 0.
Definition RMR_ERR_BADARG : Z := 1.
Definition RMR_ERR_NOENDPT : Z := 2.
Definition RMR_ERR_NOHDR : Z := 4.
Definition RMR_ERR_SENDFAILED : Z := 5.
Definition RMR_ERR_OVERFLOW : Z := 9.
Definition RMR_ERR_RETRY : Z := 10.
Definition RMR_ERR_TIMEOUT : Z := 12.
Definition RMR_ERR_UNSET : Z := 13.
Definition RMR_ERR_TRUNC : Z := 14.
Definition RMR_ERR_INITFAILED : Z := 15.

Definition MFL_ZEROCOPY : Z := 1.
Definition MFL_NOALLOC : Z := 2.
Definition MFL_ADDSRC : Z := 4.
Definition MFL_HUGE : Z := 16.
Definition HFL_CALL_MSG : Z := 4.

(** Offsets of the fields of uta_mhdr_t and its size ([ts] is aligned to 8). *)
Definition o_mtype : Z := 0.
Definition o_plen : Z := 4.
Definition o_rmr_ver : Z := 8.
Definition o_xid : Z := 12.
Definition o_src : Z := 76.
Definition o_meid : Z := 140.
Definition o_flags : Z := 192.
Definition o_len0 : Z := 196.
Definition o_len1 : Z := 200.
Definition o_len2 : Z := 204.
Definition o_len3 : Z := 208.
Definition o_sub_id : Z := 212.
Definition o_srcip : Z := 216.
Definition sizeof_mhdr : Z := 280.

(** ** The message *)

Record mbuf := MkMbuf {
  m_state : Z;
  m_mtype : Z;
  m_len : Z;
  m_payload : option Z;
  m_xaction : option Z;
  m_sub_id : Z;
  m_tp_state : Z;
  m_tp_buf : option (list Z);
  m_header : option Z;
  m_flags : Z;
  m_alloc_len : Z;
  m_rts_fd : Z;
  m_cookie : Z
}.

(** The message after memset( msg, 0, sizeof *msg ). *)
Definition mbuf0 : mbuf := MkMbuf 0 0 0 None None 0 0 None None 0 0 0 0.

Definition set_state v m := MkMbuf v (m_mtype m) (m_len m) (m_payload m) (m_xaction m) (m_sub_id m)
  (m_tp_state m) (m_tp_buf m) (m_header m) (m_flags m) (m_alloc_len m) (m_rts_fd m) (m_cookie m).
Definition set_len v m := MkMbuf (m_state m) (m_mtype m) v (m_payload m) (m_xaction m) (m_sub_id m)
  (m_tp_state m) (m_tp_buf m) (m_header m) (m_flags m) (m_alloc_len m) (m_rts_fd m) (m_cookie m).
Definition set_tp_buf v m := MkMbuf (m_state m) (m_mtype m) (m_len m) (m_payload m) (m_xaction m) (m_sub_id m)
  (m_tp_state m) v (m_header m) (m_flags m) (m_alloc_len m) (m_rts_fd m) (m_cookie m).
Definition set_flags v m := MkMbuf (m_state m) (m_mtype m) (m_len m) (m_payload m) (m_xaction m) (m_sub_id m)
  (m_tp_state m) (m_tp_buf m) (m_header m) v (m_alloc_len m) (m_rts_fd m) (m_cookie m).
Definition set_rts_fd v m := MkMbuf (m_state m) (m_mtype m) (m_len m) (m_payload m) (m_xaction m) (m_sub_id m)
  (m_tp_state m) (m_tp_buf m) (m_header m) (m_flags m) (m_alloc_len m) v (m_cookie m).
Definition set_tp_state v m := MkMbuf (m_state m) (m_mtype m) (m_len m) (m_payload m) (m_xaction m) (m_sub_id m)
  v (m_tp_buf m) (m_header m) (m_flags m) (m_alloc_len m) (m_rts_fd m) (m_cookie m).

(** The parts of the context that message allocation reads. *)
Record msg_ctx := MkMsgCtx {
  x_max_plen : Z;
  x_trace_data_len : Z;
  x_d1_len : Z;
  x_d2_len : Z;
  x_my_name : list Z;
  x_my_ip : list Z
}.

(** ** Checked accesses *)

Definition put (buf : list Z) (off : Z) (bytes : list Z) : comp (list Z) :=
  memcpy buf off bytes 0 (zlen bytes).

Definition put32n (buf : list Z) (off v : Z) : comp (list Z) := put buf off (be_bytes 4 v).

Definition get32n (buf : list Z) (off : Z) : comp Z :=
  if (off <? 0) || (zlen buf <? off + 4) then UB else Ret (load32n buf off).

Definition get8 (buf : list Z) (off : Z) : comp Z :=
  if (off <? 0) || (zlen buf <=? off) then UB else deref (buf !! Z.to_nat off).

(** ** Header macros *)

(** The four lengths of the header at [h]. *)
Definition hdr_lens (buf : list Z) (h : Z) : comp (Z * Z * Z * Z) :=
  l0 ← get32n buf (h + o_len0); l1 ← get32n buf (h + o_len1);
  l2 ← get32n buf (h + o_len2); l3 ← get32n buf (h + o_len3);
  Ret (l0, l1, l2, l3).

(** Lengths are summed as 32 bit unsigned integers, addresses are not. *)
Definition RMR_HDR_LEN (buf : list Z) (h : Z) : comp Z :=
  '(l0, l1, l2, l3) ← hdr_lens buf h; Ret (u32 (l0 + l1 + l2 + l3)).
Definition RMR_TR_LEN (buf : list Z) (h : Z) : comp Z := get32n buf (h + o_len1).
Definition RMR_D1_LEN (buf : list Z) (h : Z) : comp Z := get32n buf (h + o_len2).
Definition RMR_D2_LEN (buf : list Z) (h : Z) : comp Z := get32n buf (h + o_len3).
Definition TRACE_ADDR (buf : list Z) (h : Z) : comp Z :=
  l0 ← get32n buf (h + o_len0); Ret (h + l0).
Definition DATA1_ADDR (buf : list Z) (h : Z) : comp Z :=
  l0 ← get32n buf (h + o_len0); l1 ← get32n buf (h + o_len1); Ret (h + l0 + l1).
Definition DATA2_ADDR (buf : list Z) (h : Z) : comp Z :=
  a ← DATA1_ADDR buf h; l2 ← get32n buf (h + o_len2); Ret (a + l2).
Definition PAYLOAD_ADDR (buf : list Z) (h : Z) : comp Z :=
  '(l0, l1, l2, l3) ← hdr_lens buf h; Ret (h + l0 + l1 + l2 + l3).

Definition SET_HDR_LEN (buf : list Z) (h : Z) : comp (list Z) := put32n buf (h + o_len0) sizeof_mhdr.
Definition SET_HDR_TR_LEN (buf : list Z) (h l : Z) : comp (list Z) := put32n buf (h + o_len1) l.
Definition SET_HDR_D1_LEN (buf : list Z) (h l : Z) : comp (list Z) := put32n buf (h + o_len2) l.

(** ** Transport length field *)

Definition insert_mlen (len : Z) (buf : list Z) : comp (list Z) :=
  buf ← put buf 0 (le_bytes 4 len);
  buf ← put buf 4 (be_bytes 4 len);
  buf ← memset buf TP_SZFIELD_LEN 0 4;
  put buf (TP_SZFIELD_LEN - 1) [TP_SZ_MARKER].

(** The old (native) size and, past the marker, the size in network order. *)
Definition extract_mlen (buf : list Z) : comp Z :=
  m ← get8 buf 8;
  if m =? TP_SZ_MARKER then
    let osize := load32 buf 0 in
    size ← get32n buf 4;
    if negb (osize =? size) then Ret osize else Ret size
  else Ret (load32 buf 0).

(** ** Allocation *)

Section alloc.
Variable malloc_bytes : Z -> list Z.

(** [pool]: what uta_ring_extract( ctx->zcb_mring ) gives. *)
Definition alloc_zcmsg (ctx : msg_ctx) (pool msg : option mbuf) (size state trlo : Z) : comp mbuf :=
  let tr_len := if 0 <? trlo then trlo else x_trace_data_len ctx in
  let mlen := u64 (sizeof_mhdr + tr_len + x_d1_len ctx + x_d2_len ctx) in
  let mlen := u64 (mlen + (if 0 <? size then size else x_max_plen ctx)) in
  let mlen := u64 (mlen + TP_HDR_LEN) in
  let given := match msg with Some m => Some m | None => pool end in
  let '(msg, mlen) :=
    match given with
    | None => (mbuf0, mlen)
    | Some m =>
        if u64 (m_alloc_len m) <? mlen
        then (MkMbuf (m_state m) (m_mtype m) (m_len m) (m_payload m) (m_xaction m) (m_sub_id m)
                     (m_tp_state m) None (m_header m) (m_flags m) 0 (m_rts_fd m) (m_cookie m), mlen)
        else (m, u64 (m_alloc_len m))
    end in
  let tpb := if m_alloc_len msg =? 0 then Some (malloc_bytes mlen) else m_tp_buf msg in
  buf ← deref tpb;
  buf ← insert_mlen (u32 mlen) buf;
  let h := TP_HDR_LEN in
  buf ← memset buf h 0 sizeof_mhdr;
  buf ← put32n buf (h + o_rmr_ver) RMR_MSG_VER;
  buf ← put32n buf (h + o_sub_id) UNSET_SUBID;
  buf ← SET_HDR_LEN buf h;
  buf ← SET_HDR_TR_LEN buf h (x_trace_data_len ctx);
  buf ← SET_HDR_D1_LEN buf h (x_d1_len ctx);
  payload ← PAYLOAD_ADDR buf h;
  '(_, buf) ← zt_buf_fill buf (h + o_src) (x_my_name ctx ++ [0]) RMR_MAX_SRC;
  '(_, buf) ← zt_buf_fill buf (h + o_srcip) (x_my_ip ctx ++ [0]) RMR_MAX_SRC;
  Ret (MkMbuf state UNSET_MSGTYPE 0 (Some payload) (Some (h + o_xid)) UNSET_SUBID
         (m_tp_state msg) (Some buf) (Some h) MFL_ZEROCOPY (i32 mlen) (-1) 18754).

(** The pooled buffer is freed; every field is then set. *)
Definition alloc_mbuf (state : Z) : mbuf :=
  MkMbuf state UNSET_MSGTYPE (-1) None None UNSET_SUBID 0 None None 0 0 0 18754.

(** The difference of the lengths is taken without overflow.  It could only
    overflow for a header length that is below 0 as an int by nearly 2^31, which
    buf2mbuf lets pass only when its sum wraps (see [wrapped_lengths_accepted]). *)
Definition ref_tpbuf (msg : mbuf) (alen : Z) : comp mbuf :=
  buf ← deref (m_tp_buf msg);
  let h := TP_HDR_LEN in
  plen ← get32n buf (h + o_plen);
  payload ← PAYLOAD_ADDR buf h;
  mt ← get32n buf (h + o_mtype);
  sid ← get32n buf (h + o_sub_id);
  hl ← RMR_HDR_LEN buf h;
  let len := i32 plen in
  let alloc_len := i32 alen in
  let hlen := i32 hl in
  let trunc := alloc_len - hlen <? len in
  Ret (MkMbuf (if trunc then RMR_ERR_TRUNC else RMR_OK) (i32 mt) (if trunc then alloc_len - hlen else len)
         (Some payload) (Some (h + o_xid)) (i32 sid) (m_tp_state msg) (Some buf) (Some h)
         (Z.lor (m_flags msg) MFL_ZEROCOPY) alloc_len (m_rts_fd msg) (m_cookie msg)).

Definition clone_msg (old_msg : mbuf) : comp mbuf :=
  let mlen := u64 (m_alloc_len old_msg) in
  obuf ← deref (m_tp_buf old_msg);
  oh ← deref (m_header old_msg);
  opl ← deref (m_payload old_msg);
  let buf := malloc_bytes (u64 (mlen + TP_HDR_LEN)) in
  let h := TP_HDR_LEN in
  hl ← RMR_HDR_LEN obuf oh; tl ← RMR_TR_LEN obuf oh;
  d1 ← RMR_D1_LEN obuf oh; d2 ← RMR_D2_LEN obuf oh;
  buf ← memcpy buf h obuf oh (u32 (hl + tl + d1 + d2));
  payload ← PAYLOAD_ADDR buf h;
  buf ← memcpy buf payload obuf opl (m_len old_msg);
  Ret (MkMbuf (m_state old_msg) (m_mtype old_msg) (m_len old_msg) (Some payload) (Some (h + o_xid))
         (m_sub_id old_msg) 0 (Some buf) (Some h) (Z.lor (m_flags old_msg) MFL_ZEROCOPY) (i32 mlen) 0 0).

(** The copies of d1 and d2, when their lengths are not 0. *)
Definition copy_data (buf : list Z) (h : Z) (obuf : list Z) (oh : Z) : comp (list Z) :=
  d1 ← RMR_D1_LEN buf h;
  buf ← (if d1 =? 0 then Ret buf
         else dst ← DATA1_ADDR buf h; src ← DATA1_ADDR obuf oh; memcpy buf dst obuf src d1);
  d2 ← RMR_D2_LEN buf h;
  if d2 =? 0 then Ret buf
  else dst ← DATA2_ADDR buf h; src ← DATA2_ADDR obuf oh; memcpy buf dst obuf src d2.

Definition realloc_msg (old_msg : mbuf) (tr_len : Z) : comp mbuf :=
  obuf ← deref (m_tp_buf old_msg);
  oh ← deref (m_header old_msg);
  opl ← deref (m_payload old_msg);
  trl ← RMR_TR_LEN obuf oh;
  let tr_old_len := i32 trl in
  let mlen := u64 (m_alloc_len old_msg + (tr_len - tr_old_len)) in
  let tpb_len := i32 (mlen + TP_HDR_LEN) in
  buf ← insert_mlen (u32 tpb_len) (malloc_bytes (u64 tpb_len));
  let h := TP_HDR_LEN in
  buf ← memcpy buf h obuf oh sizeof_mhdr;
  buf ← SET_HDR_TR_LEN buf h tr_len;
  buf ← copy_data buf h obuf oh;
  payload ← PAYLOAD_ADDR buf h;
  buf ← memcpy buf payload obuf opl (m_len old_msg);
  Ret (MkMbuf (m_state old_msg) (m_mtype old_msg) (m_len old_msg) (Some payload) (Some (h + o_xid))
         (m_sub_id old_msg) 0 (Some buf) (Some h) (Z.lor (m_flags old_msg) MFL_ZEROCOPY) (i32 mlen) 0 0).

(** [None] is the nil return (bad argument).  Without [clone] the message is
    updated in place, with it a new one is returned and the old one stays. *)
Definition realloc_payload (old : option mbuf) (payload_len : Z) (copy clone : bool) : comp (option mbuf) :=
  match old with
  | None => Ret None
  | Some old_msg =>
      if payload_len <=? 0 then Ret None else
      obuf ← deref (m_tp_buf old_msg);
      oh ← deref (m_header old_msg);
      hl ← RMR_HDR_LEN obuf oh;
      let old_psize := i32 (m_alloc_len old_msg - (hl + TP_HDR_LEN)) in
      if negb clone && (payload_len <=? old_psize) then Ret (Some old_msg) else
      let hdr_len := i32 (hl + TP_HDR_LEN) in
      let nm := if clone then set_rts_fd (m_rts_fd old_msg) mbuf0 else old_msg in
      let mlen := u64 (hdr_len + (if old_psize <? payload_len then payload_len else old_psize)) in
      let h := TP_HDR_LEN in
      buf ← SET_HDR_LEN (malloc_bytes mlen) h;
      buf ← memcpy buf h obuf oh (if copy then u32 (old_psize + hl) else hl);
      nm ← ref_tpbuf (set_tp_buf (Some buf) nm) mlen;
      Ret (Some (if copy
        then MkMbuf (m_state nm) (m_mtype old_msg) (m_len old_msg) (m_payload nm) (m_xaction nm)
               (m_sub_id old_msg) (m_tp_state nm) (m_tp_buf nm) (m_header nm) (m_flags nm)
               (m_alloc_len nm) (m_rts_fd nm) (m_cookie nm)
        else MkMbuf (m_state nm) (-1) 0 (m_payload nm) (m_xaction nm) (-1)
               (m_tp_state nm) (m_tp_buf nm) (m_header nm) (m_flags nm)
               (m_alloc_len nm) (m_rts_fd nm) (m_cookie nm)))
  end.

(** ** The public functions on one message *)

Definition rmr_payload_size (m : option mbuf) : comp Z :=
  match m with
  | None => Ret (-1)
  | Some m =>
      match m_header m with
      | None => Ret (-1)
      | Some h => buf ← deref (m_tp_buf m); hl ← RMR_HDR_LEN buf h;
                  Ret (i32 (u32 (m_alloc_len m - hl - TP_HDR_LEN)))
      end
  end.

Definition rmr_alloc_msg (ctx : option msg_ctx) (pool : option mbuf) (size : Z) : comp (option mbuf) :=
  match ctx with
  | None => Ret None
  | Some ctx => m ← alloc_zcmsg ctx pool None size 0 (-1); Ret (Some m)
  end.

(** rmr_set_trace and rmr_tralloc_msg are the same text for every transport; they
    call its reallocation and allocation. *)
Section trace.
Variable realloc : mbuf -> Z -> comp mbuf.

(** The buffer is swapped for the reallocated one, the old buffer is freed. *)
Definition set_trace_with (msg : option mbuf) (data : list Z) (size : Z) : comp (Z * option mbuf) :=
  match msg with
  | None => Ret (0, None)
  | Some msg =>
      if size <=? 0 then Ret (0, Some msg) else
      match m_header msg with
      | None => Ret (0, Some msg)
      | Some h =>
          buf ← deref (m_tp_buf msg);
          trl ← RMR_TR_LEN buf h;
          msg ← (if negb (i32 trl =? size) then
                   nm ← realloc msg size;
                   Ret (MkMbuf (m_state msg) (m_mtype msg) (m_len msg) (m_payload nm) (m_xaction nm)
                          (m_sub_id msg) (m_tp_state msg) (m_tp_buf nm) (m_header nm) (m_flags msg)
                          (m_alloc_len msg) (m_rts_fd msg) (m_cookie msg))
                 else Ret msg);
          buf ← deref (m_tp_buf msg);
          h ← deref (m_header msg);
          dst ← TRACE_ADDR buf h;
          buf ← memcpy buf dst data 0 size;
          Ret (size, Some (set_tp_buf (Some buf) msg))
      end
  end.

Definition tralloc_with (alloc : comp mbuf) (tr_size : Z) (data : list Z) : comp (option mbuf) :=
  m ← alloc;
  '(state, m) ← set_trace_with (Some m) data tr_size;
  Ret (if negb (state =? tr_size) then option_map (set_state RMR_ERR_INITFAILED) m else m).
End trace.

Definition rmr_set_trace : option mbuf -> list Z -> Z -> comp (Z * option mbuf) := set_trace_with realloc_msg.

Definition rmr_tralloc_msg (ctx : option msg_ctx) (pool : option mbuf) (size tr_size : Z) (data : list Z) :
    comp (option mbuf) :=
  match ctx with
  | None => Ret None
  | Some ctx => tralloc_with realloc_msg (alloc_zcmsg ctx pool None size 0 tr_size) tr_size data
  end.
End alloc.

Definition rmr_get_trlen (msg : option mbuf) : comp Z :=
  match msg with
  | None => Ret 0
  | Some m => buf ← deref (m_tp_buf m); h ← deref (m_header m); l ← RMR_TR_LEN buf h; Ret (i32 l)
  end.

(** The reference is an offset into the transport buffer. *)
Definition rmr_trace_ref (msg : option mbuf) : comp (option Z * Z) :=
  match msg with
  | None => Ret (None, 0)
  | Some m =>
      buf ← deref (m_tp_buf m); h ← deref (m_header m);
      l ← RMR_TR_LEN buf h;
      if i32 l <=? 0 then Ret (None, 0) else a ← TRACE_ADDR buf h; Ret (Some a, i32 l)
  end.

(** [size < RMR_TR_LEN] compares as unsigned. *)
Definition rmr_get_trace (msg : option mbuf) (dest : option (list Z)) (size : Z) : comp (Z * option (list Z)) :=
  match msg with
  | None => Ret (0, dest)
  | Some m =>
      match dest with
      | Some d =>
          if size <=? 0 then Ret (0, dest) else
          buf ← deref (m_tp_buf m); h ← deref (m_header m);
          l ← RMR_TR_LEN buf h;
          let n2copy := i32 (if u32 size <? l then u32 size else l) in
          if n2copy <=? 0 then Ret (0, dest) else
          a ← TRACE_ADDR buf h;
          d ← memcpy d 0 buf a n2copy;
          Ret (n2copy, Some d)
      | None => Ret (0, dest)
      end
  end.

(** The fixed length id fields.  errno is part of the result here because the
    callers are told to look at it: [true] is EOVERFLOW/EMSGSIZE. *)
Definition rmr_bytes2meid (msg : option mbuf) (src : option (list Z)) (len : Z) : comp (Z * bool * option mbuf) :=
  match src, msg with
  | Some src, Some m =>
      match m_header m with
      | None => Ret (-1, false, msg)
      | Some h =>
          buf ← deref (m_tp_buf m);
          let over := RMR_MAX_MEID <? len in
          let len := if over then RMR_MAX_MEID else len in
          buf ← memcpy buf (h + o_meid) src 0 len;
          if len =? RMR_MAX_MEID then
            c ← get8 buf (h + o_meid + len - 1);
            if negb (c =? 0) then
              buf ← put buf (h + o_meid + len - 1) [0]; Ret (len, true, Some (set_tp_buf (Some buf) m))
            else Ret (len, over, Some (set_tp_buf (Some buf) m))
          else
            buf ← put buf (h + o_meid + len) [0]; Ret (len, over, Some (set_tp_buf (Some buf) m))
      end
  | _, _ => Ret (-1, false, msg)
  end.

Definition rmr_str2meid (msg : option mbuf) (str : option (list Z)) : comp (Z * option mbuf) :=
  match str, msg with
  | Some s, Some m =>
      match m_header m with
      | None => Ret (RMR_ERR_BADARG, msg)
      | Some _ =>
          if RMR_MAX_MEID - 1 <? zlen s then Ret (RMR_ERR_OVERFLOW, msg)
          else '(_, _, msg) ← rmr_bytes2meid msg (Some (s ++ [0])) (zlen s + 1); Ret (RMR_OK, msg)
      end
  | _, _ => Ret (RMR_ERR_BADARG, msg)
  end.

Definition rmr_bytes2xact (msg : option mbuf) (src : option (list Z)) (len : Z) : comp (Z * bool * option mbuf) :=
  match src, msg with
  | Some src, Some m =>
      match m_header m with
      | None => Ret (-1, false, msg)
      | Some h =>
          buf ← deref (m_tp_buf m);
          let over := RMR_MAX_XID <? len in
          let len := if over then RMR_MAX_XID else len in
          buf ← memcpy buf (h + o_xid) src 0 len;
          Ret (len, over, Some (set_tp_buf (Some buf) m))
      end
  | _, _ => Ret (-1, false, msg)
  end.

Definition rmr_str2xact (msg : option mbuf) (str : option (list Z)) : comp (Z * option mbuf) :=
  match str, msg with
  | Some s, Some m =>
      match m_header m with
      | None => Ret (RMR_ERR_BADARG, msg)
      | Some _ =>
          if RMR_MAX_XID - 1 <? zlen s then Ret (RMR_ERR_OVERFLOW, msg)
          else '(_, _, msg) ← rmr_bytes2xact msg (Some (s ++ [0])) (zlen s + 1); Ret (RMR_OK, msg)
      end
  | _, _ => Ret (RMR_ERR_BADARG, msg)
  end.

(** A missing destination is allocated: [RMR_MAX_XID] (MEID) bytes that are all
    overwritten. *)
Definition rmr_get_xact (msg : option mbuf) (dest : option (list Z)) : comp (option (list Z)) :=
  match msg with
  | None => Ret None
  | Some m =>
      match m_xaction m with
      | None => Ret None
      | Some x =>
          buf ← deref (m_tp_buf m);
          d ← memcpy (default (replicate (Z.to_nat RMR_MAX_XID) 0) dest) 0 buf x RMR_MAX_XID;
          Ret (Some d)
      end
  end.

Definition rmr_get_meid (msg : option mbuf) (dest : option (list Z)) : comp (option (list Z)) :=
  match msg with
  | None => Ret None
  | Some m =>
      match m_header m with
      | None => Ret None
      | Some h =>
          buf ← deref (m_tp_buf m);
          d ← memcpy (default (replicate (Z.to_nat RMR_MAX_MEID) 0) dest) 0 buf (h + o_meid) RMR_MAX_MEID;
          Ret (Some d)
      end
  end.

(** [alloc_len - sizeof( uta_mhdr_t )] is a 64 bit unsigned value. *)
Definition rmr_bytes2payload (msg : option mbuf) (src : option (list Z)) (len : Z) : comp (option mbuf) :=
  match src, msg with
  | Some src, Some m =>
      match m_payload m with
      | None => Ret msg
      | Some p =>
          buf ← deref (m_tp_buf m);
          let max := u64 (m_alloc_len m - sizeof_mhdr) in
          let over := max <? u64 len in
          let len := if over then i32 max else len in
          buf ← memcpy buf p src 0 len;
          Ret (Some (set_tp_buf (Some buf) (set_len len (set_state (if over then RMR_ERR_OVERFLOW else RMR_OK) m))))
      end
  | _, _ => Ret msg
  end.

Definition rmr_str2payload (msg : option mbuf) (str : list Z) : comp (option mbuf) :=
  rmr_bytes2payload msg (Some (str ++ [0])) (zlen str + 1).

Definition rmr_get_src (msg : option mbuf) (dest : option (list Z)) : comp (option (list Z)) :=
  match msg with
  | None => Ret None
  | Some m =>
      match dest with
      | None => Ret None
      | Some d =>
          buf ← deref (m_tp_buf m); h ← deref (m_header m);
          '(_, d) ← zt_buf_fill d 0 (drop (Z.to_nat (h + o_src)) buf) RMR_MAX_SRC;
          Ret (Some d)
      end
  end.

Definition rmr_get_srcip (msg : option mbuf) (dest : option (list Z)) : comp (option (list Z)) :=
  match dest, msg with
  | Some d, Some m =>
      buf ← deref (m_tp_buf m); h ← deref (m_header m);
      ver ← get32n buf (h + o_rmr_ver);
      '(_, d) ← zt_buf_fill d 0 (drop (Z.to_nat (h + (if 2 <? ver then o_srcip else o_src))) buf) RMR_MAX_SRC;
      Ret (Some d)
  | _, _ => Ret None
  end.

(** * Theorems *)

Lemma put_ret buf off bytes :
  0 <= off -> off + zlen bytes <= zlen buf -> put buf off bytes = Ret (splice buf off bytes).
Proof.
  intros. unfold put. pose proof (zlen_nonneg bytes). rewrite memcpy_ret by lia. by rewrite slice_all.
Qed.

Lemma get8_lookup buf off c : 0 <= off -> buf !! Z.to_nat off = Some c -> get8 buf off = Ret c.
Proof.
  intros Ho E. pose proof (lookup_lt_Some _ _ _ E). unfold get8, zlen.
  destruct (Z.ltb_spec off 0), (Z.leb_spec (Z.of_nat (length buf)) off); try lia. simpl. by rewrite E.
Qed.

Lemma put32n_ret buf off v :
  0 <= off -> off + 4 <= zlen buf -> put32n buf off v = Ret (store32n buf off v).
Proof. intros. unfold put32n. rewrite put_ret by (rewrite ?zlen_be4; lia). done. Qed.

Lemma get32n_ret buf off : 0 <= off -> off + 4 <= zlen buf -> get32n buf off = Ret (load32n buf off).
Proof. intros. unfold get32n. zcases; simpl; try done; lia. Qed.

(** A value stored is read back, a store elsewhere does not change it. *)
Lemma load32n_store_ne buf off v off' :
  0 <= off -> off + 4 <= zlen buf -> 0 <= off' -> off' + 4 <= off \/ off + 4 <= off' ->
  load32n (store32n buf off v) off' = load32n buf off'.
Proof. intros. apply load32n_splice_ne; rewrite ?zlen_be4; lia. Qed.

Lemma load32n_range buf off : Forall is_byte buf -> 0 <= load32n buf off < 2 ^ 32.
Proof.
  intros Hb. unfold load32n, be_val.
  assert (length (rev (slice buf off 4)) <= 4)%nat.
  { unfold slice. rewrite length_rev, length_take. lia. }
  pose proof (le_val_range (rev (slice buf off 4))) as [H1 H2].
  { apply Forall_rev. by apply Forall_take, Forall_drop. }
  split; [done|]. eapply Z.lt_le_trans; [exact H2|].
  change (2 ^ 32) with (256 ^ 4). apply Z.pow_le_mono_r; lia.
Qed.

(** The layout of a transport buffer with [room] bytes of payload space. *)
Record msg_layout (buf : list Z) (tr d1 d2 room : Z) : Prop := {
  ml_sz : 0 <= tr /\ 0 <= d1 /\ 0 <= d2 /\ 0 <= room;
  ml_len : zlen buf = 330 + tr + d1 + d2 + room;
  ml_max : zlen buf + 50 < 2 ^ 31;
  ml_l0 : load32n buf 246 = 280;
  ml_l1 : load32n buf 250 = tr;
  ml_l2 : load32n buf 254 = d1;
  ml_l3 : load32n buf 258 = d2
}.

Record mbuf_wf (m : mbuf) (buf : list Z) (tr d1 d2 room : Z) : Prop := {
  mw_buf : m_tp_buf m = Some buf;
  mw_hdr : m_header m = Some TP_HDR_LEN;
  mw_pay : m_payload m = Some (330 + tr + d1 + d2);
  mw_xact : m_xaction m = Some (TP_HDR_LEN + o_xid);
  mw_len : 0 <= m_len m <= room;
  mw_layout : msg_layout buf tr d1 d2 room
}.

(** The space the library tells the application about is there. *)
Definition alloc_ok (m : mbuf) (buf : list Z) : Prop := 0 <= m_alloc_len m <= zlen buf.

Ltac offsets := unfold TP_HDR_LEN, o_mtype, o_plen, o_rmr_ver, o_xid, o_src, o_meid, o_flags, o_len0,
  o_len1, o_len2, o_len3, o_sub_id, o_srcip, sizeof_mhdr, RMR_MAX_SRC, RMR_MAX_XID, RMR_MAX_MEID,
  TP_SZFIELD_LEN in *; znorm.

Section layout.
Context {buf : list Z} {tr d1 d2 room : Z}.
Hypothesis L : msg_layout buf tr d1 d2 room.

Lemma hdr_lens_layout : hdr_lens buf TP_HDR_LEN = Ret (280, tr, d1, d2).
Proof.
  destruct L as [Hs Hl Hm H0 H1 H2 H3]. unfold hdr_lens. offsets.
  rewrite !get32n_ret by lia. simpl. by rewrite H0, H1, H2, H3.
Qed.

Lemma hdr_len_layout : RMR_HDR_LEN buf TP_HDR_LEN = Ret (280 + tr + d1 + d2).
Proof.
  destruct L. unfold RMR_HDR_LEN. rewrite hdr_lens_layout. simpl. f_equal. apply u32_id. lia.
Qed.

Lemma payload_addr_layout : PAYLOAD_ADDR buf TP_HDR_LEN = Ret (330 + tr + d1 + d2).
Proof. unfold PAYLOAD_ADDR. by rewrite hdr_lens_layout. Qed.

Lemma tr_len_layout : RMR_TR_LEN buf TP_HDR_LEN = Ret tr.
Proof. destruct L. unfold RMR_TR_LEN. offsets. rewrite get32n_ret by lia. simpl. by f_equal. Qed.

Lemma d1_len_layout : RMR_D1_LEN buf TP_HDR_LEN = Ret d1.
Proof. destruct L. unfold RMR_D1_LEN. offsets. rewrite get32n_ret by lia. simpl. by f_equal. Qed.

Lemma d2_len_layout : RMR_D2_LEN buf TP_HDR_LEN = Ret d2.
Proof. destruct L. unfold RMR_D2_LEN. offsets. rewrite get32n_ret by lia. simpl. by f_equal. Qed.

Lemma trace_addr_layout : TRACE_ADDR buf TP_HDR_LEN = Ret 330.
Proof.
  destruct L as [? ? ? H0 ? ? ?]. unfold TRACE_ADDR. offsets. rewrite get32n_ret by lia. simpl. by rewrite H0.
Qed.

Lemma data1_addr_layout : DATA1_ADDR buf TP_HDR_LEN = Ret (330 + tr).
Proof.
  destruct L. unfold DATA1_ADDR. offsets. rewrite !get32n_ret by lia. simpl. f_equal. lia.
Qed.

Lemma data2_addr_layout : DATA2_ADDR buf TP_HDR_LEN = Ret (330 + tr + d1).
Proof.
  destruct L. unfold DATA2_ADDR. rewrite data1_addr_layout. offsets. simpl.
  rewrite !get32n_ret by lia. simpl. f_equal. lia.
Qed.

(** Writes outside the four length fields keep the layout. *)
Lemma layout_splice off src :
  0 <= off -> off + zlen src <= zlen buf -> off + zlen src <= 246 \/ 262 <= off ->
  msg_layout (splice buf off src) tr d1 d2 room.
Proof.
  intros Ho Hl Hd. destruct L.
  split; rewrite ?zlen_splice by lia; rewrite ?load32n_splice_ne by lia; done.
Qed.
End layout.

(** ** Writes, as what they keep and what they change *)

(** [b] is [a] with changes only inside [off .. off + n). *)
Definition framed (a b : list Z) (off n : Z) : Prop :=
  zlen b = zlen a /\
  forall o k, 0 <= o -> 0 <= k -> o + k <= off \/ off + n <= o -> slice b o k = slice a o k.

Lemma framed_splice buf off src :
  0 <= off -> off + zlen src <= zlen buf -> framed buf (splice buf off src) off (zlen src).
Proof. intros. split; [by apply zlen_splice|]. intros. apply slice_splice_ne; lia. Qed.

Lemma framed_refl a off n : framed a a off n.
Proof. by split. Qed.

Lemma framed_trans a b c off n off' n' :
  framed a b off n -> framed b c off' n' ->
  forall o k, 0 <= o -> 0 <= k -> (o + k <= off \/ off + n <= o) -> (o + k <= off' \/ off' + n' <= o) ->
  slice c o k = slice a o k.
Proof. intros [_ H1] [_ H2] o k ? ? ? ?. rewrite H2, H1 by done. done. Qed.

Lemma layout_framed buf b off n tr d1 d2 room :
  msg_layout buf tr d1 d2 room -> framed buf b off n -> off + n <= 246 \/ 262 <= off ->
  msg_layout b tr d1 d2 room.
Proof.
  intros L [Hz F] Hd. destruct L. split; rewrite ?Hz; try done; unfold load32n in *; rewrite F by lia; done.
Qed.

Lemma put_ex buf off bytes : 0 <= off -> off + zlen bytes <= zlen buf ->
  exists b, put buf off bytes = Ret b /\ slice b off (zlen bytes) = bytes /\ framed buf b off (zlen bytes).
Proof.
  intros. rewrite put_ret by done. eexists. split; [done|]. split.
  - by apply slice_splice_eq.
  - by apply framed_splice.
Qed.

Lemma put32n_ex buf off v : 0 <= off -> off + 4 <= zlen buf ->
  exists b, put32n buf off v = Ret b /\ load32n b off = u32 v /\ framed buf b off 4.
Proof.
  intros. rewrite put32n_ret by done. eexists. split; [done|]. split.
  - by apply load32n_store.
  - unfold store32n. rewrite <-(zlen_be4 v). apply framed_splice; rewrite ?zlen_be4; lia.
Qed.

Lemma memset_ex buf off v n : 0 <= off -> 0 <= n -> off + n <= zlen buf ->
  exists b, memset buf off v n = Ret b /\ slice b off n = replicate (Z.to_nat n) v /\ framed buf b off n.
Proof.
  intros. rewrite memset_ret by done. eexists. split; [done|].
  set (src := replicate _ _). assert (zlen src = n) as E by by apply zlen_replicate.
  pose proof (slice_splice_eq buf off src). pose proof (framed_splice buf off src).
  rewrite E in *. auto.
Qed.

Lemma memcpy_ex dst doff src soff n :
  0 <= n -> 0 <= doff -> 0 <= soff -> doff + n <= zlen dst -> soff + n <= zlen src ->
  exists b, memcpy dst doff src soff n = Ret b /\ slice b doff n = slice src soff n /\ framed dst b doff n.
Proof.
  intros. rewrite memcpy_ret by done. eexists. split; [done|].
  set (s := slice src soff n). assert (zlen s = n) as E by by apply zlen_slice.
  pose proof (slice_splice_eq dst doff s). pose proof (framed_splice dst doff s).
  rewrite E in *. auto.
Qed.

Lemma slice_sub {A} (a b : list A) o1 o2 n o1' k :
  slice a o1 n = slice b o2 n -> 0 <= o1 -> 0 <= o2 -> 0 <= k -> o1 <= o1' -> o1' + k <= o1 + n ->
  slice a o1' k = slice b (o2 + (o1' - o1)) k.
Proof.
  intros E ? ? ? ? ?. rewrite <-(slice_slice b o2 n) by lia. rewrite <-E, slice_slice by lia.
  f_equal. lia.
Qed.

Ltac frame :=
  repeat match goal with
  | H : forall o k, 0 <= o -> 0 <= k -> _ -> slice ?b o k = _ |- context [slice ?b ?o ?k] =>
      rewrite (H o k) by lia
  end.

(** insert_mlen writes the first 13 bytes; a reader gets the length back from
    either integer. *)
Lemma insert_mlen_ex len buf : 13 <= zlen buf ->
  exists b, insert_mlen len buf = Ret b /\ framed buf b 0 13 /\
    slice b 0 4 = le_bytes 4 len /\ slice b 4 4 = be_bytes 4 len /\ slice b 8 1 = [TP_SZ_MARKER].
Proof.
  intros Hl. unfold insert_mlen. offsets.
  assert (zlen (le_bytes 4 len) = 4) as E4 by (unfold zlen; by rewrite length_le_bytes).
  destruct (put_ex buf 0 (le_bytes 4 len)) as (b1 & -> & S1 & Z1 & F1); [lia..|]. cbn [mbind comp_bind].
  destruct (put_ex b1 4 (be_bytes 4 len)) as (b2 & -> & S2 & Z2 & F2); [rewrite ?zlen_be4; lia..|].
  cbn [mbind comp_bind]. rewrite zlen_be4, E4 in *.
  destruct (memset_ex b2 9 0 4) as (b3 & -> & S3 & Z3 & F3); [lia..|]. cbn [mbind comp_bind].
  destruct (put_ex b3 8 [TP_SZ_MARKER]) as (b4 & -> & S4 & Z4 & F4); [lia|change (zlen [TP_SZ_MARKER]) with 1; lia|].
  change (zlen [TP_SZ_MARKER]) with 1 in *. exists b4. split; [done|]. split; [split; [lia|]|].
  - intros. by frame.
  - split_and!; frame; done.
Qed.

(** The length a sender inserts at the head of the transport header is the
    length a receiver extracts from it, whatever follows in the buffer. *)
Theorem mlen_roundtrip len buf :
  0 <= len < 2 ^ 32 -> 13 <= zlen buf ->
  exists b, insert_mlen len buf = Ret b /\ extract_mlen b = Ret len /\
    forall o k, 13 <= o -> 0 <= k -> slice b o k = slice buf o k.
Proof.
  intros Hlen Hb. destruct (insert_mlen_ex len buf Hb) as (b & E & [Hz F] & S0 & S4 & S8).
  exists b. split; [done|]. split; [|intros; apply F; lia].
  unfold extract_mlen. rewrite (get8_lookup b 8 TP_SZ_MARKER); [|lia|].
  2: { pose proof (slice_lookup b 8 1 0 ltac:(lia) ltac:(lia)) as H. rewrite S8 in H. simpl in H. done. }
  simpl. rewrite get32n_ret by lia. simpl. unfold load32, load32n. rewrite S0, S4.
  rewrite le_val_bytes, be_val_bytes. change (256 ^ Z.of_nat 4) with (2 ^ 32). rewrite Z.mod_small by lia.
  by rewrite Z.eqb_refl.
Qed.

Lemma mlen_roundtrip_witness :
  exists b, insert_mlen 4321 (replicate 60 7) = Ret b /\ extract_mlen b = Ret 4321.
Proof.
  edestruct (mlen_roundtrip 4321 (replicate 60 7)) as (b & E1 & E2 & _);
    [lia|vm_compute; discriminate|]. exists b. split; [exact E1|exact E2].
Defined.

(** Whatever the transport header holds, the length that is used is the
    native order integer: the one in network order never decides, also when it
    is marked as present. *)
Theorem extract_mlen_is_native buf v : extract_mlen buf = Ret v -> v = load32 buf 0.
Proof.
  unfold extract_mlen. intros (m & _ & H)%comp_bind_ret. destruct (m =? TP_SZ_MARKER); [|naive_solver].
  apply comp_bind_ret in H as (s & _ & H). destruct (Z.eqb_spec (load32 buf 0) s); simpl in H; naive_solver.
Qed.

Lemma extract_mlen_is_native_witness :
  exists v, extract_mlen (be_bytes 4 100 ++ be_bytes 4 100 ++ [36]) = Ret v /\
    v = load32 (be_bytes 4 100 ++ be_bytes 4 100 ++ [36]) 0 /\ v <> 100.
Proof.
  exists 1677721600. split; [vm_compute; reflexivity|]. split; [|discriminate].
  apply extract_mlen_is_native. vm_compute; reflexivity.
Defined.

(** ** Allocation *)

Section alloc_thms.
Variable malloc_bytes : Z -> list Z.
Hypothesis malloc_len : forall n, 0 <= n -> zlen (malloc_bytes n) = n.

(** A context whose default lengths are sane, for a payload of [psize] bytes. *)
Record ctx_ok (ctx : msg_ctx) (psize : Z) : Prop := {
  co_tr : 0 <= x_trace_data_len ctx;
  co_d1 : 0 <= x_d1_len ctx;
  co_d2 : x_d2_len ctx = 0;
  co_p : 0 <= psize;
  co_max : 380 + x_trace_data_len ctx + x_d1_len ctx + psize < 2 ^ 31;
  co_name : is_cstr (x_my_name ctx);
  co_ip : is_cstr (x_my_ip ctx)
}.

Lemma is_cstr_nil s : is_cstr s -> is_cstr (cstr_of (s ++ [0])).
Proof. intros H. by rewrite cstr_of_app_nil. Qed.

(** The part of alloc_zcmsg that fills the transport buffer. *)
Lemma fill_header ctx buf mlen :
  0 <= x_trace_data_len ctx < 2 ^ 31 -> 0 <= x_d1_len ctx < 2 ^ 31 ->
  is_cstr (x_my_name ctx) -> is_cstr (x_my_ip ctx) -> 330 <= zlen buf ->
  exists b1 b2 b3 b4 b5 b6 b7 n8 b8 n9 b9,
    insert_mlen mlen buf = Ret b1 /\ memset b1 50 0 280 = Ret b2 /\
    put32n b2 58 3 = Ret b3 /\ put32n b3 262 (-1) = Ret b4 /\
    put32n b4 246 280 = Ret b5 /\ put32n b5 250 (x_trace_data_len ctx) = Ret b6 /\
    put32n b6 254 (x_d1_len ctx) = Ret b7 /\
    zt_buf_fill b7 126 (x_my_name ctx ++ [0]) 64 = Ret (n8, b8) /\
    zt_buf_fill b8 266 (x_my_ip ctx ++ [0]) 64 = Ret (n9, b9) /\
    zlen b7 = zlen buf /\ zlen b9 = zlen buf /\
    (forall b, b = b7 \/ b = b9 -> load32n b 246 = 280 /\ load32n b 250 = x_trace_data_len ctx /\
       load32n b 254 = x_d1_len ctx /\ load32n b 258 = 0) /\
    load32n b9 58 = 3 /\ load32n b9 262 = 2 ^ 32 - 1 /\
    slice b9 62 32 = replicate 32 0 /\ slice b9 190 32 = replicate 32 0 /\
    cstr_of (slice b9 126 64) = take 63 (x_my_name ctx) /\
    cstr_of (slice b9 266 64) = take 63 (x_my_ip ctx).
Proof.
  intros Ht Hd1 Hn Hip Hl.
  destruct (insert_mlen_ex mlen buf ltac:(lia)) as (b1 & E1 & [Z1 F1] & _).
  destruct (memset_ex b1 50 0 280) as (b2 & E2 & S2 & Z2 & F2); [lia..|].
  destruct (put32n_ex b2 58 3) as (b3 & E3 & V3 & Z3 & F3); [lia..|].
  destruct (put32n_ex b3 262 (-1)) as (b4 & E4 & V4 & Z4 & F4); [lia..|].
  destruct (put32n_ex b4 246 280) as (b5 & E5 & V5 & Z5 & F5); [lia..|].
  destruct (put32n_ex b5 250 (x_trace_data_len ctx)) as (b6 & E6 & V6 & Z6 & F6); [lia..|].
  destruct (put32n_ex b6 254 (x_d1_len ctx)) as (b7 & E7 & V7 & Z7 & F7); [lia..|].
  destruct (zt_buf_fill_ex b7 126 (x_my_name ctx ++ [0]) 64) as (n8 & b8 & E8 & V8 & _ & _ & Z8 & F8);
    [lia..|left; apply in_app_iff; simpl; tauto|by apply is_cstr_nil|].
  destruct (zt_buf_fill_ex b8 266 (x_my_ip ctx ++ [0]) 64) as (n9 & b9 & E9 & V9 & _ & _ & Z9 & F9);
    [lia..|left; apply in_app_iff; simpl; tauto|by apply is_cstr_nil|].
  rewrite cstr_of_app_nil in V8, V9 by done.
  rewrite u32_id in V3, V5, V6, V7 by lia. change (u32 (-1)) with (2 ^ 32 - 1) in V4.
  assert (forall o k, 50 <= o -> 0 <= k -> o + k <= 330 -> slice b2 o k = replicate (Z.to_nat k) 0) as S2'.
  { intros o k ? ? ?. replace o with (50 + (o - 50)) by lia. rewrite <-(slice_slice b2 50 280) by lia.
    rewrite S2. unfold slice. rewrite drop_replicate, take_replicate. f_equal. lia. }
  exists b1, b2, b3, b4, b5, b6, b7, n8, b8, n9, b9. unfold load32n in *.
  split_and!; try done; try lia.
  - intros b [->| ->]; frame; rewrite ?S2' by lia; split_and!; done.
  - by frame.
  - by frame.
  - frame. by rewrite S2' by lia.
  - frame. by rewrite S2' by lia.
  - by frame.
Qed.

Definition psize_of (ctx : msg_ctx) (size : Z) : Z := if 0 <? size then size else x_max_plen ctx.

(** A fresh message: the fields of the mbuf and of the header. *)
Record fresh_msg (ctx : msg_ctx) (state psize : Z) (m : mbuf) (buf : list Z) : Prop := {
  fm_wf : mbuf_wf m buf (x_trace_data_len ctx) (x_d1_len ctx) 0 psize;
  fm_alloc : m_alloc_len m = zlen buf;
  fm_state : m_state m = state /\ m_mtype m = UNSET_MSGTYPE /\ m_sub_id m = UNSET_SUBID /\
             m_len m = 0 /\ m_flags m = MFL_ZEROCOPY /\ m_rts_fd m = -1;
  fm_ver : load32n buf (TP_HDR_LEN + o_rmr_ver) = RMR_MSG_VER;
  fm_ids : slice buf (TP_HDR_LEN + o_xid) 32 = replicate 32 0 /\
           slice buf (TP_HDR_LEN + o_meid) 32 = replicate 32 0;
  fm_src : cstr_of (slice buf (TP_HDR_LEN + o_src) 64) = take 63 (x_my_name ctx);
  fm_srcip : cstr_of (slice buf (TP_HDR_LEN + o_srcip) 64) = take 63 (x_my_ip ctx)
}.

Lemma alloc_zcmsg_fresh ctx size state trlo :
  trlo <= 0 -> ctx_ok ctx (psize_of ctx size) ->
  exists m buf, alloc_zcmsg malloc_bytes ctx None None size state trlo = Ret m /\
    fresh_msg ctx state (psize_of ctx size) m buf.
Proof.
  intros Htr [Ht Hd1 Hd2 Hp Hmax Hn Hip]. unfold alloc_zcmsg.
  destruct (Z.ltb_spec 0 trlo) as [?|_]; [lia|]. fold (psize_of ctx size). rewrite Hd2.
  set (ps := psize_of ctx size) in *. offsets. rewrite (u64_id (_ + 0)) by lia.
  rewrite (u64_id (_ + ps)) by lia. rewrite u64_id by lia. set (mlen := _ + 50).
  cbn [m_alloc_len mbuf0]. change (0 =? 0) with true. cbn [deref mbind comp_bind].
  destruct (fill_header ctx (malloc_bytes mlen) (u32 mlen))
    as (b1 & b2 & b3 & b4 & b5 & b6 & b7 & n8 & b8 & n9 & b9 & -> & H); [lia|lia|done|done| |].
  { rewrite malloc_len; lia. }
  cbn [mbind comp_bind]. rewrite malloc_len in H by lia.
  destruct H as (-> & H). cbn [mbind comp_bind]. unfold RMR_MSG_VER, UNSET_SUBID, SET_HDR_LEN,
    SET_HDR_TR_LEN, SET_HDR_D1_LEN in *. offsets.
  destruct H as (-> & H). cbn [mbind comp_bind]. destruct H as (-> & H). cbn [mbind comp_bind].
  destruct H as (-> & H). cbn [mbind comp_bind]. destruct H as (-> & H). cbn [mbind comp_bind].
  destruct H as (-> & E8 & E9 & Z7 & Z9 & HL & Hver & Hsid & Hx & Hm & Hs & Hi). cbn [mbind comp_bind].
  destruct (HL b7) as (L0 & L1 & L2 & L3); [by left|].
  destruct (HL b9) as (L0' & L1' & L2' & L3'); [by right|].
  assert (msg_layout b7 (x_trace_data_len ctx) (x_d1_len ctx) 0 ps) as Lay7 by (split; try done; lia).
  assert (msg_layout b9 (x_trace_data_len ctx) (x_d1_len ctx) 0 ps) as Lay9 by (split; try done; lia).
  pose proof (payload_addr_layout Lay7) as EP. unfold TP_HDR_LEN in EP. rewrite EP.
  cbn [mbind comp_bind]. rewrite E8. cbn [mbind comp_bind]. rewrite E9. cbn [mbind comp_bind].
  eexists _, b9. split; [done|]. split; cbn; offsets; try done.
  rewrite i32_id by (unfold in_i32; lia). lia.
Qed.

Lemma payload_size_wf m buf tr d1 d2 room :
  mbuf_wf m buf tr d1 d2 room -> alloc_ok m buf -> 330 + tr + d1 + d2 <= m_alloc_len m ->
  rmr_payload_size (Some m) = Ret (m_alloc_len m - (330 + tr + d1 + d2)).
Proof.
  intros [Eb Eh _ _ _ L] Ha Hmin. unfold alloc_ok in Ha. pose proof (ml_max _ _ _ _ _ L).
  destruct (ml_sz _ _ _ _ _ L) as (? & ? & ? & ?).
  unfold rmr_payload_size. rewrite Eh, Eb. cbn [deref mbind comp_bind].
  rewrite (hdr_len_layout L). cbn [mbind comp_bind]. f_equal.
  unfold TP_HDR_LEN. rewrite u32_id, i32_id by (unfold in_i32; lia). lia.
Qed.

End alloc_thms.

(** rmr_alloc_msg gives a message whose payload space is the requested
    size (the size set at initialisation when 0 is asked for), which is the
    space rmr_payload_size reports and which ends with the buffer; type,
    subscription id and ids are unset, and the header carries the version, our
    name and our address, each cut to its field. *)
Theorem alloc_msg_payload malloc_bytes ctx size :
  (forall n, 0 <= n -> zlen (malloc_bytes n) = n) -> ctx_ok ctx (psize_of ctx size) ->
  exists m buf, rmr_alloc_msg malloc_bytes (Some ctx) None size = Ret (Some m) /\
    fresh_msg ctx RMR_OK (psize_of ctx size) m buf /\
    rmr_payload_size (Some m) = Ret (psize_of ctx size).
Proof.
  intros Hm Hc. destruct (alloc_zcmsg_fresh malloc_bytes Hm ctx size 0 (-1)) as (m & buf & E & F); [lia|done|].
  exists m, buf. unfold rmr_alloc_msg. rewrite E. cbn [mbind comp_bind]. split_and!; [done|done|].
  pose proof (mw_layout _ _ _ _ _ _ (fm_wf _ _ _ _ _ F)) as L. pose proof (ml_len _ _ _ _ _ L).
  pose proof (ml_sz _ _ _ _ _ L). pose proof (fm_alloc _ _ _ _ _ F).
  rewrite (payload_size_wf _ _ _ _ _ _ (fm_wf _ _ _ _ _ F)); unfold alloc_ok; [f_equal|..]; lia.
Qed.

(** A context like the one initialisation builds, used by the witnesses. *)
Definition ctx0 : msg_ctx := MkMsgCtx 64 20 4 0 $"host:4560" $"10.0.0.1:4560".

Definition junk (n : Z) : list Z := replicate (Z.to_nat n) 165.

Lemma junk_len n : 0 <= n -> zlen (junk n) = n.
Proof. apply zlen_replicate. Qed.

Lemma ctx0_ok size : psize_of ctx0 size <= 1000 -> 0 <= psize_of ctx0 size -> ctx_ok ctx0 (psize_of ctx0 size).
Proof.
  intros ? ?. split; cbn; try lia; apply (bool_decide_unpack _); vm_compute; exact I.
Qed.

Lemma alloc_msg_payload_witness :
  exists m, rmr_alloc_msg junk (Some ctx0) None 100 = Ret (Some m) /\ rmr_payload_size (Some m) = Ret 100.
Proof.
  edestruct (alloc_msg_payload junk ctx0 100) as (m & buf & E & _ & P); [apply junk_len|apply ctx0_ok; vm_compute; discriminate|].
  exists m. split; [exact E|exact P].
Defined.

(** ** Reallocation for a different trace length *)

(** Everything of the header but the trace length, the two data sections and
    the used payload are the same in the two buffers. *)
Record same_content (buf nbuf : list Z) (tr tr' d1 d2 len : Z) : Prop := {
  sc_head : forall o k, TP_HDR_LEN <= o -> 0 <= k -> o + k <= 250 -> slice nbuf o k = slice buf o k;
  sc_tail : forall o k, 254 <= o -> 0 <= k -> o + k <= 330 -> slice nbuf o k = slice buf o k;
  sc_d1 : slice nbuf (330 + tr') d1 = slice buf (330 + tr) d1;
  sc_d2 : slice nbuf (330 + tr' + d1) d2 = slice buf (330 + tr + d1) d2;
  sc_pay : slice nbuf (330 + tr' + d1 + d2) len = slice buf (330 + tr + d1 + d2) len
}.

Lemma copy_data_spec nbuf buf tr tr' d1 d2 room room' :
  msg_layout buf tr d1 d2 room -> msg_layout nbuf tr' d1 d2 room' ->
  exists b, copy_data nbuf TP_HDR_LEN buf TP_HDR_LEN = Ret b /\
    msg_layout b tr' d1 d2 room' /\ framed nbuf b (330 + tr') (d1 + d2) /\
    slice b (330 + tr') d1 = slice buf (330 + tr) d1 /\
    slice b (330 + tr' + d1) d2 = slice buf (330 + tr + d1) d2.
Proof.
  intros L L'. destruct (ml_sz _ _ _ _ _ L) as (? & ? & ? & ?). pose proof (ml_len _ _ _ _ _ L).
  destruct (ml_sz _ _ _ _ _ L') as (? & ? & ? & ?). pose proof (ml_len _ _ _ _ _ L').
  unfold copy_data. rewrite (d1_len_layout L'). cbn [mbind comp_bind].
  assert (exists b1, (if d1 =? 0 then Ret nbuf
         else dst ← DATA1_ADDR nbuf TP_HDR_LEN; src ← DATA1_ADDR buf TP_HDR_LEN; memcpy nbuf dst buf src d1) = Ret b1 /\
         msg_layout b1 tr' d1 d2 room' /\ framed nbuf b1 (330 + tr') d1 /\
         slice b1 (330 + tr') d1 = slice buf (330 + tr) d1) as (b1 & -> & L1 & [Z1 F1] & S1).
  { destruct (Z.eqb_spec d1 0) as [->|].
    { exists nbuf. split_and!; try done. }
    rewrite (data1_addr_layout L'), (data1_addr_layout L). cbn [mbind comp_bind].
    rewrite memcpy_ret by lia. eexists. split; [done|].
    assert (zlen (slice buf (330 + tr) d1) = d1) as E by (apply zlen_slice; lia). split_and!.
    - apply layout_splice; [done|lia..].
    - rewrite <-E at 2. apply framed_splice; lia.
    - rewrite <-E at 2. apply slice_splice_eq; lia. }
  cbn [mbind comp_bind]. rewrite (d2_len_layout L1). cbn [mbind comp_bind].
  destruct (Z.eqb_spec d2 0) as [->|].
  { exists b1. split_and!; try done. split; [done|]. intros. apply F1; lia. }
  rewrite (data2_addr_layout L1), (data2_addr_layout L). cbn [mbind comp_bind].
  assert (zlen (slice buf (330 + tr + d1) d2) = d2) as E by (apply zlen_slice; lia).
  rewrite memcpy_ret by lia. eexists. split; [done|].
  assert (slice (splice b1 (330 + tr' + d1) (slice buf (330 + tr + d1) d2)) (330 + tr' + d1) d2
          = slice buf (330 + tr + d1) d2) as S2.
  { rewrite <-E at 2. apply slice_splice_eq; lia. }
  split_and!.
  - apply layout_splice; [done|lia..].
  - split; [rewrite zlen_splice; lia|]. intros. rewrite slice_splice_ne by lia. apply F1; lia.
  - rewrite slice_splice_ne by lia. done.
  - done.
Qed.

Section realloc.
Variable malloc_bytes : Z -> list Z.
Hypothesis malloc_len : forall n, 0 <= n -> zlen (malloc_bytes n) = n.
Context (m : mbuf) (buf : list Z) (tr d1 d2 room : Z).
Hypothesis W : mbuf_wf m buf tr d1 d2 room.

Lemma realloc_msg_spec tr' :
  0 <= tr' -> 330 + tr + d1 + d2 + m_len m <= m_alloc_len m ->
  m_alloc_len m + tr' + 100 < 2 ^ 31 ->
  exists nm nbuf, realloc_msg malloc_bytes m tr' = Ret nm /\
    mbuf_wf nm nbuf tr' d1 d2 (m_alloc_len m - (330 + tr + d1 + d2) + 50) /\
    same_content buf nbuf tr tr' d1 d2 (m_len m) /\
    m_alloc_len nm = m_alloc_len m + (tr' - tr) /\ m_mtype nm = m_mtype m /\
    m_sub_id nm = m_sub_id m /\ m_len nm = m_len m /\ m_state nm = m_state m.
Proof.
  intros Htr' Hfit Hmax. destruct W as [Eb Eh Ep Ex Hlen L].
  destruct (ml_sz _ _ _ _ _ L) as (? & ? & ? & ?). pose proof (ml_len _ _ _ _ _ L) as Hbl.
  pose proof (ml_max _ _ _ _ _ L).
  unfold realloc_msg. rewrite Eb, Eh, Ep. cbn [deref mbind comp_bind].
  rewrite (tr_len_layout L). cbn [mbind comp_bind]. rewrite (i32_id tr) by (unfold in_i32; lia).
  set (al := m_alloc_len m) in *. rewrite (u64_id (al + _)) by lia.
  rewrite (i32_id (_ + TP_HDR_LEN)) by (unfold in_i32, TP_HDR_LEN; lia).
  change (al + (tr' - tr) + TP_HDR_LEN) with (al + (tr' - tr) + 50). set (tpb := al + (tr' - tr) + 50).
  rewrite (u64_id tpb) by lia.
  assert (zlen (malloc_bytes tpb) = tpb) as Zm by (apply malloc_len; lia).
  destruct (insert_mlen_ex (u32 tpb) (malloc_bytes tpb)) as (b1 & -> & [Z1 F1] & _); [lia|].
  cbn [mbind comp_bind].
  destruct (memcpy_ex b1 50 buf 50 280) as (b2 & E2 & S2 & Z2 & F2); [lia..|].
  change (memcpy b1 TP_HDR_LEN buf TP_HDR_LEN sizeof_mhdr) with (memcpy b1 50 buf 50 280).
  rewrite E2. cbn [mbind comp_bind].
  change (SET_HDR_TR_LEN b2 TP_HDR_LEN tr') with (put32n b2 250 tr').
  destruct (put32n_ex b2 250 tr') as (b3 & -> & V3 & Z3 & F3); [lia..|]. cbn [mbind comp_bind].
  rewrite u32_id in V3 by lia.
  assert (forall o k, 50 <= o -> 0 <= k -> o + k <= 330 -> slice b2 o k = slice buf o k) as S2'.
  { intros o k ? ? ?. rewrite (slice_sub b2 buf 50 50 280 o k) by (done || lia). f_equal. lia. }
  assert (msg_layout b3 tr' d1 d2 (al - (330 + tr + d1 + d2) + 50)) as L3.
  { split; try lia; unfold load32n; frame; rewrite S2' by lia; apply L. }
  destruct (copy_data_spec b3 buf tr tr' d1 d2 _ _ L L3) as (b4 & -> & L4 & [Z4 F4] & SD1 & SD2).
  cbn [mbind comp_bind]. rewrite (payload_addr_layout L4). cbn [mbind comp_bind].
  destruct (memcpy_ex b4 (330 + tr' + d1 + d2) buf (330 + tr + d1 + d2) (m_len m)) as (b5 & -> & S5 & Z5 & F5);
    [lia..|]. cbn [mbind comp_bind].
  assert (forall o k, 50 <= o -> 0 <= k -> o + k <= 250 \/ 254 <= o /\ o + k <= 330 ->
    slice b5 o k = slice buf o k) as Hhdr. { intros. frame. apply S2'; lia. }
  eexists _, b5. split; [done|]. split_and!; try done.
  - split; cbn; try done; [lia|]. eapply layout_framed; [exact L4|split; eassumption|lia].
  - split; cbn; try done.
    + intros. apply Hhdr; unfold TP_HDR_LEN in *; lia.
    + intros. apply Hhdr; lia.
    + rewrite F5 by lia. done.
    + rewrite F5 by lia. done.
  - cbn. rewrite i32_id by (unfold in_i32; lia). done.
Qed.
End realloc.

Lemma same_content_framed buf b1 b2 tr tr' d1 d2 len :
  0 <= tr' -> 0 <= d1 -> 0 <= d2 -> 0 <= len ->
  same_content buf b1 tr tr' d1 d2 len -> framed b1 b2 330 tr' -> same_content buf b2 tr tr' d1 d2 len.
Proof.
  intros ? ? ? ? [? ? ? ? ?] [_ F]. unfold TP_HDR_LEN in *.
  split; intros; unfold TP_HDR_LEN in *; rewrite F by lia; auto.
Qed.

Lemma get_trace_spec m buf tr d1 d2 room dest size :
  mbuf_wf m buf tr d1 d2 room -> 1 <= size -> size <= tr -> size <= zlen dest ->
  rmr_get_trace (Some m) (Some dest) size = Ret (size, Some (splice dest 0 (slice buf 330 size))).
Proof.
  intros [Eb Eh _ _ _ L] Hs Htr Hd. destruct (ml_sz _ _ _ _ _ L) as (? & ? & ? & ?).
  pose proof (ml_len _ _ _ _ _ L). pose proof (ml_max _ _ _ _ _ L).
  unfold rmr_get_trace. rewrite Eb, Eh. destruct (Z.leb_spec size 0); [lia|].
  cbn [deref mbind comp_bind]. rewrite (tr_len_layout L). cbn [mbind comp_bind].
  rewrite u32_id by lia. replace (if size <? tr then size else tr) with size by (zcases; lia).
  rewrite i32_id by (unfold in_i32; lia). destruct (Z.leb_spec size 0); [lia|].
  rewrite (trace_addr_layout L). cbn [mbind comp_bind]. rewrite memcpy_ret by lia. done.
Qed.

(** C37.  Trace data that is set is the trace data that is read back, also when
    the buffer has to be reallocated for another trace size; message fields,
    every other header field, the data sections and the used payload are kept,
    and payload and transaction pointers are again right for the new buffer. *)
Theorem set_trace_roundtrip malloc_bytes m buf tr d1 d2 room data dest size :
  (forall n, 0 <= n -> zlen (malloc_bytes n) = n) ->
  mbuf_wf m buf tr d1 d2 room -> 330 + tr + d1 + d2 + m_len m <= m_alloc_len m ->
  m_alloc_len m + size + 100 < 2 ^ 31 -> 1 <= size -> size <= zlen data -> size <= zlen dest ->
  exists m' nbuf room',
    rmr_set_trace malloc_bytes (Some m) data size = Ret (size, Some m') /\
    rmr_get_trace (Some m') (Some dest) size = Ret (size, Some (splice dest 0 (slice data 0 size))) /\
    mbuf_wf m' nbuf size d1 d2 room' /\ same_content buf nbuf tr size d1 d2 (m_len m) /\
    m_mtype m' = m_mtype m /\ m_sub_id m' = m_sub_id m /\ m_len m' = m_len m /\ m_state m' = m_state m.
Proof.
  intros Hm W Hfit Hmax Hs Hdata Hdest. pose proof W as [Eb Eh Ep Ex Hlen L].
  pose proof (ml_max _ _ _ _ _ L). pose proof (ml_sz _ _ _ _ _ L). pose proof (ml_len _ _ _ _ _ L).
  unfold rmr_set_trace, set_trace_with. destruct (Z.leb_spec size 0) as [?|_]; [lia|]. rewrite Eh, Eb.
  cbn [deref mbind comp_bind]. rewrite (tr_len_layout L). cbn [mbind comp_bind].
  rewrite (i32_id tr) by (unfold in_i32; lia).
  match goal with |- context [?x ≫= _] => assert (exists m1 b1 room1, x = Ret m1 /\
    mbuf_wf m1 b1 size d1 d2 room1 /\ same_content buf b1 tr size d1 d2 (m_len m) /\
    m_mtype m1 = m_mtype m /\ m_sub_id m1 = m_sub_id m /\ m_len m1 = m_len m /\ m_state m1 = m_state m)
    as (m1 & b1 & room1 & -> & W1 & S1 & ? & ? & Hl1 & ?) end.
  { destruct (Z.eqb_spec tr size) as [->|]; cbn [negb].
    { exists m, buf, room. split_and!; try done. }
    destruct (realloc_msg_spec malloc_bytes Hm m buf tr d1 d2 room W size) as
      (nm & nb & -> & Wn & Sn & _ & _ & _ & El & _); [lia..|]. cbn [mbind comp_bind].
    eexists _, nb, _. split; [done|]. split_and!; try done.
    destruct Wn as [? ? ? ? Hln ?]. rewrite El in Hln. by split. }
  cbn [mbind comp_bind]. destruct W1 as [Eb1 Eh1 Ep1 Ex1 Hlen1 L1]. rewrite Eb1, Eh1.
  cbn [deref mbind comp_bind]. rewrite (trace_addr_layout L1). cbn [mbind comp_bind].
  pose proof (ml_len _ _ _ _ _ L1). pose proof (ml_sz _ _ _ _ _ L1).
  destruct (memcpy_ex b1 330 data 0 size) as (b2 & -> & S2 & F2); [lia..|]. cbn [mbind comp_bind].
  assert (mbuf_wf (set_tp_buf (Some b2) m1) b2 size d1 d2 room1) as W2.
  { split; cbn; try done. eapply layout_framed; [exact L1|exact F2|lia]. }
  exists (set_tp_buf (Some b2) m1), b2, room1. split_and!; try done.
  - rewrite (get_trace_spec _ _ _ _ _ _ _ _ W2) by lia. by rewrite S2.
  - eapply same_content_framed; [lia..| |exact F2]. done.
Qed.

(** Messages for the witnesses. *)
Definition comp_get {A} (d : A) (c : comp A) : A := match c with Ret a => a | UB => d end.
Definition msg0 (size : Z) : mbuf := comp_get mbuf0 (alloc_zcmsg junk ctx0 None None size 0 (-1)).

Lemma msg0_fresh size : psize_of ctx0 size <= 1000 -> 0 <= psize_of ctx0 size ->
  fresh_msg ctx0 0 (psize_of ctx0 size) (msg0 size) (default [] (m_tp_buf (msg0 size))).
Proof.
  intros Ha Hb.
  destruct (alloc_zcmsg_fresh junk junk_len ctx0 size 0 (-1)) as (m & buf & E & F); [lia|by apply ctx0_ok|].
  unfold msg0. rewrite E. cbn [comp_get]. pose proof (mw_buf _ _ _ _ _ _ (fm_wf _ _ _ _ _ F)) as ->. done.
Qed.

Lemma set_trace_roundtrip_witness :
  exists m', rmr_set_trace junk (Some (msg0 100)) $"trace-data-25-bytes-long!" 25 = Ret (25, Some m') /\
    rmr_get_trace (Some m') (Some (replicate 25 0)) 25 = Ret (25, Some $"trace-data-25-bytes-long!").
Proof.
  pose proof (msg0_fresh 100 ltac:(vm_compute; discriminate) ltac:(vm_compute; discriminate)) as F.
  edestruct (set_trace_roundtrip junk (msg0 100) (default [] (m_tp_buf (msg0 100))) 20 4 0 100
    $"trace-data-25-bytes-long!" (replicate 25 0) 25) as (m' & nb & r & E1 & E2 & _);
    [apply junk_len|apply (fm_wf _ _ _ _ _ F)|vm_compute; discriminate|vm_compute; reflexivity
    |lia|vm_compute; discriminate|vm_compute; discriminate|].
  exists m'. split; [exact E1|exact E2].
Defined.

(** rmr_set_trace with less data than the message had keeps the old
    allocated length although the reallocated buffer is smaller: a message with
    100 bytes of trace space and a payload of 64 reports, after 10 bytes of trace
    were set, a payload of 154 bytes where the buffer has 114. *)
Theorem set_trace_shrink_overstates_payload :
  exists m m' buf' p,
    rmr_alloc_msg junk (Some (MkMsgCtx 64 100 4 0 $"host:4560" $"10.0.0.1:4560")) None 64 = Ret (Some m) /\
    rmr_payload_size (Some m) = Ret 64 /\
    rmr_set_trace junk (Some m) (replicate 10 1) 10 = Ret (10, Some m') /\
    rmr_payload_size (Some m') = Ret 154 /\
    m_tp_buf m' = Some buf' /\ m_payload m' = Some p /\ zlen buf' - p = 114.
Proof.
  set (m := comp_get mbuf0 (alloc_zcmsg junk (MkMsgCtx 64 100 4 0 $"host:4560" $"10.0.0.1:4560") None None 64 0 (-1))).
  set (m' := default mbuf0 (comp_get (0, None) (rmr_set_trace junk (Some m) (replicate 10 1) 10)).2).
  exists m, m', (default [] (m_tp_buf m')), 344.
  split_and!; vm_compute; reflexivity.
Qed.

(** rmr_tralloc_msg sizes the buffer with the requested trace length but
    writes the default one into the header.  Asked for 100 payload bytes and 10
    trace bytes where the default is 100, it returns a message in state RMR_OK
    that reports a payload of 100 and has room for 60; where the default is 200
    it writes outside the buffer it allocates. *)
Theorem tralloc_short_payload :
  (exists m buf p,
    rmr_tralloc_msg junk (Some (MkMsgCtx 64 100 4 0 $"host:4560" $"10.0.0.1:4560")) None 100 10 (replicate 10 1)
      = Ret (Some m) /\
    m_state m = RMR_OK /\ rmr_payload_size (Some m) = Ret 100 /\
    m_tp_buf m = Some buf /\ m_payload m = Some p /\ zlen buf - p = 60) /\
  rmr_tralloc_msg junk (Some (MkMsgCtx 64 200 4 0 $"host:4560" $"10.0.0.1:4560")) None 100 10 (replicate 10 1) = UB.
Proof.
  split; [|vm_compute; reflexivity].
  set (m := default mbuf0 (comp_get None
    (rmr_tralloc_msg junk (Some (MkMsgCtx 64 100 4 0 $"host:4560" $"10.0.0.1:4560")) None 100 10 (replicate 10 1)))).
  exists m, (default [] (m_tp_buf m)), 344. split_and!; vm_compute; reflexivity.
Qed.

(** ** The id fields *)

(** A message whose buffer changed only inside the header field [off .. off+n). *)
Definition only_field (m m' : mbuf) (buf buf' : list Z) (off n : Z) : Prop :=
  m' = set_tp_buf (Some buf') m /\ framed buf buf' off n.

Lemma wf_only_field m m' buf buf' tr d1 d2 room off n :
  mbuf_wf m buf tr d1 d2 room -> only_field m m' buf buf' off n -> off + n <= 246 \/ 262 <= off ->
  mbuf_wf m' buf' tr d1 d2 room.
Proof.
  intros [Eb Eh Ep Ex Hl L] [-> F] Hd. split; cbn; try done. by eapply layout_framed.
Qed.

Lemma framed_weaken a b off n off' n' :
  framed a b off n -> off' <= off -> off + n <= off' + n' -> framed a b off' n'.
Proof. intros [? F] ? ?. split; [done|]. intros. apply F; lia. Qed.

(** A field that starts with a nil terminated string. *)
Lemma cstr_of_field b off n s :
  0 <= off -> zlen s + 1 <= n -> is_cstr s -> slice b off (zlen s + 1) = s ++ [0] -> cstr_of (slice b off n) = s.
Proof.
  intros ? ? Hs E. pose proof (zlen_nonneg s).
  replace n with ((zlen s + 1) + (n - (zlen s + 1))) by lia.
  rewrite slice_split, E, <-app_assoc by lia. by apply cstr_of_app_nil.
Qed.

(** The bytes copied into a message field of 32 bytes, from a nil terminated
    string that fits. *)
Lemma field_copy buf off s :
  0 <= off -> off + 32 <= zlen buf -> zlen s < 32 ->
  exists b, memcpy buf off (s ++ [0]) 0 (zlen s + 1) = Ret b /\
    slice b off (zlen s + 1) = s ++ [0] /\ framed buf b off (zlen s + 1).
Proof.
  intros. assert (zlen (s ++ [0]) = zlen s + 1) as Zs by (rewrite zlen_app; done).
  pose proof (zlen_nonneg s).
  destruct (memcpy_ex buf off (s ++ [0]) 0 (zlen s + 1)) as (b & -> & S1 & F1); [lia..|].
  exists b. split_and!; try done. by rewrite S1, <-Zs, slice_all.
Qed.

Lemma get8_ret b off c : 0 <= off -> slice b off 1 = [c] -> get8 b off = Ret c.
Proof.
  intros Ho E. pose proof (slice_lookup b off 1 0 Ho ltac:(lia)) as Hl.
  rewrite E, Nat.add_0_r in Hl. simpl in Hl. symmetry in Hl. apply (get8_lookup b off c Ho Hl).
Qed.

Lemma bytes2meid_str m buf tr d1 d2 room s :
  mbuf_wf m buf tr d1 d2 room -> is_cstr s -> zlen s < 32 ->
  exists buf', rmr_bytes2meid (Some m) (Some (s ++ [0])) (zlen s + 1) =
      Ret (zlen s + 1, false, Some (set_tp_buf (Some buf') m)) /\
    framed buf buf' 190 32 /\ slice buf' 190 (zlen s + 1) = s ++ [0].
Proof.
  intros [Eb Eh Ep Ex Hl L] Hs Hlen. pose proof (ml_len _ _ _ _ _ L). pose proof (ml_sz _ _ _ _ _ L).
  pose proof (zlen_nonneg s). unfold rmr_bytes2meid. rewrite Eh, Eb. cbn [deref mbind comp_bind]. offsets.
  destruct (Z.ltb_spec 32 (zlen s + 1)); [lia|].
  destruct (field_copy buf 190 s) as (b1 & -> & S1 & F1); [lia..|]. cbn [mbind comp_bind].
  destruct (Z.eqb_spec (zlen s + 1) 32) as [E|E].
  - assert (slice b1 (190 + (zlen s + 1) - 1) 1 = [0]) as S0.
    { replace (190 + (zlen s + 1) - 1) with (190 + zlen s) by lia.
      rewrite slice_split in S1 by lia. apply app_inj_2 in S1 as [_ ->]; [done|].
      destruct F1 as [HZ _]. apply Nat2Z.inj. apply (zlen_slice b1 (190 + zlen s) 1); lia. }
    rewrite (get8_ret b1 (190 + (zlen s + 1) - 1) 0) by (exact S0 || lia). cbn [mbind comp_bind].
    exists b1. split_and!; try done. eapply framed_weaken; [exact F1|lia|lia].
  - destruct F1 as [Z1 F1].
    destruct (put_ex b1 (190 + (zlen s + 1)) [0]) as (b2 & -> & S2 & Z2 & F2);
      [lia|change (zlen [0]) with 1; lia|]. change (zlen [0]) with 1 in *. cbn [mbind comp_bind].
    exists b2. split_and!; [done| |].
    + split; [lia|]. intros. frame. done.
    + by rewrite F2 by lia.
Qed.

(** A string set as managed element id is read back from the header as
    that string, nil terminated, exactly when it fits the field with its nil
    byte; a longer one is refused and leaves the message alone.  Nothing but the
    field changes. *)
Theorem meid_roundtrip m buf tr d1 d2 room s :
  mbuf_wf m buf tr d1 d2 room -> is_cstr s ->
  if zlen s <? 32 then
    exists m' buf' out, rmr_str2meid (Some m) (Some s) = Ret (RMR_OK, Some m') /\
      only_field m m' buf buf' (TP_HDR_LEN + o_meid) RMR_MAX_MEID /\
      rmr_get_meid (Some m') None = Ret (Some out) /\ zlen out = 32 /\ cstr_of out = s
  else rmr_str2meid (Some m) (Some s) = Ret (RMR_ERR_OVERFLOW, Some m).
Proof.
  intros W Hs. pose proof W as [Eb Eh Ep Ex Hl L]. pose proof (ml_len _ _ _ _ _ L). pose proof (ml_sz _ _ _ _ _ L).
  pose proof (zlen_nonneg s). unfold rmr_str2meid. rewrite Eh. offsets.
  destruct (Z.ltb_spec (zlen s) 32), (Z.ltb_spec 31 (zlen s)); try lia; [|done].
  destruct (bytes2meid_str _ _ _ _ _ _ s W Hs) as (b & -> & F & S1); [lia|]. cbn [mbind comp_bind].
  destruct F as [Zb F]. assert (zlen (slice b 190 32) = 32) as Z32 by (apply zlen_slice; lia).
  exists (set_tp_buf (Some b) m), b, (slice b 190 32). split_and!; [done|by split| |done|].
  - unfold rmr_get_meid. cbn. rewrite Eh. offsets. rewrite memcpy_ret by (try done; lia).
    cbn [mbind comp_bind]. by rewrite splice_all.
  - apply cstr_of_field; try done; lia.
Qed.

Lemma meid_roundtrip_witness :
  exists m' out, rmr_str2meid (Some (msg0 100)) (Some $"gnb734_733") = Ret (RMR_OK, Some m') /\
    rmr_get_meid (Some m') None = Ret (Some out) /\ cstr_of out = $"gnb734_733".
Proof.
  pose proof (msg0_fresh 100 ltac:(vm_compute; discriminate) ltac:(vm_compute; discriminate)) as F.
  destruct (meid_roundtrip (msg0 100) (default [] (m_tp_buf (msg0 100))) 20 4 0 100 $"gnb734_733"
    (fm_wf _ _ _ _ _ F)) as (m' & b' & out & E1 & _ & E2 & _ & E3).
  { apply (bool_decide_unpack _). vm_compute. exact I. }
  exists m', out. split_and!; assumption.
Defined.

(** The same for the transaction id, whose field need not be nil
    terminated: any bytes up to the field's 32 are read back. *)
Theorem xact_roundtrip m buf tr d1 d2 room bytes :
  mbuf_wf m buf tr d1 d2 room -> zlen bytes <= RMR_MAX_XID ->
  exists m' buf' out,
    rmr_bytes2xact (Some m) (Some bytes) (zlen bytes) = Ret (zlen bytes, false, Some m') /\
    only_field m m' buf buf' (TP_HDR_LEN + o_xid) (zlen bytes) /\
    rmr_get_xact (Some m') None = Ret (Some out) /\ zlen out = 32 /\
    slice out 0 (zlen bytes) = bytes.
Proof.
  intros [Eb Eh Ep Ex Hl L] Hs. pose proof (ml_len _ _ _ _ _ L). pose proof (ml_sz _ _ _ _ _ L).
  pose proof (zlen_nonneg bytes). unfold rmr_bytes2xact, only_field. rewrite Eh, Eb. cbn [deref mbind comp_bind]. offsets.
  destruct (Z.ltb_spec 32 (zlen bytes)); [lia|].
  destruct (memcpy_ex buf 62 bytes 0 (zlen bytes)) as (b & -> & S1 & F); [lia..|]. cbn [mbind comp_bind].
  rewrite slice_all in S1. pose proof F as [Zb _].
  assert (zlen (slice b 62 32) = 32) as Z32 by (apply zlen_slice; lia).
  exists (set_tp_buf (Some b) m), b, (slice b 62 32). split_and!; [done|done|done| |done|].
  - unfold rmr_get_xact. cbn. rewrite Ex. cbn. offsets. rewrite memcpy_ret by (try done; lia).
    cbn [mbind comp_bind]. by rewrite splice_all.
  - rewrite slice_slice by lia. done.
Qed.

Lemma xact_roundtrip_witness :
  exists m' out, rmr_bytes2xact (Some (msg0 100)) (Some [1; 0; 2]) 3 = Ret (3, false, Some m') /\
    rmr_get_xact (Some m') None = Ret (Some out) /\ slice out 0 3 = [1; 0; 2].
Proof.
  pose proof (msg0_fresh 100 ltac:(vm_compute; discriminate) ltac:(vm_compute; discriminate)) as F.
  destruct (xact_roundtrip (msg0 100) (default [] (m_tp_buf (msg0 100))) 20 4 0 100 [1; 0; 2]
    (fm_wf _ _ _ _ _ F)) as (m' & b' & out & E1 & _ & E2 & _ & E3); [vm_compute; discriminate|].
  exists m', out. split_and!; assumption.
Defined.

(** ** Payload *)

(** rmr_bytes2payload is right for data that fits the payload space, but
    its bound leaves out the transport header, the trace and the data sections:
    data that is longer than the space by up to that much is copied past the end
    of the buffer. *)
Theorem bytes2payload_bound m buf tr d1 d2 room src :
  mbuf_wf m buf tr d1 d2 room -> m_alloc_len m = zlen buf ->
  if zlen src <=? room then
    exists m' buf', rmr_bytes2payload (Some m) (Some src) (zlen src) = Ret (Some m') /\
      m_state m' = RMR_OK /\ m_len m' = zlen src /\ mbuf_wf m' buf' tr d1 d2 room /\
      framed buf buf' (330 + tr + d1 + d2) (zlen src) /\
      slice buf' (330 + tr + d1 + d2) (zlen src) = src
  else zlen src <= room + tr + d1 + d2 + TP_HDR_LEN ->
    rmr_bytes2payload (Some m) (Some src) (zlen src) = UB.
Proof.
  intros [Eb Eh Ep Ex Hl L] Ha. pose proof (ml_len _ _ _ _ _ L). pose proof (ml_sz _ _ _ _ _ L).
  pose proof (ml_max _ _ _ _ _ L). pose proof (zlen_nonneg src).
  assert (zlen src <= room + tr + d1 + d2 + 50 ->
    rmr_bytes2payload (Some m) (Some src) (zlen src) =
      buf' ← memcpy buf (330 + tr + d1 + d2) src 0 (zlen src);
      Ret (Some (set_tp_buf (Some buf') (set_len (zlen src) (set_state RMR_OK m))))) as E.
  { intros. unfold rmr_bytes2payload. rewrite Ep, Eb, Ha. cbn [deref mbind comp_bind]. offsets.
    rewrite !u64_id by lia. destruct (Z.ltb_spec (zlen buf - 280) (zlen src)); [lia|]. done. }
  destruct (Z.leb_spec (zlen src) room).
  - rewrite E by lia. destruct (memcpy_ex buf (330 + tr + d1 + d2) src 0 (zlen src)) as (b & -> & S1 & F); [lia..|].
    rewrite slice_all in S1. cbn [mbind comp_bind].
    eexists _, b. split_and!; try done. split; cbn; try done; try lia.
    eapply layout_framed; [done|exact F|lia].
  - intros Hx. unfold TP_HDR_LEN in Hx. rewrite E by lia. by rewrite memcpy_UB by lia.
Qed.

Lemma bytes2payload_bound_witness :
  rmr_bytes2payload (Some (msg0 100)) (Some (replicate 120 7)) 120 = UB /\
  exists m', rmr_bytes2payload (Some (msg0 100)) (Some $"hello") 5 = Ret (Some m') /\ m_len m' = 5.
Proof.
  pose proof (msg0_fresh 100 ltac:(vm_compute; discriminate) ltac:(vm_compute; discriminate)) as F. split.
  - apply (bytes2payload_bound (msg0 100) (default [] (m_tp_buf (msg0 100))) 20 4 0 100 (replicate 120 7)
      (fm_wf _ _ _ _ _ F) (fm_alloc _ _ _ _ _ F)). vm_compute. discriminate.
  - destruct (bytes2payload_bound (msg0 100) (default [] (m_tp_buf (msg0 100))) 20 4 0 100 $"hello"
      (fm_wf _ _ _ _ _ F) (fm_alloc _ _ _ _ _ F)) as (m' & b' & E & _ & El & _).
    exists m'. split; [exact E|exact El].
Defined.

(** ref_tpbuf on a buffer with a good layout. *)
Lemma ref_tpbuf_layout m buf tr d1 d2 room alen :
  m_tp_buf m = Some buf -> msg_layout buf tr d1 d2 room ->
  exists m', ref_tpbuf m alen = Ret m' /\ m_tp_buf m' = Some buf /\ m_header m' = Some TP_HDR_LEN /\
    m_payload m' = Some (330 + tr + d1 + d2) /\ m_xaction m' = Some (TP_HDR_LEN + o_xid) /\
    m_alloc_len m' = i32 alen /\ m_rts_fd m' = m_rts_fd m /\
    m_mtype m' = i32 (load32n buf 50) /\ m_sub_id m' = i32 (load32n buf 262) /\
    (let space := i32 alen - (280 + tr + d1 + d2) in
     if space <? i32 (load32n buf 54) then m_state m' = RMR_ERR_TRUNC /\ m_len m' = space
     else m_state m' = RMR_OK /\ m_len m' = i32 (load32n buf 54)).
Proof.
  intros Eb L. pose proof (ml_len _ _ _ _ _ L). pose proof (ml_sz _ _ _ _ _ L). pose proof (ml_max _ _ _ _ _ L).
  unfold ref_tpbuf. rewrite Eb. cbn [deref mbind comp_bind].
  rewrite get32n_ret by (offsets; lia). cbn [mbind comp_bind]. rewrite (payload_addr_layout L). cbn [mbind comp_bind].
  rewrite !get32n_ret by (offsets; lia). cbn [mbind comp_bind]. rewrite (hdr_len_layout L). cbn [mbind comp_bind].
  rewrite (i32_id (280 + _ + _ + _)) by (unfold in_i32; lia). offsets.
  eexists. split; [done|]. cbn. split_and!; try done.
  destruct (Z.ltb_spec (i32 alen - (280 + tr + d1 + d2)) (i32 (load32n buf 54))); done.
Qed.

(** The general case: what the library reckons with may be less than the buffer
    has; [psz] is the payload space it sees. *)
Lemma realloc_payload_room malloc_bytes m buf tr d1 d2 room plen copy clone :
  (forall n, 0 <= n -> zlen (malloc_bytes n) = n) ->
  mbuf_wf m buf tr d1 d2 room -> 330 + tr + d1 + d2 + m_len m <= m_alloc_len m <= zlen buf ->
  0 < plen -> 400 + tr + d1 + d2 + plen < 2 ^ 31 ->
  let psz := m_alloc_len m - (330 + tr + d1 + d2) in
  if negb clone && (plen <=? psz) then realloc_payload malloc_bytes (Some m) plen copy clone = Ret (Some m)
  else exists m' buf',
    realloc_payload malloc_bytes (Some m) plen copy clone = Ret (Some m') /\
    mbuf_wf m' buf' tr d1 d2 (Z.max plen psz) /\ m_alloc_len m' = zlen buf' /\
    (forall o k, TP_HDR_LEN <= o -> 0 <= k ->
       o + k <= (if copy then 330 + tr + d1 + d2 + psz else 330 + tr + d1 + d2) ->
       slice buf' o k = slice buf o k) /\
    m_rts_fd m' = m_rts_fd m /\
    (m_mtype m', m_sub_id m', m_len m') = (if copy then (m_mtype m, m_sub_id m, m_len m) else (-1, -1, 0)).
Proof.
  intros Hm [Eb Eh Ep Ex Hl L] Ha Hp Hmax psz. pose proof (ml_len _ _ _ _ _ L). pose proof (ml_sz _ _ _ _ _ L).
  pose proof (ml_max _ _ _ _ _ L). unfold realloc_payload.
  destruct (Z.leb_spec plen 0) as [?|_]; [lia|]. rewrite Eb, Eh. cbn [deref mbind comp_bind].
  rewrite (hdr_len_layout L). cbn [mbind comp_bind].
  rewrite (i32_id (m_alloc_len m - _)) by (unfold in_i32, TP_HDR_LEN; lia).
  replace (m_alloc_len m - (280 + tr + d1 + d2 + TP_HDR_LEN)) with psz by (unfold psz, TP_HDR_LEN; lia).
  assert (0 <= psz <= room /\ m_len m <= psz) as [Hpsz Hlp] by (unfold psz; lia). clearbody psz.
  destruct (negb clone && (plen <=? psz)); [done|].
  rewrite (i32_id (280 + tr + d1 + d2 + TP_HDR_LEN)) by (unfold in_i32, TP_HDR_LEN; lia).
  replace (if psz <? plen then plen else psz) with (Z.max plen psz) by (zcases; lia).
  set (mlen := u64 _). assert (mlen = 330 + tr + d1 + d2 + Z.max plen psz) as Em.
  { unfold mlen, TP_HDR_LEN. rewrite u64_id; lia. }
  assert (zlen (malloc_bytes mlen) = mlen) as Zm by (apply Hm; lia).
  change (SET_HDR_LEN (malloc_bytes mlen) TP_HDR_LEN) with (put32n (malloc_bytes mlen) 246 280).
  destruct (put32n_ex (malloc_bytes mlen) 246 280) as (b1 & -> & _ & Z1 & _); [lia..|]. cbn [mbind comp_bind].
  set (n := if copy then u32 (psz + (280 + tr + d1 + d2)) else 280 + tr + d1 + d2).
  assert (n = (if copy then 280 + tr + d1 + d2 + psz else 280 + tr + d1 + d2)) as En.
  { unfold n. destruct copy; [rewrite u32_id|]; lia. }
  destruct (memcpy_ex b1 TP_HDR_LEN buf TP_HDR_LEN n) as (b2 & -> & S2 & Z2 & _);
    [unfold TP_HDR_LEN; destruct copy; lia..|]. cbn [mbind comp_bind].
  assert (forall o k, 50 <= o -> 0 <= k -> o + k <= 50 + n -> slice b2 o k = slice buf o k) as S2'.
  { intros o k ? ? ?. rewrite (slice_sub b2 buf 50 50 n o k) by (done || lia). f_equal. lia. }
  assert (280 <= n) by (destruct copy; lia).
  assert (msg_layout b2 tr d1 d2 (Z.max plen psz)) as L2.
  { split; try lia; unfold load32n; rewrite S2' by lia; apply L. }
  set (nm := if clone then _ else _).
  destruct (ref_tpbuf_layout (set_tp_buf (Some b2) nm) b2 tr d1 d2 _ mlen eq_refl L2)
    as (m' & -> & Eb' & Eh' & Ep' & Ex' & Ea' & Er' & _ & _ & _). cbn [mbind comp_bind].
  assert (m_rts_fd m' = m_rts_fd m) as Ef. { rewrite Er'. unfold nm. by destruct clone. }
  rewrite i32_id in Ea' by (unfold in_i32; lia).
  eexists _, b2. split; [done|].
  destruct copy; cbn; split_and!; try done; try lia; try (intros; apply S2'; unfold TP_HDR_LEN in *; lia);
    split; cbn; try done; lia.
Qed.

(** rmr_realloc_payload: the returned message has room for the requested
    payload and for the old one; with [copy] the whole old payload, the type, the
    subscription id and the used length are carried over, without it they are
    reset; header, trace and data sections are always kept.  A message that is
    large enough is returned as it is unless a clone is asked for. *)
Theorem realloc_payload_keeps malloc_bytes m buf tr d1 d2 room plen copy clone :
  (forall n, 0 <= n -> zlen (malloc_bytes n) = n) ->
  mbuf_wf m buf tr d1 d2 room -> m_alloc_len m = zlen buf ->
  0 < plen -> 400 + tr + d1 + d2 + plen < 2 ^ 31 ->
  if negb clone && (plen <=? room) then realloc_payload malloc_bytes (Some m) plen copy clone = Ret (Some m)
  else exists m' buf',
    realloc_payload malloc_bytes (Some m) plen copy clone = Ret (Some m') /\
    mbuf_wf m' buf' tr d1 d2 (Z.max plen room) /\ m_alloc_len m' = zlen buf' /\
    (forall o k, TP_HDR_LEN <= o -> 0 <= k ->
       o + k <= (if copy then 330 + tr + d1 + d2 + room else 330 + tr + d1 + d2) ->
       slice buf' o k = slice buf o k) /\
    m_rts_fd m' = m_rts_fd m /\
    (m_mtype m', m_sub_id m', m_len m') = (if copy then (m_mtype m, m_sub_id m, m_len m) else (-1, -1, 0)).
Proof.
  intros Hm W Ha Hp Hmax. pose proof (mw_layout _ _ _ _ _ _ W) as L. pose proof (ml_len _ _ _ _ _ L).
  pose proof (mw_len _ _ _ _ _ _ W).
  pose proof (realloc_payload_room malloc_bytes m buf tr d1 d2 room plen copy clone Hm W ltac:(lia) Hp Hmax) as R.
  cbv zeta in R. by replace (m_alloc_len m - (330 + tr + d1 + d2)) with room in R by lia.
Qed.

Lemma realloc_payload_keeps_witness :
  exists m', realloc_payload junk (Some (msg0 100)) 500 true false = Ret (Some m') /\
    rmr_payload_size (Some m') = Ret 500.
Proof.
  pose proof (msg0_fresh 100 ltac:(vm_compute; discriminate) ltac:(vm_compute; discriminate)) as F.
  destruct (realloc_payload_keeps junk (msg0 100) (default [] (m_tp_buf (msg0 100))) 20 4 0 100 500 true false
    junk_len (fm_wf _ _ _ _ _ F) (fm_alloc _ _ _ _ _ F)) as (m' & b' & E & W & Ea & _); [lia|vm_compute; reflexivity|].
  exists m'. split; [exact E|]. pose proof (mw_layout _ _ _ _ _ _ W) as L. pose proof (ml_len _ _ _ _ _ L).
  rewrite (payload_size_wf _ _ _ _ _ _ W); unfold alloc_ok; [f_equal|..]; lia.
Defined.

(** clone_msg counts trace and data lengths twice: it reads past the
    message when they are longer than the payload space, and otherwise gives an
    independent message with the same header, trace, data and payload. *)
Theorem clone_msg_spec malloc_bytes m buf tr d1 d2 room :
  (forall n, 0 <= n -> zlen (malloc_bytes n) = n) ->
  mbuf_wf m buf tr d1 d2 room -> m_alloc_len m = zlen buf -> zlen buf + 100 < 2 ^ 31 ->
  if room <? tr + d1 + d2 then clone_msg malloc_bytes m = UB
  else exists m' buf', clone_msg malloc_bytes m = Ret m' /\
    mbuf_wf m' buf' tr d1 d2 (room + 50) /\ m_alloc_len m' = m_alloc_len m /\
    (forall o k, TP_HDR_LEN <= o -> 0 <= k -> o + k <= 330 + tr + d1 + d2 + m_len m ->
       slice buf' o k = slice buf o k) /\
    (m_mtype m', m_sub_id m', m_len m', m_state m') = (m_mtype m, m_sub_id m, m_len m, m_state m).
Proof.
  intros Hm [Eb Eh Ep Ex Hl L] Ha Hmax. pose proof (ml_len _ _ _ _ _ L). pose proof (ml_sz _ _ _ _ _ L).
  pose proof (ml_max _ _ _ _ _ L). unfold clone_msg. rewrite Eb, Eh, Ep, Ha. cbn [deref mbind comp_bind].
  rewrite (hdr_len_layout L), (tr_len_layout L), (d1_len_layout L), (d2_len_layout L). cbn [mbind comp_bind].
  rewrite (u64_id (zlen buf)), u64_id by (unfold TP_HDR_LEN; lia).
  assert (u32 (280 + tr + d1 + d2 + tr + d1 + d2) = 280 + 2 * (tr + d1 + d2) \/ room < tr + d1 + d2) as Hn.
  { destruct (Z_lt_le_dec room (tr + d1 + d2)); [by right|left]. rewrite u32_id; lia. }
  set (n := u32 _) in *. assert (zlen (malloc_bytes (zlen buf + TP_HDR_LEN)) = zlen buf + 50) as Zm.
  { unfold TP_HDR_LEN. apply Hm. lia. }
  destruct (Z.ltb_spec room (tr + d1 + d2)).
  { replace n with (280 + 2 * (tr + d1 + d2)) by (unfold n; rewrite u32_id; lia).
    by rewrite memcpy_UB by (unfold TP_HDR_LEN; lia). }
  destruct Hn as [Hn|]; [|lia].
  destruct (memcpy_ex (malloc_bytes (zlen buf + TP_HDR_LEN)) TP_HDR_LEN buf TP_HDR_LEN n)
    as (b1 & -> & S1 & Z1 & _); [unfold TP_HDR_LEN in *; lia..|]. cbn [mbind comp_bind].
  assert (forall o k, 50 <= o -> 0 <= k -> o + k <= 50 + n -> slice b1 o k = slice buf o k) as S1'.
  { intros o k ? ? ?. rewrite (slice_sub b1 buf 50 50 n o k) by (done || lia). f_equal. lia. }
  assert (msg_layout b1 tr d1 d2 (room + 50)) as L1.
  { split; try lia; unfold load32n; rewrite S1' by lia; apply L. }
  rewrite (payload_addr_layout L1). cbn [mbind comp_bind]. set (P := 330 + tr + d1 + d2) in *.
  destruct (memcpy_ex b1 P buf P (m_len m)) as (b2 & -> & S2 & [Z2 F2]); [lia..|]. cbn [mbind comp_bind].
  assert (forall o k, 50 <= o -> 0 <= k -> o + k <= P -> slice b2 o k = slice buf o k) as Hlo.
  { intros. rewrite F2 by lia. apply S1'; lia. }
  assert (forall o k, P <= o -> 0 <= k -> o + k <= P + m_len m -> slice b2 o k = slice buf o k) as Hhi.
  { intros o k ? ? ?. rewrite (slice_sub b2 buf P P (m_len m) o k) by (done || lia). f_equal. lia. }
  rewrite i32_id by (unfold in_i32; lia).
  eexists _, b2. split; [done|]. split_and!; cbn; try done.
  - split; cbn; try done; try lia. eapply layout_framed; [exact L1|split; eassumption|lia].
  - unfold TP_HDR_LEN. intros o k ? ? ?.
    destruct (Z_le_gt_dec (o + k) P); [apply Hlo; lia|]. destruct (Z_le_gt_dec P o); [apply Hhi; lia|].
    replace k with ((P - o) + (o + k - P)) by lia. rewrite !slice_split by lia.
    f_equal; [apply Hlo|apply Hhi]; lia.
Qed.

Lemma clone_msg_spec_witness :
  clone_msg junk (msg0 20) = UB /\ exists m', clone_msg junk (msg0 100) = Ret m' /\ m_mtype m' = -1.
Proof.
  pose proof (msg0_fresh 100 ltac:(vm_compute; discriminate) ltac:(vm_compute; discriminate)) as F.
  pose proof (msg0_fresh 20 ltac:(vm_compute; discriminate) ltac:(vm_compute; discriminate)) as F'. split.
  - exact (clone_msg_spec junk (msg0 20) (default [] (m_tp_buf (msg0 20))) 20 4 0 20 junk_len
      (fm_wf _ _ _ _ _ F') (fm_alloc _ _ _ _ _ F') eq_refl).
  - destruct (clone_msg_spec junk (msg0 100) (default [] (m_tp_buf (msg0 100))) 20 4 0 100 junk_len
      (fm_wf _ _ _ _ _ F) (fm_alloc _ _ _ _ _ F) eq_refl) as (m' & b' & E & _ & _ & _ & Et).
    exists m'. split; [exact E|]. apply (f_equal (fun x => x.1.1.1)) in Et. cbn [fst] in Et. rewrite Et. vm_compute. reflexivity.
Defined.
