(* ===== verification/Endpoint.v ===== *)
(** Endpoints and their connections: the endpoint part of
    src/src/rmr/si/src/rtable_si_static.c, incr_ep_counts of
    src/src/rmr/si/src/rmr_si.c and the endpoint part of the disconnect callback.

    Endpoints are shared by the route tables, the wormholes and the
    descriptor map, so they live in a store and are referred to by an id (the C
    pointer).  The transport's connect call is an argument, and its state, of type
    [N], a field of the context. *)

From S2P Require Import Prelude Symtab SymIface Tools Mbuf.

(** The counts of sends only grow and are printed; they are not wrapped here. *)
Record endpoint := MkEp {
  ep_name : option (list Z);
  ep_addr : option (list Z);
  ep_nn_sock : Z;
  ep_open : bool;
  ep_good : Z;                 (* scounts[EPSC_GOOD] *)
  ep_fail : Z;                 (* scounts[EPSC_FAIL] *)
  ep_trans : Z;                (* scounts[EPSC_TRANS] *)
  ep_notify : bool
}.

Definition set_conn (e : endpoint) (sock : Z) (open : bool) : endpoint :=
  MkEp (ep_name e) (ep_addr e) sock open (ep_good e) (ep_fail e) (ep_trans e) (ep_notify e).
Definition set_notify (e : endpoint) (n : bool) : endpoint :=
  MkEp (ep_name e) (ep_addr e) (ep_nn_sock e) (ep_open e) (ep_good e) (ep_fail e) (ep_trans e) n.
Definition set_addr (e : endpoint) (a : option (list Z)) : endpoint :=
  MkEp (ep_name e) a (ep_nn_sock e) (ep_open e) (ep_good e) (ep_fail e) (ep_trans e) (ep_notify e).

(** The endpoint store, the descriptor to endpoint hash and the transport of a
    context. *)
Record conn_ctx (T N : Type) := MkConn {
  cx_eps : gmap nat endpoint;
  cx_fd2ep : option T;
  cx_net : N
}.
Arguments MkConn {T N}.
Arguments cx_eps {T N}.
Arguments cx_fd2ep {T N}.
Arguments cx_net {T N}.

Section endpoint.
Context {T N : Type} `{Symbols T nat}.
Implicit Types (cx : conn_ctx T N) (e : endpoint).

Definition upd_ep cx (id : nat) (e : endpoint) : conn_ctx T N := MkConn (<[id := e]> (cx_eps cx)) (cx_fd2ep cx) (cx_net cx).
Definition set_cnet cx (n : N) : conn_ctx T N := MkConn (cx_eps cx) (cx_fd2ep cx) n.

Definition incr_ep_counts (state : Z) e : endpoint :=
  if state =? RMR_OK then
    MkEp (ep_name e) (ep_addr e) (ep_nn_sock e) (ep_open e) (ep_good e + 1) (ep_fail e) (ep_trans e) (ep_notify e)
  else if state =? RMR_ERR_RETRY then
    MkEp (ep_name e) (ep_addr e) (ep_nn_sock e) (ep_open e) (ep_good e) (ep_fail e) (ep_trans e + 1) (ep_notify e)
  else
    MkEp (ep_name e) (ep_addr e) (ep_nn_sock e) (ep_open e) (ep_good e) (ep_fail e + 1) (ep_trans e) (ep_notify e).

Definition uta_ep_failed cx (ep : option nat) : conn_ctx T N :=
  match ep with
  | Some id => match cx_eps cx !! id with Some e => upd_ep cx id (set_conn e (ep_nn_sock e) false) | None => cx end
  | None => cx
  end.

Definition fd_key (fd : Z) : akey := ANum (u64 fd).

Definition fd2ep_init cx : conn_ctx T N :=
  match cx_fd2ep cx with None => MkConn (cx_eps cx) (Some (sm_new 129)) (cx_net cx) | Some _ => cx end.

Definition fd2ep_add cx (fd : Z) (id : nat) : conn_ctx T N :=
  match cx_fd2ep cx with
  | Some t => MkConn (cx_eps cx) (Some (sm_put t (fd_key fd) id)) (cx_net cx)
  | None => cx
  end.

Definition fd2ep_del cx (fd : Z) : option nat * conn_ctx T N :=
  match cx_fd2ep cx with
  | Some t =>
      match sm_get t (fd_key fd) with
      | Some id => (Some id, MkConn (cx_eps cx) (Some (sm_del t (fd_key fd))) (cx_net cx))
      | None => (None, cx)
      end
  | None => (None, cx)
  end.

Definition fd2ep_get cx (fd : Z) : option nat :=
  match cx_fd2ep cx with Some t => sm_get t (fd_key fd) | None => None end.

Definition SI_MAX_ADDR_LEN : Z := 512.

(** [SIconnect] gives the descriptor, or a negative value. *)
Definition uta_link2 (SIconnect : N -> list Z -> Z * N) cx (ep : option nat) : bool * conn_ctx T N :=
  match ep with
  | None => (false, cx)
  | Some id =>
      match cx_eps cx !! id with
      | None => (false, cx)
      | Some e =>
          match ep_name e with
          | Some target =>
              match strchr (target ++ [0]) 0 58 with
              | Some _ =>
                  if ep_open e then (true, cx) else
                  let c := SIconnect (cx_net cx) (snprintf SI_MAX_ADDR_LEN target) in
                  let sock := c.1 in
                  let cx := set_cnet cx c.2 in
                  if sock <? 0 then
                    (false, upd_ep cx id (set_notify (set_conn e sock false) false))
                  else
                    let e := set_conn e sock true in
                    let cx := fd2ep_add (upd_ep cx id e) sock id in
                    (true, if ep_notify e then cx else upd_ep cx id (set_notify e true))
              | None => (false, if ep_notify e then upd_ep cx id (set_notify e false) else cx)
              end
          | None => (false, if ep_notify e then upd_ep cx id (set_notify e false) else cx)
          end
      end
  end.

Definition rt_link2_ep (SIconnect : N -> list Z -> Z * N) cx (ep : option nat) : bool * conn_ctx T N :=
  match ep with
  | None => (false, cx)
  | Some id =>
      match cx_eps cx !! id with
      | None => (false, cx)
      | Some e =>
          if ep_open e then (true, cx) else
          let cx := (uta_link2 SIconnect cx ep).2 in
          (match cx_eps cx !! id with Some e => ep_open e | None => false end, cx)
      end
  end.

(** The code uta_epsock_rr, epsock_meid and uta_epsock_byname share: give the
    socket of an endpoint, connecting first when it is not open.  [add]: the
    descriptor is mapped again after the link (not in epsock_meid). *)
Definition ep_socket (SIconnect : N -> list Z -> Z * N) (add : bool) cx (id : nat) : option Z * conn_ctx T N :=
  match cx_eps cx !! id with
  | None => (None, cx)
  | Some e =>
      if ep_open e then (Some (ep_nn_sock e), cx) else
      let cx := match ep_addr e with
                | None => upd_ep cx id (set_addr e (ep_name e))
                | Some _ => cx
                end in
      let r := uta_link2 SIconnect cx (Some id) in
      if r.1 then
        match cx_eps r.2 !! id with
        | Some e =>
            let cx := upd_ep r.2 id (set_conn e (ep_nn_sock e) true) in
            (Some (ep_nn_sock e), if add then fd2ep_add cx (ep_nn_sock e) id else cx)
        | None => (None, r.2)
        end
      else (None, r.2)
  end.

(** The end of mt_disc_cb: forget the descriptor and close the endpoint. *)
Definition disc_ep cx (fd : Z) : conn_ctx T N :=
  let r := fd2ep_del cx fd in
  match r.1 with
  | Some id =>
      match cx_eps r.2 !! id with
      | Some e => upd_ep r.2 id (set_conn e (-1) false)
      | None => r.2
      end
  | None => r.2
  end.

(** ** Theorems *)

(** Every open endpoint is found through its descriptor, and descriptors of
    open endpoints are real ones. *)
Record conn_inv cx : Prop := {
  ci_tab : exists t, cx_fd2ep cx = Some t /\ sm_ok t;
  ci_open : forall id e, cx_eps cx !! id = Some e -> ep_open e = true ->
    0 < ep_nn_sock e < 2 ^ 31 /\ fd2ep_get cx (ep_nn_sock e) = Some id
}.

Lemma fd_key_valid fd : 0 < fd < 2 ^ 31 -> valid_key (fd_key fd).
Proof. intros. unfold fd_key; simpl. rewrite u64_id by lia. lia. Qed.

Lemma fd_key_inj a b : 0 < a < 2 ^ 31 -> 0 < b < 2 ^ 31 -> fd_key a = fd_key b -> a = b.
Proof. unfold fd_key. intros Ha Hb [= E]. rewrite !u64_id in E by lia. done. Qed.

Lemma fd2ep_get_add cx t fd id fd' :
  cx_fd2ep cx = Some t -> sm_ok t -> 0 < fd < 2 ^ 31 -> 0 < fd' < 2 ^ 31 ->
  fd2ep_get (fd2ep_add cx fd id) fd' = if decide (fd = fd') then Some id else fd2ep_get cx fd'.
Proof.
  intros Et Hok Hf Hf'. unfold fd2ep_add, fd2ep_get. rewrite Et. simpl.
  rewrite sm_get_put by (done || by apply fd_key_valid).
  destruct (decide (fd = fd')) as [->|Hne]; [by rewrite decide_True|].
  rewrite decide_False; [done|]. intros E. by apply Hne, fd_key_inj.
Qed.

(** A descriptor no open endpoint uses, as a connect call returns. *)
Definition fresh_fd cx (fd : Z) : Prop :=
  0 < fd < 2 ^ 31 /\ forall id e, cx_eps cx !! id = Some e -> ep_open e = true -> ep_nn_sock e <> fd.

(** An endpoint becomes open on a fresh descriptor that is then mapped. *)
Lemma open_inv cx id e fd n :
  conn_inv cx -> cx_eps cx !! id = Some e -> ep_open e = false -> fresh_fd cx fd ->
  conn_inv (upd_ep (fd2ep_add (upd_ep cx id (set_conn e fd true)) fd id) id (set_notify (set_conn e fd true) n)).
Proof.
  intros [(t & Et & Hok) Ho] He Hc [Hfd Hfresh]. split.
  { unfold fd2ep_add. simpl. rewrite Et. eexists. split; [done|].
    apply sm_put_ok; [done|by apply fd_key_valid]. }
  intros id' e'. unfold upd_ep at 1, fd2ep_add at 1. simpl. rewrite Et. simpl.
  rewrite insert_insert_eq. intros Hl Hopen.
  assert (fd2ep_get (upd_ep (fd2ep_add (upd_ep cx id (set_conn e fd true)) fd id) id (set_notify (set_conn e fd true) n)) (ep_nn_sock e')
    = fd2ep_get (fd2ep_add cx fd id) (ep_nn_sock e')) as ->.
  { unfold fd2ep_get, fd2ep_add, upd_ep. simpl. rewrite Et. done. }
  destruct (decide (id = id')) as [<-|Hne].
  - rewrite lookup_insert_eq in Hl. injection Hl as <-. simpl. split; [done|].
    erewrite fd2ep_get_add by done. by rewrite decide_True.
  - rewrite lookup_insert_ne in Hl by done. destruct (Ho id' e' Hl Hopen) as [Hs Hg]. split; [done|].
    erewrite fd2ep_get_add by done. rewrite decide_False; [done|]. intros ->. by eapply (Hfresh id' e').
Qed.

(** An update of an endpoint that is closed and stays so. *)
Lemma closed_inv cx id e :
  conn_inv cx -> ep_open e = false -> conn_inv (upd_ep cx id e).
Proof.
  intros [Ht Ho] Hc. split; [done|]. intros id' e' Hl Hopen. unfold upd_ep in Hl. simpl in Hl.
  destruct (decide (id = id')) as [<-|].
  - rewrite lookup_insert_eq in Hl. congruence.
  - rewrite lookup_insert_ne in Hl by done. by apply Ho.
Qed.

Lemma cnet_inv cx n : conn_inv cx -> conn_inv (set_cnet cx n).
Proof. intros [Ht Ho]. by split. Qed.

Lemma link2_inv (SIconnect : N -> list Z -> Z * N) cx ep :
  conn_inv cx -> (forall a, 0 <= (SIconnect (cx_net cx) a).1 -> fresh_fd cx (SIconnect (cx_net cx) a).1) ->
  conn_inv (uta_link2 SIconnect cx ep).2.
Proof.
  intros Hi Hf. unfold uta_link2. destruct ep as [id|]; [|done].
  destruct (cx_eps cx !! id) as [e|] eqn:He; [|done].
  assert (ep_open e = false \/ ep_open e = true) as [Hc|Hc] by (destruct (ep_open e); auto).
  2: { destruct (ep_name e) as [target|]; [destruct (strchr _ _ _)|]; rewrite ?Hc; try done;
       destruct (ep_notify e); try done; simpl.
       all: destruct Hi as [Ht Ho]; split; [done|]; intros id' e' Hl Hopen; simpl in Hl;
         destruct (decide (id = id')) as [<-|];
         [rewrite lookup_insert_eq in Hl; injection Hl as <-; apply (Ho id e He Hc)
         |rewrite lookup_insert_ne in Hl by done; by apply Ho]. }
  destruct (ep_name e) as [target|] eqn:En; [|destruct (ep_notify e); [by apply closed_inv|done]].
  destruct (strchr _ _ _) as [i|] eqn:Es; [|destruct (ep_notify e); [by apply closed_inv|done]].
  rewrite Hc. cbn zeta. pose proof (Hf (snprintf SI_MAX_ADDR_LEN target)) as Hfd. set (c := SIconnect _ _) in *.
  destruct (Z.ltb_spec c.1 0); [by apply closed_inv; [apply cnet_inv|]|].
  assert (conn_inv (set_cnet cx c.2) /\ fresh_fd (set_cnet cx c.2) c.1) as [Hi1 Hf1] by (split; [by apply cnet_inv|by apply Hfd]).
  set (sock := c.1) in *. set (cx1 := set_cnet cx c.2) in *. assert (cx_eps cx1 !! id = Some e) as He1 by done.
  clearbody cx1 sock. clear Hi He Hf Hfd. rename Hi1 into Hi, He1 into He, Hf1 into Hf. clear cx c. rename cx1 into cx.
  pose proof (open_inv cx id e sock) as Ho. simpl. destruct (ep_notify e) eqn:Enn.
  - specialize (Ho (ep_notify e) Hi He Hc Hf).
    assert (set_notify (set_conn e sock true) (ep_notify e) = set_conn e sock true) as Eq by done.
    rewrite Eq in Ho. unfold upd_ep at 1 in Ho. unfold fd2ep_add in Ho |- *. simpl in *.
    destruct (cx_fd2ep cx); simpl in *; by rewrite insert_insert_eq in Ho.
  - by apply Ho.
Qed.

Lemma readd_inv cx id e :
  conn_inv cx -> cx_eps cx !! id = Some e -> ep_open e = true -> conn_inv (fd2ep_add cx (ep_nn_sock e) id).
Proof.
  intros [(t & Et & Hok) Ho] He Hopen. destruct (Ho id e He Hopen) as [Hs Hg]. split.
  { unfold fd2ep_add. rewrite Et. eexists. split; [done|]. apply sm_put_ok; [done|by apply fd_key_valid]. }
  intros id' e' Hl Hop.
  assert (cx_eps (fd2ep_add cx (ep_nn_sock e) id) = cx_eps cx) as El by (unfold fd2ep_add; by rewrite Et).
  rewrite El in Hl. destruct (Ho id' e' Hl Hop) as [Hs' Hg']. split; [done|].
  erewrite fd2ep_get_add by done. case_decide as Hd; [|done]. rewrite <-Hd in Hg'. congruence.
Qed.

Lemma link2_true_open (SIconnect : N -> list Z -> Z * N) cx id :
  (uta_link2 SIconnect cx (Some id)).1 = true ->
  exists e, cx_eps (uta_link2 SIconnect cx (Some id)).2 !! id = Some e /\ ep_open e = true.
Proof.
  unfold uta_link2. destruct (cx_eps cx !! id) as [e|] eqn:He; [|done].
  destruct (ep_name e); [|done]. destruct (strchr _ _ _); [|done]. destruct (ep_open e) eqn:Ho; [by exists e|].
  destruct (_ <? 0); [done|]. intros _. unfold fd2ep_add. simpl.
  destruct (ep_notify e), (cx_fd2ep cx); simpl; rewrite ?insert_insert_eq, lookup_insert_eq; by eexists.
Qed.

Lemma fresh_upd cx id e a fd :
  cx_eps cx !! id = Some e -> fresh_fd cx fd -> fresh_fd (upd_ep cx id (set_addr e a)) fd.
Proof.
  intros He [Hfd Hf]. split; [done|]. intros id' e' Hl Ho. simpl in Hl. destruct (decide (id = id')) as [<-|].
  - rewrite lookup_insert_eq in Hl. injection Hl as <-. by apply (Hf id e).
  - rewrite lookup_insert_ne in Hl by done. by apply (Hf id' e').
Qed.

Lemma ep_socket_inv (SIconnect : N -> list Z -> Z * N) add cx id :
  conn_inv cx -> (forall a, 0 <= (SIconnect (cx_net cx) a).1 -> fresh_fd cx (SIconnect (cx_net cx) a).1) ->
  conn_inv (ep_socket SIconnect add cx id).2.
Proof.
  intros Hi Hf. unfold ep_socket. destruct (cx_eps cx !! id) as [e|] eqn:He; [|done].
  destruct (ep_open e) eqn:Ho; [done|].
  set (cx1 := match ep_addr e with None => _ | Some _ => _ end).
  assert (conn_inv cx1 /\ forall a, 0 <= (SIconnect (cx_net cx1) a).1 -> fresh_fd cx1 (SIconnect (cx_net cx1) a).1) as [Hi1 Hf1].
  { unfold cx1. destruct (ep_addr e); [done|]. split; [by apply closed_inv|]. intros. by apply fresh_upd, Hf. }
  pose proof (link2_inv SIconnect cx1 (Some id) Hi1 Hf1) as Hi2.
  destruct (uta_link2 SIconnect cx1 (Some id)).1 eqn:Er; [|done].
  destruct (link2_true_open _ _ _ Er) as (e2 & He2 & Ho2). rewrite He2.
  assert (upd_ep (uta_link2 SIconnect cx1 (Some id)).2 id (set_conn e2 (ep_nn_sock e2) true)
          = (uta_link2 SIconnect cx1 (Some id)).2) as ->.
  { unfold upd_ep. destruct (uta_link2 _ _ _).2 as [eps tab]. simpl in *. f_equal. apply insert_id.
    rewrite He2. destruct e2; simpl in *. by subst. }
  destruct add; simpl; [by apply readd_inv|done].
Qed.

Lemma disc_inv cx fd : conn_inv cx -> 0 < fd < 2 ^ 31 -> conn_inv (disc_ep cx fd).
Proof.
  intros Hi Hfd. pose proof Hi as [(t & Et & Hok) Ho]. unfold disc_ep, fd2ep_del. rewrite Et.
  destruct (sm_get t (fd_key fd)) as [id|] eqn:Eg; [|done]. simpl.
  assert (forall fd', 0 < fd' < 2 ^ 31 -> fd' <> fd -> sm_get (sm_del t (fd_key fd)) (fd_key fd') = sm_get t (fd_key fd')) as Hdel.
  { intros fd' Hf' Hne. rewrite sm_get_del by (done || by apply fd_key_valid).
    rewrite decide_False; [done|]. intros E. by apply Hne, fd_key_inj. }
  assert (forall id' e', cx_eps cx !! id' = Some e' -> ep_open e' = true -> id' <> id ->
    0 < ep_nn_sock e' < 2 ^ 31 /\ sm_get (sm_del t (fd_key fd)) (fd_key (ep_nn_sock e')) = Some id') as Hother.
  { intros id' e' Hl Hop Hne. destruct (Ho id' e' Hl Hop) as [Hs Hg]. split; [done|].
    unfold fd2ep_get in Hg. rewrite Et in Hg. rewrite Hdel; [done|done|]. intros E. rewrite E in Hg. congruence. }
  destruct (cx_eps cx !! id) as [e|] eqn:He; split; simpl.
  1, 3: eexists; split; [done|]; apply sm_del_ok; [done|by apply fd_key_valid].
  - intros id' e'. destruct (decide (id = id')) as [<-|Hne].
    + rewrite lookup_insert_eq. by intros [= <-].
    + rewrite lookup_insert_ne by done. intros Hl Hop. by apply Hother.
  - intros id' e' Hl Hop. apply Hother; try done. congruence.
Qed.

(** What happens to connections: a socket is wanted for an endpoint, a
    wormhole is opened, a peer disconnects. *)
Inductive conn_step : conn_ctx T N -> conn_ctx T N -> Prop :=
| CStepSocket SIconnect add cx id :
    (forall a, 0 <= (SIconnect (cx_net cx) a).1 -> fresh_fd cx (SIconnect (cx_net cx) a).1) ->
    conn_step cx (ep_socket SIconnect add cx id).2
| CStepLink SIconnect cx ep :
    (forall a, 0 <= (SIconnect (cx_net cx) a).1 -> fresh_fd cx (SIconnect (cx_net cx) a).1) ->
    conn_step cx (rt_link2_ep SIconnect cx ep).2
| CStepDisc cx fd : 0 < fd < 2 ^ 31 -> conn_step cx (disc_ep cx fd)
| CStepFailed cx ep : conn_step cx (uta_ep_failed cx ep).

Lemma rt_link2_inv (SIconnect : N -> list Z -> Z * N) cx ep :
  conn_inv cx -> (forall a, 0 <= (SIconnect (cx_net cx) a).1 -> fresh_fd cx (SIconnect (cx_net cx) a).1) ->
  conn_inv (rt_link2_ep SIconnect cx ep).2.
Proof.
  intros Hi Hf. unfold rt_link2_ep. destruct ep as [id|]; [|done].
  destruct (cx_eps cx !! id) as [e|]; [|done]. destruct (ep_open e); [done|]. by apply link2_inv.
Qed.

Lemma conn_step_inv cx cx' : conn_step cx cx' -> conn_inv cx -> conn_inv cx'.
Proof.
  destruct 1 as [?? cx id Hf|? cx ep Hf|cx fd Hfd|cx ep]; intros Hi.
  - by apply ep_socket_inv.
  - by apply rt_link2_inv.
  - by apply disc_inv.
  - unfold uta_ep_failed. destruct ep as [id|]; [|done]. destruct (cx_eps cx !! id); [by apply closed_inv|done].
Qed.

Lemma conn_steps_inv cx cx' : rtc conn_step cx cx' -> conn_inv cx -> conn_inv cx'.
Proof. induction 1; [done|]. eauto using conn_step_inv. Qed.

Lemma disc_closes cx fd :
  conn_inv cx -> 0 < fd < 2 ^ 31 ->
  forall id e, cx_eps (disc_ep cx fd) !! id = Some e -> ep_open e = true -> ep_nn_sock e <> fd.
Proof.
  intros Hi Hfd id e Hl Hop <-. pose proof (disc_inv cx _ Hi Hfd) as Hi'.
  destruct (ci_open _ Hi' id e Hl Hop) as [_ Hg]. revert Hg.
  pose proof Hi as [(t & Et & Hok) _]. unfold disc_ep, fd2ep_del. rewrite Et.
  destruct (sm_get t (fd_key (ep_nn_sock e))) as [id0|] eqn:Eg; simpl.
  - destruct (cx_eps cx !! id0); unfold fd2ep_get; simpl; rewrite sm_get_del by (done || by apply fd_key_valid);
      by rewrite decide_True.
  - unfold fd2ep_get. rewrite Et. congruence.
Qed.
End endpoint.

(** Connections are tracked: from the start, whatever sequence of sends,
    wormhole opens, failures and disconnects happened (connect returning
    descriptors that are not in use), every open endpoint is found through its
    descriptor, so that when the peer disconnects no endpoint is left marked as
    open on the closed descriptor. *)
Theorem disconnect_closes_endpoint {T N : Type} `{Symbols T nat} (eps : gmap nat endpoint) (n : N) cx fd :
  (forall id e, eps !! id = Some e -> ep_open e = false) ->
  rtc conn_step (fd2ep_init (MkConn eps None n)) cx -> 0 < fd < 2 ^ 31 ->
  (forall id e, cx_eps cx !! id = Some e -> ep_open e = true -> fd2ep_get cx (ep_nn_sock e) = Some id) /\
  (forall id e, cx_eps (disc_ep cx fd) !! id = Some e -> ep_open e = true -> ep_nn_sock e <> fd).
Proof.
  intros Hc Hs Hfd. assert (conn_inv (fd2ep_init (MkConn eps None n))) as H0.
  { split; simpl; [|intros id e He Ho; specialize (Hc id e He); congruence].
    eexists. split; [done|]. apply sm_new_ok. unfold INT_MAX; lia. }
  pose proof (conn_steps_inv _ _ Hs H0) as Hi. split; [apply Hi|by apply disc_closes].
Qed.

Lemma disconnect_closes_endpoint_witness :
  let e := MkEp (Some $"host:4560") (Some $"host:4560") (-1) false 0 0 0 true in
  let cx := (ep_socket (T := Sym_tab nat) (fun n _ => (7, n)) true (fd2ep_init (MkConn {[ 1%nat := e ]} None tt)) 1).2 in
  fd2ep_get cx 7 = Some 1%nat /\
  forall id e, cx_eps (disc_ep cx 7) !! id = Some e -> ep_open e = true -> ep_nn_sock e <> 7.
Proof.
  intros e cx.
  destruct (disconnect_closes_endpoint (T := Sym_tab nat) {[ 1%nat := e ]} tt cx 7) as [H1 H2].
  - intros id e' [_ <-]%lookup_singleton_Some. reflexivity.
  - apply rtc_once. apply (CStepSocket (fun n _ => (7, n)) true). intros _ _. split; [split; reflexivity|].
    intros id e' Hl Ho. apply (lookup_singleton_Some 1%nat id e e') in Hl as [_ <-]. discriminate Ho.
  - lia.
  - split; [|exact H2]. apply (H1 1%nat (set_conn e 7 true)); vm_compute; reflexivity.
Defined.
