(* ===== verification/River.v ===== *)
(** Receiving: the data and disconnect callbacks of
    src/src/rmr/si/src/mt_call_si_static.c.

    TCP delivers a connection's bytes in pieces of any size.  A river collects
    the bytes of one connection until a message is complete (its length leads
    the transport header), hands the buffer to buf2mbuf, which builds an mbuf and
    queues it on the receive ring or gives it to the chute of a waiting call, and
    goes on with the next message.

    [malloc_bytes] is what fresh memory holds.  The rivers of descriptors below
    [nrivers] are an array, the others are found through a symbol table with
    numeric keys only, which acts as a finite map (Symtab.v). *)

From S2P Require Import Prelude Bytes Symtab SymIface Tools Ring Mbuf Endpoint.

Definition RS_NEW : Z := 0.
Definition RS_GOOD : Z := 1.
Definition RS_RESET : Z := 2.
Definition RF_NOTIFIED : Z := 1.
Definition RF_DROP : Z := 2.

Record river_t := MkRiver {
  rv_state : Z;
  rv_accum : option (list Z);
  rv_nbytes : Z;
  rv_ipt : Z;
  rv_msg_size : Z;
  rv_flags : Z
}.

Definition river0 : river_t := MkRiver 0 None 0 0 0 0.

(** ** Accumulating messages *)

Section river.
Variable malloc_bytes : Z -> list Z.
Variable max_ibm : Z.

(** What is done with a complete message: its buffer and the buffer's size. *)
Context {D : Type}.
Variable deliver : D -> list Z -> Z -> comp D.

(** The size has just been extracted: grow the accumulator when it is needed.
    [msg_size + 128] is a signed addition. *)
Definition river_grow (r : river_t) : comp river_t :=
  if rv_nbytes r <? rv_msg_size r then
    if INT_MAX <? rv_msg_size r + 128 then UB else
    let nbytes := rv_msg_size r + 128 in
    let accum := malloc_bytes nbytes in
    accum ← (if 0 <? rv_ipt r then
               old ← deref (rv_accum r); memcpy accum 0 old 0 (rv_ipt r + 1)
             else Ret accum);
    Ret (MkRiver (rv_state r) (Some accum) nbytes (rv_ipt r) (rv_msg_size r) (rv_flags r))
  else Ret r.

(** First half of a round: get the message length.  [inl] leaves the callback,
    [inr] goes on with the buffer index and the bytes that remain. *)
Definition river_size (r : river_t) (buf : list Z) (bidx remain : Z) :
    comp (river_t + river_t * Z * Z) :=
  if rv_msg_size r <=? 0 then
    let need := TP_SZFIELD_LEN - rv_ipt r in
    accum ← deref (rv_accum r);
    if remain <? need then
      accum ← memcpy accum (rv_ipt r) buf bidx remain;
      Ret (inl (MkRiver (rv_state r) (Some accum) (rv_nbytes r) (rv_ipt r + remain) (rv_msg_size r) (rv_flags r)))
    else
      '(r, bidx, remain) ←
        (if 0 <? rv_ipt r then
           accum ← memcpy accum (rv_ipt r) buf bidx need;
           size ← extract_mlen accum;
           Ret (MkRiver (rv_state r) (Some accum) (rv_nbytes r) (rv_ipt r + need) (i32 size) (rv_flags r),
                bidx + need, remain - need)
         else
           size ← extract_mlen (drop (Z.to_nat bidx) buf);
           Ret (MkRiver (rv_state r) (Some accum) (rv_nbytes r) (rv_ipt r) (i32 size) (rv_flags r), bidx, remain));
      if rv_msg_size r <? 0 then
        Ret (inl (MkRiver RS_RESET (rv_accum r) (rv_nbytes r) (rv_ipt r) (rv_msg_size r) (rv_flags r)))
      else r ← river_grow r; Ret (inr (r, bidx, remain))
  else Ret (inr (r, bidx, remain)).

(** Second half: copy what the buffer has of the message; deliver a complete
    one and start over with a fresh accumulator. *)
Definition river_fill (r : river_t) (d : D) (buf : list Z) (bidx remain : Z) : comp (river_t * D * Z * Z) :=
  let keep := Z.land (rv_flags r) RF_DROP =? 0 in
  if rv_ipt r + remain <? rv_msg_size r then
    accum ← (if keep then a ← deref (rv_accum r); a ← memcpy a (rv_ipt r) buf bidx remain; Ret (Some a)
             else Ret (rv_accum r));
    Ret (MkRiver (rv_state r) accum (rv_nbytes r) (rv_ipt r + remain) (rv_msg_size r) (rv_flags r), d, bidx, 0)
  else
    let need := rv_msg_size r - rv_ipt r in
    if keep then
      a ← deref (rv_accum r);
      a ← memcpy a (rv_ipt r) buf bidx need;
      d ← deliver d a (rv_nbytes r);
      let nbytes := max_ibm + 1024 in
      Ret (MkRiver (rv_state r) (Some (malloc_bytes nbytes)) nbytes 0 (-1) (rv_flags r), d, bidx + need, remain - need)
    else
      Ret (MkRiver (rv_state r) (rv_accum r) (rv_nbytes r) 0 (-1) (Z.lor (rv_flags r) RF_NOTIFIED), d,
           bidx + need, remain - need).

(** The loop; [None] when the fuel does not suffice. *)
Fixpoint river_loop (fuel : nat) (r : river_t) (d : D) (buf : list Z) (bidx remain : Z) :
    comp (option (river_t * D)) :=
  if 0 <? remain then
    match fuel with
    | O => Ret None
    | S fuel' =>
        x ← river_size r buf bidx remain;
        match x with
        | inl r => Ret (Some (r, d))
        | inr (r, bidx, remain) =>
            '(r, d, bidx, remain) ← river_fill r d buf bidx remain;
            river_loop fuel' r d buf bidx remain
        end
    end
  else Ret (Some (r, d)).

(** The callback on the river of the descriptor: reset by state, then the loop.
    One round per byte is more than enough. *)
Definition river_data (r : river_t) (d : D) (buf : list Z) : comp (option (river_t * D)) :=
  let go r := river_loop (S (length buf))
    (MkRiver RS_GOOD (rv_accum r) (rv_nbytes r) (rv_ipt r) (rv_msg_size r) (rv_flags r)) d buf 0 (zlen buf) in
  if rv_state r =? RS_GOOD then go r
  else if rv_state r =? RS_NEW then
    let nbytes := max_ibm + 1024 in
    go (MkRiver 0 (Some (malloc_bytes nbytes)) nbytes 0 0 0)
  else if rv_state r =? RS_RESET then Ret (Some (r, d))
  else go (MkRiver (rv_state r) (rv_accum r) (rv_nbytes r) 0 (rv_msg_size r) (rv_flags r)).
End river.

(** ** Messages for the application *)

Record chute_t := MkChute {
  ch_mbuf : option mbuf;
  ch_barrier : Z;              (* the value of the semaphore *)
  ch_expect : list Z
}.

(** The parts of the context the receive thread writes; [rx_last_warning] is
    the static variable of queue_normal. *)
Record rx_ctx := MkRx {
  rx_mring : @ring_t mbuf;
  rx_chutes : list chute_t;
  rx_dcount : Z;
  rx_acc_dcount : Z;
  rx_acc_ecount : Z;
  rx_last_warning : Z;
  rx_max_ibm : Z
}.

Definition post_chute (chutes : list chute_t) (i : nat) : list chute_t :=
  alter (fun c => MkChute (ch_mbuf c) (ch_barrier c + 1) (ch_expect c)) i chutes.

(** [now]: what time() gives.  A message that does not fit is freed. *)
Definition queue_normal (now : Z) (ctx : rx_ctx) (m : mbuf) : rx_ctx :=
  let r := uta_ring_insert true (rx_mring ctx) (Some m) in
  if r.1 =? 0 then
    let warn := rx_last_warning ctx + 60 <? now in
    MkRx r.2 (rx_chutes ctx) (if warn then 0 else i32 (rx_dcount ctx + 1)) (u64 (rx_acc_dcount ctx + 1))
         (rx_acc_ecount ctx) (if warn then now else rx_last_warning ctx) (rx_max_ibm ctx)
  else
    MkRx r.2 (post_chute (rx_chutes ctx) 0) (rx_dcount ctx) (rx_acc_dcount ctx)
         (u64 (rx_acc_ecount ctx + 1)) (rx_last_warning ctx) (rx_max_ibm ctx).

(** The lengths in the check are 32 bit unsigned, [msg_size] is converted. *)
Definition buf2mbuf (now : Z) (ctx : rx_ctx) (raw_msg : list Z) (msg_size sender_fd : Z) : comp rx_ctx :=
  header_len ← RMR_HDR_LEN raw_msg TP_HDR_LEN;
  payload_len ← get32n raw_msg (TP_HDR_LEN + o_plen);
  if u32 msg_size <? u32 (header_len + TP_HDR_LEN + payload_len) then Ret ctx
  else
    let mbuf := set_rts_fd sender_fd (set_tp_buf (Some raw_msg) (alloc_mbuf RMR_ERR_UNSET)) in
    let mbuf := if rx_max_ibm ctx + 1024 <? msg_size then set_flags (Z.lor (m_flags mbuf) MFL_HUGE) mbuf else mbuf in
    mbuf ← ref_tpbuf mbuf msg_size;
    let flags := load32 raw_msg (TP_HDR_LEN + o_flags) in
    if negb (Z.land flags HFL_CALL_MSG =? 0) then Ret (queue_normal now ctx mbuf) else
    d1_len ← RMR_D1_LEN raw_msg TP_HDR_LEN;
    if d1_len <=? 0 then Ret (queue_normal now ctx mbuf) else
    d1 ← DATA1_ADDR raw_msg TP_HDR_LEN;
    call_id ← get8 raw_msg d1;
    if call_id =? 0 then Ret (queue_normal now ctx mbuf)
    else
      Ret (MkRx (rx_mring ctx)
             (alter (fun c => MkChute (Some mbuf) (ch_barrier c + 1) (ch_expect c)) (Z.to_nat call_id) (rx_chutes ctx))
             (rx_dcount ctx) (rx_acc_dcount ctx) (rx_acc_ecount ctx) (rx_last_warning ctx) (rx_max_ibm ctx)).

(** ** The callbacks *)

Section callbacks.
Context {TR TE N : Type} `{Symbols TR river_t} `{Symbols TE nat}.
Variable malloc_bytes : Z -> list Z.

Record io_ctx := MkIo {
  io_rx : rx_ctx;
  io_rivers : list river_t;
  io_river_hash : TR;
  io_conn : conn_ctx TE N
}.

(** The river of a descriptor and the write back of its new value. *)
Definition get_river (io : io_ctx) (fd : Z) : river_t :=
  if zlen (io_rivers io) <=? fd
  then default river0 (sm_get (io_river_hash io) (fd_key fd))
  else default river0 (io_rivers io !! Z.to_nat fd).

Definition put_river (io : io_ctx) (fd : Z) (r : river_t) (rx : rx_ctx) : io_ctx :=
  if zlen (io_rivers io) <=? fd
  then MkIo rx (io_rivers io) (sm_put (io_river_hash io) (fd_key fd) r) (io_conn io)
  else MkIo rx (<[Z.to_nat fd := r]> (io_rivers io)) (io_river_hash io) (io_conn io).

(** [None]: the loop of the callback ran out of fuel. *)
Definition mt_data_cb (now : Z) (io : io_ctx) (fd : Z) (buf : list Z) : comp (option io_ctx) :=
  if (zlen buf <=? 0) || (fd <? 0) then Ret (Some io) else
  x ← river_data malloc_bytes (rx_max_ibm (io_rx io)) (fun rx raw n => buf2mbuf now rx raw n fd)
        (get_river io fd) (io_rx io) buf;
  Ret (match x with Some (r, rx) => Some (put_river io fd r rx) | None => None end).

Definition mt_disc_cb (io : io_ctx) (fd : Z) : io_ctx :=
  let reset r := MkRiver RS_NEW None (rv_nbytes r) (rv_ipt r) (rv_msg_size r) (rv_flags r) in
  let io :=
    if (fd <? zlen (io_rivers io)) && (0 <=? fd)
    then MkIo (io_rx io) (alter reset (Z.to_nat fd) (io_rivers io)) (io_river_hash io) (io_conn io)
    else if 0 <? fd then
      match sm_get (io_river_hash io) (fd_key fd) with
      | Some r => MkIo (io_rx io) (io_rivers io) (sm_put (io_river_hash io) (fd_key fd) (reset r)) (io_conn io)
      | None => io
      end
    else io in
  MkIo (io_rx io) (io_rivers io) (io_river_hash io) (disc_ep (io_conn io) fd).
End callbacks.
Arguments io_ctx : clear implicits.

(** * Theorems about one river *)

Section river_thms.
Variable malloc_bytes : Z -> list Z.
Hypothesis malloc_len : forall n, 0 <= n -> zlen (malloc_bytes n) = n.
Variable max_ibm : Z.
Hypothesis ibm_range : 0 <= max_ibm < INT_MAX - 1024.
Context {D : Type}.
Variable deliver : D -> list Z -> Z -> comp D.

(** What a sender puts on the wire for one message: its length leads, and is
    one the accumulator can be grown to. *)
Definition is_msg (m : list Z) : Prop := 9 <= zlen m <= INT_MAX - 128 /\ load32 m 0 = zlen m.

(** The start of a message that is not complete. *)
Definition partial (p : list Z) : Prop :=
  zlen p < 9 \/ (9 <= zlen p < load32 p 0 /\ load32 p 0 <= INT_MAX - 128).

(** The river has taken in [p] of the current message. *)
Record river_rep (r : river_t) (p : list Z) : Prop := {
  rr_state : rv_state r = RS_GOOD;
  rr_flags : rv_flags r = 0;
  rr_accum : exists a, rv_accum r = Some a /\ zlen a = rv_nbytes r /\ slice a 0 (zlen p) = p;
  rr_nbytes : max_ibm + 1024 <= rv_nbytes r <= INT_MAX;
  rr_ipt : rv_ipt r = zlen p;
  rr_size : if zlen p <? 9 then rv_msg_size r <= 0
            else rv_msg_size r = load32 p 0 /\ rv_msg_size r <= rv_nbytes r
}.

(** The same in the middle of a round, with the message's size known. *)
Record river_mid (r : river_t) (p : list Z) (size : Z) : Prop := {
  rm_state : rv_state r = RS_GOOD;
  rm_flags : rv_flags r = 0;
  rm_accum : exists a, rv_accum r = Some a /\ zlen a = rv_nbytes r /\ slice a 0 (zlen p) = p;
  rm_nbytes : max_ibm + 1024 <= rv_nbytes r <= INT_MAX;
  rm_ipt : rv_ipt r = zlen p;
  rm_size : rv_msg_size r = size /\ size <= rv_nbytes r
}.

(** Handing over the complete messages, in order. *)
Fixpoint deliver_all (d : D) (raws : list (list Z * Z)) : comp D :=
  match raws with
  | [] => Ret d
  | (raw, n) :: raws' => d ← deliver d raw n; deliver_all d raws'
  end.

(** A buffer handed over holds the message, in a buffer of the stated size. *)
Definition holds (m : list Z) (raw : list Z * Z) : Prop :=
  slice raw.1 0 (zlen m) = m /\ zlen raw.1 = raw.2 /\ zlen m <= raw.2 <= INT_MAX.

Lemma load32_prefix (p q : list Z) : 4 <= zlen p -> load32 (p ++ q) 0 = load32 p 0.
Proof.
  intros. unfold load32, slice, zlen in *. change (Z.to_nat 0) with 0%nat. rewrite !drop_0.
  by rewrite take_app_le by lia.
Qed.

Lemma load32_slice a b n : 4 <= n -> slice a 0 n = slice b 0 n -> load32 a 0 = load32 b 0.
Proof.
  intros Hn E. unfold load32. f_equal. rewrite (slice_sub a b 0 0 n 0 4) by (done || lia). f_equal.
Qed.

(** Of a stream of messages, a partial start cannot contain the first. *)
Lemma partial_nil p msgs tail c :
  Forall is_msg msgs -> partial p -> p ++ c = concat msgs ++ tail -> c = [] -> msgs = [] /\ tail = p.
Proof.
  intros Hm Hp E ->. rewrite app_nil_r in E. destruct msgs as [|m msgs]; [done|]. exfalso.
  apply Forall_cons in Hm as [[Hl Hs] _]. rewrite E in Hp. simpl in Hp. rewrite <-app_assoc in Hp.
  destruct Hp as [Hp|[Hp _]].
  - rewrite zlen_app in Hp. pose proof (zlen_nonneg (concat msgs ++ tail)). lia.
  - rewrite load32_prefix, zlen_app in Hp by lia. pose proof (zlen_nonneg (concat msgs ++ tail)). lia.
Qed.

(** The length at the head of a stream of at least 9 bytes. *)
Definition head_size (msgs : list (list Z)) (tail : list Z) : Z :=
  match msgs with m :: _ => zlen m | [] => load32 tail 0 end.

Lemma head_size_load msgs tail :
  Forall is_msg msgs -> partial tail -> 9 <= zlen (concat msgs ++ tail) ->
  load32 (concat msgs ++ tail) 0 = head_size msgs tail /\ 9 <= head_size msgs tail <= INT_MAX - 128.
Proof.
  intros Hm Ht Hl. destruct msgs as [|m msgs]; simpl in *.
  - destruct Ht; lia.
  - apply Forall_cons in Hm as [[Hz Hs] _]. rewrite <-app_assoc, load32_prefix by lia. lia.
Qed.

(** The first message is complete exactly when the stream is that long. *)
Lemma head_complete msgs tail :
  Forall is_msg msgs -> partial tail -> 9 <= zlen (concat msgs ++ tail) ->
  match msgs with
  | m :: msgs' => zlen m <= zlen (concat msgs ++ tail)
  | [] => zlen tail < head_size [] tail
  end.
Proof.
  intros Hm Ht Hl. destruct msgs as [|m msgs]; simpl in *.
  - destruct Ht; lia.
  - rewrite !zlen_app. pose proof (zlen_nonneg (concat msgs)). pose proof (zlen_nonneg tail). lia.
Qed.

Lemma slice_app_l {A} (p q : list A) : slice (p ++ q) 0 (zlen p) = p.
Proof. unfold slice, zlen. simpl. rewrite Nat2Z.id. apply take_app_length. Qed.

(** Appending to the accumulated bytes. *)
Lemma accum_append a p c bidx n buf :
  slice a 0 (zlen p) = p -> zlen p + n <= zlen a -> 0 <= n <= zlen c -> 0 <= bidx ->
  drop (Z.to_nat bidx) buf = c -> bidx <= zlen buf ->
  exists a', memcpy a (zlen p) buf bidx n = Ret a' /\ zlen a' = zlen a /\
    slice a' 0 (zlen p + n) = p ++ slice c 0 n.
Proof.
  intros Hp Hn Hc Hb E Hbl. pose proof (zlen_nonneg p).
  assert (zlen c = zlen buf - bidx) as Hcl by (subst c; unfold zlen in *; rewrite length_drop; lia).
  destruct (memcpy_ex a (zlen p) buf bidx n) as (a' & -> & S1 & Z1 & F1); [lia..|].
  exists a'. split_and!; [done|done|]. rewrite slice_split by lia. f_equal.
  - rewrite F1 by lia. done.
  - rewrite Z.add_0_l, S1. subst c. unfold slice. rewrite drop_drop. do 2 f_equal. lia.
Qed.

Lemma extract_mlen_total a : 9 <= zlen a -> exists v, extract_mlen a = Ret v /\ v = load32 a 0.
Proof.
  intros Ha. unfold extract_mlen.
  destruct (lookup_lt_is_Some_2 a (Z.to_nat 8)) as [m Em]; [unfold zlen in *; lia|].
  rewrite (get8_lookup a 8 m) by (done || lia). simpl.
  rewrite get32n_ret by lia. simpl. destruct (m =? TP_SZ_MARKER); [|by eexists].
  destruct (Z.eqb_spec (load32 a 0) (load32n a 4)) as [->|]; by eexists.
Qed.

Lemma flags0 (r : river_t) : rv_flags r = 0 -> Z.land (rv_flags r) RF_DROP =? 0 = true.
Proof. by intros ->. Qed.

Lemma slice_sub0 {A} (a b : list A) n k : slice a 0 n = slice b 0 n -> 0 <= k <= n -> slice a 0 k = slice b 0 k.
Proof. intros E Hk. rewrite (slice_sub a b 0 0 n 0 k) by (done || lia). done. Qed.

(** Growing the accumulator keeps what was taken in. *)
Lemma grow_spec r p size :
  rv_state r = RS_GOOD -> rv_flags r = 0 ->
  (exists a, rv_accum r = Some a /\ zlen a = rv_nbytes r /\ slice a 0 (zlen p) = p) ->
  max_ibm + 1024 <= rv_nbytes r <= INT_MAX -> rv_ipt r = zlen p -> rv_msg_size r = size ->
  zlen p <= 9 -> 9 <= size <= INT_MAX - 128 ->
  exists r', river_grow malloc_bytes r = Ret r' /\ river_mid r' p size.
Proof.
  intros Hst Hfl (a & Ea & Za & Sa) Hnb Hip Hms Hp Hsz. pose proof (zlen_nonneg p). unfold river_grow.
  destruct (Z.ltb_spec (rv_nbytes r) (rv_msg_size r)) as [Hlt|Hlt].
  2: { exists r. split; [done|]. split; try done; [by exists a|lia]. }
  destruct (Z.ltb_spec INT_MAX (rv_msg_size r + 128)) as [?|_]; [lia|]. rewrite Hms, Hip.
  assert (zlen (malloc_bytes (size + 128)) = size + 128) as Zm by (apply malloc_len; lia).
  destruct (Z.ltb_spec 0 (zlen p)).
  - rewrite Ea. cbn [deref mbind comp_bind].
    destruct (memcpy_ex (malloc_bytes (size + 128)) 0 a 0 (zlen p + 1)) as (a' & -> & S1 & Z1 & _); [lia..|].
    cbn [mbind comp_bind]. eexists. split; [done|]. split; cbn; try done; try lia.
    exists a'. split_and!; [done|lia|]. rewrite (slice_sub0 a' a (zlen p + 1)) by (done || lia). done.
  - cbn [mbind comp_bind]. eexists. split; [done|]. split; cbn; try done; try lia.
    eexists. split_and!; [done|lia|]. destruct p; [done|]. unfold zlen in *. simpl in *. lia.
Qed.

Section round.
Context (buf : list Z) (bidx : Z) (p c : list Z) (msgs : list (list Z)) (tail : list Z).
Hypothesis Hc : drop (Z.to_nat bidx) buf = c.
Hypothesis Hb : 0 <= bidx <= zlen buf.
Hypothesis Hm : Forall is_msg msgs.
Hypothesis Ht : partial tail.
Hypothesis Hs : p ++ c = concat msgs ++ tail.

Lemma bidx_len : zlen c = zlen buf - bidx.
Proof. rewrite <-Hc. unfold zlen in *. rewrite length_drop. lia. Qed.

Lemma size_step r :
  river_rep r p -> partial p -> 0 < zlen c ->
  (zlen (p ++ c) < 9 /\ exists r', river_size malloc_bytes r buf bidx (zlen c) = Ret (inl r') /\ river_rep r' (p ++ c)) \/
  (9 <= zlen (p ++ c) /\ exists r' p' c' bidx',
     river_size malloc_bytes r buf bidx (zlen c) = Ret (inr (r', bidx', zlen c')) /\
     drop (Z.to_nat bidx') buf = c' /\ 0 <= bidx' <= zlen buf /\ p' ++ c' = p ++ c /\
     river_mid r' p' (head_size msgs tail) /\ zlen p' <= head_size msgs tail /\
     (zlen c' < zlen c \/ zlen c' = zlen c /\ zlen p' < head_size msgs tail)).
Proof.
  intros [Hst Hfl (a & Ea & Za & Sa) Hnb Hip Hsize] Hp Hpos. pose proof (zlen_nonneg p). pose proof bidx_len.
  pose proof (zlen_app p c) as Hpc. unfold river_size.
  destruct (Z.ltb_spec (zlen p) 9) as [Hp9|Hp9].
  2: { (* the size is known *)
    destruct Hsize as [Hsz Hsn]. right. destruct Hp as [?|[Hp1 Hp2]]; [lia|].
    assert (head_size msgs tail = load32 p 0) as Eh.
    { destruct (head_size_load msgs tail Hm Ht) as [<- _]; [rewrite <-Hs; lia|].
      rewrite <-Hs, load32_prefix by lia. done. }
    split; [lia|]. destruct (Z.leb_spec (rv_msg_size r) 0) as [?|_]; [lia|].
    exists r, p, c, bidx. rewrite Eh, Hsz in *. split_and!; try done; try lia.
    split; try done. by exists a. }
  destruct (Z.leb_spec (rv_msg_size r) 0) as [_|?]; [|lia]. unfold TP_SZFIELD_LEN. rewrite Ea, Hip.
  cbn [deref mbind comp_bind]. destruct (Z.ltb_spec (zlen c) (9 - zlen p)) as [Hn|Hn].
  { left. split; [lia|]. destruct (accum_append a p c bidx (zlen c) buf) as (a' & -> & Za' & Sa'); try done; try lia.
    cbn [mbind comp_bind]. eexists. split; [done|]. split; cbn; try done; try lia.
    - exists a'. split_and!; [done|lia|]. rewrite Hpc, Sa', slice_all. done.
    - destruct (Z.ltb_spec (zlen (p ++ c)) 9); lia. }
  right. split; [lia|]. destruct (head_size_load msgs tail Hm Ht) as [El Hh]; [rewrite <-Hs; lia|].
  rewrite <-Hs in El.
  destruct (Z.ltb_spec 0 (zlen p)) as [Hp0|Hp0].
  - destruct (accum_append a p c bidx (9 - zlen p) buf) as (a' & -> & Za' & Sa'); try done; try lia.
    replace (zlen p + (9 - zlen p)) with 9 in * by lia. cbn [mbind comp_bind].
    set (c1 := slice c 0 (9 - zlen p)) in *.
    assert (zlen c1 = 9 - zlen p) as Zc1 by (apply zlen_slice; lia).
    assert (p ++ c = (p ++ c1) ++ drop (Z.to_nat (9 - zlen p)) c) as Hsplit.
    { unfold c1, slice. rewrite <-app_assoc. f_equal. change (Z.to_nat 0) with 0%nat.
      by rewrite drop_0, take_drop. }
    assert (load32 a' 0 = head_size msgs tail) as El'.
    { rewrite <-El. rewrite (load32_slice a' (p ++ c1) 9); [|lia|].
      - rewrite Hsplit. symmetry. apply load32_prefix. rewrite zlen_app; lia.
      - rewrite Sa'. replace 9 with (zlen (p ++ c1)) by (rewrite zlen_app; lia). by rewrite slice_all. }
    assert (exists v, extract_mlen a' = Ret v /\ v = load32 a' 0) as (v & -> & ->).
    { apply extract_mlen_total. lia. }
    cbn [mbind comp_bind rv_msg_size]. rewrite El', i32_id by (unfold in_i32, INT_MAX in *; lia).
    destruct (Z.ltb_spec (head_size msgs tail) 0) as [?|_]; [lia|].
    edestruct (grow_spec (MkRiver (rv_state r) (Some a') (rv_nbytes r) 9 (head_size msgs tail) (rv_flags r))
      (p ++ c1) (head_size msgs tail)) as (r' & Er & Mr); cbn; try done; try (rewrite zlen_app; lia).
    { exists a'. split_and!; [done|lia|]. rewrite zlen_app, Zc1. replace (zlen p + (9 - zlen p)) with 9 by lia. done. }
    replace (zlen p + (9 - zlen p)) with 9 by lia.
    rewrite Er. cbn [mbind comp_bind].
    exists r', (p ++ c1), (drop (Z.to_nat (9 - zlen p)) c), (bidx + (9 - zlen p)).
    assert (zlen (drop (Z.to_nat (9 - zlen p)) c) = zlen c - (9 - zlen p)) as Zd.
    { unfold zlen in *. rewrite length_drop. lia. }
    split_and!; try done; try lia; try (rewrite zlen_app; lia).
    + by rewrite Zd.
    + rewrite <-Hc, drop_drop. f_equal. lia.
  - assert (p = []) as ->. { destruct p; [done|]. unfold zlen in *; simpl in *; lia. }
    assert (exists v, extract_mlen c = Ret v /\ v = load32 c 0) as (v & Ev & ->).
    { apply extract_mlen_total. change (zlen []) with 0 in *. lia. }
    rewrite Hc, Ev. cbn [mbind comp_bind rv_msg_size]. cbn [app] in *. rewrite El, i32_id by (unfold in_i32, INT_MAX in *; lia).
    destruct (Z.ltb_spec (head_size msgs tail) 0) as [?|_]; [lia|].
    edestruct (grow_spec (MkRiver (rv_state r) (Some a) (rv_nbytes r) (zlen (@nil Z)) (head_size msgs tail) (rv_flags r))
      [] (head_size msgs tail)) as (r' & Er & Mr); cbn; try done; [by exists a|].
    rewrite Er. cbn [mbind comp_bind]. exists r', [], c, bidx.
    change (zlen []) with 0. split_and!; try done; lia.
Qed.

Lemma fill_step r :
  river_mid r p (head_size msgs tail) -> 9 <= zlen (p ++ c) -> zlen p <= head_size msgs tail ->
  (msgs = [] /\ exists r', (forall d, river_fill malloc_bytes max_ibm deliver r d buf bidx (zlen c) = Ret (r', d, bidx, 0)) /\
     river_rep r' (p ++ c) /\ tail = p ++ c) \/
  (exists m msgs' raw r', msgs = m :: msgs' /\ holds m raw /\ river_rep r' [] /\
     (forall d, river_fill malloc_bytes max_ibm deliver r d buf bidx (zlen c) =
       (d' ← deliver d raw.1 raw.2; Ret (r', d', bidx + (zlen m - zlen p), zlen c - (zlen m - zlen p)))) /\
     drop (Z.to_nat (zlen m - zlen p)) c = concat msgs' ++ tail /\ zlen m - zlen p <= zlen c).
Proof.
  intros [Hst Hfl (a & Ea & Za & Sa) Hnb Hip [Hsz Hsn]] H9 Hph. pose proof (zlen_nonneg p).
  pose proof (zlen_nonneg c). pose proof bidx_len. pose proof (zlen_app p c) as Hpc.
  rewrite Hs in H9. pose proof (head_size_load msgs tail Hm Ht H9) as [El Hh].
  pose proof (head_complete msgs tail Hm Ht H9) as Hcmp. rewrite <-Hs in *.
  unfold river_fill. rewrite (flags0 r Hfl), Hip, Hsz, Ea. destruct msgs as [|m msgs'].
  - left. split; [done|]. cbn [concat app] in Hs.
    assert (zlen tail = zlen p + zlen c) by by rewrite <-Hpc, Hs.
    destruct (Z.ltb_spec (zlen p + zlen c) (head_size [] tail)) as [_|?]; [|lia].
    cbn [deref mbind comp_bind].
    destruct (accum_append a p c bidx (zlen c) buf) as (a' & -> & Za' & Sa'); try done; try lia.
    cbn [mbind comp_bind]. eexists. split; [done|]. split; [|done].
    split; cbn; try done.
    + exists a'. split_and!; [done|lia|]. by rewrite Hpc, Sa', slice_all.
    + destruct (Z.ltb_spec (zlen (p ++ c)) 9); [lia|]. by rewrite El.
  - right. cbn [head_size] in *. apply Forall_cons in Hm as [[Hml Hmz] Hm'].
    destruct (Z.ltb_spec (zlen p + zlen c) (zlen m)) as [?|_]; [lia|].
    cbn [deref mbind comp_bind].
    destruct (accum_append a p c bidx (zlen m - zlen p) buf) as (a' & -> & Za' & Sa'); try done; try lia.
    cbn [mbind comp_bind]. replace (zlen p + (zlen m - zlen p)) with (zlen m) in Sa' by lia.
    cbn [concat] in Hs. rewrite <-app_assoc in Hs.
    assert (slice (p ++ c) 0 (zlen m) = p ++ slice c 0 (zlen m - zlen p)) as Esl.
    { replace (zlen m) with (zlen p + (zlen m - zlen p)) at 1 by lia. rewrite slice_split, slice_app_l by lia.
      f_equal. unfold slice. rewrite Z.add_0_l. f_equal. unfold zlen. rewrite Nat2Z.id. apply drop_app_length. }
    exists m, msgs', (a', rv_nbytes r), (MkRiver (rv_state r) (Some (malloc_bytes (max_ibm + 1024))) (max_ibm + 1024) 0 (-1) (rv_flags r)).
    split_and!; try done; try lia.
    + split_and!; cbn; try lia. rewrite Sa', <-Esl, Hs. apply slice_app_l.
    + split; cbn; try done; try lia. eexists. split_and!; [done| |done]. apply malloc_len. lia.
    + transitivity (drop (length m) (p ++ c)).
      * rewrite drop_app_ge by (unfold zlen in *; lia). f_equal. unfold zlen. lia.
      * rewrite Hs. apply drop_app_length.
Qed.
End round.

(** The loop of the callback on a piece of a stream of messages. *)
Lemma river_loop_spec fuel : forall r p c msgs tail buf bidx,
  (length c < fuel)%nat -> drop (Z.to_nat bidx) buf = c -> 0 <= bidx <= zlen buf ->
  Forall is_msg msgs -> partial tail -> partial p -> p ++ c = concat msgs ++ tail -> river_rep r p ->
  exists raws r', Forall2 holds msgs raws /\ river_rep r' tail /\
    forall d, river_loop malloc_bytes max_ibm deliver fuel r d buf bidx (zlen c) =
      (d' ← deliver_all d raws; Ret (Some (r', d'))).
Proof.
  induction fuel as [|fuel IH]; intros r p c msgs tail buf bidx Hf Hc Hb Hm Ht Hp Hs R; [lia|].
  cbn [river_loop]. destruct (Z.ltb_spec 0 (zlen c)) as [Hpos|Hpos].
  2: { assert (c = []) as ->. { destruct c; [done|]. unfold zlen in *; simpl in *; lia. }
       destruct (partial_nil p msgs tail [] Hm Hp Hs eq_refl) as [-> ->].
       exists [], r. split_and!; try done. }
  destruct (size_step buf bidx p c msgs tail Hc Hb Hm Ht Hs r R Hp Hpos)
    as [(Hlt & r' & Er & R')|(Hge & r1 & p1 & c1 & b1 & Er & Hc1 & Hb1 & Hs1 & M1 & Hp1 & Hprog)].
  { assert (msgs = []) as ->.
    { destruct msgs as [|m msgs]; [done|]. exfalso. apply Forall_cons in Hm as [[Hz _] _].
      rewrite Hs in Hlt. simpl in Hlt. rewrite !zlen_app in Hlt.
      pose proof (zlen_nonneg (concat msgs)). pose proof (zlen_nonneg tail). lia. }
    exists [], r'. cbn [concat app] in Hs. rewrite Hs in R'. split_and!; try done.
    intros d. rewrite Er. done. }
  rewrite <-Hs1 in Hs, Hge.
  rewrite Er. cbn [mbind comp_bind].
  destruct (fill_step buf b1 p1 c1 msgs tail Hc1 Hb1 Hm Ht Hs r1 M1 Hge Hp1)
    as [(-> & r' & Ef & R' & Et)|(m & msgs' & raw & r' & -> & Hh & R' & Ef & Hd & Hneed)].
  { exists [], r'. rewrite <-Et in R'. split_and!; try done. intros d. rewrite Ef. cbn [mbind comp_bind].
    by destruct fuel. }
  apply Forall_cons in Hm as [Hm0 Hm']. cbn [head_size] in *. pose proof (zlen_nonneg c1).
  pose proof (bidx_len buf b1 c1 Hc1 Hb1) as Hl1.
  set (need := zlen m - zlen p1) in *. set (c2 := drop (Z.to_nat need) c1) in *.
  assert (zlen c2 = zlen c1 - need) as Z2. { unfold c2, zlen in *. rewrite length_drop. lia. }
  destruct (IH r' [] c2 msgs' tail buf (b1 + need)) as (raws & r2 & HF & R2 & Hloop); try done; try lia.
  - unfold zlen in *. lia.
  - unfold c2. rewrite <-Hc1, drop_drop. f_equal. lia.
  - by left.
  - exists (raw :: raws), r2. split_and!; [by constructor|done|]. intros d. rewrite Ef.
    destruct raw as [raw n]. cbn [fst snd deliver_all]. destruct (deliver d raw n) as [d'|]; [|done].
    cbn [mbind comp_bind]. rewrite <-Z2. apply Hloop.
Qed.

Lemma partial_prefix x y : partial (x ++ y) -> partial x.
Proof.
  intros Hp. unfold partial in *. rewrite zlen_app in Hp. pose proof (zlen_nonneg y).
  destruct (Z_lt_le_dec (zlen x) 9); [by left|right]. destruct Hp as [?|Hp]; [lia|].
  rewrite load32_prefix in Hp by lia. lia.
Qed.

Lemma msg_prefix m x y : is_msg m -> m = x ++ y -> zlen x < zlen m -> partial x.
Proof.
  intros [Hl Hz] -> Hx. unfold partial. destruct (Z_lt_le_dec (zlen x) 9); [by left|right].
  rewrite load32_prefix in Hz by lia. lia.
Qed.

(** A point in a stream of messages. *)
Lemma stream_split msgs : forall x y tail,
  Forall is_msg msgs -> partial tail -> x ++ y = concat msgs ++ tail ->
  exists msgs1 msgs2 tail1, msgs = msgs1 ++ msgs2 /\ x = concat msgs1 ++ tail1 /\ partial tail1 /\
    tail1 ++ y = concat msgs2 ++ tail.
Proof.
  induction msgs as [|m msgs IH]; intros x y tail Hm Ht E.
  { exists [], [], x. split_and!; try done. cbn in E. subst tail. by eapply partial_prefix. }
  apply Forall_cons in Hm as [Hm0 Hm]. cbn [concat] in E. rewrite <-app_assoc in E.
  apply app_eq_app in E as (l & [[-> E]|[-> E]]).
  - destruct (IH l y tail Hm Ht (eq_sym E)) as (m1 & m2 & t1 & -> & -> & Ht1 & E').
    exists (m :: m1), m2, t1. split_and!; try done. cbn. by rewrite app_assoc.
  - destruct l as [|b l].
    + rewrite app_nil_r in *. exists [x], msgs, []. cbn in *. rewrite !app_nil_r.
      split_and!; try done; by left.
    + exists [], ((x ++ b :: l) :: msgs), x. split_and!; try done.
      * eapply (msg_prefix _ x (b :: l)); try done. rewrite zlen_app. unfold zlen. simpl. lia.
      * cbn [concat]. rewrite E. by rewrite !app_assoc.
Qed.

(** A river that has [p] of the current message: also a new one, before the
    first bytes of a connection. *)
Definition river_at (r : river_t) (p : list Z) : Prop :=
  river_rep r p \/ (rv_state r = RS_NEW /\ p = []).

Lemma river_data_spec r p buf msgs tail :
  river_at r p -> partial p -> Forall is_msg msgs -> partial tail -> p ++ buf = concat msgs ++ tail ->
  exists raws r', Forall2 holds msgs raws /\ river_rep r' tail /\
    forall d, river_data malloc_bytes max_ibm deliver r d buf = (d' ← deliver_all d raws; Ret (Some (r', d'))).
Proof.
  intros HR Hp Hm Ht Hs.
  assert (exists r0, river_rep r0 p /\ forall d, river_data malloc_bytes max_ibm deliver r d buf =
    river_loop malloc_bytes max_ibm deliver (S (length buf)) r0 d buf 0 (zlen buf)) as (r0 & R0 & E0).
  { unfold river_data. destruct HR as [R|[Es ->]].
    - exists r. split; [done|]. intros d. rewrite (rr_state _ _ R). cbn. f_equal.
      destruct r; cbn. by rewrite <-(rr_state _ _ R).
    - exists (MkRiver RS_GOOD (Some (malloc_bytes (max_ibm + 1024))) (max_ibm + 1024) 0 0 0).
      split; [|intros d; by rewrite Es]. split; cbn; try done; try lia.
      eexists. split_and!; [done|apply malloc_len; lia|done]. }
  destruct (river_loop_spec (S (length buf)) r0 p buf msgs tail buf 0) as (raws & r' & HF & R' & HL); try done; try lia.
  { unfold zlen. lia. }
  exists raws, r'. split_and!; try done. intros d. by rewrite E0, HL.
Qed.

(** The callback called with one piece after the other. *)
Fixpoint river_feed (r : river_t) (d : D) (chunks : list (list Z)) : comp (option (river_t * D)) :=
  match chunks with
  | [] => Ret (Some (r, d))
  | c :: chunks' =>
      x ← river_data malloc_bytes max_ibm deliver r d c;
      match x with Some (r, d) => river_feed r d chunks' | None => Ret None end
  end.

Lemma river_feed_spec chunks : forall r p msgs tail,
  river_at r p -> partial p -> Forall is_msg msgs -> partial tail -> p ++ concat chunks = concat msgs ++ tail ->
  exists raws r', Forall2 holds msgs raws /\ river_at r' tail /\
    forall d, river_feed r d chunks = (d' ← deliver_all d raws; Ret (Some (r', d'))).
Proof.
  induction chunks as [|c chunks IH]; intros r p msgs tail HR Hp Hm Ht Hs; cbn [concat] in Hs.
  { destruct (partial_nil p msgs tail [] Hm Hp Hs eq_refl) as [-> ->]. exists [], r. by split_and!. }
  rewrite app_assoc in Hs.
  destruct (stream_split msgs (p ++ c) (concat chunks) tail Hm Ht Hs) as (m1 & m2 & t1 & -> & E1 & Ht1 & E2).
  apply Forall_app in Hm as [Hm1 Hm2].
  destruct (river_data_spec r p c m1 t1 HR Hp Hm1 Ht1 E1) as (raws1 & r1 & HF1 & R1 & D1).
  destruct (IH r1 t1 m2 tail (or_introl R1) Ht1 Hm2 Ht E2) as (raws2 & r2 & HF2 & R2 & D2).
  exists (raws1 ++ raws2), r2. split_and!; [by apply Forall2_app|done|]. intros d. cbn [river_feed].
  rewrite D1. clear -D2. revert d. induction raws1 as [|[raw n] raws1 IH]; intros d; cbn.
  - apply D2.
  - destruct (deliver d raw n); [|done]. apply IH.
Qed.
End river_thms.

(** * Properties *)

(** C19.  Message boundaries survive the transport: a connection whose bytes are
    a sequence of messages, followed by the start of another, is cut into any
    pieces; the callback, called with one piece after the other on a new river,
    terminates without a memory error and hands over exactly the messages, in
    order, each in a buffer that starts with it, and the river is left holding
    the start of the last one. *)
Theorem river_chunking malloc_bytes max_ibm {D : Type} (deliver : D -> list Z -> Z -> comp D)
    chunks msgs tail :
  (forall n, 0 <= n -> zlen (malloc_bytes n) = n) -> 0 <= max_ibm < INT_MAX - 1024 ->
  Forall is_msg msgs -> partial tail -> concat chunks = concat msgs ++ tail ->
  exists raws r, Forall2 holds msgs raws /\ river_at max_ibm r tail /\
    forall d, river_feed malloc_bytes max_ibm deliver river0 d chunks =
      (d' ← deliver_all deliver d raws; Ret (Some (r, d'))).
Proof.
  intros Hm Hi Hf Ht E. apply (river_feed_spec malloc_bytes Hm max_ibm Hi deliver chunks river0 [] msgs tail);
    try done; [by right|by left].
Qed.

(** A message of [9 + n] bytes. *)
Definition tiny (n : nat) : list Z := le_bytes 4 (Z.of_nat (9 + n)) ++ replicate (5 + n) 36.

Lemma river_chunking_witness :
  exists raws r, Forall2 holds [tiny 3; tiny 0] raws /\
    river_feed junk 100 (fun d raw _ => Ret (d ++ [raw])) river0 []
      [take 5 (tiny 3); drop 5 (tiny 3) ++ take 2 (tiny 0); drop 2 (tiny 0) ++ [44]]
    = (d' ← deliver_all (fun d raw _ => Ret (d ++ [raw])) [] raws; Ret (Some (r, d'))).
Proof.
  edestruct (river_chunking junk 100 (fun d raw (_ : Z) => Ret (d ++ [raw]))
    [take 5 (tiny 3); drop 5 (tiny 3) ++ take 2 (tiny 0); drop 2 (tiny 0) ++ [44]] [tiny 3; tiny 0] [44])
    as (raws & r & HF & _ & E); [apply junk_len|unfold INT_MAX; lia| | |vm_compute; reflexivity|].
  - repeat constructor; vm_compute; try discriminate; reflexivity.
  - left. vm_compute. reflexivity.
  - exists raws, r. split; [exact HF|apply E].
Defined.

(** A message whose length field is 0 never lets go of the receive thread:
    however many rounds the loop is given it does not finish, and every round
    hands over another buffer. *)
Theorem zero_length_never_returns malloc_bytes max_ibm {D : Type} (f : D -> list Z -> Z -> D) fuel d :
  (forall n, 0 <= n -> zlen (malloc_bytes n) = n) -> 0 <= max_ibm < INT_MAX - 1024 ->
  river_loop malloc_bytes max_ibm (fun d raw n => Ret (f d raw n)) fuel
    (MkRiver RS_GOOD (Some (malloc_bytes (max_ibm + 1024))) (max_ibm + 1024) 0 0 0) d (replicate 9 0) 0 9
  = Ret None.
Proof.
  intros Hm Hi. assert (zlen (malloc_bytes (max_ibm + 1024)) = max_ibm + 1024) as Z0 by (apply Hm; lia).
  assert (forall ms d, ms <= 0 ->
    river_loop malloc_bytes max_ibm (fun d raw n => Ret (f d raw n)) fuel
      (MkRiver RS_GOOD (Some (malloc_bytes (max_ibm + 1024))) (max_ibm + 1024) 0 ms 0) d (replicate 9 0) 0 9 = Ret None) as H;
    [|by apply H].
  induction fuel as [|fuel IH]; intros ms d0 Hms; [done|]. cbn [river_loop].
  unfold river_size. cbn [rv_msg_size rv_ipt rv_accum rv_state rv_nbytes rv_flags].
  destruct (Z.leb_spec ms 0) as [_|?]; [|lia]. simpl.
  change (i32 (load32 _ _)) with 0. unfold river_grow. cbn [rv_msg_size rv_nbytes].
  destruct (Z.ltb_spec (max_ibm + 1024) 0) as [?|_]; [lia|]. cbn [mbind comp_bind].
  unfold river_fill. cbn [rv_msg_size rv_ipt rv_accum rv_state rv_nbytes rv_flags].
  change (Z.land 0 RF_DROP =? 0) with true. change (0 + 9 <? 0) with false. cbn [deref mbind comp_bind].
  rewrite memcpy_ret by (rewrite ?Z0; change (zlen [0; 0; 0; 0; 0; 0; 0; 0; 0]) with 9; lia).
  cbn [mbind comp_bind]. apply IH. lia.
Qed.

Lemma zero_length_never_returns_witness :
  river_loop junk 100 (fun d raw n => Ret (raw :: d)) 5
    (MkRiver RS_GOOD (Some (junk (100 + 1024))) (100 + 1024) 0 0 0) [] (replicate 9 0) 0 9 = Ret None.
Proof.
  apply (zero_length_never_returns junk 100 (fun d raw _ => raw :: d) 5 []);
    [apply junk_len|unfold INT_MAX; lia].
Defined.

(** A length field of 1 to 8 that arrives in two pieces makes the callback
    copy a negative number of bytes. *)
Theorem short_length_split_is_undefined malloc_bytes max_ibm {D : Type} (deliver : D -> list Z -> Z -> comp D)
    (d : D) size :
  (forall n, 0 <= n -> zlen (malloc_bytes n) = n) -> 0 <= max_ibm < INT_MAX - 1024 -> 1 <= size <= 8 ->
  river_feed malloc_bytes max_ibm deliver river0 d [le_bytes 4 size; replicate 6 0] = UB.
Proof.
  intros Hm Hi Hs. assert (zlen (malloc_bytes (max_ibm + 1024)) = max_ibm + 1024) as Z0 by (apply Hm; lia).
  assert (le_bytes 4 size = [size; 0; 0; 0]) as El.
  { cbn. rewrite Z.mod_small by lia. rewrite (Z.div_small size 256) by lia. done. }
  rewrite El. set (p := [size; 0; 0; 0]). assert (zlen p = 4) as Zp by done.
  destruct (river_data_spec malloc_bytes Hm max_ibm Hi deliver river0 [] p [] p) as (raws & r & HF & R & E);
    [by right|by left|done|left; lia|done|].
  apply Forall2_nil_inv_l in HF as ->. cbn [river_feed]. rewrite E. cbn [deliver_all mbind comp_bind].
  destruct R as [Hst Hfl (a & Ea & Za & Sa) Hnb Hip Hsz]. rewrite Zp in *. cbn in Hsz.
  destruct (accum_append a p (replicate 6 0) 0 5 (replicate 6 0)) as (a' & Ea' & Za' & Sa');
    try done; rewrite ?Zp; try (change (zlen (replicate 6 0)) with 6); try lia.
  rewrite Zp in *. unfold river_data. rewrite Hst. change (RS_GOOD =? RS_GOOD) with true. cbv iota beta.
  change (zlen (replicate 6 0)) with 6. cbn [river_loop length replicate]. change (0 <? 6) with true.
  cbv iota. unfold river_size. cbn [rv_msg_size rv_ipt rv_accum rv_state rv_nbytes rv_flags].
  destruct (Z.leb_spec (rv_msg_size r) 0) as [_|?]; [|lia]. rewrite Ea, Hip. cbn [deref mbind comp_bind].
  change (6 <? TP_SZFIELD_LEN - 4) with false. change (0 <? 4) with true. change (TP_SZFIELD_LEN - 4) with 5.
  cbv iota. cbn [replicate] in Ea'. rewrite Ea'. cbn [mbind comp_bind].
  destruct (extract_mlen_total a') as (v & -> & ->); [lia|]. cbn [mbind comp_bind].
  assert (load32 a' 0 = size) as ->.
  { rewrite (load32_slice a' [size; 0; 0; 0; 0; 0; 0; 0; 0] 9) by (lia || exact Sa'). change (le_val [size; 0; 0; 0] = size). cbn [le_val]. lia. }
  rewrite i32_id by (unfold in_i32; lia). cbn [rv_msg_size].
  destruct (Z.ltb_spec size 0) as [?|_]; [lia|]. unfold river_grow. cbn [rv_msg_size rv_nbytes].
  destruct (Z.ltb_spec (rv_nbytes r) size) as [?|_]; [lia|]. cbn [mbind comp_bind].
  unfold river_fill. cbn [rv_msg_size rv_ipt rv_accum rv_state rv_nbytes rv_flags].
  rewrite Hfl. change (Z.land 0 RF_DROP =? 0) with true. change (4 + 5 + (6 - 5)) with 10.
  destruct (Z.ltb_spec 10 size) as [?|_]; [lia|]. cbn [deref mbind comp_bind].
  by rewrite memcpy_UB by lia.
Qed.

Lemma short_length_split_is_undefined_witness :
  river_feed junk 100 (fun d raw _ => Ret (raw :: d)) river0 [] [le_bytes 4 5; replicate 6 0] = UB.
Proof.
  apply (short_length_split_is_undefined junk 100 (fun d raw _ => Ret (raw :: d)) [] 5);
    [apply junk_len|unfold INT_MAX; lia|lia].
Defined.

(** ** From a buffer to a message *)

(** Where a message of the receive thread can go. *)
Inductive delivered (now : Z) (ctx : rx_ctx) (m : mbuf) : rx_ctx -> Prop :=
| DQueued : delivered now ctx m (queue_normal now ctx m)
| DChute i : (0 < i < 256)%nat ->
    delivered now ctx m
      (MkRx (rx_mring ctx)
         (alter (fun c => MkChute (Some m) (ch_barrier c + 1) (ch_expect c)) i (rx_chutes ctx))
         (rx_dcount ctx) (rx_acc_dcount ctx) (rx_acc_ecount ctx) (rx_last_warning ctx) (rx_max_ibm ctx)).

Definition lens_sum (raw : list Z) : Z :=
  load32n raw 246 + load32n raw 250 + load32n raw 254 + load32n raw 258.

(** The fields ref_tpbuf and buf2mbuf take from the buffer. *)
Record refs_buffer (m : mbuf) (raw : list Z) (fd : Z) : Prop := {
  rb_state : m_state m = RMR_OK;
  rb_buf : m_tp_buf m = Some raw;
  rb_hdr : m_header m = Some TP_HDR_LEN;
  rb_len : m_len m = load32n raw (TP_HDR_LEN + o_plen);
  rb_pay : m_payload m = Some (TP_HDR_LEN + lens_sum raw) /\ 0 <= lens_sum raw /\
           TP_HDR_LEN + lens_sum raw + m_len m <= zlen raw;
  rb_mtype : m_mtype m = i32 (load32n raw (TP_HDR_LEN + o_mtype));
  rb_sub : m_sub_id m = i32 (load32n raw (TP_HDR_LEN + o_sub_id));
  rb_fd : m_rts_fd m = fd;
  rb_alloc : m_alloc_len m = zlen raw;
  rb_xact : m_xaction m = Some (TP_HDR_LEN + o_xid);
  rb_flags : Z.land (m_flags m) MFL_NOALLOC = 0
}.

(** The chute a buffer goes to: 0 (the ring) for a request and for a message
    without a call id. *)
Definition call_slot (raw : list Z) : Z :=
  if negb (Z.land (load32 raw (TP_HDR_LEN + o_flags)) HFL_CALL_MSG =? 0) || (load32n raw 254 <=? 0) then 0
  else default 0 (raw !! Z.to_nat (TP_HDR_LEN + load32n raw 246 + load32n raw 250)).

Definition deliver_to (now : Z) (ctx : rx_ctx) (m : mbuf) (slot : Z) : rx_ctx :=
  if slot =? 0 then queue_normal now ctx m
  else MkRx (rx_mring ctx)
         (alter (fun c => MkChute (Some m) (ch_barrier c + 1) (ch_expect c)) (Z.to_nat slot) (rx_chutes ctx))
         (rx_dcount ctx) (rx_acc_dcount ctx) (rx_acc_ecount ctx) (rx_last_warning ctx) (rx_max_ibm ctx).

Lemma deliver_delivered now ctx m slot : 0 <= slot < 256 -> delivered now ctx m (deliver_to now ctx m slot).
Proof.
  intros Hs. unfold deliver_to. destruct (Z.eqb_spec slot 0); [constructor|].
  apply (DChute now ctx m (Z.to_nat slot)). lia.
Qed.

Lemma get8_range raw off b : Forall is_byte raw -> get8 raw off = Ret b -> 0 <= b < 256.
Proof.
  intros Hb. unfold get8. destruct (_ || _); [done|]. destruct (raw !! _) as [x|] eqn:E; [|done].
  intros [= <-]. exact (Forall_lookup_1 _ _ _ _ Hb E).
Qed.

Lemma get8_some raw off b : get8 raw off = Ret b -> raw !! Z.to_nat off = Some b.
Proof. unfold get8. destruct (_ || _); [done|]. destruct (raw !! Z.to_nat off); [by intros [= ->]|done]. Qed.

Lemma get8_total raw off : 0 <= off < zlen raw -> exists b, get8 raw off = Ret b.
Proof.
  intros H. destruct (lookup_lt_is_Some_2 raw (Z.to_nat off)) as [b Eb]; [unfold zlen in *; lia|].
  exists b. apply get8_lookup; [lia|done].
Qed.

(** The same for a buffer whose header fields are in range; the byte that may be
    a call id is looked at only when the data section is not empty. *)
Lemma buf2mbuf_spec now ctx raw fd :
  330 <= zlen raw < 2 ^ 31 ->
  (forall o, o = 246 \/ o = 250 \/ o = 254 \/ o = 258 \/ o = 54 -> 0 <= load32n raw o) ->
  (forall b, 0 < load32n raw 254 -> get8 raw (TP_HDR_LEN + load32n raw 246 + load32n raw 250) = Ret b -> 0 <= b < 256) ->
  lens_sum raw + TP_HDR_LEN + load32n raw (TP_HDR_LEN + o_plen) < 2 ^ 32 ->
  if zlen raw <? lens_sum raw + TP_HDR_LEN + load32n raw (TP_HDR_LEN + o_plen)
  then buf2mbuf now ctx raw (zlen raw) fd = Ret ctx
  else exists m, buf2mbuf now ctx raw (zlen raw) fd = Ret (deliver_to now ctx m (call_slot raw)) /\
    0 <= call_slot raw < 256 /\ refs_buffer m raw fd.
Proof.
  intros Hl Hb Hb8 Hs. unfold lens_sum, call_slot in *.
  pose proof (Hb 246 ltac:(tauto)). pose proof (Hb 250 ltac:(tauto)). pose proof (Hb 254 ltac:(tauto)).
  pose proof (Hb 258 ltac:(tauto)). pose proof (Hb 54 ltac:(tauto)). offsets. change (50 + 4) with 54 in *.
  assert (hdr_lens raw 50 = Ret (load32n raw 246, load32n raw 250, load32n raw 254, load32n raw 258)) as EL.
  { unfold hdr_lens. offsets. rewrite !get32n_ret by lia. done. }
  unfold buf2mbuf, RMR_HDR_LEN. offsets. rewrite EL. cbn [mbind comp_bind].
  rewrite get32n_ret by lia. cbn [mbind comp_bind]. rewrite (u32_id (_ + load32n raw 258)) by lia.
  rewrite !u32_id by lia. set (hl := load32n raw 246 + _ + _ + _) in *. set (pl := load32n raw 54) in *.
  destruct (Z.ltb_spec (zlen raw) (hl + 50 + pl)) as [Hd|Hd]; [done|].
  set (mb := if rx_max_ibm ctx + 1024 <? zlen raw then _ else _).
  assert (m_tp_buf mb = Some raw) as Emb by (unfold mb; by destruct (_ <? _)).
  assert (m_rts_fd mb = fd) as Efd by (unfold mb; by destruct (_ <? _)).
  unfold ref_tpbuf. rewrite Emb. cbn [deref mbind comp_bind]. offsets. rewrite get32n_ret by lia. cbn [mbind comp_bind].
  unfold PAYLOAD_ADDR, RMR_HDR_LEN. offsets. rewrite EL. cbn [mbind comp_bind]. rewrite !get32n_ret by lia.
  cbn [mbind comp_bind]. rewrite (u32_id (_ + load32n raw 258)) by lia. fold hl. fold pl.
  rewrite (i32_id pl), (i32_id (zlen raw)), (i32_id hl) by (unfold in_i32; lia).
  destruct (Z.ltb_spec (zlen raw - hl) pl) as [?|_]; [lia|].
  assert (Z.land (m_flags mb) MFL_NOALLOC = 0) as Enoa by (unfold mb; by destruct (_ <? _)).
  set (m := MkMbuf _ _ _ _ _ _ _ _ _ _ _ _ _).
  assert (refs_buffer m raw fd) as Rm.
  { split; cbn; try done; [|by rewrite Z.land_lor_distr_l, Enoa].
    unfold lens_sum. offsets. unfold hl, pl in *. split_and!; [f_equal; lia|lia|lia]. }
  exists m. destruct (negb _); cbn [orb]; [done|].
  unfold RMR_D1_LEN, DATA1_ADDR. offsets. rewrite !get32n_ret by lia. cbn [mbind comp_bind].
  destruct (Z.leb_spec (load32n raw 254) 0); [done|].
  destruct (get8_total raw (50 + load32n raw 246 + load32n raw 250)) as [b Eb]; [unfold hl in *; lia|].
  rewrite Eb. cbn [mbind comp_bind]. assert (0 <= b < 256) as Hr by (apply Hb8; [lia|exact Eb]).
  rewrite (get8_some _ _ _ Eb). cbn [default from_option]. change (id b) with b. unfold deliver_to.
  destruct (Z.eqb_spec b 0) as [->|Hne]; (split; [done|split; [lia|done]]).
Qed.

(** C27.  A received buffer with any content, as long as the header's lengths and
    the payload length do not exceed 32 bits together, is handled without a
    memory error: it is dropped when they do not fit the buffer, and otherwise
    becomes one message, on the ring or in a chute, whose payload lies inside the
    buffer and whose type, subscription id and length are those of the header. *)
Theorem received_message_in_bounds now ctx raw fd :
  Forall is_byte raw -> 330 <= zlen raw < 2 ^ 31 ->
  lens_sum raw + TP_HDR_LEN + load32n raw (TP_HDR_LEN + o_plen) < 2 ^ 32 ->
  if zlen raw <? lens_sum raw + TP_HDR_LEN + load32n raw (TP_HDR_LEN + o_plen)
  then buf2mbuf now ctx raw (zlen raw) fd = Ret ctx
  else exists m ctx', buf2mbuf now ctx raw (zlen raw) fd = Ret ctx' /\ delivered now ctx m ctx' /\
    refs_buffer m raw fd.
Proof.
  intros Hb Hl Hs. pose proof (buf2mbuf_spec now ctx raw fd Hl) as H. destruct (zlen raw <? _).
  - apply H; [|by intros b _; apply get8_range|done]. intros o _. by apply load32n_range.
  - destruct H as (m & E & Hc & R); [|by intros b _; apply get8_range|done|].
    { intros o _. by apply load32n_range. }
    exists m, (deliver_to now ctx m (call_slot raw)). by split_and!; [|apply deliver_delivered|].
Qed.

(** A receive buffer with the given length fields (in network order). *)
Definition forged (l1 l2 plen : Z) : list Z :=
  replicate 54 0 ++ be_bytes 4 plen ++ replicate 188 0 ++ be_bytes 4 280 ++ be_bytes 4 l1 ++
  be_bytes 4 l2 ++ replicate 342 0.

Definition rx0 : rx_ctx :=
  MkRx (MkRing 0 0 16 (replicate 17 None) 3 0 0 true false)
       (replicate 256 (MkChute None 0 [])) 0 0 0 0 1024.

Lemma received_message_in_bounds_witness :
  exists m ctx', buf2mbuf 100 rx0 (forged 20 4 10) 600 7 = Ret ctx' /\ delivered 100 rx0 m ctx' /\
    refs_buffer m (forged 20 4 10) 7.
Proof.
  apply (received_message_in_bounds 100 rx0 (forged 20 4 10) 7).
  - apply (bool_decide_unpack (Forall (fun b => 0 <= b /\ b < 256) (forged 20 4 10))). vm_compute. exact I.
  - vm_compute. split; [discriminate|reflexivity].
  - vm_compute. reflexivity.
Defined.

(** The length check sums in 32 bits while the payload address does not:
    a peer that sends a trace length of 2^32 - 280 gets a message through whose
    payload, in state RMR_OK, is 4 GB past the buffer; with a data length that is
    not 0 the receive thread itself reads there. *)
Theorem wrapped_lengths_accepted :
  (exists m ctx', buf2mbuf 100 rx0 (forged (2 ^ 32 - 280) 0 10) 600 7 = Ret ctx' /\
     delivered 100 rx0 m ctx' /\ m_state m = RMR_OK /\ m_len m = 10 /\ m_payload m = Some (2 ^ 32 + 50)) /\
  buf2mbuf 100 rx0 (forged (2 ^ 32 - 280) 4 10) 600 7 = UB.
Proof.
  split; [|vm_compute; reflexivity].
  set (m := comp_get mbuf0 (ref_tpbuf (set_rts_fd 7 (set_tp_buf (Some (forged (2 ^ 32 - 280) 0 10)) (alloc_mbuf RMR_ERR_UNSET))) 600)).
  exists m, (queue_normal 100 rx0 m). split_and!; [vm_compute; reflexivity|constructor|vm_compute; reflexivity..].
Qed.
