(* ===== verification/RouteTable.v ===== *)
(** Route tables: the tables, their entries and the operations on them, from
    src/src/rmr/common/src/rt_generic_static.c and uta_add_ep, uta_get_rte of
    src/src/rmr/si/src/rtable_si_static.c.

    A context has up to three tables: the active one, the old one that drains,
    and the new one under construction.  A table maps keys made of subscription
    id and message type to entries, and managed element ids to endpoints.
    Entries can be in several tables at once and carry the number of tables that
    reference them; the last table to let go frees them.  Endpoints are shared by
    all tables through one hash and never freed.

    Entries and endpoints live in stores and are referred to by ids; a freed
    entry is not in the store any more, so that a use of it is [UB].  Allocation
    succeeds.  The name service is the argument [gethostbyname]. *)

From S2P Require Import Prelude Bytes Symtab SymIface Tools Mbuf Endpoint.

Definition RT_SIZE : Z := 10009.
Definition RT_MT_SPACE : Z := 0.
Definition RT_NAME_SPACE : Z := 1.
Definition RT_ME_SPACE : Z := 2.
Definition MAX_EP_GROUP : Z := 32.

(** ** Strings *)

Definition isspace (c : Z) : bool := (c =? 32) || ((9 <=? c) && (c <=? 13)).

Fixpoint skip_space (s : list Z) : list Z :=
  match s with c :: s' => if isspace c then skip_space s' else s | [] => [] end.

(** The loop that trims the end never takes the first character. *)
Definition trim_tail (s : list Z) : list Z :=
  match s with [] => [] | c :: s' => c :: rev (skip_space (rev s')) end.

(** Cut at the first '#' when white space precedes it; [prev] is the character
    before. *)
Fixpoint cut_comment (prev : Z) (s : list Z) : list Z :=
  match s with
  | [] => []
  | c :: s' => if c =? 35 then if isspace prev then [] else s else c :: cut_comment c s'
  end.

Definition clip (buf : list Z) : list Z :=
  let buf := skip_space buf in
  match buf with
  | [] => []
  | c :: buf' => if c =? 35 then buf else trim_tail (c :: cut_comment c buf')
  end.

Definition ensure_nlterm (buf : option (list Z)) : list Z :=
  match buf with
  | None | Some [] => [10]
  | Some b => if default 0 (last b) =? 10 then b else b ++ [10]
  end.

Fixpoint digits (acc : Z) (s : list Z) : Z :=
  match s with c :: s' => if isdigit c then digits (acc * 10 + (c - 48)) s' else acc | [] => acc end.

(** [(int) strtol( s )]: the value saturates at the range of a long. *)
Definition atoi (s : list Z) : Z :=
  let s := skip_space s in
  let v := match s with
           | 45 :: s' => - digits 0 s'
           | 43 :: s' => digits 0 s'
           | _ => digits 0 s
           end in
  i32 (Z.max (- 2 ^ 63) (Z.min v (2 ^ 63 - 1))).

(** ** Data *)

Record rrgroup_t := MkRRG {
  rg_ep_idx : Z;
  rg_epts : list (option nat)        (* the [nused] pointers in use *)
}.

Record rtable_ent_t := MkRte {
  rte_key : Z;
  rte_refs : Z;
  rte_mtype : Z;
  rte_rrgroups : list (option rrgroup_t)     (* [nrrgroups] slots *)
}.

Definition rte_nrrgroups (r : rtable_ent_t) : Z := zlen (rte_rrgroups r).

(** What a route table's hash references, by key space. *)
Inductive thing := TRte (id : nat) | TEp (id : nat).

Record route_table_t (TH : Type) := MkRt {
  rt_error : bool;
  rt_hash : TH;
  rt_updates : Z;
  rt_mupdates : Z;
  rt_ref_count : Z
}.
Arguments MkRt {TH}.
Arguments rt_error {TH}.
Arguments rt_hash {TH}.
Arguments rt_updates {TH}.
Arguments rt_mupdates {TH}.
Arguments rt_ref_count {TH}.

(** The part of the context that route table code works on. *)
Record rt_ctx (TH TE : Type) := MkRtCtx {
  cr_rtes : gmap nat rtable_ent_t;
  cr_eps : gmap nat endpoint;
  cr_next : nat;                       (* the next id malloc gives out *)
  cr_ephash : TE;
  cr_rtable : option (route_table_t TH);
  cr_old : option (route_table_t TH);
  cr_new : option (route_table_t TH);
  cr_my_name : list Z;
  cr_ip_list : option if_addrs_t
}.
Arguments MkRtCtx {TH TE}.
Arguments cr_rtes {TH TE}.
Arguments cr_eps {TH TE}.
Arguments cr_next {TH TE}.
Arguments cr_ephash {TH TE}.
Arguments cr_rtable {TH TE}.
Arguments cr_old {TH TE}.
Arguments cr_new {TH TE}.
Arguments cr_my_name {TH TE}.
Arguments cr_ip_list {TH TE}.

Section rt.
Context {TH TE : Type} `{Symbols TH thing} `{Symbols TE nat}.
Variable gethostbyname : list Z -> option (list Z).

Abbreviation ctx_t := (rt_ctx TH TE).
Abbreviation table := (route_table_t TH).
Implicit Types (ctx : ctx_t) (rt : table).

Definition set_rtes ctx (m : gmap nat rtable_ent_t) : ctx_t :=
  MkRtCtx m (cr_eps ctx) (cr_next ctx) (cr_ephash ctx) (cr_rtable ctx) (cr_old ctx) (cr_new ctx)
    (cr_my_name ctx) (cr_ip_list ctx).
Definition set_tables ctx (act old new : option table) : ctx_t :=
  MkRtCtx (cr_rtes ctx) (cr_eps ctx) (cr_next ctx) (cr_ephash ctx) act old new
    (cr_my_name ctx) (cr_ip_list ctx).
Definition set_hash rt (h : TH) : table :=
  MkRt (rt_error rt) h (rt_updates rt) (rt_mupdates rt) (rt_ref_count rt).

(** ** Keys *)

Definition build_rt_key (sub_id mtype : Z) : Z :=
  if sub_id =? UNSET_SUBID
  then Z.lor 18446744069414584320 (u64 mtype)                    (* 0xffffffff00000000 *)
  else Z.lor (u64 (Z.shiftl (u64 sub_id) 32)) (Z.land (u32 mtype) 4294967295).

(** ** Endpoints *)

Definition uta_get_ep ctx (ep_name : list Z) : option nat :=
  match ep_name with [] => None | _ => sm_get (cr_ephash ctx) (AStr 1 ep_name) end.

(** The fresh endpoint's socket is whatever malloc left: it is not read while
    the endpoint is closed. *)
Definition rt_ensure_ep ctx (ep_name : list Z) : option nat * ctx_t :=
  match ep_name with
  | [] => (None, ctx)
  | _ =>
      match uta_get_ep ctx ep_name with
      | Some id => (Some id, ctx)
      | None =>
          let id := cr_next ctx in
          let ep := MkEp (Some ep_name) (uta_h2ip gethostbyname ep_name) 0 false 0 0 0 true in
          (Some id,
           MkRtCtx (cr_rtes ctx) (<[id := ep]> (cr_eps ctx)) (S id) (sm_put (cr_ephash ctx) (AStr 1 ep_name) id)
             (cr_rtable ctx) (cr_old ctx) (cr_new ctx) (cr_my_name ctx) (cr_ip_list ctx))
      end
  end.

(** ** Entries *)

(** Decrement the reference count, free at 0. *)
Definition del_rte ctx (id : nat) : comp ctx_t :=
  r ← deref (cr_rtes ctx !! id);
  let refs := rte_refs r - 1 in
  Ret (set_rtes ctx (if 0 <? refs
                     then <[id := MkRte (rte_key r) refs (rte_mtype r) (rte_rrgroups r)]> (cr_rtes ctx)
                     else delete id (cr_rtes ctx))).

(** A new entry under [key] in [rt]; the result is its id and the new table. *)
Definition uta_add_rte ctx rt (key nrrgroups : Z) : comp (nat * table * ctx_t) :=
  let n := if nrrgroups <? 0 then 10 else nrrgroups in
  let id := cr_next ctx in
  let rte := MkRte key 1 0 (replicate (Z.to_nat n) None) in
  let ctx := MkRtCtx (<[id := rte]> (cr_rtes ctx)) (cr_eps ctx) (S id) (cr_ephash ctx)
               (cr_rtable ctx) (cr_old ctx) (cr_new ctx) (cr_my_name ctx) (cr_ip_list ctx) in
  ctx ← match sm_get (rt_hash rt) (ANum key) with
        | Some (TRte old) => del_rte ctx old
        | Some (TEp _) => UB
        | None => Ret ctx
        end;
  Ret (id, set_hash rt (sm_put (rt_hash rt) (ANum key) (TRte id)), ctx).

(** The group is created when it is not there; a full one takes no more. *)
Definition uta_add_ep ctx (rte_id : nat) (ep_name : list Z) (group : Z) : comp (option nat * ctx_t) :=
  rte ← deref (cr_rtes ctx !! rte_id);
  if (rte_nrrgroups rte <=? group) || (group <? 0) then Ret (None, ctx) else
  let rrg := match rte_rrgroups rte !! Z.to_nat group with
             | Some (Some g) => g
             | _ => MkRRG 0 []
             end in
  let put ctx g := set_rtes ctx (<[rte_id := MkRte (rte_key rte) (rte_refs rte) (rte_mtype rte)
                     (<[Z.to_nat group := Some g]> (rte_rrgroups rte))]> (cr_rtes ctx)) in
  let '(ep, ctx) := rt_ensure_ep ctx ep_name in
  if MAX_EP_GROUP <=? zlen (rg_epts rrg) then Ret (None, put ctx rrg)
  else Ret (ep, put ctx (MkRRG (rg_ep_idx rrg) (rg_epts rrg ++ [ep]))).

(** Is a record with this message type and sender field meant for us? *)
Definition for_us (my_name : list Z) (ip_list : option if_addrs_t) (ts_field : list Z) : bool :=
  match strchr (ts_field ++ [0]) 0 44 with
  | None => true
  | Some _ => (0 <=? uta_has_str ts_field my_name 44 127) || has_myip (Some ts_field) ip_list 44 127
  end.

(** The endpoints of one group: [has] tells whether one was added. *)
Fixpoint add_eps ctx (rte_id : nat) (toks : list (list Z)) (cgidx : Z) (has : bool) : comp (bool * ctx_t) :=
  match toks with
  | [] => Ret (has, ctx)
  | t :: toks' =>
      if negb (streq t (cr_my_name ctx))
      then '(_, ctx) ← uta_add_ep ctx rte_id t cgidx; add_eps ctx rte_id toks' cgidx true
      else add_eps ctx rte_id toks' cgidx has
  end.

Fixpoint add_groups ctx (rte_id : nat) (gtoks : list (list Z)) (cgidx : Z) : comp ctx_t :=
  match gtoks with
  | [] => Ret ctx
  | g :: gtoks' =>
      x ← add_eps ctx rte_id (uta_rmip_tokenise g (cr_ip_list ctx) 64 44) cgidx false;
      add_groups x.2 rte_id gtoks' (if x.1 : bool then cgidx + 1 else cgidx)
  end.

(** Works on the table under construction, which must be there. *)
Definition build_entry ctx (ts_field : list Z) (subid : Z) (rr_field : list Z) : comp ctx_t :=
  let ts_field := clip ts_field in
  let rr_field := clip rr_field in
  if for_us (cr_my_name ctx) (cr_ip_list ctx) ts_field then
    let key := build_rt_key (i32 subid) (atoi ts_field) in
    match tokenise rr_field 64 59 with
    | [] => Ret ctx
    | (g0 :: _) as gtokens =>
        let gtokens := if streq g0 $"%meid" then [] else gtokens in
        rt ← deref (cr_new ctx);
        '(id, rt, ctx) ← uta_add_rte ctx rt key (zlen gtokens);
        let ctx := set_tables ctx (cr_rtable ctx) (cr_old ctx) (Some rt) in
        rte ← deref (cr_rtes ctx !! id);
        let ctx := set_rtes ctx (<[id := MkRte (rte_key rte) (rte_refs rte) (atoi ts_field) (rte_rrgroups rte)]>
                                   (cr_rtes ctx)) in
        add_groups ctx id gtokens 0
    end
  else Ret ctx.

Definition trash_entry ctx (ts_field : list Z) (subid : Z) : comp ctx_t :=
  match cr_new ctx with
  | None => Ret ctx
  | Some rt =>
      let ts_field := clip ts_field in
      if for_us (cr_my_name ctx) (cr_ip_list ctx) ts_field then
        let key := build_rt_key (i32 subid) (atoi ts_field) in
        match sm_get (rt_hash rt) (ANum key) with
        | Some (TRte id) =>
            del_rte (set_tables ctx (cr_rtable ctx) (cr_old ctx)
                       (Some (set_hash rt (sm_del (rt_hash rt) (ANum key))))) id
        | Some (TEp _) => UB
        | None => Ret ctx
        end
      else Ret ctx
  end.

(** ** Managed elements *)

Fixpoint meid_add ctx rt (owner : list Z) (toks : list (list Z)) : table * ctx_t :=
  match toks with
  | [] => (rt, ctx)
  | t :: toks' =>
      let '(ep, ctx) := rt_ensure_ep ctx owner in
      let rt := match ep with
                | Some id => set_hash rt (sm_put (rt_hash rt) (AStr RT_ME_SPACE t) (TEp id))
                | None => rt
                end in
      meid_add ctx rt owner toks'
  end.

Definition parse_meid_ar ctx rt (owner meid_list : list Z) : table * ctx_t :=
  meid_add ctx rt (clip owner) (tokenise (clip meid_list) 128 32).

Definition parse_meid_del rt (meid_list : list Z) : table :=
  set_hash rt (foldl (fun h t => sm_del h (AStr RT_ME_SPACE t)) (rt_hash rt) (tokenise (clip meid_list) 128 32)).

Definition get_meid_owner rt (meid : list Z) : option nat :=
  match meid with
  | [] => None
  | _ => match sm_get (rt_hash rt) (AStr RT_ME_SPACE meid) with Some (TEp id) => Some id | _ => None end
  end.

(** ** Lookup *)

Definition pull_rte rt (key : Z) : option nat :=
  match sm_get (rt_hash rt) (ANum key) with Some (TRte id) => Some id | _ => None end.

Definition uta_get_rte (rt : option table) (sid mtype : Z) (try_alt : bool) : option nat :=
  match rt with
  | None => None
  | Some rt =>
      match pull_rte rt (build_rt_key sid mtype) with
      | Some id => Some id
      | None =>
          if negb try_alt then None
          else if negb (sid =? UNSET_SUBID) then pull_rte rt (build_rt_key UNSET_SUBID mtype) else None
      end
  end.

(** ** Tables *)

Definition uta_rt_init : table := MkRt false (sm_new RT_SIZE) 0 0 0.

(** Drop the references to every entry of a table. *)
Fixpoint del_all ctx (l : list (akey * thing)) : comp ctx_t :=
  match l with
  | [] => Ret ctx
  | (_, TRte id) :: l' => ctx ← del_rte ctx id; del_all ctx l'
  | (_, TEp _) :: _ => UB
  end.

Definition uta_rt_drop ctx (rt : option table) : comp ctx_t :=
  match rt with None => Ret ctx | Some rt => del_all ctx (sm_class (rt_hash rt) RT_MT_SPACE) end.

(** rt_clone_space for the string space and for the numeric space. *)
Fixpoint clone_me (l : list (akey * thing)) (h : TH) : TH :=
  match l with [] => h | (a, t) :: l' => clone_me l' (sm_put h a t) end.

Fixpoint clone_mt ctx (l : list (akey * thing)) (h : TH) : comp (TH * ctx_t) :=
  match l with
  | [] => Ret (h, ctx)
  | (_, TRte id) :: l' =>
      r ← deref (cr_rtes ctx !! id);
      clone_mt (set_rtes ctx (<[id := MkRte (rte_key r) (rte_refs r + 1) (rte_mtype r) (rte_rrgroups r)]> (cr_rtes ctx)))
               l' (sm_put h (ANum (rte_key r)) (TRte id))
  | (_, TEp _) :: _ => UB
  end.

Definition uta_rt_clone ctx (srt : option table) (drt : table) (all : bool) : comp (table * ctx_t) :=
  match srt with
  | None => Ret (drt, ctx)
  | Some srt =>
      let h := clone_me (sm_class (rt_hash srt) RT_ME_SPACE) (rt_hash drt) in
      '(h, ctx) ← (if all then clone_mt ctx (sm_class (rt_hash srt) RT_MT_SPACE) h else Ret (h, ctx));
      Ret (set_hash drt h, ctx)
  end.

(** The old table has drained: its entries are let go and it is cleared; without
    an old table there is a fresh one. *)
Definition recycle_old ctx : comp (table * ctx_t) :=
  match cr_old ctx with
  | Some rt =>
      let ctx := set_tables ctx (cr_rtable ctx) None (cr_new ctx) in
      ctx ← del_all ctx (sm_class (rt_hash rt) RT_MT_SPACE);
      Ret (MkRt false (sm_new RT_SIZE) (rt_updates rt) (rt_mupdates rt) (rt_ref_count rt), ctx)
  | None => Ret (uta_rt_init, ctx)
  end.

(** The table to fill next starts from the active one. *)
Definition prep_new_rt ctx (all : bool) : comp (table * ctx_t) :=
  '(drt, ctx) ← recycle_old ctx;
  '(drt, ctx) ← uta_rt_clone ctx (cr_rtable ctx) drt all;
  Ret (MkRt (rt_error drt) (rt_hash drt) (rt_updates drt) (rt_mupdates drt) 0, ctx).

Definition roll_tables ctx : ctx_t :=
  match cr_new ctx with
  | None => set_tables ctx (cr_rtable ctx) None None
  | Some new =>
      if rt_error new then set_tables ctx (cr_rtable ctx) (Some new) None
      else match cr_rtable ctx with
           | Some act => set_tables ctx (Some new) (Some act) None
           | None => set_tables ctx (Some new) None None
           end
  end.
End rt.

(** * Theorems *)

(** ** Keys *)

Lemma u64_shift_lor s m : 0 <= s < 2 ^ 32 -> 0 <= m < 2 ^ 32 -> Z.lor (Z.shiftl s 32) m = s * 2 ^ 32 + m.
Proof.
  intros Hs Hm. rewrite Z.shiftl_mul_pow2 by lia.
  assert (Z.land (s * 2 ^ 32) m = 0) as Hl.
  { apply Z.bits_inj'. intros i Hi. rewrite Z.land_spec, Z.bits_0. destruct (Z_lt_le_dec i 32) as [Hlt|Hge].
    - by rewrite Z.mul_pow2_bits_low by lia.
    - replace m with (m mod 2 ^ 32) by (apply Z.mod_small; lia).
      by rewrite Z.mod_pow2_bits_high, andb_false_r by lia. }
  by rewrite <-Z.lxor_lor, <-Z.add_nocarry_lxor.
Qed.

(** The key is the subscription id in the upper and the type in the lower half,
    both as unsigned 32 bit values. *)
Lemma build_rt_key_val sid mt :
  in_i32 sid -> in_i32 mt -> build_rt_key sid mt = u32 sid * 2 ^ 32 + u32 mt.
Proof.
  intros Hs Hm. unfold in_i32 in *. unfold build_rt_key, UNSET_SUBID.
  pose proof (u32_range mt). pose proof (u32_range sid).
  destruct (Z.eqb_spec sid (-1)) as [->|Hne].
  - change (u32 (-1)) with (2 ^ 32 - 1). change 18446744069414584320 with (Z.shiftl (2 ^ 32 - 1) 32).
    rewrite <-u64_shift_lor by lia. destruct (Z_le_gt_dec 0 mt).
    + rewrite u64_id, u32_id by lia. done.
    + assert (u64 mt = Z.lor (Z.shiftl (2 ^ 32 - 1) 32) (u32 mt)) as ->.
      { rewrite u64_shift_lor by lia. unfold u64, u32.
        rewrite <-(Z_mod_plus_full mt 1 (2 ^ 64)), <-(Z_mod_plus_full mt 1 (2 ^ 32)).
        rewrite !Z.mod_small by lia. lia. }
      rewrite Z.lor_assoc, Z.lor_diag. done.
  - assert (u64 (Z.shiftl (u64 sid) 32) = Z.shiftl (u32 sid) 32) as ->.
    { rewrite !Z.shiftl_mul_pow2 by lia. unfold u64, u32.
      change (2 ^ 64) with (2 ^ 32 * 2 ^ 32). rewrite Z.mul_mod_distr_r by lia.
      f_equal. rewrite Z.rem_mul_r, Z.mul_comm, Z_mod_plus_full, Z.mod_mod by lia. done. }
    change 4294967295 with (Z.ones 32). rewrite Z.land_ones by lia.
    rewrite (Z.mod_small (u32 mt)) by lia. apply u64_shift_lor; lia.
Qed.

(** Route keys identify routes: different pairs of subscription id and
    message type have different keys, all of them 64 bit values. *)
Theorem build_rt_key_injective s1 m1 s2 m2 :
  in_i32 s1 -> in_i32 m1 -> in_i32 s2 -> in_i32 m2 ->
  in_u64 (build_rt_key s1 m1) /\ (build_rt_key s1 m1 = build_rt_key s2 m2 -> s1 = s2 /\ m1 = m2).
Proof.
  intros Hs1 Hm1 Hs2 Hm2. rewrite !build_rt_key_val by done.
  pose proof (u32_range s1). pose proof (u32_range m1). pose proof (u32_range s2). pose proof (u32_range m2).
  assert (forall a b, in_i32 a -> in_i32 b -> u32 a = u32 b -> a = b) as Hinj.
  { unfold in_i32. intros a b Ha Hb E. rewrite <-(i32_id a), <-(i32_id b) by done. unfold i32.
    unfold u32 in E. rewrite <-(Zplus_mod_idemp_l a), <-(Zplus_mod_idemp_l b), E. done. }
  split; [unfold in_u64; lia|]. intros E. split; apply Hinj; try done; lia.
Qed.

Lemma build_rt_key_injective_witness :
  in_u64 (build_rt_key (-1) 10) /\ build_rt_key (-1) 10 <> build_rt_key 7 10.
Proof.
  destruct (build_rt_key_injective (-1) 10 7 10) as [H1 H2]; [unfold in_i32; lia..|].
  split; [exact H1|]. intros E. destruct (H2 E) as [E1 _]. discriminate E1.
Defined.
