(* ===== verification/Decimal.v ===== *)
(** Decimal numbers: what the %d of snprintf wrote is read back by the loops that
    read digits (atoi of RouteTable.v and the readers of the specifications). *)

From stdpp Require Import pretty.
From S2P Require Import Prelude Bytes Tools RouteTable.

Fixpoint skip_digits (s : list Z) : list Z :=
  match s with c :: s' => if isdigit c then skip_digits s' else s | [] => [] end.

Definition read_int (s : list Z) : Z * list Z :=
  match s with
  | 45 :: s' => (- digits 0 s', skip_digits s')
  | _ => (digits 0 s, skip_digits s)
  end.

Definition no_digit (s : list Z) : Prop := match s with c :: _ => isdigit c = false | [] => True end.

Lemma digits_end s acc : no_digit s -> digits acc s = acc.
Proof. destruct s as [|c s]; cbn; [done|]. by intros ->. Qed.

Lemma skip_digits_end s : no_digit s -> skip_digits s = s.
Proof. destruct s as [|c s]; cbn; [done|]. by intros ->. Qed.

Lemma bytes_of_app s t : bytes_of_string (s +:+ t) = bytes_of_string s ++ bytes_of_string t.
Proof. induction s as [|c s IH]; [done|]. exact (f_equal (cons (Z.of_N (Ascii.N_of_ascii c))) IH). Qed.

Lemma digit_char d : (d < 10)%N ->
  exists c, bytes_of_string (String (pretty_N_char d) "") = [c] /\ isdigit c = true /\ c - 48 = Z.of_N d.
Proof.
  intros Hd. assert (d = 0 \/ d = 1 \/ d = 2 \/ d = 3 \/ d = 4 \/ d = 5 \/ d = 6 \/ d = 7 \/ d = 8 \/ d = 9)%N as Hc by lia.
  destruct_or! Hc; subst d; eexists; split_and!; reflexivity.
Qed.

Lemma digits_pretty_go x s r :
  digits 0 (bytes_of_string (pretty_N_go x s) ++ r) = digits (Z.of_N x) (bytes_of_string s ++ r) /\
  skip_digits (bytes_of_string (pretty_N_go x s) ++ r) = skip_digits (bytes_of_string s ++ r).
Proof.
  revert s. induction (N.lt_wf_0 x) as [x _ IH]; intros s. assert (x = 0 \/ 0 < x)%N as [->|Hx] by lia; [done|].
  rewrite pretty_N_go_step by done. destruct (IH (x / 10)%N) with (s := String (pretty_N_char (x mod 10)) s) as [-> ->]; [by apply N.div_lt|].
  destruct (digit_char (x mod 10)) as (c & Hc & Hd & Hv); [by apply N.mod_lt|].
  change (String (pretty_N_char (x mod 10)) s) with (String (pretty_N_char (x mod 10)) "" +:+ s).
  rewrite bytes_of_app, Hc. cbn [app digits skip_digits]. rewrite Hd. split; [f_equal|done]. rewrite Hv. pose proof (N.div_mod x 10 ltac:(done)). lia.
Qed.

Lemma digits_pretty (x : N) r : no_digit r ->
  digits 0 (bytes_of_string (pretty x) ++ r) = Z.of_N x /\ skip_digits (bytes_of_string (pretty x) ++ r) = r.
Proof.
  intros Hr. unfold pretty, pretty_N. case_decide as Hx.
  - subst x. cbn. by rewrite digits_end, skip_digits_end.
  - destruct (digits_pretty_go x "" r) as [-> ->]. change (bytes_of_string "") with (@nil Z). cbn [app]. by rewrite digits_end, skip_digits_end.
Qed.

Lemma pretty_head (x : N) : exists c s, bytes_of_string (pretty x) = c :: s /\ isdigit c = true.
Proof.
  destruct (digits_pretty x [] I) as [Hd Hs]. rewrite app_nil_r in *.
  destruct (bytes_of_string (pretty x)) as [|c s] eqn:E.
  - exfalso. cbn in Hd. assert (x = 0%N) as -> by lia. discriminate E.
  - exists c, s. split; [done|]. cbn in Hs. by destruct (isdigit c).
Qed.

Lemma read_decimal v r : no_digit r -> read_int (decimal v ++ r) = (v, r).
Proof.
  intros Hr. unfold decimal. destruct v as [|p|p].
  - cbn. by rewrite digits_end, skip_digits_end.
  - change (pretty (Z.pos p)) with (pretty (N.pos p)). destruct (digits_pretty (N.pos p) r Hr) as [Hd Hs].
    destruct (pretty_head (N.pos p)) as (c & s & E & Hc). rewrite E in *. cbn [app] in *. unfold read_int.
    rewrite Hd, Hs. do 7 (destruct c as [|c|c]; try done).
  - change (pretty (Z.neg p)) with ("-" +:+ pretty (N.pos p)). rewrite bytes_of_app. change (bytes_of_string "-") with [45]. cbn [app read_int].
    destruct (digits_pretty (N.pos p) r Hr) as [Hd Hs]. cbn. by rewrite Hd, Hs.
Qed.

(** The characters of a number that is not negative. *)
Lemma skip_digits_all s : skip_digits s = [] -> Forall (fun c => isdigit c = true) s.
Proof. induction s as [|c s IH]; cbn; [done|]. destruct (isdigit c) eqn:E; [|done]. intros Hs. constructor; auto. Qed.

Lemma decimal_digits z : 0 <= z -> Forall (fun c => isdigit c = true) (decimal z).
Proof.
  intros Hz. apply skip_digits_all. pose proof (read_decimal z [] I) as Hr. rewrite app_nil_r in Hr. unfold read_int in Hr.
  destruct z as [|p|p]; [done| |lia]. revert Hr. unfold decimal. change (pretty (Z.pos p)) with (pretty (N.pos p)).
  destruct (pretty_head (N.pos p)) as (c & s & -> & Hc). intros Hr.
  assert (c <> 45) by (intros ->; done). do 7 (destruct c as [|c|c]; try congruence).
Qed.

Lemma decimal_not_nil z : 0 <= z -> decimal z <> [].
Proof.
  intros Hz. unfold decimal. destruct z as [|p|p]; [done| |lia]. change (pretty (Z.pos p)) with (pretty (N.pos p)).
  by destruct (pretty_head (N.pos p)) as (c & s & -> & _).
Qed.

(** Numbers below [10 ^ n] take at most [n] characters. *)
Lemma pretty_go_len n x s : (Z.of_N x < 10 ^ Z.of_nat n) ->
  (length (bytes_of_string (pretty_N_go x s)) <= n + length (bytes_of_string s))%nat.
Proof.
  revert x s. induction n as [|n IH]; intros x s Hx.
  - assert (x = 0%N) as -> by (change (10 ^ Z.of_nat 0) with 1 in Hx; lia). done.
  - assert (x = 0 \/ 0 < x)%N as [->|Hp] by lia; [rewrite pretty_N_go_0; lia|]. rewrite pretty_N_go_step by done.
    assert (Z.of_N (x / 10) < 10 ^ Z.of_nat n) as Hd.
    { rewrite N2Z.inj_div. apply Z.div_lt_upper_bound; [lia|]. rewrite Nat2Z.inj_succ, Z.pow_succ_r in Hx by lia. exact Hx. }
    specialize (IH _ (String (pretty_N_char (x mod 10)) s) Hd). change (length (bytes_of_string (String (pretty_N_char (x mod 10)) s))) with (S (length (bytes_of_string s))) in IH. lia.
Qed.

Lemma decimal_len n z : 0 <= z < 10 ^ Z.of_nat n -> (0 < n)%nat -> (length (decimal z) <= n)%nat.
Proof.
  intros Hz Hn. unfold decimal. destruct z as [|p|p]; [cbn; lia| |lia]. change (pretty (Z.pos p)) with (pretty (N.pos p)).
  unfold pretty, pretty_N. case_decide; [done|]. pose proof (pretty_go_len n (N.pos p) "" ltac:(cbn; lia)) as Hl. cbn [length] in Hl.
  change (length (bytes_of_string "")) with 0%nat in Hl. lia.
Qed.

(** atoi reads what was printed. *)
Lemma decimal_head z : exists c s, decimal z = c :: s /\ (isdigit c = true \/ c = 45).
Proof.
  destruct (Z_le_gt_dec 0 z) as [Hz|Hz].
  - pose proof (decimal_digits z Hz) as HF. pose proof (decimal_not_nil z Hz). destruct (decimal z) as [|c s]; [done|].
    apply Forall_cons in HF as [Hc _]. exists c, s. split; [done|by left].
  - unfold decimal. destruct z as [|p|p]; [lia|lia|]. change (pretty (Z.neg p)) with ("-" +:+ pretty (N.pos p)).
    rewrite bytes_of_app. exists 45. eexists. split; [reflexivity|by right].
Qed.

Lemma atoi_decimal_app z r : in_i32 z -> no_digit r -> atoi (decimal z ++ r) = z.
Proof.
  intros Hz Hr. pose proof (read_decimal z r Hr) as E. destruct (decimal_head z) as (c & s & Ec & Hc).
  rewrite Ec in *. cbn [app] in *. set (s' := s ++ r) in *. clearbody s'. unfold atoi. assert (skip_space (c :: s') = c :: s') as ->.
  { cbn. destruct Hc as [Hc| ->]; [|done]. unfold isdigit in Hc. apply andb_true_iff in Hc as [H1%Z.leb_le H2%Z.leb_le].
    unfold isspace. destruct (Z.eqb_spec c 32); [lia|]. destruct (Z.leb_spec 9 c), (Z.leb_spec c 13); try done; lia. }
  assert (match c :: s' with 45 :: s1 => - digits 0 s1 | 43 :: s1 => digits 0 s1 | _ => digits 0 (c :: s') end = z) as ->.
  { unfold read_int in E. destruct Hc as [Hc| ->]; [|by injection E].
    assert (c <> 45 /\ c <> 43) as [N1 N2] by (split; intros ->; discriminate Hc).
    do 7 (destruct c as [|c|c]; try (by injection E)); congruence. }
  unfold in_i32 in Hz. rewrite Z.min_l, Z.max_r by lia. by apply i32_id.
Qed.

Lemma atoi_decimal z : in_i32 z -> atoi (decimal z) = z.
Proof. intros Hz. rewrite <-(app_nil_r (decimal z)). by apply atoi_decimal_app. Qed.
