(* ===== verification/RtInv.v ===== *)
(** The invariant of the route tables: entries live exactly as long as a table
    references them, the groups of every entry lead to endpoints, and what is done
    to the table under construction does not show in the active one.

    [refs_ok] relates the store of entries with the tables, [rt_inv] is the
    invariant of a context and [frozen] says that senders see no difference. *)

From S2P Require Import Prelude Bytes Symtab SymIface Tools Mbuf Endpoint RouteTable.

(** ** Reference counts *)

#[global] Instance thing_eq_dec : EqDecision thing.
Proof. solve_decision. Defined.

Abbreviation hmap := (gmap akey thing).

(** The number of tables that reference an entry under its key. *)
Fixpoint count_refs (id : nat) (k : Z) (ts : list hmap) : Z :=
  match ts with
  | [] => 0
  | t :: ts' => (if decide (t !! ANum k = Some (TRte id)) then 1 else 0) + count_refs id k ts'
  end.

(** Entries and tables agree: an entry is in the store exactly while a table
    references it, its count is the number of tables that do, it is filed under
    its own key, and numeric keys lead to entries. *)
Record refs_ok (rtes : gmap nat rtable_ent_t) (ts : list hmap) : Prop := {
  ro_refs : forall id r, rtes !! id = Some r -> rte_refs r = count_refs id (rte_key r) ts /\ 0 < rte_refs r;
  ro_live : forall t a id, t ∈ ts -> t !! a = Some (TRte id) -> exists r, rtes !! id = Some r /\ a = ANum (rte_key r);
  ro_num : forall t n x, t ∈ ts -> t !! ANum n = Some x -> exists id, x = TRte id
}.

(** Everything of an entry but its reference count. *)
Definition same_route (r r' : rtable_ent_t) : Prop :=
  rte_key r' = rte_key r /\ rte_mtype r' = rte_mtype r /\ rte_rrgroups r' = rte_rrgroups r.

(** The entries that the tables reference are the same routes in both stores. *)
Definition keeps (ts : list hmap) (m m' : gmap nat rtable_ent_t) : Prop :=
  forall t a id r, t ∈ ts -> t !! a = Some (TRte id) -> m !! id = Some r ->
    exists r', m' !! id = Some r' /\ same_route r r'.

Definition set_refs (r : rtable_ent_t) (n : Z) : rtable_ent_t := MkRte (rte_key r) n (rte_mtype r) (rte_rrgroups r).

Lemma same_route_refl r : same_route r r.
Proof. done. Qed.

Lemma same_route_trans a b c : same_route a b -> same_route b c -> same_route a c.
Proof. unfold same_route. intros (? & ? & ?) (? & ? & ?). split_and!; congruence. Qed.

Lemma keeps_refl ts m : keeps ts m m.
Proof. intros t a id r _ _ E. by exists r. Qed.

Lemma keeps_trans ts a b c : keeps ts a b -> keeps ts b c -> keeps ts a c.
Proof.
  intros H1 H2 t k id r Ht Hk Hr. destruct (H1 t k id r Ht Hk Hr) as (r1 & Hr1 & S1).
  destruct (H2 t k id r1 Ht Hk Hr1) as (r2 & Hr2 & S2). exists r2. split; [done|]. by eapply same_route_trans.
Qed.

Lemma count_refs_nonneg id k ts : 0 <= count_refs id k ts.
Proof. induction ts as [|t ts IH]; simpl; [done|]. case_decide; lia. Qed.

Lemma count_refs_pos id k t ts : t ∈ ts -> t !! ANum k = Some (TRte id) -> 0 < count_refs id k ts.
Proof.
  induction ts as [|u ts IH]; [set_solver|]. intros [->|Ht]%elem_of_cons E; simpl.
  - rewrite decide_True by done. pose proof (count_refs_nonneg id k ts). lia.
  - specialize (IH Ht E). case_decide; lia.
Qed.

Lemma count_refs_perm id k ts ts' : ts ≡ₚ ts' -> count_refs id k ts = count_refs id k ts'.
Proof. induction 1; simpl; lia. Qed.

#[global] Instance refs_ok_perm m : Proper (Permutation ==> iff) (refs_ok m).
Proof.
  assert (forall ts ts', ts ≡ₚ ts' -> refs_ok m ts -> refs_ok m ts') as H.
  { intros ts ts' Hp [H1 H2 H3]. split.
    - intros id r E. rewrite <-(count_refs_perm _ _ _ _ Hp). by apply H1.
    - intros t a id Ht. rewrite <-Hp in Ht. by apply H2.
    - intros t n x Ht. rewrite <-Hp in Ht. by apply H3. }
  intros ts ts' Hp. split; apply H; [done|by symmetry].
Qed.

(** A table without entries does not matter. *)
Lemma refs_ok_no_rtes m t ts :
  (forall a id, t !! a <> Some (TRte id)) -> (forall n, t !! ANum n = None) -> refs_ok m (t :: ts) <-> refs_ok m ts.
Proof.
  intros Hno Hnum. split; intros [H1 H2 H3]; split.
  - intros id r E. destruct (H1 id r E) as [Hc ?]. simpl in Hc. by rewrite decide_False in Hc by apply Hno.
  - intros u a id Hu. apply H2. set_solver.
  - intros u n x Hu. apply H3. set_solver.
  - intros id r E. simpl. rewrite decide_False by apply Hno. by apply H1.
  - intros u a id [->|Hu]%elem_of_cons E; [by apply Hno in E|exact (H2 u a id Hu E)].
  - intros u n x [->|Hu]%elem_of_cons E; [by rewrite Hnum in E|exact (H3 u n x Hu E)].
Qed.

(** String keys do not matter either. *)
Lemma refs_ok_str m t t' ts :
  (forall n, t' !! ANum n = t !! ANum n) -> (forall c s id, t' !! AStr c s <> Some (TRte id)) ->
  refs_ok m (t :: ts) -> refs_ok m (t' :: ts).
Proof.
  intros Hn Hs [H1 H2 H3]. split.
  - intros id r E. simpl. rewrite Hn. by apply (H1 id r).
  - intros u a id [->|Hu]%elem_of_cons E; [|eapply H2; [by right|done]].
    destruct a as [c s|n]; [by apply Hs in E|]. rewrite Hn in E. eapply H2; [by left|done].
  - intros u n x [->|Hu]%elem_of_cons E; [|eapply H3; [by right|done]].
    rewrite Hn in E. eapply H3; [by left|done].
Qed.

(** What del_rte does to the store. *)
Definition dec_ref (m : gmap nat rtable_ent_t) (id : nat) (r : rtable_ent_t) : gmap nat rtable_ent_t :=
  if 0 <? rte_refs r - 1 then <[id := set_refs r (rte_refs r - 1)]> m else delete id m.

Lemma dec_ref_ok m t ts k id r :
  refs_ok m (t :: ts) -> t !! ANum k = Some (TRte id) -> m !! id = Some r ->
  refs_ok (dec_ref m id r) (delete (ANum k) t :: ts) /\ keeps (delete (ANum k) t :: ts) m (dec_ref m id r).
Proof.
  intros [H1 H2 H3] Ht Hr.
  assert (k = rte_key r) as ->.
  { destruct (H2 t (ANum k) id) as (r' & Hr' & E); [by left|done|]. congruence. }
  assert (forall id' k', count_refs id' k' (delete (ANum (rte_key r)) t :: ts) =
    count_refs id' k' (t :: ts) - if decide (id' = id /\ k' = rte_key r) then 1 else 0) as Hcnt.
  { intros id' k'. simpl. rewrite lookup_delete. destruct (decide (ANum (rte_key r) = ANum k')) as [[= <-]|Hne].
    - rewrite Ht. destruct (decide (id' = id)) as [->|Hne].
      + rewrite decide_False by done. rewrite decide_True by done. rewrite decide_True by done. lia.
      + rewrite decide_False by done. rewrite decide_False by congruence. rewrite decide_False by naive_solver. lia.
    - rewrite (decide_False (P := id' = id /\ k' = rte_key r)) by naive_solver. lia. }
  assert (forall id', id' <> id -> dec_ref m id r !! id' = m !! id') as Hother.
  { intros id' Hne. unfold dec_ref. destruct (_ <? _); [by rewrite lookup_insert_ne|by rewrite lookup_delete_ne]. }
  destruct (H1 id r Hr) as [Hc Hpos].
  assert (forall u a, u ∈ delete (ANum (rte_key r)) t :: ts -> u !! a = Some (TRte id) ->
    dec_ref m id r !! id = Some (set_refs r (rte_refs r - 1))) as Hlive.
  { intros u a Hu E. assert (a = ANum (rte_key r)) as ->.
    { apply elem_of_cons in Hu as [->|Hu].
      - apply lookup_delete_Some in E as [_ E]. destruct (H2 t a id) as (r' & Hr' & ->); [by left|done|]. congruence.
      - destruct (H2 u a id) as (r' & Hr' & ->); [by right|done|]. congruence. }
    apply (count_refs_pos id (rte_key r)) in Hu; [|done]. rewrite Hcnt, decide_True in Hu by done.
    unfold dec_ref. destruct (Z.ltb_spec 0 (rte_refs r - 1)); [by rewrite lookup_insert_eq|lia]. }
  split; [split|].
  - intros id' r' E. rewrite Hcnt. destruct (decide (id' = id)) as [->|Hne].
    + unfold dec_ref in E. destruct (Z.ltb_spec 0 (rte_refs r - 1)).
      * rewrite lookup_insert_eq in E. injection E as <-. simpl rte_refs. simpl rte_key.
        rewrite decide_True by done. lia.
      * by rewrite lookup_delete_eq in E.
    + rewrite Hother in E by done. rewrite decide_False by naive_solver. destruct (H1 id' r' E). lia.
  - intros u a id' Hu E. destruct (decide (id' = id)) as [->|Hne].
    + rewrite (Hlive u a Hu E). eexists. split; [done|]. simpl.
      apply elem_of_cons in Hu as [->|Hu].
      * apply lookup_delete_Some in E as [_ E]. destruct (H2 t a id) as (r' & Hr' & ->); [by left|done|]. congruence.
      * destruct (H2 u a id) as (r' & Hr' & ->); [by right|done|]. congruence.
    + rewrite Hother by done. apply elem_of_cons in Hu as [->|Hu].
      * apply lookup_delete_Some in E as [_ E]. eapply H2; [by left|done].
      * eapply H2; [by right|done].
  - intros u n x [->|Hu]%elem_of_cons E.
    + apply lookup_delete_Some in E as [_ E]. eapply H3; [by left|done].
    + eapply H3; [by right|done].
  - intros u a id' r' Hu E Er. destruct (decide (id' = id)) as [->|Hne].
    + rewrite (Hlive u a Hu E). eexists. split; [done|]. assert (r' = r) as -> by congruence. done.
    + rewrite Hother by done. by exists r'.
Qed.

(** A reference is added to an entry of the store (a clone), or a new entry is
    filed. *)
Lemma inc_ref_ok m t ts id r :
  refs_ok m (t :: ts) -> t !! ANum (rte_key r) = None -> m !! id = Some r ->
  refs_ok (<[id := set_refs r (rte_refs r + 1)]> m) (<[ANum (rte_key r) := TRte id]> t :: ts) /\
  keeps (t :: ts) m (<[id := set_refs r (rte_refs r + 1)]> m).
Proof.
  intros [H1 H2 H3] Ht Hr. split; [split|].
  - intros id' r' E. simpl. rewrite lookup_insert.
    destruct (decide (id = id')) as [<-|Hne].
    + rewrite lookup_insert_eq in E. injection E as <-. simpl rte_refs. simpl rte_key.
      rewrite decide_True by by rewrite decide_True. destruct (H1 id r Hr) as [Hc ?]. simpl in Hc.
      rewrite Ht, decide_False in Hc by done. lia.
    + rewrite lookup_insert_ne in E by done. destruct (H1 id' r' E) as [Hc ?]. simpl in Hc.
      destruct (decide (ANum (rte_key r) = ANum (rte_key r'))) as [[= Ek]|]; [|done].
      rewrite <-Ek, Ht, decide_False in Hc by done. rewrite <-Ek. rewrite decide_False by congruence. done.
  - intros u a id' [->|Hu]%elem_of_cons E.
    + apply lookup_insert_Some in E as [[<- [= <-]]|[Hne E]].
      * rewrite lookup_insert_eq. by eexists.
      * destruct (H2 t a id') as (r' & Hr' & ->); [by left|done|].
        destruct (decide (id = id')) as [<-|]; [|rewrite lookup_insert_ne by done; by eexists].
        rewrite lookup_insert_eq. eexists. split; [done|]. simpl. congruence.
    + destruct (H2 u a id') as (r' & Hr' & ->); [by right|done|].
      destruct (decide (id = id')) as [<-|]; [|rewrite lookup_insert_ne by done; by eexists].
      rewrite lookup_insert_eq. eexists. split; [done|]. simpl. congruence.
  - intros u n x [->|Hu]%elem_of_cons E; [|eapply H3; [by right|done]].
    apply lookup_insert_Some in E as [[_ <-]|[_ E]]; [by eexists|]. eapply H3; [by left|done].
  - intros u a id' r' _ _ Er. destruct (decide (id = id')) as [<-|].
    + rewrite lookup_insert_eq. eexists. split; [done|]. assert (r' = r) as -> by congruence. done.
    + rewrite lookup_insert_ne by done. by exists r'.
Qed.

Lemma new_ref_ok m t ts id r :
  refs_ok m (t :: ts) -> t !! ANum (rte_key r) = None -> m !! id = None -> rte_refs r = 1 ->
  refs_ok (<[id := r]> m) (<[ANum (rte_key r) := TRte id]> t :: ts) /\ keeps (t :: ts) m (<[id := r]> m).
Proof.
  intros [H1 H2 H3] Ht Hid Hr.
  assert (forall u a, u ∈ t :: ts -> u !! a <> Some (TRte id)) as Hno.
  { intros u a Hu E. destruct (H2 u a id Hu E) as (r' & Hr' & _). congruence. }
  assert (forall k, count_refs id k ts = 0) as Hz.
  { intros k. assert (forall u, u ∈ ts -> u !! ANum k <> Some (TRte id)) as Hn by (intros; apply Hno; by right).
    clear -Hn. induction ts as [|u ts IH]; simpl; [done|]. rewrite decide_False by (apply Hn; by left).
    rewrite IH; [done|]. intros. apply Hn. by right. }
  split; [split|].
  - intros id' r' E. simpl. destruct (decide (id = id')) as [<-|Hne].
    + rewrite lookup_insert_eq in E. injection E as <-. rewrite lookup_insert_eq, decide_True, Hz by done. lia.
    + rewrite lookup_insert_ne in E by done. destruct (H1 id' r' E) as [Hc ?]. simpl in Hc. rewrite lookup_insert.
      destruct (decide (ANum (rte_key r) = ANum (rte_key r'))) as [[= Ek]|]; [|done].
      rewrite <-Ek, Ht, decide_False in Hc by done. rewrite <-Ek. rewrite decide_False by congruence. done.
  - intros u a id' [->|Hu]%elem_of_cons E.
    + apply lookup_insert_Some in E as [[<- [= <-]]|[Hne E]].
      * rewrite lookup_insert_eq. by eexists.
      * rewrite lookup_insert_ne by (intros <-; by apply (Hno t a); [left|]). eapply H2; [by left|done].
    + rewrite lookup_insert_ne by (intros <-; by apply (Hno u a); [right|]). eapply H2; [by right|done].
  - intros u n x [->|Hu]%elem_of_cons E; [|eapply H3; [by right|done]].
    apply lookup_insert_Some in E as [[_ <-]|[_ E]]; [by eexists|]. eapply H3; [by left|done].
  - intros u a id' r' Hu E Er. rewrite lookup_insert_ne by (intros <-; by apply (Hno u a)). by exists r'.
Qed.

(** ** The invariant of a context *)

Section inv.
Context {TH TE : Type} `{Symbols TH thing} `{Symbols TE nat}.
Variable gethostbyname : list Z -> option (list Z).
Implicit Types (ctx : rt_ctx TH TE) (rt : route_table_t TH).

Definition habs rt : hmap := sm_abs (rt_hash rt).
Definition tables ctx : list (route_table_t TH) :=
  option_list (cr_rtable ctx) ++ option_list (cr_old ctx) ++ option_list (cr_new ctx).

(** A table whose keys are sound and whose managed elements have endpoints. *)
Record table_ok (eps : gmap nat endpoint) rt : Prop := {
  to_ok : sm_ok (rt_hash rt);
  to_keys : forall a x, habs rt !! a = Some x -> valid_key a;
  to_me : forall c s x, habs rt !! AStr c s = Some x -> c = RT_ME_SPACE /\ exists id, x = TEp id /\ is_Some (eps !! id)
}.

Definition group_ok (eps : gmap nat endpoint) (g : option rrgroup_t) : Prop :=
  match g with
  | Some g => zlen (rg_epts g) <= MAX_EP_GROUP /\ Forall (fun e => match e with Some id => is_Some (eps !! id) | None => True end) (rg_epts g)
  | None => True
  end.

Record rt_inv ctx : Prop := {
  ri_refs : refs_ok (cr_rtes ctx) (habs <$> tables ctx);
  ri_tabs : Forall (table_ok (cr_eps ctx)) (tables ctx);
  ri_ephash : sm_ok (cr_ephash ctx);
  ri_eps : forall a id, sm_abs (cr_ephash ctx) !! a = Some id ->
    exists name e, a = AStr 1 name /\ cr_eps ctx !! id = Some e /\ ep_name e = Some name;
  ri_next : forall id, is_Some (cr_rtes ctx !! id) \/ is_Some (cr_eps ctx !! id) -> (id < cr_next ctx)%nat;
  ri_groups : forall id r, cr_rtes ctx !! id = Some r -> Forall (group_ok (cr_eps ctx)) (rte_rrgroups r);
  ri_old : is_Some (cr_new ctx) -> cr_old ctx = None
}.

(** What senders see does not change: the active table, the routes its entries
    stand for, and the endpoints. *)
Record frozen ctx ctx' : Prop := {
  fz_act : cr_rtable ctx' = cr_rtable ctx;
  fz_routes : forall rt, cr_rtable ctx = Some rt -> keeps [habs rt] (cr_rtes ctx) (cr_rtes ctx');
  fz_eps : cr_eps ctx ⊆ cr_eps ctx';
  fz_self : cr_my_name ctx' = cr_my_name ctx /\ cr_ip_list ctx' = cr_ip_list ctx
}.

Lemma frozen_refl ctx : frozen ctx ctx.
Proof. split; try done. intros. apply keeps_refl. Qed.

Lemma frozen_trans a b c : frozen a b -> frozen b c -> frozen a c.
Proof.
  intros [A1 R1 E1 [N1 I1]] [A2 R2 E2 [N2 I2]]. split.
  - congruence.
  - intros rt Hrt. eapply keeps_trans; [by apply R1|]. apply R2. congruence.
  - by etrans.
  - split; congruence.
Qed.

Lemma habs_fmap_in rt ctx : rt ∈ tables ctx -> habs rt ∈ habs <$> tables ctx.
Proof. intros. by apply list_elem_of_fmap_2. Qed.

Lemma table_ok_eps eps eps' rt : eps ⊆ eps' -> table_ok eps rt -> table_ok eps' rt.
Proof.
  intros Hs [? ? Hme]. split; try done. intros c s x E. destruct (Hme c s x E) as (? & id & ? & [e He]).
  split; [done|]. exists id. split; [done|]. exists e. by eapply lookup_weaken.
Qed.

Lemma group_ok_eps eps eps' g : eps ⊆ eps' -> group_ok eps g -> group_ok eps' g.
Proof.
  intros Hs. destruct g as [g|]; [|done]. intros [? HF]. split; [done|]. eapply Forall_impl; [done|].
  intros [id|]; [|done]. intros [e He]. exists e. by eapply lookup_weaken.
Qed.

(** ** Endpoints *)

Lemma ensure_ep_spec ctx name :
  rt_inv ctx ->
  exists ep ctx', rt_ensure_ep gethostbyname ctx name = (ep, ctx') /\ rt_inv ctx' /\ frozen ctx ctx' /\
    cr_rtes ctx' = cr_rtes ctx /\ tables ctx' = tables ctx /\ cr_new ctx' = cr_new ctx /\ cr_old ctx' = cr_old ctx /\
    match name with
    | [] => ep = None
    | _ => exists id e, ep = Some id /\ cr_eps ctx' !! id = Some e /\ ep_name e = Some name /\
             sm_abs (cr_ephash ctx') !! AStr 1 name = Some id
    end /\
    (forall n id, sm_abs (cr_ephash ctx) !! AStr 1 n = Some id -> sm_abs (cr_ephash ctx') !! AStr 1 n = Some id).
Proof.
  intros I. unfold rt_ensure_ep. destruct name as [|c name'].
  { exists None, ctx. split_and!; try done. apply frozen_refl. }
  set (name := c :: name'). unfold uta_get_ep. cbn [name].
  change (match name with [] => None | _ :: _ => sm_get (cr_ephash ctx) (AStr 1 name) end)
    with (sm_get (cr_ephash ctx) (AStr 1 name)). fold name.
  rewrite sm_get_abs by (done || apply I). destruct (sm_abs (cr_ephash ctx) !! AStr 1 name) as [id|] eqn:Eg.
  - exists (Some id), ctx. split_and!; try done; [apply frozen_refl|].
    destruct (ri_eps _ I _ _ Eg) as (n & e & [= <-] & He & Hn). by exists id, e.
  - eexists _, _. split; [done|]. set (id := cr_next ctx). set (e := MkEp _ _ _ _ _ _ _ _).
    assert (cr_eps ctx !! id = None) as Hid.
    { destruct (cr_eps ctx !! id) eqn:Ee; [|done]. exfalso.
      pose proof (ri_next _ I id ltac:(right; by eexists)). unfold id in *. lia. }
    assert (cr_eps ctx ⊆ <[id := e]> (cr_eps ctx)) as Hsub by by apply insert_subseteq.
    split_and!; try done.
    + destruct I as [I1 I2 I3 I4 I5 I6 I7]. split; cbn; try done.
      * eapply Forall_impl; [exact I2|]. intros. by eapply table_ok_eps.
      * by apply sm_put_ok.
      * intros a id'. rewrite sm_abs_put by done. intros [[<- <-]|[Hne Ha]]%lookup_insert_Some.
        { exists name, e. by rewrite lookup_insert_eq. }
        destruct (I4 a id' Ha) as (n & e' & -> & He' & ?). exists n, e'. split_and!; try done.
        by eapply lookup_weaken.
      * intros id'. rewrite lookup_insert. intros [Hr|He].
        { specialize (I5 id' (or_introl Hr)). lia. }
        case_decide; [unfold id in *; lia|]. specialize (I5 id' (or_intror He)). lia.
      * intros id' r Hr. eapply Forall_impl; [by eapply I6|]. intros. by eapply group_ok_eps.
    + split; cbn; try done. intros. apply keeps_refl.
    + exists id, e. cbn. rewrite lookup_insert_eq. split_and!; try done.
      rewrite sm_abs_put by (done || apply I). by rewrite lookup_insert_eq.
    + intros n id' Hn. cbn. rewrite sm_abs_put by (done || apply I). rewrite lookup_insert_ne; [done|].
      intros E. rewrite E in Eg. congruence.
Qed.

(** ** Entries of the table under construction *)

Definition others ctx : list (route_table_t TH) := option_list (cr_rtable ctx) ++ option_list (cr_old ctx).

Lemma tables_new ctx rt : cr_new ctx = Some rt -> habs <$> tables ctx ≡ₚ habs rt :: (habs <$> others ctx).
Proof.
  intros E. unfold tables, others. rewrite E, app_assoc, fmap_app. simpl. symmetry. apply Permutation_cons_append.
Qed.

Lemma inv_new_ok ctx rt : rt_inv ctx -> cr_new ctx = Some rt -> table_ok (cr_eps ctx) rt.
Proof.
  intros I E. pose proof (ri_tabs _ I) as T. unfold tables in T. rewrite E, !Forall_app in T.
  destruct T as (_ & _ & T). by apply Forall_inv in T.
Qed.

Lemma tables_none ctx : cr_new ctx = None -> tables ctx = others ctx.
Proof. intros E. unfold tables, others. rewrite E. simpl. by rewrite app_nil_r. Qed.

Lemma act_in_others ctx rt : cr_rtable ctx = Some rt -> rt ∈ others ctx.
Proof. intros E. unfold others. rewrite E. simpl. set_solver. Qed.

Lemma del_rte_ret ctx id r :
  cr_rtes ctx !! id = Some r -> del_rte ctx id = Ret (set_rtes ctx (dec_ref (cr_rtes ctx) id r)).
Proof. intros E. unfold del_rte. rewrite E. done. Qed.

Lemma dec_ref_sub m id r id' r' :
  m !! id = Some r -> dec_ref m id r !! id' = Some r' -> exists r0, m !! id' = Some r0 /\ same_route r0 r'.
Proof.
  intros Hr. unfold dec_ref. destruct (_ <? _).
  - intros [[<- <-]|[_ E]]%lookup_insert_Some; [by exists r|by exists r'].
  - intros [_ E]%lookup_delete_Some. by exists r'.
Qed.

(** The keys of the numeric space, in a well-formed table. *)
Lemma table_num eps rt k id ctx :
  table_ok eps rt -> rt_inv ctx -> rt ∈ tables ctx -> habs rt !! ANum k = Some (TRte id) ->
  exists r, cr_rtes ctx !! id = Some r /\ rte_key r = k.
Proof.
  intros _ I Hin E. destruct (ro_live _ _ (ri_refs _ I) (habs rt) (ANum k) id) as (r & Hr & [= ->]);
    [by apply habs_fmap_in|done|]. by exists r.
Qed.

(** A table after a change of its numeric entries. *)
Lemma table_ok_change eps rt h :
  table_ok eps rt -> sm_ok h -> (forall a x, sm_abs h !! a = Some x -> valid_key a) ->
  (forall c s, sm_abs h !! AStr c s = habs rt !! AStr c s) -> table_ok eps (set_hash rt h).
Proof.
  intros [_ _ Hme] Hok Hk Hs. split; [done|done|]. intros c s x E. unfold habs in E. simpl in E.
  rewrite Hs in E. by apply (Hme c s).
Qed.

(** The context with another store of entries and another table under
    construction. *)
Definition with_new ctx (m : gmap nat rtable_ent_t) (next : nat) (new : option (route_table_t TH)) : rt_ctx TH TE :=
  MkRtCtx m (cr_eps ctx) next (cr_ephash ctx) (cr_rtable ctx) (cr_old ctx) new (cr_my_name ctx) (cr_ip_list ctx).

Lemma with_new_inv ctx m next rt :
  rt_inv ctx -> cr_old ctx = None -> (cr_next ctx <= next)%nat ->
  refs_ok m (habs rt :: (habs <$> others ctx)) -> table_ok (cr_eps ctx) rt ->
  (forall id r, m !! id = Some r -> (id < next)%nat /\ Forall (group_ok (cr_eps ctx)) (rte_rrgroups r)) ->
  rt_inv (with_new ctx m next (Some rt)).
Proof.
  intros [I1 I2 I3 I4 I5 I6 I7] Ho Hn Hr Ht Hm. split; cbn; try done.
  - by rewrite (tables_new (with_new ctx m next (Some rt)) rt).
  - unfold tables in *. cbn. rewrite !Forall_app in *. destruct I2 as (? & ? & _). split_and!; try done.
    by apply Forall_singleton.
  - intros id [[r Hr']|He]; [by eapply Hm|]. specialize (I5 id (or_intror He)). lia.
  - intros id r E. by eapply Hm.
Qed.

Lemma with_new_frozen ctx m next new :
  keeps (habs <$> others ctx) (cr_rtes ctx) m -> frozen ctx (with_new ctx m next new).
Proof.
  intros K. split; cbn; try done. intros rt Hrt t a id r Ht Ha Hr.
  apply list_elem_of_singleton in Ht as ->. eapply K; [|done|done].
  apply list_elem_of_fmap_2. by apply act_in_others.
Qed.

Lemma keeps_tail t ts m m' : keeps (t :: ts) m m' -> keeps ts m m'.
Proof. intros K u a id r Hu. apply K. by right. Qed.

(** Removing an entry of the table under construction, when there is one under
    the key. *)
Lemma remove_entry ctx rt k :
  rt_inv ctx -> cr_new ctx = Some rt -> valid_key (ANum k) ->
  exists m, refs_ok m (delete (ANum k) (habs rt) :: (habs <$> others ctx)) /\
    keeps (delete (ANum k) (habs rt) :: (habs <$> others ctx)) (cr_rtes ctx) m /\
    (forall id r, m !! id = Some r -> exists r0, cr_rtes ctx !! id = Some r0 /\ same_route r0 r) /\
    match sm_get (rt_hash rt) (ANum k) with
    | Some (TRte id) => exists r, cr_rtes ctx !! id = Some r /\ m = dec_ref (cr_rtes ctx) id r
    | Some (TEp _) => False
    | None => m = cr_rtes ctx
    end.
Proof.
  intros I En Hk. pose proof (ri_refs _ I) as R. rewrite (tables_new _ _ En) in R.
  pose proof (inv_new_ok ctx rt I En) as T.
  rewrite sm_get_abs by (done || apply T). fold (habs rt).
  destruct (habs rt !! ANum k) as [x|] eqn:E.
  - destruct (ro_num _ _ R (habs rt) k x) as [id ->]; [by left|done|].
    destruct (ro_live _ _ R (habs rt) (ANum k) id) as (r & Hr & _); [by left|done|].
    exists (dec_ref (cr_rtes ctx) id r). destruct (dec_ref_ok _ _ _ _ _ _ R E Hr) as [R' K].
    split_and!; try done; [intros id' r'; by apply dec_ref_sub|by exists r].
  - exists (cr_rtes ctx). rewrite delete_id by done. split_and!; try done; [apply keeps_refl|].
    intros id r Hr. by exists r.
Qed.

Lemma trash_entry_spec ctx rt ts subid :
  rt_inv ctx -> cr_new ctx = Some rt -> valid_key (ANum (build_rt_key (i32 subid) (atoi (clip ts)))) ->
  exists ctx' rt', trash_entry ctx ts subid = Ret ctx' /\ rt_inv ctx' /\ frozen ctx ctx' /\
    cr_new ctx' = Some rt' /\ rt_updates rt' = rt_updates rt /\ rt_mupdates rt' = rt_mupdates rt /\
    rt_error rt' = rt_error rt /\ keeps [habs rt'] (cr_rtes ctx) (cr_rtes ctx') /\
    habs rt' = (if for_us (cr_my_name ctx) (cr_ip_list ctx) (clip ts) then delete (ANum (build_rt_key (i32 subid) (atoi (clip ts)))) (habs rt)
                else habs rt).
Proof.
  intros I En Hk. unfold trash_entry. rewrite En.
  destruct (for_us (cr_my_name ctx) (cr_ip_list ctx) (clip ts)); [|exists ctx, rt; split_and!; try done; [apply frozen_refl|apply keeps_refl]].
  set (k := build_rt_key _ _) in *. destruct (remove_entry ctx rt k I En Hk) as (m & R & K & Hsub & Hg).
  pose proof (inv_new_ok ctx rt I En) as T.
  rewrite sm_get_abs in * by (done || apply T). fold (habs rt) in *.
  destruct (habs rt !! ANum k) as [[id|id]|] eqn:E; [| |].
  - destruct Hg as (r & Hr & ->). erewrite del_rte_ret by exact Hr.
    set (rt' := set_hash rt (sm_del (rt_hash rt) (ANum k))).
    assert (habs rt' = delete (ANum k) (habs rt)) as Eh by (unfold habs; simpl; apply sm_abs_del; [apply T|done]).
    exists (with_new ctx (dec_ref (cr_rtes ctx) id r) (cr_next ctx) (Some rt')), rt'.
    split_and!; try done.
    + apply with_new_inv; try done.
      * apply (ri_old _ I). by rewrite En.
      * by rewrite Eh.
      * apply table_ok_change; [done|by apply sm_del_ok; [apply T|]| |].
        { intros a x. rewrite sm_abs_del by (done || apply T). intros [_ Ha]%lookup_delete_Some. by eapply (to_keys _ _ T). }
        { intros c s. rewrite sm_abs_del by (done || apply T). by rewrite lookup_delete_ne. }
      * intros id' r' Hm. destruct (Hsub id' r' Hm) as (r0 & Hr0 & (_ & _ & ->)). split.
        { apply (ri_next _ I). left. by eexists. }
        { by eapply (ri_groups _ I). }
    + apply with_new_frozen. by eapply keeps_tail.
    + rewrite Eh. intros t a i x ->%list_elem_of_singleton. apply K. by left.
  - done.
  - exists ctx, rt. split_and!; try done; [apply frozen_refl|apply keeps_refl|]. by rewrite delete_id.
Qed.

(** *** Entries being built *)

(** The entry [r] with id [id] is in the table under construction and nowhere
    else. *)
Record building ctx (id : nat) rt (r : rtable_ent_t) : Prop := {
  bu_inv : rt_inv ctx;
  bu_new : cr_new ctx = Some rt;
  bu_hash : habs rt !! ANum (rte_key r) = Some (TRte id);
  bu_ent : cr_rtes ctx !! id = Some r;
  bu_refs : rte_refs r = 1
}.

Lemma private_refs m t ts id r r' :
  refs_ok m (t :: ts) -> t !! ANum (rte_key r) = Some (TRte id) -> m !! id = Some r -> rte_refs r = 1 ->
  rte_key r' = rte_key r -> rte_refs r' = 1 ->
  refs_ok (<[id := r']> m) (t :: ts) /\ keeps ts m (<[id := r']> m).
Proof.
  intros [H1 H2 H3] Ht Hr Hone Hk Hone'.
  assert (count_refs id (rte_key r) ts = 0) as Hz.
  { destruct (H1 id r Hr) as [Hc _]. simpl in Hc. rewrite decide_True in Hc by done. lia. }
  split; [split|].
  - intros id' x. destruct (decide (id = id')) as [<-|Hne].
    + rewrite lookup_insert_eq. intros [= <-]. rewrite Hk, Hone', <-Hone. by apply H1.
    + rewrite lookup_insert_ne by done. apply H1.
  - intros u a id' Hu E. destruct (H2 u a id' Hu E) as (x & Hx & ->).
    destruct (decide (id = id')) as [<-|Hne]; [|rewrite lookup_insert_ne by done; by exists x].
    exists r'. rewrite lookup_insert_eq. split; [done|]. congruence.
  - apply H3.
  - intros u a id' x Hu E Hx. destruct (decide (id = id')) as [<-|Hne]; [|rewrite lookup_insert_ne by done; by exists x].
    destruct (H2 u a id) as (y & Hy & ->); [by right|done|]. assert (y = r) as -> by congruence.
    pose proof (count_refs_pos id (rte_key r) u ts Hu E). lia.
Qed.

(** A step that changes no entry but one. *)
Definition advance (id : nat) ctx ctx' : Prop :=
  frozen ctx ctx' /\ forall id', id' <> id -> cr_rtes ctx' !! id' = cr_rtes ctx !! id'.

Lemma advance_refl id ctx : advance id ctx ctx.
Proof. split; [apply frozen_refl|done]. Qed.

Lemma advance_trans id a b c : advance id a b -> advance id b c -> advance id a c.
Proof.
  intros [F1 O1] [F2 O2]. split; [by eapply frozen_trans|]. intros id' Hne. by rewrite O2, O1.
Qed.

Lemma building_update ctx id rt r mt gs :
  building ctx id rt r -> Forall (group_ok (cr_eps ctx)) gs ->
  let r' := MkRte (rte_key r) (rte_refs r) mt gs in
  let ctx' := set_rtes ctx (<[id := r']> (cr_rtes ctx)) in
  building ctx' id rt r' /\ advance id ctx ctx'.
Proof.
  intros [I En Eh Er E1] Hgs r' ctx'. pose proof (ri_refs _ I) as R. rewrite (tables_new _ _ En) in R.
  destruct (private_refs _ _ _ _ _ r' R Eh Er E1) as [R' K]; [done|done|].
  assert (ctx' = with_new ctx (<[id := r']> (cr_rtes ctx)) (cr_next ctx) (Some rt)) as Ec.
  { unfold ctx', set_rtes, with_new. by rewrite En. }
  split; [split; try done|].
  - rewrite Ec. apply with_new_inv; try done.
    + apply (ri_old _ I). by rewrite En.
    + by eapply inv_new_ok.
    + intros id' x [[<- <-]|[_ Hx]]%lookup_insert_Some.
      * split; [|done]. apply (ri_next _ I). left. by eexists.
      * split; [apply (ri_next _ I); left; by eexists|by eapply (ri_groups _ I)].
  - unfold ctx'. simpl. by rewrite lookup_insert_eq.
  - split; [rewrite Ec; by apply with_new_frozen|]. intros id' Hne. unfold ctx'. simpl. by rewrite lookup_insert_ne.
Qed.

(** A new entry under a key. *)
Lemma add_rte_spec ctx rt k n :
  rt_inv ctx -> cr_new ctx = Some rt -> valid_key (ANum k) ->
  exists id rt' ctx', uta_add_rte ctx rt k n = Ret (id, rt', ctx') /\
    let ctx'' := set_tables ctx' (cr_rtable ctx') (cr_old ctx') (Some rt') in
    building ctx'' id rt' (MkRte k 1 0 (replicate (Z.to_nat (if n <? 0 then 10 else n)) None)) /\
    cr_rtes ctx !! id = None /\ frozen ctx ctx'' /\ keeps [delete (ANum k) (habs rt)] (cr_rtes ctx) (cr_rtes ctx'') /\
    habs rt' = <[ANum k := TRte id]> (habs rt) /\ cr_eps ctx'' = cr_eps ctx /\
    rt_updates rt' = rt_updates rt /\ rt_mupdates rt' = rt_mupdates rt /\ rt_error rt' = rt_error rt.
Proof.
  intros I En Hk. destruct (remove_entry ctx rt k I En Hk) as (m & R & K & Hsub & Hg).
  pose proof (inv_new_ok ctx rt I En) as T. unfold uta_add_rte.
  set (gs := replicate _ _). set (r := MkRte k 1 0 gs). set (id := cr_next ctx).
  set (rt' := set_hash rt (sm_put (rt_hash rt) (ANum k) (TRte id))).
  assert (cr_rtes ctx !! id = None) as Hid.
  { destruct (cr_rtes ctx !! id) eqn:E; [|done]. pose proof (ri_next _ I id ltac:(left; by eexists)). unfold id in *. lia. }
  assert (m !! id = None) as Hmid.
  { destruct (m !! id) eqn:E; [|done]. destruct (Hsub _ _ E) as (? & ? & _). congruence. }
  destruct (new_ref_ok m _ _ id r R) as [R' K']; [apply lookup_delete_eq|done|done|].
  assert (habs rt' = <[ANum k := TRte id]> (habs rt)) as Eh by (apply sm_abs_put; [apply T|done]).
  rewrite insert_delete_eq in R'. exists id, rt', (with_new ctx (<[id := r]> m) (S id) (Some rt)).
  assert (Forall (group_ok (cr_eps ctx)) gs) as Hgs by (apply Forall_replicate; done).
  split; [|split_and!; try done].
  - destruct (sm_get (rt_hash rt) (ANum k)) as [[old|old]|]; [| done |].
    + destruct Hg as (ro & Hro & ->). erewrite del_rte_ret.
      2: { simpl. rewrite lookup_insert_ne by congruence. exact Hro. }
      unfold with_new, set_rtes. simpl. rewrite En. do 3 f_equal. unfold dec_ref.
      assert (old <> id) by congruence. destruct (0 <? rte_refs ro - 1); [by apply insert_insert_ne|by rewrite delete_insert_ne].
    + subst m. unfold with_new. simpl. by rewrite En.
  - split; try done; [|by rewrite Eh, lookup_insert_eq|simpl; by rewrite lookup_insert_eq].
    apply (with_new_inv ctx (<[id := r]> m) (S id) rt'); try done.
    + apply (ri_old _ I). by rewrite En.
    + unfold id; lia.
    + by rewrite Eh.
    + apply table_ok_change; [done|by apply sm_put_ok; [apply T|]| |].
      * intros a x. rewrite sm_abs_put by (done || apply T). intros [[<- _]|[_ Ha]]%lookup_insert_Some; [done|].
        by eapply (to_keys _ _ T).
      * intros c s. rewrite sm_abs_put by (done || apply T). by rewrite lookup_insert_ne.
    + intros id' x [[<- <-]|[_ Hx]]%lookup_insert_Some; [split; [lia|done]|].
      destruct (Hsub _ _ Hx) as (x0 & Hx0 & (_ & _ & ->)). split; [|by eapply (ri_groups _ I)].
      pose proof (ri_next _ I id' ltac:(left; by eexists)). unfold id. lia.
  - apply (with_new_frozen ctx (<[id := r]> m) (S id) (Some rt')). eapply keeps_trans; [by eapply keeps_tail|].
    by eapply keeps_tail.
  - intros t a id' x Ht. apply list_elem_of_singleton in Ht as ->.
    apply (keeps_trans _ _ _ _ K K'). by left.
Qed.

(** *** The endpoints of an entry, by name *)

Definition ep_view (eps : gmap nat endpoint) (e : option nat) : option (list Z) :=
  id ← e; e ← eps !! id; ep_name e.
Definition group_view (eps : gmap nat endpoint) (g : option rrgroup_t) : option (Z * list (option (list Z))) :=
  (fun g => (rg_ep_idx g, ep_view eps <$> rg_epts g)) <$> g.
Definition view ctx (r : rtable_ent_t) : list (option (Z * list (option (list Z)))) :=
  group_view (cr_eps ctx) <$> rte_rrgroups r.

(** A token names an endpoint; there is none for the empty token. *)
Definition tok_view (t : list Z) : option (list Z) := match t with [] => None | _ => Some t end.

(** Endpoints are never removed, so names stay what they are. *)
Lemma group_view_eps eps eps' g : eps ⊆ eps' -> group_ok eps g -> group_view eps' g = group_view eps g.
Proof.
  intros Hs. destruct g as [g|]; [|done]. intros [_ HF]. unfold group_view. simpl. do 2 f_equal.
  induction HF as [|e l He _ IH]; [done|]. simpl. f_equal; [|exact IH].
  destruct e as [id|]; [|done]. destruct He as [e He]. simpl.
  rewrite He. by erewrite lookup_weaken by done.
Qed.

Lemma view_frozen ctx ctx' r :
  frozen ctx ctx' -> Forall (group_ok (cr_eps ctx)) (rte_rrgroups r) -> view ctx' r = view ctx r.
Proof.
  intros F HF. unfold view. induction HF as [|g l Hg _ IH]; [done|]. rewrite !fmap_cons, IH.
  f_equal. apply group_view_eps; [apply F|done].
Qed.

(** One endpoint more, unless there are 32. *)
Definition grow (l : list (option (list Z))) (t : list Z) : list (option (list Z)) :=
  if MAX_EP_GROUP <=? zlen l then l else l ++ [tok_view t].

Lemma add_ep_spec ctx id rt r name g l :
  building ctx id rt r -> 0 <= g < zlen (rte_rrgroups r) ->
  view ctx r !! Z.to_nat g = Some None /\ l = [] \/ view ctx r !! Z.to_nat g = Some (Some (0, l)) ->
  exists ep ctx' r', uta_add_ep gethostbyname ctx id name g = Ret (ep, ctx') /\ building ctx' id rt r' /\
    advance id ctx ctx' /\ view ctx' r' = <[Z.to_nat g := Some (0, grow l name)]> (view ctx r) /\
    rte_key r' = rte_key r /\ rte_mtype r' = rte_mtype r.
Proof.
  intros B Hg Hl. pose proof B as [I En Eh Er E1]. unfold uta_add_ep. rewrite Er. simpl.
  destruct (Z.leb_spec (rte_nrrgroups r) g) as [?|_]; [unfold rte_nrrgroups in *; lia|].
  destruct (Z.ltb_spec g 0) as [?|_]; [lia|]. simpl.
  set (rrg := match rte_rrgroups r !! Z.to_nat g with Some (Some g) => g | _ => MkRRG 0 [] end).
  assert (group_ok (cr_eps ctx) (Some rrg) /\ group_view (cr_eps ctx) (Some rrg) = Some (0, l)) as [Hok Hv].
  { unfold view in Hl. rewrite list_lookup_fmap in Hl. pose proof (ri_groups _ I id r Er) as HF. unfold rrg.
    destruct (rte_rrgroups r !! Z.to_nat g) as [[g0|]|] eqn:E; simpl in Hl; [|destruct Hl as [[_ ->]|?]; [by split; [split; [unfold zlen, MAX_EP_GROUP; simpl; lia|]|]|done]..].
    destruct Hl as [[? _]|Hl]; [done|]. split; [|by injection Hl as Hi <-; unfold group_view; simpl; rewrite Hi]. by eapply (Forall_lookup_1 _ _ _ _ HF). }
  destruct (ensure_ep_spec ctx name I) as (ep & ctx1 & -> & I1 & F1 & Em & Et & En1 & _ & Hep & _).
  assert (building ctx1 id rt r) as B1 by (split; congruence).
  assert (group_ok (cr_eps ctx1) (Some rrg)) as Hok1 by (eapply group_ok_eps; [apply F1|done]).
  assert (forall rrg', group_ok (cr_eps ctx1) (Some rrg') ->
    Forall (group_ok (cr_eps ctx1)) (<[Z.to_nat g := Some rrg']> (rte_rrgroups r))) as Hins.
  { intros rrg' Ho. apply Forall_insert; [|done]. apply (ri_groups _ I1 id). congruence. }
  assert (view ctx1 r = view ctx r) as Ev by (apply view_frozen; [done|by eapply (ri_groups _ I)]).
  assert (group_view (cr_eps ctx1) (Some rrg) = Some (0, l)) as Hv1.
  { rewrite <-Hv. apply group_view_eps; [apply F1|done]. }
  assert (zlen l = zlen (rg_epts rrg)) as Hlen.
  { injection Hv1 as _ <-. unfold zlen. by rewrite length_fmap. }
  unfold grow. rewrite Hlen. destruct (Z.leb_spec MAX_EP_GROUP (zlen (rg_epts rrg))) as [?|Hlt].
  - destruct (building_update ctx1 id rt r (rte_mtype r) _ B1 (Hins _ Hok1)) as [B2 F2].
    eexists _, _, _. split; [done|]. split; [exact B2|]. split; [eapply advance_trans; [split; [exact F1|by rewrite Em]|exact F2]|]. split; [|done].
    unfold view. cbn. rewrite list_fmap_insert. fold (view ctx1 r). by rewrite Ev, Hv1.
  - assert (group_ok (cr_eps ctx1) (Some (MkRRG (rg_ep_idx rrg) (rg_epts rrg ++ [ep])))) as Hok2.
    { destruct Hok1 as [_ HF]. split; cbn.
      - unfold zlen in *. rewrite length_app. simpl. lia.
      - apply Forall_app. split; [done|]. apply Forall_singleton. destruct name as [|c name]; [by subst ep|].
        destruct Hep as (i & e & -> & He & _). by eexists. }
    destruct (building_update ctx1 id rt r (rte_mtype r) _ B1 (Hins _ Hok2)) as [B2 F2].
    eexists _, _, _. split; [done|]. split; [exact B2|]. split; [eapply advance_trans; [split; [exact F1|by rewrite Em]|exact F2]|]. split; [|done].
    unfold view. cbn. rewrite list_fmap_insert. fold (view ctx1 r). rewrite Ev. f_equal. cbn.
    rewrite fmap_app. injection Hv1 as -> <-. do 3 f_equal. simpl. f_equal.
    destruct name as [|c name]; [by subst ep|]. destruct Hep as (i & e & -> & He & Hn & _). simpl. by rewrite He.
Qed.

(** The tokens of a group that become endpoints: not our own addresses, not our
    name. *)
Definition not_mine (my : list Z) (toks : list (list Z)) : list (list Z) := filter (fun t => t <> my) toks.
Definition group_toks (my : list Z) (ips : option if_addrs_t) (g : list Z) : list (list Z) :=
  not_mine my (uta_rmip_tokenise g ips 64 44).

(** What a group of a record stands for: its first 32 endpoints by name, and
    nothing when there are none. *)
Definition group_spec (my : list Z) (ips : option if_addrs_t) (g : list Z) : option (Z * list (option (list Z))) :=
  match group_toks my ips g with
  | [] => None
  | ts => Some (0, take 32 (tok_view <$> ts))
  end.

Lemma grow_all l toks : (length l <= 32)%nat -> foldl grow l toks = take 32 (l ++ (tok_view <$> toks)).
Proof.
  revert l. induction toks as [|t toks IH]; intros l Hl; simpl.
  - rewrite app_nil_r. by rewrite take_ge.
  - unfold grow at 2. unfold zlen, MAX_EP_GROUP. destruct (Z.leb_spec 32 (Z.of_nat (length l))).
    + rewrite IH by done. by rewrite !take_app_le, !take_ge by lia.
    + rewrite IH by (rewrite length_app; simpl; lia). by rewrite <-app_assoc.
Qed.

Lemma add_eps_spec toks : forall ctx id rt r g l has,
  building ctx id rt r -> 0 <= g < zlen (rte_rrgroups r) ->
  view ctx r !! Z.to_nat g = Some None /\ l = [] \/ view ctx r !! Z.to_nat g = Some (Some (0, l)) ->
  let ts := not_mine (cr_my_name ctx) toks in
  exists ctx' r', add_eps gethostbyname ctx id toks g has = Ret (has || negb (bool_decide (ts = [])), ctx') /\
    building ctx' id rt r' /\ advance id ctx ctx' /\ rte_key r' = rte_key r /\ rte_mtype r' = rte_mtype r /\
    view ctx' r' = if bool_decide (ts = []) then view ctx r
                   else <[Z.to_nat g := Some (0, foldl grow l ts)]> (view ctx r).
Proof.
  induction toks as [|t toks IH]; intros ctx id rt r g l has B Hg Hl ts.
  { exists ctx, r. unfold ts. simpl. rewrite orb_false_r. split_and!; try done. apply advance_refl. }
  simpl. destruct (streq t (cr_my_name ctx)) eqn:Es.
  { apply streq_true in Es. assert (ts = not_mine (cr_my_name ctx) toks) as ->.
    { unfold ts, not_mine. rewrite filter_cons_False; [done|]. naive_solver. }
    by apply IH. }
  assert (ts = t :: not_mine (cr_my_name ctx) toks) as ->.
  { unfold ts, not_mine. rewrite filter_cons_True; [done|]. intros ->. by rewrite (proj2 (streq_true _ _) eq_refl) in Es. }
  destruct (add_ep_spec ctx id rt r t g l B Hg Hl) as (ep & ctx1 & r1 & -> & B1 & F1 & V1 & K1 & M1). simpl.
  assert (length (view ctx r) = length (view ctx1 r1)) as Hlen by (rewrite V1; by rewrite length_insert).
  unfold view in Hlen. rewrite !length_fmap in Hlen. unfold zlen in *.
  destruct (IH ctx1 id rt r1 g (grow l t) true B1) as (ctx2 & r2 & -> & B2 & F2 & K2 & M2 & V2).
  - unfold zlen. lia.
  - right. rewrite V1. rewrite list_lookup_insert_eq; [done|]. unfold view. rewrite length_fmap. lia.
  - exists ctx2, r2. rewrite orb_true_r. split; [done|]. split; [done|]. split; [by eapply advance_trans|].
    split; [congruence|]. split; [congruence|]. pose proof (fz_self _ _ (proj1 F1)) as [En' _].
    rewrite En' in V2. rewrite V2. destruct (not_mine (cr_my_name ctx) toks); [exact V1|]. simpl. by rewrite V1, list_insert_insert_eq.
Qed.

Lemma add_groups_spec gtoks : forall ctx id rt r dn n,
  building ctx id rt r -> view ctx r = (Some <$> dn) ++ replicate n None -> (length gtoks <= n)%nat ->
  let new := omap (group_spec (cr_my_name ctx) (cr_ip_list ctx)) gtoks in
  exists ctx' r', add_groups gethostbyname ctx id gtoks (zlen dn) = Ret ctx' /\ building ctx' id rt r' /\
    advance id ctx ctx' /\ rte_key r' = rte_key r /\ rte_mtype r' = rte_mtype r /\
    view ctx' r' = (Some <$> (dn ++ new)) ++ replicate (n - length new) None.
Proof.
  induction gtoks as [|g gtoks IH]; intros ctx id rt r dn n B V Hn new.
  { exists ctx, r. unfold new. simpl. rewrite app_nil_r, Nat.sub_0_r. split_and!; try done. apply advance_refl. }
  simpl in Hn. destruct n as [|n]; [lia|].
  assert (zlen (rte_rrgroups r) = zlen dn + 1 + Z.of_nat n) as Hlen.
  { unfold zlen. rewrite <-(length_fmap (group_view (cr_eps ctx))). fold (view ctx r). rewrite V.
    rewrite length_app, length_fmap. simpl. rewrite length_replicate. lia. }
  assert (view ctx r !! Z.to_nat (zlen dn) = Some None) as Hg.
  { rewrite V. unfold zlen. rewrite Nat2Z.id, lookup_app_r by (rewrite length_fmap; lia).
    rewrite length_fmap, Nat.sub_diag. done. }
  cbn [add_groups].
  destruct (add_eps_spec (uta_rmip_tokenise g (cr_ip_list ctx) 64 44) ctx id rt r (zlen dn) [] false B)
    as (ctx1 & r1 & -> & B1 & F1 & K1 & M1 & V1); [unfold zlen in *; lia|by left|].
  fold (group_toks (cr_my_name ctx) (cr_ip_list ctx) g) in *. cbn [mbind comp_bind fst snd orb].
  pose proof (fz_self _ _ (proj1 F1)) as [En Ei].
  pose proof (eq_refl (group_spec (cr_my_name ctx) (cr_ip_list ctx) g)) as Hs. unfold group_spec in Hs at 2.
  destruct (group_toks (cr_my_name ctx) (cr_ip_list ctx) g) as [|t ts] eqn:Et.
  - rewrite bool_decide_true in * by done. simpl negb. cbv iota.
    destruct (IH ctx1 id rt r1 dn (S n) B1) as (ctx2 & r2 & -> & B2 & F2 & K2 & M2 & V2); [by rewrite V1|lia|].
    exists ctx2, r2. split_and!; try done; [by eapply advance_trans|congruence..|]. rewrite V2, En, Ei. unfold new.
    simpl. by rewrite Hs.
  - rewrite bool_decide_false in * by done. simpl negb. cbv iota.
    rewrite grow_all in V1 by (simpl; lia). simpl app in V1. set (v := (0, take 32 (tok_view <$> t :: ts))) in *.
    assert (view ctx1 r1 = (Some <$> (dn ++ [v])) ++ replicate n None) as V1'.
    { rewrite V1, V. unfold zlen. rewrite Nat2Z.id. rewrite insert_app_r_alt by (rewrite length_fmap; lia).
      rewrite length_fmap, Nat.sub_diag, fmap_app, <-app_assoc. done. }
    replace (zlen dn + 1) with (zlen (dn ++ [v])) by (unfold zlen; rewrite length_app; simpl; lia).
    destruct (IH ctx1 id rt r1 (dn ++ [v]) n B1 V1') as (ctx2 & r2 & -> & B2 & F2 & K2 & M2 & V2); [lia|].
    exists ctx2, r2. split_and!; try done; [by eapply advance_trans|congruence..|]. rewrite V2, En, Ei. unfold new.
    simpl. rewrite Hs. fold v. rewrite <-app_assoc. done.
Qed.

(** ** Whole tables *)

(** The entries of the numeric space, as rmr_sym_foreach_class lists them. *)
Lemma class_mt eps rt a x :
  table_ok eps rt -> (a, x) ∈ sm_class (rt_hash rt) RT_MT_SPACE <-> habs rt !! a = Some x /\ exists k, a = ANum k.
Proof.
  intros T. rewrite sm_class_abs by apply T. split.
  - intros [E Hc]. split; [done|]. pose proof (to_keys _ _ T _ _ E) as Hk. destruct a as [c s|k]; [|by exists k].
    simpl in *. unfold RT_MT_SPACE in Hc. lia.
  - by intros [E [k ->]].
Qed.

Lemma class_me eps rt a x :
  table_ok eps rt -> (a, x) ∈ sm_class (rt_hash rt) RT_ME_SPACE <-> habs rt !! a = Some x /\ exists s, a = AStr RT_ME_SPACE s.
Proof.
  intros T. rewrite sm_class_abs by apply T. split.
  - intros [E Hc]. split; [done|]. destruct a as [c s|k]; [|done]. simpl in Hc. subst c. by exists s.
  - by intros [E [s ->]].
Qed.

(** What deletes of entries leave of a store. *)
Definition shrinks (m m' : gmap nat rtable_ent_t) : Prop :=
  forall id r, m' !! id = Some r -> exists r0, m !! id = Some r0 /\ same_route r0 r.

Lemma shrinks_trans a b c : shrinks a b -> shrinks b c -> shrinks a c.
Proof.
  intros H1 H2 id r E. destruct (H2 _ _ E) as (r1 & E1 & S1). destruct (H1 _ _ E1) as (r0 & E0 & S0).
  exists r0. split; [done|]. by eapply same_route_trans.
Qed.

Lemma del_all_spec l : forall ctx t ts,
  refs_ok (cr_rtes ctx) (t :: ts) -> NoDup l.*1 -> (forall a x, (a, x) ∈ l -> t !! a = Some x /\ exists k, a = ANum k) ->
  exists m t', del_all ctx l = Ret (set_rtes ctx m) /\ refs_ok m (t' :: ts) /\ keeps ts (cr_rtes ctx) m /\
    shrinks (cr_rtes ctx) m /\ (forall a, t' !! a = if decide (a ∈ l.*1) then None else t !! a).
Proof.
  induction l as [|[a x] l IH]; intros ctx t ts R Hnd Hl.
  { exists (cr_rtes ctx), t. split; [by destruct ctx|]. split_and!; [done|apply keeps_refl| |done].
    intros id r E. by exists r. }
  destruct (Hl a x) as [Ea [k ->]]; [by left|]. destruct (ro_num _ _ R t k x) as [id ->]; [by left|done|].
  destruct (ro_live _ _ R t (ANum k) id) as (r & Er & _); [by left|done|].
  destruct (dec_ref_ok _ _ _ _ _ _ R Ea Er) as [R' K]. cbn [del_all]. erewrite del_rte_ret by done.
  rewrite fmap_cons in Hnd. apply NoDup_cons in Hnd as [Hni Hnd].
  destruct (IH (set_rtes ctx (dec_ref (cr_rtes ctx) id r)) (delete (ANum k) t) ts R' Hnd) as (m & t' & Ed & Rm & Km & Sm & Ht').
  { intros a x Hin. destruct (Hl a x) as [E ?]; [by right|]. split; [|done]. rewrite lookup_delete_ne; [done|].
    intros <-. apply Hni. apply list_elem_of_fmap. by exists (ANum k, x). }
  exists m, t'. split; [exact Ed|]. split_and!; [done| | |].
  - eapply keeps_trans; [by eapply keeps_tail|exact Km].
  - eapply shrinks_trans; [|exact Sm]. intros i y. by apply dec_ref_sub.
  - intros a. rewrite Ht', fmap_cons. simpl fst. destruct (decide (a = ANum k)) as [->|Hne].
    + rewrite lookup_delete_eq. destruct (decide (ANum k ∈ ANum k :: l.*1)) as [_|Hn]; [by case_decide|].
      exfalso. apply Hn. by left.
    + rewrite lookup_delete_ne by done. destruct (decide (a ∈ l.*1)).
      * by rewrite decide_True by by right.
      * by rewrite decide_False by set_solver.
Qed.

(** Letting go of a table. *)
Lemma drop_table ctx rt ts :
  table_ok (cr_eps ctx) rt -> refs_ok (cr_rtes ctx) (habs rt :: ts) ->
  exists m, del_all ctx (sm_class (rt_hash rt) RT_MT_SPACE) = Ret (set_rtes ctx m) /\ refs_ok m ts /\
    keeps ts (cr_rtes ctx) m /\ shrinks (cr_rtes ctx) m.
Proof.
  intros T R.
  destruct (del_all_spec (sm_class (rt_hash rt) RT_MT_SPACE) ctx (habs rt) ts R) as (m & t' & Ed & Rm & Km & Sm & Ht').
  - apply sm_class_nodup, T.
  - intros a x. by apply (class_mt _ _ _ _ T).
  - exists m. split_and!; try done.
    assert (forall n, t' !! ANum n = None) as Hnum.
    { intros n. rewrite Ht'. case_decide as Hd; [done|]. destruct (habs rt !! ANum n) as [x|] eqn:E; [|done].
      exfalso. apply Hd. apply list_elem_of_fmap. exists (ANum n, x). split; [done|]. apply (class_mt _ _ _ _ T). by eauto. }
    apply (refs_ok_no_rtes m t' ts); [|done|done]. intros a id E.
    destruct (ro_live _ _ Rm t' a id) as (r & _ & ->); [by left|done|]. by rewrite Hnum in E.
Qed.

(** Cloning: the elements of the listing are added. *)
Lemma list_to_map_cons_union (a : akey) (x : thing) l (m : hmap) :
  a ∉ l.*1 -> list_to_map l ∪ <[a := x]> m = <[a := x]> (list_to_map l) ∪ m.
Proof.
  intros Hn. rewrite <-insert_union_r by by apply not_elem_of_list_to_map. by rewrite insert_union_l.
Qed.

Lemma clone_me_spec l : forall h,
  sm_ok h -> NoDup l.*1 -> (forall a x, (a, x) ∈ l -> valid_key a) ->
  sm_ok (clone_me l h) /\ sm_abs (clone_me l h) = list_to_map l ∪ sm_abs h.
Proof.
  induction l as [|[a x] l IH]; intros h Hok Hnd Hv; [split; [done|]; symmetry; apply map_empty_union|].
  rewrite fmap_cons in Hnd. apply NoDup_cons in Hnd as [Hni Hnd].
  assert (valid_key a) as Ha by (apply (Hv a x); by left).
  destruct (IH (sm_put h a x)) as [H1 H2]; [by apply sm_put_ok|done|intros b y Hb; apply (Hv b y); by right|].
  simpl. split; [done|]. rewrite H2, sm_abs_put by done. by apply list_to_map_cons_union.
Qed.

Lemma clone_mt_spec l : forall ctx h ts,
  refs_ok (cr_rtes ctx) (sm_abs h :: ts) -> sm_ok h -> NoDup l.*1 ->
  (forall a x, (a, x) ∈ l -> exists k, a = ANum k /\ valid_key a /\ sm_abs h !! a = None /\ exists t, t ∈ ts /\ t !! a = Some x) ->
  exists m h', clone_mt ctx l h = Ret (h', set_rtes ctx m) /\ refs_ok m (sm_abs h' :: ts) /\ sm_ok h' /\
    sm_abs h' = list_to_map l ∪ sm_abs h /\ keeps ts (cr_rtes ctx) m /\ shrinks (cr_rtes ctx) m.
Proof.
  induction l as [|[a x] l IH]; intros ctx h ts R Hok Hnd Hl.
  { exists (cr_rtes ctx), h. split; [by destruct ctx|]. split_and!; try done.
    - symmetry. apply map_empty_union.
    - apply keeps_refl.
    - intros id r E. by exists r. }
  destruct (Hl a x) as (k & -> & Hk & Hnone & t & Ht & Ex); [by left|].
  destruct (ro_num _ _ R t k x) as [id ->]; [by right|done|].
  destruct (ro_live _ _ R t (ANum k) id) as (r & Er & [= Ek]); [by right|done|]. subst k.
  destruct (inc_ref_ok _ _ _ _ _ R Hnone Er) as [R' K].
  rewrite fmap_cons in Hnd. apply NoDup_cons in Hnd as [Hni Hnd].
  cbn [clone_mt]. rewrite Er. cbn [deref mbind comp_bind]. fold (set_refs r (rte_refs r + 1)).
  rewrite <-(sm_abs_put h) in R' by done.
  destruct (IH (set_rtes ctx (<[id := set_refs r (rte_refs r + 1)]> (cr_rtes ctx)))
              (sm_put h (ANum (rte_key r)) (TRte id)) ts R') as (m & h' & Ec & Rm & Hok' & Ha & Km & Sm).
  - by apply sm_put_ok.
  - done.
  - intros a x Hin. destruct (Hl a x) as (k & -> & Hk' & Hn' & Hx); [by right|]. exists k. split_and!; try done.
    rewrite sm_abs_put by done. rewrite lookup_insert_ne; [done|]. intros E. apply Hni. rewrite E.
    apply list_elem_of_fmap. by exists (ANum k, x).
  - exists m, h'. split; [exact Ec|]. split_and!; try done.
    + rewrite Ha, sm_abs_put by done. by apply list_to_map_cons_union.
    + eapply keeps_trans; [by eapply keeps_tail|exact Km].
    + eapply shrinks_trans; [|exact Sm]. intros i y. simpl. intros [[<- <-]|[_ E]]%lookup_insert_Some; [by exists r|by exists y].
Qed.

Lemma inv_tables ctx m act old new :
  let ctx' := set_tables (set_rtes ctx m) act old new in
  rt_inv ctx -> refs_ok m (habs <$> tables ctx') -> Forall (table_ok (cr_eps ctx)) (tables ctx') ->
  shrinks (cr_rtes ctx) m -> (is_Some new -> old = None) -> rt_inv ctx'.
Proof.
  intros ctx' [I1 I2 I3 I4 I5 I6 I7] R T S Ho. split; cbn; try done.
  - intros id [[r Hr]|He]; [|by apply I5; right]. destruct (S _ _ Hr) as (r0 & Hr0 & _). apply I5. left. by eexists.
  - intros id r Hr. destruct (S _ _ Hr) as (r0 & Hr0 & (_ & _ & ->)). by eapply I6.
Qed.

Lemma shrinks_refl m : shrinks m m.
Proof. intros id r E. by exists r. Qed.

(** Dropping the table under construction. *)
Lemma drop_new_spec ctx rt :
  rt_inv ctx -> cr_new ctx = Some rt ->
  exists m, uta_rt_drop ctx (Some rt) = Ret (set_rtes ctx m) /\
    let ctx' := set_tables (set_rtes ctx m) (cr_rtable ctx) (cr_old ctx) None in rt_inv ctx' /\ frozen ctx ctx'.
Proof.
  intros I En. pose proof (ri_refs _ I) as R. rewrite (tables_new _ _ En) in R.
  destruct (drop_table ctx rt (habs <$> others ctx) (inv_new_ok _ _ I En) R) as (m & Ed & Rm & Km & Sm).
  exists m. split; [exact Ed|]. split.
  - apply inv_tables; try done; [by rewrite tables_none|].
    rewrite tables_none by done. pose proof (ri_tabs _ I) as T. unfold tables in T. unfold others. cbn.
    rewrite !Forall_app in *. tauto.
  - by apply (with_new_frozen ctx m (cr_next ctx) None).
Qed.

(** What the new table starts with: the managed elements of the active one, or
    all of it. *)
Definition start_map (act : option (route_table_t TH)) (all : bool) : hmap :=
  match act with
  | None => ∅
  | Some rt => if all then habs rt else filter (fun x => akey_class x.1 = RT_ME_SPACE) (habs rt)
  end.

Lemma me_map eps rt :
  table_ok eps rt ->
  list_to_map (sm_class (rt_hash rt) RT_ME_SPACE) ∪ (∅ : hmap) = filter (fun x => akey_class x.1 = RT_ME_SPACE) (habs rt).
Proof.
  intros T. rewrite map_union_empty. apply map_eq. intros a. apply option_eq. intros x.
  rewrite <-elem_of_list_to_map by apply sm_class_nodup, T. rewrite sm_class_abs by apply T.
  by rewrite map_lookup_filter_Some.
Qed.

Lemma all_map eps rt :
  table_ok eps rt ->
  list_to_map (sm_class (rt_hash rt) RT_MT_SPACE) ∪ filter (fun x => akey_class x.1 = RT_ME_SPACE) (habs rt) = habs rt.
Proof.
  intros T. apply map_eq. intros a. apply option_eq. intros x. rewrite lookup_union_Some_raw.
  rewrite <-elem_of_list_to_map by apply sm_class_nodup, T. rewrite (class_mt _ _ _ _ T), map_lookup_filter_Some.
  split; [naive_solver|]. intros E. destruct a as [c s|k]; [|left; split; [done|by exists k]]. right. split.
  - apply not_elem_of_list_to_map. intros ([a y] & Ea & Hin)%list_elem_of_fmap.
    apply (class_mt _ _ _ _ T) in Hin as [_ [k ->]]. done.
  - split; [done|]. by destruct (to_me _ _ T c s x E) as [Hc _].
Qed.

Lemma clone_spec ctx srt drt all ts :
  Forall (table_ok (cr_eps ctx)) (option_list srt) -> sm_ok (rt_hash drt) -> habs drt = ∅ ->
  refs_ok (cr_rtes ctx) ts -> (forall rt, srt = Some rt -> habs rt ∈ ts) ->
  exists m h, uta_rt_clone ctx srt drt all = Ret (set_hash drt h, set_rtes ctx m) /\
    refs_ok m (sm_abs h :: ts) /\ sm_ok h /\ sm_abs h = start_map srt all /\
    keeps ts (cr_rtes ctx) m /\ shrinks (cr_rtes ctx) m.
Proof.
  intros HT Hok He R Hin. assert (ctx = set_rtes ctx (cr_rtes ctx)) as Ec by by destruct ctx.
  assert (refs_ok (cr_rtes ctx) (∅ :: ts)) as R0.
  { apply refs_ok_no_rtes; [|done|done]. intros a id. by rewrite lookup_empty. }
  unfold uta_rt_clone. destruct srt as [srt|].
  2: { exists (cr_rtes ctx), (rt_hash drt). destruct drt as [e h u mu rc]. unfold habs in He. simpl in *.
       rewrite He. split; [by rewrite <-Ec|]. split_and!; try done; [apply keeps_refl|apply shrinks_refl]. }
  apply Forall_inv in HT as T.
  destruct (clone_me_spec (sm_class (rt_hash srt) RT_ME_SPACE) (rt_hash drt)) as [Hok1 Ha1].
  { done. } { apply sm_class_nodup, T. } { intros a x Hx. apply (class_me _ _ _ _ T) in Hx as [Hx _]. by eapply (to_keys _ _ T). }
  fold (habs drt) in Ha1. rewrite He, (me_map _ _ T) in Ha1.
  set (h := clone_me _ _) in *. assert (refs_ok (cr_rtes ctx) (sm_abs h :: ts)) as R1.
  { rewrite Ha1. apply (refs_ok_str _ ∅); [| |done].
    - intros n. apply map_lookup_filter_None. by right.
    - intros c s id Hl. apply map_lookup_filter_Some in Hl as [Hl _]. by destruct (to_me _ _ T c s _ Hl) as (_ & ? & ? & _). }
  destruct all.
  - destruct (clone_mt_spec (sm_class (rt_hash srt) RT_MT_SPACE) ctx h ts R1 Hok1) as (m & h' & -> & Rm & Hok' & Ha & Km & Sm).
    + apply sm_class_nodup, T.
    + intros a x Hx. apply (class_mt _ _ _ _ T) in Hx as [Hx [k ->]]. exists k. split_and!; try done.
      * by eapply (to_keys _ _ T).
      * rewrite Ha1. apply map_lookup_filter_None. by right.
      * exists (habs srt). split; [by apply Hin|done].
    + exists m, h'. split_and!; try done. by rewrite Ha, Ha1, (all_map _ _ T).
  - exists (cr_rtes ctx), h. simpl. split; [by rewrite <-Ec|]. split_and!; try done; [apply keeps_refl|apply shrinks_refl].
Qed.

Lemma start_map_ok eps act all h u mu :
  Forall (table_ok eps) (option_list act) -> sm_ok h -> sm_abs h = start_map act all ->
  table_ok eps (MkRt false h u mu 0).
Proof.
  intros HT Hok Ha. assert (forall a y, start_map act all !! a = Some y -> exists rt, table_ok eps rt /\ habs rt !! a = Some y) as Hs.
  { destruct act as [rt|]; [|intros a y E; unfold start_map in E; by rewrite lookup_empty in E]. apply Forall_inv in HT. intros a y.
    destruct all; simpl; [by exists rt|]. intros [E _]%map_lookup_filter_Some. by exists rt. }
  split; cbn; [done|..]; unfold habs; cbn; rewrite Ha.
  - intros a y E. destruct (Hs a y E) as (rt & T & E'). by eapply (to_keys _ _ T).
  - intros c s y E. destruct (Hs _ y E) as (rt & T & E'). by eapply (to_me _ _ T).
Qed.

Lemma set_tables_rtes ctx m a o n : set_tables (set_rtes ctx m) a o n = set_rtes (set_tables ctx a o n) m.
Proof. done. Qed.

(** The first half of prep_new_rt: the old table is let go and cleared. *)
Lemma recycle_spec ctx :
  rt_inv ctx -> cr_new ctx = None ->
  exists m (drt : route_table_t TH),
    recycle_old ctx = Ret (drt, set_tables (set_rtes ctx m) (cr_rtable ctx) None None) /\
    refs_ok m (habs <$> option_list (cr_rtable ctx)) /\
    keeps (habs <$> option_list (cr_rtable ctx)) (cr_rtes ctx) m /\ shrinks (cr_rtes ctx) m /\
    rt_error drt = false /\ sm_ok (rt_hash drt) /\ habs drt = ∅.
Proof.
  intros I En. assert (RT_SIZE <= INT_MAX) as Hsz by (unfold RT_SIZE, INT_MAX; lia).
  pose proof (ri_refs _ I) as R. rewrite (tables_none _ En) in R. unfold others in R.
  unfold recycle_old. destruct (cr_old ctx) as [rt|] eqn:Eo.
  - assert (table_ok (cr_eps ctx) rt) as T.
    { pose proof (ri_tabs _ I) as T. rewrite (tables_none _ En) in T. unfold others in T.
      rewrite Eo, Forall_app in T. destruct T as [_ T]. by apply Forall_inv in T. }
    rewrite fmap_app in R. change (habs <$> option_list (Some rt)) with [habs rt] in R.
    rewrite <-Permutation_cons_append in R.
    destruct (drop_table (set_tables ctx (cr_rtable ctx) None (cr_new ctx)) rt _ T R) as (m & Ed & Rm & Km & Sm).
    cbv zeta. rewrite Ed. eexists m, _. cbn [mbind comp_bind]. split; [by rewrite set_tables_rtes, En|].
    split_and!; try done; [by apply sm_new_ok|by apply sm_abs_new].
  - exists (cr_rtes ctx), uta_rt_init. rewrite app_nil_r in R. split; [destruct ctx; simpl in *; by subst|].
    split_and!; try done; [apply keeps_refl|apply shrinks_refl|by apply sm_new_ok|by apply sm_abs_new].
Qed.

Lemma prep_spec ctx all :
  rt_inv ctx -> cr_new ctx = None ->
  exists drt ctx', prep_new_rt ctx all = Ret (drt, ctx') /\
    let ctx'' := set_tables ctx' (cr_rtable ctx') (cr_old ctx') (Some drt) in
    rt_inv ctx'' /\ frozen ctx ctx'' /\ rt_error drt = false /\ habs drt = start_map (cr_rtable ctx) all /\
    cr_rtable ctx' = cr_rtable ctx /\ cr_old ctx' = None /\ cr_new ctx' = None /\ cr_eps ctx' = cr_eps ctx /\
    shrinks (cr_rtes ctx) (cr_rtes ctx') /\ keeps [habs drt] (cr_rtes ctx) (cr_rtes ctx').
Proof.
  intros I En. destruct (recycle_spec ctx I En) as (m & drt & Er & R & K & S & Ee & Hok & Hh).
  assert (Forall (table_ok (cr_eps ctx)) (option_list (cr_rtable ctx))) as HT.
  { pose proof (ri_tabs _ I) as T. unfold tables in T. rewrite Forall_app in T. tauto. }
  unfold prep_new_rt. rewrite Er. cbn [mbind comp_bind].
  destruct (clone_spec (set_tables (set_rtes ctx m) (cr_rtable ctx) None None) (cr_rtable ctx) drt all
    (habs <$> option_list (cr_rtable ctx))) as (m' & h & Ec & R' & Hok' & Ha & K' & S'); try done.
  { intros rt ->. simpl. by left. }
  cbn [cr_rtable set_tables]. rewrite Ec. cbn [mbind comp_bind].
  assert (shrinks (cr_rtes ctx) m') as Sm by by eapply shrinks_trans.
  assert (keeps (habs <$> option_list (cr_rtable ctx)) (cr_rtes ctx) m') as Km by by eapply keeps_trans.
  eexists _, _. split; [done|]. cbn. rewrite Ee. split_and!; try done.
  - apply (inv_tables ctx m' (cr_rtable ctx) None (Some _)); try done.
    + unfold tables. cbn. rewrite fmap_app. cbn. by rewrite <-Permutation_cons_append.
    + unfold tables. cbn. rewrite Forall_app. split; [done|]. apply Forall_singleton. by eapply start_map_ok.
  - split; try done. cbn. intros rt Hrt. intros t a id r ->%list_elem_of_singleton. apply Km. rewrite Hrt. by left.
  - intros t a id r ->%list_elem_of_singleton. unfold habs. cbn. rewrite Ha. unfold start_map.
    destruct (cr_rtable ctx) as [rt|] eqn:Ert; [|by rewrite lookup_empty].
    intros E. apply (Km (habs rt) a); [by left|]. destruct all; [done|]. by apply map_lookup_filter_Some in E as [? _].
Qed.

(** Making the new table the active one. *)
Lemma roll_spec ctx rt :
  rt_inv ctx -> cr_new ctx = Some rt -> rt_error rt = false ->
  rt_inv (roll_tables ctx) /\ roll_tables ctx = set_tables ctx (Some rt) (cr_rtable ctx) None.
Proof.
  intros I En He. assert (roll_tables ctx = set_tables ctx (Some rt) (cr_rtable ctx) None) as Er.
  { unfold roll_tables. rewrite En, He. by destruct (cr_rtable ctx). }
  split; [|done]. rewrite Er. assert (ctx = set_rtes ctx (cr_rtes ctx)) as Ec by by destruct ctx.
  rewrite Ec at 1. apply inv_tables; try done; [| |apply shrinks_refl].
  - pose proof (ri_refs _ I) as R. rewrite (tables_new _ _ En) in R. unfold others in R.
    rewrite (ri_old _ I ltac:(by rewrite En)) in R. unfold tables. cbn. by rewrite !app_nil_r in *.
  - pose proof (ri_tabs _ I) as T. unfold tables in *. cbn. rewrite En, (ri_old _ I ltac:(by rewrite En)) in T.
    rewrite app_nil_r. rewrite Forall_app in T. destruct T as [T1 T2]. apply Forall_cons. split; [|done].
    by apply Forall_inv in T2.
Qed.
End inv.
