(* ===== verification/RtSpec.v ===== *)
(** The abstract route table, and what each operation on the table under
    construction does to it.

    A table stands for two finite maps: from keys to routes, a route being the
    message type and the round-robin groups with the endpoints by name; and from
    managed element ids to the name of the owner.  [spec_entry], [spec_trash],
    [spec_meid_ar] and [spec_meid_del] say what records mean, and the lemmas show
    that the code of RouteTable.v does it, keeps the invariant and leaves the
    active table alone. *)

From S2P Require Import Prelude Bytes Symtab SymIface Tools Mbuf Endpoint RouteTable RtInv.

(** The message type and the groups: next index to use and endpoint names. *)
Definition aroute : Type := Z * list (option (Z * list (option (list Z)))).

Record atable := MkAT {
  at_routes : gmap Z aroute;
  at_owners : gmap (list Z) (list Z)
}.

(** ** The meaning of records *)

Definition route_groups (my : list Z) (ips : option if_addrs_t) (gtoks : list (list Z)) :
    list (option (Z * list (option (list Z)))) :=
  let gs := omap (group_spec my ips) gtoks in
  (Some <$> gs) ++ replicate (length gtoks - length gs) None.

Definition rec_key (ts : list Z) (subid : Z) : Z := build_rt_key (i32 subid) (atoi (clip ts)).

Definition spec_entry (my : list Z) (ips : option if_addrs_t) (ts : list Z) (subid : Z) (rr : list Z) (A : atable) : atable :=
  if for_us my ips (clip ts) then
    match tokenise (clip rr) 64 59 with
    | [] => A
    | (g0 :: _) as gtoks =>
        let gtoks := if streq g0 $"%meid" then [] else gtoks in
        MkAT (<[rec_key ts subid := (atoi (clip ts), route_groups my ips gtoks)]> (at_routes A)) (at_owners A)
    end
  else A.

Definition spec_trash (my : list Z) (ips : option if_addrs_t) (ts : list Z) (subid : Z) (A : atable) : atable :=
  if for_us my ips (clip ts) then MkAT (delete (rec_key ts subid) (at_routes A)) (at_owners A) else A.

Definition spec_meid_ar (owner meids : list Z) (A : atable) : atable :=
  match clip owner with
  | [] => A
  | o => MkAT (at_routes A) (foldl (fun m t => <[t := o]> m) (at_owners A) (tokenise (clip meids) 128 32))
  end.

Definition spec_meid_del (meids : list Z) (A : atable) : atable :=
  MkAT (at_routes A) (foldl (fun m t => delete t m) (at_owners A) (tokenise (clip meids) 128 32)).

(** ** Abstraction *)

Section abs.
Context {TH TE : Type} `{Symbols TH thing} `{Symbols TE nat}.
Variable gethostbyname : list Z -> option (list Z).
Implicit Types (ctx : rt_ctx TH TE) (rt : route_table_t TH) (A : atable).

Definition entry_at ctx (id : nat) : option aroute :=
  (fun r => (rte_mtype r, view ctx r)) <$> (cr_rtes ctx !! id).

Definition route_at ctx rt (k : Z) : option aroute :=
  match habs rt !! ANum k with Some (TRte id) => entry_at ctx id | _ => None end.

Definition owner_at ctx rt (meid : list Z) : option (list Z) :=
  match habs rt !! AStr RT_ME_SPACE meid with Some (TEp id) => e ← cr_eps ctx !! id; ep_name e | _ => None end.

Definition table_abs ctx rt A : Prop :=
  (forall k, route_at ctx rt k = at_routes A !! k) /\ (forall s, owner_at ctx rt s = at_owners A !! s).

Lemma entry_stable ctx ctx' t a id :
  rt_inv ctx -> t ∈ habs <$> tables ctx -> t !! a = Some (TRte id) ->
  (exists r r', cr_rtes ctx !! id = Some r /\ cr_rtes ctx' !! id = Some r' /\ same_route r r') ->
  cr_eps ctx ⊆ cr_eps ctx' -> entry_at ctx' id = entry_at ctx id.
Proof.
  intros I Ht Ha (r & r' & Er & Er' & (_ & Em & Eg)) Hs. unfold entry_at. rewrite Er, Er'. simpl. rewrite Em.
  do 2 f_equal. unfold view. rewrite Eg. pose proof (ri_groups _ I id r Er) as HF. clear Eg.
  induction HF as [|g l Hg _ IH]; [done|]. rewrite !fmap_cons, IH. f_equal. by apply group_view_eps.
Qed.

Lemma keeps_entry ctx ctx' t a id :
  rt_inv ctx -> t ∈ habs <$> tables ctx -> t !! a = Some (TRte id) ->
  keeps [t] (cr_rtes ctx) (cr_rtes ctx') -> cr_eps ctx ⊆ cr_eps ctx' -> entry_at ctx' id = entry_at ctx id.
Proof.
  intros I Ht Ha K Hs. eapply entry_stable; try done.
  destruct (ro_live _ _ (ri_refs _ I) t a id Ht Ha) as (r & Er & _).
  destruct (K t a id r ltac:(by left) Ha Er) as (r' & Er' & Sr). by exists r, r'.
Qed.

Lemma owner_stable ctx ctx' rt rt' s :
  rt_inv ctx -> rt ∈ tables ctx -> habs rt' !! AStr RT_ME_SPACE s = habs rt !! AStr RT_ME_SPACE s ->
  cr_eps ctx ⊆ cr_eps ctx' -> owner_at ctx' rt' s = owner_at ctx rt s.
Proof.
  intros I Ht E Hs. unfold owner_at. rewrite E. destruct (habs rt !! AStr RT_ME_SPACE s) as [[id|id]|] eqn:El; try done.
  pose proof (proj1 (Forall_forall _ _) (ri_tabs _ I) rt Ht) as T.
  destruct (to_me _ _ T _ _ _ El) as (_ & i & [= <-] & [e He]). rewrite He. by erewrite lookup_weaken by done.
Qed.

(** A table with the same contents that keeps its entries. *)
Lemma table_abs_keeps ctx ctx' rt rt' A :
  rt_inv ctx -> rt ∈ tables ctx -> habs rt' = habs rt -> keeps [habs rt] (cr_rtes ctx) (cr_rtes ctx') ->
  cr_eps ctx ⊆ cr_eps ctx' -> table_abs ctx rt A -> table_abs ctx' rt' A.
Proof.
  intros I Ht Eh K Hs [HR HO]. split.
  - intros k. rewrite <-HR. unfold route_at. rewrite Eh.
    destruct (habs rt !! ANum k) as [[id|id]|] eqn:E; try done.
    eapply keeps_entry; try done. by apply habs_fmap_in.
  - intros s. rewrite <-HO. apply owner_stable; try done. by rewrite Eh.
Qed.

Lemma table_abs_frozen ctx ctx' rt A :
  rt_inv ctx -> frozen ctx ctx' -> cr_rtable ctx = Some rt -> table_abs ctx rt A -> table_abs ctx' rt A.
Proof.
  intros I F E. apply table_abs_keeps; try done; [|by apply F|by apply F].
  unfold tables. rewrite E. by left.
Qed.

Lemma new_in_tables ctx rt : cr_new ctx = Some rt -> rt ∈ tables ctx.
Proof. intros E. unfold tables. rewrite E. apply elem_of_app. right. apply elem_of_app. right. by left. Qed.

(** ** The operations on the table under construction *)

(** The outcome of an operation that turns what the new table stands for into
    [A']: it completes, keeps the invariant, does not show to senders, and
    touches neither the record counts nor the error mark. *)
Definition new_step ctx rt (m : comp (rt_ctx TH TE)) A' : Prop :=
  exists ctx' rt', m = Ret ctx' /\ rt_inv ctx' /\ frozen ctx ctx' /\ cr_new ctx' = Some rt' /\
    rt_updates rt' = rt_updates rt /\ rt_mupdates rt' = rt_mupdates rt /\ rt_error rt' = rt_error rt /\
    table_abs ctx' rt' A'.

Lemma new_step_refl ctx rt A :
  rt_inv ctx -> cr_new ctx = Some rt -> table_abs ctx rt A -> new_step ctx rt (Ret ctx) A.
Proof. intros. exists ctx, rt. split_and!; try done. apply frozen_refl. Qed.

Lemma trash_entry_abs ctx rt ts subid A :
  rt_inv ctx -> cr_new ctx = Some rt -> table_abs ctx rt A -> valid_key (ANum (rec_key ts subid)) ->
  new_step ctx rt (trash_entry ctx ts subid) (spec_trash (cr_my_name ctx) (cr_ip_list ctx) ts subid A).
Proof.
  intros I En HA Hk. destruct (trash_entry_spec ctx rt ts subid I En Hk)
    as (ctx' & rt' & -> & I' & F & En' & Hu & Hmu & He & K & Eh).
  exists ctx', rt'. split_and!; try done. unfold spec_trash.
  pose proof (new_in_tables _ _ En) as Hin.
  revert Eh. destruct (for_us _ _ (clip ts)); intros Eh;
    [|apply (table_abs_keeps ctx ctx' rt rt'); try done; [by rewrite Eh in K|apply F]].
  destruct HA as [HR HO]. split; simpl.
  - intros k. unfold route_at. rewrite Eh. fold (rec_key ts subid). rewrite !lookup_delete.
    destruct (decide (rec_key ts subid = k)) as [->|Hne]; [by rewrite decide_True|].
    rewrite decide_False by congruence. rewrite <-HR. unfold route_at.
    destruct (habs rt !! ANum k) as [[id|id]|] eqn:E; try done.
    eapply entry_stable; [done|by apply habs_fmap_in|done| |apply F].
    destruct (ro_live _ _ (ri_refs _ I) (habs rt) (ANum k) id) as (r & Er & _); [by apply habs_fmap_in|done|].
    destruct (K (habs rt') (ANum k) id r) as (r' & Er' & Sr); [by left| |done|by exists r, r'].
    rewrite Eh. fold (rec_key ts subid). rewrite lookup_delete_ne by congruence. done.
  - intros s. rewrite <-HO. apply owner_stable; try done; [|apply F]. rewrite Eh. by rewrite lookup_delete_ne.
Qed.

Lemma build_entry_abs ctx rt ts subid rr A :
  rt_inv ctx -> cr_new ctx = Some rt -> table_abs ctx rt A -> valid_key (ANum (rec_key ts subid)) ->
  new_step ctx rt (build_entry gethostbyname ctx ts subid rr)
    (spec_entry (cr_my_name ctx) (cr_ip_list ctx) ts subid rr A).
Proof.
  intros I En HA Hk. unfold build_entry, spec_entry. cbv zeta. fold (rec_key ts subid).
  destruct (for_us _ _ (clip ts)); [|by apply new_step_refl].
  destruct (tokenise (clip rr) 64 59) as [|g0 gs] eqn:Et; [by apply new_step_refl|].
  rewrite En. cbn [deref mbind comp_bind]. set (gtoks := if streq g0 $"%meid" then [] else g0 :: gs).
  destruct (add_rte_spec ctx rt (rec_key ts subid) (zlen gtoks) I En Hk)
    as (id & rt1 & ctx1 & -> & B1 & Hfr & F1 & K1 & Eh & Eps1 & Hu & Hmu & He). cbv zeta in *. cbn [mbind comp_bind].
  set (ctx2 := set_tables ctx1 _ _ _) in *. rewrite (bu_ent _ _ _ _ B1). cbn [deref mbind comp_bind].
  set (r1 := MkRte _ 1 0 _) in *.
  assert (rte_rrgroups r1 = replicate (length gtoks) None) as Hgs.
  { unfold r1, zlen. simpl. destruct (Z.ltb_spec (Z.of_nat (length gtoks)) 0); [lia|]. by rewrite Nat2Z.id. }
  destruct (building_update ctx2 id rt1 r1 (atoi (clip ts)) (rte_rrgroups r1) B1) as [B3 F3].
  { rewrite Hgs. by apply Forall_replicate. }
  set (r3 := MkRte _ _ (atoi (clip ts)) _) in *. set (ctx3 := set_rtes ctx2 _) in *.
  pose proof (fz_self _ _ (frozen_trans _ _ _ F1 (proj1 F3))) as [En3 Ei3].
  destruct (add_groups_spec gethostbyname gtoks ctx3 id rt1 r3 [] (length gtoks) B3) as (ctx4 & r4 & Eg & B4 & F4 & K4 & M4 & V4).
  { unfold view. change (rte_rrgroups r3) with (rte_rrgroups r1). by rewrite Hgs, fmap_replicate. } { done. }
  change (zlen []) with 0 in Eg. rewrite Eg. rewrite En3, Ei3 in V4. simpl app in V4.
  assert (frozen ctx ctx4) as F by (eapply frozen_trans; [exact F1|]; eapply frozen_trans; [apply F3|apply F4]).
  exists ctx4, rt1. split_and!; try done; [apply B4|apply B4|].
  destruct HA as [HR HO]. pose proof (new_in_tables _ _ En) as Hin. split; simpl.
  - intros k. unfold route_at. rewrite Eh. destruct (decide (rec_key ts subid = k)) as [<-|Hne].
    + rewrite !lookup_insert_eq. unfold entry_at. rewrite (bu_ent _ _ _ _ B4). simpl. rewrite M4, V4. done.
    + rewrite !lookup_insert_ne by congruence. rewrite <-HR. unfold route_at.
      destruct (habs rt !! ANum k) as [[i|i]|] eqn:E; try done.
      eapply entry_stable; [done|by apply habs_fmap_in|done| |apply F].
      destruct (ro_live _ _ (ri_refs _ I) (habs rt) (ANum k) i) as (r & Er & _); [by apply habs_fmap_in|done|].
      destruct (K1 (delete (ANum (rec_key ts subid)) (habs rt)) (ANum k) i r) as (r' & Er' & Sr); [by left| |done|].
      { rewrite lookup_delete_ne by congruence. done. }
      exists r, r'. split_and!; try done. by rewrite (proj2 F4), (proj2 F3) by congruence.
  - intros s. rewrite <-HO. apply owner_stable; try done; [|apply F]. rewrite Eh. by rewrite lookup_insert_ne.
Qed.

(** *** Managed elements *)

Definition new_tab ctx rt : rt_ctx TH TE := set_tables ctx (cr_rtable ctx) (cr_old ctx) (Some rt).

Lemma ensure_ep_tables ctx a o n name ep ctx' :
  rt_ensure_ep gethostbyname ctx name = (ep, ctx') ->
  rt_ensure_ep gethostbyname (set_tables ctx a o n) name = (ep, set_tables ctx' a o n).
Proof.
  unfold rt_ensure_ep. destruct name as [|c name]; [by intros [= <- <-]|].
  unfold uta_get_ep. cbn [cr_ephash set_tables]. destruct (sm_get _ _); by intros [= <- <-].
Qed.

(** A change of the managed elements in the table under construction. *)
Lemma me_change ctx rt h :
  rt_inv ctx -> cr_new ctx = Some rt -> sm_ok h -> (forall k, sm_abs h !! ANum k = habs rt !! ANum k) ->
  (forall c s x, sm_abs h !! AStr c s = Some x ->
     c = RT_ME_SPACE /\ exists id, x = TEp id /\ is_Some (cr_eps ctx !! id)) ->
  rt_inv (new_tab ctx (set_hash rt h)) /\ frozen ctx (new_tab ctx (set_hash rt h)).
Proof.
  intros I En Hok Hn Hs. pose proof (inv_new_ok ctx rt I En) as T. split.
  - apply (with_new_inv ctx (cr_rtes ctx) (cr_next ctx)); try done.
    + apply (ri_old _ I). by rewrite En.
    + pose proof (ri_refs _ I) as R. rewrite (tables_new _ _ En) in R. eapply refs_ok_str; [done| |done].
      intros c s id E. by destruct (Hs c s _ E) as (_ & ? & ? & _).
    + split; [done| |done]. unfold habs. simpl. intros [c s|k] x E; [by destruct (Hs c s x E) as [-> _]|].
      apply (to_keys _ _ T _ x). by rewrite <-Hn.
    + intros id r E. split; [apply (ri_next _ I); left; by eexists|by eapply (ri_groups _ I)].
  - apply (with_new_frozen ctx (cr_rtes ctx) (cr_next ctx) (Some (set_hash rt h))). apply keeps_refl.
Qed.

Lemma same_num_routes ctx rt h A O :
  rt_inv ctx -> cr_new ctx = Some rt -> table_abs ctx rt A ->
  (forall k, sm_abs h !! ANum k = habs rt !! ANum k) ->
  (forall s, owner_at ctx (set_hash rt h) s = O !! s) ->
  table_abs (new_tab ctx (set_hash rt h)) (set_hash rt h) (MkAT (at_routes A) O).
Proof. intros I En [HR HO] Hn Ho. split; simpl; [|done]. intros k. rewrite <-HR. unfold route_at, habs. simpl. by rewrite Hn. Qed.

(** One managed element gets an owner. *)
Lemma put_me ctx rt A t owner id e :
  rt_inv ctx -> cr_new ctx = Some rt -> table_abs ctx rt A -> cr_eps ctx !! id = Some e -> ep_name e = Some owner ->
  let rt' := set_hash rt (sm_put (rt_hash rt) (AStr RT_ME_SPACE t) (TEp id)) in
  rt_inv (new_tab ctx rt') /\ frozen ctx (new_tab ctx rt') /\
  table_abs (new_tab ctx rt') rt' (MkAT (at_routes A) (<[t := owner]> (at_owners A))).
Proof.
  intros I En HA He Hn rt'. pose proof (inv_new_ok ctx rt I En) as T.
  assert (sm_abs (sm_put (rt_hash rt) (AStr RT_ME_SPACE t) (TEp id)) = <[AStr RT_ME_SPACE t := TEp id]> (habs rt)) as Ea
    by (apply sm_abs_put; [apply T|done]).
  assert (forall k, sm_abs (sm_put (rt_hash rt) (AStr RT_ME_SPACE t) (TEp id)) !! ANum k = habs rt !! ANum k) as Hnum
    by (intros k; rewrite Ea; by rewrite lookup_insert_ne).
  apply and_assoc. split.
  - apply me_change; try done; [apply sm_put_ok; [apply T|done]|].
    intros c s x. rewrite Ea. intros [[[= <- <-] <-]|[_ E]]%lookup_insert_Some; [|by apply (to_me _ _ T) in E].
    split; [done|]. exists id. split; [done|]. by rewrite He.
  - apply same_num_routes; try done. intros s. unfold owner_at, habs. simpl. rewrite Ea.
    destruct (decide (t = s)) as [<-|Hne].
    + rewrite !lookup_insert_eq. by rewrite He.
    + rewrite !lookup_insert_ne by congruence. apply HA.
Qed.

Lemma del_me ctx rt A t :
  rt_inv ctx -> cr_new ctx = Some rt -> table_abs ctx rt A ->
  let rt' := set_hash rt (sm_del (rt_hash rt) (AStr RT_ME_SPACE t)) in
  rt_inv (new_tab ctx rt') /\ frozen ctx (new_tab ctx rt') /\
  table_abs (new_tab ctx rt') rt' (MkAT (at_routes A) (delete t (at_owners A))).
Proof.
  intros I En HA rt'. pose proof (inv_new_ok ctx rt I En) as T.
  assert (sm_abs (sm_del (rt_hash rt) (AStr RT_ME_SPACE t)) = delete (AStr RT_ME_SPACE t) (habs rt)) as Ea
    by (apply sm_abs_del; [apply T|done]).
  assert (forall k, sm_abs (sm_del (rt_hash rt) (AStr RT_ME_SPACE t)) !! ANum k = habs rt !! ANum k) as Hnum
    by (intros k; rewrite Ea; by rewrite lookup_delete_ne).
  apply and_assoc. split.
  - apply me_change; try done; [apply sm_del_ok; [apply T|done]|].
    intros c s x. rewrite Ea. intros [_ E]%lookup_delete_Some. by apply (to_me _ _ T) in E.
  - apply same_num_routes; try done. intros s. unfold owner_at, habs. simpl. rewrite Ea.
    destruct (decide (t = s)) as [<-|Hne].
    + by rewrite !lookup_delete_eq.
    + rewrite !lookup_delete_ne by congruence. apply HA.
Qed.

(** The outcome of code that returns the changed table. *)
Definition tab_step ctx rt (x : route_table_t TH * rt_ctx TH TE) A' : Prop :=
  rt_inv (new_tab x.2 x.1) /\ frozen ctx (new_tab x.2 x.1) /\ rt_updates x.1 = rt_updates rt /\
  rt_mupdates x.1 = rt_mupdates rt /\ rt_error x.1 = rt_error rt /\ table_abs (new_tab x.2 x.1) x.1 A'.

Lemma ensure_new ctx rt A name ep ctx' :
  rt_inv (new_tab ctx rt) -> table_abs (new_tab ctx rt) rt A -> rt_ensure_ep gethostbyname ctx name = (ep, ctx') ->
  rt_inv (new_tab ctx' rt) /\ frozen (new_tab ctx rt) (new_tab ctx' rt) /\ table_abs (new_tab ctx' rt) rt A /\
  match name with [] => ep = None | _ => exists id e, ep = Some id /\ cr_eps ctx' !! id = Some e /\ ep_name e = Some name end.
Proof.
  intros I HA E. destruct (ensure_ep_spec gethostbyname (new_tab ctx rt) name I)
    as (ep0 & c & Ee & I' & F & Er & _ & _ & _ & Hep & _).
  pose proof (ensure_ep_tables ctx (cr_rtable ctx) (cr_old ctx) (Some rt) name ep ctx' E) as E2.
  unfold new_tab in Ee at 1. rewrite E2 in Ee. injection Ee as <- <-.
  assert (cr_rtable ctx' = cr_rtable ctx /\ cr_old ctx' = cr_old ctx) as [Ea Eo].
  { revert E. unfold rt_ensure_ep. destruct name; [by intros [= _ <-]|]. destruct (uta_get_ep _ _); by intros [= _ <-]. }
  unfold new_tab in *. rewrite Ea, Eo. split_and!; try done.
  - apply (table_abs_keeps (set_tables ctx (cr_rtable ctx) (cr_old ctx) (Some rt)) _ rt rt); try done.
    + by apply new_in_tables.
    + cbn in Er. cbn. rewrite Er. apply keeps_refl.
    + apply F.
  - destruct name as [|c name]; [done|]. destruct Hep as (id & e & ? & ? & ? & _). by exists id, e.
Qed.

Lemma meid_add_abs owner toks : forall ctx rt A,
  rt_inv (new_tab ctx rt) -> table_abs (new_tab ctx rt) rt A ->
  tab_step (new_tab ctx rt) rt (meid_add gethostbyname ctx rt owner toks)
    match owner with [] => A | o => MkAT (at_routes A) (foldl (fun m t => <[t := o]> m) (at_owners A) toks) end.
Proof.
  induction toks as [|t toks IH]; intros ctx rt A I HA.
  { split_and!; try done; [apply frozen_refl|]. destruct owner; [done|]. by destruct A. }
  cbn [meid_add]. destruct (rt_ensure_ep gethostbyname ctx owner) as [ep ctx1] eqn:Ee.
  destruct (ensure_new ctx rt A owner ep ctx1 I HA Ee) as (I1 & F1 & HA1 & Hep).
  destruct owner as [|o owner].
  { subst ep. destruct (IH ctx1 rt A I1 HA1) as (I2 & F2 & U2 & M2 & E2 & HA2). split_and!; try done. by eapply frozen_trans. }
  destruct Hep as (id & e & -> & He & Hn).
  destruct (put_me (new_tab ctx1 rt) rt A t (o :: owner) id e I1 eq_refl HA1 He Hn) as (I2 & F2 & HA2). cbv zeta in *.
  set (rt2 := set_hash rt _) in *.
  destruct (IH ctx1 rt2 (MkAT (at_routes A) (<[t := o :: owner]> (at_owners A))) I2 HA2) as (I3 & F3 & U3 & M3 & E3 & HA3).
  split_and!; try done. eapply frozen_trans; [exact F1|]. by eapply frozen_trans.
Qed.

Lemma parse_meid_ar_abs ctx rt owner meids A :
  rt_inv ctx -> cr_new ctx = Some rt -> table_abs ctx rt A ->
  tab_step ctx rt (parse_meid_ar gethostbyname ctx rt owner meids) (spec_meid_ar owner meids A).
Proof.
  intros I En HA. assert (new_tab ctx rt = ctx) as Ec by (unfold new_tab; destruct ctx; simpl in *; by subst).
  pose proof (meid_add_abs (clip owner) (tokenise (clip meids) 128 32) ctx rt A) as Hm. rewrite Ec in Hm.
  unfold parse_meid_ar, spec_meid_ar. destruct (clip owner); by apply Hm.
Qed.

Lemma parse_meid_del_abs ctx rt meids A :
  rt_inv ctx -> cr_new ctx = Some rt -> table_abs ctx rt A ->
  tab_step ctx rt (parse_meid_del rt meids, ctx) (spec_meid_del meids A).
Proof.
  unfold parse_meid_del, spec_meid_del. revert ctx rt A.
  induction (tokenise (clip meids) 128 32) as [|t toks IH]; intros ctx rt A I En HA.
  - assert (new_tab ctx rt = ctx) as Ec by (unfold new_tab; destruct ctx; simpl in *; by subst).
    unfold tab_step. simpl. destruct rt as [e h u mu rc]. unfold set_hash. simpl. rewrite Ec. destruct A.
    split_and!; try done. apply frozen_refl.
  - destruct (del_me ctx rt A t I En HA) as (I1 & F1 & HA1). cbv zeta in *. set (rt1 := set_hash rt _) in *.
    destruct (IH (new_tab ctx rt1) rt1 _ I1 eq_refl HA1) as (I2 & F2 & U2 & M2 & E2 & HA2).
    split_and!; try done. by eapply frozen_trans.
Qed.
End abs.
