(* ===== verification/RtParser.v ===== *)
(** Route table records: parse_rt_rec, meid_parser, send_rt_ack and read_static_rt
    of src/src/rmr/common/src/rt_generic_static.c.

    The route manager sends a table as a sequence of records between a start and
    an end record; the table is built on the side and becomes active with the
    end record, if that counts as many records as were received.  The
    result of a record is the payload of the state message sent back, if any.
    Saving the received records in a file is in Stash.v. *)

From S2P Require Import Prelude Bytes Symtab SymIface Tools Mbuf Endpoint RouteTable RtInv RtSpec.

Record parser_t (TH TE : Type) := MkPs {
  ps_ctx : rt_ctx TH TE;
  ps_table_id : option (list Z);
  ps_fullrt : bool;                    (* flag CFL_FULLRT: a complete table was seen *)
  ps_ready : bool                      (* rtable_ready: routed sends can happen *)
}.
Arguments MkPs {TH TE}.
Arguments ps_ctx {TH TE}.
Arguments ps_table_id {TH TE}.
Arguments ps_fullrt {TH TE}.
Arguments ps_ready {TH TE}.

(** The payload of the state message; [can]: there is a private context, it is
    connected to the route manager and acknowledgements are wanted. *)
Definition send_rt_ack (can : bool) (table_id : option (list Z)) (ok : bool) (reason : option (list Z)) : option (list Z) :=
  if can then
    Some (snprintf 1023 ((if ok then $"OK" else $"ERR") ++ $" " ++ default ($"<id-missing>") table_id ++ $" " ++
                         default [] reason ++ [10]))
  else None.

Definition missing_records (expected : list Z) (got : Z) : list Z :=
  snprintf 1024 ($"missing table records: expected " ++ expected ++ $" got " ++ decimal got ++ [10]).

Section parser.
Context {TH TE : Type} `{Symbols TH thing} `{Symbols TE nat}.
Variable gethostbyname : list Z -> option (list Z).
Abbreviation ctx_t := (rt_ctx TH TE).
Abbreviation table := (route_table_t TH).
Implicit Types (ps : parser_t TH TE).

Definition set_ctx ps (ctx : ctx_t) : parser_t TH TE := MkPs ctx (ps_table_id ps) (ps_fullrt ps) (ps_ready ps).
Definition set_new (ctx : ctx_t) (new : option table) : ctx_t := set_tables ctx (cr_rtable ctx) (cr_old ctx) new.
Definition set_counts (rt : table) (u mu : Z) : table := MkRt (rt_error rt) (rt_hash rt) u mu (rt_ref_count rt).

Definition drop_new (ctx : ctx_t) : comp ctx_t :=
  ctx ← uta_rt_drop ctx (cr_new ctx);
  Ret (set_new ctx None).

(** A start record: an incomplete table is dropped and refused; [all]: start
    from everything in the active table, [keep]: without an id in the record the
    last one stays, [me]: managed element records will be counted. *)
Definition start_table (can all keep me : bool) ps (tokens : list (list Z)) : comp (option (list Z) * parser_t TH TE) :=
  let ctx := ps_ctx ps in
  let ack := match cr_new ctx with
             | Some _ => send_rt_ack can (ps_table_id ps) false (Some $"table not complete")
             | None => None
             end in
  ctx ← match cr_new ctx with Some _ => drop_new ctx | None => Ret ctx end;
  let id := match tokens !! 2%nat with
            | Some t => Some (clip t)
            | None => if keep then ps_table_id ps else None
            end in
  '(rt, ctx) ← prep_new_rt ctx all;
  let rt := if me then set_counts rt (rt_updates rt) 0 else set_counts rt 0 (rt_mupdates rt) in
  Ret (ack, MkPs (set_new ctx (Some rt)) id (ps_fullrt ps) (ps_ready ps)).

(** An end record, once the count in it, if any, is known to be right. *)
Definition roll_new (can full ready : bool) ps : option (list Z) * parser_t TH TE :=
  match cr_new (ps_ctx ps) with
  | Some _ =>
      (send_rt_ack can (ps_table_id ps) true None,
       MkPs (roll_tables (ps_ctx ps)) (ps_table_id ps) (full || ps_fullrt ps) (ready || ps_ready ps))
  | None => (None, ps)
  end.

(** [count] is the field that counts the records, [reason] the text of a
    refusal. *)
Definition end_table (can full ready : bool) (count : table -> Z) (reason : table -> list Z -> list Z)
    ps (tokens : list (list Z)) : comp (option (list Z) * parser_t TH TE) :=
  match tokens !! 2%nat with
  | Some n =>
      rt ← deref (cr_new (ps_ctx ps));
      if negb (count rt =? atoi n)
      then ctx ← drop_new (ps_ctx ps);
           Ret (send_rt_ack can (ps_table_id ps) false (Some (reason rt n)), set_ctx ps ctx)
      else Ret (roll_new can full ready ps)
  | None => Ret (roll_new can full ready ps)
  end.

Definition meid_parser (can : bool) ps (tokens : list (list Z)) : comp (option (list Z) * parser_t TH TE) :=
  match tokens with
  | t0 :: t1 :: rest =>
      if streq t0 $"meid_map" then
        let t1 := clip t1 in
        if bool_decide (head t1 = Some 115) then start_table can true false true ps tokens        (* 's' *)
        else if streq t1 $"end"
             then end_table can false false rt_mupdates (fun rt n => missing_records n (rt_updates rt)) ps tokens
             else Ret (None, ps)
      else
        match cr_new (ps_ctx ps) with
        | None => Ret (None, ps)
        | Some rt =>
            if streq t0 $"mme_ar" then
              match rest with
              | t2 :: _ =>
                  let '(rt, ctx) := parse_meid_ar gethostbyname (ps_ctx ps) rt t1 t2 in
                  Ret (None, set_ctx ps (set_new ctx (Some (set_counts rt (rt_updates rt) (i32 (rt_mupdates rt + 1))))))
              | [] => Ret (None, ps)
              end
            else if streq t0 $"mme_del" then
              let rt := parse_meid_del rt t1 in
              Ret (None, set_ctx ps (set_new (ps_ctx ps) (Some (set_counts rt (rt_updates rt) (i32 (rt_mupdates rt + 1))))))
            else Ret (None, ps)
        end
  | _ => Ret (None, ps)
  end.

(** The table under construction has one record more. *)
Definition count_update (ctx : ctx_t) : comp ctx_t :=
  rt ← deref (cr_new ctx);
  Ret (set_new ctx (Some (set_counts rt (i32 (rt_updates rt + 1)) (rt_mupdates rt)))).

(** [wbuf] is what an uninitialised buffer on the stack holds: the reason given
    when the count of an update is wrong. *)
Definition parse_rt_rec (can : bool) (wbuf : list Z) ps (buf : list Z) : comp (option (list Z) * parser_t TH TE) :=
  match tokenise (trim_tail (skip_space buf)) 128 124 with
  | [] => Ret (None, ps)
  | t0 :: ts =>
      let t0 := clip t0 in
      let tokens := t0 :: ts in
      let new := cr_new (ps_ctx ps) in
      match t0 with
      | [] => Ret (None, ps)
      | c :: _ =>
          if c =? 35 then Ret (None, ps)                                     (* '#' *)
          else if c =? 100 then                                              (* 'd' *)
            match new, ts with
            | Some _, t1 :: t2 :: _ =>
                ctx ← trash_entry (ps_ctx ps) t1 (atoi t2);
                ctx ← count_update ctx;
                Ret (None, set_ctx ps ctx)
            | _, _ => Ret (None, ps)
            end
          else if c =? 110 then                                              (* 'n' *)
            t1 ← deref (tokens !! 1%nat);
            if streq (clip t1) $"end"
            then end_table can true true rt_updates (fun rt n => missing_records n (rt_updates rt)) ps tokens
            else start_table can false false false ps tokens
          else if c =? 109 then                                              (* 'm' *)
            if streq t0 $"mse" then
              match new, ts with
              | Some _, t1 :: t2 :: t3 :: _ =>
                  ctx ← build_entry gethostbyname (ps_ctx ps) t1 (atoi t2) t3;
                  ctx ← count_update ctx;
                  Ret (None, set_ctx ps ctx)
              | _, _ => Ret (None, ps)
              end
            else meid_parser can ps tokens
          else if c =? 114 then                                              (* 'r' *)
            match new with
            | None => Ret (None, ps)
            | Some _ =>
                ctx ← count_update (ps_ctx ps);
                t1 ← deref (tokens !! 1%nat);
                t2 ← deref (tokens !! 2%nat);
                ctx ← build_entry gethostbyname ctx t1 (match tokens !! 3%nat with Some t3 => atoi t3 | None => UNSET_SUBID end) t2;
                Ret (None, set_ctx ps ctx)
            end
          else if c =? 117 then                                              (* 'u' *)
            if negb (ps_fullrt ps) then Ret (None, ps)
            else
              t1 ← deref (tokens !! 1%nat);
              if streq (clip t1) $"end"
              then match new with
                   | None => Ret (None, ps)
                   | Some _ => end_table can false true rt_updates (fun _ _ => wbuf) ps tokens
                   end
              else start_table can true true false ps tokens
          else Ret (None, ps)
      end
  end.

(** The records of a file, up to the first nil byte; nothing is sent back. *)
Fixpoint read_recs ps (rec buf : list Z) : comp (parser_t TH TE) :=
  match buf with
  | [] => Ret ps
  | c :: buf' =>
      if c =? 10
      then x ← parse_rt_rec false [] ps rec; read_recs x.2 [] buf'
      else read_recs ps (rec ++ [c]) buf'
  end.

Definition read_static_rt ps (file : option (list Z)) : comp (parser_t TH TE) :=
  let fbuf := ensure_nlterm (cstr_of <$> file) in
  read_recs ps [] (map (fun c => if c =? 13 then 10 else c) fbuf).
End parser.
