(* ===== verification/Things.v ===== *)
(** How a table is cloned: thing_list_t, extend_things, collect_things and
    rt_clone_space of src/src/rmr/common/src/rt_generic_static.c.

    The symbol table drives collect_things for each entry of a space; the entries
    are captured in two arrays that are made larger as needed, and put into the
    other table afterwards.  RouteTable.v clones along the list of entries
    ([clone_me], [clone_mt]); here is what that takes: the arrays, their bounds,
    and the memory they need.  [mem n]: whether malloc gives an array of [n]
    pointers for the things, and for the names. *)

From S2P Require Import Prelude Bytes Symtab SymIface Tools Endpoint RouteTable.

Definition THINGS_ALLOC : Z := 2048.

(** Slots of an array that were not written are [None]; a nil pointer is no array. *)
Record thing_list (A B : Type) := MkThings {
  tl_error : bool;
  tl_nalloc : Z;
  tl_nused : Z;
  tl_things : option (list (option B));
  tl_names : option (list (option A))
}.
Arguments MkThings {A B}.
Arguments tl_error {A B}.
Arguments tl_nalloc {A B}.
Arguments tl_nused {A B}.
Arguments tl_things {A B}.
Arguments tl_names {A B}.

Section things.
Context {A B : Type}.
Variable mem : Z -> bool * bool.
Implicit Types tl : thing_list A B.

Definition new_array {X : Type} (ok : bool) (n : Z) : option (list (option X)) :=
  if ok then Some (replicate (Z.to_nat n) None) else None.

(** memcpy of the first [n] pointers of an array. *)
Definition copy_array {X : Type} (dst src : option (list (option X))) (n : Z) : comp (option (list (option X))) :=
  d ← deref dst; s ← deref src;
  if (zlen d <? n) || (zlen s <? n) then UB else Ret (Some (splice d 0 (slice s 0 n))).

(** When an array cannot be had the old ones are lost with it. *)
Definition extend_things tl : comp (thing_list A B) :=
  let old_alloc := tl_nalloc tl in
  let nalloc := i32 (old_alloc + old_alloc / 2) in
  let '(mt, mn) := mem nalloc in
  if mt && mn then
    t ← copy_array (new_array mt nalloc) (tl_things tl) old_alloc;
    n ← copy_array (new_array mn nalloc) (tl_names tl) old_alloc;
    Ret (MkThings (tl_error tl) nalloc (tl_nused tl) t n)
  else Ret (MkThings true nalloc (tl_nused tl) (new_array mt nalloc) (new_array mn nalloc)).

(** A store into an array. *)
Definition set_slot {X : Type} (a : option (list (option X))) (i : Z) (x : X) : comp (option (list (option X))) :=
  a ← deref a;
  if (i <? 0) || (zlen a <=? i) then UB else Ret (Some (<[Z.to_nat i := Some x]> a)).

Definition collect_things (name : A) (thing : option B) tl : comp (thing_list A B) :=
  match thing with
  | None => Ret tl
  | Some x =>
      n ← set_slot (tl_names tl) (tl_nused tl) name;
      t ← set_slot (tl_things tl) (tl_nused tl) x;
      let tl := MkThings (tl_error tl) (tl_nalloc tl) (tl_nused tl + 1) t n in
      if tl_nalloc tl <=? tl_nused tl then extend_things tl else Ret tl
  end.

(** What foreach does with it. *)
Fixpoint collect_all (l : list (A * option B)) tl : comp (thing_list A B) :=
  match l with [] => Ret tl | (a, b) :: l' => tl ← collect_things a b tl; collect_all l' tl end.

(** The list at the start; nil when one of the arrays cannot be had. *)
Definition new_things : option (thing_list A B) :=
  let '(mt, mn) := mem THINGS_ALLOC in
  if mt && mn then Some (MkThings false THINGS_ALLOC 0 (new_array mt THINGS_ALLOC) (new_array mn THINGS_ALLOC)) else None.

(** What was captured. *)
Fixpoint captured_from (n : nat) (i : Z) tl : comp (list (A * B)) :=
  match n with
  | O => Ret []
  | S n' =>
      names ← deref (tl_names tl); things ← deref (tl_things tl);
      a ← deref (names !! Z.to_nat i); a ← deref a;
      b ← deref (things !! Z.to_nat i); b ← deref b;
      l ← captured_from n' (i + 1) tl; Ret ((a, b) :: l)
  end.
Definition captured tl : comp (list (A * B)) := captured_from (Z.to_nat (tl_nused tl)) 0 tl.
End things.

Section clone.
Context {TH TE : Type} `{Symbols TH thing} `{Symbols TE nat}.

(** [nrt]: the table to fill.  A failure is noted in it. *)
Definition rt_clone_space (mem : Z -> bool * bool) (ctx : rt_ctx TH TE) (srt : option (route_table_t TH)) (nrt : route_table_t TH)
    (space : Z) : comp (route_table_t TH * rt_ctx TH TE) :=
  let failed := MkRt true (rt_hash nrt) (rt_updates nrt) (rt_mupdates nrt) (rt_ref_count nrt) in
  match srt with
  | None => Ret (nrt, ctx)
  | Some srt =>
      match new_things mem with
      | None => Ret (failed, ctx)
      | Some tl =>
          tl ← collect_all mem ((fun e => (e.1, Some e.2)) <$> sm_class (rt_hash srt) space) tl;
          if tl_error tl then Ret (failed, ctx)
          else
            l ← captured tl;
            if negb (space =? 0) then Ret (set_hash nrt (clone_me l (rt_hash nrt)), ctx)
            else '(h, ctx) ← clone_mt ctx l (rt_hash nrt); Ret (set_hash nrt h, ctx)
      end
  end.

Definition uta_rt_clone_spaces (mem : Z -> bool * bool) (ctx : rt_ctx TH TE) (srt : option (route_table_t TH)) (drt : route_table_t TH)
    (all : bool) : comp (route_table_t TH * rt_ctx TH TE) :=
  match srt with
  | None => Ret (drt, ctx)
  | Some _ =>
      '(drt, ctx) ← rt_clone_space mem ctx srt drt RT_ME_SPACE;
      if all then rt_clone_space mem ctx srt drt RT_MT_SPACE else Ret (drt, ctx)
  end.
End clone.

(** * Theorems *)

Section things_thms.
Context {A B : Type}.
Variable mem : Z -> bool * bool.
Implicit Types (tl : thing_list A B) (done : list (A * B)).

Definition have_all : Prop := forall n, mem n = (true, true).

(** The arrays hold what was captured, with room for one more. *)
Record tl_good tl done : Prop := {
  tg_error : tl_error tl = false;
  tg_used : tl_nused tl = zlen done;
  tg_alloc : THINGS_ALLOC <= tl_nalloc tl <= Z.max THINGS_ALLOC (zlen done + zlen done / 2);
  tg_room : zlen done < tl_nalloc tl;
  tg_things : exists ts, tl_things tl = Some ts /\ zlen ts = tl_nalloc tl /\ forall i e, done !! i = Some e -> ts !! i = Some (Some e.2);
  tg_names : exists ns, tl_names tl = Some ns /\ zlen ns = tl_nalloc tl /\ forall i e, done !! i = Some e -> ns !! i = Some (Some e.1)
}.

(** An array with one more entry. *)
Lemma set_slot_spec {X : Type} (f : A * B -> X) (a : list (option X)) n done e :
  zlen a = n -> zlen done < n -> (forall i e, done !! i = Some e -> a !! i = Some (Some (f e))) ->
  exists a', set_slot (Some a) (zlen done) (f e) = Ret (Some a') /\ zlen a' = n /\
    forall i e', (done ++ [e]) !! i = Some e' -> a' !! i = Some (Some (f e')).
Proof.
  intros Hl Hn Ha. unfold set_slot. cbn [deref mbind comp_bind]. pose proof (zlen_nonneg done).
  destruct (Z.ltb_spec (zlen done) 0); [lia|]. destruct (Z.leb_spec (zlen a) (zlen done)); [lia|]. cbn [orb].
  eexists. split; [done|]. unfold zlen in *. split; [by rewrite length_insert|]. intros i e' Hi. rewrite Nat2Z.id.
  apply lookup_app_Some in Hi as [Hi|[Hge Hi]].
  - pose proof (lookup_lt_Some _ _ _ Hi). rewrite list_lookup_insert_ne by lia. by apply Ha.
  - apply list_lookup_singleton_Some in Hi as [Hi <-]. assert (i = length done) as -> by lia. apply list_lookup_insert_eq. lia.
Qed.

(** An array that was made larger. *)
Lemma copy_array_spec {X : Type} (f : A * B -> X) (a : list (option X)) n n' done :
  zlen a = n -> n <= n' -> (forall i e, done !! i = Some e -> a !! i = Some (Some (f e))) ->
  exists a', copy_array (new_array true n') (Some a) n = Ret (Some a') /\ zlen a' = n' /\
    forall i e, done !! i = Some e -> a' !! i = Some (Some (f e)).
Proof.
  intros Hl Hn Ha. unfold copy_array, new_array. cbn [deref mbind comp_bind]. pose proof (zlen_nonneg a).
  assert (zlen (replicate (Z.to_nat n') (@None X)) = n') as Hr by (apply zlen_replicate; lia). rewrite Hr. subst n.
  destruct (Z.ltb_spec n' (zlen a)); [lia|]. destruct (Z.ltb_spec (zlen a) (zlen a)); [lia|]. cbn [orb]. rewrite slice_all.
  eexists. split; [done|]. split; [by rewrite zlen_splice by lia|]. intros i e Hi. rewrite splice_lookup by lia.
  pose proof (lookup_lt_Some _ _ _ (Ha _ _ Hi)). unfold zlen in *. rewrite decide_True by lia. rewrite Nat.sub_0_r. by apply Ha.
Qed.

Lemma extend_good tl done n :
  have_all -> tl_error tl = false -> tl_nused tl = zlen done -> tl_nalloc tl = n -> THINGS_ALLOC <= n < 2 ^ 30 -> zlen done = n ->
  (exists ts, tl_things tl = Some ts /\ zlen ts = n /\ forall i e, done !! i = Some e -> ts !! i = Some (Some e.2)) ->
  (exists ns, tl_names tl = Some ns /\ zlen ns = n /\ forall i e, done !! i = Some e -> ns !! i = Some (Some e.1)) ->
  exists tl', extend_things mem tl = Ret tl' /\ tl_good tl' done.
Proof.
  intros Hm He Hu Hn Hr Hd (ts & Et & Hts & Lt) (ns & En & Hns & Ln). unfold extend_things. rewrite Hn, Hm, Et, En. cbn [andb].
  unfold THINGS_ALLOC in *. assert (0 < n / 2 <= n) by (split; [apply Z.div_str_pos; lia|apply Z.div_le_upper_bound; lia]).
  rewrite i32_id by (unfold in_i32; lia).
  destruct (copy_array_spec snd ts n (n + n / 2) done) as (ts' & -> & Hts' & Lt'); [done|lia|done|]. cbn [mbind comp_bind].
  destruct (copy_array_spec fst ns n (n + n / 2) done) as (ns' & -> & Hns' & Ln'); [done|lia|done|]. cbn [mbind comp_bind].
  eexists. split; [done|]. split; cbn; unfold THINGS_ALLOC; rewrite ?Hd; try done; try lia.
  - by exists ts'.
  - by exists ns'.
Qed.

(** Both stores; what follows is the test whether the arrays are full. *)
Lemma collect_stored tl done a b : tl_good tl done ->
  exists ts ns, collect_things mem a (Some b) tl =
      (let tl' := MkThings false (tl_nalloc tl) (zlen (done ++ [(a, b)])) (Some ts) (Some ns) in
       if tl_nalloc tl <=? zlen (done ++ [(a, b)]) then extend_things mem tl' else Ret tl') /\
    zlen ts = tl_nalloc tl /\ zlen ns = tl_nalloc tl /\
    (forall i e, (done ++ [(a, b)]) !! i = Some e -> ts !! i = Some (Some e.2)) /\
    (forall i e, (done ++ [(a, b)]) !! i = Some e -> ns !! i = Some (Some e.1)).
Proof.
  intros [He Hu Ha Hr (ts & Et & Hts & Lt) (ns & En & Hns & Ln)]. unfold collect_things. rewrite Hu, En, Et, He.
  destruct (set_slot_spec fst ns _ done (a, b) Hns Hr Ln) as (ns' & Es & Hns' & Ln'). cbn [fst] in Es. rewrite Es. clear Es. cbn [mbind comp_bind].
  destruct (set_slot_spec snd ts _ done (a, b) Hts Hr Lt) as (ts' & Es & Hts' & Lt'). cbn [snd] in Es. rewrite Es. clear Es.
  cbn [mbind comp_bind tl_nalloc tl_nused]. exists ts', ns'. rewrite zlen_app. done.
Qed.

Lemma collect_room tl done a b : zlen done + 1 < tl_nalloc tl -> tl_good tl done ->
  exists tl', collect_things mem a (Some b) tl = Ret tl' /\ tl_good tl' (done ++ [(a, b)]) /\ tl_nalloc tl' = tl_nalloc tl.
Proof.
  intros Hn Hg. destruct (collect_stored tl done a b Hg) as (ts & ns & -> & Hts & Hns & Lt & Ln).
  assert (zlen (done ++ [(a, b)]) = zlen done + 1) as Hz by (rewrite zlen_app; done). cbn zeta. rewrite Hz in *. pose proof (tg_alloc _ _ Hg).
  destruct (Z.leb_spec (tl_nalloc tl) (zlen done + 1)); [lia|]. eexists. split; [done|]. split; [|done].
  assert (zlen done / 2 <= (zlen done + 1) / 2) by (apply Z.div_le_mono; lia).
  split; cbn [tl_error tl_nused tl_nalloc tl_things tl_names]; rewrite ?Hz; eauto; lia.
Qed.

Lemma collect_good tl done a b : have_all -> zlen done < 2 ^ 29 -> tl_good tl done ->
  exists tl', collect_things mem a (Some b) tl = Ret tl' /\ tl_good tl' (done ++ [(a, b)]).
Proof.
  intros Hm Hlt Hg. destruct (Z.lt_ge_cases (zlen done + 1) (tl_nalloc tl)) as [Hn|Hn].
  { destruct (collect_room tl done a b Hn Hg) as (tl' & ? & ? & _). by exists tl'. }
  destruct (collect_stored tl done a b Hg) as (ts & ns & -> & Hts & Hns & Lt & Ln). pose proof (tg_alloc _ _ Hg). pose proof (tg_room _ _ Hg).
  assert (zlen (done ++ [(a, b)]) = zlen done + 1) as Hz by (rewrite zlen_app; done). cbn zeta. rewrite Hz.
  destruct (Z.leb_spec (tl_nalloc tl) (zlen done + 1)); [|lia]. unfold THINGS_ALLOC in *.
  apply (extend_good _ (done ++ [(a, b)]) (tl_nalloc tl)); unfold THINGS_ALLOC; cbn [tl_error tl_nused tl_nalloc tl_things tl_names]; rewrite ?Hz; eauto; lia.
Qed.

(** The entries that are not nil, with their names. *)
Definition things_of (l : list (A * option B)) : list (A * B) := omap (fun e => (fun b => (e.1, b)) <$> e.2) l.

Lemma collect_all_good l tl done : have_all -> zlen done + zlen (things_of l) < 2 ^ 29 -> tl_good tl done ->
  exists tl', collect_all mem l tl = Ret tl' /\ tl_good tl' (done ++ things_of l).
Proof.
  intros Hm. revert tl done. induction l as [|[a [b|]] l IH]; intros tl done Hlt Hg; cbn [collect_all].
  - exists tl. by rewrite app_nil_r.
  - change (things_of ((a, Some b) :: l)) with ([(a, b)] ++ things_of l) in *. rewrite zlen_app in Hlt. pose proof (zlen_nonneg (things_of l)).
    destruct (collect_good tl done a b) as (tl' & -> & Hg'); [done|unfold zlen in *; cbn in *; lia|done|]. cbn [mbind comp_bind].
    rewrite app_assoc. apply IH; [|done]. rewrite zlen_app. lia.
  - cbn [collect_things mbind comp_bind]. by apply IH.
Qed.

Lemma new_things_good : have_all -> exists tl, new_things (A := A) (B := B) mem = Some tl /\ tl_good tl [].
Proof.
  intros Hm. unfold new_things. rewrite Hm. cbn [andb]. eexists. split; [done|]. split; cbn; unfold THINGS_ALLOC; try done.
  - eexists. split; [done|]. split; [by apply zlen_replicate|done].
  - eexists. split; [done|]. split; [by apply zlen_replicate|done].
Qed.

Lemma captured_good tl done : tl_good tl done -> captured tl = Ret done.
Proof.
  intros [_ Hu _ _ (ts & Et & _ & Lt) (ns & En & _ & Ln)]. unfold captured. rewrite Hu. unfold zlen. rewrite Nat2Z.id.
  assert (forall n i, (i + n = length done)%nat -> captured_from n (Z.of_nat i) tl = Ret (drop i done)) as Hc; [|by apply (Hc _ 0%nat)].
  intros n. induction n as [|n IH]; intros i Hi; cbn [captured_from].
  - by rewrite drop_ge by lia.
  - rewrite En, Et. cbn [deref mbind comp_bind]. rewrite Nat2Z.id. destruct (lookup_lt_is_Some_2 done i) as [e He]; [lia|].
    rewrite (Ln _ _ He), (Lt _ _ He). cbn [deref mbind comp_bind]. replace (Z.of_nat i + 1) with (Z.of_nat (S i)) by lia.
    rewrite IH by lia. cbn [mbind comp_bind]. rewrite (drop_S _ _ _ He). by destruct e.
Qed.

Lemma collect_all_app l1 l2 tl : collect_all mem (l1 ++ l2) tl = tl ← collect_all mem l1 tl; collect_all mem l2 tl.
Proof.
  revert tl. induction l1 as [|[a b] l1 IH]; intros tl; [done|]. cbn [app collect_all].
  destruct (collect_things mem a b tl) as [tl'|]; cbn [mbind comp_bind]; [apply IH|done].
Qed.

(** No memory is asked for while the arrays suffice. *)
Lemma collect_all_room l tl done : zlen done + zlen l < tl_nalloc tl -> tl_good tl done ->
  exists tl', collect_all mem ((fun e : A * B => (e.1, Some e.2)) <$> l) tl = Ret tl' /\ tl_good tl' (done ++ l) /\ tl_nalloc tl' = tl_nalloc tl.
Proof.
  revert tl done. induction l as [|[a b] l IH]; intros tl done Hn Hg; cbn [fmap list_fmap collect_all].
  - exists tl. by rewrite app_nil_r.
  - change ((a, b) :: l) with ([(a, b)] ++ l) in Hn |- *. rewrite zlen_app in Hn. pose proof (zlen_nonneg l). change (zlen [(a, b)]) with 1 in Hn.
    destruct (collect_room tl done a b) as (tl' & E & Hg' & Ha'); [lia|done|]. cbn [fst snd] in E |- *. rewrite E. cbn [mbind comp_bind].
    rewrite app_assoc, <-Ha'. apply IH; [|done]. rewrite zlen_app, Ha'. change (zlen [(a, b)]) with 1. lia.
Qed.

(** The arrays are full and there are no larger ones. *)
Lemma collect_no_memory tl done a b : tl_good tl done -> zlen done + 1 = tl_nalloc tl -> tl_nalloc tl < 2 ^ 30 ->
  mem (tl_nalloc tl + tl_nalloc tl / 2) <> (true, true) ->
  exists tl', collect_things mem a (Some b) tl = Ret tl' /\ tl_error tl' = true /\
    forall a' b', collect_things mem a' (Some b') tl' = UB.
Proof.
  intros Hg Hn Hlt Hm. destruct (collect_stored tl done a b Hg) as (ts & ns & -> & _). cbn zeta. pose proof (tg_alloc _ _ Hg). unfold THINGS_ALLOC in *.
  rewrite zlen_app. change (zlen [(a, b)]) with 1. destruct (Z.leb_spec (tl_nalloc tl) (zlen done + 1)); [|lia]. unfold extend_things. cbn [tl_nalloc].
  assert (0 < tl_nalloc tl / 2 <= tl_nalloc tl) by (split; [apply Z.div_str_pos; lia|apply Z.div_le_upper_bound; lia]).
  rewrite i32_id by (unfold in_i32; lia). destruct (mem _) as [mt mn]. destruct (mt && mn) eqn:Eb; [by apply andb_true_iff in Eb as [-> ->]|].
  eexists. split; [done|]. split; [done|]. intros a' b'. unfold collect_things. cbn [tl_names tl_things tl_nused].
  destruct mn; cbn [new_array]; [|done]. destruct mt; [done|]. by destruct (set_slot (Some _) _ _).
Qed.
End things_thms.

(** * Properties *)

(** The two-step clone puts exactly the entries of the source into the new
    table: with memory for the arrays, however often they are made larger, it
    gives the table and the reference counts that a walk along the entries gives;
    no store leaves the arrays. *)
Theorem clone_captures_every_entry {TH TE : Type} `{Symbols TH thing} `{Symbols TE nat}
    mem (ctx : rt_ctx TH TE) (srt : option (route_table_t TH)) drt all :
  have_all mem -> (forall rt, srt = Some rt -> zlen (sm_class (rt_hash rt) RT_ME_SPACE) < 2 ^ 29 /\ zlen (sm_class (rt_hash rt) RT_MT_SPACE) < 2 ^ 29) ->
  uta_rt_clone_spaces mem ctx srt drt all = uta_rt_clone ctx srt drt all.
Proof.
  intros Hm Hl. destruct srt as [srt|]; [|done]. unfold uta_rt_clone_spaces, uta_rt_clone.
  assert (forall (ctx : rt_ctx TH TE) nrt sp, sp = RT_ME_SPACE \/ sp = RT_MT_SPACE -> rt_clone_space mem ctx (Some srt) nrt sp =
    if negb (sp =? 0) then Ret (set_hash nrt (clone_me (sm_class (rt_hash srt) sp) (rt_hash nrt)), ctx)
    else '(h, ctx) ← clone_mt (TE := TE) ctx (sm_class (rt_hash srt) sp) (rt_hash nrt); Ret (set_hash nrt h, ctx)) as Hc.
  { clear - Hm Hl. intros ctx nrt sp Hsp. unfold rt_clone_space. destruct (new_things_good (A := akey) (B := thing) mem Hm) as (tl & -> & Hg).
    set (l := sm_class _ _). assert (things_of ((fun e => (e.1, Some e.2)) <$> l) = l) as Ho.
    { clear. induction l as [|[a b] l IH]; [done|]. cbn. f_equal. exact IH. }
    destruct (collect_all_good mem ((fun e => (e.1, Some e.2)) <$> l) tl [] Hm) as (tl' & -> & Hg'); [rewrite Ho; destruct (Hl _ eq_refl); by destruct Hsp as [->| ->]|done|].
    rewrite Ho in Hg'. cbn [mbind comp_bind app] in *. by rewrite (tg_error _ _ Hg'), (captured_good _ _ Hg'). }
  rewrite Hc by auto. change (negb (RT_ME_SPACE =? 0)) with true. cbn iota. cbn [mbind comp_bind]. destruct all; [|done].
  rewrite Hc by auto. change (negb (RT_MT_SPACE =? 0)) with false. cbn iota. cbn [rt_hash set_hash].
  destruct (clone_mt _ _ _) as [[h ctx']|]; [|done]. done.
Qed.

(** When there is no memory for larger arrays a table of exactly 2048
    entries is refused, as the comment of extend_things says; with one entry more
    the next entry is stored through the nil pointer, and the error is not looked
    at before. *)
Theorem clone_without_memory {TH TE : Type} `{Symbols TH thing} `{Symbols TE nat}
    mem (ctx : rt_ctx TH TE) (srt : route_table_t TH) nrt space :
  mem 2048 = (true, true) -> mem 3072 <> (true, true) ->
  (zlen (sm_class (rt_hash srt) space) = 2048 ->
     exists nrt', rt_clone_space mem ctx (Some srt) nrt space = Ret (nrt', ctx) /\ rt_error nrt' = true /\ rt_hash nrt' = rt_hash nrt) /\
  (2048 < zlen (sm_class (rt_hash srt) space) -> rt_clone_space mem ctx (Some srt) nrt space = UB).
Proof.
  intros Hm Hm'. unfold rt_clone_space. set (l := sm_class _ _).
  assert (exists tl, new_things (A := akey) (B := thing) mem = Some tl /\ tl_good tl [] /\ tl_nalloc tl = 2048) as (tl & -> & Hg & Hn).
  { unfold new_things, THINGS_ALLOC. rewrite Hm. cbn [andb]. eexists. split; [done|]. split; [|done]. split; cbn; unfold THINGS_ALLOC; try done.
    - eexists. split; [done|]. split; [by apply zlen_replicate|done].
    - eexists. split; [done|]. split; [by apply zlen_replicate|done]. }
  assert (2048 <= zlen l -> exists a b r tl', l = take 2047 l ++ (a, b) :: r /\
    collect_all mem ((fun e : akey * thing => (e.1, Some e.2)) <$> l) tl = collect_all mem ((fun e : akey * thing => (e.1, Some e.2)) <$> r) tl' /\
    tl_error tl' = true /\ forall a' b', collect_things mem a' (Some b') tl' = UB) as Hfull.
  { intros Hl. destruct (lookup_lt_is_Some_2 l 2047) as [[a b] He]; [unfold zlen in Hl; lia|].
    pose proof (take_drop_middle l 2047 (a, b) He) as Hs. set (r := drop _ _) in Hs.
    assert (zlen (take 2047 l) = 2047) as Ht by (unfold zlen in *; rewrite length_take; lia).
    destruct (collect_all_room mem (take 2047 l) tl []) as (tl1 & E1 & Hg1 & Hn1); [rewrite Ht, Hn; done|done|].
    destruct (collect_no_memory mem tl1 (take 2047 l) a b) as (tl2 & E2 & He2 & Hub); [done|rewrite Ht, Hn1, Hn; done|rewrite Hn1, Hn; done|by rewrite Hn1, Hn|].
    exists a, b, r, tl2. split; [done|]. rewrite <-Hs at 1. rewrite fmap_app, collect_all_app, E1. cbn [mbind comp_bind fmap list_fmap collect_all fst snd].
    by rewrite E2. }
  split; intros Hl.
  - destruct Hfull as (a & b & r & tl' & Hs & -> & He & _); [lia|]. assert (r = []) as ->.
    { apply nil_length_inv. apply (f_equal length) in Hs. rewrite length_app, length_take in Hs. unfold zlen in Hl. cbn [length] in Hs. lia. }
    cbn [fmap list_fmap collect_all mbind comp_bind]. rewrite He. by eexists.
  - destruct Hfull as (a & b & r & tl' & Hs & -> & He & Hub); [lia|]. destruct r as [|[a' b'] r].
    { exfalso. apply (f_equal length) in Hs. rewrite length_app, length_take in Hs. unfold zlen in Hl. cbn [length] in Hs. lia. }
    cbn [fmap list_fmap collect_all fst snd]. by rewrite Hub.
Qed.


(** A table with one owner of a managed element and one route. *)
Definition ex_table (n : Z) : route_table_t (gmap akey thing) :=
  MkRt false (list_to_map ((fun i => (ANum i, TRte 0)) <$> seqZ 0 n) ∪ {[AStr RT_ME_SPACE $"meid" := TEp 7]}) 0 0 0.
Definition ex_ctx : rt_ctx (gmap akey thing) (gmap akey nat) :=
  MkRtCtx {[0%nat := MkRte 0 1 0 []]} ∅ 1 ∅ None None None [] None.

Lemma clone_captures_every_entry_witness :
  match uta_rt_clone_spaces (fun _ => (true, true)) ex_ctx (Some (ex_table 1)) uta_rt_init true with
  | Ret (drt, ctx) => (sm_get (rt_hash drt) (ANum 0), sm_get (rt_hash drt) (AStr RT_ME_SPACE $"meid"), rte_refs <$> cr_rtes ctx !! 0%nat)
  | UB => (None, None, None)
  end = (Some (TRte 0), Some (TEp 7), Some 2).
Proof.
  rewrite (clone_captures_every_entry (fun _ => (true, true)) ex_ctx (Some (ex_table 1)) uta_rt_init true).
  - vm_compute. reflexivity.
  - intros n. reflexivity.
  - intros rt E. injection E as <-. split; vm_compute; reflexivity.
Defined.

Lemma clone_without_memory_witness :
  rt_clone_space (fun n => (n <? 3000, n <? 3000)) ex_ctx (Some (ex_table 2049)) uta_rt_init RT_MT_SPACE = UB.
Proof.
  apply (clone_without_memory (fun n => (n <? 3000, n <? 3000))); [reflexivity|discriminate|vm_compute; reflexivity].
Defined.
