(* ===== verification/RtRefine.v ===== *)
(** The route table protocol: an abstract machine on finite maps, and the proof
    that the parser refines it.

    The machine has the active table and the one under construction as abstract
    tables (RtSpec.v); [spec_rec] is the effect of a record and the state message
    sent back.  It is [UB] on records outside of the protocol: fields missing
    that the code dereferences, an end record with a count while no table is
    being built, the route key 0.  On everything else [parse_rt_rec] does what the
    machine does, on entries, endpoints and hash tables with reference counts. *)

From S2P Require Import Prelude Bytes Symtab SymIface Tools Mbuf Endpoint RouteTable RtInv RtSpec RtParser.

(** A table with its counts of route records and of managed element records. *)
Record counted := MkC { ct_tab : atable; ct_upd : Z; ct_mupd : Z }.

(** Of the table that drains only the counts matter: a recycled table keeps the
    one that its start record does not reset. *)
Record astate := MkA {
  as_act : option counted;
  as_old : option (Z * Z);
  as_new : option counted;
  as_id : option (list Z);
  as_full : bool;
  as_ready : bool
}.

Definition start_from (all : bool) (act : option counted) : atable :=
  match act with
  | Some c => if all then ct_tab c else MkAT ∅ (at_owners (ct_tab c))
  | None => MkAT ∅ ∅
  end.

Definition spec_start (can all keep me : bool) (S : astate) (tokens : list (list Z)) : option (list Z) * astate :=
  let c0 := match as_new S with Some _ => (0, 0) | None => default (0, 0) (as_old S) end in
  (match as_new S with
   | Some _ => send_rt_ack can (as_id S) false (Some $"table not complete")
   | None => None
   end,
   MkA (as_act S) None
     (Some (MkC (start_from all (as_act S)) (if me then c0.1 else 0) (if me then 0 else c0.2)))
     (match tokens !! 2%nat with Some t => Some (clip t) | None => if keep then as_id S else None end)
     (as_full S) (as_ready S)).

Definition spec_roll (can full ready : bool) (S : astate) : option (list Z) * astate :=
  match as_new S with
  | Some c =>
      (send_rt_ack can (as_id S) true None,
       MkA (Some c) ((fun c => (ct_upd c, ct_mupd c)) <$> as_act S) None (as_id S) (full || as_full S) (ready || as_ready S))
  | None => (None, S)
  end.

Definition spec_end (can full ready : bool) (count : counted -> Z) (reason : counted -> list Z -> list Z)
    (S : astate) (tokens : list (list Z)) : comp (option (list Z) * astate) :=
  match tokens !! 2%nat with
  | Some n =>
      c ← deref (as_new S);
      if negb (count c =? atoi n)
      then Ret (send_rt_ack can (as_id S) false (Some (reason c n)),
                MkA (as_act S) (as_old S) None (as_id S) (as_full S) (as_ready S))
      else Ret (spec_roll can full ready S)
  | None => Ret (spec_roll can full ready S)
  end.

Definition set_anew (S : astate) (c : counted) : astate :=
  MkA (as_act S) (as_old S) (Some c) (as_id S) (as_full S) (as_ready S).

(** A route record, counted; the key must not be 0. *)
Definition spec_upd (S : astate) (c : counted) (k : Z) (A : atable) : comp (option (list Z) * astate) :=
  if decide (valid_key (ANum k)) then Ret (None, set_anew S (MkC A (i32 (ct_upd c + 1)) (ct_mupd c))) else UB.

Definition spec_meid (can : bool) (S : astate) (tokens : list (list Z)) : comp (option (list Z) * astate) :=
  match tokens with
  | t0 :: t1 :: rest =>
      if streq t0 $"meid_map" then
        if bool_decide (head (clip t1) = Some 115) then Ret (spec_start can true false true S tokens)
        else if streq (clip t1) $"end"
             then spec_end can false false ct_mupd (fun c n => missing_records n (ct_upd c)) S tokens
             else Ret (None, S)
      else
        match as_new S with
        | None => Ret (None, S)
        | Some c =>
            let put A := Ret (None, set_anew S (MkC A (ct_upd c) (i32 (ct_mupd c + 1)))) in
            if streq t0 $"mme_ar"
            then match rest with t2 :: _ => put (spec_meid_ar t1 t2 (ct_tab c)) | [] => Ret (None, S) end
            else if streq t0 $"mme_del" then put (spec_meid_del t1 (ct_tab c)) else Ret (None, S)
        end
  | _ => Ret (None, S)
  end.

Section spec.
Variables (my : list Z) (ips : option if_addrs_t).

Definition spec_rec (can : bool) (wbuf : list Z) (S : astate) (buf : list Z) : comp (option (list Z) * astate) :=
  match tokenise (trim_tail (skip_space buf)) 128 124 with
  | [] => Ret (None, S)
  | t0 :: ts =>
      let t0 := clip t0 in
      let tokens := t0 :: ts in
      match t0 with
      | [] => Ret (None, S)
      | c :: _ =>
          if c =? 35 then Ret (None, S)
          else if c =? 100 then
            match as_new S, ts with
            | Some c, t1 :: t2 :: _ =>
                spec_upd S c (rec_key t1 (atoi t2)) (spec_trash my ips t1 (atoi t2) (ct_tab c))
            | _, _ => Ret (None, S)
            end
          else if c =? 110 then
            t1 ← deref (tokens !! 1%nat);
            if streq (clip t1) $"end"
            then spec_end can true true ct_upd (fun c n => missing_records n (ct_upd c)) S tokens
            else Ret (spec_start can false false false S tokens)
          else if c =? 109 then
            if streq t0 $"mse" then
              match as_new S, ts with
              | Some c, t1 :: t2 :: t3 :: _ =>
                  spec_upd S c (rec_key t1 (atoi t2)) (spec_entry my ips t1 (atoi t2) t3 (ct_tab c))
              | _, _ => Ret (None, S)
              end
            else spec_meid can S tokens
          else if c =? 114 then
            match as_new S with
            | None => Ret (None, S)
            | Some c =>
                t1 ← deref (tokens !! 1%nat);
                t2 ← deref (tokens !! 2%nat);
                let sid := match tokens !! 3%nat with Some t3 => atoi t3 | None => UNSET_SUBID end in
                spec_upd S c (rec_key t1 sid) (spec_entry my ips t1 sid t2 (ct_tab c))
            end
          else if c =? 117 then
            if negb (as_full S) then Ret (None, S)
            else
              t1 ← deref (tokens !! 1%nat);
              if streq (clip t1) $"end"
              then match as_new S with
                   | None => Ret (None, S)
                   | Some _ => spec_end can false true ct_upd (fun _ _ => wbuf) S tokens
                   end
              else Ret (spec_start can true true false S tokens)
          else Ret (None, S)
      end
  end.

(** A sequence of records. *)
Fixpoint spec_recs (can : bool) (wbuf : list Z) (S : astate) (bufs : list (list Z)) : comp (list (option (list Z)) * astate) :=
  match bufs with
  | [] => Ret ([], S)
  | b :: bufs' => x ← spec_rec can wbuf S b; y ← spec_recs can wbuf x.2 bufs'; Ret (x.1 :: y.1, y.2)
  end.
End spec.

(** ** Refinement *)

Section refine.
Context {TH TE : Type} `{Symbols TH thing} `{Symbols TE nat}.
Variable gethostbyname : list Z -> option (list Z).

Implicit Types (ps : parser_t TH TE) (S : astate) (ctx : rt_ctx TH TE) (rt : route_table_t TH).

(** A table stands for an abstract one, with the same counts. *)
Definition tab_rel ctx (rt : option (route_table_t TH)) (c : option counted) : Prop :=
  match rt, c with
  | Some rt, Some c => table_abs ctx rt (ct_tab c) /\ rt_updates rt = ct_upd c /\ rt_mupdates rt = ct_mupd c /\ rt_error rt = false
  | None, None => True
  | _, _ => False
  end.

Record refines (my : list Z) (ips : option if_addrs_t) ps S : Prop := {
  rf_inv : rt_inv (ps_ctx ps);
  rf_act : tab_rel (ps_ctx ps) (cr_rtable (ps_ctx ps)) (as_act S);
  rf_old : (fun rt => (rt_updates rt, rt_mupdates rt)) <$> cr_old (ps_ctx ps) = as_old S;
  rf_new : tab_rel (ps_ctx ps) (cr_new (ps_ctx ps)) (as_new S);
  rf_id : ps_table_id ps = as_id S;
  rf_full : ps_fullrt ps = as_full S;
  rf_ready : ps_ready ps = as_ready S;
  rf_self : cr_my_name (ps_ctx ps) = my /\ cr_ip_list (ps_ctx ps) = ips
}.

(** The outcome of code against the outcome of the machine. *)
Definition sim (my : list Z) (ips : option if_addrs_t) (m : comp (option (list Z) * parser_t TH TE))
    (n : comp (option (list Z) * astate)) : Prop :=
  forall ack S', n = Ret (ack, S') -> exists ps', m = Ret (ack, ps') /\ refines my ips ps' S'.

Lemma sim_ret my ips ack ps S : refines my ips ps S -> sim my ips (Ret (ack, ps)) (Ret (ack, S)).
Proof. intros R a S' [= <- <-]. by exists ps. Qed.

Lemma sim_UB my ips m : sim my ips m UB.
Proof. by intros a S'. Qed.
Hint Resolve sim_ret sim_UB : core.

Lemma tab_rel_frozen ctx ctx' c :
  rt_inv ctx -> frozen ctx ctx' -> tab_rel ctx (cr_rtable ctx) c -> tab_rel ctx' (cr_rtable ctx') c.
Proof.
  intros I F. rewrite (fz_act _ _ F). unfold tab_rel. destruct (cr_rtable ctx) as [rt|] eqn:E, c as [c|]; try done.
  intros (HA & ?). split; [|done]. by apply (table_abs_frozen ctx).
Qed.

(** The new table of the state after a step that senders do not see. *)
Lemma refines_new my ips ps S ctx' c' old :
  refines my ips ps S -> rt_inv ctx' -> frozen (ps_ctx ps) ctx' -> tab_rel ctx' (cr_new ctx') c' ->
  (fun rt => (rt_updates rt, rt_mupdates rt)) <$> cr_old ctx' = old ->
  refines my ips (set_ctx ps ctx') (MkA (as_act S) old c' (as_id S) (as_full S) (as_ready S)).
Proof.
  intros [I A O N Id Fu Re [Em Ei]] I' F N' O'. split; simpl; try done; [by apply (tab_rel_frozen (ps_ctx ps))|].
  destruct (fz_self _ _ F) as [-> ->]. done.
Qed.

Lemma refines_new_some my ips ps S c :
  refines my ips ps S -> as_new S = Some c ->
  exists rt, cr_new (ps_ctx ps) = Some rt /\ cr_old (ps_ctx ps) = None /\ as_old S = None /\
    table_abs (ps_ctx ps) rt (ct_tab c) /\ rt_updates rt = ct_upd c /\ rt_mupdates rt = ct_mupd c /\ rt_error rt = false.
Proof.
  intros R E. pose proof (rf_new _ _ _ _ R) as N. rewrite E in N. unfold tab_rel in N.
  destruct (cr_new (ps_ctx ps)) as [rt|] eqn:En; [|done].
  assert (cr_old (ps_ctx ps) = None) as Eo by (apply (ri_old _ (rf_inv _ _ _ _ R)); by rewrite En).
  exists rt. split_and!; try done; [|apply N..]. rewrite <-(rf_old _ _ _ _ R). by rewrite Eo.
Qed.

Lemma refines_new_none my ips ps S : refines my ips ps S -> as_new S = None <-> cr_new (ps_ctx ps) = None.
Proof. intros R. pose proof (rf_new _ _ _ _ R) as N. unfold tab_rel in N. by destruct (cr_new _), (as_new S). Qed.

(** *** Counts *)

Lemma set_counts_step ctx rt u mu :
  rt_inv ctx -> cr_new ctx = Some rt ->
  let ctx' := set_new ctx (Some (set_counts rt u mu)) in rt_inv ctx' /\ frozen ctx ctx'.
Proof.
  intros I En ctx'. assert (rt = set_hash rt (rt_hash rt)) as Hrt by by destruct rt.
  pose proof (inv_new_ok ctx rt I En) as T. split.
  - apply (with_new_inv ctx (cr_rtes ctx) (cr_next ctx)); try done.
    + apply (ri_old _ I). by rewrite En.
    + pose proof (ri_refs _ I) as R. by rewrite (tables_new _ _ En) in R.
    + split; apply T.
    + intros id r E. split; [apply (ri_next _ I); left; by eexists|by eapply (ri_groups _ I)].
  - apply (with_new_frozen ctx (cr_rtes ctx) (cr_next ctx)). apply keeps_refl.
Qed.

Lemma set_counts_abs ctx rt u mu A n :
  table_abs ctx rt A -> table_abs (set_new ctx n) (set_counts rt u mu) A.
Proof. done. Qed.

Lemma count_update_refines my ips ps S c :
  refines my ips ps S -> as_new S = Some c ->
  exists ctx', count_update (ps_ctx ps) = Ret ctx' /\
    refines my ips (set_ctx ps ctx') (set_anew S (MkC (ct_tab c) (i32 (ct_upd c + 1)) (ct_mupd c))).
Proof.
  intros R E. destruct (refines_new_some _ _ _ _ _ R E) as (rt & En & Eo & Eso & HA & Hu & Hmu & He).
  unfold count_update. rewrite En. simpl. eexists. split; [done|].
  destruct (set_counts_step (ps_ctx ps) rt (i32 (rt_updates rt + 1)) (rt_mupdates rt) (rf_inv _ _ _ _ R) En) as [I' F].
  unfold set_anew. apply refines_new; try done; [|by rewrite Eso; simpl; rewrite Eo].
  simpl. rewrite Hu, Hmu. done.
Qed.

(** *** Operations on the new table *)

Lemma new_step_refines my ips ps S c rt m A' :
  refines my ips ps S -> as_new S = Some c -> cr_new (ps_ctx ps) = Some rt -> new_step (ps_ctx ps) rt m A' ->
  exists ctx', m = Ret ctx' /\ refines my ips (set_ctx ps ctx') (set_anew S (MkC A' (ct_upd c) (ct_mupd c))).
Proof.
  intros R E En (ctx' & rt' & -> & I' & F & En' & Hu & Hmu & He & HA').
  destruct (refines_new_some _ _ _ _ _ R E) as (rt0 & En0 & _ & Eso & _ & Hu0 & Hmu0 & He0).
  assert (rt0 = rt) as -> by congruence.
  exists ctx'. split; [done|]. unfold set_anew. apply refines_new; try done.
  - rewrite En'. simpl. split_and!; congruence.
  - rewrite Eso. assert (cr_old ctx' = None) as -> by (apply (ri_old _ I'); by rewrite En'). done.
Qed.

Lemma trash_refines my ips ps S c t1 sid :
  refines my ips ps S -> as_new S = Some c -> valid_key (ANum (rec_key t1 sid)) ->
  exists ctx', trash_entry (ps_ctx ps) t1 sid = Ret ctx' /\
    refines my ips (set_ctx ps ctx') (set_anew S (MkC (spec_trash my ips t1 sid (ct_tab c)) (ct_upd c) (ct_mupd c))).
Proof.
  intros R E Hk. destruct (refines_new_some _ _ _ _ _ R E) as (rt & En & _ & _ & HA & _).
  eapply new_step_refines; try done. destruct (rf_self _ _ _ _ R) as [<- <-].
  apply trash_entry_abs; try done. apply R.
Qed.

Lemma build_refines my ips ps S c t1 sid rr :
  refines my ips ps S -> as_new S = Some c -> valid_key (ANum (rec_key t1 sid)) ->
  exists ctx', build_entry gethostbyname (ps_ctx ps) t1 sid rr = Ret ctx' /\
    refines my ips (set_ctx ps ctx') (set_anew S (MkC (spec_entry my ips t1 sid rr (ct_tab c)) (ct_upd c) (ct_mupd c))).
Proof.
  intros R E Hk. destruct (refines_new_some _ _ _ _ _ R E) as (rt & En & _ & _ & HA & _).
  eapply new_step_refines; try done. destruct (rf_self _ _ _ _ R) as [<- <-].
  apply build_entry_abs; try done. apply R.
Qed.

(** A counted managed element record. *)
Lemma me_refines my ips ps S c rt x A' :
  refines my ips ps S -> as_new S = Some c -> cr_new (ps_ctx ps) = Some rt -> tab_step (ps_ctx ps) rt x A' ->
  refines my ips (set_ctx ps (set_new x.2 (Some (set_counts x.1 (rt_updates x.1) (i32 (rt_mupdates x.1 + 1))))))
    (set_anew S (MkC A' (ct_upd c) (i32 (ct_mupd c + 1)))).
Proof.
  intros R E En (I' & F & Hu & Hmu & He & HA').
  destruct (refines_new_some _ _ _ _ _ R E) as (rt0 & En0 & _ & Eso & _ & Hu0 & Hmu0 & He0).
  assert (rt0 = rt) as -> by congruence. destruct x as [rt' ctx']. simpl in *.
  destruct (set_counts_step (new_tab ctx' rt') rt' (rt_updates rt') (i32 (rt_mupdates rt' + 1)) I' eq_refl) as [I2 F2].
  unfold set_anew. apply refines_new; try done.
  - by eapply frozen_trans.
  - simpl. split_and!; try done; congruence.
  - rewrite Eso. simpl. assert (cr_old (new_tab ctx' rt') = None) as Eo by (by apply (ri_old _ I')).
    simpl in Eo. by rewrite Eo.
Qed.

(** *** Start and end *)

Lemma drop_refines my ips ps S c :
  refines my ips ps S -> as_new S = Some c ->
  exists ctx', drop_new (ps_ctx ps) = Ret ctx' /\ cr_new ctx' = None /\ cr_old ctx' = None /\
    refines my ips (set_ctx ps ctx') (MkA (as_act S) None None (as_id S) (as_full S) (as_ready S)).
Proof.
  intros R E. destruct (refines_new_some _ _ _ _ _ R E) as (rt & En & Eo & Eso & _).
  destruct (drop_new_spec (ps_ctx ps) rt (rf_inv _ _ _ _ R) En) as (m & Ed & I' & F).
  unfold drop_new. rewrite En, Ed. simpl. eexists. split; [done|]. split_and!; try done.
  apply refines_new; try done. simpl. by rewrite Eo.
Qed.

Lemma start_abs ctx all drt ctx' c :
  rt_inv ctx -> tab_rel ctx (cr_rtable ctx) c -> keeps [habs drt] (cr_rtes ctx) (cr_rtes ctx') ->
  cr_eps ctx' = cr_eps ctx -> habs drt = start_map (cr_rtable ctx) all ->
  table_abs ctx' drt (start_from all c).
Proof.
  intros I A K Ee Eh. unfold tab_rel in A. destruct (cr_rtable ctx) as [act|] eqn:Ea, c as [c|]; try done.
  2: { split; intros k; unfold route_at, owner_at; rewrite Eh; simpl; by rewrite !lookup_empty. }
  destruct A as [[HR HO] _]. assert (act ∈ tables ctx) as Hin by (unfold tables; rewrite Ea; by left).
  assert (forall s, owner_at ctx' drt s = owner_at ctx act s) as Ho.
  { intros s. apply owner_stable; try done; [|by rewrite Ee]. rewrite Eh. simpl. destruct all; [done|].
    destruct (habs act !! AStr RT_ME_SPACE s) eqn:El; [by apply map_lookup_filter_Some|apply map_lookup_filter_None; by left]. }
  simpl in Eh. destruct all; simpl.
  - apply (table_abs_keeps ctx ctx' act drt); try done; [by rewrite Eh in K|by rewrite Ee].
  - split; simpl; [|intros s; by rewrite Ho].
    intros k. unfold route_at. rewrite Eh, lookup_empty.
    assert (filter (fun x => akey_class x.1 = RT_ME_SPACE) (habs act) !! ANum k = None) as -> ; [|done].
    apply map_lookup_filter_None. by right.
Qed.

Lemma prep_counts ctx all drt ctx' :
  prep_new_rt ctx all = Ret (drt, ctx') -> cr_new ctx = None ->
  (rt_updates drt, rt_mupdates drt) = default (0, 0) ((fun rt => (rt_updates rt, rt_mupdates rt)) <$> cr_old ctx).
Proof.
  unfold prep_new_rt. intros E _. apply comp_bind_ret in E as ([d1 c1] & E1 & E).
  apply comp_bind_ret in E as ([d2 c2] & E2 & [= <- <-]).
  assert (rt_updates d2 = rt_updates d1 /\ rt_mupdates d2 = rt_mupdates d1) as [-> ->].
  { unfold uta_rt_clone in E2. destruct (cr_rtable c1); [|by injection E2 as <- <-].
    apply comp_bind_ret in E2 as ([h c3] & _ & [= <- <-]). done. }
  unfold recycle_old in E1. destruct (cr_old ctx); [|by injection E1 as <- <-].
  apply comp_bind_ret in E1 as (c3 & _ & [= <- <-]). done.
Qed.

(** With no table being built. *)
Lemma prep_refines my ips ps S (all me : bool) :
  refines my ips ps S -> as_new S = None ->
  let c0 := default (0, 0) (as_old S) in
  exists rt ctx', prep_new_rt (ps_ctx ps) all = Ret (rt, ctx') /\
    refines my ips (set_ctx ps (set_new ctx' (Some (if me then set_counts rt (rt_updates rt) 0 else set_counts rt 0 (rt_mupdates rt)))))
      (MkA (as_act S) None (Some (MkC (start_from all (as_act S)) (if me then c0.1 else 0) (if me then 0 else c0.2)))
         (as_id S) (as_full S) (as_ready S)).
Proof.
  intros R E c0. apply (refines_new_none _ _ _ _ R) in E as En.
  destruct (prep_spec (ps_ctx ps) all (rf_inv _ _ _ _ R) En)
    as (drt & ctx' & Ep & I' & F & He & Eh & Ea & Eo & En' & Ee & _ & K). cbv zeta in *.
  exists drt, ctx'. split; [done|].
  pose proof (prep_counts _ _ _ _ Ep En) as Hc. rewrite (rf_old _ _ _ _ R) in Hc. fold c0 in Hc.
  pose proof (start_abs (ps_ctx ps) all drt ctx' (as_act S) (rf_inv _ _ _ _ R) (rf_act _ _ _ _ R) K Ee Eh) as HA.
  set (rt' := if me then _ else _).
  assert (rt' = set_counts drt (rt_updates rt') (rt_mupdates rt')) as Ert by (unfold rt'; by destruct me).
  destruct (set_counts_step _ drt (rt_updates rt') (rt_mupdates rt') I' eq_refl) as [I2 F2]. rewrite <-Ert in I2, F2.
  apply refines_new; try done.
  - by eapply frozen_trans.
  - simpl. split; [by rewrite Ert|]. unfold rt'. rewrite <-Hc. destruct me; split_and!; done.
  - simpl. by rewrite Eo.
Qed.

Lemma start_refines my ips can all keep me ps S tokens :
  refines my ips ps S -> sim my ips (start_table can all keep me ps tokens) (Ret (spec_start can all keep me S tokens)).
Proof.
  intros R. unfold start_table, spec_start.
  assert (exists ctx1 old, match cr_new (ps_ctx ps) with Some _ => drop_new (ps_ctx ps) | None => Ret (ps_ctx ps) end = Ret ctx1 /\
    refines my ips (set_ctx ps ctx1) (MkA (as_act S) old None (as_id S) (as_full S) (as_ready S)) /\
    default (0, 0) old = match as_new S with Some _ => (0, 0) | None => default (0, 0) (as_old S) end) as (ctx1 & old & -> & R1 & Hold).
  { destruct (as_new S) as [c|] eqn:E.
    - destruct (refines_new_some _ _ _ _ _ R E) as (rt & En & _). rewrite En.
      destruct (drop_refines _ _ _ _ _ R E) as (ctx1 & Ed & _ & _ & R1). exists ctx1, None. done.
    - pose proof (proj1 (refines_new_none _ _ _ _ R) E) as En. rewrite En.
      exists (ps_ctx ps), (as_old S). split; [done|]. split; [|done]. destruct R. split; try done. simpl. by rewrite En. }
  cbn [mbind comp_bind]. destruct (prep_refines my ips (set_ctx ps ctx1) _ all me R1 eq_refl) as (rt & ctx2 & Ep & R2).
  simpl ps_ctx in Ep. rewrite Ep. cbn [mbind comp_bind]. simpl as_old in R2. rewrite Hold in R2.
  intros ack S' [= <- <-]. eexists. split.
  { f_equal. f_equal. pose proof (refines_new_none _ _ _ _ R) as Hn. rewrite (rf_id _ _ _ _ R).
    destruct (as_new S), (cr_new (ps_ctx ps)); try done; naive_solver. }
  destruct R2. split; try done. simpl. by rewrite (rf_id _ _ _ _ R).
Qed.

Lemma roll_refines my ips can full ready ps S :
  refines my ips ps S -> sim my ips (Ret (roll_new can full ready ps)) (Ret (spec_roll can full ready S)).
Proof.
  intros R. unfold roll_new, spec_roll. destruct (as_new S) as [c|] eqn:E.
  2: { rewrite (proj1 (refines_new_none _ _ _ _ R) E). by apply sim_ret. }
  destruct (refines_new_some _ _ _ _ _ R E) as (rt & En & _ & _ & HA & Hu & Hmu & He). rewrite En, (rf_id _ _ _ _ R).
  apply sim_ret. destruct (roll_spec (ps_ctx ps) rt (rf_inv _ _ _ _ R) En He) as [I' Er].
  split; simpl; try done; rewrite ?Er; simpl; try done.
  - pose proof (rf_act _ _ _ _ R) as A. unfold tab_rel in A. destruct (cr_rtable (ps_ctx ps)), (as_act S); simpl; try done.
    destruct A as (_ & -> & -> & _). done.
  - by rewrite (rf_full _ _ _ _ R).
  - by rewrite (rf_ready _ _ _ _ R).
  - apply R.
Qed.

Lemma end_refines my ips can full ready count count' reason reason' ps S tokens :
  refines my ips ps S ->
  (forall rt c n, rt_updates rt = ct_upd c -> rt_mupdates rt = ct_mupd c -> count rt = count' c /\ reason rt n = reason' c n) ->
  sim my ips (end_table can full ready count reason ps tokens) (spec_end can full ready count' reason' S tokens).
Proof.
  intros R Hc. unfold end_table, spec_end. destruct (tokens !! 2%nat) as [n|]; [|by apply roll_refines].
  destruct (as_new S) as [c|] eqn:E; [|apply sim_UB].
  destruct (refines_new_some _ _ _ _ _ R E) as (rt & En & _ & Eso & _ & Hu & Hmu & _). rewrite En.
  cbn [deref mbind comp_bind]. destruct (Hc rt c n Hu Hmu) as [-> ->].
  destruct (negb (count' c =? atoi n)); [|by apply roll_refines].
  destruct (drop_refines _ _ _ _ _ R E) as (ctx' & -> & _ & _ & R'). cbn [mbind comp_bind].
  rewrite (rf_id _ _ _ _ R), Eso. by apply sim_ret.
Qed.

Lemma meid_refines my ips can ps S tokens :
  refines my ips ps S -> sim my ips (meid_parser gethostbyname can ps tokens) (spec_meid can S tokens).
Proof.
  intros R. unfold meid_parser, spec_meid. destruct tokens as [|t0 [|t1 rest]]; [by apply sim_ret..|].
  destruct (streq t0 $"meid_map").
  - destruct (bool_decide _); [by apply start_refines|]. destruct (streq (clip t1) $"end"); [|by apply sim_ret].
    apply end_refines; [done|]. by intros rt c n -> ->.
  - destruct (as_new S) as [c|] eqn:E.
    2: { rewrite (proj1 (refines_new_none _ _ _ _ R) E). by apply sim_ret. }
    destruct (refines_new_some _ _ _ _ _ R E) as (rt & En & _ & _ & HA & _). rewrite En.
    destruct (streq t0 $"mme_ar").
    + destruct rest as [|t2 rest]; [by apply sim_ret|].
      pose proof (parse_meid_ar_abs gethostbyname (ps_ctx ps) rt t1 t2 (ct_tab c) (rf_inv _ _ _ _ R) En HA) as T.
      destruct (parse_meid_ar gethostbyname (ps_ctx ps) rt t1 t2) as [rt' ctx'].
      apply sim_ret. by apply (me_refines my ips ps S c rt (rt', ctx')).
    + destruct (streq t0 $"mme_del"); [|by apply sim_ret].
      pose proof (parse_meid_del_abs (ps_ctx ps) rt t1 (ct_tab c) (rf_inv _ _ _ _ R) En HA) as T.
      apply sim_ret. by apply (me_refines my ips ps S c rt (parse_meid_del rt t1, ps_ctx ps)).
Qed.

(** *** Route records *)

Lemma upd_refines my ips ps S c k A' (op : rt_ctx TH TE -> comp (rt_ctx TH TE)) :
  refines my ips ps S -> as_new S = Some c ->
  (forall S c, refines my ips ps S -> as_new S = Some c -> valid_key (ANum k) ->
     exists ctx', op (ps_ctx ps) = Ret ctx' /\ refines my ips (set_ctx ps ctx') (set_anew S (MkC (A' (ct_tab c)) (ct_upd c) (ct_mupd c)))) ->
  sim my ips (ctx ← op (ps_ctx ps); ctx ← count_update ctx; Ret (None, set_ctx ps ctx)) (spec_upd S c k (A' (ct_tab c))).
Proof.
  intros R E Hop. unfold spec_upd. case_decide as Hk; [|apply sim_UB].
  destruct (Hop S c R E Hk) as (ctx1 & -> & R1). cbn [mbind comp_bind].
  destruct (count_update_refines my ips (set_ctx ps ctx1) _ _ R1 eq_refl) as (ctx2 & Ec & R2). simpl ps_ctx in Ec. rewrite Ec.
  cbn [mbind comp_bind]. by apply sim_ret.
Qed.

Lemma parse_refines my ips can wbuf ps S buf :
  refines my ips ps S -> sim my ips (parse_rt_rec gethostbyname can wbuf ps buf) (spec_rec my ips can wbuf S buf).
Proof.
  intros R. unfold parse_rt_rec, spec_rec. destruct (tokenise _ 128 124) as [|t0 ts]; [by apply sim_ret|].
  cbv zeta. destruct (clip t0) as [|ch t0'] eqn:E0; [by apply sim_ret|]. rewrite <-E0.
  destruct (ch =? 35); [by apply sim_ret|].
  assert (as_new S = None /\ cr_new (ps_ctx ps) = None \/
    exists c rt, as_new S = Some c /\ cr_new (ps_ctx ps) = Some rt) as Hnew.
  { destruct (as_new S) as [c|] eqn:E; [right; destruct (refines_new_some _ _ _ _ _ R E) as (rt & En & _); by eauto|].
    left. split; [done|]. by apply (refines_new_none _ _ _ _ R). }
  destruct (ch =? 100).
  { destruct Hnew as [[-> ->]|(c & rt & E & ->)]; [by apply sim_ret|]. rewrite E.
    destruct ts as [|t1 [|t2 ts]]; [by apply sim_ret..|].
    apply (upd_refines my ips ps S c _ (spec_trash my ips t1 (atoi t2)) (fun ctx => trash_entry ctx t1 (atoi t2))); try done.
    intros S0 c0 R0 Ec0 Hk. by apply trash_refines. }
  destruct (ch =? 110).
  { cbn [lookup list_lookup]. destruct ts as [|t1 ts]; [apply sim_UB|]. cbn [lookup list_lookup deref mbind comp_bind].
    destruct (streq (clip t1) $"end"); [|by apply start_refines]. apply end_refines; [done|]. by intros rt c n -> _. }
  destruct (ch =? 109).
  { destruct (streq (clip t0) $"mse"); [|by apply meid_refines].
    destruct Hnew as [[-> ->]|(c & rt & E & ->)]; [by apply sim_ret|]. rewrite E.
    destruct ts as [|t1 [|t2 [|t3 ts]]]; [by apply sim_ret..|].
    apply (upd_refines my ips ps S c _ (spec_entry my ips t1 (atoi t2) t3)
             (fun ctx => build_entry gethostbyname ctx t1 (atoi t2) t3)); try done.
    intros S0 c0 R0 Ec0 Hk. by apply build_refines. }
  destruct (ch =? 114).
  { destruct Hnew as [[-> ->]|(c & rt & E & ->)]; [by apply sim_ret|]. rewrite E.
    destruct (count_update_refines my ips ps S c R E) as (ctx1 & -> & R1).
    destruct ts as [|t1 [|t2 ts]]; [apply sim_UB..|]. cbn [lookup list_lookup deref mbind comp_bind].
    set (sid := match _ with Some t3 => atoi t3 | None => UNSET_SUBID end).
    unfold spec_upd. case_decide as Hk; [|apply sim_UB].
    destruct (build_refines my ips (set_ctx ps ctx1) _ _ t1 sid t2 R1 eq_refl Hk) as (ctx2 & Eb & R2). simpl ps_ctx in Eb.
    rewrite Eb. cbn [mbind comp_bind]. by apply sim_ret. }
  destruct (ch =? 117); [|by apply sim_ret]. rewrite (rf_full _ _ _ _ R).
  destruct (negb (as_full S)); [by apply sim_ret|].
  destruct ts as [|t1 ts]; [apply sim_UB|]. cbn [lookup list_lookup deref mbind comp_bind].
  destruct (streq (clip t1) $"end"); [|by apply start_refines].
  destruct Hnew as [[-> ->]|(c & rt & E & ->)]; [by apply sim_ret|]. rewrite E. by apply end_refines.
Qed.

(** A sequence of records; the payloads sent back are collected. *)
Fixpoint parse_recs (can : bool) (wbuf : list Z) ps (bufs : list (list Z)) : comp (list (option (list Z)) * parser_t TH TE) :=
  match bufs with
  | [] => Ret ([], ps)
  | b :: bufs' =>
      x ← parse_rt_rec gethostbyname can wbuf ps b; y ← parse_recs can wbuf x.2 bufs'; Ret (x.1 :: y.1, y.2)
  end.

Lemma parse_recs_refines my ips can wbuf bufs : forall ps S acks S',
  refines my ips ps S -> spec_recs my ips can wbuf S bufs = Ret (acks, S') ->
  exists ps', parse_recs can wbuf ps bufs = Ret (acks, ps') /\ refines my ips ps' S'.
Proof.
  induction bufs as [|b bufs IH]; intros ps S acks S' R Hs; cbn [spec_recs parse_recs] in *.
  { injection Hs as <- <-. by exists ps. }
  apply comp_bind_ret in Hs as ([a1 S1] & H1 & Hs). apply comp_bind_ret in Hs as ([a2 S2] & H2 & [= <- <-]).
  destruct (parse_refines my ips can wbuf ps S b R a1 S1 H1) as (ps1 & -> & R1). cbn [mbind comp_bind snd fst].
  destruct (IH ps1 S1 a2 S2 R1 H2) as (ps2 & -> & R2). by exists ps2.
Qed.
End refine.

(** ** The initial state *)

(** init of rmr_si.c: an empty endpoint hash and an empty active table. *)
Definition ctx_init {TH TE : Type} `{Symbols TH thing} `{Symbols TE nat} (my : list Z) (ips : option if_addrs_t) : rt_ctx TH TE :=
  MkRtCtx ∅ ∅ 0%nat (sm_new 129) (Some uta_rt_init) None None my ips.
Definition ps_init {TH TE : Type} `{Symbols TH thing} `{Symbols TE nat} (my : list Z) (ips : option if_addrs_t) : parser_t TH TE :=
  MkPs (ctx_init my ips) None false false.
Definition as_init : astate := MkA (Some (MkC (MkAT ∅ ∅) 0 0)) None None None false false.

Lemma ctx_init_inv {TH TE : Type} `{Symbols TH thing} `{Symbols TE nat} my ips : rt_inv (ctx_init (TH := TH) (TE := TE) my ips).
Proof.
  assert (129 <= INT_MAX /\ RT_SIZE <= INT_MAX) as [? ?] by (unfold INT_MAX, RT_SIZE; lia).
  assert (habs (uta_rt_init (TH := TH)) = ∅) as Eh by by apply sm_abs_new.
  split; simpl.
  - unfold tables. simpl. rewrite Eh. split.
    + intros id r E. by rewrite lookup_empty in E.
    + intros t a id ->%list_elem_of_singleton E. by rewrite lookup_empty in E.
    + intros t n x ->%list_elem_of_singleton E. by rewrite lookup_empty in E.
  - apply Forall_singleton. split; [by apply sm_new_ok|..]; intros *; rewrite Eh; by rewrite lookup_empty.
  - by apply sm_new_ok.
  - intros a id. rewrite sm_abs_new by done. by rewrite lookup_empty.
  - intros id [[x E]|[x E]]; by rewrite lookup_empty in E.
  - intros id r E. by rewrite lookup_empty in E.
  - by intros [x E].
Qed.

Lemma init_refines {TH TE : Type} `{Symbols TH thing} `{Symbols TE nat} my ips :
  refines my ips (ps_init (TH := TH) (TE := TE) my ips) as_init.
Proof.
  split; try done; [apply ctx_init_inv|]. simpl. split; [|done].
  assert (habs (uta_rt_init (TH := TH)) = ∅) as Eh by (apply sm_abs_new; unfold INT_MAX, RT_SIZE; lia).
  split; intros k; unfold route_at, owner_at; by rewrite Eh.
Qed.

(** ** Lookup *)

(** The route for a message: with its subscription id, else the one without. *)
Definition alookup (act : option counted) (sid mtype : Z) (try_alt : bool) : option aroute :=
  match act with
  | None => None
  | Some c =>
      match at_routes (ct_tab c) !! build_rt_key sid mtype with
      | Some r => Some r
      | None => if try_alt && negb (sid =? UNSET_SUBID) then at_routes (ct_tab c) !! build_rt_key UNSET_SUBID mtype else None
      end
  end.

Definition aowner (act : option counted) (meid : list Z) : option (list Z) :=
  match act, meid with Some c, _ :: _ => at_owners (ct_tab c) !! meid | _, _ => None end.

(** Message types and subscription ids that a route can have. *)
Definition route_id (sid mtype : Z) : Prop := in_i32 sid /\ in_i32 mtype /\ (sid <> 0 \/ mtype <> 0).

Lemma i32_u32_0 z : in_i32 z -> u32 z = 0 -> z = 0.
Proof.
  unfold in_i32, u32. intros Hz E. destruct (Z_lt_le_dec z 0); [|by rewrite Z.mod_small in E by lia].
  rewrite <-(Z_mod_plus_full z 1), Z.mod_small in E by lia. lia.
Qed.

Lemma route_id_key sid mtype : route_id sid mtype -> valid_key (ANum (build_rt_key sid mtype)).
Proof.
  intros (Hs & Hm & Hne). simpl. rewrite build_rt_key_val by done.
  pose proof (u32_range sid). pose proof (u32_range mtype).
  destruct (Z.eq_dec (u32 sid) 0) as [E1|], (Z.eq_dec (u32 mtype) 0) as [E2|]; [|lia..].
  apply i32_u32_0 in E1, E2; try done. lia.
Qed.

Section lookup.
Context {TH TE : Type} `{Symbols TH thing} `{Symbols TE nat}.
Implicit Types (ps : parser_t TH TE) (ctx : rt_ctx TH TE) (rt : route_table_t TH).

(** What senders find in the active table. *)
Definition route_of ctx (sid mtype : Z) (try_alt : bool) : option aroute :=
  id ← uta_get_rte (cr_rtable ctx) sid mtype try_alt; entry_at ctx id.
Definition owner_of ctx (meid : list Z) : option (list Z) :=
  rt ← cr_rtable ctx; id ← get_meid_owner rt meid; e ← cr_eps ctx !! id; ep_name e.

Lemma pull_rte_abs ctx rt A k :
  rt_inv ctx -> rt ∈ tables ctx -> table_abs ctx rt A -> valid_key (ANum k) ->
  (pull_rte rt k ≫= entry_at ctx = at_routes A !! k) /\ (pull_rte rt k = None <-> at_routes A !! k = None).
Proof.
  intros I Ht [HR _] Hk. pose proof (proj1 (Forall_forall _ _) (ri_tabs _ I) rt Ht) as T.
  rewrite <-HR. unfold pull_rte, route_at. rewrite sm_get_abs by (done || apply T). fold (habs rt).
  destruct (habs rt !! ANum k) as [x|] eqn:E; [|done].
  destruct (ro_num _ _ (ri_refs _ I) (habs rt) k x (habs_fmap_in _ _ Ht) E) as [id ->]. simpl. split; [done|].
  destruct (ro_live _ _ (ri_refs _ I) (habs rt) (ANum k) id (habs_fmap_in _ _ Ht) E) as (r & Er & _).
  unfold entry_at. by rewrite Er.
Qed.

Lemma route_of_abs my ips ps S sid mtype alt :
  refines my ips ps S -> route_id sid mtype -> route_of (ps_ctx ps) sid mtype alt = alookup (as_act S) sid mtype alt.
Proof.
  intros R Hr. pose proof (rf_act _ _ _ _ R) as Ha. unfold tab_rel in Ha. unfold route_of, uta_get_rte, alookup.
  destruct (cr_rtable (ps_ctx ps)) as [rt|] eqn:Et, (as_act S) as [c|]; try done. destruct Ha as [HA _].
  assert (rt ∈ tables (ps_ctx ps)) as Hin by (unfold tables; rewrite Et; by left).
  destruct (pull_rte_abs _ rt _ _ (rf_inv _ _ _ _ R) Hin HA (route_id_key _ _ Hr)) as [E1 E2].
  destruct (pull_rte rt (build_rt_key sid mtype)) as [id|].
  - rewrite <-E1. simpl in *. destruct (entry_at _ id); [done|]. destruct E2 as [_ E2]. rewrite <-E1 in E2. by discriminate E2.
  - rewrite <-E1. simpl. destruct alt; [|done]. simpl. destruct (Z.eqb_spec sid UNSET_SUBID) as [->|Hne]; [done|]. simpl.
    apply (pull_rte_abs _ rt _ _ (rf_inv _ _ _ _ R) Hin HA). apply route_id_key. destruct Hr as (_ & Hm & _).
    split_and!; [unfold in_i32, UNSET_SUBID; lia|done|left; done].
Qed.

Lemma owner_of_abs my ips ps S meid :
  refines my ips ps S -> owner_of (ps_ctx ps) meid = aowner (as_act S) meid.
Proof.
  intros R. pose proof (rf_act _ _ _ _ R) as Ha. unfold tab_rel in Ha. unfold owner_of, get_meid_owner, aowner.
  destruct (cr_rtable (ps_ctx ps)) as [rt|] eqn:Et, (as_act S) as [c|]; try done. destruct Ha as [[_ HO] _].
  assert (rt ∈ tables (ps_ctx ps)) as Hin by (unfold tables; rewrite Et; by left).
  pose proof (proj1 (Forall_forall _ _) (ri_tabs _ (rf_inv _ _ _ _ R)) rt Hin) as T.
  destruct meid as [|b meid]; [done|]. rewrite <-HO. simpl.
  rewrite sm_get_abs by (done || apply T). unfold owner_at, habs. by destruct (sm_abs _ !! _) as [[]|].
Qed.
End lookup.

(** Records that can make a table active. *)
Definition is_end (buf : list Z) : bool :=
  match tokenise (trim_tail (skip_space buf)) 128 124 !! 1%nat with Some t => streq (clip t) $"end" | None => false end.

Lemma not_end_keeps my ips can wbuf S buf ack S' :
  is_end buf = false -> spec_rec my ips can wbuf S buf = Ret (ack, S') -> as_act S' = as_act S /\ (as_ready S' = as_ready S).
Proof.
  unfold is_end, spec_rec. destruct (tokenise _ 128 124) as [|t0 ts]; [by intros _ [= _ <-]|]. cbv zeta.
  destruct (clip t0) as [|ch t0']; [by intros _ [= _ <-]|]. set (t0c := ch :: t0').
  assert (forall c k A, spec_upd S c k A = Ret (ack, S') -> as_act S' = as_act S /\ as_ready S' = as_ready S) as Hupd.
  { intros c k A. unfold spec_upd. case_decide; [|done]. by intros [= _ <-]. }
  intros Hend. cbn [lookup list_lookup] in Hend.
  destruct (ch =? 35); [by intros [= _ <-]|].
  destruct (ch =? 100). { destruct (as_new S), ts as [|? [|? ?]]; try (by intros [= _ <-]). apply Hupd. }
  destruct (ch =? 110).
  { destruct ts as [|t1 ts]; [done|]. cbn [lookup list_lookup] in Hend. cbn [lookup list_lookup deref mbind comp_bind]. rewrite Hend. by intros [= _ <-]. }
  destruct (ch =? 109).
  { destruct (streq t0c $"mse").
    - destruct (as_new S), ts as [|? [|? [|? ?]]]; try (by intros [= _ <-]). apply Hupd.
    - unfold spec_meid. destruct ts as [|t1 rest]; [by intros [= _ <-]|]. cbn [lookup list_lookup] in Hend.
      destruct (streq t0c $"meid_map"); [destruct (bool_decide _); [by intros [= _ <-]|]; rewrite Hend; by intros [= _ <-]|].
      destruct (as_new S); [|by intros [= _ <-]].
      destruct (streq t0c $"mme_ar"); [destruct rest; by intros [= _ <-]|]. destruct (streq t0c $"mme_del"); by intros [= _ <-]. }
  destruct (ch =? 114).
  { destruct (as_new S); [|by intros [= _ <-]]. destruct ts as [|? [|? ?]]; [done..|]. cbn [lookup list_lookup deref mbind comp_bind]. apply Hupd. }
  destruct (ch =? 117); [|by intros [= _ <-]]. destruct (negb (as_full S)); [by intros [= _ <-]|].
  destruct ts as [|t1 ts]; [done|]. cbn [lookup list_lookup] in Hend. cbn [lookup list_lookup deref mbind comp_bind]. rewrite Hend. by intros [= _ <-].
Qed.

Lemma not_end_keeps_all my ips can wbuf bufs : forall S acks S',
  Forall (fun b => is_end b = false) bufs -> spec_recs my ips can wbuf S bufs = Ret (acks, S') ->
  as_act S' = as_act S /\ as_ready S' = as_ready S.
Proof.
  induction bufs as [|b bufs IH]; intros S acks S' HF Hs; cbn [spec_recs] in Hs; [by injection Hs as _ <-|].
  apply Forall_cons in HF as [Hb HF].
  apply comp_bind_ret in Hs as ([a1 S1] & H1 & Hs). apply comp_bind_ret in Hs as ([a2 S2] & H2 & [= _ <-]).
  destruct (not_end_keeps _ _ _ _ _ _ _ _ Hb H1) as [<- <-]. by eapply IH.
Qed.

(** ** Theorems *)

(** C1.  The parser implements the route table protocol: on every sequence of
    records that the abstract machine accepts, the code completes, sends the same
    state messages, and afterwards every lookup of a route (with the fall back to
    the route without subscription id) and of the owner of a managed element
    finds what the machine's active table has. *)
Theorem route_records_refine {TH TE : Type} `{Symbols TH thing} `{Symbols TE nat} gethostbyname my ips can wbuf bufs acks S' :
  spec_recs my ips can wbuf as_init bufs = Ret (acks, S') ->
  exists ps' : parser_t TH TE,
    parse_recs gethostbyname can wbuf (ps_init my ips) bufs = Ret (acks, ps') /\
    ps_ready ps' = as_ready S' /\
    (forall sid mtype alt, route_id sid mtype ->
       route_of (ps_ctx ps') sid mtype alt = alookup (as_act S') sid mtype alt) /\
    (forall meid, owner_of (ps_ctx ps') meid = aowner (as_act S') meid).
Proof.
  intros Hs. destruct (parse_recs_refines gethostbyname my ips can wbuf bufs _ _ _ _ (init_refines my ips) Hs) as (ps' & E & R).
  exists ps'. split; [done|]. split; [apply R|]. split.
  - intros. by eapply route_of_abs.
  - intros. by eapply owner_of_abs.
Qed.

(** C2.  Entries live as long as they are needed and no longer: after any such
    sequence of records an entry is allocated exactly while one of the (up to
    three) tables references it, and its reference count is the number of those
    tables; the managed elements of every table lead to endpoints that exist. *)
Theorem route_entry_lifetime {TH TE : Type} `{Symbols TH thing} `{Symbols TE nat} gethostbyname my ips can wbuf bufs acks S' :
  spec_recs my ips can wbuf as_init bufs = Ret (acks, S') ->
  exists ps' : parser_t TH TE,
    parse_recs gethostbyname can wbuf (ps_init my ips) bufs = Ret (acks, ps') /\
    let ctx := ps_ctx ps' in
    (forall id r, cr_rtes ctx !! id = Some r ->
       0 < rte_refs r /\ rte_refs r = count_refs id (rte_key r) (habs <$> tables ctx)) /\
    (forall rt k id, rt ∈ tables ctx -> pull_rte rt k = Some id -> valid_key (ANum k) ->
       exists r, cr_rtes ctx !! id = Some r /\ rte_key r = k) /\
    (forall rt meid id, rt ∈ tables ctx -> get_meid_owner rt meid = Some id -> is_Some (cr_eps ctx !! id)).
Proof.
  intros Hs. destruct (parse_recs_refines gethostbyname my ips can wbuf bufs _ _ _ _ (init_refines my ips) Hs) as (ps' & E & R).
  exists ps'. split; [done|]. pose proof (rf_inv _ _ _ _ R) as I. cbv zeta. split_and!.
  - intros id r Er. destruct (ro_refs _ _ (ri_refs _ I) id r Er). done.
  - intros rt k id Ht. pose proof (proj1 (Forall_forall _ _) (ri_tabs _ I) rt Ht) as T. intros Hp Hk. revert Hp.
    unfold pull_rte. rewrite sm_get_abs by (done || apply T). fold (habs rt).
    destruct (habs rt !! ANum k) as [[i|i]|] eqn:El; [|done..]. intros [= ->].
    destruct (ro_live _ _ (ri_refs _ I) (habs rt) (ANum k) id (habs_fmap_in _ _ Ht) El) as (r & Er & [= ->]). by exists r.
  - intros rt meid id Ht. pose proof (proj1 (Forall_forall _ _) (ri_tabs _ I) rt Ht) as T.
    unfold get_meid_owner. destruct meid as [|b m]; [done|]. rewrite sm_get_abs by (done || apply T).
    destruct (sm_abs _ !! _) as [[i|i]|] eqn:El; [done| |done]. intros [= ->].
    by destruct (to_me _ _ T _ _ _ El) as (_ & ? & [= ->] & ?).
Qed.

(** C4.  A table is built on the side: while no end record arrives, senders find
    the same routes and owners, whatever records of a table are processed (or
    dropped because the next table starts). *)
Theorem table_built_on_the_side {TH TE : Type} `{Symbols TH thing} `{Symbols TE nat} gethostbyname my ips can wbuf
    before acks S bufs acks' S' (ps : parser_t TH TE) :
  spec_recs my ips can wbuf as_init before = Ret (acks, S) ->
  parse_recs gethostbyname can wbuf (ps_init my ips) before = Ret (acks, ps) ->
  Forall (fun b => is_end b = false) bufs -> spec_recs my ips can wbuf S bufs = Ret (acks', S') ->
  exists ps', parse_recs gethostbyname can wbuf ps bufs = Ret (acks', ps') /\ ps_ready ps' = ps_ready ps /\
    (forall sid mtype alt, route_id sid mtype -> route_of (ps_ctx ps') sid mtype alt = route_of (ps_ctx ps) sid mtype alt) /\
    (forall meid, owner_of (ps_ctx ps') meid = owner_of (ps_ctx ps) meid).
Proof.
  intros Hs Hp HF Hs'. destruct (parse_recs_refines gethostbyname my ips can wbuf before _ _ _ _ (init_refines my ips) Hs) as (ps1 & E & R).
  rewrite Hp in E. injection E as <-.
  destruct (parse_recs_refines gethostbyname my ips can wbuf bufs _ _ _ _ R Hs') as (ps' & E' & R').
  destruct (not_end_keeps_all _ _ _ _ _ _ _ _ HF Hs') as [Ea Er]. exists ps'. split; [done|]. split_and!.
  - rewrite (rf_ready _ _ _ _ R), (rf_ready _ _ _ _ R'). done.
  - intros. rewrite (route_of_abs _ _ _ _ _ _ _ R), (route_of_abs _ _ _ _ _ _ _ R') by done. by rewrite Ea.
  - intros. rewrite (owner_of_abs _ _ _ _ _ R), (owner_of_abs _ _ _ _ _ R'). by rewrite Ea.
Qed.

(** C3.  The end record decides: when it counts as many records as were received
    the table under construction becomes active as a whole, is acknowledged, and
    routed sends may start; otherwise it is refused with the two counts and senders go
    on with the routes they had.  Either way no table is under construction. *)
Theorem end_record_commits_or_rejects {TH TE : Type} `{Symbols TH thing} `{Symbols TE nat} gethostbyname my ips can wbuf
    bufs acks S (ps : parser_t TH TE) c buf n rest :
  spec_recs my ips can wbuf as_init bufs = Ret (acks, S) ->
  parse_recs gethostbyname can wbuf (ps_init my ips) bufs = Ret (acks, ps) ->
  as_new S = Some c -> tokenise (trim_tail (skip_space buf)) 128 124 = $"newrt" :: $"end" :: n :: rest ->
  exists ack ps', parse_rt_rec gethostbyname can wbuf ps buf = Ret (ack, ps') /\ cr_new (ps_ctx ps') = None /\
    if ct_upd c =? atoi n
    then ack = send_rt_ack can (as_id S) true None /\ ps_ready ps' = true /\
         (forall sid mtype alt, route_id sid mtype -> route_of (ps_ctx ps') sid mtype alt = alookup (Some c) sid mtype alt) /\
         (forall meid, owner_of (ps_ctx ps') meid = aowner (Some c) meid)
    else ack = send_rt_ack can (as_id S) false (Some (missing_records n (ct_upd c))) /\ ps_ready ps' = ps_ready ps /\
         (forall sid mtype alt, route_id sid mtype -> route_of (ps_ctx ps') sid mtype alt = route_of (ps_ctx ps) sid mtype alt) /\
         (forall meid, owner_of (ps_ctx ps') meid = owner_of (ps_ctx ps) meid).
Proof.
  intros Hs Hp En Ht. destruct (parse_recs_refines gethostbyname my ips can wbuf bufs _ _ _ _ (init_refines my ips) Hs) as (ps1 & E & R).
  rewrite Hp in E. injection E as <-.
  assert (spec_rec my ips can wbuf S buf = if ct_upd c =? atoi n then Ret (spec_roll can true true S)
    else Ret (send_rt_ack can (as_id S) false (Some (missing_records n (ct_upd c))),
              MkA (as_act S) (as_old S) None (as_id S) (as_full S) (as_ready S))) as Hr.
  { unfold spec_rec. rewrite Ht. cbv zeta. change (clip $"newrt") with ($"newrt").
    simpl. unfold spec_end. simpl. rewrite En. simpl. by destruct (ct_upd c =? atoi n). }
  pose proof (parse_refines gethostbyname my ips can wbuf ps S buf R) as Hsim. unfold sim in Hsim. rewrite Hr in Hsim.
  destruct (Z.eqb_spec (ct_upd c) (atoi n)) as [_|_].
  - unfold spec_roll in Hsim. rewrite En in Hsim. destruct (Hsim _ _ eq_refl) as (ps' & Ep & R').
    eexists _, ps'. split; [done|]. split; [by apply (refines_new_none _ _ _ _ R')|]. split_and!; try done.
    + by rewrite (rf_ready _ _ _ _ R').
    + intros. by rewrite (route_of_abs _ _ _ _ _ _ _ R').
    + intros. by rewrite (owner_of_abs _ _ _ _ _ R').
  - destruct (Hsim _ _ eq_refl) as (ps' & Ep & R').
    eexists _, ps'. split; [done|]. split; [by apply (refines_new_none _ _ _ _ R')|]. split_and!; try done.
    + by rewrite (rf_ready _ _ _ _ R'), (rf_ready _ _ _ _ R).
    + intros. by rewrite (route_of_abs _ _ _ _ _ _ _ R'), (route_of_abs _ _ _ _ _ _ _ R).
    + intros. by rewrite (owner_of_abs _ _ _ _ _ R'), (owner_of_abs _ _ _ _ _ R).
Qed.

(** Records outside of the protocol are not refused: an end record with a
    count while no table is under construction, a start or end record without
    its second field and, while a table is built, a route record without
    endpoints make the code use a nil pointer. *)
Theorem malformed_records_are_undefined {TH TE : Type} `{Symbols TH thing} `{Symbols TE nat} gethostbyname can wbuf (ps : parser_t TH TE) :
  parse_rt_rec gethostbyname can wbuf ps $"newrt" = UB /\
  (if cr_new (ps_ctx ps) is Some _
   then parse_rt_rec gethostbyname can wbuf ps $"rte|10" = UB
   else parse_rt_rec gethostbyname can wbuf ps $"newrt|end|0" = UB /\
        parse_rt_rec gethostbyname can wbuf ps $"meid_map|end|0" = UB).
Proof.
  unfold parse_rt_rec.
  change (tokenise (trim_tail (skip_space $"newrt")) 128 124) with [ $"newrt" ].
  split; [done|]. destruct (cr_new (ps_ctx ps)) as [rt|] eqn:En.
  - change (tokenise (trim_tail (skip_space $"rte|10")) 128 124) with [ $"rte"; $"10" ].
    cbn -[count_update]. unfold count_update. by rewrite En.
  - split.
    + change (tokenise (trim_tail (skip_space $"newrt|end|0")) 128 124) with [ $"newrt"; $"end"; $"0" ].
      unfold end_table. simpl. by rewrite En.
    + change (tokenise (trim_tail (skip_space $"meid_map|end|0")) 128 124) with [ $"meid_map"; $"end"; $"0" ].
      unfold meid_parser, end_table. simpl. by rewrite En.
Qed.

(** ** The static table *)

Fixpoint file_recs (rec buf : list Z) : list (list Z) :=
  match buf with
  | [] => []
  | c :: buf' => if c =? 10 then rec :: file_recs [] buf' else file_recs (rec ++ [c]) buf'
  end.

Lemma read_recs_parse {TH TE : Type} `{Symbols TH thing} `{Symbols TE nat} gethostbyname buf : forall (ps : parser_t TH TE) rec x,
  parse_recs gethostbyname false [] ps (file_recs rec buf) = Ret x -> read_recs gethostbyname ps rec buf = Ret x.2.
Proof.
  induction buf as [|c buf IH]; intros ps rec x E; cbn [read_recs file_recs] in *; [by injection E as <-|].
  destruct (c =? 10); [|by apply IH]. cbn [parse_recs] in E.
  apply comp_bind_ret in E as ([a1 ps1] & -> & E). apply comp_bind_ret in E as ([a2 ps2] & E2 & [= <-]).
  cbn [mbind comp_bind snd]. by rewrite (IH ps1 [] _ E2).
Qed.

(** The lines of a file, ended by \n, \r or \r\n, the last one perhaps not ended. *)
Definition static_recs (file : option (list Z)) : list (list Z) :=
  file_recs [] (map (fun c => if c =? 13 then 10 else c) (ensure_nlterm (cstr_of <$> file))).

(** A seed table in a file has the effect of its lines as records: after it
    was read, senders find what the abstract machine has after these records. *)
Theorem static_table_refines {TH TE : Type} `{Symbols TH thing} `{Symbols TE nat} gethostbyname my ips file acks S' :
  spec_recs my ips false [] as_init (static_recs file) = Ret (acks, S') ->
  exists ps' : parser_t TH TE,
    read_static_rt gethostbyname (ps_init my ips) file = Ret ps' /\ ps_ready ps' = as_ready S' /\
    (forall sid mtype alt, route_id sid mtype ->
       route_of (ps_ctx ps') sid mtype alt = alookup (as_act S') sid mtype alt) /\
    (forall meid, owner_of (ps_ctx ps') meid = aowner (as_act S') meid).
Proof.
  intros Hs. destruct (parse_recs_refines gethostbyname my ips false [] _ _ _ _ _ (init_refines my ips) Hs) as (ps' & E & R).
  exists ps'. split; [by apply (read_recs_parse gethostbyname _ _ _ (acks, ps'))|]. split; [apply R|]. split.
  - intros. by eapply route_of_abs.
  - intros. by eapply owner_of_abs.
Qed.

(** ** Examples *)

Abbreviation stab := (parser_t (Sym_tab thing) (Sym_tab nat)).

Definition ex_ip : option if_addrs_t := None.
Definition ex_start : list (list Z) :=
  [ $"newrt|start|T1"; $"rte|10|a:1,b:2;c:3"; $"mse|11,me:4560|7| %meid # by managed element"; $"rte|12,you:1|a:1" ].
Definition ex_table : list (list Z) :=
  ex_start ++ [ $"newrt|end|3"; $"meid_map|start|M1"; $"mme_ar|e2:1|m1 m2"; $"meid_map|end|1" ].
Definition ex_group : Z * list (option (list Z)) := (0, [Some $"a:1"; Some $"b:2"]).

Lemma route_records_refine_witness :
  exists acks (ps : stab), parse_recs (fun _ => None) true [] (ps_init $"me:4560" ex_ip) ex_table = Ret (acks, ps) /\
    route_of (ps_ctx ps) 5 10 true = Some (10, [Some ex_group; Some (0, [Some $"c:3"])]) /\
    route_of (ps_ctx ps) 7 11 true = Some (11, []) /\ route_of (ps_ctx ps) (-1) 12 true = None /\
    owner_of (ps_ctx ps) $"m2" = Some $"e2:1".
Proof.
  eexists. edestruct (route_records_refine (TH := Sym_tab thing) (TE := Sym_tab nat) (fun _ => None) $"me:4560" ex_ip true [] ex_table)
    as (ps & E & _ & Hr & Ho); [vm_compute; reflexivity|].
  exists ps. split; [exact E|]. rewrite !Hr, Ho by (unfold route_id, in_i32; lia). vm_compute. split_and!; reflexivity.
Defined.

Lemma route_entry_lifetime_witness :
  exists acks (ps : stab), parse_recs (fun _ => None) true [] (ps_init $"me:4560" ex_ip) ex_table = Ret (acks, ps) /\
    forall id r, cr_rtes (ps_ctx ps) !! id = Some r ->
      0 < rte_refs r /\ rte_refs r = count_refs id (rte_key r) (habs <$> tables (ps_ctx ps)).
Proof.
  eexists. edestruct (route_entry_lifetime (TH := Sym_tab thing) (TE := Sym_tab nat) (fun _ => None) $"me:4560" ex_ip true [] ex_table)
    as (ps & E & Hr & _); [vm_compute; reflexivity|].
  exists ps. split; [exact E|exact Hr].
Defined.

(** The machine after an example, evaluated. *)
Definition ex_small : list (list Z) := [ $"newrt|start|T1"; $"rte|10|a:1,b:2"; $"newrt|end|1" ].
Definition ex_more : list (list Z) := [ $"newrt|start|T2"; $"rte|10|z:9"; $"del|10|-1" ].
Definition ex_acks1 := Eval vm_compute in
  match spec_recs $"me:4560" ex_ip true [] as_init ex_small with Ret x => x.1 | UB => [] end.
Definition ex_state1 := Eval vm_compute in
  match spec_recs $"me:4560" ex_ip true [] as_init ex_small with Ret x => x.2 | UB => as_init end.
Definition ex_state2 := Eval vm_compute in
  match spec_recs $"me:4560" ex_ip true [] ex_state1 ex_more with Ret x => x.2 | UB => as_init end.

Lemma ex_small_runs : exists ps : stab,
  parse_recs (fun _ => None) true [] (ps_init $"me:4560" ex_ip) ex_small = Ret (ex_acks1, ps).
Proof.
  destruct (parse_recs_refines (fun _ => None) $"me:4560" ex_ip true [] ex_small _ _ ex_acks1 ex_state1
    (init_refines (TH := Sym_tab thing) (TE := Sym_tab nat) $"me:4560" ex_ip) eq_refl) as (ps & E & _). by exists ps.
Qed.

Lemma table_built_on_the_side_witness :
  exists ps ps' : stab,
    parse_recs (fun _ => None) true [] (ps_init $"me:4560" ex_ip) ex_small = Ret (ex_acks1, ps) /\
    parse_recs (fun _ => None) true [] ps ex_more = Ret ([None; None; None], ps') /\
    route_of (ps_ctx ps') 5 10 true = route_of (ps_ctx ps) 5 10 true.
Proof.
  destruct ex_small_runs as [ps Ep].
  destruct (table_built_on_the_side (fun _ => None) $"me:4560" ex_ip true [] ex_small ex_acks1 ex_state1
    ex_more [None; None; None] ex_state2 ps eq_refl Ep) as (ps' & E & _ & Hr & _); [|reflexivity|].
  { repeat (apply Forall_cons; split; [reflexivity|]). constructor. }
  exists ps, ps'. split; [exact Ep|]. split; [exact E|]. apply Hr. unfold route_id, in_i32. lia.
Defined.

Definition ex_half : list (list Z) := [ $"newrt|start|T1"; $"rte|10|a:1,b:2" ].
Definition ex_state_half := Eval vm_compute in
  match spec_recs $"me:4560" ex_ip true [] as_init ex_half with Ret x => x.2 | UB => as_init end.
Definition ex_counted_half := Eval vm_compute in default (MkC (MkAT ∅ ∅) 0 0) (as_new ex_state_half).

Lemma ex_half_runs : exists ps : stab,
  parse_recs (fun _ => None) true [] (ps_init $"me:4560" ex_ip) ex_half = Ret ([None; None], ps).
Proof.
  destruct (parse_recs_refines (fun _ => None) $"me:4560" ex_ip true [] ex_half _ _ [None; None] ex_state_half
    (init_refines (TH := Sym_tab thing) (TE := Sym_tab nat) $"me:4560" ex_ip) eq_refl) as (ps & E & _). by exists ps.
Qed.

Lemma end_record_commits_or_rejects_witness :
  exists ps ps' : stab,
    parse_recs (fun _ => None) true [] (ps_init $"me:4560" ex_ip) ex_half = Ret ([None; None], ps) /\
    parse_rt_rec (fun _ => None) true [] ps $"newrt|end|4" =
      Ret (send_rt_ack true (Some $"T1") false (Some (missing_records $"4" 1)), ps') /\
    route_of (ps_ctx ps') 5 10 true = route_of (ps_ctx ps) 5 10 true.
Proof.
  destruct ex_half_runs as [ps Ep].
  destruct (end_record_commits_or_rejects (fun _ => None) $"me:4560" ex_ip true [] ex_half [None; None] ex_state_half
    ps ex_counted_half $"newrt|end|4" $"4" [] eq_refl Ep eq_refl eq_refl) as (ack & ps' & E & _ & Ea & _ & Hr & _).
  exists ps, ps'. split; [exact Ep|]. split; [rewrite E, Ea; reflexivity|]. apply Hr. unfold route_id, in_i32. lia.
Defined.

Lemma static_table_refines_witness :
  exists ps : stab, read_static_rt (fun _ => None) (ps_init $"me:4560" ex_ip)
      (Some ($"newrt|start" ++ [13; 10] ++ $"rte|10|a:1,b:2" ++ [10] ++ $"newrt|end|1")) = Ret ps /\
    ps_ready ps = true /\ route_of (ps_ctx ps) (-1) 10 true = Some (10, [Some ex_group]).
Proof.
  edestruct (static_table_refines (TH := Sym_tab thing) (TE := Sym_tab nat) (fun _ => None) $"me:4560" ex_ip
    (Some ($"newrt|start" ++ [13; 10] ++ $"rte|10|a:1,b:2" ++ [10] ++ $"newrt|end|1"))) as (ps & E & Hready & Hr & _);
    [vm_compute; reflexivity|].
  exists ps. split; [exact E|]. rewrite Hready, Hr by (unfold route_id, in_i32; lia). vm_compute. split; reflexivity.
Defined.
