(* ===== verification/Stash.v ===== *)
(** Saving the route table: cycle_snarfed_rt, uta_fib and the writing of records
    in parse_rt_rec, of src/src/rmr/common/src/rt_generic_static.c.

    The collector writes every record that it gets to a temporary file; with an end
    record the file is renamed to the name of the stash and a new one is opened.
    The stash can be the seed of the next start (read_static_rt, RtParser.v).

    Files are a finite map from names to contents; what the system calls of one
    cycle answer is a [cycle_res]; writes are complete. *)

From S2P Require Import Prelude Bytes Symtab SymIface Tools Mbuf Endpoint RouteTable RtInv RtSpec RtParser RtRefine.

(** ** State *)

(** snarf_rt_fd: -1, a descriptor of the named file, or one that was closed. *)
Inductive stash_fd := NoFd | OpenFd (name : list Z) | ClosedFd.

Record stash_t := MkStash {
  sh_files : gmap (list Z) (list Z);
  sh_fd : stash_fd
}.

(** RMR_STASH_RT and RMR_SEED_RT. *)
Record stash_env := MkEnv { se_stash : option (list Z); se_seed : option (list Z) }.

(** Whether close, unlink, rename and open succeed. *)
Record cycle_res := MkCycle { cy_close : bool; cy_unlink : bool; cy_rename : bool; cy_open : bool }.

(** ** Operations *)

Definition stash_write (bytes : list Z) (st : stash_t) : stash_t :=
  match sh_fd st with
  | OpenFd f => MkStash (<[f := default [] (sh_files st !! f) ++ bytes]> (sh_files st)) (sh_fd st)
  | _ => st
  end.

Definition captured_msg : list Z := $"### captured from route manager" ++ [10].

Definition stash_name (env : stash_env) : option (list Z) :=
  match se_stash env with Some n => Some n | None => (fun s => snprintf 511 (s ++ $".stash")) <$> se_seed env end.

Definition tmp_name (n : list Z) : list Z := snprintf 511 (n ++ $".inc").

(** A close that fails leaves snarf_rt_fd as it is; the name is gone in any case
    when the rename succeeds. *)
Definition cycle_snarfed_rt (env : stash_env) (r : cycle_res) (st : stash_t) : stash_t :=
  match stash_name env with
  | None => st
  | Some name =>
      let tfname := tmp_name name in
      let moved :=
        match sh_fd st with
        | NoFd => Some (sh_files st)
        | fd =>
            let st := stash_write captured_msg st in
            if (match fd with ClosedFd => true | _ => negb (cy_close r) end) then None
            else
              let files := if cy_unlink r then delete name (sh_files st) else sh_files st in
              Some (if cy_rename r
                    then match files !! tfname with Some c => <[name := c]> (delete tfname files) | None => files end
                    else files)
        end in
      match moved with
      | None => MkStash (sh_files (stash_write captured_msg st)) ClosedFd
      | Some files => if cy_open r then MkStash (<[tfname := []]> files) (OpenFd tfname) else MkStash files NoFd
      end
  end.

Definition rec_tokens (buf : list Z) : list (list Z) :=
  match tokenise (trim_tail (skip_space buf)) 128 124 with [] => [] | t0 :: ts => clip t0 :: ts end.

Definition rec_kind (buf : list Z) : Z := match rec_tokens buf with (c :: _) :: _ => c | _ => 0 end.

Definition second_is_end (buf : list Z) : bool :=
  match rec_tokens buf !! 1%nat with Some t => streq (clip t) $"end" | None => false end.

Section stash.
Context {TH TE : Type} `{Symbols TH thing} `{Symbols TE nat}.
Variable gethostbyname : list Z -> option (list Z).

(** Whether a record starts a new file: the end of a table, and of an update that
    is under way; the count in the record is looked at later. *)
Definition cycles (ps : parser_t TH TE) (buf : list Z) : bool :=
  second_is_end buf &&
  ((rec_kind buf =? 110) ||
   ((rec_kind buf =? 117) && ps_fullrt ps && match cr_new (ps_ctx ps) with Some _ => true | None => false end)).

(** parse_rt_rec with its writes. *)
Definition stash_rec (env : stash_env) (r : cycle_res) (can : bool) (wbuf : list Z) (s : parser_t TH TE * stash_t) (buf : list Z) :
    comp (option (list Z) * (parser_t TH TE * stash_t)) :=
  let st := match sh_fd s.2 with NoFd => s.2 | _ => stash_write (buf ++ [10]) s.2 end in
  let st := match sh_fd s.2 with NoFd => st | _ => if cycles s.1 buf then cycle_snarfed_rt env r st else st end in
  '(ack, ps) ← parse_rt_rec gethostbyname can wbuf s.1 buf;
  Ret (ack, (ps, st)).

Fixpoint stash_recs (env : stash_env) (r : cycle_res) (can : bool) (wbuf : list Z) (s : parser_t TH TE * stash_t) (bufs : list (list Z)) :
    comp (list (option (list Z)) * (parser_t TH TE * stash_t)) :=
  match bufs with
  | [] => Ret ([], s)
  | b :: bufs' => x ← stash_rec env r can wbuf s b; y ← stash_recs env r can wbuf x.2 bufs'; Ret (x.1 :: y.1, y.2)
  end.
End stash.

(** uta_fib: the file can be opened, its size if fstat gives it, memory, and what
    a read of so many bytes gives.  The buffer, up to the terminator. *)
Definition uta_fib (opens : bool) (size : option Z) (mem : bool) (read : Z -> option (list Z)) : option (list Z) :=
  let fsize := default 8192 size in
  if negb opens || (fsize <=? 0) then if mem then Some [] else None
  else if negb mem then None
  else match read fsize with
       | Some d => if fsize <? zlen d then None else Some d
       | None => None
       end.

(** * Theorems *)

Definition all_ok : cycle_res := MkCycle true true true true.

(** Records as lines, and what a line can hold. *)
Definition lines (recs : list (list Z)) : list Z := concat ((fun r => r ++ [10]) <$> recs).
Definition clean (r : list Z) : Prop := is_cstr r /\ (10 ∉ r) /\ (13 ∉ r).

(** ** The file *)

(** The name of the stash, and the records in the temporary file. *)
Record stash_open (env : stash_env) (name : list Z) (pend : list (list Z)) (st : stash_t) : Prop := {
  so_name : stash_name env = Some name;
  so_short : zlen name <= 500;
  so_fd : sh_fd st = OpenFd (tmp_name name);
  so_file : sh_files st !! tmp_name name = Some (lines pend)
}.

Lemma tmp_name_ne n : zlen n <= 500 -> tmp_name n <> n.
Proof.
  intros Hl E. unfold tmp_name, snprintf in E. unfold zlen in Hl. rewrite take_ge in E by (rewrite length_app; cbn; lia).
  apply (f_equal length) in E. rewrite length_app in E. cbn in E. lia.
Qed.

Lemma lines_app l r : lines (l ++ r) = lines l ++ lines r.
Proof. unfold lines. by rewrite fmap_app, concat_app. Qed.

Lemma lines_snoc l r : lines (l ++ [r]) = lines l ++ r ++ [10].
Proof. rewrite lines_app. unfold lines at 2. cbn. by rewrite app_nil_r. Qed.

Lemma write_open env name pend st r : stash_open env name pend st -> stash_open env name (pend ++ [r]) (stash_write (r ++ [10]) st).
Proof.
  intros [Hn Hs Hf Hc]. unfold stash_write. rewrite Hf. split; cbn; try done. by rewrite lookup_insert_eq, Hc, lines_snoc.
Qed.

Lemma write_other env name pend st r f : stash_open env name pend st -> f <> tmp_name name ->
  sh_files (stash_write r st) !! f = sh_files st !! f.
Proof. intros [_ _ Hf _] Hne. unfold stash_write. rewrite Hf. cbn. by rewrite lookup_insert_ne by done. Qed.

(** A cycle: the temporary file becomes the stash. *)
Lemma cycle_open env name pend st : stash_open env name pend st ->
  let st' := cycle_snarfed_rt env all_ok st in
  stash_open env name [] st' /\ sh_files st' !! name = Some (lines pend ++ captured_msg).
Proof.
  intros [Hn Hs Hf Hc]. pose proof (tmp_name_ne name Hs) as Hne. unfold cycle_snarfed_rt. rewrite Hn, Hf.
  cbn [cy_close cy_unlink cy_rename cy_open all_ok negb]. unfold stash_write. rewrite Hf, Hc. cbn [sh_files default from_option].
  rewrite lookup_delete_ne, lookup_insert_eq by done. split; [split; cbn; try done; by rewrite lookup_insert_eq|].
  cbn. rewrite lookup_insert_ne by done. by rewrite lookup_insert_eq.
Qed.

(** The first cycle opens the file. *)
Lemma first_cycle env name files : stash_name env = Some name -> zlen name <= 500 ->
  stash_open env name [] (cycle_snarfed_rt env all_ok (MkStash files NoFd)).
Proof. intros Hn Hs. unfold cycle_snarfed_rt. rewrite Hn. split; cbn; try done. by rewrite lookup_insert_eq. Qed.

(** ** Reading it back *)

Lemma file_recs_line rec r rest : 10 ∉ r -> file_recs rec (r ++ 10 :: rest) = (rec ++ r) :: file_recs [] rest.
Proof.
  revert rec. induction r as [|c r IH]; intros rec Hr; cbn [app file_recs]; [by rewrite app_nil_r|].
  destruct (Z.eqb_spec c 10) as [->|]; [exfalso; apply Hr; by left|]. rewrite IH by (intros Hi; apply Hr; by right). by rewrite <-app_assoc.
Qed.

Lemma file_recs_lines recs : Forall clean recs -> file_recs [] (lines recs) = recs.
Proof.
  induction recs as [|r recs IH]; intros Hf; [done|]. apply Forall_cons in Hf as [(Hc & Hn & _) Hf].
  change (lines (r :: recs)) with ((r ++ [10]) ++ lines recs). rewrite <-app_assoc. cbn [app]. rewrite file_recs_line by done. cbn [app]. by rewrite IH.
Qed.

Lemma lines_chars recs : Forall clean recs -> Forall (fun c => 0 < c < 256 /\ c <> 13) (lines recs).
Proof.
  induction recs as [|r recs IH]; intros Hf; [constructor|]. apply Forall_cons in Hf as [(Hc & _ & Hn) Hf].
  change (lines (r :: recs)) with ((r ++ [10]) ++ lines recs). apply Forall_app. split; [|by apply IH]. apply Forall_app. split; [|by repeat constructor].
  apply Forall_forall. intros c Hi. split; [by apply (proj1 (Forall_forall _ _) Hc)|]. by intros ->.
Qed.

Lemma cstr_of_self s : Forall (fun c => 0 < c < 256 /\ c <> 13) s -> cstr_of s = s.
Proof.
  induction s as [|c s IH]; intros Hf; [done|]. apply Forall_cons in Hf as [[Hc _] Hf]. cbn. destruct (Z.eqb_spec c 0); [lia|]. by rewrite IH.
Qed.

Lemma no_returns s : Forall (fun c => 0 < c < 256 /\ c <> 13) s -> map (fun c => if c =? 13 then 10 else c) s = s.
Proof.
  induction s as [|c s IH]; intros Hf; [done|]. apply Forall_cons in Hf as [[_ Hc] Hf]. cbn. destruct (Z.eqb_spec c 13); [done|]. by rewrite IH.
Qed.

Definition captured_rec : list Z := $"### captured from route manager".

Lemma static_recs_saved recs : Forall clean recs ->
  static_recs (Some (lines recs ++ captured_msg)) = recs ++ [captured_rec].
Proof.
  intros Hf. assert (lines recs ++ captured_msg = lines (recs ++ [captured_rec])) as -> by (by rewrite lines_snoc).
  assert (Forall clean (recs ++ [captured_rec])) as Hf'.
  { apply Forall_app. split; [done|]. constructor; [|constructor]. unfold clean. apply (bool_decide_unpack _). vm_compute. exact I. }
  pose proof (lines_chars _ Hf') as Hc. unfold static_recs. cbn [fmap option_fmap option_map]. rewrite cstr_of_self by done.
  assert (ensure_nlterm (Some (lines (recs ++ [captured_rec]))) = lines (recs ++ [captured_rec])) as ->.
  { unfold ensure_nlterm. rewrite lines_snoc, app_assoc, last_snoc. cbn. by destruct ((_ ++ _) ++ _) eqn:E; [apply (f_equal length) in E; rewrite !length_app in E; cbn in E; lia|]. }
  rewrite no_returns by done. by apply file_recs_lines.
Qed.

(** ** Records and the file *)

(** A record that never starts a new file. *)
Definition quiet (buf : list Z) : bool := negb (second_is_end buf && ((rec_kind buf =? 110) || (rec_kind buf =? 117))).

Section run.
Context {TH TE : Type} `{Symbols TH thing} `{Symbols TE nat}.
Variable gethostbyname : list Z -> option (list Z).
Variables (my : list Z) (ips : option if_addrs_t) (env : stash_env) (name : list Z) (can : bool) (wbuf : list Z).
Implicit Types (ps : parser_t TH TE) (S : astate) (st : stash_t).

Lemma quiet_cycles ps buf : quiet buf = true -> cycles ps buf = false.
Proof.
  unfold quiet, cycles. destruct (second_is_end buf); [|done]. cbn. destruct (rec_kind buf =? 110); [done|]. cbn. by destruct (rec_kind buf =? 117).
Qed.

Lemma stash_step r pend ps st S buf ack S' :
  stash_open env name pend st -> refines my ips ps S -> spec_rec my ips can wbuf S buf = Ret (ack, S') ->
  exists ps', refines my ips ps' S' /\
    let st1 := stash_write (buf ++ [10]) st in
    stash_rec gethostbyname env r can wbuf (ps, st) buf =
      Ret (ack, (ps', if cycles ps buf then cycle_snarfed_rt env r st1 else st1)).
Proof.
  intros Ho R Hs. destruct (parse_refines gethostbyname my ips can wbuf ps S buf R ack S' Hs) as (ps' & E & R').
  exists ps'. split; [done|]. unfold stash_rec. cbn [fst snd]. rewrite (so_fd _ _ _ _ Ho), E. done.
Qed.

Lemma stash_quiet r bufs : forall pend ps st S acks S',
  Forall (fun b => quiet b = true) bufs -> stash_open env name pend st -> refines my ips ps S ->
  spec_recs my ips can wbuf S bufs = Ret (acks, S') ->
  exists ps' st', stash_recs gethostbyname env r can wbuf (ps, st) bufs = Ret (acks, (ps', st')) /\
    refines my ips ps' S' /\ stash_open env name (pend ++ bufs) st'.
Proof.
  induction bufs as [|b bufs IH]; intros pend ps st S acks S' Hq Ho R Hs; cbn [spec_recs stash_recs] in *.
  { injection Hs as <- <-. exists ps, st. by rewrite app_nil_r. }
  apply Forall_cons in Hq as [Hb Hq].
  apply comp_bind_ret in Hs as ([a S1] & E1 & Hs). apply comp_bind_ret in Hs as ([acks1 S2] & E2 & [= <- <-]).
  destruct (stash_step r _ _ _ _ _ _ _ Ho R E1) as (ps1 & R1 & ->). cbn [mbind comp_bind snd fst]. rewrite quiet_cycles by done.
  destruct (IH (pend ++ [b]) ps1 (stash_write (b ++ [10]) st) S1 acks1 S2 Hq) as (ps2 & st2 & -> & R2 & Ho2); [by apply write_open|done..|].
  exists ps2, st2. split; [done|]. split; [done|]. by rewrite <-app_assoc in Ho2.
Qed.

(** Records up to the end of a table or update: they are the file. *)
Lemma stash_saved bufs b ps st S acks S1 ack S' :
  Forall (fun b => quiet b = true) bufs -> stash_open env name [] st -> refines my ips ps S ->
  spec_recs my ips can wbuf S bufs = Ret (acks, S1) -> spec_rec my ips can wbuf S1 b = Ret (ack, S') ->
  second_is_end b = true -> rec_kind b = 110 \/ (rec_kind b = 117 /\ as_full S1 = true /\ is_Some (as_new S1)) ->
  exists ps' st', stash_recs gethostbyname env all_ok can wbuf (ps, st) (bufs ++ [b]) = Ret (acks ++ [ack], (ps', st')) /\
    refines my ips ps' S' /\ stash_open env name [] st' /\ sh_files st' !! name = Some (lines (bufs ++ [b]) ++ captured_msg).
Proof.
  intros Hq Ho R Hs Hb He Hk.
  destruct (stash_quiet all_ok bufs [] ps st S acks S1 Hq Ho R Hs) as (ps1 & st1 & E1 & R1 & Ho1).
  destruct (stash_step all_ok _ _ _ _ _ _ _ Ho1 R1 Hb) as (ps2 & R2 & E2). cbv zeta in E2.
  assert (cycles ps1 b = true) as Hc.
  { unfold cycles. rewrite He. destruct Hk as [->|(-> & Hf & [c Hn])]; [done|]. rewrite (rf_full _ _ _ _ R1), Hf.
    destruct (refines_new_some _ _ _ _ _ R1 Hn) as (rt & -> & _). done. }
  rewrite Hc in E2. pose proof (write_open _ _ _ _ b Ho1) as Ho2. destruct (cycle_open _ _ _ _ Ho2) as [Ho3 Hf].
  eexists ps2, _. split; [|split; [exact R2|split; [exact Ho3|exact Hf]]].
  clear -E1 E2. revert ps st acks E1. induction bufs as [|b' bufs IH]; intros ps st acks E1; cbn [app stash_recs] in *.
  - injection E1 as <- <- <-. rewrite E2. done.
  - apply comp_bind_ret in E1 as ([a s] & -> & E1). apply comp_bind_ret in E1 as ([acks1 s1] & E & [= <- ->]).
    destruct s as [ps' st']. cbn [mbind comp_bind snd fst] in *. by rewrite (IH _ _ _ E).
Qed.
End run.

(** ** What a saved table says *)

(** A record of a table: rte, mse and del records, comments and blanks. *)
Definition route_rec (buf : list Z) : bool :=
  match rec_tokens buf with
  | [] => true
  | t0 :: _ =>
      match t0 with
      | [] => true
      | c :: _ => (c =? 35) || (c =? 100) || (c =? 114) || ((c =? 109) && streq t0 $"mse")
      end
  end.

Definition starts_table (buf : list Z) : bool := (rec_kind buf =? 110) && bool_decide (1 < length (rec_tokens buf))%nat && negb (second_is_end buf).

Definition same_routes (c c' : counted) : Prop := at_routes (ct_tab c) = at_routes (ct_tab c') /\ ct_upd c = ct_upd c'.

Lemma route_rec_quiet buf : route_rec buf = true -> quiet buf = true.
Proof.
  unfold route_rec, quiet, rec_kind. destruct (rec_tokens buf) as [|[|c t] ts]; rewrite ?andb_false_r; [done..|].
  destruct (Z.eqb_spec c 110) as [->|]; [done|]. destruct (Z.eqb_spec c 117) as [->|]; [done|]. by rewrite andb_false_r.
Qed.

Lemma starts_quiet buf : starts_table buf = true -> quiet buf = true.
Proof. unfold starts_table, quiet. destruct (second_is_end buf); [by rewrite andb_false_r|done]. Qed.

Section meaning.
Variables (my : list Z) (ips : option if_addrs_t).

Lemma upd_sim S S2 c c2 k A A2 x :
  same_routes c c2 -> at_routes A = at_routes A2 -> spec_upd S c k A = Ret x ->
  exists c' c2', x = (None, set_anew S c') /\ spec_upd S2 c2 k A2 = Ret (None, set_anew S2 c2') /\ same_routes c' c2'.
Proof.
  intros [Hr Hu] HA. unfold spec_upd. destruct (decide _); [|done]. intros [= <-].
  eexists _, _. split; [done|]. split; [done|]. split; cbn; [done|]. by rewrite Hu.
Qed.

Lemma trash_routes ts sid A A2 : at_routes A = at_routes A2 ->
  at_routes (spec_trash my ips ts sid A) = at_routes (spec_trash my ips ts sid A2).
Proof. intros E. unfold spec_trash. destruct (for_us _ _ _); cbn; by rewrite ?E. Qed.

Lemma entry_routes ts sid rr A A2 : at_routes A = at_routes A2 ->
  at_routes (spec_entry my ips ts sid rr A) = at_routes (spec_entry my ips ts sid rr A2).
Proof. intros E. unfold spec_entry. destruct (for_us _ _ _); [|done]. destruct (tokenise _ _ _); [done|]. cbn. by rewrite E. Qed.

Hint Resolve trash_routes entry_routes : core.

(** The routes that come of a record do not depend on the owners, nor on the
    rest of the state. *)
Lemma route_rec_sim can can2 wbuf wbuf2 S S2 c c2 buf x :
  route_rec buf = true -> as_new S = Some c -> as_new S2 = Some c2 -> same_routes c c2 ->
  spec_rec my ips can wbuf S buf = Ret x ->
  exists c' c2', x = (None, set_anew S c') /\ spec_rec my ips can2 wbuf2 S2 buf = Ret (None, set_anew S2 c2') /\ same_routes c' c2'.
Proof.
  intros Hk En En2 Hc. unfold route_rec, rec_tokens in Hk. unfold spec_rec. cbv zeta.
  assert (forall y : option (list Z) * astate, Ret (None, S) = Ret y -> exists c' c2', y = (None, set_anew S c') /\
    Ret (@None (list Z), S2) = Ret (None, set_anew S2 c2') /\ same_routes c' c2') as Hsame.
  { intros y [= <-]. exists c, c2. split_and!; try done; (unfold set_anew; rewrite <-?En, <-?En2; by destruct S, S2). }
  revert Hk. destruct (tokenise _ 128 124) as [|t0 ts]; [by intros _; apply Hsame|].
  destruct (clip t0) as [|k t] eqn:Ek; [by intros _; apply Hsame|]. rewrite En, En2.
  destruct (k =? 35) eqn:E1; [by intros _; apply Hsame|]. destruct (k =? 100) eqn:E2.
  { intros _. destruct ts as [|t1 [|t2 ts]]; [by apply Hsame..|]. apply upd_sim; [done|]. apply trash_routes, Hc. }
  destruct (Z.eqb_spec k 110) as [->|]; [done|]. destruct (k =? 109) eqn:E4.
  { destruct (k =? 114) eqn:E5; [lia|]. cbn [orb andb]. intros ->.
    destruct ts as [|t1 [|t2 [|t3 ts]]]; [by apply Hsame..|]. apply upd_sim; [done|]. apply entry_routes, Hc. }
  destruct (k =? 114) eqn:E5; [|done]. intros _ Hx.
  apply comp_bind_ret in Hx as (t1 & -> & Hx). apply comp_bind_ret in Hx as (t2 & -> & Hx). cbn [mbind comp_bind].
  revert Hx. apply upd_sim; [done|]. apply entry_routes, Hc.
Qed.

Lemma route_recs_sim can can2 wbuf wbuf2 bufs : forall S S2 c c2 acks S',
  Forall (fun b => route_rec b = true) bufs -> as_new S = Some c -> as_new S2 = Some c2 -> same_routes c c2 ->
  spec_recs my ips can wbuf S bufs = Ret (acks, S') ->
  exists c' c2', S' = set_anew S c' /\ same_routes c' c2' /\
    spec_recs my ips can2 wbuf2 S2 bufs = Ret (replicate (length bufs) None, set_anew S2 c2').
Proof.
  induction bufs as [|b bufs IH]; intros S S2 c c2 acks S' HF En En2 Hc Hs; cbn [spec_recs] in *.
  { injection Hs as _ <-. exists c, c2. split_and!; try done; (unfold set_anew; rewrite <-?En, <-?En2; by destruct S, S2). }
  apply Forall_cons in HF as [Hb HF]. apply comp_bind_ret in Hs as (x & E1 & Hs).
  destruct (route_rec_sim can can2 wbuf wbuf2 S S2 c c2 b x Hb En En2 Hc E1) as (c1 & c21 & -> & -> & Hc1).
  apply comp_bind_ret in Hs as ([acks1 S1] & E2 & [= _ <-]). cbn [mbind comp_bind snd] in *.
  destruct (IH (set_anew S c1) (set_anew S2 c21) c1 c21 _ _ HF eq_refl eq_refl Hc1 E2) as (c' & c2' & -> & Hc' & ->).
  exists c', c2'. done.
Qed.

(** A start record gives an empty table, whatever was there. *)
Lemma start_sim can can2 wbuf wbuf2 S S2 buf x :
  starts_table buf = true -> spec_rec my ips can wbuf S buf = Ret x ->
  exists a2 S2' c c2, spec_rec my ips can2 wbuf2 S2 buf = Ret (a2, S2') /\ as_new x.2 = Some c /\ as_new S2' = Some c2 /\
    same_routes c c2 /\ as_act x.2 = as_act S /\ as_act S2' = as_act S2 /\
    as_ready x.2 = as_ready S /\ as_ready S2' = as_ready S2.
Proof.
  unfold starts_table, second_is_end, rec_kind, rec_tokens. unfold spec_rec. cbv zeta.
  destruct (tokenise _ 128 124) as [|t0 ts]; [done|]. destruct (clip t0) as [|k t] eqn:Ek; [done|].
  destruct (Z.eqb_spec k 110) as [->|]; [|done]. cbn [Z.eqb Pos.eqb]. destruct ts as [|t1 ts]; [done|]. cbn [lookup list_lookup deref mbind comp_bind andb].
  destruct (streq (clip t1) _); [by rewrite andb_false_r|]. intros _ [= <-].
  eexists _, _, _, _. split; [done|]. cbn. split_and!; try done. split; cbn; [|done].
  unfold start_from. by destruct (as_act S), (as_act S2).
Qed.

Lemma end_rec can wbuf S buf t0 t1 n rest :
  rec_tokens buf = t0 :: t1 :: n :: rest -> rec_kind buf = 110 -> second_is_end buf = true ->
  spec_rec my ips can wbuf S buf = spec_end can true true ct_upd (fun c n => missing_records n (ct_upd c)) S (t0 :: t1 :: n :: rest).
Proof.
  unfold second_is_end, rec_kind. intros Ht. rewrite Ht. unfold rec_tokens in Ht. unfold spec_rec. cbv zeta.
  destruct (tokenise _ 128 124) as [|u0 ts]; [done|]. injection Ht as <- ->. destruct (clip u0) as [|k t]; [done|].
  intros -> He. cbn [Z.eqb Pos.eqb lookup list_lookup deref mbind comp_bind]. change (streq (clip t1) $"end" = true) in He. by rewrite He.
Qed.
End meaning.

Lemma alookup_init sid mtype alt : alookup (as_act as_init) sid mtype alt = None.
Proof. unfold alookup. cbn. rewrite !lookup_empty. by destruct (_ && _). Qed.

Lemma spec_recs_join my ips can wbuf l1 l2 : forall S a1 S1 a2 S2,
  spec_recs my ips can wbuf S l1 = Ret (a1, S1) -> spec_recs my ips can wbuf S1 l2 = Ret (a2, S2) ->
  spec_recs my ips can wbuf S (l1 ++ l2) = Ret (a1 ++ a2, S2).
Proof.
  induction l1 as [|b l1 IH]; intros S a1 S1 a2 S2 H1 H2; cbn [app spec_recs] in *; [by injection H1 as <- <-|].
  apply comp_bind_ret in H1 as ([a S'] & -> & H1). apply comp_bind_ret in H1 as ([a' S''] & E & [= <- <-]).
  cbn [mbind comp_bind snd fst] in *. by rewrite (IH _ _ _ _ _ E H2).
Qed.

(** What a start without a route manager has from a saved file. *)
Lemma reload {TH TE : Type} `{Symbols TH thing} `{Symbols TE nat} gethostbyname my ips recs acks S :
  Forall clean recs -> spec_recs my ips false [] as_init recs = Ret (acks, S) ->
  exists ps : parser_t TH TE, read_static_rt gethostbyname (ps_init my ips) (Some (lines recs ++ captured_msg)) = Ret ps /\
    ps_ready ps = as_ready S /\
    forall sid mtype alt, route_id sid mtype -> route_of (ps_ctx ps) sid mtype alt = alookup (as_act S) sid mtype alt.
Proof.
  intros Hf Hs.
  assert (spec_recs my ips false [] as_init (static_recs (Some (lines recs ++ captured_msg))) = Ret (acks ++ [None], S)) as Hs'.
  { rewrite static_recs_saved by done. by eapply spec_recs_join; [exact Hs|]. }
  destruct (parse_recs_refines gethostbyname my ips false [] _ _ _ _ _ (init_refines my ips) Hs') as (ps & E & R).
  exists ps. split; [by apply (read_recs_parse gethostbyname _ _ _ (acks ++ [None], ps))|]. split; [apply R|].
  intros. by eapply route_of_abs.
Qed.

Lemma spec_end_count can wbuf my ips S buf t0 t1 n rest c :
  rec_tokens buf = t0 :: t1 :: n :: rest -> rec_kind buf = 110 -> second_is_end buf = true -> as_new S = Some c ->
  exists ack, spec_rec my ips can wbuf S buf =
    Ret (ack, if ct_upd c =? atoi n then (spec_roll can true true S).2
              else MkA (as_act S) (as_old S) None (as_id S) (as_full S) (as_ready S)).
Proof.
  intros Ht Hk He En. rewrite (end_rec _ _ _ _ _ _ _ _ _ _ Ht Hk He). unfold spec_end. cbn [lookup list_lookup].
  rewrite En. cbn [deref mbind comp_bind]. unfold spec_roll. rewrite En. destruct (ct_upd c =? atoi n); by eexists.
Qed.

(** C7.  A table that the route manager sent is restored from the stash: what
    the collector saved when it got the end record, read by the next start as
    its seed, gives senders the routes that the collector's table gives them, by
    message type and subscription id.  When the end record does not count the
    records, the table is saved all the same: it has replaced the last good one,
    and the next start is without routes, while this one goes on with those
    that it had. *)
Theorem saved_table_restores_routes {TH TE : Type} `{Symbols TH thing} `{Symbols TE nat} gethostbyname my ips env name can wbuf
    (ps : parser_t TH TE) st S start body final acks S1 c t0 t1 n rest :
  refines my ips ps S -> stash_open env name [] st -> Forall clean (start :: body ++ [final]) ->
  starts_table start = true -> Forall (fun b => route_rec b = true) body ->
  rec_tokens final = t0 :: t1 :: n :: rest -> rec_kind final = 110 -> second_is_end final = true ->
  spec_recs my ips can wbuf S (start :: body) = Ret (acks, S1) -> as_new S1 = Some c ->
  exists acks' ps' st' file (ps2 : parser_t TH TE),
    stash_recs gethostbyname env all_ok can wbuf (ps, st) (start :: body ++ [final]) = Ret (acks', (ps', st')) /\
    stash_open env name [] st' /\ sh_files st' !! name = Some file /\
    read_static_rt gethostbyname (ps_init my ips) (Some file) = Ret ps2 /\
    forall sid mtype alt, route_id sid mtype ->
      if ct_upd c =? atoi n
      then ps_ready ps2 = true /\ route_of (ps_ctx ps2) sid mtype alt = route_of (ps_ctx ps') sid mtype alt /\
           route_of (ps_ctx ps') sid mtype alt = alookup (Some c) sid mtype alt
      else ps_ready ps2 = false /\ route_of (ps_ctx ps2) sid mtype alt = None /\
           route_of (ps_ctx ps') sid mtype alt = route_of (ps_ctx ps) sid mtype alt.
Proof.
  intros R Ho Hcl Hst Hb Ht Hk He Hs En.
  destruct (spec_end_count can wbuf my ips S1 final t0 t1 n rest c Ht Hk He En) as [ack Hend].
  assert (Forall (fun b => quiet b = true) (start :: body)) as Hq.
  { constructor; [by apply starts_quiet|]. eapply Forall_impl; [exact Hb|]. apply route_rec_quiet. }
  destruct (stash_saved gethostbyname my ips env name can wbuf _ _ _ _ _ _ _ _ _ Hq Ho R Hs Hend He (or_introl Hk))
    as (ps' & st' & E' & R' & Ho' & Hfile).
  cbn [spec_recs] in Hs. apply comp_bind_ret in Hs as ([a0 S0] & Es & Hs). apply comp_bind_ret in Hs as ([a' Sx] & Eb & [= _ <-]). cbn [snd] in *.
  destruct (start_sim my ips can false wbuf [] S as_init start (a0, S0) Hst Es) as (b0 & T0 & c0 & d0 & Es' & Hn & Hn' & Hc & Ha & Ha' & _ & Hr').
  destruct (route_recs_sim my ips can false wbuf [] body S0 T0 c0 d0 _ _ Hb Hn Hn' Hc Eb) as (c1 & d1 & -> & [Hrt Hup] & Eb').
  injection En as ->. cbn [snd] in *.
  destruct (spec_end_count false [] my ips (set_anew T0 d1) final t0 t1 n rest d1 Ht Hk He eq_refl) as [ack' Hend'].
  rewrite <-Hup in Hend'.
  assert (spec_recs my ips false [] as_init (start :: body) = Ret (b0 :: replicate (length body) None, set_anew T0 d1)) as Hl.
  { cbn [spec_recs]. rewrite Es'. cbn [mbind comp_bind snd fst]. by rewrite Eb'. }
  assert (spec_recs my ips false [] (set_anew T0 d1) [final] = '(a, T) ← spec_rec my ips false [] (set_anew T0 d1) final; Ret ([a], T)) as Hf.
  { cbn [spec_recs]. by rewrite Hend'. }
  rewrite Hend' in Hf. cbn [mbind comp_bind] in Hf.
  destruct (reload (TH := TH) (TE := TE) gethostbyname my ips _ _ _ Hcl (spec_recs_join my ips false [] (start :: body) [final] _ _ _ _ _ Hl Hf))
    as (ps2 & E2 & Hready & Hroutes).
  exists (acks ++ [ack]), ps', st', (lines (start :: body ++ [final]) ++ captured_msg), ps2. split_and!; [exact E'|done|exact Hfile|exact E2|]. intros sid mtype alt Hid.
  rewrite Hready, Hroutes, (route_of_abs _ _ _ _ _ _ _ R'), (route_of_abs _ _ _ _ _ _ _ R) by done.
  destruct (ct_upd c =? atoi n); cbn -[alookup as_init]; [|by rewrite Hr', Ha', Ha, alookup_init].
  unfold alookup. by rewrite Hrt.
Qed.

(** Records of an update, for a collector and for a start without a table. *)
Lemma u_rec my ips can wbuf S buf :
  rec_kind buf = 117 -> spec_rec my ips can wbuf S buf =
    if negb (as_full S) then Ret (None, S)
    else t1 ← deref (rec_tokens buf !! 1%nat);
         if streq (clip t1) $"end"
         then match as_new S with None => Ret (None, S) | Some _ => spec_end can false true ct_upd (fun _ _ => wbuf) S (rec_tokens buf) end
         else Ret (spec_start can true true false S (rec_tokens buf)).
Proof.
  unfold rec_kind, rec_tokens, spec_rec. cbv zeta. destruct (tokenise _ 128 124) as [|t0 ts]; [done|].
  destruct (clip t0) as [|k t]; [done|]. by intros ->.
Qed.

Lemma update_open my ips can wbuf S start body acks S1 :
  rec_kind start = 117 -> second_is_end start = false -> Forall (fun b => route_rec b = true) body -> as_full S = true ->
  spec_recs my ips can wbuf S (start :: body) = Ret (acks, S1) -> as_full S1 = true /\ is_Some (as_new S1).
Proof.
  intros Hk Hs HF Hf Hr. cbn [spec_recs] in Hr. apply comp_bind_ret in Hr as ([a S0] & E0 & Hr).
  apply comp_bind_ret in Hr as ([a1 Sx] & Eb & [= _ <-]). cbn [snd] in *. rewrite u_rec in E0 by done. rewrite Hf in E0. cbn [negb] in E0.
  apply comp_bind_ret in E0 as (t1 & Et & E0). unfold second_is_end in Hs.
  destruct (rec_tokens start !! 1%nat) as [t|]; [|done]. injection Et as <-. rewrite Hs in E0.
  assert (is_Some (as_new S0) /\ as_full S0 = true) as [[c0 Hn] Hf0] by (by injection E0 as _ <-).
  destruct (route_recs_sim my ips can can wbuf wbuf body S0 S0 c0 c0 _ _ HF Hn Hn (conj eq_refl eq_refl) Eb) as (c' & _ & -> & _).
  split; [exact Hf0|by eexists].
Qed.

Lemma route_rec_idle my ips can wbuf S buf :
  route_rec buf = true -> as_new S = None -> spec_rec my ips can wbuf S buf = Ret (None, S).
Proof.
  unfold route_rec, rec_tokens, spec_rec. cbv zeta. intros Hk En. revert Hk.
  destruct (tokenise _ 128 124) as [|t0 ts]; [done|]. destruct (clip t0) as [|k t] eqn:Ek; [done|]. rewrite En.
  destruct (k =? 35) eqn:E1; [done|]. destruct (k =? 100) eqn:E2; [done|].
  destruct (Z.eqb_spec k 110) as [->|]; [done|]. destruct (k =? 109) eqn:E4.
  { destruct (k =? 114) eqn:E5; [lia|]. cbn [orb andb]. by intros ->. }
  by destruct (k =? 114).
Qed.

Lemma update_ignored my ips start body final :
  rec_kind start = 117 -> Forall (fun b => route_rec b = true) body -> rec_kind final = 117 ->
  exists acks, spec_recs my ips false [] as_init (start :: body ++ [final]) = Ret (acks, as_init).
Proof.
  intros Hs HF Hf. cbn [spec_recs]. rewrite u_rec by done. cbn [as_full as_init negb mbind comp_bind snd fst].
  assert (exists acks, spec_recs my ips false [] as_init (body ++ [final]) = Ret (acks, as_init)) as [acks ->]; [|by eexists].
  induction HF as [|b body Hb _ [acks IH]]; cbn [app spec_recs].
  - rewrite u_rec by done. cbn [as_full as_init negb mbind comp_bind snd fst]. by eexists.
  - rewrite route_rec_idle by done. cbn [mbind comp_bind snd fst]. rewrite IH. by eexists.
Qed.

(** An update replaces the saved table: the records from its start to its end,
    accepted by the collector, are all of the file, and they are nothing to a
    start that has seen no full table; it is without routes. *)
Theorem update_replaces_saved_table {TH TE : Type} `{Symbols TH thing} `{Symbols TE nat} gethostbyname my ips env name can wbuf
    (ps : parser_t TH TE) st S start body final acks S1 ack S2 :
  refines my ips ps S -> stash_open env name [] st -> Forall clean (start :: body ++ [final]) ->
  rec_kind start = 117 -> second_is_end start = false -> Forall (fun b => route_rec b = true) body ->
  rec_kind final = 117 -> second_is_end final = true -> as_full S = true ->
  spec_recs my ips can wbuf S (start :: body) = Ret (acks, S1) -> spec_rec my ips can wbuf S1 final = Ret (ack, S2) ->
  exists ps' st' file (ps2 : parser_t TH TE),
    stash_recs gethostbyname env all_ok can wbuf (ps, st) (start :: body ++ [final]) = Ret (acks ++ [ack], (ps', st')) /\
    sh_files st' !! name = Some file /\ read_static_rt gethostbyname (ps_init my ips) (Some file) = Ret ps2 /\
    ps_ready ps2 = false /\ forall sid mtype alt, route_id sid mtype -> route_of (ps_ctx ps2) sid mtype alt = None.
Proof.
  intros R Ho Hcl Hks Hss Hb Hk He Hfull Hs Hend.
  assert (Forall (fun b => quiet b = true) (start :: body)) as Hq.
  { constructor; [by unfold quiet; rewrite Hss|]. eapply Forall_impl; [exact Hb|]. apply route_rec_quiet. }
  destruct (update_open my ips can wbuf S start body acks S1 Hks Hss Hb Hfull Hs) as [Hf1 Hn1].
  destruct (stash_saved gethostbyname my ips env name can wbuf _ _ _ _ _ _ _ _ _ Hq Ho R Hs Hend He (or_intror (conj Hk (conj Hf1 Hn1))))
    as (ps' & st' & E' & R' & Ho' & Hfile).
  destruct (update_ignored my ips start body final Hks Hb Hk) as [acks2 Hi].
  destruct (reload (TH := TH) (TE := TE) gethostbyname my ips _ _ _ Hcl Hi) as (ps2 & E2 & Hready & Hroutes).
  exists ps', st', (lines (start :: body ++ [final]) ++ captured_msg), ps2. split_and!; [exact E'|exact Hfile|exact E2|exact Hready|].
  intros. by rewrite Hroutes, alookup_init.
Qed.

(** ** Examples *)

Definition ex_env : stash_env := MkEnv None (Some $"/opt/rt").
Definition ex_stash : stash_t := cycle_snarfed_rt ex_env all_ok (MkStash ∅ NoFd).
Definition ex_first := Eval vm_compute in
  match spec_recs $"me:4560" ex_ip true [] as_init ex_half with Ret x => x.1 | UB => [] end.

Lemma ex_open : stash_open ex_env $"/opt/rt.stash" [] ex_stash.
Proof. apply first_cycle; [reflexivity|vm_compute; discriminate]. Qed.

Lemma ex_clean recs : forallb (forallb (fun c => (0 <? c) && (c <? 256) && negb (c =? 10) && negb (c =? 13))) recs = true -> Forall clean recs.
Proof.
  intros E. rewrite forallb_forall in E. apply Forall_forall. intros r Hr.
  apply list_elem_of_In in Hr. specialize (E r Hr). rewrite forallb_forall in E.
  assert (forall c, c ∈ r -> 0 < c < 256 /\ c <> 10 /\ c <> 13) as Hc by (intros c Hi; apply list_elem_of_In, E in Hi; lia).
  split_and!; [apply Forall_forall; intros c Hi; by apply Hc|intros Hi; by destruct (Hc _ Hi) as (_ & ? & ?)..].
Qed.

Lemma saved_table_restores_routes_witness :
  exists acks ps' st' file (ps2 : stab),
    stash_recs (fun _ => None) ex_env all_ok true [] (ps_init $"me:4560" ex_ip, ex_stash) ex_small = Ret (acks, (ps', st')) /\
    sh_files st' !! $"/opt/rt.stash" = Some file /\
    read_static_rt (fun _ => None) (ps_init $"me:4560" ex_ip) (Some file) = Ret ps2 /\
    ps_ready ps2 = true /\ route_of (ps_ctx ps2) (-1) 10 true = route_of (ps_ctx ps') (-1) 10 true.
Proof.
  destruct (saved_table_restores_routes (fun _ => None) $"me:4560" ex_ip ex_env $"/opt/rt.stash" true [] (ps_init $"me:4560" ex_ip) ex_stash
    as_init $"newrt|start|T1" [ $"rte|10|a:1,b:2" ] $"newrt|end|1" ex_first ex_state_half ex_counted_half $"newrt" $"end" $"1" []
    (init_refines (TH := Sym_tab thing) (TE := Sym_tab nat) $"me:4560" ex_ip) ex_open) as (acks & ps' & st' & file & ps2 & E & _ & Ef & El & Hr);
    [apply ex_clean; reflexivity|reflexivity|repeat constructor|reflexivity|reflexivity|reflexivity|reflexivity|reflexivity|].
  exists acks, ps', st', file, ps2. destruct (Hr (-1) 10 true) as (Hready & Heq & _); [unfold route_id, in_i32; lia|].
  split; [exact E|]. split; [exact Ef|]. split; [exact El|]. split; [exact Hready|exact Heq].
Defined.

Lemma update_replaces_saved_table_witness :
  exists acks S, spec_recs $"me:4560" ex_ip true [] ex_state1 [ $"updatert|start|T2"; $"rte|11|a:1"; $"updatert|end|1" ] = Ret (acks, S) /\
  exists ps ps' st' file (ps2 : stab),
    stash_recs (fun _ => None) ex_env all_ok true [] (ps, ex_stash) [ $"updatert|start|T2"; $"rte|11|a:1"; $"updatert|end|1" ] = Ret (acks, (ps', st')) /\
    sh_files st' !! $"/opt/rt.stash" = Some file /\
    read_static_rt (fun _ => None) (ps_init $"me:4560" ex_ip) (Some file) = Ret ps2 /\ route_of (ps_ctx ps2) (-1) 10 true = None.
Proof.
  destruct (parse_recs_refines (fun _ => None) $"me:4560" ex_ip true [] ex_small _ _ ex_acks1 ex_state1
    (init_refines (TH := Sym_tab thing) (TE := Sym_tab nat) $"me:4560" ex_ip) eq_refl) as (ps & E & R).
  eexists ([_; _] ++ [_]), _. split; [vm_compute; reflexivity|].
  edestruct (update_replaces_saved_table (fun _ => None) $"me:4560" ex_ip ex_env $"/opt/rt.stash" true [] ps ex_stash
    ex_state1 $"updatert|start|T2" [ $"rte|11|a:1" ] $"updatert|end|1") as (ps' & st' & file & ps2 & E2 & Ef & El & _ & Hr);
    [exact R|exact ex_open|apply ex_clean; reflexivity|reflexivity|reflexivity|repeat constructor|reflexivity|reflexivity|reflexivity
    |vm_compute; reflexivity|vm_compute; reflexivity|].
  exists ps, ps', st', file, ps2. split; [exact E2|]. split; [exact Ef|]. split; [exact El|]. apply Hr. unfold route_id, in_i32. lia.
Defined.
