(* ===== verification/Send.v ===== *)
(** Sending: send_msg and mtosend_msg of src/src/rmr/si/src/sr_si_static.c, the
    selection of an endpoint of src/src/rmr/si/src/rtable_si_static.c, and the
    public send functions of src/src/rmr/si/src/rmr_si.c.

    The transport is an interface: a connection attempt gives a descriptor or a
    negative value, a send attempt gives a state and errno, and the bytes a
    descriptor accepted are known.  Si95Spec.v gives the instance.

    errno is a value where it decides something.  The count of the users of a
    route table (get_rt, release_rt) is the subject of RtConc.v. *)

From S2P Require Import Prelude Bytes Symtab SymIface Tools Mbuf Endpoint RouteTable.

Definition SI_OK : Z := 0.
Definition SI_ERROR : Z := -1.
Definition SI_ERR_BLOCKED : Z := 18.

Definition ENXIO : Z := 6.
Definition EAGAIN : Z := 11.
Definition EBUSY : Z := 16.
Definition EINVAL : Z := 22.
Definition EBADMSG : Z := 74.

Definition D1_CALLID_IDX : Z := 0.
Definition NO_CALL_ID : Z := 0.

(** ** The transport *)

Class Transport (N : Type) := {
  tp_connect : N -> list Z -> Z * N;                    (* SIconnect: descriptor, or negative *)
  tp_send : N -> Z -> list Z -> Z * Z * N;              (* SIsendt: state and errno *)
  tp_wire : N -> Z -> list Z;                           (* what a descriptor has accepted *)
  tp_send_ok n fd b er n' : tp_send n fd b = (SI_OK, er, n') -> tp_wire n' fd = tp_wire n fd ++ b;
  tp_send_blocked n fd b er n' fd' :
    tp_send n fd b = (SI_ERR_BLOCKED, er, n') -> er = EBUSY /\ tp_wire n' fd' = tp_wire n fd';
  tp_send_other n fd b st er n' fd' : tp_send n fd b = (st, er, n') -> fd' <> fd -> tp_wire n' fd' = tp_wire n fd';
  tp_connect_other n a fd n' fd' : tp_connect n a = (fd, n') -> fd' <> fd -> tp_wire n' fd' = tp_wire n fd'
}.

(** ** One message to one descriptor *)

(** The part of the context that sends work on. *)
Record send_ctx (TH TE N : Type) := MkSc {
  sc_rt : rt_ctx TH TE;
  sc_fd2ep : option TE;
  sc_net : N;
  sc_mctx : msg_ctx;
  sc_send_retries : Z
}.
Arguments MkSc {TH TE N}.
Arguments sc_rt {TH TE N}.
Arguments sc_fd2ep {TH TE N}.
Arguments sc_net {TH TE N}.
Arguments sc_mctx {TH TE N}.
Arguments sc_send_retries {TH TE N}.

Section send.
Context {TH TE N : Type} `{Symbols TH thing} `{Symbols TE nat} `{Transport N}.
Variable malloc_bytes : Z -> list Z.
Variable gethostbyname : list Z -> option (list Z).
Abbreviation sctx := (send_ctx TH TE N).
Implicit Types (sc : sctx) (n : N).

Definition set_net sc n : sctx := MkSc (sc_rt sc) (sc_fd2ep sc) n (sc_mctx sc) (sc_send_retries sc).
Definition set_rt sc (rt : rt_ctx TH TE) : sctx := MkSc rt (sc_fd2ep sc) (sc_net sc) (sc_mctx sc) (sc_send_retries sc).

(** What SIsendt reads from the buffer: nothing when the length is negative. *)
Definition wire_bytes (buf : list Z) (len : Z) : comp (list Z) :=
  if zlen buf <? len then UB else Ret (if len <=? 0 then [] else slice buf 0 len).

(** The attempts.  The result is the message's state, the variable [state],
    errno, the buffer and the network; [None] when the fuel does not suffice. *)
Fixpoint send_loop (fuel : nat) n (h : Z) (buf : list Z) (len alloc_len sock spin_retries retries : Z) :
    comp (option (Z * Z * Z * list Z * N)) :=
  match fuel with
  | O => Ret None
  | S fuel' =>
      off ← RMR_HDR_LEN buf h;
      let tot_len := i32 (u32 (len + off + TP_HDR_LEN)) in
      let tot_len := if alloc_len <? tot_len then alloc_len else tot_len in
      buf ← insert_mlen (u32 tot_len) buf;
      data ← wire_bytes buf tot_len;
      let '(state, errno, n) := tp_send n sock data in
      if negb (state =? SI_OK) then
        if (0 <? retries) && (state =? SI_ERR_BLOCKED) then
          let spin_retries := spin_retries - 1 in
          let retries := if spin_retries <=? 0 then retries - 1 else retries in
          let spin_retries := if spin_retries <=? 0 then 1000 else spin_retries in
          if 0 <? retries then send_loop fuel' n h buf len alloc_len sock spin_retries retries
          else Ret (Some (state, state, errno, buf, n))
        else Ret (Some (state, 0, errno, buf, n))
      else Ret (Some (RMR_OK, 0, errno, buf, n))
  end.

(** The header of a message to be sent. *)
Definition fill_send_header (mctx : msg_ctx) (msg : mbuf) : comp (list Z) :=
  h ← deref (m_header msg);
  buf ← deref (m_tp_buf msg);
  buf ← put32n buf (h + o_mtype) (m_mtype msg);
  buf ← put32n buf (h + o_sub_id) (m_sub_id msg);
  buf ← put32n buf (h + o_plen) (m_len msg);
  if negb (Z.land (m_flags msg) MFL_ADDSRC =? 0) then
    '(_, buf) ← zt_buf_fill buf (h + o_src) (x_my_name mctx ++ [0]) RMR_MAX_SRC;
    '(_, buf) ← zt_buf_fill buf (h + o_srcip) (x_my_ip mctx ++ [0]) RMR_MAX_SRC;
    Ret buf
  else Ret buf.

(** The result is the message to return, [None] for nil, errno and the network. *)
Definition send_msg (mctx : msg_ctx) n (msg : mbuf) (sock retries : Z) : comp (option mbuf * Z * N) :=
  buf ← fill_send_header mctx msg;
  h ← deref (m_header msg);
  tr_len ← RMR_TR_LEN buf h;
  let spin_retries := if retries =? 0 then 100 else 1000 in
  let retries := if retries =? 0 then 1 else retries in
  x ← send_loop (Z.to_nat (spin_retries + 1000 * Z.max 0 (retries - 1))) n h buf (m_len msg) (m_alloc_len msg) sock spin_retries retries;
  match x with
  | None => UB
  | Some (mstate, state, errno, buf, n) =>
      let msg := set_tp_buf (Some buf) msg in
      if mstate =? RMR_OK then
        if Z.land (m_flags msg) MFL_NOALLOC =? 0
        then m ← alloc_zcmsg malloc_bytes mctx None (Some msg) 0 RMR_OK (i32 tr_len); Ret (Some m, errno, n)
        else Ret (None, errno, n)
      else if (state =? SI_ERR_BLOCKED) || (errno =? EAGAIN)
           then Ret (Some (set_state RMR_ERR_RETRY msg), EAGAIN, n)
           else Ret (Some (set_state RMR_ERR_SENDFAILED msg), errno, n)
  end.

(** ** The endpoint of a route *)

Definition conn_of sc : conn_ctx TE N := MkConn (cr_eps (sc_rt sc)) (sc_fd2ep sc) (sc_net sc).
Definition set_eps (rt : rt_ctx TH TE) (eps : gmap nat endpoint) : rt_ctx TH TE :=
  MkRtCtx (cr_rtes rt) eps (cr_next rt) (cr_ephash rt) (cr_rtable rt) (cr_old rt) (cr_new rt) (cr_my_name rt) (cr_ip_list rt).
Definition set_conns sc (cx : conn_ctx TE N) : sctx :=
  MkSc (set_eps (sc_rt sc) (cx_eps cx)) (cx_fd2ep cx) (cx_net cx) (sc_mctx sc) (sc_send_retries sc).

(** The socket of an endpoint, connected when it is not. *)
Definition sock_of (add : bool) sc (id : nat) : option Z * sctx :=
  let '(sock, cx) := ep_socket tp_connect add (conn_of sc) id in (sock, set_conns sc cx).

(** The result is the state (0 is false), [more], the socket, the endpoint. *)
Definition uta_epsock_rr sc (rte_id : nat) (group : Z) : comp (Z * bool * option Z * option nat * sctx) :=
  rte ← deref (cr_rtes (sc_rt sc) !! rte_id);
  if (group <? 0) || (rte_nrrgroups rte <=? group) then Ret (0, false, None, None, sc) else
  match rte_rrgroups rte !! Z.to_nat group with
  | Some (Some rrg) =>
      let more := match rte_rrgroups rte !! Z.to_nat (group + 1) with Some (Some _) => true | _ => false end in
      let nused := zlen (rg_epts rrg) in
      if nused =? 0 then Ret (0, more, None, None, sc) else
      let idx := if nused =? 1 then 0 else rg_ep_idx rrg mod nused in
      let rrg' := if nused =? 1 then rrg else MkRRG (u16 (rg_ep_idx rrg + 1)) (rg_epts rrg) in
      let state := if nused =? 1 then 1 else idx + 1 in
      let rte' := MkRte (rte_key rte) (rte_refs rte) (rte_mtype rte) (<[Z.to_nat group := Some rrg']> (rte_rrgroups rte)) in
      let sc := set_rt sc (set_rtes (sc_rt sc) (<[rte_id := rte']> (cr_rtes (sc_rt sc)))) in
      p ← deref (rg_epts rrg !! Z.to_nat idx);
      id ← deref p;
      let '(sock, sc) := sock_of true sc id in
      Ret (if sock then state else 0, more, sock, Some id, sc)
  | _ => Ret (0, false, None, None, sc)
  end.

Definition epsock_meid sc (rt : route_table_t TH) (msg : mbuf) : comp (bool * option Z * option nat * sctx) :=
  h ← deref (m_header msg);
  buf ← deref (m_tp_buf msg);
  match get_meid_owner rt (cstr_of (drop (Z.to_nat (h + o_meid)) buf)) with
  | None => Ret (false, None, None, sc)
  | Some id =>
      let '(sock, sc) := sock_of false sc id in
      Ret (match sock with Some _ => true | None => false end, sock, Some id, sc)
  end.

(** An unknown name gets an endpoint; the reference given to the caller is nil
    then. *)
Definition uta_epsock_byname sc (name : list Z) : comp (option Z * option nat * sctx) :=
  _ ← deref (cr_rtable (sc_rt sc));
  let ep := sm_get (cr_ephash (sc_rt sc)) (AStr 1 name) in
  let '(id, sc) :=
    match ep with
    | Some id => (Some id, sc)
    | None => let '(id, rt) := rt_ensure_ep gethostbyname (sc_rt sc) name in (id, set_rt sc rt)
    end in
  match id with
  | None => Ret (None, None, sc)
  | Some id => let '(sock, sc) := sock_of true sc id in Ret (sock, ep, sc)
  end.

(** ** Routed sends *)

Definition count_ep sc (state : Z) (ep : option nat) : sctx :=
  match ep with
  | Some id =>
      match cr_eps (sc_rt sc) !! id with
      | Some e => set_conns sc (upd_ep (conn_of sc) id (incr_ep_counts state e))
      | None => sc
      end
  | None => sc
  end.

(** The loop over the groups: [UB] stands for a lack of fuel too, which does not
    happen ([mtosend_returns]). *)
Fixpoint send_groups (fuel : nat) sc (rt : route_table_t TH) (rte_id : nat) (group : Z) (msg : mbuf) (max_to ok_sends : Z) :
    comp (option mbuf * Z * Z * sctx) :=
  match fuel with
  | O => UB
  | S fuel' =>
      rte ← deref (cr_rtes (sc_rt sc) !! rte_id);
      '(sock_ok, more, sock, ep, sc) ←
        (if 0 <? rte_nrrgroups rte
         then '(st, more, sock, ep, sc) ← uta_epsock_rr sc rte_id group; Ret (negb (st =? 0), more, sock, ep, sc)
         else '(ok, sock, ep, sc) ← epsock_meid sc rt msg; Ret (ok, false, sock, ep, sc));
      if sock_ok : bool then
        fd ← deref sock;
        if more : bool then
          clone_m ← clone_msg malloc_bytes msg;
          '(r, errno, n) ← send_msg (sc_mctx sc) (sc_net sc) (set_flags (Z.lor (m_flags msg) MFL_NOALLOC) msg) fd max_to;
          let '(msg, ok_sends) := match r with
                                  | Some _ => (clone_m, ok_sends)
                                  | None => (set_state RMR_OK clone_m, ok_sends + 1)
                                  end in
          send_groups fuel' (count_ep (set_net sc n) (m_state msg) ep) rt rte_id (group + 1) msg max_to ok_sends
        else
          '(r, errno, n) ← send_msg (sc_mctx sc) (sc_net sc) msg fd max_to;
          let sc := set_net sc n in
          Ret (r, errno, ok_sends, match r with Some m => count_ep sc (m_state m) ep | None => sc end)
      else
        let msg := set_state RMR_ERR_NOENDPT msg in
        if more : bool then send_groups fuel' sc rt rte_id (group + 1) msg max_to ok_sends
        else Ret (Some msg, ENXIO, ok_sends, sc)
  end.

Definition mtosend_msg (ctx : option sctx) (msg : option mbuf) (max_to : Z) : comp (option mbuf * option sctx) :=
  match ctx, msg with
  | Some sc, Some msg =>
      match m_header msg with
      | None => Ret (Some (set_tp_state EBADMSG (set_state RMR_ERR_NOHDR msg)), Some sc)
      | Some _ =>
          let max_to := if max_to <? 0 then sc_send_retries sc else max_to in
          match cr_rtable (sc_rt sc), uta_get_rte (cr_rtable (sc_rt sc)) (m_sub_id msg) (m_mtype msg) true with
          | Some rt, Some id =>
              rte ← deref (cr_rtes (sc_rt sc) !! id);
              '(r, errno, ok_sends, sc) ← send_groups (S (length (rte_rrgroups rte))) sc rt id 0 msg max_to 0;
              Ret (match r with
                   | Some m =>
                       let m := set_flags (Z.land (m_flags m) (Z.lnot MFL_NOALLOC)) m in
                       let m := if negb (ok_sends =? 0) then set_state RMR_OK m else m in
                       Some (set_tp_state errno m)
                   | None => None
                   end, Some sc)
          | _, _ => Ret (Some (set_tp_state ENXIO (set_state RMR_ERR_NOENDPT msg)), Some sc)
          end
      end
  | _, Some msg => Ret (Some (set_tp_state EINVAL (set_state RMR_ERR_BADARG msg)), ctx)
  | _, None => Ret (None, ctx)
  end.

(** Turn the call flag off and blot out the call id. *)
Definition clear_call (msg : mbuf) : comp mbuf :=
  h ← deref (m_header msg);
  buf ← deref (m_tp_buf msg);
  _ ← get8 buf (h + o_flags + 3);
  buf ← put buf (h + o_flags) (le_bytes 4 (Z.land (load32 buf (h + o_flags)) (Z.lnot HFL_CALL_MSG)));
  d1 ← DATA1_ADDR buf h;
  buf ← put buf (d1 + D1_CALLID_IDX) [NO_CALL_ID];
  Ret (set_tp_buf (Some buf) msg).

Definition rmr_mtosend_msg (ctx : option sctx) (msg : option mbuf) (max_to : Z) : comp (option mbuf * option sctx) :=
  match msg with
  | Some m => m ← clear_call m; mtosend_msg ctx (Some m) max_to
  | None => mtosend_msg ctx None max_to
  end.

Definition rmr_send_msg (ctx : option sctx) (msg : option mbuf) : comp (option mbuf * option sctx) :=
  match msg with
  | Some m => m ← clear_call m; rmr_mtosend_msg ctx (Some m) (-1)
  | None => rmr_mtosend_msg ctx None (-1)
  end.

(** ** Return to sender *)

Definition HDR_VERSION (buf : list Z) (h : Z) : comp Z := get32n buf (h + o_rmr_ver).
Definition cstr_at (buf : list Z) (off : Z) : list Z := cstr_of (drop (Z.to_nat off) buf).

Definition rmr_rts_msg (ctx : option sctx) (msg : option mbuf) : comp (option mbuf * option sctx) :=
  match ctx, msg with
  | Some sc, Some msg =>
      match m_header msg with
      | None => Ret (Some (set_tp_state 0 (set_state RMR_ERR_NOHDR msg)), Some sc)
      | Some h =>
          buf ← deref (m_tp_buf msg);
          _ ← get8 buf (h + o_flags + 3);
          buf ← put buf (h + o_flags) (le_bytes 4 (Z.land (load32 buf (h + o_flags)) (Z.lnot HFL_CALL_MSG)));
          let msg := set_tp_buf (Some buf) msg in
          '(sock, ep, sc) ← uta_epsock_byname sc (cstr_at buf (h + o_src));
          '(fd, ep, sc) ←
            match sock with
            | Some fd => Ret (Some fd, ep, sc)
            | None =>
                if 0 <=? m_rts_fd msg then Ret (Some (m_rts_fd msg), ep, sc)
                else
                  ver ← HDR_VERSION buf h;
                  if 2 <? ver then uta_epsock_byname sc (cstr_at buf (h + o_srcip)) else Ret (None, ep, sc)
            end;
          match fd with
          | None => Ret (Some (set_state RMR_ERR_NOENDPT msg), Some sc)
          | Some fd =>
              let hold_src := cstr_at buf (h + o_src) in
              let hold_ip := cstr_at buf (h + o_srcip) in
              '(_, buf) ← zt_buf_fill buf (h + o_src) (x_my_name (sc_mctx sc) ++ [0]) RMR_MAX_SRC;
              '(r, _, n) ← send_msg (sc_mctx sc) (sc_net sc) (set_state RMR_OK (set_tp_buf (Some buf) msg)) fd (-1);
              let sc := set_net sc n in
              match r with
              | None => Ret (None, Some sc)
              | Some m =>
                  let sc := count_ep sc (m_state m) ep in
                  h ← deref (m_header m);
                  buf ← deref (m_tp_buf m);
                  '(_, buf) ← zt_buf_fill buf (h + o_src) (hold_src ++ [0]) RMR_MAX_SRC;
                  '(_, buf) ← zt_buf_fill buf (h + o_srcip) (hold_ip ++ [0]) RMR_MAX_SRC;
                  Ret (Some (set_flags (Z.lor (m_flags m) MFL_ADDSRC) (set_tp_buf (Some buf) m)), Some sc)
              end
          end
      end
  | _, Some msg => Ret (Some (set_tp_state EINVAL (set_state RMR_ERR_BADARG msg)), ctx)
  | _, None => Ret (None, ctx)
  end.

Definition rmr_set_stimeout (ctx : option sctx) (time : Z) : Z * option sctx :=
  match ctx with
  | None => (-1, None)
  | Some sc => (RMR_OK, Some (MkSc (sc_rt sc) (sc_fd2ep sc) (sc_net sc) (sc_mctx sc) (if time <? 0 then 0 else time)))
  end.
End send.
