(* ===== verification/SendSpec.v ===== *)
(** What sending does: theorems about Send.v.

    [retry_send] is the reference for the attempts of send_msg: the same bytes
    are offered to the transport until it takes them, fails, or the attempts are
    used up.  A frame ([sent_frame]) is what one message puts on the wire. *)

From S2P Require Import Prelude Bytes Symtab SymIface Tools Ring Mbuf Endpoint River RouteTable Send.

(** ** The length field *)

Definition mlen_field (len : Z) : list Z := le_bytes 4 len ++ be_bytes 4 len ++ [TP_SZ_MARKER; 0; 0; 0; 0].

Lemma insert_mlen_splice len buf : 13 <= zlen buf -> insert_mlen len buf = Ret (splice buf 0 (mlen_field len)).
Proof.
  intros Hl. assert (zlen (le_bytes 4 len) = 4) as E4 by (unfold zlen; by rewrite length_le_bytes).
  unfold insert_mlen. rewrite put_ret by lia. cbn [mbind comp_bind].
  rewrite put_ret by (rewrite ?zlen_be4, ?zlen_splice; lia). cbn [mbind comp_bind].
  assert (zlen (splice (splice buf 0 (le_bytes 4 len)) 4 (be_bytes 4 len)) = zlen buf) as E.
  { rewrite !zlen_splice; rewrite ?zlen_be4, ?zlen_splice; lia. }
  rewrite memset_ret by (offsets; lia). cbn [mbind comp_bind].
  assert (forall b, zlen b = zlen buf -> zlen (splice b TP_SZFIELD_LEN (replicate (Z.to_nat 4) 0)) = zlen buf) as E0.
  { intros b Eb. rewrite zlen_splice; [done|offsets; lia|]. rewrite Eb. change (9 + 4 <= zlen buf). lia. }
  rewrite put_ret by (rewrite ?E0 by done; offsets; change (zlen [TP_SZ_MARKER]) with 1; lia).
  f_equal. unfold zlen in Hl. do 13 (destruct buf as [|? buf]; [cbn [length] in Hl; lia|]). reflexivity.
Qed.

Lemma zlen_mlen_field len : zlen (mlen_field len) = 13.
Proof. reflexivity. Qed.

Lemma splice_twice {A} (l : list A) off src :
  0 <= off -> off + zlen src <= zlen l -> splice (splice l off src) off src = splice l off src.
Proof.
  intros H0 Hl. apply list_eq. intros i.
  rewrite splice_lookup, (splice_lookup l off src i) by (rewrite ?zlen_splice; lia).
  by case_decide.
Qed.

Lemma insert_mlen_again len buf b : 13 <= zlen buf -> insert_mlen len buf = Ret b -> insert_mlen len b = Ret b.
Proof.
  intros Hl. rewrite insert_mlen_splice by done. intros [= <-]. pose proof (zlen_mlen_field len).
  rewrite insert_mlen_splice by (rewrite zlen_splice; lia). by rewrite splice_twice by lia.
Qed.

(** ** The attempts *)

Section attempts.
Context {N : Type} `{Transport N}.
Implicit Types n : N.

(** At most [S k] sends of the same bytes, the next one only when the last was
    blocked. *)
Fixpoint retry_send (k : nat) n (sock : Z) (data : list Z) : Z * Z * N :=
  let '(state, errno, n') := tp_send n sock data in
  if state =? SI_ERR_BLOCKED then
    match k with O => (state, errno, n') | S k' => retry_send k' n' sock data end
  else (state, errno, n').

(** The number of sends the retry argument stands for. *)
Definition attempts (retries : Z) : Z :=
  if retries =? 0 then 100 else if retries <? 0 then 1 else 1000 * retries.

Lemma retry_send_wire k : forall n sock data state errno n',
  retry_send k n sock data = (state, errno, n') ->
  (state = SI_OK -> tp_wire n' sock = tp_wire n sock ++ data) /\
  (state = SI_ERR_BLOCKED -> errno = EBUSY /\ forall fd, tp_wire n' fd = tp_wire n fd) /\
  (forall fd, fd <> sock -> tp_wire n' fd = tp_wire n fd).
Proof.
  induction k as [|k IH]; intros n sock data state errno n'; cbn [retry_send];
    destruct (tp_send n sock data) as [[st er] n1] eqn:E; destruct (Z.eqb_spec st SI_ERR_BLOCKED) as [->|Hb].
  2, 4: intros [= -> -> ->]; split_and!; [intros ->; by eapply tp_send_ok|done|intros; by eapply tp_send_other].
  - intros [= <- <- <-]. split_and!; [done| |].
    + intros _. split; [by eapply (tp_send_blocked n sock data _ _ 0)|]. intros. by eapply tp_send_blocked.
    + intros. by eapply tp_send_other.
  - intros Hr. apply IH in Hr as (H1 & H2 & H3).
    assert (forall fd, tp_wire n1 fd = tp_wire n fd) as Hw by (intros; by eapply tp_send_blocked).
    rewrite Hw in H1. split_and!; [done| |]; intros; rewrite <-?Hw; auto. split; [by apply H2|].
    intros. rewrite <-Hw. by apply H2.
Qed.

(** What the loop computes with when it is entered with a good message: the
    same frame every time. *)
Section loop.
Context (buf b : list Z) (tr d1 d2 room len alloc_len tot sock : Z).
Hypothesis L : msg_layout buf tr d1 d2 room.
Hypothesis Hlen : 0 <= len <= room.
Hypothesis Htot : tot = 330 + tr + d1 + d2 + len.
Hypothesis Halloc : tot <= alloc_len.
Hypothesis Hb : insert_mlen tot buf = Ret b.

Lemma frame_buf : framed buf b 0 13 /\ msg_layout b tr d1 d2 room /\ load32 b 0 = tot.
Proof.
  pose proof (ml_len _ _ _ _ _ L). pose proof (ml_sz _ _ _ _ _ L). pose proof (ml_max _ _ _ _ _ L).
  destruct (insert_mlen_ex tot buf ltac:(lia)) as (b' & E & F & S0 & _). rewrite Hb in E. injection E as <-.
  split_and!; [done|eapply layout_framed; [exact L|exact F|lia]|].
  unfold load32. rewrite S0, le_val_bytes. change (256 ^ Z.of_nat 4) with (2 ^ 32). rewrite Z.mod_small; lia.
Qed.

(** One pass of the loop, from the start or after a blocked send. *)
Lemma loop_pass b0 : b0 = buf \/ b0 = b ->
  RMR_HDR_LEN b0 TP_HDR_LEN = Ret (tot - TP_HDR_LEN - len) /\
  i32 (u32 (len + (tot - TP_HDR_LEN - len) + TP_HDR_LEN)) = tot /\
  insert_mlen (u32 tot) b0 = Ret b /\ wire_bytes b tot = Ret (slice b 0 tot).
Proof.
  destruct frame_buf as ([Zb _] & Lb & _). intros Hb0.
  pose proof (ml_len _ _ _ _ _ L). pose proof (ml_sz _ _ _ _ _ L). pose proof (ml_max _ _ _ _ _ L).
  replace (len + (tot - TP_HDR_LEN - len) + TP_HDR_LEN) with tot by lia.
  rewrite (u32_id tot) by lia. rewrite i32_id by (unfold in_i32; lia). split_and!; [|done| |].
  - assert (tot - TP_HDR_LEN - len = 280 + tr + d1 + d2) as -> by (offsets; lia).
    destruct Hb0 as [->| ->]; [apply (hdr_len_layout L)|apply (hdr_len_layout Lb)].
  - destruct Hb0 as [->| ->]; [done|]. eapply insert_mlen_again; [|done]. lia.
  - unfold wire_bytes. destruct (Z.ltb_spec (zlen b) tot); [lia|]. destruct (Z.leb_spec tot 0); [lia|done].
Qed.

Lemma send_loop_retry fuel : forall n b0 spin retries,
  b0 = buf \/ b0 = b -> retries <> 0 -> 1 <= spin ->
  let k := if retries <? 0 then 0%nat else Z.to_nat (spin + 1000 * (retries - 1) - 1) in
  (k < fuel)%nat ->
  let '(state, errno, n') := retry_send k n sock (slice b 0 tot) in
  send_loop fuel n TP_HDR_LEN b0 len alloc_len sock spin retries =
    Ret (Some (state, if (state =? SI_ERR_BLOCKED) && (0 <? retries) then state else 0, errno, b, n')).
Proof.
  induction fuel as [|fuel IH]; intros n b0 spin retries Hb0 Hr Hs k Hk; [lia|].
  destruct (loop_pass b0 Hb0) as (E1 & E2 & E3 & E4). cbn [send_loop].
  rewrite E1. cbn [mbind comp_bind]. rewrite E2.
  destruct (Z.ltb_spec alloc_len tot) as [?|_]; [lia|]. rewrite E3. cbn [mbind comp_bind].
  rewrite E4. cbn [mbind comp_bind].
  assert (forall k, retry_send k n sock (slice b 0 tot) =
    let '(state, errno, n') := tp_send n sock (slice b 0 tot) in
    if state =? SI_ERR_BLOCKED then match k with O => (state, errno, n') | S k' => retry_send k' n' sock (slice b 0 tot) end
    else (state, errno, n')) as Er by (by intros []).
  rewrite Er. destruct (tp_send n sock (slice b 0 tot)) as [[st er] n1].
  destruct (Z.eqb_spec st SI_ERR_BLOCKED) as [->|Hst].
  2: { destruct (Z.eqb_spec st SI_OK) as [->|]; [done|]. cbn [negb]. rewrite andb_false_r.
    by rewrite (proj2 (Z.eqb_neq st SI_ERR_BLOCKED) Hst). }
  change (SI_ERR_BLOCKED =? SI_OK) with false. cbn [negb]. rewrite andb_true_r.
  destruct (Z.ltb_spec 0 retries) as [Hp|Hp].
  2: { unfold k. destruct (Z.ltb_spec retries 0); [|lia]. rewrite andb_false_r. done. }
  subst k. destruct (Z.ltb_spec retries 0) as [?|_]; [lia|].
  destruct (Z.leb_spec (spin - 1) 0) as [H1|H1].
  - assert (spin = 1) as -> by lia. destruct (Z.ltb_spec 0 (retries - 1)) as [H2|H2].
    + replace (Z.to_nat (1 + 1000 * (retries - 1) - 1)) with (S (Z.to_nat (1000 + 1000 * (retries - 1 - 1) - 1))) in * by lia.
      specialize (IH n1 b 1000 (retries - 1) (or_intror eq_refl) ltac:(lia) ltac:(lia)).
      destruct (Z.ltb_spec (retries - 1) 0) as [?|_]; [lia|]. cbv zeta in IH. specialize (IH ltac:(lia)).
      destruct (retry_send _ n1 sock _) as [[st' er'] n2]. rewrite IH.
      by destruct (Z.ltb_spec 0 (retries - 1)); [|lia].
    + assert (retries = 1) as -> by lia. done.
  - destruct (Z.ltb_spec 0 retries) as [_|?]; [|lia].
    replace (Z.to_nat (spin + 1000 * (retries - 1) - 1)) with (S (Z.to_nat (spin - 1 + 1000 * (retries - 1) - 1))) in * by lia.
    specialize (IH n1 b (spin - 1) retries (or_intror eq_refl) ltac:(lia) ltac:(lia)).
    destruct (Z.ltb_spec retries 0) as [?|_]; [lia|]. cbv zeta in IH. specialize (IH ltac:(lia)).
    destruct (retry_send _ n1 sock _) as [[st' er'] n2]. rewrite IH.
    by destruct (Z.ltb_spec 0 retries); [|lia].
Qed.
End loop.
End attempts.

(** ** One message *)

(** A message that can be sent: well formed, and what is used of it lies in the
    space it was allocated with. *)
Record sendable (m : mbuf) (buf : list Z) (tr d1 d2 room : Z) : Prop := {
  sd_wf : mbuf_wf m buf tr d1 d2 room;
  sd_fits : 330 + tr + d1 + d2 + m_len m <= m_alloc_len m <= zlen buf
}.

(** What is put on the wire for it. *)
Record sent_frame (mctx : msg_ctx) (m : mbuf) (buf : list Z) (tr d1 d2 : Z) (f : list Z) : Prop := {
  sf_len : zlen f = 330 + tr + d1 + d2 + m_len m;
  sf_mlen : load32 f 0 = zlen f;
  sf_mtype : load32n f (TP_HDR_LEN + o_mtype) = u32 (m_mtype m);
  sf_plen : load32n f (TP_HDR_LEN + o_plen) = m_len m;
  sf_sub : load32n f (TP_HDR_LEN + o_sub_id) = u32 (m_sub_id m);
  sf_ids : slice f (TP_HDR_LEN + o_rmr_ver) 68 = slice buf (TP_HDR_LEN + o_rmr_ver) 68;
  sf_meid : slice f (TP_HDR_LEN + o_meid) 72 = slice buf (TP_HDR_LEN + o_meid) 72;
  sf_src : if Z.land (m_flags m) MFL_ADDSRC =? 0
    then slice f (TP_HDR_LEN + o_src) 64 = slice buf (TP_HDR_LEN + o_src) 64 /\
         slice f (TP_HDR_LEN + o_srcip) 64 = slice buf (TP_HDR_LEN + o_srcip) 64
    else cstr_of (slice f (TP_HDR_LEN + o_src) 64) = take 63 (x_my_name mctx) /\
         cstr_of (slice f (TP_HDR_LEN + o_srcip) 64) = take 63 (x_my_ip mctx);
  sf_body : slice f 330 (tr + d1 + d2 + m_len m) = slice buf 330 (tr + d1 + d2 + m_len m)
}.

Lemma fill_send_header_spec mctx m buf tr d1 d2 room :
  mbuf_wf m buf tr d1 d2 room -> is_cstr (x_my_name mctx) -> is_cstr (x_my_ip mctx) ->
  exists b, fill_send_header mctx m = Ret b /\ msg_layout b tr d1 d2 room /\
    load32n b 50 = u32 (m_mtype m) /\ load32n b 54 = m_len m /\ load32n b 262 = u32 (m_sub_id m) /\
    slice b 58 68 = slice buf 58 68 /\ slice b 190 72 = slice buf 190 72 /\
    (if Z.land (m_flags m) MFL_ADDSRC =? 0
     then slice b 126 64 = slice buf 126 64 /\ slice b 266 64 = slice buf 266 64
     else cstr_of (slice b 126 64) = take 63 (x_my_name mctx) /\ cstr_of (slice b 266 64) = take 63 (x_my_ip mctx)) /\
    forall k, 0 <= k -> slice b 330 k = slice buf 330 k.
Proof.
  intros [Eb Eh _ _ Hl L] Hn Hip. pose proof (ml_len _ _ _ _ _ L). pose proof (ml_sz _ _ _ _ _ L).
  pose proof (ml_max _ _ _ _ _ L). unfold fill_send_header. rewrite Eb, Eh. cbn [deref mbind comp_bind]. offsets.
  destruct (put32n_ex buf 50 (m_mtype m)) as (b1 & -> & V1 & Z1 & F1); [lia..|]. cbn [mbind comp_bind].
  destruct (put32n_ex b1 262 (m_sub_id m)) as (b2 & -> & V2 & Z2 & F2); [lia..|]. cbn [mbind comp_bind].
  destruct (put32n_ex b2 54 (m_len m)) as (b3 & -> & V3 & Z3 & F3); [lia..|]. cbn [mbind comp_bind].
  rewrite u32_id in V3 by lia.
  assert (msg_layout b3 tr d1 d2 room) as L3.
  { eapply layout_framed; [eapply layout_framed; [eapply layout_framed; [exact L|by split|lia]|by split|lia]|by split|lia]. }
  unfold load32n in *. destruct (Z.eqb_spec (Z.land (m_flags m) MFL_ADDSRC) 0) as [Hf|Hf]; cbn [negb].
  - exists b3. split; [done|]. split_and!; try done; intros; by frame.
  - destruct (zt_buf_fill_ex b3 126 (x_my_name mctx ++ [0]) 64) as (n8 & b8 & E8 & V8 & _ & _ & Z8 & F8);
      [lia..|left; apply in_app_iff; simpl; tauto|by apply is_cstr_nil|].
    destruct (zt_buf_fill_ex b8 266 (x_my_ip mctx ++ [0]) 64) as (n9 & b9 & E9 & V9 & _ & _ & Z9 & F9);
      [lia..|left; apply in_app_iff; simpl; tauto|by apply is_cstr_nil|].
    rewrite cstr_of_app_nil in V8, V9 by done. rewrite E8. cbn [mbind comp_bind]. rewrite E9. cbn [mbind comp_bind].
    exists b9. split; [done|]. split_and!; try (intros; by frame).
    eapply layout_framed; [eapply layout_framed; [exact L3|by split|lia]|by split|lia].
Qed.

(** The frame is cut from the filled buffer once its length is inserted. *)
Lemma send_frame_spec mctx m buf tr d1 d2 room :
  sendable m buf tr d1 d2 room -> is_cstr (x_my_name mctx) -> is_cstr (x_my_ip mctx) ->
  let tot := 330 + tr + d1 + d2 + m_len m in
  exists b b', fill_send_header mctx m = Ret b /\ msg_layout b tr d1 d2 room /\
    insert_mlen tot b = Ret b' /\ msg_layout b' tr d1 d2 room /\ sent_frame mctx m buf tr d1 d2 (slice b' 0 tot).
Proof.
  intros [W Hfit] Hn Hip tot. destruct (fill_send_header_spec mctx m buf tr d1 d2 room W Hn Hip)
    as (b & Eb & L & Vt & Vl & Vs & Si & Sm & Ss & Sb).
  pose proof (ml_len _ _ _ _ _ L). pose proof (ml_sz _ _ _ _ _ L). pose proof (mw_len _ _ _ _ _ _ W).
  destruct (insert_mlen_ex tot b ltac:(lia)) as (b' & E & _).
  destruct (frame_buf b b' tr d1 d2 room (m_len m) tot L ltac:(done) eq_refl E) as ([Z' F'] & L' & M').
  exists b, b'. split_and!; try done.
  assert (forall o k, 13 <= o -> 0 <= k -> o + k <= tot -> slice (slice b' 0 tot) o k = slice b o k) as S.
  { intros o k ? ? ?. rewrite slice_slice by lia. apply F'; lia. }
  assert (zlen (slice b' 0 tot) = tot) as Zf by (apply zlen_slice; lia).
  assert (tot = 330 + tr + d1 + d2 + m_len m) as Et by done.
  split; offsets; unfold load32n, load32 in *; rewrite ?S by lia; try done.
  - rewrite slice_slice by lia. change (0 + 0) with 0. lia.
  - apply Sb. lia.
Qed.

(** ** The message that replaces a sent one *)

Section send_thms.
Variable malloc_bytes : Z -> list Z.
Hypothesis malloc_len : forall n, 0 <= n -> zlen (malloc_bytes n) = n.

(** The lengths of a context, for the allocation that follows a send. *)
Record reuse_ok (mctx : msg_ctx) (tr : Z) : Prop := {
  ro_tr : 0 <= x_trace_data_len mctx < 2 ^ 31;
  ro_d1 : 0 <= x_d1_len mctx;
  ro_d2 : x_d2_len mctx = 0;
  ro_p : 0 <= x_max_plen mctx;
  ro_max : 380 + Z.max tr (x_trace_data_len mctx) + x_d1_len mctx + x_max_plen mctx < 2 ^ 31;
  ro_name : is_cstr (x_my_name mctx);
  ro_ip : is_cstr (x_my_ip mctx)
}.

(** The replacement: every field is reset; when the trace length of the message
    was that of the context it is well formed with the default payload space, and
    when the context's is not longer the header says so. *)
Record blank_msg (mctx : msg_ctx) (tr : Z) (m : mbuf) : Prop := {
  bm_state : m_state m = RMR_OK /\ m_mtype m = UNSET_MSGTYPE /\ m_sub_id m = UNSET_SUBID /\
             m_len m = 0 /\ m_flags m = MFL_ZEROCOPY /\ m_rts_fd m = -1 /\ m_header m = Some TP_HDR_LEN;
  bm_wf : tr = x_trace_data_len mctx ->
    exists b room, x_max_plen mctx <= room /\ mbuf_wf m b tr (x_d1_len mctx) 0 room;
  bm_room : x_trace_data_len mctx <= tr ->
    exists b room, mbuf_wf m b (x_trace_data_len mctx) (x_d1_len mctx) 0 room /\
      330 + x_trace_data_len mctx + x_d1_len mctx <= m_alloc_len m <= zlen b
}.

Lemma alloc_zcmsg_again mctx m buf tr :
  m_tp_buf m = Some buf -> m_alloc_len m <= zlen buf -> zlen buf + 50 < 2 ^ 31 -> 0 < m_alloc_len m ->
  0 <= tr -> reuse_ok mctx tr ->
  exists m', alloc_zcmsg malloc_bytes mctx None (Some m) 0 RMR_OK (i32 tr) = Ret m' /\ blank_msg mctx tr m'.
Proof.
  intros Eb Ha Hz Hpos Htr [Ht Hd1 Hd2 Hp Hmax Hn Hip]. unfold alloc_zcmsg. rewrite Hd2.
  rewrite (i32_id tr) by (unfold in_i32; lia). change (0 <? 0) with false. cbv iota.
  set (tl := if 0 <? tr then tr else x_trace_data_len mctx).
  assert (0 <= tl <= Z.max tr (x_trace_data_len mctx) /\ (tr = x_trace_data_len mctx -> tl = tr)) as [Htl Htl'].
  { unfold tl. destruct (Z.ltb_spec 0 tr); lia. }
  offsets. rewrite (u64_id (_ + 0)), (u64_id (_ + x_max_plen mctx)), (u64_id (_ + 50)) by lia.
  set (mlen := _ + 50). rewrite (u64_id (m_alloc_len m)) by lia.
  set (p := if m_alloc_len m <? mlen then _ else _). destruct p as [m1 ml] eqn:Ep.
  assert (exists b, (if m_alloc_len m1 =? 0 then Some (malloc_bytes ml) else m_tp_buf m1) = Some b /\
    mlen <= zlen b /\ zlen b + 50 < 2 ^ 31 /\ mlen <= ml <= zlen b) as (b & -> & Hlb & Hmb & Hml).
  { unfold p in Ep. destruct (Z.ltb_spec (m_alloc_len m) mlen); injection Ep as <- <-; cbn.
    - eexists. split; [done|]. rewrite malloc_len; lia.
    - destruct (Z.eqb_spec (m_alloc_len m) 0); [lia|]. exists buf. split; [done|]. lia. }
  cbn [deref mbind comp_bind]. clear Ep p.
  destruct (fill_header mctx b (u32 ml))
    as (b1 & b2 & b3 & b4 & b5 & b6 & b7 & n8 & b8 & n9 & b9 & -> & H); [lia|lia|done|done|lia|].
  unfold RMR_MSG_VER, UNSET_SUBID, SET_HDR_LEN, SET_HDR_TR_LEN, SET_HDR_D1_LEN in *. offsets. cbn [mbind comp_bind].
  destruct H as (-> & H). cbn [mbind comp_bind]. destruct H as (-> & H). cbn [mbind comp_bind].
  destruct H as (-> & H). cbn [mbind comp_bind]. destruct H as (-> & H). cbn [mbind comp_bind].
  destruct H as (-> & H). cbn [mbind comp_bind].
  destruct H as (-> & E8 & E9 & Z7 & Z9 & HL & _). cbn [mbind comp_bind].
  destruct (HL b7) as (L0 & L1 & L2 & L3); [by left|]. destruct (HL b9) as (L0' & L1' & L2' & L3'); [by right|].
  assert (PAYLOAD_ADDR b7 50 = Ret (330 + x_trace_data_len mctx + x_d1_len mctx + 0)) as EP.
  { unfold PAYLOAD_ADDR, hdr_lens. offsets. rewrite !get32n_ret by lia. cbn [mbind comp_bind].
    rewrite L0, L1, L2, L3. f_equal. }
  rewrite EP. cbn [mbind comp_bind]. rewrite E8. cbn [mbind comp_bind]. rewrite E9. cbn [mbind comp_bind].
  assert (330 + x_trace_data_len mctx + x_d1_len mctx <= mlen \/ tr < x_trace_data_len mctx) as Hroom.
  { unfold mlen, tl. destruct (Z.ltb_spec 0 tr); lia. }
  rewrite (i32_id ml) by (unfold in_i32; lia).
  eexists. split; [done|]. split; cbn; [done| |].
  - intros Hx. specialize (Htl' Hx). exists b9, (zlen b - (330 + tr + x_d1_len mctx)). split; [lia|].
    split; cbn; try done; try lia; [by rewrite Hx|]. split; try lia; try done; congruence.
  - intros Hx. exists b9, (zlen b - (330 + x_trace_data_len mctx + x_d1_len mctx)). split; [|lia].
    split; cbn; try done; try lia. split; try lia; try done; congruence.
Qed.

(** send_msg is [retry_send] of one frame, the front of the buffer it leaves; a
    message that was taken is replaced by a blank one, or by nil when no buffer
    is wanted. *)
Lemma send_msg_front {N : Type} `{Transport N} mctx (n : N) m buf tr d1 d2 room sock retries :
  sendable m buf tr d1 d2 room -> reuse_ok mctx tr ->
  exists b', let f := slice b' 0 (330 + tr + d1 + d2 + m_len m) in
    sent_frame mctx m buf tr d1 d2 f /\ msg_layout b' tr d1 d2 room /\
    let '(state, errno, n') := retry_send (Z.to_nat (attempts retries - 1)) n sock f in
    let res := send_msg malloc_bytes mctx n m sock retries in
    let back := set_tp_buf (Some b') m in
    if state =? SI_OK then
      if Z.land (m_flags m) MFL_NOALLOC =? 0
      then exists m', res = Ret (Some m', errno, n') /\ blank_msg mctx tr m'
      else res = Ret (None, errno, n')
    else if (state =? SI_ERR_BLOCKED) && (0 <=? retries) || (errno =? EAGAIN)
    then res = Ret (Some (set_state RMR_ERR_RETRY back), EAGAIN, n')
    else res = Ret (Some (set_state RMR_ERR_SENDFAILED back), errno, n').
Proof.
  intros Hs Hr. destruct (send_frame_spec mctx m buf tr d1 d2 room Hs) as (b & b' & Eb & L & Em & L' & F);
    [apply Hr..|]. destruct Hs as [W Hfit]. pose proof (ml_len _ _ _ _ _ L'). pose proof (ml_sz _ _ _ _ _ L').
  pose proof (ml_max _ _ _ _ _ L'). pose proof (mw_len _ _ _ _ _ _ W). pose proof (ml_len _ _ _ _ _ (mw_layout _ _ _ _ _ _ W)).
  exists b'. set (f := slice b' 0 _). cbv zeta. split_and!; [done..|]. unfold send_msg. rewrite Eb, (mw_hdr _ _ _ _ _ _ W). cbn [deref mbind comp_bind].
  rewrite (tr_len_layout L). cbn [mbind comp_bind].
  set (spin := if retries =? 0 then 100 else 1000). set (r := if retries =? 0 then 1 else retries).
  pose proof (send_loop_retry b b' tr d1 d2 room (m_len m) (m_alloc_len m) _ sock L ltac:(done) eq_refl
    ltac:(lia) Em (Z.to_nat (spin + 1000 * Z.max 0 (r - 1))) n b spin r (or_introl eq_refl)) as HL.
  assert (r <> 0 /\ 1 <= spin /\ (0 <? r) = (0 <=? retries) /\
    (if r <? 0 then 0%nat else Z.to_nat (spin + 1000 * (r - 1) - 1)) = Z.to_nat (attempts retries - 1)) as (R1 & R2 & R3 & R4).
  { unfold r, spin, attempts. destruct (Z.eqb_spec retries 0); [subst; split_and!; [lia|lia|done|done]|].
    destruct (Z.ltb_spec retries 0), (Z.ltb_spec 0 retries), (Z.leb_spec 0 retries); lia || (split_and!; done || lia). }
  specialize (HL R1 R2). cbv zeta in HL. rewrite R4 in HL. specialize (HL ltac:(unfold spin, r, attempts in *;
    destruct (Z.eqb_spec retries 0); [subst; lia|]; destruct (Z.ltb_spec retries 0); lia)).
  fold f in HL. destruct (retry_send _ n sock f) as [[st er] n'] eqn:Er. rewrite HL, R3. cbn [mbind comp_bind].
  assert (forall P Q : comp (option mbuf * Z * N), (if ((if (st =? SI_ERR_BLOCKED) && (0 <=? retries) then st else 0) =? SI_ERR_BLOCKED)
      || (er =? EAGAIN) then P else Q) = if (st =? SI_ERR_BLOCKED) && (0 <=? retries) || (er =? EAGAIN) then P else Q) as Eif.
  { intros. destruct (Z.eqb_spec st SI_ERR_BLOCKED) as [->|]; [|done]. by destruct (0 <=? retries). }
  change (st =? RMR_OK) with (st =? SI_OK). destruct (Z.eqb_spec st SI_OK) as [->|Hst].
  - cbn [m_flags set_tp_buf]. destruct (Z.land (m_flags m) MFL_NOALLOC =? 0); [|done].
    destruct (alloc_zcmsg_again mctx (set_tp_buf (Some b') m) b' tr) as (m' & Ea & Bm); try done; cbn; try lia.
    rewrite Ea. cbn [mbind comp_bind]. by exists m'.
  - rewrite Eif. clear Eif. by destruct (_ || _).
Qed.

Lemma send_msg_ref {N : Type} `{Transport N} mctx (n : N) m buf tr d1 d2 room sock retries :
  sendable m buf tr d1 d2 room -> reuse_ok mctx tr ->
  exists f b', sent_frame mctx m buf tr d1 d2 f /\ msg_layout b' tr d1 d2 room /\
    let '(state, errno, n') := retry_send (Z.to_nat (attempts retries - 1)) n sock f in
    let res := send_msg malloc_bytes mctx n m sock retries in
    let back := set_tp_buf (Some b') m in
    if state =? SI_OK then
      if Z.land (m_flags m) MFL_NOALLOC =? 0
      then exists m', res = Ret (Some m', errno, n') /\ blank_msg mctx tr m'
      else res = Ret (None, errno, n')
    else if (state =? SI_ERR_BLOCKED) && (0 <=? retries) || (errno =? EAGAIN)
    then res = Ret (Some (set_state RMR_ERR_RETRY back), EAGAIN, n')
    else res = Ret (Some (set_state RMR_ERR_SENDFAILED back), errno, n').
Proof.
  intros Hs Hr. destruct (send_msg_front mctx n m buf tr d1 d2 room sock retries Hs Hr) as (b' & F & L & E).
  by eexists _, b'.
Qed.
End send_thms.

(** ** From the wire to the receiving application *)

(** The message an application receives is the one that was sent. *)
Record same_message (m : mbuf) (buf : list Z) (tr d1 d2 : Z) (m' : mbuf) (raw : list Z) : Prop := {
  me_ok : m_state m' = RMR_OK;
  me_buf : m_tp_buf m' = Some raw;
  me_mtype : m_mtype m' = m_mtype m;
  me_sub : m_sub_id m' = m_sub_id m;
  me_len : m_len m' = m_len m;
  me_payload : m_payload m' = Some (330 + tr + d1 + d2) /\
    slice raw (330 + tr + d1 + d2) (m_len m) = slice buf (330 + tr + d1 + d2) (m_len m);
  me_trace : slice raw 330 (tr + d1 + d2) = slice buf 330 (tr + d1 + d2);
  me_xid : slice raw (TP_HDR_LEN + o_xid) 32 = slice buf (TP_HDR_LEN + o_xid) 32;
  me_meid : slice raw (TP_HDR_LEN + o_meid) 32 = slice buf (TP_HDR_LEN + o_meid) 32
}.

(** What a frame was made from: one message of the application. *)
Record outgoing := MkOut { out_msg : mbuf; out_buf : list Z; out_tr : Z; out_d1 : Z; out_d2 : Z; out_room : Z }.

Record out_ok (o : outgoing) : Prop := {
  oo_send : sendable (out_msg o) (out_buf o) (out_tr o) (out_d1 o) (out_d2 o) (out_room o);
  oo_i32 : in_i32 (m_mtype (out_msg o)) /\ in_i32 (m_sub_id (out_msg o));
  oo_size : zlen (out_buf o) <= INT_MAX - 128;
  oo_bytes : Forall is_byte (out_buf o)
}.

(** As much of it as the way through the wire needs. *)
Record wire_ok (o : outgoing) : Prop := {
  wo_send : sendable (out_msg o) (out_buf o) (out_tr o) (out_d1 o) (out_d2 o) (out_room o);
  wo_i32 : in_i32 (m_mtype (out_msg o)) /\ in_i32 (m_sub_id (out_msg o));
  wo_size : zlen (out_buf o) <= INT_MAX - 128;
  wo_call : forall b, 0 < out_d1 o -> get8 (out_buf o) (330 + out_tr o) = Ret b -> 0 <= b < 256
}.

Lemma out_wire_ok o : out_ok o -> wire_ok o.
Proof. intros [? ? ? Hb]. split; try done. intros b _. by apply get8_range. Qed.

Definition frame_of (mctx : msg_ctx) (o : outgoing) (f : list Z) : Prop :=
  sent_frame mctx (out_msg o) (out_buf o) (out_tr o) (out_d1 o) (out_d2 o) f.

Definition same_as (o : outgoing) (m' : mbuf) : Prop :=
  exists raw, same_message (out_msg o) (out_buf o) (out_tr o) (out_d1 o) (out_d2 o) m' raw.

Lemma frame_is_msg mctx o f : out_ok o -> frame_of mctx o f -> is_msg f.
Proof.
  intros [[W Hf] _ Hz _] F. destruct F as [Zf Mf _ _ _ _ _ _ _]. pose proof (mw_len _ _ _ _ _ _ W).
  pose proof (ml_sz _ _ _ _ _ (mw_layout _ _ _ _ _ _ W)). split; lia.
Qed.

Lemma i32_u32 z : in_i32 z -> i32 (u32 z) = z.
Proof.
  intros Hz. rewrite <-(i32_id z) at 2 by done. unfold i32, u32. f_equal.
  by rewrite Zplus_mod_idemp_l.
Qed.

Lemma get8_slice l off b : get8 l off = Ret b -> slice l off 1 = [b].
Proof.
  unfold get8. destruct (_ || _); [done|]. destruct (l !! Z.to_nat off) as [x|] eqn:E; [|done]. intros [= ->].
  unfold slice. change (Z.to_nat 1) with 1%nat. by rewrite (drop_S _ _ _ E).
Qed.

(** What a buffer of the river that holds a frame has of the sender's buffer. *)
Record raw_of (o : outgoing) (raw : list Z) : Prop := {
  ro_total : 330 + out_tr o + out_d1 o + out_d2 o + m_len (out_msg o) <= zlen raw <= INT_MAX;
  ro_numbers : load32n raw 50 = u32 (m_mtype (out_msg o)) /\ load32n raw 54 = m_len (out_msg o) /\
    load32n raw 262 = u32 (m_sub_id (out_msg o));
  ro_ids : forall q k, 58 <= q -> 0 <= k -> q + k <= 126 -> slice raw q k = slice (out_buf o) q k;
  ro_head : forall q k, 190 <= q -> 0 <= k -> q + k <= 262 -> slice raw q k = slice (out_buf o) q k;
  ro_body : forall q k, 330 <= q -> 0 <= k -> q + k <= 330 + out_tr o + out_d1 o + out_d2 o + m_len (out_msg o) ->
    slice raw q k = slice (out_buf o) q k;
  ro_lens : load32n raw 246 = 280 /\ load32n raw 250 = out_tr o /\ load32n raw 254 = out_d1 o /\ load32n raw 258 = out_d2 o
}.

Lemma raw_of_frame mctx o f raw : wire_ok o -> frame_of mctx o f -> holds f raw -> raw_of o raw.1.
Proof.
  intros Ho F [Sr [Zr Hn]]. destruct raw as [raw nb]. cbn [fst snd] in *. subst nb.
  destruct o as [m buf tr d1 d2 room]. destruct Ho as [[W Hf] [Ht Hs] Hz Hby]. unfold frame_of in *. cbn in *.
  pose proof (ml_sz _ _ _ _ _ (mw_layout _ _ _ _ _ _ W)). pose proof (mw_len _ _ _ _ _ _ W).
  destruct F as [Zf Mf Vt Vl Vs Si Sm _ Sb]. rewrite Zf in *. set (tot := 330 + tr + d1 + d2 + m_len m) in *.
  assert (forall q k, 0 <= q -> 0 <= k -> q + k <= tot -> slice raw q k = slice f q k) as S.
  { intros q k ? ? ?. rewrite <-Sr. by rewrite slice_slice by lia. }
  assert (forall q k, 190 <= q -> 0 <= k -> q + k <= 262 -> slice raw q k = slice buf q k) as Sh.
  { intros q k ? ? ?. rewrite S by (unfold tot; lia). offsets. rewrite (slice_sub f buf 190 190 72 q k) by (done || lia). f_equal. lia. }
  pose proof (mw_layout _ _ _ _ _ _ W) as [_ _ _ L0 L1 L2 L3].
  split; cbn; fold tot; try done; unfold load32n in *.
  - offsets. rewrite !S by (unfold tot; lia). done.
  - intros q k ? ? ?. rewrite S by (unfold tot; lia). offsets. rewrite (slice_sub f buf 58 58 68 q k) by (done || lia). f_equal. lia.
  - intros q k ? ? ?. rewrite S by lia.
    rewrite (slice_sub f buf 330 330 (tr + d1 + d2 + m_len m) q k) by (done || unfold tot in *; lia). f_equal. lia.
  - rewrite !Sh by lia. done.
Qed.

(** A buffer of the river that holds the frame becomes that message, and goes to
    the ring or to the chute its call id names. *)
Lemma frame_buffered mctx o f raw now rx fd :
  wire_ok o -> frame_of mctx o f -> holds f raw ->
  exists m', buf2mbuf now rx raw.1 raw.2 fd = Ret (deliver_to now rx m' (call_slot raw.1)) /\
    0 <= call_slot raw.1 < 256 /\ refs_buffer m' raw.1 fd /\
    same_message (out_msg o) (out_buf o) (out_tr o) (out_d1 o) (out_d2 o) m' raw.1.
Proof.
  intros Ho F Hr. destruct (raw_of_frame mctx o f raw Ho F Hr) as [Tot (Vt & Vl & Vs) Si Sh Sp (R0 & R1 & R2 & R3)].
  destruct Hr as [_ [Zr _]]. destruct raw as [raw nb]. cbn [fst snd] in *. subst nb.
  destruct o as [m buf tr d1 d2 room]. destruct Ho as [[W Hf] [Ht Hs] Hz Hby]. cbn in *. unfold INT_MAX in *.
  pose proof (ml_sz _ _ _ _ _ (mw_layout _ _ _ _ _ _ W)). pose proof (mw_len _ _ _ _ _ _ W).
  assert (lens_sum raw = 280 + tr + d1 + d2) as El by (unfold lens_sum; lia).
  pose proof (buf2mbuf_spec now rx raw fd ltac:(lia)) as Hspec. rewrite El in Hspec. offsets.
  change (50 + 4) with 54 in *. rewrite Vl in Hspec.
  destruct (Z.ltb_spec (zlen raw) (280 + tr + d1 + d2 + 50 + m_len m)) as [?|_]; [lia|].
  destruct Hspec as (m' & E & Hc & R).
  - intros q [->|[->|[->|[->| ->]]]]; lia.
  - intros b Hd Hg. rewrite R0, R1 in Hg. change (50 + 280) with 330 in Hg. apply (Hby b); [lia|].
    destruct (get8_total buf (330 + tr)) as [b' Eb]; [lia|]. rewrite Eb. f_equal.
    apply get8_slice in Hg, Eb. rewrite Sp in Hg by lia. congruence.
  - lia.
  - exists m'. split; [done|]. split; [done|]. split; [done|].
    destruct R as [Qs Qb Qh Ql [Qp _] Qt Qu Qf _ _ _]. offsets. rewrite El in Qp. split; try done.
    + rewrite Qt, (Vt : load32n raw (50 + 0) = _). by apply i32_u32.
    + rewrite Qu, (Vs : load32n raw (50 + 212) = _). by apply i32_u32.
    + rewrite Ql. exact Vl.
    + split; [by replace (330 + tr + d1 + d2) with (50 + (280 + tr + d1 + d2)) by lia|]. apply Sp; lia.
    + apply Sp; lia.
    + offsets. apply Si; lia.
    + offsets. apply Sh; lia.
Qed.

Lemma frame_received mctx o f raw now rx fd :
  out_ok o -> frame_of mctx o f -> holds f raw ->
  exists m' rx', buf2mbuf now rx raw.1 raw.2 fd = Ret rx' /\ delivered now rx m' rx' /\
    m_rts_fd m' = fd /\ same_as o m'.
Proof.
  intros Ho F R. destruct (frame_buffered mctx o f raw now rx fd (out_wire_ok o Ho) F R) as (m' & E & Hc & Hr & Hsame).
  eexists m', _. split; [exact E|]. split; [by apply deliver_delivered|]. split; [apply Hr|by exists raw.1].
Qed.

(** Messages handed over one after the other. *)
Inductive delivered_all (now : Z) : rx_ctx -> list mbuf -> rx_ctx -> Prop :=
| DANil rx : delivered_all now rx [] rx
| DACons rx m rx1 ms rx2 : delivered now rx m rx1 -> delivered_all now rx1 ms rx2 -> delivered_all now rx (m :: ms) rx2.

Lemma frames_received mctx now fd os fs raws rx :
  Forall out_ok os -> Forall2 (frame_of mctx) os fs -> Forall2 holds fs raws ->
  exists ms rx', deliver_all (fun rx raw n => buf2mbuf now rx raw n fd) rx raws = Ret rx' /\
    delivered_all now rx ms rx' /\ Forall2 same_as os ms /\ Forall (fun m => m_rts_fd m = fd) ms.
Proof.
  intros Ho HF. revert raws rx. induction HF as [|o f os fs F HF IH]; intros raws rx HR; inversion HR as [|? raw ? raws' R HR']; subst.
  { exists [], rx. split_and!; constructor. }
  apply Forall_cons in Ho as [Ho Hos].
  destruct (frame_received mctx o f raw now rx fd Ho F R) as (m & rx1 & E & D & Efd & Hsame).
  destruct (IH Hos raws' rx1 HR') as (ms & rx' & E' & D' & Hs & Hf).
  exists (m :: ms), rx'. destruct raw as [raw n]. cbn [deliver_all]. cbn [fst snd] in E. rewrite E.
  split_and!; [done|by econstructor|by constructor|by constructor].
Qed.

(** One successful send after the other, on the same descriptor. *)
Inductive sends_ok {N : Type} `{Transport N} (malloc_bytes : Z -> list Z) (mctx : msg_ctx) (sock retries : Z) :
    N -> list outgoing -> N -> Prop :=
| SONil n : sends_ok malloc_bytes mctx sock retries n [] n
| SOCons n o m' er n1 os n2 :
    send_msg malloc_bytes mctx n (out_msg o) sock retries = Ret (Some m', er, n1) -> m_state m' = RMR_OK ->
    sends_ok malloc_bytes mctx sock retries n1 os n2 -> sends_ok malloc_bytes mctx sock retries n (o :: os) n2.

Lemma sends_ok_wire {N : Type} `{Transport N} malloc_bytes mctx sock retries (n n' : N) os :
  (forall n, 0 <= n -> zlen (malloc_bytes n) = n) ->
  Forall out_ok os -> Forall (fun o => reuse_ok mctx (out_tr o)) os ->
  sends_ok malloc_bytes mctx sock retries n os n' ->
  exists fs, Forall2 (frame_of mctx) os fs /\ tp_wire n' sock = tp_wire n sock ++ concat fs.
Proof.
  intros Hm Ho Hr Hs. induction Hs as [n|n o m' er n1 os n2 E Ok Hs IH].
  { exists []. split; [constructor|]. by rewrite app_nil_r. }
  apply Forall_cons in Ho as [Ho Hos]. apply Forall_cons in Hr as [Hr Hrs].
  destruct (IH Hos Hrs) as (fs & HF & Hw).
  destruct (send_msg_ref malloc_bytes Hm mctx n (out_msg o) _ _ _ _ _ sock retries (oo_send o Ho) Hr) as (f & b' & F & _ & H').
  destruct (retry_send _ n sock f) as [[st e] n3] eqn:Er. pose proof (retry_send_wire _ _ _ _ _ _ _ Er) as (W1 & _ & _).
  cbv zeta in H'. rewrite E in H'. destruct (Z.eqb_spec st SI_OK) as [->|Hst].
  - exists (f :: fs). split; [by constructor|]. cbn [concat]. rewrite Hw, app_assoc, <-W1 by done. do 2 f_equal.
    destruct (_ =? 0); [destruct H' as (m2 & H' & _)|]; congruence.
  - exfalso. destruct (_ || _); injection H'; intros; subst m'; done.
Qed.

(** * Properties *)

(** C10.  End to end: messages that were sent successfully one after the other on
    a connection, whose bytes then reach the peer cut into any pieces, are
    handed over by the peer's receive thread completely and in order, on the ring
    or in a chute, each with the type, the subscription id, the length, the
    payload, the trace data, the transaction id and the meid it was sent with,
    and with the descriptor an answer goes to. *)
Theorem sent_is_received {N : Type} `{Transport N} malloc_bytes mctx sock retries (n n' : N) os chunks now fd max_ibm rx :
  (forall n, 0 <= n -> zlen (malloc_bytes n) = n) -> 0 <= max_ibm < INT_MAX - 1024 ->
  Forall out_ok os -> Forall (fun o => reuse_ok mctx (out_tr o)) os ->
  sends_ok malloc_bytes mctx sock retries n os n' -> tp_wire n' sock = tp_wire n sock ++ concat chunks ->
  exists ms r rx', river_feed malloc_bytes max_ibm (fun rx raw k => buf2mbuf now rx raw k fd) river0 rx chunks = Ret (Some (r, rx')) /\
    delivered_all now rx ms rx' /\ Forall2 same_as os ms /\ Forall (fun m => m_rts_fd m = fd) ms.
Proof.
  intros Hm Hi Ho Hr Hs Hw. destruct (sends_ok_wire malloc_bytes mctx sock retries n n' os Hm Ho Hr Hs) as (fs & HF & Hw').
  rewrite Hw in Hw'. apply app_inv_head in Hw'.
  assert (Forall is_msg fs) as Hmsg.
  { clear -Ho HF. induction HF; [constructor|]. apply Forall_cons in Ho as [Ho Hos].
    constructor; [by eapply frame_is_msg|by apply IHHF]. }
  destruct (river_feed_spec malloc_bytes Hm max_ibm Hi (fun rx raw k => buf2mbuf now rx raw k fd) chunks river0 [] fs [])
    as (raws & r & HR & _ & E); [by right|by left|done|by left|by rewrite app_nil_r|].
  destruct (frames_received mctx now fd os fs raws rx Ho HF HR) as (ms & rx' & E' & D & Hsame & Hfd).
  exists ms, r, rx'. rewrite E, E'. by split_and!.
Qed.

(** A transport that takes everything, and one that never takes anything and
    counts the attempts. *)
Definition open_net : Type := Z -> list Z.

#[export] Program Instance open_transport : Transport open_net := {
  tp_connect n _ := (7, n);
  tp_send n fd b := (SI_OK, 0, fun fd' => if fd' =? fd then n fd ++ b else n fd');
  tp_wire n := n
}.
Next Obligation. intros n fd b er n' [= _ <-]. by rewrite Z.eqb_refl. Qed.
Next Obligation. done. Qed.
Next Obligation. intros n fd b st er n' fd' [= _ _ <-] Hne. by rewrite (proj2 (Z.eqb_neq _ _) Hne). Qed.
Next Obligation. by intros n a fd n' fd' [= _ <-]. Qed.

Definition blocked_net : Type := nat.

#[export] Program Instance blocked_transport : Transport blocked_net := {
  tp_connect n _ := (7, n);
  tp_send n fd b := (SI_ERR_BLOCKED, EBUSY, S n);
  tp_wire n fd := []
}.
Next Obligation. done. Qed.
Next Obligation. by intros n fd b er n' fd' [= <- _]. Qed.
Next Obligation. done. Qed.
Next Obligation. done. Qed.

(** A message of 100 bytes payload space, with 5 bytes used. *)
Definition ex_buf : list Z := Eval vm_compute in default [] (m_tp_buf (msg0 100)).
Definition ex_msg : mbuf :=
  Eval vm_compute in MkMbuf 0 12 5 (m_payload (msg0 100)) (m_xaction (msg0 100)) (-1) 0 (Some ex_buf) (m_header (msg0 100))
    (m_flags (msg0 100)) (m_alloc_len (msg0 100)) (-1) 18754.
Definition ex_out : outgoing := MkOut ex_msg ex_buf 20 4 0 100.

Lemma ex_sendable : sendable ex_msg ex_buf 20 4 0 100.
Proof. split; [split|]; [reflexivity..|vm_compute; split; discriminate|split|]; vm_compute; repeat split; discriminate. Qed.

Lemma ex_out_ok : out_ok ex_out.
Proof.
  split; [exact ex_sendable|vm_compute; repeat split; discriminate|vm_compute; discriminate|].
  apply (bool_decide_unpack (Forall (fun b => 0 <= b /\ b < 256) ex_buf)). vm_compute. exact I.
Qed.

Lemma ex_reuse_ok : reuse_ok ctx0 20.
Proof.
  pose proof (ctx0_ok 0 ltac:(vm_compute; discriminate) ltac:(vm_compute; discriminate)) as C.
  split; try apply C; try done; vm_compute; split; done || discriminate.
Qed.

Lemma ex_send_ok (n : open_net) : exists m' er n', send_msg junk ctx0 n ex_msg 7 0 = Ret (Some m', er, n') /\ m_state m' = RMR_OK.
Proof.
  destruct (send_msg_ref junk junk_len ctx0 n ex_msg ex_buf 20 4 0 100 7 0 ex_sendable ex_reuse_ok) as (f & b' & _ & _ & H).
  destruct (Z.to_nat _); cbn -[set_state send_msg] in H; destruct H as (m' & E & B); eexists m', _, _; (split; [exact E|apply B]).
Qed.

Lemma sent_is_received_witness :
  exists (n' : open_net) chunks ms r rx', sends_ok junk ctx0 7 0 ((fun _ => []) : open_net) [ex_out] n' /\ n' 7 = concat chunks /\
    length chunks = 2%nat /\
    river_feed junk 1024 (fun rx raw k => buf2mbuf 100 rx raw k 9) river0 rx0 chunks = Ret (Some (r, rx')) /\
    delivered_all 100 rx0 ms rx' /\ Forall2 same_as [ex_out] ms.
Proof.
  destruct (ex_send_ok (fun _ => [])) as (m' & er & n' & E & Em).
  assert (sends_ok junk ctx0 7 0 ((fun _ => []) : open_net) [ex_out] n') as Hs by (econstructor; [exact E|exact Em|constructor]).
  assert (concat [take 5 (n' 7); drop 5 (n' 7)] = n' 7) as Hc by (cbn [concat]; rewrite app_nil_r; apply take_drop).
  destruct (sent_is_received junk ctx0 7 0 ((fun _ => []) : open_net) n' [ex_out] [take 5 (n' 7); drop 5 (n' 7)] 100 9 1024 rx0)
    as (ms & r & rx' & H1 & H2 & H3 & _).
  - exact junk_len.
  - unfold INT_MAX; lia.
  - constructor; [exact ex_out_ok|constructor].
  - constructor; [exact ex_reuse_ok|constructor].
  - exact Hs.
  - symmetry. exact Hc.
  - exists n', [take 5 (n' 7); drop 5 (n' 7)], ms, r, rx'. rewrite Hc. repeat (split; [done|]). exact H3.
Defined.

(** C13.  send_msg equals its reference, with retries off (a negative argument) or
    some number of retry loops (a positive one): one frame with the type, the
    subscription id, the length and the content of the message is offered to the
    descriptor, again only while it is blocked and at most once with retries off,
    1000 times for each loop else.  Success means that exactly this frame was added to the
    stream; a send that stayed blocked added nothing; no other stream is touched.
    The message is replaced by a blank one (or nil when no buffer is wanted) on
    success, and returned with its content on a failure: marked for a retry when
    the descriptor stayed blocked and retries were asked for (or errno is EAGAIN),
    failed otherwise (with retries off a blocked descriptor counts as a failure,
    where the documentation has the mark for a retry).  The argument 0 is left to
    [zero_retries_try_a_hundred_times]: the documentation says something else
    about it. *)
Theorem send_msg_equals_reference {N : Type} `{Transport N} malloc_bytes mctx (n : N) m buf tr d1 d2 room sock retries :
  (forall n, 0 <= n -> zlen (malloc_bytes n) = n) -> sendable m buf tr d1 d2 room -> reuse_ok mctx tr -> retries <> 0 ->
  exists f st er n' r er', retry_send (Z.to_nat (attempts retries - 1)) n sock f = (st, er, n') /\
    sent_frame mctx m buf tr d1 d2 f /\ send_msg malloc_bytes mctx n m sock retries = Ret (r, er', n') /\
    (st = SI_OK -> tp_wire n' sock = tp_wire n sock ++ f) /\
    (st = SI_ERR_BLOCKED -> forall fd, tp_wire n' fd = tp_wire n fd) /\
    (forall fd, fd <> sock -> tp_wire n' fd = tp_wire n fd) /\
    match r with
    | None => st = SI_OK /\ Z.land (m_flags m) MFL_NOALLOC <> 0
    | Some m' =>
        if st =? SI_OK then Z.land (m_flags m) MFL_NOALLOC = 0 /\ blank_msg mctx tr m'
        else (m_mtype m', m_sub_id m', m_len m', m_payload m') = (m_mtype m, m_sub_id m, m_len m, m_payload m) /\
          m_state m' = if (st =? SI_ERR_BLOCKED) && (0 <=? retries) || (er =? EAGAIN) then RMR_ERR_RETRY else RMR_ERR_SENDFAILED
    end.
Proof.
  intros Hm Hs Hr _. destruct (send_msg_ref malloc_bytes Hm mctx n m buf tr d1 d2 room sock retries Hs Hr) as (f & b' & F & _ & E).
  destruct (retry_send _ n sock f) as [[st er] n'] eqn:Er. pose proof (retry_send_wire _ _ _ _ _ _ _ Er) as (W1 & W2 & W3).
  exists f, st, er, n'. cbv zeta in E. destruct (Z.eqb_spec st SI_OK) as [->|Hst].
  - destruct (Z.eqb_spec (Z.land (m_flags m) MFL_NOALLOC) 0); [destruct E as (m' & E & B)|];
      eexists _, _; split_and!; try done; by apply W2.
  - destruct (_ || _); eexists _, _; (split_and!; try done; by apply W2).
Qed.

Lemma send_msg_equals_reference_witness :
  exists f r er', sent_frame ctx0 ex_msg ex_buf 20 4 0 f /\
    send_msg junk ctx0 (0%nat : blocked_net) ex_msg 7 (-1) = Ret (r, er', 1%nat).
Proof.
  destruct (send_msg_equals_reference junk ctx0 (0%nat : blocked_net) ex_msg ex_buf 20 4 0 100 7 (-1)
    junk_len ex_sendable ex_reuse_ok ltac:(discriminate)) as (f & st & er & n' & r & er' & Hr & F & E & _).
  exists f, r, er'. injection Hr as <- <- <-. split; [exact F|exact E].
Defined.

Lemma blocked_retries k (n : blocked_net) sock f : retry_send k n sock f = (SI_ERR_BLOCKED, EBUSY, (S k + n)%nat).
Proof. revert n. induction k as [|k IH]; intros n; [done|]. cbn [retry_send]. cbn -[retry_send]. rewrite IH. f_equal. lia. Qed.

Lemma blocked_send malloc_bytes mctx (n : blocked_net) m buf tr d1 d2 room sock retries :
  (forall n, 0 <= n -> zlen (malloc_bytes n) = n) -> sendable m buf tr d1 d2 room -> reuse_ok mctx tr ->
  exists m' er, send_msg malloc_bytes mctx n m sock retries = Ret (Some m', er, (Z.to_nat (attempts retries) + n)%nat) /\
    m_state m' = (if 0 <=? retries then RMR_ERR_RETRY else RMR_ERR_SENDFAILED) /\
    er = if 0 <=? retries then EAGAIN else EBUSY.
Proof.
  intros Hm Hs Hr. destruct (send_msg_ref malloc_bytes Hm mctx n m buf tr d1 d2 room sock retries Hs Hr) as (f & b' & F & _ & E).
  rewrite blocked_retries in E. change (SI_ERR_BLOCKED =? SI_OK) with false in E.
  change (SI_ERR_BLOCKED =? SI_ERR_BLOCKED) with true in E. cbv zeta iota in E. rewrite andb_true_l in E.
  change (EBUSY =? EAGAIN) with false in E. rewrite orb_false_r in E.
  replace (S (Z.to_nat (attempts retries - 1)) + n)%nat with (Z.to_nat (attempts retries) + n)%nat in E.
  - destruct (0 <=? retries); eexists _, _; by split_and!.
  - unfold attempts. destruct (Z.eqb_spec retries 0); [by subst|]. destruct (Z.ltb_spec retries 0); lia.
Qed.


(** With the retries set to 0, which is to turn them off, there are a hundred
    attempts. *)
Theorem zero_retries_try_a_hundred_times malloc_bytes mctx (n : blocked_net) m buf tr d1 d2 room sock :
  (forall n, 0 <= n -> zlen (malloc_bytes n) = n) -> sendable m buf tr d1 d2 room -> reuse_ok mctx tr ->
  exists m', send_msg malloc_bytes mctx n m sock 0 = Ret (Some m', EAGAIN, (100 + n)%nat) /\ m_state m' = RMR_ERR_RETRY.
Proof.
  intros Hm Hs Hr. destruct (blocked_send malloc_bytes mctx n m buf tr d1 d2 room sock 0 Hm Hs Hr) as (m' & er & E & St & ->). by exists m'.
Qed.

