(* ===== verification/Fanout.v ===== *)
(** Routed sends: which endpoint a round robin group gives, what a send to an
    entry with several groups does, and the cases without a route.  Theorems
    about the second half of Send.v. *)

From Stdlib Require Import Permutation.
From S2P Require Import Prelude Bytes Symtab SymIface Tools Ring Mbuf Endpoint River RouteTable Send SendSpec.

(** ** Selection in a group *)

Definition rr_idx (g : rrgroup_t) : Z := if zlen (rg_epts g) =? 1 then 0 else rg_ep_idx g mod zlen (rg_epts g).
Definition rr_next (g : rrgroup_t) : rrgroup_t :=
  if zlen (rg_epts g) =? 1 then g else MkRRG (u16 (rg_ep_idx g + 1)) (rg_epts g).

Section fanout.
Context {TH TE N : Type} `{Symbols TH thing} `{Symbols TE nat} `{Transport N}.
Abbreviation sctx := (send_ctx TH TE N).
Implicit Types (sc : sctx) (n : N) (g : rrgroup_t).

(** The descriptor of an endpoint that is connected. *)
Definition conn_view sc (ep : nat) : option Z :=
  match cr_eps (sc_rt sc) !! ep with Some e => if ep_open e then Some (ep_nn_sock e) else None | None => None end.

(** The group's turn is an endpoint that is connected on [fd]. *)
Definition picks sc g (ep : nat) (fd : Z) : Prop :=
  rg_epts g !! Z.to_nat (rr_idx g) = Some (Some ep) /\ conn_view sc ep = Some fd.

(** The entry with the turn of one group advanced. *)
Definition next_turn (rte : rtable_ent_t) (group : Z) g : rtable_ent_t :=
  MkRte (rte_key rte) (rte_refs rte) (rte_mtype rte) (<[Z.to_nat group := Some (rr_next g)]> (rte_rrgroups rte)).
Definition advance_rr sc (id : nat) (rte : rtable_ent_t) (group : Z) g : sctx :=
  set_rt sc (set_rtes (sc_rt sc) (<[id := next_turn rte group g]> (cr_rtes (sc_rt sc)))).

Lemma set_conns_id sc : set_conns sc (conn_of sc) = sc.
Proof. by destruct sc as [[] ? ? ? ?]. Qed.

Lemma sock_of_open add sc ep fd : conn_view sc ep = Some fd -> sock_of add sc ep = (Some fd, sc).
Proof.
  unfold conn_view, sock_of, ep_socket. cbn [conn_of cx_eps]. destruct (cr_eps (sc_rt sc) !! ep) as [e|]; [|done].
  destruct (ep_open e); [|done]. intros [= <-]. by rewrite set_conns_id.
Qed.

Lemma epsock_rr_open sc id rte group g ep fd :
  cr_rtes (sc_rt sc) !! id = Some rte -> 0 <= group -> rte_rrgroups rte !! Z.to_nat group = Some (Some g) ->
  picks sc g ep fd ->
  exists st, 0 < st /\
    uta_epsock_rr sc id group =
      Ret (st, match rte_rrgroups rte !! Z.to_nat (group + 1) with Some (Some _) => true | _ => false end,
           Some fd, Some ep, advance_rr sc id rte group g).
Proof.
  intros Hid Hg Hgr [Hep Hv]. unfold uta_epsock_rr. rewrite Hid. cbn [deref mbind comp_bind].
  assert (group < rte_nrrgroups rte) as Hlt by (apply lookup_lt_Some in Hgr; unfold rte_nrrgroups, zlen; lia).
  destruct (Z.ltb_spec group 0) as [?|_]; [lia|]. destruct (Z.leb_spec (rte_nrrgroups rte) group) as [?|_]; [lia|].
  cbn [orb]. rewrite Hgr. set (more := match _ with Some (Some _) => true | _ => false end).
  assert (0 < zlen (rg_epts g)) as Hz by (apply lookup_lt_Some in Hep; unfold zlen; lia).
  destruct (Z.eqb_spec (zlen (rg_epts g)) 0) as [?|_]; [lia|].
  fold (rr_idx g). rewrite Hep. cbn [deref mbind comp_bind].
  assert (0 <= rr_idx g) as Hi by (unfold rr_idx; destruct (_ =? 1); [lia|apply Z.mod_pos_bound; lia]).
  set (sc' := set_rt _ _). assert (sc' = advance_rr sc id rte group g) as -> by (unfold sc', advance_rr, next_turn, rr_next; by destruct (_ =? 1)).
  rewrite (sock_of_open true _ ep fd) by done.
  eexists. split; [|done]. destruct (_ =? 1); lia.
Qed.

(** ** Counting a send keeps connections and routes *)

Lemma count_ep_view sc st ep id : conn_view (count_ep sc st ep) id = conn_view sc id.
Proof.
  unfold count_ep. destruct ep as [e|]; [|done]. destruct (cr_eps (sc_rt sc) !! e) as [x|] eqn:Ex; [|done].
  unfold conn_view. cbn. destruct (decide (e = id)) as [->|]; [|by rewrite lookup_insert_ne].
  rewrite lookup_insert_eq, Ex. unfold incr_ep_counts. by destruct (_ =? _); [|destruct (_ =? _)].
Qed.

Lemma count_ep_keeps sc st ep :
  cr_rtes (sc_rt (count_ep sc st ep)) = cr_rtes (sc_rt sc) /\ sc_net (count_ep sc st ep) = sc_net sc /\
  sc_mctx (count_ep sc st ep) = sc_mctx sc.
Proof. unfold count_ep. destruct ep as [e|]; [|done]. by destruct (cr_eps (sc_rt sc) !! e). Qed.
End fanout.

(** ** Copies of the message *)

(** [b] has the content of the message in [buf], from the RMR header on. *)
Definition same_from_header (buf b : list Z) (tot : Z) : Prop :=
  forall o k, TP_HDR_LEN <= o -> 0 <= k -> o + k <= tot -> slice b o k = slice buf o k.

(** A message that clone_msg can copy, and what stays of it in a clone. *)
Definition cloneable (m : mbuf) (tr d1 d2 : Z) : Prop :=
  330 + 2 * (tr + d1 + d2) <= m_alloc_len m /\ m_alloc_len m + 100 < 2 ^ 31.

Record copy_of (m : mbuf) (buf : list Z) (tr d1 d2 : Z) (m' : mbuf) : Prop := {
  cp_ok : exists b room, sendable m' b tr d1 d2 room /\ same_from_header buf b (330 + tr + d1 + d2 + m_len m);
  cp_fields : (m_mtype m', m_sub_id m', m_len m', m_alloc_len m') = (m_mtype m, m_sub_id m, m_len m, m_alloc_len m);
  cp_flags : m_flags m' = m_flags m \/ m_flags m' = Z.lor (m_flags m) MFL_ZEROCOPY
}.

Lemma clone_copy malloc_bytes m buf tr d1 d2 m1 :
  (forall n, 0 <= n -> zlen (malloc_bytes n) = n) -> copy_of m buf tr d1 d2 m1 -> cloneable m tr d1 d2 ->
  exists m2, clone_msg malloc_bytes m1 = Ret m2 /\ copy_of m buf tr d1 d2 m2.
Proof.
  intros Hm [(b & room & [W Hf] & Hs) Hfl Hfg] [Hc Hc2].
  injection Hfl as E1 E2 E3 E4. destruct W as [Eb Eh Ep Ex Hl L]. rewrite E3, E4 in *.
  pose proof (ml_len _ _ _ _ _ L). pose proof (ml_sz _ _ _ _ _ L). pose proof (ml_max _ _ _ _ _ L).
  unfold clone_msg. rewrite Eb, Eh, Ep. cbn [deref mbind comp_bind].
  rewrite (hdr_len_layout L), (tr_len_layout L), (d1_len_layout L), (d2_len_layout L). cbn [mbind comp_bind].
  rewrite E3, E4, (u64_id (m_alloc_len m)), u64_id by (unfold TP_HDR_LEN; lia).
  rewrite u32_id by lia. set (nn := 280 + tr + d1 + d2 + tr + d1 + d2). set (A := m_alloc_len m) in *.
  assert (zlen (malloc_bytes (A + TP_HDR_LEN)) = A + 50) as Zm by (unfold TP_HDR_LEN; apply Hm; lia).
  destruct (memcpy_ex (malloc_bytes (A + TP_HDR_LEN)) TP_HDR_LEN b TP_HDR_LEN nn)
    as (b1 & -> & S1 & Z1 & _); [unfold TP_HDR_LEN, nn in *; lia..|]. cbn [mbind comp_bind].
  assert (forall o k, 50 <= o -> 0 <= k -> o + k <= 50 + nn -> slice b1 o k = slice b o k) as S1'.
  { intros o k ? ? ?. rewrite (slice_sub b1 b 50 50 nn o k) by (done || lia). f_equal. lia. }
  set (room' := A + 50 - (330 + tr + d1 + d2)).
  assert (msg_layout b1 tr d1 d2 room') as L1.
  { split; try (unfold room'; lia); unfold load32n; rewrite S1' by (unfold nn; lia); apply L. }
  rewrite (payload_addr_layout L1). cbn [mbind comp_bind]. set (P := 330 + tr + d1 + d2) in *.
  destruct (memcpy_ex b1 P b P (m_len m)) as (b2 & -> & S2 & [Z2 F2]); [lia..|]. cbn [mbind comp_bind].
  assert (forall o k, 50 <= o -> 0 <= k -> o + k <= P -> slice b2 o k = slice b o k) as Hlo.
  { intros. rewrite F2 by lia. apply S1'; unfold nn in *; lia. }
  assert (forall o k, P <= o -> 0 <= k -> o + k <= P + m_len m -> slice b2 o k = slice b o k) as Hhi.
  { intros o k ? ? ?. rewrite (slice_sub b2 b P P (m_len m) o k) by (done || lia). f_equal. lia. }
  rewrite i32_id by (unfold in_i32; lia). eexists. split; [done|]. split; cbn.
  - exists b2, room'. split.
    + split; cbn; [|lia]. split; cbn; try done; [unfold room' in *; lia|].
      eapply layout_framed; [exact L1|split; eassumption|lia].
    + intros o k Ho Hk Hok. unfold TP_HDR_LEN in *. rewrite <-Hs by (unfold TP_HDR_LEN; lia).
      destruct (Z_le_gt_dec (o + k) P); [apply Hlo; lia|]. destruct (Z_le_gt_dec P o); [apply Hhi; lia|].
      replace k with ((P - o) + (o + k - P)) by lia. rewrite !slice_split by lia.
      f_equal; [apply Hlo|apply Hhi]; lia.
  - by rewrite E1, E2.
  - destruct Hfg as [->| ->]; [by right|]. right. rewrite <-Z.lor_assoc. by rewrite Z.lor_diag.
Qed.

Lemma land_lor_bit fl b c : Z.land b c = 0 -> Z.land (Z.lor fl b) c = Z.land fl c.
Proof. intros Hb. by rewrite Z.land_lor_distr_l, Hb, Z.lor_0_r. Qed.

Lemma copy_flag m buf tr d1 d2 m1 c :
  copy_of m buf tr d1 d2 m1 -> Z.land MFL_ZEROCOPY c = 0 -> Z.land (m_flags m1) c = Z.land (m_flags m) c.
Proof. intros [_ _ [->| ->]] Hc; [done|]. by apply land_lor_bit. Qed.

(** The frame of a copy is a frame of the message. *)
Lemma frame_of_copy mctx m buf tr d1 d2 m1 b f :
  (m_mtype m1, m_sub_id m1, m_len m1) = (m_mtype m, m_sub_id m, m_len m) ->
  Z.land (m_flags m1) MFL_ADDSRC = Z.land (m_flags m) MFL_ADDSRC ->
  0 <= tr -> 0 <= d1 -> 0 <= d2 -> 0 <= m_len m -> same_from_header buf b (330 + tr + d1 + d2 + m_len m) ->
  sent_frame mctx m1 b tr d1 d2 f -> sent_frame mctx m buf tr d1 d2 f.
Proof.
  intros [= E1 E2 E3] Ef Ht H1 H2 Hl Hs [Zf Mf Vt Vl Vs Si Sm Ss Sb]. rewrite E1, E2, E3, Ef in *.
  split; try done.
  - rewrite Si. apply Hs; offsets; lia.
  - rewrite Sm. apply Hs; offsets; lia.
  - destruct (_ =? 0); [|done]. destruct Ss as [-> ->]. split; apply Hs; offsets; lia.
  - rewrite Sb. apply Hs; offsets; lia.
Qed.

(** ** Several groups *)

Section groups.
Context {TH TE N : Type} `{Symbols TH thing} `{Symbols TE nat} `{Transport N}.
Abbreviation sctx := (send_ctx TH TE N).
Implicit Types (sc : sctx) (n : N) (g : rrgroup_t).
Context (malloc_bytes : Z -> list Z) (mctx : msg_ctx) (m : mbuf) (buf : list Z) (tr d1 d2 retries : Z).
Hypothesis malloc_len : forall k, 0 <= k -> zlen (malloc_bytes k) = k.
Hypothesis Hreuse : reuse_ok mctx tr.
Hypothesis Hclone : cloneable m tr d1 d2.
Hypothesis Halloc : Z.land (m_flags m) MFL_NOALLOC = 0.

(** One message to several descriptors: each gets a frame of the message, once. *)
Inductive fanout : N -> list Z -> list Z -> N -> Prop :=
| FNil n : fanout n [] [] n
| FCons n fd f st er n1 fds sts n2 :
    sent_frame mctx m buf tr d1 d2 f -> retry_send (Z.to_nat (attempts retries - 1)) n fd f = (st, er, n1) ->
    fanout n1 fds sts n2 -> fanout n (fd :: fds) (st :: sts) n2.

Definition count_ok (sts : list Z) : Z := zlen (filter (fun st => st = SI_OK) sts).

Lemma send_copy n m1 fd fl :
  copy_of m buf tr d1 d2 m1 -> fl = m_flags m1 \/ fl = Z.lor (m_flags m1) MFL_NOALLOC ->
  exists f st er n' r er', sent_frame mctx m buf tr d1 d2 f /\
    retry_send (Z.to_nat (attempts retries - 1)) n fd f = (st, er, n') /\
    send_msg malloc_bytes mctx n (set_flags fl m1) fd retries = Ret (r, er', n') /\
    match r with
    | None => st = SI_OK /\ fl <> m_flags m1
    | Some m' => (m_state m' = RMR_OK <-> st = SI_OK) /\ (fl <> m_flags m1 -> st <> SI_OK)
    end.
Proof.
  intros Hc Hfl. pose proof Hc as [(b & room & [W Hf] & Hs) Hfi Hfg].
  assert (sendable (set_flags fl m1) b tr d1 d2 room) as Hsd by (split; [destruct W; by split|done]).
  destruct (send_msg_ref malloc_bytes malloc_len mctx n (set_flags fl m1) b tr d1 d2 room fd retries Hsd Hreuse)
    as (f & b' & F & _ & E). exists f. destruct (retry_send _ n fd f) as [[st er] n'] eqn:Er.
  exists st, er, n'. cbv zeta in E. cbn [m_flags set_flags] in E.
  assert (sent_frame mctx m buf tr d1 d2 f) as F'.
  { pose proof (ml_sz _ _ _ _ _ (mw_layout _ _ _ _ _ _ W)). pose proof (mw_len _ _ _ _ _ _ W).
    injection Hfi as E1 E2 E3 E4.
    eapply frame_of_copy; [..|exact F]; try lia; try exact Hs; cbn; [congruence|].
    rewrite <-(copy_flag m buf tr d1 d2 m1 MFL_ADDSRC Hc eq_refl).
    destruct Hfl as [->| ->]; [done|by apply land_lor_bit]. }
  assert ((Z.land fl MFL_NOALLOC =? 0) = true /\ fl = m_flags m1 \/ (Z.land fl MFL_NOALLOC =? 0) = false /\ fl <> m_flags m1) as Hna.
  { pose proof (copy_flag m buf tr d1 d2 m1 MFL_NOALLOC Hc eq_refl) as Ec. rewrite Halloc in Ec. destruct Hfl as [->| ->].
    - left. by rewrite Ec.
    - right. rewrite Z.land_lor_distr_l, Ec. split; [done|]. intros Eq. rewrite <-Eq in Ec. rewrite Z.land_lor_distr_l in Ec.
      apply (f_equal (fun z => Z.testbit z 1)) in Ec. rewrite Z.lor_spec in Ec.
      change (Z.testbit (Z.land MFL_NOALLOC MFL_NOALLOC) 1) with true in Ec. rewrite orb_true_r in Ec. done. }
  destruct (Z.eqb_spec st SI_OK) as [->|Hst].
  - destruct Hna as [[Hn Hne]|[Hn Hne]]; rewrite Hn in E.
    + destruct E as (m' & E & B). eexists _, _. do 3 (split; [done|]). split; [split; [done|intros _; apply B]|congruence].
    + eexists _, _. by split_and!.
  - destruct (_ || _); eexists _, _; do 3 (split; [done|]); (split; [by split|done]).
Qed.

(** The state of a send of the groups from [group] on, whose turns are [targets]. *)
Record groups_at sc (id : nat) (group : Z) (gs : list rrgroup_t) (targets : list (nat * Z)) (done_groups : list (option rrgroup_t)) : Prop := {
  ga_rte : exists rte, cr_rtes (sc_rt sc) !! id = Some rte /\ rte_rrgroups rte = done_groups ++ map Some gs;
  ga_group : group = zlen done_groups;
  ga_picks : Forall2 (fun g t => picks sc g t.1 t.2) gs targets;
  ga_mctx : sc_mctx sc = mctx
}.

Lemma groups_at_next sc id rte group g gs t targets pre n st ep :
  groups_at sc id group (g :: gs) (t :: targets) pre -> cr_rtes (sc_rt sc) !! id = Some rte ->
  groups_at (count_ep (set_net (advance_rr sc id rte group g) n) st ep) id (group + 1) gs targets (pre ++ [Some (rr_next g)]).
Proof.
  intros [(rte0 & Hid & Hr) Hg Hp Hm] Hid'. rewrite Hid in Hid'. injection Hid' as ->.
  destruct (count_ep_keeps (set_net (advance_rr sc id rte group g) n) st ep) as (E1 & _ & E3).
  split.
  - exists (next_turn rte group g). rewrite E1. cbn. rewrite lookup_insert_eq. split; [done|].
    rewrite Hr. subst group. unfold zlen. rewrite Nat2Z.id, <-app_assoc. cbn.
    by rewrite insert_app_r_alt, Nat.sub_diag by lia.
  - subst group. rewrite zlen_app. done.
  - apply Forall2_cons_1 in Hp as [_ Hp]. eapply Forall2_impl; [exact Hp|]. intros g' t' [Hp1 Hp2]. split; [done|].
    by rewrite count_ep_view.
  - by rewrite E3.
Qed.

(** From a group on, every group gets one frame of the message; the last one
    decides the message that is returned. *)
Lemma send_groups_spec gs : forall targets fuel sc rt id group pre m1 ok,
  groups_at sc id group gs targets pre -> copy_of m buf tr d1 d2 m1 -> gs <> [] -> (length gs <= fuel)%nat ->
  exists m' er sts sc', send_groups malloc_bytes fuel sc rt id group m1 retries ok
      = Ret (Some m', er, ok + count_ok (removelast sts), sc') /\
    fanout (sc_net sc) (map snd targets) sts (sc_net sc') /\ sts <> [] /\
    (m_state m' = RMR_OK <-> List.last sts 0 = SI_OK) /\
    groups_at sc' id (group + zlen gs) [] [] (pre ++ map (fun g => Some (rr_next g)) gs).
Proof.
  induction gs as [|g gs IH]; intros targets fuel sc rt id group pre m1 ok Hga Hc Hne Hfuel; [done|]. clear Hne.
  pose proof Hga as [(rte & Hid & Hr) Hg Hp Hm]. inversion Hp as [|? t ? targets' Hpk Hp']; subst. destruct t as [ep fd].
  cbn [fst snd] in Hpk. destruct fuel as [|fuel]; [cbn in Hfuel; lia|]. cbn [send_groups]. rewrite Hid. cbn [deref mbind comp_bind].
  assert (0 < rte_nrrgroups rte) as Hn by (unfold rte_nrrgroups; rewrite Hr, zlen_app; unfold zlen; cbn; lia).
  destruct (Z.ltb_spec 0 (rte_nrrgroups rte)) as [_|?]; [|lia].
  destruct (epsock_rr_open sc id rte (zlen pre) g ep fd Hid) as (st0 & Hst0 & ->);
    [apply zlen_nonneg|unfold zlen; rewrite Nat2Z.id, Hr; cbn [map]; by rewrite list_lookup_middle|done|].
  cbn [mbind comp_bind]. destruct (Z.eqb_spec st0 0) as [?|_]; [lia|]. cbn [negb deref mbind comp_bind].
  assert (rte_rrgroups rte !! Z.to_nat (zlen pre + 1) = head (map Some gs)) as Hmore.
  { rewrite Hr. unfold zlen. rewrite lookup_app_r by lia. replace (Z.to_nat _ - length pre)%nat with 1%nat by lia.
    by destruct gs. }
  rewrite Hmore. cbn [sc_mctx sc_net advance_rr set_rt]. rewrite Hm. destruct gs as [|g2 gs]; cbn [map head].
  - inversion Hp'; subst. destruct (send_copy (sc_net sc) m1 fd (m_flags m1) Hc (or_introl eq_refl))
      as (f & st & er & n' & r & er' & F & Er & Es & Hres).
    replace (set_flags (m_flags m1) m1) with m1 in Es by (by destruct m1). rewrite Es. cbn [mbind comp_bind].
    destruct r as [m'|]; [|by destruct Hres]. destruct Hres as [Hres _].
    eexists m', _, [st], _. cbn [removelast List.last]. rewrite Z.add_0_r. split; [done|].
    pose proof (groups_at_next sc id rte (zlen pre) g [] (ep, fd) [] pre n' (m_state m') (Some ep) Hga Hid) as Hga'.
    destruct (count_ep_keeps (set_net (advance_rr sc id rte (zlen pre) g) n') (m_state m') (Some ep)) as (_ & E2 & _).
    cbn [advance_rr] in E2 |- *. split; [|by split]. rewrite E2. eapply FCons; [exact F|exact Er|constructor].
  - destruct (clone_copy malloc_bytes m buf tr d1 d2 m1 malloc_len Hc Hclone) as (m2 & -> & Hc2). cbn [mbind comp_bind].
    destruct (send_copy (sc_net sc) m1 fd _ Hc (or_intror eq_refl)) as (f & st & er & n' & r & er' & F & Er & Es & Hres).
    rewrite Es. cbn [mbind comp_bind].
    set (nx := match r with Some _ => (m2, ok) | None => (set_state RMR_OK m2, ok + 1) end).
    assert (copy_of m buf tr d1 d2 nx.1 /\ nx.2 = ok + if decide (st = SI_OK) then 1 else 0) as [Hnx Enx].
    { unfold nx. destruct r; cbn.
      - split; [done|]. destruct Hres as [_ Hres]. rewrite decide_False; [lia|]. apply Hres.
        intros Ef. apply (f_equal (fun z => Z.land z MFL_NOALLOC)) in Ef. rewrite Z.land_lor_distr_l in Ef.
        rewrite (copy_flag m buf tr d1 d2 m1 MFL_NOALLOC Hc eq_refl), Halloc in Ef. done.
      - destruct Hres as [-> _]. split; [|by rewrite decide_True]. destruct Hc2 as [(b & room & [W Hf] & Hs) H4 H5].
        split; [|done|done]. exists b, room. split; [split; [destruct W; by split|done]|done]. }
    destruct nx as [m3 ok3] eqn:Enx'. cbn [fst snd] in Hnx, Enx. subst ok3.
    pose proof (groups_at_next sc id rte (zlen pre) g (g2 :: gs) (ep, fd) targets' pre n' (m_state m3) (Some ep) Hga Hid) as Hga'.
    destruct (count_ep_keeps (set_net (advance_rr sc id rte (zlen pre) g) n') (m_state m3) (Some ep)) as (_ & E2 & _).
    destruct (IH targets' fuel _ rt id _ _ m3 (ok + (if decide (st = SI_OK) then 1 else 0)) Hga' Hnx ltac:(done) ltac:(cbn in *; lia))
      as (m' & er2 & sts & sc' & E & HF & Hsts & Hst' & Hga2).
    cbn [advance_rr] in E. rewrite E. rewrite E2 in HF. cbn in HF.
    assert (ok + (if decide (st = SI_OK) then 1 else 0) + count_ok (removelast sts) = ok + count_ok (removelast (st :: sts))) as ->.
    { destruct sts as [|s sts]; [done|]. change (removelast (st :: s :: sts)) with (st :: removelast (s :: sts)).
      unfold count_ok. rewrite filter_cons. case_decide; unfold zlen; cbn [length]; lia. }
    exists m', er2, (st :: sts), sc'. split_and!.
    + done.
    + cbn [map]. econstructor; done.
    + done.
    + destruct sts as [|s sts]; [done|]. exact Hst'.
    + clear -Hga2. rewrite <-app_assoc in Hga2. replace (zlen pre + zlen (g :: g2 :: gs)) with (zlen pre + 1 + zlen (g2 :: gs)) by (unfold zlen; cbn; lia).
      exact Hga2.
Qed.
End groups.

Lemma fanout_others {N : Type} `{Transport N} mctx m buf tr d1 d2 retries (n n' : N) fds sts fd :
  fanout mctx m buf tr d1 d2 retries n fds sts n' -> fd ∉ fds -> tp_wire n' fd = tp_wire n fd.
Proof.
  induction 1 as [|n fd0 f st er n1 fds sts n2 _ Er _ IH]; [done|]. intros [Hne Hni]%not_elem_of_cons.
  rewrite IH by done. by eapply retry_send_wire.
Qed.

Lemma some_ok sts : sts <> [] -> count_ok (removelast sts) <> 0 \/ List.last sts 0 = SI_OK <-> SI_OK ∈ sts.
Proof.
  intros Hne. rewrite (app_removelast_last 0 Hne) at 3. rewrite elem_of_app, list_elem_of_singleton.
  assert (count_ok (removelast sts) <> 0 <-> SI_OK ∈ removelast sts) as ->.
  { unfold count_ok. split.
    - intros Hz. destruct (filter _ _) as [|x l] eqn:E; [done|]. assert (x ∈ filter (fun st => st = SI_OK) (removelast sts)) as Hx.
      { rewrite E. constructor. } by apply list_elem_of_filter in Hx as [-> ?].
    - intros Hin. assert (SI_OK ∈ filter (fun st => st = SI_OK) (removelast sts)) as Hx by by apply list_elem_of_filter.
      destruct (filter _ _); [by apply not_elem_of_nil in Hx|]. unfold zlen. cbn [length]. lia. }
  split; intros [?|?]; auto.
Qed.

(** * Properties *)

(** C17.  A message that can be copied and whose buffer is wanted back, with a route
    that has round robin groups in all of which the endpoint whose turn it is has a
    connection ([picks]), is offered to each of the groups exactly once: that endpoint
    gets one frame with the message's type, id and content, tried as often as the
    retry setting says (which is not 0, see [zero_retries_try_a_hundred_times]), and
    the turn of every group moves on.  The returned message is in state RMR_OK exactly
    when at least one group took it; no other connection is touched.

    The comments of mtosend_msg do not agree about that state: the one where it is
    set says what is proved here, those before and at the end of the function that it
    is the status of the last attempt.  When an earlier group took the message and
    the last did not, it is RMR_OK. *)
Theorem fanout_to_every_group {TH TE N : Type} `{Symbols TH thing} `{Symbols TE nat} `{Transport N}
    malloc_bytes (sc : send_ctx TH TE N) rt id rte m buf tr d1 d2 room max_to gs targets :
  (forall k, 0 <= k -> zlen (malloc_bytes k) = k) ->
  sendable m buf tr d1 d2 room -> reuse_ok (sc_mctx sc) tr -> cloneable m tr d1 d2 -> Z.land (m_flags m) MFL_NOALLOC = 0 ->
  cr_rtable (sc_rt sc) = Some rt -> uta_get_rte (Some rt) (m_sub_id m) (m_mtype m) true = Some id ->
  cr_rtes (sc_rt sc) !! id = Some rte -> rte_rrgroups rte = map Some gs -> gs <> [] ->
  Forall2 (fun g t => picks sc g t.1 t.2) gs targets -> (if max_to <? 0 then sc_send_retries sc else max_to) <> 0 ->
  exists m' sts sc', mtosend_msg malloc_bytes (Some sc) (Some m) max_to = Ret (Some m', Some sc') /\
    fanout (sc_mctx sc) m buf tr d1 d2 (if max_to <? 0 then sc_send_retries sc else max_to)
      (sc_net sc) (map snd targets) sts (sc_net sc') /\
    (m_state m' = RMR_OK <-> SI_OK ∈ sts) /\ Z.land (m_flags m') MFL_NOALLOC = 0 /\
    (exists rte', cr_rtes (sc_rt sc') !! id = Some rte' /\ rte_rrgroups rte' = map (fun g => Some (rr_next g)) gs) /\
    (forall fd, fd ∉ map snd targets -> tp_wire (sc_net sc') fd = tp_wire (sc_net sc) fd).
Proof.
  intros Hm Hsd Hr Hc Hna Hrt Hget Hid Hgs Hne Hp _. unfold mtosend_msg. rewrite (mw_hdr _ _ _ _ _ _ (sd_wf _ _ _ _ _ _ Hsd)).
  rewrite Hrt, Hget, Hid. cbn [deref mbind comp_bind]. set (retries := if max_to <? 0 then _ else _).
  assert (groups_at (sc_mctx sc) sc id 0 gs targets []) as Hga by (split; [by exists rte|done..]).
  assert (copy_of m buf tr d1 d2 m) as Hcp by (split; [by exists buf, room|done|by left]).
  destruct (send_groups_spec malloc_bytes (sc_mctx sc) m buf tr d1 d2 retries Hm Hr Hc Hna gs targets
    (S (length (rte_rrgroups rte))) sc rt id 0 [] m 0 Hga Hcp Hne) as (m' & er & sts & sc' & E & HF & Hs & Hst & Hga').
  { rewrite Hgs, length_map. lia. }
  rewrite E. cbn [mbind comp_bind]. eexists _, sts, sc'. split; [done|]. split; [done|].
  split; [|split; [|split; [|by intros; eapply fanout_others]]].
  - rewrite <-some_ok by done. rewrite Z.add_0_l. cbn.
    destruct (Z.eqb_spec (count_ok (removelast sts)) 0) as [Ez|Ez]; cbn; [rewrite Ez; tauto|tauto].
  - assert (forall fl, Z.land (Z.land fl (Z.lnot MFL_NOALLOC)) MFL_NOALLOC = 0) as Hfl.
    { intros fl. rewrite <-Z.land_assoc. apply Z.land_0_r. }
    cbn. by destruct (negb _); cbn.
  - destruct (ga_rte _ _ _ _ _ _ _ Hga') as (rte' & Hrte & Egs). exists rte'. split; [done|]. rewrite Egs. apply app_nil_r.
Qed.

(** A context with one route for messages of type 12: two groups, of two
    endpoints and of one, all connected. *)
Definition ex_ep (fd : Z) : endpoint := MkEp (Some $"host:4560") (Some $"host:4560") fd true 0 0 0 true.
Definition ex_groups : list rrgroup_t := [MkRRG 5 [Some 2; Some 3]%nat; MkRRG 0 [Some 4%nat]].
Definition ex_rte : rtable_ent_t := MkRte (build_rt_key (-1) 12) 1 12 (map Some ex_groups).
Definition ex_rt : route_table_t (gmap akey thing) := MkRt false {[ ANum (build_rt_key (-1) 12) := TRte 1 ]} 0 0 0.
Definition ex_sc {N : Type} (n : N) : send_ctx (gmap akey thing) (gmap akey nat) N :=
  MkSc (MkRtCtx {[ 1%nat := ex_rte ]} {[ 2%nat := ex_ep 7; 3%nat := ex_ep 8; 4%nat := ex_ep 9 ]} 5%nat ∅ (Some ex_rt) None None [] None)
    None n ctx0 1.

Lemma ex_get_rte : uta_get_rte (Some ex_rt) (m_sub_id ex_msg) (m_mtype ex_msg) true = Some 1%nat.
Proof.
  assert (pull_rte ex_rt (build_rt_key (m_sub_id ex_msg) (m_mtype ex_msg)) = Some 1%nat) as E.
  { unfold pull_rte, ex_rt. cbn [rt_hash sm_get symbols_gmap]. change (build_rt_key (m_sub_id ex_msg) (m_mtype ex_msg)) with (build_rt_key (-1) 12).
    by rewrite lookup_singleton_eq. }
  unfold uta_get_rte. by rewrite E.
Qed.

Lemma ex_cloneable : cloneable ex_msg 20 4 0.
Proof. split; vm_compute; [discriminate|reflexivity]. Qed.

Lemma fanout_to_every_group_witness :
  exists m' sts sc', mtosend_msg junk (Some (ex_sc (0%nat : blocked_net))) (Some ex_msg) 1 = Ret (Some m', Some sc') /\
    fanout ctx0 ex_msg ex_buf 20 4 0 1 (0%nat : blocked_net) [8; 9] sts (sc_net sc') /\
    (m_state m' = RMR_OK <-> SI_OK ∈ sts).
Proof.
  destruct (fanout_to_every_group junk (ex_sc (0%nat : blocked_net)) ex_rt 1%nat ex_rte ex_msg ex_buf 20 4 0 100 1
    ex_groups [(3%nat, 8); (4%nat, 9)]) as (m' & sts & sc' & E & HF & Hst & _).
  - exact junk_len.
  - exact ex_sendable.
  - exact ex_reuse_ok.
  - exact ex_cloneable.
  - reflexivity.
  - reflexivity.
  - exact ex_get_rte.
  - reflexivity.
  - reflexivity.
  - discriminate.
  - constructor; [split; reflexivity|]. constructor; [split; reflexivity|]. constructor.
  - discriminate.
  - exists m', sts, sc'. split; [exact E|]. split; [exact HF|exact Hst].
Defined.

(** ** Turns *)

(** [k] selections in the same group, one after the other. *)
Fixpoint rr_run {TH TE N : Type} `{Symbols TH thing} `{Symbols TE nat} `{Transport N}
    (k : nat) (sc : send_ctx TH TE N) (id : nat) (group : Z) : comp (list nat * send_ctx TH TE N) :=
  match k with
  | O => Ret ([], sc)
  | S k' =>
      '(_, _, _, ep, sc) ← uta_epsock_rr sc id group;
      ep ← deref ep;
      '(eps, sc) ← rr_run k' sc id group;
      Ret (ep :: eps, sc)
  end.

Lemma rr_next_epts g : rg_epts (rr_next g) = rg_epts g.
Proof. unfold rr_next. by destruct (_ =? 1). Qed.

Lemma rr_idx_next g j :
  rg_epts g <> [] -> 0 <= rg_ep_idx g -> rg_ep_idx g + j + 1 < 2 ^ 16 -> 0 <= j ->
  (rg_ep_idx (rr_next g) + j) mod zlen (rg_epts g) = (rg_ep_idx g + (j + 1)) mod zlen (rg_epts g).
Proof.
  intros Hne Hi Hlt Hj. unfold rr_next. destruct (Z.eqb_spec (zlen (rg_epts g)) 1) as [E|E].
  - by rewrite E, !Z.mod_1_r.
  - cbn [rg_ep_idx]. rewrite u16_id by lia. f_equal. lia.
Qed.

Lemma rr_run_spec {TH TE N : Type} `{Symbols TH thing} `{Symbols TE nat} `{Transport N} k :
  forall (sc : send_ctx TH TE N) id rte group g,
  cr_rtes (sc_rt sc) !! id = Some rte -> 0 <= group -> rte_rrgroups rte !! Z.to_nat group = Some (Some g) ->
  rg_epts g <> [] -> Forall (fun p => exists ep fd, p = Some ep /\ conn_view sc ep = Some fd) (rg_epts g) ->
  0 <= rg_ep_idx g -> rg_ep_idx g + Z.of_nat k <= 2 ^ 16 ->
  exists eps sc', rr_run k sc id group = Ret (eps, sc') /\ length eps = k /\
    forall j, (j < k)%nat ->
      (Some <$> eps) !! j = rg_epts g !! Z.to_nat ((rg_ep_idx g + Z.of_nat j) mod zlen (rg_epts g)).
Proof.
  induction k as [|k IH]; intros sc id rte group g Hid Hg Hgr Hne Hall Hi Hk.
  { exists [], sc. split_and!; [done..|lia]. }
  assert (0 < zlen (rg_epts g)) as Hz by (destruct (rg_epts g); [done|unfold zlen; cbn; lia]).
  assert (rr_idx g = (rg_ep_idx g + 0) mod zlen (rg_epts g)) as Eidx.
  { rewrite Z.add_0_r. unfold rr_idx. destruct (Z.eqb_spec (zlen (rg_epts g)) 1) as [E|E]; [by rewrite E, Z.mod_1_r|done]. }
  destruct (lookup_lt_is_Some_2 (rg_epts g) (Z.to_nat (rr_idx g))) as [p Hp].
  { rewrite Eidx. pose proof (Z.mod_pos_bound (rg_ep_idx g + 0) (zlen (rg_epts g)) Hz). unfold zlen in *. lia. }
  destruct (Forall_lookup_1 _ _ _ _ Hall Hp) as (ep & fd & -> & Hv).
  destruct (epsock_rr_open sc id rte group g ep fd Hid Hg Hgr ltac:(by split)) as (st & _ & Es).
  cbn [rr_run]. rewrite Es. cbn [mbind comp_bind deref].
  destruct (IH (advance_rr sc id rte group g) id (next_turn rte group g) group (rr_next g)) as (eps & sc' & E & Hl & Hj);
    rewrite ?rr_next_epts; try done.
  - cbn. by rewrite lookup_insert_eq.
  - cbn. rewrite list_lookup_insert_eq; [done|]. by apply lookup_lt_Some in Hgr.
  - unfold rr_next. destruct (_ =? 1); [done|]. cbn [rg_ep_idx]. unfold u16. apply Z.mod_pos_bound. lia.
  - unfold rr_next. destruct (Z.eqb_spec (zlen (rg_epts g)) 1); [lia|]. cbn [rg_ep_idx]. unfold u16.
    pose proof (Z.mod_le (rg_ep_idx g + 1) (2 ^ 16)). lia.
  - rewrite E. cbn [mbind comp_bind]. exists (ep :: eps), sc'. split_and!; [done|cbn; lia|].
    intros [|j] Hlt; rewrite fmap_cons.
    + change (Z.of_nat 0) with 0. by rewrite <-Eidx.
    + change ((Some ep :: (Some <$> eps)) !! S j) with ((Some <$> eps) !! j). rewrite rr_next_epts in Hj. rewrite Hj by lia. f_equal. f_equal.
      rewrite rr_idx_next by (done || lia). f_equal. lia.
Qed.

Lemma rotate_lookup {A} (l : list A) (i : Z) j :
  0 <= i -> (j < length l)%nat ->
  let r := Z.to_nat (i mod zlen l) in
  (drop r l ++ take r l) !! j = l !! Z.to_nat ((i + Z.of_nat j) mod zlen l).
Proof.
  intros Hi Hj r. assert (0 < zlen l) as Hz by (unfold zlen; lia).
  pose proof (Z.mod_pos_bound i (zlen l) Hz) as Hr. rewrite <-Zplus_mod_idemp_l.
  assert (Z.of_nat r = i mod zlen l) as Er by (unfold r; lia). rewrite <-Er. assert (r < length l)%nat as Hrl by (unfold zlen in *; lia).
  destruct (decide (r + j < length l)%nat).
  - rewrite lookup_app_l by (rewrite length_drop; lia). rewrite lookup_drop. f_equal.
    rewrite Z.mod_small by (unfold zlen; lia). lia.
  - rewrite lookup_app_r by (rewrite length_drop; lia). rewrite length_drop, lookup_take_lt by lia. f_equal.
    rewrite <-(Z.mod_unique (Z.of_nat r + Z.of_nat j) (zlen l) 1 (Z.of_nat r + Z.of_nat j - zlen l)); unfold zlen in *; lia.
Qed.

(** C34.  Round robin is fair: when all endpoints of a group are connected, as
    many selections in a row as the group has endpoints give each of them exactly
    once, wherever the turn was (up to the wrap of the 16 bit turn counter). *)
Theorem round_robin_gives_each_a_turn {TH TE N : Type} `{Symbols TH thing} `{Symbols TE nat} `{Transport N}
    (sc : send_ctx TH TE N) id rte group g :
  cr_rtes (sc_rt sc) !! id = Some rte -> 0 <= group -> rte_rrgroups rte !! Z.to_nat group = Some (Some g) ->
  rg_epts g <> [] -> Forall (fun p => exists ep fd, p = Some ep /\ conn_view sc ep = Some fd) (rg_epts g) ->
  0 <= rg_ep_idx g -> rg_ep_idx g + zlen (rg_epts g) <= 2 ^ 16 ->
  exists eps sc', rr_run (length (rg_epts g)) sc id group = Ret (eps, sc') /\ Permutation (map Some eps) (rg_epts g).
Proof.
  intros Hid Hg Hgr Hne Hall Hi Hw.
  destruct (rr_run_spec (length (rg_epts g)) sc id rte group g Hid Hg Hgr Hne Hall Hi Hw) as (eps & sc' & E & Hl & Hj).
  exists eps, sc'. split; [done|]. set (r := Z.to_nat (rg_ep_idx g mod zlen (rg_epts g))).
  assert (map Some eps = drop r (rg_epts g) ++ take r (rg_epts g)) as ->.
  { apply list_eq. intros j. destruct (decide (j < length (rg_epts g))%nat) as [Hlt|Hge].
    - unfold r. rewrite rotate_lookup by done. by apply Hj.
    - rewrite !lookup_ge_None_2; [done| |]; rewrite ?length_map, ?length_app, ?length_take, ?length_drop; lia. }
  rewrite Permutation_app_comm. by rewrite take_drop.
Qed.

Lemma round_robin_gives_each_a_turn_witness :
  exists eps sc', rr_run 2 (ex_sc (0%nat : blocked_net)) 1 0 = Ret (eps, sc') /\ Permutation (map Some eps) [Some 2; Some 3]%nat.
Proof.
  apply (round_robin_gives_each_a_turn (ex_sc (0%nat : blocked_net)) 1%nat ex_rte 0 (MkRRG 5 [Some 2; Some 3]%nat)).
  - reflexivity.
  - lia.
  - reflexivity.
  - discriminate.
  - constructor; [exists 2%nat, 7; split; reflexivity|]. constructor; [exists 3%nat, 8; split; reflexivity|]. constructor.
  - vm_compute. discriminate.
  - vm_compute. discriminate.
Defined.
