(* ===== verification/MtCall.v ===== *)
(** Receiving and calling: the receive functions (rmr_mt_rcv, rmr_rcv_msg,
    rmr_torcv_msg, rmr_rcv_specific), the calls that wait for an answer (mt_call,
    rmr_mt_call, rmr_call) and the small setters of src/src/rmr/si/src/rmr_si.c.

    A thread that waits on a semaphore lets the receive thread go on: what a wait
    returns, and the state of the shared receive context when it does, are given
    as a sequence of [wait_res]; a function that needs more waits than there are
    is still blocked ([None]). *)

From S2P Require Import Prelude Bytes Symtab SymIface Tools Ring Mbuf Endpoint River RouteTable Send.

Definition EINTR : Z := 4.
Definition ENOBUFS : Z := 105.
Definition ETIMEDOUT : Z := 110.
Definition RMR_ERR_NOTSUPP : Z := 16.
Definition CFL_MTC_ENABLED : Z := 1.
Definition MAX_CALL_ID : Z := 255.

(** A wait: errno, 0 when the semaphore was taken, and the receive context when
    the wait is over. *)
Record wait_res := MkWait { w_err : Z; w_rx : rx_ctx }.

(** The absolute time a wait ends at: [now] and the wait in milliseconds. *)
Definition deadline (now : Z * Z) (max_wait : Z) : Z * Z :=
  let '(sec, nsec) := now in
  let seconds := if 999 <? max_wait then max_wait / 1000 else 0 in
  let max_wait := max_wait - seconds * 1000 in
  let sec := sec + seconds in
  if 0 <? max_wait then
    let nsec := nsec + max_wait * 1000000 in
    if 999999999 <? nsec then (sec + 1, nsec - 999999999) else (sec, nsec)
  else (sec, nsec).

(** ** Receive *)

Definition set_ring (rx : rx_ctx) (r : @ring_t mbuf) : rx_ctx :=
  MkRx r (rx_chutes rx) (rx_dcount rx) (rx_acc_dcount rx) (rx_acc_ecount rx) (rx_last_warning rx) (rx_max_ibm rx).

Definition set_chutes (rx : rx_ctx) (c : list chute_t) : rx_ctx :=
  MkRx (rx_mring rx) c (rx_dcount rx) (rx_acc_dcount rx) (rx_acc_ecount rx) (rx_last_warning rx) (rx_max_ibm rx).

(** A timed wait with a time that is over: take the count when there is one. *)
Definition pop_barrier (rx : rx_ctx) (i : nat) : rx_ctx :=
  set_chutes rx (alter (fun c => MkChute (ch_mbuf c) (if 0 <? ch_barrier c then ch_barrier c - 1 else ch_barrier c) (ch_expect c)) i (rx_chutes rx)).

Definition add_src (m : mbuf) : mbuf := set_flags (Z.lor (m_flags m) MFL_ADDSRC) m.

(** Waits that are interrupted are repeated; the result is the last one and
    those that are left. *)
Fixpoint sem_loop (ws : list wait_res) : option (wait_res * list wait_res) :=
  match ws with
  | [] => None
  | w :: ws' => if w_err w =? EINTR then sem_loop ws' else Some (w, ws')
  end.

(** [lk]: the lock of the ring's read gate is got.  The result is the message
    (nil when there is none and the caller gave none), the receive context, and
    the waits that are left. *)
Definition rmr_mt_rcv (lk : bool) (ctx : option rx_ctx) (ombuf : option mbuf) (max_wait : Z) (ws : list wait_res) :
    option (option mbuf * option rx_ctx * list wait_res) :=
  match ctx with
  | None => Some (option_map (fun m => set_tp_state EINVAL (set_state RMR_ERR_BADARG m)) ombuf, None, ws)
  | Some rx =>
      let timed_out m := set_len 0 (set_state RMR_ERR_TIMEOUT m) in
      if max_wait =? 0 then
        let '(got, ring) := uta_ring_extract lk (rx_mring rx) in
        match got with
        | Some m => Some (Some (add_src m), Some (pop_barrier (set_ring rx ring) 0), ws)
        | None => Some (option_map (fun m => add_src (timed_out m)) ombuf, Some (set_ring rx ring), ws)
        end
      else
        match sem_loop ws with
        | None => None
        | Some (w, ws) =>
            if negb (w_err w =? 0) then
              Some (option_map (fun m => set_tp_state (w_err w) (timed_out m)) ombuf, Some (w_rx w), ws)
            else
              let '(got, ring) := uta_ring_extract lk (rx_mring (w_rx w)) in
              match got with
              | Some m => Some (Some (set_tp_state 0 (add_src (set_state RMR_OK m))), Some (set_ring (w_rx w) ring), ws)
              | None => Some (option_map (fun m => set_tp_state ETIMEDOUT (timed_out m)) ombuf, Some (set_ring (w_rx w) ring), ws)
              end
        end
  end.

Definition rmr_rcv_msg (lk : bool) (ctx : option rx_ctx) (old_msg : option mbuf) (ws : list wait_res) :=
  rmr_mt_rcv lk ctx old_msg (-1) ws.

Definition rmr_torcv_msg (lk : bool) (ctx : option rx_ctx) (old_msg : option mbuf) (ms_to : Z) (ws : list wait_res) :=
  rmr_mt_rcv lk ctx old_msg ms_to ws.

(** ** Receive of a given transaction *)

(** The transaction id of a message. *)
Definition xact_bytes (m : mbuf) (n : Z) : comp (list Z) :=
  buf ← deref (m_tp_buf m);
  x ← deref (m_xaction m);
  if (x <? 0) || (zlen buf <? x + n) then UB else Ret (slice buf x n).

(** Messages that do not have the id are put back on the ring.  [fuel]: at most
    one round per wait and a last one. *)
Fixpoint specific_loop (fuel : nat) (lk : bool) (rx : rx_ctx) (msg : option mbuf) (expect : list Z) (queued allow2queue : Z)
    (ws : list wait_res) : comp (option (option mbuf * Z * rx_ctx)) :=
  if queued <? allow2queue then
    match fuel with
    | O => Ret None
    | S fuel' =>
        match rmr_rcv_msg lk (Some rx) msg ws with
        | Some (msg, Some rx, ws) =>
            match msg with
            | Some m =>
                if m_state m =? RMR_OK then
                  x ← xact_bytes m (zlen expect);
                  if bool_decide (x = expect) then Ret (Some (Some m, 0, rx))
                  else
                    let r := uta_ring_insert lk (rx_mring rx) (Some m) in
                    if r.1 =? 0 then Ret (Some (None, ENOBUFS, rx))
                    else specific_loop fuel' lk (set_ring rx r.2) None expect (queued + 1) allow2queue ws
                else specific_loop fuel' lk rx msg expect queued allow2queue ws
            | None => specific_loop fuel' lk rx msg expect queued allow2queue ws
            end
        | _ => Ret None
        end
    end
  else Ret (Some (None, ETIMEDOUT, rx)).

Definition rmr_rcv_specific (lk : bool) (ctx : option rx_ctx) (msg : option mbuf) (expect : option (list Z)) (allow2queue : Z)
    (ws : list wait_res) : comp (option (option mbuf * Z * option rx_ctx)) :=
  match ctx with
  | None => Ret (Some (option_map (fun m => set_tp_state EINVAL (set_state RMR_ERR_BADARG m)) msg, EINVAL, None))
  | Some rx =>
      match expect with
      | None | Some [] => Ret (match rmr_rcv_msg lk (Some rx) msg ws with Some (m, rx, _) => Some (m, 0, rx) | None => None end)
      | Some s =>
          x ← specific_loop (S (length ws)) lk rx msg (take (Z.to_nat RMR_MAX_XID) s) 0 allow2queue ws;
          Ret (match x with Some (m, e, rx) => Some (m, e, Some rx) | None => None end)
      end
  end.

(** ** Call *)

Section call.
Context {TH TE N : Type} `{Symbols TH thing} `{Symbols TE nat} `{Transport N}.
Variable malloc_bytes : Z -> list Z.
Abbreviation sctx := (send_ctx TH TE N).

Definition put_chute (rx : rx_ctx) (i : nat) (c : chute_t) : rx_ctx := set_chutes rx (<[i := c]> (rx_chutes rx)).

(** The loop that waits for the answer.  The result is [state], errno and the
    receive context. *)
Fixpoint call_wait (ws : list wait_res) (rx : rx_ctx) (i : nat) (state errno : Z) : comp (option (Z * Z * rx_ctx)) :=
  c ← deref (rx_chutes rx !! i);
  match ch_mbuf c with
  | Some _ => Ret (Some (state, errno, rx))
  | None =>
      if negb (errno =? 0) then Ret (Some (state, errno, rx))
      else
        match ws with
        | [] => Ret None
        | w :: ws' =>
            let state := if w_err w =? 0 then 0 else -1 in
            let errno := if w_err w =? EINTR then 0 else w_err w in
            c ← deref (rx_chutes (w_rx w) !! i);
            match ch_mbuf c with
            | Some m =>
                x ← xact_bytes m RMR_MAX_XID;
                if bool_decide (ch_expect c = x) then call_wait ws' (w_rx w) i state errno
                else call_wait ws' (put_chute (w_rx w) i (MkChute None (ch_barrier c) (ch_expect c))) i state 0
            | None => call_wait ws' (w_rx w) i state errno
            end
        end
  end.

(** The message as a call sends it: flag, call id, and no replacement wanted. *)
Definition mark_call (m : mbuf) (call_id : Z) : comp mbuf :=
  h ← deref (m_header m);
  buf ← deref (m_tp_buf m);
  _ ← get8 buf (h + o_flags + 3);
  buf ← put buf (h + o_flags) (le_bytes 4 (Z.lor (load32 buf (h + o_flags)) HFL_CALL_MSG));
  d1 ← DATA1_ADDR buf h;
  buf ← put buf (d1 + D1_CALLID_IDX) [u8 call_id];
  Ret (set_flags (Z.lor (m_flags m) MFL_NOALLOC) (set_tp_buf (Some buf) m)).

(** The end of a call: nil when the last wait failed, else what is in the chute. *)
Definition call_done (sc : sctx) (rx : rx_ctx) (i : nat) (state errno : Z) : comp (option mbuf * Z * option (sctx * rx_ctx)) :=
  if state <? 0 then Ret (None, errno, Some (sc, rx))
  else
    c ← deref (rx_chutes rx !! i);
    Ret (option_map (set_state RMR_OK) (ch_mbuf c), errno,
         Some (sc, put_chute rx i (MkChute None (ch_barrier c) (ch_expect c)))).

(** The send of a call: routed, or to the socket of a wormhole.  The internal
    send functions keep the call id. *)
Definition call_send (sc : sctx) (m : mbuf) (ep : option Z) : comp (option mbuf * sctx) :=
  match ep with
  | None =>
      '(r, sc') ← mtosend_msg malloc_bytes (Some sc) (Some m) 0;
      Ret (r, default sc sc')
  | Some sock =>
      '(r, errno, n) ← send_msg malloc_bytes (sc_mctx sc) (sc_net sc) m sock (-1);
      Ret (option_map (fun m => if m_state m =? RMR_OK then m else set_tp_state errno m) r, set_net sc n)
  end.

(** [rx_sent]: what the receive thread does to its context during the send;
    [ep]: the endpoint's socket when the call goes through a wormhole.  The
    result is the message or nil, errno, and the contexts.  Whether waits time
    out is the matter of [deadline]. *)
Definition mt_call (flags : Z) (ctx : option (sctx * rx_ctx)) (msg : option mbuf) (call_id : Z) (ep : option Z)
    (rx_sent : rx_ctx -> rx_ctx) (ws : list wait_res) : comp (option (option mbuf * Z * option (sctx * rx_ctx))) :=
  match ctx, msg with
  | Some (sc, rx), Some m =>
      if Z.land flags CFL_MTC_ENABLED =? 0
      then Ret (Some (Some (set_tp_state EINVAL (set_state RMR_ERR_NOTSUPP m)), EINVAL, Some (sc, rx)))
      else
        let i := Z.to_nat call_id in
        c ← deref (rx_chutes rx !! i);
        expect ← xact_bytes m RMR_MAX_XID;
        m ← mark_call m call_id;
        let rx := put_chute rx i (MkChute None (ch_barrier c) expect) in
        '(r, sc) ← call_send sc m ep;
        let rx := rx_sent rx in
        let sent := match r with Some m => m_state m =? RMR_OK | None => true end in
        if negb sent then Ret (Some (r, default 0 (m_tp_state <$> r), Some (sc, rx)))
        else
          x ← call_wait ws rx i 0 0;
          match x with
          | None => Ret None
          | Some (state, errno, rx) => y ← call_done sc rx i state errno; Ret (Some y)
          end
  | _, m => Ret (Some (option_map (fun m => set_state RMR_ERR_BADARG (set_tp_state EINVAL m)) m, EINVAL, ctx))
  end.

Definition rmr_mt_call (flags : Z) (ctx : option (sctx * rx_ctx)) (msg : option mbuf) (call_id : Z)
    (rx_sent : rx_ctx -> rx_ctx) (ws : list wait_res) : comp (option (option mbuf * Z * option (sctx * rx_ctx))) :=
  if (MAX_CALL_ID <? call_id) || (call_id <? 2)
  then Ret (Some (option_map (fun m => set_tp_state EINVAL (set_state RMR_ERR_BADARG m)) msg, 0, ctx))
  else mt_call flags ctx msg call_id None rx_sent ws.

Definition rmr_call (flags : Z) (ctx : option (sctx * rx_ctx)) (msg : option mbuf)
    (rx_sent : rx_ctx -> rx_ctx) (ws : list wait_res) : comp (option (option mbuf * Z * option (sctx * rx_ctx))) :=
  match ctx, msg with
  | Some _, Some _ => mt_call flags ctx msg 1 None rx_sent ws
  | _, m => Ret (Some (option_map (set_state RMR_ERR_BADARG) m, 0, ctx))
  end.

(** ** Small functions of the context *)

Definition rmr_init_trace (ctx : option sctx) (tr_len : Z) : Z * option sctx :=
  match ctx with
  | None => (0, None)
  | Some sc =>
      let x := sc_mctx sc in
      (1, Some (MkSc (sc_rt sc) (sc_fd2ep sc) (sc_net sc)
                  (MkMsgCtx (x_max_plen x) tr_len (x_d1_len x) (x_d2_len x) (x_my_name x) (x_my_ip x)) (sc_send_retries sc)))
  end.

Definition rmr_get_rcvfd (newfd : Z) (ctx : option rx_ctx) : Z * option rx_ctx :=
  match ctx with
  | None => (-1, None)
  | Some rx => let r := uta_ring_getpfd newfd (rx_mring rx) in (r.1, Some (set_ring rx r.2))
  end.
End call.
