(* ===== verification/MtSpec.v ===== *)
(** What receive and call functions promise: theorems about MtCall.v. *)

From S2P Require Import Prelude Bytes Symtab SymIface Tools Ring Mbuf Endpoint River RouteTable Send SendSpec Fanout MtCall.

(** ** Receiving: a bounded queue of messages *)

(** What can happen to the receive queue: the receive thread queues a message
    at a time, the application polls, or waits (and blocks when nothing is
    queued); a wait may be interrupted first. *)
Inductive rcv_op :=
| OArrive (now : Z) (m : mbuf)
| OPoll (old : option mbuf)
| OWait (old : option mbuf) (max_wait : Z) (interrupts : nat).

Definition barrier0 (rx : rx_ctx) : Z := match rx_chutes rx !! 0%nat with Some c => ch_barrier c | None => 0 end.

(** The waits of an [OWait]: the semaphore is taken when its count allows it. *)
Definition waits_of (rx : rx_ctx) (interrupts : nat) : list wait_res :=
  replicate interrupts (MkWait EINTR rx) ++ if 0 <? barrier0 rx then [MkWait 0 (pop_barrier rx 0)] else [].

(** The result: [None] when the receive is blocked. *)
Definition rcv_exec (rx : rx_ctx) (o : rcv_op) : option (option mbuf) * rx_ctx :=
  let result r := match r with Some (m, Some rx', _) => (Some m, rx') | _ => (None, rx) end in
  match o with
  | OArrive now m => (Some None, queue_normal now rx m)
  | OPoll old => result (rmr_mt_rcv true (Some rx) old 0 [])
  | OWait old mw k => result (rmr_mt_rcv true (Some rx) old mw (waits_of rx k))
  end.

Definition spec_exec (cap : Z) (q : list mbuf) (o : rcv_op) : option (option mbuf) * list mbuf :=
  match o, q with
  | OArrive _ m, _ => (Some None, if zlen q <? cap then q ++ [m] else q)
  | OPoll old, [] => (Some (option_map (fun m => add_src (set_len 0 (set_state RMR_ERR_TIMEOUT m))) old), [])
  | OPoll _, m :: q' => (Some (Some (add_src m)), q')
  | OWait _ _ _, [] => (None, [])
  | OWait _ _ _, m :: q' => (Some (Some (set_tp_state 0 (add_src (set_state RMR_OK m)))), q')
  end.

(** Everything queued is a message, and chute 0 counts what is queued.  This is the
    invariant of the queue: the chutes of calls are not part of it. *)
Record rx_inv (n : Z) (rx : rx_ctx) (q : list mbuf) : Prop := {
  ri_ring : ring_wf (rx_mring rx);
  ri_n : r_nelements (rx_mring rx) = n;
  ri_contents : ring_contents (rx_mring rx) = Some <$> q;
  ri_chute : is_Some (rx_chutes rx !! 0%nat);
  ri_count : barrier0 rx = zlen q
}.

Lemma sem_loop_waits rx k w : w_err w <> EINTR ->
  sem_loop (replicate k (MkWait EINTR rx) ++ [w]) = Some (w, []) /\ sem_loop (replicate k (MkWait EINTR rx) ++ []) = None.
Proof.
  intros Hw. induction k as [|k IH]; cbn; [|exact IH]. by rewrite (proj2 (Z.eqb_neq _ _) Hw).
Qed.

Lemma extract_queue n rx m q :
  rx_inv n rx (m :: q) ->
  exists ring, uta_ring_extract true (rx_mring rx) = (Some m, ring) /\ ring_wf ring /\ r_nelements ring = n /\
    ring_contents ring = Some <$> q.
Proof.
  intros [Hw Hn Hc _ _]. destruct (decide (r_tail (rx_mring rx) = r_head (rx_mring rx))) as [He|Hne].
  { by rewrite (contents_nil _ Hw He) in Hc. }
  destruct (extract_spec (rx_mring rx) true Hw) as [Hw' Hc']; [by rewrite andb_false_r|done|].
  rewrite Hc in Hc'. destruct (uta_ring_extract true (rx_mring rx)) as [got ring] eqn:E. cbn in *.
  injection Hc' as <- Hc'. exists ring. split_and!; try done.
  unfold uta_ring_extract in E. rewrite (proj2 (Z.eqb_neq _ _) Hne), andb_false_r in E. by injection E as _ <-.
Qed.

Lemma extract_empty n rx : rx_inv n rx [] -> uta_ring_extract true (rx_mring rx) = (None, rx_mring rx).
Proof.
  intros [Hw Hn Hc _ _]. unfold uta_ring_extract.
  destruct (Z.eqb_spec (r_tail (rx_mring rx)) (r_head (rx_mring rx))) as [|Hne]; [done|].
  destruct (extract_spec (rx_mring rx) true Hw) as [_ Hc']; [by rewrite andb_false_r|done|]. by rewrite Hc in Hc'.
Qed.

Lemma pop_barrier_count rx : is_Some (rx_chutes rx !! 0%nat) -> 0 < barrier0 rx ->
  is_Some (rx_chutes (pop_barrier rx 0) !! 0%nat) /\ barrier0 (pop_barrier rx 0) = barrier0 rx - 1.
Proof.
  intros [c Hc]. unfold barrier0, pop_barrier. cbn. rewrite list_lookup_alter_eq, Hc. cbn. intros Hb.
  split; [done|]. by destruct (Z.ltb_spec 0 (ch_barrier c)); [|lia].
Qed.

Definition op_ok (o : rcv_op) : Prop := match o with OWait _ mw _ => mw <> 0 | _ => True end.

Lemma rcv_simulation n rx q o : rx_inv n rx q -> op_ok o ->
  (rcv_exec rx o).1 = (spec_exec (n - 1) q o).1 /\ rx_inv n (rcv_exec rx o).2 (spec_exec (n - 1) q o).2.
Proof.
  intros I Hok. pose proof I as [Hw Hn Hc [c Hch] Hcnt]. destruct o as [now m|old|old mw k]; cbn [rcv_exec spec_exec].
  - split; [done|]. cbn [snd]. unfold queue_normal.
    pose proof (length_contents _ Hw) as Hl. rewrite Hc, length_fmap in Hl. fold (zlen q) in Hl.
    pose proof (ring_full_spec _ Hw) as Hf. rewrite <-Hl, Hn in Hf.
    destruct (ring_full (rx_mring rx)) eqn:Ef.
    + unfold uta_ring_insert. rewrite andb_false_r, Ef. cbn. symmetry in Hf. apply Z.eqb_eq in Hf.
      destruct (Z.ltb_spec (zlen q) (n - 1)); [lia|]. split; cbn; done || by exists c.
    + destruct (insert_spec (rx_mring rx) true (Some m) Hw) as (E1 & Hw' & Hc'); [by rewrite andb_false_r|done|].
      pose proof (count_range _ Hw) as Hcr. symmetry in Hf. apply Z.eqb_neq in Hf.
      rewrite E1. change (1 =? 0) with false. cbv iota.
      destruct (Z.ltb_spec (zlen q) (n - 1)); [|lia]. split; cbn; try done.
      * rewrite <-Hn. unfold uta_ring_insert. by rewrite andb_false_r, Ef.
      * by rewrite Hc', Hc, fmap_app.
      * unfold post_chute. rewrite list_lookup_alter_eq, Hch. done.
      * unfold barrier0 in *. cbn. unfold post_chute. rewrite list_lookup_alter_eq, Hch in *. cbn. rewrite zlen_app. change (zlen [m]) with 1. lia.
  - cbn [rmr_mt_rcv]. change (0 =? 0) with true. cbv iota. destruct q as [|m q].
    + rewrite (extract_empty n rx I). cbn. split; [done|]. destruct I as [? ? ? ? ?]. by split.
    + destruct (extract_queue n rx m q I) as (ring & -> & Hw' & Hn' & Hc'). cbn. split; [done|].
      destruct (pop_barrier_count (set_ring rx ring)) as [P1 P2]; [by exists c|change (0 < barrier0 rx); rewrite Hcnt; unfold zlen; cbn; lia|].
      split; cbn; try done. rewrite P2. change (barrier0 (set_ring rx ring)) with (barrier0 rx). rewrite Hcnt. unfold zlen. cbn. lia.
  - cbn [rmr_mt_rcv]. rewrite (proj2 (Z.eqb_neq mw 0) Hok). unfold waits_of. rewrite Hcnt. destruct q as [|m q].
    + change (0 <? zlen []) with false. cbv iota.
      destruct (sem_loop_waits rx k (MkWait 0 rx) ltac:(done)) as [_ ->]. by cbn.
    + assert (0 < zlen (m :: q)) as Hz by (unfold zlen; cbn; lia). destruct (Z.ltb_spec 0 (zlen (m :: q))) as [_|?]; [|lia].
      destruct (sem_loop_waits rx k (MkWait 0 (pop_barrier rx 0)) ltac:(done)) as [-> _].
      cbn [w_err w_rx]. change (0 =? 0) with true. cbn [negb].
      destruct (extract_queue n rx m q I) as (ring & E & Hw' & Hn' & Hc').
      change (rx_mring (pop_barrier rx 0)) with (rx_mring rx). rewrite E. cbn. split; [done|].
      destruct (pop_barrier_count rx) as [P1 P2]; [by exists c|lia|].
      split; cbn; try done. change (barrier0 (set_ring (pop_barrier rx 0) ring)) with (barrier0 (pop_barrier rx 0)).
      rewrite P2, Hcnt. unfold zlen. cbn. lia.
Qed.

(** C28.  The receive queue is a bounded first-in first-out queue of messages
    from the receive thread to the application: for any sequence of arrivals,
    polls and waits (interrupted or not) the receive calls return the messages in
    the order of their arrival, each once, marked so that a later send sets the
    source, and a message that arrives while the queue is full is dropped; an
    empty poll gives the caller's buffer back with the time out state, a wait on
    an empty queue blocks; the semaphore always counts what is queued. *)
Theorem receive_queue_refines n rx q ops :
  rx_inv n rx q -> Forall op_ok ops ->
  (run rcv_exec rx ops).1 = (run (spec_exec (n - 1)) q ops).1 /\
  rx_inv n (run rcv_exec rx ops).2 (run (spec_exec (n - 1)) q ops).2.
Proof. intros I Hok. apply (run_simulation (rx_inv n) op_ok); [|done|done]. intros. by apply rcv_simulation. Qed.

Lemma rx0_inv : rx_inv 16 rx0 [].
Proof.
  split; [split| | | |]; try (vm_compute; repeat split; congruence || discriminate).
  - intros i Hi _. unfold slot, rx0. cbn [rx_mring r_data]. change (r_nelements (rx_mring rx0)) with 16 in Hi.
    by rewrite lookup_replicate_2 by lia.
  - by eexists.
Qed.

Lemma receive_queue_refines_witness :
  (run rcv_exec rx0 [OArrive 0 mbuf0; OArrive 0 (set_len 3 mbuf0); OWait None 10 2; OPoll None; OPoll (Some mbuf0); OWait None 10 0]).1 =
  [Some None; Some None; Some (Some (set_tp_state 0 (add_src (set_state RMR_OK mbuf0)))); Some (Some (add_src (set_len 3 mbuf0)));
   Some (Some (add_src (set_len 0 (set_state RMR_ERR_TIMEOUT mbuf0)))); None].
Proof.
  destruct (receive_queue_refines 16 rx0 [] [OArrive 0 mbuf0; OArrive 0 (set_len 3 mbuf0); OWait None 10 2; OPoll None; OPoll (Some mbuf0); OWait None 10 0]
    rx0_inv) as [E _].
  - repeat constructor; discriminate.
  - rewrite E. reflexivity.
Defined.

(** ** Calls *)

Section calls.
Context {TH TE N : Type} `{Symbols TH thing} `{Symbols TE nat} `{Transport N}.
Implicit Types (sc : send_ctx TH TE N) (rx : rx_ctx) (w : wait_res).

(** A wait that leaves the caller waiting: nothing arrived, or a message of
    another transaction. *)
Definition keeps_waiting (i : nat) (expect : list Z) w : Prop :=
  exists c, rx_chutes (w_rx w) !! i = Some c /\ ch_expect c = expect /\
    match ch_mbuf c with
    | None => w_err w = 0 \/ w_err w = EINTR
    | Some m => exists x, xact_bytes m RMR_MAX_XID = Ret x /\ x <> expect
    end.

(** At the end of the wait the chute has the answer. *)
Definition has_answer (i : nat) (expect : list Z) w (c : chute_t) (m : mbuf) : Prop :=
  rx_chutes (w_rx w) !! i = Some c /\ ch_expect c = expect /\ ch_mbuf c = Some m /\ xact_bytes m RMR_MAX_XID = Ret expect.

Definition chute_empty (rx : rx_ctx) (i : nat) : Prop := exists c, rx_chutes rx !! i = Some c /\ ch_mbuf c = None.

Lemma call_wait_end ws rx i c m st e :
  rx_chutes rx !! i = Some c -> ch_mbuf c = Some m -> call_wait ws rx i st e = Ret (Some (st, e, rx)).
Proof. intros Hc Hm. destruct ws; cbn [call_wait]; rewrite Hc; cbn [deref mbind comp_bind]; by rewrite Hm. Qed.

Lemma call_wait_step w ws rx i st : chute_empty rx i ->
  call_wait (w :: ws) rx i st 0 =
    (let st := if w_err w =? 0 then 0 else -1 in
     let e := if w_err w =? EINTR then 0 else w_err w in
     c ← deref (rx_chutes (w_rx w) !! i);
     match ch_mbuf c with
     | Some m =>
         x ← xact_bytes m RMR_MAX_XID;
         if bool_decide (ch_expect c = x) then call_wait ws (w_rx w) i st e
         else call_wait ws (put_chute (w_rx w) i (MkChute None (ch_barrier c) (ch_expect c))) i st 0
     | None => call_wait ws (w_rx w) i st e
     end).
Proof. intros (c & Hc & Hm). cbn [call_wait]. rewrite Hc. cbn [deref mbind comp_bind]. by rewrite Hm. Qed.

Lemma call_wait_skip expect pre : forall ws rx i st,
  Forall (keeps_waiting i expect) pre -> chute_empty rx i ->
  exists rx' st', chute_empty rx' i /\ call_wait (pre ++ ws) rx i st 0 = call_wait ws rx' i st' 0.
Proof.
  induction pre as [|w pre IH]; intros ws rx i st Hf He; [by exists rx, st|].
  apply Forall_cons in Hf as [(c & Hc & Hx & Hw) Hf]. cbn [app]. rewrite call_wait_step by done.
  rewrite Hc. cbn [deref mbind comp_bind]. destruct (ch_mbuf c) as [m|] eqn:Em.
  - destruct Hw as (x & -> & Hne). cbn [mbind comp_bind]. rewrite bool_decide_false by congruence.
    apply IH; [done|]. exists (MkChute None (ch_barrier c) (ch_expect c)). split; [|done]. cbn.
    apply list_lookup_insert_eq. by eapply lookup_lt_Some.
  - destruct (IH ws (w_rx w) i (if w_err w =? 0 then 0 else -1) Hf) as (rx' & st' & He' & E); [by exists c|].
    exists rx', st'. split; [done|]. rewrite <-E. cbv zeta. f_equal. destruct Hw as [-> | ->]; done.
Qed.

Lemma call_wait_answer expect pre w ws rx i c m :
  Forall (keeps_waiting i expect) pre -> chute_empty rx i -> has_answer i expect w c m ->
  call_wait (pre ++ w :: ws) rx i 0 0 =
    Ret (Some (if w_err w =? 0 then 0 else -1, if w_err w =? EINTR then 0 else w_err w, w_rx w)).
Proof.
  intros Hf He (Hc & Hx & Hm & Hxa). destruct (call_wait_skip expect pre (w :: ws) rx i 0 Hf He) as (rx' & st' & He' & ->).
  rewrite call_wait_step by done. rewrite Hc. cbn [deref mbind comp_bind]. rewrite Hm, Hxa. cbn [mbind comp_bind].
  rewrite bool_decide_true by done. by eapply call_wait_end.
Qed.

Lemma call_wait_timeout expect pre w ws rx i :
  Forall (keeps_waiting i expect) pre -> chute_empty rx i -> chute_empty (w_rx w) i ->
  w_err w <> 0 -> w_err w <> EINTR ->
  call_wait (pre ++ w :: ws) rx i 0 0 = Ret (Some (-1, w_err w, w_rx w)).
Proof.
  intros Hf He (c & Hc & Hm) H0' H1'. destruct (call_wait_skip expect pre (w :: ws) rx i 0 Hf He) as (rx' & st' & He' & ->).
  rewrite call_wait_step by done. rewrite Hc. cbn [deref mbind comp_bind]. rewrite Hm.
  rewrite (proj2 (Z.eqb_neq _ _) H0'), (proj2 (Z.eqb_neq _ _) H1'). cbv zeta iota.
  destruct ws; cbn [call_wait]; rewrite Hc; cbn [deref mbind comp_bind]; rewrite Hm; by rewrite (proj2 (Z.eqb_neq _ _) H0').
Qed.

(** A call whose message was sent: what is left is the wait. *)
Record call_sent malloc_bytes sc rx (m : mbuf) (call_id : Z) (ep : option Z) (expect : list Z) sc' (rx1 : rx_ctx) : Prop := {
  cs_chute : exists c, rx_chutes rx !! Z.to_nat call_id = Some c /\
    rx1 = put_chute rx (Z.to_nat call_id) (MkChute None (ch_barrier c) expect);
  cs_expect : xact_bytes m RMR_MAX_XID = Ret expect;
  cs_send : exists m2, mark_call m call_id = Ret m2 /\ call_send malloc_bytes sc m2 ep = Ret (None, sc')
}.

Lemma mt_call_sent malloc_bytes flags sc rx m call_id ep expect sc' rx1 rx_sent ws :
  Z.land flags CFL_MTC_ENABLED <> 0 -> call_sent malloc_bytes sc rx m call_id ep expect sc' rx1 ->
  mt_call malloc_bytes flags (Some (sc, rx)) (Some m) call_id ep rx_sent ws =
    (x ← call_wait ws (rx_sent rx1) (Z.to_nat call_id) 0 0;
     match x with
     | None => Ret None
     | Some (state, errno, rx) => y ← call_done sc' rx (Z.to_nat call_id) state errno; Ret (Some y)
     end).
Proof.
  intros Hf [(c & Hc & ->) He (m2 & Em & Es)]. unfold mt_call. rewrite (proj2 (Z.eqb_neq _ _) Hf), Hc.
  cbn [deref mbind comp_bind]. rewrite He. cbn [mbind comp_bind]. rewrite Em. cbn [mbind comp_bind]. rewrite Es. by cbn [mbind comp_bind negb].
Qed.
End calls.

(** C33.  A call whose chute is still empty when its send is over returns the
    answer to its own request, when that comes with a wait that is not interrupted:
    whatever number of interrupted waits with an empty chute and of messages of
    other transactions comes first (those are dropped), the first message that
    carries the transaction id of the request is returned, in state RMR_OK, and the
    chute is free again; a time out, or another error, that finds the chute empty
    gives nil and errno; until then the caller waits.

    Without the conditions the result is another one, see [call_races]: a message
    that gets into the chute during the send is returned unchecked, and an answer
    found after an interrupted wait is not returned.  (rmr_mt_call(3) says that
    messages that come while a call waits are queued; that holds for those
    without a call id, but those for the chute of the call are dropped.) *)
Theorem call_gets_its_answer {TH TE N : Type} `{Symbols TH thing} `{Symbols TE nat} `{Transport N}
    malloc_bytes flags (sc : send_ctx TH TE N) rx m call_id ep expect sc' rx1 rx_sent pre :
  let i := Z.to_nat call_id in
  let call := mt_call malloc_bytes flags (Some (sc, rx)) (Some m) call_id ep rx_sent in
  Z.land flags CFL_MTC_ENABLED <> 0 -> call_sent malloc_bytes sc rx m call_id ep expect sc' rx1 ->
  chute_empty (rx_sent rx1) i -> Forall (keeps_waiting i expect) pre ->
  (forall w ws c ans, has_answer i expect w c ans -> w_err w = 0 ->
     call (pre ++ w :: ws) = Ret (Some (Some (set_state RMR_OK ans), 0,
       Some (sc', put_chute (w_rx w) i (MkChute None (ch_barrier c) expect))))) /\
  (forall w ws, chute_empty (w_rx w) i -> w_err w <> 0 -> w_err w <> EINTR ->
     call (pre ++ w :: ws) = Ret (Some (None, w_err w, Some (sc', w_rx w)))) /\
  call pre = Ret None.
Proof.
  intros i call Hf Hs He Hp. subst call. cbv beta.
  pose proof (fun ws => mt_call_sent malloc_bytes flags sc rx m call_id ep expect sc' rx1 rx_sent ws Hf Hs) as Hc.
  fold i in Hc.
  split_and!.
  - intros w ws c ans Ha Hw. rewrite Hc. rewrite (call_wait_answer expect pre w ws _ _ c ans Hp He Ha). rewrite Hw.
    destruct Ha as (Hch & <- & Hm & _). cbn [mbind comp_bind]. unfold call_done. cbv iota. change (0 <? 0) with false. cbv iota.
    cbn -[put_chute]. rewrite Hch. cbn [deref mbind comp_bind]. by rewrite Hm.
  - intros w ws Hw H0' H1'. rewrite Hc. by rewrite (call_wait_timeout expect pre w ws _ _ Hp He Hw H0' H1').
  - rewrite Hc. rewrite <-(app_nil_r pre). destruct (call_wait_skip expect pre [] _ _ 0 Hp He) as (rx' & st' & (c & Hch & Hm) & ->).
    cbn [call_wait]. rewrite Hch. cbn [deref mbind comp_bind]. by rewrite Hm.
Qed.

(** Two races of a call.  A message that is in the chute when the send is
    over (a late answer to an earlier call that timed out) is returned as the
    answer, in state RMR_OK, although it belongs to another transaction: the
    check is only made after a wait.  And an answer that is found after a wait
    that was interrupted is not returned: the call gives nil, with errno 0. *)
Theorem call_races {TH TE N : Type} `{Symbols TH thing} `{Symbols TE nat} `{Transport N}
    malloc_bytes flags (sc : send_ctx TH TE N) rx m call_id ep expect sc' rx1 rx_sent :
  let i := Z.to_nat call_id in
  let call := mt_call malloc_bytes flags (Some (sc, rx)) (Some m) call_id ep rx_sent in
  Z.land flags CFL_MTC_ENABLED <> 0 -> call_sent malloc_bytes sc rx m call_id ep expect sc' rx1 ->
  (forall c late x ws, rx_chutes (rx_sent rx1) !! i = Some c -> ch_mbuf c = Some late ->
     xact_bytes late RMR_MAX_XID = Ret x -> x <> expect ->
     exists rx', call ws = Ret (Some (Some (set_state RMR_OK late), 0, Some (sc', rx')))) /\
  (forall w ws c ans, chute_empty (rx_sent rx1) i -> has_answer i expect w c ans -> w_err w = EINTR ->
     call (w :: ws) = Ret (Some (None, 0, Some (sc', w_rx w)))).
Proof.
  intros i call Hf Hs. subst call. cbv beta. split.
  - intros c late x ws Hc Hm _ _. rewrite (mt_call_sent malloc_bytes flags sc rx m call_id ep expect sc' rx1 rx_sent ws Hf Hs).
    fold i. rewrite (call_wait_end ws _ _ c late 0 0 Hc Hm). cbn [mbind comp_bind]. unfold call_done. change (0 <? 0) with false. cbv iota.
    rewrite Hc. cbn [deref mbind comp_bind]. rewrite Hm. by eexists.
  - intros w ws c ans He Ha Hw. rewrite (mt_call_sent malloc_bytes flags sc rx m call_id ep expect sc' rx1 rx_sent (w :: ws) Hf Hs).
    fold i. pose proof (call_wait_answer expect [] w ws _ _ c ans (Forall_nil_2 _) He Ha) as E. cbn [app] in E. by rewrite E, Hw.
Qed.

(** A call with id 2 on a connected wormhole. *)
Definition ex_expect : list Z := replicate 32 0.
Definition ex_rx1 : rx_ctx := put_chute rx0 2 (MkChute None 0 ex_expect).
Definition ex_answered : rx_ctx := put_chute ex_rx1 2 (MkChute (Some ex_msg) 1 ex_expect).
Definition ex_late : mbuf := set_tp_buf (Some (splice ex_buf 62 [1])) ex_msg.
Definition ex_call_msg : mbuf := Eval vm_compute in comp_get mbuf0 (mark_call ex_msg 2).
Definition ex_call_buf : list Z := Eval vm_compute in default [] (m_tp_buf ex_call_msg).
Abbreviation ex_call := (mt_call junk 1 (Some (ex_sc ((fun _ => []) : open_net), rx0)) (Some ex_msg) 2 (Some 7)).

Lemma ex_call_sent : exists sc',
  call_sent junk (ex_sc ((fun _ => []) : open_net)) rx0 ex_msg 2 (Some 7) ex_expect sc' ex_rx1.
Proof.
  assert (sendable ex_call_msg ex_call_buf 20 4 0 100) as Hs.
  { split; [split|]; [reflexivity..|vm_compute; split; discriminate|split|]; vm_compute; repeat split; discriminate. }
  destruct (send_msg_ref junk junk_len ctx0 ((fun _ => []) : open_net) ex_call_msg ex_call_buf 20 4 0 100 7 (-1) Hs ex_reuse_ok)
    as (f & b' & _ & _ & E).
  change (Z.to_nat (attempts (-1) - 1)) with 0%nat in E. cbn -[send_msg] in E.
  eexists. split.
  - eexists. split; reflexivity.
  - vm_compute. reflexivity.
  - exists ex_call_msg. split; [vm_compute; reflexivity|]. unfold call_send. cbn [sc_mctx sc_net ex_sc]. rewrite E. reflexivity.
Qed.

Lemma call_gets_its_answer_witness :
  exists ctx', ex_call (fun rx => rx) ([MkWait EINTR ex_rx1] ++ [MkWait 0 ex_answered]) =
    Ret (Some (Some (set_state RMR_OK ex_msg), 0, ctx')).
Proof.
  destruct ex_call_sent as [sc' Hs].
  destruct (call_gets_its_answer junk 1 (ex_sc ((fun _ => []) : open_net)) rx0 ex_msg 2 (Some 7) ex_expect sc' ex_rx1 (fun rx => rx)
    [MkWait EINTR ex_rx1]) as [H _].
  - discriminate.
  - exact Hs.
  - eexists. split; reflexivity.
  - constructor; [|constructor]. eexists. split; [reflexivity|]. split; [reflexivity|]. right. reflexivity.
  - eexists. apply (H (MkWait 0 ex_answered) [] (MkChute (Some ex_msg) 1 ex_expect) ex_msg); [|reflexivity].
    split; [reflexivity|]. split; [reflexivity|]. split; [reflexivity|]. vm_compute. reflexivity.
Defined.

Lemma call_races_witness :
  (exists ctx', ex_call (fun rx => put_chute rx 2 (MkChute (Some ex_late) 1 ex_expect)) [] =
    Ret (Some (Some (set_state RMR_OK ex_late), 0, ctx'))) /\
  exists ctx', ex_call (fun rx => rx) [MkWait EINTR ex_answered] = Ret (Some (None, 0, ctx')).
Proof.
  destruct ex_call_sent as [sc' Hs]. split.
  - destruct (call_races junk 1 (ex_sc ((fun _ => []) : open_net)) rx0 ex_msg 2 (Some 7) ex_expect sc' ex_rx1
      (fun rx => put_chute rx 2 (MkChute (Some ex_late) 1 ex_expect))) as [H _]; [discriminate|exact Hs|].
    destruct (H (MkChute (Some ex_late) 1 ex_expect) ex_late (1 :: replicate 31 0) []) as [rx' E].
    + reflexivity.
    + reflexivity.
    + vm_compute. reflexivity.
    + discriminate.
    + eexists. exact E.
  - destruct (call_races junk 1 (ex_sc ((fun _ => []) : open_net)) rx0 ex_msg 2 (Some 7) ex_expect sc' ex_rx1
      (fun rx => rx)) as [_ H]; [discriminate|exact Hs|].
    eexists. apply (H (MkWait EINTR ex_answered) [] (MkChute (Some ex_msg) 1 ex_expect) ex_msg).
    + eexists. split; reflexivity.
    + split; [reflexivity|]. split; [reflexivity|]. split; [reflexivity|]. vm_compute. reflexivity.
    + reflexivity.
Defined.

(** ** Deadlines *)

(** The time a wait ends at is a valid time, never before the requested
    number of milliseconds has passed, and at most one nanosecond late (the carry
    subtracts one nanosecond too little). *)
Theorem deadline_exact sec nsec max_wait :
  0 <= nsec <= 999999999 -> 0 <= max_wait ->
  let '(s, n) := deadline (sec, nsec) max_wait in
  0 <= n <= 999999999 /\
  s * 1000000000 + n = sec * 1000000000 + nsec + max_wait * 1000000 +
    if 999999999 <? nsec + (max_wait mod 1000) * 1000000 then 1 else 0.
Proof.
  intros Hn Hm. unfold deadline.
  assert (max_wait - (if 999 <? max_wait then max_wait / 1000 else 0) * 1000 = max_wait mod 1000) as E.
  { destruct (Z.ltb_spec 999 max_wait); [|rewrite Z.mod_small; lia]. rewrite Z.mod_eq; lia. }
  rewrite E. pose proof (Z.mod_pos_bound max_wait 1000 ltac:(lia)).
  set (r := max_wait mod 1000) in *. set (q := if 999 <? max_wait then max_wait / 1000 else 0) in *.
  assert (max_wait = q * 1000 + r) as Eq by lia. clearbody q r.
  destruct (Z.ltb_spec 0 r); [|assert (r = 0) as -> by lia; destruct (Z.ltb_spec 999999999 (nsec + 0 * 1000000)); lia].
  destruct (Z.ltb_spec 999999999 (nsec + r * 1000000)); lia.
Qed.

Lemma deadline_exact_witness :
  let '(s, n) := deadline (10, 999999000) 1500 in
  0 <= n <= 999999999 /\ s * 1000000000 + n = 10 * 1000000000 + 999999000 + 1500 * 1000000 + 1.
Proof. apply (deadline_exact 10 999999000 1500); lia. Defined.
