(* ===== verification/RcvSpecific.v ===== *)
(** Receiving the message of a given transaction (rmr_rcv_specific of
    src/src/rmr/si/src/rmr_si.c): what it returns and what it leaves in the ring.

    The function puts the messages that it does not return back into the ring.
    It does not post the semaphore for them, and the ring has no lock for writers. *)

From S2P Require Import Prelude Bytes Symtab SymIface Tools Ring RingConc Mbuf Endpoint River RouteTable Send SendSpec Fanout MtCall MtSpec.

(** ** What the receives of the loop wait for *)

(** A message as a blocking receive returns it. *)
Definition received (m : mbuf) : mbuf := set_tp_state 0 (add_src (set_state RMR_OK m)).

(** The first message put back, as the next round finds the context. *)
Definition put_back (rx : rx_ctx) : rx_ctx :=
  match uta_ring_extract true (rx_mring rx) with
  | (Some m, r) => set_ring rx (uta_ring_insert true r (Some (received m))).2
  | _ => rx
  end.

(** The waits of [k] rounds that each get the semaphore at once. *)
Fixpoint waits_at_once (k : nat) (rx : rx_ctx) : list wait_res :=
  match k with
  | O => []
  | S k' => MkWait 0 (pop_barrier rx 0) :: waits_at_once k' (put_back (pop_barrier rx 0))
  end.

(** ** The ring and the semaphore apart *)

Record ring_holds (n : Z) (r : @ring_t mbuf) (q : list mbuf) : Prop := {
  rh_wf : ring_wf r;
  rh_n : r_nelements r = n;
  rh_contents : ring_contents r = Some <$> q
}.

(** [s] messages of the ring are not counted by the semaphore. *)
Record rx_short (n : Z) (rx : rx_ctx) (q : list mbuf) (s : Z) : Prop := {
  rs_ring : ring_holds n (rx_mring rx) q;
  rs_chute : is_Some (rx_chutes rx !! 0%nat);
  rs_count : barrier0 rx = zlen q - s
}.

Lemma rx_inv_short n rx q : rx_inv n rx q -> rx_short n rx q 0.
Proof. intros [? ? ? ? ?]. split; [by split|done|lia]. Qed.

Lemma holds_take n r m q : ring_holds n r (m :: q) ->
  exists r', uta_ring_extract true r = (Some m, r') /\ ring_holds n r' q.
Proof.
  intros [Hw Hn Hc]. destruct (decide (r_tail r = r_head r)) as [He|Hne].
  { by rewrite (contents_nil _ Hw He) in Hc. }
  destruct (extract_spec r true Hw) as [Hw' Hc']; [by rewrite andb_false_r|done|].
  rewrite Hc in Hc'. destruct (uta_ring_extract true r) as [got r'] eqn:E. cbn in *.
  injection Hc' as <- Hc'. exists r'. split; [done|]. split; try done.
  unfold uta_ring_extract in E. rewrite (proj2 (Z.eqb_neq _ _) Hne), andb_false_r in E. by injection E as _ <-.
Qed.

Lemma holds_put n r q m : ring_holds n r q -> zlen q < n - 1 ->
  exists r', uta_ring_insert true r (Some m) = (1, r') /\ ring_holds n r' (q ++ [m]).
Proof.
  intros [Hw Hn Hc] Hl. pose proof (length_contents _ Hw) as Hlen. rewrite Hc, length_fmap in Hlen. fold (zlen q) in Hlen.
  pose proof (ring_full_spec _ Hw) as Hf. rewrite <-Hlen, Hn, (proj2 (Z.eqb_neq _ _)) in Hf by lia.
  destruct (insert_spec r true (Some m) Hw) as (E1 & Hw' & Hc'); [by rewrite andb_false_r|done|].
  eexists. split; [rewrite <-E1; apply surjective_pairing|]. split; [done| |by rewrite Hc', Hc, fmap_app].
  rewrite <-Hn. unfold uta_ring_insert. by rewrite andb_false_r, Hf.
Qed.

Lemma holds_length n r q : ring_holds n r q -> zlen q <= n - 1.
Proof.
  intros [Hw Hn Hc]. pose proof (length_contents _ Hw) as Hl. rewrite Hc, length_fmap in Hl. fold (zlen q) in Hl.
  pose proof (count_range _ Hw). lia.
Qed.

Lemma zlen_cons {A} (x : A) l : zlen (x :: l) = zlen l + 1.
Proof. unfold zlen. cbn [length]. lia. Qed.

(** ** The loop *)

(** A message has the transaction id, or another one. *)
Definition xact_is (e : list Z) (m : mbuf) : Prop := xact_bytes m (zlen e) = Ret e.
Definition xact_other (e : list Z) (m : mbuf) : Prop := exists x, xact_bytes m (zlen e) = Ret x /\ x <> e.

Lemma short_pop n rx m q s : rx_short n rx (m :: q) s -> s <= zlen q ->
  exists r', uta_ring_extract true (rx_mring (pop_barrier rx 0)) = (Some m, r') /\
    rx_short n (set_ring (pop_barrier rx 0) r') q s.
Proof.
  intros [Hr Hch Hc] Hs. rewrite zlen_cons in Hc. destruct (holds_take _ _ _ _ Hr) as (r' & E & Hr').
  destruct (pop_barrier_count rx Hch) as [P1 P2]; [lia|]. exists r'. split; [done|].
  split; [done|done|]. change (barrier0 (set_ring _ r')) with (barrier0 (pop_barrier rx 0)). lia.
Qed.

Lemma rcv_at_once rx m r' old ws : uta_ring_extract true (rx_mring (pop_barrier rx 0)) = (Some m, r') ->
  rmr_rcv_msg true (Some rx) old (MkWait 0 (pop_barrier rx 0) :: ws) =
  Some (Some (received m), Some (set_ring (pop_barrier rx 0) r'), ws).
Proof. intros E. unfold rmr_rcv_msg, rmr_mt_rcv. change (-1 =? 0) with false. cbn [sem_loop w_err]. change (0 =? EINTR) with false. cbn [w_err w_rx]. rewrite E. done. Qed.

Lemma specific_one n rx m q s e : rx_short n rx (m :: q) s -> s <= zlen q -> xact_is e m ->
  forall fuel old queued allow ws, queued < allow ->
  exists rx', specific_loop (S fuel) true rx old e queued allow (MkWait 0 (pop_barrier rx 0) :: ws) =
    Ret (Some (Some (received m), 0, rx')) /\ rx_short n rx' q s.
Proof.
  intros Hs Hl Hx fuel old queued allow ws Ha. destruct (short_pop _ _ _ _ _ Hs Hl) as (r' & E & Hs').
  eexists. split; [|exact Hs']. cbn [specific_loop]. rewrite (proj2 (Z.ltb_lt _ _) Ha), (rcv_at_once _ _ _ _ _ E).
  change (m_state (received m)) with RMR_OK. rewrite Z.eqb_refl.
  change (xact_bytes (received m) (zlen e)) with (xact_bytes m (zlen e)). rewrite Hx. cbn [mbind comp_bind].
  by rewrite bool_decide_true.
Qed.

Lemma specific_other n rx m q s e : rx_short n rx (m :: q) s -> s <= zlen q -> xact_other e m ->
  rx_short n (put_back (pop_barrier rx 0)) (q ++ [received m]) (s + 1) /\
  forall fuel old queued allow ws, queued < allow ->
  specific_loop (S fuel) true rx old e queued allow (MkWait 0 (pop_barrier rx 0) :: ws) =
  specific_loop fuel true (put_back (pop_barrier rx 0)) None e (queued + 1) allow ws.
Proof.
  intros Hs Hl (x & Hx & Hne). destruct (short_pop _ _ _ _ _ Hs Hl) as (r' & E & [Hr Hch Hc]).
  pose proof (holds_length _ _ _ (rs_ring _ _ _ _ Hs)) as Hlen. rewrite zlen_cons in Hlen.
  destruct (holds_put n r' q (received m) Hr) as (r2 & E2 & Hr2); [lia|].
  unfold put_back. rewrite E. cbv iota beta. split.
  - split; [by rewrite E2|done|]. rewrite zlen_app. change (zlen [received m]) with 1.
    change (barrier0 (set_ring ?x _)) with (barrier0 x) in *. lia.
  - intros fuel old queued allow ws Ha. cbn [specific_loop]. rewrite (proj2 (Z.ltb_lt _ _) Ha), (rcv_at_once _ _ _ _ _ E).
    change (m_state (received m)) with RMR_OK. rewrite Z.eqb_refl.
    change (xact_bytes (received m) (zlen e)) with (xact_bytes m (zlen e)). rewrite Hx. cbn [mbind comp_bind].
    rewrite bool_decide_false by done. change (rx_mring (set_ring ?x r')) with r'. rewrite E2. done.
Qed.

(** Rounds that put their message back. *)
Lemma specific_others n e pre : forall rx q s, Forall (xact_other e) pre -> rx_short n rx (pre ++ q) s -> s <= zlen q ->
  exists rx', rx_short n rx' (q ++ map received pre) (s + zlen pre) /\
    (forall k, waits_at_once (length pre + k) rx = waits_at_once (length pre) rx ++ waits_at_once k rx') /\
    forall fuel old queued allow ws, queued + zlen pre <= allow ->
    exists old', specific_loop (length pre + fuel) true rx old e queued allow (waits_at_once (length pre) rx ++ ws) =
    specific_loop fuel true rx' old' e (queued + zlen pre) allow ws.
Proof.
  induction pre as [|m pre IH]; intros rx q s Hp Hs Hl.
  - exists rx. change (zlen []) with 0. rewrite Z.add_0_r, app_nil_r. split_and!; [done|done|].
    intros. eexists. by rewrite Z.add_0_r.
  - apply Forall_cons in Hp as [Hm Hp]. destruct (specific_other n rx m (pre ++ q) s e) as [Hs' Hstep]; [done| |done|].
    { rewrite zlen_app. unfold zlen in *. lia. }
    rewrite <-app_assoc in Hs'. destruct (IH _ (q ++ [received m]) (s + 1) Hp Hs') as (rx' & Hs2 & Hw & Hrun).
    { rewrite zlen_app. change (zlen [received m]) with 1. lia. }
    exists rx'. rewrite zlen_cons. split_and!.
    + replace (s + (zlen pre + 1)) with (s + 1 + zlen pre) by lia. by rewrite <-app_assoc in Hs2.
    + intros k. cbn [length Nat.add waits_at_once app]. by rewrite Hw.
    + intros fuel old queued allow ws Ha. cbn [length Nat.add waits_at_once app]. rewrite Hstep by (unfold zlen in *; lia).
      destruct (Hrun fuel None (queued + 1) allow ws) as (old' & ->); [lia|]. exists old'. f_equal. lia.
Qed.

Lemma length_waits k : forall rx, length (waits_at_once k rx) = k.
Proof. induction k as [|k IH]; intros rx; cbn; [done|]. by rewrite IH. Qed.

(** ** What the application sees *)

(** The bytes of the id that are compared. *)
Definition wanted (expect : list Z) : list Z := take (Z.to_nat RMR_MAX_XID) expect.

Lemma specific_unfold rx old expect allow ws : expect <> [] ->
  rmr_rcv_specific true (Some rx) old (Some expect) allow ws =
  x ← specific_loop (S (length ws)) true rx old (wanted expect) 0 allow ws;
  Ret (match x with Some (m, e, rx) => Some (m, e, Some rx) | None => None end).
Proof. by destruct expect. Qed.

(** C32.  rmr_rcv_specific, on a queue in which messages with other
    transaction ids come before one with the given id (at most allow2queue, and each
    wait succeeds), returns that message, and the others are at the end of the queue
    in the order of their arrival; when allow2queue messages have other ids it gives
    up with nil and ETIMEDOUT and the rest of the queue comes first.  In both
    cases every message that is not returned stays in the queue, and as many
    as were put back are not counted by the semaphore. *)
Theorem specific_receive_spec n rx old pre rest expect allow :
  rx_inv n rx (pre ++ rest) -> expect <> [] -> Forall (xact_other (wanted expect)) pre ->
  zlen pre <= allow ->
  (forall m post, rest = m :: post -> xact_is (wanted expect) m -> zlen pre < allow ->
     exists rx', rmr_rcv_specific true (Some rx) old (Some expect) allow (waits_at_once (S (length pre)) rx) =
       Ret (Some (Some (received m), 0, Some rx')) /\ rx_short n rx' (post ++ map received pre) (zlen pre)) /\
  (zlen pre = allow ->
     exists rx', rmr_rcv_specific true (Some rx) old (Some expect) allow (waits_at_once (length pre) rx) =
       Ret (Some (None, ETIMEDOUT, Some rx')) /\ rx_short n rx' (rest ++ map received pre) (zlen pre)).
Proof.
  intros I He Hp Hk.
  destruct (specific_others n _ pre rx rest 0 Hp (rx_inv_short _ _ _ I)) as (rx1 & Hs & Hw & Hrun); [apply Nat2Z.is_nonneg|].
  split.
  - intros m post -> Hm Ha. replace (S (length pre)) with (length pre + 1)%nat by lia. rewrite Hw. cbn [waits_at_once].
    rewrite specific_unfold, length_app, length_waits by done.
    replace (S (length pre + _)) with (length pre + 2)%nat by (cbn; lia).
    destruct (Hrun 2%nat old 0 allow [MkWait 0 (pop_barrier rx1 0)]) as (old' & ->); [lia|].
    destruct (specific_one n rx1 m (post ++ map received pre) (0 + zlen pre) (wanted expect) Hs) with (fuel := 1%nat) (old := old')
      (queued := 0 + zlen pre) (allow := allow) (ws := @nil wait_res) as (rx' & E & Hs'); [|exact Hm|lia|].
    { rewrite zlen_app. unfold zlen. rewrite length_map. lia. }
    exists rx'. split; [|by replace (zlen pre) with (0 + zlen pre) by lia].
    rewrite E. done.
  - intros <-. exists rx1. split; [|by replace (zlen pre) with (0 + zlen pre) by lia].
    rewrite specific_unfold, length_waits by done.
    replace (S (length pre)) with (length pre + 1)%nat by lia. rewrite <-(app_nil_r (waits_at_once _ _)).
    destruct (Hrun 1%nat old 0 (zlen pre) []) as (old' & E); [lia|]. rewrite E.
    cbn [specific_loop]. by rewrite Z.add_0_l, Z.ltb_irrefl.
Qed.

(** Messages that the semaphore does not count are not given to a blocking or timed
    receive: with only such messages in the ring it waits; a poll gives the
    first of them. *)
Theorem put_back_messages_are_stranded n rx q old mw k :
  rx_short n rx q (zlen q) -> mw <> 0 ->
  rcv_exec rx (OWait old mw k) = (None, rx) /\
  forall m q', q = m :: q' -> exists rx', rcv_exec rx (OPoll old) = (Some (Some (add_src m)), rx').
Proof.
  intros [Hr Hch Hc] Hmw. split.
  - cbn [rcv_exec]. unfold waits_of, rmr_mt_rcv. rewrite Hc, Z.sub_diag, (proj2 (Z.eqb_neq _ _) Hmw).
    change (0 <? 0) with false. cbv iota. by destruct (sem_loop_waits rx k (MkWait 0 rx) ltac:(done)) as [_ ->].
  - intros m q' ->. destruct (holds_take _ _ _ _ Hr) as (r' & E & _). eexists. cbn [rcv_exec rmr_mt_rcv].
    change (0 =? 0) with true. cbv iota. by rewrite E.
Qed.

Definition ex_queue : rx_ctx := queue_normal 0 (queue_normal 0 rx0 ex_msg) ex_late.

Lemma ex_queue_inv : rx_inv 16 ex_queue [ex_msg; ex_late].
Proof.
  destruct (rcv_simulation 16 rx0 [] (OArrive 0 ex_msg) rx0_inv I) as [_ I1].
  exact (proj2 (rcv_simulation 16 _ _ (OArrive 0 ex_late) I1 I)).
Qed.

(** The second of two messages is asked for: the first goes to the end, where a
    blocking receive does not find it. *)
Lemma specific_receive_spec_witness :
  exists rx', rmr_rcv_specific true (Some ex_queue) None (Some [1]) 5 (waits_at_once 2 ex_queue) =
    Ret (Some (Some (received ex_late), 0, Some rx')) /\ rx_short 16 rx' [received ex_msg] 1.
Proof.
  destruct (specific_receive_spec 16 ex_queue None [ex_msg] [ex_late] [1] 5 ex_queue_inv) as [H _]; [done| |by vm_compute|].
  - repeat constructor. exists [0]. split; [vm_compute; reflexivity|done].
  - apply (H ex_late [] eq_refl); vm_compute; reflexivity.
Defined.

Lemma put_back_messages_are_stranded_witness :
  exists rx, rx_short 16 rx [received ex_msg] 1 /\ rcv_exec rx (OWait None (-1) 0) = (None, rx).
Proof.
  destruct (specific_receive_spec 16 ex_queue None [ex_msg] [ex_late] [1] 5 ex_queue_inv) as [H _]; [done| |by vm_compute|].
  - repeat constructor. exists [0]. split; [vm_compute; reflexivity|done].
  - destruct (H ex_late [] eq_refl) as (rx' & _ & Hs); [vm_compute; reflexivity..|].
    exists rx'. split; [exact Hs|]. by apply (put_back_messages_are_stranded 16 rx' [received ex_msg] None (-1) 0).
Defined.

(** ** Two writers *)

(** The application puts a message back while the receive thread inserts one:
    its own place in uta_ring_insert is the second component (the steps are those of
    RingConc.v); it does not get to the post. *)
Definition app_step {P} (n : Z) (s : cstate P * @ppc P) : option (cstate P * @ppc P) :=
  match s.2 with
  | PIdle | PPost => None
  | p => s' ← pstep n (set_p s.1 p); Some (set_p s' (c_p s.1), c_p s')
  end.

Fixpoint two_writers {P} (n : Z) (sched : list bool) (s : cstate P * @ppc P) : option (cstate P * @ppc P) :=
  match sched with
  | [] => Some s
  | b :: sched => (if b : bool then s' ← pstep n s.1; Some (s', s.2) else app_step n s) ≫= two_writers n sched
  end.

(** When the message put back is stored between the store and the increment of
    the receive thread, that thread's message is gone, although neither insert
    fails, and the slot after it, which holds nothing, is in the queue (4096 is the size of the ring). *)
Theorem two_writers_lose_message {P} (a b : P) :
  exists s, two_writers 4096 [true; true; true; false; false; false; true; true; false; false; true]
      (set_p (init 4096) (PTest1 a), PTest1 b) = Some (s, PPost) /\
    c_p s = PIdle /\ c_ins s = [a; b] /\ c_drops s = 0 /\ c_tail s = 0 /\ c_head s = 2 /\
    take 2 (c_data s) = [Some b; None].
Proof. eexists. split; [vm_compute; reflexivity|]. split_and!; reflexivity. Qed.
