(* ===== verification/Owners.v ===== *)
(** Who owns a message: the functions of src/src/rmr/si/src/sr_si_static.c and
    src/src/rmr/si/src/rmr_si.c that allocate and free messages, on a heap.

    In Mbuf.v and Send.v a message is a value.  Here the messages are structs on
    a heap that own their transport buffers, and the functions do what the code
    does with the pointers: allocate, overwrite, free.  To free what is not
    allocated, or to use a struct that was freed, is undefined ([UB]).  The
    contents are those of Mbuf.v and Send.v; the theorems show that the pointers
    behave like the values: each function consumes the message that it is given and hands over the
    one it returns, no other message changes, and every buffer has one owner. *)

From S2P Require Import Prelude Bytes Symtab SymIface Tools Ring Mbuf Endpoint River RouteTable Send SendSpec Fanout MtCall MtSpec.

(** ** The heap *)

(** A struct is its contents and the id of its transport buffer; ids are not used again. *)
Record heap := MkHeap {
  hp_msgs : gmap nat (mbuf * option nat);
  hp_bufs : gset nat;
  hp_next : nat
}.

Definition set_msgs (h : heap) ms : heap := MkHeap ms (hp_bufs h) (hp_next h).
Definition put_msg (h : heap) (p : nat) (m : mbuf) (b : option nat) : heap := set_msgs h (<[p := (m, b)]> (hp_msgs h)).

(** Store through a pointer to a struct; the buffer pointer stays. *)
Definition upd_msg (h : heap) (p : nat) (f : mbuf -> mbuf) : comp heap :=
  '(m, b) ← deref (hp_msgs h !! p); Ret (put_msg h p (f m) b).

Definition malloc_buf (h : heap) : nat * heap :=
  (hp_next h, MkHeap (hp_msgs h) ({[hp_next h]} ∪ hp_bufs h) (S (hp_next h))).
Definition malloc_msg (h : heap) : nat * heap := (hp_next h, MkHeap (hp_msgs h) (hp_bufs h) (S (hp_next h))).

Definition free_buf (h : heap) (b : option nat) : comp heap :=
  match b with
  | None => Ret h
  | Some b => if decide (b ∈ hp_bufs h) then Ret (MkHeap (hp_msgs h) (hp_bufs h ∖ {[b]}) (hp_next h)) else UB
  end.
Definition free_struct (h : heap) (p : nat) : comp heap :=
  _ ← deref (hp_msgs h !! p); Ret (set_msgs h (delete p (hp_msgs h))).

(** ** Messages *)

(** Messages are always freed, there is no pool. *)
Definition rmr_free_msg (h : heap) (p : option nat) : comp heap :=
  match p with
  | None => Ret h
  | Some p => '(m, b) ← deref (hp_msgs h !! p); h ← free_buf h b; free_struct h p
  end.

Section messages.
Variable malloc_bytes : Z -> list Z.

(** The size of the transport buffer. *)
Definition zc_len (ctx : msg_ctx) (size trlo : Z) : Z :=
  let tr_len := if 0 <? trlo then trlo else x_trace_data_len ctx in
  let mlen := u64 (sizeof_mhdr + tr_len + x_d1_len ctx + x_d2_len ctx) in
  let mlen := u64 (mlen + (if 0 <? size then size else x_max_plen ctx)) in
  u64 (mlen + TP_HDR_LEN).

Definition alloc_zcmsg_h (ctx : msg_ctx) (h : heap) (p : option nat) (size state trlo : Z) : comp (nat * heap) :=
  match p with
  | None =>
      m ← alloc_zcmsg malloc_bytes ctx None None size state trlo;
      let '(p, h) := malloc_msg h in
      let '(b, h) := malloc_buf h in
      Ret (p, put_msg h p m (Some b))
  | Some p =>
      '(m, b) ← deref (hp_msgs h !! p);
      nm ← alloc_zcmsg malloc_bytes ctx None (Some m) size state trlo;
      if u64 (m_alloc_len m) <? zc_len ctx size trlo then
        h ← free_buf h b;
        let '(b, h) := malloc_buf h in
        Ret (p, put_msg h p nm (Some b))
      else if m_alloc_len m =? 0 then let '(b, h) := malloc_buf h in Ret (p, put_msg h p nm (Some b))
      else Ret (p, put_msg h p nm b)
  end.

Definition clone_msg_h (h : heap) (p : nat) : comp (nat * heap) :=
  '(m, _) ← deref (hp_msgs h !! p);
  nm ← clone_msg malloc_bytes m;
  let '(c, h) := malloc_msg h in
  let '(b, h) := malloc_buf h in
  Ret (c, put_msg h c nm (Some b)).

Definition realloc_msg_h (h : heap) (p : nat) (tr_len : Z) : comp (nat * heap) :=
  '(m, _) ← deref (hp_msgs h !! p);
  nm ← realloc_msg malloc_bytes m tr_len;
  let '(c, h) := malloc_msg h in
  let '(b, h) := malloc_buf h in
  Ret (c, put_msg h c nm (Some b)).

(** [mem_msg], [mem_buf]: malloc has memory for the struct, the buffer. *)
Definition realloc_payload_h (mem_msg mem_buf : bool) (h : heap) (p : option nat) (payload_len : Z) (copy clone : bool) :
    comp (option nat * heap) :=
  match p with
  | None => Ret (None, h)
  | Some p =>
      if payload_len <=? 0 then Ret (None, h) else
      '(m, b) ← deref (hp_msgs h !! p);
      obuf ← deref (m_tp_buf m);
      oh ← deref (m_header m);
      hl ← RMR_HDR_LEN obuf oh;
      let old_psize := i32 (m_alloc_len m - (hl + TP_HDR_LEN)) in
      if negb clone && (payload_len <=? old_psize) then Ret (Some p, h) else
      if clone && negb mem_msg then Ret (None, h) else
      let '(q, h) := if clone then malloc_msg h else (p, h) in
      let h := if clone then put_msg h q (set_rts_fd (m_rts_fd m) mbuf0) None else h in
      if negb mem_buf then h ← free_struct h q; Ret (None, h) else
      r ← realloc_payload malloc_bytes (Some m) payload_len copy clone;
      nm ← deref r;
      let '(nb, h) := malloc_buf h in
      let h := put_msg h q nm (Some nb) in
      if clone then Ret (Some q, h) else h ← free_buf h b; Ret (Some q, h)
  end.

(** The buffers are swapped, and the reallocated struct is freed with the old one. *)
Definition rmr_set_trace_h (h : heap) (p : option nat) (data : list Z) (size : Z) : comp (Z * heap) :=
  match p with
  | None => Ret (0, h)
  | Some p =>
      '(m, b) ← deref (hp_msgs h !! p);
      if size <=? 0 then Ret (0, h) else
      match m_header m with
      | None => Ret (0, h)
      | Some hdr =>
          buf ← deref (m_tp_buf m);
          trl ← RMR_TR_LEN buf hdr;
          h ← (if negb (i32 trl =? size) then
                 '(q, h) ← realloc_msg_h h p size;
                 '(nm, nb) ← deref (hp_msgs h !! q);
                 let h := put_msg h p (MkMbuf (m_state m) (m_mtype m) (m_len m) (m_payload nm) (m_xaction nm)
                            (m_sub_id m) (m_tp_state m) (m_tp_buf nm) (m_header nm) (m_flags m)
                            (m_alloc_len m) (m_rts_fd m) (m_cookie m)) nb in
                 let h := put_msg h q (set_tp_buf (m_tp_buf m) nm) b in
                 rmr_free_msg h (Some q)
               else Ret h);
          '(m, b) ← deref (hp_msgs h !! p);
          buf ← deref (m_tp_buf m);
          hdr ← deref (m_header m);
          dst ← TRACE_ADDR buf hdr;
          buf ← memcpy buf dst data 0 size;
          Ret (size, put_msg h p (set_tp_buf (Some buf) m) b)
      end
  end.
End messages.

(** ** Every buffer has one owner *)

Record heap_wf (h : heap) : Prop := {
  hw_msgs : forall p x, hp_msgs h !! p = Some x -> (p < hp_next h)%nat;
  hw_bufs : forall b, b ∈ hp_bufs h -> (b < hp_next h)%nat;
  hw_own : forall b, b ∈ hp_bufs h <-> exists p m, hp_msgs h !! p = Some (m, Some b);
  hw_one : forall b p q m n, hp_msgs h !! p = Some (m, Some b) -> hp_msgs h !! q = Some (n, Some b) -> p = q;
  hw_nil : forall p m b, hp_msgs h !! p = Some (m, b) -> b = None <-> m_tp_buf m = None
}.

(** The message [p] of [h] is consumed and [q] with the contents [r] handed over:
    no other message of [h] is changed, freed or lost. *)
Definition handed (h : heap) (p : nat) (h' : heap) (q : option nat) (r : option mbuf) : Prop :=
  heap_wf h' /\
  match q, r with
  | Some q, Some m => delete p (hp_msgs h) !! q = None /\ exists b, hp_msgs h' = <[q := (m, b)]> (delete p (hp_msgs h))
  | None, None => hp_msgs h' = delete p (hp_msgs h)
  | _, _ => False
  end.

(** [q] is new next to what was there. *)
Definition added (h h' : heap) (q : nat) (m : mbuf) : Prop :=
  heap_wf h' /\ hp_msgs h !! q = None /\ exists b, hp_msgs h' = <[q := (m, b)]> (hp_msgs h).

Section heap_lemmas.
Implicit Types (h : heap) (m : mbuf).

(** Decides the lookups of a goal about an updated heap. *)
Ltac look := repeat match goal with
  | H : <[_ := _]> _ !! _ = Some _ |- _ => apply lookup_insert_Some in H as [[? ?]|[? ?]]; simplify_eq
  | H : delete _ _ !! _ = Some _ |- _ => apply lookup_delete_Some in H as [? ?]
  end.

Lemma handed_same h p m b : heap_wf h -> hp_msgs h !! p = Some (m, b) -> handed h p h (Some p) (Some m).
Proof.
  intros W E. split; [done|]. split; [apply lookup_delete_eq|]. exists b.
  by rewrite insert_delete_eq, insert_id.
Qed.

Lemma handed_trans h p h1 q r h2 q2 r2 : handed h p h1 (Some q) (Some r) -> handed h1 q h2 q2 r2 -> handed h p h2 q2 r2.
Proof.
  intros (_ & Hq & b & E1) [W2 H2]. split; [done|].
  assert (delete q (hp_msgs h1) = delete p (hp_msgs h)) as <-; [|done].
  by rewrite E1, delete_insert_eq, delete_id.
Qed.

Lemma handed_get h p h1 q r : handed h p h1 (Some q) (Some r) -> exists b, hp_msgs h1 !! q = Some (r, b).
Proof. intros (_ & _ & b & E). exists b. by rewrite E, lookup_insert_eq. Qed.

(** Stores through the pointer keep the owners. *)
Lemma put_handed h p m b m' : heap_wf h -> hp_msgs h !! p = Some (m, b) ->
  (m_tp_buf m' = None <-> m_tp_buf m = None) -> handed h p (put_msg h p m' b) (Some p) (Some m').
Proof.
  intros [W1 W2 W3 W4 W5] E Hb. split.
  - unfold put_msg, set_msgs. split; cbn.
    + intros q x Hq. look; [|by eapply W1]. by eapply W1.
    + done.
    + intros c. rewrite W3. split; intros (q & n & Hq).
      * destruct (decide (q = p)) as [->|]; [|exists q, n; by rewrite lookup_insert_ne].
        simplify_eq. exists p, m'. by rewrite lookup_insert_eq.
      * look; [|by exists q, n]. by exists q, m.
    + intros c q1 q2 n1 n2 H1 H2. look; [done| | |]; eapply W4; done.
    + intros q n c Hq. look; [|by eapply W5]. rewrite Hb. by eapply W5.
  - split; [apply lookup_delete_eq|]. exists b. cbn. by rewrite insert_delete_eq.
Qed.

Lemma free_buf_wf h p m b : heap_wf h -> hp_msgs h !! p = Some (m, b) ->
  exists h1, free_buf h b = Ret h1 /\ hp_msgs h1 = hp_msgs h /\ hp_next h1 = hp_next h /\
    heap_wf (set_msgs h1 (delete p (hp_msgs h))).
Proof.
  intros [W1 W2 W3 W4 W5] E.
  assert (exists h1, free_buf h b = Ret h1 /\ hp_msgs h1 = hp_msgs h /\ hp_next h1 = hp_next h /\
    forall c, c ∈ hp_bufs h1 <-> c ∈ hp_bufs h /\ Some c <> b) as (h1 & -> & Em & En & Hc).
  { unfold free_buf. destruct b as [b|].
    - rewrite decide_True by (apply W3; eauto). eexists. split_and!; [done..|]. cbn. intros c. rewrite elem_of_difference, elem_of_singleton.
      split; intros [? ?]; split; congruence.
    - exists h. split_and!; [done..|]. intros c. split; [by intros|tauto]. }
  exists h1. split_and!; [done..|]. unfold set_msgs. split; cbn.
  - intros q x Hq. look. rewrite En. by eapply W1.
  - intros c [Hb _]%Hc. rewrite En. by apply W2.
  - intros c. rewrite Hc, W3. split.
    + intros [(q & n & Hq) Hb]. exists q, n. rewrite lookup_delete_ne; [done|]. intros ->. by simplify_eq.
    + intros (q & n & Hq). look. split; [by exists q, n|]. intros <-.
      match goal with H : p <> q |- _ => apply H; by eapply W4 end.
  - intros c q1 q2 n1 n2 H1 H2. look. by eapply W4.
  - intros q n c Hq. look. by eapply W5.
Qed.

Lemma free_handed h p m b : heap_wf h -> hp_msgs h !! p = Some (m, b) ->
  exists h', rmr_free_msg h (Some p) = Ret h' /\ handed h p h' None None.
Proof.
  intros W E. destruct (free_buf_wf h p m b W E) as (h1 & E1 & Em & En & W1). unfold rmr_free_msg, free_struct.
  rewrite E. cbn [deref mbind comp_bind]. rewrite E1. cbn [mbind comp_bind]. rewrite Em, E.
  eexists. split; [done|]. by split.
Qed.

Lemma put_new_wf h p m b n : heap_wf h -> hp_msgs h !! p = None -> is_Some (m_tp_buf m) ->
  (hp_next h <= b < n)%nat -> (p < n)%nat ->
  heap_wf (MkHeap (<[p := (m, Some b)]> (hp_msgs h)) ({[b]} ∪ hp_bufs h) n).
Proof.
  intros [W1 W2 W3 W4 W5] Ep [buf Hb] Hn Hp.
  assert (forall q k, hp_msgs h !! q = Some (k, Some b) -> False) as Hnew.
  { intros q k Hq. assert (b ∈ hp_bufs h) as ?%W2 by (apply W3; eauto). lia. }
  split; cbn.
  - intros q x Hq. look; [done|]. assert (q < hp_next h)%nat by by eapply W1. lia.
  - intros c. rewrite elem_of_union, elem_of_singleton. intros [->|Hc]; [lia|]. apply W2 in Hc. lia.
  - intros c. rewrite elem_of_union, elem_of_singleton, W3. split.
    + intros [->|(q & k & Hq)]; [exists p, m; by rewrite lookup_insert_eq|]. exists q, k.
      rewrite lookup_insert_ne; [done|]. intros ->. congruence.
    + intros (q & k & Hq). look; [by left|]. right. eauto.
  - intros c q1 q2 n1 n2 H1 H2. look; try done; try (exfalso; by eapply Hnew). by eapply W4.
  - intros q k c Hq. look; [by rewrite Hb|by eapply W5].
Qed.

(** A new buffer for a message whose buffer was freed. *)
Lemma swap_handed h p m b m' : heap_wf h -> hp_msgs h !! p = Some (m, b) -> is_Some (m_tp_buf m') ->
  exists h1, free_buf h b = Ret h1 /\
    handed h p (let '(b, h) := malloc_buf h1 in put_msg h p m' (Some b)) (Some p) (Some m').
Proof.
  intros W E Hb. destruct (free_buf_wf h p m b W E) as (h1 & -> & Em & En & W1). exists h1. split; [done|].
  assert (p < hp_next h)%nat as Hp by (by eapply hw_msgs). split.
  - pose proof (put_new_wf _ p m' (hp_next h1) (S (hp_next h1)) W1 (lookup_delete_eq _ _) Hb) as W2.
    cbn in W2. rewrite insert_delete_eq, <-Em in W2. apply W2; lia.
  - split; [apply lookup_delete_eq|]. eexists. cbn. by rewrite insert_delete_eq, Em.
Qed.

(** The same when the old buffer is freed last. *)
Lemma swap_late_handed h p m b m' : heap_wf h -> hp_msgs h !! p = Some (m, b) -> is_Some (m_tp_buf m') ->
  exists h1, free_buf (let '(nb, h1) := malloc_buf h in put_msg h1 p m' (Some nb)) b = Ret h1 /\
    handed h p h1 (Some p) (Some m').
Proof.
  intros W E Hb. destruct (swap_handed h p m b m' W E Hb) as (h1 & E1 & H1). eexists. split; [|exact H1].
  destruct b as [b|]; cbn in *; [|by injection E1 as <-].
  assert (b ∈ hp_bufs h) as Hin by (apply (hw_own h W); eauto). pose proof (hw_bufs h W b Hin).
  rewrite decide_True in E1 by done. injection E1 as <-. rewrite decide_True by (apply elem_of_union; by right).
  unfold put_msg, set_msgs. cbn. do 2 f_equal. rewrite difference_union_distr_l_L, (difference_disjoint_L {[hp_next h]}); [done|].
  apply disjoint_singleton_l. rewrite elem_of_singleton. lia.
Qed.

Lemma new_added h m : heap_wf h -> is_Some (m_tp_buf m) ->
  let '(p, h1) := malloc_msg h in
  let '(b, h2) := malloc_buf h1 in
  added h (put_msg h2 p m (Some b)) p m.
Proof.
  intros W Hb. assert (hp_msgs h !! hp_next h = None) as Hn.
  { destruct (hp_msgs h !! hp_next h) as [x|] eqn:E; [|done]. apply (hw_msgs h W) in E. lia. }
  split; [|split; [done|by eexists]].
  apply (put_new_wf h (hp_next h) m (S (hp_next h)) (S (S (hp_next h)))); [done..|lia|lia].
Qed.
End heap_lemmas.

(** ** The operations on one message *)

(** Takes the computations of a result apart. *)
Ltac unbind H := repeat first
  [ apply comp_bind_ret in H as (? & ? & H)
  | match type of H with (let '(_, _) := ?x in _) = _ => destruct x eqn:? end ].

Section message_lemmas.
Variable malloc_bytes : Z -> list Z.
Implicit Types (h : heap) (m : mbuf).

Lemma alloc_zcmsg_buf ctx (msg : option mbuf) size st trlo m' : alloc_zcmsg malloc_bytes ctx None msg size st trlo = Ret m' ->
  is_Some (m_tp_buf m') /\
  forall m0, msg = Some m0 -> (u64 (m_alloc_len m0) <? zc_len ctx size trlo) = false -> m_alloc_len m0 <> 0 ->
    is_Some (m_tp_buf m0).
Proof.
  unfold alloc_zcmsg. intros E. split.
  - destruct (match (match msg with Some m => Some m | None => None end) with Some _ => _ | None => _ end) as [m1 mlen].
    unbind E. injection E as <-. by eexists.
  - intros m0 -> Hl Ha. fold (zc_len ctx size trlo) in E. rewrite Hl in E.
    rewrite (proj2 (Z.eqb_neq _ _) Ha) in E. unbind E. by destruct (m_tp_buf m0).
Qed.

Lemma alloc_zcmsg_handed ctx h p m b size st trlo m' : heap_wf h -> hp_msgs h !! p = Some (m, b) ->
  0 < zc_len ctx size trlo -> alloc_zcmsg malloc_bytes ctx None (Some m) size st trlo = Ret m' ->
  exists h', alloc_zcmsg_h malloc_bytes ctx h (Some p) size st trlo = Ret (p, h') /\ handed h p h' (Some p) (Some m').
Proof.
  intros W E Hz Em. destruct (alloc_zcmsg_buf _ _ _ _ _ _ Em) as [Hb' Hb].
  unfold alloc_zcmsg_h. rewrite E. cbn [deref mbind comp_bind]. rewrite Em. cbn [mbind comp_bind].
  destruct (u64 (m_alloc_len m) <? zc_len ctx size trlo) eqn:El.
  - destruct (swap_handed h p m b m' W E Hb') as (h1 & -> & H1). cbn. eexists. split; [done|exact H1].
  - destruct (Z.eqb_spec (m_alloc_len m) 0) as [Ha|Ha]; [rewrite Ha in El; change (u64 0) with 0 in El; apply Z.ltb_ge in El; lia|].
    eexists. split; [done|]. apply (put_handed h p m); [done..|].
    destruct (Hb m) as [? ->]; [done..|]. destruct Hb' as [? ->]. done.
Qed.

Lemma alloc_zcmsg_added ctx h size st trlo m : heap_wf h ->
  alloc_zcmsg malloc_bytes ctx None None size st trlo = Ret m ->
  exists p h', alloc_zcmsg_h malloc_bytes ctx h None size st trlo = Ret (p, h') /\ added h h' p m.
Proof.
  intros W Em. destruct (alloc_zcmsg_buf _ _ _ _ _ _ Em) as [Hb _]. unfold alloc_zcmsg_h. rewrite Em.
  eexists _, _. split; [reflexivity|]. exact (new_added h m W Hb).
Qed.

Lemma clone_msg_added h p m b c : heap_wf h -> hp_msgs h !! p = Some (m, b) -> clone_msg malloc_bytes m = Ret c ->
  exists q h', clone_msg_h malloc_bytes h p = Ret (q, h') /\ added h h' q c.
Proof.
  intros W E Ec. assert (is_Some (m_tp_buf c)) as Hb.
  { unfold clone_msg in Ec. unbind Ec. injection Ec as <-. by eexists. }
  unfold clone_msg_h. rewrite E. cbn [deref mbind comp_bind]. rewrite Ec.
  eexists _, _. split; [reflexivity|]. exact (new_added h c W Hb).
Qed.

Lemma realloc_msg_added h p m b tr c : heap_wf h -> hp_msgs h !! p = Some (m, b) -> realloc_msg malloc_bytes m tr = Ret c ->
  exists q h', realloc_msg_h malloc_bytes h p tr = Ret (q, h') /\ added h h' q c.
Proof.
  intros W E Ec. assert (is_Some (m_tp_buf c)) as Hb.
  { unfold realloc_msg in Ec. unbind Ec. injection Ec as <-. by eexists. }
  unfold realloc_msg_h. rewrite E. cbn [deref mbind comp_bind]. rewrite Ec.
  eexists _, _. split; [reflexivity|]. exact (new_added h c W Hb).
Qed.
End message_lemmas.

Section message_theorems.
Variable malloc_bytes : Z -> list Z.
Implicit Types (h : heap) (m : mbuf).

Lemma ref_tpbuf_buf m alen m' : ref_tpbuf m alen = Ret m' -> is_Some (m_tp_buf m').
Proof. unfold ref_tpbuf. intros E. unbind E. injection E as <-. by eexists. Qed.

(** rmr_realloc_payload owns what it should: a clone is a new message next
    to the old one, which is as it was; else the message keeps its struct, and its old
    buffer is freed when the payload moves. *)
Theorem realloc_payload_ownership h p m b len copy clone m' :
  heap_wf h -> hp_msgs h !! p = Some (m, b) -> 0 < len ->
  realloc_payload malloc_bytes (Some m) len copy clone = Ret (Some m') ->
  exists q h', realloc_payload_h malloc_bytes true true h (Some p) len copy clone = Ret (Some q, h') /\
    if clone then added h h' q m' else q = p /\ handed h p h' (Some p) (Some m').
Proof.
  intros W E Hl Er. pose proof Er as Er'. unfold realloc_payload in Er'. unfold realloc_payload_h.
  destruct (Z.leb_spec len 0) as [?|_]; [lia|]. rewrite E. cbn [deref mbind comp_bind].
  destruct (m_tp_buf m) as [obuf|] eqn:Eb; [|done]. destruct (m_header m) as [oh|] eqn:Eh; [|done].
  cbn [deref mbind comp_bind] in *. destruct (RMR_HDR_LEN obuf oh) as [hl|]; [|done]. cbn [mbind comp_bind] in *.
  destruct clone; cbn [negb andb] in *.
  - unbind Er'. pose proof (ref_tpbuf_buf _ _ _ H1) as Hb.
    assert (is_Some (m_tp_buf m')) as Hb' by (injection Er' as <-; by destruct copy).
    cbn [malloc_msg]. rewrite Er. cbn [mbind comp_bind deref]. eexists _, _. split; [reflexivity|].
    pose proof (new_added h m' W Hb') as A. unfold put_msg, set_msgs in *. cbn in *. by rewrite insert_insert_eq.
  - destruct (len <=? _).
    { injection Er' as <-. eexists _, _. split; [done|]. split; [done|]. by eapply handed_same. }
    unbind Er'. pose proof (ref_tpbuf_buf _ _ _ H1) as Hb.
    assert (is_Some (m_tp_buf m')) as Hb' by (injection Er' as <-; by destruct copy).
    rewrite Er. cbn [mbind comp_bind deref]. destruct (swap_late_handed h p m b m' W E Hb') as (h1 & E1 & H2).
    cbn in *. rewrite E1. by eexists _, _.
Qed.

(** When there is no memory for the buffer, a clone fails and leaves all as it was;
    but without the clone flag the caller's message is freed without its buffer: the
    buffer has no owner any more, and the pointer that the caller still holds is
    not to be used or freed. *)
Theorem realloc_payload_no_memory h p m b buf hdr hl len copy :
  heap_wf h -> hp_msgs h !! p = Some (m, Some b) -> m_tp_buf m = Some buf -> m_header m = Some hdr ->
  RMR_HDR_LEN buf hdr = Ret hl -> 0 < len -> i32 (m_alloc_len m - (hl + TP_HDR_LEN)) < len ->
  (forall mem, exists h', realloc_payload_h malloc_bytes mem false h (Some p) len copy true = Ret (None, h') /\
     heap_wf h' /\ hp_msgs h' = hp_msgs h) /\
  (forall mem, exists h', realloc_payload_h malloc_bytes mem false h (Some p) len copy false = Ret (None, h') /\
     hp_msgs h' = delete p (hp_msgs h) /\ b ∈ hp_bufs h' /\ ~ heap_wf h' /\ rmr_free_msg h' (Some p) = UB).
Proof.
  intros W E Eb Eh El Hl Hs. unfold realloc_payload_h. rewrite E. cbn [deref mbind comp_bind]. rewrite Eb, Eh.
  cbn [deref mbind comp_bind]. rewrite El. cbn [mbind comp_bind].
  rewrite (proj2 (Z.leb_gt len 0) Hl), (proj2 (Z.leb_gt len _) Hs). split; intros mem; cbn [negb andb].
  - destruct mem; cbn [negb]; [|by exists h]. cbn [malloc_msg]. unfold free_struct. cbn. rewrite lookup_insert_eq. cbn.
    eexists. split; [done|]. assert (hp_msgs h !! hp_next h = None) as Hn.
    { destruct (hp_msgs h !! hp_next h) as [x|] eqn:Ex; [|done]. apply (hw_msgs h W) in Ex. lia. }
    unfold set_msgs. cbn. rewrite delete_insert_id by done. split; [|done].
    destruct W as [W1 W2 W3 W4 W5]. split; cbn; try done; intros; [by apply W1 in H; lia|by apply W2 in H; lia].
  - unfold free_struct. rewrite E. cbn. eexists. split; [done|].
    assert (b ∈ hp_bufs h) as Hb by (apply (hw_own h W); eauto).
    split_and!; [done|done| |by cbn; rewrite lookup_delete_eq].
    intros W'. apply (hw_own _ W') in Hb as (q & k & Hq). cbn in Hq. apply lookup_delete_Some in Hq as [Hne Hq].
    apply Hne. by eapply (hw_one h W).
Qed.

(** Two messages swap their buffers. *)
Lemma swap_bufs_wf h p q m n m' n' b c : heap_wf h -> p <> q ->
  hp_msgs h !! p = Some (m, b) -> hp_msgs h !! q = Some (n, c) ->
  (m_tp_buf m' = None <-> m_tp_buf n = None) -> (m_tp_buf n' = None <-> m_tp_buf m = None) ->
  heap_wf (put_msg (put_msg h p m' c) q n' b).
Proof.
  intros [W1 W2 W3 W4 W5] Hpq Ep Eq Hm Hn. unfold put_msg, set_msgs. cbn.
  assert (forall r, exists r', (forall k a, <[q:=(n', b)]> (<[p:=(m', c)]> (hp_msgs h)) !! r = Some (k, a) ->
    exists k', hp_msgs h !! r' = Some (k', a) /\ (m_tp_buf k = None <-> m_tp_buf k' = None)) /\
    (r' = r /\ r <> p /\ r <> q \/ r = p /\ r' = q \/ r = q /\ r' = p)) as Hs.
  { intros r. destruct (decide (r = q)) as [->|Hq]; [|destruct (decide (r = p)) as [->|Hp]].
    - exists p. split; [|tauto]. intros k a. rewrite lookup_insert_eq. intros [= <- <-]. eauto.
    - exists q. split; [|tauto]. intros k a. rewrite lookup_insert_ne, lookup_insert_eq by done. intros [= <- <-]. eauto.
    - exists r. split; [|tauto]. intros k a. rewrite !lookup_insert_ne by done. eauto. }
  split; cbn.
  - intros r [k a] Hr. destruct (Hs r) as (r' & H & Hc). destruct (H k a Hr) as (k' & Hk & _).
    pose proof (W1 _ _ Ep). pose proof (W1 _ _ Eq). pose proof (W1 _ _ Hk). destruct Hc as [[-> _]|[[-> ->]|[-> ->]]]; done.
  - done.
  - intros a. rewrite W3. split; intros (r & k & Hr).
    + destruct (decide (r = p)) as [->|Hp]; [|destruct (decide (r = q)) as [->|Hq]].
      * simplify_eq. exists q, n'. by rewrite lookup_insert_eq.
      * simplify_eq. exists p, m'. by rewrite lookup_insert_ne, lookup_insert_eq.
      * exists r, k. by rewrite !lookup_insert_ne.
    + destruct (Hs r) as (r' & H & _). destruct (H k _ Hr) as (k' & Hk & _). eauto.
  - intros a r1 r2 k1 k2 H1 H2. destruct (Hs r1) as (r1' & Hr1 & C1). destruct (Hs r2) as (r2' & Hr2 & C2).
    destruct (Hr1 _ _ H1) as (? & G1 & _). destruct (Hr2 _ _ H2) as (? & G2 & _). pose proof (W4 _ _ _ _ _ G1 G2).
    destruct C1 as [(?&?&?)|[[? ?]|[? ?]]], C2 as [(?&?&?)|[[? ?]|[? ?]]]; congruence.
  - intros r k a Hr. destruct (Hs r) as (r' & H & _). destruct (H k _ Hr) as (k' & Hk & Hb). rewrite Hb. by eapply W5.
Qed.

(** rmr_set_trace keeps the struct; the buffer that is not used any more, and the
    struct it was swapped with, are freed. *)
Theorem set_trace_handed h p m b data size z m' : heap_wf h -> hp_msgs h !! p = Some (m, b) ->
  rmr_set_trace malloc_bytes (Some m) data size = Ret (z, Some m') ->
  exists h', rmr_set_trace_h malloc_bytes h (Some p) data size = Ret (z, h') /\ handed h p h' (Some p) (Some m').
Proof.
  intros W E. unfold rmr_set_trace, set_trace_with, rmr_set_trace_h. rewrite E. cbn [deref mbind comp_bind].
  destruct (size <=? 0); [intros [= <- <-]; eauto using handed_same|].
  destruct (m_header m) as [hdr|] eqn:Eh; [|intros [= <- <-]; eauto using handed_same].
  destruct (m_tp_buf m) as [buf|] eqn:Eb; [|done]. cbn [deref mbind comp_bind].
  destruct (RMR_TR_LEN buf hdr) as [trl|]; [|done]. cbn [mbind comp_bind].
  assert (forall h1 m1, handed h p h1 (Some p) (Some m1) ->
    (buf ← deref (m_tp_buf m1); hdr ← deref (m_header m1); dst ← TRACE_ADDR buf hdr; buf ← memcpy buf dst data 0 size;
     Ret (size, Some (set_tp_buf (Some buf) m1))) = Ret (z, Some m') ->
    exists h', ('(m, b) ← deref (hp_msgs h1 !! p); buf ← deref (m_tp_buf m); hdr ← deref (m_header m); dst ← TRACE_ADDR buf hdr;
     buf ← memcpy buf dst data 0 size; Ret (size, put_msg h1 p (set_tp_buf (Some buf) m) b)) = Ret (z, h') /\
     handed h p h' (Some p) (Some m')) as Hend.
  { intros h1 m1 H1 Em. destruct (handed_get _ _ _ _ _ H1) as [b1 E1]. rewrite E1. cbn [deref mbind comp_bind].
    destruct (m_tp_buf m1) as [buf1|] eqn:Eb1; [|done]. cbn [deref mbind comp_bind] in *. unbind Em.
    rewrite H. cbn [mbind comp_bind]. rewrite H0. cbn [mbind comp_bind]. rewrite H2. cbn [mbind comp_bind].
    injection Em as <- <-. eexists. split; [done|].
    eapply handed_trans; [exact H1|]. eapply put_handed; [apply H1|done|]. by rewrite Eb1. }
  destruct (negb (i32 trl =? size)); cbn [mbind comp_bind].
  - destruct (realloc_msg malloc_bytes m size) as [nm|] eqn:Er; [|done]. cbn [mbind comp_bind].
    intros Em. destruct (realloc_msg_added _ _ _ _ _ _ _ W E Er) as (q & h1 & E1 & W1 & Hq & nb & Eh1).
    rewrite E1. cbn [mbind comp_bind]. rewrite Eh1, lookup_insert_eq. cbn [deref mbind comp_bind].
    assert (p <> q) as Hpq by (intros ->; congruence).
    set (m1 := MkMbuf _ _ _ _ _ _ _ _ _ _ _ _ _) in *.
    set (h2 := put_msg (put_msg h1 p m1 nb) q _ b).
    assert (heap_wf h2) as W2.
    { apply (swap_bufs_wf h1 p q m nm); [done|done| | |done|by rewrite Eb]; rewrite Eh1; [by rewrite lookup_insert_ne|by rewrite lookup_insert_eq]. }
    assert (hp_msgs h2 = <[q:=(set_tp_buf (Some buf) nm, b)]> (<[p:=(m1, nb)]> (hp_msgs h))) as Eh2.
    { unfold h2, put_msg, set_msgs. cbn. rewrite Eh1, (insert_insert_ne _ p q), insert_insert_eq by done. done. }
    destruct (free_handed h2 q (set_tp_buf (Some buf) nm) b W2) as (h3 & E3 & W3 & H3); [by rewrite Eh2, lookup_insert_eq|].
    rewrite E3. cbn [mbind comp_bind]. apply (Hend h3 m1); [|exact Em].
    split; [done|]. split; [apply lookup_delete_eq|]. exists nb. rewrite H3, Eh2, delete_insert_id; [|by rewrite lookup_insert_ne].
    by rewrite insert_delete_eq.
  - intros Em. apply (Hend h m); [by eapply handed_same|]. rewrite Eb, Eh in *. exact Em.
Qed.
End message_theorems.

(** ** Sending *)

Section send.
Context {TH TE N : Type} `{Symbols TH thing} `{Symbols TE nat} `{Transport N}.
Variable malloc_bytes : Z -> list Z.
Variable gethostbyname : list Z -> option (list Z).
Abbreviation sctx := (send_ctx TH TE N).
Implicit Types (sc : sctx) (n : N) (h : heap).

Definition send_msg_h (mctx : msg_ctx) n h (p : nat) (sock retries : Z) : comp (option nat * Z * N * heap) :=
  '(msg, b) ← deref (hp_msgs h !! p);
  buf ← fill_send_header mctx msg;
  hdr ← deref (m_header msg);
  tr_len ← RMR_TR_LEN buf hdr;
  let spin_retries := if retries =? 0 then 100 else 1000 in
  let retries := if retries =? 0 then 1 else retries in
  x ← send_loop (Z.to_nat (spin_retries + 1000 * Z.max 0 (retries - 1))) n hdr buf (m_len msg) (m_alloc_len msg) sock spin_retries retries;
  match x with
  | None => UB
  | Some (mstate, state, errno, buf, n) =>
      let h := put_msg h p (set_tp_buf (Some buf) msg) b in
      if mstate =? RMR_OK then
        if Z.land (m_flags msg) MFL_NOALLOC =? 0
        then '(q, h) ← alloc_zcmsg_h malloc_bytes mctx h (Some p) 0 RMR_OK (i32 tr_len); Ret (Some q, errno, n, h)
        else h ← rmr_free_msg h (Some p); Ret (None, errno, n, h)
      else if (state =? SI_ERR_BLOCKED) || (errno =? EAGAIN)
           then h ← upd_msg h p (set_state RMR_ERR_RETRY); Ret (Some p, EAGAIN, n, h)
           else h ← upd_msg h p (set_state RMR_ERR_SENDFAILED); Ret (Some p, errno, n, h)
  end.

(** The loop over the groups; the message for the next group is a clone that was made before. *)
Fixpoint send_groups_h (fuel : nat) sc (rt : route_table_t TH) (rte_id : nat) (group : Z) h (p : nat) (max_to ok_sends : Z) :
    comp (option nat * Z * Z * sctx * heap) :=
  match fuel with
  | O => UB
  | S fuel' =>
      rte ← deref (cr_rtes (sc_rt sc) !! rte_id);
      '(msg, _) ← deref (hp_msgs h !! p);
      '(sock_ok, more, sock, ep, sc) ←
        (if 0 <? rte_nrrgroups rte
         then '(st, more, sock, ep, sc) ← uta_epsock_rr sc rte_id group; Ret (negb (st =? 0), more, sock, ep, sc)
         else '(ok, sock, ep, sc) ← epsock_meid sc rt msg; Ret (ok, false, sock, ep, sc));
      if sock_ok : bool then
        fd ← deref sock;
        if more : bool then
          '(clone_m, h) ← clone_msg_h malloc_bytes h p;
          h ← upd_msg h p (fun m => set_flags (Z.lor (m_flags m) MFL_NOALLOC) m);
          '(r, errno, n, h) ← send_msg_h (sc_mctx sc) (sc_net sc) h p fd max_to;
          '(h, ok_sends) ← match r with
                           | Some q => h ← rmr_free_msg h (Some q); Ret (h, ok_sends)
                           | None => h ← upd_msg h clone_m (set_state RMR_OK); Ret (h, ok_sends + 1)
                           end;
          '(msg, _) ← deref (hp_msgs h !! clone_m);
          send_groups_h fuel' (count_ep (set_net sc n) (m_state msg) ep) rt rte_id (group + 1) h clone_m max_to ok_sends
        else
          '(r, errno, n, h) ← send_msg_h (sc_mctx sc) (sc_net sc) h p fd max_to;
          let sc := set_net sc n in
          match r with
          | Some q => '(m, _) ← deref (hp_msgs h !! q); Ret (r, errno, ok_sends, count_ep sc (m_state m) ep, h)
          | None => Ret (r, errno, ok_sends, sc, h)
          end
      else
        h ← upd_msg h p (set_state RMR_ERR_NOENDPT);
        if more : bool then send_groups_h fuel' sc rt rte_id (group + 1) h p max_to ok_sends
        else Ret (Some p, ENXIO, ok_sends, sc, h)
  end.

Definition mtosend_msg_h (ctx : option sctx) h (p : option nat) (max_to : Z) : comp (option nat * option sctx * heap) :=
  match ctx, p with
  | Some sc, Some p =>
      '(msg, _) ← deref (hp_msgs h !! p);
      match m_header msg with
      | None => h ← upd_msg h p (fun m => set_tp_state EBADMSG (set_state RMR_ERR_NOHDR m)); Ret (Some p, Some sc, h)
      | Some _ =>
          let max_to := if max_to <? 0 then sc_send_retries sc else max_to in
          match cr_rtable (sc_rt sc), uta_get_rte (cr_rtable (sc_rt sc)) (m_sub_id msg) (m_mtype msg) true with
          | Some rt, Some id =>
              rte ← deref (cr_rtes (sc_rt sc) !! id);
              '(r, errno, ok_sends, sc, h) ← send_groups_h (S (length (rte_rrgroups rte))) sc rt id 0 h p max_to 0;
              match r with
              | Some q =>
                  h ← upd_msg h q (fun m => set_flags (Z.land (m_flags m) (Z.lnot MFL_NOALLOC)) m);
                  h ← (if negb (ok_sends =? 0) then upd_msg h q (set_state RMR_OK) else Ret h);
                  h ← upd_msg h q (set_tp_state errno);
                  Ret (Some q, Some sc, h)
              | None => Ret (None, Some sc, h)
              end
          | _, _ => h ← upd_msg h p (fun m => set_tp_state ENXIO (set_state RMR_ERR_NOENDPT m)); Ret (Some p, Some sc, h)
          end
      end
  | _, Some p => h ← upd_msg h p (fun m => set_tp_state EINVAL (set_state RMR_ERR_BADARG m)); Ret (Some p, ctx, h)
  | _, None => Ret (None, ctx, h)
  end.

Definition rmr_send_msg_h (ctx : option sctx) h (p : option nat) : comp (option nat * option sctx * heap) :=
  match p with
  | Some q =>
      '(m, b) ← deref (hp_msgs h !! q);
      m ← clear_call m;
      let h := put_msg h q m b in
      '(m, b) ← deref (hp_msgs h !! q);
      m ← clear_call m;
      mtosend_msg_h ctx (put_msg h q m b) p (-1)
  | None => mtosend_msg_h ctx h None (-1)
  end.

(** ** Calls *)

Definition call_send_h sc h (p : nat) (ep : option Z) : comp (option nat * sctx * heap) :=
  match ep with
  | None =>
      '(r, sc', h) ← mtosend_msg_h (Some sc) h (Some p) 0;
      Ret (r, default sc sc', h)
  | Some sock =>
      '(r, errno, n, h) ← send_msg_h (sc_mctx sc) (sc_net sc) h p sock (-1);
      h ← match r with
          | Some q => upd_msg h q (fun m => if m_state m =? RMR_OK then m else set_tp_state errno m)
          | None => Ret h
          end;
      Ret (r, set_net sc n, h)
  end.

(** The end of a call: nil when the last wait failed, else the message in the chute. *)
Definition call_end_h sc (waited : option (Z * option nat * heap)) : comp (option (option nat * sctx * heap)) :=
  match waited with
  | None => Ret None
  | Some (state, got, h) =>
      if state <? 0 then Ret (Some (None, sc, h))
      else
        h ← match got with Some q => upd_msg h q (set_state RMR_OK) | None => Ret h end;
        Ret (Some (got, sc, h))
  end.

(** [old]: the message that is still in the chute; [wait]: what the wait for the answer
    ends with: the state of the last wait, the message in the chute, and the heap. *)
Definition mt_call_h (flags : Z) sc h (old : option nat) (p : nat) (call_id : Z) (ep : option Z)
    (wait : heap -> option (Z * option nat * heap)) : comp (option (option nat * sctx * heap)) :=
  if Z.land flags CFL_MTC_ENABLED =? 0 then
    h ← upd_msg h p (fun m => set_tp_state EINVAL (set_state RMR_ERR_NOTSUPP m)); Ret (Some (Some p, sc, h))
  else
    h ← rmr_free_msg h old;
    '(m, b) ← deref (hp_msgs h !! p);
    _ ← xact_bytes m RMR_MAX_XID;
    m ← mark_call m call_id;
    let h := put_msg h p m b in
    '(r, sc, h) ← call_send_h sc h p ep;
    sent ← match r with
           | Some q => '(m, _) ← deref (hp_msgs h !! q); Ret (m_state m =? RMR_OK)
           | None => Ret true
           end;
    if negb sent then Ret (Some (r, sc, h)) else call_end_h sc (wait h).
End send.

(** ** Sends consume the message and hand over one *)

Section send_theorems.
Context {TH TE N : Type} `{Symbols TH thing} `{Symbols TE nat} `{Transport N}.
Variable malloc_bytes : Z -> list Z.
Variable gethostbyname : list Z -> option (list Z).
Abbreviation sctx := (send_ctx TH TE N).
Implicit Types (sc : sctx) (n : N) (h : heap) (m : mbuf).

(** The lengths of a context are those of an int. *)
Record lens_int (ctx : msg_ctx) : Prop := {
  li_tr : 0 <= x_trace_data_len ctx < 2 ^ 31;
  li_d1 : 0 <= x_d1_len ctx < 2 ^ 31;
  li_d2 : 0 <= x_d2_len ctx < 2 ^ 31;
  li_p : 0 <= x_max_plen ctx < 2 ^ 31
}.

Lemma zc_len_pos ctx z : lens_int ctx -> 0 < zc_len ctx 0 (i32 z).
Proof.
  intros [? ? ? ?]. unfold zc_len. change (0 <? 0) with false. cbv iota. pose proof (i32_range z) as Hz. unfold in_i32 in Hz.
  unfold sizeof_mhdr, TP_HDR_LEN. set (tl := if 0 <? i32 z then i32 z else x_trace_data_len ctx).
  assert (0 <= tl < 2 ^ 31) as Htl by (unfold tl; destruct (Z.ltb_spec 0 (i32 z)); lia).
  rewrite (u64_id (280 + _ + _ + _)), (u64_id (_ + x_max_plen ctx)), (u64_id (_ + 50)); lia.
Qed.

Lemma handed_upd h p h1 q m f : handed h p h1 (Some q) (Some m) -> (m_tp_buf (f m) = None <-> m_tp_buf m = None) ->
  exists h2, upd_msg h1 q f = Ret h2 /\ handed h p h2 (Some q) (Some (f m)).
Proof.
  intros Hh Hf. destruct (handed_get _ _ _ _ _ Hh) as [b E]. unfold upd_msg. rewrite E. cbn [deref mbind comp_bind].
  eexists. split; [done|]. eapply handed_trans; [exact Hh|]. eapply put_handed; [apply Hh|done..].
Qed.

Lemma added_consumed h h1 c m p h2 : added h h1 c m -> is_Some (hp_msgs h !! p) -> handed h1 p h2 None None ->
  handed h p h2 (Some c) (Some m).
Proof.
  intros (W1 & Hc & b & E1) [x Hp] [W2 E2]. cbn in E2. split; [done|].
  assert (p <> c) as Hne by (intros ->; congruence).
  split; [by rewrite lookup_delete_ne|]. exists b. by rewrite E2, E1, delete_insert_ne by done.
Qed.

Lemma send_msg_handed mctx n h p m b sock retries r errno n' : lens_int mctx -> heap_wf h -> hp_msgs h !! p = Some (m, b) ->
  send_msg malloc_bytes mctx n m sock retries = Ret (r, errno, n') ->
  exists q h', send_msg_h malloc_bytes mctx n h p sock retries = Ret (q, errno, n', h') /\ handed h p h' q r.
Proof.
  intros Hl W E. unfold send_msg, send_msg_h. rewrite E. cbn [deref mbind comp_bind].
  destruct (fill_send_header mctx m) as [buf|] eqn:Ef; [|done]. cbn [mbind comp_bind].
  destruct (m_header m) as [hdr|]; [|done]. cbn [deref mbind comp_bind].
  destruct (RMR_TR_LEN buf hdr) as [tr|]; [|done]. cbn [mbind comp_bind].
  destruct (send_loop _ _ _ _ _ _ _ _ _) as [[[[[[ms st] er] buf'] n1]|]|]; [|done|done]. cbn [mbind comp_bind].
  assert (handed h p (put_msg h p (set_tp_buf (Some buf') m) b) (Some p) (Some (set_tp_buf (Some buf') m))) as K1.
  { eapply put_handed; [done|done|]. unfold fill_send_header in Ef. by destruct (m_header m), (m_tp_buf m). }
  destruct (handed_get _ _ _ _ _ K1) as [b1 E1].
  change (m_flags (set_tp_buf (Some buf') m)) with (m_flags m).
  destruct (ms =? RMR_OK); [destruct (Z.land (m_flags m) MFL_NOALLOC =? 0)|].
  - destruct (alloc_zcmsg _ _ _ _ _ _ _) as [m'|] eqn:Ea; [|done]. cbn [mbind comp_bind]. intros [= <- <- <-].
    destruct (alloc_zcmsg_handed malloc_bytes mctx _ p _ b1 0 RMR_OK (i32 tr) m' (proj1 K1) E1 (zc_len_pos _ _ Hl) Ea) as (h2 & -> & K2).
    cbn [mbind comp_bind]. eexists _, _. split; [done|]. by eapply handed_trans.
  - intros [= <- <- <-]. destruct (free_handed _ p _ b1 (proj1 K1) E1) as (h2 & -> & K2). cbn [mbind comp_bind].
    eexists _, _. split; [done|]. by eapply handed_trans.
  - destruct (_ || _); intros [= <- <- <-].
    + destruct (handed_upd h p _ p _ (set_state RMR_ERR_RETRY) K1) as (h2 & -> & K2); [done|]. by eexists _, _.
    + destruct (handed_upd h p _ p _ (set_state RMR_ERR_SENDFAILED) K1) as (h2 & -> & K2); [done|]. by eexists _, _.
Qed.

Lemma clone_msg_buf m c : clone_msg malloc_bytes m = Ret c -> is_Some (m_tp_buf m) /\ is_Some (m_tp_buf c).
Proof.
  unfold clone_msg. intros E. destruct (m_tp_buf m); [|done]. split; [by eexists|]. unbind E. injection E as <-. by eexists.
Qed.

(** A send to a group that is not the last: the message is consumed whatever
    happens, and the clone is the message of the next group. *)
Lemma send_clone_handed mctx n h p m b c fd retries r errno n' (ok : Z) : lens_int mctx -> heap_wf h ->
  hp_msgs h !! p = Some (m, b) -> clone_msg malloc_bytes m = Ret c ->
  send_msg malloc_bytes mctx n (set_flags (Z.lor (m_flags m) MFL_NOALLOC) m) fd retries = Ret (r, errno, n') ->
  let c' := match r with Some _ => c | None => set_state RMR_OK c end in
  let ok' := match r with Some _ => ok | None => ok + 1 end in
  exists cp h1 h2 q h3 h4,
    clone_msg_h malloc_bytes h p = Ret (cp, h1) /\
    upd_msg h1 p (fun m => set_flags (Z.lor (m_flags m) MFL_NOALLOC) m) = Ret h2 /\
    send_msg_h malloc_bytes mctx n h2 p fd retries = Ret (q, errno, n', h3) /\
    match q with
    | Some q => h ← rmr_free_msg h3 (Some q); Ret (h, ok)
    | None => h ← upd_msg h3 cp (set_state RMR_OK); Ret (h, ok + 1)
    end = Ret (h4, ok') /\ handed h p h4 (Some cp) (Some c').
Proof.
  intros Hl W E Ec Es. destruct (clone_msg_added malloc_bytes h p m b c W E Ec) as (cp & h1 & E1 & A).
  destruct A as (W1 & Hc & cb & Em1) eqn:EA. assert (cp <> p) as Hne by (intros ->; congruence).
  assert (hp_msgs h1 !! p = Some (m, b)) as Ep1 by (by rewrite Em1, lookup_insert_ne).
  set (f := fun m0 => set_flags (Z.lor (m_flags m0) MFL_NOALLOC) m0) in *.
  destruct (handed_upd h1 p h1 p m f (handed_same _ _ _ _ W1 Ep1)) as (h2 & E2 & K2); [done|].
  destruct (handed_get _ _ _ _ _ K2) as [b2 Ep2].
  destruct (send_msg_handed mctx n h2 p _ b2 fd retries r errno n' Hl (proj1 K2) Ep2 Es) as (q & h3 & E3 & K3).
  pose proof (handed_trans _ _ _ _ _ _ _ _ K2 K3) as K4. exists cp, h1, h2, q, h3.
  destruct q as [q|], r as [r|]; try (by destruct K4).
  - destruct (handed_get _ _ _ _ _ K4) as [b4 E4]. destruct (free_handed h3 q r b4 (proj1 K4) E4) as (h4 & -> & K5).
    exists h4. split_and!; [done..|]. eapply added_consumed; [exact A|by eexists|]. by eapply handed_trans.
  - assert (handed h p h3 (Some cp) (Some c)) as K5 by (eapply added_consumed; [exact A|by eexists|done]).
    destruct (handed_upd h p h3 cp c (set_state RMR_OK) K5) as (h4 & -> & K6); [done|]. exists h4. by split_and!.
Qed.

Lemma sock_of_mctx add sc id s sc1 : sock_of add sc id = (s, sc1) -> sc_mctx sc1 = sc_mctx sc.
Proof. unfold sock_of. destruct (ep_socket tp_connect add (conn_of sc) id). by intros [= <- <-]. Qed.

Lemma epsock_rr_mctx sc id group st more sock ep sc' :
  uta_epsock_rr sc id group = Ret (st, more, sock, ep, sc') -> sc_mctx sc' = sc_mctx sc.
Proof.
  unfold uta_epsock_rr. intros E. apply comp_bind_ret in E as (rte & _ & E).
  destruct (_ || _); [by injection E as <- <- <- <- <-|].
  destruct (rte_rrgroups rte !! Z.to_nat group) as [[g|]|]; [|by injection E as <- <- <- <- <-..].
  destruct (zlen (rg_epts g) =? 0); [by injection E as <- <- <- <- <-|]. unbind E.
  injection E as <- <- <- <- <-. by eapply sock_of_mctx in Heqp.
Qed.

Lemma epsock_meid_mctx sc rt m ok sock ep sc' : epsock_meid sc rt m = Ret (ok, sock, ep, sc') -> sc_mctx sc' = sc_mctx sc.
Proof.
  unfold epsock_meid. intros E. unbind E. destruct (get_meid_owner _ _); [|by injection E as <- <- <- <-].
  unbind E. injection E as <- <- <- <-. by eapply sock_of_mctx.
Qed.

Lemma send_groups_handed fuel : forall sc rt id group h p m b max_to ok r errno ok' sc',
  lens_int (sc_mctx sc) -> heap_wf h -> hp_msgs h !! p = Some (m, b) ->
  send_groups malloc_bytes fuel sc rt id group m max_to ok = Ret (r, errno, ok', sc') ->
  exists q h', send_groups_h malloc_bytes fuel sc rt id group h p max_to ok = Ret (q, errno, ok', sc', h') /\ handed h p h' q r.
Proof.
  induction fuel as [|fuel IH]; intros sc rt id group h p m b max_to ok r errno ok' sc' Hl W E Es; [done|].
  cbn [send_groups send_groups_h] in *. destruct (cr_rtes (sc_rt sc) !! id) as [rte|]; [|done].
  rewrite E. cbn [deref mbind comp_bind] in *.
  destruct (if 0 <? rte_nrrgroups rte then _ else _) as [[[[[sock_ok more] sock] ep] sc1]|] eqn:Ek in Es; [|done].
  assert (sc_mctx sc1 = sc_mctx sc) as Hm.
  { destruct (0 <? rte_nrrgroups rte); unbind Ek; injection Ek as <- <- <- <- <-;
      [by eapply epsock_rr_mctx|by eapply epsock_meid_mctx]. }
  rewrite Ek. cbn [mbind comp_bind] in *. rewrite <-Hm in Hl. clear Ek. destruct sock_ok.
  - destruct sock as [fd|]; [|done]. cbn [deref mbind comp_bind] in *. destruct more.
    + destruct (clone_msg malloc_bytes m) as [c|] eqn:Ec; [|done]. cbn [mbind comp_bind] in Es.
      destruct (send_msg malloc_bytes _ _ _ fd max_to) as [[[r1 er1] n1]|] eqn:Esm; [|done]. cbn [mbind comp_bind] in Es.
      destruct (send_clone_handed _ _ _ _ _ _ _ _ _ _ _ _ ok Hl W E Ec Esm)
        as (cp & h1 & h2 & q & h3 & h4 & -> & E2 & E3 & E4 & K). cbn [mbind comp_bind].
      rewrite E2. cbn [mbind comp_bind]. rewrite E3. cbn [mbind comp_bind]. rewrite E4. cbn [mbind comp_bind].
      destruct (handed_get _ _ _ _ _ K) as [b4 Ep4]. rewrite Ep4. cbn [deref mbind comp_bind].
      assert (exists c' ok1, match r1 with Some _ => c | None => set_state RMR_OK c end = c' /\
        match r1 with Some _ => ok | None => ok + 1 end = ok1 /\
        send_groups malloc_bytes fuel (count_ep (set_net sc1 n1) (m_state c') ep) rt id (group + 1) c' max_to ok1 =
        Ret (r, errno, ok', sc')) as (c' & ok1 & Ec' & Eo & Es') by (destruct r1; by eexists _, _).
      rewrite Ec' in *. rewrite Eo in *.
      edestruct IH as (q' & h' & E' & K'); [|apply K|exact Ep4|exact Es'|].
      { by rewrite (proj2 (proj2 (count_ep_keeps _ _ _))). }
      rewrite E'. eexists _, _. split; [done|]. by eapply handed_trans.
    + destruct (send_msg malloc_bytes _ _ _ fd max_to) as [[[r1 er1] n1]|] eqn:Esm; [|done]. cbn [mbind comp_bind] in Es.
      destruct (send_msg_handed _ _ h p m b fd max_to _ _ _ Hl W E Esm) as (q & h1 & -> & K). cbn [mbind comp_bind].
      destruct q as [q|], r1 as [r1|]; try (by destruct K); injection Es as <- <- <- <-; [|by eexists _, _].
      destruct (handed_get _ _ _ _ _ K) as [b1 E1]. rewrite E1. by eexists _, _.
  - destruct (handed_upd h p h p m (set_state RMR_ERR_NOENDPT) (handed_same _ _ _ _ W E)) as (h1 & -> & K); [done|].
    cbn [mbind comp_bind]. destruct more; [|injection Es as <- <- <- <-; by eexists _, _].
    destruct (handed_get _ _ _ _ _ K) as [b1 E1].
    destruct (IH _ _ _ _ h1 p _ b1 _ _ _ _ _ _ Hl (proj1 K) E1 Es) as (q' & h' & -> & K').
    eexists _, _. split; [done|]. by eapply handed_trans.
Qed.

Lemma handed_upd_if (c : bool) h p h1 q m f : handed h p h1 (Some q) (Some m) -> (m_tp_buf (f m) = None <-> m_tp_buf m = None) ->
  exists h2, (if c then upd_msg h1 q f else Ret h1) = Ret h2 /\ handed h p h2 (Some q) (Some (if c then f m else m)).
Proof. destruct c; intros Hh Hf; [by apply handed_upd|by exists h1]. Qed.

Lemma mtosend_handed sc h p m b max_to r (sc' : option sctx) : lens_int (sc_mctx sc) -> heap_wf h -> hp_msgs h !! p = Some (m, b) ->
  mtosend_msg malloc_bytes (Some sc) (Some m) max_to = Ret (r, sc') ->
  exists q h', mtosend_msg_h malloc_bytes (Some sc) h (Some p) max_to = Ret (q, sc', h') /\ handed h p h' q r.
Proof.
  intros Hl W E. pose proof (handed_same _ _ _ _ W E) as K0. unfold mtosend_msg, mtosend_msg_h. rewrite E.
  cbn [deref mbind comp_bind]. destruct (m_header m) as [hdr|].
  2: { intros [= <- <-].
       destruct (handed_upd h p h p m (fun m => set_tp_state EBADMSG (set_state RMR_ERR_NOHDR m)) K0) as (h1 & -> & K); [done|].
       by eexists _, _. }
  destruct (cr_rtable (sc_rt sc)) as [rt|] eqn:Ert; [destruct (uta_get_rte _ _ _ _) as [id|]|].
  2,3: intros [= <- <-];
       destruct (handed_upd h p h p m (fun m => set_tp_state ENXIO (set_state RMR_ERR_NOENDPT m)) K0) as (h1 & -> & K);
         [done|by eexists _, _].
  intros Es. destruct (cr_rtes (sc_rt sc) !! id) as [rte|]; [|done]. cbn [deref mbind comp_bind] in *.
  destruct (send_groups malloc_bytes _ sc rt id 0 m _ 0) as [[[[r1 er] ok] sc1]|] eqn:Eg; [|done]. cbn [mbind comp_bind] in Es.
  destruct (send_groups_handed _ _ _ _ _ h p m b _ _ _ _ _ _ Hl W E Eg) as (q & h1 & -> & K1). cbn [mbind comp_bind].
  destruct q as [q|], r1 as [m1|]; try (by destruct K1); injection Es as <- <-; [|by eexists _, _].
  destruct (handed_upd h p h1 q m1 (fun m => set_flags (Z.land (m_flags m) (Z.lnot MFL_NOALLOC)) m) K1) as (h2 & -> & K2); [done|].
  cbn [mbind comp_bind].
  destruct (handed_upd_if (negb (ok =? 0)) h p h2 q _ (set_state RMR_OK) K2) as (h3 & -> & K3); [done|]. cbn [mbind comp_bind].
  destruct (handed_upd h p h3 q _ (set_tp_state er) K3) as (h4 & -> & K4); [done|]. by eexists _, _.
Qed.

Lemma clear_call_buf m m' : clear_call m = Ret m' -> is_Some (m_tp_buf m) /\ is_Some (m_tp_buf m').
Proof.
  unfold clear_call. intros E. destruct (m_tp_buf m); [|by destruct (m_header m)]. split; [by eexists|].
  unbind E. injection E as <-. by eexists.
Qed.

Lemma mark_call_buf m id m' : mark_call m id = Ret m' -> is_Some (m_tp_buf m) /\ is_Some (m_tp_buf m').
Proof.
  unfold mark_call. intros E. destruct (m_tp_buf m); [|by destruct (m_header m)]. split; [by eexists|].
  unbind E. injection E as <-. by eexists.
Qed.

(** A new content with a buffer, for a message with a buffer. *)
Lemma put_handed_some h p h1 q m m' b : handed h p h1 (Some q) (Some m) -> hp_msgs h1 !! q = Some (m, b) ->
  is_Some (m_tp_buf m) /\ is_Some (m_tp_buf m') -> handed h p (put_msg h1 q m' b) (Some q) (Some m').
Proof.
  intros K E [[x Hx] [y Hy]]. eapply handed_trans; [exact K|]. eapply put_handed; [apply K|done|]. by rewrite Hx, Hy.
Qed.

Lemma rmr_send_handed sc h p m b r (sc' : option sctx) : lens_int (sc_mctx sc) -> heap_wf h -> hp_msgs h !! p = Some (m, b) ->
  rmr_send_msg malloc_bytes (Some sc) (Some m) = Ret (r, sc') ->
  exists q h', rmr_send_msg_h malloc_bytes (Some sc) h (Some p) = Ret (q, sc', h') /\ handed h p h' q r.
Proof.
  intros Hl W E. pose proof (handed_same _ _ _ _ W E) as K0. unfold rmr_send_msg, rmr_send_msg_h, rmr_mtosend_msg. rewrite E.
  cbn [deref mbind comp_bind]. intros Es. destruct (clear_call m) as [m1|] eqn:E1; [|done]. cbn [mbind comp_bind] in *.
  destruct (clear_call m1) as [m2|] eqn:E2; [|done]. cbn [mbind comp_bind] in *.
  pose proof (put_handed_some _ _ _ _ _ m1 b K0 E (clear_call_buf _ _ E1)) as K1.
  assert (hp_msgs (put_msg h p m1 b) !! p = Some (m1, b)) as Ep1 by apply lookup_insert_eq.
  rewrite Ep1. cbn [deref mbind comp_bind]. rewrite E2. cbn [mbind comp_bind].
  pose proof (put_handed_some _ _ _ _ _ m2 b K1 Ep1 (clear_call_buf _ _ E2)) as K2.
  destruct (mtosend_handed sc _ p m2 b (-1) r sc' Hl (proj1 K2) (lookup_insert_eq _ _ _) Es) as (q & h' & E' & K').
  exists q, h'. split; [exact E'|]. by eapply handed_trans.
Qed.

(** C30.  Messages are owned by one holder at a time, also on the heap: rmr_send_msg,
    for any message and whatever happens to the sends of its groups,
    never uses or frees what was freed, frees the message or hands it back with
    the contents that the model of the other files computes (with its buffer or a new one; for
    several groups the last clone), frees every other clone and buffer on the
    way, and changes no other message: afterwards each buffer that is allocated is still
    that of exactly one message. *)
Theorem send_owns_one_message sc h p m b r (sc' : option sctx) : lens_int (sc_mctx sc) -> heap_wf h -> hp_msgs h !! p = Some (m, b) ->
  rmr_send_msg malloc_bytes (Some sc) (Some m) = Ret (r, sc') ->
  exists q h', rmr_send_msg_h malloc_bytes (Some sc) h (Some p) = Ret (q, sc', h') /\ handed h p h' q r.
Proof. apply rmr_send_handed. Qed.

Lemma call_send_handed sc h p m b ep r sc' : lens_int (sc_mctx sc) -> heap_wf h -> hp_msgs h !! p = Some (m, b) ->
  call_send malloc_bytes sc m ep = Ret (r, sc') ->
  exists q h', call_send_h malloc_bytes sc h p ep = Ret (q, sc', h') /\ handed h p h' q r.
Proof.
  intros Hl W E. unfold call_send, call_send_h. destruct ep as [fd|]; intros Es.
  - destruct (send_msg _ _ _ _ _ _) as [[[r1 er] n1]|] eqn:Em; [|done]. cbn [mbind comp_bind] in Es. injection Es as <- <-.
    destruct (send_msg_handed _ _ h p m b _ _ _ _ _ Hl W E Em) as (q & h1 & -> & K). cbn [mbind comp_bind].
    destruct q as [q|], r1 as [m1|]; try (by destruct K); [|by eexists _, _].
    destruct (handed_upd h p h1 q m1 (fun m => if m_state m =? RMR_OK then m else set_tp_state er m) K) as (h2 & -> & K2);
      [by destruct (_ =? _)|by eexists _, _].
  - destruct (mtosend_msg _ _ _ _) as [[r1 sc1]|] eqn:Em; [|done]. cbn [mbind comp_bind] in Es. injection Es as <- <-.
    destruct (mtosend_handed _ h p m b _ _ _ Hl W E Em) as (q & h1 & -> & K). by eexists _, _.
Qed.

(** What other threads do during a wait leaves the message [q] alone. *)
Definition left_alone (q : nat) h (waited : option (Z * option nat * heap)) : Prop :=
  forall st got h', waited = Some (st, got, h') -> got <> Some q /\ hp_msgs h' !! q = hp_msgs h !! q.

(** C31.  The message of a call: when the send consumed it the call waits and returns
    what the wait gives; when the send failed the call returns the message.  But a call to several
    groups whose last send failed after an earlier one went well gets the
    message back with the state OK: the call waits, and whatever the wait ends with the
    message is neither returned nor freed. *)
Theorem call_ownership flags sc h old p m b e call_id ep m1 r sc' wait :
  Z.land flags CFL_MTC_ENABLED <> 0 -> lens_int (sc_mctx sc) -> heap_wf h -> hp_msgs h !! p = Some (m, b) ->
  (forall o, old = Some o -> o <> p /\ is_Some (hp_msgs h !! o)) ->
  xact_bytes m RMR_MAX_XID = Ret e -> mark_call m call_id = Ret m1 -> call_send malloc_bytes sc m1 ep = Ret (r, sc') ->
  exists h0 q h1, rmr_free_msg h old = Ret h0 /\ handed h0 p h1 q r /\
    let call := mt_call_h malloc_bytes flags sc h old p call_id ep wait in
    match r with
    | None => call = call_end_h sc' (wait h1)
    | Some m' =>
        if m_state m' =? RMR_OK then
          call = call_end_h sc' (wait h1) /\
          forall lost, q = Some lost -> left_alone lost h1 (wait h1) ->
          forall ans sc2 h2, call = Ret (Some (ans, sc2, h2)) -> ans <> Some lost /\ is_Some (hp_msgs h2 !! lost)
        else call = Ret (Some (q, sc', h1))
    end.
Proof.
  intros Hf Hl W E Ho Hx Em Es.
  assert (exists h0, rmr_free_msg h old = Ret h0 /\ heap_wf h0 /\ hp_msgs h0 !! p = Some (m, b)) as (h0 & E0 & W0 & Ep).
  { destruct old as [o|]; [|by exists h]. destruct (Ho o eq_refl) as [Hne [[mo bo] Eo]].
    destruct (free_handed h o mo bo W Eo) as (h0 & E0 & W0 & Em0). exists h0. cbn in Em0.
    by rewrite Em0, lookup_delete_ne. }
  pose proof (put_handed_some _ _ _ _ _ m1 b (handed_same _ _ _ _ W0 Ep) Ep (mark_call_buf _ _ _ Em)) as K0.
  destruct (call_send_handed sc _ p m1 b ep r sc' Hl (proj1 K0) (lookup_insert_eq _ _ _) Es) as (q & h1 & E1 & K1).
  pose proof (handed_trans _ _ _ _ _ _ _ _ K0 K1) as K. exists h0, q, h1. split; [exact E0|]. split; [exact K|].
  set (call := mt_call_h _ _ _ _ _ _ _ _ _). cbv zeta.
  assert (call = match r with
                 | Some m' => if m_state m' =? RMR_OK then call_end_h sc' (wait h1) else Ret (Some (q, sc', h1))
                 | None => call_end_h sc' (wait h1) end) as Ec.
  { unfold call, mt_call_h. rewrite (proj2 (Z.eqb_neq _ _) Hf), E0. cbn [mbind comp_bind]. rewrite Ep.
    cbn [deref mbind comp_bind]. rewrite Hx. cbn [mbind comp_bind]. rewrite Em. cbn [mbind comp_bind]. rewrite E1.
    cbn [mbind comp_bind]. destruct q as [q|], r as [m'|]; try (by destruct K).
    destruct (handed_get _ _ _ _ _ K) as [b1 Eb]. rewrite Eb. cbn. by destruct (m_state m' =? RMR_OK). }
  destruct r as [m'|]; [|exact Ec]. destruct (m_state m' =? RMR_OK); [|exact Ec]. split; [exact Ec|].
  intros lost -> Ha ans sc2 h2. rewrite Ec. destruct (handed_get _ _ _ _ _ K) as [bl El].
  unfold call_end_h. destruct (wait h1) as [[[st got] h']|] eqn:Ew; [|done].
  destruct (Ha st got h' eq_refl) as [Hg Hk]. rewrite El in Hk.
  destruct (st <? 0); [intros [= <- <- <-]; split; [done|by eexists]|].
  destruct got as [g|]; cbn [mbind comp_bind]; [|intros [= <- <- <-]; split; [done|by eexists]].
  unfold upd_msg. destruct (hp_msgs h' !! g) as [[mg bg]|]; [|done]. cbn. intros [= <- <- <-]. split; [exact Hg|].
  cbn. rewrite lookup_insert_ne by congruence. by eexists.
Qed.
End send_theorems.

(** ** Witnesses *)

Definition ex_heap : heap := MkHeap {[ 0%nat := (ex_msg, Some 1%nat) ]} {[ 1%nat ]} 2.

Lemma ex_heap_get : hp_msgs ex_heap !! 0%nat = Some (ex_msg, Some 1%nat).
Proof. apply lookup_singleton_eq. Qed.

Lemma ex_heap_wf : heap_wf ex_heap.
Proof.
  split; cbn.
  - intros p x [<- _]%lookup_singleton_Some. lia.
  - intros b ->%elem_of_singleton. lia.
  - intros b. rewrite elem_of_singleton. split.
    + intros ->. exists 0%nat, ex_msg. apply lookup_singleton_eq.
    + intros (p & m & [_ [= _ <-]]%lookup_singleton_Some). done.
  - intros b p q m n [<- _]%lookup_singleton_Some [<- _]%lookup_singleton_Some. done.
  - intros p m b [_ [= <- <-]]%lookup_singleton_Some. done.
Qed.

Lemma ctx0_lens : lens_int ctx0.
Proof. split; vm_compute; split; congruence || discriminate. Qed.

(** A network on which sends to descriptor 9 fail. *)
Definition half_net : Type := Z -> list Z.

#[export] Program Instance half_transport : Transport half_net := {
  tp_connect n _ := (7, n);
  tp_send n fd b := if fd =? 9 then (SI_ERROR, EINVAL, n) else (SI_OK, 0, fun fd' => if fd' =? fd then n fd ++ b else n fd');
  tp_wire n := n
}.
Next Obligation. intros n fd b er n'. cbn. destruct (fd =? 9); [done|]. intros [= _ <-]. by rewrite Z.eqb_refl. Qed.
Next Obligation. intros n fd b er n' fd'. cbn. by destruct (fd =? 9). Qed.
Next Obligation.
  intros n fd b st er n' fd'. cbn. destruct (fd =? 9); [by intros [= _ _ <-]|]. intros [= _ _ <-] Hne.
  by rewrite (proj2 (Z.eqb_neq _ _) Hne).
Qed.
Next Obligation. by intros n a fd n' fd' [= _ <-]. Qed.

Definition ex_half : send_ctx (gmap akey thing) (gmap akey nat) half_net := ex_sc ((fun _ => []) : half_net).

(** The first group gets the message, the second does not. *)
Lemma send_owns_one_message_witness :
  exists q h' m' sc', rmr_send_msg_h junk (Some ex_half) ex_heap (Some 0%nat) = Ret (Some q, sc', h') /\
    handed ex_heap 0 h' (Some q) (Some m') /\ m_state m' = RMR_OK /\ q <> 0%nat.
Proof.
  assert (match rmr_send_msg junk (Some ex_half) (Some ex_msg) with Ret (Some m, _) => m_state m =? RMR_OK | _ => false end = true) as E
    by (vm_compute; reflexivity).
  assert (match rmr_send_msg_h junk (Some ex_half) ex_heap (Some 0%nat) with Ret (Some q, _, _) => negb (q =? 0)%nat | _ => false end = true) as Eq
    by (vm_compute; reflexivity).
  destruct (rmr_send_msg junk (Some ex_half) (Some ex_msg)) as [[[m'|] sc']|] eqn:Es; [|discriminate E..].
  destruct (send_owns_one_message junk ex_half ex_heap 0 ex_msg (Some 1%nat) (Some m') sc' ctx0_lens ex_heap_wf ex_heap_get Es)
    as (q & h' & Eh & K).
  rewrite Eh in Eq. destruct q as [q|]; [|discriminate Eq]. exists q, h', m', sc'.
  split; [exact Eh|]. split; [exact K|]. split; [by apply Z.eqb_eq|]. intros ->. discriminate Eq.
Defined.

(** An answer arrives; the clone for the second group is lost. *)
Definition ex_wait_answer (h : heap) : option (Z * option nat * heap) :=
  Some (0, Some (hp_next h), MkHeap (<[hp_next h := (mbuf0, None)]> (hp_msgs h)) (hp_bufs h) (S (hp_next h))).

Lemma call_ownership_witness :
  exists ans lost sc' h2, mt_call_h junk 1 ex_half ex_heap None 0 2 None ex_wait_answer = Ret (Some (Some ans, sc', h2)) /\
    ans <> lost /\ is_Some (hp_msgs h2 !! lost).
Proof.
  assert (match call_send junk ex_half ex_call_msg None with Ret (Some m, _) => m_state m =? RMR_OK | _ => false end = true) as E
    by (vm_compute; reflexivity).
  destruct (call_send junk ex_half ex_call_msg None) as [[[m'|] sc']|] eqn:Es; [|discriminate E..].
  destruct (call_ownership junk 1 ex_half ex_heap None 0 ex_msg (Some 1%nat) ex_expect 2 None ex_call_msg (Some m') sc' ex_wait_answer)
    as (h0 & q & h1 & E0 & K & Hc).
  - discriminate.
  - exact ctx0_lens.
  - exact ex_heap_wf.
  - exact ex_heap_get.
  - intros o [=].
  - vm_compute. reflexivity.
  - vm_compute. reflexivity.
  - exact Es.
  - rewrite E in Hc. destruct Hc as [Hc Hl]. destruct q as [lost|]; [|by destruct K as [_ []]].
    destruct (handed_get _ _ _ _ _ K) as [bl El]. pose proof (hw_msgs h1 (proj1 K) lost _ El) as Hlt.
    assert (left_alone lost h1 (ex_wait_answer h1)) as La.
    { intros st got h' [= <- <- <-]. split; [intros [= Eq]; lia|]. cbn. rewrite lookup_insert_ne; [done|lia]. }
    unfold call_end_h, ex_wait_answer, upd_msg in Hc. cbn in Hc. rewrite lookup_insert_eq in Hc. cbn in Hc.
    destruct (Hl lost eq_refl La _ _ _ Hc) as [Hne Hi]. exists (hp_next h1), lost, sc'. eexists.
    split; [exact Hc|]. split; [congruence|exact Hi].
Defined.

Lemma realloc_payload_ownership_witness :
  exists m' h', realloc_payload_h junk true true ex_heap (Some 0%nat) 200 true false = Ret (Some 0%nat, h') /\
    handed ex_heap 0 h' (Some 0%nat) (Some m').
Proof.
  assert (match realloc_payload junk (Some ex_msg) 200 true false with Ret (Some _) => true | _ => false end = true) as E
    by (vm_compute; reflexivity).
  destruct (realloc_payload junk (Some ex_msg) 200 true false) as [[m'|]|] eqn:Er; [|discriminate E..].
  destruct (realloc_payload_ownership junk ex_heap 0 ex_msg (Some 1%nat) 200 true false m' ex_heap_wf ex_heap_get eq_refl Er)
    as (q & h' & Eh & -> & K).
  exists m', h'. split; [exact Eh|exact K].
Defined.

Lemma realloc_payload_no_memory_witness :
  exists h', realloc_payload_h junk true false ex_heap (Some 0%nat) 200 true false = Ret (None, h') /\
    1%nat ∈ hp_bufs h' /\ rmr_free_msg h' (Some 0%nat) = UB.
Proof.
  destruct (realloc_payload_no_memory junk ex_heap 0 ex_msg 1 ex_buf 50 304 200 true ex_heap_wf ex_heap_get) as [_ H];
    [reflexivity..|].
  destruct (H true) as (h' & E & _ & Hb & _ & Hf). exists h'. split; [exact E|]. split; [exact Hb|exact Hf].
Defined.
