(* ===== verification/Holders.v ===== *)
(** Who holds a message: the receive functions of src/src/rmr/si/src/rmr_si.c and
    the callbacks of src/src/rmr/si/src/mt_call_si_static.c on the heap of Owners.v,
    where the ring and the chutes have pointers.

    The receive thread, the application and its calls are interleaved as a
    sequence of events; each event is a part of a function between two points where
    the others may run.  Semaphores and counters are those of River.v and MtCall.v; the
    accumulator that arrives becomes the buffer of its message.  The theorems
    show that every allocated message has one holder: the ring, a chute, or the
    application, but for those that the library has lost. *)

From S2P Require Import Prelude Bytes Symtab SymIface Tools Ring Mbuf Endpoint River RouteTable Send SendSpec Fanout MtCall MtSpec Owners.

(** ** The receive context *)

Record chute_p := MkCp { cp_mbuf : option nat; cp_expect : list Z }.
Record rx_ptrs := MkRp { rp_ring : @ring_t nat; rp_chutes : list chute_p }.

Definition set_rp_ring (rp : rx_ptrs) (r : @ring_t nat) : rx_ptrs := MkRp r (rp_chutes rp).
Definition set_rp_chute (rp : rx_ptrs) (i : nat) (c : chute_p) : rx_ptrs := MkRp (rp_ring rp) (<[i := c]> (rp_chutes rp)).

(** Stores through a pointer that may be nil. *)
Definition upd_opt (h : heap) (p : option nat) (f : mbuf -> mbuf) : comp heap :=
  match p with Some p => upd_msg h p f | None => Ret h end.

(** ** The receive thread *)

Definition queue_normal_h (h : heap) (rp : rx_ptrs) (p : nat) : comp (heap * rx_ptrs) :=
  let r := uta_ring_insert true (rp_ring rp) (Some p) in
  if r.1 =? 0 then h ← rmr_free_msg h (Some p); Ret (h, set_rp_ring rp r.2)
  else Ret (h, set_rp_ring rp r.2).

(** What is in the chute is overwritten. *)
Definition chute_msg_h (rp : rx_ptrs) (i : nat) (p : nat) : rx_ptrs :=
  MkRp (rp_ring rp) (alter (fun c => MkCp (Some p) (cp_expect c)) i (rp_chutes rp)).

Definition buf2mbuf_h (h : heap) (rp : rx_ptrs) (max_ibm : Z) (raw_msg : list Z) (msg_size sender_fd : Z) : comp (heap * rx_ptrs) :=
  header_len ← RMR_HDR_LEN raw_msg TP_HDR_LEN;
  payload_len ← get32n raw_msg (TP_HDR_LEN + o_plen);
  if u32 msg_size <? u32 (header_len + TP_HDR_LEN + payload_len) then Ret (h, rp)
  else
    let mbuf := set_rts_fd sender_fd (set_tp_buf (Some raw_msg) (alloc_mbuf RMR_ERR_UNSET)) in
    let mbuf := if max_ibm + 1024 <? msg_size then set_flags (Z.lor (m_flags mbuf) MFL_HUGE) mbuf else mbuf in
    mbuf ← ref_tpbuf mbuf msg_size;
    let '(p, h) := malloc_msg h in
    let '(b, h) := malloc_buf h in
    let h := put_msg h p mbuf (Some b) in
    let flags := load32 raw_msg (TP_HDR_LEN + o_flags) in
    if negb (Z.land flags HFL_CALL_MSG =? 0) then queue_normal_h h rp p else
    d1_len ← RMR_D1_LEN raw_msg TP_HDR_LEN;
    if d1_len <=? 0 then queue_normal_h h rp p else
    d1 ← DATA1_ADDR raw_msg TP_HDR_LEN;
    call_id ← get8 raw_msg d1;
    if call_id =? 0 then queue_normal_h h rp p
    else Ret (h, chute_msg_h rp (Z.to_nat call_id) p).

(** ** Receiving *)

Definition timed_out (m : mbuf) : mbuf := set_len 0 (set_state RMR_ERR_TIMEOUT m).

Definition poll_h (lk : bool) (h : heap) (rp : rx_ptrs) (o : option nat) : comp (option nat * heap * rx_ptrs) :=
  let '(got, ring) := uta_ring_extract lk (rp_ring rp) in
  match got with
  | Some p => h ← rmr_free_msg h o; h ← upd_msg h p add_src; Ret (Some p, h, set_rp_ring rp ring)
  | None => h ← upd_opt h o (fun m => add_src (timed_out m)); Ret (o, h, set_rp_ring rp ring)
  end.

(** Before and after the wait. *)
Definition preset_h (h : heap) (o : option nat) : comp heap := upd_opt h o timed_out.

Definition waited_h (lk : bool) (err : Z) (h : heap) (rp : rx_ptrs) (o : option nat) : comp (option nat * heap * rx_ptrs) :=
  if negb (err =? 0) then h ← upd_opt h o (set_tp_state err); Ret (o, h, rp)
  else
    let '(got, ring) := uta_ring_extract lk (rp_ring rp) in
    match got with
    | Some p =>
        h ← upd_msg h p (fun m => add_src (set_state RMR_OK m));
        h ← rmr_free_msg h o;
        h ← upd_msg h p (set_tp_state 0);
        Ret (Some p, h, set_rp_ring rp ring)
    | None => h ← upd_opt h o (set_tp_state ETIMEDOUT); Ret (o, h, set_rp_ring rp ring)
    end.

(** A wait: errno, and the heap and the receive context when it is over. *)
Record wait_h := MkWaitH { wh_err : Z; wh_heap : heap; wh_rx : rx_ptrs }.

Fixpoint sem_loop_h (ws : list wait_h) : option wait_h :=
  match ws with
  | [] => None
  | w :: ws' => if wh_err w =? EINTR then sem_loop_h ws' else Some w
  end.

Definition rmr_mt_rcv_h (lk : bool) (h : heap) (rp : rx_ptrs) (o : option nat) (max_wait : Z) (ws : list wait_h) :
    comp (option (option nat * heap * rx_ptrs)) :=
  if max_wait =? 0 then x ← poll_h lk h rp o; Ret (Some x)
  else
    _ ← preset_h h o;
    match sem_loop_h ws with
    | None => Ret None
    | Some w => x ← waited_h lk (wh_err w) (wh_heap w) (wh_rx w) o; Ret (Some x)
    end.

(** ** The chute of a call *)

(** The start: a delayed message is dropped. *)
Definition call_clear_h (h : heap) (rp : rx_ptrs) (i : nat) (expect : list Z) : comp (heap * rx_ptrs) :=
  c ← deref (rp_chutes rp !! i);
  h ← rmr_free_msg h (cp_mbuf c);
  Ret (h, set_rp_chute rp i (MkCp None expect)).

(** After a wait: a message of another transaction is dropped. *)
Definition call_vet_h (h : heap) (rp : rx_ptrs) (i : nat) : comp (heap * rx_ptrs) :=
  c ← deref (rp_chutes rp !! i);
  match cp_mbuf c with
  | None => Ret (h, rp)
  | Some p =>
      '(m, _) ← deref (hp_msgs h !! p);
      x ← xact_bytes m RMR_MAX_XID;
      if bool_decide (cp_expect c = x) then Ret (h, rp)
      else h ← rmr_free_msg h (Some p); Ret (h, set_rp_chute rp i (MkCp None (cp_expect c)))
  end.

(** The end. *)
Definition call_take_h (h : heap) (rp : rx_ptrs) (i : nat) (state : Z) : comp (option nat * heap * rx_ptrs) :=
  if state <? 0 then Ret (None, h, rp)
  else
    c ← deref (rp_chutes rp !! i);
    h ← upd_opt h (cp_mbuf c) (set_state RMR_OK);
    Ret (cp_mbuf c, h, set_rp_chute rp i (MkCp None (cp_expect c))).

(** ** Events *)

(** [wl_app]: the messages that the application has; [wl_lost]: those that are
    allocated, but nobody has a pointer to. *)
Record world := MkWorld { wl_heap : heap; wl_rx : rx_ptrs; wl_app : list nat; wl_lost : list nat }.

Definition without (o : option nat) (app : list nat) : list nat :=
  match o with Some p => filter (fun q => q <> p) app | None => app end.

(** The pointers that were in chutes of [rp] and are not in those of [rp']. *)
Definition evicted (rp rp' : rx_ptrs) : list nat :=
  concat (zip_with (fun c c' => match cp_mbuf c with
                                | Some p => if decide (cp_mbuf c' = Some p) then [] else [p]
                                | None => []
                                end) (rp_chutes rp) (rp_chutes rp')).

Section events.
Context {TH TE N : Type} `{Symbols TH thing} `{Symbols TE nat} `{Transport N}.
Variable malloc_bytes : Z -> list Z.
Abbreviation sctx := (send_ctx TH TE N).

Inductive event :=
| EArrive (max_ibm : Z) (raw : list Z) (size fd : Z)
| EPoll (lk : bool) (o : option nat)
| EPreset (o : option nat)
| EWaited (lk : bool) (err : Z) (o : option nat)
| EAlloc (ctx : msg_ctx) (size : Z)
| EFree (p : nat)
| ESend (sc : sctx) (p : nat)
| ECallClear (i : nat) (expect : list Z)
| ECallSend (sc : sctx) (p : nat) (call_id : Z) (ep : option Z)
| ECallVet (i : nat)
| ECallTake (i : nat) (state : Z).

Definition exec (w : world) (e : event) : comp world :=
  let '(MkWorld h rp app lost) := w in
  match e with
  | EArrive max_ibm raw size fd =>
      '(h, rp') ← buf2mbuf_h h rp max_ibm raw size fd; Ret (MkWorld h rp' app (evicted rp rp' ++ lost))
  | EPoll lk o => '(r, h, rp) ← poll_h lk h rp o; Ret (MkWorld h rp (option_list r ++ without o app) lost)
  | EPreset o => h ← preset_h h o; Ret (MkWorld h rp app lost)
  | EWaited lk err o => '(r, h, rp) ← waited_h lk err h rp o; Ret (MkWorld h rp (option_list r ++ without o app) lost)
  | EAlloc ctx size => '(p, h) ← alloc_zcmsg_h malloc_bytes ctx h None size 0 (-1); Ret (MkWorld h rp (p :: app) lost)
  | EFree p => h ← rmr_free_msg h (Some p); Ret (MkWorld h rp (without (Some p) app) lost)
  | ESend sc p =>
      '(r, _, h) ← rmr_send_msg_h malloc_bytes (Some sc) h (Some p);
      Ret (MkWorld h rp (option_list r ++ without (Some p) app) lost)
  | ECallClear i expect => '(h, rp) ← call_clear_h h rp i expect; Ret (MkWorld h rp app lost)
  | ECallSend sc p call_id ep =>
      '(m, b) ← deref (hp_msgs h !! p);
      m ← mark_call m call_id;
      '(r, _, h) ← call_send_h malloc_bytes sc (put_msg h p m b) p ep;
      match r with
      | None => Ret (MkWorld h rp (without (Some p) app) lost)
      | Some q =>
          '(m, _) ← deref (hp_msgs h !! q);
          if m_state m =? RMR_OK then Ret (MkWorld h rp (without (Some p) app) (q :: lost))
          else Ret (MkWorld h rp (q :: without (Some p) app) lost)
      end
  | ECallVet i => '(h, rp) ← call_vet_h h rp i; Ret (MkWorld h rp app lost)
  | ECallTake i state => '(r, h, rp) ← call_take_h h rp i state; Ret (MkWorld h rp (option_list r ++ app) lost)
  end.

Fixpoint exec_all (w : world) (es : list event) : comp world :=
  match es with [] => Ret w | e :: es => w ← exec w e; exec_all w es end.

(** What the functions may be given: the application passes messages that it
    has, and what they do to values is defined in the other files. *)
Definition mine (w : world) (o : option nat) : Prop := forall p, o = Some p -> p ∈ wl_app w.

Definition legal (w : world) (e : event) : Prop :=
  match e with
  | EArrive max_ibm raw size fd =>
      Forall is_byte raw /\ exists now rx rx', rx_max_ibm rx = max_ibm /\ buf2mbuf now rx raw size fd = Ret rx'
  | EPoll _ o | EPreset o | EWaited _ _ o => mine w o
  | EAlloc ctx size => exists m, alloc_zcmsg malloc_bytes ctx None None size 0 (-1) = Ret m
  | EFree p => p ∈ wl_app w
  | ESend sc p =>
      p ∈ wl_app w /\ lens_int (sc_mctx sc) /\
      forall m b, hp_msgs (wl_heap w) !! p = Some (m, b) -> exists r, rmr_send_msg malloc_bytes (Some sc) (Some m) = Ret r
  | ECallSend sc p call_id ep =>
      p ∈ wl_app w /\ lens_int (sc_mctx sc) /\
      forall m b, hp_msgs (wl_heap w) !! p = Some (m, b) ->
        exists m1 r, mark_call m call_id = Ret m1 /\ call_send malloc_bytes sc m1 ep = Ret r
  | ECallClear i _ => (i < 256)%nat
  | ECallVet i =>
      (i < 256)%nat /\ forall c p m b, rp_chutes (wl_rx w) !! i = Some c -> cp_mbuf c = Some p ->
        hp_msgs (wl_heap w) !! p = Some (m, b) -> exists x, xact_bytes m RMR_MAX_XID = Ret x
  | ECallTake i _ => (i < 256)%nat
  end.

Fixpoint legal_run (w : world) (es : list event) : Prop :=
  match es with
  | [] => True
  | e :: es => legal w e /\ forall w', exec w e = Ret w' -> legal_run w' es
  end.
End events.
Arguments event TH TE N : clear implicits.

(** * Theorems *)

(** ** Owned messages *)

(** Exactly the messages [l] are allocated. *)
Definition owned (h : heap) (l : list nat) : Prop :=
  heap_wf h /\ NoDup l /\ forall p, p ∈ l <-> is_Some (hp_msgs h !! p).

#[export] Instance owned_proper h : Proper ((≡ₚ) ==> iff) (owned h).
Proof. intros l l' Hl. unfold owned. rewrite Hl. by setoid_rewrite Hl. Qed.

Section owned.
Implicit Types (h : heap) (m : mbuf) (l : list nat).

Lemma owned_get h l p : owned h l -> p ∈ l -> exists m b, hp_msgs h !! p = Some (m, b).
Proof. intros (_ & _ & Hl) [[m b] E]%Hl. by exists m, b. Qed.

Lemma owned_handed h p l h' q r : owned h (p :: l) -> handed h p h' q r -> owned h' (option_list q ++ l).
Proof.
  intros (W & [Hp Hd]%NoDup_cons & Hl) [W' K]. split; [done|].
  assert (forall x, x ∈ l <-> is_Some (delete p (hp_msgs h) !! x)) as Hl'.
  { intros x. destruct (decide (x = p)) as [->|Hne]; [rewrite lookup_delete_eq; split; [done|by intros []]|].
    rewrite lookup_delete_ne by done. rewrite <-Hl, elem_of_cons. intuition congruence. }
  destruct q as [q|], r as [m|]; try done; cbn.
  - destruct K as (Hq & b & ->). split.
    + apply NoDup_cons. split; [|done]. rewrite Hl', Hq. by intros [].
    + intros x. rewrite elem_of_cons, lookup_insert_is_Some', Hl'. intuition congruence.
  - rewrite K. by split.
Qed.

Lemma owned_added h l h' q m : owned h l -> added h h' q m -> owned h' (q :: l).
Proof.
  intros (W & Hd & Hl) (W' & Hq & b & E). split; [done|]. rewrite E. split.
  - apply NoDup_cons. split; [|done]. rewrite Hl, Hq. by intros [].
  - intros x. rewrite elem_of_cons, lookup_insert_is_Some', Hl. intuition congruence.
Qed.

Lemma owned_free h l p : owned h (p :: l) -> exists h', rmr_free_msg h (Some p) = Ret h' /\ owned h' l.
Proof.
  intros Ho. destruct (owned_get h (p :: l) p Ho) as (m & b & E); [by left|].
  destruct (free_handed h p m b (proj1 Ho) E) as (h' & E' & K). exists h'. split; [done|].
  by apply (owned_handed h p l h' None None).
Qed.

Lemma owned_free_opt h l o : owned h (option_list o ++ l) -> exists h', rmr_free_msg h o = Ret h' /\ owned h' l.
Proof. destruct o as [p|]; [by apply owned_free|]. intros Ho. by exists h. Qed.

(** Stores into a struct that keep its buffer. *)
Definition keeps_buf (f : mbuf -> mbuf) : Prop := forall m, m_tp_buf (f m) = m_tp_buf m.

Lemma owned_upd h l p f : owned h l -> p ∈ l -> keeps_buf f -> exists h', upd_msg h p f = Ret h' /\ owned h' l.
Proof.
  intros Ho Hp Hf. destruct (owned_get h l p Ho Hp) as (m & b & E). unfold upd_msg. rewrite E. cbn [deref mbind comp_bind].
  eexists. split; [done|]. apply elem_of_Permutation in Hp as [l' Hl]. rewrite Hl in *.
  apply (owned_handed h p l' _ (Some p) (Some (f m)) Ho). apply (put_handed h p m b (f m) (proj1 Ho) E). by rewrite Hf.
Qed.

Lemma owned_upd_opt h l o f : owned h l -> (forall p, o = Some p -> p ∈ l) -> keeps_buf f ->
  exists h', upd_opt h o f = Ret h' /\ owned h' l.
Proof. intros Ho Hp Hf. destruct o as [p|]; [|by exists h]. by apply owned_upd; [|apply Hp|]. Qed.

Lemma without_perm p app : NoDup app -> p ∈ app -> app ≡ₚ p :: without (Some p) app.
Proof.
  intros Hd Hp. apply NoDup_Permutation; [done| |].
  - apply NoDup_cons. cbn. rewrite list_elem_of_filter. split; [intuition congruence|by apply NoDup_filter].
  - intros x. rewrite elem_of_cons. cbn. rewrite list_elem_of_filter. destruct (decide (x = p)); intuition congruence.
Qed.

Lemma without_opt o app : NoDup app -> (forall p, o = Some p -> p ∈ app) -> app ≡ₚ option_list o ++ without o app.
Proof. intros Hd Hp. destruct o as [p|]; [|done]. by apply without_perm; [|apply Hp]. Qed.
End owned.

#[export] Hint Extern 1 (keeps_buf _) => (intros ?; reflexivity) : core.

(** ** Chutes *)

Definition in_chutes (cs : list chute_p) : list nat := omap cp_mbuf cs.

Lemma chute_split (cs : list chute_p) i c : cs !! i = Some c ->
  exists l1 l2, cs = l1 ++ c :: l2 /\ forall c', <[i := c']> cs = l1 ++ c' :: l2.
Proof.
  intros E. exists (take i cs), (drop (S i) cs). split; [symmetry; by apply take_drop_middle|].
  intros c'. apply insert_take_drop. by eapply lookup_lt_Some.
Qed.

(** The holders of a world, with [q] in the ring. *)
Definition held (w : world) (q : list nat) : list nat := q ++ in_chutes (rp_chutes (wl_rx w)) ++ wl_app w ++ wl_lost w.

Record holding (w : world) (q : list nat) : Prop := {
  ho_ring : ring_wf (rp_ring (wl_rx w));
  ho_queue : ring_contents (rp_ring (wl_rx w)) = Some <$> q;
  ho_chutes : length (rp_chutes (wl_rx w)) = 256%nat;
  ho_owned : owned (wl_heap w) (held w q)
}.

Lemma in_chutes_put l1 l2 c : in_chutes (l1 ++ c :: l2) ≡ₚ option_list (cp_mbuf c) ++ in_chutes (l1 ++ l2).
Proof. unfold in_chutes. rewrite !omap_app. cbn. destruct (cp_mbuf c); cbn; [by rewrite <-Permutation_middle|done]. Qed.

Lemma evicted_same cs : concat (zip_with (fun c c' => match cp_mbuf c with
    | Some p => if decide (cp_mbuf c' = Some p) then [] else [p] | None => [] end) cs cs) = [].
Proof. induction cs as [|c cs IH]; [done|]. cbn. rewrite IH. destruct (cp_mbuf c); [by rewrite decide_True|done]. Qed.

Lemma evicted_put ring ring' l1 l2 c c' : evicted (MkRp ring (l1 ++ c :: l2)) (MkRp ring' (l1 ++ c' :: l2)) =
  match cp_mbuf c with Some p => if decide (cp_mbuf c' = Some p) then [] else [p] | None => [] end.
Proof.
  unfold evicted. cbn. induction l1 as [|d l1 IH]; cbn.
  - by rewrite evicted_same, app_nil_r.
  - rewrite IH. destruct (cp_mbuf d); [by rewrite decide_True|done].
Qed.

Lemma evicted_ring ring ring' cs : evicted (MkRp ring cs) (MkRp ring' cs) = [].
Proof. apply evicted_same. Qed.

(** ** The ring *)

Lemma extract_ptrs lk (r : @ring_t nat) q : ring_wf r -> ring_contents r = Some <$> q ->
  exists got r', uta_ring_extract lk r = (got, r') /\ ring_wf r' /\
    match got with
    | Some p => exists q', q = p :: q' /\ ring_contents r' = Some <$> q'
    | None => r' = r
    end.
Proof.
  intros W Hq. destruct (r_tail r =? r_head r) eqn:Et; [exists None, r; unfold uta_ring_extract; by rewrite Et|].
  destruct (r_rgate r && negb lk) eqn:Eg; [exists None, r; unfold uta_ring_extract; by rewrite Et, Eg|].
  apply Z.eqb_neq in Et. destruct (extract_spec r lk W Eg Et) as [W' Hc]. rewrite Hq in Hc.
  destruct (uta_ring_extract lk r) as [got r']. cbn in *. destruct q as [|p q']; [done|]. injection Hc as <- Hc.
  exists (Some p), r'. split_and!; [done..|]. by exists q'.
Qed.

Lemma insert_ptrs (r : @ring_t nat) q p : ring_wf r -> ring_contents r = Some <$> q ->
  let x := uta_ring_insert true r (Some p) in
  ring_wf x.2 /\ ring_contents x.2 = Some <$> (if x.1 =? 0 then q else q ++ [p]).
Proof.
  intros W Hq x. destruct (ring_full r) eqn:Ef.
  - subst x. unfold uta_ring_insert. rewrite andb_false_r, Ef. by split.
  - destruct (insert_spec r true (Some p) W) as (E1 & W' & Hc); [by rewrite andb_false_r|done|].
    unfold x. rewrite E1. split; [done|]. change (1 =? 0) with false. by rewrite Hc, Hq, fmap_app.
Qed.

(** ** One event *)

(** Permutations of lists of pointers, by counting. *)
Ltac perm :=
  apply (Permutation_count_occ Nat.eq_dec); intro;
  repeat first [rewrite count_occ_app | progress cbn [count_occ option_list option_rect app]];
  repeat (destruct (Nat.eq_dec _ _)); lia.

Section steps.
Implicit Types (h : heap) (rp : rx_ptrs) (q app lost : list nat).

(** The receive thread. *)
Lemma queue_normal_holds h rp q p l : ring_wf (rp_ring rp) -> ring_contents (rp_ring rp) = Some <$> q -> owned h (p :: q ++ l) ->
  exists h' rp' q', queue_normal_h h rp p = Ret (h', rp') /\ rp_chutes rp' = rp_chutes rp /\
    ring_wf (rp_ring rp') /\ ring_contents (rp_ring rp') = Some <$> q' /\ owned h' (q' ++ l).
Proof.
  intros W Hq Ho. destruct (insert_ptrs (rp_ring rp) q p W Hq) as [W' Hc]. unfold queue_normal_h.
  destruct (uta_ring_insert true (rp_ring rp) (Some p)) as [n r]. cbn [fst snd] in *. destruct (n =? 0).
  - destruct (owned_free _ _ _ Ho) as (h' & -> & Ho'). cbn. by eexists _, _, q.
  - eexists _, _, (q ++ [p]). split; [done|]. split_and!; try done. eapply owned_proper; [|exact Ho]. by rewrite <-app_assoc, Permutation_middle.
Qed.

Lemma buf2mbuf_h_eq now rx rx' h rp raw size fd : Forall is_byte raw -> buf2mbuf now rx raw size fd = Ret rx' ->
  buf2mbuf_h h rp (rx_max_ibm rx) raw size fd = Ret (h, rp) \/
  exists m i, (i < 256)%nat /\ is_Some (m_tp_buf m) /\
    let '(p, h1) := malloc_msg h in
    let '(b, h1) := malloc_buf h1 in
    buf2mbuf_h h rp (rx_max_ibm rx) raw size fd =
      if decide (i = 0%nat) then queue_normal_h (put_msg h1 p m (Some b)) rp p else Ret (put_msg h1 p m (Some b), chute_msg_h rp i p).
Proof.
  intros Hb. unfold buf2mbuf, buf2mbuf_h. destruct (RMR_HDR_LEN raw TP_HDR_LEN) as [hl|]; [|done].
  destruct (get32n raw (TP_HDR_LEN + o_plen)) as [pl|]; [|done]. cbn [mbind comp_bind].
  destruct (u32 size <? _); [by left|]. set (mb := if _ : bool then _ else _).
  destruct (ref_tpbuf mb size) as [m|] eqn:Er; [|done]. cbn [mbind comp_bind]. pose proof (ref_tpbuf_buf _ _ _ Er) as Hm.
  intros E. right. exists m. cbn [malloc_msg malloc_buf].
  destruct (negb _); [by exists 0%nat; split_and!; [lia|done|rewrite decide_True]|].
  destruct (RMR_D1_LEN raw TP_HDR_LEN) as [dl|]; [|done]. cbn [mbind comp_bind] in *.
  destruct (dl <=? 0); [by exists 0%nat; split_and!; [lia|done|rewrite decide_True]|].
  destruct (DATA1_ADDR raw TP_HDR_LEN) as [d1|]; [|done]. cbn [mbind comp_bind] in *.
  destruct (get8 raw d1) as [c|] eqn:Ec; [|done]. cbn [mbind comp_bind] in *. pose proof (get8_range _ _ _ Hb Ec).
  exists (Z.to_nat c). destruct (Z.eqb_spec c 0) as [->|]; [by split_and!; [lia|done|rewrite decide_True]|].
  split_and!; [lia|done|]. rewrite decide_False by lia. done.
Qed.

Lemma arrive_holds w q max_ibm raw size fd :
  holding w q -> Forall is_byte raw -> (exists now rx rx', rx_max_ibm rx = max_ibm /\ buf2mbuf now rx raw size fd = Ret rx') ->
  exists h rp q', buf2mbuf_h (wl_heap w) (wl_rx w) max_ibm raw size fd = Ret (h, rp) /\
    holding (MkWorld h rp (wl_app w) (evicted (wl_rx w) rp ++ wl_lost w)) q'.
Proof.
  destruct w as [h [ring cs] app lost]. intros [W Hq Hc Ho] Hb (now & rx & rx' & <- & Ev). unfold held in Ho. cbn [wl_heap wl_rx wl_app wl_lost rp_ring rp_chutes] in *.
  destruct (buf2mbuf_h_eq now rx rx' h (MkRp ring cs) raw size fd Hb Ev) as [E|(m & i & Hi & Hm & E)].
  { exists h, (MkRp ring cs), q. split; [exact E|]. rewrite evicted_ring. by split. }
  pose proof (owned_added _ _ _ _ m Ho (new_added h m (proj1 Ho) Hm)) as Ho1. cbn [malloc_msg malloc_buf] in *.
  set (p := hp_next h) in *. set (h1 := put_msg _ p m _) in *. rewrite E. case_decide as E0.
  - destruct (queue_normal_holds h1 (MkRp ring cs) q p _ W Hq Ho1) as (h2 & [ring2 cs2] & q2 & -> & Ec & W2 & Hq2 & Ho2). cbn in Ec. subst cs2.
    eexists _, _, q2. split; [done|]. rewrite evicted_ring. by split.
  - destruct (lookup_lt_is_Some_2 cs i) as [c Ei]; [lia|]. destruct (chute_split cs i c Ei) as (l1 & l2 & Es & Hput).
    exists h1, (chute_msg_h (MkRp ring cs) i p), q. split; [done|]. unfold chute_msg_h. cbn [rp_ring rp_chutes].
    rewrite (alter_as_insert _ cs i c Ei), Hput. split; [done|done|cbn; by rewrite <-Hput, length_insert|].
    rewrite Es, evicted_put. unfold held. cbn [wl_heap wl_rx wl_app wl_lost rp_chutes cp_mbuf].
    eapply owned_proper; [|exact Ho1]. rewrite Es, !in_chutes_put. cbn [cp_mbuf]. destruct (cp_mbuf c) as [o|] eqn:Eo; [|perm].
    case_decide as Epo; [|perm]. injection Epo as <-. exfalso. destruct Ho1 as (_ & [Hn _]%NoDup_cons & _). apply Hn.
    rewrite Es, in_chutes_put, Eo. apply elem_of_app. right. apply elem_of_app. left. by left.
Qed.

Lemma owned_app h l1 l2 l3 app l : owned h (l1 ++ l2 ++ app ++ l3) -> (forall p, l = Some p -> p ∈ app) ->
  owned h (l1 ++ l2 ++ (option_list l ++ without l app) ++ l3).
Proof.
  intros Ho Hl. assert (NoDup app) as Hd.
  { destruct Ho as (_ & Hn & _). rewrite !NoDup_app in Hn. tauto. }
  by rewrite <-(without_opt l app Hd Hl).
Qed.

(** The message is taken from the ring, the one that was passed is freed. *)
Lemma taken_holds ring' cs h q app lost o p f g :
  owned h ((p :: q) ++ in_chutes cs ++ app ++ lost) -> (forall x, o = Some x -> x ∈ app) -> keeps_buf f -> keeps_buf g ->
  ring_wf ring' -> ring_contents ring' = Some <$> q -> length cs = 256%nat ->
  exists h1 h2 h3, upd_msg h p f = Ret h1 /\ rmr_free_msg h1 o = Ret h2 /\ upd_msg h2 p g = Ret h3 /\
    holding (MkWorld h3 (MkRp ring' cs) (p :: without o app) lost) q.
Proof.
  intros Ho Hm Hf Hg W Hq Hc. destruct (owned_upd h _ p f Ho) as (h1 & E1 & Ho1); [by left|done|].
  apply (owned_app _ (p :: q)) with (l := o) in Ho1; [|done].
  assert (owned h1 (option_list o ++ p :: q ++ in_chutes cs ++ without o app ++ lost)) as Ho1' by (eapply owned_proper; [|exact Ho1]; perm).
  destruct (owned_free_opt _ _ _ Ho1') as (h2 & E2 & Ho2). destruct (owned_upd h2 _ p g Ho2) as (h3 & E3 & Ho3); [by left|done|].
  exists h1, h2, h3. split_and!; try done. split; try done. cbn. eapply owned_proper; [|exact Ho3]. unfold held. cbn [wl_rx wl_app wl_lost rp_chutes]. perm.
Qed.

(** Nothing is taken: the message that was passed comes back. *)
Lemma kept_holds ring cs h q app lost o f : holding (MkWorld h (MkRp ring cs) app lost) q ->
  (forall x, o = Some x -> x ∈ app) -> keeps_buf f ->
  exists h1, upd_opt h o f = Ret h1 /\ holding (MkWorld h1 (MkRp ring cs) (option_list o ++ without o app) lost) q.
Proof.
  intros [W Hq Hc Ho] Hm Hf. unfold held in Ho. cbn [wl_heap wl_rx wl_app wl_lost rp_ring rp_chutes] in *.
  destruct (owned_upd_opt h _ o f Ho) as (h1 & E1 & Ho1); [|done|].
  { intros x ->. apply elem_of_app. right. apply elem_of_app. right. apply elem_of_app. left. by apply Hm. }
  exists h1. split; [done|]. split; try done. by apply owned_app.
Qed.

Lemma poll_holds w q lk o : holding w q -> mine w o ->
  exists r h rp q', poll_h lk (wl_heap w) (wl_rx w) o = Ret (r, h, rp) /\
    holding (MkWorld h rp (option_list r ++ without o (wl_app w)) (wl_lost w)) q'.
Proof.
  destruct w as [h [ring cs] app lost]. intros Hw Hm. pose proof Hw as [W Hq Hc Ho]. unfold held, mine in *.
  cbn [wl_heap wl_rx wl_app wl_lost rp_ring rp_chutes] in *. unfold poll_h. cbn [rp_ring].
  destruct (extract_ptrs lk ring q W Hq) as (got & ring' & -> & W' & Hg). destruct got as [p|].
  - destruct Hg as (q' & -> & Hq'). destruct (taken_holds ring' cs h q' app lost o p (fun m => m) add_src Ho Hm) as (h1 & h2 & h3 & E1 & E2 & E3 & Hh); auto.
    assert (h1 = h) as ->. { unfold upd_msg in E1. destruct (hp_msgs h !! p) as [[m b]|] eqn:Ep; [|done]. injection E1 as <-. unfold put_msg, set_msgs. rewrite insert_id by done. by destruct h. }
    rewrite E2. cbn [mbind comp_bind]. rewrite E3. cbn [mbind comp_bind]. by exists (Some p), h3, (MkRp ring' cs), q'.
  - subst ring'. destruct (kept_holds ring cs h q app lost o (fun m => add_src (timed_out m)) Hw Hm) as (h1 & -> & Hh); [auto|]. by exists o, h1, (MkRp ring cs), q.
Qed.

Lemma waited_holds w q lk err o : holding w q -> mine w o ->
  exists r h rp q', waited_h lk err (wl_heap w) (wl_rx w) o = Ret (r, h, rp) /\
    holding (MkWorld h rp (option_list r ++ without o (wl_app w)) (wl_lost w)) q'.
Proof.
  destruct w as [h [ring cs] app lost]. intros Hw Hm. pose proof Hw as [W Hq Hc Ho]. unfold held, mine in *.
  cbn [wl_heap wl_rx wl_app wl_lost rp_ring rp_chutes] in *. unfold waited_h. cbn [rp_ring]. destruct (negb (err =? 0)).
  { destruct (kept_holds ring cs h q app lost o (set_tp_state err) Hw Hm) as (h1 & -> & Hh); [auto|]. by exists o, h1, (MkRp ring cs), q. }
  destruct (extract_ptrs lk ring q W Hq) as (got & ring' & -> & W' & Hg). destruct got as [p|].
  - destruct Hg as (q' & -> & Hq').
    destruct (taken_holds ring' cs h q' app lost o p (fun m => add_src (set_state RMR_OK m)) (set_tp_state 0) Ho Hm) as (h1 & h2 & h3 & E1 & E2 & E3 & Hh); auto.
    rewrite E1. cbn [mbind comp_bind]. rewrite E2. cbn [mbind comp_bind]. rewrite E3. cbn [mbind comp_bind]. by exists (Some p), h3, (MkRp ring' cs), q'.
  - subst ring'. destruct (kept_holds ring cs h q app lost o (set_tp_state ETIMEDOUT) Hw Hm) as (h1 & -> & Hh); [auto|]. by exists o, h1, (MkRp ring cs), q.
Qed.

Lemma chute_holds ring cs h q app lost i c c' h' l : holding (MkWorld h (MkRp ring cs) app lost) q -> cs !! i = Some c -> cp_mbuf c' = None ->
  owned h' (l ++ q ++ in_chutes (<[i := c']> cs) ++ app ++ lost) -> holding (MkWorld h' (MkRp ring (<[i := c']> cs)) (l ++ app) lost) q.
Proof.
  intros [W Hq Hc _] Ei Hn Ho. cbn in *. split; try done; [cbn; by rewrite length_insert|]. cbn. unfold held. cbn [wl_rx wl_app wl_lost rp_chutes].
  eapply owned_proper; [|exact Ho]. perm.
Qed.

(** A chute is emptied: its message is the first of those held. *)
Lemma chute_perm cs i c c' : cs !! i = Some c -> cp_mbuf c' = None -> in_chutes cs ≡ₚ option_list (cp_mbuf c) ++ in_chutes (<[i := c']> cs).
Proof.
  intros Ei Hn. destruct (chute_split cs i c Ei) as (l1 & l2 & -> & ->). rewrite !in_chutes_put, Hn. done.
Qed.

Lemma clear_holds w q i expect : holding w q -> (i < 256)%nat ->
  exists h rp, call_clear_h (wl_heap w) (wl_rx w) i expect = Ret (h, rp) /\ holding (MkWorld h rp (wl_app w) (wl_lost w)) q.
Proof.
  destruct w as [h [ring cs] app lost]. intros Hw Hi. pose proof Hw as [W Hq Hc Ho]. unfold held in Ho.
  cbn [wl_heap wl_rx wl_app wl_lost rp_ring rp_chutes] in *. destruct (lookup_lt_is_Some_2 cs i) as [c Ei]; [lia|].
  unfold call_clear_h. cbn [rp_chutes]. rewrite Ei. cbn [deref mbind comp_bind]. rewrite (chute_perm cs i c (MkCp None expect) Ei eq_refl) in Ho.
  destruct (owned_free_opt h (q ++ in_chutes (<[i := MkCp None expect]> cs) ++ app ++ lost) (cp_mbuf c)) as (h1 & -> & Ho1).
  { eapply owned_proper; [|exact Ho]. perm. }
  eexists _, _. split; [done|]. by apply (chute_holds ring cs h q app lost i c _ h1 []).
Qed.

Lemma vet_holds w q i : holding w q -> (i < 256)%nat ->
  (forall c p m b, rp_chutes (wl_rx w) !! i = Some c -> cp_mbuf c = Some p -> hp_msgs (wl_heap w) !! p = Some (m, b) ->
    exists x, xact_bytes m RMR_MAX_XID = Ret x) ->
  exists h rp, call_vet_h (wl_heap w) (wl_rx w) i = Ret (h, rp) /\ holding (MkWorld h rp (wl_app w) (wl_lost w)) q.
Proof.
  destruct w as [h [ring cs] app lost]. intros Hw Hi Hx. pose proof Hw as [W Hq Hc Ho]. unfold held in Ho.
  cbn [wl_heap wl_rx wl_app wl_lost rp_ring rp_chutes] in *. destruct (lookup_lt_is_Some_2 cs i) as [c Ei]; [lia|].
  unfold call_vet_h. cbn [rp_chutes]. rewrite Ei. cbn [deref mbind comp_bind]. destruct (cp_mbuf c) as [p|] eqn:Ec; [|by eexists _, _].
  rewrite (chute_perm cs i c (MkCp None (cp_expect c)) Ei eq_refl), Ec in Ho.
  destruct (owned_get h _ p Ho) as (m & b & Ep); [apply elem_of_app; right; apply elem_of_app; left; by left|].
  destruct (Hx c p m b Ei Ec Ep) as [x Ex]. rewrite Ep. cbn [deref mbind comp_bind]. rewrite Ex. cbn [mbind comp_bind].
  case_bool_decide; [by eexists _, _|].
  destruct (owned_free h (q ++ in_chutes (<[i := MkCp None (cp_expect c)]> cs) ++ app ++ lost) p) as (h1 & -> & Ho1).
  { eapply owned_proper; [|exact Ho]. perm. }
  eexists _, _. split; [done|]. by apply (chute_holds ring cs h q app lost i c _ h1 []).
Qed.

Lemma take_holds w q i state : holding w q -> (i < 256)%nat ->
  exists r h rp, call_take_h (wl_heap w) (wl_rx w) i state = Ret (r, h, rp) /\
    holding (MkWorld h rp (option_list r ++ wl_app w) (wl_lost w)) q.
Proof.
  destruct w as [h [ring cs] app lost]. intros Hw Hi. pose proof Hw as [W Hq Hc Ho]. unfold held in Ho.
  cbn [wl_heap wl_rx wl_app wl_lost rp_ring rp_chutes] in *. unfold call_take_h. destruct (state <? 0); [by eexists None, _, _|].
  destruct (lookup_lt_is_Some_2 cs i) as [c Ei]; [lia|]. cbn [rp_chutes]. rewrite Ei. cbn [deref mbind comp_bind].
  rewrite (chute_perm cs i c (MkCp None (cp_expect c)) Ei eq_refl) in Ho.
  destruct (owned_upd_opt h _ (cp_mbuf c) (set_state RMR_OK) Ho) as (h1 & -> & Ho1); [|auto|].
  { intros p ->. apply elem_of_app. right. apply elem_of_app. left. by left. }
  eexists _, _, _. split; [done|]. apply (chute_holds ring cs h q app lost i c _ h1); [done..|]. eapply owned_proper; [|exact Ho1]. perm.
Qed.

(** What the application does with one of its messages. *)
Lemma mine_first w q p : holding w q -> p ∈ wl_app w ->
  owned (wl_heap w) (p :: q ++ in_chutes (rp_chutes (wl_rx w)) ++ without (Some p) (wl_app w) ++ wl_lost w).
Proof.
  intros [_ _ _ Ho] Hp. unfold held in Ho. apply (owned_app _ q) with (l := Some p) in Ho; [|by intros ? [= <-]].
  eapply owned_proper; [|exact Ho]. perm.
Qed.

Lemma holding_app w q h l lost : holding w q -> owned h (q ++ in_chutes (rp_chutes (wl_rx w)) ++ l ++ lost) ->
  holding (MkWorld h (wl_rx w) l lost) q.
Proof. intros [W Hq Hc _] Ho. by split. Qed.
End steps.

(** ** What a receive gives *)

(** The message [p] has become [m], the one that was passed is gone, the others
    are as they were. *)
Definition swapped (h : heap) (o : option nat) (p : nat) (m : mbuf) (b : option nat) (h' : heap) : Prop :=
  hp_msgs h' = <[p := (m, b)]> (match o with Some x => delete x (hp_msgs h) | None => hp_msgs h end).

Lemma swap_msgs h o p m b f g : heap_wf h -> hp_msgs h !! p = Some (m, b) -> keeps_buf f -> o <> Some p ->
  (forall x, o = Some x -> is_Some (hp_msgs h !! x)) ->
  exists h1 h2 h3, upd_msg h p f = Ret h1 /\ rmr_free_msg h1 o = Ret h2 /\ upd_msg h2 p g = Ret h3 /\ swapped h o p (g (f m)) b h3.
Proof.
  intros W Ep Hf Hne Ho. unfold upd_msg at 1. rewrite Ep. cbn [deref mbind comp_bind].
  destruct (put_handed h p m b (f m) W Ep) as [W1 _]; [by rewrite Hf|]. set (h1 := put_msg h p (f m) b) in *.
  assert (hp_msgs h1 = <[p := (f m, b)]> (hp_msgs h)) as E1 by done.
  assert (exists h2, rmr_free_msg h1 o = Ret h2 /\ hp_msgs h2 = match o with Some x => delete x (hp_msgs h1) | None => hp_msgs h1 end) as (h2 & E2 & Em2).
  { destruct o as [x|]; [|by exists h1]. destruct (Ho x eq_refl) as [[mx bx] Ex].
    destruct (free_handed h1 x mx bx W1) as (h2 & E2 & K); [rewrite E1, lookup_insert_ne; congruence|]. exists h2. split; [done|]. apply K. }
  assert (hp_msgs h2 !! p = Some (f m, b)) as Ep2.
  { rewrite Em2, E1. destruct o as [x|]; [rewrite lookup_delete_ne by congruence|]; apply lookup_insert_eq. }
  exists h1, h2. unfold upd_msg. rewrite Ep2. cbn [deref mbind comp_bind]. eexists. split; [done|]. split; [exact E2|]. split; [done|].
  unfold swapped. cbn. rewrite Em2, E1. destruct o as [x|]; [|apply insert_insert_eq].
  rewrite delete_insert_ne by congruence. apply insert_insert_eq.
Qed.

(** A receive gives the oldest message of the ring, with the contents it has in
    rmr_mt_rcv on values, and frees the message that was passed. *)
Theorem receive_gives_oldest w p q o m b : holding w (p :: q) -> mine w o -> hp_msgs (wl_heap w) !! p = Some (m, b) ->
  (exists h rp, poll_h true (wl_heap w) (wl_rx w) o = Ret (Some p, h, rp) /\ swapped (wl_heap w) o p (add_src m) b h) /\
  (exists h rp, waited_h true 0 (wl_heap w) (wl_rx w) o = Ret (Some p, h, rp) /\
     swapped (wl_heap w) o p (set_tp_state 0 (add_src (set_state RMR_OK m))) b h).
Proof.
  intros [W Hq Hc Ho] Hm Ep. assert (o <> Some p) as Hne.
  { intros ->. pose proof (Hm p eq_refl) as Hp. destruct Ho as (_ & [Hn _]%NoDup_cons & _). apply Hn. rewrite !elem_of_app. tauto. }
  assert (forall x, o = Some x -> is_Some (hp_msgs (wl_heap w) !! x)) as Hox.
  { intros x Hx. apply Ho. unfold held. rewrite !elem_of_app. right. right. left. by apply Hm. }
  assert (r_tail (rp_ring (wl_rx w)) <> r_head (rp_ring (wl_rx w))) as Ht by (intros E; by rewrite (contents_nil _ W E) in Hq).
  destruct (extract_spec (rp_ring (wl_rx w)) true W) as [_ He]; [by rewrite andb_false_r|done|]. rewrite Hq in He.
  unfold poll_h, waited_h. change (negb (0 =? 0)) with false. cbv iota.
  destruct (uta_ring_extract true (rp_ring (wl_rx w))) as [got ring']. cbn [fst] in He. injection He as <- _. split.
  - destruct (swap_msgs (wl_heap w) o p m b (fun m => m) add_src (proj1 Ho) Ep) as (h1 & h2 & h3 & E1 & E2 & E3 & Hs); auto.
    unfold upd_msg in E1. rewrite Ep in E1. injection E1 as E1.
    assert (h1 = wl_heap w) as ->. { rewrite <-E1. unfold put_msg, set_msgs. rewrite insert_id by done. by destruct (wl_heap w). }
    rewrite E2. cbn [mbind comp_bind]. rewrite E3. by eexists _, _.
  - destruct (swap_msgs (wl_heap w) o p m b (fun m => add_src (set_state RMR_OK m)) (set_tp_state 0) (proj1 Ho) Ep) as (h1 & h2 & h3 & E1 & E2 & E3 & Hs); auto.
    rewrite E1. cbn [mbind comp_bind]. rewrite E2. cbn [mbind comp_bind]. rewrite E3. by eexists _, _.
Qed.

(** ** Any order of events *)

Section runs.
Context {TH TE N : Type} `{Symbols TH thing} `{Symbols TE nat} `{Transport N}.
Variable malloc_bytes : Z -> list Z.
Abbreviation ev := (event TH TE N).
Implicit Types (w : world) (e : ev) (es : list ev) (sc : send_ctx TH TE N).

Lemma send_holds w q sc p : holding w q -> p ∈ wl_app w -> lens_int (sc_mctx sc) ->
  (forall m b, hp_msgs (wl_heap w) !! p = Some (m, b) -> exists r, rmr_send_msg malloc_bytes (Some sc) (Some m) = Ret r) ->
  exists w', exec malloc_bytes w (ESend sc p) = Ret w' /\ holding w' q.
Proof.
  intros Hw Hp Hl Hs. pose proof (mine_first w q p Hw Hp) as Ho. destruct (owned_get _ _ p Ho) as (m & b & Ep); [by left|].
  destruct (Hs m b Ep) as [[r sc'] Er].
  destruct (rmr_send_handed malloc_bytes sc (wl_heap w) p m b r sc' Hl (proj1 Ho) Ep Er) as (x & h' & E & K).
  pose proof (owned_handed _ _ _ _ _ _ Ho K) as Ho'. destruct w as [h rp app lost]. cbn [exec wl_heap wl_rx wl_app wl_lost] in *. rewrite E. cbn [mbind comp_bind].
  eexists. split; [done|]. apply (holding_app _ q h' _ lost Hw). cbn [wl_rx]. eapply owned_proper; [|exact Ho']. perm.
Qed.

Lemma call_send_holds w q sc p call_id ep : holding w q -> p ∈ wl_app w -> lens_int (sc_mctx sc) ->
  (forall m b, hp_msgs (wl_heap w) !! p = Some (m, b) ->
    exists m1 r, mark_call m call_id = Ret m1 /\ call_send malloc_bytes sc m1 ep = Ret r) ->
  exists w', exec malloc_bytes w (ECallSend sc p call_id ep) = Ret w' /\ holding w' q.
Proof.
  intros Hw Hp Hl Hs. pose proof (mine_first w q p Hw Hp) as Ho. destruct (owned_get _ _ p Ho) as (m & b & Ep); [by left|].
  destruct (Hs m b Ep) as (m1 & [r sc'] & Em & Er).
  pose proof (put_handed_some _ _ _ _ _ m1 b (handed_same _ _ _ _ (proj1 Ho) Ep) Ep (mark_call_buf _ _ _ Em)) as K0.
  destruct (call_send_handed malloc_bytes sc _ p m1 b ep r sc' Hl (proj1 K0) (lookup_insert_eq _ _ _) Er) as (x & h' & E & K).
  pose proof (owned_handed _ _ _ _ _ _ Ho (handed_trans _ _ _ _ _ _ _ _ K0 K)) as Ho'.
  destruct w as [h rp app lost]. cbn [exec wl_heap wl_rx wl_app wl_lost] in *. rewrite Ep. cbn [deref mbind comp_bind]. rewrite Em. cbn [mbind comp_bind].
  rewrite E. cbn [mbind comp_bind]. destruct x as [x|].
  - destruct (owned_get _ _ x Ho') as (m2 & b2 & Ex); [by left|]. rewrite Ex. cbn [deref mbind comp_bind].
    destruct (m_state m2 =? RMR_OK); (eexists; split; [done|]); apply (holding_app _ q h' _ _ Hw); cbn [wl_rx]; (eapply owned_proper; [|exact Ho']); perm.
  - eexists. split; [done|]. by apply (holding_app _ q h' _ _ Hw).
Qed.

Ltac parts := cbn [exec wl_heap wl_rx wl_app wl_lost mbind comp_bind] in *.

Lemma exec_holds w q e : holding w q -> legal malloc_bytes w e -> exists w' q', exec malloc_bytes w e = Ret w' /\ holding w' q'.
Proof.
  intros Hw Hl. pose proof Hw as [W Hq Hc Ho]. destruct w as [h rp app lost]. destruct e as [ibm raw size fd|lk o|o|lk err o|ctx size|p|sc p|i expect|sc p id ep|i|i st].
  - destruct (arrive_holds _ q ibm raw size fd Hw (proj1 Hl) (proj2 Hl)) as (h' & rp' & q' & E & Hh). parts. rewrite E. by eexists _, q'.
  - destruct (poll_holds _ q lk o Hw Hl) as (r & h' & rp' & q' & E & Hh). parts. rewrite E. by eexists _, q'.
  - destruct (owned_upd_opt h _ o timed_out Ho) as (h' & E & Ho'); [|auto|].
    { intros p ->. unfold held. rewrite !elem_of_app. right. right. left. by apply Hl. }
    parts. unfold preset_h. rewrite E. eexists _, q. split; [done|]. by apply (holding_app _ q h' app lost Hw).
  - destruct (waited_holds _ q lk err o Hw Hl) as (r & h' & rp' & q' & E & Hh). parts. rewrite E. by eexists _, q'.
  - destruct Hl as [m Em]. destruct (alloc_zcmsg_added malloc_bytes ctx h size 0 (-1) m (proj1 Ho) Em) as (p & h' & E & A).
    parts. rewrite E. eexists _, q. split; [done|]. apply (holding_app _ q h' _ _ Hw).
    eapply owned_proper; [|exact (owned_added _ _ _ _ _ Ho A)]. unfold held. parts. perm.
  - destruct (owned_free _ _ _ (mine_first _ q p Hw Hl)) as (h' & E & Ho'). parts. rewrite E. eexists _, q. split; [done|]. by apply (holding_app _ q h' _ _ Hw).
  - destruct (send_holds _ q sc p Hw) as (w' & E & Hh); [apply Hl..|]. by exists w', q.
  - destruct (clear_holds _ q i expect Hw Hl) as (h' & rp' & E & Hh). parts. rewrite E. by eexists _, q.
  - destruct (call_send_holds _ q sc p id ep Hw) as (w' & E & Hh); [apply Hl..|]. by exists w', q.
  - destruct (vet_holds _ q i Hw (proj1 Hl) (proj2 Hl)) as (h' & rp' & E & Hh). parts. rewrite E. by eexists _, q.
  - destruct (take_holds _ q i st Hw Hl) as (r & h' & rp' & E & Hh). parts. rewrite E. by eexists _, q.
Qed.

Lemma runs_hold w q es : holding w q -> legal_run malloc_bytes w es ->
  exists w' q', exec_all malloc_bytes w es = Ret w' /\ holding w' q'.
Proof.
  revert w q. induction es as [|e es IH]; intros w q Hw; [by exists w, q|]. intros [Hl Hr].
  destruct (exec_holds w q e Hw Hl) as (w1 & q1 & E & Hw1). cbn. rewrite E. cbn. apply (IH w1 q1 Hw1). by apply Hr.
Qed.

(** The start: nothing is allocated, the ring and the chutes are empty. *)
Definition start (r : @ring_t nat) : world := MkWorld (MkHeap ∅ ∅ 0) (MkRp r (replicate 256 (MkCp None []))) [] [].

Lemma start_holds r : ring_wf r -> ring_contents r = [] -> holding (start r) [].
Proof.
  intros W Hq. split; [done|done|done|]. split; [|split; [constructor|]].
  - split; cbn; try (intros; done). intros b. split; [intros Hb; set_solver|intros (p & m & E); by rewrite lookup_empty in E].
  - intros p. cbn. rewrite lookup_empty. split; [intros Hp; by apply not_elem_of_nil in Hp|by intros []].
Qed.

(** C29.  Every message has one holder.  The receive thread, receives, calls and
    what the application does are interleaved in any way, and the application passes
    only messages that it has: then no pointer is used or freed after it was
    freed, nothing is freed twice, and the messages allocated are, each once, those in the
    ring, in the chutes, with the application, and those that are lost. *)
Theorem messages_have_one_holder r es : ring_wf r -> ring_contents r = [] -> legal_run malloc_bytes (start r) es ->
  exists w q, exec_all malloc_bytes (start r) es = Ret w /\ holding w q.
Proof. intros W Hq. apply (runs_hold (start r) []). by apply start_holds. Qed.

(** ** Lost messages *)

Lemma exec_lost w e w' p : exec malloc_bytes w e = Ret w' -> p ∈ wl_lost w -> p ∈ wl_lost w'.
Proof.
  destruct w as [h rp app lost]. destruct e; cbn [exec]; intros E Hp; cbn [wl_lost] in Hp; unbind E; try (by injection E as <-).
  - injection E as <-. cbn. apply elem_of_app. by right.
  - repeat case_match; unbind E; repeat case_match; injection E as <-; cbn; try done; by right.
Qed.

(** What is lost stays allocated. *)
Theorem lost_stays w q es w' p : holding w q -> p ∈ wl_lost w -> legal_run malloc_bytes w es -> exec_all malloc_bytes w es = Ret w' ->
  p ∈ wl_lost w' /\ is_Some (hp_msgs (wl_heap w') !! p).
Proof.
  intros Hw Hp Hl E. assert (p ∈ wl_lost w') as Hp'.
  { clear Hw Hl. revert w Hp E. induction es as [|e es IH]; intros w Hp E; [by injection E as <-|]. cbn in E.
    apply comp_bind_ret in E as (w1 & E1 & E). eapply IH; [|exact E]. by eapply exec_lost. }
  split; [done|]. destruct (runs_hold w q es Hw Hl) as (w1 & q1 & E1 & Hw1). assert (w1 = w') as -> by congruence.
  apply (ho_owned _ _ Hw1). unfold held. rewrite !elem_of_app. tauto.
Qed.
End runs.

(** A message with the call id 5. *)
Definition late_answer : list Z := <[350%nat := 5]> (forged 20 4 10).

Lemma late_answer_parts : exists m, is_Some (m_tp_buf m) /\ forall h rp,
  buf2mbuf_h h rp 1024 late_answer 600 7 =
    Ret (put_msg (malloc_buf (malloc_msg h).2).2 (hp_next h) m (Some (S (hp_next h))), chute_msg_h rp 5 (hp_next h)).
Proof.
  assert (RMR_HDR_LEN late_answer TP_HDR_LEN = Ret 304) as E1 by by vm_compute.
  assert (get32n late_answer (TP_HDR_LEN + o_plen) = Ret 10) as E2 by by vm_compute.
  assert (load32 late_answer (TP_HDR_LEN + o_flags) = 0) as E3 by by vm_compute.
  assert (RMR_D1_LEN late_answer TP_HDR_LEN = Ret 4) as E4 by by vm_compute.
  assert (DATA1_ADDR late_answer TP_HDR_LEN = Ret 350) as E5 by by vm_compute.
  assert (get8 late_answer 350 = Ret 5) as E6 by by vm_compute.
  destruct (ref_tpbuf (set_rts_fd 7 (set_tp_buf (Some late_answer) (alloc_mbuf RMR_ERR_UNSET))) 600) as [m|] eqn:Er.
  2:{ exfalso. revert Er. vm_compute. discriminate. }
  exists m. split; [exact (ref_tpbuf_buf _ _ _ Er)|]. intros h rp. unfold buf2mbuf_h.
  rewrite E1. cbn [mbind comp_bind]. rewrite E2. cbn [mbind comp_bind]. change (u32 600 <? u32 (304 + TP_HDR_LEN + 10)) with false. change (1024 + 1024 <? 600) with false.
  cbv iota zeta. rewrite Er. cbn [mbind comp_bind malloc_msg malloc_buf fst snd]. rewrite E3. change (negb (Z.land 0 HFL_CALL_MSG =? 0)) with false.
  cbv iota zeta. rewrite E4. cbn [mbind comp_bind]. change (4 <=? 0) with false. cbv iota. rewrite E5. cbn [mbind comp_bind]. rewrite E6. done.
Qed.

Lemma late_answer_legal : Forall is_byte late_answer /\ exists now rx rx', rx_max_ibm rx = 1024 /\ buf2mbuf now rx late_answer 600 7 = Ret rx'.
Proof.
  split; [apply (bool_decide_unpack (Forall (fun b => 0 <= b /\ b < 256) late_answer)); vm_compute; exact I|].
  exists 0, rx0, (comp_get rx0 (buf2mbuf 0 rx0 late_answer 600 7)). split; [done|]. vm_compute. reflexivity.
Qed.

Section leak.
Context {TH TE N : Type} `{Symbols TH thing} `{Symbols TE nat} `{Transport N}.
Variable malloc_bytes : Z -> list Z.

Definition answer_again : event TH TE N := EArrive 1024 late_answer 600 7.

Lemma answer_evicts w q c : holding w q -> rp_chutes (wl_rx w) !! 5%nat = Some c ->
  exists w' q' c', exec malloc_bytes w answer_again = Ret w' /\ holding w' q' /\
    rp_chutes (wl_rx w') !! 5%nat = Some c' /\ is_Some (cp_mbuf c') /\ wl_lost w' = option_list (cp_mbuf c) ++ wl_lost w.
Proof.
  intros Hw Ec. destruct (exec_holds malloc_bytes w q answer_again Hw late_answer_legal) as (w' & q' & E & Hw').
  destruct late_answer_parts as (m & Hm & Hb). destruct w as [h [ring cs] app lost]. cbn [wl_rx wl_lost rp_chutes] in *.
  pose proof E as E'. unfold answer_again, exec in E'. rewrite Hb in E'. cbn [mbind comp_bind] in E'. injection E' as <-.
  unfold chute_msg_h in *. cbn [rp_ring rp_chutes wl_rx wl_lost] in *. destruct (chute_split cs 5 c Ec) as (l1 & l2 & Es & Hput).
  rewrite (alter_as_insert _ cs 5 c Ec) in *. eexists _, q', _. split; [exact E|]. split; [exact Hw'|]. cbn [rp_ring rp_chutes wl_rx wl_lost].
  split; [apply list_lookup_insert_eq; by eapply lookup_lt_Some|]. split; [by eexists|]. rewrite Hput, Es, evicted_put. cbn [cp_mbuf].
  destruct (cp_mbuf c) as [o|] eqn:Eo; [|done]. case_decide as Ee; [|done]. injection Ee as <-. exfalso.
  destruct (owned_get h _ (hp_next h) (ho_owned _ _ Hw)) as (mo & b & Ep).
  { unfold held. cbn [wl_rx rp_chutes]. rewrite Es, in_chutes_put, Eo. apply elem_of_app. right. apply elem_of_app. left. by left. }
  apply (hw_msgs h (proj1 (ho_owned _ _ Hw))) in Ep. cbn in Ep. lia.
Qed.

Lemma answers_evict k w q o : holding w q -> rp_chutes (wl_rx w) !! 5%nat = Some o -> is_Some (cp_mbuf o) ->
  exists w' q', exec_all malloc_bytes w (replicate k answer_again) = Ret w' /\ holding w' q' /\
    length (wl_lost w') = (k + length (wl_lost w))%nat.
Proof.
  revert w q o. induction k as [|k IH]; intros w q o Hw Ec Ho; [by exists w, q|].
  destruct (answer_evicts w q o Hw Ec) as (w1 & q1 & c1 & E & Hw1 & Ec1 & Hc1 & El).
  destruct (IH w1 q1 c1 Hw1 Ec1 Hc1) as (w2 & q2 & E2 & Hw2 & Hl). cbn [replicate exec_all]. rewrite E. cbn [mbind comp_bind].
  exists w2, q2. split; [done|]. split; [done|]. rewrite Hl, El, length_app. destruct Ho as [p ->]. cbn. lia.
Qed.

(** A chute that has a message gets another one: the old one is not freed, and nobody
    has it any more.  A peer that sends messages with a call id, which it can
    do without being asked, makes the library lose as many as it likes. *)
Theorem late_answers_leak r k : ring_wf r -> ring_contents r = [] ->
  exists w, exec_all malloc_bytes (start r) (replicate (S k) answer_again) = Ret w /\
    length (wl_lost w) = k /\ NoDup (wl_lost w) /\ forall p, p ∈ wl_lost w -> is_Some (hp_msgs (wl_heap w) !! p).
Proof.
  intros W Hq. destruct (answer_evicts (start r) [] (MkCp None []) (start_holds r W Hq) eq_refl) as (w1 & q1 & c1 & E & Hw1 & Ec1 & Hc1 & El).
  destruct (answers_evict k w1 q1 c1 Hw1 Ec1 Hc1) as (w2 & q2 & E2 & Hw2 & Hl). cbn [replicate exec_all]. rewrite E. cbn [mbind comp_bind].
  exists w2. split; [done|]. rewrite Hl, El. cbn. split; [lia|]. destruct (ho_owned _ _ Hw2) as (_ & Hd & Hall). unfold held in *.
  rewrite !NoDup_app in Hd. split; [tauto|]. intros p Hp. apply Hall. rewrite !elem_of_app. tauto.
Qed.
End leak.

(** ** Witness *)

(** A message for a call and one for the ring arrive; the second one is received,
    sent and freed, the first one is taken by the call. *)
Definition ex_events : list (event (gmap akey thing) (gmap akey nat) half_net) :=
  [EArrive 1024 late_answer 600 7; EArrive 1024 (forged 20 4 10) 600 7; EPoll true None; ESend ex_half 2; EFree 2; ECallTake 5 0].
Definition ex_ring : @ring_t nat := MkRing 0 0 16 (replicate 17 None) 3 0 0 true false.
Definition ex_world (k : nat) : world := comp_get (start ex_ring) (exec_all junk (start ex_ring) (take k ex_events)).

Lemma ex_ring_wf : ring_wf ex_ring.
Proof.
  split; try (cbn; lia); try done. intros i Hi _. cbn in Hi. unfold slot. change (r_data ex_ring) with (replicate 17 (@None nat)).
  by rewrite lookup_replicate_2 by lia.
Qed.

Lemma forged_legal : Forall is_byte (forged 20 4 10) /\ exists now rx rx', rx_max_ibm rx = 1024 /\ buf2mbuf now rx (forged 20 4 10) 600 7 = Ret rx'.
Proof.
  split; [apply (bool_decide_unpack (Forall (fun b => 0 <= b /\ b < 256) (forged 20 4 10))); vm_compute; exact I|].
  exists 0, rx0, (comp_get rx0 (buf2mbuf 0 rx0 (forged 20 4 10) 600 7)). split; [done|]. vm_compute. reflexivity.
Qed.

(** One more event, at a world that is known. *)
Lemma legal_cons {TH TE N : Type} `{Symbols TH thing} `{Symbols TE nat} `{Transport N} malloc_bytes w w1 (e : event TH TE N) es :
  legal malloc_bytes w e -> exec malloc_bytes w e = Ret w1 -> legal_run malloc_bytes w1 es -> legal_run malloc_bytes w (e :: es).
Proof. intros Hl E Hr. split; [done|]. intros w' E'. by assert (w' = w1) as -> by congruence. Qed.

Lemma ex_legal : legal_run junk (start ex_ring) ex_events.
Proof.
  apply (legal_cons _ _ (ex_world 1)); [exact late_answer_legal|vm_compute; reflexivity|].
  apply (legal_cons _ _ (ex_world 2)); [exact forged_legal|vm_compute; reflexivity|].
  apply (legal_cons _ _ (ex_world 3)); [by intros p|vm_compute; reflexivity|].
  apply (legal_cons _ _ (ex_world 4)); [|vm_compute; reflexivity|].
  { split; [vm_compute; left|]. split; [apply ctx0_lens|]. intros m b E. vm_compute in E. injection E as <- <-. eexists. vm_compute. reflexivity. }
  apply (legal_cons _ _ (ex_world 5)); [vm_compute; left|vm_compute; reflexivity|].
  apply (legal_cons _ _ (ex_world 6)); [cbn; lia|vm_compute; reflexivity|exact I].
Qed.

Lemma messages_have_one_holder_witness :
  exists w q, exec_all junk (start ex_ring) ex_events = Ret w /\ holding w q.
Proof. apply (messages_have_one_holder junk ex_ring ex_events ex_ring_wf eq_refl ex_legal). Defined.

(** At the end the message of the call is the only one left. *)
Example ex_run : exists w, exec_all junk (start ex_ring) ex_events = Ret w /\ wl_app w = [0%nat] /\ wl_lost w = [] /\ size (hp_msgs (wl_heap w)) = 1%nat.
Proof. exists (ex_world 6). vm_compute. repeat split. Qed.
