(* ===== verification/Wormhole.v ===== *)
(** Wormholes: src/src/rmr/common/src/wormholes.c.

    A wormhole is a direct connection to a named endpoint.  Its id is an index of
    a list of endpoint pointers that grows by 16.  wh_can_open permits
    everything; the result of a failed open is -1 (errno says why). *)

From S2P Require Import Prelude Bytes Symtab SymIface Tools Ring Mbuf Endpoint River RouteTable Send SendSpec MtCall.

Definition RMR_ERR_NOWHOPEN : Z := 7.
Definition RMR_ERR_WHID : Z := 8.

Section wormhole.
Context {TH TE N : Type} `{Symbols TH thing} `{Symbols TE nat} `{Transport N}.
Variable malloc_bytes : Z -> list Z.
Variable gethostbyname : list Z -> option (list Z).

(** The endpoint list of wh_mgt_t; its length is [nalloc]. *)
Record wh_ctx := MkWh { wx_send : send_ctx TH TE N; wx_eps : option (list (option nat)) }.
Implicit Types (wx : wh_ctx) (sc : send_ctx TH TE N).

Definition wh_can_open wx (target : list Z) : bool := true.

Definition wh_init wx : wh_ctx :=
  match wx_eps wx with Some _ => wx | None => MkWh (wx_send wx) (Some (replicate 16 None)) end.

Definition wh_extend (eps : list (option nat)) : list (option nat) := eps ++ replicate 16 None.

Definition wh_nuke wx : wh_ctx := MkWh (wx_send wx) None.

(** The search for the endpoint or the first free slot, from slot [i] on.  The
    flag tells that the endpoint was found. *)
Fixpoint wh_scan (l : list (option nat)) (i nalloc whid : Z) (ep : nat) : Z * bool :=
  match l with
  | [] => (whid, false)
  | s :: l' =>
      let whid := if (whid =? nalloc) && (match s with None => true | Some _ => false end) then i else whid in
      if bool_decide (s = Some ep) then (i, true) else wh_scan l' (i + 1) nalloc whid ep
  end.

Definition ep_is_open sc (ep : nat) : bool :=
  match cr_eps (sc_rt sc) !! ep with Some e => ep_open e | None => false end.

Definition rmr_wh_open (ctx : option wh_ctx) (target : list Z) : Z * option wh_ctx :=
  match ctx with
  | None => (-1, None)
  | Some wx =>
      match target with
      | [] => (-1, Some wx)
      | _ =>
          if negb (wh_can_open wx target) then (-1, Some wx) else
          let wx := wh_init wx in
          let eps := default [] (wx_eps wx) in
          let sc := wx_send wx in
          let '(ep, sc) := match cr_rtable (sc_rt sc) with
                           | None => (None, sc)
                           | Some _ => let r := rt_ensure_ep gethostbyname (sc_rt sc) target in (r.1, set_rt sc r.2)
                           end in
          match ep with
          | None => (-1, Some (MkWh sc (Some eps)))
          | Some ep =>
              let nalloc := zlen eps in
              let '(whid, found) := wh_scan eps 0 nalloc nalloc ep in
              if found && ep_is_open sc ep then (whid, Some (MkWh sc (Some eps)))
              else
                let eps := if nalloc <=? whid then wh_extend eps else eps in
                let r := rt_link2_ep tp_connect (conn_of sc) (Some ep) in
                let sc := set_conns sc r.2 in
                if negb r.1 then (-1, Some (MkWh sc (Some eps)))
                else (whid, Some (MkWh sc (Some (<[Z.to_nat whid := Some ep]> eps))))
          end
      end
  end.

(** The slot of an id: [inl] is the state to report. *)
Definition wh_slot wx (whid : Z) : Z + nat :=
  match wx_eps wx with
  | None => inl RMR_ERR_NOWHOPEN
  | Some eps =>
      if (whid <? 0) || (zlen eps <=? whid) then inl RMR_ERR_WHID
      else match eps !! Z.to_nat whid with Some (Some ep) => inr ep | _ => inl RMR_ERR_WHID end
  end.

Definition send2ep sc (ep : nat) (msg : mbuf) : comp (option mbuf * send_ctx TH TE N) :=
  e ← deref (cr_eps (sc_rt sc) !! ep);
  '(r, _, n) ← send_msg malloc_bytes (sc_mctx sc) (sc_net sc) msg (ep_nn_sock e) (-1);
  Ret (r, set_net sc n).

(** Connect again when the endpoint is closed; the result is not looked at. *)
Definition wh_reopen wx (ep : nat) : comp wh_ctx :=
  if ep_is_open (wx_send wx) ep then Ret wx
  else
    e ← deref (cr_eps (sc_rt (wx_send wx)) !! ep);
    Ret (default wx (rmr_wh_open (Some wx) (default [] (ep_name e))).2).

Definition blot_call_id (msg : mbuf) : comp mbuf :=
  h ← deref (m_header msg);
  buf ← deref (m_tp_buf msg);
  d1 ← DATA1_ADDR buf h;
  buf ← put buf (d1 + D1_CALLID_IDX) [NO_CALL_ID];
  Ret (set_tp_buf (Some buf) msg).

Definition rmr_wh_send_msg (ctx : option wh_ctx) (whid : Z) (msg : option mbuf) : comp (option mbuf * option wh_ctx) :=
  match ctx, msg with
  | Some wx, Some m =>
      let m := set_state RMR_OK m in
      match wh_slot wx whid with
      | inl st => Ret (Some (set_state st m), Some wx)
      | inr ep =>
          match m_header m with
          | None => Ret (Some (set_state RMR_ERR_NOHDR m), Some wx)
          | Some _ =>
              m ← blot_call_id m;
              wx ← wh_reopen wx ep;
              '(r, sc) ← send2ep (wx_send wx) ep m;
              Ret (r, Some (MkWh sc (wx_eps wx)))
          end
      end
  | _, Some m => Ret (Some (set_state RMR_ERR_BADARG m), ctx)
  | _, None => Ret (None, ctx)
  end.

Definition rmr_wh_call (flags : Z) (ctx : option wh_ctx) (rx : rx_ctx) (whid : Z) (msg : option mbuf) (call_id : Z)
    (rx_sent : rx_ctx -> rx_ctx) (ws : list wait_res) : comp (option (option mbuf * option wh_ctx * rx_ctx)) :=
  match ctx, msg with
  | Some wx, Some m =>
      let m := set_state RMR_OK m in
      match wh_slot wx whid with
      | inl st => Ret (Some (Some (set_state st m), Some wx, rx))
      | inr ep =>
          match m_header m with
          | None => Ret (Some (Some (set_state RMR_ERR_NOHDR m), Some wx, rx))
          | Some _ =>
              wx ← wh_reopen wx ep;
              e ← deref (cr_eps (sc_rt (wx_send wx)) !! ep);
              x ← mt_call malloc_bytes flags (Some (wx_send wx, rx)) (Some m) call_id (Some (ep_nn_sock e)) rx_sent ws;
              Ret (match x with
                   | Some (r, _, Some (sc, rx)) => Some (r, Some (MkWh sc (wx_eps wx)), rx)
                   | Some (r, _, None) => Some (r, Some wx, rx)
                   | None => None
                   end)
          end
      end
  | _, Some m => Ret (Some (Some (set_state RMR_ERR_BADARG m), ctx, rx))
  | _, None => Ret (Some (None, ctx, rx))
  end.

Definition rmr_wh_close (ctx : option wh_ctx) (whid : Z) : option wh_ctx :=
  match ctx with
  | None => None
  | Some wx =>
      match wx_eps wx with
      | None => Some wx
      | Some eps =>
          if (zlen eps <=? whid) || (whid <? 0) then Some wx
          else Some (MkWh (wx_send wx) (Some (<[Z.to_nat whid := None]> eps)))
      end
  end.

Definition rmr_wh_state (ctx : option wh_ctx) (whid : Z) : Z :=
  match ctx with
  | None => RMR_ERR_BADARG
  | Some wx =>
      match wh_slot wx whid with
      | inl st => st
      | inr ep => if ep_is_open (wx_send wx) ep then RMR_OK else RMR_ERR_NOENDPT
      end
  end.

(** ** Theorems *)

(** The name of an endpoint. *)
Definition ename sc (id : nat) : option (list Z) := e ← cr_eps (sc_rt sc) !! id; ep_name e.

(** The endpoint hash and the endpoints agree. *)
Record names_ok sc : Prop := {
  no_tab : sm_ok (cr_ephash (sc_rt sc));
  no_hash : forall nm id, nm <> [] -> sm_get (cr_ephash (sc_rt sc)) (AStr 1 nm) = Some id <-> ename sc id = Some nm;
  no_next : forall id, is_Some (cr_eps (sc_rt sc) !! id) -> (id < cr_next (sc_rt sc))%nat
}.

Lemma ensure_names sc target : names_ok sc -> target <> [] ->
  exists id rt, rt_ensure_ep gethostbyname (sc_rt sc) target = (Some id, rt) /\ names_ok (set_rt sc rt) /\
    ename (set_rt sc rt) id = Some target /\ (forall id', is_Some (ename sc id') -> ename (set_rt sc rt) id' = ename sc id').
Proof.
  intros [Ht Hh Hn] Hne. unfold rt_ensure_ep, uta_get_ep. destruct target as [|c s]; [done|]. set (target := c :: s) in *.
  destruct (sm_get (cr_ephash (sc_rt sc)) (AStr 1 target)) as [id|] eqn:Eg.
  { exists id, (sc_rt sc). split; [done|]. assert (set_rt sc (sc_rt sc) = sc) as -> by (by destruct sc).
    split; [by split|]. split; [by apply Hh|done]. }
  eexists _, _. split; [done|]. set (rt := MkRtCtx _ _ _ _ _ _ _ _ _).
  assert (cr_eps (sc_rt sc) !! cr_next (sc_rt sc) = None) as Hfresh.
  { apply eq_None_not_Some. intros Hs. specialize (Hn _ Hs). lia. }
  assert (forall id', ename (set_rt sc rt) id' = if decide (cr_next (sc_rt sc) = id') then Some target else ename sc id') as He.
  { intros id'. unfold ename. cbn. case_decide as Hd; [subst id'; by rewrite lookup_insert_eq|by rewrite lookup_insert_ne]. }
  split_and!.
  - split; cbn.
    + by apply sm_put_ok.
    + intros nm id' Hnm. rewrite sm_get_put by done. rewrite He.
      destruct (decide (AStr 1 target = AStr 1 nm)) as [[= Ea]|Hna].
      * case_decide as Hd; [subst; split; congruence|]. split; [congruence|]. intros Hx. apply Hh in Hx; [|done]. congruence.
      * case_decide as Hd; [|by apply Hh]. split; [|congruence]. intros Hx. apply Hh in Hx; [|done]. subst id'.
        unfold ename in Hx. by rewrite Hfresh in Hx.
    + intros id' Hs. destruct (decide (cr_next (sc_rt sc) = id')) as [<-|Hd]; [lia|]. rewrite lookup_insert_ne in Hs by done.
      specialize (Hn id' Hs). lia.
  - rewrite He. by rewrite decide_True.
  - intros id' [x Hx]. rewrite He. case_decide as Hd; [|done]. subst id'. unfold ename in Hx. by rewrite Hfresh in Hx.
Qed.

(** Connecting keeps names. *)
Lemma upd_name (cx : conn_ctx TE N) id e e' id' : cx_eps cx !! id = Some e -> ep_name e' = ep_name e ->
  (ep_name <$> cx_eps (upd_ep cx id e') !! id') = (ep_name <$> cx_eps cx !! id').
Proof.
  intros He En. cbn. destruct (decide (id = id')) as [<-|]; [|by rewrite lookup_insert_ne].
  rewrite lookup_insert_eq, He. cbn. by rewrite En.
Qed.

Lemma add_eps (cx : conn_ctx TE N) fd id : cx_eps (fd2ep_add (T := TE) cx fd id) = cx_eps cx.
Proof. unfold fd2ep_add. by destruct (cx_fd2ep cx). Qed.

Lemma link_names (connect : N -> list Z -> Z * N) (cx : conn_ctx TE N) ep id' :
  (ep_name <$> cx_eps (rt_link2_ep connect cx ep).2 !! id') = (ep_name <$> cx_eps cx !! id').
Proof.
  unfold rt_link2_ep. destruct ep as [id|]; [|done]. destruct (cx_eps cx !! id) as [e|] eqn:He; [|done].
  destruct (ep_open e) eqn:Ho; [done|]. cbn [snd]. unfold uta_link2. rewrite He. cbn zeta.
  assert (forall n, cx_eps (set_cnet cx n) !! id = Some e) as Hs by done.
  assert (forall n e', ep_name e' = ep_name e -> (ep_name <$> cx_eps (upd_ep (set_cnet cx n) id e') !! id') = (ep_name <$> cx_eps cx !! id')) as Hu
    by (intros; etrans; [by eapply upd_name|done]).
  destruct (ep_name e) as [target|] eqn:En; [destruct (strchr _ _ _); [rewrite Ho; destruct (_ <? 0)|]|];
    cbn [snd ep_notify set_conn]; try (destruct (ep_notify e)); try done; try (by eapply upd_name); try (by apply Hu).
  - rewrite add_eps. by apply Hu.
  - etrans; [eapply upd_name; [rewrite add_eps; cbn; apply lookup_insert_eq|done]|rewrite add_eps; by apply Hu].
Qed.

Lemma link_open (connect : N -> list Z -> Z * N) (cx : conn_ctx TE N) id :
  (rt_link2_ep connect cx (Some id)).1 = true ->
  exists e, cx_eps (rt_link2_ep connect cx (Some id)).2 !! id = Some e /\ ep_open e = true.
Proof.
  unfold rt_link2_ep. destruct (cx_eps cx !! id) as [e|] eqn:He; [|done]. destruct (ep_open e) eqn:Ho; [by exists e|].
  cbn [fst snd]. clear He. destruct (cx_eps _ !! id) as [e'|]; [|done]. intros Ho'. by exists e'.
Qed.

Lemma link_ename sc (connect : N -> list Z -> Z * N) ep id :
  ename (set_conns sc (rt_link2_ep connect (conn_of sc) ep).2) id = ename sc id.
Proof.
  unfold ename. cbn. pose proof (link_names connect (conn_of sc) ep id) as Hl. cbn in Hl.
  destruct (cx_eps _ !! id), (cr_eps (sc_rt sc) !! id); cbn in *; congruence.
Qed.

Lemma link_ok sc (connect : N -> list Z -> Z * N) ep :
  names_ok sc -> names_ok (set_conns sc (rt_link2_ep connect (conn_of sc) ep).2).
Proof.
  intros [Ht Hh Hn]. split; [done| |].
  - intros nm id Hne. rewrite link_ename. by apply Hh.
  - intros id [e He]. apply Hn. pose proof (link_names connect (conn_of sc) ep id) as Hl. cbn in *. rewrite He in Hl.
    by destruct (cr_eps (sc_rt sc) !! id).
Qed.

(** The target of a wormhole id; live ids have different targets. *)
Definition wh_view wx (i : Z) : option (list Z) :=
  match wh_slot wx i with inr ep => ename (wx_send wx) ep | inl _ => None end.

Record wh_inv wx : Prop := {
  wi_names : names_ok (wx_send wx);
  wi_live : forall i ep, default [] (wx_eps wx) !! i = Some (Some ep) -> exists nm, nm <> [] /\ ename (wx_send wx) ep = Some nm;
  wi_unique : forall i j ep, default [] (wx_eps wx) !! i = Some (Some ep) -> default [] (wx_eps wx) !! j = Some (Some ep) -> i = j
}.

Lemma wh_slot_lookup wx i ep : wh_slot wx i = inr ep <-> 0 <= i /\ default [] (wx_eps wx) !! Z.to_nat i = Some (Some ep).
Proof.
  unfold wh_slot. destruct (wx_eps wx) as [eps|]; cbn; [|split; [done|by intros [_ ?]]].
  destruct (Z.ltb_spec i 0); cbn; [split; [done|lia]|]. destruct (Z.leb_spec (zlen eps) i); cbn.
  - split; [done|]. intros [_ Hl]. apply lookup_lt_Some in Hl. unfold zlen in *. lia.
  - destruct (eps !! Z.to_nat i) as [[x|]|]; (split; [|intros [_ Hx]]); try done; congruence || (intros [= ->]; done).
Qed.

(** The scan finds the endpoint, or the first free slot, or the end. *)
Lemma wh_scan_spec l : forall i nalloc whid ep w found,
  0 <= i -> (whid = nalloc \/ whid < i) -> wh_scan l i nalloc whid ep = (w, found) ->
  if found then i <= w /\ l !! Z.to_nat (w - i) = Some (Some ep)
  else (forall k, l !! k <> Some (Some ep)) /\ (w = whid \/ i <= w /\ l !! Z.to_nat (w - i) = Some None).
Proof.
  induction l as [|s l IH]; intros i nalloc whid ep w found Hi Hw; cbn [wh_scan].
  { intros [= <- <-]. split; [done|by left]. }
  case_bool_decide as Hs.
  { intros [= <- <-]. split; [lia|]. rewrite Z.sub_diag. by subst s. }
  set (whid' := if _ && _ then i else whid). intros E.
  assert (whid' = nalloc \/ whid' < i + 1) as Hw' by (unfold whid'; destruct (_ && _); lia).
  specialize (IH (i + 1) nalloc whid' ep w found ltac:(lia) Hw' E).
  assert (forall k, i + 1 <= k -> (s :: l) !! Z.to_nat (k - i) = l !! Z.to_nat (k - (i + 1))) as Hsh.
  { intros k Hk. replace (Z.to_nat (k - i)) with (S (Z.to_nat (k - (i + 1)))) by lia. done. }
  destruct found.
  - destruct IH as [H2 H3]. split; [lia|]. by rewrite Hsh by lia.
  - destruct IH as [H2 H3]. split; [intros [|k]; cbn; [congruence|apply H2]|].
    destruct H3 as [->|[H3 H4]]; [|right; split; [lia|by rewrite Hsh by lia]].
    unfold whid'. destruct (whid =? nalloc); [|by left]. destruct s; cbn; [by left|]. right. split; [lia|]. by rewrite Z.sub_diag.
Qed.

Lemma wh_init_inv wx : wh_inv wx -> wh_inv (wh_init wx) /\ forall i, wh_view (wh_init wx) i = wh_view wx i.
Proof.
  unfold wh_init. intros [Hn Hl Hu]. destruct (wx_eps wx) as [eps|] eqn:E; [split; [split; rewrite ?E; done|done]|].
  assert (forall k ep, replicate 16 (@None nat) !! k <> Some (Some ep)) as Hrep.
  { intros k ep Hk. by apply lookup_replicate in Hk as [? _]. }
  split; [split; [done|intros i ep Hk|intros i j ep Hk _]; by apply Hrep in Hk|].
  intros i. unfold wh_view. destruct (wh_slot (MkWh _ _) i) as [st|ep] eqn:Es.
  - unfold wh_slot. by rewrite E.
  - apply wh_slot_lookup in Es as [_ Es]. by apply Hrep in Es.
Qed.

(** Endpoints may be added and connected, the list may grow. *)
Lemma grow_inv sc eps sc' eps' :
  wh_inv (MkWh sc (Some eps)) -> names_ok sc' -> (forall id, is_Some (ename sc id) -> ename sc' id = ename sc id) ->
  eps' = eps \/ eps' = wh_extend eps ->
  wh_inv (MkWh sc' (Some eps')) /\ forall i, wh_view (MkWh sc' (Some eps')) i = wh_view (MkWh sc (Some eps)) i.
Proof.
  intros [Hn Hl Hu] Hn' Hs He. cbn in *.
  assert (forall k ep, eps' !! k = Some (Some ep) <-> eps !! k = Some (Some ep)) as Hk.
  { intros k ep. destruct He as [->| ->]; [done|]. unfold wh_extend. rewrite lookup_app. destruct (eps !! k); [done|].
    split; [|done]. intros Hx. by apply lookup_replicate in Hx as [? _]. }
  split; [split; cbn; [done| |]|].
  - intros i ep Hi. apply Hk in Hi. destruct (Hl i ep Hi) as (nm & Hne & Hnm). exists nm. split; [done|]. rewrite Hs; [done|by eexists].
  - intros i j ep Hi Hj. apply Hk in Hi, Hj. by eapply Hu.
  - intros i. unfold wh_view. destruct (wh_slot (MkWh sc (Some eps)) i) as [st|ep] eqn:E.
    + destruct (wh_slot (MkWh sc' (Some eps')) i) as [st'|ep'] eqn:E'; [done|].
      apply wh_slot_lookup in E' as [Hi E']. cbn in E'. apply Hk in E'.
      assert (wh_slot (MkWh sc (Some eps)) i = inr ep') by (by apply wh_slot_lookup). congruence.
    + apply wh_slot_lookup in E as [Hi E]. cbn in E.
      assert (wh_slot (MkWh sc' (Some eps')) i = inr ep) as -> by (apply wh_slot_lookup; split; [done|]; by apply Hk).
      destruct (Hl _ ep E) as (nm & _ & Hnm). apply Hs. by eexists.
Qed.

(** A slot is given to an endpoint that is in no other slot. *)
Lemma put_inv sc eps w ep target :
  wh_inv (MkWh sc (Some eps)) -> 0 <= w < zlen eps -> eps !! Z.to_nat w = Some None \/ eps !! Z.to_nat w = Some (Some ep) ->
  (forall k, eps !! k = Some (Some ep) -> k = Z.to_nat w) -> ename sc ep = Some target -> target <> [] ->
  let wx' := MkWh sc (Some (<[Z.to_nat w := Some ep]> eps)) in
  wh_inv wx' /\ wh_slot wx' w = inr ep /\ (forall i, i <> w -> wh_view wx' i = wh_view (MkWh sc (Some eps)) i) /\
  (wh_view (MkWh sc (Some eps)) w = None \/ wh_view (MkWh sc (Some eps)) w = Some target).
Proof.
  intros [Hn Hl Hu] Hw Hslot Hep Hnm Hne wx'. cbn in Hl, Hu.
  assert (Z.to_nat w < length eps)%nat as Hlt by (unfold zlen in *; lia).
  assert (forall k x, <[Z.to_nat w := Some ep]> eps !! k = Some (Some x) -> k = Z.to_nat w /\ x = ep \/ k <> Z.to_nat w /\ eps !! k = Some (Some x)) as Hk.
  { intros k x. destruct (decide (k = Z.to_nat w)) as [->|Hd]; [rewrite list_lookup_insert_eq by done; intros [= <-]; by left|].
    rewrite list_lookup_insert_ne by done. auto. }
  split; [split; cbn; [done| |]|split_and!].
  - intros i x Hi. apply Hk in Hi as [[_ ->]|[_ Hi]]; [by exists target|by eapply Hl].
  - intros i j x Hi Hj. apply Hk in Hi, Hj. destruct Hi as [[Ei Ex]|[H2 Hi]], Hj as [[Ej Ex']|[H3 Hj]]; subst; try done.
    + by apply Hep in Hj.
    + by apply Hep in Hi.
    + by eapply Hu.
  - apply wh_slot_lookup. split; [lia|]. cbn. by rewrite list_lookup_insert_eq.
  - intros i Hi. unfold wh_view.
    assert (forall x, wh_slot wx' i = inr x <-> wh_slot (MkWh sc (Some eps)) i = inr x) as Hsl.
    { intros x. rewrite !wh_slot_lookup. cbn. split; intros [Hp Hx]; (split; [done|]);
        (rewrite list_lookup_insert_ne in * by lia; done). }
    destruct (wh_slot wx' i) as [st|x] eqn:E1.
    + destruct (wh_slot (MkWh sc (Some eps)) i) as [|x] eqn:E2; [done|]. by pose proof (proj2 (Hsl x) eq_refl).
    + by rewrite (proj1 (Hsl x) eq_refl).
  - unfold wh_view. destruct (wh_slot (MkWh sc (Some eps)) w) as [|x] eqn:E2; [by left|]. right.
    apply wh_slot_lookup in E2 as [_ E2]. cbn in E2. destruct Hslot as [Hslot|Hslot]; [congruence|]. rewrite Hslot in E2. by injection E2 as <-.
Qed.

Lemma open_spec wx target whid wx' :
  wh_inv wx -> rmr_wh_open (Some wx) target = (whid, Some wx') ->
  wh_inv wx' /\
  if whid <? 0 then forall i, wh_view wx' i = wh_view wx i
  else wh_view wx' whid = Some target /\ rmr_wh_state (Some wx') whid = RMR_OK /\
    (forall i, i <> whid -> wh_view wx' i = wh_view wx i) /\ (wh_view wx whid = None \/ wh_view wx whid = Some target).
Proof.
  intros Hi. unfold rmr_wh_open. destruct target as [|c s]; [by intros [= <- <-]|]. set (target := c :: s).
  cbn [wh_can_open negb]. destruct (wh_init_inv wx Hi) as [Hi0 Hv0].
  set (wx0 := wh_init wx) in *. assert (exists eps, wx0 = MkWh (wx_send wx) (Some eps)) as [eps E0].
  { unfold wx0, wh_init. destruct wx as [sc [eps|]]; by eexists. }
  rewrite E0 in *. cbn [wx_eps wx_send]. change (default [] (Some eps)) with eps. clear wx0 E0. set (sc := wx_send wx) in *.
  destruct (cr_rtable (sc_rt sc)) as [rt|]; [|by intros [= <- <-]].
  destruct (ensure_names sc target (wi_names _ Hi) ltac:(done)) as (ep & rt' & -> & Hn1 & He1 & Hk1).
  cbn [fst snd]. set (sc1 := set_rt sc rt') in *.
  destruct (grow_inv sc eps sc1 eps Hi0 Hn1 Hk1 (or_introl eq_refl)) as [Hi1 Hv1].
  destruct (wh_scan eps 0 (zlen eps) (zlen eps) ep) as [w found] eqn:Es.
  apply wh_scan_spec in Es as Hs; [|lia|by left].
  destruct (found && ep_is_open sc1 ep) eqn:Ef.
  { apply andb_true_iff in Ef as [-> Ho]. destruct Hs as [Hw Hs]. rewrite Z.sub_0_r in Hs. intros [= <- <-]. split; [done|].
    destruct (Z.ltb_spec w 0); [lia|].
    assert (wh_slot (MkWh sc1 (Some eps)) w = inr ep) as Hslot by (by apply wh_slot_lookup).
    assert (wh_view (MkWh sc1 (Some eps)) w = Some target) as Hv by (unfold wh_view; by rewrite Hslot).
    split_and!; [done| |intros i _; by rewrite Hv1, Hv0|right; by rewrite <-Hv0, <-Hv1].
    cbn [rmr_wh_state]. rewrite Hslot. cbn [wx_send]. by rewrite Ho. }
  set (eps2 := if zlen eps <=? w then wh_extend eps else eps).
  set (r := rt_link2_ep _ _ _). set (sc2 := set_conns sc1 r.2).
  destruct (grow_inv sc eps sc2 eps2 Hi0) as [Hi2 Hv2].
  { by apply link_ok. } { intros id Hid. unfold sc2, r. rewrite link_ename. by apply Hk1. }
  { unfold eps2. destruct (_ <=? _); auto. }
  destruct r.1 eqn:Er; cbn [negb]; [|intros [= <- <-]; split; [done|]; intros i; by rewrite Hv2, Hv0].
  assert (0 <= w < zlen eps2 /\ (eps2 !! Z.to_nat w = Some None \/ eps2 !! Z.to_nat w = Some (Some ep)) /\
    forall k, eps2 !! k = Some (Some ep) -> k = Z.to_nat w) as (Hw & Hslot & Hep).
  { destruct found.
    - destruct Hs as [Hw Hs]. rewrite Z.sub_0_r in Hs. assert (w < zlen eps) by (apply lookup_lt_Some in Hs; unfold zlen; lia).
      assert (eps2 = eps) as -> by (unfold eps2; destruct (Z.leb_spec (zlen eps) w); [lia|done]).
      split_and!; [lia|lia|by right|]. intros k Hk. by apply (wi_unique _ Hi0 k (Z.to_nat w) ep).
    - destruct Hs as [Hno Hs]. assert (forall k, eps2 !! k <> Some (Some ep)) as Hno2.
      { intros k. unfold eps2. destruct (_ <=? _); [|apply Hno]. unfold wh_extend. rewrite lookup_app.
        destruct (eps !! k) eqn:Ek; [rewrite <-Ek; apply Hno|]. intros Hx. by apply lookup_replicate in Hx as [? _]. }
      split; [|split; [left|intros k Hk; by apply Hno2 in Hk]].
      + destruct Hs as [->|[Hw Hs]].
        * unfold eps2. destruct (Z.leb_spec (zlen eps) (zlen eps)); [|lia]. unfold wh_extend. rewrite zlen_app.
          change (zlen (replicate 16 None)) with 16. pose proof (zlen_nonneg eps). lia.
        * apply lookup_lt_Some in Hs. assert (w < zlen eps) by (unfold zlen; lia).
          unfold eps2. destruct (Z.leb_spec (zlen eps) w); lia.
      + destruct Hs as [->|[Hw Hs]].
        * unfold eps2. destruct (Z.leb_spec (zlen eps) (zlen eps)); [|lia]. unfold wh_extend, zlen.
          rewrite Nat2Z.id, lookup_app_r, Nat.sub_diag by lia. done.
        * rewrite Z.sub_0_r in Hs. assert (w < zlen eps) by (apply lookup_lt_Some in Hs; unfold zlen; lia).
          unfold eps2. destruct (Z.leb_spec (zlen eps) w); [lia|done]. }
  assert (ename sc2 ep = Some target) as He2 by (unfold sc2, r; by rewrite link_ename).
  destruct (put_inv sc2 eps2 w ep target Hi2 Hw Hslot Hep He2 ltac:(done)) as (Hi3 & Hs3 & Hv3 & Hw3).
  intros [= <- <-]. split; [done|]. destruct (Z.ltb_spec w 0); [lia|].
  split_and!; [unfold wh_view; by rewrite Hs3| |intros i Hiw; by rewrite Hv3, Hv2, Hv0|by rewrite <-Hv0, <-Hv2].
  cbn [rmr_wh_state]. rewrite Hs3. unfold ep_is_open. destruct (link_open _ _ _ Er) as (e & Ee & Ho).
  change (cr_eps (sc_rt (wx_send (MkWh sc2 (Some (<[Z.to_nat w := Some ep]> eps2))))) !! ep) with (cx_eps r.2 !! ep).
  unfold r. by rewrite Ee, Ho.
Qed.

Lemma close_spec wx whid : wh_inv wx ->
  exists wx', rmr_wh_close (Some wx) whid = Some wx' /\ wh_inv wx' /\ wh_view wx' whid = None /\
    forall i, i <> whid -> wh_view wx' i = wh_view wx i.
Proof.
  intros [Hn Hl Hu]. unfold rmr_wh_close. destruct (wx_eps wx) as [eps|] eqn:E.
  2: { exists wx. split_and!; [done|split; by rewrite ?E|unfold wh_view, wh_slot; by rewrite E|done]. }
  cbn [default] in *. destruct ((zlen eps <=? whid) || (whid <? 0)) eqn:Eb.
  { exists wx. split_and!; [done|split; by rewrite ?E|unfold wh_view, wh_slot; by rewrite E, orb_comm, Eb|done]. }
  apply orb_false_iff in Eb as [Hb1 Hb2]. apply Z.leb_gt in Hb1. apply Z.ltb_ge in Hb2.
  set (wx' := MkWh _ _). exists wx'.
  assert (forall k ep, <[Z.to_nat whid := None]> eps !! k = Some (Some ep) <-> k <> Z.to_nat whid /\ eps !! k = Some (Some ep)) as Hk.
  { intros k ep. destruct (decide (k = Z.to_nat whid)) as [->|Hd].
    - rewrite list_lookup_insert_eq by (unfold zlen in *; lia). split; [done|]. by intros [? _].
    - rewrite list_lookup_insert_ne by done. tauto. }
  assert (forall i ep, wh_slot wx' i = inr ep <-> i <> whid /\ wh_slot wx i = inr ep) as Hs.
  { intros i ep. rewrite !wh_slot_lookup, E. cbn [default wx' wx_eps]. rewrite Hk. split; intros Hx; destruct_and!; split_and!; lia || done. }
  split_and!; [done|split; [done| |]| |].
  - intros i ep Hi. apply Hk in Hi as [_ Hi]. by eapply Hl.
  - intros i j ep Hi Hj. apply Hk in Hi as [_ Hi], Hj as [_ Hj]. by eapply Hu.
  - unfold wh_view. destruct (wh_slot wx' whid) as [|ep] eqn:Ex; [done|]. apply Hs in Ex as [? _]. done.
  - intros i Hi. unfold wh_view. destruct (wh_slot wx i) as [|ep] eqn:Ex.
    + destruct (wh_slot wx' i) as [|ep] eqn:Ey; [done|]. apply Hs in Ey as [_ Ey]. congruence.
    + by rewrite (proj2 (Hs i ep) (conj Hi Ex)).
Qed.

Lemma view_unique wx i j t : wh_inv wx -> t <> [] -> wh_view wx i = Some t -> wh_view wx j = Some t -> i = j.
Proof.
  intros [[_ Hh _] Hl Hu] Hne. unfold wh_view.
  destruct (wh_slot wx i) as [|a] eqn:Ea; [done|]. destruct (wh_slot wx j) as [|b] eqn:Eb; [done|]. intros Ha Hb.
  apply Hh in Ha; [|done]. apply Hh in Hb; [|done]. rewrite Ha in Hb. injection Hb as <-.
  apply wh_slot_lookup in Ea as [Hi Ea], Eb as [Hj Eb]. pose proof (Hu _ _ _ Ea Eb). lia.
Qed.

(** What happens to wormholes: opens and closes by the application, and what
    the rest of the library does to endpoints (they get connected and
    disconnected, and new ones are added). *)
Inductive wh_step : wh_ctx -> wh_ctx -> Prop :=
| WStepOpen wx target whid wx' : rmr_wh_open (Some wx) target = (whid, Some wx') -> wh_step wx wx'
| WStepClose wx whid wx' : rmr_wh_close (Some wx) whid = Some wx' -> wh_step wx wx'
| WStepOther wx sc' :
    names_ok sc' -> (forall id, is_Some (ename (wx_send wx) id) -> ename sc' id = ename (wx_send wx) id) ->
    wh_step wx (MkWh sc' (wx_eps wx)).

Lemma wh_step_inv wx wx' : wh_step wx wx' -> wh_inv wx -> wh_inv wx'.
Proof.
  destruct 1 as [wx target whid wx' E|wx whid wx' E|wx sc' Hn Hk]; intros Hi.
  - by eapply open_spec.
  - destruct (close_spec wx whid Hi) as (wx2 & E2 & Hi2 & _). rewrite E2 in E. by injection E as <-.
  - destruct wx as [sc [eps|]]; [by eapply grow_inv; [..|left]|]. destruct Hi as [_ Hl Hu]. by split.
Qed.

Lemma wh_steps_inv wx wx' : rtc wh_step wx wx' -> wh_inv wx -> wh_inv wx'.
Proof. induction 1; [done|]. eauto using wh_step_inv. Qed.
End wormhole.
Arguments wh_ctx : clear implicits.

(** C36.  Wormhole ids are reliable: whatever opens, closes and connection
    changes happened, an open that succeeds gives an id that stands for exactly
    the named target, which is connected; the id was free, or already the
    target's; the ids of other wormholes keep their targets, and no two ids stand
    for the same target. *)
Theorem wormhole_ids_name_targets {TH TE N : Type} `{Symbols TH thing} `{Symbols TE nat} `{Transport N}
    gethostbyname (sc : send_ctx TH TE N) wx target whid wx' :
  names_ok sc -> rtc (wh_step gethostbyname) (MkWh sc None) wx ->
  rmr_wh_open gethostbyname (Some wx) target = (whid, Some wx') -> 0 <= whid ->
  wh_view wx' whid = Some target /\ rmr_wh_state (Some wx') whid = RMR_OK /\
  (wh_view wx whid = None \/ wh_view wx whid = Some target) /\
  (forall i, i <> whid -> wh_view wx' i = wh_view wx i) /\
  (forall i j t, t <> [] -> wh_view wx' i = Some t -> wh_view wx' j = Some t -> i = j).
Proof.
  intros Hn Hs Ho Hw.
  assert (wh_inv (MkWh sc None)) as H0' by (split; [done|intros i ep Hk; done|intros i j ep Hk; done]).
  assert (wh_inv wx) as Hi by (by eapply wh_steps_inv).
  destruct (open_spec gethostbyname wx target whid wx' Hi Ho) as [Hi' Hv].
  destruct (Z.ltb_spec whid 0); [lia|]. destruct Hv as (? & ? & ? & ?). split_and!; try done.
  intros i j t Hne. by apply view_unique.
Qed.

(** An empty context whose transport connects. *)
Definition wh_sc0 : send_ctx (gmap akey thing) (gmap akey nat) open_net :=
  MkSc (MkRtCtx ∅ ∅ 0%nat ∅ (Some (MkRt false ∅ 0 0 0)) None None [] None) (Some ∅) (fun _ => []) ctx0 1.

Definition wh_wx1 : wh_ctx (gmap akey thing) (gmap akey nat) open_net :=
  default (MkWh wh_sc0 None) (rmr_wh_open (fun _ => None) (Some (MkWh wh_sc0 None)) $"h:1").2.

Lemma wormhole_ids_name_targets_witness :
  exists wx', rmr_wh_open (fun _ => None) (Some (MkWh wh_sc0 None)) $"h:1" = (0, Some wx') /\
    wh_view wx' 0 = Some $"h:1" /\ rmr_wh_state (Some wx') 0 = RMR_OK.
Proof.
  assert (names_ok wh_sc0) as Hn.
  { split; [exact I| |].
    - intros nm id _. change (sm_get _ _) with ((∅ : gmap akey nat) !! AStr 1 nm). rewrite lookup_empty.
      split; [discriminate|]. unfold ename. cbn. rewrite lookup_empty. discriminate.
    - intros id [e He]. change (cr_eps (sc_rt wh_sc0)) with (∅ : gmap nat endpoint) in He. rewrite lookup_empty in He. discriminate He. }
  exists wh_wx1. assert (rmr_wh_open (fun _ => None) (Some (MkWh wh_sc0 None)) $"h:1" = (0, Some wh_wx1)) as Ho by (vm_compute; reflexivity).
  destruct (wormhole_ids_name_targets (fun _ => None) wh_sc0 (MkWh wh_sc0 None) $"h:1" 0 wh_wx1 Hn (rtc_refl _ _) Ho) as (H1 & H2 & _); [lia|].
  split; [exact Ho|]. split; [exact H1|exact H2].
Defined.
