(* ===== verification/RtConc.v ===== *)
(** Senders and the route table collector run at the same time: get_rt,
    release_rt, prep_new_rt and roll_tables of
    src/src/rmr/common/src/rt_generic_static.c as the steps of their threads.

    A step is what happens under the lock of the tables (rtgate).  What a table
    contains is the type [C]; a user of a table remembers the content it found, so
    that the theorems can say that it does not change under its feet.  prep_new_rt
    takes the old table away, waits for its users to leave ([s_drain] is the table
    it waits for) and then fills it as the new one. *)

From S2P Require Import Prelude.

Section rt_conc.
Context {C : Type}.

Record tbl := MkTbl { tb_content : C; tb_refs : Z; tb_error : bool }.

Record rt_state := MkRs {
  s_tabs : gmap nat tbl;
  s_act : option nat;                (* ctx->rtable *)
  s_old : option nat;                (* ctx->old_rtable *)
  s_new : option nat;                (* ctx->new_rtable *)
  s_drain : option nat;              (* rt of prep_new_rt while it waits *)
  s_next : nat;
  s_users : gmap nat (nat * C)       (* who holds which table, and what was in it *)
}.
Implicit Types s : rt_state.

Definition set_tab s (t : nat) (x : tbl) : rt_state :=
  MkRs (<[t := x]> (s_tabs s)) (s_act s) (s_old s) (s_new s) (s_drain s) (s_next s) (s_users s).

(** [i] is the thread that calls. *)
Definition get_rt s (i : nat) : option nat * rt_state :=
  match s_act s with
  | None => (None, s)
  | Some t =>
      match s_tabs s !! t with
      | Some x =>
          (Some t, MkRs (<[t := MkTbl (tb_content x) (tb_refs x + 1) (tb_error x)]> (s_tabs s)) (s_act s) (s_old s) (s_new s)
             (s_drain s) (s_next s) (<[i := (t, tb_content x)]> (s_users s)))
      | None => (None, s)
      end
  end.

Definition release_rt s (i : nat) : rt_state :=
  match s_users s !! i with
  | Some (t, _) =>
      let tabs := match s_tabs s !! t with
                  | Some x => if 0 <? tb_refs x then <[t := MkTbl (tb_content x) (tb_refs x - 1) (tb_error x)]> (s_tabs s) else s_tabs s
                  | None => s_tabs s
                  end in
      MkRs tabs (s_act s) (s_old s) (s_new s) (s_drain s) (s_next s) (delete i (s_users s))
  | None => s
  end.

(** prep_new_rt: the old table is taken to drain, or a fresh table is made,
    which the clone of the active one fills with [c]. *)
Definition prep_start s (c : C) : rt_state :=
  match s_old s with
  | Some t => MkRs (s_tabs s) (s_act s) None (s_new s) (Some t) (s_next s) (s_users s)
  | None =>
      MkRs (<[s_next s := MkTbl c 0 false]> (s_tabs s)) (s_act s) None (Some (s_next s)) None (S (s_next s)) (s_users s)
  end.

(** The use count is looked at under the lock: [None] is another round. *)
Definition prep_drain s (c : C) : option rt_state :=
  match s_drain s with
  | Some t =>
      match s_tabs s !! t with
      | Some x =>
          if 0 <? tb_refs x then None
          else Some (MkRs (<[t := MkTbl c 0 false]> (s_tabs s)) (s_act s) (s_old s) (Some t) None (s_next s) (s_users s))
      | None => None
      end
  | None => None
  end.

(** Records change the new table; an incomplete one is dropped. *)
Definition edit_new s (c : C) (error : bool) : rt_state :=
  match s_new s with
  | Some t => match s_tabs s !! t with Some x => set_tab s t (MkTbl c (tb_refs x) error) | None => s end
  | None => s
  end.

Definition drop_new_rt s : rt_state :=
  match s_new s with
  | Some t => MkRs (delete t (s_tabs s)) (s_act s) (s_old s) None (s_drain s) (s_next s) (s_users s)
  | None => s
  end.

Definition roll s : rt_state :=
  let error := match s_new s with
               | None => true
               | Some t => match s_tabs s !! t with Some x => tb_error x | None => true end
               end in
  if error then MkRs (s_tabs s) (s_act s) (s_new s) None (s_drain s) (s_next s) (s_users s)
  else MkRs (s_tabs s) (s_new s) (s_act s) None (s_drain s) (s_next s) (s_users s).

(** One collector thread (it prepares a table only when none is under
    construction and none drains), and any number of senders. *)
Inductive rt_step : rt_state -> rt_state -> Prop :=
| RGet s i : s_users s !! i = None -> rt_step s (get_rt s i).2
| RRelease s i : rt_step s (release_rt s i)
| RPrep s c : s_new s = None -> s_drain s = None -> rt_step s (prep_start s c)
| RDrained s c s' : prep_drain s c = Some s' -> rt_step s s'
| REdit s c e : rt_step s (edit_new s c e)
| RDrop s : rt_step s (drop_new_rt s)
| RRoll s : s_drain s = None -> rt_step s (roll s).

(** ** Invariant *)

Definition holders s (t : nat) : nat := size (filter (fun u => u.2.1 = t) (s_users s)).

Record rc_inv s : Prop := {
  rc_next : forall t, is_Some (s_tabs s !! t) -> (t < s_next s)%nat;
  rc_tabs : forall t, s_act s = Some t \/ s_old s = Some t \/ s_new s = Some t \/ s_drain s = Some t -> is_Some (s_tabs s !! t);
  rc_act : forall t, s_act s = Some t -> s_old s <> Some t /\ s_new s <> Some t /\ s_drain s <> Some t;
  rc_old : forall t, s_old s = Some t -> s_new s <> Some t /\ s_drain s = None;
  rc_new : forall t, s_new s = Some t -> s_drain s = None /\ holders s t = 0%nat;
  rc_refs : forall t x, s_tabs s !! t = Some x -> tb_refs x = Z.of_nat (holders s t);
  rc_users : forall i t c, s_users s !! i = Some (t, c) -> exists x, s_tabs s !! t = Some x /\ tb_content x = c
}.

Lemma holders_insert s i t c tabs a o n d nx t' :
  s_users s !! i = None ->
  holders (MkRs tabs a o n d nx (<[i := (t, c)]> (s_users s))) t' = (holders s t' + if decide (t = t') then 1 else 0)%nat.
Proof.
  intros Hi. unfold holders. cbn [s_users]. case_decide as Hd.
  - rewrite map_filter_insert_True by done. rewrite map_size_insert_None; [lia|].
    apply map_lookup_filter_None. by left.
  - rewrite map_filter_insert_False by done. rewrite delete_id by done. lia.
Qed.

Lemma holders_delete s i t c tabs a o n d nx t' :
  s_users s !! i = Some (t, c) ->
  holders (MkRs tabs a o n d nx (delete i (s_users s))) t' = (holders s t' - if decide (t = t') then 1 else 0)%nat.
Proof.
  intros Hi. unfold holders. cbn [s_users]. rewrite map_filter_delete. case_decide as Hd.
  - rewrite map_size_delete_Some; [lia|]. exists (t, c). by apply map_lookup_filter_Some.
  - rewrite map_size_delete_None; [lia|]. apply map_lookup_filter_None. right. intros x Hx. rewrite Hi in Hx. by injection Hx as <-.
Qed.

Lemma holder_pos s i t c : s_users s !! i = Some (t, c) -> (0 < holders s t)%nat.
Proof.
  intros Hi. unfold holders. destruct (decide (size (filter (fun u => u.2.1 = t) (s_users s)) = 0)%nat) as [Hz|]; [|lia].
  apply map_size_empty_iff in Hz. assert (filter (fun u => u.2.1 = t) (s_users s) !! i = Some (t, c)) as Hf by by apply map_lookup_filter_Some.
  by rewrite Hz, lookup_empty in Hf.
Qed.

(** A change of one table that is not held keeps the users' view. *)
Lemma users_insert s t x :
  (forall i t' c, s_users s !! i = Some (t', c) -> exists y, s_tabs s !! t' = Some y /\ tb_content y = c) -> holders s t = 0%nat ->
  forall i t' c, s_users s !! i = Some (t', c) -> exists y, <[t := x]> (s_tabs s) !! t' = Some y /\ tb_content y = c.
Proof.
  intros Hu Hh i t' c Hi. destruct (decide (t = t')) as [<-|Hne]; [|rewrite lookup_insert_ne by done; by eapply Hu].
  pose proof (holder_pos s i t c Hi). lia.
Qed.

Lemma get_inv s i : rc_inv s -> s_users s !! i = None -> rc_inv (get_rt s i).2.
Proof.
  intros I Hi. unfold get_rt. destruct (s_act s) as [t|] eqn:Ea; [|done]. destruct (s_tabs s !! t) as [x|] eqn:Ex; [|done].
  destruct I as [H1 H2 H3 H4 H5 H6 H7]. cbn [snd]. split; cbn; try done.
  - intros t' Ht. apply H1. destruct (decide (t = t')) as [<-|]; [by exists x|by rewrite lookup_insert_ne in Ht].
  - intros t' Ht. rewrite <-Ea in Ht. apply H2 in Ht. destruct (decide (t = t')) as [<-|]; [rewrite lookup_insert_eq; by eexists|by rewrite lookup_insert_ne].
  - rewrite <-Ea. apply H3.
  - intros t' Ht. destruct (H5 t' Ht) as [Hd Hh]. split; [done|]. rewrite holders_insert by done. rewrite Hh, decide_False; [done|].
    intros <-. destruct (H3 t Ea) as (_ & Hno & _). done.
  - intros t' x'. rewrite holders_insert by done. case_decide as Hd; [subst t'|].
    + rewrite lookup_insert_eq. intros [= <-]. cbn. rewrite (H6 t x Ex). lia.
    + rewrite lookup_insert_ne by done. intros Hx. rewrite (H6 t' x' Hx). lia.
  - intros j t' c. destruct (decide (i = j)) as [<-|Hij].
    + rewrite lookup_insert_eq. intros [= <- <-]. rewrite lookup_insert_eq. by eexists.
    + rewrite lookup_insert_ne by done. intros Hj. destruct (H7 j t' c Hj) as (y & Hy & Hc).
      destruct (decide (t = t')) as [<-|]; [|rewrite lookup_insert_ne by done; by exists y].
      rewrite lookup_insert_eq. eexists. split; [done|]. cbn. congruence.
Qed.

Lemma release_inv s i : rc_inv s -> rc_inv (release_rt s i).
Proof.
  intros I. unfold release_rt. destruct (s_users s !! i) as [[t c]|] eqn:Ei; [|done].
  destruct I as [H1 H2 H3 H4 H5 H6 H7]. destruct (H7 i t c Ei) as (x & Ex & Ec). rewrite Ex.
  pose proof (holder_pos s i t c Ei) as Hp. rewrite (H6 t x Ex). destruct (Z.ltb_spec 0 (Z.of_nat (holders s t))) as [_|?]; [|lia].
  split; cbn; try done.
  - intros t' Ht. apply H1. destruct (decide (t = t')) as [<-|]; [by exists x|by rewrite lookup_insert_ne in Ht].
  - intros t' Ht. apply H2 in Ht. destruct (decide (t = t')) as [<-|]; [rewrite lookup_insert_eq; by eexists|by rewrite lookup_insert_ne].
  - intros t' Ht. destruct (H5 t' Ht) as [Hd Hh]. split; [done|]. erewrite holders_delete by done. lia.
  - intros t' x'. erewrite holders_delete by done. case_decide as Hd; [subst t'|].
    + rewrite lookup_insert_eq. intros [= <-]. cbn. lia.
    + rewrite lookup_insert_ne by done. intros Hx. rewrite (H6 t' x' Hx). lia.
  - intros j t' c' Hj. apply lookup_delete_Some in Hj as [_ Hj]. destruct (H7 j t' c' Hj) as (y & Hy & Hc).
    destruct (decide (t = t')) as [<-|]; [|rewrite lookup_insert_ne by done; by exists y].
    rewrite lookup_insert_eq. eexists. split; [done|]. cbn. congruence.
Qed.

Lemma prep_inv s c : rc_inv s -> s_new s = None -> s_drain s = None -> rc_inv (prep_start s c).
Proof.
  intros [H1 H2 H3 H4 H5 H6 H7] Hn Hd. unfold prep_start. destruct (s_old s) as [t|] eqn:Eo.
  - split; cbn; try done.
    + intros t' Ht. apply H2. rewrite Hd in *. intuition congruence.
    + intros t' Ht. destruct (H3 t' Ht) as (? & ? & ?). by split_and!.
    + intros t' Ht. congruence.
  - assert (s_tabs s !! s_next s = None) as Hfresh.
    { apply eq_None_not_Some. intros Hs. specialize (H1 _ Hs). lia. }
    assert (holders s (s_next s) = 0%nat) as Hh.
    { unfold holders. apply map_size_empty_iff, map_empty. intros i. apply map_lookup_filter_None. right.
      intros [t c'] Hi Ht. cbn in Ht. subst t. destruct (H7 i _ c' Hi) as (y & Hy & _). congruence. }
    split; cbn; try done.
    + intros t Ht. destruct (decide (s_next s = t)) as [<-|]; [lia|]. rewrite lookup_insert_ne in Ht by done. specialize (H1 t Ht). lia.
    + intros t Ht. destruct (decide (s_next s = t)) as [<-|Hne]; [rewrite lookup_insert_eq; by eexists|].
      rewrite lookup_insert_ne by done. apply H2. intuition congruence.
    + intros t Ht. split_and!; try done. intros [= <-]. destruct (H2 (s_next s)) as [x Hx]; [by left|]. congruence.
    + intros t [= <-]. done.
    + intros t x. change (holders (MkRs _ _ _ _ _ _ (s_users s)) t) with (holders s t).
      destruct (decide (s_next s = t)) as [<-|]; [rewrite lookup_insert_eq; intros [= <-]; cbn; lia|].
      rewrite lookup_insert_ne by done. apply H6.
    + by apply users_insert.
Qed.

Lemma drain_inv s c s' : rc_inv s -> prep_drain s c = Some s' -> rc_inv s'.
Proof.
  intros [H1 H2 H3 H4 H5 H6 H7]. unfold prep_drain. destruct (s_drain s) as [t|] eqn:Ed; [|done].
  destruct (s_tabs s !! t) as [x|] eqn:Ex; [|done]. destruct (Z.ltb_spec 0 (tb_refs x)) as [|Hr]; [done|]. intros [= <-].
  assert (holders s t = 0%nat) as Hh by (pose proof (H6 t x Ex); lia).
  split; cbn; try done.
  - intros t' Ht. apply H1. destruct (decide (t = t')) as [<-|]; [by exists x|by rewrite lookup_insert_ne in Ht].
  - intros t' Ht. destruct (decide (t = t')) as [<-|Hne]; [rewrite lookup_insert_eq; by eexists|]. rewrite lookup_insert_ne by done.
    apply H2. intuition congruence.
  - intros t' Ht. destruct (H3 t' Ht) as (? & ? & ?). by split_and!.
  - intros t' Ht. by destruct (H4 t' Ht) as [_ Hd'].
  - intros t' [= <-]. done.
  - intros t' x'. change (holders (MkRs _ _ _ _ _ _ (s_users s)) t') with (holders s t').
    destruct (decide (t = t')) as [<-|]; [rewrite lookup_insert_eq; intros [= <-]; cbn; lia|].
    rewrite lookup_insert_ne by done. apply H6.
  - by apply users_insert.
Qed.

Lemma edit_inv s c e : rc_inv s -> rc_inv (edit_new s c e).
Proof.
  intros I. unfold edit_new. destruct (s_new s) as [t|] eqn:En; [|done]. destruct (s_tabs s !! t) as [x|] eqn:Ex; [|done].
  destruct I as [H1 H2 H3 H4 H5 H6 H7]. destruct (H5 t En) as [Hd Hh]. split; cbn; try done.
  - intros t' Ht. apply H1. destruct (decide (t = t')) as [<-|]; [by exists x|by rewrite lookup_insert_ne in Ht].
  - intros t' Ht. apply H2 in Ht. destruct (decide (t = t')) as [<-|]; [rewrite lookup_insert_eq; by eexists|by rewrite lookup_insert_ne].
  - intros t' x'. change (holders (set_tab s t _) t') with (holders s t').
    destruct (decide (t = t')) as [<-|]; [rewrite lookup_insert_eq; intros [= <-]; cbn; apply (H6 t x Ex)|].
    rewrite lookup_insert_ne by done. apply H6.
  - by apply users_insert.
Qed.

Lemma drop_inv s : rc_inv s -> rc_inv (drop_new_rt s).
Proof.
  intros I. unfold drop_new_rt. destruct (s_new s) as [t|] eqn:En; [|done].
  destruct I as [H1 H2 H3 H4 H5 H6 H7]. destruct (H5 t En) as [Hd Hh]. split; cbn; try done.
  - intros t' [y Hy]. apply lookup_delete_Some in Hy as [_ Hy]. apply H1. by exists y.
  - intros t' Ht. assert (t <> t') as Hne.
    { intros <-. destruct Ht as [Ht|[Ht|[Ht|Ht]]]; [destruct (H3 t Ht) as (_ & ? & _); congruence|destruct (H4 t Ht); congruence|done|congruence]. }
    rewrite lookup_delete_ne by done. apply H2. intuition congruence.
  - intros t' Ht. destruct (H3 t' Ht) as (? & ? & ?). by split_and!.
  - intros t' x' Hx. apply lookup_delete_Some in Hx as [_ Hx]. by apply H6.
  - intros i t' c Hi. destruct (H7 i t' c Hi) as (y & Hy & Hc). exists y. split; [|done]. rewrite lookup_delete_ne; [done|].
    intros <-. pose proof (holder_pos s i t c Hi). lia.
Qed.

Lemma roll_inv s : rc_inv s -> s_drain s = None -> rc_inv (roll s).
Proof.
  intros [H1 H2 H3 H4 H5 H6 H7] Hd. unfold roll. destruct (match s_new s with None => true | Some t => _ end) eqn:Ee.
  - split; cbn; try done.
    + intros t Ht. apply H2. intuition congruence.
    + intros t Ht. destruct (H3 t Ht) as (? & ? & ?). by split_and!.
  - destruct (s_new s) as [t|] eqn:En; [|done]. split; cbn; try done.
    + intros t' Ht. apply H2. intuition congruence.
    + intros t' [= <-]. split_and!; [|done|congruence]. intros Ha. destruct (H3 t Ha) as (_ & ? & _). congruence.
Qed.

Lemma rt_step_inv s s' : rt_step s s' -> rc_inv s -> rc_inv s'.
Proof.
  destruct 1; intros I; eauto using get_inv, release_inv, prep_inv, drain_inv, edit_inv, drop_inv, roll_inv.
Qed.

Lemma rt_steps_inv s s' : rtc rt_step s s' -> rc_inv s -> rc_inv s'.
Proof. induction 1; [done|]. eauto using rt_step_inv. Qed.

(** ** Draining *)

(** While a table drains nobody new gets it. *)
Lemma drain_step s s' t i c :
  rc_inv s -> rt_step s s' -> s_drain s = Some t -> s_drain s' = Some t -> s_users s' !! i = Some (t, c) -> s_users s !! i = Some (t, c).
Proof.
  intros I Hs Hd Hd'. destruct Hs as [s j Hj|s j|s c' Hn Hd0|s c' s' E|s c' e|s|s Hd0]; try (intros; congruence).
  - unfold get_rt. destruct (s_act s) as [a|] eqn:Ea; [|done]. destruct (s_tabs s !! a); [|done]. cbn.
    intros Hu. apply lookup_insert_Some in Hu as [[_ [= -> _]]|[_ Hu]]; [|done].
    destruct (rc_act s I t Ea) as (_ & _ & Hno). done.
  - unfold release_rt. destruct (s_users s !! j) as [[t' c']|]; [|done]. cbn. intros Hu. by apply lookup_delete_Some in Hu as [_ Hu].
  - unfold prep_drain in E. destruct (s_drain s) as [t'|]; [|done]. destruct (s_tabs s !! t'); [|done].
    destruct (_ <? _); [done|]. injection E as <-. done.
  - unfold edit_new. destruct (s_new s) as [t'|]; [|done]. by destruct (s_tabs s !! t').
  - unfold drop_new_rt. by destruct (s_new s).
Qed.

Lemma release_drain s i : s_drain (release_rt s i) = s_drain s.
Proof. unfold release_rt. by destruct (s_users s !! i) as [[]|]. Qed.

(** When the users of the draining table have left, and they can, it becomes the
    new table. *)
Lemma drain_completes k : forall s t (c : C), rc_inv s -> s_drain s = Some t -> holders s t = k ->
  exists s', rtc rt_step s s' /\ s_new s' = Some t /\ s_drain s' = None /\ s_act s' = s_act s.
Proof.
  induction k as [|k IH]; intros s t c I Hd Hk.
  - destruct (rc_tabs s I t) as [x Hx]; [auto|]. pose proof (rc_refs s I t x Hx) as Hr. rewrite Hk in Hr.
    eexists. split; [apply rtc_once, (RDrained s c); unfold prep_drain; rewrite Hd, Hx, Hr; done|done].
  - assert (exists i c', s_users s !! i = Some (t, c')) as (i & c' & Hi).
    { unfold holders in Hk. assert (filter (fun u => u.2.1 = t) (s_users s) <> ∅) as Hne.
      { intros E. rewrite E, map_size_empty in Hk. done. }
      apply map_choose in Hne as (i & [t' c'] & Hi). apply map_lookup_filter_Some in Hi as [Hi Ht]. cbn in Ht. subst. by exists i, c'. }
    destruct (IH (release_rt s i) t c) as (s' & Hs & H1 & H2 & H3).
    + by apply release_inv.
    + by rewrite release_drain.
    + unfold release_rt. rewrite Hi. erewrite holders_delete by done. rewrite decide_True by done. lia.
    + exists s'. split_and!; [|done|done|rewrite H3; unfold release_rt; by rewrite Hi].
      eapply rtc_l; [apply RRelease|exact Hs].
Qed.

(** The start: one table, which is active. *)
Definition rc_init (c : C) : rt_state := MkRs {[ 0%nat := MkTbl c 0 false ]} (Some 0%nat) None None None 1 ∅.

Lemma rc_init_inv c : rc_inv (rc_init c).
Proof.
  split; cbn; try done.
  - intros t [x [<- _]%lookup_singleton_Some]. lia.
  - intros t [[= <-]|[?|[?|?]]]; [by rewrite lookup_singleton_eq|done..].
  - intros t x [<- <-]%lookup_singleton_Some. done.
Qed.
End rt_conc.
Arguments rt_state : clear implicits.
Arguments tbl : clear implicits.

(** C22.  Senders work on a table that stays: with any number of senders and the
    collector interleaved in any way, the table a sender got from get_rt still
    exists, unchanged, until the sender releases it, whatever is received and
    rolled in meanwhile. *)
Theorem held_table_stays {C : Type} (c0 : C) s i t c :
  rtc rt_step (rc_init c0) s -> s_users s !! i = Some (t, c) ->
  exists x, s_tabs s !! t = Some x /\ tb_content x = c /\ 0 < tb_refs x.
Proof.
  intros Hs Hi. pose proof (rt_steps_inv _ _ Hs (rc_init_inv c0)) as I.
  destruct (rc_users s I i t c Hi) as (x & Hx & Hc). exists x. split_and!; [done|done|].
  rewrite (rc_refs s I t x Hx). pose proof (holder_pos s i t c Hi). lia.
Qed.

Lemma held_table_stays_witness :
  exists s x, rtc rt_step (rc_init 5) s /\ s_users s !! 3%nat = Some (0%nat, 5) /\ s_act s = Some 1%nat /\
    s_tabs s !! 0%nat = Some x /\ tb_content x = 5 /\ 0 < tb_refs x.
Proof.
  set (s1 := (get_rt (rc_init 5) 3).2). set (s2 := prep_start s1 6). set (s3 := roll s2).
  assert (rtc rt_step (rc_init 5) s3) as Hs.
  { eapply rtc_l; [apply (RGet (rc_init 5) 3); reflexivity|]. eapply rtc_l; [apply (RPrep s1 6); reflexivity|].
    apply rtc_once, (RRoll s2). reflexivity. }
  destruct (held_table_stays 5 s3 3 0 5 Hs) as (x & Hx & Hc & Hr); [reflexivity|].
  exists s3, x. split; [exact Hs|]. split; [reflexivity|]. split; [reflexivity|]. split; [exact Hx|]. split; [exact Hc|exact Hr].
Defined.

(** C23.  The collector does not wait for ever: while it waits for the users of
    the old table nobody new can get that table, its use count is the number of
    those users, and once they have released it (no other step is needed) it
    becomes the table the next records go to; the active table is not touched. *)
Theorem drain_ends {C : Type} (c0 : C) s t :
  rtc rt_step (rc_init c0) s -> s_drain s = Some t ->
  (exists x, s_tabs s !! t = Some x /\ tb_refs x = Z.of_nat (holders s t)) /\
  (forall s' i c, rt_step s s' -> s_drain s' = Some t -> s_users s' !! i = Some (t, c) -> s_users s !! i = Some (t, c)) /\
  exists s', rtc rt_step s s' /\ s_new s' = Some t /\ s_drain s' = None /\ s_act s' = s_act s.
Proof.
  intros Hs Hd. pose proof (rt_steps_inv _ _ Hs (rc_init_inv c0)) as I. split_and!.
  - destruct (rc_tabs s I t) as [x Hx]; [auto|]. exists x. split; [done|]. by apply (rc_refs s I).
  - intros s' i c Hst Hd' Hu. by eapply drain_step.
  - by eapply (drain_completes (holders s t) s t c0).
Qed.

Lemma drain_ends_witness :
  exists s s', rtc rt_step (rc_init 5) s /\ s_drain s = Some 0%nat /\ s_users s !! 3%nat = Some (0%nat, 5) /\
    rtc rt_step s s' /\ s_new s' = Some 0%nat.
Proof.
  set (s1 := (get_rt (rc_init 5) 3).2). set (s2 := prep_start s1 6). set (s3 := roll s2). set (s4 := prep_start s3 7).
  assert (rtc rt_step (rc_init 5) s4) as Hs.
  { eapply rtc_l; [apply (RGet (rc_init 5) 3); reflexivity|]. eapply rtc_l; [apply (RPrep s1 6); reflexivity|].
    eapply rtc_l; [apply (RRoll s2); reflexivity|]. apply rtc_once, (RPrep s3 7); reflexivity. }
  destruct (drain_ends 5 s4 0 Hs eq_refl) as (_ & _ & s' & H1 & H2 & _).
  exists s4, s'. split; [exact Hs|]. split; [reflexivity|]. split; [reflexivity|]. split; [exact H1|exact H2].
Defined.
