(* ===== verification/Rtc.v ===== *)
(** The route table collector: src/src/rmr/common/src/rtc_static.c, its requests,
    acknowledgements and drop alarm of src/src/rmr/common/src/rt_generic_static.c,
    and src/src/rmr/common/src/alarm.c.

    The collector thread has a context of its own (the private context) on which
    it listens for the route manager and sends; the tables it builds are those of
    the application's context.  A round of its loop gets as a [tick] what is
    outside: the times it reads, the wait for a message, the shutdown flag and the
    count of dropped messages.  Writing the send counts of endpoints is output; only
    its times are kept.  Between rounds the application may do what it likes. *)

From S2P Require Import Prelude Bytes Symtab SymIface Tools Ring Mbuf Endpoint River RouteTable RtParser Send MtCall Wormhole.

Definition RMRRM_TABLE_DATA : Z := 20.
Definition RMRRM_REQ_TABLE : Z := 21.
Definition RMRRM_TABLE_STATE : Z := 22.
Definition RIC_ALARM : Z := 110.
Definition RTCFL_HAVE_UPDATE : Z := 1.
Definition DEF_CTL_PORT : list Z := $"4561".
Definition DEF_RTG_WK_ADDR : list Z := $"routemgr:4561".
Definition DEF_RTREQ_FREQ : Z := 5.
Definition ALARM_RAISE : Z := 1.
Definition ALARM_CLEAR : Z := 0.
Definition ALARM_DROPS : Z := 2.

(** ** Start *)

Definition rt_req_freq (env : option (list Z)) : Z :=
  match env with
  | Some s => let f := atoi s in if (f <? 1) || (300 <? f) then DEF_RTREQ_FREQ else f
  | None => DEF_RTREQ_FREQ
  end.

(** The environment as getenv gives it; an empty value counts as none. *)
Definition env_or (v : option (list Z)) (d : list Z) : list Z :=
  match v with Some (c :: s) => c :: s | _ => d end.

(** The port to listen on, the address of the route manager, the flags. *)
Definition rtc_mode (ctl_port rtg_svc : option (list Z)) : list Z * list Z * Z :=
  let my_port := env_or ctl_port DEF_CTL_PORT in
  let daddr := match ctl_port with Some (_ :: _) => DEF_RTG_WK_ADDR | _ => DEF_CTL_PORT end in
  let rtg_addr := env_or rtg_svc daddr in
  match tokenise rtg_addr 120 58 with
  | [] => (my_port, rtg_addr, 0)
  | [t0] => (t0, rtg_addr, RTCFL_HAVE_UPDATE)
  | t0 :: t1 :: _ => if streq t0 $"tcp" then (t1, rtg_addr, RTCFL_HAVE_UPDATE) else (my_port, rtg_addr, 0)
  end.

(** ** The drop alarm *)

Record drop_alarm := MkAlarm { al_raised : bool; al_ok2clear : Z; al_lastd : Z; al_prob : Z }.
Definition alarm0 : drop_alarm := MkAlarm false 0 0 0.

(** The alarm to send, if any: its kind and problem id. *)
Definition alarm_if_drops (dcount now : Z) (al : drop_alarm) : option (Z * Z) * drop_alarm :=
  if negb (al_raised al) then
    if i32 (dcount - al_lastd al) =? 0 then (None, al)
    else (Some (Z.lor ALARM_DROPS ALARM_RAISE, al_prob al), MkAlarm true (al_ok2clear al) (al_lastd al) (al_prob al))
  else if negb (i32 (dcount - al_lastd al) =? 0) then (None, MkAlarm true 0 dcount (al_prob al))
  else if al_ok2clear al =? 0 then (None, MkAlarm true (i32 (now + 60)) (al_lastd al) (al_prob al))
  else if al_ok2clear al <? now
       then (Some (Z.lor ALARM_DROPS ALARM_CLEAR, al_prob al), MkAlarm false (al_ok2clear al) (al_lastd al) (i32 (al_prob al + 1)))
       else (None, al).

Definition alarm_info (kind : Z) : list Z :=
  if Z.land kind ALARM_RAISE =? 0 then $"RMR message dropping has stopped"
  else $"application running slow; RMR is dropping messages".

Definition uta_alarm_endpt (am_name am_port : option (list Z)) : list Z :=
  snprintf 299 (default $"service-ricplt-alarmmanager-rmr" am_name ++ $":" ++ default $"4560" am_port).

Definition quote : list Z := [34].
Definition json_field (name value : list Z) : list Z := quote ++ name ++ quote ++ $": " ++ value ++ $", ".

(** The message text; [ms]: the time in milliseconds. *)
Definition alarm_text (progname : list Z) (kind prob_id : Z) (info : option (list Z)) (ms : Z) : list Z :=
  snprintf 2047 ($"{  " ++ json_field $"managedObjectId" $"null" ++
    json_field $"applicationId" (quote ++ progname ++ quote) ++
    json_field $"specificProblem" (decimal prob_id) ++
    json_field $"perceivedSeverity" (quote ++ $"WARNING" ++ quote) ++
    json_field $"identifyingInfo" (quote ++ default $"unspecific RMR issue" info ++ quote) ++
    json_field $"additionalInfo" $"null" ++
    json_field $"AlarmAction" (quote ++ (if Z.land kind ALARM_RAISE =? 0 then $"CLEAR" else $"RAISE") ++ quote) ++
    quote ++ $"AlarmTime" ++ quote ++ $": " ++ decimal ms ++ $" }").

(** ** Messages of the collector *)

Section collector.
Context {TH TE N : Type} `{Symbols TH thing} `{Symbols TE nat} `{Transport N}.
Variable malloc_bytes : Z -> list Z.
Variable gethostbyname : list Z -> option (list Z).
Abbreviation wctx := (wh_ctx TH TE N).

(** The private context; [pv_whid] is its field rtg_whid. *)
Record pvt_ctx := MkPvt { pv_wx : wctx; pv_rx : rx_ctx; pv_whid : Z }.

(** The application's context as the collector uses it; the tables are those of
    its send context. *)
Record app_ctx := MkApp { ap_wx : wctx; ap_table_id : option (list Z); ap_fullrt : bool; ap_ready : bool; ap_whid : Z }.

Implicit Types (pv : pvt_ctx) (ap : app_ctx) (m : mbuf).

Definition pv_mctx pv : msg_ctx := sc_mctx (wx_send (pv_wx pv)).
Definition set_pwx pv (wx : wctx) : pvt_ctx := MkPvt wx (pv_rx pv) (pv_whid pv).

(** The parser's view of the application's context. *)
Definition ap_ps ap : parser_t TH TE := MkPs (sc_rt (wx_send (ap_wx ap))) (ap_table_id ap) (ap_fullrt ap) (ap_ready ap).
Definition set_ps ap (ps : parser_t TH TE) : app_ctx :=
  MkApp (MkWh (set_rt (wx_send (ap_wx ap)) (ps_ctx ps)) (wx_eps (ap_wx ap)))
    (ps_table_id ps) (ps_fullrt ps) (ps_ready ps) (ap_whid ap).

(** A text as payload, its length set to [len]; type and subscription id. *)
Definition fill_text m (text : list Z) (len mtype sub_id : Z) : comp mbuf :=
  buf ← deref (m_tp_buf m);
  p ← deref (m_payload m);
  buf ← put buf p (text ++ [0]);
  Ret (MkMbuf (m_state m) mtype len (m_payload m) (m_xaction m) sub_id (m_tp_state m) (Some buf) (m_header m)
         (m_flags m) (m_alloc_len m) (m_rts_fd m) (m_cookie m)).

(** send_update_req: the state, 0 when there was no connection to send on. *)
Definition send_update_req pv ap (stamp : Z) : comp (Z * pvt_ctx * app_ctx) :=
  if ap_whid ap <? 0 then Ret (0, pv, ap)
  else
    smsg ← rmr_alloc_msg malloc_bytes (Some (pv_mctx pv)) None 1024;
    m ← deref smsg;
    let text := snprintf 1024 (x_my_name (sc_mctx (wx_send (ap_wx ap))) ++ $" ts=" ++ decimal stamp ++ [10]) in
    m ← fill_text m text (zlen text + 1) RMRRM_REQ_TABLE 0;
    '(r, wx) ← rmr_wh_send_msg malloc_bytes gethostbyname (Some (pv_wx pv)) (ap_whid ap) (Some m);
    let pv := set_pwx pv (default (pv_wx pv) wx) in
    m ← deref r;
    if m_state m =? RMR_OK then Ret (RMR_OK, pv, ap)
    else
      let awx := default (ap_wx ap) (rmr_wh_close (Some (ap_wx ap)) (ap_whid ap)) in
      Ret (m_state m, pv, MkApp awx (ap_table_id ap) (ap_fullrt ap) (ap_ready ap) (-1)).

(** The end of send_rt_ack, for the text that [RtParser.send_rt_ack] gives.  The
    result is the message as the caller has it, when it gave one. *)
Definition send_ack_text pv (smsg : option mbuf) (text : list Z) : comp (option mbuf * pvt_ctx) :=
  let use_rts := match smsg with Some _ => true | None => false end in
  nmsg ← (if use_rts then realloc_payload malloc_bytes smsg 1024 false false
          else rmr_alloc_msg malloc_bytes (Some (pv_mctx pv)) None 1024);
  match nmsg with
  | None => Ret (smsg, pv)
  | Some m =>
      m ← fill_text m text (zlen text + 1) RMRRM_TABLE_STATE (-1);
      '(r, wx) ← (if use_rts
        then '(r, sc) ← rmr_rts_msg malloc_bytes gethostbyname (Some (wx_send (pv_wx pv))) (Some m);
             Ret (r, option_map (fun sc => MkWh sc (wx_eps (pv_wx pv))) sc)
        else rmr_wh_send_msg malloc_bytes gethostbyname (Some (pv_wx pv)) (pv_whid pv) (Some m));
      let pv := set_pwx pv (default (pv_wx pv) wx) in
      m ← deref r;
      let pv := if m_state m =? RMR_OK then pv
                else MkPvt (default (pv_wx pv) (rmr_wh_close (Some (pv_wx pv)) (pv_whid pv))) (pv_rx pv) (-1) in
      Ret (if use_rts then Some m else None, pv)
  end.

(** ** Alarms *)

(** The result is the wormhole id that is kept, [None] for a message that is not
    freed. *)
Definition uta_alarm_send pv (ept : list Z) (whid : Z) (msg : option mbuf) : comp (Z * bool * pvt_ctx) :=
  let '(whid, pv) :=
    if whid <? 0
    then let '(w, wx) := rmr_wh_open gethostbyname (Some (pv_wx pv)) ept in (w, set_pwx pv (default (pv_wx pv) wx))
    else (whid, pv) in
  if whid <? 0 then Ret (whid, false, pv)
  else
    match msg with
    | Some m =>
        '(_, wx) ← rmr_wh_send_msg malloc_bytes gethostbyname (Some (pv_wx pv)) whid (Some m);
        Ret (whid, true, set_pwx pv (default (pv_wx pv) wx))
    | None => Ret (whid, true, pv)
    end.

Definition uta_alarm pv (ept progname : list Z) (whid kind prob_id : Z) (info : option (list Z)) (ms : Z) : comp (Z * bool * pvt_ctx) :=
  msg ← rmr_alloc_msg malloc_bytes (Some (pv_mctx pv)) None 2048;
  match msg with
  | None => Ret (whid, true, pv)
  | Some m =>
      let text := alarm_text progname kind prob_id info ms in
      m ← fill_text (set_state RMR_OK m) text (zlen text) RIC_ALARM (-1);
      uta_alarm_send pv ept whid (Some m)
  end.

(** ** A message of the route manager *)

(** The records of a message: the lines of its payload up to the first nil
    byte; what follows the last newline is a record too. *)
Fixpoint msg_recs (rec buf : list Z) : list (list Z) :=
  match buf with
  | [] => [rec]
  | c :: buf' => if c =? 10 then rec :: msg_recs [] buf' else msg_recs (rec ++ [c]) buf'
  end.

(** Acknowledgements are sent while the private context has not lost its
    connection. *)
Fixpoint parse_lines (wbuf : list Z) ap pv m (recs : list (list Z)) : comp (app_ctx * pvt_ctx * mbuf) :=
  match recs with
  | [] => Ret (ap, pv, m)
  | rec :: recs' =>
      '(ack, ps) ← parse_rt_rec gethostbyname (0 <=? pv_whid pv) wbuf (ap_ps ap) rec;
      '(m, pv) ← match ack with
                 | Some text => '(r, pv) ← send_ack_text pv (Some m) text; Ret (default m r, pv)
                 | None => Ret (m, pv)
                 end;
      parse_lines wbuf (set_ps ap ps) pv m recs'
  end.

(** [pbuf_size] is the size of the static work buffer, 0 when there is none. *)
Definition rtc_parse_msg (wbuf : list Z) ap pv m (flags pbuf_size : Z) : comp (app_ctx * pvt_ctx * mbuf * Z * Z) :=
  if m_mtype m =? RMRRM_TABLE_DATA then
    let flags := Z.lor flags RTCFL_HAVE_UPDATE in
    let mlen := m_len m in
    let pbuf_size := if pbuf_size <=? mlen then (if mlen <? 512 then 1024 else mlen * 2) else pbuf_size in
    buf ← deref (m_tp_buf m);
    payload ← deref (m_payload m);
    if (mlen <? 0) || (payload <? 0) || (zlen buf <? payload + mlen) || (pbuf_size <? mlen + 1) || (INT_MAX <? pbuf_size) then UB
    else
      '(ap, pv, m) ← parse_lines wbuf ap pv m (msg_recs [] (cstr_of (slice buf payload mlen)));
      Ret (ap, pv, set_len 0 m, flags, pbuf_size)
  else Ret (ap, pv, m, flags, pbuf_size).

(** ** The loop *)

(** What a round gets from outside: the times read (to decide on a request, in its
    text, for the next one, for the counts, in the alarm), the wait for a message,
    whether counts are wanted, the shutdown flag, the application's drop count. *)
Record tick := MkTick {
  tk_req : Z; tk_stamp : Z; tk_next : Z;
  tk_lock : bool; tk_waits : list wait_res;
  tk_blab : Z; tk_blab_next : Z;
  tk_shutdown : bool;
  tk_dcount : Z; tk_alarm : Z; tk_ms : Z
}.

Record rtc_st := MkRtc {
  r_app : app_ctx; r_pvt : pvt_ctx; r_msg : option mbuf; r_flags : Z; r_nxt : Z;
  r_blabber : Z; r_delay : Z; r_bump : Z; r_alarm : drop_alarm; r_alarm_whid : Z; r_pbuf : Z
}.

Definition rtc_start ap pv (flags now : Z) (seed : option (list Z)) : comp rtc_st :=
  ps ← read_static_rt gethostbyname (ap_ps ap) seed;
  let ap := set_ps ap (MkPs (ps_ctx ps) (ps_table_id ps) false (ps_ready ps)) in
  Ret (MkRtc (MkApp (ap_wx ap) (ap_table_id ap) (ap_fullrt ap) (ap_ready ap) (-1)) pv None flags 0 0 30 (i32 (now + 300)) alarm0 (-1) 0).

Variables (freq : Z) (rtg_addr ept progname wbuf : list Z).

(** A request for a table, when none has come and it is time. *)
Definition rtc_request (t : tick) (s : rtc_st) : comp rtc_st :=
  if (Z.land (r_flags s) RTCFL_HAVE_UPDATE =? 0) && (r_nxt s <=? tk_req t) then
    let ap := r_app s in
    let pv := r_pvt s in
    let '(whid, pv) :=
      if ap_whid ap <? 0
      then let '(w, wx) := rmr_wh_open gethostbyname (Some (pv_wx pv)) rtg_addr in (w, set_pwx pv (default (pv_wx pv) wx))
      else (ap_whid ap, pv) in
    let ap := MkApp (ap_wx ap) (ap_table_id ap) (ap_fullrt ap) (ap_ready ap) whid in
    '(_, pv, ap) ← send_update_req pv ap (tk_stamp t);
    Ret (MkRtc ap pv (r_msg s) (r_flags s) (i32 (tk_next t + freq)) (r_blabber s) (r_delay s) (r_bump s) (r_alarm s) (r_alarm_whid s) (r_pbuf s))
  else Ret s.

(** The wait of at most a second; [None]: it is not over. *)
Definition rtc_wait (t : tick) (s : rtc_st) : option rtc_st :=
  match rmr_torcv_msg (tk_lock t) (Some (pv_rx (r_pvt s))) (r_msg s) 1000 (tk_waits t) with
  | Some (msg, rx, _) =>
      let pv := MkPvt (pv_wx (r_pvt s)) (default (pv_rx (r_pvt s)) rx) (pv_whid (r_pvt s)) in
      let '(blabber, delay) :=
        if r_blabber s <? tk_blab t
        then let b := tk_blab_next t + r_delay s in (b, if r_bump s <? b then 300 else r_delay s)
        else (r_blabber s, r_delay s) in
      Some (MkRtc (r_app s) pv msg (r_flags s) (r_nxt s) blabber delay (r_bump s) (r_alarm s) (r_alarm_whid s) (r_pbuf s))
  | None => None
  end.

Definition rtc_alarm (t : tick) (s : rtc_st) : comp rtc_st :=
  let '(al, st) := alarm_if_drops (tk_dcount t) (tk_alarm t) (r_alarm s) in
  '(whid, _, pv) ← match al with
                   | Some (kind, prob) => uta_alarm (r_pvt s) ept progname (r_alarm_whid s) kind prob (Some (alarm_info kind)) (tk_ms t)
                   | None => Ret (r_alarm_whid s, true, r_pvt s)
                   end;
  Ret (MkRtc (r_app s) pv (r_msg s) (r_flags s) (r_nxt s) (r_blabber s) (r_delay s) (r_bump s) st whid (r_pbuf s)).

Definition has_data (msg : option mbuf) : bool := match msg with Some m => 0 <? m_len m | None => false end.

Definition rtc_handle (s : rtc_st) : comp rtc_st :=
  match r_msg s with
  | Some m =>
      if 0 <? m_len m then
        '(ap, pv, m, flags, pb) ← rtc_parse_msg wbuf (r_app s) (r_pvt s) m (r_flags s) (r_pbuf s);
        Ret (MkRtc ap pv (Some m) flags (r_nxt s) (r_blabber s) (r_delay s) (r_bump s) (r_alarm s) (r_alarm_whid s) pb)
      else Ret s
  | None => Ret s
  end.

(** A round: the inner loop's body while there is no message to work on, else
    the rest of the outer loop's.  The flag tells that the thread ends; [None]
    that it still waits. *)
Definition rtc_round (t : tick) (s : rtc_st) : comp (option (bool * rtc_st)) :=
  if negb (has_data (r_msg s)) then
    s ← rtc_request t s;
    match rtc_wait t s with
    | None => Ret None
    | Some s =>
        if tk_shutdown t then s ← rtc_handle s; Ret (Some (true, s))
        else s ← rtc_alarm t s; Ret (Some (false, s))
    end
  else s ← rtc_handle s; Ret (Some (tk_shutdown t, s)).

(** Rounds until the thread ends; the flag as above. *)
Fixpoint rtc_run (ts : list tick) (s : rtc_st) : comp (option (bool * rtc_st)) :=
  match ts with
  | [] => Ret (Some (false, s))
  | t :: ts' =>
      x ← rtc_round t s;
      match x with
      | Some (false, s) => rtc_run ts' s
      | _ => Ret x
      end
  end.

(** The collector for a table in a file only: the state after a round and the
    seconds to sleep, [None] at the end. *)
Definition rtc_file_round (shutdown : bool) ap (file : option (list Z)) : comp (app_ctx * option Z) :=
  ps ← read_static_rt gethostbyname (ap_ps ap) file;
  let ap := set_ps ap ps in
  Ret (ap, if shutdown then None else Some (if ap_ready ap then 60 else 1)).
End collector.
