(* ===== verification/RtcSpec.v ===== *)
(** What the collector does: theorems about Rtc.v.

    [msg_ok] and [private_ok] are what an acknowledgement needs of the message and the
    private context; they hold again afterwards, so that a message with any number of
    records is worked off.  The tables then are those of the abstract machine of
    RtRefine.v, and what was sent back are its acknowledgements ([answer_all]).  The
    other theorems are about requests, the alarm and failures. *)

From S2P Require Import Prelude Bytes Symtab SymIface Tools Ring Mbuf Endpoint River RouteTable RtInv RtSpec RtParser RtRefine Send SendSpec Fanout MtCall Wormhole Rtc.

(** ** What the machine sends back *)

(** Whether acknowledgements are wanted has no influence on the tables, and an
    acknowledgement fits into the space for it. *)
Definition same_but_ack (x y : comp (option (list Z) * astate)) : Prop :=
  forall ack S', x = Ret (ack, S') -> (exists ack', y = Ret (ack', S')) /\ forall t, ack = Some t -> zlen t <= 1022.

Lemma ack_none S : same_but_ack (Ret (None, S)) (Ret (None, S)).
Proof. intros a S' [= <- <-]. split; [by eexists|done]. Qed.

Lemma ack_UB y : same_but_ack UB y.
Proof. by intros a S'. Qed.

Lemma ack_text can can' id ok reason S :
  same_but_ack (Ret (send_rt_ack can id ok reason, S)) (Ret (send_rt_ack can' id ok reason, S)).
Proof.
  intros a S' [= <- <-]. split; [by eexists|]. unfold send_rt_ack. intros t. destruct can; [|done]. intros [= <-].
  unfold snprintf, zlen. rewrite length_take. lia.
Qed.
#[local] Hint Resolve ack_none ack_UB ack_text : core.

Lemma start_acks can can' all keep me S tokens :
  same_but_ack (Ret (spec_start can all keep me S tokens)) (Ret (spec_start can' all keep me S tokens)).
Proof. unfold spec_start. cbv zeta. destruct (as_new S); auto. Qed.

Lemma end_acks can can' full ready count reason S tokens :
  same_but_ack (spec_end can full ready count reason S tokens) (spec_end can' full ready count reason S tokens).
Proof.
  assert (same_but_ack (Ret (spec_roll can full ready S)) (Ret (spec_roll can' full ready S))) as Hr
    by (unfold spec_roll; destruct (as_new S); auto).
  unfold spec_end. destruct (tokens !! 2%nat); [|done]. destruct (as_new S); [|done]. cbn [deref mbind comp_bind].
  destruct (negb _); auto.
Qed.

Lemma upd_acks S c k A : same_but_ack (spec_upd S c k A) (spec_upd S c k A).
Proof. unfold spec_upd. case_decide; auto. Qed.
#[local] Hint Resolve start_acks end_acks upd_acks : core.

Lemma meid_acks can can' S tokens : same_but_ack (spec_meid can S tokens) (spec_meid can' S tokens).
Proof.
  unfold spec_meid. destruct tokens as [|t0 [|t1 rest]]; auto. destruct (streq t0 _).
  - destruct (bool_decide _); [auto|]. destruct (streq _ _); auto.
  - destruct (as_new S); [|auto]. cbv zeta. destruct (streq _ _); [destruct rest; auto|]. destruct (streq _ _); auto.
Qed.

Lemma rec_acks my ips can can' wbuf S buf :
  same_but_ack (spec_rec my ips can wbuf S buf) (spec_rec my ips can' wbuf S buf).
Proof.
  unfold spec_rec. destruct (tokenise _ _ _) as [|t0 ts]; [auto|]. cbv zeta. destruct (clip t0) as [|c t0'] eqn:E0; [auto|]. rewrite <-E0.
  destruct (c =? 35); [auto|]. destruct (c =? 100). { destruct (as_new S), ts as [|? [|? ?]]; auto. }
  destruct (c =? 110). { destruct ts as [|t1 ts]; [auto|]. cbn [lookup list_lookup deref mbind comp_bind]. destruct (streq _ _); auto. }
  destruct (c =? 109). { destruct (streq _ _); [|apply meid_acks]. destruct (as_new S), ts as [|? [|? [|? ?]]]; auto. }
  destruct (c =? 114). { destruct (as_new S); [|auto]. destruct ts as [|? [|? ?]]; [auto..|]. cbn [lookup list_lookup deref mbind comp_bind]. auto. }
  destruct (c =? 117); [|auto]. destruct (negb _); [auto|]. destruct ts as [|t1 ts]; [auto|].
  cbn [lookup list_lookup deref mbind comp_bind]. destruct (streq _ _); [|auto]. destruct (as_new S); auto.
Qed.

(** ** No acknowledgement is asked for when none can be sent *)

Section no_acks.
Context {TH TE N : Type} `{Symbols TH thing} `{Symbols TE nat} `{Transport N}.
Variable gethostbyname : list Z -> option (list Z).
Implicit Types (ps : parser_t TH TE).

Definition no_ack {A} (x : comp (option (list Z) * A)) : Prop := forall ack a, x = Ret (ack, a) -> ack = None.

Lemma no_ack_ret {A} (a : A) : no_ack (Ret (None, a)).
Proof. by intros ? ? [= <- _]. Qed.

Lemma no_ack_bind {A B} (x : comp A) (f : A -> comp (option (list Z) * B)) : (forall a, no_ack (f a)) -> no_ack (x ≫= f).
Proof. intros Hf ack b E. apply comp_bind_ret in E as (a & _ & E). by eapply Hf. Qed.
#[local] Hint Resolve no_ack_ret no_ack_bind : core.

Lemma start_no_ack all keep me ps tokens : no_ack (start_table false all keep me ps tokens).
Proof.
  unfold start_table. cbv zeta. apply no_ack_bind. intros ctx. apply no_ack_bind. intros [rt ctx'].
  cbn [send_rt_ack]. destruct (cr_new _); auto.
Qed.

Lemma end_no_ack full ready count reason ps tokens : no_ack (end_table false full ready count reason ps tokens).
Proof.
  assert (no_ack (Ret (roll_new false full ready ps))) as Hr by (unfold roll_new; destruct (cr_new _); cbn; auto).
  unfold end_table. destruct (tokens !! 2%nat); [|done]. apply no_ack_bind. intros rt. destruct (negb _); [|done].
  apply no_ack_bind. cbn. auto.
Qed.
#[local] Hint Resolve start_no_ack end_no_ack : core.

Lemma meid_no_ack ps tokens : no_ack (meid_parser gethostbyname false ps tokens).
Proof.
  unfold meid_parser. destruct tokens as [|t0 [|t1 rest]]; auto. destruct (streq _ _); cbv zeta.
  - destruct (bool_decide _); auto. destruct (streq _ _); auto.
  - destruct (cr_new _); auto. destruct (streq _ _); [destruct rest; auto; by destruct (parse_meid_ar _ _ _ _ _); auto|].
    destruct (streq _ _); auto.
Qed.

Lemma parse_no_ack wbuf ps buf : no_ack (parse_rt_rec gethostbyname false wbuf ps buf).
Proof.
  unfold parse_rt_rec. destruct (tokenise _ _ _) as [|t0 ts]; auto. cbv zeta. destruct (clip t0) as [|c t0'] eqn:E0; auto. rewrite <-E0.
  destruct (c =? 35); auto. destruct (c =? 100). { destruct (cr_new _), ts as [|? [|? ?]]; auto. }
  destruct (c =? 110). { apply no_ack_bind. intros t1. destruct (streq _ _); auto. }
  destruct (c =? 109). { destruct (streq _ _); [|apply meid_no_ack]. destruct (cr_new _), ts as [|? [|? [|? ?]]]; auto. }
  destruct (c =? 114). { destruct (cr_new _); auto 10. }
  destruct (c =? 117); auto. destruct (negb _); auto. apply no_ack_bind. intros t1. destruct (streq _ _); auto. destruct (cr_new _); auto.
Qed.
End no_acks.

(** ** Acknowledgements can be sent *)

Lemma zt_fill_framed b off s len : 1 <= len -> 0 <= off -> off + len <= zlen b ->
  exists n b', zt_buf_fill b off (s ++ [0]) len = Ret (n, b') /\ framed b b' off len.
Proof.
  intros. rewrite zt_buf_fill_spec by (done || (left; apply in_app_iff; simpl; tauto)).
  set (t := take _ _). assert (zlen t <= len - 1) as Ht by (unfold t, zlen; rewrite length_take; lia).
  assert (zlen (t ++ [0]) = zlen t + 1) as Et by (rewrite zlen_app; done).
  eexists _, _. split; [done|]. apply (framed_weaken _ _ off (zlen (t ++ [0]))); try lia. apply framed_splice; lia.
Qed.

(** A message whose header takes at most [330 + B] bytes and that is not to be freed when sent. *)
Definition msg_ok (B : Z) (m : mbuf) : Prop :=
  exists buf tr d1 d2 room, sendable m buf tr d1 d2 room /\ tr + d1 + d2 <= B /\ Z.land (m_flags m) MFL_NOALLOC = 0.

(** The lengths of the private context. *)
Record lens_ok (B : Z) (x : msg_ctx) : Prop := {
  xo_tr : x_trace_data_len x = 0;
  xo_d1 : 0 <= x_d1_len x <= B;
  xo_d2 : x_d2_len x = 0;
  xo_p : 0 <= x_max_plen x;
  xo_max : 2000 + 2 * B + x_max_plen x < 2 ^ 31;
  xo_name : is_cstr (x_my_name x);
  xo_ip : is_cstr (x_my_ip x)
}.

Lemma mctx_reuse B x tr : lens_ok B x -> 0 <= tr <= B -> reuse_ok x tr.
Proof. intros [Ht Hd1 Hd2 Hp Hm Hn Hi] Htr. split; try done; lia. Qed.

Section collector.
Context {TH TE N : Type} `{Symbols TH thing} `{Symbols TE nat} `{Transport N}.
Variable malloc_bytes : Z -> list Z.
Hypothesis malloc_len : forall n, 0 <= n -> zlen (malloc_bytes n) = n.
Variable gethostbyname : list Z -> option (list Z).
Implicit Types (sc : send_ctx TH TE N) (pv : pvt_ctx (TH := TH) (TE := TE) (N := N)) (m : mbuf).

Definition private_ok (B : Z) sc : Prop := lens_ok B (sc_mctx sc) /\ is_Some (cr_rtable (sc_rt sc)).

(** What the send functions leave alone. *)
Definition same_base sc sc' : Prop := sc_mctx sc' = sc_mctx sc /\ cr_rtable (sc_rt sc') = cr_rtable (sc_rt sc).

Lemma same_base_ok B sc sc' : same_base sc sc' -> private_ok B sc -> private_ok B sc'.
Proof. intros [E1 E2] [? ?]. split; by rewrite ?E1, ?E2. Qed.

Lemma sock_of_base add sc id : same_base sc (sock_of add sc id).2.
Proof. unfold sock_of. by destruct (ep_socket _ _ _ _). Qed.

Lemma byname_total sc name : is_Some (cr_rtable (sc_rt sc)) ->
  exists sock ep sc', uta_epsock_byname gethostbyname sc name = Ret (sock, ep, sc') /\ same_base sc sc'.
Proof.
  intros [rt Ert]. unfold uta_epsock_byname. rewrite Ert. cbn [deref mbind comp_bind].
  set (x := match sm_get _ _ with Some id => _ | None => _ end).
  assert (same_base sc x.2) as Hx.
  { unfold x, rt_ensure_ep. destruct (sm_get _ _); [done|]. destruct name; [by destruct sc|]. by destruct (uta_get_ep _ _); destruct sc. }
  destruct x as [[id|] sc1]; cbn [snd] in Hx; [|by eexists _, _, _].
  pose proof (sock_of_base true sc1 id) as Hs. destruct (sock_of true sc1 id) as [sock sc2]. cbn [snd] in Hs.
  eexists _, _, _. split; [done|]. destruct Hx, Hs. split; congruence.
Qed.

Lemma count_ep_base sc st ep : same_base sc (count_ep sc st ep).
Proof. unfold count_ep. destruct ep as [id|]; [|done]. by destruct (cr_eps (sc_rt sc) !! id). Qed.

(** A message keeps its form when a field outside of the four lengths changes. *)
Lemma wf_framed m buf b off n tr d1 d2 room :
  mbuf_wf m buf tr d1 d2 room -> framed buf b off n -> off + n <= 246 \/ 262 <= off ->
  mbuf_wf (set_tp_buf (Some b) m) b tr d1 d2 room.
Proof. intros [Eb Eh Ep Ex Hl L] F Hd. split; try done. by eapply layout_framed. Qed.

Lemma zlen_snprintf n s : 0 < n -> zlen (snprintf n s) <= n - 1.
Proof. intros. unfold snprintf, zlen. rewrite length_take. lia. Qed.

Lemma fill_text_ok m buf tr d1 d2 room text mtype sub_id :
  mbuf_wf m buf tr d1 d2 room -> 330 + tr + d1 + d2 + zlen text + 1 <= m_alloc_len m <= zlen buf ->
  exists m' b, fill_text m text (zlen text + 1) mtype sub_id = Ret m' /\ sendable m' b tr d1 d2 room /\ m_flags m' = m_flags m /\
    m_len m' = zlen text + 1 /\ m_mtype m' = mtype.
Proof.
  intros W Ha. pose proof (mw_layout _ _ _ _ _ _ W) as L. pose proof (ml_len _ _ _ _ _ L). pose proof (ml_sz _ _ _ _ _ L).
  pose proof (zlen_nonneg text). unfold fill_text. rewrite (mw_buf _ _ _ _ _ _ W), (mw_pay _ _ _ _ _ _ W). cbn [deref mbind comp_bind].
  assert (zlen (text ++ [0]) = zlen text + 1) as Et by (rewrite zlen_app; done).
  destruct (put_ex buf (330 + tr + d1 + d2) (text ++ [0])) as (b & -> & _ & F); [lia..|]. cbn [mbind comp_bind].
  assert (msg_layout b tr d1 d2 room) as L' by (eapply layout_framed; [exact L|exact F|lia]).
  eexists _, b. split; [done|]. destruct W. destruct F. split_and!; try done. split; cbn; [split; cbn; try done; lia|lia].
Qed.


(** The send of an acknowledgement: the message is kept, or replaced by one of
    the context. *)
Lemma send_ok B sc m buf tr d1 d2 room fd : 0 <= B -> private_ok B sc -> sendable m buf tr d1 d2 room -> tr + d1 + d2 <= B ->
  Z.land (m_flags m) MFL_NOALLOC = 0 ->
  exists m' errno n', send_msg malloc_bytes (sc_mctx sc) (sc_net sc) m fd (-1) = Ret (Some m', errno, n') /\ msg_ok B m'.
Proof.
  intros HB [C _] S Hsz Hf. pose proof S as [W Hfit]. pose proof (mw_layout _ _ _ _ _ _ W) as L.
  pose proof (ml_len _ _ _ _ _ L). pose proof (ml_sz _ _ _ _ _ L). pose proof (mw_len _ _ _ _ _ _ W).
  destruct (send_msg_ref malloc_bytes malloc_len (sc_mctx sc) (sc_net sc) m buf tr d1 d2 room fd (-1) S
    ltac:(apply (mctx_reuse B); [done|lia])) as (f & b' & _ & L' & Hs).
  destruct (retry_send _ _ _ _) as [[st er] n']. cbv zeta in Hs. rewrite Hf in Hs.
  assert (forall st', msg_ok B (set_state st' (set_tp_buf (Some b') m))) as Hback.
  { intros st'. exists b', tr, d1, d2, room. split_and!; [|done|done]. destruct W.
    split; [split; try done|]. cbn. rewrite (ml_len _ _ _ _ _ L'). lia. }
  destruct (st =? SI_OK).
  - destruct Hs as (m' & -> & Bm). eexists _, _, _. split; [done|].
    destruct (bm_room _ _ _ Bm) as (b & room' & W' & Hr); [rewrite (xo_tr _ _ C); lia|].
    destruct (bm_state _ _ _ Bm) as (_ & _ & _ & Hl & Hfl & _).
    exists b, (x_trace_data_len (sc_mctx sc)), (x_d1_len (sc_mctx sc)), 0, room'. split_and!.
    + split; [done|]. rewrite Hl. lia.
    + rewrite (xo_tr _ _ C). pose proof (xo_d1 _ _ C). lia.
    + by rewrite Hfl.
  - destruct ((st =? SI_ERR_BLOCKED) && (0 <=? -1) || (er =? EAGAIN)); rewrite Hs; eexists _, _, _; by split.
Qed.

Lemma rts_ok B sc m : 0 <= B -> msg_ok B m -> private_ok B sc ->
  exists m' sc', rmr_rts_msg malloc_bytes gethostbyname (Some sc) (Some m) = Ret (Some m', Some sc') /\
    msg_ok B m' /\ private_ok B sc'.
Proof.
  intros HB (buf & tr & d1 & d2 & room & [W Hfit] & Hsz & Hnoalloc) C. pose proof (mw_layout _ _ _ _ _ _ W) as L.
  pose proof (ml_len _ _ _ _ _ L). pose proof (ml_sz _ _ _ _ _ L). pose proof (mw_len _ _ _ _ _ _ W).
  unfold rmr_rts_msg. rewrite (mw_hdr _ _ _ _ _ _ W), (mw_buf _ _ _ _ _ _ W). cbn [deref mbind comp_bind].
  destruct (get8_total buf (TP_HDR_LEN + o_flags + 3)) as [c ->]; [offsets; lia|]. cbn [mbind comp_bind].
  set (fl := le_bytes 4 _). assert (zlen fl = 4) as Ef by (unfold fl, zlen; by rewrite length_le_bytes).
  destruct (put_ex buf (TP_HDR_LEN + o_flags) fl) as (b1 & -> & _ & F1); [offsets; lia..|]. cbn [mbind comp_bind].
  pose proof (wf_framed _ _ _ _ _ _ _ _ _ W F1 ltac:(offsets; lia)) as W1.
  destruct (byname_total sc (cstr_at b1 (TP_HDR_LEN + o_src))) as (sock & ep & sc1 & -> & K1); [apply C|]. cbn [mbind comp_bind].
  pose proof (same_base_ok _ _ _ K1 C) as C1.
  assert (zlen b1 = zlen buf) as Z1 by apply F1.
  set (pick := match sock with Some fd => _ | None => _ end).
  assert (exists fd ep' sc2, pick = Ret (fd, ep', sc2) /\ private_ok B sc2) as (fd & ep' & sc2 & -> & C2).
  { unfold pick. destruct sock as [fd|]; [by eexists _, _, _|]. cbn [m_rts_fd set_tp_buf].
    destruct (0 <=? m_rts_fd m); [by eexists _, _, _|]. unfold HDR_VERSION. rewrite get32n_ret by (offsets; lia). cbn [mbind comp_bind].
    destruct (2 <? _); [|by eexists _, _, _].
    destruct (byname_total sc1 (cstr_at b1 (TP_HDR_LEN + o_srcip))) as (s2 & e2 & sc2 & -> & K2); [apply C1|].
    eexists _, _, _. split; [done|]. by eapply same_base_ok. }
  cbn [mbind comp_bind]. destruct fd as [fd|].
  2:{ eexists _, _. split; [done|]. split; [|done]. exists b1, tr, d1, d2, room. split_and!; try done.
      destruct W1. split; [by split|]. cbn. lia. }
  destruct (zt_fill_framed b1 (TP_HDR_LEN + o_src) (x_my_name (sc_mctx sc2)) RMR_MAX_SRC) as (k & b2 & -> & F2); [offsets; lia..|].
  cbn [mbind comp_bind]. pose proof (wf_framed _ _ _ _ _ _ _ _ _ W1 F2 ltac:(offsets; lia)) as W2.
  assert (zlen b2 = zlen b1) as Z2 by apply F2.
  destruct (send_ok B sc2 (set_state RMR_OK (set_tp_buf (Some b2) (set_tp_buf (Some b1) m))) b2 tr d1 d2 room fd HB C2)
    as (m' & er & n' & -> & b3 & tr' & d1' & d2' & room' & [W3 Hfit3] & Hsz3 & Hf3); [|done|done|].
  { destruct W2. split; [by split|]. cbn. lia. }
  cbn [mbind comp_bind]. rewrite (mw_hdr _ _ _ _ _ _ W3), (mw_buf _ _ _ _ _ _ W3). cbn [deref mbind comp_bind].
  pose proof (mw_layout _ _ _ _ _ _ W3) as L3. pose proof (ml_len _ _ _ _ _ L3). pose proof (ml_sz _ _ _ _ _ L3).
  destruct (zt_fill_framed b3 (TP_HDR_LEN + o_src) (cstr_at b1 (TP_HDR_LEN + o_src)) RMR_MAX_SRC) as (k4 & b4 & -> & F4); [offsets; lia..|].
  cbn [mbind comp_bind]. assert (zlen b4 = zlen b3) as Z4 by apply F4.
  destruct (zt_fill_framed b4 (TP_HDR_LEN + o_srcip) (cstr_at b1 (TP_HDR_LEN + o_srcip)) RMR_MAX_SRC) as (k5 & b5 & -> & F5); [offsets; lia..|].
  cbn [mbind comp_bind]. assert (zlen b5 = zlen b4) as Z5 by apply F5.
  pose proof (wf_framed _ _ _ _ _ _ _ _ _ (wf_framed _ _ _ _ _ _ _ _ _ W3 F4 ltac:(offsets; lia)) F5 ltac:(offsets; lia)) as W5.
  eexists _, _. split; [done|]. split.
  - exists b5, tr', d1', d2', room'. split_and!; [|done|]. 
    + destruct W5. split; [by split|]. cbn. lia.
    + cbn. by rewrite land_lor_bit.
  - eapply same_base_ok; [|exact C2]. by destruct (count_ep_base (set_net sc2 n') (m_state m') ep').
Qed.

Lemma ref_tpbuf_flags m alen m' : ref_tpbuf m alen = Ret m' -> m_flags m' = Z.lor (m_flags m) MFL_ZEROCOPY.
Proof.
  unfold ref_tpbuf. intros E. repeat (apply comp_bind_ret in E as (? & _ & E)). by injection E as <-.
Qed.

Lemma realloc_flags m plen m' c : realloc_payload malloc_bytes (Some m) plen false false = Ret (Some m') ->
  Z.land MFL_ZEROCOPY c = 0 -> Z.land (m_flags m') c = Z.land (m_flags m) c.
Proof.
  unfold realloc_payload. destruct (plen <=? 0); [done|]. intros E Hc.
  apply comp_bind_ret in E as (obuf & _ & E). apply comp_bind_ret in E as (oh & _ & E). apply comp_bind_ret in E as (hl & _ & E).
  cbv zeta in E. destruct (negb false && _); [by injection E as <-|].
  apply comp_bind_ret in E as (? & _ & E). apply comp_bind_ret in E as (b & _ & E). apply comp_bind_ret in E as (nm & En & E).
  injection E as <-. cbn. rewrite (ref_tpbuf_flags _ _ _ En). cbn. by apply land_lor_bit.
Qed.

Lemma realloc_ok B x m : lens_ok B x -> msg_ok B m ->
  exists m' buf tr d1 d2 room, realloc_payload malloc_bytes (Some m) 1024 false false = Ret (Some m') /\
    mbuf_wf m' buf tr d1 d2 room /\ 330 + tr + d1 + d2 + 1024 <= m_alloc_len m' <= zlen buf /\ tr + d1 + d2 <= B /\
    Z.land (m_flags m') MFL_NOALLOC = 0.
Proof.
  intros C (buf & tr & d1 & d2 & room & [W Hfit] & Hsz & Hf). pose proof (xo_max _ _ C). pose proof (xo_p _ _ C).
  pose proof (xo_d1 _ _ C). pose proof (realloc_payload_room malloc_bytes m buf tr d1 d2 room 1024 false false malloc_len W Hfit ltac:(done) ltac:(lia)) as R.
  cbv zeta in R. cbn [negb andb] in R. destruct (Z.leb_spec 1024 (m_alloc_len m - (330 + tr + d1 + d2))).
  - exists m, buf, tr, d1, d2, room. split_and!; [done..|lia|lia|lia|done].
  - destruct R as (m' & buf' & E & W' & Ha & _). exists m', buf', tr, d1, d2, (Z.max 1024 (m_alloc_len m - (330 + tr + d1 + d2))).
    pose proof (ml_len _ _ _ _ _ (mw_layout _ _ _ _ _ _ W')). split_and!; try done; try lia.
    by rewrite (realloc_flags _ _ _ _ E).
Qed.

Lemma ack_ok B pv m text : 0 <= B -> msg_ok B m -> private_ok B (wx_send (pv_wx pv)) -> zlen text <= 1022 ->
  exists m' pv', send_ack_text malloc_bytes gethostbyname pv (Some m) text = Ret (Some m', pv') /\
    msg_ok B m' /\ private_ok B (wx_send (pv_wx pv')).
Proof.
  intros HB Hm C Ht. destruct (realloc_ok B _ m (proj1 C) Hm) as (m1 & buf & tr & d1 & d2 & room & E & W & Ha & Hsz & Hf).
  unfold send_ack_text. cbv zeta. rewrite E. cbn [mbind comp_bind].
  destruct (fill_text_ok m1 buf tr d1 d2 room text RMRRM_TABLE_STATE (-1) W ltac:(lia)) as (m2 & b & -> & S2 & Hf2 & _).
  cbn [mbind comp_bind].
  destruct (rts_ok B (wx_send (pv_wx pv)) m2 HB) as (m3 & sc' & -> & Hm3 & C3); [|done|].
  { exists b, tr, d1, d2, room. by rewrite Hf2. }
  cbn [mbind comp_bind option_map default deref]. destruct (m_state m3 =? RMR_OK); eexists _, _; (split; [done|]); [by split|].
  split; [done|]. cbn. destruct (wx_eps (pv_wx pv)); [|done]. cbn. by destruct ((_ <=? _) || _).
Qed.

(** ** A message is worked off *)

(** The acknowledgements [texts], sent one after the other until one cannot be
    sent; each gets the message that the one before it left. *)
Fixpoint send_acks pv m (texts : list (list Z)) : comp (mbuf * pvt_ctx (TH := TH) (TE := TE) (N := N)) :=
  match texts with
  | [] => Ret (m, pv)
  | text :: texts' =>
      if 0 <=? pv_whid pv
      then '(r, pv) ← send_ack_text malloc_bytes gethostbyname pv (Some m) text; send_acks pv (default m r) texts'
      else Ret (m, pv)
  end.

Lemma send_acks_lost pv m texts : pv_whid pv < 0 -> send_acks pv m texts = Ret (m, pv).
Proof. intros Hw. destruct texts; [done|]. cbn [send_acks]. by rewrite (proj2 (Z.leb_gt _ _) Hw). Qed.

Lemma lines_refine my ips wbuf recs : forall B ap pv m S acks S',
  0 <= B -> msg_ok B m -> private_ok B (wx_send (pv_wx pv)) -> refines my ips (ap_ps ap) S ->
  spec_recs my ips true wbuf S recs = Ret (acks, S') ->
  exists ap' pv' m', parse_lines malloc_bytes gethostbyname wbuf ap pv m recs = Ret (ap', pv', m') /\
    msg_ok B m' /\ private_ok B (wx_send (pv_wx pv')) /\ refines my ips (ap_ps ap') S' /\
    send_acks pv m (omap id acks) = Ret (m', pv').
Proof.
  induction recs as [|r recs IH]; intros B ap pv m S acks S' HB Hm Hc R Hs; cbn [spec_recs parse_lines] in *.
  { injection Hs as <- <-. by exists ap, pv, m. }
  apply comp_bind_ret in Hs as ([a1 S1] & E1 & Hs). apply comp_bind_ret in Hs as ([a2 S2] & E2 & [= <- <-]).
  destruct (rec_acks _ _ true (0 <=? pv_whid pv) _ _ _ _ _ E1) as [[ack E1'] _].
  destruct (rec_acks _ _ _ true _ _ _ _ _ E1') as [_ Hlen].
  destruct (parse_refines gethostbyname my ips _ wbuf (ap_ps ap) S r R ack S1 E1') as (ps1 & Ep & R1). rewrite Ep. cbn [mbind comp_bind].
  assert (refines my ips (ap_ps (set_ps ap ps1)) S1) as R1' by by destruct ps1.
  destruct (Z.leb_spec 0 (pv_whid pv)) as [Hw|Hw].
  - rewrite E1 in E1'. injection E1' as <-. destruct a1 as [text|]; cbn [omap list_omap id send_acks].
    + rewrite (proj2 (Z.leb_le _ _) Hw).
      destruct (ack_ok B pv m text HB Hm Hc (Hlen _ eq_refl)) as (m1 & pv1 & -> & ? & ?). cbn [mbind comp_bind default]. by eapply IH.
    + cbn [mbind comp_bind]. by eapply IH.
  - apply parse_no_ack in Ep as ->. cbn [mbind comp_bind]. rewrite (send_acks_lost _ _ _ Hw).
    destruct (IH B (set_ps ap ps1) pv m S1 a2 S2 HB Hm Hc R1' E2) as (ap' & pv' & m' & E & Hm' & Hc' & R' & Ea). exists ap', pv', m'.
    rewrite (send_acks_lost _ _ _ Hw) in Ea. by split_and!.
Qed.

(** The records of a message. *)
Definition payload_of (m : mbuf) : list Z :=
  match m_tp_buf m, m_payload m with Some buf, Some p => slice buf p (m_len m) | _, _ => [] end.
Definition recs_of (m : mbuf) : list (list Z) := msg_recs [] (cstr_of (payload_of m)).

(** A message with table data. *)
Record table_msg (B : Z) (m : mbuf) : Prop := {
  tm_ok : msg_ok B m;
  tm_type : m_mtype m = RMRRM_TABLE_DATA;
  tm_len : 0 < m_len m < 2 ^ 30
}.

Lemma set_len_ok B m : msg_ok B m -> msg_ok B (set_len 0 m).
Proof.
  intros (buf & tr & d1 & d2 & room & [[Eb Eh Ep Ex Hl L] Hfit] & Hsz & Hf). exists buf, tr, d1, d2, room.
  pose proof (ml_sz _ _ _ _ _ L). split_and!; [split; [split|]; cbn; try done; lia|done|done].
Qed.

Lemma parse_msg_refines my ips wbuf B ap pv m flags pb S acks S' :
  0 <= B -> table_msg B m -> private_ok B (wx_send (pv_wx pv)) -> pb <= INT_MAX -> refines my ips (ap_ps ap) S ->
  spec_recs my ips true wbuf S (recs_of m) = Ret (acks, S') ->
  exists ap' pv' m' pb', rtc_parse_msg malloc_bytes gethostbyname wbuf ap pv m flags pb =
      Ret (ap', pv', m', Z.lor flags RTCFL_HAVE_UPDATE, pb') /\
    m_len m' = 0 /\ private_ok B (wx_send (pv_wx pv')) /\ pb' <= INT_MAX /\ refines my ips (ap_ps ap') S' /\
    exists m1, send_acks pv m (omap id acks) = Ret (m1, pv').
Proof.
  intros HB [Hm Ht Hl] Hc Hpb R Hs. pose proof Hm as (buf & tr & d1 & d2 & room & [W Hfit] & _).
  unfold recs_of, payload_of in Hs. rewrite (mw_buf _ _ _ _ _ _ W), (mw_pay _ _ _ _ _ _ W) in Hs.
  destruct (lines_refine my ips wbuf _ B ap pv m S acks S' HB Hm Hc R Hs) as (ap' & pv' & m' & E & Hm' & Hc' & R' & Ea).
  unfold rtc_parse_msg. rewrite Ht. cbn [Z.eqb Pos.eqb]. change (RMRRM_TABLE_DATA =? RMRRM_TABLE_DATA) with true. cbv iota zeta.
  rewrite (mw_buf _ _ _ _ _ _ W), (mw_pay _ _ _ _ _ _ W). cbn [deref mbind comp_bind].
  pose proof (ml_len _ _ _ _ _ (mw_layout _ _ _ _ _ _ W)). pose proof (ml_sz _ _ _ _ _ (mw_layout _ _ _ _ _ _ W)).
  pose proof (mw_len _ _ _ _ _ _ W). set (pb' := if pb <=? m_len m then _ else _).
  assert (m_len m + 1 <= pb' <= INT_MAX) as Hpb'.
  { unfold pb', INT_MAX in *. destruct (Z.leb_spec pb (m_len m)); [|lia]. destruct (Z.ltb_spec (m_len m) 512); lia. }
  destruct (Z.ltb_spec (m_len m) 0); [lia|]. destruct (Z.ltb_spec (330 + tr + d1 + d2) 0); [lia|].
  destruct (Z.ltb_spec (zlen buf) (330 + tr + d1 + d2 + m_len m)); [lia|].
  destruct (Z.ltb_spec pb' (m_len m + 1)); [lia|]. destruct (Z.ltb_spec INT_MAX pb'); [lia|]. cbn [orb].
  rewrite E. cbn [mbind comp_bind]. eexists _, _, _, _. split; [done|]. split_and!; [done..|by eexists].
Qed.

(** Messages received one after the other and worked off; what happens in
    between (requests, waits, alarms) does not concern the tables. *)
Fixpoint deliver_all (wbuf : list Z) (s : rtc_st (TH := TH) (TE := TE) (N := N)) (ms : list mbuf) : comp (rtc_st (TH := TH) (TE := TE) (N := N)) :=
  match ms with
  | [] => Ret s
  | m :: ms' =>
      s ← rtc_handle malloc_bytes gethostbyname wbuf
            (MkRtc (r_app s) (r_pvt s) (Some m) (r_flags s) (r_nxt s) (r_blabber s) (r_delay s) (r_bump s) (r_alarm s) (r_alarm_whid s) (r_pbuf s));
      deliver_all wbuf s ms'
  end.

(** The acknowledgements of the messages: those of the abstract machine for the
    records of each, sent back with that message. *)
Fixpoint answer_all my ips wbuf (S : astate) pv (ms : list mbuf) : comp (pvt_ctx (TH := TH) (TE := TE) (N := N)) :=
  match ms with
  | [] => Ret pv
  | m :: ms' =>
      '(acks, S) ← spec_recs my ips true wbuf S (recs_of m);
      '(_, pv) ← send_acks pv m (omap id acks);
      answer_all my ips wbuf S pv ms'
  end.

Lemma spec_recs_app my ips can wbuf l1 l2 : forall S acks S',
  spec_recs my ips can wbuf S (l1 ++ l2) = Ret (acks, S') ->
  exists a1 S1 a2, spec_recs my ips can wbuf S l1 = Ret (a1, S1) /\ spec_recs my ips can wbuf S1 l2 = Ret (a2, S').
Proof.
  induction l1 as [|b l1 IH]; intros S acks S' Hs; cbn [app spec_recs] in *; [by eexists _, _, _|].
  apply comp_bind_ret in Hs as ([a S1] & -> & Hs). apply comp_bind_ret in Hs as ([a2 S2] & Hs & [= _ <-]).
  destruct (IH _ _ _ Hs) as (a1 & S3 & a3 & E1 & E2). cbn [mbind comp_bind snd]. cbn [snd] in E1. rewrite E1. by eexists _, _, _.
Qed.

Lemma deliver_refines my ips wbuf ms : forall B s S acks S',
  0 <= B -> Forall (table_msg B) ms -> private_ok B (wx_send (pv_wx (r_pvt s))) -> r_pbuf s <= INT_MAX ->
  refines my ips (ap_ps (r_app s)) S -> spec_recs my ips true wbuf S (concat (map recs_of ms)) = Ret (acks, S') ->
  exists s', deliver_all wbuf s ms = Ret s' /\ refines my ips (ap_ps (r_app s')) S' /\
    answer_all my ips wbuf S (r_pvt s) ms = Ret (r_pvt s').
Proof.
  induction ms as [|m ms IH]; intros B s S acks S' HB HF Hc Hpb R Hs; cbn [deliver_all answer_all map concat spec_recs] in *.
  { injection Hs as _ <-. by exists s. }
  apply Forall_cons in HF as [Hm HF]. destruct (spec_recs_app _ _ _ _ _ _ _ _ _ Hs) as (a1 & S1 & a2 & E1 & E2).
  destruct (parse_msg_refines my ips wbuf B (r_app s) (r_pvt s) m (r_flags s) (r_pbuf s) S a1 S1 HB Hm Hc Hpb R E1)
    as (ap' & pv' & m' & pb' & E & _ & Hc' & Hpb' & R' & m1 & Ea).
  unfold rtc_handle. cbn [r_msg r_app r_pvt r_flags r_nxt r_blabber r_delay r_bump r_alarm r_alarm_whid r_pbuf].
  destruct (Z.ltb_spec 0 (m_len m)) as [_|Hl]; [|pose proof (tm_len _ _ Hm); lia]. rewrite E, E1. cbn [mbind comp_bind].
  rewrite Ea. cbn [mbind comp_bind].
  eapply (IH B (MkRtc ap' pv' (Some m') (Z.lor (r_flags s) RTCFL_HAVE_UPDATE) (r_nxt s) (r_blabber s) (r_delay s) (r_bump s)
    (r_alarm s) (r_alarm_whid s) pb') S1); done.
Qed.
End collector.

(** ** Theorems *)

(** C5.  The collector builds the tables the route manager sends, and
    answers them: whatever way the records are divided into messages, after the
    messages were worked off senders find the routes and owners of the abstract machine
    for these records, and the private context is the one that results from sending
    the acknowledgements of the abstract machine, each with [send_ack_text], back with the
    message whose records asked for it, in order, until one could not be sent.  (That
    a return of the message reaches its source is the business of
    [rts_answers_the_source]; that a failure ends the acknowledgements for good is
    [lost_connection_ends_acks]; what becomes of the requests for a table is
    [any_table_data_ends_requests].) *)
Theorem collector_follows_manager {TH TE N : Type} `{Symbols TH thing} `{Symbols TE nat} `{Transport N}
    malloc_bytes gethostbyname my ips wbuf B ms acks S' (s : rtc_st (TH := TH) (TE := TE) (N := N)) :
  (forall n, 0 <= n -> zlen (malloc_bytes n) = n) -> 0 <= B ->
  ap_ps (r_app s) = ps_init my ips -> private_ok B (wx_send (pv_wx (r_pvt s))) -> r_pbuf s <= INT_MAX ->
  Forall (table_msg B) ms -> spec_recs my ips true wbuf as_init (concat (map recs_of ms)) = Ret (acks, S') ->
  exists s', deliver_all malloc_bytes gethostbyname wbuf s ms = Ret s' /\
    ap_ready (r_app s') = as_ready S' /\
    (forall sid mtype alt, route_id sid mtype ->
       route_of (sc_rt (wx_send (ap_wx (r_app s')))) sid mtype alt = alookup (as_act S') sid mtype alt) /\
    (forall meid, owner_of (sc_rt (wx_send (ap_wx (r_app s')))) meid = aowner (as_act S') meid) /\
    answer_all malloc_bytes gethostbyname my ips wbuf as_init (r_pvt s) ms = Ret (r_pvt s').
Proof.
  intros Hm HB Hap Hc Hpb HF Hs. pose proof (init_refines (TH := TH) (TE := TE) my ips) as R. rewrite <-Hap in R.
  destruct (deliver_refines malloc_bytes Hm gethostbyname my ips wbuf ms B s _ _ _ HB HF Hc Hpb R Hs) as (s' & E & R' & Ha).
  exists s'. split; [done|]. split; [apply (rf_ready _ _ _ _ R')|]. split_and!; [| |done].
  - intros. by apply (route_of_abs _ _ _ _ _ _ _ R').
  - intros. by apply (owner_of_abs _ _ _ _ _ R').
Qed.

(** Requests for a table end with the first message of table data, whatever is in
    it: also when its records were refused, or did not end a table. *)
Theorem any_table_data_ends_requests {TH TE N : Type} `{Symbols TH thing} `{Symbols TE nat} `{Transport N}
    malloc_bytes gethostbyname wbuf m (s s' : rtc_st (TH := TH) (TE := TE) (N := N)) :
  r_msg s = Some m -> m_mtype m = RMRRM_TABLE_DATA -> 0 < m_len m ->
  rtc_handle malloc_bytes gethostbyname wbuf s = Ret s' ->
  forall freq rtg_addr t, rtc_request malloc_bytes gethostbyname freq rtg_addr t s' = Ret s'.
Proof.
  unfold rtc_handle. intros Em Ht Hl E freq rtg t. rewrite Em, (proj2 (Z.ltb_lt _ _) Hl) in E.
  apply comp_bind_ret in E as ([[[[ap pv] m'] fl] pb] & E & [= <-]). unfold rtc_parse_msg in E. rewrite Ht in E.
  change (RMRRM_TABLE_DATA =? RMRRM_TABLE_DATA) with true in E. cbv iota zeta in E.
  apply comp_bind_ret in E as (buf & _ & E). apply comp_bind_ret in E as (pl & _ & E).
  destruct (_ || _ || _ || _ || _); [done|]. apply comp_bind_ret in E as ([[ap1 pv1] m1] & _ & [= _ _ _ <- _]).
  unfold rtc_request. cbn [r_flags]. rewrite Z.land_lor_distr_l.
  destruct (Z.eqb_spec (Z.lor (Z.land (r_flags s) RTCFL_HAVE_UPDATE) (Z.land RTCFL_HAVE_UPDATE RTCFL_HAVE_UPDATE)) 0) as [Hz|]; [|done].
  apply Z.lor_eq_0_iff in Hz as [_ Hz]. done.
Qed.

(** A message of another type stops the collector: its length is not reset,
    so that the loop takes it for new data for ever.  No round receives anything,
    and nothing changes until the shutdown. *)
Theorem wrong_type_stops_collector {TH TE N : Type} `{Symbols TH thing} `{Symbols TE nat} `{Transport N}
    malloc_bytes gethostbyname freq rtg_addr ept progname wbuf m ts (s : rtc_st (TH := TH) (TE := TE) (N := N)) :
  r_msg s = Some m -> m_mtype m <> RMRRM_TABLE_DATA -> 0 < m_len m -> Forall (fun t => tk_shutdown t = false) ts ->
  rtc_run malloc_bytes gethostbyname freq rtg_addr ept progname wbuf ts s = Ret (Some (false, s)).
Proof.
  intros Em Ht Hl. induction 1 as [|t ts Hs _ IH]; [done|]. cbn [rtc_run]. unfold rtc_round, has_data. rewrite Em.
  rewrite (proj2 (Z.ltb_lt _ _) Hl). cbn [negb]. unfold rtc_handle. rewrite Em, (proj2 (Z.ltb_lt _ _) Hl).
  unfold rtc_parse_msg. rewrite (proj2 (Z.eqb_neq _ _) Ht). cbn [mbind comp_bind]. rewrite Hs.
  assert (MkRtc (r_app s) (r_pvt s) (Some m) (r_flags s) (r_nxt s) (r_blabber s) (r_delay s) (r_bump s) (r_alarm s) (r_alarm_whid s) (r_pbuf s) = s) as ->
    by (rewrite <-Em; by destruct s). done.
Qed.

(** ** The alarm *)

(** Checks, each with the count and the time it sees; the alarms sent. *)
Fixpoint alarm_run (al : drop_alarm) (cs : list (Z * Z)) : list (Z * Z) * drop_alarm :=
  match cs with
  | [] => ([], al)
  | (d, t) :: cs' =>
      let x := alarm_if_drops d t al in
      let r := alarm_run x.2 cs' in
      (option_list x.1 ++ r.1, r.2)
  end.

Lemma i32_add p x : i32 (i32 (p + 1) + x) = i32 (p + (1 + x)).
Proof.
  unfold i32. rewrite (Z.add_assoc p 1 x). f_equal.
  replace ((p + 1 + 2 ^ 31) mod 2 ^ 32 - 2 ^ 31 + x + 2 ^ 31) with ((p + 1 + 2 ^ 31) mod 2 ^ 32 + x) by lia.
  rewrite Zplus_mod_idemp_l. f_equal. lia.
Qed.

Definition RAISED : Z := Z.lor ALARM_DROPS ALARM_RAISE.
Definition CLEARED : Z := Z.lor ALARM_DROPS ALARM_CLEAR.

(** The alarm number [j] from a raise with problem id [p] on. *)
Definition nth_alarm (p : Z) (j : nat) : Z * Z := (if Nat.even j then RAISED else CLEARED, i32 (p + Z.of_nat (Nat.div2 j))).

Lemma alarm_run_spec cs : forall al i a, in_i32 (al_prob al) -> (alarm_run al cs).1 !! i = Some a ->
  a = nth_alarm (al_prob al) (if al_raised al then S i else i).
Proof.
  induction cs as [|[d t] cs IH]; intros al i a Hp E; cbn [alarm_run fst] in E; [done|].
  unfold alarm_if_drops in E. destruct al as [raised ok lastd prob]; cbn [al_raised al_ok2clear al_lastd al_prob] in *.
  destruct raised; cbn [negb] in E.
  - destruct (i32 (d - lastd) =? 0); cbn [negb] in E; [|by apply IH in E].
    destruct (ok =? 0); [by apply IH in E|]. destruct (ok <? t); [|by apply IH in E].
    cbn [fst snd option_list option_rect app] in E. destruct i as [|i]; cbn [lookup list_lookup] in E.
    + injection E as <-. unfold nth_alarm. cbn. rewrite Z.add_0_r. by rewrite i32_id.
    + apply IH in E; [|apply i32_range]. cbn [al_raised al_prob] in E. rewrite E. unfold nth_alarm. cbn [Nat.even Nat.div2]. f_equal.
      rewrite i32_add. f_equal. lia.
  - destruct (i32 (d - lastd) =? 0); [by apply IH in E|].
    cbn [fst snd option_list option_rect app] in E. destruct i as [|i]; cbn [lookup list_lookup] in E.
    + injection E as <-. unfold nth_alarm. cbn. rewrite Z.add_0_r. by rewrite i32_id.
    + by apply IH in E.
Qed.

(** Alarms are raised and cleared in turn, with problem ids that count up
    from 0: whatever drop counts and times the checks see, the alarms sent are
    raise 0, clear 0, raise 1, clear 1 and so on. *)
Theorem alarms_alternate cs i a : (alarm_run alarm0 cs).1 !! i = Some a ->
  a = (if Nat.even i then RAISED else CLEARED, i32 (Z.of_nat (Nat.div2 i))).
Proof. intros E. apply alarm_run_spec in E; [|unfold in_i32; simpl; lia]. exact E. Qed.

Lemma alarm_run_none al al' d t ts : alarm_if_drops d t al = (None, al') ->
  alarm_run al (map (pair d) (t :: ts)) = alarm_run al' (map (pair d) ts).
Proof. intros E. cbn [map alarm_run]. rewrite E. cbn. by destruct (alarm_run al' _). Qed.

Lemma quiet_run al d ts : al_raised al = false -> i32 (d - al_lastd al) = 0 -> alarm_run al (map (pair d) ts) = ([], al).
Proof.
  intros Hr Hd. induction ts as [|t ts IH]; [done|]. cbn [map alarm_run]. unfold alarm_if_drops. rewrite Hr, Hd. cbn.
  by rewrite IH.
Qed.

Lemma stable_run al d ts : al_raised al = true -> i32 (d - al_lastd al) = 0 -> al_ok2clear al <> 0 ->
  Exists (fun t => al_ok2clear al < t) ts ->
  (alarm_run al (map (pair d) ts)).1 = [(CLEARED, al_prob al)] /\ al_raised (alarm_run al (map (pair d) ts)).2 = false.
Proof.
  intros Hr Hd Hok HE. induction HE as [t ts Ht|t ts Ht IH]; cbn [map alarm_run]; unfold alarm_if_drops; rewrite Hr, Hd;
    cbn [negb Z.eqb]; rewrite (proj2 (Z.eqb_neq _ _) Hok).
  - rewrite (proj2 (Z.ltb_lt _ _) Ht). cbn [fst snd option_list option_rect app]. by rewrite quiet_run.
  - destruct (Z.ltb_spec (al_ok2clear al) t) as [Hlt|Hge]; cbn [fst snd option_list option_rect app]; [|apply IH].
    by rewrite quiet_run.
Qed.

(** A raised alarm is cleared once nothing has been dropped for a minute:
    when all checks from some time on see the same count, and one of them comes
    more than 60 s after the second, exactly one clear is sent, with the id of the raise. *)
Theorem alarm_cleared_when_stable al d t1 t2 ts t :
  al_raised al = true -> al_ok2clear al <= t1 + 60 -> 0 < t1 <= t2 -> t2 + 60 < 2 ^ 31 ->
  t ∈ ts -> t2 + 60 < t ->
  let r := alarm_run al (map (pair d) (t1 :: t2 :: ts)) in
  r.1 = [(CLEARED, al_prob al)] /\ al_raised r.2 = false.
Proof.
  intros Hr Hok Ht1 Ht2 Hin Ht. cbv zeta. destruct (Z.eqb_spec (i32 (d - al_lastd al)) 0) as [Ez|Ez].
  - destruct (Z.eqb_spec (al_ok2clear al) 0) as [E0|E0].
    + rewrite (alarm_run_none al (MkAlarm true (t1 + 60) (al_lastd al) (al_prob al))).
      2:{ unfold alarm_if_drops. rewrite Hr, Ez, E0, i32_id by (unfold in_i32; lia). done. }
      apply (stable_run (MkAlarm true (t1 + 60) (al_lastd al) (al_prob al)) d (t2 :: ts)); [done|done|cbn [al_ok2clear]; lia|].
      apply Exists_cons_tl, Exists_exists. exists t. split; [done|cbn [al_ok2clear]; lia].
    + apply stable_run; try done. do 2 apply Exists_cons_tl. apply Exists_exists. exists t. split; [done|cbn [al_ok2clear]; lia].
  - rewrite (alarm_run_none al (MkAlarm true 0 d (al_prob al))).
    2:{ unfold alarm_if_drops. by rewrite Hr, (proj2 (Z.eqb_neq _ _) Ez). }
    rewrite (alarm_run_none _ (MkAlarm true (t2 + 60) d (al_prob al))).
    2:{ unfold alarm_if_drops. cbn [al_raised al_ok2clear al_lastd al_prob]. rewrite Z.sub_diag, (i32_id (t2 + 60)) by (unfold in_i32; lia). done. }
    apply (stable_run (MkAlarm true (t2 + 60) d (al_prob al)) d ts); [done|cbn [al_lastd]; by rewrite Z.sub_diag|cbn [al_ok2clear]; lia|].
    apply Exists_exists. by exists t.
Qed.

(** Messages that arrive at a full ring, each followed by a check. *)
Fixpoint drop_and_check (rx : rx_ctx) (al : drop_alarm) (m : mbuf) (ts : list Z) : list (Z * Z) * rx_ctx :=
  match ts with
  | [] => ([], rx)
  | t :: ts' =>
      let rx := queue_normal t rx m in
      let x := alarm_if_drops (rx_dcount rx) t al in
      let r := drop_and_check rx x.2 m ts' in
      (option_list x.1 ++ r.1, r.2)
  end.

(** Drops that are more than a minute apart never raise the alarm: each of
    them is also the one that issues the warning, which sets the count back to 0, so
    that the checks see no change, while [rx_acc_dcount] messages are lost. *)
Theorem spread_drops_unnoticed rx m ts :
  ring_full (rx_mring rx) = true -> rx_dcount rx = 0 -> in_u64 (rx_acc_dcount rx + zlen ts) -> 0 <= rx_acc_dcount rx ->
  (forall i t, ts !! i = Some t -> (match i with O => rx_last_warning rx | S j => default 0 (ts !! j) end) + 60 < t) ->
  let r := drop_and_check rx alarm0 m ts in
  r.1 = [] /\ rx_acc_dcount r.2 = rx_acc_dcount rx + zlen ts.
Proof.
  revert rx. induction ts as [|t ts IH]; intros rx Hf Hd Hu Ha Ht; cbv zeta; [split; [done|]; unfold zlen; simpl; lia|].
  assert (zlen (t :: ts) = zlen ts + 1) as Ez by (unfold zlen; simpl; lia). pose proof (zlen_nonneg ts).
  cbn [drop_and_check]. set (rx' := queue_normal t rx m).
  assert (rx' = MkRx (rx_mring rx) (rx_chutes rx) 0 (rx_acc_dcount rx + 1) (rx_acc_ecount rx) t (rx_max_ibm rx)) as ->.
  { unfold rx', queue_normal, uta_ring_insert. rewrite Hf. specialize (Ht 0%nat t eq_refl). cbn in Ht.
    assert ((rx_last_warning rx + 60 <? t) = true) as -> by (by apply Z.ltb_lt).
    rewrite (u64_id (_ + 1)) by (unfold in_u64 in *; lia). by destruct (r_wgate (rx_mring rx) && negb true). }
  change (alarm_if_drops _ t alarm0) with (@None (Z * Z), alarm0). cbn [fst snd option_list option_rect app].
  rewrite Ez in *. edestruct (IH (MkRx (rx_mring rx) (rx_chutes rx) 0 (rx_acc_dcount rx + 1) (rx_acc_ecount rx) t (rx_max_ibm rx)))
    as [E1 E2]; [done|done|cbn; unfold in_u64 in *; lia|cbn; lia| |].
  - intros i t' Hi. apply (Ht (S i) t') in Hi. cbn. by destruct i.
  - split; [done|]. rewrite E2. cbn. lia.
Qed.

(** ** Lost connections *)

(** A send through a wormhole leaves the ids as they are. *)
Lemma wh_send_views {TH TE N : Type} `{Symbols TH thing} `{Symbols TE nat} `{Transport N}
    malloc_bytes gethostbyname (wx : wh_ctx TH TE N) whid m r wx' w t :
  rmr_wh_send_msg malloc_bytes gethostbyname (Some wx) whid (Some m) = Ret (r, wx') -> wh_inv wx -> t <> [] ->
  wh_view wx w = Some t -> exists wx1, wx' = Some wx1 /\ wh_view wx1 w = Some t.
Proof.
  unfold rmr_wh_send_msg. cbv zeta. intros E Hi Hne Hv. destruct (wh_slot wx whid) as [st|ep] eqn:Es.
  { injection E as _ <-. by exists wx. }
  destruct (m_header (set_state RMR_OK m)); [|injection E as _ <-; by exists wx].
  apply comp_bind_ret in E as (m1 & _ & E). apply comp_bind_ret in E as (wx1 & Er & E). apply comp_bind_ret in E as ([r1 sc] & Esd & [= _ <-]).
  exists (MkWh sc (wx_eps wx1)). split; [done|].
  assert (wh_view wx1 w = Some t) as Hv1.
  { unfold wh_reopen in Er. destruct (ep_is_open (wx_send wx) ep); [injection Er as <-; done|].
    apply comp_bind_ret in Er as (e & Ee & Er).
    assert (wx1 = default wx (rmr_wh_open gethostbyname (Some wx) (default [] (ep_name e))).2) as -> by by injection Er.
    destruct (rmr_wh_open gethostbyname (Some wx) (default [] (ep_name e))) as [w' [wx2|]] eqn:Eo; [|exact Hv].
    cbn [default snd]. destruct (open_spec gethostbyname wx _ _ _ Hi Eo) as [_ Ho]. destruct (w' <? 0); [by rewrite Ho|].
    destruct Ho as (Ho1 & _ & Ho2 & Ho3). destruct (decide (w = w')) as [->|Hd]; [|by rewrite Ho2].
    destruct Ho3 as [Hx|Hx]; rewrite Hv in Hx; [done|]. by rewrite Hx. }
  unfold send2ep in Esd. apply comp_bind_ret in Esd as (e & _ & Esd). apply comp_bind_ret in Esd as ([[r2 er] n] & _ & [= _ <-]).
  exact Hv1.
Qed.

(** A request that cannot be sent closes the wrong wormhole: the id of the
    collector's wormhole is closed in the application's context, where it may be the
    id of a wormhole that the application opened; the collector's own stays open. *)
Theorem failed_request_closes_users_wormhole {TH TE N : Type} `{Symbols TH thing} `{Symbols TE nat} `{Transport N}
    malloc_bytes gethostbyname (pv pv' : pvt_ctx (TH := TH) (TE := TE) (N := N)) ap ap' stamp st rtg user :
  wh_inv (pv_wx pv) -> wh_inv (ap_wx ap) -> rtg <> [] ->
  wh_view (pv_wx pv) (ap_whid ap) = Some rtg -> wh_view (ap_wx ap) (ap_whid ap) = Some user ->
  send_update_req malloc_bytes gethostbyname pv ap stamp = Ret (st, pv', ap') -> st <> RMR_OK ->
  wh_view (ap_wx ap') (ap_whid ap) = None /\ wh_view (pv_wx pv') (ap_whid ap) = Some rtg /\ ap_whid ap' = -1.
Proof.
  intros Hp Ha Hne Hv Hu E Hst. unfold send_update_req in E.
  destruct (ap_whid ap <? 0) eqn:Ew.
  { exfalso. apply Z.ltb_lt in Ew. unfold wh_view in Hv. destruct (wh_slot (pv_wx pv) (ap_whid ap)) eqn:Es; [done|].
    apply wh_slot_lookup in Es as [? _]. lia. }
  apply comp_bind_ret in E as (smsg & _ & E). apply comp_bind_ret in E as (m & _ & E). cbv zeta in E.
  apply comp_bind_ret in E as (m1 & _ & E). apply comp_bind_ret in E as ([r wx] & Es & E). apply comp_bind_ret in E as (m2 & _ & E).
  destruct (wh_send_views malloc_bytes gethostbyname (pv_wx pv) _ _ _ _ _ rtg Es Hp Hne Hv) as (wx1 & -> & Hv1).
  destruct (close_spec malloc_bytes gethostbyname (ap_wx ap) (ap_whid ap) Ha) as (awx & Ec & _ & Hc & _). rewrite Ec in E.
  destruct (m_state m2 =? RMR_OK); injection E as <- <- <-; [done|]. cbn. by split_and!.
Qed.

(** ** No acknowledgements *)

Section lost.
Context {TH TE N : Type} `{Symbols TH thing} `{Symbols TE nat} `{Transport N}.
Variable gethostbyname : list Z -> option (list Z).
Variable malloc_bytes : Z -> list Z.
Implicit Types (pv : pvt_ctx (TH := TH) (TE := TE) (N := N)) (s : rtc_st (TH := TH) (TE := TE) (N := N)).

Lemma lines_no_ack wbuf recs : forall ap pv m ap' pv' m', pv_whid pv < 0 ->
  parse_lines malloc_bytes gethostbyname wbuf ap pv m recs = Ret (ap', pv', m') -> pv' = pv.
Proof.
  induction recs as [|r recs IH]; intros ap pv m ap' pv' m' Hw E; cbn [parse_lines] in E; [by injection E as _ <- _|].
  apply comp_bind_ret in E as ([ack ps] & Er & E). rewrite (proj2 (Z.leb_gt _ _) Hw) in Er.
  apply parse_no_ack in Er as ->. cbn [mbind comp_bind] in E. by eapply IH.
Qed.

Lemma handle_keeps wbuf s s' : rtc_handle malloc_bytes gethostbyname wbuf s = Ret s' -> pv_whid (r_pvt s) < 0 -> r_pvt s' = r_pvt s.
Proof.
  unfold rtc_handle. destruct (r_msg s) as [m|]; [|by intros [= <-]]. destruct (0 <? m_len m); [|by intros [= <-]].
  intros E Hw. apply comp_bind_ret in E as ([[[[ap pv] m'] fl] pb] & E & [= <-]). cbn. unfold rtc_parse_msg in E.
  destruct (m_mtype m =? RMRRM_TABLE_DATA); [|by injection E as _ <- _ _ _]. cbv zeta in E.
  apply comp_bind_ret in E as (buf & _ & E). apply comp_bind_ret in E as (pl & _ & E).
  destruct (_ || _ || _ || _ || _); [done|]. apply comp_bind_ret in E as ([[ap1 pv1] m1] & E & [= _ <- _ _ _]).
  by eapply lines_no_ack.
Qed.

Lemma request_whid freq rtg t s s' : rtc_request malloc_bytes gethostbyname freq rtg t s = Ret s' -> pv_whid (r_pvt s') = pv_whid (r_pvt s).
Proof.
  unfold rtc_request. destruct (_ && _); [|by intros [= <-]]. cbv zeta. set (x := if ap_whid (r_app s) <? 0 then _ else _).
  assert (pv_whid x.2 = pv_whid (r_pvt s)) as <-.
  { unfold x. destruct (ap_whid (r_app s) <? 0); [|done]. by destruct (rmr_wh_open _ _ _). }
  destruct x as [w pv]. intros E. apply comp_bind_ret in E as ([[st pv'] ap'] & E & [= <-]). cbn [r_pvt snd].
  unfold send_update_req in E. destruct (_ <? 0); [by injection E as _ <- _|].
  do 3 apply comp_bind_ret in E as (? & _ & E). apply comp_bind_ret in E as ([r wx] & _ & E). apply comp_bind_ret in E as (m & _ & E).
  by destruct (m_state m =? RMR_OK); injection E as _ <- _.
Qed.

Lemma alarm_whid ept prog t s s' : rtc_alarm malloc_bytes gethostbyname ept prog t s = Ret s' -> pv_whid (r_pvt s') = pv_whid (r_pvt s).
Proof.
  unfold rtc_alarm. destruct (alarm_if_drops _ _ _) as [[[kind prob]|] al]; intros E; apply comp_bind_ret in E as ([[w fr] pv] & E & [= <-]); cbn [r_pvt].
  2:{ by injection E as _ _ <-. }
  unfold uta_alarm in E. apply comp_bind_ret in E as ([m|] & _ & E); [|by injection E as _ _ <-]. cbv zeta in E.
  apply comp_bind_ret in E as (m1 & _ & E). unfold uta_alarm_send in E. set (x := if _ <? 0 then _ else _) in E.
  assert (pv_whid x.2 = pv_whid (r_pvt s)) as <-.
  { unfold x. destruct (_ <? 0); [|done]. by destruct (rmr_wh_open _ _ _). }
  destruct x as [w' pv']. cbn [snd] in *. destruct (w' <? 0); [by injection E as _ _ <-|].
  apply comp_bind_ret in E as ([r wx] & _ & E). by injection E as _ _ <-.
Qed.

Lemma round_whid freq rtg ept prog wbuf t s b s' :
  rtc_round malloc_bytes gethostbyname freq rtg ept prog wbuf t s = Ret (Some (b, s')) -> pv_whid (r_pvt s) < 0 ->
  pv_whid (r_pvt s') = pv_whid (r_pvt s).
Proof.
  unfold rtc_round. intros E Hw. destruct (negb (has_data (r_msg s))).
  - apply comp_bind_ret in E as (s1 & E1 & E). apply request_whid in E1. destruct (rtc_wait t s1) as [s2|] eqn:E2; [|done].
    assert (pv_whid (r_pvt s2) = pv_whid (r_pvt s1)) as E3.
    { unfold rtc_wait in E2. destruct (rmr_torcv_msg _ _ _ _ _) as [[[msg rx] ws]|]; [|done].
      destruct (if r_blabber s1 <? tk_blab t then _ else _). by injection E2 as <-. }
    destruct (tk_shutdown t); apply comp_bind_ret in E as (s3 & E4 & [= _ <-]).
    + apply handle_keeps in E4; [by rewrite E4, E3|lia].
    + apply alarm_whid in E4. lia.
  - apply comp_bind_ret in E as (s1 & E1 & [= _ <-]). apply handle_keeps in E1; [by rewrite E1|lia].
Qed.

Lemma run_whid freq rtg ept prog wbuf ts : forall s b s',
  rtc_run malloc_bytes gethostbyname freq rtg ept prog wbuf ts s = Ret (Some (b, s')) -> pv_whid (r_pvt s) < 0 ->
  pv_whid (r_pvt s') = pv_whid (r_pvt s).
Proof.
  induction ts as [|t ts IH]; intros s b s' E Hw; cbn [rtc_run] in E; [by injection E as _ <-|].
  apply comp_bind_ret in E as ([[[|] s1]|] & E1 & E); [| |done].
  - injection E as _ <-. by eapply round_whid.
  - pose proof (round_whid _ _ _ _ _ _ _ _ _ E1 Hw) as E2. rewrite <-E2. eapply IH; [exact E|lia].
Qed.
End lost.

(** Once an acknowledgement could not be sent there are no more: nothing
    that the collector does afterwards connects the private context's own reference
    to the route manager again, and without it the records of a message are worked
    off without a word to the route manager. *)
Theorem lost_connection_ends_acks {TH TE N : Type} `{Symbols TH thing} `{Symbols TE nat} `{Transport N}
    malloc_bytes gethostbyname freq rtg_addr ept progname wbuf ts b (s s' : rtc_st (TH := TH) (TE := TE) (N := N)) :
  pv_whid (r_pvt s) < 0 -> rtc_run malloc_bytes gethostbyname freq rtg_addr ept progname wbuf ts s = Ret (Some (b, s')) ->
  pv_whid (r_pvt s') < 0 /\
  forall s'', rtc_handle malloc_bytes gethostbyname wbuf s' = Ret s'' -> r_pvt s'' = r_pvt s'.
Proof.
  intros Hw E. pose proof (run_whid _ _ _ _ _ _ _ _ _ _ _ E Hw) as E'. split; [lia|].
  intros s'' E''. eapply handle_keeps; [exact E''|lia].
Qed.

(** ** Examples *)

(** The private context, on a transport that takes everything or nothing. *)
Definition rtc_mctx : msg_ctx := MkMsgCtx 64 0 4 0 $"me:4561" $"10.0.0.1:4561".
Definition rtc_sc {N : Type} (n : N) (x : msg_ctx) : send_ctx (gmap akey thing) (gmap akey nat) N :=
  MkSc (ctx_init $"me:4560" None) (Some ∅) n x 1.
Definition rtc_pv {N : Type} (n : N) : pvt_ctx := MkPvt (MkWh (rtc_sc n rtc_mctx) None) rx0 0.
Definition rtc_ap {N : Type} (n : N) : app_ctx := MkApp (MkWh (rtc_sc n ctx0) None) None false false (-1).
Definition rtc_st0 {N : Type} (n : N) (msg : option mbuf) : rtc_st :=
  MkRtc (rtc_ap n) (rtc_pv n) msg 0 0 0 30 300 alarm0 (-1) 0.

(** A message that came on descriptor 7. *)
Definition text_msg (mtype : Z) (text : list Z) : mbuf :=
  comp_get mbuf0 (
    m ← alloc_zcmsg junk rtc_mctx None None 64 0 (-1);
    m ← fill_text m text (zlen text + 1) mtype (-1);
    Ret (set_rts_fd 7 m)).
Definition ex_msg1 : mbuf := Eval vm_compute in text_msg RMRRM_TABLE_DATA ($"newrt|start|T1" ++ [10] ++ $"rte|10|a:1,b:2" ++ [10]).
Definition ex_msg2 : mbuf := Eval vm_compute in text_msg RMRRM_TABLE_DATA ($"newrt|end|1" ++ [10]).
Definition ex_other : mbuf := Eval vm_compute in text_msg 999 $"hello".

Lemma text_msg_ok m buf : m_tp_buf m = Some buf -> mbuf_wf m buf 0 4 0 64 -> m_alloc_len m = zlen buf -> m_flags m = MFL_ZEROCOPY ->
  m_mtype m = RMRRM_TABLE_DATA -> 0 < m_len m -> table_msg 10 m.
Proof.
  intros Eb W Ha Hf Ht Hl. pose proof (mw_len _ _ _ _ _ _ W). pose proof (ml_len _ _ _ _ _ (mw_layout _ _ _ _ _ _ W)).
  split; [|done|lia]. exists buf, 0, 4, 0, 64. rewrite Hf. split_and!; [split; [done|lia]|lia|done].
Qed.

Ltac check_msg := eapply text_msg_ok; [reflexivity|split; [reflexivity..|vm_compute; split; discriminate|
  split; [vm_compute; repeat split; discriminate|reflexivity|reflexivity..]]|reflexivity..].

Lemma ex_msgs_ok : Forall (table_msg 10) [ex_msg1; ex_msg2].
Proof. repeat (apply Forall_cons; split; [check_msg|]). constructor. Qed.

Lemma rtc_mctx_ok : lens_ok 10 rtc_mctx.
Proof.
  split; cbn -[is_cstr]; try lia; apply (bool_decide_unpack (is_cstr _)); vm_compute; exact I.
Qed.

(** The machine after the records of the two messages, which are acknowledged as
    one table. *)
Definition ex_tables : list (option (list Z)) * astate := Eval vm_compute in
  match spec_recs $"me:4560" None true [] as_init (concat (map recs_of [ex_msg1; ex_msg2])) with Ret x => x | UB => ([], as_init) end.

Lemma collector_follows_manager_witness :
  exists s', deliver_all junk (fun _ => None) [] (rtc_st0 ((fun _ => []) : open_net) None) [ex_msg1; ex_msg2] = Ret s' /\
    ap_ready (r_app s') = true /\
    route_of (sc_rt (wx_send (ap_wx (r_app s')))) (-1) 10 true = Some (10, [Some ex_group]) /\
    drop 334 (sc_net (wx_send (pv_wx (r_pvt s'))) 7) = $"OK T1 " ++ [10; 0].
Proof.
  edestruct (collector_follows_manager junk (fun _ => None) $"me:4560" None [] 10 [ex_msg1; ex_msg2] ex_tables.1 ex_tables.2
    (rtc_st0 ((fun _ => []) : open_net) None) junk_len) as (s' & E & Er & Hr & _ & Ha);
    [lia|reflexivity| |vm_compute; discriminate|apply ex_msgs_ok|vm_compute; reflexivity|].
  { split; [apply rtc_mctx_ok|by eexists]. }
  exists s'. split; [exact E|]. split; [rewrite Er; reflexivity|].
  split; [rewrite Hr by (unfold route_id, in_i32; lia); vm_compute; reflexivity|].
  assert (match answer_all junk (fun _ => None) $"me:4560" None [] as_init (r_pvt (rtc_st0 ((fun _ => []) : open_net) None)) [ex_msg1; ex_msg2] with
          | Ret pv => drop 334 (sc_net (wx_send (pv_wx pv)) 7) | UB => [] end = $"OK T1 " ++ [10; 0]) as Hw by (vm_compute; reflexivity).
  rewrite Ha in Hw. exact Hw.
Defined.

(** A round in which nothing arrives. *)
Definition idle_tick : tick := MkTick 100 100 100 true [MkWait ETIMEDOUT rx0] 100 100 false 0 100 100000.

Lemma wrong_type_stops_collector_witness :
  let s := rtc_st0 ((fun _ => []) : open_net) (Some ex_other) in
  rtc_run junk (fun _ => None) 5 $"rm:4561" [] [] [] (replicate 9 idle_tick) s = Ret (Some (false, s)).
Proof.
  apply (wrong_type_stops_collector junk (fun _ => None) 5 $"rm:4561" [] [] [] ex_other); [reflexivity|discriminate|reflexivity|].
  repeat (apply Forall_cons; split; [reflexivity|]). constructor.
Defined.

Definition ex_checks : list (Z * Z) := [(3, 10); (3, 11); (3, 100); (3, 200); (4, 300)].

Lemma alarms_alternate_witness : (alarm_run alarm0 ex_checks).1 !! 2%nat = Some (RAISED, 1).
Proof.
  assert (exists a, (alarm_run alarm0 ex_checks).1 !! 2%nat = Some a) as [a E] by (eexists; reflexivity).
  rewrite E. rewrite (alarms_alternate ex_checks 2 a E). reflexivity.
Defined.

Lemma alarm_cleared_when_stable_witness :
  (alarm_run (MkAlarm true 0 0 7) (map (pair 3) [11; 12; 100])).1 = [(CLEARED, 7)].
Proof. destruct (alarm_cleared_when_stable (MkAlarm true 0 0 7) 3 11 12 [100] 100) as [E _]; [..|exact E]; try done; try (cbn; lia). by left. Defined.

(** A ring that is full. *)
Definition rx_full : rx_ctx := MkRx (MkRing 15 0 16 (replicate 17 (Some mbuf0)) 3 0 0 true false) [] 0 0 0 0 1024.

Lemma spread_drops_unnoticed_witness :
  (drop_and_check rx_full alarm0 mbuf0 [100; 200; 300]).1 = [] /\
  rx_acc_dcount (drop_and_check rx_full alarm0 mbuf0 [100; 200; 300]).2 = 3.
Proof.
  destruct (spread_drops_unnoticed rx_full mbuf0 [100; 200; 300]) as [E1 E2]; [reflexivity|reflexivity|split; done|done| |].
  { intros [|[|[|i]]] t; cbn; intros [= <-]; done. }
  split; [exact E1|exact E2].
Defined.

(** Contexts in which the collector and the application opened a wormhole each,
    on a transport that does not take anything. *)
Lemma rtc_sc_inv {N : Type} (n : N) x : wh_inv (MkWh (rtc_sc n x) None).
Proof.
  split; [split; [exact I| |]|done..].
  - intros nm id _. change (sm_get _ _) with ((∅ : gmap akey nat) !! AStr 1 nm). rewrite lookup_empty.
    split; [discriminate|]. unfold ename. cbn. rewrite lookup_empty. discriminate.
  - intros id [e He]. change ((∅ : gmap nat endpoint) !! id = Some e) in He. by rewrite lookup_empty in He.
Qed.

Definition ex_wh (x : msg_ctx) (target : list Z) : wh_ctx (gmap akey thing) (gmap akey nat) blocked_net :=
  default (MkWh (rtc_sc (N := blocked_net) 0%nat x) None) (rmr_wh_open (fun _ => None) (Some (MkWh (rtc_sc (N := blocked_net) 0%nat x) None)) target).2.

Lemma wh_open_some {TH TE N : Type} `{Symbols TH thing} `{Symbols TE nat} `{Transport N} gethostbyname (wx : wh_ctx TH TE N) target :
  is_Some (rmr_wh_open gethostbyname (Some wx) target).2.
Proof.
  unfold rmr_wh_open. destruct target as [|c s]; [by eexists|]. cbn [wh_can_open negb]. cbv zeta.
  destruct (cr_rtable _); [|by eexists]. cbn [fst snd]. destruct (rt_ensure_ep _ _ _) as [[ep|] rt]; cbn [fst snd]; [|by eexists].
  destruct (wh_scan _ _ _ _ _) as [w found]. destruct (found && _); [by eexists|]. destruct (negb _); by eexists.
Qed.

Lemma ex_wh_ok x target :
  (rmr_wh_open (fun _ => None) (Some (MkWh (rtc_sc (N := blocked_net) 0%nat x) None)) target).1 = 0 ->
  wh_inv (ex_wh x target) /\ wh_view (ex_wh x target) 0 = Some target.
Proof.
  intros E. destruct (wh_open_some (fun _ => None) (MkWh (rtc_sc (N := blocked_net) 0%nat x) None) target) as [wx Ew].
  destruct (open_spec (fun _ => None) (MkWh (rtc_sc (N := blocked_net) 0%nat x) None) target 0 wx (rtc_sc_inv _ x)) as [Hi Ho];
    [rewrite (surjective_pairing (rmr_wh_open _ _ _)); by rewrite E, Ew|].
  unfold ex_wh. rewrite Ew. split; [done|]. apply Ho.
Qed.

Definition ex_pv : pvt_ctx := MkPvt (ex_wh rtc_mctx $"rm:4561") rx0 0.
Definition ex_ap : app_ctx := MkApp (ex_wh ctx0 $"peer:4560") None false true 0.

Lemma failed_request_closes_users_wormhole_witness :
  exists st pv' ap', send_update_req junk (fun _ => None) ex_pv ex_ap 100 = Ret (st, pv', ap') /\
    wh_view (ap_wx ex_ap) 0 = Some $"peer:4560" /\ wh_view (ap_wx ap') 0 = None.
Proof.
  destruct (ex_wh_ok rtc_mctx $"rm:4561") as [Hp Hv]; [vm_compute; reflexivity|].
  destruct (ex_wh_ok ctx0 $"peer:4560") as [Ha Hu]; [vm_compute; reflexivity|].
  assert (match send_update_req junk (fun _ => None) ex_pv ex_ap 100 with Ret (st, _, _) => st | UB => 0 end = RMR_ERR_SENDFAILED)
    as Hst by (vm_compute; reflexivity).
  destruct (send_update_req junk (fun _ => None) ex_pv ex_ap 100) as [[[st pv'] ap']|] eqn:E; [|discriminate Hst].
  exists st, pv', ap'. split; [reflexivity|]. split; [exact Hu|].
  apply (failed_request_closes_users_wormhole junk (fun _ => None) ex_pv pv' ex_ap ap' 100 st $"rm:4561" $"peer:4560" Hp Ha);
    [discriminate|exact Hv|exact Hu|exact E|].
  rewrite Hst. discriminate.
Defined.

Lemma lost_connection_ends_acks_witness :
  exists s', rtc_run junk (fun _ => None) 5 $"rm:4561" [] [] [] [idle_tick]
      (MkRtc (rtc_ap ((fun _ => []) : open_net)) (MkPvt (MkWh (rtc_sc ((fun _ => []) : open_net) rtc_mctx) None) rx0 (-1)) (Some ex_msg1)
         0 0 0 30 300 alarm0 (-1) 0) = Ret (Some (false, s')) /\ pv_whid (r_pvt s') < 0.
Proof.
  set (s := MkRtc _ _ _ _ _ _ _ _ _ _ _).
  assert (match rtc_run junk (fun _ => None) 5 $"rm:4561" [] [] [] [idle_tick] s with Ret (Some (b, _)) => b | _ => true end = false)
    as Hrun by (vm_compute; reflexivity).
  destruct (rtc_run junk (fun _ => None) 5 $"rm:4561" [] [] [] [idle_tick] s) as [[[[|] s']|]|] eqn:E; try discriminate Hrun.
  exists s'. split; [reflexivity|].
  destruct (lost_connection_ends_acks junk (fun _ => None) 5 $"rm:4561" [] [] [] [idle_tick] false s s') as [Hw _]; [reflexivity|exact E|exact Hw].
Defined.
