(* ===== verification/RtsSpec.v ===== *)
(** Return to sender: theorems about rmr_rts_msg (Send.v), alone and together
    with the receive thread and with calls.  A received message can be sent, the
    answer goes out as one frame with the ids of the request, and an answered
    call returns the answer. *)

From S2P Require Import Prelude Bytes Symtab SymIface Tools Ring Mbuf Endpoint River RouteTable Send SendSpec Fanout MtCall MtSpec RtcSpec.

(** ** C strings in header fields *)

Lemma cstr_of_take n l : 0 ∈ take n l -> cstr_of (take n l) = cstr_of l.
Proof.
  revert n. induction l as [|b l IH]; intros [|n]; cbn [take cstr_of]; try (by rewrite elem_of_nil). rewrite elem_of_cons. destruct (Z.eqb_spec b 0) as [->|Hb]; [done|]. intros [?|Hin]; [lia|]. by rewrite IH.
Qed.

Lemma cstr_of_nul l : 0 ∈ l <-> zlen (cstr_of l) < zlen l.
Proof.
  induction l as [|b l IH]; cbn [cstr_of]; [by rewrite elem_of_nil|]. rewrite elem_of_cons.
  destruct (Z.eqb_spec b 0) as [->|Hb].
  - split; [|by left]. intros _. unfold zlen. cbn. lia.
  - unfold zlen in *. cbn [length]. split; [intros [?|Hin]; [lia|apply IH in Hin; lia]|]. intros. right. apply IH. lia.
Qed.

Lemma is_cstr_of l : Forall is_byte l -> is_cstr (cstr_of l).
Proof.
  induction 1 as [|b l Hb Hl IH]; cbn [cstr_of]; [constructor|]. destruct (Z.eqb_spec b 0); [constructor|].
  constructor; [unfold is_byte in Hb; lia|done].
Qed.

(** A field of 64 bytes that holds a terminated name. *)
Definition name_field (buf : list Z) (off : Z) (s : list Z) : Prop := 0 ∈ slice buf off 64 /\ cstr_of (slice buf off 64) = s.

Lemma name_field_at buf off s : name_field buf off s -> cstr_at buf off = s.
Proof. intros [Hin <-]. unfold cstr_at. symmetry. by apply cstr_of_take. Qed.

Lemma name_field_len buf off s : name_field buf off s -> 0 <= off -> off + 64 <= zlen buf -> zlen s <= 63.
Proof. intros [Hin <-] ? ?. apply cstr_of_nul in Hin. rewrite zlen_slice in Hin by lia. lia. Qed.

Lemma name_field_cstr buf off s : name_field buf off s -> Forall is_byte buf -> is_cstr s.
Proof. intros [_ <-] Hb. apply is_cstr_of. by apply Forall_take, Forall_drop. Qed.

Lemma name_field_same a b off s : slice a off 64 = slice b off 64 -> name_field b off s -> name_field a off s.
Proof. unfold name_field. by intros ->. Qed.

Lemma name_field_intro buf off s : 0 <= off -> off + 64 <= zlen buf -> zlen s <= 63 ->
  cstr_of (slice buf off 64) = s -> name_field buf off s.
Proof. intros ? ? ? E. split; [|done]. apply cstr_of_nul. rewrite E, zlen_slice by lia. lia. Qed.

(** A name that fits replaces the field. *)
Lemma fill_name buf off s : 0 <= off -> off + 64 <= zlen buf -> is_cstr s ->
  exists n b, zt_buf_fill buf off (s ++ [0]) RMR_MAX_SRC = Ret (n, b) /\ name_field b off (take 63 s) /\ framed buf b off 64.
Proof.
  intros ? ? Hs. destruct (zt_buf_fill_ex buf off (s ++ [0]) RMR_MAX_SRC) as (n & b & E & V & _ & _ & Zb & F);
    [done|lia|unfold RMR_MAX_SRC; lia|left; apply in_app_iff; simpl; tauto|by apply is_cstr_nil|].
  change RMR_MAX_SRC with 64 in *. rewrite cstr_of_app_nil in V by done. change (Z.to_nat (64 - 1)) with 63%nat in V.
  exists n, b. split; [done|]. split; [|by split]. apply name_field_intro; [done|lia| |done].
  unfold zlen. rewrite length_take. lia.
Qed.

Lemma take_name (s : list Z) : zlen s <= 63 -> take 63 s = s.
Proof. intros. apply take_ge. unfold zlen in *. lia. Qed.

(** ** The answer on the wire *)

(** The frame of a returned message: our name as the source, the ids, the trace
    and the payload of the message, and no call flag. *)
Record answer_frame (mctx : msg_ctx) (m : mbuf) (buf : list Z) (tr d1 d2 : Z) (f : list Z) : Prop := {
  af_len : zlen f = 330 + tr + d1 + d2 + m_len m /\ load32 f 0 = zlen f;
  af_fields : load32n f (TP_HDR_LEN + o_mtype) = u32 (m_mtype m) /\ load32n f (TP_HDR_LEN + o_plen) = m_len m /\
              load32n f (TP_HDR_LEN + o_sub_id) = u32 (m_sub_id m);
  af_ids : slice f (TP_HDR_LEN + o_rmr_ver) 68 = slice buf (TP_HDR_LEN + o_rmr_ver) 68;
  af_meid : slice f (TP_HDR_LEN + o_meid) 32 = slice buf (TP_HDR_LEN + o_meid) 32;
  af_lens : slice f (TP_HDR_LEN + o_len0) 16 = slice buf (TP_HDR_LEN + o_len0) 16;
  af_call : Z.land (load32 f (TP_HDR_LEN + o_flags)) HFL_CALL_MSG = 0;
  af_src : name_field f (TP_HDR_LEN + o_src) (take 63 (x_my_name mctx));
  af_body : slice f 330 (tr + d1 + d2 + m_len m) = slice buf 330 (tr + d1 + d2 + m_len m)
}.

(** What is left of the message when the answer was not taken: it can be
    returned again, to the same names and the same descriptor. *)
Record same_answer (m : mbuf) (buf : list Z) (tr d1 d2 room : Z) (m' : mbuf) : Prop := {
  sa_fields : (m_mtype m', m_sub_id m', m_len m', m_rts_fd m') = (m_mtype m, m_sub_id m, m_len m, m_rts_fd m);
  sa_buf : exists b, mbuf_wf m' b tr d1 d2 room /\ m_alloc_len m' = m_alloc_len m /\
    name_field b (TP_HDR_LEN + o_src) (cstr_at buf (TP_HDR_LEN + o_src)) /\
    name_field b (TP_HDR_LEN + o_srcip) (cstr_at buf (TP_HDR_LEN + o_srcip)) /\
    slice b (TP_HDR_LEN + o_rmr_ver) 68 = slice buf (TP_HDR_LEN + o_rmr_ver) 68 /\
    slice b (TP_HDR_LEN + o_meid) 32 = slice buf (TP_HDR_LEN + o_meid) 32 /\
    slice b 330 (tr + d1 + d2 + m_len m) = slice buf 330 (tr + d1 + d2 + m_len m)
}.

Lemma no_call_bit v : Z.land (Z.land v (Z.lnot HFL_CALL_MSG)) HFL_CALL_MSG = 0.
Proof. rewrite <-Z.land_assoc. change (Z.land (Z.lnot HFL_CALL_MSG) HFL_CALL_MSG) with 0. apply Z.land_0_r. Qed.

Lemma load32_range_bytes b off : Forall is_byte b -> 0 <= load32 b off < 2 ^ 32.
Proof.
  intros Hb. assert (Forall is_byte (slice b off 4)) as Hs by (by apply Forall_take, Forall_drop).
  unfold load32. pose proof (le_val_range _ Hs) as [? Hr]. split; [done|]. eapply Z.lt_le_trans; [exact Hr|].
  change (2 ^ 32) with (256 ^ 4). apply Z.pow_le_mono_r; [lia|]. unfold slice. rewrite length_take. lia.
Qed.

Lemma land_range a b k : 0 <= a < 2 ^ k -> 0 <= k -> 0 <= Z.land a b < 2 ^ k.
Proof.
  intros [Ha Hk] Hn. split; [apply Z.land_nonneg; lia|]. rewrite <-(Z.mod_small a (2 ^ k)) by lia.
  rewrite <-Z.land_ones, <-Z.land_assoc, (Z.land_comm (Z.ones k) b), Z.land_assoc, Z.land_ones by lia.
  apply Z.mod_pos_bound. lia.
Qed.

(** What rts hands to send_msg: the message without the call flag, from us. *)
Record rts_ready (mctx : msg_ctx) (buf : list Z) (b : list Z) : Prop := {
  rr_len : zlen b = zlen buf;
  rr_call : Z.land (load32 b 242) HFL_CALL_MSG = 0;
  rr_src : name_field b 126 (take 63 (x_my_name mctx));
  rr_keeps : forall o k, 0 <= o -> 0 <= k -> o + k <= 126 \/ 190 <= o /\ o + k <= 242 \/ 246 <= o -> slice b o k = slice buf o k
}.

Lemma answer_frame_of mctx m buf b tr d1 d2 room f :
  rts_ready mctx buf b -> mbuf_wf (set_state RMR_OK (set_tp_buf (Some b) m)) b tr d1 d2 room ->
  is_cstr (x_my_name mctx) ->
  sent_frame mctx (set_state RMR_OK (set_tp_buf (Some b) m)) b tr d1 d2 f -> answer_frame mctx m buf tr d1 d2 f.
Proof.
  intros [Zb Hc Hs K] W Hn [Fl Fm Ft Fp Fs Fi Fe Fsrc Fb]. cbn in *. offsets.
  pose proof (ml_len _ _ _ _ _ (mw_layout _ _ _ _ _ _ W)). pose proof (ml_sz _ _ _ _ _ (mw_layout _ _ _ _ _ _ W)).
  pose proof (mw_len _ _ _ _ _ _ W). cbn in *.
  assert (forall o k, 190 <= o -> 0 <= k -> o + k <= 262 -> slice f o k = slice b o k) as Fs'.
  { intros o k ? ? ?. rewrite (slice_sub f b 190 190 72 o k) by (done || lia). f_equal. lia. }
  split; offsets; try done.
  - by rewrite (Fi : slice f 58 68 = slice b 58 68), K by lia.
  - by rewrite Fs', K by lia.
  - by rewrite Fs', K by lia.
  - unfold load32 in *. by rewrite Fs' by lia.
  - destruct (_ =? 0).
    + eapply name_field_same; [apply Fsrc|done].
    + apply name_field_intro; [lia|lia| |by apply Fsrc]. unfold zlen. rewrite length_take. lia.
  - rewrite Fb. by rewrite K by lia.
Qed.

Section rts.
Context {TH TE N : Type} `{Symbols TH thing} `{Symbols TE nat} `{Transport N}.
Variable malloc_bytes : Z -> list Z.
Hypothesis malloc_len : forall n, 0 <= n -> zlen (malloc_bytes n) = n.
Variable gethostbyname : list Z -> option (list Z).
Implicit Types (sc : send_ctx TH TE N) (m : mbuf) (n : N).

(** A message that can be returned: both names are terminated, and a buffer
    comes back when it is sent. *)
Record returnable m (buf : list Z) (tr d1 d2 room : Z) (src ip : list Z) : Prop := {
  rn_send : sendable m buf tr d1 d2 room;
  rn_src : name_field buf (TP_HDR_LEN + o_src) src;
  rn_ip : name_field buf (TP_HDR_LEN + o_srcip) ip;
  rn_bytes : Forall is_byte buf;
  rn_alloc : Z.land (m_flags m) MFL_NOALLOC = 0
}.

(** The descriptor of the answer: that of the endpoint the source names, else
    the one the message came from. *)
Definition answer_fd m (sock : option Z) (fd : Z) : Prop :=
  match sock with Some s => fd = s | None => fd = m_rts_fd m /\ 0 <= fd end.

(** The buffer without the call flag, with our name. *)
Lemma rts_buffer m buf tr d1 d2 room src ip mctx :
  returnable m buf tr d1 d2 room src ip -> is_cstr (x_my_name mctx) ->
  exists b1 b2 k, put buf (TP_HDR_LEN + o_flags) (le_bytes 4 (Z.land (load32 buf (TP_HDR_LEN + o_flags)) (Z.lnot HFL_CALL_MSG))) = Ret b1 /\
    framed buf b1 242 4 /\ name_field b1 126 src /\ name_field b1 266 ip /\
    zt_buf_fill b1 (TP_HDR_LEN + o_src) (x_my_name mctx ++ [0]) RMR_MAX_SRC = Ret (k, b2) /\
    rts_ready mctx buf b2 /\ mbuf_wf (set_state RMR_OK (set_tp_buf (Some b2) m)) b2 tr d1 d2 room.
Proof.
  intros [[W Hfit] Hs Hi Hb _] Hn. pose proof (mw_layout _ _ _ _ _ _ W) as L.
  pose proof (ml_len _ _ _ _ _ L). pose proof (ml_sz _ _ _ _ _ L). pose proof (mw_len _ _ _ _ _ _ W). offsets.
  set (v := Z.land _ _). assert (0 <= v < 2 ^ 32) as Hv by (apply land_range; [by apply load32_range_bytes|lia]).
  assert (zlen (le_bytes 4 v) = 4) as Ev by (unfold zlen; by rewrite length_le_bytes).
  destruct (put_ex buf 242 (le_bytes 4 v)) as (b1 & -> & S1 & F1); [lia|lia|]. rewrite Ev in *.
  destruct (fill_name b1 126 (x_my_name mctx)) as (k & b2 & E2 & N2 & F2); [lia|rewrite (proj1 F1); lia|done|].
  exists b1, b2, k. split; [done|]. split; [exact F1|].
  assert (forall o j, 0 <= o -> 0 <= j -> o + j <= 242 \/ 246 <= o -> slice b1 o j = slice buf o j) as K1 by (intros; apply F1; lia).
  split; [by eapply name_field_same; [apply K1; lia|]|]. split; [by eapply name_field_same; [apply K1; lia|]|]. split; [exact E2|].
  assert (mbuf_wf (set_tp_buf (Some b2) m) b2 tr d1 d2 room) as W2.
  { apply (wf_framed (set_tp_buf (Some b1) m) b1 b2 126 64); [|exact F2|lia]. by apply (wf_framed m buf b1 242 4); [|exact F1|lia]. }
  split; [|by destruct W2].
  split; [by rewrite (proj1 F2), (proj1 F1)| |done|].
  - unfold load32. rewrite (proj2 F2) by lia. rewrite S1, le_val_bytes. change (256 ^ Z.of_nat 4) with (2 ^ 32).
    rewrite Z.mod_small by done. apply no_call_bit.
  - intros o j ? ? ?. rewrite (proj2 F2) by lia. apply K1; lia.
Qed.

(** The names of the message that was returned are put into the one that comes
    back after the send. *)
Lemma rts_restore b src ip : 330 <= zlen b -> is_cstr src -> is_cstr ip -> zlen src <= 63 -> zlen ip <= 63 ->
  exists k1 b1 k2 b2, zt_buf_fill b (TP_HDR_LEN + o_src) (src ++ [0]) RMR_MAX_SRC = Ret (k1, b1) /\
    zt_buf_fill b1 (TP_HDR_LEN + o_srcip) (ip ++ [0]) RMR_MAX_SRC = Ret (k2, b2) /\
    name_field b2 126 src /\ name_field b2 266 ip /\ zlen b2 = zlen b /\
    forall o k, 0 <= o -> 0 <= k -> o + k <= 126 \/ 190 <= o /\ o + k <= 266 \/ 330 <= o -> slice b2 o k = slice b o k.
Proof.
  intros Hz Hs Hi Ls Li. change (TP_HDR_LEN + o_src) with 126. change (TP_HDR_LEN + o_srcip) with 266.
  destruct (fill_name b 126 src) as (k1 & b1 & E1 & N1 & [Z1 F1]); [lia|lia|done|].
  destruct (fill_name b1 266 ip) as (k2 & b2 & E2 & N2 & [Z2 F2]); [lia|lia|done|].
  rewrite take_name in N1, N2 by done. exists k1, b1, k2, b2. split_and!; [done|done| |done|lia|].
  - eapply name_field_same; [apply F2; lia|done].
  - intros. rewrite F2, F1 by lia. done.
Qed.

Lemma addsrc_set fl : Z.land (Z.lor fl MFL_ADDSRC) MFL_ADDSRC <> 0.
Proof. rewrite Z.land_lor_distr_l. intros E. apply Z.lor_eq_0_iff in E as [_ E]. discriminate E. Qed.

Lemma count_ep_net sc st ep : sc_net (count_ep sc st ep) = sc_net sc.
Proof. apply count_ep_keeps. Qed.

(** The content of a message that was not taken. *)
Lemma same_answer_front mctx m mr buf b b' b2 tr d1 d2 room st src ip :
  mr = set_state RMR_OK (set_tp_buf (Some b2) m) -> mbuf_wf mr b2 tr d1 d2 room -> msg_layout b tr d1 d2 room ->
  let f := slice b 0 (330 + tr + d1 + d2 + m_len m) in answer_frame mctx m buf tr d1 d2 f ->
  name_field b' 126 src -> name_field b' 266 ip -> zlen b' = zlen b ->
  cstr_at buf (TP_HDR_LEN + o_src) = src -> cstr_at buf (TP_HDR_LEN + o_srcip) = ip ->
  (forall o k, 0 <= o -> 0 <= k -> o + k <= 126 \/ 190 <= o /\ o + k <= 266 \/ 330 <= o -> slice b' o k = slice b o k) ->
  same_answer m buf tr d1 d2 room (set_flags (Z.lor (m_flags m) MFL_ADDSRC) (set_tp_buf (Some b') (set_state st mr))).
Proof.
  intros -> W L f A N1 N2 Z' E1 E2 K. pose proof (ml_len _ _ _ _ _ L). pose proof (ml_sz _ _ _ _ _ L).
  pose proof (mw_len _ _ _ _ _ _ W) as Hl. cbn in Hl. destruct L as [? ? ? L0 L1 L2 L3]. unfold load32n in *.
  assert (forall o k, 0 <= o -> 0 <= k -> o + k <= 126 \/ 190 <= o /\ o + k <= 262 \/ 330 <= o /\ o + k <= 330 + tr + d1 + d2 + m_len m ->
    slice b' o k = slice f o k) as Kf by (intros o k ? ? ?; unfold f; rewrite slice_slice by lia; apply K; lia).
  split; [done|]. exists b'. rewrite E1, E2. offsets. destruct W as [Wb Wh Wp Wx _ _]. cbn in *.
  assert (msg_layout b' tr d1 d2 room) as L' by (split; unfold load32n; rewrite ?Z', ?K by lia; done).
  split_and!; try done.
  - rewrite Kf by lia. apply (af_ids _ _ _ _ _ _ _ A).
  - rewrite Kf by lia. apply (af_meid _ _ _ _ _ _ _ A).
  - rewrite Kf by lia. apply (af_body _ _ _ _ _ _ _ A).
Qed.

Lemma rts_ref sc m buf tr d1 d2 room src ip sock ep sc1 fd :
  returnable m buf tr d1 d2 room src ip -> reuse_ok (sc_mctx sc) tr -> is_Some (cr_rtable (sc_rt sc)) ->
  x_trace_data_len (sc_mctx sc) <= tr ->
  uta_epsock_byname gethostbyname sc src = Ret (sock, ep, sc1) -> answer_fd m sock fd ->
  exists f b m' sc' b', answer_frame (sc_mctx sc) m buf tr d1 d2 f /\
    rts_ready (sc_mctx sc) buf b /\ sent_frame (sc_mctx sc) (set_state RMR_OK (set_tp_buf (Some b) m)) b tr d1 d2 f /\
    mbuf_wf (set_state RMR_OK (set_tp_buf (Some b) m)) b tr d1 d2 room /\
    rmr_rts_msg malloc_bytes gethostbyname (Some sc) (Some m) = Ret (Some m', Some sc') /\
    let '(state, errno, n') := tp_send (sc_net sc1) fd f in
    sc_net sc' = n' /\ m_tp_buf m' = Some b' /\ Z.land (m_flags m') MFL_ADDSRC <> 0 /\
    cstr_at b' (TP_HDR_LEN + o_src) = src /\ cstr_at b' (TP_HDR_LEN + o_srcip) = ip /\
    if state =? SI_OK then tp_wire n' fd = tp_wire (sc_net sc1) fd ++ f /\ m_state m' = RMR_OK /\ m_len m' = 0
    else m_state m' = (if errno =? EAGAIN then RMR_ERR_RETRY else RMR_ERR_SENDFAILED) /\ same_answer m buf tr d1 d2 room m'.
Proof.
  intros Hret Hr Hrt Htr Eby Hfd. pose proof Hret as [[W Hfit] Ns Ni Hb Hal].
  pose proof (mw_layout _ _ _ _ _ _ W) as L. pose proof (ml_len _ _ _ _ _ L). pose proof (ml_sz _ _ _ _ _ L). pose proof (mw_len _ _ _ _ _ _ W).
  destruct (rts_buffer m buf tr d1 d2 room src ip (sc_mctx sc) Hret (ro_name _ _ Hr)) as (b1 & b2 & k & E1 & F1 & N1 & I1 & E2 & R2 & W2).
  assert (same_base sc sc1) as [Bm Bt].
  { destruct (byname_total gethostbyname sc src Hrt) as (? & ? & ? & E & ?). rewrite Eby in E. by injection E as _ _ <-. }
  unfold rmr_rts_msg. rewrite (mw_hdr _ _ _ _ _ _ W), (mw_buf _ _ _ _ _ _ W). cbn [deref mbind comp_bind].
  destruct (get8_total buf (TP_HDR_LEN + o_flags + 3)) as [c ->]; [offsets; lia|]. cbn [mbind comp_bind].
  rewrite E1. cbn [mbind comp_bind]. rewrite (name_field_at b1 (TP_HDR_LEN + o_src) src N1), Eby. cbn [mbind comp_bind m_rts_fd set_tp_buf].
  rewrite (name_field_at b1 (TP_HDR_LEN + o_srcip) ip I1).
  set (pick := match sock with Some fd => _ | None => _ end).
  assert (pick = Ret (Some fd, ep, sc1)) as ->.
  { unfold pick, answer_fd in *. destruct sock as [s|]; [by subst fd|]. destruct Hfd as [-> Hge]. by destruct (Z.leb_spec 0 (m_rts_fd m)); [|lia]. }
  cbn [mbind comp_bind]. rewrite Bm, E2. cbn [mbind comp_bind]. set (mr := set_state RMR_OK _).
  destruct (send_msg_front malloc_bytes malloc_len (sc_mctx sc) (sc_net sc1) mr b2 tr d1 d2 room fd (-1)) as (b' & F & L' & Hs);
    [split; [done|]; cbn; rewrite (rr_len _ _ _ R2); lia|done|].
  pose proof (answer_frame_of _ _ _ _ _ _ _ _ _ R2 W2 (ro_name _ _ Hr) F) as A. set (f := slice b' 0 _) in *.
  change (Z.to_nat (attempts (-1) - 1)) with 0%nat in Hs. cbn [retry_send] in Hs.
  exists f, b2. destruct (tp_send (sc_net sc1) fd f) as [[st er] n'] eqn:Et.
  assert ((if st =? SI_ERR_BLOCKED then (st, er, n') else (st, er, n')) = (st, er, n')) as Eb by (by destruct (_ =? _)).
  rewrite Eb in Hs. clear Eb. rewrite andb_false_r in Hs. cbn [orb] in Hs. change (m_flags mr) with (m_flags m) in Hs. rewrite Hal in Hs.
  change (0 =? 0) with true in Hs. cbv iota zeta in Hs.
  assert (is_cstr src /\ is_cstr ip /\ zlen src <= 63 /\ zlen ip <= 63) as (C1 & C2 & C3 & C4).
  { split; [exact (name_field_cstr _ _ _ Ns Hb)|]. split; [exact (name_field_cstr _ _ _ Ni Hb)|].
    split; [apply (name_field_len _ _ _ Ns)|apply (name_field_len _ _ _ Ni)]; offsets; lia. }
  destruct (Z.eqb_spec st SI_OK) as [->|Hst].
  - destruct Hs as (m' & -> & B). destruct (bm_state _ _ _ B) as (Bst & _ & _ & Bl & _ & _ & Bh).
    destruct (bm_room _ _ _ B Htr) as (b3 & room' & W3 & _). pose proof (ml_len _ _ _ _ _ (mw_layout _ _ _ _ _ _ W3)).
    pose proof (ml_sz _ _ _ _ _ (mw_layout _ _ _ _ _ _ W3)).
    destruct (rts_restore b3 src ip) as (k1 & b4 & k2 & b5 & E4 & E5 & N4 & N5 & _ & _); [lia|done..|].
    cbn [mbind comp_bind]. rewrite Bh, (mw_buf _ _ _ _ _ _ W3). cbn [deref mbind comp_bind]. rewrite E4. cbn [mbind comp_bind].
    rewrite E5. cbn [mbind comp_bind]. eexists _, _, b5. do 4 (split; [done|]). split; [done|].
    split; [by rewrite count_ep_net|]. split; [done|]. split; [apply addsrc_set|].
    split; [by apply name_field_at|]. split; [by apply name_field_at|]. split; [by eapply tp_send_ok|done].
  - pose proof (ml_len _ _ _ _ _ L'). destruct (rts_restore b' src ip) as (k1 & b4 & k2 & b5 & E4 & E5 & N4 & N5 & Z5 & K5); [lia|done..|].
    pose proof (fun st => same_answer_front (sc_mctx sc) m mr buf b' b5 b2 tr d1 d2 room st src ip eq_refl W2 L' A N4 N5 Z5
      (name_field_at _ _ _ Ns) (name_field_at _ _ _ Ni) K5) as Sa.
    destruct (er =? EAGAIN); rewrite Hs; cbn [mbind comp_bind m_header set_state set_tp_buf mr m_tp_buf deref];
      rewrite (mw_hdr _ _ _ _ _ _ W); cbn [mbind comp_bind deref]; rewrite E4; cbn [mbind comp_bind]; rewrite E5; cbn [mbind comp_bind];
      eexists _, _, b5; (do 4 (split; [done|]); split; [done|]; split; [by rewrite count_ep_net|]; split; [done|]; split; [apply addsrc_set|];
      split; [by apply name_field_at|]; split; [by apply name_field_at|]; split; [done|apply Sa]).
Qed.

(** C12.  A returned message that the transport does not hold up goes out as one
    frame, once, to the endpoint the source of the message names, or to the
    descriptor it came from when there is no connection to that name: with the type,
    length and subscription id the application has set, the ids, the trace data and
    the payload of the message, the call flag off and the sender's own name as the
    source.  Sent or failed, the message that comes back has the original names in
    it, so that it can be returned again; when the frame was not taken it has its
    content, its descriptor and its form too.  (A soft failure, where the transport
    reports that it is blocked, is not part of this: rmr_rts_msg(3) promises
    retries that the code does not make, see [rts_is_not_retried].) *)
Theorem rts_answers_the_source sc m buf tr d1 d2 room src ip sock ep sc1 fd :
  returnable m buf tr d1 d2 room src ip -> reuse_ok (sc_mctx sc) tr -> is_Some (cr_rtable (sc_rt sc)) ->
  x_trace_data_len (sc_mctx sc) <= tr ->
  uta_epsock_byname gethostbyname sc src = Ret (sock, ep, sc1) -> answer_fd m sock fd ->
  exists f m' sc' b', answer_frame (sc_mctx sc) m buf tr d1 d2 f /\
    rmr_rts_msg malloc_bytes gethostbyname (Some sc) (Some m) = Ret (Some m', Some sc') /\
    let '(state, errno, n') := tp_send (sc_net sc1) fd f in
    state <> SI_ERR_BLOCKED ->
    sc_net sc' = n' /\ m_tp_buf m' = Some b' /\ Z.land (m_flags m') MFL_ADDSRC <> 0 /\
    cstr_at b' (TP_HDR_LEN + o_src) = src /\ cstr_at b' (TP_HDR_LEN + o_srcip) = ip /\
    if state =? SI_OK then tp_wire n' fd = tp_wire (sc_net sc1) fd ++ f /\ m_state m' = RMR_OK /\ m_len m' = 0
    else m_state m' = (if errno =? EAGAIN then RMR_ERR_RETRY else RMR_ERR_SENDFAILED) /\ same_answer m buf tr d1 d2 room m'.
Proof.
  intros Hret Hr Hrt Htr Eby Hfd. destruct (rts_ref sc m buf tr d1 d2 room src ip sock ep sc1 fd Hret Hr Hrt Htr Eby Hfd)
    as (f & b & m' & sc' & b' & A & _ & _ & _ & Er & E). exists f, m', sc', b'. split; [done|]. split; [done|].
  revert E. destruct (tp_send _ _ _) as [[state er] n']. by intros ? _.
Qed.

(** A return that finds the transport blocked is not tried again, whatever the
    number of retries the application has set: the message comes back at once, as
    failed unless errno says EAGAIN. *)
Theorem rts_is_not_retried sc m buf tr d1 d2 room src ip sock ep sc1 fd :
  returnable m buf tr d1 d2 room src ip -> reuse_ok (sc_mctx sc) tr -> is_Some (cr_rtable (sc_rt sc)) ->
  x_trace_data_len (sc_mctx sc) <= tr ->
  uta_epsock_byname gethostbyname sc src = Ret (sock, ep, sc1) -> answer_fd m sock fd ->
  exists f m' sc', rmr_rts_msg malloc_bytes gethostbyname (Some sc) (Some m) = Ret (Some m', Some sc') /\
    let '(state, errno, n') := tp_send (sc_net sc1) fd f in
    state = SI_ERR_BLOCKED -> sc_net sc' = n' /\
    m_state m' = (if errno =? EAGAIN then RMR_ERR_RETRY else RMR_ERR_SENDFAILED) /\ same_answer m buf tr d1 d2 room m'.
Proof.
  intros Hret Hr Hrt Htr Eby Hfd. destruct (rts_ref sc m buf tr d1 d2 room src ip sock ep sc1 fd Hret Hr Hrt Htr Eby Hfd)
    as (f & b & m' & sc' & b' & A & _ & _ & _ & Er & E). exists f, m', sc'. split; [done|].
  revert E. destruct (tp_send _ _ _) as [[state er] n']. intros (? & _ & _ & _ & _ & ?) ->. done.
Qed.
End rts.

(** ** Requests and answers, end to end *)

(** The chute a sent message is for. *)
Definition call_byte (buf : list Z) (tr d1 : Z) : Z := if d1 <=? 0 then 0 else default 0 (buf !! Z.to_nat (330 + tr)).
Definition slot_of (buf : list Z) (tr d1 : Z) : Z :=
  if negb (Z.land (load32 buf (TP_HDR_LEN + o_flags)) HFL_CALL_MSG =? 0) then 0 else call_byte buf tr d1.

Lemma slice_lookup_eq {A} (a b : list A) q : 0 <= q -> slice a q 1 = slice b q 1 -> a !! Z.to_nat q = b !! Z.to_nat q.
Proof.
  intros ? E. assert (forall l : list A, slice l q 1 !! 0%nat = l !! Z.to_nat q) as F.
  { intros l. rewrite slice_lookup by lia. rewrite decide_True by lia. f_equal. lia. }
  by rewrite <-!F, E.
Qed.

Lemma raw_slot o raw : wire_ok o -> raw_of o raw -> call_slot raw = slot_of (out_buf o) (out_tr o) (out_d1 o).
Proof.
  intros [[W Hf] _ _ _] [Tot _ _ Sh Sp (R0 & R1 & R2 & _)]. unfold call_slot, slot_of, call_byte. rewrite R0, R1, R2. offsets.
  pose proof (ml_sz _ _ _ _ _ (mw_layout _ _ _ _ _ _ W)). pose proof (mw_len _ _ _ _ _ _ W).
  unfold load32. rewrite Sh by lia. destruct (negb _); [done|]. cbn [orb]. destruct (Z.leb_spec (out_d1 o) 0); [done|].
  replace (50 + 280 + out_tr o) with (330 + out_tr o) by lia. f_equal. apply slice_lookup_eq; [lia|]. apply Sp; lia.
Qed.

(** A received message can be sent as it is. *)
Lemma received_sendable o raw m fd : wire_ok o -> raw_of o raw -> zlen raw <= INT_MAX - 128 -> refs_buffer m raw fd ->
  sendable m raw (out_tr o) (out_d1 o) (out_d2 o) (zlen raw - (330 + out_tr o + out_d1 o + out_d2 o)).
Proof.
  intros [[W Hf] _ _ _] [Tot (_ & Vl & _) _ _ _ (R0 & R1 & R2 & R3)] Hz R.
  pose proof (ml_sz _ _ _ _ _ (mw_layout _ _ _ _ _ _ W)). pose proof (mw_len _ _ _ _ _ _ W).
  destruct R as [_ Qb Qh Ql [Qp _] _ _ _ Qa Qx _]. unfold lens_sum, INT_MAX in *. offsets. change (50 + 4) with 54 in *.
  split; [split; try done|]; [rewrite Qp; f_equal; lia|lia| |lia]. split; try done; lia.
Qed.

(** What an application does to a message it answers: another type, another
    payload in the same buffer. *)
Record answers (m : mbuf) (raw : list Z) (pay : Z) (data : list Z) (m2 : mbuf) (raw2 : list Z) : Prop := {
  an_buf : m_tp_buf m2 = Some raw2;
  an_same : (m_header m2, m_payload m2, m_xaction m2, m_alloc_len m2, m_rts_fd m2) =
            (m_header m, m_payload m, m_xaction m, m_alloc_len m, m_rts_fd m);
  an_len : m_len m2 = zlen data /\ pay + zlen data <= zlen raw;
  an_data : slice raw2 pay (zlen data) = data /\ framed raw raw2 pay (zlen data);
  an_bytes : Forall is_byte raw2;
  an_types : in_i32 (m_mtype m2) /\ in_i32 (m_sub_id m2);
  an_flags : Z.land (m_flags m2) MFL_NOALLOC = 0
}.

Lemma answer_sendable m raw tr d1 d2 room data m2 raw2 :
  sendable m raw tr d1 d2 room -> m_alloc_len m = zlen raw -> answers m raw (330 + tr + d1 + d2) data m2 raw2 ->
  sendable m2 raw2 tr d1 d2 room.
Proof.
  intros [W Hf] Ha [Eb [= E1 E2 E3 E4 E5] [El Hr] [_ F] _ _ _]. destruct W as [_ Wh Wp Wx _ L].
  pose proof (ml_len _ _ _ _ _ L). pose proof (ml_sz _ _ _ _ _ L). pose proof (zlen_nonneg data).
  split; [split; try congruence; [lia|]|rewrite (proj1 F); lia]. eapply layout_framed; [exact L|exact F|lia].
Qed.

(** What the requester gets for the request [o] that was answered with [m2]. *)
Record answered (o : outgoing) (m2 : mbuf) (data : list Z) (m3 : mbuf) : Prop := {
  aw_ok : m_state m3 = RMR_OK;
  aw_fields : (m_mtype m3, m_sub_id m3, m_len m3) = (m_mtype m2, m_sub_id m2, zlen data);
  aw_data : exists raw pay, m_tp_buf m3 = Some raw /\ m_payload m3 = Some pay /\ 0 <= pay /\ pay + zlen data <= zlen raw /\
    slice raw pay (zlen data) = data /\
    slice raw (TP_HDR_LEN + o_meid) 32 = slice (out_buf o) (TP_HDR_LEN + o_meid) 32;
  aw_xid : xact_bytes m3 RMR_MAX_XID = Ret (slice (out_buf o) (TP_HDR_LEN + o_xid) 32)
}.

Lemma frame_names mctx o f raw : wire_ok o -> frame_of mctx o f -> holds f raw ->
  Z.land (m_flags (out_msg o)) MFL_ADDSRC <> 0 ->
  name_field raw.1 126 (take 63 (x_my_name mctx)) /\ name_field raw.1 266 (take 63 (x_my_ip mctx)).
Proof.
  intros Ho F [Sr [Zr Hn]] Ha. destruct Ho as [[W Hf] _ _ _]. unfold frame_of in F.
  pose proof (ml_sz _ _ _ _ _ (mw_layout _ _ _ _ _ _ W)). pose proof (mw_len _ _ _ _ _ _ W).
  destruct F as [Zf _ _ _ _ _ _ Fs _]. rewrite (proj2 (Z.eqb_neq _ _) Ha) in Fs. destruct Fs as [F1 F2].
  assert (forall q, q = 126 \/ q = 266 -> slice raw.1 q 64 = slice f q 64) as S.
  { intros q Hq. rewrite <-Sr. by rewrite slice_slice by lia. }
  split; (apply name_field_intro; [lia|lia| |rewrite S by lia; done]); unfold zlen; rewrite length_take; lia.
Qed.

Section roundtrip.
Context {TH TE N : Type} `{Symbols TH thing} `{Symbols TE nat} `{Transport N}.
Variable malloc_bytes : Z -> list Z.
Hypothesis malloc_len : forall n, 0 <= n -> zlen (malloc_bytes n) = n.
Variable gethostbyname : list Z -> option (list Z).
Implicit Types (sc : send_ctx TH TE N) (m : mbuf) (n : N).

(** The answering program can return the message. *)
Record can_answer sc m2 (name : list Z) (tr : Z) (ep : option nat) sc1 (fd : Z) : Prop := {
  ca_reuse : reuse_ok (sc_mctx sc) tr /\ x_trace_data_len (sc_mctx sc) <= tr;
  ca_table : is_Some (cr_rtable (sc_rt sc));
  ca_fd : exists sock, uta_epsock_byname gethostbyname sc name = Ret (sock, ep, sc1) /\ answer_fd m2 sock fd
}.

(** From the received request to the received answer. *)
Lemma answer_arrives mctx o f raw m fdB data m2 raw2 sc ep sc1 fd :
  wire_ok o -> Z.land (m_flags (out_msg o)) MFL_ADDSRC <> 0 -> frame_of mctx o f ->
  holds f raw -> zlen raw.1 <= INT_MAX - 128 -> refs_buffer m raw.1 fdB ->
  answers m raw.1 (330 + out_tr o + out_d1 o + out_d2 o) data m2 raw2 ->
  can_answer sc m2 (take 63 (x_my_name mctx)) (out_tr o) ep sc1 fd ->
  exists g m4 sc', rmr_rts_msg malloc_bytes gethostbyname (Some sc) (Some m2) = Ret (Some m4, Some sc') /\
    zlen g = 330 + out_tr o + out_d1 o + out_d2 o + zlen data /\
    (m_state m4 = RMR_OK -> tp_wire (sc_net sc') fd = tp_wire (sc_net sc1) fd ++ g) /\
    forall raw3 now rx fdA, holds g raw3 -> exists m3,
      buf2mbuf now rx raw3.1 raw3.2 fdA = Ret (deliver_to now rx m3 (call_byte (out_buf o) (out_tr o) (out_d1 o))) /\
      answered o m2 data m3.
Proof.
  intros Ho Hsrc F Hh Hz R An [[Hr Htr] Hrt (sock & Eby & Hfd)].
  pose proof (raw_of_frame mctx o f raw Ho F Hh) as Ro. destruct (frame_names mctx o f raw Ho F Hh Hsrc) as [N1 N2].
  pose proof (received_sendable o raw.1 m fdB Ho Ro Hz R) as Sm. set (room := zlen raw.1 - _) in *.
  pose proof (answer_sendable m raw.1 _ _ _ room data m2 raw2 Sm (rb_alloc _ _ _ R) An) as S2.
  destruct An as [Eb _ [El Hroom] [Ed F2] Hb2 Ht Hfl]. pose proof Ho as [[W _] _ _ Hcall].
  pose proof (ml_sz _ _ _ _ _ (mw_layout _ _ _ _ _ _ W)) as Hsz.
  pose proof (mw_len _ _ _ _ _ _ W) as Hml. pose proof (zlen_nonneg data). clear W.
  assert (forall q k, 0 <= q -> 0 <= k -> q + k <= 330 + out_tr o + out_d1 o + out_d2 o -> slice raw2 q k = slice raw.1 q k) as K2
    by (intros; apply F2; lia).
  assert (returnable m2 raw2 (out_tr o) (out_d1 o) (out_d2 o) room (take 63 (x_my_name mctx)) (take 63 (x_my_ip mctx))) as Hret.
  { split; try done; (eapply name_field_same; [apply K2; offsets; lia|done]). }
  destruct (rts_ref malloc_bytes malloc_len gethostbyname sc m2 raw2 _ _ _ room _ _ sock ep sc1 fd Hret Hr Hrt Htr Eby Hfd)
    as (g & b & m4 & sc' & b' & _ & [Zb Hc Hs K] & Fg & Wb & Er & Hres).
  exists g, m4, sc'. split; [done|]. split; [rewrite (sf_len _ _ _ _ _ _ _ Fg); cbn; by rewrite El|]. split.
  { destruct (tp_send (sc_net sc1) fd g) as [[st er] n']. destruct Hres as (-> & _ & _ & _ & _ & Hres).
    destruct (st =? SI_OK); [by intros _; apply Hres|]. destruct Hres as [-> _]. by destruct (er =? EAGAIN). }
  set (o2 := MkOut (set_state RMR_OK (set_tp_buf (Some b) m2)) b (out_tr o) (out_d1 o) (out_d2 o) room).
  assert (forall q k, 0 <= q -> 0 <= k -> q + k <= 126 \/ 190 <= q /\ q + k <= 242 \/ 246 <= q ->
    q + k <= 330 + out_tr o + out_d1 o + out_d2 o -> slice b q k = slice raw.1 q k) as Kb by (intros; rewrite K, K2 by lia; done).
  pose proof (proj1 F2) as Z2. pose proof (ro_total _ _ Ro).
  assert (0 < out_d1 o -> b !! Z.to_nat (330 + out_tr o) = out_buf o !! Z.to_nat (330 + out_tr o)) as Ecb.
  { intros. apply slice_lookup_eq; [lia|]. rewrite Kb by lia. apply (ro_body _ _ Ro); lia. }
  assert (wire_ok o2) as Ho2.
  { split; cbn; [|done|lia|].
    - split; [exact Wb|]. cbn. destruct S2 as [_ ?]. lia.
    - intros c Hd Hg. apply (Hcall c Hd). unfold get8 in Hg |- *. rewrite Ecb in Hg by done.
      destruct (_ || _) eqn:E in Hg; [done|]. destruct (_ || _) eqn:E' in |- *; [|done].
      destruct (out_buf o !! _) eqn:E3 in Hg; [|done]. apply lookup_lt_Some in E3. unfold zlen in E'. exfalso.
      apply orb_true_iff in E' as [E'|E']; [apply Z.ltb_lt in E'|apply Z.leb_le in E']; lia. }
  intros raw3 now rx fdA Hh3. destruct (frame_buffered _ o2 g raw3 now rx fdA Ho2 Fg Hh3) as (m3 & E3 & _ & R3 & Sm3).
  pose proof (raw_of_frame _ o2 g raw3 Ho2 Fg Hh3) as Ro3. exists m3. split.
  { rewrite E3. do 2 f_equal. rewrite (raw_slot o2 raw3.1 Ho2 Ro3). unfold slot_of, call_byte. cbn.
    change (TP_HDR_LEN + o_flags) with 242. rewrite Hc. cbn. destruct (Z.leb_spec (out_d1 o) 0); [done|]. by rewrite Ecb. }
  destruct Sm3 as [Q1 Q2 Q3 Q4 Q5 [Q6 Q7] _ Q8 Q9]. cbn in *. split; [done|by rewrite Q3, Q4, Q5, El| |].
  - eexists _, _. split; [exact Q2|]. split; [exact Q6|]. split; [lia|].
    split; [pose proof (ro_total _ _ Ro3) as Hz3; cbn in Hz3; lia|]. rewrite El in Q7. rewrite Q7. split.
    + rewrite K by lia. exact Ed.
    + rewrite Q9. offsets. rewrite Kb by lia. apply (ro_head _ _ Ro); lia.
  - unfold xact_bytes. rewrite Q2, (rb_xact _ _ _ R3). cbn [deref mbind comp_bind]. offsets.
    pose proof (ro_total _ _ Ro3) as Hz3. cbn in Hz3. change (62 <? 0) with false. cbn [orb].
    destruct (Z.ltb_spec (zlen raw3.1) 94) as [?|_]; [lia|]. f_equal. rewrite (Q8 : slice raw3.1 62 32 = slice b 62 32). rewrite Kb by lia.
    apply (ro_ids _ _ Ro); lia.
Qed.
End roundtrip.

Section call_trip.
Context {TH TE N : Type} `{Symbols TH thing} `{Symbols TE nat} `{Transport N}.
Variable malloc_bytes : Z -> list Z.
Hypothesis malloc_len : forall n, 0 <= n -> zlen (malloc_bytes n) = n.
Variable gethostbyname : list Z -> option (list Z).
Implicit Types (sc : send_ctx TH TE N) (m : mbuf) (n : N).

(** A message as a call sends it. *)
Lemma mark_call_spec m buf tr d1 d2 room k :
  sendable m buf tr d1 d2 room -> Forall is_byte buf -> 0 < d1 -> 0 <= k < 256 ->
  exists b, mark_call m k = Ret (set_flags (Z.lor (m_flags m) MFL_NOALLOC) (set_tp_buf (Some b) m)) /\
    sendable (set_flags (Z.lor (m_flags m) MFL_NOALLOC) (set_tp_buf (Some b) m)) b tr d1 d2 room /\
    zlen b = zlen buf /\ slot_of b tr d1 = 0 /\ b !! Z.to_nat (330 + tr) = Some k /\
    slice b 62 32 = slice buf 62 32.
Proof.
  intros [W Hfit] Hb Hd Hk. pose proof (mw_layout _ _ _ _ _ _ W) as L.
  pose proof (ml_len _ _ _ _ _ L). pose proof (ml_sz _ _ _ _ _ L).
  unfold mark_call. rewrite (mw_hdr _ _ _ _ _ _ W), (mw_buf _ _ _ _ _ _ W). cbn [deref mbind comp_bind].
  destruct (get8_total buf (TP_HDR_LEN + o_flags + 3)) as [c ->]; [offsets; lia|]. cbn [mbind comp_bind].
  change (TP_HDR_LEN + o_flags) with 242. set (v := Z.lor (load32 buf 242) _).
  assert (0 <= v < 2 ^ 32) as Hv.
  { unfold v. pose proof (load32_range_bytes buf 242 Hb) as Hl. split; [apply Z.lor_nonneg; unfold HFL_CALL_MSG; lia|].
    destruct (Z.eq_dec (Z.lor (load32 buf 242) HFL_CALL_MSG) 0) as [->|]; [lia|].
    apply Z.log2_lt_pow2; [assert (0 <= Z.lor (load32 buf 242) HFL_CALL_MSG) by (apply Z.lor_nonneg; unfold HFL_CALL_MSG; lia); lia|].
    rewrite Z.log2_lor by (unfold HFL_CALL_MSG; lia). apply Z.max_lub_lt; [|reflexivity].
    destruct (Z.eq_dec (load32 buf 242) 0) as [->|]; [reflexivity|]. apply Z.log2_lt_pow2; lia. }
  assert (zlen (le_bytes 4 v) = 4) as Ev by (unfold zlen; by rewrite length_le_bytes).
  destruct (put_ex buf 242 (le_bytes 4 v)) as (b1 & -> & S1 & F1); [lia|lia|]. rewrite Ev in *. cbn [mbind comp_bind].
  pose proof (layout_framed _ _ _ _ _ _ _ _ L F1 ltac:(lia)) as L1. rewrite (data1_addr_layout L1). cbn [mbind comp_bind].
  unfold D1_CALLID_IDX. rewrite Z.add_0_r. rewrite (proj2 (conj I (Z.mod_small k 256 Hk)) : u8 k = k).
  destruct (put_ex b1 (330 + tr) [k]) as (b2 & -> & S2 & F2); [lia|rewrite (proj1 F1); change (zlen [k]) with 1; lia|].
  change (zlen [k]) with 1 in *. cbn [mbind comp_bind]. exists b2. split; [done|].
  pose proof (wf_framed _ _ _ _ _ _ _ _ _ (wf_framed _ _ _ _ _ _ _ _ _ W F1 ltac:(lia)) F2 ltac:(lia)) as W2.
  split; [split; [by destruct W2|cbn; rewrite (proj1 F2), (proj1 F1); lia]|].
  split; [by rewrite (proj1 F2), (proj1 F1)|]. split; [|split].
  - unfold slot_of. change (TP_HDR_LEN + o_flags) with 242. unfold load32. rewrite (proj2 F2) by lia. rewrite S1, le_val_bytes.
    change (256 ^ Z.of_nat 4) with (2 ^ 32). rewrite Z.mod_small by done. unfold v. rewrite Z.land_lor_distr_l.
    destruct (Z.eqb_spec (Z.lor (Z.land (load32 buf 242) HFL_CALL_MSG) (Z.land HFL_CALL_MSG HFL_CALL_MSG)) 0) as [E|_]; [|done].
    apply Z.lor_eq_0_iff in E as [_ E]. discriminate E.
  - assert (slice b2 (330 + tr) 1 !! 0%nat = Some k) as E by (by rewrite S2). rewrite slice_lookup, decide_True in E by lia.
    rewrite <-E. f_equal. lia.
  - rewrite (proj2 F2), (proj2 F1) by lia. done.
Qed.

(** A message answered in the buffer it came in keeps the requester's ids: what
    the answering application sends back with rmr_rts_msg reaches the requester
    as one message with the answer's type and payload and the request's
    transaction id and meid. *)
Theorem answer_keeps_the_ids mctx o f raw nowB rxB fdB :
  wire_ok o -> Z.land (m_flags (out_msg o)) MFL_ADDSRC <> 0 -> frame_of mctx o f ->
  holds f raw -> zlen raw.1 <= INT_MAX - 128 ->
  exists m, buf2mbuf nowB rxB raw.1 raw.2 fdB =
      Ret (deliver_to nowB rxB m (slot_of (out_buf o) (out_tr o) (out_d1 o))) /\
    same_message (out_msg o) (out_buf o) (out_tr o) (out_d1 o) (out_d2 o) m raw.1 /\
    forall data m2 raw2 sc ep sc1 fd,
      answers m raw.1 (330 + out_tr o + out_d1 o + out_d2 o) data m2 raw2 ->
      can_answer gethostbyname sc m2 (take 63 (x_my_name mctx)) (out_tr o) ep sc1 fd ->
      exists g m4 sc', rmr_rts_msg malloc_bytes gethostbyname (Some sc) (Some m2) = Ret (Some m4, Some sc') /\
        zlen g = 330 + out_tr o + out_d1 o + out_d2 o + zlen data /\
        (m_state m4 = RMR_OK -> tp_wire (sc_net sc') fd = tp_wire (sc_net sc1) fd ++ g) /\
        forall raw3 now rx fdA, holds g raw3 -> exists m3,
          buf2mbuf now rx raw3.1 raw3.2 fdA = Ret (deliver_to now rx m3 (call_byte (out_buf o) (out_tr o) (out_d1 o))) /\
          answered o m2 data m3.
Proof.
  intros Ho Hsrc F Hh Hz. destruct (frame_buffered mctx o f raw nowB rxB fdB Ho F Hh) as (m & E & _ & R & Sm).
  exists m. split; [by rewrite E, (raw_slot o raw.1 Ho (raw_of_frame mctx o f raw Ho F Hh))|]. split; [done|].
  intros data m2 raw2 sc ep sc1 fd An Ca.
  by apply (answer_arrives malloc_bytes malloc_len gethostbyname mctx o f raw m fdB data m2 raw2 sc ep sc1 fd).
Qed.

(** C11.  A call is answered, end to end.  The request goes out with the call's
    number in it and is queued for the other program like any message; when that
    program puts its answer into the buffer and returns it, the frame it sends
    lands in the requester's chute of that number, and the waiting call gives the
    application that answer: state RMR_OK, the answer's type, length and payload,
    the request's transaction id and meid.  The chute is free again. *)
Theorem call_is_answered flags sc rx m buf tr d1 d2 room k ep expect sc' rx1 rx_sent pre :
  let i := Z.to_nat k in
  Z.land flags CFL_MTC_ENABLED <> 0 -> sendable m buf tr d1 d2 room -> Forall is_byte buf -> zlen buf <= INT_MAX - 128 ->
  in_i32 (m_mtype m) /\ in_i32 (m_sub_id m) -> Z.land (m_flags m) MFL_ADDSRC <> 0 -> 0 < d1 -> 0 < k < 256 ->
  call_sent malloc_bytes sc rx m k ep expect sc' rx1 ->
  chute_empty (rx_sent rx1) i -> Forall (keeps_waiting i expect) pre ->
  exists m1 b, mark_call m k = Ret m1 /\ sendable m1 b tr d1 d2 room /\
    forall mctx f raw nowB rxB fdB, sent_frame mctx m1 b tr d1 d2 f -> holds f raw -> zlen raw.1 <= INT_MAX - 128 ->
    exists mB, buf2mbuf nowB rxB raw.1 raw.2 fdB = Ret (queue_normal nowB rxB mB) /\
      forall data m2 raw2 (scB : send_ctx TH TE N) epB scB1 fd,
        answers mB raw.1 (330 + tr + d1 + d2) data m2 raw2 ->
        can_answer gethostbyname scB m2 (take 63 (x_my_name mctx)) tr epB scB1 fd ->
        exists g m4 scB', rmr_rts_msg malloc_bytes gethostbyname (Some scB) (Some m2) = Ret (Some m4, Some scB') /\
          zlen g = 330 + tr + d1 + d2 + zlen data /\
          (m_state m4 = RMR_OK -> tp_wire (sc_net scB') fd = tp_wire (sc_net scB1) fd ++ g) /\
          forall raw3 now rxw c fdA ws, holds g raw3 -> rx_chutes rxw !! i = Some c -> ch_expect c = expect ->
            exists ans rxA, buf2mbuf now rxw raw3.1 raw3.2 fdA = Ret rxA /\ answered (MkOut m1 b tr d1 d2 room) m2 data ans /\
              mt_call malloc_bytes flags (Some (sc, rx)) (Some m) k ep rx_sent (pre ++ MkWait 0 rxA :: ws) =
                Ret (Some (Some ans, 0, Some (sc', put_chute rxA i (MkChute None (ch_barrier c + 1) expect)))).
Proof.
  intros i Hmt Sm Hb Hz Ht Hsrc Hd Hk Hs He Hp.
  destruct (mark_call_spec m buf tr d1 d2 room k Sm Hb Hd ltac:(lia)) as (b & Em & S2 & Zb & Hslot & Hcall & Hxid).
  set (o := MkOut (set_flags (Z.lor (m_flags m) MFL_NOALLOC) (set_tp_buf (Some b) m)) b tr d1 d2 room).
  assert (wire_ok o) as Ho.
  { split; cbn; [done|done|lia|]. intros c _ Hg. apply get8_some in Hg. rewrite Hcall in Hg. injection Hg as <-. lia. }
  exists (out_msg o), b. split; [done|]. split; [done|]. intros mctx f raw nowB rxB fdB F Hh Hzr.
  destruct (frame_buffered mctx o f raw nowB rxB fdB Ho F Hh) as (mB & E & _ & R & _). exists mB.
  split; [by rewrite E, (raw_slot o raw.1 Ho (raw_of_frame mctx o f raw Ho F Hh)), (Hslot : slot_of (out_buf o) (out_tr o) (out_d1 o) = 0)|].
  intros data m2 raw2 scB epB scB1 fd An Ca.
  destruct (answer_arrives malloc_bytes malloc_len gethostbyname mctx o f raw mB fdB data m2 raw2 scB epB scB1 fd)
    as (g & m4 & scB' & Er & Hzg & Hw & Harr); try done.
  { cbn. rewrite Z.land_lor_distr_l. intros E0. apply Z.lor_eq_0_iff in E0 as [E0 _]. done. }
  exists g, m4, scB'. split; [done|]. split; [exact Hzg|]. split; [done|]. intros raw3 now rxw c fdA ws Hg Hc Hx.
  destruct (Harr raw3 now rxw fdA Hg) as (m3 & E3 & A3). destruct A3 as [A1 A2 A4 A5].
  exists (set_state RMR_OK m3), (deliver_to now rxw m3 k). split; [|split].
  - rewrite E3. do 2 f_equal. unfold call_byte. cbn. rewrite Hcall. destruct (Z.leb_spec d1 0); [lia|done].
  - split; [done|exact A2|exact A4|exact A5].
  - pose proof (fun ws => mt_call_sent malloc_bytes flags sc rx m k ep expect sc' rx1 rx_sent ws Hmt Hs) as Hcs. fold i in Hcs.
    assert (rx_chutes (deliver_to now rxw m3 k) !! i = Some (MkChute (Some m3) (ch_barrier c + 1) (ch_expect c))) as Hch.
    { unfold deliver_to. rewrite (proj2 (Z.eqb_neq k 0)) by lia. cbn. fold i. by rewrite list_lookup_alter_eq, Hc. }
    assert (xact_bytes m3 RMR_MAX_XID = Ret expect) as Ex.
    { rewrite A5. pose proof (cs_expect _ _ _ _ _ _ _ _ _ Hs) as Hce. unfold xact_bytes in Hce.
      rewrite (mw_buf _ _ _ _ _ _ (sd_wf _ _ _ _ _ _ Sm)), (mw_xact _ _ _ _ _ _ (sd_wf _ _ _ _ _ _ Sm)) in Hce.
      cbn [deref mbind comp_bind] in Hce. destruct (_ || _) in Hce; [done|]. injection Hce as <-. f_equal. exact Hxid. }
    rewrite Hcs, (call_wait_answer expect pre (MkWait 0 (deliver_to now rxw m3 k)) ws _ i
      (MkChute (Some m3) (ch_barrier c + 1) (ch_expect c)) m3 Hp He).
    2:{ unfold has_answer. cbn [w_rx]. split; [exact Hch|]. split; [exact Hx|]. split; [done|exact Ex]. }
    cbn [mbind comp_bind w_err w_rx]. unfold call_done. change (0 =? 0) with true. change (0 <? 0) with false. cbv iota.
    rewrite Hch. cbn [deref mbind comp_bind ch_mbuf ch_barrier ch_expect option_map]. rewrite Hx. done.
Qed.
End call_trip.

(** ** Witnesses *)

(** A message that has been received and is returned to host:4560. *)
Definition ex_src_msg : mbuf := add_src ex_msg.
Definition quiet_net : open_net := fun _ => [].

Lemma ex_src_sendable : sendable ex_src_msg ex_buf 20 4 0 100.
Proof. destruct ex_sendable as [[] ?]. by split. Qed.

Lemma ex_buf_bytes : Forall is_byte ex_buf.
Proof. apply (oo_bytes _ ex_out_ok). Qed.

Lemma ex_name_field : name_field ex_buf (TP_HDR_LEN + o_src) $"host:4560" /\ name_field ex_buf (TP_HDR_LEN + o_srcip) $"10.0.0.1:4560".
Proof. split; apply name_field_intro; vm_compute; done. Qed.

Lemma ex_byname : exists ep sc1,
  uta_epsock_byname (fun _ => None) (ex_sc quiet_net) $"host:4560" = Ret (Some 7, ep, sc1) /\ sc_net sc1 7 = [].
Proof.
  assert (match uta_epsock_byname (fun _ => None) (ex_sc quiet_net) $"host:4560" with
    | Ret (s, _, sc) => (s, sc_net sc 7) | UB => (None, []) end = (Some 7, [])) as E by (vm_compute; reflexivity).
  destruct (uta_epsock_byname _ _ _) as [[[sock ep] sc1]|]; [|discriminate E]. injection E as -> E. by exists ep, sc1.
Qed.

Lemma rts_answers_the_source_witness :
  exists f m' sc', answer_frame ctx0 ex_src_msg ex_buf 20 4 0 f /\
    rmr_rts_msg junk (fun _ => None) (Some (ex_sc quiet_net)) (Some ex_src_msg) = Ret (Some m', Some sc') /\
    sc_net sc' 7 = f /\ m_state m' = RMR_OK.
Proof.
  destruct ex_byname as (ep & sc1 & E & En).
  destruct (rts_answers_the_source junk junk_len (fun _ => None) (ex_sc quiet_net) ex_src_msg ex_buf 20 4 0 100
    $"host:4560" $"10.0.0.1:4560" (Some 7) ep sc1 7) as (f & m' & sc' & b' & A & Er & Hr).
  - split; [exact ex_src_sendable|apply ex_name_field|apply ex_name_field|exact ex_buf_bytes|reflexivity].
  - exact ex_reuse_ok.
  - exists ex_rt. reflexivity.
  - vm_compute. discriminate.
  - exact E.
  - reflexivity.
  - exists f, m', sc'. split; [exact A|]. split; [exact Er|]. cbn [tp_send open_transport] in Hr. cbv beta iota zeta in Hr.
    destruct (Hr ltac:(discriminate)) as (Hn & _ & _ & _ & _ & Hw & Hst & _). rewrite Hn. change (7 =? 7) with true. cbv iota. rewrite En.
    split; [reflexivity|exact Hst].
Defined.

(** A call with number 2 of that message, what it puts on the wire, and the
    answer of the other program. *)
Definition ex_call1 : mbuf := Eval vm_compute in comp_get mbuf0 (mark_call ex_src_msg 2).
Definition ex_call1_buf : list Z := Eval vm_compute in default [] (m_tp_buf ex_call1).
Definition ex_frame : list Z :=
  Eval vm_compute in slice (comp_get [] (b ← fill_send_header ctx0 ex_call1; insert_mlen 359 b)) 0 359.
Definition ex_reply_buf : list Z := Eval vm_compute in splice ex_frame 354 [7; 8; 9].
Definition ex_reply (m : mbuf) : mbuf :=
  MkMbuf 0 13 3 (m_payload m) (m_xaction m) (-1) 0 (Some ex_reply_buf) (m_header m) 0 (m_alloc_len m) (m_rts_fd m) 0.

Lemma ex_call1_mark : mark_call ex_src_msg 2 = Ret ex_call1.
Proof. vm_compute. reflexivity. Qed.

Lemma ex_sent_frame : sendable ex_call1 ex_call1_buf 20 4 0 100 -> sent_frame ctx0 ex_call1 ex_call1_buf 20 4 0 ex_frame.
Proof.
  intros Hs. destruct (send_frame_spec ctx0 ex_call1 ex_call1_buf 20 4 0 100 Hs) as (b & b' & E1 & _ & E2 & _ & F);
    [apply ex_reuse_ok..|].
  assert (comp_get [] (fill_send_header ctx0 ex_call1) = b) as Eb by (by rewrite E1).
  assert (comp_get [] (insert_mlen 359 (comp_get [] (fill_send_header ctx0 ex_call1))) = b') as Eb'
    by (rewrite Eb; change (insert_mlen 359 b) with (insert_mlen (330 + 20 + 4 + 0 + m_len ex_call1) b); by rewrite E2).
  assert (ex_frame = slice b' 0 (330 + 20 + 4 + 0 + m_len ex_call1)) as -> by (rewrite <-Eb'; vm_compute; reflexivity).
  exact F.
Qed.

Lemma ex_call1_sent : exists sc', call_sent junk (ex_sc quiet_net) rx0 ex_src_msg 2 (Some 7) ex_expect sc' ex_rx1.
Proof.
  destruct (mark_call_spec ex_src_msg ex_buf 20 4 0 100 2 ex_src_sendable ex_buf_bytes) as (b & Em & Hs & _); [lia|lia|].
  set (m1 := set_flags _ _) in *.
  destruct (send_msg_ref junk junk_len ctx0 quiet_net m1 b 20 4 0 100 7 (-1) Hs ex_reuse_ok) as (f & b' & _ & _ & E).
  change (Z.to_nat (attempts (-1) - 1)) with 0%nat in E. cbn -[send_msg] in E.
  eexists. split.
  - eexists. split; reflexivity.
  - vm_compute. reflexivity.
  - exists m1. split; [exact Em|]. unfold call_send. cbn [sc_mctx sc_net ex_sc]. rewrite E. reflexivity.
Qed.

Lemma ex_answers m : answers m ex_frame 354 [7; 8; 9] (ex_reply m) ex_reply_buf.
Proof.
  assert (ex_reply_buf = splice ex_frame 354 [7; 8; 9]) as E by (vm_compute; reflexivity).
  split; [done|done|split; [done|vm_compute; discriminate]|split; [done|]| |done|done].
  - rewrite E. apply framed_splice; vm_compute; discriminate.
  - apply (bool_decide_unpack (Forall (fun b => 0 <= b /\ b < 256) ex_reply_buf)). vm_compute. exact I.
Qed.

Lemma call_is_answered_witness :
  exists mB m4 scB' g rxA ans ctx', buf2mbuf 100 rx0 ex_frame 359 9 = Ret (queue_normal 100 rx0 mB) /\
    rmr_rts_msg junk (fun _ => None) (Some (ex_sc quiet_net)) (Some (ex_reply mB)) = Ret (Some m4, Some scB') /\
    buf2mbuf 100 ex_rx1 g 357 7 = Ret rxA /\
    mt_call junk 1 (Some (ex_sc quiet_net, rx0)) (Some ex_src_msg) 2 (Some 7) (fun rx => rx) [MkWait EINTR ex_rx1; MkWait 0 rxA] =
      Ret (Some (Some ans, 0, ctx')) /\ m_state ans = RMR_OK /\ m_mtype ans = 13 /\ m_len ans = 3.
Proof.
  destruct ex_call1_sent as [sc' Hs]. destruct ex_byname as (ep & sc1 & E & _).
  destruct (call_is_answered junk junk_len (fun _ => None) 1 (ex_sc quiet_net) rx0 ex_src_msg ex_buf 20 4 0 100 2 (Some 7)
    ex_expect sc' ex_rx1 (fun rx => rx) [MkWait EINTR ex_rx1]) as (m1 & b & Em & Hm1 & Htrip).
  - discriminate.
  - exact ex_src_sendable.
  - exact ex_buf_bytes.
  - vm_compute. discriminate.
  - vm_compute. repeat split; discriminate.
  - discriminate.
  - reflexivity.
  - split; reflexivity.
  - exact Hs.
  - eexists. split; reflexivity.
  - constructor; [|constructor]. eexists. split; [reflexivity|]. split; [reflexivity|]. right. reflexivity.
  - rewrite ex_call1_mark in Em. injection Em as <-. assert (b = ex_call1_buf) as ->.
    { pose proof (mw_buf _ _ _ _ _ _ (sd_wf _ _ _ _ _ _ Hm1)) as Hb. change (m_tp_buf ex_call1) with (Some ex_call1_buf) in Hb.
      injection Hb as <-. reflexivity. }
    destruct (Htrip ctx0 ex_frame (ex_frame, 359) 100 rx0 9 (ex_sent_frame Hm1)) as (mB & EB & Hans).
    + split; [reflexivity|]. split; [reflexivity|]. vm_compute. split; discriminate.
    + vm_compute. discriminate.
    + destruct (Hans [7; 8; 9] (ex_reply mB) ex_reply_buf (ex_sc quiet_net) ep sc1 7 (ex_answers mB))
        as (g & m4 & scB' & Er & Zg & _ & Hlast).
      * split; [split; [exact ex_reuse_ok|vm_compute; discriminate]|exists ex_rt; reflexivity|]. exists (Some 7).
        split; [exact E|reflexivity].
      * change (330 + 20 + 4 + 0 + zlen [7; 8; 9]) with 357 in Zg.
        destruct (Hlast (g, 357) 100 ex_rx1 (MkChute None 0 ex_expect) 7 []) as (ans & rxA & EA & Aw & Ec).
        -- split; [cbn; apply slice_all|]. cbn. rewrite Zg. split; [reflexivity|]. vm_compute. split; discriminate.
        -- reflexivity.
        -- reflexivity.
        -- exists mB, m4, scB', g, rxA, ans. eexists. split; [exact EB|]. split; [exact Er|]. split; [exact EA|].
           split; [exact Ec|]. destruct Aw as [A1 A2 _ _]. split; [exact A1|]. injection A2 as A2 _ A3. split; [exact A2|exact A3].
Defined.
