(* ===== verification/MsgTypes.v ===== *)
(** The message type constants: src/src/rmr/common/include/RIC_message_types.h.

    The tables have the constants in the order of the header.  The theorems check
    the rules the header states for itself (numerical order, no duplicates,
    reserved ranges) and what they are for: no two of the types share a route. *)

From S2P Require Import Prelude Bytes Symtab SymIface Tools Ring Mbuf Endpoint River RouteTable Send SendSpec Fanout MtCall RtcSpec RtsSpec Rtc.

(** Not routable: the type of a message that was just allocated. *)
Definition undefined_type : list (string * Z) := [
  ("RIC_UNDEFINED"%string, (-1))
].

(** 0 to 99: the types RMR itself uses. *)
Definition rmr_types : list (string * Z) := [
  ("RMRRM_TABLE_DATA"%string, 20);
  ("RMRRM_REQ_TABLE"%string, 21);
  ("RMRRM_TABLE_STATE"%string, 22)
].

(** 100 to 299: health checks, alarms and metrics. *)
Definition system_types : list (string * Z) := [
  ("RIC_HEALTH_CHECK_REQ"%string, 100);
  ("RIC_HEALTH_CHECK_RESP"%string, 101);
  ("RIC_ALARM"%string, 110);
  ("RIC_ALARM_QUERY"%string, 111);
  ("RIC_METRICS"%string, 120)
].

(** SCTP, E2 termination and RAN state. *)
Definition setup_types : list (string * Z) := [
  ("RIC_SCTP_CONNECTION_FAILURE"%string, 1080);
  ("RIC_SCTP_CLEAR_ALL"%string, 1090);
  ("E2_TERM_INIT"%string, 1100);
  ("E2_TERM_KEEP_ALIVE_REQ"%string, 1101);
  ("E2_TERM_KEEP_ALIVE_RESP"%string, 1102);
  ("RAN_CONNECTED"%string, 1200);
  ("RAN_RESTARTED"%string, 1210);
  ("RAN_RECONFIGURED"%string, 1220)
].

(** 10020 to 10450: X2. *)
Definition x2_types : list (string * Z) := [
  ("RIC_ENB_LOAD_INFORMATION"%string, 10020);
  ("RIC_ERROR_INDICATION"%string, 10030);
  ("RIC_SN_STATUS_TRANSFER"%string, 10040);
  ("RIC_UE_CONTEXT_RELEASE"%string, 10050);
  ("RIC_X2_SETUP_REQ"%string, 10060);
  ("RIC_X2_SETUP_RESP"%string, 10061);
  ("RIC_X2_SETUP_FAILURE"%string, 10062);
  ("RIC_X2_RESET"%string, 10070);
  ("RIC_X2_RESET_RESP"%string, 10071);
  ("RIC_ENB_CONF_UPDATE"%string, 10080);
  ("RIC_ENB_CONF_UPDATE_ACK"%string, 10081);
  ("RIC_ENB_CONF_UPDATE_FAILURE"%string, 10082);
  ("RIC_RES_STATUS_REQ"%string, 10090);
  ("RIC_RES_STATUS_RESP"%string, 10091);
  ("RIC_RES_STATUS_FAILURE"%string, 10092);
  ("RIC_RESOURCE_STATUS_UPDATE"%string, 10100);
  ("RIC_SGNB_ADDITION_REQ"%string, 10270);
  ("RIC_SGNB_ADDITION_ACK"%string, 10271);
  ("RIC_SGNB_ADDITION_REJECT"%string, 10272);
  ("RIC_SGNB_RECONF_COMPLETE"%string, 10280);
  ("RIC_SGNB_MOD_REQUEST"%string, 10290);
  ("RIC_SGNB_MOD_REQUEST_ACK"%string, 10291);
  ("RIC_SGNB_MOD_REQUEST_REJ"%string, 10292);
  ("RIC_SGNB_MOD_REQUIRED"%string, 10300);
  ("RIC_SGNB_MOD_CONFIRM"%string, 10301);
  ("RIC_SGNB_MOD_REFUSE"%string, 10302);
  ("RIC_SGNB_RELEASE_REQUEST"%string, 10310);
  ("RIC_SGNB_RELEASE_REQUEST_ACK"%string, 10311);
  ("RIC_SGNB_RELEASE_REQUIRED"%string, 10320);
  ("RIC_SGNB_RELEASE_CONFIRM"%string, 10321);
  ("RIC_RRC_TRANSFER"%string, 10350);
  ("RIC_ENDC_X2_SETUP_REQ"%string, 10360);
  ("RIC_ENDC_X2_SETUP_RESP"%string, 10361);
  ("RIC_ENDC_X2_SETUP_FAILURE"%string, 10362);
  ("RIC_ENDC_CONF_UPDATE"%string, 10370);
  ("RIC_ENDC_CONF_UPDATE_ACK"%string, 10371);
  ("RIC_ENDC_CONF_UPDATE_FAILURE"%string, 10372);
  ("RIC_SECONDARY_RAT_DATA_USAGE_REPORT"%string, 10380);
  ("RIC_GNB_STATUS_INDICATION"%string, 10450)
].

(** 12001 to 12072: E2. *)
Definition e2_types : list (string * Z) := [
  ("RIC_E2_SETUP_REQ"%string, 12001);
  ("RIC_E2_SETUP_RESP"%string, 12002);
  ("RIC_E2_SETUP_FAILURE"%string, 12003);
  ("RIC_E2_RESET_REQ"%string, 12004);
  ("RIC_E2_RESET_RESP"%string, 12005);
  ("RIC_E2_RAN_ERROR_INDICATION"%string, 12006);
  ("RIC_E2_RIC_ERROR_INDICATION"%string, 12007);
  ("RAN_E2_RESET_REQ"%string, 12008);
  ("RAN_E2_RESET_RESP"%string, 12009);
  ("RIC_SUB_REQ"%string, 12010);
  ("RIC_SUB_RESP"%string, 12011);
  ("RIC_SUB_FAILURE"%string, 12012);
  ("RIC_SUB_DEL_REQ"%string, 12020);
  ("RIC_SUB_DEL_RESP"%string, 12021);
  ("RIC_SUB_DEL_FAILURE"%string, 12022);
  ("RIC_SUB_DEL_REQUIRED"%string, 12023);
  ("RIC_SERVICE_UPDATE"%string, 12030);
  ("RIC_SERVICE_UPDATE_ACK"%string, 12031);
  ("RIC_SERVICE_UPDATE_FAILURE"%string, 12032);
  ("RIC_CONTROL_REQ"%string, 12040);
  ("RIC_CONTROL_ACK"%string, 12041);
  ("RIC_CONTROL_FAILURE"%string, 12042);
  ("RIC_INDICATION"%string, 12050);
  ("RIC_SERVICE_QUERY"%string, 12060);
  ("RIC_E2NODE_CONFIG_UPDATE"%string, 12070);
  ("RIC_E2NODE_CONFIG_UPDATE_ACK"%string, 12071);
  ("RIC_E2NODE_CONFIG_UPDATE_FAILURE"%string, 12072)
].

(** 20000 to 20012: admission control and A1 policies. *)
Definition policy_types : list (string * Z) := [
  ("DC_ADM_INT_CONTROL"%string, 20000);
  ("DC_ADM_INT_CONTROL_ACK"%string, 20001);
  ("DC_ADM_GET_POLICY"%string, 20002);
  ("DC_ADM_GET_POLICY_ACK"%string, 20003);
  ("A1_POLICY_REQ"%string, 20010);
  ("A1_POLICY_RESP"%string, 20011);
  ("A1_POLICY_QUERY"%string, 20012)
].

(** 30000 to 39999: types of applications. *)
Definition application_types : list (string * Z) := [
  ("TS_UE_LIST"%string, 30000);
  ("TS_QOE_PRED_REQ"%string, 30001);
  ("TS_QOE_PREDICTION"%string, 30002);
  ("TS_ANOMALY_UPDATE"%string, 30003);
  ("TS_ANOMALY_ACK"%string, 30004);
  ("MC_REPORT"%string, 30010);
  ("DCAPTERM_RTPM_RMR_MSGTYPE"%string, 33001);
  ("DCAPTERM_GEO_RMR_MSGTYPE"%string, 33002)
].

(** The deprecated constants of release 0. *)
Definition old_types : list (string * Z) := [
  ("RIC_X2_SETUP"%string, 10000);
  ("RIC_X2_RESPONSE"%string, 10001);
  ("RIC_X2_RESOURCE_STATUS_REQUEST"%string, 10002);
  ("RIC_X2_RESOURCE_STATUS_RESPONSE"%string, 10003);
  ("RIC_X2_LOAD_INFORMATION"%string, 10004);
  ("RIC_E2_TERMINATION_HC_REQUEST"%string, 10005);
  ("RIC_E2_TERMINATION_HC_RESPONSE"%string, 10006);
  ("RIC_E2_MANAGER_HC_REQUEST"%string, 10007);
  ("RIC_E2_MANAGER_HC_RESPONSE"%string, 10008);
  ("RIC_CONTROL_XAPP_CONFIG_REQUEST"%string, 100000);
  ("RIC_CONTROL_XAPP_CONFIG_RESPONSE"%string, 100001)
].

Definition current_types : list (string * Z) :=
  undefined_type ++ rmr_types ++ system_types ++ setup_types ++ x2_types ++ e2_types ++ policy_types ++ application_types.
Definition ric_types : list (string * Z) := current_types ++ old_types.

Definition RIC_UNDEFINED : Z := -1.
Definition RIC_HEALTH_CHECK_REQ : Z := 100.
Definition RIC_HEALTH_CHECK_RESP : Z := 101.

(** The value of a name. *)
Fixpoint type_of (l : list (string * Z)) (name : string) : option Z :=
  match l with
  | [] => None
  | (n, v) :: l' => if String.eqb n name then Some v else type_of l' name
  end.

(** The header's own rules. *)
Definition in_range (lo hi : Z) (l : list (string * Z)) : bool := forallb (fun e => (lo <=? e.2) && (e.2 <=? hi)) l.

Fixpoint ascending (l : list (string * Z)) : bool :=
  match l with
  | a :: (b :: _) as l' => (a.2 <? b.2) && ascending l'
  | _ => true
  end.

Lemma ric_types_distinct : NoDup (map fst ric_types) /\ NoDup (map snd ric_types).
Proof. split; apply (bool_decide_unpack (NoDup _)); vm_compute; exact I. Qed.

Lemma type_of_in l name v : NoDup (map fst l) -> (name, v) ∈ l <-> type_of l name = Some v.
Proof.
  induction l as [|[n w] l IH]; cbn; intros Hnd; [split; [by intros ?%not_elem_of_nil|done]|].
  apply NoDup_cons in Hnd as [Hni Hnd]. rewrite elem_of_cons. destruct (String.eqb_spec n name) as [->|Hne].
  - split; [|intros [= ->]; by left]. intros [[= ->]|Hin]; [done|]. exfalso. apply Hni.
    apply list_elem_of_fmap. by exists (name, v).
  - rewrite <-(IH Hnd). split; [intros [[= ]|?]; [congruence|done]|by right].
Qed.

(** The constants follow the rules of the header: the ones in use are in
    numerical order, the reserved ranges hold what they are reserved for, and
    neither names nor values occur twice, the deprecated ones included.  The types
    the library itself handles are those of the header. *)
Theorem message_type_rules :
  ascending current_types = true /\ in_range 0 99 rmr_types = true /\ in_range 100 299 system_types = true /\
  in_range 30000 39999 application_types = true /\ NoDup (map fst ric_types) /\ NoDup (map snd ric_types) /\
  type_of ric_types "RMRRM_TABLE_DATA" = Some RMRRM_TABLE_DATA /\ type_of ric_types "RMRRM_REQ_TABLE" = Some RMRRM_REQ_TABLE /\
  type_of ric_types "RMRRM_TABLE_STATE" = Some RMRRM_TABLE_STATE /\ type_of ric_types "RIC_UNDEFINED" = Some UNSET_MSGTYPE /\
  type_of ric_types "RIC_ALARM" = Some RIC_ALARM.
Proof. split; [done|]. split; [done|]. split; [done|]. split; [done|]. split; [apply ric_types_distinct|]. split; [apply ric_types_distinct|]. done. Qed.

Lemma ric_types_range n v : (n, v) ∈ ric_types -> in_i32 v.
Proof.
  assert (forallb (fun e => (-2 ^ 31 <=? e.2) && (e.2 <? 2 ^ 31)) ric_types = true) as Hr by (vm_compute; reflexivity).
  rewrite forallb_forall in Hr. intros Hin. apply list_elem_of_In in Hin. specialize (Hr _ Hin). cbn in Hr.
  apply andb_true_iff in Hr as [H1%Z.leb_le H2%Z.ltb_lt]. by split.
Qed.

(** Two different types never share an entry of the route table, whatever the
    subscription ids are. *)
Theorem message_types_have_own_routes n1 v1 n2 v2 s1 s2 :
  (n1, v1) ∈ ric_types -> (n2, v2) ∈ ric_types -> in_i32 s1 -> in_i32 s2 ->
  build_rt_key s1 v1 = build_rt_key s2 v2 -> n1 = n2 /\ v1 = v2 /\ s1 = s2.
Proof.
  intros H1 H2 Hs1 Hs2 E. pose proof (ric_types_range _ _ H1) as R1. pose proof (ric_types_range _ _ H2) as R2.
  rewrite !build_rt_key_val in E by done.
  pose proof (u32_range v1). pose proof (u32_range v2).
  assert (u32 s1 = u32 s2 /\ u32 v1 = u32 v2) as [Es Ev] by nia.
  assert (v1 = v2) as -> by (rewrite <-(i32_u32 v1), <-(i32_u32 v2) by done; by rewrite Ev).
  assert (s1 = s2) as -> by (rewrite <-(i32_u32 s1), <-(i32_u32 s2) by done; by rewrite Es).
  split; [|done]. apply list_elem_of_lookup in H1 as [i Hi], H2 as [j Hj].
  assert (map snd ric_types !! i = Some v2 /\ map snd ric_types !! j = Some v2) as [Li Lj]
    by (rewrite !list_lookup_fmap, Hi, Hj; done).
  pose proof (proj1 (NoDup_alt _) (proj2 ric_types_distinct) i j v2 Li Lj) as ->. congruence.
Qed.

Lemma message_types_have_own_routes_witness : RIC_HEALTH_CHECK_REQ = 100 /\ RIC_HEALTH_CHECK_REQ = 100 /\ -1 = -1.
Proof.
  destruct (message_types_have_own_routes "RIC_HEALTH_CHECK_REQ" 100 "RIC_HEALTH_CHECK_REQ" 100 (-1) (-1)) as (_ & H2 & H3).
  - apply type_of_in; [apply ric_types_distinct|reflexivity].
  - apply type_of_in; [apply ric_types_distinct|reflexivity].
  - split; reflexivity || discriminate.
  - split; reflexivity || discriminate.
  - reflexivity.
  - split; [reflexivity|]. split; [exact H2|exact H3].
Defined.

(** The header says that a message of type RIC_UNDEFINED, passed to an RMR
    function, will not be sent; it is. *)
Definition untyped : mbuf :=
  MkMbuf 0 RIC_UNDEFINED 5 (m_payload ex_src_msg) (m_xaction ex_src_msg) (-1) 0 (Some ex_buf) (m_header ex_src_msg)
    (m_flags ex_src_msg) (m_alloc_len ex_src_msg) (-1) 18754.

Theorem undefined_type_is_sent :
  exists f m' sc', rmr_rts_msg junk (fun _ => None) (Some (ex_sc quiet_net)) (Some untyped) = Ret (Some m', Some sc') /\
    sc_net sc' 7 = f /\ m_state m' = RMR_OK /\ load32n f (TP_HDR_LEN + o_mtype) = u32 RIC_UNDEFINED.
Proof.
  destruct ex_byname as (ep & sc1 & E & En).
  destruct (rts_ref junk junk_len (fun _ => None) (ex_sc quiet_net) untyped ex_buf 20 4 0 100
    $"host:4560" $"10.0.0.1:4560" (Some 7) ep sc1 7) as (f & b & m' & sc' & b' & A & _ & _ & _ & Er & Hr).
  - split; [|apply ex_name_field|apply ex_name_field|exact ex_buf_bytes|reflexivity].
    split; [split; [reflexivity..|vm_compute; split; discriminate|apply (mw_layout _ _ _ _ _ _ (sd_wf _ _ _ _ _ _ ex_src_sendable))]|].
    vm_compute. split; discriminate.
  - exact ex_reuse_ok.
  - exists ex_rt. reflexivity.
  - vm_compute. discriminate.
  - exact E.
  - reflexivity.
  - exists f, m', sc'. split; [exact Er|]. cbn [tp_send open_transport] in Hr. cbv beta iota zeta in Hr.
    destruct Hr as (Hn & _ & _ & _ & _ & Hw & Hst & _). rewrite Hn. change (7 =? 7) with true. cbv iota. rewrite En.
    split; [reflexivity|]. split; [exact Hst|]. apply (af_fields _ _ _ _ _ _ _ A).
Qed.
