(* ===== verification/Probe.v ===== *)
(** The health check tool: src/src/support/rmr_probe.c.

    [main] from the command line to the exit status, on the context rmr_init
    gives it.  The clocks are a list of readings: every call of time() or of
    clock_gettime() takes the next one.  What the tool prints is a list of notes. *)

From S2P Require Import Prelude Bytes Symtab SymIface Tools Ring Mbuf Endpoint River RouteTable Send SendSpec Fanout MtCall Wormhole Decimal RtcSpec RtsSpec Rtc MsgTypes.

Definition MAX_MSG_SZ : Z := 2048.
Definition PAYLOAD_SZ : Z := 1024.

(** ** The clock *)

(** Micro-seconds between two readings of clock_gettime, seconds and nanoseconds. *)
Definition elapsed (start_ts end_ts : Z * Z) : Z :=
  let start := start_ts.1 * 1000000000 + start_ts.2 in
  let stop := end_ts.1 * 1000000000 + end_ts.2 in
  i32 (Z.quot (stop - start) 1000).

(** ** The command line *)

Record popts := MkPopts {
  po_target : list Z;
  po_num : Z;
  po_port : option (list Z);
  po_rand : bool;
  po_timeout : Z;
  po_verbose : bool
}.

Definition popts0 : popts := MkPopts $"localhost:4560" 1 None true 3 false.

Inductive parsed := POpts (o : popts) | PExit (status : Z).

(** The index is in range; otherwise the tool ends with status 1. *)
Definition vet_ai (ai argc : Z) : bool := (ai <? argc) && (0 <? ai).

Definition arg (argv : list (list Z)) (ai : Z) : list Z := default [] (argv !! Z.to_nat ai).

(** One turn of the argument loop: the options and the next index, or the end. *)
Definition parse_step (argv : list (list Z)) (o : popts) (ai : Z) : parsed + popts * Z :=
  let argc := zlen argv in
  let with_arg (f : list Z -> popts) := if vet_ai (ai + 1) argc then inr (f (arg argv (ai + 1)), ai + 2) else inl (PExit 1) in
  match arg argv ai with
  | 45 :: c =>
      match c with
      | 104 :: _ => with_arg (fun v => MkPopts v (po_num o) (po_port o) (po_rand o) (po_timeout o) (po_verbose o))
      | 110 :: _ => with_arg (fun v => MkPopts (po_target o) (atoi v) (po_port o) (po_rand o) (po_timeout o) (po_verbose o))
      | 112 :: _ => with_arg (fun v => MkPopts (po_target o) (po_num o) (Some v) (po_rand o) (po_timeout o) (po_verbose o))
      | 114 :: _ => inr (MkPopts (po_target o) (po_num o) (po_port o) false (po_timeout o) (po_verbose o), ai + 1)
      | 116 :: _ => with_arg (fun v => MkPopts (po_target o) (po_num o) (po_port o) (po_rand o) (atoi v) (po_verbose o))
      | 118 :: _ => inr (MkPopts (po_target o) (po_num o) (po_port o) (po_rand o) (po_timeout o) true, ai + 1)
      | 63 :: _ => inl (PExit 0)
      | _ => inl (PExit 1)
      end
  | _ => inl (POpts o)
  end.

(** [fuel]: one turn per argument suffices ([parse_args_total]). *)
Fixpoint parse_args (fuel : nat) (argv : list (list Z)) (o : popts) (ai : Z) : option parsed :=
  if ai <? zlen argv then
    match fuel with
    | O => None
    | S fuel' =>
        match parse_step argv o ai with
        | inl p => Some p
        | inr (o, ai) => parse_args fuel' argv o ai
        end
    end
  else Some (POpts o).

(** [rnd]: what rand() gives. *)
Definition probe_port (o : popts) (rnd : Z) : list Z :=
  match po_port o with
  | Some p => p
  | None => if po_rand o then snprintf MAX_MSG_SZ (decimal (43000 + Z.rem rnd 1000)) else $"43086"
  end.

(** ** Requests and responses *)

Definition request_text (count : Z) : list Z := $"health check request prev=" ++ decimal count ++ $" <eom>".

Definition probe_request (m : mbuf) (count : Z) : comp mbuf :=
  buf ← deref (m_tp_buf m);
  pay ← deref (m_payload m);
  buf ← put buf pay (snprintf (PAYLOAD_SZ - 1) (request_text count) ++ [0]);
  Ret (MkMbuf 0 RIC_HEALTH_CHECK_REQ PAYLOAD_SZ (m_payload m) (m_xaction m) (-1) (m_tp_state m) (Some buf) (m_header m)
         (m_flags m) (m_alloc_len m) (m_rts_fd m) (m_cookie m)).

Inductive note :=
| NGood (us : Z)               (* a response that starts with OK *)
| NWarn (text : list Z)        (* another response *)
| NBadType (mtype : Z)
| NTooFew (wanted got : Z)
| NSendFail (state : Z).

(** The string at the front of an array; reading past its end is undefined. *)
Definition str_in (l : list Z) : comp (list Z) := if bool_decide (0 ∈ l) then Ret (cstr_of l) else UB.

(** The work buffer: zeroed, then the payload copied.  The comparison with the
    size of the buffer is one of unsigned numbers. *)
Definition probe_wbuf (buf : list Z) (pay len : Z) : comp (list Z) :=
  let n := if MAX_MSG_SZ <? u64 len then MAX_MSG_SZ - 1 else len in
  memcpy (replicate (Z.to_nat MAX_MSG_SZ) 0) 0 buf pay n.

(** [strncmp( payload, "OK", 2 ) == 0] *)
Definition starts_ok (buf : list Z) (pay : Z) : comp bool :=
  b0 ← get8 buf pay;
  if b0 =? 79 then b1 ← get8 buf (pay + 1); Ret (b1 =? 75) else Ret false.

Definition probe_response (verbose : bool) (m : mbuf) (us : Z) : comp note :=
  if m_mtype m =? RIC_HEALTH_CHECK_RESP then
    buf ← deref (m_tp_buf m);
    pay ← deref (m_payload m);
    wbuf ← probe_wbuf buf pay (m_len m);
    _ ← (if verbose then str_in wbuf else Ret []);
    ok ← starts_ok buf pay;
    if ok : bool then Ret (NGood us) else t ← str_in wbuf; Ret (NWarn t)
  else Ret (NBadType (m_mtype m)).

Definition is_good (n : note) : bool := match n with NGood _ => true | _ => false end.

(** ** The loops *)

Section probe.
Context {TH TE N : Type} `{Symbols TH thing} `{Symbols TE nat} `{Transport N}.
Variable malloc_bytes : Z -> list Z.
Variable gethostbyname : list Z -> option (list Z).
Variable lk : bool.
Abbreviation whctx := (wh_ctx TH TE N).
Implicit Types (wx : whctx) (rx : rx_ctx) (m : mbuf).

(** A reading of the clocks: time(), and clock_gettime(). *)
Record tick := MkTick { tk_now : Z; tk_mono : Z * Z }.

(** The do loop that waits for a response: the message, the receive context, the
    time it came in, [now], and what is left of the clock and of the waits.
    [None]: still waiting when those end. *)
Fixpoint probe_wait (ts : list tick) rx m (expiry : Z) (ws : list wait_res) :
    comp (option (mbuf * rx_ctx * (Z * Z) * Z * list tick * list wait_res)) :=
  match ts with
  | t1 :: t2 :: ts' =>
      match rmr_torcv_msg lk (Some rx) (Some m) 250 ws with
      | Some (r, rx', ws') =>
          m' ← deref r;
          rx' ← deref rx';
          if (m_state m' =? RMR_ERR_TIMEOUT) && (tk_now t2 <? expiry)
          then probe_wait ts' rx' m' expiry ws'
          else Ret (Some (m', rx', tk_mono t1, tk_now t2, ts', ws'))
      | None => Ret None
      end
  | _ => Ret None
  end.

(** The state of the main loop. *)
Record pstate := MkPs { p_wx : whctx; p_rx : rx_ctx; p_mbuf : mbuf; p_now : Z; p_count : Z; p_good : Z;
  p_ts : list tick; p_ws : list wait_res }.

(** One turn: the note, and the next state unless the loop is left. *)
Definition probe_turn (o : popts) (whid expiry : Z) (s : pstate) : comp (option (note * option pstate)) :=
  m ← probe_request (p_mbuf s) (p_count s);
  match p_ts s with
  | [] => Ret None
  | t0 :: ts =>
      '(r, wx) ← rmr_wh_send_msg malloc_bytes gethostbyname (Some (p_wx s)) whid (Some m);
      m ← deref r;
      wx ← deref wx;
      if m_state m =? RMR_OK then
        x ← probe_wait ts (p_rx s) m expiry (p_ws s);
        match x with
        | None => Ret None
        | Some (m, rx, in_ts, now, ts, ws) =>
            if m_state m =? RMR_OK then
              note ← probe_response (po_verbose o) m (elapsed (tk_mono t0) in_ts);
              match ts with
              | [] => Ret None
              | t :: ts => Ret (Some (note, Some (MkPs wx rx m (tk_now t) (p_count s + 1)
                                 (if is_good note then p_good s + 1 else p_good s) ts ws)))
              end
            else Ret (Some (NTooFew (po_num o) (p_count s), None))
        end
      else Ret (Some (NSendFail (m_state m), None))
  end.

(** The number of good responses and the notes.  [fuel]: the number of messages. *)
Fixpoint probe_loop (fuel : nat) (o : popts) (whid expiry : Z) (s : pstate) : comp (option (Z * list note)) :=
  if (p_count s <? po_num o) && (p_now s <? expiry) then
    match fuel with
    | O => Ret None
    | S fuel' =>
        x ← probe_turn o whid expiry s;
        match x with
        | None => Ret None
        | Some (n, None) => Ret (Some (p_good s, [n]))
        | Some (n, Some s') =>
            y ← probe_loop fuel' o whid expiry s';
            Ret (match y with Some (g, ns) => Some (g, n :: ns) | None => None end)
        end
    end
  else Ret (Some (p_good s, [])).

(** The session, once RMR is ready: the exit status and the notes.  The wormhole is
    closed last, when nothing is sent any more. *)
Definition probe_session (o : popts) wx rx (m : mbuf) (ts : list tick) (ws : list wait_res) : comp (option (Z * list note)) :=
  let '(whid, wx) := rmr_wh_open gethostbyname (Some wx) (po_target o) in
  wx ← deref wx;
  if whid <? 0 then Ret (Some (1, [])) else
  match ts with
  | [] => Ret None
  | t :: ts =>
      x ← probe_loop (Z.to_nat (po_num o)) o whid (tk_now t + po_timeout o) (MkPs wx rx m (tk_now t) 0 0 ts ws);
      Ret (match x with
           | Some (good, notes) => Some (if good =? 0 then 1 else 0, notes)
           | None => None
           end)
  end.

(** The whole program: the context is what rmr_init gives, [m] what
    rmr_alloc_msg( mrc, MAX_MSG_SZ ) gives. *)
Definition probe_main (argv : list (list Z)) (wx : option whctx) rx (m : option mbuf) (ts : list tick) (ws : list wait_res) :
    comp (option (Z * list note)) :=
  match parse_args (length argv) argv popts0 1 with
  | None => Ret None
  | Some (PExit st) => Ret (Some (st, []))
  | Some (POpts o) =>
      match wx with
      | None => Ret (Some (1, []))
      | Some wx =>
          match m with
          | Some m => probe_session o wx rx m ts ws
          | None => Ret (Some (1, []))          (* not connected, nil message, or nothing sent *)
          end
      end
  end.
End probe.

(** ** Theorems *)

(** The elapsed time is exact, rounded down, up to 35 minutes. *)
Theorem elapsed_exact start stop :
  let ns (t : Z * Z) := t.1 * 1000000000 + t.2 in
  ns start <= ns stop -> ns stop - ns start < 2 ^ 31 * 1000 ->
  1000 * elapsed start stop <= ns stop - ns start < 1000 * (elapsed start stop + 1).
Proof.
  intros ns Hle Hlt. unfold elapsed. fold (ns start). fold (ns stop). cbv zeta.
  rewrite Z.quot_div_nonneg by lia. set (d := ns stop - ns start) in *.
  pose proof (Z.div_mod d 1000 ltac:(done)). pose proof (Z.mod_pos_bound d 1000 ltac:(lia)).
  rewrite i32_id by (split; nia). lia.
Qed.

Lemma elapsed_exact_witness : 1000 * elapsed (5, 999999999) (7, 1500) <= 1000001501 < 1000 * (elapsed (5, 999999999) (7, 1500) + 1).
Proof. apply (elapsed_exact (5, 999999999) (7, 1500)); vm_compute; discriminate || reflexivity. Defined.

Lemma parse_step_next argv o ai o' ai' : parse_step argv o ai = inr (o', ai') -> ai < ai'.
Proof.
  unfold parse_step. cbv zeta. intros E.
  repeat (case_match; try discriminate E; try (injection E as _ <-; lia)).
Qed.

(** The argument loop ends, for any command line. *)
Theorem parse_args_total argv o ai fuel : zlen argv - ai <= Z.of_nat fuel -> is_Some (parse_args fuel argv o ai).
Proof.
  revert o ai. induction fuel as [|fuel IH]; intros o ai Hf; cbn [parse_args]; destruct (Z.ltb_spec ai (zlen argv)); try by eexists.
  - lia.
  - destruct (parse_step argv o ai) as [p|[o' ai']] eqn:E; [by eexists|]. apply parse_step_next in E. apply IH. lia.
Qed.

Lemma parse_args_total_witness : is_Some (parse_args 3 [$"probe"; $"-n"; $"5"] popts0 1).
Proof. apply (parse_args_total [$"probe"; $"-n"; $"5"] popts0 1 3). vm_compute. discriminate. Defined.

(** The command line that stands for options. *)
Definition show_opts (o : popts) : list (list Z) :=
  [$"-h"; po_target o; $"-n"; decimal (po_num o); $"-t"; decimal (po_timeout o)] ++
  (match po_port o with Some p => [$"-p"; p] | None => [] end) ++
  (if po_rand o then [] else [$"-r"]) ++ (if po_verbose o then [$"-v"] else []).

(** The options given on a command line are the options used. *)
Theorem parse_args_shown o prog : in_i32 (po_num o) -> in_i32 (po_timeout o) ->
  parse_args (length (prog :: show_opts o)) (prog :: show_opts o) popts0 1 = Some (POpts o).
Proof.
  destruct o as [target num port rand timeout verbose]. cbn [po_num po_timeout]. intros Hn Ht.
  unfold show_opts. cbn [po_target po_num po_port po_rand po_timeout po_verbose].
  pose proof (atoi_decimal num Hn) as En. pose proof (atoi_decimal timeout Ht) as Et.
  set (dn := decimal num) in *. set (dt := decimal timeout) in *. clearbody dn dt.
  destruct port as [port|], rand, verbose; cbv -[atoi]; rewrite ?En, ?Et; reflexivity.
Qed.

Lemma parse_args_shown_witness : parse_args 9 [$"probe"; $"-h"; $"xapp:4560"; $"-n"; $"3"; $"-t"; $"7"; $"-r"; $"-v"] popts0 1 =
  Some (POpts (MkPopts $"xapp:4560" 3 None false 7 true)).
Proof. apply (parse_args_shown (MkPopts $"xapp:4560" 3 None false 7 true) $"probe"); split; vm_compute; discriminate || reflexivity. Defined.

Definition goods (ns : list note) : Z := zlen (List.filter is_good ns).

Lemma goods_cons n ns : goods (n :: ns) = (if is_good n then 1 else 0) + goods ns.
Proof. unfold goods, zlen. cbn. destruct (is_good n); cbn; lia. Qed.

Lemma goods_pos ns : goods ns <> 0 <-> Exists (fun n => is_good n = true) ns.
Proof.
  induction ns as [|n ns IH]; [split; [done|by intros ?%Exists_nil]|]. rewrite goods_cons, Exists_cons, <-IH.
  assert (0 <= goods ns) by apply zlen_nonneg. destruct (is_good n); [|split; [intros; right; lia|intros [?|?]; [done|lia]]].
  split; [by left|lia].
Qed.

Section probe_thms.
Context {TH TE N : Type} `{Symbols TH thing} `{Symbols TE nat} `{Transport N}.
Variable malloc_bytes : Z -> list Z.
Variable gethostbyname : list Z -> option (list Z).
Variable lk : bool.
Implicit Types (s : pstate (TH := TH) (TE := TE) (N := N)).

Lemma probe_turn_counts o whid expiry s n next :
  probe_turn malloc_bytes gethostbyname lk o whid expiry s = Ret (Some (n, next)) ->
  match next with
  | Some s' => p_count s' = p_count s + 1 /\ p_good s' = p_good s + if is_good n then 1 else 0
  | None => is_good n = false
  end.
Proof.
  unfold probe_turn. intros E. apply comp_bind_ret in E as (m & _ & E). destruct (p_ts s) as [|t0 ts]; [done|].
  apply comp_bind_ret in E as ([r wx] & _ & E). apply comp_bind_ret in E as (m' & _ & E). apply comp_bind_ret in E as (wx' & _ & E).
  destruct (m_state m' =? RMR_OK); [|by injection E as <- <-].
  apply comp_bind_ret in E as (x & _ & E). destruct x as [[[[[[m2 rx] in_ts] now] ts'] ws]|]; [|done].
  destruct (m_state m2 =? RMR_OK); [|by injection E as <- <-].
  apply comp_bind_ret in E as (nt & _ & E). destruct ts' as [|t ts']; [done|]. injection E as <- <-. cbn.
  split; [done|]. destruct (is_good nt); lia.
Qed.

Lemma probe_loop_counts fuel o whid expiry s g ns :
  probe_loop malloc_bytes gethostbyname lk fuel o whid expiry s = Ret (Some (g, ns)) ->
  g = p_good s + goods ns /\ zlen ns <= Z.max 0 (po_num o - p_count s).
Proof.
  revert s g ns. induction fuel as [|fuel IH]; intros s g ns; cbn [probe_loop];
    (destruct (_ && _) eqn:Ec; [|intros [= <- <-]; unfold goods, zlen; cbn; lia]); [done|].
  apply andb_true_iff in Ec as [Ec%Z.ltb_lt _]. intros E. apply comp_bind_ret in E as (x & Ex & E).
  destruct x as [[n next]|]; [|done]. apply probe_turn_counts in Ex. destruct next as [s'|].
  - destruct Ex as [Ecnt Eg]. apply comp_bind_ret in E as (y & Ey & E). destruct y as [[g' ns']|]; [|done]. injection E as <- <-.
    apply IH in Ey as [-> Hlen]. rewrite goods_cons, Eg. split; [lia|]. unfold zlen in *. cbn [length]. lia.
  - injection E as <- <-. rewrite goods_cons, Ex. unfold goods, zlen. cbn. lia.
Qed.

(** The loop needs no more turns than messages are to be sent. *)
Theorem probe_loop_fuel o whid expiry s fuel k :
  po_num o - p_count s <= Z.of_nat fuel ->
  probe_loop malloc_bytes gethostbyname lk (fuel + k) o whid expiry s = probe_loop malloc_bytes gethostbyname lk fuel o whid expiry s.
Proof.
  revert s. induction fuel as [|fuel IH]; intros s Hf.
  - cbn [Nat.add]. destruct k as [|k]; [done|]. cbn [probe_loop]. destruct (Z.ltb_spec (p_count s) (po_num o)); [lia|done].
  - cbn [Nat.add probe_loop]. destruct (_ && _); [|done].
    destruct (probe_turn malloc_bytes gethostbyname lk o whid expiry s) as [[[n [s'|]]|]|] eqn:Et; try done.
    cbn [mbind comp_bind]. apply probe_turn_counts in Et as [Ec _]. by rewrite IH by lia.
Qed.

(** The exit status of the probe is 0 exactly when at least one response
    started with OK: the other responses, and messages that were not answered,
    are printed but do not change it.  There is at most one note per message that
    was to be sent. *)
Theorem probe_exit_status o (wx : wh_ctx TH TE N) rx m ts ws st notes :
  0 <= po_num o -> probe_session malloc_bytes gethostbyname lk o wx rx m ts ws = Ret (Some (st, notes)) ->
  (st = 0 <-> Exists (fun n => is_good n = true) notes) /\ (st = 0 \/ st = 1) /\ zlen notes <= po_num o.
Proof.
  intros Hn. unfold probe_session. destruct (rmr_wh_open gethostbyname (Some wx) (po_target o)) as [whid wx'].
  intros E. apply comp_bind_ret in E as (wx1 & _ & E). rewrite <-goods_pos.
  destruct (whid <? 0); [injection E as <- <-; split; [by split|split; [by right|exact Hn]]|].
  destruct ts as [|t ts]; [done|]. apply comp_bind_ret in E as (x & Ex & E). destruct x as [[g ns]|]; [|done].
  injection E as <- <-. apply probe_loop_counts in Ex as [-> Hlen]. cbn in Hlen. change (p_good _) with 0. rewrite Z.add_0_l.
  destruct (Z.eqb_spec (goods ns) 0); (split; [split; intros; lia|split; [|lia]]); auto.
Qed.
End probe_thms.

(** ** Responses *)

Lemma cstr_of_app_front s r : cstr_of (s ++ 0 :: r) = cstr_of (s ++ [0]).
Proof. induction s as [|c s IH]; cbn; [done|]. by rewrite IH. Qed.

Lemma starts_ok_spec buf pay : 0 <= pay -> pay + 2 <= zlen buf -> starts_ok buf pay = Ret (bool_decide (slice buf pay 2 = $"OK")).
Proof.
  intros Hp Hz. destruct (get8_total buf pay) as [b0 E0]; [lia|]. destruct (get8_total buf (pay + 1)) as [b1 E1]; [lia|].
  unfold starts_ok. rewrite E0, E1. cbn [mbind comp_bind].
  assert (slice buf pay 2 = [b0; b1]) as ->.
  { change 2 with (1 + 1). rewrite slice_split by lia. apply get8_slice in E0, E1. by rewrite E0, E1. }
  change ($"OK") with [79; 75]. destruct (Z.eqb_spec b0 79) as [->|N0].
  - f_equal. destruct (Z.eqb_spec b1 75) as [->|N1]; symmetry; [by apply bool_decide_true|apply bool_decide_false; congruence].
  - f_equal. symmetry. apply bool_decide_false. congruence.
Qed.

(** A response of less than 2048 bytes is good when the first two bytes of the
    payload are OK, whatever its length says; the text of another is printed up
    to the first nil byte. *)
Theorem probe_response_spec verbose m buf pay us :
  m_mtype m = RIC_HEALTH_CHECK_RESP -> m_tp_buf m = Some buf -> m_payload m = Some pay -> 0 <= pay -> pay + 2 <= zlen buf ->
  0 <= m_len m < MAX_MSG_SZ -> pay + m_len m <= zlen buf ->
  probe_response verbose m us =
    Ret (if bool_decide (slice buf pay 2 = $"OK") then NGood us else NWarn (cstr_of (slice buf pay (m_len m) ++ [0]))).
Proof.
  intros Ht Hb Hp H0 H2 Hl Hz. unfold probe_response. rewrite Ht, Hb, Hp. change (_ =? _) with true. cbv iota. cbn [deref mbind comp_bind].
  unfold probe_wbuf. unfold MAX_MSG_SZ in *. rewrite u64_id by lia. destruct (Z.ltb_spec 2048 (m_len m)); [lia|].
  rewrite memcpy_ret by (rewrite ?zlen_replicate by lia; lia). cbn [mbind comp_bind].
  set (d := slice buf pay (m_len m)). assert (zlen d = m_len m) as Zd by (apply zlen_slice; lia).
  assert (exists r, splice (replicate (Z.to_nat 2048) 0) 0 d = d ++ 0 :: r) as [r ->].
  { unfold splice. change (Z.to_nat 0) with 0%nat. cbn [take app Nat.add]. rewrite drop_replicate. unfold zlen in Zd.
    assert (exists k, (Z.to_nat 2048 - length d)%nat = S k) as [k Ek] by (exists (Z.to_nat 2048 - length d - 1)%nat; lia).
    exists (replicate k 0). by rewrite Ek. }
  assert (str_in (d ++ 0 :: r) = Ret (cstr_of (d ++ [0]))) as Es.
  { unfold str_in. rewrite bool_decide_true by (apply elem_of_app; right; left). by rewrite cstr_of_app_front. }
  rewrite Es, starts_ok_spec by done. destruct verbose; cbn [mbind comp_bind]; by destruct (bool_decide _).
Qed.

(** A response of 2048 bytes fills the work buffer: when it has no nil byte,
    printing it reads past the end. *)
Theorem full_response_is_undefined m buf pay us :
  m_mtype m = RIC_HEALTH_CHECK_RESP -> m_tp_buf m = Some buf -> m_payload m = Some pay -> 0 <= pay ->
  m_len m = MAX_MSG_SZ -> pay + m_len m <= zlen buf -> 0 ∉ slice buf pay (m_len m) ->
  probe_response true m us = UB /\ (slice buf pay 2 <> $"OK" -> probe_response false m us = UB).
Proof.
  intros Ht Hb Hp H0 Hl Hz Hn. unfold probe_response. rewrite Ht, Hb, Hp. change (_ =? _) with true. cbv iota. cbn [deref mbind comp_bind].
  unfold probe_wbuf. rewrite Hl in *. unfold MAX_MSG_SZ in *. rewrite u64_id by lia. change (2048 <? 2048) with false. cbv iota.
  rewrite memcpy_ret by (rewrite ?zlen_replicate by lia; lia). cbn [mbind comp_bind].
  assert (zlen (slice buf pay 2048) = 2048) as Zd by (apply zlen_slice; lia).
  assert (splice (replicate (Z.to_nat 2048) 0) 0 (slice buf pay 2048) = slice buf pay 2048) as ->.
  { unfold splice. change (Z.to_nat 0) with 0%nat. cbn [take app Nat.add]. rewrite drop_replicate. unfold zlen in Zd.
    replace (Z.to_nat 2048 - _)%nat with 0%nat by lia. apply app_nil_r. }
  assert (str_in (slice buf pay 2048) = UB) as -> by (unfold str_in; by rewrite bool_decide_false).
  split; [done|]. intros Hok. rewrite starts_ok_spec by lia. cbn [mbind comp_bind]. by rewrite bool_decide_false.
Qed.

(** ** A session *)

(** The probe against a peer that answers OK and then ERR. *)
Definition ex_resp (text : list Z) : mbuf :=
  MkMbuf 0 RIC_HEALTH_CHECK_RESP (zlen text + 1) (Some 354) (Some 62) (-1) 0 (Some (splice (default [] (m_tp_buf (msg0 2048))) 354 (text ++ [0])))
    (Some 50) 1 2400 7 18754.
Definition ex_wh : wh_ctx (gmap akey thing) (gmap akey nat) open_net := MkWh (ex_sc quiet_net) None.
Definition ex_ticks : list tick := replicate 20 (MkTick 100 (100, 0)).
Definition ex_waits : list wait_res :=
  [MkWait 0 (queue_normal 100 rx0 (ex_resp $"OK")); MkWait 0 (queue_normal 100 rx0 (ex_resp $"ERR no memory"))].

(** The documentation of the tool says that status 0 means that all responses had
    the OK token; one that failed does not show in the status. *)
Theorem probe_hides_a_failure :
  probe_main junk (fun _ => None) true [$"probe"; $"-n"; $"2"] (Some ex_wh) rx0 (Some (msg0 2048)) ex_ticks ex_waits =
    Ret (Some (0, [NGood 0; NWarn $"ERR no memory"])).
Proof. vm_compute. reflexivity. Qed.

Lemma probe_exit_status_witness :
  exists notes, probe_session junk (fun _ => None) true (MkPopts $"localhost:4560" 2 None true 3 false) ex_wh rx0 (msg0 2048) ex_ticks ex_waits =
    Ret (Some (0, notes)) /\ Exists (fun n => is_good n = true) notes /\ zlen notes <= 2.
Proof.
  assert (probe_session junk (fun _ => None) true (MkPopts $"localhost:4560" 2 None true 3 false) ex_wh rx0 (msg0 2048) ex_ticks ex_waits =
    Ret (Some (0, [NGood 0; NWarn $"ERR no memory"]))) as E by (vm_compute; reflexivity).
  destruct (probe_exit_status junk (fun _ => None) true (MkPopts $"localhost:4560" 2 None true 3 false) ex_wh rx0 (msg0 2048) ex_ticks ex_waits 0
    [NGood 0; NWarn $"ERR no memory"]) as ([H1 _] & _ & H2).
  - vm_compute. discriminate.
  - exact E.
  - exists [NGood 0; NWarn $"ERR no memory"]. split; [exact E|]. split; [exact (H1 eq_refl)|exact H2].
Defined.
