(* ===== verification/Examples.v ===== *)
(** The example programs: src/examples/health_check.c, msg_echo.c, sender.c and
    receiver.c.

    Each [main] is modelled from its command line on, on the context rmr_init
    gives it; what a turn of its loop gets from outside (random numbers, clocks,
    the state of the poll, the waits of a receive) is a record.  What is printed
    is a list of notes. *)

From S2P Require Import Prelude Bytes Symtab SymIface Tools Ring Mbuf Endpoint River RouteTable Decimal Send SendSpec Fanout MtCall MtSpec Wormhole RtcSpec RtsSpec Rtc MsgTypes Probe.

(** ** health_check.c *)

Definition HEALTH_CHECK : Z := 100.
Definition HEALTH_RESP : Z := 101.

(** The bytes and their positions. *)
Fixpoint sum_from (i : Z) (buf : list Z) : Z :=
  match buf with
  | [] => 0
  | b :: buf' => b + i + sum_from (i + 1) buf'
  end.

Definition sum (buf : list Z) : Z := Z.rem (sum_from 0 buf) 255.

(** The times are those of a clock (seconds since 1970), whose nanoseconds fit into
    64 bits until the year 2262. *)
Definition hc_elapsed (start_ts end_ts : Z * Z) : Z :=
  let start := start_ts.1 * 1000000000 + start_ts.2 in
  let stop := end_ts.1 * 1000000000 + end_ts.2 in
  i32 (Z.quot (stop - start) 1000).

(** What follows the first [c] ([strchr( s, c ) + 1]). *)
Fixpoint after_chr (c : Z) (s : list Z) : option (list Z) :=
  match s with
  | [] => None
  | b :: s' => if b =? c then Some s' else after_chr c s'
  end.

Definition vet_received (me buf : list Z) : Z :=
  match after_chr 62 buf with
  | None => 0
  | Some s => if bool_decide (me = s) then 1 else 0
  end.

(** The table mk_rt writes. *)
Definition mk_rt : list Z := $"newrt|start" ++ [10] ++ $"newrt|end" ++ [10].

Record hcopts := MkHc { hc_target : list Z; hc_num : Z; hc_rand : bool; hc_timeout : Z }.
Definition hcopts0 : hcopts := MkHc $"localhost:4560" 1 false 5.

(** One turn of the argument loop; the end is [None] for an unknown option.  The
    argument of an option is not checked for being there: the next pointer is nil
    then.  There is no break after the option r. *)
Definition hc_parse_step (argv : list (list Z)) (o : hcopts) (ai : Z) : comp (option hcopts + hcopts * Z) :=
  let with_arg (f : list Z -> hcopts) := v ← deref (argv !! Z.to_nat (ai + 1)); Ret (inr (f v, ai + 2)) in
  match arg argv ai with
  | 45 :: c =>
      match c with
      | 104 :: _ => with_arg (fun v => MkHc v (hc_num o) (hc_rand o) (hc_timeout o))
      | 110 :: _ => with_arg (fun v => MkHc (hc_target o) (atoi v) (hc_rand o) (hc_timeout o))
      | 114 :: _ => with_arg (fun v => MkHc (hc_target o) (hc_num o) true (atoi v))
      | 116 :: _ => with_arg (fun v => MkHc (hc_target o) (hc_num o) (hc_rand o) (atoi v))
      | _ => Ret (inl None)
      end
  | _ => Ret (inl (Some o))
  end.

Fixpoint hc_parse (fuel : nat) (argv : list (list Z)) (o : hcopts) (ai : Z) : comp (option (option hcopts)) :=
  if ai <? zlen argv then
    match fuel with
    | O => Ret None
    | S fuel' =>
        x ← hc_parse_step argv o ai;
        match x with
        | inl r => Ret (Some r)
        | inr (o, ai) => hc_parse fuel' argv o ai
        end
    end
  else Ret (Some (Some o)).

Definition hc_port (o : hcopts) (rnd : Z) : list Z :=
  if hc_rand o then snprintf 1024 (decimal (43000 + Z.rem rnd 1000)) else $"43086".

(** mpl_t: 512 characters and a timespec. *)
Definition sizeof_mpl : Z := 528.

Definition hc_me (host : list Z) (pid : Z) : list Z := snprintf 128 (host ++ $"-" ++ decimal pid).
Definition hc_text (me : list Z) (count rnd : Z) : list Z := snprintf 512 (me ++ $" count=" ++ decimal count ++ $" " ++ decimal rnd).
Definition hc_payload (text : list Z) : list Z := snprintf 1024 (decimal (sum text) ++ $"|" ++ text).
Definition ts_bytes (ts : Z * Z) : list Z := le_bytes 8 ts.1 ++ le_bytes 8 ts.2.

(** The message of a turn. *)
Definition hc_request (m : mbuf) (text : list Z) (out_ts : Z * Z) : comp mbuf :=
  buf ← deref (m_tp_buf m);
  pay ← deref (m_payload m);
  buf ← put buf pay (hc_payload text ++ [0]);
  buf ← put buf (pay + 512) (ts_bytes out_ts);
  Ret (MkMbuf 0 HEALTH_CHECK sizeof_mpl (m_payload m) (m_xaction m) (-1) (m_tp_state m) (Some buf) (m_header m)
         (m_flags m) (m_alloc_len m) (m_rts_fd m) (m_cookie m)).

Inductive hc_note :=
| HOk (us : Z)
| HMismatch (expected got : Z)
| HNoSum
| HTimeout
| HSendFail (state : Z).

Definition get64 (buf : list Z) (off : Z) : comp Z :=
  if (off <? 0) || (zlen buf <? off + 8) then UB else Ret (i64 (le_val (slice buf off 8))).

(** The check of what came back. *)
Definition hc_response (m : mbuf) (in_ts : Z * Z) : comp hc_note :=
  buf ← deref (m_tp_buf m);
  pay ← deref (m_payload m);
  if (pay <? 0) || (zlen buf <? pay) then UB else
  text ← str_in (drop (Z.to_nat pay) buf);
  match after_chr 124 text with
  | None => Ret HNoSum
  | Some tok =>
      let cksum := sum tok in
      if negb (cksum =? atoi text) then Ret (HMismatch (atoi text) cksum)
      else sec ← get64 buf (pay + 512); nsec ← get64 buf (pay + 520); Ret (HOk (hc_elapsed (sec, nsec) in_ts))
  end.

(** ** msg_echo.c *)

Record eopts := MkEo { eo_port : list Z; eo_mtype : Z }.

Definition echo_parse_step (argv : list (list Z)) (o : eopts) (ai : Z) : comp (option eopts + eopts * Z) :=
  let with_arg (f : list Z -> eopts) := v ← deref (argv !! Z.to_nat (ai + 1)); Ret (inr (f v, ai + 2)) in
  match arg argv ai with
  | 45 :: c =>
      match c with
      | 112 :: _ => with_arg (fun v => MkEo v (eo_mtype o))
      | 116 :: _ => with_arg (fun v => MkEo (eo_port o) (atoi v))
      | _ => Ret (inl None)
      end
  | _ => Ret (inl (Some o))
  end.

Fixpoint echo_parse (fuel : nat) (argv : list (list Z)) (o : eopts) (ai : Z) : comp (option (option eopts)) :=
  if ai <? zlen argv then
    match fuel with
    | O => Ret None
    | S fuel' =>
        x ← echo_parse_step argv o ai;
        match x with
        | inl r => Ret (Some r)
        | inr (o, ai) => echo_parse fuel' argv o ai
        end
    end
  else Ret (Some (Some o)).

(** The message as it is returned. *)
Definition echo_msg (mtype : Z) (m : mbuf) : mbuf :=
  if 0 <=? mtype
  then MkMbuf (m_state m) mtype (m_len m) (m_payload m) (m_xaction m) (-1) (m_tp_state m) (m_tp_buf m) (m_header m)
         (m_flags m) (m_alloc_len m) (m_rts_fd m) (m_cookie m)
  else m.

(** ** receiver.c: the counters *)

Record rcounts := MkRc { rc_count : Z; rc_bad : Z; rc_empty : Z }.

(** The counters after a receive, and the line that is printed: the remainder of
    a division by [stat_freq] decides. *)
Definition receiver_count (stat_freq : Z) (r : option mbuf) (c : rcounts) : comp (rcounts * option rcounts) :=
  let c := match r with
           | Some m => if m_state m =? RMR_OK then MkRc (rc_count c + 1) (rc_bad c) (rc_empty c)
                       else MkRc (rc_count c) (rc_bad c + 1) (rc_empty c)
           | None => MkRc (rc_count c) (rc_bad c) (rc_empty c + 1)
           end in
  if stat_freq =? 0 then UB
  else Ret (c, if Z.rem (rc_count c) stat_freq =? 0 then Some c else None).

(** ** The loops *)

Section examples.
Context {TH TE N : Type} `{Symbols TH thing} `{Symbols TE nat} `{Transport N}.
Variable malloc_bytes : Z -> list Z.
Variable gethostbyname : list Z -> option (list Z).
Variable lk : bool.
Implicit Types (wx : wh_ctx TH TE N) (sc : send_ctx TH TE N) (rx : rx_ctx) (m : mbuf).

(** What a turn of the health check gets. *)
Record hc_env := MkHe { he_rnd : Z; he_out : Z * Z; he_ready : bool; he_ws : list wait_res; he_in : Z * Z }.

Definition hc_turn (me : list Z) (whid count : Z) wx rx m (e : hc_env) :
    comp (option (option hc_note * wh_ctx TH TE N * rx_ctx * mbuf * Z)) :=
  m ← hc_request m (hc_text me count (he_rnd e)) (he_out e);
  '(r, wx) ← rmr_wh_send_msg malloc_bytes gethostbyname (Some wx) whid (Some m);
  m ← deref r;
  wx ← deref wx;
  if m_state m =? RMR_OK then
    if he_ready e then
      match rmr_rcv_msg lk (Some rx) (Some m) (he_ws e) with
      | Some (r, Some rx, _) =>
          m ← deref r;
          n ← hc_response m (he_in e);
          Ret (Some (match n with HNoSum => None | _ => Some n end, wx, rx, m, 0))
      | _ => Ret None
      end
    else Ret (Some (Some HTimeout, wx, rx, m, 1))
  else Ret (Some (Some (HSendFail (m_state m)), wx, rx, m, 0)).

(** The notes and the errors counted. *)
Fixpoint hc_loop (me : list Z) (num2send whid count errors : Z) wx rx m (es : list hc_env) : comp (option (list hc_note * Z)) :=
  if count <? num2send then
    match es with
    | [] => Ret None
    | e :: es' =>
        x ← hc_turn me whid count wx rx m e;
        match x with
        | None => Ret None
        | Some (n, wx, rx, m, k) =>
            y ← hc_loop me num2send whid (count + 1) (errors + k) wx rx m es';
            Ret (match y with Some (ns, k) => Some (match n with Some n => n :: ns | None => ns end, k) | None => None end)
        end
    end
  else Ret (Some ([], errors)).

(** The session: the status main returns is the value of an assignment.  The
    wormhole is closed last, when nothing is sent any more. *)
Definition hc_session (o : hcopts) (me : list Z) wx rx m (es : list hc_env) : comp (option (Z * list hc_note)) :=
  let '(whid, wx) := rmr_wh_open gethostbyname (Some wx) (hc_target o) in
  wx ← deref wx;
  if whid <? 0 then Ret (Some (2, [])) else
  let sc := (rmr_set_stimeout (Some (wx_send wx)) 3).2 in
  let wx := MkWh (default (wx_send wx) sc) (wx_eps wx) in
  x ← hc_loop me (hc_num o) whid 0 0 wx rx m es;
  Ret (match x with
       | Some (ns, errors) => let errors := 0 in Some (errors, ns)
       | None => None
       end).

(** One turn of the echo program. *)
Definition echo_step (mtype : Z) sc rx (msg : option mbuf) (ws : list wait_res) :
    comp (option (option mbuf * send_ctx TH TE N * rx_ctx)) :=
  match rmr_rcv_msg lk (Some rx) msg ws with
  | Some (Some m, Some rx, _) =>
      if m_state m =? RMR_OK then
        '(r, sc') ← rmr_rts_msg malloc_bytes gethostbyname (Some sc) (Some (echo_msg mtype m));
        sc ← deref sc';
        Ret (Some (r, sc, rx))
      else Ret (Some (Some m, sc, rx))
  | Some (None, Some rx, _) => Ret (Some (None, sc, rx))
  | _ => Ret None
  end.

(** One turn of the sender: the message is filled, sent until it is taken or
    refused, and what was received meanwhile is pulled in and counted.  [text]:
    the number that was sent, the number received, the clock and a random number;
    [wss]: the waits of each receive, one per event of the poll. *)
Definition sender_text (count rcvd now rnd : Z) : list Z :=
  snprintf 200 ($"count=" ++ decimal count ++ $" received= " ++ decimal rcvd ++ $" ts=" ++ decimal now ++ $" " ++ decimal rnd ++
    $" stand up and cheer!").

Definition sender_fill (mtype : Z) m (text : list Z) : comp mbuf :=
  buf ← deref (m_tp_buf m);
  pay ← deref (m_payload m);
  buf ← put buf pay (text ++ [0]);
  Ret (MkMbuf 0 mtype (zlen text + 1) (m_payload m) (m_xaction m) (m_sub_id m) (m_tp_state m) (Some buf) (m_header m)
         (m_flags m) (m_alloc_len m) (m_rts_fd m) (m_cookie m)).

(** [fuel] bounds the retries; the program has no bound. *)
Fixpoint sender_send (fuel : nat) sc m : comp (option (mbuf * send_ctx TH TE N)) :=
  '(r, sc') ← rmr_send_msg malloc_bytes (Some sc) (Some m);
  m ← deref r;
  sc ← deref sc';
  if m_state m =? RMR_ERR_RETRY then
    match fuel with O => Ret None | S fuel' => sender_send fuel' sc m end
  else Ret (Some (m, sc)).

Fixpoint sender_pull rx (rbuf : option mbuf) (rcvd : Z) (wss : list (list wait_res)) : option (rx_ctx * option mbuf * Z) :=
  match wss with
  | [] => Some (rx, rbuf, rcvd)
  | ws :: wss' =>
      match rmr_rcv_msg lk (Some rx) rbuf ws with
      | Some (r, Some rx, _) => sender_pull rx r (match r with Some _ => rcvd + 1 | None => rcvd end) wss'
      | _ => None
      end
  end.

Definition sender_turn (fuel : nat) (mtype now rnd : Z) sc rx m (rbuf : option mbuf) (count rcvd : Z) (wss : list (list wait_res)) :
    comp (option (send_ctx TH TE N * rx_ctx * mbuf * option mbuf * Z * Z)) :=
  m ← sender_fill mtype m (sender_text count rcvd now rnd);
  x ← sender_send fuel sc m;
  Ret (match x with
       | None => None
       | Some (m, sc) =>
           match sender_pull rx rbuf rcvd wss with
           | Some (rx, rbuf, rcvd) => Some (sc, rx, m, rbuf, count + 1, rcvd)
           | None => None
           end
       end).
End examples.

(** ** Theorems *)

Lemma sum_from_range buf i : Forall is_byte buf -> 0 <= i -> 0 <= sum_from i buf.
Proof. revert i. induction buf as [|b buf IH]; cbn [sum_from]; intros i; [done|]. intros [Hb HF]%Forall_cons Hi. unfold is_byte in Hb. specialize (IH (i + 1) HF). lia. Qed.

Lemma sum_range buf : Forall is_byte buf -> 0 <= sum buf < 255.
Proof. intros HF. pose proof (sum_from_range buf 0 HF ltac:(lia)). unfold sum. rewrite Z.rem_mod_nonneg by lia. apply Z.mod_pos_bound. lia. Qed.

Lemma after_chr_skip c s r : Forall (fun b => b <> c) s -> after_chr c (s ++ c :: r) = Some r.
Proof.
  induction 1 as [|b s Hb Hs IH]; cbn; [by rewrite Z.eqb_refl|]. by rewrite (proj2 (Z.eqb_neq b c) Hb).
Qed.

(** The texts of the health check. *)
Record hc_text_ok (text : list Z) : Prop := { ht_cstr : is_cstr text; ht_len : zlen text <= 500 }.

Lemma hc_payload_eq text : hc_text_ok text -> hc_payload text = decimal (sum text) ++ 124 :: text /\
  zlen (hc_payload text) < 512 /\ is_cstr (hc_payload text) /\ 0 <= sum text < 255.
Proof.
  intros [Hc Hl]. assert (0 <= sum text < 255) as Hs.
  { apply sum_range. eapply Forall_impl; [exact Hc|]. intros b [? ?]. split; lia. }
  pose proof (decimal_len 3 (sum text) ltac:(cbn; lia) ltac:(lia)) as Hd.
  assert (hc_payload text = decimal (sum text) ++ 124 :: text) as ->.
  { unfold hc_payload, snprintf. change ($"|" ++ text) with (124 :: text). apply take_ge.
    rewrite length_app. cbn [length]. change (1024 - 1) with 1023. unfold zlen in Hl. lia. }
  split; [done|]. split; [|split; [|done]].
  - unfold zlen in *. rewrite length_app. cbn [length]. lia.
  - apply Forall_app. split.
    + eapply Forall_impl; [apply decimal_digits; lia|]. intros b Hb. unfold isdigit in Hb.
      apply andb_true_iff in Hb as [?%Z.leb_le ?%Z.leb_le]. lia.
    + constructor; [lia|done].
Qed.

Lemma str_in_app s r : is_cstr s -> str_in (s ++ 0 :: r) = Ret s.
Proof.
  intros Hs. unfold str_in. rewrite bool_decide_true by (apply elem_of_app; right; left). by rewrite cstr_of_app_nil.
Qed.

Lemma get64_bytes buf off v : 0 <= off -> off + 8 <= zlen buf -> slice buf off 8 = le_bytes 8 v -> - 2 ^ 63 <= v < 2 ^ 63 -> get64 buf off = Ret v.
Proof.
  intros Ho Hz E Hv. unfold get64. destruct (Z.ltb_spec off 0); [lia|]. destruct (Z.ltb_spec (zlen buf) (off + 8)); [lia|]. cbn [orb].
  f_equal. rewrite E, le_val_bytes. change (256 ^ Z.of_nat 8) with (2 ^ 64). unfold i64.
  rewrite Zplus_mod_idemp_l. rewrite Z.mod_small by lia. lia.
Qed.

(** The payload of a request: the checksum and the text, and the time stamp. *)
Definition hc_content (text : list Z) (out_ts : Z * Z) (data : list Z) : Prop :=
  zlen data = sizeof_mpl /\ (exists r, data = (hc_payload text ++ 0 :: r)) /\ slice data 512 16 = ts_bytes out_ts.

Definition ts_ok (ts : Z * Z) : Prop := - 2 ^ 63 <= ts.1 < 2 ^ 63 /\ - 2 ^ 63 <= ts.2 < 2 ^ 63.

(** The check passes for any message with the payload of the request. *)
Lemma hc_response_content m buf pay text out_ts in_ts :
  hc_text_ok text -> ts_ok out_ts -> m_tp_buf m = Some buf -> m_payload m = Some pay -> 0 <= pay -> pay + sizeof_mpl <= zlen buf ->
  hc_content text out_ts (slice buf pay sizeof_mpl) ->
  hc_response m in_ts = Ret (HOk (hc_elapsed out_ts in_ts)).
Proof.
  intros Ht [H1 H2] Hb Hp H0 Hz (_ & (r & Er) & Ets). destruct (hc_payload_eq text Ht) as (Ep & Hl & Hc & Hs). unfold sizeof_mpl in *.
  unfold hc_response. rewrite Hb, Hp. cbn [deref mbind comp_bind]. destruct (Z.ltb_spec pay 0); [lia|].
  destruct (Z.ltb_spec (zlen buf) pay); [lia|]. cbn [orb].
  assert (exists r', drop (Z.to_nat pay) buf = hc_payload text ++ 0 :: r') as [r' ->].
  { exists (r ++ drop (Z.to_nat 528) (drop (Z.to_nat pay) buf)). rewrite app_comm_cons, app_assoc, <-Er. unfold slice. by rewrite take_drop. }
  rewrite str_in_app by done. cbn [mbind comp_bind]. rewrite Ep.
  rewrite after_chr_skip.
  2:{ eapply Forall_impl; [apply decimal_digits; lia|]. intros b Hb'. unfold isdigit in Hb'. apply andb_true_iff in Hb' as [?%Z.leb_le ?%Z.leb_le]. lia. }
  rewrite atoi_decimal_app by (done || (split; lia)). rewrite Z.eqb_refl. cbn [negb].
  rewrite slice_slice in Ets by lia. unfold ts_bytes in Ets.
  assert (slice buf (pay + 512) 8 = le_bytes 8 out_ts.1 /\ slice buf (pay + 520) 8 = le_bytes 8 out_ts.2) as [E1 E2].
  { change 16 with (8 + 8) in Ets. rewrite slice_split in Ets by lia. apply app_inj_1 in Ets; [by replace (pay + 520) with (pay + 512 + 8) by lia|].
    rewrite length_le_bytes. apply Nat2Z.inj. change (zlen (slice buf (pay + 512) 8) = 8). apply zlen_slice; lia. }
  rewrite (get64_bytes buf (pay + 512) out_ts.1) by (lia || done). cbn [mbind comp_bind].
  rewrite (get64_bytes buf (pay + 520) out_ts.2) by (lia || done). cbn [mbind comp_bind]. by destruct out_ts.
Qed.

Lemma hc_request_content m buf pay text out_ts :
  hc_text_ok text -> m_tp_buf m = Some buf -> m_payload m = Some pay -> 0 <= pay -> pay + sizeof_mpl <= zlen buf ->
  exists m' b, hc_request m text out_ts = Ret m' /\ m_tp_buf m' = Some b /\ m_payload m' = Some pay /\ m_len m' = sizeof_mpl /\
    m_mtype m' = HEALTH_CHECK /\ framed buf b pay sizeof_mpl /\ hc_content text out_ts (slice b pay sizeof_mpl).
Proof.
  intros Ht Hb Hp H0 Hz. destruct (hc_payload_eq text Ht) as (_ & Hl & _ & _). unfold sizeof_mpl in *.
  unfold hc_request. rewrite Hb, Hp. cbn [deref mbind comp_bind]. set (t := hc_payload text ++ [0]).
  assert (zlen t = zlen (hc_payload text) + 1) as Zt by (unfold t; rewrite zlen_app; done). pose proof (zlen_nonneg (hc_payload text)).
  destruct (put_ex buf pay t) as (b1 & -> & S1 & Z1 & F1); [lia|lia|]. cbn [mbind comp_bind].
  assert (zlen (ts_bytes out_ts) = 16) as Zs by (unfold ts_bytes; rewrite zlen_app; unfold zlen; by rewrite !length_le_bytes).
  destruct (put_ex b1 (pay + 512) (ts_bytes out_ts)) as (b2 & -> & S2 & Z2 & F2); [lia|lia|]. rewrite Zs, Zt in *. cbn [mbind comp_bind].
  eexists _, b2. split; [reflexivity|]. split; [done|]. split; [done|]. split; [done|]. split; [done|]. split.
  - split; [lia|]. intros o k ? ? ?. rewrite F2, F1 by lia. done.
  - unfold hc_content, sizeof_mpl. split; [rewrite zlen_slice; lia|]. split.
    + exists (slice b2 (pay + zlen t) (528 - zlen t)).
      replace (slice b2 pay 528) with (slice b2 pay (zlen t + (528 - zlen t))) by (f_equal; lia).
      rewrite slice_split by lia. rewrite F2 by lia. rewrite <-Zt in S1. rewrite S1. unfold t. by rewrite <-app_assoc.
    + rewrite slice_slice by lia. exact S2.
Qed.

(** What the echo program returns is an answer with the payload it received. *)
Lemma echo_answers m raw pay mtype :
  m_tp_buf m = Some raw -> Forall is_byte raw -> pay + m_len m <= zlen raw -> 0 <= m_len m -> 0 <= pay ->
  in_i32 (m_mtype m) -> in_i32 (m_sub_id m) -> in_i32 mtype -> Z.land (m_flags m) MFL_NOALLOC = 0 ->
  answers m raw pay (slice raw pay (m_len m)) (echo_msg mtype m) raw.
Proof.
  intros Eb Hb Hz Hl Hp Ht Hs Hm Hf. assert (zlen (slice raw pay (m_len m)) = m_len m) as Zd by (apply zlen_slice; lia).
  unfold echo_msg. destruct (0 <=? mtype); (split; rewrite ?Zd; done).
Qed.

(** What rmr_rcv_msg makes of a queued message. *)
Definition as_received (m : mbuf) : mbuf := set_tp_state 0 (add_src (set_state RMR_OK m)).

Section trip.
Context {TH TE N : Type} `{Symbols TH thing} `{Symbols TE nat} `{Transport N}.
Variable malloc_bytes : Z -> list Z.
Hypothesis malloc_len : forall n, 0 <= n -> zlen (malloc_bytes n) = n.
Variable gethostbyname : list Z -> option (list Z).
Implicit Types (sc : send_ctx TH TE N) (m : mbuf).

(** The echo program returns the message that was queued. *)
Lemma echo_step_queued mtype sc n rx rx' q m old ws :
  rx_inv n rx' (m :: q) ->
  exists rx2, echo_step malloc_bytes gethostbyname true mtype sc rx old (MkWait 0 rx' :: ws) =
      ('(r, sc') ← rmr_rts_msg malloc_bytes gethostbyname (Some sc) (Some (echo_msg mtype (as_received m)));
       sc ← deref sc'; Ret (Some (r, sc, rx2))).
Proof.
  intros I. destruct (extract_queue n rx' m q I) as (ring & E & _).
  exists (set_ring rx' ring). unfold echo_step, rmr_rcv_msg, rmr_mt_rcv. change (-1 =? 0) with false. cbv iota.
  cbn [sem_loop w_err]. change (0 =? EINTR) with false. cbv iota beta zeta. cbn [w_err w_rx]. change (0 =? 0) with true. cbn [negb]. cbv iota.
  rewrite E. by change (m_state (set_tp_state 0 (add_src (set_state RMR_OK m))) =? RMR_OK) with true.
Qed.

(** C39.  A health check that is echoed passes: the request that health_check.c
    builds, received by msg_echo.c and returned with any type, comes back as a
    message whose checksum is that of the text and whose time stamp is the one
    that was sent, so that the reported time is the one since the request was
    made. *)
Theorem echoed_check_passes mctx o f raw nowB rxB fdB text out_ts :
  wire_ok o -> Z.land (m_flags (out_msg o)) MFL_ADDSRC <> 0 -> frame_of mctx o f -> holds f raw ->
  zlen raw.1 <= INT_MAX - 128 -> Forall is_byte raw.1 -> hc_text_ok text -> ts_ok out_ts -> m_len (out_msg o) = sizeof_mpl ->
  hc_content text out_ts (slice (out_buf o) (330 + out_tr o + out_d1 o + out_d2 o) sizeof_mpl) ->
  exists m, buf2mbuf nowB rxB raw.1 raw.2 fdB =
      Ret (deliver_to nowB rxB m (slot_of (out_buf o) (out_tr o) (out_d1 o))) /\
    forall mtype sc ep sc1 fd, in_i32 mtype ->
      can_answer gethostbyname sc (echo_msg mtype (as_received m)) (take 63 (x_my_name mctx)) (out_tr o) ep sc1 fd ->
      exists g m4 sc', (forall n rx rxq q old ws, rx_inv n rxq (m :: q) -> exists rx2,
          echo_step malloc_bytes gethostbyname true mtype sc rx old (MkWait 0 rxq :: ws) = Ret (Some (Some m4, sc', rx2))) /\
        zlen g = 330 + out_tr o + out_d1 o + out_d2 o + sizeof_mpl /\
        (m_state m4 = RMR_OK -> tp_wire (sc_net sc') fd = tp_wire (sc_net sc1) fd ++ g) /\
        forall raw3 now rx fdA in_ts, holds g raw3 -> exists m3,
          buf2mbuf now rx raw3.1 raw3.2 fdA = Ret (deliver_to now rx m3 (call_byte (out_buf o) (out_tr o) (out_d1 o))) /\
          hc_response m3 in_ts = Ret (HOk (hc_elapsed out_ts in_ts)).
Proof.
  intros Ho Hsrc F Hh Hz Hb Ht Hts Hlen Hc. destruct (frame_buffered mctx o f raw nowB rxB fdB Ho F Hh) as (m & E & _ & R & Sm).
  exists m. split; [by rewrite E, (raw_slot o raw.1 Ho (raw_of_frame mctx o f raw Ho F Hh))|].
  intros mtype sc ep sc1 fd Hm Ca. set (pay := 330 + out_tr o + out_d1 o + out_d2 o) in *.
  pose proof (raw_of_frame mctx o f raw Ho F Hh) as Ro. pose proof (ro_total _ _ Ro) as Htot. fold pay in Htot.
  pose proof (ml_sz _ _ _ _ _ (mw_layout _ _ _ _ _ _ (sd_wf _ _ _ _ _ _ (wo_send _ Ho)))) as Hsz.
  destruct Sm as [_ Sb St Ss Sl [_ Sp] _ _ _]. rewrite Hlen in *. fold pay in Sp.
  assert (sizeof_mpl = 528) as H528 by done.
  pose proof (echo_answers (as_received m) raw.1 pay mtype) as An. cbn [as_received m_tp_buf m_len m_mtype m_sub_id set_tp_state add_src set_state set_flags] in An.
  change (m_len (as_received m)) with (m_len m) in An. rewrite Sl in An.
  assert (answers (as_received m) raw.1 pay (slice raw.1 pay sizeof_mpl) (echo_msg mtype (as_received m)) raw.1) as An'.
  { apply An; try done; try (unfold pay; lia).
    - change (m_mtype (as_received m)) with (m_mtype m). rewrite St. apply (wo_i32 _ Ho).
    - change (m_sub_id (as_received m)) with (m_sub_id m). rewrite Ss. apply (wo_i32 _ Ho).
    - change (m_flags (as_received m)) with (Z.lor (m_flags m) MFL_ADDSRC). rewrite land_lor_bit by done. apply R. }
  assert (zlen (slice raw.1 pay sizeof_mpl) = sizeof_mpl) as Zd by (apply zlen_slice; unfold pay; lia).
  destruct (answer_arrives malloc_bytes malloc_len gethostbyname mctx o f raw m fdB (slice raw.1 pay sizeof_mpl)
    (echo_msg mtype (as_received m)) raw.1 sc ep sc1 fd) as (g & m4 & sc' & Er & Zg & Hw & Harr); try done.
  { by destruct An'. }
  exists g, m4, sc'. split.
  { intros n rx rxq q old ws I. destruct (echo_step_queued mtype sc n rx rxq q m old ws I) as (rx2 & E2). exists rx2. by rewrite E2, Er. }
  split; [by rewrite Zg, Zd|]. split; [done|]. intros raw3 now rx fdA in_ts Hg.
  destruct (Harr raw3 now rx fdA Hg) as (m3 & E3 & [_ _ (raw' & pay' & B1 & B2 & B4 & B5 & B3 & _) _]). exists m3. split; [done|].
  rewrite Zd in B3, B5. apply (hc_response_content m3 raw' pay' text out_ts in_ts); try done.
  by rewrite B3, Sp.
Qed.
End trip.

(** A health check that is echoed with type 101. *)
Definition ex_hc_text : list Z := Eval vm_compute in hc_text (hc_me $"host" 7) 0 42.
Definition ex_hc_msg : mbuf := Eval vm_compute in
  add_src (comp_get mbuf0 (m ← hc_request (msg0 628) ex_hc_text (100, 5); blot_call_id m)).
Definition ex_hc_buf : list Z := Eval vm_compute in default [] (m_tp_buf ex_hc_msg).
Definition ex_hc_out : outgoing := MkOut ex_hc_msg ex_hc_buf 20 4 0 628.
Definition ex_hc_frame : list Z :=
  Eval vm_compute in slice (comp_get [] (b ← fill_send_header ctx0 ex_hc_msg; insert_mlen 882 b)) 0 882.

Lemma ex_hc_wire : wire_ok ex_hc_out.
Proof.
  split; [split; [split|]; [reflexivity..|vm_compute; split; discriminate|split|]; vm_compute; repeat split; discriminate|
    vm_compute; repeat split; discriminate|vm_compute; discriminate|].
  intros b _. apply get8_range. apply (bool_decide_unpack (Forall (fun b => 0 <= b /\ b < 256) ex_hc_buf)). vm_compute. exact I.
Qed.

Lemma ex_hc_sent : frame_of ctx0 ex_hc_out ex_hc_frame.
Proof.
  destruct (send_frame_spec ctx0 ex_hc_msg ex_hc_buf 20 4 0 628 (wo_send _ ex_hc_wire)) as (b & b' & E1 & _ & E2 & _ & F); [apply ex_reuse_ok..|].
  assert (comp_get [] (fill_send_header ctx0 ex_hc_msg) = b) as Eb by (by rewrite E1).
  assert (comp_get [] (insert_mlen 882 (comp_get [] (fill_send_header ctx0 ex_hc_msg))) = b') as Eb'
    by (rewrite Eb; change (insert_mlen 882 b) with (insert_mlen (330 + 20 + 4 + 0 + m_len ex_hc_msg) b); by rewrite E2).
  assert (ex_hc_frame = slice b' 0 (330 + 20 + 4 + 0 + m_len ex_hc_msg)) as -> by (rewrite <-Eb'; vm_compute; reflexivity).
  exact F.
Qed.

Lemma echoed_check_passes_witness :
  exists m m4 sc' rx2 g m3 rx3, buf2mbuf 100 rx0 ex_hc_frame 882 9 = Ret (queue_normal 100 rx0 m) /\
    echo_step junk (fun _ => None) true 101 (ex_sc quiet_net) rx0 None [MkWait 0 (queue_normal 100 rx0 m)] = Ret (Some (Some m4, sc', rx2)) /\
    buf2mbuf 100 rx0 g 882 7 = Ret rx3 /\ rx3 = queue_normal 100 rx0 m3 /\ hc_response m3 (100, 2500005) = Ret (HOk 2500).
Proof.
  destruct ex_byname as (ep & sc1 & E & _).
  destruct (echoed_check_passes (TH := gmap akey thing) (TE := gmap akey nat) (N := open_net) junk junk_len (fun _ => None) ctx0 ex_hc_out ex_hc_frame (ex_hc_frame, 882) 100 rx0 9 ex_hc_text (100, 5))
    as (m & EB & Hecho).
  - exact ex_hc_wire.
  - discriminate.
  - exact ex_hc_sent.
  - split; [reflexivity|]. split; [reflexivity|]. vm_compute. split; discriminate.
  - vm_compute. discriminate.
  - apply (bool_decide_unpack (Forall (fun b => 0 <= b /\ b < 256) ex_hc_frame)). vm_compute. exact I.
  - split; [|vm_compute; discriminate]. apply (bool_decide_unpack (is_cstr ex_hc_text)). vm_compute. exact I.
  - vm_compute. repeat split; discriminate || reflexivity.
  - reflexivity.
  - split; [reflexivity|]. split; [|reflexivity]. exists (drop (S (length (hc_payload ex_hc_text))) (slice ex_hc_buf 354 528)). vm_compute. reflexivity.
  - destruct (Hecho 101 (ex_sc quiet_net) ep sc1 7) as (g & m4 & sc' & Es & Zg & _ & Hlast).
    + vm_compute. split; discriminate || reflexivity.
    + split; [split; [exact ex_reuse_ok|vm_compute; discriminate]|exists ex_rt; reflexivity|]. exists (Some 7).
      split; [exact E|reflexivity].
    + change (slot_of _ _ _) with 0 in EB. cbn [fst snd] in EB.
      assert (rx_inv 16 (queue_normal 100 rx0 m) [m]) as Hq by exact (proj2 (rcv_simulation 16 rx0 [] (OArrive 100 m) rx0_inv I)).
      destruct (Es 16 rx0 (queue_normal 100 rx0 m) [] None [] Hq) as (rx2 & E2).
      destruct (Hlast (g, 882) 100 rx0 7 (100, 2500005)) as (m3 & E3 & Hr).
      * split; [cbn; apply slice_all|]. cbn. rewrite Zg. split; [reflexivity|]. vm_compute. split; discriminate.
      * exists m, m4, sc', rx2, g, m3. eexists. split; [exact EB|]. split; [exact E2|]. split; [exact E3|].
        split; [reflexivity|exact Hr].
Defined.

(** The status of the health check is 0 whenever the wormhole could be opened:
    the errors that were counted are overwritten by the return statement. *)
Theorem health_check_status_hides_errors {TH TE N : Type} `{Symbols TH thing} `{Symbols TE nat} `{Transport N}
    malloc_bytes gethostbyname lk o me (wx : wh_ctx TH TE N) rx m es st ns :
  hc_session malloc_bytes gethostbyname lk o me wx rx m es = Ret (Some (st, ns)) -> st = 0 \/ st = 2 /\ ns = [].
Proof.
  unfold hc_session. destruct (rmr_wh_open _ _ _) as [whid wx']. intros E. apply comp_bind_ret in E as (wx1 & _ & E).
  destruct (whid <? 0); [injection E as <- <-; by right|]. apply comp_bind_ret in E as ([[ns' k]|] & _ & E); [|done].
  injection E as <- <-. by left.
Qed.

(** No answer at all: a time out is printed and the status is 0. *)
Lemma health_check_status_hides_errors_witness :
  let run := hc_session junk (fun _ => None) true (MkHc $"localhost:4560" 1 false 5) (hc_me $"host" 7) ex_wh rx0 (msg0 628)
    [MkHe 42 (100, 5) false [] (0, 0)] in
  run = Ret (Some (0, [HTimeout])) /\ (0 = 0 \/ 0 = 2 /\ [HTimeout] = []).
Proof.
  intros run. assert (run = Ret (Some (0, [HTimeout]))) as E by (vm_compute; reflexivity). split; [exact E|].
  exact (health_check_status_hides_errors junk (fun _ => None) true _ _ _ _ _ _ _ _ E).
Defined.

(** The option r takes the next argument as the time out, and is undefined without
    one. *)
Theorem random_port_option_takes_an_argument :
  hc_parse 3 [$"health_check"; $"-r"; $"9"] hcopts0 1 = Ret (Some (Some (MkHc $"localhost:4560" 1 true 9))) /\
  hc_parse 2 [$"health_check"; $"-r"] hcopts0 1 = UB.
Proof. split; vm_compute; reflexivity. Qed.

(** The argument loops of the examples end when they are given their arguments. *)
Lemma hc_parse_step_next argv o ai o' ai' : hc_parse_step argv o ai = Ret (inr (o', ai')) -> ai < ai'.
Proof.
  unfold hc_parse_step, deref. intros E.
  repeat (case_match; try discriminate E; cbn [mbind comp_bind] in E; try (injection E as _ <-; lia)).
Qed.

Theorem hc_parse_total argv o ai fuel : zlen argv - ai <= Z.of_nat fuel -> hc_parse fuel argv o ai <> Ret None.
Proof.
  revert o ai. induction fuel as [|fuel IH]; intros o ai Hf; cbn [hc_parse]; destruct (Z.ltb_spec ai (zlen argv)); try done.
  - lia.
  - destruct (hc_parse_step argv o ai) as [[r|[o' ai']]|] eqn:E; cbn [mbind comp_bind]; try done.
    apply hc_parse_step_next in E. apply IH. lia.
Qed.

Lemma hc_parse_total_witness : hc_parse 2 [$"hc"; $"-n"; $"4"] hcopts0 1 <> Ret None.
Proof. apply (hc_parse_total [$"hc"; $"-n"; $"4"] hcopts0 1 2). vm_compute. discriminate. Defined.

(** The receiver counts every receive once; a frequency of 0 is a division by 0. *)
Theorem receiver_counts stat_freq r c :
  receiver_count 0 r c = UB /\
  (stat_freq <> 0 -> exists c' out, receiver_count stat_freq r c = Ret (c', out) /\
     rc_count c' + rc_bad c' + rc_empty c' = rc_count c + rc_bad c + rc_empty c + 1 /\ (out = None \/ out = Some c')).
Proof.
  split; [by unfold receiver_count|]. intros Hs. unfold receiver_count. rewrite (proj2 (Z.eqb_neq _ _) Hs).
  eexists _, _. split; [reflexivity|]. split; [destruct r as [m|]; [destruct (_ =? _)|]; cbn; lia|].
  destruct (_ =? 0); [by right|by left].
Qed.

(** The text of the sender fits the payload and the length includes its end. *)
Theorem sender_message mtype m buf pay count rcvd now rnd :
  m_tp_buf m = Some buf -> m_payload m = Some pay -> 0 <= pay -> pay + 200 <= zlen buf ->
  exists m' b, sender_fill mtype m (sender_text count rcvd now rnd) = Ret m' /\ m_tp_buf m' = Some b /\ 1 <= m_len m' <= 200 /\
    slice b pay (m_len m') = sender_text count rcvd now rnd ++ [0] /\ framed buf b pay 200.
Proof.
  intros Hb Hp H0 Hz. unfold sender_fill. rewrite Hb, Hp. cbn [deref mbind comp_bind]. set (t := sender_text count rcvd now rnd).
  assert (0 <= zlen t <= 199) as Zt.
  { split; [apply zlen_nonneg|]. unfold t, sender_text, snprintf, zlen. rewrite length_take. lia. }
  assert (zlen (t ++ [0]) = zlen t + 1) as Et by (rewrite zlen_app; done).
  destruct (put_ex buf pay (t ++ [0])) as (b & -> & S1 & F1); [lia|lia|]. rewrite Et in *. cbn [mbind comp_bind].
  eexists _, b. split; [reflexivity|]. split; [done|]. split; [cbn; lia|]. split; [exact S1|].
  eapply framed_weaken; [exact F1|lia|lia].
Qed.
