(* ===== verification/Si95.v ===== *)
(** The socket layer: the SI functions of src/src/rmr/si/src/si95.

    A context keeps a doubly linked list of transport blocks, one for each
    listen socket and session, and a map from descriptors to blocks for the
    senders.  Senders close a session by marking its block; only the thread in
    SIwait takes blocks off the list (SIbldpoll) and frees them.

    Blocks live in a store and are referred to by ids; a freed block is not in
    the store any more, so that a use of it is [UB].  The system calls are an
    interface ([Kernel]) whose laws are what their manual pages promise; socket
    options are left out.  [U] is the state the callbacks work on. *)

From S2P Require Import Prelude Bytes Tools RouteTable Send.

Definition MAX_FDS : Z := 2048.
Definition FD_SETSIZE : Z := 1024.
Definition MAX_CBS : Z := 8.
Definition MAX_RBUF : Z := 8192.
Definition TCP_DEVICE : Z := 0.
Definition UDP_DEVICE : Z := 1.
Definition TCP_LISTEN_PORT : Z := -1.
Definition SOCK_STREAM : Z := 1.
Definition SOCK_DGRAM : Z := 2.
Definition IPPROTO_TCP : Z := 6.
Definition IPPROTO_UDP : Z := 17.
Definition AI_PASSIVE : Z := 1.
Definition AI_ADDRCONFIG : Z := 32.

Definition GIF_SHUTDOWN : Z := 1.
Definition TPF_LISTENFD : Z := 1.
Definition TPF_SESSION : Z := 2.
Definition TPF_UNBIND : Z := 4.
Definition TPF_DRAIN : Z := 8.
Definition TPF_DELETE : Z := 16.
Definition TPF_SAFEC : Z := 32.
Definition TPF_ABORT : Z := 64.

Definition SI_CB_CDATA : Z := 2.
Definition SI_CB_SECURITY : Z := 4.
Definition SI_CB_CONN : Z := 5.
Definition SI_CB_DISC : Z := 6.
Definition SI_RET_OK : Z := 0.
Definition SI_RET_ERROR : Z := -1.
Definition SI_RET_UNREG : Z := 1.
Definition SI_RET_QUIT : Z := 2.

Definition EINTR : Z := 4.
Definition EBADFD : Z := 77.

Definition flag_on (flags f : Z) : bool := negb (Z.land flags f =? 0).

(** ** System calls *)

(** [k_open]: the descriptors that are open; [k_wire]: what was accepted for
    sending on a descriptor since it was opened; [k_read]: what was read from it. *)
Class KernelOps (K : Type) := {
  k_getaddrinfo : list Z -> option (list Z) -> Z -> Z -> Z -> Z -> option (list Z);  (* flags family type proto *)
  k_socket : K -> Z * K;
  k_bind : K -> Z -> list Z -> Z * K;
  k_listen : K -> Z -> Z * K;
  k_connect : K -> Z -> list Z -> Z * K;
  k_getsockname : K -> Z -> option (list Z);
  k_accept : K -> Z -> Z * list Z * K;                   (* descriptor, peer *)
  k_close : K -> Z -> K;
  k_writable : K -> Z -> Z * bool * K;                   (* select for one descriptor: result, exception *)
  k_select : K -> gset Z -> gset Z -> gset Z -> Z * Z * (gset Z * gset Z * gset Z) * K;  (* result, errno, sets *)
  k_send : K -> Z -> list Z -> Z * Z * K;                (* result, errno *)
  k_recv : K -> Z -> Z -> Z * list Z * K;                (* result, data *)
  k_limit : Z;
  k_open : K -> Z -> bool;
  k_wire : K -> Z -> list Z;
  k_read : K -> Z -> list Z
}.

Section kernel.
Context {K : Type} `{KernelOps K}.

Definition same_fd (k k' : K) (fd : Z) : Prop :=
  k_open k' fd = k_open k fd /\ k_wire k' fd = k_wire k fd /\ k_read k' fd = k_read k fd.
Definition keeps (k k' : K) : Prop := forall fd, same_fd k k' fd.
Definition opens (k : K) (fd : Z) (k' : K) : Prop :=
  0 <= fd < k_limit /\ k_open k fd = false /\ k_open k' fd = true /\ k_wire k' fd = [] /\ k_read k' fd = [] /\
  forall fd', fd' <> fd -> same_fd k k' fd'.
End kernel.

Class Kernel (K : Type) `{KernelOps K} : Prop := {
  k_socket_law k fd k' : k_socket k = (fd, k') -> if 0 <=? fd then opens k fd k' else keeps k k';
  k_accept_law k l fd a k' : k_accept k l = (fd, a, k') -> if 0 <=? fd then opens k fd k' else keeps k k';
  k_bind_law k fd a st k' : k_bind k fd a = (st, k') -> keeps k k';
  k_listen_law k fd st k' : k_listen k fd = (st, k') -> keeps k k';
  k_connect_law k fd a st k' : k_connect k fd a = (st, k') -> keeps k k';
  k_writable_law k fd st x k' : k_writable k fd = (st, x, k') -> keeps k k';
  k_select_law k r w x st er s k' : k_select k r w x = (st, er, s, k') -> keeps k k' /\ s.1.1 ⊆ r /\ s.1.2 ⊆ w /\ s.2 ⊆ x;
  k_close_law k fd : k_open (k_close k fd) fd = false /\ forall fd', fd' <> fd -> same_fd k (k_close k fd) fd';
  k_send_law k fd b st er k' : k_send k fd b = (st, er, k') ->
    -1 <= st <= zlen b /\ (b <> [] -> st <> 0) /\
    k_open k' fd = k_open k fd /\ k_read k' fd = k_read k fd /\ k_wire k' fd = k_wire k fd ++ take (Z.to_nat st) b /\
    forall fd', fd' <> fd -> same_fd k k' fd';
  k_recv_law k fd n st b k' : k_recv k fd n = (st, b, k') ->
    st <= Z.max 0 n /\ zlen b = Z.max 0 st /\
    k_open k' fd = k_open k fd /\ k_wire k' fd = k_wire k fd /\ k_read k' fd = k_read k fd ++ b /\
    forall fd', fd' <> fd -> same_fd k k' fd'
}.

(** ** Data *)

Record tp_blk := MkTp {
  tp_next : option nat;
  tp_prev : option nat;
  tp_fd : Z;
  tp_flags : Z;
  tp_type : Z;
  tp_addr : option (list Z);
  tp_paddr : option (list Z);
  tp_squeue : list (list Z);
  tp_sent : Z;
  tp_rcvd : Z
}.

(** What a callback is told: bytes of a session, its end, the address to admit,
    a new session, a datagram and its sender, a line from the keyboard. *)
Inductive cb_arg :=
| CbData (fd : Z) (buf : list Z)
| CbDisc (fd : Z)
| CbSec (addr : list Z)
| CbConn (fd : Z) (addr : list Z)
| CbRaw (buf addr : list Z)
| CbKbd (line : list Z).

Definition callback (U : Type) : Type := U -> cb_arg -> comp (Z * U).

Record ginfo_blk (K U : Type) := MkGi {
  g_tplist : option nat;
  g_blks : gmap nat tp_blk;
  g_fresh : nat;
  g_readfds : gset Z;
  g_writefds : gset Z;
  g_execpfds : gset Z;
  g_cbtab : gmap Z (callback U);
  g_fdcount : Z;
  g_flags : Z;
  g_tcp_flags : Z;
  g_map : gmap Z nat;               (* tp_map, 0..MAX_FDS-1 *)
  g_k : K
}.
Arguments MkGi {K U}.
Arguments g_tplist {K U}.
Arguments g_blks {K U}.
Arguments g_fresh {K U}.
Arguments g_readfds {K U}.
Arguments g_writefds {K U}.
Arguments g_execpfds {K U}.
Arguments g_cbtab {K U}.
Arguments g_fdcount {K U}.
Arguments g_flags {K U}.
Arguments g_tcp_flags {K U}.
Arguments g_map {K U}.
Arguments g_k {K U}.

Definition or_flags (b : tp_blk) (f : Z) : tp_blk :=
  MkTp (tp_next b) (tp_prev b) (tp_fd b) (Z.lor (tp_flags b) f) (tp_type b) (tp_addr b) (tp_paddr b) (tp_squeue b) (tp_sent b) (tp_rcvd b).
Definition set_fd (b : tp_blk) (fd : Z) : tp_blk :=
  MkTp (tp_next b) (tp_prev b) fd (tp_flags b) (tp_type b) (tp_addr b) (tp_paddr b) (tp_squeue b) (tp_sent b) (tp_rcvd b).
Definition set_next (b : tp_blk) (n : option nat) : tp_blk :=
  MkTp n (tp_prev b) (tp_fd b) (tp_flags b) (tp_type b) (tp_addr b) (tp_paddr b) (tp_squeue b) (tp_sent b) (tp_rcvd b).
Definition set_prev (b : tp_blk) (p : option nat) : tp_blk :=
  MkTp (tp_next b) p (tp_fd b) (tp_flags b) (tp_type b) (tp_addr b) (tp_paddr b) (tp_squeue b) (tp_sent b) (tp_rcvd b).
Definition set_sock (b : tp_blk) (fd type : Z) (addr paddr : option (list Z)) : tp_blk :=
  MkTp (tp_next b) (tp_prev b) fd (tp_flags b) type addr paddr (tp_squeue b) (tp_sent b) (tp_rcvd b).
Definition set_squeue (b : tp_blk) (q : list (list Z)) : tp_blk :=
  MkTp (tp_next b) (tp_prev b) (tp_fd b) (tp_flags b) (tp_type b) (tp_addr b) (tp_paddr b) q (tp_sent b) (tp_rcvd b).
Definition count_sent (b : tp_blk) : tp_blk :=
  MkTp (tp_next b) (tp_prev b) (tp_fd b) (tp_flags b) (tp_type b) (tp_addr b) (tp_paddr b) (tp_squeue b) (tp_sent b + 1) (tp_rcvd b).
Definition count_rcvd (b : tp_blk) : tp_blk :=
  MkTp (tp_next b) (tp_prev b) (tp_fd b) (tp_flags b) (tp_type b) (tp_addr b) (tp_paddr b) (tp_squeue b) (tp_sent b) (tp_rcvd b + 1).

(** The block of SInew( TP_BLK ). *)
Definition new_tp : tp_blk := MkTp None None (-1) TPF_UNBIND (-1) None None [] 0 0.

Section si.
Context {K U : Type} `{KernelOps K}.
Abbreviation si := (ginfo_blk K U).
Implicit Types (g : si) (b : tp_blk).

Definition upd_g g (l : option nat) (blks : gmap nat tp_blk) (fresh : nat) (fl : Z) (m : gmap Z nat) (k : K) : si :=
  MkGi l blks fresh (g_readfds g) (g_writefds g) (g_execpfds g) (g_cbtab g) (g_fdcount g) fl (g_tcp_flags g) m k.
Definition set_blks g blks : si := upd_g g (g_tplist g) blks (g_fresh g) (g_flags g) (g_map g) (g_k g).
Definition set_tplist g l : si := upd_g g l (g_blks g) (g_fresh g) (g_flags g) (g_map g) (g_k g).
Definition set_map g m : si := upd_g g (g_tplist g) (g_blks g) (g_fresh g) (g_flags g) m (g_k g).
Definition set_k g k : si := upd_g g (g_tplist g) (g_blks g) (g_fresh g) (g_flags g) (g_map g) k.
Definition or_gflags g f : si := upd_g g (g_tplist g) (g_blks g) (g_fresh g) (Z.lor (g_flags g) f) (g_map g) (g_k g).
Definition set_cbtab g t : si :=
  MkGi (g_tplist g) (g_blks g) (g_fresh g) (g_readfds g) (g_writefds g) (g_execpfds g) t (g_fdcount g) (g_flags g) (g_tcp_flags g) (g_map g) (g_k g).
Definition set_poll g (r w x : gset Z) (n : Z) : si :=
  MkGi (g_tplist g) (g_blks g) (g_fresh g) r w x (g_cbtab g) n (g_flags g) (g_tcp_flags g) (g_map g) (g_k g).
Definition set_tcp_flags g f : si :=
  MkGi (g_tplist g) (g_blks g) (g_fresh g) (g_readfds g) (g_writefds g) (g_execpfds g) (g_cbtab g) (g_fdcount g) (g_flags g) f (g_map g) (g_k g).

(** A write through a block pointer. *)
Definition upd_blk g (i : nat) (f : tp_blk -> tp_blk) : comp si :=
  b ← deref (g_blks g !! i); Ret (set_blks g (<[i := f b]> (g_blks g))).

(** ** Set up *)

Definition SIinitialise (k : K) : si := MkGi None ∅ 0 ∅ ∅ ∅ ∅ 0 0 0 ∅ k.

Definition SIset_tflags g (mask : Z) : si := set_tcp_flags g (Z.lor (g_tcp_flags g) mask).
Definition SIclr_tflags g (mask : Z) : si := set_tcp_flags g (Z.land (g_tcp_flags g) (Z.lnot mask)).

Definition SIcbreg g (type : Z) (fptr : option (callback U)) : si :=
  if (0 <=? type) && (type <? MAX_CBS)
  then set_cbtab g (match fptr with Some f => <[type := f]> (g_cbtab g) | None => delete type (g_cbtab g) end)
  else g.

Definition SIcbstat g (status type : Z) : si :=
  if status =? SI_RET_UNREG then set_cbtab g (delete type (g_cbtab g))
  else if status =? SI_RET_QUIT then or_gflags g GIF_SHUTDOWN
  else g.

(** ** Blocks *)

Definition SInew g : nat * si :=
  (g_fresh g, upd_g g (g_tplist g) (<[g_fresh g := new_tp]> (g_blks g)) (S (g_fresh g)) (g_flags g) (g_map g) (g_k g)).

Definition free_blk g (i : nat) : comp si :=
  _ ← deref (g_blks g !! i); Ret (set_blks g (delete i (g_blks g))).

Definition SItrash g (i : nat) : comp si :=
  b ← deref (g_blks g !! i);
  free_blk (if 0 <=? tp_fd b then set_k g (k_close (g_k g) (tp_fd b)) else g) i.

(** Closed with a reset or normally: the descriptor is closed. *)
Definition siabort_conn (k : K) (fd : Z) : K := k_close k fd.

Definition SIterm g (i : nat) : comp si :=
  b ← deref (g_blks g !! i);
  let g :=
    if 0 <=? tp_fd b then
      let k := if flag_on (tp_flags b) TPF_ABORT then siabort_conn (g_k g) (tp_fd b) else k_close (g_k g) (tp_fd b) in
      let g := set_k g k in
      if tp_fd b <? MAX_FDS then set_map g (delete (tp_fd b) (g_map g)) else g
    else g in
  upd_blk g i (fun b => or_flags (set_fd b (-1)) TPF_DELETE).

Definition SIrm_tpb g (i : nat) : comp si :=
  b ← deref (g_blks g !! i);
  g ← match tp_prev b, tp_next b with
      | None, None => Ret g
      | Some p, nx =>
          g ← upd_blk g p (fun x => set_next x nx);
          match nx with Some n => upd_blk g n (fun x => set_prev x (Some p)) | None => Ret g end
      | None, Some n =>
          upd_blk (set_tplist g (Some n)) n (fun x => set_prev x None)
      end;
  free_blk g i.

(** A block becomes the head of the list. *)
Definition link_head g (i : nat) : comp si :=
  let head := g_tplist g in
  g ← upd_blk g i (fun b => set_next b head);
  g ← match head with Some h => upd_blk g h (fun b => set_prev b (Some i)) | None => Ret g end;
  Ret (set_tplist g (Some i)).

(** A search along the list, with fuel for every block: a longer chain is a
    cycle. *)
Fixpoint find_blk (fuel : nat) g (p : tp_blk -> bool) (cur : option nat) : comp (option nat) :=
  match cur with
  | None => Ret None
  | Some i =>
      match fuel with
      | O => UB
      | S fuel' => b ← deref (g_blks g !! i); if p b then Ret (Some i) else find_blk fuel' g p (tp_next b)
      end
  end.

Definition find_tp g (p : tp_blk -> bool) : comp (option nat) := find_blk (size (g_blks g)) g p (g_tplist g).

(** The block of a descriptor, as SIsendt and SIclose find it. *)
Definition tp_of_fd g (fd : Z) : comp (option nat) :=
  if fd <? MAX_FDS then Ret (g_map g !! fd) else find_tp g (fun b => tp_fd b =? fd).

Definition SImap_fd g (fd : Z) (i : nat) : si :=
  if fd <? MAX_FDS then set_map g (<[fd := i]> (g_map g)) else g.

(** ** Addresses *)

(** The result is the length and the address. *)
Definition SIgenaddr (target : list Z) (proto family socktype : Z) : Z * option (list Z) :=
  let dstr := skip_space target in
  let ask host port flags :=
    match k_getaddrinfo host port flags family socktype proto with
    | Some a => (zlen a, Some a)
    | None => (0, None)
    end in
  match dstr with
  | 58 :: port => ask [] (Some port) AI_PASSIVE
  | 91 :: d =>
      match strchr (d ++ [0]) 0 93 with
      | None => (-1, None)
      | Some e =>
          match drop (S e) d with
          | 58 :: port => ask (take e d) (Some port) AI_ADDRCONFIG
          | _ => ask (take e d) None AI_ADDRCONFIG
          end
      end
  | _ =>
      match strchr (dstr ++ [0]) 0 58 with
      | Some e => ask (take e dstr) (Some (drop (S e) dstr)) AI_ADDRCONFIG
      | None => ask dstr None AI_ADDRCONFIG
      end
  end.

(** ** Sessions we start *)

Definition need_smartc (abuf : list Z) : bool :=
  match strchr (abuf ++ [0]) 0 58 with
  | Some e => let v := atoi (drop (S e) abuf) in negb ((v <? 32767) || negb (Z.rem v 2 =? 0))
  | None => true
  end.

Definition SIconn_prep g (type : Z) (abuf : list Z) (family : Z) : comp (option nat * si) :=
  let '(i, g) := SInew g in
  let '(ty, protocol) := if type =? UDP_DEVICE then (SOCK_DGRAM, IPPROTO_UDP) else (SOCK_STREAM, IPPROTO_TCP) in
  let '(alen, addr) := SIgenaddr abuf protocol family ty in
  if alen <=? 0 then g ← free_blk g i; Ret (None, g)
  else
    let '(fd, k) := k_socket (g_k g) in
    let g := set_k g k in
    if SI_OK <=? fd then
      g ← upd_blk g i (fun b => set_sock b fd ty None addr);
      g ← (if need_smartc abuf then upd_blk g i (fun b => or_flags b TPF_SAFEC) else Ret g);
      Ret (Some i, g)
    else g ← SItrash g i; Ret (None, g).

(** Connected and not to ourselves; a connection to ourselves is closed. *)
Definition safe_connect (k : K) (fd : Z) (addr : list Z) : Z * K :=
  let '(state, k) := k_connect k fd addr in
  if negb (state =? 0) then (state, k)
  else match k_getsockname k fd with
       | Some caddr => if bool_decide (caddr = addr) then (-1, siabort_conn k fd) else (0, k)
       | None => (-1, siabort_conn k fd)
       end.

Definition SIconnect g (abuf : list Z) : comp (Z * si) :=
  '(tp, g) ← SIconn_prep g TCP_DEVICE abuf 0;
  match tp with
  | None => Ret (SI_ERROR, g)
  | Some i =>
      b ← deref (g_blks g !! i);
      let taddr := default [] (tp_paddr b) in
      let '(st, k) :=
        if flag_on (tp_flags b) TPF_SAFEC then safe_connect (g_k g) (tp_fd b) taddr
        else let '(st, k) := k_connect (g_k g) (tp_fd b) taddr in
             (st, if st =? 0 then k else k_close k (tp_fd b)) in
      let g := set_k g k in
      if st =? 0 then
        g ← upd_blk g i (fun b => or_flags b TPF_SESSION);
        g ← link_head g i;
        Ret (tp_fd b, SImap_fd g (tp_fd b) i)
      else
        g ← upd_blk g i (fun b => set_fd b (-1));
        g ← SItrash g i;
        Ret (SI_ERROR, g)
  end.

(** ** Listening *)

Definition SIlisten_prep g (type : Z) (abuf : list Z) (family : Z) : comp (option nat * si) :=
  let '(i, g) := SInew g in
  let '(ty, protocol) := if type =? UDP_DEVICE then (SOCK_DGRAM, IPPROTO_UDP) else (SOCK_STREAM, IPPROTO_TCP) in
  let '(alen, addr) := SIgenaddr abuf protocol family ty in
  if alen <=? 0 then g ← free_blk g i; Ret (None, g)
  else
    let '(fd, k) := k_socket (g_k g) in
    let g := set_k g k in
    g ← upd_blk g i (fun b => set_sock b fd ty None None);
    if SI_OK <=? fd then
      let '(status, k) := k_bind (g_k g) fd (default [] addr) in
      let g := set_k g k in
      if status =? SI_OK then g ← upd_blk g i (fun b => set_sock b fd ty addr None); Ret (Some i, g)
      else g ← SItrash (set_k g (k_close (g_k g) fd)) i; Ret (None, g)
    else g ← SItrash g i; Ret (None, g).

Definition SIlistener g (type : Z) (abuf : list Z) : comp (Z * si) :=
  '(tp, g) ← SIlisten_prep g type abuf 0;
  match tp with
  | None => Ret (SI_ERROR, g)
  | Some i =>
      b ← deref (g_blks g !! i);
      if type =? TCP_DEVICE then
        let '(status, k) := k_listen (g_k g) (tp_fd b) in
        let g := set_k g k in
        if status <? SI_OK then Ret (SI_ERROR, g)
        else
          g ← upd_blk g i (fun b => or_flags b TPF_LISTENFD);
          g ← link_head g i; Ret (tp_fd b, g)
      else g ← link_head g i; Ret (tp_fd b, g)
  end.

(** ** Closing *)

Definition SIclose g (fd : Z) : comp (Z * si) :=
  tp ← (if 0 <=? fd then tp_of_fd g fd
        else if fd =? TCP_LISTEN_PORT then find_tp g (fun b => negb (tp_flags b =? 0))   (* flags && TPF_LISTENFD *)
        else find_tp g (fun b => tp_type b =? SOCK_DGRAM));
  match tp with
  | None => Ret (SI_ERROR, g)
  | Some i =>
      b ← deref (g_blks g !! i);
      match tp_squeue b with
      | [] =>
          g ← upd_blk g i (fun b => or_flags (or_flags b TPF_UNBIND) TPF_DELETE);
          g ← SIterm g i; Ret (SI_OK, g)
      | _ => g ← upd_blk g i (fun b => or_flags b TPF_DRAIN); Ret (SI_OK, g)
      end
  end.

Fixpoint shut_all (fuel : nat) g (flags : Z) (cur : option nat) : comp si :=
  match cur with
  | None => Ret g
  | Some i =>
      match fuel with
      | O => UB
      | S fuel' =>
          g ← upd_blk g i (fun b => or_flags b (Z.lor TPF_UNBIND flags));
          g ← SIterm g i;
          b ← deref (g_blks g !! i);
          shut_all fuel' g flags (tp_next b)
      end
  end.

Definition sishutdown g (flags : Z) : comp si :=
  shut_all (size (g_blks g)) (or_gflags g GIF_SHUTDOWN) flags (g_tplist g).
Definition SIshutdown g : comp si := sishutdown g 0.
Definition SIabort g : comp si := sishutdown g TPF_ABORT.

(** ** Sending *)

(** The loop that sends everything.  The result is the status, errno and the
    kernel; [None] when the fuel does not suffice. *)
Fixpoint send_all (fuel : nat) (k : K) (fd : Z) (ubuf : list Z) (sidx ulen status errno : Z) : option (Z * Z * K) :=
  if 0 <? ulen then
    match fuel with
    | O => None
    | S fuel' =>
        let '(st, er, k) := k_send k fd (slice ubuf sidx ulen) in
        if 0 <=? st then send_all fuel' k fd ubuf (sidx + st) (ulen - st) SI_OK errno
        else if negb (er =? EINTR) || negb (er =? EAGAIN) then Some (SI_ERROR, er, k)
        else send_all fuel' k fd ubuf sidx ulen st er
    end
  else Some (status, errno, k).

(** The result is the status and errno. *)
Definition SIsendt g (fd : Z) (ubuf : list Z) : comp (Z * Z * si) :=
  if fd <? 0 then Ret (SI_ERROR, EBADFD, g) else
  tp ← tp_of_fd g fd;
  match tp with
  | None => Ret (SI_ERROR, EBADFD, g)
  | Some i =>
      b ← deref (g_blks g !! i);
      let fd := tp_fd b in
      if (fd <? 0) || (FD_SETSIZE <=? fd) then Ret (SI_ERROR, EBADFD, g) else
      g ← upd_blk g i count_sent;
      let '(sel, exc, k) := k_writable (g_k g) fd in
      let g := set_k g k in
      if 0 <? sel then
        if exc then g ← SIterm g i; Ret (SI_ERROR, EBADFD, g)
        else match send_all (length ubuf) (g_k g) fd ubuf 0 (zlen ubuf) SI_ERROR 0 with
             | Some (st, er, k) => Ret (st, er, set_k g k)
             | None => UB
             end
      else Ret (SI_ERR_BLOCKED, EBUSY, g)
  end.

(** What was queued for a session goes out when it can; nothing queues any more. *)
Definition SIsend g (i : nat) : comp si :=
  b ← deref (g_blks g !! i);
  match tp_squeue b with
  | [] => Ret g
  | d :: q =>
      let '(_, _, k) := k_send (g_k g) (tp_fd b) d in
      g ← upd_blk (set_k g k) i (fun b => set_squeue b q);
      if flag_on (tp_flags b) TPF_DRAIN && match q with [] => true | _ => false end then SIterm g i else Ret g
  end.

(** ** The receiving thread *)

(** A descriptor that does not fit is outside of the set's memory. *)
Definition FD_SET (fd : Z) (s : gset Z) : comp (gset Z) :=
  if (0 <=? fd) && (fd <? FD_SETSIZE) then Ret ({[fd]} ∪ s) else UB.
Definition FD_ISSET (fd : Z) (s : gset Z) : comp bool :=
  if (0 <=? fd) && (fd <? FD_SETSIZE) then Ret (bool_decide (fd ∈ s)) else UB.

Definition poll_blk g (i : nat) : comp si :=
  b ← deref (g_blks g !! i);
  if flag_on (tp_flags b) TPF_DELETE then
    g ← (if 0 <=? tp_fd b then SIterm g i else Ret g);
    SIrm_tpb g i
  else if 0 <=? tp_fd b then
    x ← FD_SET (tp_fd b) (g_execpfds g);
    r ← (if flag_on (tp_flags b) TPF_DRAIN then Ret (g_readfds g) else FD_SET (tp_fd b) (g_readfds g));
    w ← (match tp_squeue b with [] => Ret (g_writefds g) | _ => FD_SET (tp_fd b) (g_writefds g) end);
    Ret (set_poll g r w x (if g_fdcount g <=? tp_fd b then tp_fd b + 1 else g_fdcount g))
  else Ret g.

Fixpoint poll_all (fuel : nat) g (cur : option nat) : comp si :=
  match cur with
  | None => Ret g
  | Some i =>
      b ← deref (g_blks g !! i);
      match fuel with
      | O => UB
      | S fuel' => g ← poll_blk g i; poll_all fuel' g (tp_next b)
      end
  end.

Definition SIbldpoll g : comp si := poll_all (size (g_blks g)) (set_poll g ∅ ∅ ∅ (-1)) (g_tplist g).

(** Drive a callback and act on its status. *)
Definition drive g (u : U) (type : Z) (arg : cb_arg) : comp (option Z * si * U) :=
  match g_cbtab g !! type with
  | None => Ret (None, g, u)
  | Some cb => '(status, u) ← cb u arg; Ret (Some status, SIcbstat g status type, u)
  end.

(** The end of SInewsession: the session is flagged, announced and mapped. *)
Definition session_up (todot : list Z -> list Z) g (u : U) (i : nat) (fd : Z) (addr : list Z) : comp (Z * si * U) :=
  g ← upd_blk g i (fun b => or_flags b TPF_SESSION);
  '(_, g, u) ← drive g u SI_CB_CONN (CbConn fd (todot addr));
  Ret (SI_OK, SImap_fd g fd i, u).

(** A connection request on the listen block [l].  The security callback can
    refuse it, in which case its status is not looked at further. *)
Definition SInewsession (todot : list Z -> list Z) g (u : U) (l : nat) : comp (Z * si * U) :=
  lb ← deref (g_blks g !! l);
  let '(fd, addr, k) := k_accept (g_k g) (tp_fd lb) in
  let g := set_k g k in
  if fd <? 0 then Ret (SI_ERROR, g, u) else
  let '(i, g) := SInew g in
  g ← link_head g i;
  g ← upd_blk g i (fun b => set_sock b fd (tp_type b) None (Some addr));
  match g_cbtab g !! SI_CB_SECURITY with
  | None => session_up todot g u i fd addr
  | Some cb =>
      '(status, u) ← cb u (CbSec (todot addr));
      if status =? SI_RET_ERROR then g ← SIterm g i; Ret (SI_ERROR, g, u)
      else session_up todot (SIcbstat g status SI_CB_SECURITY) u i fd addr
  end.

(** What SIwait does for one block after select. *)
Definition serve (todot : list Z -> list Z) g (u : U) (status : Z) (i : nat) : comp (Z * si * U) :=
  b ← deref (g_blks g !! i);
  if tp_fd b <? 0 then Ret (status, g, u) else
  g ← (match tp_squeue b with
       | [] => Ret g
       | _ => w ← FD_ISSET (tp_fd b) (g_writefds g); if (w : bool) then SIsend g i else Ret g
       end);
  b ← deref (g_blks g !! i);
  x ← FD_ISSET (tp_fd b) (g_execpfds g);
  if (x : bool) then Ret (status, g, u) else
  r ← FD_ISSET (tp_fd b) (g_readfds g);
  if negb r then Ret (status, g, u)
  else
    let fd := tp_fd b in
    g ← upd_blk g i count_rcvd;
    if flag_on (tp_flags b) TPF_LISTENFD then SInewsession todot g u i
    else
      let '(st, data, k) := k_recv (g_k g) fd MAX_RBUF in
      let g := set_k g k in
      if (0 <? st) && negb (flag_on (tp_flags b) TPF_DRAIN) then
        '(s, g, u) ← drive g u SI_CB_CDATA (CbData fd data);
        Ret (default st s, g, u)
      else
        '(s, g, u) ← drive g u SI_CB_DISC (CbDisc fd);
        g ← SIterm g i;
        Ret (default st s, g, u).

Fixpoint serve_all (todot : list Z -> list Z) (fuel : nat) g (u : U) (status : Z) (cur : option nat) : comp (Z * si * U) :=
  match cur with
  | None => Ret (status, g, u)
  | Some i =>
      match fuel with
      | O => UB
      | S fuel' =>
          b ← deref (g_blks g !! i);
          '(status, g, u) ← serve todot g u status i;
          serve_all todot fuel' g u status (tp_next b)
      end
  end.

(** One round of SIwait. *)
Definition wait_round (todot : list Z -> list Z) g (u : U) (status : Z) : comp (Z * si * U) :=
  g ← SIbldpoll g;
  let '(pstat, errno, (r, w, x), k) := k_select (g_k g) (g_readfds g) (g_writefds g) (g_execpfds g) in
  let g := set_poll (set_k g k) r w x (g_fdcount g) in
  let g := if (pstat <? 0) && negb (errno =? EINTR) then or_gflags (set_poll g r w x 0) GIF_SHUTDOWN else g in
  if (0 <? pstat) && negb (flag_on (g_flags g) GIF_SHUTDOWN)
  then serve_all todot (size (g_blks g)) g u status (g_tplist g)
  else Ret (status, g, u).

(** [None]: still waiting after [fuel] rounds. *)
Fixpoint wait_loop (todot : list Z -> list Z) (fuel : nat) g (u : U) (status : Z) : comp (option (Z * si * U)) :=
  match fuel with
  | O => Ret None
  | S fuel' =>
      '(status, g, u) ← wait_round todot g u status;
      match g_tplist g with
      | Some _ => if flag_on (g_flags g) GIF_SHUTDOWN then Ret (Some (status, g, u)) else wait_loop todot fuel' g u status
      | None => Ret (Some (status, g, u))
      end
  end.

(** The clean up belongs to the test for an empty list. *)
Definition SIwait (todot : list Z -> list Z) (fuel : nat) g (u : U) : comp (option (Z * si * U)) :=
  if flag_on (g_flags g) GIF_SHUTDOWN then Ret (Some (SI_ERROR, g, u)) else
  x ← wait_loop todot fuel g u SI_OK;
  match x with
  | None => Ret None
  | Some (status, g, u) =>
      match g_tplist g with
      | None => if flag_on (g_flags g) GIF_SHUTDOWN then g ← SIshutdown g; Ret (Some (SI_ERROR, g, u))
                else Ret (Some (SI_OK, g, u))
      | Some _ => Ret (Some (status, g, u))
      end
  end.
End si.
