(* ===== verification/Si95Inv.v ===== *)
(** The invariant of the socket layer: lemmas about Si95.v.

    [dlist] relates the block pointers with a list of ids, [si_ok] is the
    invariant of a context: the list is well formed, sessions are found through
    the descriptor map, and blocks own their descriptors.  [view] is what can be
    observed of a descriptor; [contract] is what the callbacks have to do for a
    relation between their state and the streams to hold after every round.
    There is a lemma for each operation: it returns, and keeps the invariant. *)

From S2P Require Import Prelude Bytes Tools RouteTable Send Si95.

(** ** Flags *)

Lemma flag_lor x f f' : flag_on (Z.lor x f) f' = flag_on x f' || flag_on f f'.
Proof.
  unfold flag_on. rewrite Z.land_lor_distr_l.
  destruct (Z.eqb_spec (Z.lor (Z.land x f') (Z.land f f')) 0) as [E|E].
  - apply Z.lor_eq_0_iff in E as [-> ->]. done.
  - destruct (Z.eqb_spec (Z.land x f') 0) as [E1|]; [|done]. destruct (Z.eqb_spec (Z.land f f') 0) as [E2|]; [|done].
    by rewrite E1, E2 in E.
Qed.

(** ** Doubly linked lists *)

Definition prev_of (l : list nat) (k : nat) : option nat := match k with O => None | S k' => l !! k' end.

Definition dlist (blks : gmap nat tp_blk) (head : option nat) (l : list nat) : Prop :=
  NoDup l /\ head = l !! 0%nat /\
  forall k i, l !! k = Some i -> exists b, blks !! i = Some b /\ tp_next b = l !! S k /\ tp_prev b = prev_of l k.

Lemma dlist_same blks blks' h l :
  dlist blks h l -> (forall i b, i ∈ l -> blks !! i = Some b -> exists b', blks' !! i = Some b' /\ tp_next b' = tp_next b /\ tp_prev b' = tp_prev b) ->
  dlist blks' h l.
Proof.
  intros (Hn & Hh & Hl) Hb. split_and!; [done..|]. intros k i Hk. destruct (Hl k i Hk) as (b & Hi & H1 & H2).
  destruct (Hb i b) as (b' & Hi' & E1 & E2); [by eapply list_elem_of_lookup_2|done|]. exists b'. by rewrite E1, E2.
Qed.

Lemma dlist_upd blks h l i b b' :
  dlist blks h l -> blks !! i = Some b -> tp_next b' = tp_next b -> tp_prev b' = tp_prev b -> dlist (<[i := b']> blks) h l.
Proof.
  intros Hd Hi Hn Hp. eapply dlist_same; [done|]. intros j bj _ Hj. destruct (decide (i = j)) as [<-|].
  - rewrite lookup_insert_eq. exists b'. by simplify_eq.
  - rewrite lookup_insert_ne by done. by exists bj.
Qed.

Lemma dlist_get blks h l i : dlist blks h l -> i ∈ l -> exists b, blks !! i = Some b.
Proof. intros (_ & _ & Hl) [k Hk]%list_elem_of_lookup. destruct (Hl k i Hk) as (b & Hb & _). by exists b. Qed.

Lemma dlist_size blks h l : dlist blks h l -> (length l <= size blks)%nat.
Proof.
  intros Hd. pose proof Hd as (Hn & _ & _). rewrite <-(size_list_to_set (C := gset nat)) by done. rewrite <-size_dom.
  apply subseteq_size. intros i Hi%elem_of_list_to_set. apply elem_of_dom. eapply dlist_get in Hi as [b Hb]; [|done]. by exists b.
Qed.

(** A block is put in front. *)
Definition push_blks (blks : gmap nat tp_blk) (h : option nat) (i : nat) (x : tp_blk) : gmap nat tp_blk :=
  match h with Some j => alter (fun y => set_prev y (Some i)) j (<[i := x]> blks) | None => <[i := x]> blks end.

Lemma push_head blks h i x : h <> Some i -> push_blks blks h i x !! i = Some x.
Proof.
  intros Hh. unfold push_blks. destruct h as [j|]; [|by rewrite lookup_insert_eq]. rewrite lookup_alter_ne by congruence. by rewrite lookup_insert_eq.
Qed.

Lemma push_other blks h i x j y : j <> i -> blks !! j = Some y ->
  push_blks blks h i x !! j = Some (if decide (h = Some j) then set_prev y (Some i) else y).
Proof.
  intros Hne Hj. unfold push_blks. destruct h as [j'|]; [|by rewrite lookup_insert_ne, decide_False by done].
  destruct (decide (j' = j)) as [->|].
  - by rewrite lookup_alter_eq, lookup_insert_ne, Hj, decide_True by done.
  - by rewrite lookup_alter_ne, lookup_insert_ne, decide_False by congruence.
Qed.

Lemma push_replace blks h i x y : h <> Some i -> <[i := y]> (push_blks blks h i x) = push_blks blks h i y.
Proof.
  intros Hh. unfold push_blks. destruct h as [j|]; [|by rewrite insert_insert_eq]. rewrite <-alter_insert_ne by congruence. by rewrite insert_insert_eq.
Qed.

Lemma dlist_push blks h l i x :
  dlist blks h l -> i ∉ l -> tp_next x = h -> tp_prev x = None -> dlist (push_blks blks h i x) (Some i) (i :: l).
Proof.
  intros (Hn & Hh & Hl) Hi Hx Hp. split_and!; [by constructor|done|].
  assert (h <> Some i) as Hhi by (intros ->; apply Hi; by eapply list_elem_of_lookup_2).
  intros [|k] j Hk; cbn in Hk.
  - injection Hk as <-. rewrite push_head by done. exists x. split_and!; [done|by rewrite Hx|done].
  - destruct (Hl k j Hk) as (b & Hb & Hn' & Hp').
    rewrite (push_other _ _ _ _ _ b) by (done || intros ->; apply Hi; by eapply list_elem_of_lookup_2). eexists. split; [done|].
    case_decide as Hd; [|split; [done|]].
    + split; [done|]. cbn. assert (k = 0%nat) as ->; [|done]. apply (proj1 (NoDup_alt _) Hn k 0%nat j Hk). congruence.
    + rewrite Hp'. destruct k; [|done]. exfalso. change (l !! 0%nat = Some j) in Hk. congruence.
Qed.

(** A block is taken out: its neighbours are linked with each other. *)
Definition unlink (blks : gmap nat tp_blk) (b : tp_blk) : gmap nat tp_blk :=
  let blks := match tp_prev b with Some p => alter (fun x => set_next x (tp_next b)) p blks | None => blks end in
  match tp_next b with Some n => alter (fun x => set_prev x (tp_prev b)) n blks | None => blks end.

Lemma unlink_get blks b j x : blks !! j = Some x ->
  unlink blks b !! j =
    Some (let x := if decide (tp_prev b = Some j) then set_next x (tp_next b) else x in
          if decide (tp_next b = Some j) then set_prev x (tp_prev b) else x).
Proof.
  intros Hj. unfold unlink.
  assert (match tp_prev b with Some p => alter (fun x => set_next x (tp_next b)) p blks | None => blks end !! j =
    Some (if decide (tp_prev b = Some j) then set_next x (tp_next b) else x)) as E.
  { destruct (tp_prev b) as [p|]; [|by rewrite decide_False]. destruct (decide (p = j)) as [->|Hne].
    - by rewrite lookup_alter_eq, Hj, decide_True.
    - by rewrite lookup_alter_ne, decide_False by congruence. }
  destruct (tp_next b) as [n|]; cbn zeta; [|by rewrite E]. destruct (decide (n = j)) as [->|Hne].
  - by rewrite lookup_alter_eq, E, (decide_True (P := Some j = Some j)).
  - by rewrite lookup_alter_ne, (decide_False (P := Some n = Some j)) by congruence.
Qed.

Lemma delete_mem (l : list nat) k i j : NoDup l -> l !! k = Some i -> j ∈ delete k l <-> j ∈ l /\ j <> i.
Proof.
  intros Hn Hk. rewrite delete_take_drop. rewrite <-(take_drop_middle l k i Hk) in Hn.
  apply NoDup_app in Hn as (_ & Hd & Hn2). apply NoDup_cons in Hn2 as [Hi _].
  split.
  - intros Hj. split.
    + rewrite <-(take_drop_middle l k i Hk). apply elem_of_app. rewrite elem_of_cons. apply elem_of_app in Hj as [Hj|Hj]; auto.
    + intros ->. apply elem_of_app in Hj as [Hj|Hj]; [|done]. apply (Hd i Hj). left.
  - intros [Hj Hji]. rewrite <-(take_drop_middle l k i Hk) in Hj. apply elem_of_app.
    apply elem_of_app in Hj as [Hj|[Hj|Hj]%elem_of_cons]; [by left|done|by right].
Qed.

Lemma dlist_remove blks h l k i b :
  dlist blks h l -> l !! k = Some i -> blks !! i = Some b ->
  dlist (delete i (unlink blks b)) (match tp_prev b with None => tp_next b | Some _ => h end) (delete k l).
Proof.
  intros (Hn & Hh & Hl) Hk Hb. destruct (Hl k i Hk) as (b0 & Hb0 & En & Ep). simplify_eq.
  pose proof (proj1 (NoDup_alt l) Hn) as Hinj. split_and!.
  - rewrite delete_take_drop. rewrite <-(take_drop_middle l k i Hk) in Hn. apply NoDup_app in Hn as (H1 & Hd & H2).
    apply NoDup_cons in H2 as [_ H2]. apply NoDup_app. split_and!; [done| |done]. intros x Hx Hx'. apply (Hd x Hx). by right.
  - rewrite Ep, En. destruct k as [|k]; cbn [prev_of].
    + by rewrite list_lookup_delete_ge by lia.
    + rewrite list_lookup_delete_lt by lia. destruct (lookup_lt_is_Some_2 l k) as [p ->]; [|done].
      apply lookup_lt_Some in Hk. lia.
  - intros m j Hm. assert (exists m', l !! m' = Some j /\ m' <> k /\ m = (if decide (m' < k)%nat then m' else pred m')) as (m' & Hm' & Hmk & ->).
    { destruct (decide (m < k)%nat) as [Hlt|Hge].
      - rewrite list_lookup_delete_lt in Hm by done. exists m. rewrite decide_True by done. split_and!; [done|lia|done].
      - rewrite list_lookup_delete_ge in Hm by lia. exists (S m). rewrite decide_False by lia. split_and!; [done|lia|done]. }
    destruct (Hl m' j Hm') as (x & Hx & Hnx & Hpx). assert (i <> j) as Hij.
    { intros ->. apply Hmk. by eapply Hinj. }
    rewrite lookup_delete_ne by done. rewrite (unlink_get _ _ _ x) by done. eexists. split; [reflexivity|]. cbn zeta.
    rewrite En, Ep. clear Hm Hb Ep En.
    assert (forall q, l !! q = Some j -> q = m') as Hq by (intros q Hq; by eapply Hinj).
    assert (l !! S k = Some j <-> m' = S k) as Hs by (split; [intros E; symmetry; by apply Hq|by intros <-]).
    assert (prev_of l k = Some j <-> k = S m') as Hp.
    { destruct k as [|k]; cbn; [split; [done|lia]|]. split; [intros E; f_equal; by apply Hq|by intros [= ->]]. }
    split.
    + transitivity (if decide (k = S m') then l !! S k else l !! S m').
      { destruct (decide (prev_of l k = Some j)) as [E1|E1], (decide (l !! S k = Some j)) as [E2|E2], (decide (k = S m')) as [E3|E3];
          try (exfalso; tauto); done. }
      case_decide; case_decide; try lia.
      * rewrite list_lookup_delete_ge by lia. f_equal. lia.
      * rewrite list_lookup_delete_lt by lia. done.
      * rewrite list_lookup_delete_ge by lia. f_equal. lia.
    + transitivity (if decide (m' = S k) then prev_of l k else prev_of l m').
      { destruct (decide (prev_of l k = Some j)) as [E1|E1], (decide (l !! S k = Some j)) as [E2|E2], (decide (m' = S k)) as [E3|E3];
          try (exfalso; tauto); cbn; try lia; done. }
      destruct (decide (m' < k)%nat) as [Hlt|Hge]; case_decide as Hd; try lia.
      * destruct m' as [|m']; [done|]. cbn. by rewrite list_lookup_delete_lt by lia.
      * subst m'. cbn [pred]. destruct k as [|k]; [done|]. cbn. by rewrite list_lookup_delete_lt by lia.
      * destruct m' as [|[|m']]; [lia|lia|]. cbn. rewrite list_lookup_delete_ge by lia. done.
Qed.

(** ** The invariant *)

Section si_inv.
Context {K U : Type} `{Kernel K}.
Abbreviation si := (ginfo_blk K U).
Implicit Types (g : si) (k : K) (b : tp_blk).

(** What can be observed of a descriptor: nothing when it is closed. *)
Definition view k (fd : Z) : list Z * list Z := if k_open k fd then (k_wire k fd, k_read k fd) else ([], []).

Lemma same_view k k' fd : same_fd k k' fd -> view k' fd = view k fd.
Proof. intros (E1 & E2 & E3). unfold view. by rewrite E1, E2, E3. Qed.

Lemma keeps_view k k' fd : keeps k k' -> view k' fd = view k fd.
Proof. intros Hk. apply same_view, Hk. Qed.

Lemma opens_view k fd k' fd' : opens k fd k' -> view k' fd' = view k fd'.
Proof.
  intros (_ & E1 & E2 & E3 & E4 & Ho). destruct (decide (fd' = fd)) as [->|Hne]; [|by apply same_view, Ho].
  unfold view. by rewrite E1, E2, E3, E4.
Qed.

Lemma close_view k fd fd' : view (k_close k fd) fd' = if decide (fd' = fd) then ([], []) else view k fd'.
Proof.
  destruct (k_close_law k fd) as [Hc Ho]. case_decide as Hd; [subst; unfold view; by rewrite Hc|]. by apply same_view, Ho.
Qed.

Lemma keeps_open k k' fd : keeps k k' -> k_open k fd = true -> k_open k' fd = true.
Proof. intros Hk Ho. destruct (Hk fd) as [E _]. by rewrite E. Qed.

Lemma opens_open k fd k' fd' : opens k fd k' -> k_open k fd' = true -> k_open k' fd' = true.
Proof.
  intros (_ & E1 & E2 & _ & _ & Ho) Hf. destruct (decide (fd' = fd)) as [->|Hne]; [done|]. destruct (Ho fd' Hne) as [E _]. by rewrite E.
Qed.

Record si_ok (l : list nat) g : Prop := {
  so_list : dlist (g_blks g) (g_tplist g) l;
  so_fresh : forall i, is_Some (g_blks g !! i) -> (i < g_fresh g)%nat;
  so_live : forall i b, i ∈ l -> g_blks g !! i = Some b -> 0 <= tp_fd b -> k_open (g_k g) (tp_fd b) = true /\ tp_fd b < k_limit;
  so_del : forall i b, i ∈ l -> g_blks g !! i = Some b -> flag_on (tp_flags b) TPF_DELETE = true -> tp_fd b < 0;
  so_uniq : forall i j b b', i ∈ l -> j ∈ l -> g_blks g !! i = Some b -> g_blks g !! j = Some b' -> 0 <= tp_fd b ->
    tp_fd b = tp_fd b' -> i = j;
  so_map : forall fd i, g_map g !! fd = Some i -> 0 <= fd < MAX_FDS /\ i ∈ l /\
    exists b, g_blks g !! i = Some b /\ tp_fd b = fd /\ flag_on (tp_flags b) TPF_LISTENFD = false;
  so_sess : forall i b, i ∈ l -> g_blks g !! i = Some b -> 0 <= tp_fd b < MAX_FDS -> flag_on (tp_flags b) TPF_SESSION = true ->
    g_map g !! tp_fd b = Some i;
  so_queue : forall i b, i ∈ l -> g_blks g !! i = Some b -> tp_squeue b = []
}.

(** Nothing but the list, the blocks, the map and the kernel matters. *)
Lemma si_ok_same l g g' :
  si_ok l g -> g_tplist g' = g_tplist g -> g_blks g' = g_blks g -> g_fresh g' = g_fresh g -> g_map g' = g_map g -> g_k g' = g_k g -> si_ok l g'.
Proof. intros [] E1 E2 E3 E4 E5. split; rewrite ?E1, ?E2, ?E3, ?E4, ?E5; done. Qed.

Lemma si_ok_k l g k' : si_ok l g -> (forall fd, k_open (g_k g) fd = true -> k_open k' fd = true) -> si_ok l (set_k g k').
Proof. intros [] Hk. split; try done. intros i b Hi Hb Hf. destruct (so_live0 i b Hi Hb Hf). split; [by apply Hk|done]. Qed.

(** Counters and flags of a block. *)
Lemma si_ok_upd l g i b b' :
  si_ok l g -> g_blks g !! i = Some b -> tp_next b' = tp_next b -> tp_prev b' = tp_prev b -> tp_fd b' = tp_fd b -> tp_squeue b' = tp_squeue b ->
  flag_on (tp_flags b') TPF_DELETE = flag_on (tp_flags b) TPF_DELETE -> flag_on (tp_flags b') TPF_LISTENFD = flag_on (tp_flags b) TPF_LISTENFD ->
  (flag_on (tp_flags b') TPF_SESSION = true -> flag_on (tp_flags b) TPF_SESSION = true) ->
  si_ok l (set_blks g (<[i := b']> (g_blks g))).
Proof.
  intros [H1 H2 H3 H4 H5 H6 H7 H8] Hi En Ep Ef Eq Ed El Es.
  assert (forall j x, <[i := b']> (g_blks g) !! j = Some x -> exists y, g_blks g !! j = Some y /\ tp_fd x = tp_fd y /\ tp_squeue x = tp_squeue y /\
    flag_on (tp_flags x) TPF_DELETE = flag_on (tp_flags y) TPF_DELETE /\
    (flag_on (tp_flags x) TPF_SESSION = true -> flag_on (tp_flags y) TPF_SESSION = true)) as Hx.
  { intros j x Hj. destruct (decide (i = j)) as [<-|Hne].
    - rewrite lookup_insert_eq in Hj. injection Hj as <-. by exists b.
    - rewrite lookup_insert_ne in Hj by done. by exists x. }
  split; cbn.
  - by eapply dlist_upd.
  - intros j Hj. apply H2. destruct (decide (i = j)) as [<-|]; [by exists b|by rewrite lookup_insert_ne in Hj].
  - intros j x Hj (y & Hy & -> & _)%Hx. by eapply H3.
  - intros j x Hj (y & Hy & -> & _ & -> & _)%Hx. by eapply H4.
  - intros j j' x x' Hj Hj' (y & Hy & -> & _)%Hx (y' & Hy' & -> & _)%Hx. by eapply H5.
  - intros fd j Hm. destruct (H6 fd j Hm) as (Hr & Hj & y & Hy & Hf & Hlf). split; [done|]. split; [done|]. destruct (decide (i = j)) as [<-|].
    + rewrite lookup_insert_eq. exists b'. simplify_eq. by rewrite El.
    + rewrite lookup_insert_ne by done. by exists y.
  - intros j x Hj (y & Hy & -> & _ & _ & Hs)%Hx Hr Hf. eapply H7; [done..|]. by apply Hs.
  - intros j x Hj (y & Hy & _ & -> & _)%Hx. by eapply H8.
Qed.

(** SIterm: the descriptor is closed and the map entry dropped. *)
Definition close_blk g (i : nat) b b' : si :=
  upd_g g (g_tplist g) (<[i := b']> (g_blks g)) (g_fresh g) (g_flags g)
    (if (0 <=? tp_fd b) && (tp_fd b <? MAX_FDS) then delete (tp_fd b) (g_map g) else g_map g)
    (if 0 <=? tp_fd b then k_close (g_k g) (tp_fd b) else g_k g).

Definition termed b : tp_blk := or_flags (set_fd b (-1)) TPF_DELETE.

Lemma SIterm_eq g i b : g_blks g !! i = Some b -> SIterm g i = Ret (close_blk g i b (termed b)).
Proof.
  intros Hi. unfold SIterm, upd_blk, siabort_conn, close_blk. rewrite Hi. cbn [deref mbind comp_bind].
  destruct (0 <=? tp_fd b); [destruct (tp_fd b <? MAX_FDS)|]; try destruct (flag_on (tp_flags b) TPF_ABORT); cbn; rewrite Hi; done.
Qed.

Lemma close_blk_ok l g i b b' :
  si_ok l g -> i ∈ l -> g_blks g !! i = Some b -> tp_next b' = tp_next b -> tp_prev b' = tp_prev b -> tp_squeue b' = tp_squeue b -> tp_fd b' = -1 ->
  si_ok l (close_blk g i b b').
Proof.
  intros [H1 H2 H3 H4 H5 H6 H7 H8] Hl Hi En Ep Eq Ef. unfold close_blk.
  assert (forall j x, <[i := b']> (g_blks g) !! j = Some x -> 0 <= tp_fd x -> j <> i /\ g_blks g !! j = Some x) as Hx.
  { intros j x Hj Hf. destruct (decide (i = j)) as [<-|Hne].
    - rewrite lookup_insert_eq in Hj. injection Hj as <-. lia.
    - rewrite lookup_insert_ne in Hj by done. done. }
  assert (forall j x, j ∈ l -> j <> i -> g_blks g !! j = Some x -> 0 <= tp_fd x -> tp_fd x <> tp_fd b) as Hfd.
  { intros j x Hj Hne Hjx Hf E. apply Hne. by eapply H5. }
  split; cbn.
  - by eapply dlist_upd.
  - intros j Hj. apply H2. destruct (decide (i = j)) as [<-|]; [by exists b|by rewrite lookup_insert_ne in Hj].
  - intros j x Hj Hjx Hf. destruct (Hx j x Hjx Hf) as [Hne Hjx']. destruct (H3 j x Hj Hjx' Hf) as [Ho Hlim]. split; [|done].
    destruct (Z.leb_spec 0 (tp_fd b)); [|done]. destruct (k_close_law (g_k g) (tp_fd b)) as [_ Hc].
    destruct (Hc (tp_fd x)) as [E _]; [by eapply Hfd|]. by rewrite E.
  - intros j x Hj Hjx Hd. destruct (decide (i = j)) as [<-|].
    + rewrite lookup_insert_eq in Hjx. injection Hjx as <-. lia.
    + rewrite lookup_insert_ne in Hjx by done. by eapply H4.
  - intros j j' x x' Hj Hj' Hx1 Hx2 Hf E. destruct (Hx j x Hx1 Hf) as [_ Hx1']. destruct (Hx j' x' Hx2) as [_ Hx2']; [lia|]. by eapply H5.
  - intros fd j Hm. assert (g_map g !! fd = Some j /\ (0 <= tp_fd b < MAX_FDS -> fd <> tp_fd b)) as [Hm' Hne].
    { destruct (Z.leb_spec 0 (tp_fd b)), (Z.ltb_spec (tp_fd b) MAX_FDS); cbn in Hm; try (split; [done|lia]).
      apply lookup_delete_Some in Hm as [Hne Hm]. split; [done|]. intros _ ->. done. }
    destruct (H6 fd j Hm') as (Hr & Hj & x & Hjx & Hf & Hlf). split_and!; [lia|lia|done|]. exists x. split; [|done].
    rewrite lookup_insert_ne; [done|]. intros <-. simplify_eq. by apply Hne.
  - intros j x Hj Hjx Hr Hs. destruct (Hx j x Hjx ltac:(lia)) as [Hne Hjx']. pose proof (H7 j x Hj Hjx' Hr Hs) as Hm.
    destruct (_ && _); [|done]. rewrite lookup_delete_ne; [done|]. intros E. eapply (Hfd j x); [done..|lia|done].
  - intros j x Hj Hjx. destruct (decide (i = j)) as [<-|].
    + rewrite lookup_insert_eq in Hjx. injection Hjx as <-. rewrite Eq. by eapply H8.
    + rewrite lookup_insert_ne in Hjx by done. by eapply H8.
Qed.

Lemma SIterm_ok l g i b : si_ok l g -> i ∈ l -> g_blks g !! i = Some b -> si_ok l (close_blk g i b (termed b)).
Proof. intros. by eapply close_blk_ok. Qed.

Lemma close_blk_view g i b b' fd :
  view (g_k (close_blk g i b b')) fd = if decide (fd = tp_fd b /\ 0 <= fd) then ([], []) else view (g_k g) fd.
Proof.
  cbn. destruct (Z.leb_spec 0 (tp_fd b)); [rewrite close_view|]; repeat case_decide; try done; lia.
Qed.

(** ** New blocks *)

Definition unused (l : list nat) g (fd : Z) : Prop := forall j b, j ∈ l -> g_blks g !! j = Some b -> tp_fd b <> fd.

Lemma link_head_eq l g i b :
  si_ok l g -> i ∉ l -> g_blks g !! i = Some b ->
  link_head g i = Ret (set_tplist (set_blks g (push_blks (g_blks g) (g_tplist g) i (set_next b (g_tplist g)))) (Some i)).
Proof.
  intros Hok Hi Hb. unfold link_head, upd_blk. rewrite Hb. cbn [deref mbind comp_bind]. pose proof (so_list l g Hok) as Hd.
  destruct (g_tplist g) as [j|] eqn:Ej; [|done].
  assert (j ∈ l) as Hj. { destruct Hd as (_ & Hh & _). by eapply list_elem_of_lookup_2. }
  destruct (dlist_get _ _ _ j Hd Hj) as [bj Hbj]. cbn. rewrite lookup_insert_ne by (by intros ->). rewrite Hbj. cbn.
  f_equal. unfold set_tplist, set_blks, upd_g. cbn. f_equal. apply map_eq. intros m. destruct (decide (j = m)) as [<-|].
  - rewrite lookup_insert_eq, lookup_alter_eq, lookup_insert_ne, Hbj by (by intros ->). done.
  - by rewrite lookup_insert_ne, lookup_alter_ne by done.
Qed.

(** A block that owns an open descriptor joins the list, and the map when it is
    a session. *)
Lemma push_ok l g i b x fl m :
  si_ok l g -> i ∉ l -> g_blks g !! i = Some b -> tp_next x = g_tplist g -> tp_prev x = None -> tp_squeue x = [] ->
  0 <= tp_fd x < k_limit -> k_open (g_k g) (tp_fd x) = true -> unused l g (tp_fd x) -> flag_on (tp_flags x) TPF_DELETE = false ->
  (m = g_map g /\ flag_on (tp_flags x) TPF_SESSION = false \/
   flag_on (tp_flags x) TPF_LISTENFD = false /\ m = (if tp_fd x <? MAX_FDS then <[tp_fd x := i]> (g_map g) else g_map g)) ->
  si_ok (i :: l) (upd_g g (Some i) (push_blks (g_blks g) (g_tplist g) i x) (g_fresh g) fl m (g_k g)).
Proof.
  intros [H1 H2 H3 H4 H5 H6 H7 H8] Hi Hb En Ep Eq Hf Ho Hu Hd Hm.
  assert (g_tplist g <> Some i) as Hh. { destruct H1 as (_ & -> & _). intros E. apply Hi. by eapply list_elem_of_lookup_2. }
  assert (forall j y, j ∈ i :: l -> push_blks (g_blks g) (g_tplist g) i x !! j = Some y ->
    (j = i /\ y = x) \/ (j ∈ l /\ exists z, g_blks g !! j = Some z /\ tp_fd y = tp_fd z /\ tp_flags y = tp_flags z /\ tp_squeue y = tp_squeue z)) as Hx.
  { intros j y [->|Hj]%elem_of_cons Hy.
    - rewrite push_head in Hy by done. left. by simplify_eq.
    - right. split; [done|]. destruct (dlist_get _ _ _ j H1 Hj) as [z Hz]. exists z.
      rewrite (push_other _ _ _ _ _ z) in Hy by (done || by intros ->). injection Hy as <-. by case_decide. }
  assert (forall fd j, m !! fd = Some j -> (g_map g !! fd = Some j /\ fd <> tp_fd x) \/ (fd = tp_fd x /\ j = i /\ fd < MAX_FDS /\ flag_on (tp_flags x) TPF_LISTENFD = false)) as Hmap.
  { intros fd j Hj. assert (g_map g !! fd = Some j -> fd <> tp_fd x) as Hne.
    { intros Hj' ->. destruct (H6 _ _ Hj') as (_ & Hjl & z & Hz & E & _). by eapply Hu. }
    destruct Hm as [[-> _]|[Hlf ->]]; [left; auto|]. destruct (Z.ltb_spec (tp_fd x) MAX_FDS); [|left; auto].
    apply lookup_insert_Some in Hj as [[<- <-]|[_ Hj]]; [right; done|left; auto]. }
  split; cbn.
  - by apply dlist_push.
  - intros j Hj. destruct (decide (j = i)) as [->|Hne]; [apply H2; by exists b|]. apply H2.
    destruct (g_blks g !! j) eqn:E; [by eexists|]. destruct Hj as [y Hy]. unfold push_blks in Hy. destruct (g_tplist g) as [h|].
    + apply lookup_alter_Some in Hy as [(-> & z & Hz & _)|[_ Hy]]; [rewrite lookup_insert_ne in Hz by done; congruence|].
      rewrite lookup_insert_ne in Hy by done. congruence.
    + rewrite lookup_insert_ne in Hy by done. congruence.
  - intros j y Hj Hy Hfy. destruct (Hx j y Hj Hy) as [[-> ->]|(Hjl & z & Hz & Ef & _)]; [split; [done|lia]|]. rewrite Ef in *. by eapply H3.
  - intros j y Hj Hy Hdy. destruct (Hx j y Hj Hy) as [[-> ->]|(Hjl & z & Hz & Ef & Efl & _)]; [congruence|]. rewrite Ef, Efl in *. by eapply H4.
  - intros j j' y y' Hj Hj' Hy Hy' Hfy E.
    destruct (Hx j y Hj Hy) as [[-> ->]|(Hjl & z & Hz & Ef & _)], (Hx j' y' Hj' Hy') as [[-> ->]|(Hjl' & z' & Hz' & Ef' & _)]; [done| | |].
    + exfalso. apply (Hu j' z' Hjl' Hz'). congruence.
    + exfalso. apply (Hu j z Hjl Hz). congruence.
    + eapply H5; [done..| |]; congruence.
  - intros fd j [[Hj Hne]|(-> & -> & Hr & Hlf)]%Hmap.
    + destruct (H6 fd j Hj) as (Hr & Hjl & z & Hz & Ef & Hlf). split; [done|]. split; [by right|].
      rewrite (push_other _ _ _ _ _ z) by (done || by intros ->). eexists. split; [done|]. by case_decide.
    + split; [lia|]. split; [left|]. rewrite push_head by done. by exists x.
  - intros j y Hj Hy Hr Hs. destruct (Hx j y Hj Hy) as [[-> ->]|(Hjl & z & Hz & Ef & Efl & _)].
    + destruct Hm as [[_ Hm]|[_ ->]]; [congruence|]. destruct (Z.ltb_spec (tp_fd x) MAX_FDS); [by rewrite lookup_insert_eq|lia].
    + rewrite Ef, Efl in *. pose proof (H7 j z Hjl Hz Hr Hs) as Hmj. destruct Hm as [[-> _]|[_ ->]]; [done|].
      destruct (_ <? _); [|done]. rewrite lookup_insert_ne; [done|]. intros E. by apply (Hu j z Hjl Hz).
  - intros j y Hj Hy. destruct (Hx j y Hj Hy) as [[-> ->]|(Hjl & z & Hz & _ & _ & Efq)]; [done|]. rewrite Efq. by eapply H8.
Qed.

(** Blocks that are not on the list do not matter. *)
Lemma si_ok_off l g blks' fr' :
  si_ok l g -> (forall j, j ∈ l -> blks' !! j = g_blks g !! j) -> (forall j, is_Some (blks' !! j) -> (j < fr')%nat) ->
  si_ok l (upd_g g (g_tplist g) blks' fr' (g_flags g) (g_map g) (g_k g)).
Proof.
  intros [H1 H2 H3 H4 H5 H6 H7 H8] Hb Hf. split; cbn; try done.
  - eapply dlist_same; [done|]. intros j b Hj Hjb. exists b. by rewrite Hb.
  - intros j b Hj. rewrite Hb by done. by apply H3.
  - intros j b Hj. rewrite Hb by done. by apply H4.
  - intros j j' b b' Hj Hj'. rewrite !Hb by done. by apply H5.
  - intros fd j Hm. destruct (H6 fd j Hm) as (Hr & Hj & x & Hx & E). split; [done|]. split; [done|]. exists x. by rewrite Hb.
  - intros j b Hj. rewrite Hb by done. by apply H7.
  - intros j b Hj. rewrite Hb by done. by apply H8.
Qed.

Lemma fresh_off l g : si_ok l g -> g_fresh g ∉ l.
Proof.
  intros Hok Hi. destruct (dlist_get _ _ _ _ (so_list l g Hok) Hi) as [b Hb].
  assert (g_fresh g < g_fresh g)%nat; [|lia]. apply (so_fresh l g Hok). by exists b.
Qed.

Lemma k_unused l g fd : si_ok l g -> k_open (g_k g) fd = false -> 0 <= fd -> unused l g fd.
Proof. intros Hok Ho Hf j b Hj Hb E. destruct (so_live l g Hok j b Hj Hb) as [Hl _]; [lia|]. congruence. Qed.

(** What is done to blocks off the list, to the kernel and to nothing else. *)
Record aside (l : list nat) g g' : Prop := {
  as_list : g_tplist g' = g_tplist g;
  as_map : g_map g' = g_map g;
  as_flags : g_flags g' = g_flags g;
  as_cbs : g_cbtab g' = g_cbtab g;
  as_blks : forall j, j ∈ l -> g_blks g' !! j = g_blks g !! j;
  as_view : forall fd, view (g_k g') fd = view (g_k g) fd
}.

(** A block off the list with a descriptor of its own. *)
Record own_blk (l : list nat) g (i : nat) b : Prop := {
  ob_off : i ∉ l;
  ob_get : g_blks g !! i = Some b;
  ob_links : tp_next b = None /\ tp_prev b = None /\ tp_squeue b = [];
  ob_fd : 0 <= tp_fd b < k_limit /\ k_open (g_k g) (tp_fd b) = true /\ unused l g (tp_fd b);
  ob_view : view (g_k g) (tp_fd b) = ([], []);
  ob_flags : flag_on (tp_flags b) TPF_DELETE = false /\ flag_on (tp_flags b) TPF_SESSION = false /\ flag_on (tp_flags b) TPF_LISTENFD = false
}.

(** A fresh block with the descriptor of a socket call in it. *)
Lemma new_sock l g k fd ty addr paddr fl :
  si_ok l g -> opens (g_k g) fd k ->
  flag_on fl TPF_DELETE = false -> flag_on fl TPF_SESSION = false -> flag_on fl TPF_LISTENFD = false ->
  let b := MkTp None None fd fl ty addr paddr [] 0 0 in
  let g' := upd_g g (g_tplist g) (<[g_fresh g := b]> (g_blks g)) (S (g_fresh g)) (g_flags g) (g_map g) k in
  si_ok l g' /\ aside l g g' /\ own_blk l g' (g_fresh g) b.
Proof.
  intros Hok Hop Hfl1 Hfl2 Hfl3 b g'. pose proof (fresh_off l g Hok) as Hnew. pose proof Hop as (Hr & Hc & Ho & Hw & Hrd & Hoth).
  assert (forall j, j ∈ l -> <[g_fresh g := b]> (g_blks g) !! j = g_blks g !! j) as Hb.
  { intros j Hj. rewrite lookup_insert_ne; [done|]. by intros <-. }
  assert (si_ok l (upd_g g (g_tplist g) (<[g_fresh g := b]> (g_blks g)) (S (g_fresh g)) (g_flags g) (g_map g) (g_k g))) as Hok1.
  { apply si_ok_off; [done|done|]. intros j Hj. destruct (decide (g_fresh g = j)) as [<-|]; [lia|].
    rewrite lookup_insert_ne in Hj by done. apply (so_fresh l g Hok) in Hj. lia. }
  split_and!.
  - apply (si_ok_k l _ k Hok1). intros fd'. by eapply opens_open.
  - split; try done. intros fd'. by eapply opens_view.
  - split; cbn; try done.
    + by rewrite lookup_insert_eq.
    + split_and!; [lia|lia|done|]. intros j x Hj. rewrite Hb by done. by apply (k_unused l g fd Hok Hc); [lia|].
    + unfold view. by rewrite Ho, Hw, Hrd.
Qed.

(** Allocating and freeing a block changes nothing. *)
Lemma new_free l g k :
  si_ok l g -> keeps (g_k g) k ->
  let g' := upd_g g (g_tplist g) (delete (g_fresh g) (<[g_fresh g := new_tp]> (g_blks g))) (S (g_fresh g)) (g_flags g) (g_map g) k in
  si_ok l g' /\ aside l g g'.
Proof.
  intros Hok Hk g'. pose proof (fresh_off l g Hok) as Hnew. unfold g'. rewrite delete_insert_id; cycle 1.
  { apply eq_None_not_Some. intros Hs. apply (so_fresh l g Hok) in Hs. lia. }
  split; [|split; try done; intros fd; by apply keeps_view].
  apply (si_ok_k l (upd_g g (g_tplist g) (g_blks g) (S (g_fresh g)) (g_flags g) (g_map g) (g_k g)) k); [|intros fd; by apply keeps_open].
  apply si_ok_off; [done|done|]. intros j Hj. apply (so_fresh l g Hok) in Hj. lia.
Qed.

Lemma kern_keeps_refl k : keeps k k.
Proof. done. Qed.

Lemma conn_prep_spec l g ty a fam :
  si_ok l g -> exists r g', SIconn_prep g ty a fam = Ret (r, g') /\ si_ok l g' /\ aside l g g' /\
    match r with Some i => exists b, own_blk l g' i b | None => True end.
Proof.
  intros Hok. unfold SIconn_prep, SInew. destruct (if ty =? UDP_DEVICE then _ else _) as [ty' protocol].
  destruct (SIgenaddr a protocol fam ty') as [alen addr]. destruct (alen <=? 0).
  { unfold free_blk. cbn. rewrite lookup_insert_eq. cbn. do 2 eexists. split; [reflexivity|].
    destruct (new_free l g (g_k g) Hok (kern_keeps_refl _)). done. }
  cbn [g_k upd_g]. destruct (k_socket (g_k g)) as [fd k] eqn:Es. pose proof (k_socket_law _ _ _ Es) as Hs.
  change SI_OK with 0. destruct (0 <=? fd) eqn:Ef.
  - unfold upd_blk. cbn. rewrite lookup_insert_eq. cbn. rewrite insert_insert_eq.
    destruct (need_smartc a); cbn; rewrite ?lookup_insert_eq; cbn; rewrite ?insert_insert_eq; do 2 eexists; (split; [reflexivity|]).
    + destruct (new_sock l g k fd ty' None addr (Z.lor TPF_UNBIND TPF_SAFEC) Hok Hs eq_refl eq_refl eq_refl) as (H1 & H2 & H3).
      split; [exact H1|]. split; [exact H2|]. eexists. exact H3.
    + destruct (new_sock l g k fd ty' None addr TPF_UNBIND Hok Hs eq_refl eq_refl eq_refl) as (H1 & H2 & H3).
      split; [exact H1|]. split; [exact H2|]. eexists. exact H3.
  - unfold SItrash, free_blk. cbn. rewrite lookup_insert_eq. cbn. rewrite lookup_insert_eq. cbn. do 2 eexists. split; [reflexivity|].
    destruct (new_free l g k Hok Hs). done.
Qed.

Record grown (l : list nat) g g' : Prop := {
  gr_flags : g_flags g' = g_flags g;
  gr_cbs : g_cbtab g' = g_cbtab g;
  gr_blks : forall j b, j ∈ l -> g_blks g !! j = Some b -> exists b', g_blks g' !! j = Some b' /\ tp_fd b' = tp_fd b /\ tp_flags b' = tp_flags b;
  gr_view : forall fd, view (g_k g') fd = view (g_k g) fd
}.

Lemma aside_grown l g g' : aside l g g' -> grown l g g'.
Proof. intros [H1 H2 H3 H4 H5 H6]. split; try done. intros j b Hj Hb. exists b. by rewrite H5. Qed.

(** The descriptor is closed, the others are as before. *)
Definition gone k (fd : Z) k' : Prop := k_open k' fd = false /\ forall fd', fd' <> fd -> same_fd k k' fd'.

Lemma same_trans k1 k2 k3 fd : same_fd k1 k2 fd -> same_fd k2 k3 fd -> same_fd k1 k3 fd.
Proof. intros (A1 & A2 & A3) (B1 & B2 & B3). split_and!; congruence. Qed.

Lemma close_gone k k0 fd : keeps k k0 \/ gone k fd k0 -> gone k fd (k_close k0 fd).
Proof.
  intros Hk. destruct (k_close_law k0 fd) as [Hc Ho]. split; [done|]. intros fd' Hne. eapply same_trans; [|by apply Ho].
  destruct Hk as [Hk|[_ Hk]]; [apply Hk|by apply Hk].
Qed.

(** The attempt to connect: it can close the descriptor when it fails. *)
Definition attempt k (fd : Z) (addr : list Z) (safe : bool) : Z * K :=
  if safe then safe_connect k fd addr
  else let '(st, k) := k_connect k fd addr in (st, if st =? 0 then k else k_close k fd).

Lemma attempt_cases k fd addr safe st k' :
  attempt k fd addr safe = (st, k') ->
  (st = 0 /\ keeps k k') \/ (st <> 0 /\ (keeps k k' \/ gone k fd k')).
Proof.
  unfold attempt, safe_connect, siabort_conn. destruct (k_connect k fd addr) as [s k0] eqn:Ec. apply k_connect_law in Ec. destruct safe.
  - destruct (Z.eqb_spec s 0) as [->|]; cbn [negb]; [|intros [= <- <-]; by auto].
    destruct (k_getsockname k0 fd); [case_bool_decide|]; intros [= <- <-]; eauto 10 using close_gone.
  - intros [= <- <-]. destruct (Z.eqb_spec s 0); eauto 10 using close_gone.
Qed.

(** A failed attempt leaves the descriptors of the blocks alone. *)
Lemma attempt_fail_k l g i b k' :
  own_blk l g i b -> si_ok l g -> keeps (g_k g) k' \/ gone (g_k g) (tp_fd b) k' ->
  (forall fd, view k' fd = view (g_k g) fd) /\ (forall j x, j ∈ l -> g_blks g !! j = Some x -> 0 <= tp_fd x -> k_open k' (tp_fd x) = true).
Proof.
  intros [_ _ _ (_ & _ & Hu) Hv _] Hok [Hk|[Hc Hk]].
  - split; [intros; by apply keeps_view|]. intros j x Hj Hx Hf. eapply keeps_open; [done|]. by eapply so_live.
  - split.
    + intros fd. destruct (decide (fd = tp_fd b)) as [->|Hne]; [|by apply same_view, Hk]. rewrite Hv. unfold view. by rewrite Hc.
    + intros j x Hj Hx Hf. destruct (Hk (tp_fd x)) as [-> _]; [by eapply Hu|]. by eapply so_live.
Qed.

Lemma si_ok_live l g k' : si_ok l g -> (forall j x, j ∈ l -> g_blks g !! j = Some x -> 0 <= tp_fd x -> k_open k' (tp_fd x) = true) -> si_ok l (set_k g k').
Proof. intros [] Hk. split; try done. intros i b Hi Hb Hf. split; [by eapply Hk|by eapply so_live0]. Qed.

(** The new session is the head of the list. *)
Record connected (l : list nat) g g' (fd : Z) (i : nat) : Prop := {
  cn_range : 0 <= fd < k_limit;
  cn_new : i ∉ l;
  cn_blk : exists b, g_blks g' !! i = Some b /\ tp_fd b = fd /\ flag_on (tp_flags b) TPF_SESSION = true;
  cn_unused : unused l g fd
}.

Lemma SIconnect_spec l g a :
  si_ok l g -> exists fd g' l', SIconnect g a = Ret (fd, g') /\ si_ok l' g' /\ grown l g g' /\
    ((fd = SI_ERROR /\ l' = l) \/ exists i, l' = i :: l /\ connected l g g' fd i).
Proof.
  intros Hok. unfold SIconnect. destruct (conn_prep_spec l g TCP_DEVICE a 0 Hok) as (r & g1 & -> & Hok1 & Ha & Hr). cbn [mbind comp_bind].
  destruct r as [i|]; [|exists SI_ERROR, g1, l; split_and!; [done|done|by apply aside_grown|by left]].
  destruct Hr as (b & Hown). pose proof Hown as [Hoff Hget (Hn & Hp & Hq) (Hfd & Hopen & Hun) Hv (Hfl1 & Hfl2 & Hfl3)]. rewrite Hget. cbn [deref mbind comp_bind].
  fold (attempt (g_k g1) (tp_fd b) (default [] (tp_paddr b)) (flag_on (tp_flags b) TPF_SAFEC)).
  destruct (attempt _ _ _ _) as [st k] eqn:Et. apply attempt_cases in Et as [[-> Hk]|[Hst Hk]].
  - change (0 =? 0) with true. cbn iota. unfold upd_blk. cbn. rewrite Hget. cbn.
    set (b1 := or_flags b TPF_SESSION). set (g2 := set_blks (set_k g1 k) (<[i := b1]> (g_blks g1))).
    assert (si_ok l g2) as Hok2.
    { apply (si_ok_off l (set_k g1 k) (<[i := b1]> (g_blks g1)) (g_fresh g1)).
      - apply si_ok_k; [done|]. intros fd. by apply keeps_open.
      - intros j Hj. cbn. rewrite lookup_insert_ne; [done|]. by intros <-.
      - intros j Hj. apply (so_fresh l g1 Hok1). destruct (decide (i = j)) as [<-|]; [by exists b|by rewrite lookup_insert_ne in Hj]. }
    rewrite (link_head_eq l g2 i b1) by (done || cbn; by rewrite lookup_insert_eq). cbn [mbind comp_bind].
    set (m := if tp_fd b <? MAX_FDS then <[tp_fd b := i]> (g_map g2) else g_map g2).
    set (g3 := upd_g g2 (Some i) (push_blks (g_blks g2) (g_tplist g2) i (set_next b1 (g_tplist g2))) (g_fresh g2) (g_flags g2) m (g_k g2)).
    assert (g_blks g2 !! i = Some b1) as Hg2 by (cbn; by rewrite lookup_insert_eq).
    assert (forall j, j ∈ l -> g_blks g2 !! j = g_blks g1 !! j) as Hold by (intros j Hj; cbn; rewrite lookup_insert_ne; [done|]; by intros <-).
    assert (si_ok (i :: l) g3) as Hok3.
    { eapply push_ok; try done; cbn.
      - by eapply keeps_open.
      - intros j x Hj. rewrite Hold by done. by apply Hun.
      - rewrite flag_lor, Hfl1. done.
      - right. split; [by rewrite flag_lor, Hfl3|done]. }
    assert (g_tplist g2 <> Some i) as Hh.
    { destruct (so_list l g2 Hok2) as (_ & -> & _). intros E. apply Hoff. by eapply list_elem_of_lookup_2. }
    exists (tp_fd b), g3, (i :: l). split; [|split; [done|split; [split|right]]].
    + unfold SImap_fd, g3, m. by destruct (tp_fd b <? MAX_FDS).
    + apply Ha.
    + apply Ha.
    + intros j x Hj Hx. rewrite <-(as_blks _ _ _ Ha j Hj), <-Hold in Hx by done. cbn [g3 g_blks upd_g].
      rewrite (push_other _ _ _ _ _ x) by (done || by intros ->). eexists. split; [done|]. by case_decide.
    + intros fd. rewrite <-(as_view _ _ _ Ha). by apply keeps_view.
    + exists i. split; [done|]. split; [done|done| |].
      * cbn [g3 g_blks upd_g]. rewrite push_head by done. eexists. split; [done|]. split; [done|]. cbn. rewrite flag_lor. apply orb_true_r.
      * intros j x Hj Hx. rewrite <-(as_blks _ _ _ Ha j Hj) in Hx. by apply (Hun j x).
  - rewrite (proj2 (Z.eqb_neq st 0) Hst). unfold upd_blk, SItrash, free_blk. cbn. rewrite Hget. cbn. rewrite lookup_insert_eq. cbn.
    rewrite lookup_insert_eq. cbn. rewrite delete_insert_eq. destruct (attempt_fail_k l g1 i b k Hown Hok1 Hk) as [Hv' Ho'].
    assert (forall j, j ∈ l -> delete i (g_blks g1) !! j = g_blks g1 !! j) as Hold by (intros j Hj; rewrite lookup_delete_ne; [done|]; by intros <-).
    exists SI_ERROR. eexists. exists l. split; [reflexivity|]. split; [|split; [split; try apply Ha|by left]].
    + apply (si_ok_off l (set_k g1 k)); [by apply si_ok_live|done|]. intros j [x Hx]. apply lookup_delete_Some in Hx as [_ Hx].
      apply (so_fresh l g1 Hok1). by exists x.
    + cbn. intros j x Hj Hx. rewrite Hold, (as_blks _ _ _ Ha) by done. by exists x.
    + intros fd. cbn. rewrite Hv'. apply Ha.
Qed.

(** ** Searching the list *)

Lemma find_blk_spec l g p : dlist (g_blks g) (g_tplist g) l -> forall n q, (length l - q <= n)%nat ->
  exists r, find_blk n g p (l !! q) = Ret r /\
    match r with Some i => i ∈ l /\ exists b, g_blks g !! i = Some b /\ p b = true | None => True end.
Proof.
  intros (_ & _ & Hl). induction n as [|n IH]; intros q Hn.
  - assert (l !! q = None) as -> by (apply lookup_ge_None; lia). by exists None.
  - destruct (l !! q) as [i|] eqn:Ek; [|by exists None]. destruct (Hl q i Ek) as (b & Hb & Hnx & _).
    cbn. rewrite Hb. cbn. destruct (p b) eqn:Ep.
    + exists (Some i). split; [done|]. split; [by eapply list_elem_of_lookup_2|by exists b].
    + rewrite Hnx. apply IH. apply lookup_lt_Some in Ek. lia.
Qed.

Lemma find_tp_spec l g p : si_ok l g -> exists r, find_tp g p = Ret r /\
    match r with Some i => i ∈ l /\ exists b, g_blks g !! i = Some b /\ p b = true | None => True end.
Proof.
  intros Hok. pose proof (so_list l g Hok) as Hd. unfold find_tp. pose proof Hd as (_ & -> & _). apply find_blk_spec; [done|].
  pose proof (dlist_size _ _ _ Hd). lia.
Qed.

Lemma tp_of_fd_spec l g fd : si_ok l g -> exists r, tp_of_fd g fd = Ret r /\
    match r with Some i => i ∈ l /\ exists b, g_blks g !! i = Some b /\ tp_fd b = fd | None => fd < MAX_FDS -> g_map g !! fd = None end.
Proof.
  intros Hok. unfold tp_of_fd. destruct (Z.ltb_spec fd MAX_FDS) as [Hlt|Hge].
  - exists (g_map g !! fd). split; [done|]. destruct (g_map g !! fd) as [i|] eqn:Em; [|done]. by destruct (so_map l g Hok fd i Em) as (_ & ? & b & ? & ? & _); split; [|exists b].
  - destruct (find_tp_spec l g (fun b => tp_fd b =? fd) Hok) as (r & -> & Hr). exists r. split; [done|]. destruct r as [i|]; [|lia].
    destruct Hr as (Hi & b & Hb & E). split; [done|]. exists b. split; [done|]. by apply Z.eqb_eq.
Qed.

(** ** Sending *)

Lemma send_all_spec n : forall k fd ubuf sidx ulen st er,
  (Z.to_nat ulen <= n)%nat -> 0 <= sidx -> 0 <= ulen -> sidx + ulen = zlen ubuf ->
  exists st' er' k' sent, send_all n k fd ubuf sidx ulen st er = Some (st', er', k') /\
    k_open k' fd = k_open k fd /\ k_read k' fd = k_read k fd /\ k_wire k' fd = k_wire k fd ++ slice ubuf sidx sent /\
    (forall fd', fd' <> fd -> same_fd k k' fd') /\ 0 <= sent <= ulen /\
    (st' = (if 0 <? ulen then SI_OK else st) /\ sent = ulen \/ st' = SI_ERROR /\ sent < ulen).
Proof.
  induction n as [|n IH]; intros k fd ubuf sidx ulen st er Hn Hs Hu Hl.
  { assert (ulen = 0) as -> by lia. cbn. exists st, er, k, 0. rewrite app_nil_r. split_and!; try done; lia || by left. }
  cbn [send_all]. destruct (Z.ltb_spec 0 ulen) as [Hpos|]; cycle 1.
  { assert (ulen = 0) as -> by lia. exists st, er, k, 0. rewrite app_nil_r. split_and!; try done; lia || by left. }
  destruct (k_send k fd (slice ubuf sidx ulen)) as [[s e] k1] eqn:Ek. apply k_send_law in Ek as (Hr & Hnz & Ho & Hrd & Hw & Hoth).
  rewrite zlen_slice in Hr by lia.
  assert (s <> 0) as Hs1. { apply Hnz. intros E. assert (zlen (slice ubuf sidx ulen) = 0) as Hz by by rewrite E. rewrite zlen_slice in Hz by lia. lia. }
  assert (take (Z.to_nat s) (slice ubuf sidx ulen) = slice ubuf sidx (Z.max 0 s)) as Et.
  { unfold slice. rewrite take_take. f_equal. lia. }
  rewrite Et in Hw. destruct (Z.leb_spec 0 s) as [Hsp|Hsn].
  - destruct (IH k1 fd ubuf (sidx + s) (ulen - s) SI_OK er) as (st' & er' & k' & sent & E & H1 & H2 & H3 & H4 & H5 & H6); [lia..|].
    exists st', er', k', (s + sent). split; [exact E|]. split_and!; [congruence|congruence| | |lia|lia|].
    + rewrite H3, Hw, <-app_assoc. f_equal. rewrite Z.max_r by lia. symmetry. rewrite (slice_split _ sidx s sent) by lia. done.
    + intros fd' Hne. destruct (H4 fd' Hne) as (?&?&?), (Hoth fd' Hne) as (?&?&?). split_and!; congruence.
    + destruct H6 as [[-> ->]|[-> ?]]; [left|right; split; [done|lia]]. split; [by destruct (_ <? _)|lia].
  - assert (s = -1) as -> by lia. assert (negb (e =? EINTR) || negb (e =? EAGAIN) = true) as ->.
    { destruct (Z.eqb_spec e EINTR) as [->|]; done. }
    exists SI_ERROR, e, k1, 0. split; [done|]. split_and!; [done|done|done|done|lia|lia|right]. split; [done|lia].
Qed.

(** What SIsendt does: everything is on the wire, or nothing (the session is
    blocked, or unknown), or the session failed, after a part of the data or by
    being closed. *)
Record sent_res (g g' : si) (fd : Z) (data : list Z) (st er : Z) : Prop := {
  sr_ok : st = SI_OK -> (view (g_k g') fd).1 = (view (g_k g) fd).1 ++ data;
  sr_blocked : st = SI_ERR_BLOCKED -> er = EBUSY /\ forall fd', view (g_k g') fd' = view (g_k g) fd';
  sr_error : st = SI_ERROR -> view (g_k g') fd = ([], []) \/
    exists n, (data <> [] -> (n < length data)%nat) /\ (view (g_k g') fd).1 = (view (g_k g) fd).1 ++ take n data;
  sr_st : st = SI_OK \/ st = SI_ERROR \/ st = SI_ERR_BLOCKED;
  sr_read : (view (g_k g') fd).2 = (view (g_k g) fd).2 \/ st = SI_ERROR /\ er = EBADFD /\ k_open (g_k g) fd = true /\ k_open (g_k g') fd = false;
  sr_other : forall fd', fd' <> fd -> view (g_k g') fd' = view (g_k g) fd'
}.

Lemma sent_nothing g g' fd data st er :
  (forall fd', view (g_k g') fd' = view (g_k g) fd') -> st = SI_ERROR \/ st = SI_ERR_BLOCKED /\ er = EBUSY -> sent_res g g' fd data st er.
Proof.
  intros Hv Hst. split.
  - intros ->. by destruct Hst as [?|[? _]].
  - intros ->. destruct Hst as [?|[_ ?]]; done.
  - intros _. right. exists 0%nat. split; [intros Hd; destruct data; [done|cbn; lia]|]. by rewrite Hv, app_nil_r.
  - destruct Hst as [?|[? _]]; auto.
  - left. by rewrite Hv.
  - intros. by rewrite Hv.
Qed.

Lemma SIsendt_spec l g fd data :
  si_ok l g -> exists st er g', SIsendt g fd data = Ret (st, er, g') /\ si_ok l g' /\ sent_res g g' fd data st er /\
    g_flags g' = g_flags g /\ g_cbtab g' = g_cbtab g.
Proof.
  intros Hok. unfold SIsendt. destruct (Z.ltb_spec fd 0) as [Hneg|Hpos].
  { do 3 eexists. split; [reflexivity|]. split_and!; try done. apply sent_nothing; [done|by left]. }
  destruct (tp_of_fd_spec l g fd Hok) as (r & -> & Hr). cbn [mbind comp_bind]. destruct r as [i|]; cycle 1.
  { do 3 eexists. split; [reflexivity|]. split_and!; try done. apply sent_nothing; [done|by left]. }
  destruct Hr as (Hi & b & Hb & <-). rewrite Hb. cbn [deref mbind comp_bind].
  destruct (_ || _) eqn:Ebig.
  { do 3 eexists. split; [reflexivity|]. split_and!; try done. apply sent_nothing; [done|by left]. }
  unfold upd_blk. rewrite Hb. cbn [deref mbind comp_bind]. cbn [g_k set_blks upd_g].
  destruct (so_live l g Hok i b Hi Hb Hpos) as [Hopen _].
  set (g1 := set_blks g (<[i := count_sent b]> (g_blks g))). assert (si_ok l g1) as Hok1 by by eapply si_ok_upd.
  destruct (k_writable (g_k g) (tp_fd b)) as [[sel exc] k] eqn:Ew. apply k_writable_law in Ew as Hk.
  assert (si_ok l (set_k g1 k)) as Hok2. { apply si_ok_k; [done|]. intros f. by apply keeps_open. }
  assert (forall fd', view k fd' = view (g_k g) fd') as Hv by (intros; by apply keeps_view).
  destruct (0 <? sel); cycle 1.
  { do 3 eexists. split; [reflexivity|]. split_and!; try done. apply sent_nothing; [done|by right]. }
  destruct exc.
  - rewrite (SIterm_eq _ i (count_sent b)) by (cbn; by rewrite lookup_insert_eq). cbn [mbind comp_bind].
    do 3 eexists. split; [reflexivity|]. split_and!; try done.
    + apply SIterm_ok; [done|done|]. cbn. by rewrite lookup_insert_eq.
    + split; try done; [|by right; left|right; split_and!; [done..|cbn; destruct (Z.leb_spec 0 (tp_fd b)); [by destruct (k_close_law k (tp_fd b)) as [? _]|lia]]|].
      * intros _. left. rewrite close_blk_view. cbn. rewrite decide_True; done.
      * intros fd' Hne. rewrite close_blk_view. cbn. rewrite decide_False by tauto. apply Hv.
  - destruct (send_all_spec (length data) k (tp_fd b) data 0 (zlen data) SI_ERROR 0)
      as (st & er & k' & sent & E & Ho & Hr & Hw & Hoth & Hs & Hres); [unfold zlen; lia|done|unfold zlen; lia|done|].
    cbn [g_k set_k set_blks upd_g g1]. rewrite E. do 3 eexists. split; [reflexivity|].
    assert (k_open k (tp_fd b) = true) as Hopk by by eapply keeps_open.
    assert (forall f, k_open k f = true -> k_open k' f = true) as Hmono.
    { intros f Hf. destruct (decide (f = tp_fd b)) as [->|Hne]; [by rewrite Ho|]. destruct (Hoth f Hne) as [-> _]. done. }
    assert ((view k' (tp_fd b)).1 = (view (g_k g) (tp_fd b)).1 ++ slice data 0 sent) as Hv1.
    { rewrite <-Hv. unfold view. rewrite Ho, Hopk. cbn. done. }
    split_and!; try done.
    + by apply (si_ok_k l (set_k g1 k) k').
    + split; cbn [g_k set_k upd_g].
      * intros ->. rewrite Hv1. destruct Hres as [[_ ->]|[? _]]; [|done]. by rewrite slice_all.
      * intros ->. exfalso. destruct Hres as [[? _]|[? _]]; [destruct (0 <? zlen data)|]; done.
      * intros ->. right. exists (Z.to_nat sent). split.
        { intros Hd. destruct Hres as [[Hst _]|[_ Hlt]]; [|unfold zlen in *; lia].
          destruct (Z.ltb_spec 0 (zlen data)); [done|]. destruct data; [done|]. unfold zlen in *. cbn in *. lia. }
        rewrite Hv1. done.
      * destruct Hres as [[-> _]|[-> _]]; [destruct (0 <? zlen data)|]; auto.
      * left. rewrite <-Hv. unfold view. rewrite Ho, Hopk. done.
      * intros fd' Hne. rewrite <-Hv. by apply same_view, Hoth.
Qed.

(** ** Closing *)

Lemma tp_of_fd_session l g fd i b :
  si_ok l g -> k_limit <= MAX_FDS -> 0 <= fd -> tp_of_fd g fd = Ret (Some i) -> g_blks g !! i = Some b -> flag_on (tp_flags b) TPF_LISTENFD = false.
Proof.
  intros Hok Hlim Hf E Hb. destruct (tp_of_fd_spec l g fd Hok) as (r & Er & Hr). rewrite E in Er. injection Er as <-.
  destruct Hr as (Hi & b' & Hb' & Efd). simplify_eq. destruct (so_live l g Hok i b Hi Hb Hf) as [_ Hlt].
  unfold tp_of_fd in E. destruct (Z.ltb_spec (tp_fd b) MAX_FDS); [|lia]. injection E as E.
  destruct (so_map l g Hok _ i E) as (_ & _ & x & Hx & _ & Hl). by simplify_eq.
Qed.

Lemma SIclose_spec l g fd :
  si_ok l g -> exists st g', SIclose g fd = Ret (st, g') /\ si_ok l g' /\ g_flags g' = g_flags g /\ g_cbtab g' = g_cbtab g /\
    (forall fd', 0 <= fd -> fd' <> fd -> view (g_k g') fd' = view (g_k g) fd') /\
    (st = SI_OK -> 0 <= fd -> view (g_k g') fd = ([], []) /\ g_map g' !! fd = None).
Proof.
  intros Hok. unfold SIclose.
  set (tp := if 0 <=? fd then _ else _). assert (exists r, tp = Ret r /\
    match r with Some i => i ∈ l /\ exists b, g_blks g !! i = Some b /\ (0 <= fd -> tp_fd b = fd) | None => True end) as (r & -> & Hr).
  { unfold tp. destruct (Z.leb_spec 0 fd) as [Hp|Hn].
    - destruct (tp_of_fd_spec l g fd Hok) as (r & -> & Hr). exists r. split; [done|]. destruct r as [i|]; [|done].
      destruct Hr as (Hi & b & Hb & E). split; [done|]. by exists b.
    - destruct (fd =? TCP_LISTEN_PORT);
        [destruct (find_tp_spec l g (fun b => negb (tp_flags b =? 0)) Hok) as (r & -> & Hr)
        |destruct (find_tp_spec l g (fun b => tp_type b =? SOCK_DGRAM) Hok) as (r & -> & Hr)];
        (exists r; split; [done|]; destruct r as [i|]; [|done]; destruct Hr as (Hi & b & Hb & _); split; [done|]; exists b; split; [done|lia]). }
  cbn [mbind comp_bind]. destruct r as [i|]; [|by do 2 eexists]. destruct Hr as (Hi & b & Hb & Efd).
  rewrite Hb. cbn [deref mbind comp_bind]. rewrite (so_queue l g Hok i b Hi Hb). unfold upd_blk. rewrite Hb. cbn [deref mbind comp_bind].
  set (b1 := or_flags (or_flags b TPF_UNBIND) TPF_DELETE).
  rewrite (SIterm_eq _ i b1) by (cbn; by rewrite lookup_insert_eq). cbn [mbind comp_bind].
  assert (close_blk (set_blks g (<[i := b1]> (g_blks g))) i b1 (termed b1) = close_blk g i b (termed b1)) as ->.
  { unfold close_blk. cbn. by rewrite insert_insert_eq. }
  do 2 eexists. split; [reflexivity|]. split_and!; try done.
  - by eapply close_blk_ok.
  - intros fd' Hp Hne. rewrite close_blk_view. rewrite decide_False; [done|]. rewrite Efd by done. tauto.
  - intros _ Hp. specialize (Efd Hp). split; [by rewrite close_blk_view, decide_True|]. cbn.
    destruct (Z.leb_spec 0 (tp_fd b)), (Z.ltb_spec (tp_fd b) MAX_FDS); cbn; try lia.
    + rewrite Efd. by rewrite lookup_delete_eq.
    + apply eq_None_not_Some. intros [j Hj]. destruct (so_map l g Hok fd j Hj) as [Hr _]. lia.
Qed.

(** ** The thread that takes blocks off *)

Lemma SIrm_eq l g q i b :
  si_ok l g -> l !! q = Some i -> g_blks g !! i = Some b -> (1 < length l)%nat ->
  SIrm_tpb g i = Ret (set_blks (set_tplist g (match tp_prev b with None => tp_next b | Some _ => g_tplist g end)) (delete i (unlink (g_blks g) b))).
Proof.
  intros Hok Hq Hb Hlen. pose proof (so_list l g Hok) as (Hn & Hh & Hl). destruct (Hl q i Hq) as (b' & Hb' & Enx & Epv). simplify_eq.
  assert (forall m j, l !! m = Some j -> exists x, g_blks g !! j = Some x) as Hget.
  { intros m j Hm. destruct (Hl m j Hm) as (x & Hx & _). by exists x. }
  assert (forall m, m <> q -> l !! m <> Some i) as Hne by (intros m Hm E; apply Hm; by eapply (proj1 (NoDup_alt _) Hn)).
  unfold SIrm_tpb, upd_blk, free_blk. rewrite Hb. cbn [deref mbind comp_bind].
  destruct (tp_prev b) as [p|] eqn:Ep.
  - assert (exists bp, g_blks g !! p = Some bp /\ p <> i) as (bp & Hbp & Hpi).
    { destruct q as [|q]; [done|]. cbn in Epv. symmetry in Epv. destruct (Hget q p Epv) as [bp Hbp]. exists bp. split; [done|]. intros ->. by apply (Hne q); [lia|]. }
    rewrite Hbp. cbn [deref mbind comp_bind]. destruct (tp_next b) as [n|] eqn:En.
    + symmetry in Enx. destruct (Hget _ n Enx) as [bn Hbn]. assert (n <> i) by (intros ->; by apply (Hne (S q)); [lia|]).
      assert (n <> p) as Hnp.
      { intros ->. destruct q as [|q]; [done|]. cbn in Epv. symmetry in Epv. assert (S (S q) = q) by by eapply (proj1 (NoDup_alt _) Hn). lia. }
      cbn. rewrite lookup_insert_ne by done. rewrite Hbn. cbn. rewrite !lookup_insert_ne by done. rewrite Hb. cbn. f_equal.
      unfold set_blks, upd_g. cbn. f_equal. f_equal. unfold unlink. rewrite Ep, En. apply map_eq. intros j.
      destruct (decide (j = n)) as [->|]; [rewrite lookup_insert_eq, lookup_alter_eq, lookup_alter_ne, Hbn by done; done|].
      rewrite lookup_insert_ne, lookup_alter_ne by done. destruct (decide (j = p)) as [->|]; [by rewrite lookup_insert_eq, lookup_alter_eq, Hbp|].
      by rewrite lookup_insert_ne, lookup_alter_ne by done.
    + cbn. rewrite lookup_insert_ne by done. rewrite Hb. cbn. f_equal. unfold set_blks, upd_g. cbn. f_equal. f_equal. unfold unlink. rewrite Ep, En.
      apply map_eq. intros j. destruct (decide (j = p)) as [->|]; [by rewrite lookup_insert_eq, lookup_alter_eq, Hbp|].
      by rewrite lookup_insert_ne, lookup_alter_ne by done.
  - destruct q as [|q]; cycle 1.
    { cbn in Epv. apply lookup_lt_Some in Hq. symmetry in Epv. apply lookup_ge_None in Epv. lia. }
    destruct (tp_next b) as [n|] eqn:En; cycle 1.
    { symmetry in Enx. apply lookup_ge_None in Enx. lia. }
    symmetry in Enx. destruct (Hget _ n Enx) as [bn Hbn]. assert (n <> i) by (intros ->; by apply (Hne 1%nat)).
    cbn. rewrite Hbn. cbn. rewrite lookup_insert_ne by done. rewrite Hb. cbn. f_equal. unfold set_blks, set_tplist, upd_g. cbn. f_equal. f_equal.
    unfold unlink. rewrite Ep, En. apply map_eq. intros j. destruct (decide (j = n)) as [->|]; [by rewrite lookup_insert_eq, lookup_alter_eq, Hbn|].
    by rewrite lookup_insert_ne, lookup_alter_ne by done.
Qed.

Lemma SIrm_ok l g q i b :
  si_ok l g -> l !! q = Some i -> g_blks g !! i = Some b -> tp_fd b < 0 ->
  si_ok (delete q l) (set_blks (set_tplist g (match tp_prev b with None => tp_next b | Some _ => g_tplist g end)) (delete i (unlink (g_blks g) b))).
Proof.
  intros [H1 H2 H3 H4 H5 H6 H7 H8] Hq Hb Hfd.
  assert (forall j x, j ∈ delete q l -> delete i (unlink (g_blks g) b) !! j = Some x ->
    j ∈ l /\ exists y, g_blks g !! j = Some y /\ tp_fd x = tp_fd y /\ tp_flags x = tp_flags y /\ tp_squeue x = tp_squeue y) as Hx.
  { intros j x Hj Hjx. apply (delete_mem l q i j (proj1 H1) Hq) in Hj as [Hj Hne]. split; [done|].
    destruct (dlist_get _ _ _ j H1 Hj) as [y Hy]. exists y. rewrite lookup_delete_ne in Hjx by done. rewrite (unlink_get _ _ _ y) in Hjx by done.
    injection Hjx as <-. by repeat case_decide. }
  split; cbn.
  - by apply dlist_remove.
  - intros j [x Hjx]. apply lookup_delete_Some in Hjx as [_ Hjx]. apply H2. destruct (g_blks g !! j) as [y|] eqn:Ey; [by exists y|].
    unfold unlink in Hjx. destruct (tp_next b), (tp_prev b);
      repeat (apply lookup_alter_Some in Hjx as [(-> & ? & Hjx & _)|[_ Hjx]]); congruence.
  - intros j x Hj Hjx Hf. destruct (Hx j x Hj Hjx) as (Hjl & y & Hy & Ef & _). rewrite Ef in *. by eapply H3.
  - intros j x Hj Hjx Hd. destruct (Hx j x Hj Hjx) as (Hjl & y & Hy & Ef & Efl & _). rewrite Ef, Efl in *. by eapply H4.
  - intros j j' x x' Hj Hj' Hjx Hjx' Hf E. destruct (Hx j x Hj Hjx) as (Hjl & y & Hy & Ef & _), (Hx j' x' Hj' Hjx') as (Hjl' & y' & Hy' & Ef' & _).
    rewrite Ef in *. rewrite Ef' in *. by eapply H5.
  - intros fd j Hm. destruct (H6 fd j Hm) as (Hr & Hj & y & Hy & Ef & Hlf). split; [done|].
    assert (j <> i) as Hne by (intros ->; simplify_eq; lia). split; [by apply (delete_mem l q i j (proj1 H1) Hq)|].
    rewrite lookup_delete_ne by done. rewrite (unlink_get _ _ _ y) by done. eexists. split; [done|]. by repeat case_decide.
  - intros j x Hj Hjx Hr Hs. destruct (Hx j x Hj Hjx) as (Hjl & y & Hy & Ef & Efl & _). rewrite Ef, Efl in *. by eapply H7.
  - intros j x Hj Hjx. destruct (Hx j x Hj Hjx) as (Hjl & y & Hy & _ & _ & Eq). rewrite Eq. by eapply H8.
Qed.

(** A block that stays, its descriptor watched for input. *)
Definition watched g b : Prop :=
  flag_on (tp_flags b) TPF_DELETE = false /\ (0 <= tp_fd b -> flag_on (tp_flags b) TPF_DRAIN = false -> tp_fd b ∈ g_readfds g).

(** What SIbldpoll keeps: it only drops blocks that are marked. *)
Record polled (l : list nat) g (l' : list nat) g' : Prop := {
  po_k : g_k g' = g_k g;
  po_flags : g_flags g' = g_flags g;
  po_cbs : g_cbtab g' = g_cbtab g;
  po_map : g_map g' = g_map g;
  po_sub : forall j, j ∈ l' -> j ∈ l;
  po_blks : forall j b, j ∈ l -> g_blks g !! j = Some b -> flag_on (tp_flags b) TPF_DELETE = false ->
    j ∈ l' /\ exists b', g_blks g' !! j = Some b' /\ tp_fd b' = tp_fd b /\ tp_flags b' = tp_flags b;
  po_sets : g_readfds g ⊆ g_readfds g'
}.

Lemma polled_refl l g : polled l g l g.
Proof. split; try done. intros j b Hj Hb _. split; [done|]. by exists b. Qed.

Lemma polled_trans l1 g1 l2 g2 l3 g3 : polled l1 g1 l2 g2 -> polled l2 g2 l3 g3 -> polled l1 g1 l3 g3.
Proof.
  intros [A1 A2 A3 A4 A5 A6 A7] [B1 B2 B3 B4 B5 B6 B7]. split; try congruence.
  - intros j Hj. by apply A5, B5.
  - intros j b Hj Hb Hd. destruct (A6 j b Hj Hb Hd) as (Hj2 & b2 & Hb2 & E1 & E2). destruct (B6 j b2 Hj2 Hb2) as (Hj3 & b3 & Hb3 & E3 & E4); [by rewrite E2|].
    split; [done|]. exists b3. split; [done|]. split; congruence.
  - by etrans.
Qed.

(** One block: the list afterwards has lost it or not. *)
Lemma poll_blk_spec l g q i b :
  si_ok l g -> k_limit <= FD_SETSIZE -> l !! q = Some i -> g_blks g !! i = Some b ->
  (flag_on (tp_flags b) TPF_DELETE = true -> (1 < length l)%nat) ->
  exists g' l' q', poll_blk g i = Ret g' /\ si_ok l' g' /\ polled l g l' g' /\ l' !! q' = tp_next b /\ (length l' - q' = length l - S q)%nat /\
    (forall j, j ∈ take q' l' -> j ∈ take q l \/ j = i /\ exists b', g_blks g' !! i = Some b' /\ watched g' b').
Proof.
  intros Hok Hlim Hq Hb Hlen. assert (i ∈ l) as Hi by by eapply list_elem_of_lookup_2.
  assert (tp_next b = l !! S q) as Hnx. { pose proof (so_list l g Hok) as (_ & _ & Hl). destruct (Hl q i Hq) as (b' & Hb' & En & _). by simplify_eq. }
  assert (forall j, j ∈ take (S q) l -> j ∈ take q l \/ j = i) as Htake.
  { intros j Hj. rewrite (take_S_r _ _ i Hq) in Hj. apply elem_of_app in Hj as [Hj|Hj]; [by left|]. right. by apply list_elem_of_singleton. }
  unfold poll_blk. rewrite Hb. cbn [deref mbind comp_bind]. destruct (flag_on (tp_flags b) TPF_DELETE) eqn:Ed.
  - pose proof (so_del l g Hok i b Hi Hb Ed) as Hfd. destruct (Z.leb_spec 0 (tp_fd b)); [lia|]. cbn [mbind comp_bind].
    rewrite (SIrm_eq l g q i b) by auto. eexists. exists (delete q l), q. split; [reflexivity|].
    assert (q < length l)%nat as Hlt by by eapply lookup_lt_Some.
    split; [by apply SIrm_ok|]. split; [|split_and!].
    + split; try done.
      * intros j Hj. by apply (delete_mem l q i j (proj1 (so_list l g Hok)) Hq) in Hj as [Hj _].
      * intros j x Hj Hx Hdx. assert (j <> i) as Hne by (intros ->; congruence).
        split; [by apply (delete_mem l q i j (proj1 (so_list l g Hok)) Hq)|]. cbn. rewrite lookup_delete_ne by done. rewrite (unlink_get _ _ _ x) by done.
        eexists. split; [done|]. by repeat case_decide.
    + by rewrite list_lookup_delete_ge.
    + rewrite length_delete by done. lia.
    + intros j Hj. left. rewrite delete_take_drop, take_app_le in Hj by (rewrite length_take; lia). by rewrite take_take, Nat.min_id in Hj.
  - destruct (Z.leb_spec 0 (tp_fd b)) as [Hfd|Hfd]; cycle 1.
    { exists g, l, (S q). split; [done|]. split; [done|]. split; [apply polled_refl|]. split; [done|]. split; [lia|].
      intros j Hj. destruct (Htake j Hj) as [?| ->]; [by left|]. right. split; [done|]. exists b. split; [done|]. split; [done|]. intros ?. lia. }
    destruct (so_live l g Hok i b Hi Hb Hfd) as [_ Hl2]. unfold FD_SET. destruct (Z.leb_spec 0 (tp_fd b)); [|lia].
    destruct (Z.ltb_spec (tp_fd b) FD_SETSIZE); [|lia]. cbn [andb mbind comp_bind]. rewrite (so_queue l g Hok i b Hi Hb).
    assert (exists r, (if flag_on (tp_flags b) TPF_DRAIN then Ret (g_readfds g) else Ret ({[tp_fd b]} ∪ g_readfds g)) = Ret r /\ g_readfds g ⊆ r /\
      (flag_on (tp_flags b) TPF_DRAIN = false -> tp_fd b ∈ r)) as (r & -> & Hsub & Hin).
    { destruct (flag_on (tp_flags b) TPF_DRAIN); eexists; (split; [reflexivity|]); [done|]. split; [|intros _]; set_solver. }
    cbn [mbind comp_bind]. eexists. exists l, (S q). split; [reflexivity|]. split; [by eapply si_ok_same|]. split; [|split; [done|split; [lia|]]].
    + split; try done. intros j x Hj Hx _. split; [done|]. by exists x.
    + intros j Hj. destruct (Htake j Hj) as [?| ->]; [by left|]. right. split; [done|]. exists b. split; [done|]. split; [done|]. intros _ Hdr. by apply Hin.
Qed.

(** A listen block is open. *)
Definition listening (l : list nat) g : Prop :=
  exists i b, i ∈ l /\ g_blks g !! i = Some b /\ flag_on (tp_flags b) TPF_LISTENFD = true /\ flag_on (tp_flags b) TPF_DELETE = false.

Lemma polled_listening l g l' g' : polled l g l' g' -> listening l g -> listening l' g'.
Proof.
  intros Hp (i & b & Hi & Hb & Hl & Hd). destruct (po_blks _ _ _ _ Hp i b Hi Hb Hd) as (Hi' & b' & Hb' & _ & E). exists i, b'. by rewrite E.
Qed.

Lemma listening_two l g i b : listening l g -> i ∈ l -> g_blks g !! i = Some b -> flag_on (tp_flags b) TPF_DELETE = true -> (1 < length l)%nat.
Proof.
  intros (j & x & Hj & Hx & _ & Hd) Hi Hb Hdb. destruct l as [|i1 [|i2 l]]; cbn; [by apply not_elem_of_nil in Hi| |lia].
  apply list_elem_of_singleton in Hi, Hj. subst. congruence.
Qed.

Lemma poll_all_spec n : forall l q g,
  (length l - q <= n)%nat -> si_ok l g -> k_limit <= FD_SETSIZE -> listening l g ->
  (forall j b, j ∈ take q l -> g_blks g !! j = Some b -> watched g b) ->
  exists g' l', poll_all n g (l !! q) = Ret g' /\ si_ok l' g' /\ polled l g l' g' /\ forall j b, j ∈ l' -> g_blks g' !! j = Some b -> watched g' b.
Proof.
  induction n as [|n IH]; intros l q g Hn Hok Hlim Hlis Hw.
  - assert (l !! q = None) as -> by (apply lookup_ge_None; lia). exists g, l. split; [done|]. split; [done|]. split; [apply polled_refl|].
    rewrite take_ge in Hw by lia. done.
  - destruct (l !! q) as [i|] eqn:Eq; cycle 1.
    { exists g, l. split; [done|]. split; [done|]. split; [apply polled_refl|]. rewrite take_ge in Hw by (by apply lookup_ge_None). done. }
    destruct (dlist_get _ _ _ i (so_list l g Hok)) as [b Hb]; [by eapply list_elem_of_lookup_2|].
    destruct (poll_blk_spec l g q i b Hok Hlim Eq Hb) as (g1 & l1 & q1 & E1 & Hok1 & Hp1 & Hnx & Hlen & Hpre).
    { intros Hd. eapply listening_two; [done| |done|done]. by eapply list_elem_of_lookup_2. }
    cbn. rewrite Hb. cbn. rewrite E1. cbn. rewrite <-Hnx.
    destruct (IH l1 q1 g1) as (g' & l' & E & Hok' & Hp' & Hw').
    + apply lookup_lt_Some in Eq. lia.
    + done.
    + done.
    + by eapply polled_listening.
    + intros j x Hj Hx. destruct (Hpre j Hj) as [Hj0|[-> (b' & Hb' & Hwb)]]; [|by simplify_eq].
      destruct (dlist_get _ _ _ j (so_list l g Hok)) as [y Hy]; [by eapply elem_of_take in Hj0 as (? & ? & _); eapply list_elem_of_lookup_2|].
      destruct (Hw j y Hj0 Hy) as [Hdy Hwy].
      assert (j ∈ l) as Hjl by (by eapply elem_of_take in Hj0 as (? & ? & _); eapply list_elem_of_lookup_2).
      destruct (po_blks _ _ _ _ Hp1 j y Hjl Hy Hdy) as (_ & y' & Hy' & E2 & E3). simplify_eq.
      split; [by rewrite E3|]. rewrite E2, E3. intros H1 H2. apply (po_sets _ _ _ _ Hp1). by apply Hwy.
    + exists g', l'. split; [done|]. split; [done|]. split; [by eapply polled_trans|done].
Qed.

Lemma SIbldpoll_spec l g :
  si_ok l g -> k_limit <= FD_SETSIZE -> listening l g ->
  exists g' l', SIbldpoll g = Ret g' /\ si_ok l' g' /\ listening l' g' /\ g_k g' = g_k g /\ g_flags g' = g_flags g /\ g_cbtab g' = g_cbtab g /\
    forall j b, j ∈ l' -> g_blks g' !! j = Some b -> watched g' b.
Proof.
  intros Hok Hlim Hlis. unfold SIbldpoll. set (g0 := set_poll g ∅ ∅ ∅ (-1)).
  assert (si_ok l g0) as Hok0 by by eapply si_ok_same. pose proof (so_list l g Hok) as Hd. pose proof Hd as (_ & -> & _).
  destruct (poll_all_spec (size (g_blks g)) l 0 g0) as (g' & l' & E & Hok' & Hp & Hw); try done.
  - pose proof (dlist_size _ _ _ Hd). lia.
  - intros j b Hj. by apply not_elem_of_nil in Hj.
  - exists g', l'. split; [done|]. split; [done|]. split; [by eapply polled_listening|]. destruct Hp. done.
Qed.

(** ** Listening *)

Lemma pushed_grown l g i x m :
  si_ok l g -> i ∉ l -> grown l g (upd_g g (Some i) (push_blks (g_blks g) (g_tplist g) i x) (g_fresh g) (g_flags g) m (g_k g)).
Proof.
  intros Hok Hi. split; try done. intros j b Hj Hb. cbn. rewrite (push_other _ _ _ _ _ b) by (done || by intros ->).
  eexists. split; [done|]. by case_decide.
Qed.

Lemma grown_trans l g1 g2 g3 : grown l g1 g2 -> grown l g2 g3 -> grown l g1 g3.
Proof.
  intros [A1 A2 A3 A4] [B1 B2 B3 B4]. split; try congruence.
  intros j b Hj Hb. destruct (A3 j b Hj Hb) as (b2 & Hb2 & E1 & E2). destruct (B3 j b2 Hj Hb2) as (b3 & Hb3 & E3 & E4).
  exists b3. split; [done|]. split; congruence.
Qed.

Lemma own_k l g i b k : own_blk l g i b -> keeps (g_k g) k -> own_blk l (set_k g k) i b.
Proof.
  intros [H1 H2 H3 (H4 & H5 & H6) H7 H8] Hk. split; try done; cbn.
  - split; [done|]. split; [by eapply keeps_open|done].
  - by rewrite (keeps_view (g_k g)).
Qed.

Lemma own_upd l g i b b' :
  own_blk l g i b -> tp_next b' = tp_next b -> tp_prev b' = tp_prev b -> tp_squeue b' = tp_squeue b -> tp_fd b' = tp_fd b -> tp_flags b' = tp_flags b ->
  own_blk l (set_blks g (<[i := b']> (g_blks g))) i b'.
Proof.
  intros [H1 H2 H3 (H4 & H5 & H6) H7 H8] E1 E2 E3 E4 E5. split; cbn; rewrite ?E1, ?E2, ?E3, ?E4, ?E5; try done.
  - by rewrite lookup_insert_eq.
  - split; [done|]. split; [done|]. intros j x Hj. cbn. rewrite lookup_insert_ne by (by intros <-). by apply H6.
Qed.

Lemma upd_off l g i x : si_ok l g -> i ∉ l -> is_Some (g_blks g !! i) -> si_ok l (set_blks g (<[i := x]> (g_blks g))) /\ aside l g (set_blks g (<[i := x]> (g_blks g))).
Proof.
  intros Hok Hi Hs. assert (forall j, j ∈ l -> <[i := x]> (g_blks g) !! j = g_blks g !! j) as Hb.
  { intros j Hj. rewrite lookup_insert_ne; [done|]. by intros <-. }
  split; [|by split]. apply (si_ok_off l g _ (g_fresh g)); [done|done|].
  intros j Hj. apply (so_fresh l g Hok). destruct (decide (i = j)) as [<-|]; [done|by rewrite lookup_insert_ne in Hj].
Qed.

Lemma keeps_aside l g k : keeps (g_k g) k -> aside l g (set_k g k).
Proof. intros Hk. split; try done. intros fd. by apply keeps_view. Qed.

Lemma aside_trans l g1 g2 g3 : aside l g1 g2 -> aside l g2 g3 -> aside l g1 g3.
Proof.
  intros [A1 A2 A3 A4 A5 A6] [B1 B2 B3 B4 B5 B6]. split; try congruence.
  intros j Hj. rewrite B5 by done. by apply A5.
Qed.

(** A block off the list is freed, its descriptor closed. *)
Lemma trash_own l g i b k :
  si_ok l g -> own_blk l g i b -> keeps (g_k g) k \/ gone (g_k g) (tp_fd b) k ->
  let g' := set_blks (set_k g k) (delete i (g_blks g)) in si_ok l g' /\ aside l g g'.
Proof.
  intros Hok Hown Hk g'. destruct (attempt_fail_k l g i b k Hown Hok Hk) as [Hv Ho].
  assert (forall j, j ∈ l -> delete i (g_blks g) !! j = g_blks g !! j) as Hold.
  { intros j Hj. rewrite lookup_delete_ne; [done|]. intros <-. by apply (ob_off _ _ _ _ Hown). }
  split; [|by split].
  apply (si_ok_off l (set_k g k)); [by apply si_ok_live|done|]. intros j [x Hx]. apply lookup_delete_Some in Hx as [_ Hx].
  apply (so_fresh l g Hok). by exists x.
Qed.

Lemma listen_prep_spec l g ty a fam :
  si_ok l g -> exists r g', SIlisten_prep g ty a fam = Ret (r, g') /\ si_ok l g' /\ aside l g g' /\
    match r with Some i => exists b, own_blk l g' i b | None => True end.
Proof.
  intros Hok. unfold SIlisten_prep, SInew. destruct (if ty =? UDP_DEVICE then _ else _) as [ty' protocol].
  destruct (SIgenaddr a protocol fam ty') as [alen addr]. destruct (alen <=? 0).
  { unfold free_blk. cbn. rewrite lookup_insert_eq. cbn. do 2 eexists. split; [reflexivity|].
    destruct (new_free l g (g_k g) Hok (kern_keeps_refl _)). done. }
  cbn [g_k upd_g]. destruct (k_socket (g_k g)) as [fd k] eqn:Es. pose proof (k_socket_law _ _ _ Es) as Hs.
  unfold upd_blk. cbn [g_blks set_k upd_g]. rewrite lookup_insert_eq. cbn [deref mbind comp_bind]. rewrite insert_insert_eq. change SI_OK with 0.
  destruct (0 <=? fd) eqn:Ef.
  - destruct (new_sock l g k fd ty' None None TPF_UNBIND Hok Hs eq_refl eq_refl eq_refl) as (H1 & H2 & H3).
    set (b := MkTp None None fd TPF_UNBIND ty' None None [] 0 0) in *.
    change (set_sock new_tp fd ty' None None) with b.
    set (g1 := upd_g g (g_tplist g) (<[g_fresh g := b]> (g_blks g)) (S (g_fresh g)) (g_flags g) (g_map g) k) in *.
    change (set_blks _ (<[g_fresh g := b]> (g_blks g))) with g1. cbn [g_k g1 upd_g].
    destruct (k_bind k fd (default [] addr)) as [st k1] eqn:Eb. apply k_bind_law in Eb as Hk.
    destruct (st =? 0).
    + cbn [g_blks set_k upd_g g1]. rewrite lookup_insert_eq. cbn [deref mbind comp_bind]. do 2 eexists. split; [reflexivity|].
      pose proof (own_k l g1 _ b k1 H3 Hk) as Ho1. assert (si_ok l (set_k g1 k1)) as Hok1 by (apply si_ok_k; [done|]; intros f; by apply keeps_open).
      destruct (upd_off l (set_k g1 k1) (g_fresh g) (set_sock b fd ty' addr None) Hok1) as [Hok2 Ha2]; [by apply H3|rewrite (ob_get _ _ _ _ Ho1); by eexists|].
      split; [exact Hok2|]. split.
      * eapply aside_trans; [exact H2|]. eapply aside_trans; [by apply keeps_aside|]. exact Ha2.
      * eexists. by eapply (own_upd l (set_k g1 k1) _ b).
    + unfold SItrash, free_blk. cbn [g_blks set_k upd_g g1]. rewrite lookup_insert_eq. cbn [deref mbind comp_bind b tp_fd]. rewrite Ef.
      cbn [g_blks set_k upd_g g1]. rewrite lookup_insert_eq. cbn [deref mbind comp_bind]. do 2 eexists. split; [reflexivity|].
      destruct (trash_own l g1 (g_fresh g) b (k_close (k_close k1 fd) fd) H1 H3) as [Hok1 Ha1].
      { right. apply (close_gone k (k_close k1 fd) fd). right. apply close_gone. by left. }
      split; [exact Hok1|]. split; [|done]. eapply aside_trans; [exact H2|exact Ha1].
  - unfold SItrash, free_blk. cbn. rewrite lookup_insert_eq. cbn. rewrite Ef. cbn. rewrite lookup_insert_eq. cbn. rewrite delete_insert_eq.
    do 2 eexists. split; [reflexivity|]. destruct (new_free l g k Hok Hs) as [H1 H2]. cbn in H1, H2. rewrite delete_insert_eq in H1, H2. done.
Qed.

(** The descriptor of a new listen block is that of the list's head. *)
Lemma SIlistener_spec l g ty a :
  si_ok l g -> exists fd g' l', SIlistener g ty a = Ret (fd, g') /\ si_ok l' g' /\ grown l g g' /\
    ((fd = SI_ERROR /\ l' = l) \/ exists i, l' = i :: l /\ i ∉ l /\ 0 <= fd < k_limit /\ (ty = TCP_DEVICE -> listening l' g')).
Proof.
  intros Hok. unfold SIlistener. destruct (listen_prep_spec l g ty a 0 Hok) as (r & g1 & -> & Hok1 & Ha & Hr). cbn [mbind comp_bind].
  destruct r as [i|]; [|exists SI_ERROR, g1, l; split_and!; [done|done|by apply aside_grown|by left]].
  destruct Hr as (b & Hown). pose proof Hown as [Hoff Hget (Hn & Hp & Hq) (Hfd & Hopen & Hun) Hv (Hfl1 & Hfl2 & Hfl3)]. rewrite Hget. cbn [deref mbind comp_bind].
  destruct (Z.eqb_spec ty TCP_DEVICE) as [->|Hty].
  - destruct (k_listen (g_k g1) (tp_fd b)) as [st k] eqn:El. apply k_listen_law in El as Hk.
    assert (si_ok l (set_k g1 k)) as Hok2 by (apply si_ok_k; [done|]; intros f; by apply keeps_open).
    destruct (st <? SI_OK).
    { exists SI_ERROR, (set_k g1 k), l. split_and!; [done|done| |by left]. eapply grown_trans; [by apply aside_grown|]. by apply aside_grown, keeps_aside. }
    unfold upd_blk. cbn [g_blks set_k upd_g]. rewrite Hget. cbn [deref mbind comp_bind].
    set (b1 := or_flags b TPF_LISTENFD). destruct (upd_off l (set_k g1 k) i b1 Hok2 Hoff) as [Hok3 Ha3]; [cbn; rewrite Hget; by eexists|].
    cbn [g_blks set_k upd_g] in Hok3, Ha3. set (g2 := set_blks (set_k g1 k) (<[i := b1]> (g_blks g1))) in *.
    assert (g_blks g2 !! i = Some b1) as Hg2 by (cbn; by rewrite lookup_insert_eq).
    rewrite (link_head_eq l g2 i b1) by done. cbn [mbind comp_bind].
    exists (tp_fd b). eexists. exists (i :: l). split; [reflexivity|]. split; [|split].
    + eapply (push_ok l g2 i b1 (set_next b1 (g_tplist g2)) (g_flags g2)); try done; cbn.
      * by eapply keeps_open.
      * intros j x Hj. cbn. rewrite lookup_insert_ne by (by intros <-). by apply Hun.
      * by rewrite flag_lor, Hfl1.
      * left. split; [done|]. by rewrite flag_lor, Hfl2.
    + eapply grown_trans; [by apply aside_grown|]. eapply grown_trans; [by apply aside_grown, keeps_aside|].
      eapply grown_trans; [apply aside_grown; exact Ha3|]. by apply (pushed_grown l g2 i).
    + right. exists i. split_and!; [done|done|lia|lia|]. intros _. exists i, (set_next b1 (g_tplist g2)). split_and!; [by left| | |].
      * cbn. apply push_head. destruct (so_list l g1 Hok1) as (_ & -> & _). intros E. apply Hoff. by eapply list_elem_of_lookup_2.
      * cbn. rewrite flag_lor. apply orb_true_r.
      * cbn. by rewrite flag_lor, Hfl1.
  - rewrite (link_head_eq l g1 i b) by done. cbn [mbind comp_bind].
    exists (tp_fd b). eexists. exists (i :: l). split; [reflexivity|]. split; [|split].
    + eapply (push_ok l g1 i b (set_next b (g_tplist g1)) (g_flags g1)); try done. by left.
    + eapply grown_trans; [by apply aside_grown|]. by apply (pushed_grown l g1 i).
    + right. exists i. split_and!; [done|done|lia|lia|]. done.
Qed.

(** ** Callbacks *)

(** What was read from each descriptor. *)
Definition reads k : Z -> list Z := fun fd => (view k fd).2.

Definition upd_fd (rd : Z -> list Z) (fd : Z) (v : list Z) : Z -> list Z := fun fd' => if fd' =? fd then v else rd fd'.

(** The relation between the state of the callbacks and the streams may depend
    on something the callbacks do not change, of type [X]. *)
Context {X : Type}.
Variable Js : X -> U -> (Z -> list Z) -> Prop.
Hypothesis J_ext : forall x u rd rd', (forall fd, rd fd = rd' fd) -> Js x u rd -> Js x u rd'.

(** What the callbacks may rely on: [G] holds of all that was read, because the
    peers keep it. *)
Variable G : (Z -> list Z) -> Prop.
Hypothesis J_G : forall x u rd, Js x u rd -> G rd.
Hypothesis G_ext : forall rd rd', (forall fd, rd fd = rd' fd) -> G rd -> G rd'.
Hypothesis G_recv : forall k fd n st data k', G (reads k) -> k_recv k fd n = (st, data, k') -> G (reads k').

Variable todot : list Z -> list Z.

(** The contract of the callbacks: they return, and keep the relation [Js]
    between their state and what was read from the sessions that are open. *)
Definition cb_keeps (pre : (Z -> list Z) -> Prop) (cb : callback U) (arg : cb_arg) (f : (Z -> list Z) -> Z -> list Z) (stays : bool) : Prop :=
  forall x u rd, Js x u rd -> pre rd -> exists st u', cb u arg = Ret (st, u') /\ Js x u' (f rd) /\ (stays = true -> st <> SI_RET_UNREG).

Definition always (rd : Z -> list Z) : Prop := True.

Record contract (t : gmap Z (callback U)) : Prop := {
  ct_data : exists cb, t !! SI_CB_CDATA = Some cb /\
    forall fd data, 0 <= fd < FD_SETSIZE -> data <> [] ->
      let f rd := upd_fd rd fd (rd fd ++ data) in cb_keeps (fun rd => G (f rd)) cb (CbData fd data) f true;
  ct_disc : exists cb, t !! SI_CB_DISC = Some cb /\
    forall fd, 0 <= fd < FD_SETSIZE -> cb_keeps always cb (CbDisc fd) (fun rd => upd_fd rd fd []) true;
  ct_conn : forall cb, t !! SI_CB_CONN = Some cb -> forall fd a, cb_keeps always cb (CbConn fd a) (fun rd => rd) false;
  ct_sec : forall cb, t !! SI_CB_SECURITY = Some cb -> forall a, cb_keeps always cb (CbSec a) (fun rd => rd) false
}.

Variable x0 : X.
Local Abbreviation J := (Js x0).

(** A status does not take away what the contract needs. *)
Lemma cbstat_contract g st ty :
  contract (g_cbtab g) -> (ty = SI_CB_CDATA \/ ty = SI_CB_DISC -> st <> SI_RET_UNREG) -> contract (g_cbtab (SIcbstat g st ty)).
Proof.
  intros Hc Hst. unfold SIcbstat. destruct (Z.eqb_spec st SI_RET_UNREG) as [->|]; [|by destruct (_ =? _)].
  destruct Hc as [(cb1 & H1 & H1') (cb2 & H2 & H2') H3 H4]. split; cbn.
  - exists cb1. rewrite lookup_delete_ne by (intros ->; by apply Hst; auto). done.
  - exists cb2. rewrite lookup_delete_ne by (intros ->; by apply Hst; auto). done.
  - intros cb E. apply lookup_delete_Some in E as [_ E]. by apply H3.
  - intros cb E. apply lookup_delete_Some in E as [_ E]. by apply H4.
Qed.

(** SIcbstat leaves everything else alone. *)
Record same_but_cbs g g' : Prop := {
  sb_list : g_tplist g' = g_tplist g;
  sb_blks : g_blks g' = g_blks g;
  sb_fresh : g_fresh g' = g_fresh g;
  sb_map : g_map g' = g_map g;
  sb_k : g_k g' = g_k g;
  sb_sets : g_readfds g' = g_readfds g /\ g_writefds g' = g_writefds g /\ g_execpfds g' = g_execpfds g
}.

Lemma cbstat_same g st ty : same_but_cbs g (SIcbstat g st ty).
Proof. unfold SIcbstat. destruct (_ =? _); [done|]. by destruct (_ =? _). Qed.

Lemma same_ok l g g' : same_but_cbs g g' -> si_ok l g -> si_ok l g'.
Proof. intros [] Hok. by eapply si_ok_same. Qed.

Lemma drive_spec g u ty arg pre f stays rd :
  (ty = SI_CB_CDATA \/ ty = SI_CB_DISC -> stays = true) -> pre rd ->
  (forall cb, g_cbtab g !! ty = Some cb -> cb_keeps pre cb arg f stays) -> (g_cbtab g !! ty = None -> J u (f rd)) ->
  contract (g_cbtab g) -> J u rd ->
  exists s g' u', drive g u ty arg = Ret (s, g', u') /\ same_but_cbs g g' /\ contract (g_cbtab g') /\ J u' (f rd).
Proof.
  intros Hty Hpre Hcb Hnone Hc HJ. unfold drive. destruct (g_cbtab g !! ty) as [cb|] eqn:E; [|by do 3 eexists; split_and!; [reflexivity|split| |auto]].
  destruct (Hcb cb eq_refl x0 u rd HJ Hpre) as (st & u' & -> & HJ' & Hst). cbn. do 3 eexists. split; [reflexivity|]. split; [apply cbstat_same|]. split; [|done].
  apply cbstat_contract; [done|]. intros Ht. by apply Hst, Hty.
Qed.

(** ** A round of the receiving thread *)

(** What serving a block keeps: the list may have a new head, listen blocks stay. *)
Record served (l : list nat) g (l' : list nat) g' : Prop := {
  sv_ok : si_ok l' g';
  sv_list : l' = l \/ exists n, l' = n :: l;
  sv_listen : forall j b, j ∈ l -> g_blks g !! j = Some b -> flag_on (tp_flags b) TPF_LISTENFD = true ->
    exists b', g_blks g' !! j = Some b' /\ tp_flags b' = tp_flags b;
  sv_sets : g_readfds g' = g_readfds g /\ g_writefds g' = g_writefds g /\ g_execpfds g' = g_execpfds g
}.

(** A block of the list becomes a session, found through the map. *)
Lemma session_ok l g i b g' :
  si_ok l g -> i ∈ l -> g_blks g !! i = Some b -> flag_on (tp_flags b) TPF_LISTENFD = false -> 0 <= tp_fd b ->
  g_tplist g' = g_tplist g -> g_blks g' = <[i := or_flags b TPF_SESSION]> (g_blks g) -> g_fresh g' = g_fresh g -> g_k g' = g_k g ->
  g_map g' = (if tp_fd b <? MAX_FDS then <[tp_fd b := i]> (g_map g) else g_map g) -> si_ok l g'.
Proof.
  intros [H1 H2 H3 H4 H5 H6 H7 H8] Hi Hb Hlf Hfd E1 E2 E3 E4 E5.
  assert (forall j x, g_blks g' !! j = Some x -> exists y, g_blks g !! j = Some y /\ tp_fd x = tp_fd y /\ tp_squeue x = tp_squeue y /\
    flag_on (tp_flags x) TPF_DELETE = flag_on (tp_flags y) TPF_DELETE /\ flag_on (tp_flags x) TPF_LISTENFD = flag_on (tp_flags y) TPF_LISTENFD /\
    (j <> i -> x = y)) as Hx.
  { intros j x. rewrite E2. destruct (decide (i = j)) as [<-|Hne].
    - rewrite lookup_insert_eq. intros [= <-]. exists b. split; [done|]. split; [done|]. split; [done|]. cbn. rewrite !flag_lor, !orb_false_r. done.
    - rewrite lookup_insert_ne by done. intros Hj. by exists x. }
  split; rewrite ?E1, ?E3, ?E4.
  - rewrite E2. by eapply dlist_upd.
  - intros j [x (y & Hy & _)%Hx]. apply H2. by exists y.
  - intros j x Hj (y & Hy & -> & _)%Hx. by eapply H3.
  - intros j x Hj (y & Hy & -> & _ & -> & _)%Hx. by eapply H4.
  - intros j j' x x' Hj Hj' (y & Hy & -> & _)%Hx (y' & Hy' & -> & _)%Hx. by eapply H5.
  - intros fd j Hm. rewrite E2. assert (g_map g !! fd = Some j \/ (fd = tp_fd b /\ j = i /\ fd < MAX_FDS)) as [Hm'|(-> & -> & Hlt)].
    { rewrite E5 in Hm. destruct (Z.ltb_spec (tp_fd b) MAX_FDS); [|by left]. apply lookup_insert_Some in Hm as [[<- <-]|[_ Hm]]; auto. }
    + destruct (H6 fd j Hm') as (Hr & Hj & y & Hy & Hf & Hl). split; [done|]. split; [done|]. destruct (decide (i = j)) as [<-|].
      * rewrite lookup_insert_eq. eexists. split; [done|]. simplify_eq. cbn. by rewrite flag_lor, Hlf.
      * rewrite lookup_insert_ne by done. by exists y.
    + split; [lia|]. split; [done|]. rewrite lookup_insert_eq. eexists. split; [done|]. cbn. by rewrite flag_lor, Hlf.
  - intros j x Hj Hjx Hr Hs. destruct (Hx j x Hjx) as (y & Hy & Ef & _ & _ & _ & Exy). rewrite E5, Ef in *.
    destruct (decide (j = i)) as [->|Hne].
    + simplify_eq. destruct (Z.ltb_spec (tp_fd b) MAX_FDS); [by rewrite lookup_insert_eq|lia].
    + rewrite (Exy Hne) in Hs. pose proof (H7 j y Hj Hy Hr Hs) as Hm. destruct (_ <? _); [|done].
      rewrite lookup_insert_ne; [done|]. intros E. apply Hne. symmetry. by eapply (H5 i j b y).
  - intros j x Hj (y & Hy & _ & -> & _)%Hx. by eapply H8.
Qed.

Lemma session_up_spec l g u i b addr :
  si_ok l g -> i ∈ l -> g_blks g !! i = Some b -> flag_on (tp_flags b) TPF_LISTENFD = false -> 0 <= tp_fd b ->
  contract (g_cbtab g) -> J u (reads (g_k g)) ->
  exists st g' u', session_up todot g u i (tp_fd b) addr = Ret (st, g', u') /\ si_ok l g' /\ contract (g_cbtab g') /\ J u' (reads (g_k g')) /\
    g_k g' = g_k g /\ g_blks g' = <[i := or_flags b TPF_SESSION]> (g_blks g) /\
    g_readfds g' = g_readfds g /\ g_writefds g' = g_writefds g /\ g_execpfds g' = g_execpfds g.
Proof.
  intros Hok Hi Hb Hlf Hfd Hc HJ. unfold session_up, upd_blk. rewrite Hb. cbn [deref mbind comp_bind].
  set (g1 := set_blks g (<[i := or_flags b TPF_SESSION]> (g_blks g))).
  destruct (drive_spec g1 u SI_CB_CONN (CbConn (tp_fd b) (todot addr)) always (fun rd => rd) false (reads (g_k g)))
    as (s & g2 & u' & -> & [S1 S2 S3 S4 S5 S6] & Hc2 & HJ2); [by intros [?|?]|done|intros cb E; by apply (ct_conn _ Hc)|done|done|done|].
  cbn [mbind comp_bind]. do 3 eexists. split; [reflexivity|]. unfold SImap_fd.
  assert (g_k (if tp_fd b <? MAX_FDS then set_map g2 (<[tp_fd b := i]> (g_map g2)) else g2) = g_k g) as Ek by (destruct (_ <? _); cbn; by rewrite S5).
  split.
  { eapply (session_ok l g i b); try done; destruct (_ <? _); cbn; rewrite ?S1, ?S2, ?S3, ?S4; done. }
  rewrite Ek. split; [by destruct (_ <? _)|]. split; [done|]. split; [done|].
  destruct S6 as (R1 & R2 & R3). destruct (_ <? _); cbn; rewrite ?R1, ?R2, ?R3, ?S2; done.
Qed.

Lemma push_new blks h i x y : push_blks (<[i := y]> blks) h i x = push_blks blks h i x.
Proof. unfold push_blks. destruct h; by rewrite insert_insert_eq. Qed.

(** The block of an accepted connection is the head of the list. *)
Lemma accepted_blk l g k fd addr :
  si_ok l g -> opens (g_k g) fd k ->
  exists g' i b, (let '(i, g1) := SInew (set_k g k) in
                  g1 ← link_head g1 i; upd_blk g1 i (fun b => set_sock b fd (tp_type b) None (Some addr))) = Ret g' /\
    i = g_fresh g /\ si_ok (i :: l) g' /\ grown l g g' /\ g_blks g' !! i = Some b /\ tp_fd b = fd /\ flag_on (tp_flags b) TPF_LISTENFD = false /\
    g_readfds g' = g_readfds g /\ g_writefds g' = g_writefds g /\ g_execpfds g' = g_execpfds g.
Proof.
  intros Hok Hk. destruct (new_sock l g k fd (-1) None (Some addr) TPF_UNBIND Hok Hk eq_refl eq_refl eq_refl) as (Hok1 & Ha & Hown).
  set (n := g_fresh g) in *. set (b := MkTp None None fd TPF_UNBIND (-1) None (Some addr) [] 0 0) in *.
  set (g1 := upd_g g (g_tplist g) (<[n := b]> (g_blks g)) (S n) (g_flags g) (g_map g) k) in *.
  assert (n ∉ l) as Hn by apply Hown.
  assert (g_tplist g <> Some n) as Hh. { destruct (so_list l g Hok) as (_ & -> & _). intros E. apply Hn. by eapply list_elem_of_lookup_2. }
  unfold SInew. cbn [g_fresh set_k upd_g]. fold n.
  set (g0 := upd_g (set_k g k) (g_tplist g) (<[n := new_tp]> (g_blks g)) (S n) (g_flags g) (g_map g) k).
  assert (si_ok l g0) as Hok0.
  { apply (si_ok_off l g1 (<[n := new_tp]> (g_blks g)) (S n)); [done| |].
    - intros j Hj. cbn. rewrite !lookup_insert_ne by (by intros <-). done.
    - intros j Hj. apply (so_fresh l g1 Hok1). cbn. destruct (decide (n = j)) as [<-|]; [rewrite lookup_insert_eq; by eexists|by rewrite lookup_insert_ne in Hj |- *]. }
  change (upd_g (set_k g k) _ _ _ _ _ _) with g0.
  rewrite (link_head_eq l g0 n new_tp) by (done || cbn; by rewrite lookup_insert_eq). cbn [mbind comp_bind]. unfold upd_blk. cbn [g_blks g_tplist set_tplist set_blks upd_g g0].
  rewrite push_head by done. cbn [deref mbind comp_bind]. rewrite push_replace by done. rewrite !push_new.
  set (x := set_next b (g_tplist g)). eexists. exists n, x. split; [reflexivity|]. split; [done|].
  split; [|split; [split|]]; try done.
  - pose proof (push_ok l g1 n b x (g_flags g) (g_map g)) as Hp. cbn [g1 g_blks g_tplist g_map g_k g_fresh upd_g] in Hp. rewrite push_new in Hp.
    eapply si_ok_same; [apply Hp|..]; try done.
    + apply (ob_get _ _ _ _ Hown).
    + apply (ob_fd _ _ _ _ Hown).
    + apply (ob_fd _ _ _ _ Hown).
    + apply (ob_fd _ _ _ _ Hown).
    + by left.
  - intros j y Hj Hy. cbn. rewrite (push_other _ _ _ _ _ y) by (done || by intros ->). eexists. split; [done|]. by case_decide.
  - intros f. cbn. by eapply opens_view.
  - cbn. by rewrite push_head.
Qed.

Lemma SInewsession_spec l g u i :
  si_ok l g -> i ∈ l -> contract (g_cbtab g) -> J u (reads (g_k g)) ->
  exists st g' u' l', SInewsession todot g u i = Ret (st, g', u') /\ served l g l' g' /\ contract (g_cbtab g') /\
    (forall fd, view (g_k g') fd = view (g_k g) fd) /\ J u' (reads (g_k g')).
Proof.
  intros Hok Hi Hc HJ. unfold SInewsession. destruct (dlist_get _ _ _ i (so_list l g Hok) Hi) as [lb Hlb]. rewrite Hlb. cbn [deref mbind comp_bind].
  destruct (k_accept (g_k g) (tp_fd lb)) as [[fd addr] k] eqn:Ea. pose proof (k_accept_law _ _ _ _ _ Ea) as Hk.
  destruct (Z.ltb_spec fd 0) as [Hneg|Hpos].
  { destruct (Z.leb_spec 0 fd); [lia|]. do 3 eexists. exists l. split; [reflexivity|].
    assert (forall fd', view k fd' = view (g_k g) fd') as Hv by (intros; by apply keeps_view).
    split; [split; try done|].
    - apply si_ok_k; [done|]. intros f. by apply keeps_open.
    - by left.
    - intros j b Hj Hb _. by exists b.
    - split; [done|]. split; [done|]. eapply J_ext; [|done]. intros f. unfold reads. cbn. by rewrite Hv. }
  destruct (Z.leb_spec 0 fd); [|lia]. destruct (accepted_blk l g k fd addr Hok Hk) as (g1 & n & x & E & -> & Hok1 & [F1 F2 F3 F4] & Hx & Efd & Hlf & Hsets).
  unfold SInew in E |- *. cbn [g_fresh set_k upd_g] in E |- *. set (n := g_fresh g) in *.
  destruct (link_head _ n) as [g0|] eqn:E0; [|done]. cbn [mbind comp_bind] in E |- *. rewrite E. cbn [mbind comp_bind].
  assert (n ∈ n :: l) as Hn by left. assert (n ∉ l) as Hnl by by apply fresh_off.
  assert (J u (reads (g_k g1))) as HJ1. { eapply J_ext; [|done]. intros f. unfold reads. by rewrite F4. }
  assert (contract (g_cbtab g1)) as Hc1 by by rewrite F2.
  (* the end of both ways to a session *)
  assert (forall g2 u2, same_but_cbs g1 g2 -> contract (g_cbtab g2) -> J u2 (reads (g_k g2)) ->
    exists st g' u', session_up todot g2 u2 n fd addr = Ret (st, g', u') /\ served l g (n :: l) g' /\ contract (g_cbtab g') /\
      (forall fd, view (g_k g') fd = view (g_k g) fd) /\ J u' (reads (g_k g'))) as Hup.
  { intros g2 u2 Hs Hc2 HJ2. pose proof Hs as [S1 S2 S3 S4 S5 (S6 & S7 & S8)]. rewrite <-Efd.
    destruct (session_up_spec (n :: l) g2 u2 n x addr) as (st & g' & u' & -> & Hok' & Hc' & HJ' & Ek & Eb & R1 & R2 & R3); try done.
    - by eapply same_ok.
    - by rewrite S2.
    - lia.
    - do 3 eexists. split; [reflexivity|]. split; [split|]; try done.
      + right. by exists n.
      + intros j b Hj Hb _. destruct (F3 j b Hj Hb) as (b' & Hb' & _ & Efl). exists b'. split; [|done].
        rewrite Eb, S2, lookup_insert_ne; [done|]. by intros <-.
      + destruct Hsets as (T1 & T2 & T3). rewrite R1, R2, R3, S6, S7, S8. done.
      + split; [done|]. split; [|done]. intros f. rewrite Ek, S5. apply F4. }
  destruct (g_cbtab g1 !! SI_CB_SECURITY) as [cb|] eqn:Ecb.
  - destruct (ct_sec _ Hc1 cb Ecb (todot addr) x0 u _ HJ1 I) as (st & u2 & -> & HJ2 & _). cbn [mbind comp_bind].
    destruct (st =? SI_RET_ERROR).
    + rewrite (SIterm_eq g1 n x) by done. cbn [mbind comp_bind]. do 3 eexists. exists (n :: l). split; [reflexivity|].
      assert (forall f, view (g_k (close_blk g1 n x (termed x))) f = view (g_k g) f) as Hv.
      { intros f. rewrite close_blk_view. case_decide as Hd; [|apply F4]. destruct Hd as [-> _].
        destruct Hk as (_ & Hcl & _). unfold view. by rewrite Efd, Hcl. }
      split; [split|].
      * by apply SIterm_ok.
      * right. by exists n.
      * intros j b Hj Hb _. destruct (F3 j b Hj Hb) as (b' & Hb' & _ & Efl). exists b'. split; [|done]. cbn. rewrite lookup_insert_ne; [done|]. by intros <-.
      * done.
      * split; [done|]. split; [done|]. eapply J_ext; [|exact HJ2]. intros f. unfold reads. by rewrite Hv, F4.
    + destruct (Hup (SIcbstat g1 st SI_CB_SECURITY) u2) as (st' & g' & u' & -> & Hrest).
      * apply cbstat_same.
      * apply cbstat_contract; [done|]. by intros [?|?].
      * by rewrite (sb_k _ _ (cbstat_same g1 st SI_CB_SECURITY)).
      * do 4 eexists. split; [reflexivity|]. exact Hrest.
  - destruct (Hup g1 u) as (st' & g' & u' & -> & Hrest); [by split|done|done|]. do 4 eexists. split; [reflexivity|]. exact Hrest.
Qed.

(** Serving one block. *)
Lemma served_refl l g : si_ok l g -> served l g l g.
Proof. intros Hok. split; [done|by left| |done]. intros j b Hj Hb _. by exists b. Qed.

Lemma recv_k l g i b st data k :
  si_ok l g -> i ∈ l -> g_blks g !! i = Some b -> 0 <= tp_fd b -> k_recv (g_k g) (tp_fd b) MAX_RBUF = (st, data, k) ->
  si_ok l (set_k g k) /\ (forall fd, reads k fd = upd_fd (reads (g_k g)) (tp_fd b) (reads (g_k g) (tp_fd b) ++ data) fd) /\
  (0 < st -> data <> []) /\ zlen data = Z.max 0 st.
Proof.
  intros Hok Hi Hb Hf E. apply k_recv_law in E as (_ & Hz & Ho & Hw & Hr & Hoth). destruct (so_live l g Hok i b Hi Hb Hf) as [Hopen _].
  split; [|split; [|split]].
  - apply si_ok_k; [done|]. intros fd Hfd. destruct (decide (fd = tp_fd b)) as [->|Hne]; [by rewrite Ho|]. by destruct (Hoth fd Hne) as [-> _].
  - intros fd. unfold upd_fd, reads. destruct (Z.eqb_spec fd (tp_fd b)) as [->|Hne]; [|by rewrite (same_view _ _ _ (Hoth fd Hne))].
    unfold view. by rewrite Ho, Hopen, Hr.
  - intros Hp ->. change (0 = Z.max 0 st) in Hz. lia.
  - done.
Qed.

Lemma serve_spec l g u st i :
  si_ok l g -> k_limit <= FD_SETSIZE -> i ∈ l -> contract (g_cbtab g) -> J u (reads (g_k g)) ->
  exists st' g' u' l', serve todot g u st i = Ret (st', g', u') /\ served l g l' g' /\ contract (g_cbtab g') /\ J u' (reads (g_k g')).
Proof.
  intros Hok Hlim Hi Hc HJ. unfold serve. destruct (dlist_get _ _ _ i (so_list l g Hok) Hi) as [b Hb]. rewrite Hb. cbn [deref mbind comp_bind].
  destruct (Z.ltb_spec (tp_fd b) 0) as [Hneg|Hpos].
  { do 3 eexists. exists l. split; [reflexivity|]. by split; [apply served_refl|]. }
  rewrite (so_queue l g Hok i b Hi Hb). cbn [mbind comp_bind]. rewrite Hb. cbn [deref mbind comp_bind].
  destruct (so_live l g Hok i b Hi Hb Hpos) as [Hopen Hl2]. unfold FD_ISSET.
  destruct (Z.leb_spec 0 (tp_fd b)); [|lia]. destruct (Z.ltb_spec (tp_fd b) FD_SETSIZE); [|lia]. cbn [andb mbind comp_bind].
  destruct (bool_decide (tp_fd b ∈ g_execpfds g)); [do 3 eexists; exists l; split; [reflexivity|]; by split; [apply served_refl|]|].
  destruct (bool_decide (tp_fd b ∈ g_readfds g)); cbn [negb]; [|do 3 eexists; exists l; split; [reflexivity|]; by split; [apply served_refl|]].
  unfold upd_blk. rewrite Hb. cbn [deref mbind comp_bind].
  set (g1 := set_blks g (<[i := count_rcvd b]> (g_blks g))). assert (si_ok l g1) as Hok1 by by eapply si_ok_upd.
  assert (g_blks g1 !! i = Some (count_rcvd b)) as Hb1 by (cbn; by rewrite lookup_insert_eq).
  assert (forall j x, j ∈ l -> g_blks g !! j = Some x -> exists x', g_blks g1 !! j = Some x' /\ tp_flags x' = tp_flags x) as Hfl.
  { intros j x Hj Hx. cbn. destruct (decide (i = j)) as [<-|]; [rewrite lookup_insert_eq; eexists; split; [done|]; by simplify_eq|].
    rewrite lookup_insert_ne by done. by exists x. }
  destruct (flag_on (tp_flags b) TPF_LISTENFD) eqn:El.
  { destruct (SInewsession_spec l g1 u i Hok1 Hi Hc HJ) as (st' & g' & u' & l' & -> & [V1 V2 V3 V4] & Hc' & _ & HJ').
    do 4 eexists. split; [reflexivity|]. split; [split; try done|done].
    intros j x Hj Hx Hlx. destruct (Hfl j x Hj Hx) as (x' & Hx' & E). destruct (V3 j x' Hj Hx') as (y & Hy & Ey); [by rewrite E|].
    exists y. split; [done|congruence]. }
  destruct (k_recv (g_k g1) (tp_fd b) MAX_RBUF) as [[s data] k] eqn:Er.
  destruct (recv_k l g1 i (count_rcvd b) s data k) as (Hok2 & Hrd & Hdata & _); try done.
  change (tp_fd (count_rcvd b)) with (tp_fd b) in Hrd. change (g_k g1) with (g_k g) in Hrd.
  destruct ((0 <? s) && negb (flag_on (tp_flags b) TPF_DRAIN)) eqn:Eb.
  - apply andb_true_iff in Eb as [Hs _]. apply Z.ltb_lt in Hs.
    destruct (drive_spec (set_k g1 k) u SI_CB_CDATA (CbData (tp_fd b) data)
      (fun rd => G (upd_fd rd (tp_fd b) (rd (tp_fd b) ++ data))) (fun rd => upd_fd rd (tp_fd b) (rd (tp_fd b) ++ data)) true (reads (g_k g)))
      as (s2 & g2 & u2 & -> & Hsame & Hc2 & HJ2); try done.
    { eapply G_ext; [exact Hrd|]. eapply G_recv; [|exact Er]. by eapply J_G. }
    { intros cb E. destruct (ct_data _ Hc) as (cb' & E' & Hcb). cbn in E. rewrite E' in E. injection E as <-. apply Hcb; [lia|by apply Hdata]. }
    { intros E. destruct (ct_data _ Hc) as (cb' & E' & _). cbn in E. congruence. }
    cbn [mbind comp_bind]. do 3 eexists. exists l. split; [reflexivity|]. split; [split|].
    + by eapply same_ok.
    + by left.
    + intros j x Hj Hx _. rewrite (sb_blks _ _ Hsame). by apply Hfl.
    + apply Hsame.
    + split; [done|]. eapply J_ext; [|exact HJ2]. intros fd. rewrite (sb_k _ _ Hsame). cbn. by rewrite Hrd.
  - destruct (drive_spec (set_k g1 k) u SI_CB_DISC (CbDisc (tp_fd b)) always (fun rd => upd_fd rd (tp_fd b) []) true (reads (g_k g)))
      as (s2 & g2 & u2 & -> & Hsame & Hc2 & HJ2); try done.
    { intros cb E. destruct (ct_disc _ Hc) as (cb' & E' & Hcb). cbn in E. rewrite E' in E. injection E as <-. apply Hcb. lia. }
    { intros E. destruct (ct_disc _ Hc) as (cb' & E' & _). cbn in E. congruence. }
    assert (g_blks g2 !! i = Some (count_rcvd b)) as Hb2 by by rewrite (sb_blks _ _ Hsame).
    cbn [mbind comp_bind]. rewrite (SIterm_eq g2 i _ Hb2). cbn [mbind comp_bind]. do 3 eexists. exists l. split; [reflexivity|]. split; [split|].
    + apply SIterm_ok; [by eapply same_ok|done|done].
    + by left.
    + intros j x Hj Hx Hlx. destruct (Hfl j x Hj Hx) as (x' & Hx' & E). exists x'. split; [|done]. cbn. rewrite (sb_blks _ _ Hsame).
      rewrite lookup_insert_ne; [done|]. intros <-. simplify_eq. congruence.
    + apply Hsame.
    + split; [done|]. eapply J_ext; [|exact HJ2]. intros fd. unfold reads. rewrite close_blk_view. cbn [tp_fd count_rcvd]. rewrite (sb_k _ _ Hsame). cbn [g_k set_k upd_g].
      change ((view k fd).2) with (reads k fd). unfold upd_fd. destruct (Z.eqb_spec fd (tp_fd b)) as [->|Hne].
      * by rewrite decide_True.
      * rewrite decide_False by tauto. change ((view k fd).2) with (reads k fd). rewrite Hrd. unfold upd_fd. by rewrite (proj2 (Z.eqb_neq _ _) Hne).
Qed.

Lemma served_trans l1 g1 l2 g2 l3 g3 : served l1 g1 l2 g2 -> served l2 g2 l3 g3 ->
  (forall j, j ∈ l1 -> j ∈ l3) /\ (forall j b, j ∈ l1 -> g_blks g1 !! j = Some b -> flag_on (tp_flags b) TPF_LISTENFD = true ->
    exists b', g_blks g3 !! j = Some b' /\ tp_flags b' = tp_flags b).
Proof.
  intros [A1 A2 A3 A4] [B1 B2 B3 B4]. assert (forall j, j ∈ l1 -> j ∈ l2) as Hs12 by (destruct A2 as [->|[n ->]]; [done|by right]).
  split.
  - intros j Hj. apply Hs12 in Hj. destruct B2 as [->|[n ->]]; [done|by right].
  - intros j b Hj Hb Hl. destruct (A3 j b Hj Hb Hl) as (b2 & Hb2 & E). destruct (B3 j b2 (Hs12 j Hj) Hb2) as (b3 & Hb3 & E3); [by rewrite E|].
    exists b3. split; [done|congruence].
Qed.

Lemma served_listening l g l' g' : served l g l' g' -> listening l g -> listening l' g'.
Proof.
  intros [_ Hl Hk _] (i & b & Hi & Hb & Hf & Hd). destruct (Hk i b Hi Hb Hf) as (b' & Hb' & E). exists i, b'. rewrite E.
  split_and!; [destruct Hl as [->|[n ->]]; [done|by right]|done|done|done].
Qed.

Lemma serve_all_spec n : forall l q g u st,
  (length l - q <= n)%nat -> si_ok l g -> k_limit <= FD_SETSIZE -> listening l g -> contract (g_cbtab g) -> J u (reads (g_k g)) ->
  exists st' g' u' l', serve_all todot n g u st (l !! q) = Ret (st', g', u') /\ si_ok l' g' /\ listening l' g' /\ contract (g_cbtab g') /\
    J u' (reads (g_k g')).
Proof.
  induction n as [|n IH]; intros l q g u st Hn Hok Hlim Hlis Hc HJ.
  - assert (l !! q = None) as -> by (apply lookup_ge_None; lia). by exists st, g, u, l.
  - destruct (l !! q) as [i|] eqn:Eq; [|by exists st, g, u, l]. apply lookup_lt_Some in Eq as Hlt.
    pose proof (so_list l g Hok) as (_ & _ & Hl). destruct (Hl q i Eq) as (b & Hb & Hnx & _). cbn. rewrite Hb. cbn.
    destruct (serve_spec l g u st i Hok Hlim) as (st1 & g1 & u1 & l1 & -> & Hs & Hc1 & HJ1); [by eapply list_elem_of_lookup_2|done|done|].
    cbn. rewrite Hnx. assert (exists q1, l !! S q = l1 !! q1 /\ (length l1 - q1 <= n)%nat) as (q1 & -> & Hlen).
    { destruct (sv_list _ _ _ _ Hs) as [->|[m ->]]; [exists (S q)|exists (S (S q))]; (split; [done|]); cbn; lia. }
    apply (IH l1 q1 g1 u1 st1); try done; [apply Hs|by eapply served_listening].
Qed.

(** A round of SIwait on a context with a listen block. *)
Lemma wait_round_spec l g u st :
  si_ok l g -> k_limit <= FD_SETSIZE -> listening l g -> contract (g_cbtab g) -> J u (reads (g_k g)) ->
  exists st' g' u' l', wait_round todot g u st = Ret (st', g', u') /\ si_ok l' g' /\ listening l' g' /\ contract (g_cbtab g') /\
    J u' (reads (g_k g')).
Proof.
  intros Hok Hlim Hlis Hc HJ. unfold wait_round.
  destruct (SIbldpoll_spec l g Hok Hlim Hlis) as (g1 & l1 & -> & Hok1 & Hlis1 & Ek & _ & Ecb & _). cbn [mbind comp_bind].
  destruct (k_select _ _ _ _) as [[[pstat er] [[r w] x]] k] eqn:Es. apply k_select_law in Es as [Hk _]. rewrite Ek in Hk.
  set (g2 := set_poll (set_k g1 k) r w x (g_fdcount g1)).
  set (g3 := if (pstat <? 0) && negb (er =? EINTR) then _ else g2).
  assert (si_ok l1 g3 /\ listening l1 g3 /\ g_cbtab g3 = g_cbtab g1 /\ g_k g3 = k) as (Hok3 & Hlis3 & Ecb3 & Ek3).
  { assert (si_ok l1 g2) as Hok2. { eapply si_ok_same; [apply (si_ok_k l1 g1 k Hok1)|done..]. rewrite Ek. intros f. by apply keeps_open. }
    unfold g3. destruct (_ && _); [|by split_and!]. split_and!; try done. by eapply si_ok_same. }
  assert (J u (reads (g_k g3))) as HJ3. { eapply J_ext; [|exact HJ]. intros f. unfold reads. rewrite Ek3. by rewrite (keeps_view (g_k g) k f). }
  assert (contract (g_cbtab g3)) as Hc3 by by rewrite Ecb3, Ecb.
  destruct ((0 <? pstat) && negb (flag_on (g_flags g3) GIF_SHUTDOWN)); [|do 3 eexists; exists l1; split; [reflexivity|done]].
  pose proof (so_list l1 g3 Hok3) as Hd. pose proof Hd as (_ & -> & _).
  apply serve_all_spec; try done. pose proof (dlist_size _ _ _ Hd). lia.
Qed.
End si_inv.
