(* ===== verification/Si95Spec.v ===== *)
(** What the socket layer promises: theorems about Si95.v, the instance that
    makes it the transport of Send.v, and a small kernel for examples. *)

From S2P Require Import Prelude Bytes Tools RouteTable Send Si95 Si95Inv.

(** ** Listen blocks stay *)

Section listen.
Context {K U : Type} `{Kernel K}.
Abbreviation si := (ginfo_blk K U).
Implicit Types (g : si) (b : tp_blk).

Lemma upd_listening l g i b b' :
  listening l g -> g_blks g !! i = Some b -> flag_on (tp_flags b) TPF_LISTENFD = false \/ tp_flags b' = tp_flags b ->
  forall g', g_blks g' = <[i := b']> (g_blks g) -> listening l g'.
Proof.
  intros (j & x & Hj & Hx & Hl & Hd) Hb Hf g' E. destruct (decide (i = j)) as [<-|Hne].
  - simplify_eq. destruct Hf as [?|Ef]; [congruence|]. exists i, b'. rewrite E, lookup_insert_eq, Ef. done.
  - exists j, x. rewrite E, lookup_insert_ne; done.
Qed.

Lemma grown_listening l l' g g' : grown l g g' -> (forall j, j ∈ l -> j ∈ l') -> listening l g -> listening l' g'.
Proof.
  intros [_ _ Hb _] Hs (j & x & Hj & Hx & Hl & Hd). destruct (Hb j x Hj Hx) as (x' & Hx' & _ & E). exists j, x'. rewrite E. auto.
Qed.

Lemma SIsendt_listening l g fd data st er g' :
  si_ok l g -> k_limit <= MAX_FDS -> listening l g -> SIsendt g fd data = Ret (st, er, g') -> listening l g'.
Proof.
  intros Hok Hlim Hlis. unfold SIsendt. destruct (Z.ltb_spec fd 0) as [|Hf]; [by intros [= _ _ <-]|].
  destruct (tp_of_fd_spec l g fd Hok) as (r & Er & Hr). rewrite Er. cbn [mbind comp_bind].
  destruct r as [i|]; [|by intros [= _ _ <-]]. destruct Hr as (Hi & b & Hb & Efd).
  pose proof (tp_of_fd_session l g fd i b Hok Hlim Hf Er Hb) as Hlf. rewrite Hb. cbn [deref mbind comp_bind].
  destruct (_ || _); [by intros [= _ _ <-]|]. unfold upd_blk. rewrite Hb. cbn [deref mbind comp_bind]. cbn [g_k set_blks upd_g].
  destruct (k_writable (g_k g) (tp_fd b)) as [[sel exc] k].
  assert (forall g1, g_blks g1 = <[i := count_sent b]> (g_blks g) -> listening l g1) as H1 by (eapply upd_listening; eauto).
  destruct (0 <? sel); [|intros [= _ _ <-]; by apply H1]. destruct exc.
  - rewrite (SIterm_eq _ i (count_sent b)) by (cbn; by rewrite lookup_insert_eq). intros [= _ _ <-].
    eapply upd_listening; [exact Hlis|exact Hb|by left|]. cbn. by rewrite insert_insert_eq.
  - cbn [g_k set_k upd_g]. destruct (send_all _ _ _ _ _ _ _ _) as [[[st' er'] k']|]; [|done]. intros [= _ _ <-]. by apply H1.
Qed.

Lemma SIclose_listening l g fd st g' :
  si_ok l g -> k_limit <= MAX_FDS -> listening l g -> 0 <= fd -> SIclose g fd = Ret (st, g') -> listening l g'.
Proof.
  intros Hok Hlim Hlis Hf. unfold SIclose. destruct (Z.leb_spec 0 fd); [|lia].
  destruct (tp_of_fd_spec l g fd Hok) as (r & Er & Hr). rewrite Er. cbn [mbind comp_bind].
  destruct r as [i|]; [|by intros [= _ <-]]. destruct Hr as (Hi & b & Hb & Efd).
  pose proof (tp_of_fd_session l g fd i b Hok Hlim Hf Er Hb) as Hlf. rewrite Hb. cbn [deref mbind comp_bind].
  rewrite (so_queue l g Hok i b Hi Hb). unfold upd_blk. rewrite Hb. cbn [deref mbind comp_bind].
  rewrite (SIterm_eq _ i (or_flags (or_flags b TPF_UNBIND) TPF_DELETE)) by (cbn; by rewrite lookup_insert_eq). intros [= _ <-].
  eapply upd_listening; [exact Hlis|exact Hb|by left|]. cbn. by rewrite insert_insert_eq.
Qed.
End listen.

(** ** Any sequence of operations *)

(** The list has a listen socket that is open. *)
Definition has_listener {K U : Type} (g : ginfo_blk K U) : Prop :=
  forall l, dlist (g_blks g) (g_tplist g) l -> listening l g.

(** What the threads of a process do with a context: the receiving thread's
    rounds, connects, listens, sends and closes.  Each is one step: the
    operations follow each other in any order, but none runs while another is at
    work.  (In the program they run in several threads and take no lock, so that a
    connect can get between two reads of the list by the receive thread.)

    A close names a descriptor, or a kind of socket (TCP_LISTEN_PORT and UDP_PORT,
    which are negative); the latter are steps as long as a listen socket is left,
    see [only_block_dangles] for what follows when there is none.

    [quiet] leaves out what ends a session without telling the callbacks: SIclose,
    and the sends that find an exception on the socket and close it. *)
Inductive si_step {K U : Type} `{KernelOps K} (todot : list Z -> list Z) (quiet : bool) : ginfo_blk K U * U -> ginfo_blk K U * U -> Prop :=
| SiConnect g u a fd g' : SIconnect g a = Ret (fd, g') -> si_step todot quiet (g, u) (g', u)
| SiListen g u a fd g' : SIlistener g TCP_DEVICE a = Ret (fd, g') -> si_step todot quiet (g, u) (g', u)
| SiSend g u fd data st er g' : SIsendt g fd data = Ret (st, er, g') -> (quiet = true -> k_open (g_k g') fd = k_open (g_k g) fd) -> si_step todot quiet (g, u) (g', u)
| SiClose g u fd st g' : quiet = false -> SIclose g fd = Ret (st, g') -> (fd < 0 -> has_listener g') -> si_step todot quiet (g, u) (g', u)
| SiRound g u st st' g' u' : wait_round todot g u st = Ret (st', g', u') -> si_step todot quiet (g, u) (g', u').

Section steps.
Context {K U : Type} `{Kernel K}.
Abbreviation si := (ginfo_blk K U).
Context {X : Type}.
Variable Js : X -> U -> (Z -> list Z) -> Prop.
Hypothesis J_ext : forall x u rd rd', (forall fd, rd fd = rd' fd) -> Js x u rd -> Js x u rd'.
Variable G : (Z -> list Z) -> Prop.
Hypothesis J_G : forall x u rd, Js x u rd -> G rd.
Hypothesis G_ext : forall rd rd', (forall fd, rd fd = rd' fd) -> G rd -> G rd'.
Hypothesis G_recv : forall k fd n st data k', G (reads k) -> k_recv k fd n = (st, data, k') -> G (reads k').
Variable todot : list Z -> list Z.

Variable x0 : X.
Local Abbreviation J := (Js x0).

Record si_good (s : si * U) : Prop := {
  sg_list : exists l, si_ok l s.1 /\ listening l s.1;
  sg_cbs : contract Js G (g_cbtab s.1);
  sg_J : J s.2 (reads (g_k s.1))
}.

Lemma si_step_good quiet s s' :
  k_limit <= FD_SETSIZE -> (quiet = false -> forall u rd rd', J u rd -> J u rd') -> si_step todot quiet s s' -> si_good s -> si_good s'.
Proof.
  intros Hlim Hq Hs [(l & Hok & Hlis) Hc HJ]. assert (k_limit <= MAX_FDS) as Hlim2 by (unfold FD_SETSIZE, MAX_FDS in *; lia).
  destruct Hs as [g u a fd g' E|g u a fd g' E|g u fd data st er g' E Hst|g u fd st g' -> E Hf|g u st st' g' u' E]; cbn [fst snd] in *.
  - destruct (SIconnect_spec l g a Hok) as (fd' & g1 & l' & E' & Hok' & Hg & Hl). rewrite E in E'. injection E' as <- <-.
    split; cbn; [|by rewrite (gr_cbs _ _ _ Hg)|].
    + exists l'. split; [done|]. eapply grown_listening; [exact Hg| |exact Hlis]. intros j Hj. destruct Hl as [[_ ->]|(i & -> & _)]; [done|by right].
    + eapply J_ext; [|exact HJ]. intros f. unfold reads. by rewrite (gr_view _ _ _ Hg).
  - destruct (SIlistener_spec l g TCP_DEVICE a Hok) as (fd' & g1 & l' & E' & Hok' & Hg & Hl). rewrite E in E'. injection E' as <- <-.
    split; cbn; [|by rewrite (gr_cbs _ _ _ Hg)|].
    + exists l'. split; [done|]. eapply grown_listening; [exact Hg| |exact Hlis]. intros j Hj. destruct Hl as [[_ ->]|(i & -> & _)]; [done|by right].
    + eapply J_ext; [|exact HJ]. intros f. unfold reads. by rewrite (gr_view _ _ _ Hg).
  - destruct (SIsendt_spec l g fd data Hok) as (st' & er' & g1 & E' & Hok' & Hr & _ & Ecb). rewrite E in E'. injection E' as <- <- <-.
    split; cbn; [|by rewrite Ecb|].
    + exists l. split; [done|]. by apply (SIsendt_listening l g fd data st er g').
    + destruct quiet; [|by eapply Hq]. eapply J_ext; [|exact HJ]. intros f. unfold reads.
      destruct (decide (f = fd)) as [->|Hne]; [|by rewrite (sr_other _ _ _ _ _ _ Hr)].
      destruct (sr_read _ _ _ _ _ _ Hr) as [Ev|(_ & _ & Ho & Hc')]; [by rewrite Ev|]. specialize (Hst eq_refl). congruence.
  - destruct (SIclose_spec l g fd Hok) as (st' & g1 & E' & Hok' & _ & Ecb & _). rewrite E in E'. injection E' as <- <-.
    split; cbn; [|by rewrite Ecb|by eapply Hq].
    exists l. split; [done|]. destruct (Z.leb_spec 0 fd) as [|Hneg]; [by apply (SIclose_listening l g fd st g')|].
    apply (Hf Hneg), Hok'.
  - destruct (wait_round_spec Js J_ext G J_G G_ext G_recv todot x0 l g u st Hok Hlim Hlis Hc HJ) as (st1 & g1 & u1 & l' & E' & Hok' & Hlis' & Hc' & HJ').
    rewrite E in E'. injection E' as <- <- <-. split; cbn; [by exists l'|done|done].
Qed.

Lemma si_steps_good quiet s s' :
  k_limit <= FD_SETSIZE -> (quiet = false -> forall u rd rd', J u rd -> J u rd') -> rtc (si_step todot quiet) s s' -> si_good s -> si_good s'.
Proof. intros Hlim Hq. induction 1; [done|]. eauto using si_step_good. Qed.

(** The start of a process: the context, the callbacks, the listen socket. *)
Definition si_start (k : K) (cbs : gmap Z (callback U)) (addr : list Z) : comp (Z * si) :=
  SIlistener (set_cbtab (SIinitialise k) cbs) TCP_DEVICE addr.

Lemma si_ok_init (k : K) cbs : si_ok [] (set_cbtab (SIinitialise k) cbs : si).
Proof.
  split; cbn; try done; try (intros; by apply not_elem_of_nil in H1). split_and!; [by constructor|done|done].
  intros i [x Hx]. done.
Qed.

Lemma si_start_good k cbs addr fd g u :
  si_start k cbs addr = Ret (fd, g) -> 0 <= fd -> contract Js G cbs -> J u (reads k) -> si_good (g, u).
Proof.
  intros E Hf Hc HJ. unfold si_start in E.
  destruct (SIlistener_spec [] _ TCP_DEVICE addr (si_ok_init k cbs)) as (fd' & g' & l' & E' & Hok & Hg & Hl). rewrite E in E'. injection E' as <- <-.
  split; cbn; [|by rewrite (gr_cbs _ _ _ Hg)|].
  - exists l'. split; [done|]. destruct Hl as [[-> _]|(i & _ & _ & _ & Hl)]; [done|]. by apply Hl.
  - eapply J_ext; [|exact HJ]. intros f. unfold reads. by rewrite (gr_view _ _ _ Hg).
Qed.
End steps.

(** ** The transport of the send functions *)

Definition si_net (K U : Type) `{Kernel K} : Type := { g : ginfo_blk K U | exists l, si_ok l g }.

Section transport.
Context {K U : Type} `{Kernel K}.
Abbreviation net := (si_net K U).

(** A result with its context in the invariant. *)
Definition net_of {A} (x : comp (A * ginfo_blk K U)) (d : A) (n : net) (Hx : forall r, x = Ret r -> exists l, si_ok l r.2) : A * net :=
  match x return (forall r, x = Ret r -> exists l, si_ok l r.2) -> A * net with
  | Ret r => fun Hx => (r.1, exist _ r.2 (Hx r eq_refl))
  | UB => fun _ => (d, n)
  end Hx.

Lemma net_of_eq {A} x (d : A) n Hx a g : x = Ret (a, g) -> exists n', net_of x d n Hx = (a, n') /\ proj1_sig n' = g.
Proof. intros ->. cbn. by eexists. Qed.

Lemma net_connect_ok (n : net) a r : SIconnect (proj1_sig n) a = Ret r -> exists l, si_ok l r.2.
Proof.
  pose proof (proj2_sig n) as [l Hok]. destruct (SIconnect_spec l _ a Hok) as (fd & g' & l' & E' & Hok' & _). rewrite E'. intros [= <-]. by exists l'.
Qed.

Lemma net_send_ok (n : net) fd data r : SIsendt (proj1_sig n) fd data = Ret r -> exists l, si_ok l r.2.
Proof.
  pose proof (proj2_sig n) as [l Hok]. destruct (SIsendt_spec l _ fd data Hok) as (st & er & g' & E' & Hok' & _). rewrite E'. intros [= <-]. by exists l.
Qed.

Definition net_connect (n : net) (a : list Z) : Z * net := net_of (SIconnect (proj1_sig n) a) SI_ERROR n (net_connect_ok n a).
Definition net_send (n : net) (fd : Z) (data : list Z) : Z * Z * net := net_of (SIsendt (proj1_sig n) fd data) (SI_ERROR, 0) n (net_send_ok n fd data).
Definition net_wire (n : net) (fd : Z) : list Z := (view (g_k (proj1_sig n)) fd).1.

(** The results are those of the SI functions. *)
Lemma net_connect_eq n a : exists fd n', net_connect n a = (fd, n') /\ SIconnect (proj1_sig n) a = Ret (fd, proj1_sig n').
Proof.
  pose proof (proj2_sig n) as [l Hok]. destruct (SIconnect_spec l _ a Hok) as (fd & g' & l' & E' & _).
  destruct (net_of_eq _ SI_ERROR n (net_connect_ok n a) _ _ E') as (n' & E & Eg). exists fd, n'. by rewrite Eg.
Qed.

Lemma net_send_eq n fd data : exists st er n', net_send n fd data = (st, er, n') /\ SIsendt (proj1_sig n) fd data = Ret (st, er, proj1_sig n') /\
  sent_res (proj1_sig n) (proj1_sig n') fd data st er.
Proof.
  pose proof (proj2_sig n) as [l Hok]. destruct (SIsendt_spec l _ fd data Hok) as (st & er & g' & E' & _ & Hr & _).
  destruct (net_of_eq _ (SI_ERROR, 0) n (net_send_ok n fd data) _ _ E') as (n' & E & Eg). exists st, er, n'. by rewrite Eg.
Qed.

#[export] Program Instance si_transport : Transport net := {
  tp_connect := net_connect;
  tp_send := net_send;
  tp_wire := net_wire
}.
Next Obligation.
  intros n fd b er n' E. destruct (net_send_eq n fd b) as (st & er' & n1 & E' & _ & Hr). rewrite E in E'. injection E' as <- <- <-.
  by apply (sr_ok _ _ _ _ _ _ Hr).
Qed.
Next Obligation.
  intros n fd b er n' fd' E. destruct (net_send_eq n fd b) as (st & er' & n1 & E' & _ & Hr). rewrite E in E'. injection E' as <- <- <-.
  destruct (sr_blocked _ _ _ _ _ _ Hr eq_refl) as [-> Hv]. split; [done|]. unfold net_wire. by rewrite Hv.
Qed.
Next Obligation.
  intros n fd b st er n' fd' E Hne. destruct (net_send_eq n fd b) as (st' & er' & n1 & E' & _ & Hr). rewrite E in E'. injection E' as <- <- <-.
  unfold net_wire. by rewrite (sr_other _ _ _ _ _ _ Hr).
Qed.
Next Obligation.
  intros n a fd n' fd' E Hne. destruct (net_connect_eq n a) as (fd1 & n1 & E' & Ec). rewrite E in E'. injection E' as <- <-.
  pose proof (proj2_sig n) as [l Hok]. destruct (SIconnect_spec l _ a Hok) as (fd2 & g' & l' & E2 & _ & Hg & _). rewrite E2 in Ec. injection Ec as <- ->.
  unfold net_wire. by rewrite (gr_view _ _ _ Hg).
Qed.
End transport.

(** ** A kernel for examples *)

(** Everything is accepted; [ek_ready] says which descriptors select finds
    readable, [ek_in] what is read. *)
Record ek_state := MkEk {
  ek_fds : gmap Z (list Z * list Z);
  ek_next : Z;
  ek_ready : list (list Z);
  ek_in : list (list Z)
}.
Definition ek (limit : Z) : Type := ek_state.

Definition ek_upd (k : ek_state) (fds : gmap Z (list Z * list Z)) : ek_state := MkEk fds (ek_next k) (ek_ready k) (ek_in k).
Definition ek_new (limit : Z) (k : ek_state) : Z * ek_state :=
  let fd := ek_next k in
  match ek_fds k !! fd with
  | Some _ => (-1, k)
  | None => if (0 <=? fd) && (fd <? limit) then (fd, MkEk (<[fd := ([], [])]> (ek_fds k)) (fd + 1) (ek_ready k) (ek_in k)) else (-1, k)
  end.
Definition ek_get (k : ek_state) (fd : Z) : list Z * list Z := default ([], []) (ek_fds k !! fd).

#[export] Instance ek_ops limit : KernelOps (ek limit) := {
  k_getaddrinfo host port _ _ _ _ := Some (host ++ default [] port);
  k_socket := ek_new limit;
  k_bind k _ _ := (0, k);
  k_listen k _ := (0, k);
  k_connect k _ _ := (0, k);
  k_getsockname k _ := Some [];
  k_accept k _ := let '(fd, k) := ek_new limit k in (fd, [10; 0; 0; 1], k);
  k_close k fd := ek_upd k (delete fd (ek_fds k));
  k_writable k _ := (1, false, k);
  k_select k r w x :=
    match ek_ready k with
    | l :: rest => (1, 0, (filter (fun fd => fd ∈ l) r, ∅, ∅), MkEk (ek_fds k) (ek_next k) rest (ek_in k))
    | [] => (0, 0, (∅, ∅, ∅), k)
    end;
  k_send k fd b :=
    match ek_fds k !! fd with
    | Some (w, r) => (zlen b, 0, ek_upd k (<[fd := (w ++ b, r)]> (ek_fds k)))
    | None => (-1, EBADFD, k)
    end;
  k_recv k fd n :=
    match ek_fds k !! fd, ek_in k with
    | Some (w, r), b :: rest =>
        if zlen b <=? n then (zlen b, b, MkEk (<[fd := (w, r ++ b)]> (ek_fds k)) (ek_next k) (ek_ready k) rest) else (-1, [], k)
    | _, _ => (-1, [], k)
    end;
  k_limit := limit;
  k_open k fd := bool_decide (is_Some (ek_fds k !! fd));
  k_wire k fd := (ek_get k fd).1;
  k_read k fd := (ek_get k fd).2
}.

Lemma ek_same limit (k k' : ek limit) fd : ek_fds k' !! fd = ek_fds k !! fd -> same_fd k k' fd.
Proof. intros E. unfold same_fd. cbn. unfold ek_get. by rewrite E. Qed.

Lemma ek_new_law limit (k k' : ek limit) fd : ek_new limit k = (fd, k') -> if 0 <=? fd then opens k fd k' else keeps k k'.
Proof.
  unfold ek_new. destruct (ek_fds k !! ek_next k) eqn:E; [by intros [= <- <-]|]. destruct (_ && _) eqn:El; [|by intros [= <- <-]].
  apply andb_true_iff in El as [H1 H2]. apply Z.leb_le in H1. apply Z.ltb_lt in H2. intros [= <- <-]. destruct (Z.leb_spec 0 (ek_next k)); [|lia].
  split; [done|]. cbn. unfold ek_get. cbn. rewrite lookup_insert_eq. split_and!; try done.
  - apply bool_decide_eq_false. rewrite E. by intros [? ?].
  - intros fd' Hne. apply (ek_same limit). cbn. by rewrite lookup_insert_ne.
Qed.

#[export] Instance ek_kernel limit : Kernel (ek limit).
Proof.
  split; cbn.
  - intros k fd k' E. by apply (ek_new_law limit).
  - intros k _ fd a k'. destruct (ek_new limit k) as [fd' k1] eqn:E. intros [= <- <- <-]. by apply (ek_new_law limit).
  - by intros k fd a st k' [= _ <-].
  - by intros k fd st k' [= _ <-].
  - by intros k fd a st k' [= _ <-].
  - by intros k fd st x k' [= _ _ <-].
  - intros k r w x st er s k'. destruct (ek_ready k); intros [= _ _ <- <-]; cbn; (split; [done|]); [set_solver|]. split_and!; [|set_solver..].
    intros fd [_ Hf]%elem_of_filter. done.
  - intros k fd. split; [apply bool_decide_eq_false; rewrite lookup_delete_eq; by intros [? ?]|]. intros fd' Hne. apply (ek_same limit). cbn. by rewrite lookup_delete_ne.
  - intros k fd b st er k'. destruct (ek_fds k !! fd) as [[w r]|] eqn:E; intros [= <- <- <-]; cbn.
    + unfold ek_get. cbn. rewrite lookup_insert_eq, E. cbn. pose proof (zlen_nonneg b). split; [lia|]. split.
      { intros Hb Hz. apply Hb. destruct b; [done|]. unfold zlen in Hz. cbn in Hz. lia. }
      split_and!; try done.
      * rewrite take_ge; [done|]. unfold zlen. lia.
      * intros fd' Hne. apply (ek_same limit). cbn. by rewrite lookup_insert_ne.
    + pose proof (zlen_nonneg b). split; [lia|]. split; [done|]. rewrite app_nil_r. split_and!; try done. apply bool_decide_eq_false. rewrite E. by intros [? ?].
  - intros k fd n st b k'. destruct (ek_fds k !! fd) as [[w r]|] eqn:E; [destruct (ek_in k) as [|b0 rest]; [|destruct (Z.leb_spec (zlen b0) n)]|].
    all: intros [= <- <- <-]; cbn [k_open k_wire k_read ek_ops]; unfold ek_get; rewrite ?app_nil_r.
    1, 3, 4: split_and!; try done; lia || by rewrite E.
    cbn. rewrite lookup_insert_eq, E. cbn. pose proof (zlen_nonneg b0). split_and!; try done; try lia.
    intros fd' Hne. apply (ek_same limit). cbn. by rewrite lookup_insert_ne.
Qed.

(** ** Callbacks that keep a log *)

Definition log_cb : callback (list cb_arg) := fun log arg => Ret (SI_RET_OK, log ++ [arg]).
Definition log_cbs : gmap Z (callback (list cb_arg)) := {[ SI_CB_CDATA := log_cb; SI_CB_DISC := log_cb; SI_CB_CONN := log_cb ]}.

(** The bytes handed over for a descriptor since its last disconnect. *)
Definition stream_of (fd : Z) (log : list cb_arg) : list Z :=
  foldl (fun acc arg => match arg with
                        | CbData fd' b => if fd =? fd' then acc ++ b else acc
                        | CbDisc fd' => if fd =? fd' then [] else acc
                        | _ => acc
                        end) [] log.

Definition log_rel (_ : unit) (log : list cb_arg) (rd : Z -> list Z) : Prop := forall fd, stream_of fd log = rd fd.

Lemma log_rel_ext x log rd rd' : (forall fd, rd fd = rd' fd) -> log_rel x log rd -> log_rel x log rd'.
Proof. intros E Hl fd. by rewrite <-E. Qed.

Lemma log_contract : contract log_rel always log_cbs.
Proof.
  assert (forall arg f (stays : bool), (forall log rd, log_rel () log rd -> log_rel () (log ++ [arg]) (f rd)) -> forall pre, cb_keeps log_rel pre log_cb arg f stays) as Hcb.
  { intros arg f stays Hf pre [] log rd Hl _. do 2 eexists. split; [reflexivity|]. split; [by apply Hf|done]. }
  assert (forall arg log fd, stream_of fd (log ++ [arg]) = match arg with
    | CbData fd' b => if fd =? fd' then stream_of fd log ++ b else stream_of fd log
    | CbDisc fd' => if fd =? fd' then [] else stream_of fd log | _ => stream_of fd log end) as Hs.
  { intros arg log fd. unfold stream_of. by rewrite foldl_app. }
  split.
  - exists log_cb. split; [done|]. intros fd data _ _. apply Hcb. intros log rd Hl fd'. rewrite Hs. unfold upd_fd. rewrite <-!Hl.
    by destruct (Z.eqb_spec fd' fd) as [->|].
  - exists log_cb. split; [done|]. intros fd _. apply Hcb. intros log rd Hl fd'. rewrite Hs. unfold upd_fd. by rewrite <-!Hl.
  - intros cb [= <-] fd a. apply Hcb. intros log rd Hl fd'. by rewrite Hs.
  - intros cb E. done.
Qed.

(** ** Properties *)

(** C24.  The list of transport blocks is not corrupted by any sequence of the
    operations: from the start of a process, with callbacks that return and
    descriptors that fit into a descriptor set, whatever connects, sends, closes and
    rounds of the receiving thread follow each other, one complete before the
    next begins, and as long as a close by kind (TCP_LISTEN_PORT, UDP_PORT) leaves a
    listen socket open, the blocks form a doubly linked list, the descriptor map
    finds only open sessions of that list, and every operation that can come next is
    defined: no freed block is used and no search runs in circles.

    Two conditions are in [si_step] and not in the code.  The operations are
    steps that exclude each other: that the program runs them in several threads
    without a lock is not covered.  And the listen socket must stay: a context whose
    only block is closed has a dangling list after the next round
    ([closed_listen_socket_dangles], [only_block_dangles]). *)
Theorem sessions_stay_linked {K U : Type} `{Kernel K} todot (k : K) (cbs : gmap Z (callback U)) addr fd0 g0 u0 g u :
  k_limit <= FD_SETSIZE -> contract (fun (_ : unit) _ _ => True) always cbs -> si_start k cbs addr = Ret (fd0, g0) -> 0 <= fd0 ->
  rtc (si_step todot false) (g0, u0) (g, u) ->
  (exists l, dlist (g_blks g) (g_tplist g) l /\
    forall fd i, g_map g !! fd = Some i -> i ∈ l /\ exists b, g_blks g !! i = Some b /\ tp_fd b = fd /\ k_open (g_k g) fd = true) /\
  (forall a, is_ret (SIconnect g a)) /\ (forall ty a, is_ret (SIlistener g ty a)) /\ (forall fd data, is_ret (SIsendt g fd data)) /\
  (forall fd, is_ret (SIclose g fd)) /\ (forall st, is_ret (wait_round todot g u st)).
Proof.
  intros Hlim Hc Hst Hfd Hs.
  assert (si_good (fun (_ : unit) _ _ => True) always () (g, u)) as [(l & Hok & Hlis) Hcb HJ].
  { eapply (si_steps_good (fun (_ : unit) _ _ => True) ltac:(done) always); [done|done|done|done|done|exact Hs|]. by eapply si_start_good. }
  cbn [fst snd] in *. split_and!.
  - exists l. split; [apply Hok|]. intros fd i Hm. destruct (so_map l g Hok fd i Hm) as (Hr & Hi & b & Hb & <- & _).
    split; [done|]. exists b. split_and!; [done|done|]. eapply so_live; [done..|lia].
  - intros a. destruct (SIconnect_spec l g a Hok) as (? & ? & ? & -> & _). done.
  - intros ty a. destruct (SIlistener_spec l g ty a Hok) as (? & ? & ? & -> & _). done.
  - intros fd data. destruct (SIsendt_spec l g fd data Hok) as (? & ? & ? & -> & _). done.
  - intros fd. destruct (SIclose_spec l g fd Hok) as (? & ? & -> & _). done.
  - intros st. destruct (wait_round_spec (fun (_ : unit) _ _ => True) ltac:(done) always ltac:(done) ltac:(done) ltac:(done) todot () l g u st Hok Hlim Hlis Hcb HJ) as (? & ? & ? & ? & -> & _). done.
Qed.

Definition ex_run {A} (d : A) (c : comp A) : A := match c with Ret a => a | UB => d end.
Definition ex_kern : ek 64 := MkEk ∅ 3 [[3]; [4; 5]; [5]] [$"hello"; $"out there"; $"again"].
Definition ex_gi : ginfo_blk (ek 64) (list cb_arg) := SIinitialise ex_kern.
Definition ex_g0 := Eval vm_compute in (ex_run (0, ex_gi) (si_start ex_kern log_cbs $"0.0.0.0:4560")).2.
Definition ex_g1 := Eval vm_compute in (ex_run (0, ex_gi) (SIconnect ex_g0 $"there:4560")).2.
Definition ex_r1 := Eval vm_compute in ex_run (0, ex_gi, []) (wait_round (fun a => a) ex_g1 [] 0).
Definition ex_r2 := Eval vm_compute in ex_run (0, ex_gi, []) (wait_round (fun a => a) ex_r1.1.2 ex_r1.2 0).
Definition ex_r3 := Eval vm_compute in ex_run (0, ex_gi, []) (wait_round (fun a => a) ex_r2.1.2 ex_r2.2 0).

Lemma ex_start : si_start ex_kern log_cbs $"0.0.0.0:4560" = Ret (3, ex_g0).
Proof. vm_compute. reflexivity. Defined.

(** We connect, a peer connects, and both send. *)
Lemma ex_steps : rtc (si_step (fun a => a) true) (ex_g0, []) (ex_r3.1.2, ex_r3.2).
Proof.
  eapply rtc_l; [apply (SiConnect _ _ ex_g0 [] $"there:4560" 4 ex_g1); vm_compute; reflexivity|].
  eapply rtc_l; [apply (SiRound _ _ ex_g1 [] 0 ex_r1.1.1 ex_r1.1.2 ex_r1.2); vm_compute; reflexivity|].
  eapply rtc_l; [apply (SiRound _ _ ex_r1.1.2 ex_r1.2 0 ex_r2.1.1 ex_r2.1.2 ex_r2.2); vm_compute; reflexivity|].
  apply rtc_once, (SiRound _ _ ex_r2.1.2 ex_r2.2 0 ex_r3.1.1 ex_r3.1.2 ex_r3.2); vm_compute; reflexivity.
Defined.

Lemma si_step_weaken {K U : Type} `{KernelOps K} todot (s s' : ginfo_blk K U * U) : si_step todot true s s' -> si_step todot false s s'.
Proof. destruct 1; [eapply SiConnect|eapply SiListen|eapply SiSend|eapply SiClose|eapply SiRound]; eauto; done. Qed.

Lemma si_steps_weaken {K U : Type} `{KernelOps K} todot (s s' : ginfo_blk K U * U) : rtc (si_step todot true) s s' -> rtc (si_step todot false) s s'.
Proof. induction 1; [done|]. eauto using rtc_l, si_step_weaken. Qed.

Lemma log_contract_true : contract (fun (_ : unit) _ _ => True) always log_cbs.
Proof.
  assert (forall pre arg f (stays : bool), cb_keeps (fun (_ : unit) _ _ => True) pre log_cb arg f stays) as Hcb by (intros ? ? ? ? ? ? ? _ _; by do 2 eexists).
  split; [by exists log_cb; split; [|intros; apply Hcb]..| |]; intros cb E; [|done]. injection E as <-. intros. apply Hcb.
Qed.

Lemma sessions_stay_linked_witness :
  is_ret (SIconnect ex_r3.1.2 $"other:4560") /\ is_ret (wait_round (fun a => a) ex_r3.1.2 ex_r3.2 0) /\ ex_r3.2 <> [].
Proof.
  destruct (sessions_stay_linked (K := ek 64) (fun a => a) ex_kern log_cbs $"0.0.0.0:4560" 3 ex_g0 [] ex_r3.1.2 ex_r3.2)
    as (_ & H1 & _ & _ & _ & H2).
  - unfold FD_SETSIZE. cbn. lia.
  - apply log_contract_true.
  - apply ex_start.
  - lia.
  - apply si_steps_weaken, ex_steps.
  - split; [apply H1|]. split; [apply H2|discriminate].
Defined.

(** C26.  Received bytes reach the callbacks complete and in order: as long as
    sessions only end by the peer (no close, no send that fails on an exception),
    the bytes given to the data callback for a descriptor, since it was last
    reported as disconnected, are exactly what was read from the session that is
    open on it; however connects, accepts, sends and rounds are interleaved (each
    complete before the next, see [si_step]). *)
Theorem streams_handed_over {K : Type} `{Kernel K} todot (k : K) addr fd0 g0 g log fd :
  k_limit <= FD_SETSIZE -> (forall fd', reads k fd' = []) -> si_start k log_cbs addr = Ret (fd0, g0) -> 0 <= fd0 ->
  rtc (si_step todot true) (g0, []) (g, log) -> k_open (g_k g) fd = true -> stream_of fd log = k_read (g_k g) fd.
Proof.
  intros Hlim Hk Hst Hfd Hs Ho. assert (si_good log_rel always () (g, log)) as [_ _ HJ].
  { eapply (si_steps_good log_rel log_rel_ext always ltac:(done) ltac:(done) ltac:(done) todot () true); [done|done|exact Hs|].
    eapply (si_start_good log_rel log_rel_ext always); [exact Hst|done|apply log_contract|]. intros fd'. by rewrite Hk. }
  cbn [fst snd] in HJ. rewrite (HJ fd). unfold reads, view. by rewrite Ho.
Qed.

Lemma streams_handed_over_witness :
  stream_of 5 ex_r3.2 = k_read (KernelOps := ek_ops 64) (g_k ex_r3.1.2) 5 /\ stream_of 5 ex_r3.2 = $"hello" ++ $"again" /\
  stream_of 4 ex_r3.2 = $"out there".
Proof.
  split; [|split; [vm_compute; reflexivity|vm_compute; reflexivity]].
  apply (streams_handed_over (K := ek 64) (fun a => a) ex_kern $"0.0.0.0:4560" 3 ex_g0 ex_r3.1.2 ex_r3.2 5).
  - unfold FD_SETSIZE. cbn. lia.
  - intros fd'. unfold reads, view. cbn. by destruct (bool_decide _).
  - apply ex_start.
  - lia.
  - apply ex_steps.
  - vm_compute. reflexivity.
Defined.

(** C25.  A send is all or nothing, or says so: SIsendt always returns.  It
    reports success only when all the bytes are on the wire of that session, and
    blocked only when nothing was sent; after an error the session is closed or a
    proper part of the bytes may be on the wire.  No other session is touched. *)
Theorem SIsendt_all_or_error {K U : Type} `{Kernel K} l (g : ginfo_blk K U) fd data :
  si_ok l g -> exists st er g', SIsendt g fd data = Ret (st, er, g') /\ si_ok l g' /\
    match st with
    | 0 => (view (g_k g') fd).1 = (view (g_k g) fd).1 ++ data
    | 18 => er = EBUSY /\ forall fd', view (g_k g') fd' = view (g_k g) fd'
    | -1 => view (g_k g') fd = ([], []) \/
            exists n, (data <> [] -> (n < length data)%nat) /\ (view (g_k g') fd).1 = (view (g_k g) fd).1 ++ take n data
    | _ => False
    end /\
    forall fd', fd' <> fd -> view (g_k g') fd' = view (g_k g) fd'.
Proof.
  intros Hok. destruct (SIsendt_spec l g fd data Hok) as (st & er & g' & E & Hok' & [H1 H2 H3 H4 _ H6] & _).
  exists st, er, g'. split; [done|]. split; [done|]. split; [|done]. destruct H4 as [->|[->| ->]]; cbn; auto.
Qed.

Lemma ex_g1_ok : si_ok [1%nat; 0%nat] ex_g1.
Proof.
  destruct (SIlistener_spec [] _ TCP_DEVICE $"0.0.0.0:4560" (si_ok_init (U := list cb_arg) ex_kern log_cbs)) as (fd & g & l & E & Hok & _ & Hl).
  pose proof ex_start as Es. unfold si_start in Es. rewrite E in Es. injection Es as -> ->. destruct Hl as [[Hn _]|(i & -> & _)]; [discriminate Hn|].
  destruct (SIconnect_spec [i] ex_g0 $"there:4560" Hok) as (fd' & g' & l' & E' & Hok' & _ & Hl').
  assert (SIconnect ex_g0 $"there:4560" = Ret (4, ex_g1)) as Ec by (vm_compute; reflexivity).
  rewrite Ec in E'. injection E' as <- <-. destruct Hl' as [[Hn _]|(j & -> & Hc)]; [discriminate Hn|].
  pose proof (so_list _ _ Hok) as (_ & Hh & _). injection Hh as <-. pose proof (so_list _ _ Hok') as (_ & Hh' & _). injection Hh' as <-. exact Hok'.
Qed.

Lemma SIsendt_all_or_error_witness : exists g', SIsendt ex_g1 4 $"data" = Ret (SI_OK, 0, g') /\ (view (g_k g') 4).1 = $"data".
Proof.
  destruct (SIsendt_all_or_error [1%nat; 0%nat] ex_g1 4 $"data" ex_g1_ok) as (st & er & g' & E & _ & Hst & _).
  exists g'. assert (exists g2, SIsendt ex_g1 4 $"data" = Ret (SI_OK, 0, g2)) as [g2 E2] by (eexists; vm_compute; reflexivity).
  rewrite E in E2. injection E2 as -> -> ->. split; [exact E|]. etransitivity; [exact Hst|]. vm_compute. reflexivity.
Defined.

(** ** Limits *)

(** The list must not become empty: when the only block of a context is
    marked for deletion, SIrm_tpb frees it but leaves the list's head pointing at
    it, and the next round uses the freed block.  (The listen socket, which stays
    on the list, prevents it in a running process.) *)
Theorem only_block_dangles {K U : Type} `{Kernel K} i (g : ginfo_blk K U) b :
  si_ok [i] g -> g_blks g !! i = Some b -> flag_on (tp_flags b) TPF_DELETE = true ->
  exists g', SIbldpoll g = Ret g' /\ g_tplist g' = Some i /\ g_blks g' !! i = None /\ SIbldpoll g' = UB.
Proof.
  intros Hok Hb Hd. pose proof (so_list _ _ Hok) as (_ & Hh & Hl). destruct (Hl 0%nat i eq_refl) as (b' & Hb' & Hn & Hp). simplify_eq.
  cbn in Hn, Hp, Hh. assert (tp_fd b < 0) as Hfd by (eapply (so_del [i] g Hok i); [left|done|done]).
  assert (exists n, size (g_blks g) = S n) as [n En].
  { destruct (size (g_blks g)) eqn:E; [|by eexists]. apply map_size_empty_inv in E. by rewrite E in Hb. }
  unfold SIbldpoll at 1. rewrite En. cbn [g_tplist set_poll]. rewrite Hh. cbn. rewrite Hb. cbn. unfold poll_blk. cbn. rewrite Hb. cbn. rewrite Hd.
  destruct (Z.leb_spec 0 (tp_fd b)); [lia|]. cbn. unfold SIrm_tpb, free_blk. cbn. rewrite Hb. cbn. rewrite Hp, Hn. cbn. rewrite Hb. cbn.
  eexists. split; [destruct n; reflexivity|]. cbn. split; [done|]. split; [apply lookup_delete_eq|].
  unfold SIbldpoll. cbn. rewrite Hh. destruct (size (delete i (g_blks g))); cbn; by rewrite lookup_delete_eq.
Qed.

(** A connection without a listen socket, closed again. *)
Definition ex_c0 : ginfo_blk (ek 64) (list cb_arg) := set_cbtab (SIinitialise ex_kern) log_cbs.
Definition ex_c1 := Eval vm_compute in (ex_run (0, ex_gi) (SIconnect ex_c0 $"there:4560")).2.
Definition ex_c2 := Eval vm_compute in (ex_run (0, ex_gi) (SIclose ex_c1 3)).2.

Lemma ex_c2_ok : si_ok [0%nat] ex_c2.
Proof.
  destruct (SIconnect_spec [] ex_c0 $"there:4560" (si_ok_init ex_kern log_cbs)) as (fd & g & l & E & Hok & _ & Hl).
  assert (SIconnect ex_c0 $"there:4560" = Ret (3, ex_c1)) as Ec by (vm_compute; reflexivity). rewrite Ec in E. injection E as <- <-.
  destruct Hl as [[Hn _]|(j & -> & _)]; [discriminate Hn|]. pose proof (so_list _ _ Hok) as (_ & Hh & _). injection Hh as <-.
  destruct (SIclose_spec [0%nat] ex_c1 3 Hok) as (st & g & E & Hok' & _).
  assert (SIclose ex_c1 3 = Ret (0, ex_c2)) as Ec2 by (vm_compute; reflexivity). rewrite Ec2 in E. injection E as <- <-. exact Hok'.
Qed.

Lemma only_block_dangles_witness : exists g', SIbldpoll ex_c2 = Ret g' /\ SIbldpoll g' = UB.
Proof.
  destruct (only_block_dangles 0%nat ex_c2 (default new_tp (g_blks ex_c2 !! 0%nat)) ex_c2_ok) as (g' & H1 & _ & _ & H2); [reflexivity|reflexivity|].
  exists g'. split; [exact H1|exact H2].
Defined.

(** The same from the start of a process, by closing its listen socket: it is
    the only block, the first round frees it and the second one uses it. *)
Theorem closed_listen_socket_dangles : exists g1 g2,
  SIclose ex_g0 TCP_LISTEN_PORT = Ret (SI_OK, g1) /\ SIbldpoll g1 = Ret g2 /\ SIbldpoll g2 = UB.
Proof. do 2 eexists. split; [vm_compute; reflexivity|]. split; vm_compute; reflexivity. Qed.

(** A send that finds an exception on the socket closes the session, and what the
    callbacks keep is as before: the disconnect callback is not called. *)
Theorem failed_send_closes_silently {K U : Type} `{Kernel K} todot l (g : ginfo_blk K U) u fd i data sel k1 :
  si_ok l g -> fd < FD_SETSIZE -> g_map g !! fd = Some i -> k_writable (g_k g) fd = (sel, true, k1) -> 0 < sel ->
  exists g', SIsendt g fd data = Ret (SI_ERROR, EBADFD, g') /\ k_open (g_k g') fd = false /\ si_step todot false (g, u) (g', u).
Proof.
  intros Hok Hlt Hm Hw Hsel. destruct (so_map l g Hok fd i Hm) as (Hr & Hi & b & Hb & Efd & _).
  assert (exists g', SIsendt g fd data = Ret (SI_ERROR, EBADFD, g') /\ k_open (g_k g') fd = false) as (g' & E & Ho).
  { unfold SIsendt, tp_of_fd. rewrite (proj2 (Z.ltb_ge fd 0)), (proj2 (Z.ltb_lt fd MAX_FDS)), Hm by lia. cbn [mbind comp_bind]. rewrite Hb.
    cbn [deref mbind comp_bind]. rewrite Efd, (proj2 (Z.ltb_ge fd 0)), (proj2 (Z.leb_gt FD_SETSIZE fd)) by lia. cbn [orb].
    unfold upd_blk. rewrite Hb. cbn [deref mbind comp_bind]. cbn [g_k set_blks upd_g]. rewrite Hw, (proj2 (Z.ltb_lt 0 sel)) by lia.
    rewrite (SIterm_eq _ i (count_sent b)) by (cbn; by rewrite lookup_insert_eq). eexists. split; [reflexivity|].
    cbn. rewrite Efd. destruct (Z.leb_spec 0 fd); [by destruct (k_close_law k1 fd) as [? _]|lia]. }
  exists g'. split; [done|]. split; [done|]. by eapply SiSend.
Qed.

(** A session on a descriptor that does not fit into a descriptor set is
    accepted by SIconnect, and the next round writes outside of the set. *)
Theorem big_descriptor_is_undefined {K U : Type} `{Kernel K} l (g : ginfo_blk K U) a fd g' :
  si_ok l g -> SIconnect g a = Ret (fd, g') -> FD_SETSIZE <= fd -> SIbldpoll g' = UB.
Proof.
  intros Hok E Hf. destruct (SIconnect_spec l g a Hok) as (fd' & g1 & l' & E' & Hok' & _ & Hl). rewrite E in E'. injection E' as <- <-.
  destruct Hl as [[-> _]|(i & -> & [_ _ (b & Hb & <- & _) _])]; [done|]. pose proof (so_list _ _ Hok') as Hd. pose proof (dlist_size _ _ _ Hd) as Hsz.
  destruct Hd as (_ & Hh & _). unfold SIbldpoll. cbn [set_poll g_tplist]. rewrite Hh. cbn in Hsz. destruct (size (g_blks g')); [lia|].
  cbn. rewrite Hb. cbn. unfold poll_blk. cbn. rewrite Hb. cbn. unfold FD_SETSIZE in *.
  destruct (flag_on (tp_flags b) TPF_DELETE) eqn:Edel.
  { pose proof (so_del _ _ Hok' i b ltac:(left) Hb Edel). lia. }
  destruct (Z.leb_spec 0 (tp_fd b)); [|lia]. unfold FD_SET, FD_SETSIZE. destruct (Z.leb_spec 0 (tp_fd b)), (Z.ltb_spec (tp_fd b) 1024); try lia. done.
Qed.
