(* ===== verification/Receive.v ===== *)
(** The receive thread as a whole: mt_receive of
    src/src/rmr/si/src/mt_call_si_static.c, which hands the callbacks of River.v
    to the socket layer of Si95.v, and what the two promise together.

    The callbacks share the io context with the other threads of the process:
    the application takes messages and prepares chutes ([app_op]), and senders
    open and close endpoints.  [clock] gives what time() returns to the n-th call
    of the data callback.  The state of the callbacks is [None] when the loop of
    the data callback does not end. *)

From S2P Require Import Prelude Bytes Symtab SymIface Tools Ring Mbuf Endpoint River RouteTable Send SendSpec Fanout MtCall MtSpec Si95 Si95Inv Si95Spec.

(** ** The thread *)

Section thread.
Context {K TR TE N : Type} `{KernelOps K} `{Symbols TR river_t} `{Symbols TE nat}.
Variable malloc_bytes : Z -> list Z.
Variable clock : nat -> Z.

Definition rx_state : Type := nat * option (io_ctx TR TE N).

Definition data_cb : callback rx_state := fun u arg =>
  match arg, u.2 with
  | CbData fd buf, Some io => x ← mt_data_cb malloc_bytes (clock u.1) io fd buf; Ret (SI_RET_OK, (S u.1, x))
  | _, _ => Ret (SI_RET_OK, u)
  end.

Definition disc_cb : callback rx_state := fun u arg =>
  match arg, u.2 with
  | CbDisc fd, Some io => Ret (SI_RET_OK, (u.1, Some (mt_disc_cb io fd)))
  | _, _ => Ret (SI_RET_OK, u)
  end.

Definition reg_callbacks (g : ginfo_blk K rx_state) : ginfo_blk K rx_state :=
  SIcbreg (SIcbreg g SI_CB_CDATA (Some data_cb)) SI_CB_DISC (Some disc_cb).

Definition mt_receive (todot : list Z -> list Z) (fuel : nat) (g : ginfo_blk K rx_state) (u : rx_state) :=
  SIwait todot fuel (reg_callbacks g) u.
End thread.
Arguments rx_state : clear implicits.

(** What the application does with the receive context: poll, wait, and set up
    or clear the chute of a call. *)
Inductive app_op :=
| APoll (old : option mbuf)
| AWait (old : option mbuf) (max_wait : Z) (interrupts : nat)
| AChute (i : nat) (c : chute_t).

Definition app_exec (rx : rx_ctx) (o : app_op) : rx_ctx :=
  match o with
  | APoll old => (rcv_exec rx (OPoll old)).2
  | AWait old mw n => (rcv_exec rx (OWait old mw n)).2
  | AChute i c => put_chute rx i c
  end.

(** ** History of a receive context *)

Inductive rx_event :=
| EvMsg (now fd : Z) (raw : list Z) (m : mbuf)
| EvDisc (fd : Z)
| EvApp (o : app_op).

Inductive happens : rx_ctx -> rx_event -> rx_ctx -> Prop :=
| HMsg rx now fd raw m rx' :
    buf2mbuf now rx raw (zlen raw) fd = Ret rx' -> delivered now rx m rx' -> happens rx (EvMsg now fd raw m) rx'
| HDisc rx fd : happens rx (EvDisc fd) rx
| HApp rx o : happens rx (EvApp o) (app_exec rx o).

Inductive history : rx_ctx -> list rx_event -> rx_ctx -> Prop :=
| HNil rx : history rx [] rx
| HCons rx e rx1 h rx2 : happens rx e rx1 -> history rx1 h rx2 -> history rx (e :: h) rx2.

Lemma history_app rx h1 rx1 h2 rx2 : history rx h1 rx1 -> history rx1 h2 rx2 -> history rx (h1 ++ h2) rx2.
Proof. induction 1; [done|]. intros. econstructor; eauto. Qed.

Lemma history_snoc rx h rx1 e rx2 : history rx h rx1 -> happens rx1 e rx2 -> history rx (h ++ [e]) rx2.
Proof. intros. eapply history_app; [done|]. econstructor; [done|constructor]. Qed.

(** The buffers handed over for a descriptor since its last disconnect, with the
    messages made of them. *)
Definition next_msgs (fd : Z) (acc : list (list Z * mbuf)) (e : rx_event) : list (list Z * mbuf) :=
  match e with
  | EvMsg _ fd' raw m => if fd =? fd' then acc ++ [(raw, m)] else acc
  | EvDisc fd' => if fd =? fd' then [] else acc
  | EvApp _ => acc
  end.
Definition msgs_of (fd : Z) (h : list rx_event) : list (list Z * mbuf) := foldl (next_msgs fd) [] h.

Definition apps_of (h : list rx_event) : list app_op :=
  omap (fun e => match e with EvApp o => Some o | _ => None end) h.

Definition evs_of (now fd : Z) (rms : list (list Z * mbuf)) : list rx_event := (fun x => EvMsg now fd x.1 x.2) <$> rms.

Lemma msgs_of_evs now fd rms fd' h : msgs_of fd' (h ++ evs_of now fd rms) = if fd' =? fd then msgs_of fd' h ++ rms else msgs_of fd' h.
Proof.
  unfold msgs_of. rewrite foldl_app. generalize (foldl (next_msgs fd') [] h) as acc. induction rms as [|[raw m] rms IH]; intros acc.
  - rewrite app_nil_r. by destruct (_ =? _).
  - cbn. rewrite IH. destruct (_ =? _); [|done]. by rewrite <-app_assoc.
Qed.

Lemma msgs_of_snoc fd h e : msgs_of fd (h ++ [e]) = next_msgs fd (msgs_of fd h) e.
Proof. unfold msgs_of. by rewrite foldl_app. Qed.

Lemma apps_of_app h h' : apps_of (h ++ h') = apps_of h ++ apps_of h'.
Proof. apply omap_app. Qed.

Lemma apps_of_evs now fd rms : apps_of (evs_of now fd rms) = [].
Proof. by induction rms. Qed.

(** ** Messages on the wire *)

(** What a peer has to send: a message with its length in front, whose header
    lengths fit it and whose call id is a byte. *)
Record well_formed (f : list Z) : Prop := {
  wf_msg : is_msg f;
  wf_size : 330 <= zlen f;
  wf_lens : forall o, o = 246 \/ o = 250 \/ o = 254 \/ o = 258 \/ o = 54 -> 0 <= load32n f o;
  wf_fits : lens_sum f + TP_HDR_LEN + load32n f (TP_HDR_LEN + o_plen) <= zlen f;
  wf_call : forall b, 0 < load32n f 254 -> get8 f (TP_HDR_LEN + load32n f 246 + load32n f 250) = Ret b -> 0 <= b < 256
}.

Definition well_formed_stream (s : list Z) : Prop :=
  exists msgs tail, Forall well_formed msgs /\ partial tail /\ s = concat msgs ++ tail.

(** What the application gets of a message: a buffer that starts with it, and an
    mbuf that describes the buffer. *)
Definition carries (fd : Z) (f : list Z) (x : list Z * mbuf) : Prop :=
  slice x.1 0 (zlen f) = f /\ refs_buffer x.2 x.1 fd.

Lemma wf_is_msg msgs : Forall well_formed msgs -> Forall is_msg msgs.
Proof. intros Hf. eapply Forall_impl; [exact Hf|]. intros f Hw. apply Hw. Qed.

Lemma stream_unique a : forall b s t,
  Forall is_msg a -> Forall is_msg b -> partial s -> partial t -> concat a ++ s = concat b ++ t -> a = b /\ s = t.
Proof.
  induction a as [|x a IH]; intros b s t Ha Hb Hs Ht E.
  - rewrite <-(app_nil_r (concat [] ++ s)) in E. destruct (partial_nil s b t [] Hb Hs E eq_refl) as [-> ->]. done.
  - destruct b as [|y b].
    + symmetry in E. rewrite <-(app_nil_r (concat [] ++ t)) in E. by destruct (partial_nil t (x :: a) s [] Ha Ht E eq_refl).
    + apply Forall_cons in Ha as [[Hx Lx] Ha]. apply Forall_cons in Hb as [[Hy Ly] Hb]. cbn in E. rewrite <-!app_assoc in E.
      assert (zlen x = zlen y) as Hz.
      { rewrite <-Lx, <-Ly. rewrite <-(load32_prefix x (concat a ++ s)) by lia. by rewrite E, load32_prefix by lia. }
      apply app_inj_1 in E as [-> E]; [|unfold zlen in Hz; lia]. destruct (IH b s t Ha Hb Hs Ht E) as [-> ->]. done.
Qed.

Lemma slice_of_prefix (raw f : list Z) q k :
  slice raw 0 (zlen f) = f -> 0 <= q -> 0 <= k -> q + k <= zlen f -> slice raw q k = slice f q k.
Proof. intros E ? ? ?. rewrite <-E at 1. by rewrite slice_slice by lia. Qed.

Lemma get8_prefix (raw f : list Z) off b :
  slice raw 0 (zlen f) = f -> 0 <= off < zlen f -> get8 raw off = Ret b -> get8 f off = Ret b.
Proof.
  intros E Ho Hg. destruct (get8_total f off Ho) as [b' Eb]. rewrite Eb. f_equal.
  apply get8_slice in Hg, Eb. rewrite (slice_of_prefix raw f) in Hg by (done || lia). congruence.
Qed.

(** A buffer with a message in it is delivered. *)
Lemma wf_delivered now rx f raw fd :
  well_formed f -> holds f raw ->
  exists m rx', buf2mbuf now rx raw.1 raw.2 fd = Ret rx' /\ delivered now rx m rx' /\ carries fd f (raw.1, m).
Proof.
  intros [[Hm _] Hz Hl Hf Hc] [Sr [Zr Hn]]. destruct raw as [raw n]. cbn [fst snd] in *. subst n.
  assert (forall o, 0 <= o -> o + 4 <= zlen f -> load32n raw o = load32n f o) as L.
  { intros o ? ?. unfold load32n. by rewrite (slice_of_prefix raw f) by (done || lia). }
  assert (lens_sum raw = lens_sum f) as Es by (unfold lens_sum; rewrite !L by lia; done).
  pose proof (Hl 246 ltac:(tauto)). pose proof (Hl 250 ltac:(tauto)). pose proof (Hl 254 ltac:(tauto)). pose proof (Hl 258 ltac:(tauto)).
  pose proof (Hl 54 ltac:(tauto)). pose proof (buf2mbuf_spec now rx raw fd) as Hspec. rewrite Es in Hspec.
  unfold INT_MAX in *. offsets. change (50 + 4) with 54 in *. rewrite !L in Hspec by lia.
  destruct (Z.ltb_spec (zlen raw) (lens_sum f + 50 + load32n f 54)) as [?|_]; [lia|].
  assert (0 <= lens_sum f) by (unfold lens_sum; lia). destruct Hspec as (m & E & Hc8 & R).
  - lia.
  - intros o Ho. rewrite L by lia. by apply Hl.
  - intros b Hb Hg. apply (Hc b Hb). eapply get8_prefix; [exact Sr|unfold lens_sum in *; lia|exact Hg].
  - lia.
  - eexists m, _. split; [exact E|]. split; [by apply deliver_delivered|done].
Qed.

(** The frames of send_msg are well formed. *)
Lemma frame_well_formed mctx o f : out_ok o -> frame_of mctx o f -> well_formed f.
Proof.
  intros Ho F. pose proof (frame_is_msg mctx o f Ho F) as Hmsg. destruct Ho as [[W Hf] _ Hz Hby].
  unfold frame_of in F. pose proof (ml_sz _ _ _ _ _ (mw_layout _ _ _ _ _ _ W)) as Hs. pose proof (mw_len _ _ _ _ _ _ W).
  pose proof (mw_layout _ _ _ _ _ _ W) as [_ _ _ L0 L1 L2 L3]. destruct F as [Zf _ _ Vl _ _ Sm _ Sb].
  set (tr := out_tr o) in *. set (d1 := out_d1 o) in *. set (d2 := out_d2 o) in *. set (buf := out_buf o) in *. set (m := out_msg o) in *.
  set (tot := 330 + tr + d1 + d2 + m_len m) in *.
  assert (forall q, 190 <= q -> q + 4 <= 262 -> load32n f q = load32n buf q) as Lf.
  { intros q ? ?. offsets. unfold load32n. rewrite (slice_sub f buf 190 190 72 q 4) by (done || lia). do 2 f_equal. lia. }
  assert (load32n f 246 = 280 /\ load32n f 250 = tr /\ load32n f 254 = d1 /\ load32n f 258 = d2) as (R0 & R1 & R2 & R3)
    by (rewrite !Lf by lia; done).
  offsets. change (50 + 4) with 54 in *.
  assert (lens_sum f = 280 + tr + d1 + d2) as El by (unfold lens_sum; lia). split; offsets; try done; try lia.
  - intros q [->|[->|[->|[->| ->]]]]; lia.
  - intros b Hd Hg. rewrite R0, R1 in Hg. change (50 + 280) with 330 in Hg. apply (get8_range buf (330 + tr) b Hby).
    destruct (get8_total buf (330 + tr)) as [b' Eb]; [unfold tot in *; lia|]. rewrite Eb. f_equal.
    apply get8_slice in Hg, Eb. rewrite (slice_sub f buf 330 330 (tr + d1 + d2 + m_len m) (330 + tr) 1) in Hg by (done || unfold tot in *; lia).
    replace (330 + (330 + tr - 330)) with (330 + tr) in Hg by lia. congruence.
Qed.

Lemma delivered_ibm now rx m rx' : delivered now rx m rx' -> rx_max_ibm rx' = rx_max_ibm rx.
Proof. destruct 1; [|done]. unfold queue_normal. by destruct (_ =? 0). Qed.

Lemma sem_loop_in ws w ws' : sem_loop ws = Some (w, ws') -> w ∈ ws.
Proof.
  induction ws as [|x ws IH]; cbn; [done|]. destruct (_ =? _); [intros E; right; by apply IH|]. intros [= -> _]. left.
Qed.

Lemma mt_rcv_ibm rx old mw n : rx_max_ibm (rcv_exec rx (OWait old mw n)).2 = rx_max_ibm rx.
Proof.
  cbn [rcv_exec rmr_mt_rcv]. destruct (mw =? 0).
  { by destruct (uta_ring_extract _ _) as [[m|] ring]. }
  destruct (sem_loop (waits_of rx n)) as [[w ws]|] eqn:E; [|done]. apply sem_loop_in in E.
  assert (rx_max_ibm (w_rx w) = rx_max_ibm rx) as Hw.
  { unfold waits_of in E. apply elem_of_app in E as [E|E]; [by apply elem_of_replicate in E as [-> _]|].
    destruct (0 <? barrier0 rx); [|by apply not_elem_of_nil in E]. by apply list_elem_of_singleton in E as ->. }
  destruct (negb _); [done|]. by destruct (uta_ring_extract _ _) as [[m|] ring].
Qed.

Lemma app_exec_ibm rx o : rx_max_ibm (app_exec rx o) = rx_max_ibm rx.
Proof.
  destruct o as [old|old mw n|i c]; [|apply mt_rcv_ibm|done]. cbn. by destruct (uta_ring_extract _ _) as [[m|] ring].
Qed.

Lemma history_ibm rx h rx' : history rx h rx' -> rx_max_ibm rx' = rx_max_ibm rx.
Proof.
  induction 1 as [|rx e rx1 h rx2 He _ IH]; [done|]. rewrite IH. destruct He; [by eapply delivered_ibm|done|apply app_exec_ibm].
Qed.

(** The messages of one piece. *)
Lemma deliver_history now fd msgs : forall raws rx,
  Forall well_formed msgs -> Forall2 holds msgs raws ->
  exists rms rx', deliver_all (fun rx raw n => buf2mbuf now rx raw n fd) rx raws = Ret rx' /\
    history rx (evs_of now fd rms) rx' /\ Forall2 (carries fd) msgs rms.
Proof.
  induction msgs as [|f msgs IH]; intros raws rx Hw HF; inversion HF as [|? raw ? raws' Hh HF']; subst.
  { exists [], rx. split_and!; constructor. }
  apply Forall_cons in Hw as [Hf Hw]. destruct (wf_delivered now rx f raw fd Hf Hh) as (m & rx1 & E & D & C).
  destruct (IH raws' rx1 Hw HF') as (rms & rx' & E' & H' & C'). exists ((raw.1, m) :: rms), rx'.
  pose proof (proj1 (proj2 Hh)) as Hz. destruct raw as [raw n]. cbn [fst snd] in *. cbn [deliver_all]. rewrite E. split; [done|].
  split; [|by constructor]. econstructor; [|exact H']. cbn. constructor; [by rewrite Hz|done].
Qed.

(** ** Rivers by descriptor *)

Section rivers.
Context {TR TE N : Type} `{Symbols TR river_t} `{Symbols TE nat}.
Implicit Types io : io_ctx TR TE N.

Record io_ok io : Prop := {
  io_array : 0 < zlen (io_rivers io);
  io_hash : sm_ok (io_river_hash io)
}.

Lemma get_put_river io fd r rx fd' : io_ok io -> 0 <= fd < 2 ^ 31 -> 0 <= fd' < 2 ^ 31 ->
  get_river (put_river io fd r rx) fd' = if decide (fd' = fd) then r else get_river io fd'.
Proof.
  intros [Ha Hh] Hf Hf'. unfold get_river, put_river. unfold zlen in *. destruct (Z.leb_spec (Z.of_nat (length (io_rivers io))) fd); cbn.
  - destruct (Z.leb_spec (Z.of_nat (length (io_rivers io))) fd'); [|by rewrite decide_False by lia].
    rewrite sm_get_put by (done || apply fd_key_valid; lia). destruct (decide (fd' = fd)) as [->|Hne]; [by rewrite decide_True|].
    rewrite decide_False; [done|]. intros E. apply Hne. symmetry. apply fd_key_inj; done || lia.
  - rewrite length_insert. destruct (Z.leb_spec (Z.of_nat (length (io_rivers io))) fd'); [by rewrite decide_False by lia|].
    destruct (decide (fd' = fd)) as [->|Hne]; [by rewrite list_lookup_insert_eq by lia|]. by rewrite list_lookup_insert_ne by lia.
Qed.

Lemma put_river_ok io fd r rx : io_ok io -> 0 <= fd < 2 ^ 31 -> io_ok (put_river io fd r rx).
Proof.
  intros [Ha Hh] Hf. unfold put_river. destruct (Z.leb_spec (zlen (io_rivers io)) fd); split; cbn; try done.
  - apply sm_put_ok; [done|]. apply fd_key_valid. lia.
  - unfold zlen in *. by rewrite length_insert.
Qed.

Lemma put_river_rx io fd r rx : io_rx (put_river io fd r rx) = rx.
Proof. unfold put_river. by destruct (_ <=? _). Qed.

Lemma disc_rx io fd : io_rx (mt_disc_cb io fd) = io_rx io.
Proof. unfold mt_disc_cb. cbn. destruct (_ && _); [done|]. destruct (0 <? fd); [|done]. by destruct (sm_get _ _). Qed.

(** A disconnect resets one river. *)
Lemma disc_river io fd : io_ok io -> 0 <= fd < 2 ^ 31 ->
  io_ok (mt_disc_cb io fd) /\ rv_state (get_river (mt_disc_cb io fd) fd) = RS_NEW /\
  forall fd', 0 <= fd' < 2 ^ 31 -> fd' <> fd -> get_river (mt_disc_cb io fd) fd' = get_river io fd'.
Proof.
  intros Hok Hf. pose proof Hok as [Ha Hh]. unfold mt_disc_cb, get_river, zlen in *. destruct (Z.leb_spec 0 fd); [|lia].
  destruct (Z.ltb_spec fd (Z.of_nat (length (io_rivers io)))); cbn.
  - rewrite length_alter. split; [split; cbn; [unfold zlen; by rewrite length_alter|done]|].
    destruct (Z.leb_spec (Z.of_nat (length (io_rivers io))) fd); [lia|]. rewrite list_lookup_alter_eq. split.
    + destruct (lookup_lt_is_Some_2 (io_rivers io) (Z.to_nat fd)) as [r ->]; [lia|done].
    + intros fd' ? ?. destruct (_ <=? fd'); [done|]. by rewrite list_lookup_alter_ne by lia.
  - destruct (Z.ltb_spec 0 fd); [|lia]. destruct (sm_get (io_river_hash io) (fd_key fd)) as [r|] eqn:E; cbn.
    + split; [split; cbn; [done|apply sm_put_ok; [done|apply fd_key_valid; lia]]|].
      destruct (Z.leb_spec (Z.of_nat (length (io_rivers io))) fd); [|lia].
      rewrite sm_get_put by (done || apply fd_key_valid; lia). rewrite decide_True by done. split; [done|].
      intros fd' ? ?. destruct (Z.leb_spec (Z.of_nat (length (io_rivers io))) fd'); [|done].
      rewrite sm_get_put by (done || apply fd_key_valid; lia). rewrite decide_False; [done|]. intros E'. apply fd_key_inj in E'; lia.
    + split; [done|]. destruct (Z.leb_spec (Z.of_nat (length (io_rivers io))) fd); [|lia]. rewrite E. done.
Qed.
End rivers.

(** ** The callbacks keep their promise *)

Definition peers_ok (rd : Z -> list Z) : Prop := forall fd, 0 <= fd < FD_SETSIZE -> well_formed_stream (rd fd).

Section life.
Context {K TR TE N : Type} `{Kernel K} `{Symbols TR river_t} `{Symbols TE nat}.
Variable malloc_bytes : Z -> list Z.
Hypothesis malloc_len : forall n, 0 <= n -> zlen (malloc_bytes n) = n.
Variable clock : nat -> Z.
Variable todot : list Z -> list Z.
Hypothesis small_fds : k_limit <= FD_SETSIZE.
Hypothesis peers : forall k fd n st data k', peers_ok (reads k) -> k_recv k fd n = (st, data, k') -> peers_ok (reads k').

(** The receive context when the thread starts. *)
Variable rx0 : rx_ctx.
Hypothesis ibm_range : 0 <= rx_max_ibm rx0 < INT_MAX - 1024.

Abbreviation world := (ginfo_blk K (rx_state TR TE N) * rx_state TR TE N)%type.

(** All complete messages of a stream were handed over, the river has the rest. *)
Record handed_over (io : io_ctx TR TE N) (h : list rx_event) (fd : Z) (s : list Z) (msgs : list (list Z)) (tail : list Z) : Prop := {
  ho_stream : s = concat msgs ++ tail;
  ho_wf : Forall well_formed msgs;
  ho_tail : partial tail;
  ho_msgs : Forall2 (carries fd) msgs (msgs_of fd h);
  ho_river : river_at (rx_max_ibm rx0) (get_river io fd) tail
}.

Record rx_good (apps : list app_op) (u : rx_state TR TE N) (rd : Z -> list Z) (io : io_ctx TR TE N) (h : list rx_event) : Prop := {
  rg_state : u.2 = Some io;
  rg_ok : io_ok io;
  rg_hist : history rx0 h (io_rx io);
  rg_apps : apps_of h = apps;
  rg_fds : forall fd, 0 <= fd < FD_SETSIZE -> exists msgs tail, handed_over io h fd (rd fd) msgs tail
}.

Definition rx_rel (apps : list app_op) (u : rx_state TR TE N) (rd : Z -> list Z) : Prop := exists io h, rx_good apps u rd io h.

Lemma rx_rel_ext apps u rd rd' : (forall fd, rd fd = rd' fd) -> rx_rel apps u rd -> rx_rel apps u rd'.
Proof. intros E (io & h & [R1 R2 R3 R4 R5]). exists io, h. split; try done. intros fd Hf. rewrite <-E. by apply R5. Qed.

Lemma rx_rel_peers apps u rd : rx_rel apps u rd -> peers_ok rd.
Proof. intros (io & h & [_ _ _ _ R]) fd Hf. destruct (R fd Hf) as (msgs & tail & [-> Hw Ht _ _]). by exists msgs, tail. Qed.

Lemma peers_ok_ext (rd rd' : Z -> list Z) : (forall fd, rd fd = rd' fd) -> peers_ok rd -> peers_ok rd'.
Proof. intros E Hp fd Hf. rewrite <-E. by apply Hp. Qed.

(** One piece of a stream. *)
Lemma data_good apps u rd fd buf :
  0 <= fd < FD_SETSIZE -> buf <> [] -> rx_rel apps u rd -> peers_ok (upd_fd rd fd (rd fd ++ buf)) ->
  exists u', data_cb malloc_bytes clock u (CbData fd buf) = Ret (SI_RET_OK, u') /\ rx_rel apps u' (upd_fd rd fd (rd fd ++ buf)).
Proof.
  intros Hf Hb (io & h & [R1 R2 R3 R4 R5]) Hp. unfold FD_SETSIZE in *. destruct u as [n x]. cbn in R1. subst x.
  destruct (Hp fd Hf) as (all & tail & Hall & Htail & Es). unfold upd_fd in Es. rewrite Z.eqb_refl in Es.
  destruct (R5 fd Hf) as (msgs & p & [E0 Hw Ht Hm Hr]). rewrite E0 in Es.
  destruct (stream_split all (concat msgs ++ p) buf tail (wf_is_msg _ Hall) Htail Es) as (m1 & m2 & t1 & -> & E1 & Ht1 & E2).
  apply Forall_app in Hall as [Hm1 Hm2].
  destruct (stream_unique msgs m1 p t1 (wf_is_msg _ Hw) (wf_is_msg _ Hm1) Ht Ht1 E1) as [<- <-].
  unfold data_cb, mt_data_cb. cbn [fst snd]. destruct (Z.leb_spec (zlen buf) 0) as [Hz|_].
  { destruct Hb. destruct buf; [done|]. unfold zlen in Hz. cbn in Hz. lia. }
  destruct (Z.ltb_spec fd 0); [lia|]. cbn [orb]. rewrite (history_ibm _ _ _ R3).
  destruct (river_data_spec malloc_bytes malloc_len (rx_max_ibm rx0) ibm_range (fun rx raw k => buf2mbuf (clock n) rx raw k fd)
    (get_river io fd) p buf m2 tail Hr Ht (wf_is_msg _ Hm2) Htail E2) as (raws & r & HF & Hr' & E).
  destruct (deliver_history (clock n) fd m2 raws (io_rx io) Hm2 HF) as (rms & rx' & E' & Hh & Hc).
  rewrite E, E'. cbn [mbind comp_bind]. eexists. split; [reflexivity|].
  exists (put_river io fd r rx'), (h ++ evs_of (clock n) fd rms). split.
  - done.
  - apply put_river_ok; [done|lia].
  - rewrite put_river_rx. by eapply history_app.
  - by rewrite apps_of_app, apps_of_evs, app_nil_r.
  - intros fd' Hf'. unfold upd_fd. destruct (Z.eqb_spec fd' fd) as [->|Hne].
    + exists (msgs ++ m2), tail. split.
      * by rewrite E0, Es.
      * by apply Forall_app.
      * done.
      * rewrite msgs_of_evs, Z.eqb_refl. by apply Forall2_app.
      * rewrite get_put_river, decide_True by (done || lia). by left.
    + destruct (R5 fd' Hf') as (msgs' & tail' & [S1 S2 S3 S4 S5]). exists msgs', tail'. split; try done.
      * rewrite msgs_of_evs. by rewrite (proj2 (Z.eqb_neq _ _) Hne).
      * unfold FD_SETSIZE in Hf'. by rewrite get_put_river, decide_False by (done || lia).
Qed.

(** The end of a session. *)
Lemma disc_good apps u rd fd :
  0 <= fd < FD_SETSIZE -> rx_rel apps u rd ->
  exists u', disc_cb u (CbDisc fd) = Ret (SI_RET_OK, u') /\ rx_rel apps u' (upd_fd rd fd []).
Proof.
  intros Hf (io & h & [R1 R2 R3 R4 R5]). unfold FD_SETSIZE in *. destruct u as [n x]. cbn in R1. subst x.
  eexists. split; [reflexivity|]. destruct (disc_river io fd R2 ltac:(lia)) as (Hok & Hnew & Hoth).
  exists (mt_disc_cb io fd), (h ++ [EvDisc fd]). split.
  - done.
  - done.
  - rewrite disc_rx. eapply history_snoc; [done|constructor].
  - by rewrite apps_of_app, app_nil_r.
  - intros fd' Hf'. unfold upd_fd. destruct (Z.eqb_spec fd' fd) as [->|Hne].
    + exists [], []. split; try done; [by left| |by right]. rewrite msgs_of_snoc. cbn. rewrite Z.eqb_refl. constructor.
    + destruct (R5 fd' Hf') as (msgs' & tail' & [S1 S2 S3 S4 S5]). exists msgs', tail'. split; try done.
      * rewrite msgs_of_snoc. cbn. by rewrite (proj2 (Z.eqb_neq _ _) Hne).
      * unfold FD_SETSIZE in Hf'. by rewrite Hoth by (done || lia).
Qed.

Lemma rx_contract (g : ginfo_blk K (rx_state TR TE N)) :
  g_cbtab g = ∅ -> contract rx_rel peers_ok (g_cbtab (reg_callbacks malloc_bytes clock g)).
Proof.
  intros E. unfold reg_callbacks, SIcbreg. cbn. rewrite E. split.
  - exists (data_cb malloc_bytes clock). split; [done|]. intros fd data Hf Hd f apps u rd HJ Hp.
    destruct (data_good apps u rd fd data Hf Hd HJ Hp) as (u' & Eu & HJ'). by exists SI_RET_OK, u'.
  - exists disc_cb. split; [done|]. intros fd Hf apps u rd HJ _.
    destruct (disc_good apps u rd fd Hf HJ) as (u' & Eu & HJ'). by exists SI_RET_OK, u'.
  - intros cb Hcb. done.
  - intros cb Hcb. done.
Qed.

(** ** The threads of the process *)

(** The rounds of the receive thread and what senders do to the sockets; the
    application's operations, which are recorded; and changes of the endpoints by
    other threads.  They are steps that exclude each other, as those of [si_step];
    sends that close a session, of which the callbacks are not told, are left out. *)
Inductive rx_step : world -> list app_op -> world -> Prop :=
| RxNet s s' : si_step todot true s s' -> rx_step s [] s'
| RxApp g n io o :
    rx_step (g, (n, Some io)) [o] (g, (n, Some (MkIo (app_exec (io_rx io) o) (io_rivers io) (io_river_hash io) (io_conn io))))
| RxConn g n io cx :
    rx_step (g, (n, Some io)) [] (g, (n, Some (MkIo (io_rx io) (io_rivers io) (io_river_hash io) cx))).

Inductive rx_steps : world -> list app_op -> world -> Prop :=
| RxNone s : rx_steps s [] s
| RxMore s a s1 b s2 : rx_steps s a s1 -> rx_step s1 b s2 -> rx_steps s (a ++ b) s2.

Definition rx_ok (apps : list app_op) : world -> Prop := si_good rx_rel peers_ok apps.

Lemma app_good apps n io rd o :
  rx_rel apps (n, Some io) rd ->
  rx_rel (apps ++ [o]) (n, Some (MkIo (app_exec (io_rx io) o) (io_rivers io) (io_river_hash io) (io_conn io))) rd.
Proof.
  intros (io' & h & [[= <-] [R2 R3] R4 R5 R6]). eexists _, (h ++ [EvApp o]). split.
  - done.
  - by split.
  - eapply history_snoc; [done|constructor].
  - by rewrite apps_of_app, R5.
  - intros fd Hf. destruct (R6 fd Hf) as (msgs & tail & [S1 S2 S3 S4 S5]). exists msgs, tail. split; try done. by rewrite msgs_of_snoc.
Qed.

Lemma conn_good apps n io rd cx :
  rx_rel apps (n, Some io) rd -> rx_rel apps (n, Some (MkIo (io_rx io) (io_rivers io) (io_river_hash io) cx)) rd.
Proof.
  intros (io' & h & [[= <-] [R2 R3] R4 R5 R6]). eexists _, h. split; [done|by split|done|done|].
  intros fd Hf. destruct (R6 fd Hf) as (msgs & tail & [S1 S2 S3 S4 S5]). exists msgs, tail. by split.
Qed.

Lemma rx_step_ok apps s o s' : rx_step s o s' -> rx_ok apps s -> rx_ok (apps ++ o) s'.
Proof.
  destruct 1 as [s s' Hs|g n io o|g n io cx].
  - rewrite app_nil_r. intros Hok. by eapply (si_step_good rx_rel rx_rel_ext peers_ok rx_rel_peers peers_ok_ext peers todot apps true).
  - intros [Hl Hc HJ]. split; [done|done|]. by apply app_good.
  - rewrite app_nil_r. intros [Hl Hc HJ]. split; [done|done|]. by eapply conn_good.
Qed.

Lemma rx_steps_ok s apps s' : rx_steps s apps s' -> rx_ok [] s -> rx_ok apps s'.
Proof. induction 1; [done|]. eauto using rx_step_ok. Qed.

(** The start: the socket context, the listen socket, the io context with rivers
    that no session used. *)
Record rx_start (k : K) (addr : list Z) (io : io_ctx TR TE N) (s : world) : Prop := {
  xs_listen : exists tf fd g, SIlistener (SIset_tflags (SIinitialise k) tf) TCP_DEVICE addr = Ret (fd, g) /\ 0 <= fd /\ s = (reg_callbacks malloc_bytes clock g, (0%nat, Some io));
  xs_kernel : forall fd, reads k fd = [];
  xs_io : io_ok io;
  xs_rx : io_rx io = rx0;
  xs_rivers : forall fd, 0 <= fd < FD_SETSIZE -> rv_state (get_river io fd) = RS_NEW
}.

Lemma rx_start_ok k addr io s : rx_start k addr io s -> rx_ok [] s.
Proof.
  intros [(tf & fd & g & E & Hf & ->) Hk Hio Hrx Hr].
  assert (si_ok [] (SIset_tflags (SIinitialise (U := rx_state TR TE N) k) tf)) as Hok0 by by eapply si_ok_same; [apply (si_ok_init k ∅)|..].
  destruct (SIlistener_spec [] _ TCP_DEVICE addr Hok0) as (fd' & g' & l & E' & Hok & Hg & Hl).
  rewrite E in E'. injection E' as <- <-.
  split; cbn [fst snd].
  - exists l. split; [by eapply si_ok_same|]. destruct Hl as [[-> _]|(i & _ & _ & _ & Hl)]; [done|]. by apply Hl.
  - apply rx_contract. by rewrite (gr_cbs _ _ _ Hg).
  - exists io, []. split; try done; [rewrite Hrx; constructor|]. intros f Hfr. exists [], []. split; try done.
    + change (reads (g_k g) f = []). rewrite <-(Hk f). unfold reads. by rewrite (gr_view _ _ _ Hg).
    + by left.
    + right. split; [by apply Hr|done].
Qed.

(** The receive thread itself. *)
Lemma wait_loop_ok apps fuel : forall g u st,
  rx_ok apps (g, u) -> exists r, wait_loop todot fuel g u st = Ret r /\
    match r with Some (_, g', u') => rx_ok apps (g', u') | None => True end.
Proof.
  induction fuel as [|fuel IH]; intros g u st Hok; [by exists None|]. cbn [wait_loop]. pose proof Hok as [(l & Hl & Hlis) Hc HJ].
  destruct (wait_round_spec rx_rel rx_rel_ext peers_ok rx_rel_peers peers_ok_ext peers todot apps l g u st Hl small_fds Hlis Hc HJ)
    as (st' & g' & u' & l' & -> & Hl' & Hlis' & Hc' & HJ'). cbn [mbind comp_bind].
  assert (rx_ok apps (g', u')) as Hok' by (split; [by exists l'|done|done]).
  destruct (g_tplist g'); [destruct (flag_on _ _)|]; [by eexists|by apply IH|by eexists].
Qed.

Lemma SIwait_ok apps fuel g u : rx_ok apps (g, u) -> is_ret (SIwait todot fuel g u).
Proof.
  intros Hok. unfold SIwait. destruct (flag_on _ _); [done|].
  destruct (wait_loop_ok apps fuel g u SI_OK Hok) as ([[[st g'] u']|] & -> & Hr); [|done]. cbn [mbind comp_bind].
  destruct Hr as [(l & Hl & (i & b & Hi & _)) _ _]. cbn [fst] in *. destruct (so_list l g' Hl) as (_ & -> & _).
  destruct l; [by apply not_elem_of_nil in Hi|done].
Qed.
End life.

(** * Properties *)

(** C8.  The life of a connection that the peer ends, from the socket to the
    application: let every peer send well-formed messages, in pieces of any size, on
    any number of connections that come and go, while senders connect and send and
    the application polls, waits and sets up calls, in any order, each of these steps
    complete before the next one ([rx_step]); and let no send close a session, which
    it does when the socket has an exception.  Then the receive thread is never
    undefined and its data callback always ends; the receive context is the result of
    exactly the application's operations and of deliveries; and for every descriptor
    the buffers delivered since its last disconnect are, in order, the complete
    messages among the bytes read from it, each with an mbuf that describes it.

    The condition on sends is needed: the disconnect callback is not called for a
    session that a send closes ([failed_send_closes_silently]), so that the river
    keeps the part of a message it has for the next session on the descriptor.  A
    delivery is to the queue (or dropped when that is full), or to the chute that the
    call id of the message names; the transaction id is not looked at there, though
    the comment of mt_receive says it is: comparing it is left to the waiting call. *)
Theorem life_of_a_connection {K TR TE N : Type} `{Kernel K} `{Symbols TR river_t} `{Symbols TE nat}
    malloc_bytes clock todot (k : K) addr (io : io_ctx TR TE N) s apps g u :
  (forall n, 0 <= n -> zlen (malloc_bytes n) = n) -> 0 <= rx_max_ibm (io_rx io) < INT_MAX - 1024 -> k_limit <= FD_SETSIZE ->
  (forall (k : K) fd n st data k', peers_ok (reads k) -> k_recv k fd n = (st, data, k') -> peers_ok (reads k')) ->
  rx_start malloc_bytes clock (io_rx io) k addr io s -> rx_steps todot s apps (g, u) ->
  (forall fuel, is_ret (SIwait todot fuel g u)) /\
    exists io' h, u.2 = Some io' /\ history (io_rx io) h (io_rx io') /\ apps_of h = apps /\
    forall fd, 0 <= fd < FD_SETSIZE -> k_open (g_k g) fd = true ->
      exists msgs tail, k_read (g_k g) fd = concat msgs ++ tail /\ Forall well_formed msgs /\ partial tail /\
    Forall2 (carries fd) msgs (msgs_of fd h).
Proof.
  intros Hm Hi Hlim Hp Hst Hs.
  assert (rx_ok (io_rx io) apps (g, u)) as Hok by (eapply rx_steps_ok; eauto using rx_start_ok).
  split; [intros fuel; by eapply SIwait_ok|]. destruct Hok as [_ _ (io' & h & [R1 R2 R3 R4 R5])]. cbn [fst snd] in *.
  exists io', h. split_and!; try done. intros fd Hf Ho. destruct (R5 fd Hf) as (msgs & tail & [S1 S2 S3 S4 _]). exists msgs, tail.
  unfold reads, view in S1. by rewrite Ho in S1.
Qed.

(** ** An example *)

(** A kernel whose peers send one message again and again, 200 bytes at a time. *)
Definition pk_frame : list Z :=
  le_bytes 4 360 ++ replicate 50 0 ++ be_bytes 4 30 ++ replicate 188 0 ++ be_bytes 4 280 ++ replicate 110 0.

Definition pk_next (r : list Z) : option (list Z) :=
  let whole := concat (replicate (S (S (length r / 360))) pk_frame) in
  if bool_decide (take (length r) whole = r) then Some (take 200 (drop (length r) whole)) else None.

Definition pk : Type := ek_state.
#[global] Typeclasses Opaque pk ek.

#[export] Instance pk_ops : KernelOps pk := {
  k_getaddrinfo := k_getaddrinfo (K := ek 64);
  k_socket := k_socket (K := ek 64);
  k_bind := k_bind (K := ek 64);
  k_listen := k_listen (K := ek 64);
  k_connect := k_connect (K := ek 64);
  k_getsockname := k_getsockname (K := ek 64);
  k_accept := k_accept (K := ek 64);
  k_close := k_close (K := ek 64);
  k_writable := k_writable (K := ek 64);
  k_select := k_select (K := ek 64);
  k_send := k_send (K := ek 64);
  k_recv k fd n :=
    match ek_fds k !! fd with
    | Some (w, r) =>
        match pk_next r with
        | Some b => if zlen b <=? n then (zlen b, b, ek_upd k (<[fd := (w, r ++ b)]> (ek_fds k))) else (-1, [], k)
        | None => (-1, [], k)
        end
    | None => (-1, [], k)
    end;
  k_limit := 64;
  k_open := k_open (K := ek 64);
  k_wire := k_wire (K := ek 64);
  k_read := k_read (K := ek 64)
}.

Lemma pk_recv (k : pk) fd n st b k' : k_recv k fd n = (st, b, k') ->
  (st = -1 /\ b = [] /\ k' = k) \/
  (exists w r, ek_fds k !! fd = Some (w, r) /\ pk_next r = Some b /\ zlen b <= n /\ st = zlen b /\ k' = ek_upd k (<[fd := (w, r ++ b)]> (ek_fds k))).
Proof.
  cbn. destruct (ek_fds k !! fd) as [[w r]|]; [|by intros [= <- <- <-]; left]. destruct (pk_next r) as [b'|] eqn:En; [|by intros [= <- <- <-]; left].
  destruct (Z.leb_spec (zlen b') n); intros [= <- <- <-]; [right|by left]. by exists w, r.
Qed.

#[export] Instance pk_kernel : Kernel pk.
Proof.
  split.
  - exact (@k_socket_law (ek 64) (ek_ops 64) (ek_kernel 64)).
  - exact (@k_accept_law (ek 64) (ek_ops 64) (ek_kernel 64)).
  - exact (@k_bind_law (ek 64) (ek_ops 64) (ek_kernel 64)).
  - exact (@k_listen_law (ek 64) (ek_ops 64) (ek_kernel 64)).
  - exact (@k_connect_law (ek 64) (ek_ops 64) (ek_kernel 64)).
  - exact (@k_writable_law (ek 64) (ek_ops 64) (ek_kernel 64)).
  - exact (@k_select_law (ek 64) (ek_ops 64) (ek_kernel 64)).
  - exact (@k_close_law (ek 64) (ek_ops 64) (ek_kernel 64)).
  - exact (@k_send_law (ek 64) (ek_ops 64) (ek_kernel 64)).
  - intros k fd n st b k' [(-> & -> & ->)|(w & r & E & _ & Hz & -> & ->)]%pk_recv.
    + rewrite app_nil_r. split_and!; try done. lia.
    + pose proof (zlen_nonneg b). cbn. unfold ek_get. cbn. rewrite lookup_insert_eq, E. cbn. split_and!; try done; try lia.
      intros fd' Hne. apply (ek_same 64). cbn. by rewrite lookup_insert_ne.
Qed.

Lemma pk_frame_ok : well_formed pk_frame.
Proof.
  split.
  - split; vm_compute; [split; discriminate|reflexivity].
  - vm_compute. discriminate.
  - intros o [->|[->|[->|[->| ->]]]]; vm_compute; discriminate.
  - vm_compute. discriminate.
  - intros b Hb. exfalso. revert Hb. by vm_compute.
Qed.

(** The start of a stream of messages. *)
Lemma prefix_well_formed msgs n : Forall well_formed msgs -> well_formed_stream (take n (concat msgs)).
Proof.
  intros Hw. destruct (stream_split msgs (take n (concat msgs)) (drop n (concat msgs)) [] (wf_is_msg _ Hw)) as (m1 & m2 & t & -> & E & Ht & _).
  - by left.
  - by rewrite take_drop, app_nil_r.
  - apply Forall_app in Hw as [Hw _]. by exists m1, t.
Qed.

Lemma pk_next_ok r b : pk_next r = Some b -> well_formed_stream (r ++ b).
Proof.
  unfold pk_next. set (whole := replicate _ pk_frame). assert (Forall well_formed whole) as Hw by apply Forall_replicate, pk_frame_ok.
  clearbody whole. case_bool_decide as Hr; [|done]. intros [= <-]. rewrite <-Hr at 1. rewrite take_take_drop. by apply prefix_well_formed.
Qed.

Lemma pk_peers (k : pk) fd n st data k' : peers_ok (reads k) -> k_recv k fd n = (st, data, k') -> peers_ok (reads k').
Proof.
  intros Hp [(_ & _ & ->)|(w & r & E & En & _ & _ & ->)]%pk_recv; [done|]. intros f Hf. unfold reads, view. cbn. unfold ek_get. cbn.
  destruct (decide (f = fd)) as [->|Hne].
  - rewrite lookup_insert_eq, bool_decide_eq_true_2 by by eexists. cbn. by apply pk_next_ok.
  - rewrite lookup_insert_ne by done. apply (Hp f Hf).
Qed.

Lemma run_ret {A} (d : A) c : is_ret c = true -> c = Ret (ex_run d c).
Proof. by destruct c. Qed.

Definition px_io : io_ctx (gmap akey river_t) (gmap akey nat) unit := MkIo rx0 (replicate 8 river0) ∅ (MkConn ∅ None ()).
Definition px_state : Type := rx_state (gmap akey river_t) (gmap akey nat) unit.
Definition px_k : pk := MkEk ∅ 3 [[3]; [4; 5]; [5]] [].
Definition px_clock (n : nat) : Z := 100 + Z.of_nat n.
Definition px_todot (a : list Z) : list Z := a.
Definition px_gi : ginfo_blk pk px_state := SIinitialise px_k.
Definition px_listen := SIlistener px_gi TCP_DEVICE $"0.0.0.0:4560".
Definition px_g0 : ginfo_blk pk px_state := reg_callbacks junk px_clock (ex_run (0, px_gi) px_listen).2.
Definition px_u0 : px_state := (0%nat, Some px_io).
Definition px_conn := SIconnect px_g0 $"there:4560".
Definition px_g1 := (ex_run (0, px_gi) px_conn).2.
Definition px_w1 := wait_round px_todot px_g1 px_u0 0.
Definition px_r1 := ex_run (0, px_gi, px_u0) px_w1.
Definition px_w2 := wait_round px_todot px_r1.1.2 px_r1.2 0.
Definition px_r2 := ex_run (0, px_gi, px_u0) px_w2.
Definition px_w3 := wait_round px_todot px_r2.1.2 px_r2.2 0.
Definition px_r3 := ex_run (0, px_gi, px_u0) px_w3.
Definition px_io3 := default px_io px_r3.2.2.
Definition px_u4 : px_state :=
  (px_r3.2.1, Some (MkIo (app_exec (io_rx px_io3) (APoll None)) (io_rivers px_io3) (io_river_hash px_io3) (io_conn px_io3))).

Lemma px_start : rx_start junk px_clock rx0 px_k $"0.0.0.0:4560" px_io (px_g0, px_u0).
Proof.
  split.
  - exists 0, (ex_run (0, px_gi) px_listen).1, (ex_run (0, px_gi) px_listen).2. split_and!; [|vm_compute; discriminate|done].
    assert (px_listen = Ret (ex_run (0, px_gi) px_listen)) as E by (apply run_ret; vm_compute; reflexivity).
    change (px_listen = Ret ((ex_run (0, px_gi) px_listen).1, (ex_run (0, px_gi) px_listen).2)). by rewrite <-surjective_pairing.
  - intros fd. unfold reads, view. cbn. by destruct (bool_decide _).
  - split; [by vm_compute|done].
  - done.
  - intros fd Hf. unfold get_river. assert (sm_get (io_river_hash px_io) (fd_key fd) = None) as -> by apply lookup_empty.
    destruct (_ <=? fd); [done|]. change (io_rivers px_io) with (replicate 8 river0).
    destruct (replicate 8 river0 !! Z.to_nat fd) as [r|] eqn:E; [|done]. by apply lookup_replicate_1 in E as [-> _].
Qed.

(** We connect, a peer connects, both peers send twice or once, and the
    application polls. *)
Lemma px_steps : rx_steps px_todot (px_g0, px_u0) [APoll None] (px_r3.1.2, px_u4).
Proof.
  assert (forall (x : Z * ginfo_blk pk px_state * px_state), x = (x.1.1, x.1.2, x.2)) as Hx by by intros [[? ?] ?].
  apply (RxMore _ _ [] (px_r3.1.2, (px_r3.2.1, Some px_io3)) [APoll None]); [|constructor].
  assert ((px_r3.2.1, Some px_io3) = px_r3.2) as ->.
  { unfold px_io3. assert (match px_r3.2.2 with Some _ => true | None => false end = true) as Hs by (vm_compute; reflexivity).
    destruct px_r3.2 as [n [io|]]; [done|discriminate Hs]. }
  apply (RxMore _ _ [] (px_r2.1.2, px_r2.2) []); [|apply RxNet, (SiRound _ _ _ _ 0 px_r3.1.1); change (px_w3 = Ret (px_r3.1.1, px_r3.1.2, px_r3.2)); rewrite <-Hx; apply run_ret; vm_compute; reflexivity].
  apply (RxMore _ _ [] (px_r1.1.2, px_r1.2) []); [|apply RxNet, (SiRound _ _ _ _ 0 px_r2.1.1); change (px_w2 = Ret (px_r2.1.1, px_r2.1.2, px_r2.2)); rewrite <-Hx; apply run_ret; vm_compute; reflexivity].
  apply (RxMore _ _ [] (px_g1, px_u0) []); [|apply RxNet, (SiRound _ _ _ _ 0 px_r1.1.1); change (px_w1 = Ret (px_r1.1.1, px_r1.1.2, px_r1.2)); rewrite <-Hx; apply run_ret; vm_compute; reflexivity].
  apply (RxMore _ _ [] (px_g0, px_u0) []); [constructor|].
  apply RxNet, (SiConnect _ _ _ _ $"there:4560" (ex_run (0, px_gi) px_conn).1). unfold px_g1. rewrite <-surjective_pairing.
  apply run_ret. vm_compute. reflexivity.
Qed.

Lemma px_read : k_open (g_k px_r3.1.2) 5 = true /\ k_read (g_k px_r3.1.2) 5 = pk_frame ++ take 40 pk_frame.
Proof. split; vm_compute; reflexivity. Qed.

Lemma life_of_a_connection_witness :
  exists io' h, px_u4.2 = Some io' /\ history rx0 h (io_rx io') /\ apps_of h = [APoll None] /\
    exists msgs tail, pk_frame ++ take 40 pk_frame = concat msgs ++ tail /\ partial tail /\ Forall2 (carries 5) msgs (msgs_of 5 h).
Proof.
  destruct (life_of_a_connection junk px_clock px_todot px_k $"0.0.0.0:4560" px_io (px_g0, px_u0) [APoll None] px_r3.1.2 px_u4)
    as (_ & io' & h & E1 & E2 & E3 & E4).
  - exact junk_len.
  - unfold INT_MAX. cbn. lia.
  - unfold FD_SETSIZE. cbn. lia.
  - exact pk_peers.
  - exact px_start.
  - exact px_steps.
  - exists io', h. split; [exact E1|]. split; [exact E2|]. split; [exact E3|].
    destruct px_read as [Ho Hr]. destruct (E4 5) as (msgs & tail & Es & _ & Ht & HF); [unfold FD_SETSIZE; lia|exact Ho|].
    exists msgs, tail. rewrite <-Hr. split; [exact Es|]. split; [exact Ht|exact HF].
Defined.
