(* ===== verification/Init.v ===== *)
(** The life of a context: init, init_err, free_ctx, rmr_init, rmr_ready and
    rmr_close of src/src/rmr/si/src/rmr_si.c, and init_mtcall of
    src/src/rmr/common/src/mt_call_static.c.

    What init asks the system for is an argument of type [init_sys].  The
    allocations that it checks can fail; for each way to fail the result says what
    stays allocated. *)

From S2P Require Import Prelude Bytes Symtab SymIface Tools Ring Mbuf Endpoint River RouteTable RtInv RtParser RtRefine Send SendSpec Fanout MtCall MtSpec Wormhole Si95 Si95Inv Si95Spec Receive.

Definition ENOMEM : Z := 12.
Definition RMRFL_NOTHREAD : Z := 1.
Definition RMRFL_AUTO_ALLOC : Z := 3.
Definition RMRFL_NAME_ONLY : Z := 4.
Definition RMRFL_NOLOCK : Z := 8.
Definition UFL_MASK : Z := 255.
Definition CFL_WARN : Z := 4.
Definition SI_TF_NODELAY : Z := 1.
Definition SI_TF_FASTACK : Z := 2.
Definition SI_TF_QUICK : Z := 4.
Definition RMR_MAX_SRC : Z := 64.
Definition RMR_MAX_RCV_BYTES : Z := 2048.
Definition MAX_RIVERS : nat := 1024.
Definition MHDR_SIZE : Z := 280.
Definition DEF_COMM_PORT : list Z := $"tcp:4560".

(** ** What is allocated *)

Inductive init_obj :=
| OPort | OCtx | ORivers | ORiverHash | OMring | OZcb | OChutes | OFd2ep | OSi | OName | OIpList | OMyIp | OGate | OEphash.

#[export] Instance init_obj_eq : EqDecision init_obj.
Proof. solve_decision. Defined.

(** What free_ctx frees of a context. *)
Definition free_ctx (live : list init_obj) : list init_obj :=
  filter (fun o => o ∉ [OMring; OZcb; OChutes; OFd2ep; OName; OMyIp; OEphash; OCtx]) live.

(** init_err: the port string is freed, and the context when there is one. *)
Definition init_err (live : list init_obj) : list init_obj :=
  let live := filter (fun o => o <> OPort) live in
  if bool_decide (OCtx ∈ live) then free_ctx live else live.

(** ** Arguments from outside *)

Inductive thread := ThRtc | ThRtcFile | ThReceive.

(** The environment, the host name (when gethostname gives one), the interfaces,
    the descriptors of the rings, the allocations that are checked, the starts of
    threads that succeed, the contents of fresh memory for the chutes, and the
    static variable of queue_normal. *)
Record init_sys := MkSys {
  y_env : list Z -> option (list Z);
  y_hostname : option (list Z);
  y_ifs : list ifaddr;
  y_fds : Z * Z;
  y_mem : init_obj -> bool;
  y_thread : thread -> bool;
  y_chutes : list chute_t;
  y_warning : Z
}.

(** ** Parts of init *)

(** The port in what the user gave: after the first colon, or all of it. *)
Definition port_of (proto_port : list Z) : list Z :=
  match strchr (proto_port ++ [0]) 0 58 with
  | Some e => drop (S e) proto_port
  | None => proto_port
  end.

(** RMR_SRC_ID without a port.  For an address in brackets that are not closed
    the pointer that is looked at is 1. *)
Definition src_id (tok : list Z) : comp (list Z) :=
  match tok with
  | 91 :: _ =>
      match strchr (tok ++ [0]) 0 93 with
      | Some e => Ret (take (S e) tok)
      | None => UB
      end
  | _ => Ret (cut_at 58 tok)
  end.

(** Our host name: [None] when it cannot be found out. *)
Definition host_name (sys : init_sys) : comp (option (list Z)) :=
  match y_env sys $"RMR_SRC_ID" with
  | Some tok => s ← src_id tok; Ret (Some (snprintf RMR_MAX_SRC s))
  | None => Ret (option_map (cut_at 46) (y_hostname sys))
  end.

(** All but the last chute are initialised. *)
Definition init_mtcall (mem : list chute_t) : list chute_t :=
  ((fun c => MkChute None 0 (ch_expect c)) <$> take (Z.to_nat MAX_CALL_ID) mem) ++ drop (Z.to_nat MAX_CALL_ID) mem.

(** ** The context *)

(** The name of the seed table: nil, a string, or a pointer to freed memory. *)
Inductive seed_ptr := SeedNil | SeedName (s : list Z) | SeedFreed.

Section init.
Context {K U TH TE TR : Type} `{KernelOps K} `{Symbols TH thing} `{Symbols TE nat} `{Symbols TR river_t}.

Record uta_ctx := MkUta {
  u_mctx : msg_ctx;
  u_rt : rt_ctx TH TE;
  u_fd2ep : option TE;
  u_send_retries : Z;
  u_rx : rx_ctx;
  u_zcb : @ring_t mbuf;
  u_rivers : list river_t;
  u_river_hash : TR;
  u_si : ginfo_blk K U;
  u_flags : Z;
  u_rtable_ready : bool;
  u_threads : list thread;
  u_seed : seed_ptr;
  u_shutdown : bool
}.

(** A nil result with errno (none when it is what the system call set) and what
    stays allocated, or a context. *)
Inductive init_res := Failed (errno : option Z) (live : list init_obj) | Started (c : uta_ctx).

(** The size of the receive buffers.  The sum of an int and a size is of the type of the size, and converted. *)
Definition ibm_size (def_msg_size : Z) : Z :=
  i32 ((if def_msg_size <? 1024 then 1024 else def_msg_size) + MHDR_SIZE + 4 + 0 + TP_HDR_LEN + 64).

(** A ring with its locks; the option of the second call is the same for both rings. *)
Definition init_ring (fd size : Z) (opts : list Z) : option (@ring_t mbuf) :=
  foldl (fun r o => (uta_ring_config true true r o).2) (uta_mk_ring true true fd size) opts.

Definition locks (flags : Z) (opts : list Z) : list Z := if Z.land flags RMRFL_NOLOCK =? 0 then opts else [].

(** The message queue, the chutes, and the counts. *)
Definition init_rx (sys : init_sys) (def_msg_size flags : Z) : comp rx_ctx :=
  mring ← deref (init_ring (y_fds sys).1 4096 (locks flags [RING_RLOCK]));
  Ret (MkRx mring (init_mtcall (y_chutes sys)) 0 0 0 (y_warning sys) (ibm_size def_msg_size)).

(** Our name, the addresses of the host, and the one that is sent. *)
Definition src_ip (ips : if_addrs_t) (my_name : list Z) : list Z := default my_name (get_default_ip (Some ips)).

Definition bind_if (sys : init_sys) (my_ip : list Z) : list Z :=
  match y_env sys $"RMR_BIND_IF" with
  | Some i => i
  | None => match my_ip with 91 :: _ => $"[::]" | _ => $"0.0.0.0" end
  end.

Definition env_flag (sys : init_sys) (name : list Z) (p : list Z -> bool) : bool :=
  match y_env sys name with Some v => p v | None => false end.

(** The threads, of those wanted, that could be started. *)
Definition start_threads (sys : init_sys) (wanted : list thread) : list thread := filter (fun t => y_thread sys t) wanted.

Definition init (sys : init_sys) (k : K) (uproto_port : option (list Z)) (def_msg_size flags : Z) : comp init_res :=
  let proto_port := default DEF_COMM_PORT uproto_port in
  if negb (y_mem sys OPort) then Ret (Failed (Some ENOMEM) (init_err [])) else
  if negb (y_mem sys OCtx) then Ret (Failed (Some ENOMEM) (init_err [OPort])) else
  rx ← init_rx sys def_msg_size flags;
  zcb ← deref (init_ring (y_fds sys).2 128 (locks flags [RING_WLOCK; RING_FRLOCK]));
  let live := [OPort; OCtx; ORivers; ORiverHash; OMring; OZcb; OChutes; OFd2ep] in
  if negb (y_mem sys OSi) then Ret (Failed None (init_err live)) else
  let si := SIset_tflags (SIinitialise k) SI_TF_QUICK in
  let live := live ++ [OSi] in
  let port := port_of proto_port in
  let static_rtc := env_flag sys $"RMR_RTG_SVC" (fun v => atoi v <? 0) in
  host ← host_name sys;
  match host with
  | None => Ret (Failed None (init_err live))
  | Some host =>
      let my_name := host ++ $":" ++ port in
      let live := live ++ [OName] in
      if RMR_MAX_SRC <=? zlen my_name then Ret (Failed (Some EINVAL) (init_err live)) else
      let name_only := negb (Z.land flags RMRFL_NAME_ONLY =? 0) || env_flag sys $"RMR_SRC_NAMEONLY" (fun v => 0 <? atoi v) in
      let ips := mk_ip_list port (y_env sys $"RMR_BIND_IF") (y_ifs sys) in
      let my_ip := src_ip ips my_name in
      let warn := env_flag sys $"RMR_WARNINGS" (fun v => match v with 49 :: _ => true | _ => false end) in
      let live := live ++ [OIpList; OMyIp] in
      let bind_info := snprintf 256 (bind_if sys my_ip ++ $":" ++ port) in
      '(fd, si) ← SIlistener si TCP_DEVICE bind_info;
      if fd <? 0 then Ret (Failed None (init_err live)) else
      let live := live ++ [OGate] in
      if negb (y_mem sys OEphash) then Ret (Failed (Some ENOMEM) (init_err live)) else
      let nothread := negb (Z.land flags RMRFL_NOTHREAD =? 0) in
      let rtc := if nothread then [] else if static_rtc then [ThRtcFile] else [ThRtc] in
      Ret (Started (MkUta
        (MkMsgCtx (if 0 <? def_msg_size then def_msg_size else RMR_MAX_RCV_BYTES) 0 4 0 my_name (if name_only then my_name else my_ip))
        (MkRtCtx ∅ ∅ 0%nat (sm_new 129) (Some uta_rt_init) None None my_name (Some ips))
        (Some (sm_new 129)) 1 rx zcb (replicate MAX_RIVERS river0) (sm_new 129) si
        (Z.lor (if warn then CFL_WARN else 0) CFL_MTC_ENABLED) nothread
        (start_threads sys (rtc ++ [ThReceive])) SeedNil false))
  end.

(** rmr_init keeps the flags of the user. *)
Definition rmr_init (sys : init_sys) (k : K) (uproto_port : option (list Z)) (def_msg_size flags : Z) : comp init_res :=
  init sys k uproto_port def_msg_size (Z.land flags UFL_MASK).

Definition rmr_ready (ctx : option uta_ctx) : bool := match ctx with Some c => u_rtable_ready c | None => false end.

(** The name of the seed table is freed, and kept. *)
Definition rmr_close (ctx : option uta_ctx) : comp (option uta_ctx) :=
  match ctx with
  | None => Ret None
  | Some c =>
      seed ← (match u_seed c with SeedNil => Ret SeedNil | SeedName _ => Ret SeedFreed | SeedFreed => UB end);
      Ret (Some (MkUta (u_mctx c) (u_rt c) (u_fd2ep c) (u_send_retries c) (u_rx c) (u_zcb c) (u_rivers c) (u_river_hash c)
        (u_si c) (u_flags c) (u_rtable_ready c) (u_threads c) seed true))
  end.

(** Flags of the sessions to come. *)
Definition set_si_flags (c : uta_ctx) (mask : Z) : uta_ctx :=
  MkUta (u_mctx c) (u_rt c) (u_fd2ep c) (u_send_retries c) (u_rx c) (u_zcb c) (u_rivers c) (u_river_hash c)
    (SIset_tflags (u_si c) mask) (u_flags c) (u_rtable_ready c) (u_threads c) (u_seed c) (u_shutdown c).
Definition rmr_set_low_latency (ctx : option uta_ctx) : option uta_ctx := option_map (fun c => set_si_flags c SI_TF_NODELAY) ctx.
Definition rmr_set_fack (ctx : option uta_ctx) : option uta_ctx := option_map (fun c => set_si_flags c SI_TF_FASTACK) ctx.

(** The counts of the receive thread (rmr_debug_si.c). *)
Definition rmr_reset_rx_debug_count (ctx : option uta_ctx) : Z * option uta_ctx :=
  match ctx with
  | None => (EINVAL, None)
  | Some c =>
      let rx := u_rx c in
      (0, Some (MkUta (u_mctx c) (u_rt c) (u_fd2ep c) (u_send_retries c)
        (MkRx (rx_mring rx) (rx_chutes rx) (rx_dcount rx) 0 0 (rx_last_warning rx) (rx_max_ibm rx))
        (u_zcb c) (u_rivers c) (u_river_hash c) (u_si c) (u_flags c) (u_rtable_ready c) (u_threads c) (u_seed c) (u_shutdown c)))
  end.

(** [want]: the caller gave a structure to fill: drop and enqueue count. *)
Definition rmr_get_rx_debug_info (ctx : option uta_ctx) (want : bool) : Z * option (Z * Z) :=
  match ctx with
  | Some c => if want then (0, Some (rx_acc_dcount (u_rx c), rx_acc_ecount (u_rx c))) else (EINVAL, None)
  | None => (EINVAL, None)
  end.
End init.
Arguments uta_ctx : clear implicits.
Arguments init_res : clear implicits.

(** * Theorems *)

(** The rings. *)
Lemma init_ring_ok fd size opts : 1 <= size < 65535 ->
  exists r, init_ring fd size opts = Some r /\ ring_wf r /\ ring_contents r = [] /\ r_nelements r = size.
Proof.
  intros Hs. unfold init_ring. destruct (mk_ring_wf (P := mbuf) fd size) as (r & -> & Hw & Hc & Hn); [lia|].
  destruct (Z.leb_spec 65535 size); [lia|]. revert r Hw Hc Hn. induction opts as [|o opts IH]; intros r Hw Hc Hn; cbn [foldl]; [by exists r|].
  destruct (uta_ring_config true true (Some r) o) as [rc [r'|]] eqn:E; [|unfold uta_ring_config in E; by repeat case_match].
  destruct (config_wf _ _ _ _ _ _ E Hw) as (Hw' & Hc' & Hn'). cbn [snd]. apply IH; congruence.
Qed.

Lemma init_chutes mem i c : length mem = 256%nat -> mem !! i = Some c ->
  init_mtcall mem !! i = Some (if decide (i < 255)%nat then MkChute None 0 (ch_expect c) else c).
Proof.
  intros Hl Hi. unfold init_mtcall. change (Z.to_nat MAX_CALL_ID) with 255%nat. case_decide.
  - rewrite lookup_app_l by (rewrite length_fmap, length_take; lia). by rewrite list_lookup_fmap, lookup_take_lt, Hi by lia.
  - rewrite lookup_app_r by (rewrite length_fmap, length_take; lia). rewrite length_fmap, length_take, lookup_drop, Hl.
    replace (255 + (i - 255 `min` 256))%nat with i by lia. done.
Qed.

Lemma init_chutes_len mem : length mem = 256%nat -> length (init_mtcall mem) = 256%nat.
Proof.
  intros Hl. unfold init_mtcall. change (Z.to_nat MAX_CALL_ID) with 255%nat. rewrite length_app, length_fmap, length_take, length_drop, Hl. done.
Qed.

Lemma init_chutes_clear mem i : length mem = 256%nat -> (i < 255)%nat ->
  exists x, init_mtcall mem !! i = Some x /\ ch_mbuf x = None /\ ch_barrier x = 0.
Proof.
  intros Hl Hi. destruct (lookup_lt_is_Some_2 mem i) as [y Hy]; [lia|].
  rewrite (init_chutes _ _ _ Hl Hy), decide_True by lia. by eexists.
Qed.

Lemma init_rx_ok sys d flags : length (y_chutes sys) = 256%nat ->
  exists rx, init_rx sys d flags = Ret rx /\ rx_inv 4096 rx [] /\ rx_max_ibm rx = ibm_size d /\ rx_chutes rx = init_mtcall (y_chutes sys).
Proof.
  intros Hl. unfold init_rx. destruct (init_ring_ok (y_fds sys).1 4096 (locks flags [RING_RLOCK])) as (r & -> & Hw & Hc & Hn); [lia|].
  cbn [deref mbind comp_bind]. eexists. split; [reflexivity|]. split; [|done].
  destruct (lookup_lt_is_Some_2 (y_chutes sys) 0) as [c Hc0]; [lia|]. pose proof (init_chutes _ _ _ Hl Hc0) as Hi.
  rewrite decide_True in Hi by lia. split; cbn; rewrite ?Hi; try done. unfold barrier0. cbn. by rewrite Hi.
Qed.

Lemma ibm_range d : d < INT_MAX - 2048 -> 0 <= ibm_size d < INT_MAX - 1024.
Proof.
  unfold ibm_size, INT_MAX, MHDR_SIZE, TP_HDR_LEN. intros. destruct (Z.ltb_spec d 1024); rewrite i32_id; unfold in_i32; lia.
Qed.

(** When the source id is defined. *)
Definition src_id_ok (sys : init_sys) : bool :=
  match y_env sys $"RMR_SRC_ID" with Some tok => is_ret (src_id tok) | None => true end.

Lemma host_name_ret sys : is_ret (host_name sys) = src_id_ok sys.
Proof. unfold host_name, src_id_ok. destruct (y_env sys _) as [tok|]; [|done]. by destruct (src_id tok). Qed.

Lemma start_threads_in sys l t : t ∈ start_threads sys l <-> y_thread sys t = true /\ t ∈ l.
Proof. unfold start_threads. rewrite list_elem_of_filter. by rewrite Is_true_true. Qed.

Section init_thms.
Context {K TH TE TR N : Type} `{Kernel K} `{Symbols TH thing} `{Symbols TE nat} `{Symbols TR river_t}.
Abbreviation ctx := (uta_ctx K (rx_state TR TE N) TH TE TR).
Abbreviation res := (init_res K (rx_state TR TE N) TH TE TR).

(** The strings that come from outside are C strings. *)
Record sys_strings (sys : init_sys) (proto_port : list Z) : Prop := {
  ss_env : forall name v, y_env sys name = Some v -> is_cstr v;
  ss_host : forall h, y_hostname sys = Some h -> is_cstr h;
  ss_ifs : Forall (fun i => forall fam octs, ifa_addr i = Some (fam, octs) -> is_cstr octs) (y_ifs sys);
  ss_port : is_cstr proto_port
}.

Lemma cut_at_cstr c t : is_cstr t -> is_cstr (cut_at c t).
Proof. induction 1 as [|b t Hb _ IH]; cbn; [constructor|]. destruct (b =? c); by constructor. Qed.

Lemma snprintf_cstr n t : is_cstr t -> is_cstr (snprintf n t).
Proof. apply Forall_take. Qed.

Lemma port_cstr p : is_cstr p -> is_cstr (port_of p).
Proof. intros Hp. unfold port_of. destruct (strchr _ _ _); [|done]. by apply Forall_drop. Qed.

Lemma colon_cstr a b : is_cstr a -> is_cstr b -> is_cstr (a ++ $":" ++ b).
Proof. intros. apply Forall_app. split; [done|]. apply Forall_app. split; [|done]. repeat constructor. Qed.

Lemma src_id_cases tok t : src_id tok = Ret t -> (exists n, t = take n tok) \/ t = cut_at 58 tok.
Proof.
  unfold src_id. destruct tok as [|c tok]; [intros [= <-]; by right|].
  repeat case_match; intros E; try discriminate; injection E as <-; first [by right|left; by eexists (S _)].
Qed.

Lemma host_cstr sys p host : sys_strings sys p -> host_name sys = Ret (Some host) -> is_cstr host.
Proof.
  intros [He Hh _ _]. unfold host_name. destruct (y_env sys _) as [tok|] eqn:Et.
  - intros (t & Es & [= <-])%comp_bind_ret. apply He in Et. apply snprintf_cstr.
    destruct (src_id_cases _ _ Es) as [[n ->]| ->]; [by apply Forall_take|by apply cut_at_cstr].
  - intros [= E]. destruct (y_hostname sys) as [h|] eqn:Eh; [|done]. injection E as <-. by apply cut_at_cstr, Hh.
Qed.

Lemma with_port_cstr fam octs port : is_cstr octs -> is_cstr port -> is_cstr (with_port fam octs port).
Proof.
  intros Ho Hp. destruct fam; cbn -[bytes_of_string]; [by apply colon_cstr| |by apply colon_cstr].
  apply Forall_app. split; [by repeat constructor|]. apply Forall_app. split; [done|]. apply Forall_app. split; [by repeat constructor|done].
Qed.

Lemma ip_step_cstr port target l ele a :
  is_cstr port -> (forall fam octs, ifa_addr ele = Some (fam, octs) -> is_cstr octs) ->
  Some a ∈ ip_list_step port target l ele -> Some a ∈ l \/ is_cstr a.
Proof.
  intros Hp He. unfold ip_list_step. destruct (_ && _); [|by left]. destruct (ifa_addr ele) as [[fam octs]|]; [|by left].
  specialize (He _ _ eq_refl).
  assert (forall l1, Some a ∈ l1 ++ [Some (snprintf (NI_MAXHOST + 128) (with_port fam (cut_at 37 octs) port))] -> Some a ∈ l1 \/ is_cstr a) as Hadd.
  { intros l1 [|[= ->]%list_elem_of_singleton]%elem_of_app; [by left|]. right. by apply snprintf_cstr, with_port_cstr, Hp; apply cut_at_cstr. }
  destruct fam, octs; try by left; destruct (zlen l <? 128); try by left; apply Hadd.
  all: destruct (zlen l <? 128); [apply Hadd|by left].
Qed.

Lemma ip_fold_cstr port target ifs a :
  is_cstr port -> Forall (fun i => forall fam octs, ifa_addr i = Some (fam, octs) -> is_cstr octs) ifs ->
  forall l, Some a ∈ foldl (ip_list_step port target) l ifs -> Some a ∈ l \/ is_cstr a.
Proof.
  intros Hp. induction 1 as [|i ifs Hi _ IH]; intros l Ha; cbn [foldl] in Ha; [by left|].
  destruct (IH _ Ha) as [Ha'|]; [|by right]. by eapply ip_step_cstr.
Qed.

Lemma addrs_cstr sys p a : sys_strings sys p ->
  Some a ∈ addrs (mk_ip_list (port_of p) (y_env sys $"RMR_BIND_IF") (y_ifs sys)) -> is_cstr a.
Proof.
  intros [He _ Hi Hp]. pose proof (port_cstr _ Hp) as Hpo.
  assert (forall target, Some a ∈ foldl (ip_list_step (port_of p) target) [] (y_ifs sys) -> is_cstr a) as Hf.
  { intros target Ha. apply ip_fold_cstr in Ha; [|done|done]. destruct Ha as [Ha|]; [by apply not_elem_of_nil in Ha|done]. }
  unfold mk_ip_list. destruct (y_env sys _) as [[|c envp]|] eqn:Ee; try apply Hf.
  destruct (_ || _); [|apply Hf]. cbn [addrs]. intros [= ->]%list_elem_of_singleton. apply snprintf_cstr. apply (colon_cstr (c :: envp)); [by eapply He|done].
Qed.

(** What stays allocated when init gives up. *)
Definition lost (sys : init_sys) (live : list init_obj) : Prop :=
  live = [] \/ live = [ORivers; ORiverHash] \/ live = [ORivers; ORiverHash; OSi] \/
  live = [ORivers; ORiverHash; OSi; OIpList] \/ live = [ORivers; ORiverHash; OSi; OIpList; OGate].

Definition fresh_rt (my_name : list Z) (ips : if_addrs_t) : rt_ctx TH TE :=
  MkRtCtx ∅ ∅ 0%nat (sm_new 129) (Some uta_rt_init) None None my_name (Some ips).

(** What a context that init returns looks like. *)
Record started (sys : init_sys) (k : K) (proto_port : list Z) (d flags : Z) (c : ctx) : Prop := {
  st_name : exists host, host_name sys = Ret (Some host) /\ x_my_name (u_mctx c) = host ++ $":" ++ port_of proto_port /\ zlen (x_my_name (u_mctx c)) < RMR_MAX_SRC;
  st_lens : x_max_plen (u_mctx c) = (if 0 <? d then d else RMR_MAX_RCV_BYTES) /\ x_trace_data_len (u_mctx c) = 0 /\ x_d1_len (u_mctx c) = 4 /\ x_d2_len (u_mctx c) = 0;
  st_rt : let ips := mk_ip_list (port_of proto_port) (y_env sys $"RMR_BIND_IF") (y_ifs sys) in
    u_rt c = fresh_rt (x_my_name (u_mctx c)) ips /\
    (x_my_ip (u_mctx c) = x_my_name (u_mctx c) \/ Some (x_my_ip (u_mctx c)) ∈ addrs ips);
  st_fd2ep : u_fd2ep c = Some (sm_new 129);
  st_rx : init_rx sys d flags = Ret (u_rx c);
  st_rivers : u_rivers c = replicate MAX_RIVERS river0 /\ u_river_hash c = sm_new 129;
  st_listen : exists bind fd, SIlistener (SIset_tflags (SIinitialise k) SI_TF_QUICK) TCP_DEVICE (snprintf 256 (bind ++ $":" ++ port_of proto_port)) = Ret (fd, u_si c) /\ 0 <= fd;
  st_ready : u_rtable_ready c = negb (Z.land flags RMRFL_NOTHREAD =? 0);
  st_threads : (ThRtc ∈ u_threads c \/ ThRtcFile ∈ u_threads c -> u_rtable_ready c = false) /\
    (y_thread sys ThReceive = true -> ThReceive ∈ u_threads c)
}.
Lemma init_spec sys k uport d flags : length (y_chutes sys) = 256%nat ->
  if src_id_ok sys || negb (y_mem sys OPort && y_mem sys OCtx && y_mem sys OSi) then
    exists r : res, init sys k uport d flags = Ret r /\
      match r with Failed e live => lost sys live | Started c => started sys k (default DEF_COMM_PORT uport) d flags c end
  else init sys k uport d flags = (UB : comp res).
Proof.
  intros Hl. unfold init. destruct (y_mem sys OPort); cbn [negb andb orb]; [|rewrite orb_true_r; eexists; split; [done|by left]].
  destruct (y_mem sys OCtx); cbn [negb andb orb]; [|rewrite orb_true_r; eexists; split; [done|by left]].
  destruct (init_rx_ok sys d flags Hl) as (rx & Erx & _). rewrite Erx. cbn [mbind comp_bind].
  destruct (init_ring_ok (y_fds sys).2 128 (locks flags [RING_WLOCK; RING_FRLOCK])) as (zcb & -> & _); [lia|]. cbn [deref mbind comp_bind].
  destruct (y_mem sys OSi); cbn [negb orb]; [|rewrite orb_true_r; eexists; split; [done|right; by left]].
  rewrite orb_false_r, <-host_name_ret. destruct (host_name sys) as [[host|]|] eqn:Eh; cbn [is_ret mbind comp_bind]; [| |done].
  2: { eexists. split; [done|]. do 2 right. by left. }
  set (port := port_of _). set (my_name := host ++ _). destruct (Z.leb_spec RMR_MAX_SRC (zlen my_name)).
  { eexists. split; [done|]. do 2 right. by left. }
  set (ips := mk_ip_list _ _ _). set (my_ip := src_ip ips my_name). set (bind := bind_if sys my_ip).
  assert (si_ok [] (SIset_tflags (SIinitialise (U := rx_state TR TE N) k) SI_TF_QUICK)) as Hok0 by (eapply si_ok_same; [apply (si_ok_init k ∅)|done..]).
  destruct (SIlistener_spec [] _ TCP_DEVICE (snprintf 256 (bind ++ $":" ++ port)) Hok0) as (fd & g & l & E & _). rewrite E. cbn [mbind comp_bind].
  destruct (Z.ltb_spec fd 0); [eexists; split; [done|]; do 3 right; by left|].
  destruct (y_mem sys OEphash); cbn [negb]; [|eexists; split; [done|]; by do 4 right].
  eexists. split; [done|]. split; cbn -[start_threads mk_ip_list bytes_of_string]; try done.
  - by exists host.
  - fold port. fold ips. split; [done|]. destruct (_ || _); [by left|]. unfold my_ip, src_ip. cbn.
    destruct (addrs ips) as [|[a|] as_]; [by left|right; apply elem_of_cons; by left|by left].
  - by exists bind, fd.
  - split.
    + destruct (negb _); [|done]. intros [Hi|Hi]; apply start_threads_in in Hi as [_ Hi]; by apply list_elem_of_singleton in Hi.
    + intros Ht. apply start_threads_in. split; [done|]. apply elem_of_app. right. by apply list_elem_of_singleton.
Qed.

(** Messages can be made from the context: the names in it are C strings, the
    lengths are in bounds. *)
Lemma started_reuse sys k p d flags (c : ctx) tr :
  sys_strings sys p -> started sys k p d flags c -> 0 <= tr -> 384 + tr + x_max_plen (u_mctx c) < 2 ^ 31 -> reuse_ok (u_mctx c) tr.
Proof.
  intros Hs [(host & Eh & En & _) (Ep & Et & E1 & E2) [_ Hip] _ _ _ _ _ _] Htr Hmax.
  assert (is_cstr (x_my_name (u_mctx c))) as Hn.
  { rewrite En. apply colon_cstr; [by eapply host_cstr|apply port_cstr; by apply (ss_port _ _ Hs)]. }
  split; rewrite ?Et, ?E1, ?E2; try done; [rewrite Ep; destruct (Z.ltb_spec 0 d); [lia|done]|lia|].
  destruct Hip as [->|Hip]; [done|]. by eapply addrs_cstr.
Qed.
End init_thms.

(** * Properties *)

(** The context as the receive thread and the senders see it. *)
Definition io_of {K TH TE TR N : Type} (c : uta_ctx K (rx_state TR TE N) TH TE TR) (n : N) : io_ctx TR TE N :=
  MkIo (u_rx c) (u_rivers c) (u_river_hash c) (MkConn ∅ (u_fd2ep c) n).
Definition send_of {K U TH TE TR N : Type} (c : uta_ctx K U TH TE TR) (n : N) : send_ctx TH TE N :=
  MkSc (u_rt c) (u_fd2ep c) n (u_mctx c) (u_send_retries c).

Lemma fresh_wh {TH TE N : Type} `{Symbols TH thing} `{Symbols TE nat} (fd2ep : option TE) (n : N) mctx retries my ips :
  wh_inv (TH := TH) (MkWh (MkSc (fresh_rt my ips) fd2ep n mctx retries) None).
Proof.
  assert (129 <= INT_MAX) by (unfold INT_MAX; lia). split; cbn; [|done|done]. split; cbn.
  - by apply sm_new_ok.
  - intros nm id Hne. rewrite sm_get_new by done. unfold ename. cbn. by rewrite lookup_empty.
  - intros id [x Hx]. by rewrite lookup_empty in Hx.
Qed.

Lemma fresh_conn {TE N : Type} `{Symbols TE nat} (n : N) : conn_inv (MkConn ∅ (Some (sm_new 129 : TE)) n).
Proof.
  split; cbn; [exists (sm_new 129); split; [done|]; by apply sm_new_ok|]. intros id e Hx. by rewrite lookup_empty in Hx.
Qed.

(** C9.  init gives a context from which the other theorems can start, or nil: for
    any environment whose strings are C strings the result is defined (unless
    RMR_SRC_ID opens a bracket that it does not close).  A context is named host:port
    in at most 63 characters; new messages can be made from it and sent
    ([reuse_ok]); its tables refine the empty tables; its queue is empty; there is
    room for 256 chutes, and those with the numbers 0 to 254 have no message and
    nothing posted; endpoints and wormholes are consistent; it listens, no river is in
    use, and its receive thread can start.  A nil result leaves the rivers, the socket
    context and the list of addresses allocated.

    Nothing is said about chute 255, the last one, because nothing is known: init
    does not initialise it, see [last_call_chute_not_initialised]. *)
Theorem init_establishes_invariants {K TH TE TR N : Type} `{Kernel K} `{Symbols TH thing} `{Symbols TE nat} `{Symbols TR river_t} `{Transport N}
    malloc_bytes clock (n : N) sys (k : K) uport d flags :
  length (y_chutes sys) = 256%nat -> d < INT_MAX - 2048 -> (forall fd, reads k fd = []) -> src_id_ok sys = true ->
  sys_strings sys (default DEF_COMM_PORT uport) ->
  exists r : init_res K (rx_state TR TE N) TH TE TR, init sys k uport d flags = Ret r /\
    match r with
    | Failed e live => lost sys live
    | Started c =>
        started sys k (default DEF_COMM_PORT uport) d flags c /\
        (forall tr, 0 <= tr -> 384 + tr + x_max_plen (u_mctx c) < 2 ^ 31 -> reuse_ok (u_mctx c) tr) /\
        (exists ips, refines (x_my_name (u_mctx c)) ips (MkPs (u_rt c) None false false) as_init) /\
        wh_inv (MkWh (send_of c n) None) /\ conn_inv (io_conn (io_of c n)) /\ rx_inv 4096 (u_rx c) [] /\
        length (rx_chutes (u_rx c)) = 256%nat /\
        (forall i, (i < 255)%nat -> exists x, rx_chutes (u_rx c) !! i = Some x /\ ch_mbuf x = None /\ ch_barrier x = 0) /\
        0 <= rx_max_ibm (u_rx c) < INT_MAX - 1024 /\
        exists addr, rx_start malloc_bytes clock (u_rx c) k addr (io_of c n) (reg_callbacks malloc_bytes clock (u_si c), (0%nat, Some (io_of c n)))
    end.
Proof.
  intros Hl Hd Hk Hs Hstr. pose proof (init_spec (TH := TH) (TE := TE) (TR := TR) (N := N) sys k uport d flags Hl) as Hi. rewrite Hs in Hi. cbn [orb] in Hi.
  destruct Hi as ([e live|c] & E & Hr); [by exists (Failed e live)|]. exists (Started c). split; [done|]. split; [done|].
  split; [intros tr; by eapply started_reuse|].
  destruct Hr as [Hnm Hlens [Ert Hip] Hfd Hrx [Hriv Hhash] (bind & fd & Esi & Hpos) Hready Hth].
  destruct (init_rx_ok sys d flags Hl) as (rx & Erx & Hinv & Hibm & Hch). rewrite Hrx in Erx. injection Erx as <-.
  split; [|split]. 1: by eexists; rewrite Ert; apply init_refines.
  { unfold send_of. rewrite Ert. apply fresh_wh. }
  split; [unfold io_of; cbn; rewrite Hfd; apply fresh_conn|]. split; [done|].
  split; [rewrite Hch; by apply init_chutes_len|]. split; [rewrite Hch; intros i; by apply init_chutes_clear|].
  split; [rewrite Hibm; by apply ibm_range|].
  eexists. split; [by exists SI_TF_QUICK, fd, (u_si c)|done| |done|].
  - split; cbn; rewrite ?Hriv, ?Hhash; [done|]. apply sm_new_ok. unfold INT_MAX. lia.
  - intros f Hf. unfold get_river. cbn. rewrite Hriv, Hhash. change (zlen (replicate MAX_RIVERS river0)) with 1024.
    unfold FD_SETSIZE in Hf. destruct (Z.leb_spec 1024 f); [lia|]. by rewrite lookup_replicate_2 by (unfold MAX_RIVERS; lia).
Qed.

Definition ex_sys (src : option (list Z)) : init_sys :=
  MkSys (fun name => if bool_decide (name = $"RMR_SRC_ID") then src else None) (Some $"host.example") [mk_ifaddr $"eth0" (Some (AF_INET, $"10.0.0.7"))]
    (3, 4) (fun _ => true) (fun _ => true) (replicate 256 (MkChute None 77 [])) 0.
Definition ex_init (src : option (list Z)) : comp (init_res (ek 64) (rx_state (gmap akey river_t) (gmap akey nat) open_net) (gmap akey thing) (gmap akey nat) (gmap akey river_t)) :=
  init (ex_sys src) (MkEk ∅ 3 [] [] : ek 64) (Some $"tcp:4580") 2000 0.

Lemma ex_strings : sys_strings (ex_sys None) $"tcp:4580".
Proof.
  split; cbn -[bytes_of_string].
  - intros name v. by case_bool_decide.
  - intros h [= <-]. by apply (bool_decide_unpack (is_cstr _)).
  - constructor; [|constructor]. intros fam octs [= _ <-]. by apply (bool_decide_unpack (is_cstr _)).
  - by apply (bool_decide_unpack (is_cstr _)).
Qed.

Lemma init_establishes_invariants_witness :
  exists c, ex_init None = Ret (Started c) /\ reuse_ok (u_mctx c) 20 /\ rx_inv 4096 (u_rx c) [] /\ x_my_name (u_mctx c) = $"host:4580" /\ x_my_ip (u_mctx c) = $"10.0.0.7:4580".
Proof.
  destruct (init_establishes_invariants (TH := gmap akey thing) (TE := gmap akey nat) (TR := gmap akey river_t) junk (fun _ => 0) ((fun _ => []) : open_net)
    (ex_sys None) (MkEk ∅ 3 [] [] : ek 64) (Some $"tcp:4580") 2000 0) as (r & E & Hr).
  - reflexivity.
  - unfold INT_MAX. lia.
  - intros fd. unfold reads, view. cbn. by destruct (bool_decide _).
  - vm_compute. reflexivity.
  - apply ex_strings.
  - assert (match ex_init None with Ret (Started c) => Some (x_my_name (u_mctx c), x_my_ip (u_mctx c)) | _ => None end = Some ($"host:4580", $"10.0.0.7:4580")) as Hx
      by (vm_compute; reflexivity).
    unfold ex_init in *. rewrite E in Hx |- *. destruct r as [e live|c]; [discriminate Hx|]. exists c. injection Hx as Hx1 Hx2.
    split; [reflexivity|]. destruct Hr as (Hst & Hre & _ & _ & _ & Hrx & _). destruct (st_lens _ _ _ _ _ _ Hst) as [Hp _].
    split; [apply Hre; rewrite ?Hp; vm_compute; first [discriminate|reflexivity]|]. split; [exact Hrx|]. split; [exact Hx1|exact Hx2].
Defined.

(** With RMR_SRC_ID set to an address in brackets that are not closed, init reads
    through the pointer 1. *)
Theorem unclosed_source_id_is_undefined {K TH TE TR N : Type} `{Kernel K} `{Symbols TH thing} `{Symbols TE nat} `{Symbols TR river_t}
    sys (k : K) uport d flags tok :
  length (y_chutes sys) = 256%nat -> y_mem sys OPort = true -> y_mem sys OCtx = true -> y_mem sys OSi = true ->
  y_env sys $"RMR_SRC_ID" = Some (91 :: tok) -> strchr (91 :: tok ++ [0]) 0 93 = None ->
  init sys k uport d flags = (UB : comp (init_res K (rx_state TR TE N) TH TE TR)).
Proof.
  intros Hl Hm1 Hm2 Hm3 He Hs. pose proof (init_spec (TH := TH) (TE := TE) (TR := TR) (N := N) sys k uport d flags Hl) as Hi.
  rewrite Hm1, Hm2, Hm3 in Hi. cbn [andb negb] in Hi. rewrite orb_false_r in Hi.
  assert (src_id_ok sys = false) as Hb by (unfold src_id_ok; rewrite He; unfold src_id; cbn [app]; by rewrite Hs). by rewrite Hb in Hi.
Qed.

Lemma unclosed_source_id_is_undefined_witness : ex_init (Some $"[::1") = UB.
Proof. apply (unclosed_source_id_is_undefined _ _ _ _ _ $"::1"); vm_compute; reflexivity. Defined.

(** The calls with the largest id use memory that nobody initialised: init
    sets up the chutes of the ids up to 254, while rmr_mt_call takes ids up to
    255, as documented, so that the semaphore and the message of chute 255 are
    what malloc returned. *)
Theorem last_call_chute_not_initialised {K TH TE TR N : Type} `{Kernel K} `{Symbols TH thing} `{Symbols TE nat} `{Symbols TR river_t} `{Transport N}
    sys (k : K) uport d flags (c : uta_ctx K (rx_state TR TE N) TH TE TR) :
  length (y_chutes sys) = 256%nat -> init sys k uport d flags = Ret (Started c) ->
  rx_chutes (u_rx c) !! 255%nat = y_chutes sys !! 255%nat /\
  (forall i x, (i < 255)%nat -> rx_chutes (u_rx c) !! i = Some x -> ch_mbuf x = None /\ ch_barrier x = 0) /\
  forall malloc_bytes cfl ctx msg rx_sent ws,
    rmr_mt_call (TH := TH) (TE := TE) (N := N) malloc_bytes cfl ctx msg 255 rx_sent ws = mt_call malloc_bytes cfl ctx msg 255 None rx_sent ws.
Proof.
  intros Hl E. pose proof (init_spec (TH := TH) (TE := TE) (TR := TR) (N := N) sys k uport d flags Hl) as Hi. rewrite E in Hi.
  assert (started sys k (default DEF_COMM_PORT uport) d flags c) as [_ _ _ _ Hrx _ _ _ _].
  { destruct (_ || _); [|done]. by destruct Hi as (r & [= <-] & Hs). }
  destruct (init_rx_ok sys d flags Hl) as (rx & Erx & _ & _ & Ec). rewrite Hrx in Erx. injection Erx as <-. rewrite Ec. split; [|split; [|done]].
  - destruct (lookup_lt_is_Some_2 (y_chutes sys) 255) as [x Hx]; [lia|]. rewrite (init_chutes _ _ _ Hl Hx), Hx. by rewrite decide_False by lia.
  - intros i x Hi' Hx. destruct (lookup_lt_is_Some_2 (y_chutes sys) i) as [y Hy]; [lia|]. rewrite (init_chutes _ _ _ Hl Hy), decide_True in Hx by lia.
    by injection Hx as <-.
Qed.

Lemma last_call_chute_not_initialised_witness :
  exists c, ex_init None = Ret (Started c) /\ rx_chutes (u_rx c) !! 255%nat = Some (MkChute None 77 []).
Proof.
  assert (match ex_init None with Ret (Started c) => true | _ => false end = true) as Hx by (vm_compute; reflexivity).
  destruct (ex_init None) as [[e live|c]|] eqn:E; [discriminate Hx| |discriminate Hx]. exists c. split; [reflexivity|].
  destruct (last_call_chute_not_initialised (ex_sys None) (MkEk ∅ 3 [] [] : ek 64) (Some $"tcp:4580") 2000 0 c eq_refl E) as (Hx1 & _). exact Hx1.
Defined.

(** Closing a context twice frees the name of its seed table twice. *)
Theorem second_close_is_undefined {K U TH TE TR : Type} (c : uta_ctx K U TH TE TR) s :
  u_seed c = SeedName s -> exists c', rmr_close (Some c) = Ret (Some c') /\ u_shutdown c' = true /\ rmr_close (Some c') = UB.
Proof. intros E. unfold rmr_close. rewrite E. cbn. eexists. split; [reflexivity|]. done. Qed.

Definition ex_seeded : option (uta_ctx (ek 64) (rx_state (gmap akey river_t) (gmap akey nat) open_net) (gmap akey thing) (gmap akey nat) (gmap akey river_t)) :=
  match ex_init None with
  | Ret (Started c) => Some (MkUta (u_mctx c) (u_rt c) (u_fd2ep c) (u_send_retries c) (u_rx c) (u_zcb c) (u_rivers c) (u_river_hash c)
      (u_si c) (u_flags c) (u_rtable_ready c) (u_threads c) (SeedName $"/tmp/rt") (u_shutdown c))
  | _ => None
  end.

Lemma second_close_is_undefined_witness :
  exists c c', ex_seeded = Some c /\ rmr_close (Some c) = Ret (Some c') /\ rmr_close (Some c') = UB.
Proof.
  assert (match ex_seeded with Some c => match u_seed c with SeedName s => Some s | _ => None end | None => None end = Some $"/tmp/rt") as Hx
    by (vm_compute; reflexivity).
  destruct ex_seeded as [c|]; [|discriminate Hx]. destruct (second_close_is_undefined c $"/tmp/rt") as (c' & H1 & _ & H2).
  - destruct (u_seed c); [discriminate Hx|injection Hx as ->; reflexivity|discriminate Hx].
  - exists c, c'. split; [reflexivity|]. split; [exact H1|exact H2].
Defined.
