(* ===== verification/Si95Addr.v ===== *)
(** Addresses as text and as structures: SIaddress, SIgetaddr and SIgetname of
    src/src/rmr/si/src/si95 (siaddress.c, sigetadd.c, sigetname.c); SIgenaddr is in
    Si95.v.  A struct sockaddr is its bytes: the family (host order), the port
    (network order), and the address at offset 4, for IPv6 at offset 8. *)

From S2P Require Import Prelude Bytes Tools RouteTable Decimal Send Si95.

Definition SA_INET : Z := 2.
Definition SA_INET6 : Z := 10.
Definition AC_TODOT : Z := 0.
Definition AC_TOADDR : Z := 1.
Definition AC_TOADDR6 : Z := 2.
Definition SIZEOF_SOCKADDR : Z := 16.

(** ** Operations *)

Definition sin_family (a : list Z) : Z := le_val (slice a 0 2).
Definition sin_port (a : list Z) : Z := be_val (slice a 2 2).

(** The bytes of an address as numbers with a separator between them. *)
Fixpoint joined (sep : list Z) (l : list Z) : list Z :=
  match l with [] => [] | [b] => decimal b | b :: l' => decimal b ++ sep ++ joined sep l' end.

(** SIaddress with AC_TODOT.  Six bytes are printed for IPv6. *)
Definition SIaddress_todot (src : list Z) : comp (list Z) :=
  if zlen src <? 8 then UB
  else if sin_family src =? SA_INET6 then
    if zlen src <? 14 then UB
    else Ret (snprintf 256 ($"[" ++ joined $":" (slice src 8 6) ++ $"]:" ++ decimal (sin_port src)))
  else Ret (snprintf 256 (joined $"." (slice src 4 4) ++ $":" ++ decimal (sin_port src))).

Section addr.
Context {K U : Type} `{KernelOps K}.
Abbreviation si := (ginfo_blk K U).

(** The result is the length of what [dest] is made to point at: text or a structure. *)
Definition SIaddress (src : option (list Z)) (type : Z) : comp (Z * option (list Z)) :=
  match src with
  | None => Ret (0, None)
  | Some src =>
      if type =? AC_TODOT then s ← SIaddress_todot src; Ret (zlen s, Some s)
      else if type =? AC_TOADDR6 then Ret (SIgenaddr src IPPROTO_TCP SA_INET6 SOCK_STREAM)
      else if type =? AC_TOADDR then Ret (SIgenaddr src IPPROTO_TCP SA_INET SOCK_STREAM)
      else Ret (0, None)
  end.

(** The address of the first listen block; 256 bytes of [buf] are written. *)
Definition SIgetaddr (g : si) : comp (Z * option (list Z)) :=
  tp ← find_tp g (fun b => flag_on (tp_flags b) TPF_LISTENFD);
  match tp with
  | None => Ret (SI_ERROR, None)
  | Some i =>
      b ← deref (g_blks g !! i);
      '(n, s) ← SIaddress (tp_addr b) AC_TODOT;
      match s with Some s => Ret (SI_OK, Some (take 256 s)) | None => UB end
  end.

(** The address of a socket; an address that does not fit a struct sockaddr gives nil. *)
Definition SIgetname (k : K) (sid : Z) : comp (option (list Z)) :=
  if sid <? 0 then Ret None else
  match k_getsockname k sid with
  | Some a =>
      if negb (zlen a =? SIZEOF_SOCKADDR) then Ret None
      else '(n, s) ← SIaddress (Some a) AC_TODOT; if n <=? 0 then Ret None else Ret s
  | None => Ret None
  end.
End addr.

(** * Theorems *)

(** A match on a character that is none of those it looks for. *)
Ltac other_char := repeat match goal with |- context [match ?x with _ => _ end] => is_var x; destruct x; try done end.

Lemma strchr_found t u sep : is_cstr t -> sep ∉ t -> strchr (t ++ sep :: u) 0 sep = Some (length t).
Proof. intros. unfold strchr. rewrite drop_0. by apply (strchr_at_Some t u 0 sep). Qed.

Lemma drop_S_app {A} (t : list A) x u : drop (S (length t)) (t ++ x :: u) = u.
Proof. induction t; [done|]. cbn. by rewrite ?IHt. Qed.

Section addr_thms.
Context {K U : Type} `{KernelOps K}.

(** What getaddrinfo is asked, and what SIgenaddr makes of the answer. *)
Definition lookup_addr (host : list Z) (port : option (list Z)) (flags proto family socktype : Z) : Z * option (list Z) :=
  match k_getaddrinfo host port flags family socktype proto with Some a => (zlen a, Some a) | None => (0, None) end.

(** A host that stands before a colon. *)
Definition plain_host (h : list Z) : Prop :=
  match h with c :: _ => isspace c = false /\ c <> 91 | [] => False end /\ is_cstr h /\ 58 ∉ h.

Lemma SIgenaddr_host h p proto family ty : plain_host h ->
  SIgenaddr (h ++ [58] ++ p) proto family ty = lookup_addr h (Some p) AI_ADDRCONFIG proto family ty.
Proof.
  intros (Hh & Hc & Hn). destruct h as [|c h]; [done|]. destruct Hh as [Hs Hb].
  assert (c <> 58) as H58 by (intros ->; apply Hn; by left). unfold SIgenaddr, lookup_addr. cbn [app skip_space]. rewrite Hs.
  change (c :: (h ++ 58 :: p) ++ [0]) with ((c :: h ++ 58 :: p) ++ [0]). change (c :: h ++ 58 :: p) with ((c :: h) ++ 58 :: p).
  rewrite <-(app_assoc _ (58 :: p) [0]). cbn [app]. change (c :: h ++ 58 :: p ++ [0]) with ((c :: h) ++ 58 :: (p ++ [0])).
  rewrite (strchr_found (c :: h)) by done. change (c :: h ++ 58 :: p) with ((c :: h) ++ 58 :: p). rewrite take_app_length, drop_S_app.
  other_char.
Qed.

Lemma SIgenaddr_brackets h p proto family ty : is_cstr h -> 93 ∉ h ->
  SIgenaddr ([91] ++ h ++ [93; 58] ++ p) proto family ty = lookup_addr h (Some p) AI_ADDRCONFIG proto family ty.
Proof.
  intros Hc Hn. unfold SIgenaddr, lookup_addr. cbn [app skip_space]. change (isspace 91) with false. cbn iota.
  rewrite <-app_assoc. cbn [app]. rewrite strchr_found by done. by rewrite drop_S_app, take_app_length.
Qed.

Lemma SIgenaddr_port p proto family ty :
  SIgenaddr ([58] ++ p) proto family ty = lookup_addr [] (Some p) AI_PASSIVE proto family ty.
Proof. done. Qed.

(** A port that follows the bracket without a colon is not looked at. *)
Lemma SIgenaddr_no_colon h p proto family ty : is_cstr h -> 93 ∉ h -> match p with 58 :: _ => False | _ => True end ->
  SIgenaddr ([91] ++ h ++ [93] ++ p) proto family ty = lookup_addr h None AI_ADDRCONFIG proto family ty.
Proof.
  intros Hc Hn Hp. unfold SIgenaddr, lookup_addr. cbn [app skip_space]. change (isspace 91) with false. cbn iota.
  rewrite <-app_assoc. cbn [app]. rewrite strchr_found by done. rewrite drop_S_app, take_app_length. destruct p as [|c p]; [done|].
  other_char.
Qed.
End addr_thms.

(** ** Dotted addresses *)

Definition addr_char (c : Z) : Prop := isdigit c = true \/ c = 46.

Lemma joined_chars l : Forall is_byte l -> Forall addr_char (joined $"." l).
Proof.
  assert (forall b, is_byte b -> Forall addr_char (decimal b)) as Hd.
  { intros b [Hb _]. eapply Forall_impl; [by apply decimal_digits|]. intros c Hc. by left. }
  induction l as [|b [|b' l] IH]; intros Hf; [constructor|apply Forall_cons in Hf as [Hb _]; by apply Hd|].
  apply Forall_cons in Hf as [Hb Hf]. change (joined $"." (b :: b' :: l)) with (decimal b ++ $"." ++ joined $"." (b' :: l)).
  apply Forall_app. split; [by apply Hd|]. apply Forall_app. split; [|by apply IH]. constructor; [by right|constructor].
Qed.

Lemma addr_char_range c : addr_char c -> 46 <= c <= 57.
Proof. unfold addr_char, isdigit. intros [Hc|Hc]; lia. Qed.

Lemma dotted_plain_host s : s <> [] -> Forall addr_char s -> plain_host s.
Proof.
  intros Hne Hf. split; [|split].
  - destruct s as [|c s]; [done|]. apply Forall_cons in Hf as [Hc _]. apply addr_char_range in Hc. split; [|lia]. unfold isspace. lia.
  - eapply Forall_impl; [exact Hf|]. intros c Hc%addr_char_range. lia.
  - intros Hi. rewrite Forall_forall in Hf. apply Hf in Hi. apply addr_char_range in Hi. lia.
Qed.

Lemma joined_not_nil sep b l : is_byte b -> joined sep (b :: l) <> [].
Proof. intros [Hb _]. pose proof (decimal_not_nil b Hb). destruct l; cbn; [done|]. by destruct (decimal b). Qed.

Lemma joined_len sep l : Forall is_byte l -> (length (joined sep l) <= length l * (3 + length sep))%nat.
Proof.
  assert (forall b, is_byte b -> (length (decimal b) <= 3)%nat) as Hd by (intros b Hb; apply decimal_len; unfold is_byte in Hb; lia).
  induction l as [|b [|b' l] IH]; intros Hf; [cbn; lia|apply Forall_cons in Hf as [Hb _]; specialize (Hd b Hb); cbn; lia|].
  apply Forall_cons in Hf as [Hb Hf]. change (joined sep (b :: b' :: l)) with (decimal b ++ sep ++ joined sep (b' :: l)).
  rewrite !length_app. specialize (Hd b Hb). specialize (IH Hf). cbn [length] in *. lia.
Qed.

(** The structure of an IPv4 address. *)
Definition sockaddr4 (a : list Z) : Prop := zlen a = SIZEOF_SOCKADDR /\ Forall is_byte a /\ sin_family a = SA_INET.

#[export] Instance sockaddr4_dec a : Decision (sockaddr4 a).
Proof. unfold sockaddr4. apply _. Defined.

Lemma be_val_range l : Forall is_byte l -> 0 <= be_val l < 256 ^ Z.of_nat (length l).
Proof. intros Hf. unfold be_val. rewrite <-length_rev. apply le_val_range. by apply Forall_rev. Qed.

Lemma sin_port_range a : Forall is_byte a -> 4 <= zlen a -> 0 <= sin_port a < 65536.
Proof.
  intros Hf Hl. unfold sin_port. assert (length (slice a 2 2) = 2%nat) as Hs.
  { pose proof (zlen_slice a 2 2 ltac:(lia) ltac:(lia) ltac:(lia)). unfold zlen in *. lia. }
  pose proof (be_val_range (slice a 2 2)) as Hr. rewrite Hs in Hr. apply Hr. unfold slice. by apply Forall_take, Forall_drop.
Qed.

Lemma todot4 a : sockaddr4 a ->
  SIaddress_todot a = Ret (joined $"." (slice a 4 4) ++ [58] ++ decimal (sin_port a)) /\ plain_host (joined $"." (slice a 4 4)).
Proof.
  intros (Hl & Hb & Hf). unfold SIZEOF_SOCKADDR in Hl. assert (Forall is_byte (slice a 4 4)) as Hs by (unfold slice; by apply Forall_take, Forall_drop).
  assert (length (slice a 4 4) = 4%nat) as Hl4.
  { pose proof (zlen_slice a 4 4 ltac:(lia) ltac:(lia) ltac:(lia)). unfold zlen in *. lia. }
  split.
  - unfold SIaddress_todot. rewrite Hl, Hf. change (16 <? 8) with false. change (SA_INET =? SA_INET6) with false. cbn iota. unfold snprintf. rewrite take_ge; [reflexivity|].
    pose proof (sin_port_range a Hb ltac:(lia)). pose proof (decimal_len 5 (sin_port a) ltac:(lia) ltac:(lia)).
    pose proof (joined_len $"." _ Hs) as Hj. rewrite Hl4 in Hj. rewrite !length_app. change (length $".") with 1%nat in Hj. change (length $":") with 1%nat.
    change (Z.to_nat (256 - 1)) with 255%nat. lia.
  - apply dotted_plain_host; [|by apply joined_chars]. destruct (slice a 4 4) as [|b l]; [done|]. apply Forall_cons in Hs as [Hs _]. by apply joined_not_nil.
Qed.

(** ** Our own addresses *)

(** The host strings of an interface that SIgenaddr can tell from the port. *)
Definition splittable (fam : sa_family) (host : list Z) : Prop :=
  match fam with AF_INET6 => is_cstr host /\ 93 ∉ host | _ => plain_host host end.

(** Every address of the list comes from an interface. *)
Definition from_ifs (port : list Z) (ifs : list ifaddr) (a : option (list Z)) : Prop :=
  exists ele fam octs, ele ∈ ifs /\ ifa_addr ele = Some (fam, octs) /\ fam <> AF_OTHER /\
    a = Some (snprintf (NI_MAXHOST + 128) (with_port fam (cut_at 37 octs) port)).

Lemma ip_list_from port tif ifs l all :
  (forall ele, ele ∈ ifs -> ele ∈ all) -> Forall (from_ifs port all) l -> Forall (from_ifs port all) (foldl (ip_list_step port tif) l ifs).
Proof.
  revert l. induction ifs as [|ele ifs IH]; intros l Hin Hl; cbn [foldl]; [done|].
  apply IH; [intros e He; apply Hin; by right|]. assert (ele ∈ all) by (apply Hin; by left). unfold ip_list_step.
  repeat case_match; try done; apply Forall_app; (split; [done|]); apply Forall_singleton; eexists _, _, _; (split; [done|]); (split; [done|]); done.
Qed.

Lemma with_port_split {K : Type} `{KernelOps K} fam host port proto family ty :
  fam <> AF_OTHER -> splittable fam host -> zlen host + zlen port <= 1149 ->
  SIgenaddr (snprintf (NI_MAXHOST + 128) (with_port fam host port)) proto family ty = lookup_addr host (Some port) AI_ADDRCONFIG proto family ty.
Proof.
  intros Hf Hs Hl. unfold snprintf. change (Z.to_nat (NI_MAXHOST + 128 - 1)) with 1152%nat.
  rewrite take_ge; [|unfold zlen in Hl; destruct fam; cbn [with_port]; rewrite !length_app; cbn; lia].
  destruct fam; cbn [with_port splittable] in *; [by apply SIgenaddr_host| |done]. destruct Hs. by apply SIgenaddr_brackets.
Qed.

(** * Properties *)

(** The text of an IPv4 peer names the peer: SIaddress prints the structure
    as address and port in decimal, and SIgenaddr, given the text, asks the system
    for exactly that host and that port, so that converting back gives the
    structure (getaddrinfo is taken to convert numeric addresses). *)
Theorem peer_address_text_roundtrip {K : Type} `{KernelOps K} a :
  sockaddr4 a ->
  k_getaddrinfo (joined $"." (slice a 4 4)) (Some (decimal (sin_port a))) AI_ADDRCONFIG SA_INET SOCK_STREAM IPPROTO_TCP = Some a ->
  exists s, SIaddress (Some a) AC_TODOT = Ret (zlen s, Some s) /\
    s = joined $"." (slice a 4 4) ++ $":" ++ decimal (sin_port a) /\ SIaddress (Some s) AC_TOADDR = Ret (SIZEOF_SOCKADDR, Some a).
Proof.
  intros Ha Hk. destruct (todot4 a Ha) as [E Hp]. eexists. split; [|split].
  - unfold SIaddress. change (AC_TODOT =? AC_TODOT) with true. cbn iota. rewrite E. reflexivity.
  - reflexivity.
  - unfold SIaddress. change (AC_TOADDR =? AC_TODOT) with false. change (AC_TOADDR =? AC_TOADDR6) with false. change (AC_TOADDR =? AC_TOADDR) with true.
    cbn iota. rewrite SIgenaddr_host by done. unfold lookup_addr. rewrite Hk. destruct Ha as (-> & _). done.
Qed.

Definition ex_addr : list Z := [2; 0; 17; 208; 10; 0; 0; 7; 0; 0; 0; 0; 0; 0; 0; 0].

(** A kernel that knows one address. *)
Definition one_addr : KernelOps unit := {|
  k_getaddrinfo h p _ _ _ _ := if bool_decide (h = $"10.0.0.7") && bool_decide (p = Some $"4560") then Some ex_addr else None;
  k_socket k := (-1, k); k_bind k _ _ := (-1, k); k_listen k _ := (-1, k); k_connect k _ _ := (-1, k); k_getsockname _ _ := None;
  k_accept k _ := (-1, [], k); k_close k _ := k; k_writable k _ := (0, false, k); k_select k _ _ _ := (0, 0, (∅, ∅, ∅), k);
  k_send k _ _ := (-1, 0, k); k_recv k _ _ := (-1, [], k); k_limit := 0; k_open _ _ := false; k_wire _ _ := []; k_read _ _ := []
|}.

Lemma peer_address_text_roundtrip_witness :
  exists s, @SIaddress unit one_addr (Some ex_addr) AC_TODOT = Ret (zlen s, Some s) /\
    s = $"10.0.0.7:4560" /\ @SIaddress unit one_addr (Some s) AC_TOADDR = Ret (SIZEOF_SOCKADDR, Some ex_addr).
Proof.
  apply (@peer_address_text_roundtrip unit one_addr ex_addr).
  - apply (bool_decide_unpack _). vm_compute. exact I.
  - vm_compute. reflexivity.
Defined.

(** Every address that mk_ip_list gives is split by SIgenaddr into the host of the
    interface it came from, without a zone, and our port. *)
Theorem own_addresses_split {K : Type} `{KernelOps K} port ifs a proto family ty :
  Some a ∈ addrs (mk_ip_list port None ifs) ->
  exists ele fam octs, ele ∈ ifs /\ ifa_addr ele = Some (fam, octs) /\
    (splittable fam (cut_at 37 octs) -> zlen (cut_at 37 octs) + zlen port <= 1149 ->
     SIgenaddr a proto family ty = lookup_addr (cut_at 37 octs) (Some port) AI_ADDRCONFIG proto family ty).
Proof.
  intros Hi. assert (Forall (from_ifs port ifs) (foldl (ip_list_step port None) [] ifs)) as Hf by (apply ip_list_from; [done|constructor]).
  rewrite Forall_forall in Hf. destruct (Hf _ Hi) as (ele & fam & octs & He & Ha & Ho & [= ->]). exists ele, fam, octs.
  split; [done|]. split; [done|]. intros. by apply with_port_split.
Qed.

Lemma own_addresses_split_witness :
  let ifs := [mk_ifaddr $"eth0" (Some (AF_INET, $"10.0.0.7"))] in
  exists ele fam octs, ele ∈ ifs /\ ifa_addr ele = Some (fam, octs) /\
    (splittable fam (cut_at 37 octs) -> zlen (cut_at 37 octs) + zlen $"4560" <= 1149 ->
     @SIgenaddr unit one_addr $"10.0.0.7:4560" 6 2 1 = @lookup_addr unit one_addr (cut_at 37 octs) (Some $"4560") AI_ADDRCONFIG 6 2 1).
Proof.
  apply (@own_addresses_split unit one_addr). vm_compute. apply list_elem_of_here.
Defined.

(** The text of an IPv6 peer does not name it: only the first six bytes of the
    sixteen are printed. *)
Theorem ipv6_text_is_ambiguous a a' :
  sin_family a = SA_INET6 -> sin_family a' = SA_INET6 -> zlen a = 28 -> zlen a' = 28 ->
  slice a 8 6 = slice a' 8 6 -> sin_port a = sin_port a' -> SIaddress_todot a = SIaddress_todot a'.
Proof. intros Hf Hf' Hl Hl' Hs Hp. unfold SIaddress_todot. by rewrite Hf, Hf', Hl, Hl', Hs, Hp. Qed.

Lemma ipv6_text_is_ambiguous_witness :
  let a n := [10; 0; 17; 208; 0; 0; 0; 0; 32; 1; 13; 184; 0; 0; 0; n; 0; 0; 0; 0; 0; 0; 0; 1; 0; 0; 0; 0] in
  SIaddress_todot (a 1) = SIaddress_todot (a 2).
Proof. apply ipv6_text_is_ambiguous; reflexivity. Defined.
