(* ===== verification/Si95Poll.v ===== *)
(** The functions of the socket layer that RMR does not use: SIpoll (sipoll.c)
    and SIrcv (sircv.c) of src/src/rmr/si/src/si95; and what a shutdown
    (sishutdown.c) leaves.

    recvfrom and the keyboard are not needed elsewhere: [recvfrom] gives the
    result, the data, the address of the sender and the kernel, [stdin] a line. *)

From S2P Require Import Prelude Bytes Tools RouteTable Decimal Send Si95 Si95Inv Si95Addr Si95Spec.

Definition SI_CB_RDATA : Z := 1.
Definition SI_CB_KDATA : Z := 3.

(** ** Operations *)

Section poll.
Context {K U : Type} `{KernelOps K}.
Variable recvfrom : K -> Z -> Z -> Z * list Z * list Z * K.
Variable stdin : K -> list Z * K.
Variable todot : list Z -> list Z.
Abbreviation si := (ginfo_blk K U).
Implicit Types (g : si) (u : U).

(** A read event on the session or listen block [i]. *)
Definition poll_read g u (i : nat) : comp (si * U) :=
  b ← deref (g_blks g !! i);
  let fd := tp_fd b in
  if flag_on (tp_flags b) TPF_LISTENFD then '(_, g, u) ← SInewsession todot g u i; Ret (g, u)
  else if tp_type b =? SOCK_DGRAM then
    let '(st, data, addr, k) := recvfrom (g_k g) fd MAX_RBUF in
    let g := set_k g k in
    if (0 <=? st) && negb (flag_on (tp_flags b) TPF_DRAIN) then
      match g_cbtab g !! SI_CB_RDATA with
      | None => Ret (g, u)
      | Some _ => a ← SIaddress_todot addr; '(_, g, u) ← drive g u SI_CB_RDATA (CbRaw data a); Ret (g, u)
      end
    else Ret (g, u)
  else
    let '(st, data, k) := k_recv (g_k g) fd MAX_RBUF in
    let g := set_k g k in
    if (0 <? st) && negb (flag_on (tp_flags b) TPF_DRAIN) then
      '(_, g, u) ← drive g u SI_CB_CDATA (CbData fd data); Ret (g, u)
    else
      '(_, g, u) ← drive g u SI_CB_DISC (CbDisc fd);
      g ← SIterm g i; Ret (g, u).

(** What SIpoll does for one block.  There is no test for a descriptor that was
    closed. *)
Definition poll_one g u (i : nat) : comp (si * U) :=
  b ← deref (g_blks g !! i);
  g ← (match tp_squeue b with
       | [] => Ret g
       | _ => w ← FD_ISSET (tp_fd b) (g_writefds g); if (w : bool) then SIsend g i else Ret g
       end);
  b ← deref (g_blks g !! i);
  x ← FD_ISSET (tp_fd b) (g_execpfds g);
  if (x : bool) then Ret (g, u) else
  r ← FD_ISSET (tp_fd b) (g_readfds g);
  if (r : bool) then poll_read g u i else Ret (g, u).

Fixpoint poll_list (fuel : nat) g u (cur : option nat) : comp (si * U) :=
  match cur with
  | None => Ret (g, u)
  | Some i =>
      match fuel with
      | O => UB
      | S fuel' => b ← deref (g_blks g !! i); '(g, u) ← poll_one g u i; poll_list fuel' g u (tp_next b)
      end
  end.

Definition SIpoll g u : comp (Z * si * U) :=
  if flag_on (g_flags g) GIF_SHUTDOWN then Ret (SI_ERROR, g, u) else
  g ← SIbldpoll g;
  let '(pstat, errno, (r, w, x), k) :=
    if 0 <? g_fdcount g then k_select (g_k g) (g_readfds g) (g_writefds g) (g_execpfds g)
    else (0, 0, (g_readfds g, g_writefds g, g_execpfds g), g_k g) in
  let g := set_poll (set_k g k) r w x (g_fdcount g) in
  let g := if (pstat <? 0) && negb (errno =? EINTR) then or_gflags (set_poll g r w x 0) GIF_SHUTDOWN else g in
  '(g, u) ←
    (if (0 <? pstat) && negb (flag_on (g_flags g) GIF_SHUTDOWN) then
       '(g, u) ← (if bool_decide (0 ∈ g_readfds g) then
                    let '(line, k) := stdin (g_k g) in
                    '(_, g, u) ← drive (set_k g k) u SI_CB_KDATA (CbKbd line); Ret (g, u)
                  else Ret (g, u));
       poll_list (size (g_blks g)) g u (g_tplist g)
     else Ret (g, u));
  if flag_on (g_flags g) GIF_SHUTDOWN then g ← SIshutdown g; Ret (SI_ERROR, g, u) else Ret (SI_OK, g, u).

(** A receive from one session.  The result is the status, the data, the text of
    the sender's address for a datagram, and the context. *)
Definition rcv_from g (i : nat) (fd buflen : Z) (want : bool) : comp (Z * list Z * option (list Z) * si) :=
  b ← deref (g_blks g !! i);
  if tp_type b =? SOCK_DGRAM then
    let '(st, data, addr, k) := recvfrom (g_k g) fd buflen in
    let g := set_k g k in
    a ← (if want then s ← SIaddress_todot addr; Ret (Some (take 64 s)) else Ret None);
    if st <? 0 then g ← SIterm g i; Ret (st, data, a, g) else Ret (st, data, a, g)
  else
    let '(st, data, k) := k_recv (g_k g) fd buflen in
    let g := set_k g k in
    if st <? 0 then g ← SIterm g i; Ret (st, data, None, g) else Ret (st, data, None, g).

Definition SIrcv g (sid buflen : Z) (want : bool) : comp (Z * list Z * option (list Z) * si) :=
  tp ← find_tp g (fun b => tp_fd b =? sid);
  match tp with
  | None => Ret (SI_ERROR, [], None, g)
  | Some i =>
      '(st, data, a, g) ←
        (if negb (flag_on (g_flags g) GIF_SHUTDOWN) then
           s ← FD_SET sid ∅;
           let '(sel, _, (r, _, x), k) := k_select (g_k g) s ∅ s in
           let g := set_k g k in
           if sel <? 0 then Ret (SI_ERROR, [], None, or_gflags g GIF_SHUTDOWN)
           else if bool_decide (sid ∈ x) then g ← SIterm g i; Ret (SI_ERROR, [], None, g)
           else if bool_decide (sid ∈ r) then rcv_from g i sid buflen want
           else Ret (0, [], None, g)
         else Ret (SI_ERROR, [], None, g));
      match g_tplist g with
      | Some _ => if flag_on (g_flags g) GIF_SHUTDOWN then g ← SIshutdown g; Ret (SI_ERROR, data, a, g) else Ret (st, data, a, g)
      | None => Ret (st, data, a, g)
      end
  end.
End poll.

(** * Theorems *)

Section shut.
Context {K U : Type} `{Kernel K}.
Abbreviation si := (ginfo_blk K U).
Implicit Types (g : si).

(** What a shutdown has done to the first blocks of the list. *)
Record shut (l : list nat) g (l0 : list nat) g' : Prop := {
  sh_ok : si_ok l g';
  sh_flags : g_flags g' = g_flags g;
  sh_gone : forall i b, i ∈ l0 -> g_blks g' !! i = Some b -> tp_fd b = -1;
  sh_rest : forall i b, i ∈ l -> g_blks g !! i = Some b -> i ∉ l0 -> exists b', g_blks g' !! i = Some b' /\ tp_fd b' = tp_fd b;
  sh_closed : forall i b, i ∈ l0 -> g_blks g !! i = Some b -> 0 <= tp_fd b -> k_open (g_k g') (tp_fd b) = false
}.

Lemma close_stays (k : K) fd fd' : k_open k fd = false -> k_open (k_close k fd') fd = false.
Proof.
  intros Hc. destruct (k_close_law k fd') as [Hx Ho]. destruct (decide (fd = fd')) as [->|Hne]; [done|]. by destruct (Ho fd Hne) as [-> _].
Qed.

Lemma shut_one l g l0 g' i b fl :
  si_ok l g -> shut l g l0 g' -> i ∈ l -> i ∉ l0 -> g_blks g' !! i = Some b -> fl = 0 \/ fl = TPF_ABORT ->
  exists g'', (g1 ← upd_blk g' i (fun b => or_flags b (Z.lor TPF_UNBIND fl)); SIterm g1 i) = Ret g'' /\ shut l g (l0 ++ [i]) g'' /\
    exists b'', g_blks g'' !! i = Some b'' /\ tp_next b'' = tp_next b.
Proof.
  intros Hok [Hok' Hfl Hgone Hrest Hclosed] Hi Hni Hb Hf. unfold upd_blk at 1. rewrite Hb. cbn [deref mbind comp_bind].
  set (b1 := or_flags b _). set (g1 := set_blks g' (<[i := b1]> (g_blks g'))).
  assert (g_blks g1 !! i = Some b1) as Hb1 by (cbn; by rewrite lookup_insert_eq). rewrite (SIterm_eq g1 i b1 Hb1).
  assert (si_ok l g1) as Hok1.
  { apply (si_ok_upd l g' i b b1); try done; unfold b1, or_flags; cbn [tp_flags]; rewrite flag_lor; destruct Hf as [->| ->]; try (by destruct (flag_on (tp_flags b) _)). }
  eexists. split; [done|]. assert (forall j x, g_blks (close_blk g1 i b1 (termed b1)) !! j = Some x -> (j = i /\ x = termed b1) \/ (j <> i /\ g_blks g' !! j = Some x)) as Hx.
  { intros j x. cbn. destruct (decide (i = j)) as [<-|Hne]; [rewrite lookup_insert_eq; intros [= <-]; by left|].
    rewrite !lookup_insert_ne by done. right. split; [congruence|done]. }
  split; [|exists (termed b1); split; [cbn; by rewrite lookup_insert_eq|done]].
  split.
  - by apply SIterm_ok.
  - done.
  - intros j x Hj [[-> ->]|[Hne Hjx]]%Hx; [done|]. apply elem_of_app in Hj as [Hj|Hj%list_elem_of_singleton]; [by eapply Hgone|congruence].
  - intros j x Hj Hjx Hnj. rewrite elem_of_app, list_elem_of_singleton in Hnj. destruct (Hrest j x Hj Hjx) as (x' & Hx' & E); [tauto|].
    exists x'. split; [|done]. cbn. rewrite !lookup_insert_ne by (intros ->; tauto). done.
  - intros j x Hj Hjx Hf0. apply elem_of_app in Hj as [Hj|Hj%list_elem_of_singleton].
    + specialize (Hclosed j x Hj Hjx Hf0). cbn. destruct (0 <=? tp_fd b); [by apply close_stays|done].
    + subst j. destruct (Hrest i x Hi Hjx Hni) as (x' & Hx' & E). simplify_eq. cbn. rewrite E. destruct (Z.leb_spec 0 (tp_fd x)); [|lia].
      by apply k_close_law.
Qed.

Lemma shut_all_spec n l g g' q fl : (length l - q <= n)%nat -> si_ok l g -> shut l g (take q l) g' -> fl = 0 \/ fl = TPF_ABORT ->
  exists g'', shut_all n g' fl (l !! q) = Ret g'' /\ shut l g l g''.
Proof.
  intros Hn Hok Hs Hf. revert q g' Hn Hs. induction n as [|n IH]; intros q g' Hn Hs.
  - assert (l !! q = None) as -> by (apply lookup_ge_None; lia). exists g'. split; [done|]. by rewrite take_ge in Hs by lia.
  - destruct (l !! q) as [i|] eqn:Eq; [|exists g'; split; [done|]; by rewrite take_ge in Hs by (by apply lookup_ge_None)].
    pose proof (sh_ok _ _ _ _ Hs) as Hok'. destruct (so_list _ _ Hok') as (Hnd & _ & Hl). destruct (Hl q i Eq) as (b & Hb & Hnx & _).
    assert (i ∈ l) as Hi by (by eapply list_elem_of_lookup_2).
    assert (i ∉ take q l) as Hni. { intros (j & Hj & Hlt)%elem_of_take. pose proof (NoDup_lookup _ _ _ _ Hnd Hj Eq). lia. }
    destruct (shut_one l g (take q l) g' i b fl) as (g'' & E & Hs' & b'' & Hb'' & En); [done..|].
    cbn [shut_all]. destruct (upd_blk g' i _) as [g1|]; [|done]. cbn [mbind comp_bind] in *. rewrite E. cbn [mbind comp_bind]. rewrite Hb''. cbn [deref mbind comp_bind].
    rewrite En, Hnx. rewrite <-(take_S_r _ _ _ Eq) in Hs'. apply IH; [|done]. apply lookup_lt_Some in Eq. lia.
Qed.

Lemma sishutdown_spec l g fl : si_ok l g -> fl = 0 \/ fl = TPF_ABORT ->
  exists g', sishutdown g fl = Ret g' /\ si_ok l g' /\ flag_on (g_flags g') GIF_SHUTDOWN = true /\
    (forall i b, i ∈ l -> g_blks g' !! i = Some b -> tp_fd b = -1) /\
    (forall i b, i ∈ l -> g_blks g !! i = Some b -> 0 <= tp_fd b -> k_open (g_k g') (tp_fd b) = false).
Proof.
  intros Hok Hf. unfold sishutdown. set (g0 := or_gflags g GIF_SHUTDOWN). assert (si_ok l g0) as Hok0 by by eapply si_ok_same.
  pose proof (so_list l g Hok) as Hd. pose proof Hd as (_ & -> & _).
  destruct (shut_all_spec (size (g_blks g)) l g0 g0 0 fl) as (g' & E & [H1 H2 H3 _ H5]); [pose proof (dlist_size _ _ _ Hd); lia|done| |done|].
  - rewrite take_0. split; [done|done|by intros i b Hi%not_elem_of_nil|intros i b Hi Hb _; by exists b|by intros i b Hi%not_elem_of_nil].
  - exists g'. split; [done|]. split; [done|]. split; [|done]. rewrite H2. cbn. rewrite flag_lor. apply orb_true_r.
Qed.
End shut.

(** * Properties *)

(** C38.  A shutdown ends: it closes the descriptor of every block on the list,
    and afterwards sends are refused for every descriptor and the receive loop and
    SIpoll return an error at once, without any system call. *)
Theorem shutdown_closes_everything {K U : Type} `{Kernel K} l (g : ginfo_blk K U) recvfrom stdin todot fuel u :
  si_ok l g -> exists g', SIshutdown g = Ret g' /\ si_ok l g' /\
    (forall i b, i ∈ l -> g_blks g !! i = Some b -> 0 <= tp_fd b -> k_open (g_k g') (tp_fd b) = false) /\
    (forall fd data, SIsendt g' fd data = Ret (SI_ERROR, EBADFD, g')) /\
    SIwait todot fuel g' u = Ret (Some (SI_ERROR, g', u)) /\ SIpoll recvfrom stdin todot g' u = Ret (SI_ERROR, g', u).
Proof.
  intros Hok. destruct (sishutdown_spec l g 0 Hok) as (g' & E & Hok' & Hfl & Hgone & Hclosed); [by left|].
  exists g'. split; [done|]. split; [done|]. split; [done|]. split; [|unfold SIwait, SIpoll; by rewrite Hfl].
  intros fd data. unfold SIsendt. destruct (Z.ltb_spec fd 0); [done|]. destruct (tp_of_fd_spec l g' fd Hok') as (r & -> & Hr). cbn [mbind comp_bind].
  destruct r as [i|]; [|done]. destruct Hr as (Hi & b & Hb & Ef). rewrite Hb. cbn [deref mbind comp_bind]. by rewrite (Hgone i b Hi Hb).
Qed.

Lemma shutdown_closes_everything_witness :
  exists g', SIshutdown ex_g1 = Ret g' /\ k_open (g_k g' : ek 64) 4 = false /\ SIsendt g' 4 $"data" = Ret (SI_ERROR, EBADFD, g').
Proof.
  destruct (shutdown_closes_everything [1%nat; 0%nat] ex_g1 (fun k _ _ => (-1, [], [], k)) (fun k => ([], k)) (fun a => a) 0 [] ex_g1_ok)
    as (g' & E & _ & Hc & Hs & _).
  exists g'. split; [exact E|]. split; [|apply Hs].
  destruct (g_blks ex_g1 !! 1%nat) as [b|] eqn:Hb; [|vm_compute in Hb; discriminate Hb].
  assert (tp_fd <$> (g_blks ex_g1 !! 1%nat) = Some 4) as Hf by (vm_compute; reflexivity). rewrite Hb in Hf. injection Hf as Hf.
  rewrite <-Hf. apply (Hc 1%nat b); [apply list_elem_of_here|exact Hb|rewrite Hf; discriminate].
Defined.

(** SIrcv on a session that is read: at most [buflen] bytes, which are the next
    bytes of the stream; an error closes the session. *)
Theorem SIrcv_reads {K U : Type} `{Kernel K} l (g : ginfo_blk K U) recvfrom sid buflen want i b k r w x er :
  si_ok l g -> find_tp g (fun b => tp_fd b =? sid) = Ret (Some i) -> g_blks g !! i = Some b -> tp_type b <> SOCK_DGRAM ->
  flag_on (g_flags g) GIF_SHUTDOWN = false -> 0 <= sid < FD_SETSIZE -> 0 <= buflen ->
  k_select (g_k g) {[sid]} ∅ {[sid]} = (1, er, (r, w, x), k) -> sid ∈ r -> sid ∉ x ->
  exists st data g', SIrcv recvfrom g sid buflen want = Ret (st, data, None, g') /\ si_ok l g' /\ st <= buflen /\ zlen data = Z.max 0 st /\
    (0 <= st -> reads (g_k g') sid = reads (g_k g) sid ++ data) /\ (st < 0 -> k_open (g_k g') sid = false).
Proof.
  intros Hok Hf Hb Hty Hsh Hsid Hbl Hsel Hr Hx. pose proof Hok as Hok0. destruct (find_tp_spec l g (fun b => tp_fd b =? sid) Hok) as (ri & Ef & Hi).
  rewrite Hf in Ef. injection Ef as <-. destruct Hi as (Hi & b' & Hb' & Efd). simplify_eq. apply Z.eqb_eq in Efd.
  unfold SIrcv. rewrite Hf. cbn [mbind comp_bind]. rewrite Hsh. cbn [negb]. unfold FD_SET.
  destruct (Z.leb_spec 0 sid), (Z.ltb_spec sid FD_SETSIZE); try lia. cbn [andb mbind comp_bind]. rewrite union_empty_r_L, Hsel.
  change (1 <? 0) with false. cbn iota. rewrite bool_decide_eq_false_2, bool_decide_eq_true_2 by done.
  destruct (k_select_law _ _ _ _ _ _ _ _ Hsel) as [Hkeep _]. unfold rcv_from. cbn [g_blks set_k upd_g]. rewrite Hb. cbn [deref mbind comp_bind].
  destruct (Z.eqb_spec (tp_type b) SOCK_DGRAM); [done|]. set (g1 := set_k g k).
  assert (si_ok l g1) as Hok1 by (apply si_ok_k; [done|]; intros fd Ho; destruct (Hkeep fd) as [-> _]; done).
  destruct (k_recv (g_k g1) sid buflen) as [[st data] k2] eqn:Er. apply k_recv_law in Er as (Hle & Hz & Ho & _ & Hrd & Hoth).
  destruct (so_live l g1 Hok1 i b Hi Hb) as [Hopen _]; [lia|]. rewrite Efd in Hopen.
  set (g2 := set_k g1 k2). assert (si_ok l g2) as Hok2.
  { apply si_ok_k; [done|]. intros fd Hfd. destruct (decide (fd = sid)) as [->|Hne]; [by rewrite Ho|]. by destruct (Hoth fd Hne) as [-> _]. }
  assert (g_tplist g2 <> None) as Hne by (intros E; destruct (so_list l g Hok) as (_ & Eh & _); change (g_tplist g = None) in E; rewrite E in Eh; by destruct l; [apply elem_of_nil in Hi|]).
  destruct (Z.ltb_spec st 0).
  - rewrite (SIterm_eq g2 i b Hb). cbn [mbind comp_bind]. assert (si_ok l (close_blk g2 i b (termed b))) as Hok3 by (by apply SIterm_ok).
    change (g_tplist (close_blk g2 i b (termed b))) with (g_tplist g2). change (g_flags (close_blk g2 i b (termed b))) with (g_flags g). rewrite Hsh.
    exists st, data, (close_blk g2 i b (termed b)). split; [by destruct (g_tplist g2)|]. split; [done|]. split; [lia|]. split; [done|]. split; [lia|].
    intros _. cbn. rewrite Efd. destruct (Z.leb_spec 0 sid); [|lia]. by apply k_close_law.
  - cbn [mbind comp_bind]. change (g_flags g2) with (g_flags g). rewrite Hsh. exists st, data, g2. split; [by destruct (g_tplist g2)|]. split; [done|]. split; [lia|]. split; [done|].
    split; [|lia]. intros _. change (reads k2 sid = reads (g_k g) sid ++ data). transitivity (reads k sid ++ data).
    + unfold reads, view. rewrite Ho. change (g_k g1) with k in *. by rewrite Hopen, Hrd.
    + f_equal. unfold reads. by rewrite (keeps_view _ _ _ Hkeep).
Qed.

(** The session of the example with data to be read. *)
Definition ex_ready : ek 64 := MkEk (ek_fds (g_k ex_g1)) (ek_next (g_k ex_g1)) [[4]] [$"hello"].

Lemma SIrcv_reads_witness :
  exists st data g', SIrcv (fun k _ _ => (-1, [], [], k)) (set_k ex_g1 ex_ready) 4 100 false = Ret (st, data, None, g') /\
    st <= 100 /\ (0 <= st -> reads (g_k g' : ek 64) 4 = data).
Proof.
  destruct (g_blks ex_g1 !! 1%nat) as [b|] eqn:Hb; [|vm_compute in Hb; discriminate Hb].
  assert (tp_type <$> (g_blks ex_g1 !! 1%nat) = Some 1) as Ht by (vm_compute; reflexivity). rewrite Hb in Ht. injection Ht as Ht.
  destruct (k_select (K := ek 64) ex_ready {[4]} ∅ {[4]}) as [[[sel er] [[r w] x]] k] eqn:E.
  assert ((sel, bool_decide (4 ∈ r), bool_decide (4 ∈ x)) = (1, true, false)) as Hs.
  { assert (let '(s, _, (r, _, x), _) := k_select (K := ek 64) ex_ready {[4]} ∅ {[4]} in (s, bool_decide (4 ∈ r), bool_decide (4 ∈ x)) = (1, true, false)) as Hv
      by (vm_compute; reflexivity). rewrite E in Hv. exact Hv. }
  injection Hs as Hs1 Hs2 Hs3. apply bool_decide_eq_true in Hs2. apply bool_decide_eq_false in Hs3. rewrite Hs1 in E.
  destruct (SIrcv_reads [1%nat; 0%nat] (set_k ex_g1 ex_ready) (fun k _ _ => (-1, [], [], k)) 4 100 false 1%nat b k r w x er)
    as (st & data & g' & Er & _ & Hle & _ & Hr & _).
  - apply si_ok_k; [apply ex_g1_ok|]. intros fd Ho. exact Ho.
  - vm_compute. reflexivity.
  - exact Hb.
  - rewrite Ht. discriminate.
  - vm_compute. reflexivity.
  - split; vm_compute; [discriminate|reflexivity].
  - lia.
  - exact E.
  - exact Hs2.
  - exact Hs3.
  - exists st, data, g'. split; [exact Er|]. split; [exact Hle|]. intros H0. rewrite (Hr H0). reflexivity.
Defined.
