(* ===== verification/Logging.v ===== *)
(** Log messages: src/src/rmr/common/src/logging.c, the announcement at the start
    of init in src/src/rmr/si/src/rmr_si.c, uta_dump_env of
    src/src/rmr/common/src/tools_static.c and the file with the verbose level of the
    collector (refresh_vlevel of src/src/rmr/common/src/rtc_static.c).

    The text of a message is an argument as far as its format belongs to the
    caller; a line is what is written to standard error.  The
    environment and the clock, one reading for each line, are arguments. *)

From stdpp Require Import pretty.
From S2P Require Import Prelude Bytes Symtab SymIface Tools Mbuf Endpoint RouteTable Decimal.

Definition RMR_VL_DEBUG : Z := 5.
Definition RMR_VL_INFO : Z := 4.
Definition RMR_VL_WARN : Z := 3.
Definition RMR_VL_ERR : Z := 2.
Definition RMR_VL_CRIT : Z := 1.
Definition RMR_VL_OFF : Z := 0.

(** The statics of logging.c, and the lines written. *)
Record log_t := MkLog {
  lg_initialised : bool;
  lg_vlevel : Z;
  lg_hrlogging : Z;
  lg_pid : Z;
  lg_situations : list (option (list Z));
  lg_out : list (list Z)
}.

(** RMR_LOG_HR, RMR_LOG_VLEVEL, getpid and the clock (seconds, nanoseconds). *)
Record log_env := MkLogEnv {
  le_hr : option (list Z);
  le_vlevel : option (list Z);
  le_pid : Z;
  le_clock : nat -> option (Z * Z)
}.

Definition log_statics : log_t := MkLog false RMR_VL_ERR 1 0 (replicate 6 None) [].

Section logging.
Variable env : log_env.

Definition mstime (now : option (Z * Z)) : Z :=
  match now with None => 0 | Some (sec, nsec) => i64 (i64 (sec * 1000) + nsec ÷ 1000000) end.

Definition set_level (lg : log_t) (v : Z) : log_t :=
  MkLog (lg_initialised lg) v (lg_hrlogging lg) (lg_pid lg) (lg_situations lg) (lg_out lg).

Definition rmr_vlog_init (lg : log_t) : log_t :=
  let hr := match le_hr env with Some d => atoi d | None => lg_hrlogging lg end in
  let vlevel :=
    match le_vlevel env with
    | Some d => let v := atoi d in if v <? -1 then -1 else if RMR_VL_DEBUG <? v then RMR_VL_DEBUG else v
    | None => lg_vlevel lg
    end in
  MkLog true vlevel hr (le_pid env) [lg_situations lg !!! 0%nat; Some $"CRIT"; Some $"ERR"; Some $"WARN"; Some $"INFO"; Some $"DBUG"] (lg_out lg).

Definition rmr_set_vlevel (lg : log_t) (new_level : Z) : log_t :=
  if 0 <=? new_level then set_level lg new_level else lg.

Definition add_line (lg : log_t) (line : list Z) : log_t :=
  MkLog (lg_initialised lg) (lg_vlevel lg) (lg_hrlogging lg) (lg_pid lg) (lg_situations lg) (lg_out lg ++ [line]).

Definition cap_level (write_level : Z) : Z :=
  if (RMR_VL_DEBUG <? write_level) || (write_level <? 0) then RMR_VL_DEBUG else write_level.

(** The header, before it is limited to the buffer. *)
Definition log_header (lg : log_t) (write_level : Z) : comp (list Z) :=
  sit ← deref (mjoin (lg_situations lg !! Z.to_nat write_level));
  Ret (decimal (mstime (le_clock env (length (lg_out lg)))) ++ $" " ++ decimal (lg_pid lg) ++ $"/RMR [" ++ sit ++ $"] ").

(** What is in the message buffer of 4096 bytes (a header always fits, see
    [header_len]). *)
Definition log_line (hdr text : list Z) : list Z := snprintf 4096 hdr ++ snprintf (4096 - (zlen hdr + 2)) text.

Definition rmr_vlog (lg : log_t) (write_level : Z) (text : list Z) : comp log_t :=
  if lg_vlevel lg <? write_level then Ret lg
  else
    let lg := if lg_initialised lg then lg else rmr_vlog_init lg in
    let write_level := cap_level write_level in
    hdr ← log_header lg write_level;
    if 4096 - 1024 <? zlen hdr then Ret lg
    else Ret (add_line lg (log_line hdr text)).

Definition rmr_vlog_force (lg : log_t) (write_level : Z) (text : list Z) : comp log_t :=
  let lg := if lg_initialised lg then lg else rmr_vlog_init lg in
  if lg_vlevel lg <=? 0 then Ret lg
  else
    let write_level := cap_level write_level in
    hdr ← log_header lg write_level;
    Ret (add_line lg (log_line hdr text)).

Fixpoint vlog_all (lg : log_t) (write_level : Z) (texts : list (list Z)) : comp log_t :=
  match texts with [] => Ret lg | t :: ts => lg ← rmr_vlog lg write_level t; vlog_all lg write_level ts end.

Definition dumped_names : list (list Z) :=
  [ $"RMR_BIND_IF"; $"RMR_RTG_SVC"; $"RMR_RTG_SVC"; $"RMR_SEED_RT"; $"RMR_SEED_MEMAP"; $"RMR_RTG_ISRAW"; $"RMR_VCTL_FILE";
    $"RMR_SRC_NAMEONLY"; $"RMR_WARNINGS"; $"RMR_SRC_ID"; $"RMR_HR_LOG"; $"RMR_LOG_VLEVEL"; $"RMR_CTL_PORT"; $"RMR_RTREQ_FREQ" ].

Definition uta_dump_env (getenv : list Z -> option (list Z)) (lg : log_t) : comp log_t :=
  vlog_all lg RMR_VL_INFO
    ((fun n => match getenv n with
               | Some token => $"dump_env: " ++ n ++ $" = '" ++ token ++ $"'" ++ [10]
               | None => $"dump_env: " ++ n ++ $" = <unset>" ++ [10]
               end) <$> dumped_names).

(** The start of init: the version is announced once per process. *)
Definition init_announce (getenv : list Z -> option (list Z)) (announced : bool) (version : list Z) (lg : log_t) : comp (bool * log_t) :=
  let lg := rmr_vlog_init lg in
  let old_vlevel := lg_vlevel lg in
  if announced then Ret (announced, lg)
  else
    let lg := rmr_set_vlevel lg RMR_VL_INFO in
    lg ← rmr_vlog lg RMR_VL_INFO version;
    let lg := rmr_set_vlevel lg old_vlevel in
    lg ← uta_dump_env getenv lg;
    Ret (true, lg).
End logging.

(** refresh_vlevel: the descriptor stays open between calls; [opens] is whether the
    file can be opened, [contents] what a read at its start gives. *)
Definition refresh_vlevel (vfd : bool) (close_file opens : bool) (contents : option (list Z)) : Z * bool :=
  if close_file then (0, false)
  else
    let vfd := vfd || opens in
    if negb vfd then (0, false)
    else match contents with
         | Some ((_ :: _) as d) => (atoi (cstr_of (take 10 d ++ [0])), true)
         | _ => (0, true)
         end.

(** * Theorems *)

Lemma decimal_len_abs n z : - 10 ^ Z.of_nat n < z < 10 ^ Z.of_nat n -> (0 < n)%nat -> (length (decimal z) <= S n)%nat.
Proof.
  intros Hz Hn. destruct (Z_lt_le_dec z 0) as [Hs|Hs]; [|pose proof (decimal_len n z); lia].
  destruct z as [|p|p]; [lia..|]. pose proof (decimal_len n (Z.pos p) ltac:(lia) Hn) as Hl.
  assert (decimal (Z.neg p) = 45 :: decimal (Z.pos p)) as -> by (unfold decimal; change (pretty (Z.neg p)) with ("-" +:+ pretty (N.pos p)); by rewrite bytes_of_app).
  cbn [length]. lia.
Qed.

(** Logging was initialised. *)
Record log_ready (lg : log_t) : Prop := {
  lr_init : lg_initialised lg = true;
  lr_pid : in_i32 (lg_pid lg);
  lr_sits : forall wl, 1 <= wl <= RMR_VL_DEBUG ->
    exists s, lg_situations lg !! Z.to_nat wl = Some (Some s) /\ (length s <= 4)%nat
}.

Section logging.
Variable env : log_env.
Hypothesis Hpid : in_i32 (le_pid env).
Implicit Types lg : log_t.

Lemma init_ready lg : log_ready (rmr_vlog_init env lg).
Proof.
  split; [done|exact Hpid|]. intros wl Hw. unfold RMR_VL_DEBUG in Hw.
  assert (wl = 1 \/ wl = 2 \/ wl = 3 \/ wl = 4 \/ wl = 5) as [->|[->|[->|[->| ->]]]] by lia; eexists; (split; [done|cbn; lia]).
Qed.

Lemma set_level_ready lg v : log_ready lg -> log_ready (rmr_set_vlevel lg v).
Proof. intros [? ? ?]. unfold rmr_set_vlevel. destruct (0 <=? v); by split. Qed.

Lemma add_line_ready lg l : log_ready lg -> log_ready (add_line lg l).
Proof. by intros [? ? ?]. Qed.

Lemma cap_range wl : wl <> 0 -> 1 <= cap_level wl <= RMR_VL_DEBUG.
Proof. unfold cap_level, RMR_VL_DEBUG. destruct (Z.ltb_spec 5 wl), (Z.ltb_spec wl 0); cbn; lia. Qed.

(** A header is short. *)
Lemma header_len lg wl : log_ready lg -> 1 <= wl <= RMR_VL_DEBUG ->
  exists hdr, log_header env lg wl = Ret hdr /\ zlen hdr <= 45.
Proof.
  intros [Hi Hp Hs] Hw. unfold log_header. destruct (Hs wl Hw) as (s & -> & Hl). cbn [mjoin option_join deref mbind comp_bind].
  eexists. split; [done|]. unfold zlen. rewrite !length_app. change (length ($" ")) with 1%nat. change (length ($"/RMR [")) with 6%nat. change (length ($"] ")) with 2%nat.
  assert (- 10 ^ Z.of_nat 10 < lg_pid lg < 10 ^ Z.of_nat 10) as Hr by (unfold in_i32 in Hp; change (10 ^ Z.of_nat 10) with 10000000000; lia).
  pose proof (decimal_len_abs 10 _ Hr ltac:(lia)) as H1.
  set (t := mstime _). assert (- 10 ^ Z.of_nat 19 < t < 10 ^ Z.of_nat 19) as Ht.
  { change (10 ^ Z.of_nat 19) with 10000000000000000000. unfold t, mstime. destruct (le_clock env _) as [[sec nsec]|]; [|lia].
    unfold i64. pose proof (Z.mod_pos_bound ((sec * 1000 + 2 ^ 63) `mod` 2 ^ 64 - 2 ^ 63 + nsec ÷ 1000000 + 2 ^ 63) (2 ^ 64)). lia. }
  pose proof (decimal_len_abs 19 t Ht ltac:(lia)) as H2. lia.
Qed.

Lemma line_len hdr text : zlen hdr <= 45 -> log_line hdr text = hdr ++ take (Z.to_nat (4093 - zlen hdr)) text /\ zlen (log_line hdr text) <= 4093.
Proof.
  intros Hh. unfold log_line, snprintf. unfold zlen in *. rewrite (take_ge hdr) by lia.
  replace (4096 - (Z.of_nat (length hdr) + 2) - 1) with (4093 - Z.of_nat (length hdr)) by lia. split; [done|].
  rewrite length_app, length_take. lia.
Qed.

(** What a message adds: a line within the buffer, with the whole header and as
    much of the text as there is room for. *)
Definition added lg lg' (text : list Z) : Prop :=
  exists hdr, lg' = add_line lg (hdr ++ take (Z.to_nat (4093 - zlen hdr)) text) /\ zlen hdr <= 45.

(** The state a message is written in: a log that was not initialised is, first. *)
Definition inited lg : log_t := if lg_initialised lg then lg else rmr_vlog_init env lg.
Definition log_ok lg : Prop := lg_initialised lg = true -> log_ready lg.

Lemma ready_ok lg : log_ready lg -> log_ok lg.
Proof. by intros ? ?. Qed.

Lemma inited_ready lg : log_ok lg -> log_ready (inited lg).
Proof. unfold log_ok, inited. destruct (lg_initialised lg); [auto|intros _; apply init_ready]. Qed.

Lemma inited_out lg : lg_out (inited lg) = lg_out lg.
Proof. unfold inited. by destruct (lg_initialised lg). Qed.

Lemma inited_id lg : lg_initialised lg = true -> inited lg = lg.
Proof. unfold inited. by intros ->. Qed.

Lemma line_added lg wl text : log_ready lg -> wl <> 0 ->
  exists hdr, log_header env lg (cap_level wl) = Ret hdr /\ zlen hdr <= 45 /\ log_ready (add_line lg (log_line hdr text)) /\
    added lg (add_line lg (log_line hdr text)) text.
Proof.
  intros Hr Hw. destruct (header_len lg _ Hr (cap_range wl Hw)) as (hdr & E & Hh). exists hdr.
  split; [done|]. split; [done|]. split; [by apply add_line_ready|]. exists hdr. by rewrite (proj1 (line_len hdr text Hh)).
Qed.

Lemma vlog_any lg wl text : log_ok lg -> wl <> 0 ->
  exists lg', rmr_vlog env lg wl text = Ret lg' /\ log_ok lg' /\
    if lg_vlevel lg <? wl then lg' = lg else log_ready lg' /\ added (inited lg) lg' text.
Proof.
  intros Hr Hw. unfold rmr_vlog. destruct (lg_vlevel lg <? wl); [by exists lg|]. fold (inited lg).
  destruct (line_added _ wl text (inited_ready _ Hr) Hw) as (hdr & E & Hh & Hr' & Ha). cbv zeta. rewrite E. cbn [mbind comp_bind].
  destruct (Z.ltb_spec (4096 - 1024) (zlen hdr)); [lia|]. eexists. split; [done|]. split; [by intros ?|by split].
Qed.

Lemma force_any lg wl text : log_ok lg -> wl <> 0 ->
  exists lg', rmr_vlog_force env lg wl text = Ret lg' /\ log_ready lg' /\
    if lg_vlevel (inited lg) <=? 0 then lg' = inited lg else added (inited lg) lg' text.
Proof.
  intros Hr Hw. unfold rmr_vlog_force. fold (inited lg). cbv zeta. pose proof (inited_ready _ Hr) as Hi.
  destruct (lg_vlevel (inited lg) <=? 0); [by exists (inited lg)|].
  destruct (line_added _ wl text Hi Hw) as (hdr & -> & Hh & Hr' & Ha). cbn [mbind comp_bind]. eexists. by split.
Qed.

Lemma vlog_spec lg wl text : log_ready lg -> wl <> 0 ->
  exists lg', rmr_vlog env lg wl text = Ret lg' /\ log_ready lg' /\
    if lg_vlevel lg <? wl then lg' = lg else added lg lg' text.
Proof.
  intros Hr Hw. unfold rmr_vlog. destruct (lg_vlevel lg <? wl); [by exists lg|]. rewrite (lr_init _ Hr). cbv zeta.
  destruct (line_added lg wl text Hr Hw) as (hdr & -> & Hh & Hr' & Ha). cbn [mbind comp_bind].
  destruct (Z.ltb_spec (4096 - 1024) (zlen hdr)); [lia|]. eexists. by split.
Qed.

Lemma force_spec lg wl text : log_ready lg -> wl <> 0 ->
  exists lg', rmr_vlog_force env lg wl text = Ret lg' /\ log_ready lg' /\
    if lg_vlevel lg <=? 0 then lg' = lg else added lg lg' text.
Proof.
  intros Hr Hw. unfold rmr_vlog_force. rewrite (lr_init _ Hr). cbv zeta. destruct (lg_vlevel lg <=? 0); [by exists lg|].
  destruct (line_added lg wl text Hr Hw) as (hdr & -> & Hh & Hr' & Ha). cbn [mbind comp_bind]. eexists. by split.
Qed.
End logging.

(** ** Any use of the log *)

Inductive log_op := OpInit | OpLevel (v : Z) | OpLog (wl : Z) (text : list Z) | OpForce (wl : Z) (text : list Z).

Definition log_do (env : log_env) (lg : log_t) (op : log_op) : comp log_t :=
  match op with
  | OpInit => Ret (rmr_vlog_init env lg)
  | OpLevel v => Ret (rmr_set_vlevel lg v)
  | OpLog wl text => rmr_vlog env lg wl text
  | OpForce wl text => rmr_vlog_force env lg wl text
  end.

Fixpoint log_run (env : log_env) (lg : log_t) (ops : list log_op) : comp log_t :=
  match ops with [] => Ret lg | op :: ops => lg ← log_do env lg op; log_run env lg ops end.

(** A level that a caller may give, and what can turn logging on. *)
Definition op_ok (op : log_op) : Prop := match op with OpLog wl _ | OpForce wl _ => wl <> 0 | _ => True end.
Definition op_quiet (op : log_op) : bool :=
  match op with OpInit => false | OpLevel v => v <=? 0 | OpLog wl _ => 0 <? wl | OpForce _ _ => true end.

Lemma do_spec env lg op : in_i32 (le_pid env) -> log_ok lg -> op_ok op ->
  exists lg' ls, log_do env lg op = Ret lg' /\ log_ok lg' /\ lg_out lg' = lg_out lg ++ ls /\ Forall (fun l => zlen l <= 4093) ls /\
    (op_quiet op = true -> lg_initialised lg = true -> lg_vlevel lg <= 0 -> ls = [] /\ lg_initialised lg' = true /\ lg_vlevel lg' <= 0).
Proof.
  intros Hp Hr Ho.
  assert (forall lg' text, added (inited env lg) lg' text -> exists ls, lg_out lg' = lg_out lg ++ ls /\ Forall (fun l => zlen l <= 4093) ls) as Hadd.
  { intros lg' text (hdr & -> & Hh). eexists. cbn. rewrite inited_out. split; [done|]. constructor; [|done].
    destruct (line_len hdr text Hh) as [<- ?]. done. }
  destruct op as [|v|wl text|wl text]; cbn [log_do op_ok op_quiet] in *.
  - exists (rmr_vlog_init env lg), []. rewrite app_nil_r. split_and!; try done. by apply ready_ok, init_ready.
  - exists (rmr_set_vlevel lg v), []. rewrite app_nil_r.
    assert (lg_initialised (rmr_set_vlevel lg v) = lg_initialised lg) as Ei by (unfold rmr_set_vlevel; by destruct (0 <=? v)).
    split_and!; [done|unfold log_ok; rewrite Ei; intros Hi; by apply set_level_ready, Hr| |done|].
    + unfold rmr_set_vlevel. by destruct (0 <=? v).
    + intros Hv Hi Hl. rewrite Ei. split_and!; [done..|]. unfold rmr_set_vlevel. destruct (0 <=? v); cbn; lia.
  - destruct (vlog_any env Hp lg wl text Hr Ho) as (lg' & E & Hr' & Hc). destruct (Z.ltb_spec (lg_vlevel lg) wl).
    + subst lg'. exists lg, []. by rewrite app_nil_r.
    + destruct Hc as [_ Hc]. destruct (Hadd _ _ Hc) as (ls & El & Hf). exists lg', ls. split_and!; try done. intros. lia.
  - destruct (force_any env Hp lg wl text Hr Ho) as (lg' & E & Hr' & Hc). destruct (Z.leb_spec (lg_vlevel (inited env lg)) 0).
    + subst lg'. exists (inited env lg), []. rewrite app_nil_r, inited_out. split_and!; try done; [by apply ready_ok|].
      intros _ Hi Hl. by rewrite (inited_id _ _ Hi).
    + destruct (Hadd _ _ Hc) as (ls & El & Hf). exists lg', ls. split_and!; try done; [by apply ready_ok|]. intros _ Hi Hl.
      rewrite (inited_id _ _ Hi) in *. lia.
Qed.

Lemma run_spec env ops : forall lg, in_i32 (le_pid env) -> log_ok lg -> Forall op_ok ops ->
  exists lg' ls, log_run env lg ops = Ret lg' /\ log_ok lg' /\ lg_out lg' = lg_out lg ++ ls /\ Forall (fun l => zlen l <= 4093) ls /\
    (forallb op_quiet ops = true -> lg_initialised lg = true -> lg_vlevel lg <= 0 -> ls = []).
Proof.
  induction ops as [|op ops IH]; intros lg Hp Hr Ho; cbn [log_run forallb]; [exists lg, []; by rewrite app_nil_r|].
  apply Forall_cons in Ho as [Ho1 Ho]. destruct (do_spec env lg op Hp Hr Ho1) as (lg1 & l1 & -> & Hr1 & E1 & F1 & Q1). cbn [mbind comp_bind].
  destruct (IH lg1 Hp Hr1 Ho) as (lg2 & l2 & -> & Hr2 & E2 & F2 & Q2). exists lg2, (l1 ++ l2). split_and!; try done.
  - by rewrite E2, E1, app_assoc.
  - by apply Forall_app.
  - intros [Hq Hqs]%andb_prop Hi Hl. destruct (Q1 Hq Hi Hl) as (-> & Hi1 & Hl1). by rewrite Q2.
Qed.

(** C40.  The log, from the first statement of the process on (also when a message
    comes before the log was set up, which happens on the way then), through any
    calls with write levels other than 0: nothing is undefined, every line ends
    inside the buffer of 4096 bytes, and the lines written before stay, in order.
    Once the log is set up and its level is off, nothing is written, not even by
    a forced message, as long as the calls that follow are messages of a positive
    level, forced messages and levels that are not positive.

    What is outside of these conditions: a write level of 0 has no name to print
    (a nil pointer); a negative one passes while the level is off
    ([negative_level_always_written]); and a log switched off before it was set up
    is not off, since the set-up reads the level of the environment
    ([level_set_early_is_lost]). *)
Theorem log_bounded_and_off env before ops :
  in_i32 (le_pid env) -> Forall op_ok before -> Forall op_ok ops ->
  exists lg lg', log_run env log_statics before = Ret lg /\ log_run env lg ops = Ret lg' /\
    lg_out lg `prefix_of` lg_out lg' /\ Forall (fun l => zlen l < 4096) (lg_out lg') /\
    (lg_initialised lg = true -> lg_vlevel lg <= 0 -> forallb op_quiet ops = true -> lg_out lg' = lg_out lg).
Proof.
  intros Hp Hb Ho. assert (log_ok log_statics) as Hr0 by done. destruct (run_spec env before _ Hp Hr0 Hb) as (lg & l1 & E1 & Hr1 & O1 & F1 & _).
  destruct (run_spec env ops lg Hp Hr1 Ho) as (lg' & l2 & E2 & _ & O2 & F2 & Q2). exists lg, lg'. split_and!; try done.
  - rewrite O2. by exists l2.
  - rewrite O2, O1. cbn. apply Forall_app. split; eapply Forall_impl; try done; cbn; lia.
  - intros Hi Hl Hq. by rewrite O2, Q2, app_nil_r.
Qed.

(** A level that was set before the log was set up is overwritten by the one in
    the environment when the first forced message sets it up. *)
Theorem level_set_early_is_lost env v text : in_i32 (le_pid env) -> le_vlevel env = Some v -> 1 <= atoi v <= RMR_VL_DEBUG ->
  exists lg, log_run env log_statics [OpLevel 0; OpForce RMR_VL_CRIT text] = Ret lg /\ length (lg_out lg) = 1%nat.
Proof.
  intros Hp Hv Ha. unfold RMR_VL_DEBUG in Ha. cbn [log_run log_do mbind comp_bind]. set (lg0 := rmr_set_vlevel log_statics 0).
  destruct (force_any env Hp lg0 RMR_VL_CRIT text ltac:(done) ltac:(done)) as (lg & -> & _ & Hc). cbn [mbind comp_bind]. exists lg. split; [done|].
  assert (lg_vlevel (inited env lg0) = atoi v) as Hl.
  { unfold inited. cbn [lg0 rmr_set_vlevel Z.leb Z.compare set_level log_statics lg_initialised]. unfold rmr_vlog_init. rewrite Hv. cbn [lg_vlevel].
    change RMR_VL_DEBUG with 5. destruct (Z.ltb_spec (atoi v) (-1)); [lia|]. destruct (Z.ltb_spec 5 (atoi v)); lia. }
  rewrite Hl in Hc. destruct (Z.leb_spec (atoi v) 0); [lia|]. destruct Hc as (hdr & -> & _). cbn [add_line lg_out]. by rewrite inited_out.
Qed.

(** A negative level given by a caller is not compared as the level it is written
    with: the message is written however low the level is. *)
Theorem negative_level_always_written env lg text : in_i32 (le_pid env) -> log_ready lg -> lg_vlevel lg = 0 ->
  exists lg', rmr_vlog env lg (-1) text = Ret lg' /\ added lg lg' text.
Proof. intros Hp Hr Hl. destruct (vlog_spec env lg (-1) text Hr ltac:(lia)) as (lg' & E & _ & Hc). rewrite Hl in Hc. by exists lg'. Qed.

Lemma vlog_all_out env wl ts : forall lg, in_i32 (le_pid env) -> log_ready lg -> wl <> 0 -> wl <= lg_vlevel lg ->
  exists lg', vlog_all env lg wl ts = Ret lg' /\ lg_vlevel lg' = lg_vlevel lg /\ length (lg_out lg') = (length (lg_out lg) + length ts)%nat.
Proof.
  induction ts as [|t ts IH]; intros lg Hp Hr Hw Hl; cbn [vlog_all]; [exists lg; cbn; split_and!; [done..|lia]|].
  destruct (vlog_spec env lg wl t Hr Hw) as (lg1 & -> & Hr1 & Hc). destruct (Z.ltb_spec (lg_vlevel lg) wl); [lia|].
  destruct Hc as (hdr & -> & _). cbn [mbind comp_bind]. destruct (IH _ Hp Hr1 Hw Hl) as (lg' & -> & Hl' & Ho).
  exists lg'. split; [done|]. split; [done|]. rewrite Ho. cbn. rewrite length_app. cbn. lia.
Qed.

(** RMR_LOG_VLEVEL=-1 is to squelch even the housekeeping messages; init raises
    the level to announce the version and cannot set it back to a negative one,
    so that the log stays at the level of information messages, and the
    environment is written, too. *)
Theorem squelched_log_informs env getenv version v :
  in_i32 (le_pid env) -> le_vlevel env = Some v -> atoi v <= -1 ->
  lg_vlevel (rmr_vlog_init env log_statics) = -1 /\
  exists lg, init_announce env getenv false version log_statics = Ret (true, lg) /\ lg_vlevel lg = RMR_VL_INFO /\ length (lg_out lg) = 15%nat.
Proof.
  intros Hp Hv Ha.
  assert (lg_vlevel (rmr_vlog_init env log_statics) = -1) as Hl.
  { unfold rmr_vlog_init. rewrite Hv. change ((if atoi v <? -1 then -1 else if 5 <? atoi v then 5 else atoi v) = -1).
    destruct (Z.ltb_spec (atoi v) (-1)); [done|]. destruct (Z.ltb_spec 5 (atoi v)); lia. }
  split; [done|]. unfold init_announce. rewrite Hl. cbv zeta. set (lg0 := rmr_vlog_init env log_statics).
  pose proof (set_level_ready _ RMR_VL_INFO (init_ready env Hp log_statics)) as Hr. fold lg0 in Hr.
  destruct (vlog_spec env _ RMR_VL_INFO version Hr ltac:(done)) as (lg1 & E1 & Hr1 & (hdr & -> & _)). rewrite E1. cbn [mbind comp_bind].
  unfold uta_dump_env.
  destruct (vlog_all_out env RMR_VL_INFO ((fun n => match getenv n with Some token => $"dump_env: " ++ n ++ $" = '" ++ token ++ $"'" ++ [10]
    | None => $"dump_env: " ++ n ++ $" = <unset>" ++ [10] end) <$> dumped_names) _ Hp Hr1 ltac:(done) ltac:(done)) as (lg2 & E2 & Hl2 & Ho2).
  unfold rmr_set_vlevel at 1. cbn [Z.leb Z.compare]. rewrite E2. cbn [mbind comp_bind]. exists lg2. split; [done|]. split; [by rewrite Hl2|].
  rewrite Ho2. done.
Qed.

(** ** Examples *)

Definition ex_log_env : log_env := MkLogEnv None (Some $"-1") 4711 (fun n => Some (1700000000 + Z.of_nat n, 5000000)).

(** The first message sets the log up. *)
Lemma log_bounded_and_off_witness :
  exists lg, log_run ex_log_env log_statics [OpLog 2 ($"one" ++ [10]); OpLevel 5; OpLog 2 ($"two" ++ [10]); OpLevel 0] = Ret lg /\
  exists lg', log_run ex_log_env lg [OpForce 5 $"x"; OpLog 1 $"y"] = Ret lg' /\
    lg_out lg' = [ $"1700000000005 4711/RMR [ERR] one" ++ [10]; $"1700000001005 4711/RMR [ERR] two" ++ [10] ].
Proof.
  destruct (log_bounded_and_off ex_log_env [OpLog 2 ($"one" ++ [10]); OpLevel 5; OpLog 2 ($"two" ++ [10]); OpLevel 0] [OpForce 5 $"x"; OpLog 1 $"y"])
    as (lg & lg' & E & E' & _ & _ & Hq).
  - by split.
  - repeat (apply Forall_cons; split; [cbn; lia|]); constructor.
  - repeat (apply Forall_cons; split; [cbn; lia|]); constructor.
  - exists lg. split; [exact E|]. exists lg'. split; [exact E'|]. vm_compute in E. injection E as <-. rewrite Hq; [reflexivity|reflexivity|cbn; lia|reflexivity].
Defined.

Lemma squelched_log_informs_witness :
  exists lg, init_announce ex_log_env (fun _ => None) false ($"version" ++ [10]) log_statics = Ret (true, lg) /\ lg_vlevel lg = 4.
Proof.
  destruct (squelched_log_informs ex_log_env (fun _ => None) ($"version" ++ [10]) $"-1") as (_ & lg & E & Hl & _);
    [by split|reflexivity|vm_compute; discriminate|].
  exists lg. split; [exact E|exact Hl].
Defined.
