(* ===== verification/Stats.v ===== *)
(** What the library reports about a route table: ep_stats, meid_stats, ep_counts,
    rte_stats, rt_stats, rt_epcounts and dump_tables of
    src/src/rmr/common/src/rt_generic_static.c and get_ep_counts of
    src/src/rmr/si/src/rtable_si_static.c.

    The lines go to the log (Logging.v).  [nil_note] is the text of the messages
    with addresses for entries and counters that are nil. *)

From S2P Require Import Prelude Bytes Symtab SymIface Tools Mbuf Endpoint RouteTable RtInv RtSpec RtParser RtRefine Decimal Logging.

(** ** Formats *)

Definition pad (w : nat) (s : list Z) : list Z := replicate (w - length s) 32 ++ s.

Definition hex_digit (d : Z) : Z := if d <? 10 then 48 + d else 87 + d.

(** %016lx *)
Fixpoint hex (n : nat) (z : Z) : list Z :=
  match n with O => [] | S n' => hex n' (Z.shiftr z 4) ++ [hex_digit (Z.land z 15)] end.

Definition num (z : Z) : list Z := decimal z.
Definition flag (b : bool) : Z := if b then 1 else 0.

(** The texts of the lines. *)
Definition ep_text (name : list Z) (e : endpoint) : list Z :=
  $"rt endpoint: target=" ++ name ++ $" open=" ++ num (flag (ep_open e)) ++ [10].
Definition meid_text (meid name : list Z) (e : endpoint) : list Z :=
  $"meid=" ++ meid ++ $" owner=" ++ name ++ $" open=" ++ num (flag (ep_open e)) ++ [10].
Definition sends_text (ts : Z) (id name : list Z) (e : endpoint) : list Z :=
  $"sends: ts=" ++ num ts ++ $" src=" ++ id ++ $" target=" ++ name ++ $" open=" ++ num (flag (ep_open e)) ++
  $" succ=" ++ num (ep_good e) ++ $" fail=" ++ num (ep_fail e + ep_trans e) ++
  $" (hard=" ++ num (ep_fail e) ++ $" soft=" ++ num (ep_trans e) ++ $")" ++ [10].

(** The type and the subscription id of an entry, as they are reported. *)
Definition rte_type (key : Z) : Z := Z.land key 65535.
Definition rte_sid (key : Z) : Z := i32 (Z.shiftr key 32).
Definition rte_text (r : rtable_ent_t) : list Z :=
  $"rte: key=" ++ hex 16 (rte_key r) ++ $" mtype=" ++ pad 4 (num (rte_type (rte_key r))) ++ $" sid=" ++ pad 4 (num (rte_sid (rte_key r))) ++
  $" nrrg=" ++ pad 2 (num (rte_nrrgroups r)) ++ $" refs=" ++ num (rte_refs r) ++ [10].

Section stats.
Context {TH TE : Type} `{Symbols TH thing} `{Symbols TE nat}.
Variable env : log_env.
Variable nil_note : list Z.
Implicit Types (ctx : rt_ctx TH TE) (rt : route_table_t TH) (lg : log_t) (counter : option Z).

(** ** Callbacks *)

Definition ep_stats (ep : option endpoint) (s : option Z * log_t) : comp (option Z * log_t) :=
  match ep with
  | None => Ret s
  | Some ep =>
      match s.1 with
      | None => lg ← rmr_vlog env s.2 RMR_VL_DEBUG ($"ep_stas: nil counter " ++ nil_note); Ret (None, lg)
      | Some n =>
          name ← deref (ep_name ep);
          lg ← rmr_vlog_force env s.2 RMR_VL_DEBUG (ep_text name ep);
          Ret (Some (i32 (n + 1)), lg)
      end
  end.

Definition meid_stats (meid : list Z) (ep : option endpoint) (s : option Z * log_t) : comp (option Z * log_t) :=
  match ep with
  | None => Ret s
  | Some ep =>
      '(counter, lg) ← match s.1 with
                       | None => lg ← rmr_vlog env s.2 RMR_VL_DEBUG ($"meid_stas: nil counter " ++ nil_note); Ret (None, lg)
                       | Some n => Ret (Some (i32 (n + 1)), s.2)
                       end;
      name ← deref (ep_name ep);
      lg ← rmr_vlog_force env lg RMR_VL_DEBUG (meid_text meid name ep);
      Ret (counter, lg)
  end.

(** [ts] is what time() gives. *)
Definition ep_counts (ts : Z) (vid : option (list Z)) (ep : option endpoint) (lg : log_t) : comp log_t :=
  match ep with
  | None => rmr_vlog env lg RMR_VL_DEBUG ($"ep_counts: nil thing " ++ nil_note)
  | Some ep =>
      let id := match vid with Some id => id | None => $"missing" end in
      name ← deref (ep_name ep);
      rmr_vlog_force env lg RMR_VL_INFO (sends_text ts id name ep)
  end.

Definition rte_stats (rte : option rtable_ent_t) (s : option Z * log_t) : comp (option Z * log_t) :=
  match rte with
  | None => lg ← rmr_vlog env s.2 RMR_VL_DEBUG ($"rte_stats: nil thing " ++ nil_note); Ret (s.1, lg)
  | Some r =>
      lg ← rmr_vlog_force env s.2 RMR_VL_DEBUG (rte_text r);
      Ret ((fun n => i32 (n + 1)) <$> s.1, lg)
  end.

(** rmr_sym_foreach_class with one of the callbacks. *)
Fixpoint each {V S : Type} (f : akey * V -> S -> comp S) (l : list (akey * V)) (s : S) : comp S :=
  match l with [] => Ret s | x :: l => s ← f x s; each f l s end.

Definition key_name (a : akey) : list Z := match a with AStr _ s => s | ANum _ => [] end.

Definition each_ep ctx (x : akey * nat) (s : option Z * log_t) : comp (option Z * log_t) :=
  e ← deref (cr_eps ctx !! x.2); ep_stats (Some e) s.
Definition each_rte ctx (x : akey * thing) (s : option Z * log_t) : comp (option Z * log_t) :=
  match x.2 with TRte id => r ← deref (cr_rtes ctx !! id); rte_stats (Some r) s | TEp _ => UB end.
Definition each_me ctx (x : akey * thing) (s : option Z * log_t) : comp (option Z * log_t) :=
  match x.2 with TEp id => e ← deref (cr_eps ctx !! id); meid_stats (key_name x.1) (Some e) s | TRte _ => UB end.

(** ** Reports *)

(** [mem]: whether the counter can be allocated; it is used in any case. *)
Definition rt_stats (mem : bool) ctx (rt : option (route_table_t TH)) lg : comp log_t :=
  match rt with
  | None => rmr_vlog_force env lg RMR_VL_DEBUG ($"rtstats: nil table" ++ [10])
  | Some rt =>
      if negb mem then UB
      else
        lg ← rmr_vlog_force env lg RMR_VL_DEBUG ($"route table stats:" ++ [10]);
        lg ← rmr_vlog_force env lg RMR_VL_DEBUG ($"route table endpoints:" ++ [10]);
        s ← each (each_ep ctx) (sm_class (cr_ephash ctx) RT_NAME_SPACE) (Some 0, lg);
        n ← deref s.1;
        lg ← rmr_vlog_force env s.2 RMR_VL_DEBUG ($"rtable: " ++ num n ++ $" known endpoints" ++ [10]);
        lg ← rmr_vlog_force env lg RMR_VL_DEBUG ($"route table entries:" ++ [10]);
        s ← each (each_rte ctx) (sm_class (rt_hash rt) RT_MT_SPACE) (Some 0, lg);
        n ← deref s.1;
        lg ← rmr_vlog_force env s.2 RMR_VL_DEBUG ($"rtable: " ++ num n ++ $" mt entries in table" ++ [10]);
        lg ← rmr_vlog_force env lg RMR_VL_DEBUG ($"route table meid map:" ++ [10]);
        s ← each (each_me ctx) (sm_class (rt_hash rt) RT_ME_SPACE) (Some 0, lg);
        n ← deref s.1;
        rmr_vlog_force env s.2 RMR_VL_DEBUG ($"rtable: " ++ num n ++ $" meids in map" ++ [10])
  end.

Definition rt_epcounts (ts : Z) ctx (rt : option (route_table_t TH)) (id : option (list Z)) lg : comp log_t :=
  match rt with
  | None => rmr_vlog_force env lg RMR_VL_INFO ($"endpoint: no counts: empty table" ++ [10])
  | Some _ => each (fun x lg => e ← deref (cr_eps ctx !! x.2); ep_counts ts id (Some e) lg) (sm_class (cr_ephash ctx) 1) lg
  end.

Definition dump_tables (mem : bool) ctx lg : comp log_t :=
  lg ← match cr_old ctx with
       | Some old =>
           lg ← rmr_vlog_force env lg RMR_VL_DEBUG ($"old route table: (ref_count=" ++ num (rt_ref_count old) ++ $")" ++ [10]);
           rt_stats mem ctx (Some old) lg
       | None => rmr_vlog_force env lg RMR_VL_DEBUG ($"old route table was empty" ++ [10])
       end;
  lg ← rmr_vlog_force env lg RMR_VL_DEBUG ($"new route table:" ++ [10]);
  rt_stats mem ctx (cr_rtable ctx) lg.
End stats.

(** [ubuf_len]: the user's buffer if there is one. *)
Definition get_ep_counts (ep : option endpoint) (ubuf_len : option Z) : comp (option (list Z)) :=
  match ep with
  | None => Ret None
  | Some ep =>
      name ← deref (ep_name ep);
      Ret (Some (snprintf (default 256 ubuf_len) (name ++ $" " ++ num (ep_good ep) ++ $" " ++ num (ep_fail ep) ++ $" " ++ num (ep_trans ep))))
  end.

(** * Theorems *)

(** ** Lines *)

Definition log_on (lg : log_t) : Prop := log_ready lg /\ 0 < lg_vlevel lg.

(** Lines with these texts, in order, and nothing else. *)
Fixpoint wrote (lg : log_t) (ts : list (list Z)) (lg' : log_t) : Prop :=
  match ts with [] => lg' = lg | t :: ts => exists lg1, added lg lg1 t /\ wrote lg1 ts lg' end.

Lemma wrote_app lg ts1 lg1 ts2 lg2 : wrote lg ts1 lg1 -> wrote lg1 ts2 lg2 -> wrote lg (ts1 ++ ts2) lg2.
Proof.
  revert lg. induction ts1 as [|t ts1 IH]; intros lg H1 H2; cbn in *; [by subst|].
  destruct H1 as (lg0 & Ha & H1). exists lg0. split; [done|]. by apply IH.
Qed.

(** A computation on the log that writes [ts]. *)
Definition says {A} (m : comp A) (lgof : A -> log_t) (lg : log_t) (ts : list (list Z)) (P : A -> Prop) : Prop :=
  exists x, m = Ret x /\ log_on (lgof x) /\ wrote lg ts (lgof x) /\ P x.

Lemma says_bind {A B} (m : comp A) (k : A -> comp B) la lb lg t1 t2 P Q :
  says m la lg t1 P -> (forall x, log_on (la x) -> P x -> says (k x) lb (la x) t2 Q) -> says (m ≫= k) lb lg (t1 ++ t2) Q.
Proof.
  intros (x & -> & Ho & Hw & HP) Hk. destruct (Hk x Ho HP) as (y & E & Ho' & Hw' & HQ). exists y. cbn [mbind comp_bind].
  split_and!; try done. by eapply wrote_app.
Qed.

Lemma says_ret {A} (x : A) la (P : A -> Prop) : log_on (la x) -> P x -> says (Ret x) la (la x) [] P.
Proof. intros. by exists x. Qed.

Lemma added_on lg lg' t : log_on lg -> added lg lg' t -> log_on lg'.
Proof. intros [Hr Hl] (hdr & -> & _). split; [by apply add_line_ready|done]. Qed.

Lemma says_force env lg wl t : log_on lg -> wl <> 0 -> says (rmr_vlog_force env lg wl t) id lg [t] (fun _ => True).
Proof.
  intros Ho Hw. pose proof Ho as [Hr Hl]. destruct (force_spec env lg wl t Hr Hw) as (lg' & E & Hr' & Hc).
  destruct (Z.leb_spec (lg_vlevel lg) 0); [lia|]. exists lg'. split; [done|]. split; [by eapply added_on|]. split; [|done]. cbn. by exists lg'.
Qed.

Lemma says_each {V} (f : akey * V -> option Z * log_t -> comp (option Z * log_t)) text l : forall n lg,
  (forall x n lg, x ∈ l -> log_on lg -> says (f x (Some n, lg)) snd lg [text x] (fun s => s.1 = Some (i32 (n + 1)))) ->
  log_on lg -> 0 <= n -> n + zlen l <= INT_MAX ->
  says (each f l (Some n, lg)) snd lg (text <$> l) (fun s => s.1 = Some (n + zlen l)).
Proof.
  induction l as [|x l IH]; intros n lg Hf Ho Hn Hl; cbn [each fmap list_fmap].
  { apply (says_ret (Some n, lg) snd); [done|]. unfold zlen. cbn. by rewrite Z.add_0_r. }
  assert (zlen (x :: l) = 1 + zlen l) as Hz by (unfold zlen; cbn [length]; lia). rewrite Hz in *. unfold INT_MAX in *.
  change (text x :: (text <$> l)) with ([text x] ++ (text <$> l)). eapply says_bind; [apply Hf; [by left|done]|].
  intros [c lg1] Ho1 Hc. cbn in Ho1, Hc. subst c. rewrite i32_id by (unfold in_i32, zlen in *; lia).
  replace (n + (1 + zlen l)) with (n + 1 + zlen l) by lia. apply IH; [|done|lia|lia]. intros y m lg2 Hy. apply Hf. by right.
Qed.

(** ** The size of a map from a list of its keys *)

Lemma size_of_keys `{Countable K} {A} (m : gmap K A) (l : list K) :
  NoDup l -> (forall k, k ∈ l <-> is_Some (m !! k)) -> size m = length l.
Proof.
  intros Hn Hk. rewrite <-size_dom, <-(size_list_to_set (C := gset K) l Hn). f_equal. apply set_eq. intros k.
  rewrite elem_of_dom, elem_of_list_to_set, Hk. done.
Qed.

(** ** The report of a table *)

Definition named {TH TE} (ctx : rt_ctx TH TE) : Prop := forall id e, cr_eps ctx !! id = Some e -> is_Some (ep_name e).

Definition key_num (a : akey) : Z := match a with ANum k => k | AStr _ _ => 0 end.

Section report.
Context {TH TE : Type} `{Symbols TH thing} `{Symbols TE nat}.
Variables (env : log_env) (nil_note : list Z).
Implicit Types (ctx : rt_ctx TH TE) (rt : route_table_t TH) (lg : log_t).

Lemma class_key `{Symbols T V} (t : T) c k : sm_ok t ->
  k ∈ (sm_class t c).*1 <-> is_Some (sm_abs t !! k) /\ akey_class k = c.
Proof.
  intros Hok. rewrite list_elem_of_fmap. split.
  - intros ([k' v] & -> & Hi). apply sm_class_abs in Hi as [E Hc]; [|done]. cbn. split; [by eexists|done].
  - intros [[v E] Hc]. exists (k, v). split; [done|]. by apply sm_class_abs.
Qed.

Lemma ephash_size ctx : rt_inv ctx -> size (sm_abs (cr_ephash ctx)) = length (sm_class (cr_ephash ctx) RT_NAME_SPACE).
Proof.
  intros I. rewrite (size_of_keys _ (sm_class (cr_ephash ctx) RT_NAME_SPACE).*1), length_fmap; [done|apply sm_class_nodup, I|].
  intros k. rewrite class_key by apply I. split; [by intros [? _]|]. intros [id Hk]. split; [by eexists|].
  by destruct (ri_eps _ I _ _ Hk) as (name & e & -> & _).
Qed.

Lemma num_key ctx rt k : rt_inv ctx -> rt ∈ tables ctx -> is_Some (habs rt !! k) -> akey_class k = RT_MT_SPACE -> k = ANum (key_num k).
Proof.
  intros I Ht [x Hx] Hc. pose proof (proj1 (Forall_forall _ _) (ri_tabs _ I) rt Ht) as T.
  destruct k as [c s|n]; [|done]. destruct (to_me _ _ T _ _ _ Hx) as [-> _]. done.
Qed.

Lemma me_key ctx rt k : rt_inv ctx -> rt ∈ tables ctx -> is_Some (habs rt !! k) -> akey_class k = RT_ME_SPACE -> k = AStr RT_ME_SPACE (key_name k).
Proof. intros I Ht [x Hx] Hc. destruct k as [c s|n]; [|done]. cbn in *. by subst. Qed.

Lemma routes_size ctx rt A : rt_inv ctx -> rt ∈ tables ctx -> table_abs ctx rt A ->
  size (at_routes A) = length (sm_class (rt_hash rt) RT_MT_SPACE).
Proof.
  intros I Ht [HR _]. pose proof (to_ok _ _ (proj1 (Forall_forall _ _) (ri_tabs _ I) rt Ht)) as Hok.
  rewrite (size_of_keys _ (key_num <$> (sm_class (rt_hash rt) RT_MT_SPACE).*1)), !length_fmap; [done| |].
  - apply NoDup_fmap_2_strong; [|by apply sm_class_nodup]. intros x y [Hx Hcx]%class_key [Hy Hcy]%class_key E; try done.
    rewrite (num_key ctx rt x), (num_key ctx rt y) by done. by rewrite E.
  - intros k. rewrite list_elem_of_fmap, <-HR. split.
    + intros (a & -> & [Ha Hc]%class_key); [|done]. pose proof (num_key _ _ _ I Ht Ha Hc) as E. destruct Ha as [x Hx]. rewrite E in Hx. fold (habs rt) in Hx.
      destruct (ro_num _ _ (ri_refs _ I) (habs rt) _ x (habs_fmap_in _ _ Ht) Hx) as [id ->].
      destruct (ro_live _ _ (ri_refs _ I) (habs rt) _ id (habs_fmap_in _ _ Ht) Hx) as (r & Er & _).
      unfold route_at. rewrite Hx. unfold entry_at. rewrite Er. by eexists.
    + unfold route_at. intros [v Hv]. destruct (habs rt !! ANum k) as [x|] eqn:E; [|done].
      exists (ANum k). split; [done|]. apply class_key; [done|]. split; [by exists x|done].
Qed.

Lemma owners_size ctx rt A : rt_inv ctx -> rt ∈ tables ctx -> table_abs ctx rt A -> named ctx ->
  size (at_owners A) = length (sm_class (rt_hash rt) RT_ME_SPACE).
Proof.
  intros I Ht [_ HO] Hn. pose proof (proj1 (Forall_forall _ _) (ri_tabs _ I) rt Ht) as T.
  rewrite (size_of_keys _ (key_name <$> (sm_class (rt_hash rt) RT_ME_SPACE).*1)), !length_fmap; [done| |].
  - apply NoDup_fmap_2_strong; [|apply sm_class_nodup, T]. intros x y [Hx Hcx]%class_key [Hy Hcy]%class_key E; try apply T.
    rewrite (me_key ctx rt x), (me_key ctx rt y) by done. by rewrite E.
  - intros k. rewrite list_elem_of_fmap, <-HO. split.
    + intros (a & -> & [Ha Hc]%class_key); [|apply T]. pose proof (me_key _ _ _ I Ht Ha Hc) as E. destruct Ha as [x Hx]. rewrite E in Hx. fold (habs rt) in Hx.
      destruct (to_me _ _ T _ _ _ Hx) as (_ & id & -> & [e He]). unfold owner_at. rewrite Hx, He. cbn. by eapply Hn.
    + unfold owner_at. intros [v Hv]. destruct (habs rt !! AStr RT_ME_SPACE k) as [x|] eqn:E; [|done].
      exists (AStr RT_ME_SPACE k). split; [done|]. apply class_key; [apply T|]. split; [by exists x|done].
Qed.

(** The lines for the entries. *)
Definition ep_line ctx (x : akey * nat) : list Z :=
  match cr_eps ctx !! x.2 with Some e => ep_text (default [] (ep_name e)) e | None => [] end.
Definition rte_line ctx (x : akey * thing) : list Z :=
  match x.2 with TRte id => match cr_rtes ctx !! id with Some r => rte_text r | None => [] end | TEp _ => [] end.
Definition me_line ctx (x : akey * thing) : list Z :=
  match x.2 with
  | TEp id => match cr_eps ctx !! id with Some e => meid_text (key_name x.1) (default [] (ep_name e)) e | None => [] end
  | TRte _ => []
  end.

Lemma each_ep_says ctx x n lg : rt_inv ctx -> x ∈ sm_class (cr_ephash ctx) RT_NAME_SPACE -> log_on lg ->
  says (each_ep env nil_note ctx x (Some n, lg)) snd lg [ep_line ctx x] (fun s => s.1 = Some (i32 (n + 1))).
Proof.
  intros I Hx Ho. destruct x as [a id]. apply sm_class_abs in Hx as [Ha _]; [|apply I].
  destruct (ri_eps _ I _ _ Ha) as (name & e & _ & He & Hn). unfold each_ep, ep_line. cbn [snd]. rewrite He. cbn [deref mbind comp_bind ep_stats fst].
  rewrite Hn. cbn [deref mbind comp_bind default from_option snd].
  destruct (says_force env lg RMR_VL_DEBUG (ep_text name e) Ho ltac:(done)) as (lg1 & -> & Ho1 & Hw & _). by eexists.
Qed.

Lemma each_rte_says ctx rt x n lg : rt_inv ctx -> rt ∈ tables ctx -> x ∈ sm_class (rt_hash rt) RT_MT_SPACE -> log_on lg ->
  says (each_rte env nil_note ctx x (Some n, lg)) snd lg [rte_line ctx x] (fun s => s.1 = Some (i32 (n + 1))).
Proof.
  intros I Ht Hx Ho. pose proof (to_ok _ _ (proj1 (Forall_forall _ _) (ri_tabs _ I) rt Ht)) as Hok.
  destruct x as [a v]. apply sm_class_abs in Hx as [Ha Hc]; [|done]. pose proof (num_key _ _ _ I Ht (mk_is_Some _ _ Ha) Hc) as E. rewrite E in Ha.
  destruct (ro_num _ _ (ri_refs _ I) (habs rt) _ v (habs_fmap_in _ _ Ht) Ha) as [id ->].
  destruct (ro_live _ _ (ri_refs _ I) (habs rt) _ id (habs_fmap_in _ _ Ht) Ha) as (r & Er & _).
  unfold each_rte, rte_line. cbn [snd]. rewrite Er. cbn [deref mbind comp_bind rte_stats fst snd].
  destruct (says_force env lg RMR_VL_DEBUG (rte_text r) Ho ltac:(done)) as (lg1 & -> & Ho1 & Hw & _). by eexists.
Qed.

Lemma each_me_says ctx rt x n lg : rt_inv ctx -> rt ∈ tables ctx -> named ctx -> x ∈ sm_class (rt_hash rt) RT_ME_SPACE -> log_on lg ->
  says (each_me env nil_note ctx x (Some n, lg)) snd lg [me_line ctx x] (fun s => s.1 = Some (i32 (n + 1))).
Proof.
  intros I Ht Hn Hx Ho. pose proof (proj1 (Forall_forall _ _) (ri_tabs _ I) rt Ht) as T.
  destruct x as [a v]. apply sm_class_abs in Hx as [Ha Hc]; [|apply T]. pose proof (me_key _ _ _ I Ht (mk_is_Some _ _ Ha) Hc) as E. rewrite E in Ha.
  destruct (to_me _ _ T _ _ _ Ha) as (_ & id & -> & [e He]). destruct (Hn _ _ He) as [name En].
  unfold each_me, me_line. cbn [fst snd]. rewrite He. cbn [deref mbind comp_bind meid_stats fst snd]. rewrite En. cbn [deref mbind comp_bind default from_option].
  destruct (says_force env lg RMR_VL_DEBUG (meid_text (key_name a) name e) Ho ltac:(done)) as (lg1 & -> & Ho1 & Hw & _). by eexists.
Qed.
End report.

(** ** Endpoints have names *)

Section named.
Context {TH TE : Type} `{Symbols TH thing} `{Symbols TE nat}.
Variable gethostbyname : list Z -> option (list Z).
Implicit Types (ctx : rt_ctx TH TE) (rt : route_table_t TH) (ps : parser_t TH TE).

Definition same_eps ctx ctx' : Prop := cr_eps ctx' = cr_eps ctx.

Lemma del_rte_eps ctx id ctx' : del_rte ctx id = Ret ctx' -> same_eps ctx ctx'.
Proof. unfold del_rte. intros E. by apply comp_bind_ret in E as (r & _ & [= <-]). Qed.

Lemma del_all_eps l : forall ctx ctx', del_all ctx l = Ret ctx' -> same_eps ctx ctx'.
Proof.
  induction l as [|[a [id|id]] l IH]; intros ctx ctx' E; cbn [del_all] in E; [by injection E as <-| |done].
  apply comp_bind_ret in E as (c & E1 & E). apply del_rte_eps in E1. apply IH in E. by etrans.
Qed.

Lemma clone_mt_eps l : forall ctx (h : TH) h' ctx', clone_mt ctx l h = Ret (h', ctx') -> same_eps ctx ctx'.
Proof.
  induction l as [|[a [id|id]] l IH]; intros ctx h h' ctx' E; cbn [clone_mt] in E; [by injection E as <- <-| |done].
  apply comp_bind_ret in E as (r & _ & E). by apply IH in E.
Qed.

Lemma drop_new_eps ctx ctx' : drop_new ctx = Ret ctx' -> same_eps ctx ctx'.
Proof.
  unfold drop_new, uta_rt_drop. intros E. apply comp_bind_ret in E as (c & E1 & [= <-]). unfold same_eps. cbn.
  destruct (cr_new ctx); [by apply del_all_eps in E1|by injection E1 as <-].
Qed.

Lemma prep_eps ctx all rt ctx' : prep_new_rt ctx all = Ret (rt, ctx') -> same_eps ctx ctx'.
Proof.
  unfold prep_new_rt. intros E. apply comp_bind_ret in E as ([d1 c1] & E1 & E). apply comp_bind_ret in E as ([d2 c2] & E2 & [= _ <-]).
  assert (same_eps ctx c1) as H1.
  { unfold recycle_old in E1. destruct (cr_old ctx); [|by injection E1 as _ <-]. apply comp_bind_ret in E1 as (c & E1 & [= _ <-]). by apply del_all_eps in E1. }
  unfold uta_rt_clone in E2. destruct (cr_rtable c1); [|by injection E2 as _ <-].
  apply comp_bind_ret in E2 as ([h c] & E2 & [= _ <-]). destruct all; [|by injection E2 as _ <-]. apply clone_mt_eps in E2. by etrans.
Qed.

Lemma trash_eps ctx ts sid ctx' : trash_entry ctx ts sid = Ret ctx' -> same_eps ctx ctx'.
Proof.
  unfold trash_entry. intros E. destruct (cr_new ctx); [|by injection E as <-]. destruct (for_us _ _ _); [|by injection E as <-].
  destruct (sm_get _ _) as [[|]|]; [by apply del_rte_eps in E|done|by injection E as <-].
Qed.

Lemma same_named ctx ctx' : same_eps ctx ctx' -> named ctx -> named ctx'.
Proof. unfold named. by intros ->. Qed.

Lemma ensure_named ctx name : named ctx -> named (rt_ensure_ep gethostbyname ctx name).2.
Proof.
  intros Hn. unfold rt_ensure_ep. destruct name as [|c name]; [done|]. destruct (uta_get_ep _ _); [done|].
  intros id e. cbn. intros [[<- <-]|[_ E]]%lookup_insert_Some; [by eexists|by eapply Hn].
Qed.

Lemma uta_add_ep_named ctx id name g x : uta_add_ep gethostbyname ctx id name g = Ret x -> named ctx -> named x.2.
Proof.
  unfold uta_add_ep. intros E Hn. apply comp_bind_ret in E as (r & _ & E). destruct (_ || _); [by injection E as <-|].
  pose proof (ensure_named ctx name Hn) as He. destruct (rt_ensure_ep gethostbyname ctx name) as [ep c].
  destruct (_ <=? _); by injection E as <-.
Qed.

Lemma add_eps_named id toks : forall ctx g has x, add_eps gethostbyname ctx id toks g has = Ret x -> named ctx -> named x.2.
Proof.
  induction toks as [|t toks IH]; intros ctx g has x E Hn; cbn [add_eps] in E; [by injection E as <-|].
  destruct (negb _); [|by apply IH in E]. apply comp_bind_ret in E as ([o c] & E1 & E). apply uta_add_ep_named in E1; [|done]. by apply IH in E.
Qed.

Lemma add_groups_named id gtoks : forall ctx g ctx', add_groups gethostbyname ctx id gtoks g = Ret ctx' -> named ctx -> named ctx'.
Proof.
  induction gtoks as [|t toks IH]; intros ctx g ctx' E Hn; cbn [add_groups] in E; [by injection E as <-|].
  apply comp_bind_ret in E as (x & E1 & E). apply add_eps_named in E1; [|done]. by apply IH in E.
Qed.

Lemma build_named ctx ts sid rr ctx' : build_entry gethostbyname ctx ts sid rr = Ret ctx' -> named ctx -> named ctx'.
Proof.
  unfold build_entry. cbv zeta. intros E Hn. destruct (for_us _ _ _); [|by injection E as <-]. destruct (tokenise _ _ _); [by injection E as <-|].
  apply comp_bind_ret in E as (rt & _ & E). apply comp_bind_ret in E as ([[id rt'] c] & E1 & E). apply comp_bind_ret in E as (r & _ & E).
  apply add_groups_named in E; [done|]. unfold uta_add_rte in E1. cbv zeta in E1. apply comp_bind_ret in E1 as (c1 & E1 & [= _ _ <-]).
  destruct (sm_get _ _) as [[|]|]; [|done|by injection E1 as <-]. apply del_rte_eps in E1. by eapply same_named in E1.
Qed.

Lemma meid_add_named owner toks : forall ctx rt, named ctx -> named (meid_add gethostbyname ctx rt owner toks).2.
Proof.
  induction toks as [|t toks IH]; intros ctx rt Hn; cbn [meid_add]; [done|].
  pose proof (ensure_named ctx owner Hn). destruct (rt_ensure_ep gethostbyname ctx owner). by apply IH.
Qed.

Lemma start_named can all keep me ps tokens x : start_table can all keep me ps tokens = Ret x -> named (ps_ctx ps) -> named (ps_ctx x.2).
Proof.
  unfold start_table. cbv zeta. intros E Hn. apply comp_bind_ret in E as (c & E1 & E). apply comp_bind_ret in E as ([rt c2] & E2 & [= <-]).
  apply prep_eps in E2. cbn. assert (named c) as Hc.
  { destruct (cr_new _); [apply drop_new_eps in E1; by eapply same_named|by injection E1 as <-]. }
  by apply (same_named _ _ E2) in Hc.
Qed.

Lemma roll_named can full ready ps : named (ps_ctx ps) -> named (ps_ctx (roll_new can full ready ps).2).
Proof.
  intros Hn. unfold roll_new. destruct (cr_new (ps_ctx ps)) eqn:E; [|done]. cbn. unfold roll_tables. rewrite E.
  destruct (rt_error _); [done|]. by destruct (cr_rtable _).
Qed.

Lemma end_named can full ready count reason ps tokens x :
  end_table can full ready count reason ps tokens = Ret x -> named (ps_ctx ps) -> named (ps_ctx x.2).
Proof.
  unfold end_table. intros E Hn. destruct (tokens !! 2%nat); [|injection E as <-; by apply roll_named].
  apply comp_bind_ret in E as (rt & _ & E). destruct (negb _); [|injection E as <-; by apply roll_named].
  apply comp_bind_ret in E as (c & E1 & [= <-]). apply drop_new_eps in E1. cbn. by eapply same_named.
Qed.

Lemma count_named ctx ctx' : count_update ctx = Ret ctx' -> named ctx -> named ctx'.
Proof. unfold count_update. intros E Hn. apply comp_bind_ret in E as (rt & _ & [= <-]). done. Qed.

Lemma meid_named can ps tokens x : meid_parser gethostbyname can ps tokens = Ret x -> named (ps_ctx ps) -> named (ps_ctx x.2).
Proof.
  unfold meid_parser. intros E Hn. destruct tokens as [|t0 [|t1 rest]]; [by injection E as <-..|]. destruct (streq t0 _).
  { destruct (bool_decide _); [by apply start_named in E|]. destruct (streq _ _); [by apply end_named in E|by injection E as <-]. }
  destruct (cr_new _); [|by injection E as <-]. destruct (streq t0 _).
  - destruct rest as [|t2 rest]; [by injection E as <-|]. pose proof (meid_add_named (clip t1) (tokenise (clip t2) 128 32) (ps_ctx ps) r Hn) as Hm.
    unfold parse_meid_ar in E. destruct (meid_add _ _ _ _). by injection E as <-.
  - destruct (streq t0 _); by injection E as <-.
Qed.

Lemma parse_named can wbuf ps buf x : parse_rt_rec gethostbyname can wbuf ps buf = Ret x -> named (ps_ctx ps) -> named (ps_ctx x.2).
Proof.
  unfold parse_rt_rec. cbv zeta. intros E Hn. destruct (tokenise _ _ _) as [|t0 ts]; [by injection E as <-|].
  destruct (clip t0) as [|c t]; [by injection E as <-|]. destruct (c =? 35); [by injection E as <-|]. destruct (c =? 100).
  { destruct (cr_new _); [|by injection E as <-]. destruct ts as [|t1 [|t2 ts]]; [by injection E as <-..|].
    apply comp_bind_ret in E as (c1 & E1 & E). apply comp_bind_ret in E as (c2 & E2 & [= <-]).
    apply trash_eps in E1. apply (count_named _ _ E2). by eapply same_named. }
  destruct (c =? 110).
  { apply comp_bind_ret in E as (t1 & _ & E). destruct (streq _ _); [by apply end_named in E|by apply start_named in E]. }
  destruct (c =? 109).
  { destruct (streq _ _); [|by apply meid_named in E]. destruct (cr_new _); [|by injection E as <-].
    destruct ts as [|t1 [|t2 [|t3 ts]]]; [by injection E as <-..|].
    apply comp_bind_ret in E as (c1 & E1 & E). apply comp_bind_ret in E as (c2 & E2 & [= <-]). apply (count_named _ _ E2). by eapply build_named. }
  destruct (c =? 114).
  { destruct (cr_new _); [|by injection E as <-]. apply comp_bind_ret in E as (c1 & E1 & E). apply comp_bind_ret in E as (t1 & _ & E).
    apply comp_bind_ret in E as (t2 & _ & E). apply comp_bind_ret in E as (c2 & E2 & [= <-]). eapply build_named; [exact E2|]. by eapply count_named. }
  destruct (c =? 117); [|by injection E as <-]. destruct (negb _); [by injection E as <-|]. apply comp_bind_ret in E as (t1 & _ & E).
  destruct (streq _ _); [|by apply start_named in E]. destruct (cr_new _); [by apply end_named in E|by injection E as <-].
Qed.

Lemma parse_recs_named can wbuf bufs : forall ps x, parse_recs gethostbyname can wbuf ps bufs = Ret x -> named (ps_ctx ps) -> named (ps_ctx x.2).
Proof.
  induction bufs as [|b bufs IH]; intros ps x E Hn; cbn [parse_recs] in E; [by injection E as <-|].
  apply comp_bind_ret in E as (y & E1 & E). apply comp_bind_ret in E as (z & E2 & [= <-]). apply parse_named in E1; [|done]. by apply IH in E2.
Qed.
End named.

(** ** The report *)

Section whole.
Context {TH TE : Type} `{Symbols TH thing} `{Symbols TE nat}.
Variables (env : log_env) (nil_note : list Z).
Implicit Types (ctx : rt_ctx TH TE) (rt : route_table_t TH) (lg : log_t).

Definition report_lines (eps routes owners : list (list Z)) : list (list Z) :=
  [ $"route table stats:" ++ [10]; $"route table endpoints:" ++ [10] ] ++ eps ++
  [ $"rtable: " ++ num (zlen eps) ++ $" known endpoints" ++ [10]; $"route table entries:" ++ [10] ] ++ routes ++
  [ $"rtable: " ++ num (zlen routes) ++ $" mt entries in table" ++ [10]; $"route table meid map:" ++ [10] ] ++ owners ++
  [ $"rtable: " ++ num (zlen owners) ++ $" meids in map" ++ [10] ].

Lemma zlen_map {A B} (f : A -> B) l : zlen (f <$> l) = zlen l.
Proof. unfold zlen. by rewrite length_fmap. Qed.

Lemma rt_stats_says ctx rt lg : rt_inv ctx -> named ctx -> rt ∈ tables ctx -> log_on lg ->
  zlen (sm_class (cr_ephash ctx) RT_NAME_SPACE) <= INT_MAX -> zlen (sm_class (rt_hash rt) RT_MT_SPACE) <= INT_MAX ->
  zlen (sm_class (rt_hash rt) RT_ME_SPACE) <= INT_MAX ->
  says (rt_stats env nil_note true ctx (Some rt) lg) id lg
    (report_lines (ep_line ctx <$> sm_class (cr_ephash ctx) RT_NAME_SPACE) (rte_line ctx <$> sm_class (rt_hash rt) RT_MT_SPACE)
       (me_line ctx <$> sm_class (rt_hash rt) RT_ME_SPACE)) (fun _ => True).
Proof.
  intros I Hn Ht Ho L1 L2 L3. unfold report_lines. rewrite !zlen_map. cbn [rt_stats negb].
  assert (forall lg t, log_on lg -> says (rmr_vlog_force env lg RMR_VL_DEBUG t) id lg [t] (fun _ => True)) as Hf by (intros; by apply says_force).
  change ([?a; ?b] ++ ?l) with ([a] ++ [b] ++ l).
  eapply says_bind; [by apply Hf|]. intros lg1 O1 _. eapply says_bind; [by apply Hf|]. intros lg2 O2 _.
  eapply says_bind; [apply says_each; [intros; by apply each_ep_says|done|lia|lia]|]. intros [c lg3] O3 Hc. cbn [fst snd] in *. subst c. cbn [deref mbind comp_bind].
  rewrite Z.add_0_l. change ([?a; ?b] ++ ?l) with ([a] ++ [b] ++ l).
  eapply says_bind; [by apply Hf|]. intros lg4 O4 _. eapply says_bind; [by apply Hf|]. intros lg5 O5 _.
  eapply says_bind; [apply says_each; [intros; by eapply each_rte_says|done|lia|lia]|]. intros [c lg6] O6 Hc. cbn [fst snd] in *. subst c. cbn [deref mbind comp_bind].
  rewrite Z.add_0_l. change ([?a; ?b] ++ ?l) with ([a] ++ [b] ++ l).
  eapply says_bind; [by apply Hf|]. intros lg7 O7 _. eapply says_bind; [by apply Hf|]. intros lg8 O8 _.
  eapply says_bind; [apply says_each; [intros; by eapply each_me_says|done|lia|lia]|]. intros [c lg9] O9 Hc. cbn [fst snd] in *. subst c. cbn [deref mbind comp_bind].
  rewrite Z.add_0_l. by apply Hf.
Qed.
End whole.

(** The counts: a line for every endpoint, the failures being the hard and the soft
    ones. *)
Theorem epcounts_lines {TH TE : Type} `{Symbols TH thing} `{Symbols TE nat} env nil_note ts (ctx : rt_ctx TH TE) rt my lg :
  rt_inv ctx -> log_on lg ->
  exists lg' ls, rt_epcounts env nil_note ts ctx (Some rt) (Some my) lg = Ret lg' /\ wrote lg ls lg' /\
    length ls = size (sm_abs (cr_ephash ctx)) /\
    forall name i e, sm_abs (cr_ephash ctx) !! AStr 1 name = Some i -> cr_eps ctx !! i = Some e -> sends_text ts my name e ∈ ls.
Proof.
  intros I Ho. unfold rt_epcounts. rewrite (ephash_size _ I).
  set (line := fun x : akey * nat => match cr_eps ctx !! x.2 with Some e => sends_text ts my (default [] (ep_name e)) e | None => [] end).
  set (f := fun (x : akey * nat) lg => e ← deref (cr_eps ctx !! x.2); ep_counts env nil_note ts (Some my) (Some e) lg).
  assert (forall x lg, x ∈ sm_class (cr_ephash ctx) 1 -> log_on lg -> says (f x lg) id lg [line x] (fun _ => True)) as Hf.
  { intros [a i] lg1 Hx Ho1. apply sm_class_abs in Hx as [Ha _]; [|apply I]. destruct (ri_eps _ I _ _ Ha) as (name & e & _ & He & Hn).
    unfold f, line. cbn [snd]. rewrite He, Hn. cbn [deref mbind comp_bind ep_counts]. rewrite Hn. cbn [deref mbind comp_bind]. by apply says_force. }
  assert (forall l lg, log_on lg -> (forall x, x ∈ l -> x ∈ sm_class (cr_ephash ctx) 1) -> says (each f l lg) id lg (line <$> l) (fun _ => True)) as Hall.
  { induction l as [|x l IH]; intros lg1 Ho1 Hl; cbn [each fmap list_fmap]; [by apply (says_ret lg1 id)|].
    change (line x :: (line <$> l)) with ([line x] ++ (line <$> l)). eapply says_bind; [apply Hf; [apply Hl; by left|done]|].
    intros lg2 Ho2 _. apply IH; [done|]. intros. apply Hl. by right. }
  destruct (Hall (sm_class (cr_ephash ctx) 1) lg Ho ltac:(done)) as (lg' & E & _ & Hw & _). exists lg', (line <$> sm_class (cr_ephash ctx) 1).
  split; [done|]. split; [done|]. split; [by rewrite length_fmap|]. intros name i e Hi He.
  apply list_elem_of_fmap. exists (AStr 1 name, i). split; [|by apply sm_class_abs; [apply I|]].
  unfold line. cbn [snd]. rewrite He. destruct (ri_eps _ I _ _ Hi) as (n & e' & [= <-] & He' & Hn). rewrite He in He'. injection He' as <-. by rewrite Hn.
Qed.

(** The report of the active table, after any records: it counts the endpoints
    known, the routes and the managed elements of the table, with a line for each
    of them; the line of a route has its key and the line of a managed element its
    name. *)
Theorem stats_report_table {TH TE : Type} `{Symbols TH thing} `{Symbols TE nat} gethostbyname my ips can wbuf bufs acks S c
    (ps : parser_t TH TE) env nil_note lg :
  spec_recs my ips can wbuf as_init bufs = Ret (acks, S) -> as_act S = Some c ->
  parse_recs gethostbyname can wbuf (ps_init my ips) bufs = Ret (acks, ps) -> log_on lg ->
  Z.of_nat (size (at_routes (ct_tab c))) <= INT_MAX -> Z.of_nat (size (at_owners (ct_tab c))) <= INT_MAX ->
  Z.of_nat (size (sm_abs (cr_ephash (ps_ctx ps)))) <= INT_MAX ->
  exists lg' eps routes owners,
    rt_stats env nil_note true (ps_ctx ps) (cr_rtable (ps_ctx ps)) lg = Ret lg' /\ wrote lg (report_lines eps routes owners) lg' /\
    length eps = size (sm_abs (cr_ephash (ps_ctx ps))) /\ length routes = size (at_routes (ct_tab c)) /\
    length owners = size (at_owners (ct_tab c)) /\
    (forall k, is_Some (at_routes (ct_tab c) !! k) -> exists r, rte_key r = k /\ rte_text r ∈ routes) /\
    (forall s o, at_owners (ct_tab c) !! s = Some o -> exists e, ep_name e = Some o /\ meid_text s o e ∈ owners).
Proof.
  intros Hs Ha Hp Ho L1 L2 L3.
  destruct (parse_recs_refines gethostbyname my ips can wbuf bufs _ _ _ _ (init_refines my ips) Hs) as (ps1 & E & R).
  rewrite Hp in E. injection E as <-. pose proof (rf_inv _ _ _ _ R) as I.
  assert (named (ps_ctx ps)) as Hn by (eapply (parse_recs_named gethostbyname can wbuf bufs _ _ Hp); intros i e; cbn; by rewrite lookup_empty).
  pose proof (rf_act _ _ _ _ R) as Hact. rewrite Ha in Hact. destruct (cr_rtable (ps_ctx ps)) as [rt|] eqn:Ert; [|done]. destruct Hact as [HA _].
  assert (rt ∈ tables (ps_ctx ps)) as Ht by (unfold tables; rewrite Ert; by left).
  rewrite (routes_size _ _ _ I Ht HA) in L1. rewrite (owners_size _ _ _ I Ht HA Hn) in L2. rewrite (ephash_size _ I) in L3.
  destruct (rt_stats_says env nil_note (ps_ctx ps) rt lg I Hn Ht Ho L3 L1 L2) as (lg' & E & _ & Hw & _).
  exists lg', (ep_line (ps_ctx ps) <$> sm_class (cr_ephash (ps_ctx ps)) RT_NAME_SPACE),
    (rte_line (ps_ctx ps) <$> sm_class (rt_hash rt) RT_MT_SPACE), (me_line (ps_ctx ps) <$> sm_class (rt_hash rt) RT_ME_SPACE).
  rewrite (routes_size _ _ _ I Ht HA), (owners_size _ _ _ I Ht HA Hn), (ephash_size _ I), !length_fmap.
  split_and!; try done; destruct HA as [HR HO]; pose proof (proj1 (Forall_forall _ _) (ri_tabs _ I) rt Ht) as T.
  - intros k [v Hv]. rewrite <-HR in Hv. unfold route_at in Hv. destruct (habs rt !! ANum k) as [[i|i]|] eqn:Ek; [|done..].
    destruct (ro_live _ _ (ri_refs _ I) (habs rt) _ i (habs_fmap_in _ _ Ht) Ek) as (r & Er & [= Hk]). exists r. split; [done|].
    apply list_elem_of_fmap. exists (ANum k, TRte i). split; [unfold rte_line; cbn; by rewrite Er|]. by apply sm_class_abs; [apply T|].
  - intros s o Hs'. rewrite <-HO in Hs'. unfold owner_at in Hs'. destruct (habs rt !! AStr RT_ME_SPACE s) as [[i|i]|] eqn:Ek; [done| |done].
    destruct (cr_eps (ps_ctx ps) !! i) as [e|] eqn:Ee; [|done]. cbn in Hs'. exists e. split; [done|].
    apply list_elem_of_fmap. exists (AStr RT_ME_SPACE s, TEp i). split; [unfold me_line; cbn; by rewrite Ee, Hs'|]. by apply sm_class_abs; [apply T|].
Qed.

(** The type of a route is reported without its upper half: it is right exactly
    for types from 0 to 65535; the subscription id is right. *)
Theorem reported_route_type sid mtype : in_i32 sid -> in_i32 mtype ->
  rte_sid (build_rt_key sid mtype) = sid /\ rte_type (build_rt_key sid mtype) = mtype mod 65536 /\
  (rte_type (build_rt_key sid mtype) = mtype <-> 0 <= mtype < 65536).
Proof.
  intros Hs Hm. rewrite build_rt_key_val by done. unfold rte_sid, rte_type. pose proof (u32_range sid). pose proof (u32_range mtype).
  assert (Z.land (u32 sid * 2 ^ 32 + u32 mtype) 65535 = mtype mod 65536) as Ht.
  { change 65535 with (Z.ones 16). rewrite Z.land_ones by lia. change (2 ^ 32) with (65536 * 65536). change (2 ^ 16) with 65536. unfold u32. change (2 ^ 32) with (65536 * 65536).
    rewrite (Z.add_comm _ (mtype mod _)), Z.mul_assoc, Z_mod_plus_full. apply Z.mod_mod_divide. by exists 65536. }
  rewrite Ht. split_and!.
  - rewrite Z.shiftr_div_pow2 by lia. rewrite Z.div_add_l, Z.div_small by lia. rewrite Z.add_0_r. unfold i32, u32.
    rewrite Zplus_mod_idemp_l. fold (i32 sid). by apply i32_id.
  - done.
  - pose proof (Z.mod_pos_bound mtype 65536). split; [lia|]. intros. apply Z.mod_small. lia.
Qed.

(** ** Examples *)

Definition ex_on : log_t := rmr_set_vlevel (rmr_vlog_init ex_log_env log_statics) RMR_VL_DEBUG.

Lemma ex_on_ready : log_on ex_on.
Proof. split; [|by vm_compute]. apply set_level_ready, init_ready. by split. Qed.

Abbreviation gtab := (parser_t (gmap akey thing) (gmap akey nat)).
Definition ex_tab : gtab := Eval vm_compute in
  match parse_recs (fun _ => None) true [] (ps_init $"me:4560" ex_ip) ex_small with Ret x => x.2 | UB => ps_init [] None end.
Definition ex_counted := Eval vm_compute in default (MkC (MkAT ∅ ∅) 0 0) (as_act ex_state1).

Lemma stats_report_table_witness :
  exists lg' eps routes owners,
    rt_stats ex_log_env [] true (ps_ctx ex_tab) (cr_rtable (ps_ctx ex_tab)) ex_on = Ret lg' /\
    wrote ex_on (report_lines eps routes owners) lg' /\ length eps = 2%nat /\ length routes = 1%nat /\ length owners = 0%nat.
Proof.
  destruct (stats_report_table (fun _ => None) $"me:4560" ex_ip true [] ex_small ex_acks1 ex_state1 ex_counted ex_tab ex_log_env [] ex_on)
    as (lg' & eps & routes & owners & E & Hw & H1 & H2 & H3 & _);
    [reflexivity|reflexivity|vm_cast_no_check (eq_refl (Ret (ex_acks1, ex_tab)))|exact ex_on_ready|vm_compute; discriminate..|].
  exists lg', eps, routes, owners. split; [exact E|]. split; [exact Hw|]. rewrite H1, H2, H3. vm_compute. split_and!; reflexivity.
Defined.

Lemma reported_route_type_witness :
  rte_sid (build_rt_key 7 65546) = 7 /\ rte_type (build_rt_key 7 65546) = 10.
Proof. destruct (reported_route_type 7 65546) as (H1 & H2 & _); [unfold in_i32; lia..|]. split; [exact H1|exact H2]. Defined.
