(* ===== verification/Diag.v ===== *)
(** What the library writes for a person to read, apart from the reports of
    Stats.v: dump_n and the translation of states of
    src/src/rmr/si/src/sr_si_static.c, rmr_sym_dump and rmr_sym_stats of
    src/src/rmr/common/src/symtab.c; and uta_lookup_rtg of
    src/src/rmr/common/src/tools_static.c, which only the nanomsg transport calls.

    A dump is the list of its lines; [pp] is the text of a pointer. *)

From S2P Require Import Prelude Bytes Tools Symtab Mbuf Send RouteTable Decimal Logging Stats.

(** ** Bytes *)

(** The lines start with the place of their first byte, %04x. *)
Definition dump_place (z : Z) : list Z := hex (Nat.max 4 (Z.to_nat (Z.log2 z / 4 + 1))) z.

(** Up to [i] bytes of a row; [t] bytes were dumped before. *)
Fixpoint dump_row (i : nat) (buf : list Z) (p t n : Z) : comp (list Z * Z) :=
  match i with
  | O => Ret ([], t)
  | S i' =>
      if t <? n then
        c ← get8 buf (p + t);
        '(r, t) ← dump_row i' buf p (t + 1) n;
        Ret (hex 2 c ++ [32] ++ r, t)
      else Ret ([], t)
  end.

Fixpoint dump_rows (rows : nat) (j : Z) (buf : list Z) (p t n : Z) : comp (list (list Z)) :=
  match rows with
  | O => Ret []
  | S rows' =>
      '(r, t) ← dump_row 16 buf p t n;
      rest ← dump_rows rows' (j + 1) buf p t n;
      Ret (($"[DUMP] " ++ dump_place (j * 16) ++ $": " ++ r ++ [10]) :: rest)
  end.

Definition dump_n (buf : list Z) (p : Z) (ptr : list Z) (label : option (list Z)) (n : Z) : comp (list (list Z)) :=
  let head := match label with
              | Some l => [$"[DUMP] " ++ l ++ $" p=" ++ ptr ++ $" " ++ decimal n ++ $" bytes" ++ [10]]
              | None => []
              end in
  let rows := Z.quot n 16 + (if Z.rem n 16 =? 0 then 0 else 1) in
  l ← dump_rows (Z.to_nat rows) 0 buf p 0 n;
  Ret (head ++ l).

Definition dump_40 (buf : list Z) (p : Z) (ptr label : list Z) : comp (list (list Z)) := dump_n buf p ptr (Some label) 40.

(** ** States *)

Definition SI_ERR_ADDR : Z := 17.
Definition ENOTSUP : Z := 95.

(** The state and errno.  The numbers of the socket layer from 1 to 17 are errors. *)
Definition xlate_si_state (state def_state : Z) : Z * Z :=
  if state =? 0 then (RMR_OK, 0)
  else if (1 <=? state) && (state <=? SI_ERR_ADDR) then (def_state, ENOTSUP)
  else (def_state, EAGAIN).

(** ** Symbol tables *)

Section symtab.
Context {V : Type}.
Variable pp : option V -> list Z.
Implicit Types (e : @Sym_ele V) (t : @Sym_tab V).

(** A string entry with a nil value is shown like a number. *)
Definition dump_ele e : comp (list Z) :=
  if match se_val e with Some _ => negb (se_class e =? 0) | None => false end then
    name ← deref (se_name e);
    Ret ($"symtab dump: key=" ++ name ++ $" val@=" ++ pp (se_val e) ++ [10])
  else Ret ($"symtab dump: nkey=" ++ decimal (se_nkey e) ++ $" val@=" ++ pp (se_val e) ++ [10]).

Fixpoint each_line {A} (f : A -> comp (list Z)) (l : list A) : comp (list (list Z)) :=
  match l with [] => Ret [] | a :: l => s ← f a; r ← each_line f l; Ret (s :: r) end.

Definition chains t : list (list (@Sym_ele V)) := chain_of t ∘ Z.of_nat <$> seq 0 (Z.to_nat (st_size t)).

Definition rmr_sym_dump t : comp (list (list Z)) := each_line dump_ele (concat (chains t)).

(** empty, max_chain, maxi and twoper. *)
Record chain_counts := MkCc { cc_empty : Z; cc_max : Z; cc_maxi : Z; cc_two : Z }.

Definition count_chain (c : chain_counts) (i : Z) (ch : list (@Sym_ele V)) : chain_counts :=
  let n := zlen ch in
  let longer := cc_max c <? n in
  MkCc (match ch with [] => cc_empty c + 1 | _ => cc_empty c end)
       (if longer then n else cc_max c) (if longer then i else cc_maxi c)
       (if 1 <? n then cc_two c + 1 else cc_two c).

Definition stats_ele (i : Z) e : comp (list Z) :=
  if negb (se_class e =? 0) then
    name ← deref (se_name e);
    Ret ($" symtab stats: sym: (" ++ decimal i ++ $") key=" ++ name ++ $" val@=" ++ pp (se_val e) ++ $" ref=" ++
         decimal (se_rcount e) ++ $" mod=" ++ decimal (se_mcount e) ++ [10])
  else Ret ($"symtab stats: sym: (" ++ decimal i ++ $") key=" ++ decimal (se_nkey e) ++ $" val@=" ++ pp (se_val e) ++ $" ref=" ++
            decimal (se_rcount e) ++ $" mod=" ++ decimal (se_mcount e) ++ [10]).

Definition long_ele e : comp (list Z) :=
  if negb (se_class e =? 0) then name ← deref (se_name e); Ret ([9] ++ name ++ [10])
  else Ret ([9] ++ decimal (se_nkey e) ++ $" (numeric key)" ++ [10]).

Fixpoint scan_chains (level : Z) (i : Z) (chs : list (list (@Sym_ele V))) (c : chain_counts) : comp (list (list Z) * chain_counts) :=
  match chs with
  | [] => Ret ([], c)
  | ch :: chs =>
      l ← (if 3 <? level then each_line (stats_ele i) ch else Ret []);
      '(r, c) ← scan_chains level (i + 1) chs (count_chain c i ch);
      Ret (l ++ (if 2 <? level then [$"symtab stats: sym: (" ++ decimal i ++ $") chained=" ++ decimal (zlen ch) ++ [10]] else []) ++ r, c)
  end.

Definition stats_text t (c : chain_counts) : list Z :=
  $"symtab stats: sym:" ++ decimal (st_size t) ++ $"(size)  " ++ decimal (st_inhabitants t) ++ $"(inhab) " ++
  decimal (st_size t - cc_empty c) ++ $"(occupied) " ++ decimal (st_deaths t) ++ $"(dead) " ++ decimal (cc_max c) ++ $"(maxch) " ++
  decimal (cc_two c) ++ $"(>2per)" ++ [10].

Definition rmr_sym_stats t (level : Z) : comp (list (list Z)) :=
  '(l, c) ← scan_chains level 0 (chains t) (MkCc 0 0 0 0);
  long ← (if 1 <? level then
            r ← each_line long_ele (chain_of t (cc_maxi c));
            Ret (($"symtab stats: sym: longest chain: idx=" ++ decimal (cc_maxi c) ++ $" has " ++ decimal (cc_max c) ++
                  $" elsements):" ++ [10]) :: r)
          else Ret []);
  Ret (l ++ long ++ [stats_text t c]).
End symtab.

(** ** The address of the routing manager *)

Record rtg_t := MkRtg { rg_addr : option (list Z); rg_port : Z }.

(** [ev] is RMR_RTG_SVC. *)
Definition uta_lookup_rtg (gethostbyname : list Z -> option (list Z)) (ev : option (list Z)) (ctx : option rtg_t) : bool * option rtg_t :=
  match ctx with
  | None => (false, None)
  | Some _ =>
      let '(name, port) :=
        match ev with
        | None => ($"rtg", $"5656")
        | Some e =>
            match strchr (e ++ [0]) 0 58 with
            | None => (e, $"5656")
            | Some k => (take k e, drop (S k) e)
            end
        end in
      let addr := uta_h2ip gethostbyname name in
      (match addr with Some _ => true | None => false end, Some (MkRtg addr (atoi port)))
  end.

(** * Theorems *)

(** ** Bytes *)

Definition unhex (d : Z) : Z := if d <? 58 then d - 48 else d - 87.

Fixpoint undump (s : list Z) : list Z :=
  match s with
  | h :: l :: 32 :: r => 16 * unhex h + unhex l :: undump r
  | _ => []
  end.

(** The bytes that a line of a dump shows. *)
Definition dumped (line : list Z) : list Z := undump (drop 13 line).

Lemma length_hex n z : length (hex n z) = n.
Proof. revert z. induction n as [|n IH]; intros z; [done|]. cbn. rewrite length_app, IH. cbn. lia. Qed.

Lemma undump_byte c r : 0 <= c < 256 -> undump (hex 2 c ++ [32] ++ r) = c :: undump r.
Proof.
  intros Hc. assert (forallb (fun c => 16 * unhex (hex_digit (Z.land (Z.shiftr c 4) 15)) + unhex (hex_digit (Z.land c 15)) =? c)
    (Z.of_nat <$> seq 0 256) = true) as F by by vm_compute.
  rewrite forallb_forall in F. specialize (F c). cbn [hex app undump]. f_equal.
  apply Z.eqb_eq, F. apply in_map_iff. exists (Z.to_nat c). split; [lia|]. apply in_seq. lia.
Qed.

Lemma slice_step (buf : list Z) off n : 0 <= off -> 1 <= n -> off < zlen buf ->
  exists b, get8 buf off = Ret b /\ b ∈ buf /\ slice buf off n = b :: slice buf (off + 1) (n - 1).
Proof.
  intros Ho Hn Hl. unfold zlen in Hl. destruct (lookup_lt_is_Some_2 buf (Z.to_nat off)) as [b Hb]; [lia|].
  exists b. split_and!.
  - unfold get8, zlen. destruct (Z.ltb_spec off 0), (Z.leb_spec (Z.of_nat (length buf)) off); try lia. cbn [orb]. by rewrite Hb.
  - by eapply list_elem_of_lookup_2.
  - unfold slice. rewrite (drop_S _ _ _ Hb). replace (Z.to_nat n) with (S (Z.to_nat (n - 1))) by lia. cbn.
    do 3 f_equal. lia.
Qed.

Section dump.
Variables (buf : list Z) (p n : Z).
Hypothesis Hbytes : Forall (fun b => 0 <= b < 256) buf.
Hypothesis Hp : 0 <= p.
Hypothesis Hfit : p + n <= zlen buf.

Lemma dump_row_ok i t : 0 <= t <= n ->
  exists r, dump_row i buf p t n = Ret (r, Z.min n (t + Z.of_nat i)) /\
    undump (r ++ [10]) = slice buf (p + t) (Z.min (Z.of_nat i) (n - t)).
Proof.
  revert t. induction i as [|i IH]; intros t Ht; cbn [dump_row].
  { exists []. rewrite Z.min_r, Z.min_l by lia. split; [f_equal; f_equal; lia|done]. }
  destruct (Z.ltb_spec t n) as [Hlt|Hge].
  2:{ exists []. rewrite !Z.min_l, Z.min_r by lia. replace (n - t) with 0 by lia. split; [f_equal; f_equal; lia|done]. }
  destruct (slice_step buf (p + t) (Z.min (Z.of_nat (S i)) (n - t))) as (b & -> & Hb & ->); [lia..|].
  destruct (IH (t + 1)) as (r & Er & Hr); [lia|]. cbn [mbind comp_bind]. rewrite Er. cbn [mbind comp_bind].
  exists (hex 2 b ++ [32] ++ r). split; [f_equal; f_equal; lia|].
  rewrite <-!app_assoc. rewrite undump_byte by (by eapply Forall_forall in Hbytes). rewrite Hr. f_equal. f_equal; lia.
Qed.

Lemma dump_rows_ok rows j : 0 <= j -> 16 * j <= n -> 0 <= 16 * (j + Z.of_nat rows) - n < 16 -> j + Z.of_nat rows <= 4096 ->
  exists ls, dump_rows rows j buf p (16 * j) n = Ret ls /\ length ls = rows /\
    concat (dumped <$> ls) = slice buf (p + 16 * j) (n - 16 * j).
Proof.
  revert j. induction rows as [|rows IH]; intros j Hj H1 H2 H3; cbn [dump_rows].
  { exists []. replace (n - 16 * j) with 0 by lia. by split_and!. }
  destruct (dump_row_ok 16 (16 * j)) as (r & -> & Hr); [lia|]. cbn [mbind comp_bind].
  assert (exists ls, dump_rows rows (j + 1) buf p (Z.min n (16 * j + Z.of_nat 16)) n = Ret ls /\ length ls = rows /\
    concat (dumped <$> ls) = slice buf (p + 16 * j + Z.min 16 (n - 16 * j)) (n - 16 * j - Z.min 16 (n - 16 * j))) as (ls & -> & Hl & Hc).
  { destruct rows as [|rows].
    - exists []. replace (n - 16 * j - Z.min 16 (n - 16 * j)) with 0 by lia. by split_and!.
    - rewrite Z.min_r, Z.min_l by lia. destruct (IH (j + 1)) as (ls & E & Hl & Hc); [lia..|]. exists ls.
      replace (16 * j + Z.of_nat 16) with (16 * (j + 1)) by lia. split_and!; [done..|].
      rewrite Hc. f_equal; lia. }
  cbn [mbind comp_bind]. eexists. split; [done|]. split; [cbn; by rewrite Hl|].
  cbn [fmap list_fmap concat]. rewrite Hc. set (k := Z.min 16 (n - 16 * j)) in *. replace (n - 16 * j) with (k + (n - 16 * j - k)) at 2 by lia. rewrite slice_split by lia.
  f_equal. unfold dumped. change (Z.of_nat 16) with 16 in Hr. fold k in Hr. rewrite <-Hr. unfold dump_place.
  assert (Nat.max 4 (Z.to_nat (Z.log2 (j * 16) / 4 + 1)) = 4%nat) as ->.
  { destruct (Z.eq_dec j 0) as [->|]; [done|]. assert (Z.log2 (j * 16) < 16) by (apply Z.log2_lt_pow2; lia).
    assert (Z.log2 (j * 16) / 4 < 4) by (apply Z.div_lt_upper_bound; lia). lia. }
  pose proof (length_hex 4 (j * 16)) as Hh. destruct (hex 4 (j * 16)) as [|a [|b [|c [|d [|]]]]]; cbn in Hh; done.
Qed.
End dump.

(** A dump of up to 64k shows the bytes of the buffer, all and in order, 16 to a line. *)
Theorem dump_shows_bytes buf p ptr n :
  Forall (fun b => 0 <= b < 256) buf -> 0 <= p -> 0 <= n <= 65536 -> p + n <= zlen buf ->
  exists ls, dump_n buf p ptr None n = Ret ls /\ zlen ls = (n + 15) / 16 /\ concat (dumped <$> ls) = slice buf p n.
Proof.
  intros Hb Hp Hn Hfit. unfold dump_n. rewrite Z.quot_div_nonneg, Z.rem_mod_nonneg by lia.
  set (rows := n / 16 + (if n mod 16 =? 0 then 0 else 1)).
  assert (0 <= 16 * rows - n < 16) as Hr.
  { unfold rows. pose proof (Z.div_mod n 16 ltac:(lia)). pose proof (Z.mod_pos_bound n 16 ltac:(lia)). destruct (Z.eqb_spec (n mod 16) 0); lia. }
  destruct (dump_rows_ok buf p n Hb Hp Hfit (Z.to_nat rows) 0) as (ls & E & Hl & Hc); [lia..|].
  change (16 * 0) with 0 in *. rewrite E. cbn [mbind comp_bind app]. exists ls. split; [done|]. split.
  - unfold zlen. rewrite Hl. rewrite Z2Nat.id by lia. apply Z.div_unique with (n + 15 - 16 * rows); lia.
  - rewrite Hc. f_equal; lia.
Qed.

Lemma dump_shows_bytes_witness :
  exists ls, dump_n (Z.of_nat <$> seq 0 60) 10 $"0x7f" None 40 = Ret ls /\ zlen ls = (40 + 15) / 16 /\
    concat (dumped <$> ls) = slice (Z.of_nat <$> seq 0 60) 10 40.
Proof.
  apply (dump_shows_bytes (Z.of_nat <$> seq 0 60) 10 $"0x7f" 40); [|lia|lia|by vm_compute].
  apply Forall_forall. intros b (k & -> & Hk%elem_of_seq)%list_elem_of_fmap. lia.
Defined.

(** ** Symbol tables *)

Section tables.
Context {V : Type}.
Variable pp : option V -> list Z.
Implicit Types (t : @Sym_tab V) (c : chain_counts) (ch : list (@Sym_ele V)) (chs : list (list (@Sym_ele V))).

Lemma chains_wf t : sym_wf t -> chains t = st_symlist t.
Proof.
  intros W. apply list_eq. intros i. unfold chains. rewrite list_lookup_fmap. pose proof (wf_len t W) as Hl.
  destruct (decide (i < length (st_symlist t))%nat) as [Hi|Hi].
  - rewrite lookup_seq_lt by lia. cbn. rewrite <-(chain_of_lookup t (Z.of_nat i) W) by lia. by rewrite Nat2Z.id.
  - rewrite lookup_seq_ge by lia. symmetry. apply lookup_ge_None. lia.
Qed.

(** The entries that can be printed: a string key has a name. *)
Definition named (e : @Sym_ele V) : Prop := se_class e <> 0 -> is_Some (se_name e).

Lemma wf_named t ch e : sym_wf t -> ch ∈ st_symlist t -> e ∈ ch -> named e.
Proof.
  intros W [i Hi]%list_elem_of_lookup He. pose proof (wf_ele t W i ch Hi) as Hf. rewrite Forall_forall in Hf.
  destruct (Hf e He) as [Hok _]. unfold ele_ok in Hok. intros Hc. destruct (Z.eqb_spec (se_class e) 0); [done|]. apply Hok.
Qed.

Lemma each_line_total {A} (f : A -> comp (list Z)) (l : list A) :
  (forall a, a ∈ l -> exists s, f a = Ret s) -> exists r, each_line f l = Ret r /\ length r = length l.
Proof.
  induction l as [|a l IH]; intros Hf; [by exists []|]. destruct (Hf a) as [s Es]; [by left|].
  destruct IH as (r & Er & Hl); [intros b Hb; apply Hf; by right|]. cbn. rewrite Es. cbn. rewrite Er. cbn.
  eexists. split; [done|]. cbn. by rewrite Hl.
Qed.

(** A dump of a table has a line for each of its entries. *)
Theorem sym_dump_total t : sym_wf t -> exists ls, rmr_sym_dump pp t = Ret ls /\ zlen ls = st_inhabitants t.
Proof.
  intros W. unfold rmr_sym_dump. rewrite chains_wf by done.
  destruct (each_line_total (dump_ele pp) (concat (st_symlist t))) as (ls & E & Hl).
  - intros e He. apply list_elem_of_In, in_concat in He as (ch & Hch%list_elem_of_In & He%list_elem_of_In). pose proof (wf_named t ch e W ltac:(done) ltac:(done)) as Hn. unfold dump_ele.
    destruct (se_val e); [|eauto]. destruct (Z.eqb_spec (se_class e) 0); cbn [negb]; [eauto|].
    destruct Hn as [s ->]; [done|]. cbn. eauto.
  - exists ls. split; [done|]. by rewrite (wf_inhab t W), <-Hl.
Qed.

Lemma scan_total level chs i c :
  (forall ch e, ch ∈ chs -> e ∈ ch -> named e) ->
  exists ls, scan_chains pp level i chs c = Ret (ls, (foldl (fun ic ch => (ic.1 + 1, count_chain ic.2 ic.1 ch)) (i, c) chs).2).
Proof.
  revert i c. induction chs as [|ch chs IH]; intros i c Hn; [by exists []|]. cbn [scan_chains foldl].
  assert (exists l, (if 3 <? level then each_line (stats_ele pp i) ch else Ret []) = Ret l) as [l ->].
  { destruct (3 <? level); [|eauto]. destruct (each_line_total (stats_ele pp i) ch) as (l & -> & _); [|eauto].
    intros e He. unfold stats_ele. destruct (Z.eqb_spec (se_class e) 0); cbn [negb]; [eauto|].
    destruct (Hn ch e) as [nm ->]; [by left|done..|]. cbn. eauto. }
  cbn [mbind comp_bind]. destruct (IH (i + 1) (count_chain c i ch)) as [ls ->].
  { intros ch' e Hc. apply Hn. by right. }
  cbn [mbind comp_bind fst snd]. eauto.
Qed.

(** The counts after the chains [chs], which start at index 0. *)
Record counted (chs : list (list (@Sym_ele V))) c : Prop := {
  ct_empty : cc_empty c = zlen (filter (fun ch => ch = []) chs);
  ct_two : cc_two c = zlen (filter (fun ch => (1 < length ch)%nat) chs);
  ct_max : forall ch, ch ∈ chs -> zlen ch <= cc_max c;
  ct_maxi : cc_max c = zlen (default [] (chs !! Z.to_nat (cc_maxi c)));
  ct_idx : 0 <= cc_maxi c < Z.max 1 (zlen chs)
}.

Lemma counted_snoc chs c ch : counted chs c -> counted (chs ++ [ch]) (count_chain c (zlen chs) ch).
Proof.
  intros [He Ht Hm Hi Hx]. assert (zlen (chs ++ [ch]) = zlen chs + 1) as Hl by (unfold zlen; rewrite length_app; cbn; lia).
  assert (0 <= zlen chs) by (unfold zlen; lia).
  unfold count_chain. split; cbn [cc_empty cc_max cc_maxi cc_two].
  - rewrite filter_app. unfold zlen in *. rewrite length_app. cbn. destruct ch; cbn; case_decide; try done; cbn; lia.
  - rewrite filter_app. unfold zlen in *. rewrite length_app. cbn. case_decide; cbn; destruct (Z.ltb_spec 1 (Z.of_nat (length ch))); lia.
  - intros ch' [Hc| ->%list_elem_of_singleton]%elem_of_app; destruct (Z.ltb_spec (cc_max c) (zlen ch)); try lia.
    + specialize (Hm ch' Hc). lia.
    + by apply Hm.
  - destruct (Z.ltb_spec (cc_max c) (zlen ch)) as [Hlt|Hge].
    + replace (Z.to_nat (zlen chs)) with (length chs) by (unfold zlen; lia). by rewrite lookup_app_r, Nat.sub_diag by lia.
    + destruct (decide (Z.to_nat (cc_maxi c) < length chs)%nat); [by rewrite lookup_app_l by lia|].
      unfold zlen in Hx. assert (chs = []) as -> by (apply length_zero_iff_nil; lia).
      assert (cc_maxi c = 0) as E by (cbn in Hx; lia). rewrite E in Hi |- *. change (cc_max c = 0) in Hi. change (cc_max c = zlen ch). unfold zlen in *. lia.
  - rewrite Hl. destruct (cc_max c <? zlen ch); lia.
Qed.

Lemma counted_all chs chs0 c : counted chs0 c ->
  counted (chs0 ++ chs) (foldl (fun ic ch => (ic.1 + 1, count_chain ic.2 ic.1 ch)) (zlen chs0, c) chs).2.
Proof.
  revert chs0 c. induction chs as [|ch chs IH]; intros chs0 c Hc; [by rewrite app_nil_r|].
  cbn [foldl fst snd]. replace (zlen chs0 + 1) with (zlen (chs0 ++ [ch])) by (unfold zlen; rewrite length_app; cbn; lia).
  rewrite cons_middle, app_assoc. apply IH. by apply counted_snoc.
Qed.

(** The statistics of a well-formed table, at any level: they are always defined,
    the last line has the true numbers of entries, of empty chains and of chains
    with more than one entry, and the chain listed is a longest one. *)
Theorem sym_stats_right t level : sym_wf t ->
  exists ls c, rmr_sym_stats pp t level = Ret (ls ++ [stats_text t c]) /\
    st_inhabitants t = zlen (concat (chains t)) /\
    counted (chains t) c /\ cc_max c = zlen (chain_of t (cc_maxi c)).
Proof.
  intros W. unfold rmr_sym_stats. rewrite chains_wf by done.
  destruct (scan_total level (st_symlist t) 0 (MkCc 0 0 0 0)) as [ls ->]; [by intros; eapply wf_named|].
  set (c := (foldl _ _ _).2). assert (counted (st_symlist t) c) as Hc.
  { apply (counted_all (st_symlist t) []). split; cbn; try done; lia || (intros ch Hch; by apply not_elem_of_nil in Hch). }
  cbn [mbind comp_bind]. assert (cc_max c = zlen (chain_of t (cc_maxi c))) as Hm by apply (ct_maxi _ _ Hc).
  assert (exists long, (if 1 <? level then r ← each_line long_ele (chain_of t (cc_maxi c));
            Ret (($"symtab stats: sym: longest chain: idx=" ++ decimal (cc_maxi c) ++ $" has " ++ decimal (cc_max c) ++
                  $" elsements):" ++ [10]) :: r)
          else Ret []) = Ret long) as [long ->].
  { destruct (1 <? level); [|eauto]. destruct (each_line_total long_ele (chain_of t (cc_maxi c))) as (l & -> & _); [|cbn; eauto].
    intros e He. assert (chain_of t (cc_maxi c) ∈ st_symlist t) as Hin.
    { unfold chain_of in *. destruct (st_symlist t !! Z.to_nat (cc_maxi c)) eqn:E; [by eapply list_elem_of_lookup_2|]. by apply not_elem_of_nil in He. }
    pose proof (wf_named t _ e W Hin He) as Hn. unfold long_ele. destruct (Z.eqb_spec (se_class e) 0); cbn [negb]; [eauto|].
    destruct Hn as [nm ->]; [done|]. cbn. eauto. }
  cbn [mbind comp_bind]. exists (ls ++ long), c. rewrite <-app_assoc. split_and!; try done. apply (wf_inhab t W).
Qed.
End tables.

(** ** The address of the routing manager *)

(** A service with a port, one without and none at all. *)
Theorem lookup_rtg_parts gethostbyname name port c :
  is_cstr name -> 58 ∉ name -> in_i32 port ->
  let addr n := uta_h2ip gethostbyname n in
  let found n := match addr n with Some _ => true | None => false end in
  uta_lookup_rtg gethostbyname (Some (name ++ $":" ++ decimal port)) (Some c) = (found name, Some (MkRtg (addr name) port)) /\
  uta_lookup_rtg gethostbyname (Some name) (Some c) = (found name, Some (MkRtg (addr name) 5656)) /\
  uta_lookup_rtg gethostbyname None (Some c) = (found $"rtg", Some (MkRtg (addr $"rtg") 5656)).
Proof.
  intros Hn Hc Hp addr found. unfold uta_lookup_rtg, strchr. rewrite !drop_0. split_and!.
  - change ($":" ++ decimal port) with (58 :: decimal port). rewrite <-app_assoc. cbn [app].
    rewrite (strchr_at_Some name _ 0 58 Hn Hc). cbn [Nat.add]. rewrite take_app_length.
    replace (drop (S (length name)) (name ++ 58 :: decimal port)) with (decimal port)
      by (symmetry; by rewrite cons_middle, app_assoc, drop_app_length' by (rewrite length_app; cbn; lia)).
    by rewrite atoi_decimal.
  - rewrite (strchr_at_None name 0 58 []) by done. done.
  - done.
Qed.
