(* ===== verification/NngMbuf.v ===== *)
(** Message buffers of the NNG transport: the mbuf and receive functions of
    src/src/rmr/nng/src/sr_nng_static.c and the functions on one message of
    src/src/rmr/nng/src/rmr_nng.c.

    NNG is a library: a message of it is its body, which starts with the RMR
    header; there is no transport header.  What a new body holds is the argument
    [malloc_bytes], what is received that of [rcv_msg_nng].  As in Mbuf.v a message
    has one buffer and its pointers are offsets into it, so that a clone that
    points into the buffer of the original ([clone_msg_nng] of a version 1
    message) is [UB]. *)

From S2P Require Import Prelude Bytes Tools Mbuf.

(** What the functions of NNG return. *)
Inductive nng_err := NNG_OK | NNG_EAGAIN | NNG_ETIMEDOUT | NNG_ENOTSUP | NNG_EINVAL | NNG_ENOMEM | NNG_ESTATE |
  NNG_ECONNSHUT | NNG_ECLOSED | NNG_OTHER (code : Z).

#[global] Instance nng_err_eq : EqDecision nng_err.
Proof. solve_decision. Defined.

Definition RMR_ERR_EMPTY : Z := 3.
Definition RMR_ERR_RCVFAILED : Z := 11.
Definition MFL_RAW : Z := 8.
Definition MAX_RCV_BYTES : Z := 2048.
Definition sizeof_v1mhdr : Z := 144.

(** errno values. *)
Definition E_AGAIN : Z := 11.
Definition E_NOMEM : Z := 12.
Definition E_INVAL : Z := 22.
Definition E_BADE : Z := 52.
Definition E_BADFD : Z := 77.
Definition E_NOTSUP : Z := 95.

(** The state for a message, and errno. *)
Definition xlate_nng_state (state : nng_err) (def_state : Z) : Z * Z :=
  match state with
  | NNG_OK => (RMR_OK, 0)
  | NNG_EAGAIN | NNG_ETIMEDOUT => (RMR_ERR_RETRY, E_AGAIN)
  | NNG_ENOTSUP => (def_state, E_NOTSUP)
  | NNG_EINVAL => (def_state, E_INVAL)
  | NNG_ENOMEM => (def_state, E_NOMEM)
  | NNG_ESTATE | NNG_ECONNSHUT | NNG_ECLOSED => (def_state, E_BADFD)
  | NNG_OTHER _ => (def_state, E_BADE)
  end.

(** [n] bytes are written: the string, cut or filled up with 0. *)
Definition strncpy (buf : list Z) (off : Z) (src : list Z) (n : Z) : comp (list Z) :=
  let s := take (Z.to_nat n) src in put buf off (s ++ replicate (Z.to_nat n - length s) 0).

Section nng.
Variable malloc_bytes : Z -> list Z.

(** The state that the caller gives is overwritten with the result of the
    allocation. *)
Definition alloc_zcmsg_nng (ctx : msg_ctx) (msg : option mbuf) (size state trlo : Z) : comp mbuf :=
  let tr_len := if 0 <? trlo then trlo else x_trace_data_len ctx in
  let mlen := u64 (sizeof_mhdr + tr_len + x_d1_len ctx + x_d2_len ctx) in
  let mlen := u64 (mlen + (if 0 <? size then size else x_max_plen ctx)) in
  let mlen := match msg with None => mlen | Some m => u64 (m_alloc_len m) end in
  let state := 0 in
  buf ← memset (malloc_bytes mlen) 0 0 sizeof_mhdr;
  buf ← put32n buf o_rmr_ver RMR_MSG_VER;
  buf ← put32n buf o_sub_id UNSET_SUBID;
  buf ← SET_HDR_LEN buf 0;
  buf ← SET_HDR_TR_LEN buf 0 (x_trace_data_len ctx);
  buf ← SET_HDR_D1_LEN buf 0 (x_d1_len ctx);
  payload ← PAYLOAD_ADDR buf 0;
  buf ← strncpy buf o_src (x_my_name ctx) RMR_MAX_SRC;
  buf ← strncpy buf o_srcip (x_my_ip ctx) RMR_MAX_SRC;
  Ret (MkMbuf state UNSET_MSGTYPE 0 (Some payload) (Some o_xid) UNSET_SUBID 0 (Some buf) (Some 0) MFL_ZEROCOPY (i32 mlen) 0 0).

(** The state given is not used. *)
Definition alloc_mbuf_nng (state : Z) : mbuf :=
  MkMbuf RMR_ERR_UNSET UNSET_MSGTYPE (-1) None None UNSET_SUBID 0 None None 0 (-1) 0 0.

(** Version 1 was sent in the byte order of the host. *)
Definition ref_tpbuf_nng (msg : mbuf) (alen : Z) : comp mbuf :=
  buf ← deref (m_tp_buf msg);
  v ← get32n buf o_rmr_ver;
  '(ver, buf) ← (if load32 buf o_rmr_ver =? 1 then buf ← put32n buf o_rmr_ver 1; Ret (1, buf) else Ret (v, buf));
  plen ← get32n buf o_plen;
  mt ← get32n buf o_mtype;
  let alloc_len := i32 alen in
  '(payload, sid, hlen) ←
    (if ver =? 1 then Ret (sizeof_v1mhdr, UNSET_SUBID, sizeof_v1mhdr)
     else p ← PAYLOAD_ADDR buf 0; s ← get32n buf o_sub_id; hl ← RMR_HDR_LEN buf 0; Ret (p, i32 s, i32 hl));
  let len := i32 plen in
  let trunc := alloc_len - hlen <? len in
  Ret (MkMbuf (if trunc then RMR_ERR_TRUNC else RMR_OK) (i32 mt) (if trunc then alloc_len - hlen else len)
         (Some payload) (Some o_xid) sid (m_tp_state msg) (Some buf) (Some 0)
         (Z.lor (m_flags msg) MFL_ZEROCOPY) alloc_len (m_rts_fd msg) (m_cookie msg)).

Definition clone_msg_nng (old_msg : mbuf) : comp mbuf :=
  let mlen := u64 (m_alloc_len old_msg) in
  obuf ← deref (m_tp_buf old_msg);
  oh ← deref (m_header old_msg);
  opl ← deref (m_payload old_msg);
  let buf := malloc_bytes mlen in
  v ← get32n obuf (oh + o_rmr_ver);
  if v =? 1 then UB
  else
    hl ← RMR_HDR_LEN obuf oh;
    buf ← memcpy buf 0 obuf oh hl;
    payload ← PAYLOAD_ADDR buf 0;
    buf ← memcpy buf payload obuf opl (m_len old_msg);
    Ret (MkMbuf (m_state old_msg) (m_mtype old_msg) (m_len old_msg) (Some payload) (Some o_xid)
           (m_sub_id old_msg) 0 (Some buf) (Some 0) (Z.lor (m_flags old_msg) MFL_ZEROCOPY) (i32 mlen) 0 0).

Definition realloc_msg_nng (old_msg : mbuf) (tr_len : Z) : comp mbuf :=
  obuf ← deref (m_tp_buf old_msg);
  oh ← deref (m_header old_msg);
  opl ← deref (m_payload old_msg);
  trl ← RMR_TR_LEN obuf oh;
  let mlen := u64 (m_alloc_len old_msg + (tr_len - i32 trl)) in
  let buf := malloc_bytes mlen in
  v ← get32n obuf (oh + o_rmr_ver);
  if v =? 1 then UB
  else
    buf ← memcpy buf 0 obuf oh sizeof_mhdr;
    buf ← SET_HDR_TR_LEN buf 0 tr_len;
    buf ← copy_data buf 0 obuf oh;
    payload ← PAYLOAD_ADDR buf 0;
    buf ← memcpy buf payload obuf opl (m_len old_msg);
    Ret (MkMbuf (m_state old_msg) (m_mtype old_msg) (m_len old_msg) (Some payload) (Some o_xid)
           (m_sub_id old_msg) 0 (Some buf) (Some 0) (Z.lor (m_flags old_msg) MFL_ZEROCOPY) (i32 mlen) 0 0).

(** [None] is the nil return for a bad argument. *)
Definition realloc_payload_nng (old : option mbuf) (payload_len : Z) (copy clone : bool) : comp (option mbuf) :=
  match old with
  | None => Ret None
  | Some old_msg =>
      if payload_len <=? 0 then Ret None else
      obuf ← deref (m_tp_buf old_msg);
      oh ← deref (m_header old_msg);
      hl ← RMR_HDR_LEN obuf oh;
      let old_psize := i32 (m_alloc_len old_msg - hl) in
      if negb clone && (payload_len <=? old_psize) then Ret (Some old_msg) else
      let hdr_len := i32 hl in
      let nm := if clone then mbuf0 else old_msg in
      let mlen := u64 (hdr_len + (if old_psize <? payload_len then payload_len else old_psize)) in
      buf ← SET_HDR_LEN (malloc_bytes mlen) 0;
      buf ← memcpy buf 0 obuf oh (if copy then u32 (old_psize + hl) else hl);
      nm ← ref_tpbuf_nng (set_tp_buf (Some buf) nm) mlen;
      Ret (Some (if copy
        then MkMbuf (m_state nm) (m_mtype old_msg) (m_len old_msg) (m_payload nm) (m_xaction nm)
               (m_sub_id old_msg) (m_tp_state nm) (m_tp_buf nm) (m_header nm) (m_flags nm)
               (m_alloc_len nm) (m_rts_fd nm) (m_cookie nm)
        else MkMbuf (m_state nm) (-1) 0 (m_payload nm) (m_xaction nm) (-1)
               (m_tp_state nm) (m_tp_buf nm) (m_header nm) (m_flags nm)
               (m_alloc_len nm) (m_rts_fd nm) (m_cookie nm)))
  end.

(** ** Receiving *)

(** [got]: what nng_recvmsg returns and the message it gives. *)
Definition rcv_msg_nng (old_msg : option mbuf) (got : nng_err * option (list Z)) : comp mbuf :=
  let m := match old_msg with Some m => m | None => alloc_mbuf_nng RMR_OK end in
  let msg := MkMbuf (m_state m) (m_mtype m) 0 None None (m_sub_id m) (m_tp_state m) None (m_header m) (m_flags m) 0 (m_rts_fd m) (m_cookie m) in
  let '(state, errno) := xlate_nng_state got.1 RMR_ERR_RCVFAILED in
  let msg := set_state state (set_tp_buf got.2 msg) in
  if negb (state =? RMR_OK) then Ret (set_tp_state errno msg)
  else
    let msg := set_tp_state 0 msg in
    match got.2 with
    | None => Ret (set_state RMR_ERR_EMPTY msg)
    | Some body =>
        let rsize := zlen body in
        if sizeof_v1mhdr <=? rsize then
          msg ← ref_tpbuf_nng msg rsize;
          Ret (set_flags (Z.lor (m_flags msg) MFL_ADDSRC) msg)
        else
          Ret (MkMbuf RMR_ERR_EMPTY UNSET_MSGTYPE 0 None None UNSET_SUBID 0 (Some body) (m_header msg)
                 (Z.lor (m_flags msg) MFL_ZEROCOPY) (i32 rsize) (m_rts_fd msg) (m_cookie msg))
    end.

(** A message without a header, for the route table collector. *)
Definition rcv_payload_nng (ctx : msg_ctx) (old_msg : option mbuf) (got : nng_err * option (list Z)) : comp mbuf :=
  msg ← match old_msg with Some m => Ret m | None => alloc_zcmsg_nng ctx None MAX_RCV_BYTES RMR_OK (-1) end;
  let '(state, _) := xlate_nng_state got.1 RMR_ERR_RCVFAILED in
  if negb (state =? RMR_OK)
  then Ret (set_state state (match got.2 with Some _ => set_tp_buf got.2 msg | None => msg end))
  else
    body ← deref got.2;
    Ret (MkMbuf RMR_OK UNSET_MSGTYPE (i32 (zlen body)) (Some 0) None UNSET_SUBID (m_tp_state msg) (Some body) (Some 0)
           MFL_RAW (i32 (zlen body)) (m_rts_fd msg) (m_cookie msg)).

(** ** The public functions on one message *)

Definition rmr_payload_size_nng (m : option mbuf) : comp Z :=
  match m with
  | None => Ret (-1)
  | Some m =>
      match m_header m with
      | None => Ret (-1)
      | Some h => buf ← deref (m_tp_buf m); hl ← RMR_HDR_LEN buf h; Ret (i32 (u32 (m_alloc_len m - hl)))
      end
  end.

Definition rmr_alloc_msg_nng (ctx : option msg_ctx) (size : Z) : comp (option mbuf) :=
  match ctx with
  | None => Ret None
  | Some ctx => m ← alloc_zcmsg_nng ctx None size 0 (-1); Ret (Some m)
  end.

Definition rmr_realloc_payload_nng (old : option mbuf) (new_len : Z) (copy clone : bool) : comp (option mbuf) :=
  match old with None => Ret None | Some _ => realloc_payload_nng old new_len copy clone end.
End nng.

(** * Theorems *)

(** ** Headers *)

(** The lengths in a header of the current version. *)
Record hdr_of (body : list Z) (l0 l1 l2 l3 : Z) : Prop := {
  ho_bytes : Forall is_byte body;
  ho_size : sizeof_mhdr <= zlen body < 2 ^ 31;
  ho_ver : load32 body o_rmr_ver <> 1 /\ load32n body o_rmr_ver <> 1;
  ho_l0 : load32n body o_len0 = l0;
  ho_l1 : load32n body o_len1 = l1;
  ho_l2 : load32n body o_len2 = l2;
  ho_l3 : load32n body o_len3 = l3;
  ho_sum : l0 + l1 + l2 + l3 < 2 ^ 31
}.

(** ... that leave the payload inside of the message. *)
Definition fits (body : list Z) (l0 l1 l2 l3 : Z) : Prop := hdr_of body l0 l1 l2 l3 /\ l0 + l1 + l2 + l3 <= zlen body.

Section header.
Context {body : list Z} {l0 l1 l2 l3 : Z}.
Hypothesis F : hdr_of body l0 l1 l2 l3.

Lemma ho_range : 0 <= l0 /\ 0 <= l1 /\ 0 <= l2 /\ 0 <= l3 /\ l0 + l1 + l2 + l3 < 2 ^ 31.
Proof.
  destruct F as [Hb Hs _ <- <- <- <- Hsum]. pose proof (load32n_range body o_len0 Hb). pose proof (load32n_range body o_len1 Hb).
  pose proof (load32n_range body o_len2 Hb). pose proof (load32n_range body o_len3 Hb). lia.
Qed.

Lemma ho_hdr_lens : hdr_lens body 0 = Ret (l0, l1, l2, l3).
Proof.
  destruct F as [_ Hs _ E0 E1 E2 E3 _]. unfold hdr_lens. rewrite !Z.add_0_l.
  rewrite !get32n_ret by (unfold o_len0, o_len1, o_len2, o_len3, sizeof_mhdr in *; lia). cbn [mbind comp_bind]. by rewrite E0, E1, E2, E3.
Qed.

Lemma ho_payload_addr : PAYLOAD_ADDR body 0 = Ret (l0 + l1 + l2 + l3).
Proof. unfold PAYLOAD_ADDR. rewrite ho_hdr_lens. cbn. f_equal. Qed.

Lemma ho_hdr_len : RMR_HDR_LEN body 0 = Ret (l0 + l1 + l2 + l3).
Proof. pose proof ho_range. unfold RMR_HDR_LEN. rewrite ho_hdr_lens. cbn [mbind comp_bind]. by rewrite u32_id by lia. Qed.

(** A message referred to by its buffer. *)
Lemma ho_ref m : m_tp_buf m = Some body ->
  let room := zlen body - (l0 + l1 + l2 + l3) in
  let len := i32 (load32n body o_plen) in
  ref_tpbuf_nng m (zlen body) = Ret (MkMbuf (if room <? len then RMR_ERR_TRUNC else RMR_OK) (i32 (load32n body o_mtype)) (if room <? len then room else len)
    (Some (l0 + l1 + l2 + l3)) (Some o_xid) (i32 (load32n body o_sub_id)) (m_tp_state m) (Some body) (Some 0) (Z.lor (m_flags m) MFL_ZEROCOPY)
    (zlen body) (m_rts_fd m) (m_cookie m)).
Proof.
  intros Hb. cbv zeta. pose proof ho_range as Hr. destruct F as [_ Hs [Hv Hv'] _ _ _ _ Hsum]. unfold ref_tpbuf_nng. rewrite Hb.
  unfold sizeof_mhdr in Hs. cbn [deref mbind comp_bind].
  rewrite get32n_ret by (unfold o_rmr_ver; lia). cbn [mbind comp_bind].
  destruct (Z.eqb_spec (load32 body o_rmr_ver) 1); [done|]. cbn [mbind comp_bind].
  rewrite !get32n_ret by (unfold o_plen, o_mtype, o_sub_id; lia). cbn [mbind comp_bind].
  destruct (Z.eqb_spec (load32n body o_rmr_ver) 1); [done|]. rewrite ho_payload_addr. cbn [mbind comp_bind]. rewrite ho_hdr_len. cbn [mbind comp_bind].
  rewrite (i32_id (zlen body)), (i32_id (l0 + l1 + l2 + l3)) by (unfold in_i32; lia). done.
Qed.
End header.

(** A received message whose header lengths fit what was received: the payload
    is inside of the buffer, also when the sender's payload was cut, which the
    state tells, and the length is what the sender says or what there is. *)
Theorem nng_received_in_bounds old body l0 l1 l2 l3 :
  fits body l0 l1 l2 l3 -> load32n body o_plen < 2 ^ 31 ->
  exists m, rcv_msg_nng old (NNG_OK, Some body) = Ret m /\ m_tp_buf m = Some body /\
    m_payload m = Some (l0 + l1 + l2 + l3) /\ 0 <= l0 + l1 + l2 + l3 /\ 0 <= m_len m /\ l0 + l1 + l2 + l3 + m_len m <= zlen body /\
    m_len m <= load32n body o_plen /\
    (m_state m = RMR_OK <-> m_len m = load32n body o_plen) /\ (m_state m = RMR_OK \/ m_state m = RMR_ERR_TRUNC).
Proof.
  intros [F Hsum] Hp. pose proof (ho_range F) as Hr. pose proof (ho_size _ _ _ _ _ F) as Hsz.
  pose proof (load32n_range body o_plen (ho_bytes _ _ _ _ _ F)) as Hpl.
  unfold rcv_msg_nng. cbn [xlate_nng_state fst snd]. change (negb (RMR_OK =? RMR_OK)) with false. cbv iota.
  destruct (Z.leb_spec sizeof_v1mhdr (zlen body)) as [_|]; [|unfold sizeof_v1mhdr, sizeof_mhdr in *; lia].
  erewrite (ho_ref F) by done. cbn [mbind comp_bind]. rewrite (i32_id (load32n body o_plen)) by (unfold in_i32; lia).
  eexists. split; [done|]. cbn [m_tp_buf m_payload m_len m_state set_flags]. 
  destruct (Z.ltb_spec (zlen body - (l0 + l1 + l2 + l3)) (load32n body o_plen)); split_and!; try done; try lia.
  - split; [done|lia].
Qed.

(** ** Headers that are wrong *)

Lemma rcv_nonempty old body : sizeof_v1mhdr <= zlen body ->
  exists m, m_tp_buf m = Some body /\ rcv_msg_nng old (NNG_OK, Some body) =
    (msg ← ref_tpbuf_nng m (zlen body); Ret (set_flags (Z.lor (m_flags msg) MFL_ADDSRC) msg)).
Proof.
  intros Hs. unfold rcv_msg_nng. cbn [xlate_nng_state fst snd]. change (negb (RMR_OK =? RMR_OK)) with false. cbv iota.
  destruct (Z.leb_spec sizeof_v1mhdr (zlen body)); [|lia]. eexists. split; [|reflexivity]. done.
Qed.

(** What is not checked: a message of the current version shorter than the fields
    read (216 bytes) is read past its end; lengths in the header that exceed the
    message give a negative length and a payload outside of the buffer; a payload
    length with the top bit is a negative length in a good message; and a
    message smaller than a header is sent on in a buffer in which the header
    does not fit. *)
Theorem nng_headers_not_checked malloc_bytes ctx old body l0 l1 l2 l3 m size st trlo :
  (forall n, zlen (malloc_bytes n) = n) ->
  (sizeof_v1mhdr <= zlen body < 216 -> load32 body o_rmr_ver <> 1 -> load32n body o_rmr_ver <> 1 ->
     rcv_msg_nng old (NNG_OK, Some body) = UB) /\
  (hdr_of body l0 l1 l2 l3 -> zlen body < l0 + l1 + l2 + l3 -> load32n body o_plen < 2 ^ 31 ->
     exists r, rcv_msg_nng old (NNG_OK, Some body) = Ret r /\ m_len r < 0 /\ m_payload r = Some (l0 + l1 + l2 + l3)) /\
  (fits body l0 l1 l2 l3 -> 2 ^ 31 <= load32n body o_plen ->
     exists r, rcv_msg_nng old (NNG_OK, Some body) = Ret r /\ m_len r < 0 /\ m_state r = RMR_OK) /\
  (0 <= m_alloc_len m < sizeof_mhdr -> alloc_zcmsg_nng malloc_bytes ctx (Some m) size st trlo = UB).
Proof.
  intros Hm. split_and!.
  - intros Hs Hv Hv'. destruct (rcv_nonempty old body) as (m0 & Hb & ->); [lia|]. unfold sizeof_v1mhdr in Hs.
    unfold ref_tpbuf_nng. rewrite Hb. cbn [deref mbind comp_bind].
    rewrite get32n_ret by (unfold o_rmr_ver; lia). cbn [mbind comp_bind]. destruct (Z.eqb_spec (load32 body o_rmr_ver) 1); [done|]. cbn [mbind comp_bind].
    rewrite (get32n_ret body o_plen), (get32n_ret body o_mtype) by (unfold o_plen, o_mtype; lia). cbn [mbind comp_bind].
    destruct (Z.eqb_spec (load32n body o_rmr_ver) 1); [done|]. unfold PAYLOAD_ADDR, hdr_lens. rewrite !Z.add_0_l.
    assert (get32n body o_sub_id = UB) as -> by (unfold get32n, o_sub_id; destruct (Z.ltb_spec (zlen body) (212 + 4)); [done|lia]).
    by destruct (get32n body o_len0), (get32n body o_len1), (get32n body o_len2), (get32n body o_len3).
  - intros F Hl Hp. pose proof (ho_size _ _ _ _ _ F) as Hsz. pose proof (load32n_range body o_plen (ho_bytes _ _ _ _ _ F)).
    destruct (rcv_nonempty old body) as (m0 & Hb & ->); [unfold sizeof_v1mhdr, sizeof_mhdr in *; lia|].
    rewrite (ho_ref F) by done. cbn [mbind comp_bind]. rewrite (i32_id (load32n body o_plen)) by (unfold in_i32; lia).
    eexists. split; [done|]. cbn [m_len m_payload set_flags]. destruct (Z.ltb_spec (zlen body - (l0 + l1 + l2 + l3)) (load32n body o_plen)); [|lia].
    split; [lia|done].
  - intros [F Hsum] Hp. pose proof (ho_size _ _ _ _ _ F) as Hsz. pose proof (load32n_range body o_plen (ho_bytes _ _ _ _ _ F)).
    destruct (rcv_nonempty old body) as (m0 & Hb & ->); [unfold sizeof_v1mhdr, sizeof_mhdr in *; lia|].
    rewrite (ho_ref F) by done. cbn [mbind comp_bind].
    assert (i32 (load32n body o_plen) = load32n body o_plen - 2 ^ 32) as ->.
    { unfold i32. rewrite <-(Z_mod_plus_full _ (-1)). rewrite Z.mod_small by lia. lia. }
    eexists. split; [done|]. cbn [m_len m_state set_flags]. destruct (Z.ltb_spec (zlen body - (l0 + l1 + l2 + l3)) (load32n body o_plen - 2 ^ 32)); [lia|]. split; [lia|done].
  - intros Hs. unfold sizeof_mhdr in Hs. unfold alloc_zcmsg_nng. rewrite (u64_id (m_alloc_len m)) by lia.
    unfold memset. rewrite Hm. destruct (Z.ltb_spec (m_alloc_len m) (0 + sizeof_mhdr)); [by rewrite !orb_true_r|unfold sizeof_mhdr in *; lia].
Qed.
