(* ===== verification/NngSend.v ===== *)
(** Sending with the NNG transport: send_msg, mtosend_msg and send2ep of
    src/src/rmr/nng/src/sr_nng_static.c, the links and the selection of an
    endpoint of src/src/rmr/nng/src/rtable_nng_static.c, and the public send functions of
    src/src/rmr/nng/src/rmr_nng.c.

    NNG is an interface: sockets are numbers, a message that was accepted on a
    socket is on its wire.  The route table is that of RouteTable.v.  errno is a value
    where it decides something; the lock around a link has no counterpart. *)

From S2P Require Import Prelude Bytes Symtab SymIface Tools Mbuf Endpoint RouteTable Send SendSpec NngMbuf.

(** ** The library *)

Class NngLib (N : Type) := {
  nng_push0_open : N -> option Z * N;                    (* a socket *)
  nng_dialer_create : N -> Z -> list Z -> bool * N;      (* a dialer of a socket for an address *)
  nng_dialer_start : N -> Z -> bool -> bool * N;         (* not blocking? *)
  nng_close : N -> Z -> N;
  nng_sendmsg : N -> Z -> list Z -> nng_err * N;         (* not blocking *)
  nng_wire : N -> Z -> list (list Z);
  nng_sendmsg_ok n s b n' : nng_sendmsg n s b = (NNG_OK, n') -> nng_wire n' s = nng_wire n s ++ [b];
  nng_sendmsg_fails n s b st n' s' : nng_sendmsg n s b = (st, n') -> st <> NNG_OK -> nng_wire n' s' = nng_wire n s';
  nng_sendmsg_other n s b st n' s' : nng_sendmsg n s b = (st, n') -> s' <> s -> nng_wire n' s' = nng_wire n s'
}.

Definition NNG_MAXADDRLEN : Z := 128.

(** The part of the context that sends work on; [nc_async]: RMR_ASYNC_CONN is
    not set or starts with 1, looked at once. *)
Record nng_ctx (TH TE N : Type) := MkNc {
  nc_rt : rt_ctx TH TE;
  nc_net : N;
  nc_mctx : msg_ctx;
  nc_send_retries : Z;
  nc_async : bool
}.
Arguments MkNc {TH TE N}.
Arguments nc_rt {TH TE N}.
Arguments nc_net {TH TE N}.
Arguments nc_mctx {TH TE N}.
Arguments nc_send_retries {TH TE N}.
Arguments nc_async {TH TE N}.

Section nng_send.
Context {TH TE N : Type} `{Symbols TH thing} `{Symbols TE nat} `{NngLib N}.
Variable malloc_bytes : Z -> list Z.
Variable gethostbyname : list Z -> option (list Z).
Abbreviation nctx := (nng_ctx TH TE N).
Implicit Types (nc : nctx) (n : N).

Definition set_nnet nc n : nctx := MkNc (nc_rt nc) n (nc_mctx nc) (nc_send_retries nc) (nc_async nc).
Definition set_nrt nc (rt : rt_ctx TH TE) : nctx := MkNc rt (nc_net nc) (nc_mctx nc) (nc_send_retries nc) (nc_async nc).
Definition nc_ep nc (id : nat) : option endpoint := cr_eps (nc_rt nc) !! id.
Definition upd_nep nc (id : nat) (e : endpoint) : nctx := set_nrt nc (set_eps (nc_rt nc) (<[id := e]> (cr_eps (nc_rt nc)))).

(** ** One message to one socket *)

Definition fill_header_nng (mctx : msg_ctx) (msg : mbuf) : comp (list Z) :=
  h ← deref (m_header msg);
  buf ← deref (m_tp_buf msg);
  buf ← put32n buf (h + o_mtype) (m_mtype msg);
  buf ← put32n buf (h + o_sub_id) (m_sub_id msg);
  buf ← put32n buf (h + o_plen) (m_len msg);
  if negb (Z.land (m_flags msg) MFL_ADDSRC =? 0) then
    buf ← strncpy buf (h + o_src) (x_my_name mctx) RMR_MAX_SRC;
    strncpy buf (h + o_srcip) (x_my_ip mctx) RMR_MAX_SRC
  else Ret buf.

(** The attempts: the last result; [None] when the fuel does not suffice. *)
Fixpoint send_loop_nng (fuel : nat) n (sock : Z) (body : list Z) (spin_retries retries : Z) : option (nng_err * N) :=
  match fuel with
  | O => None
  | S fuel' =>
      let '(state, n) := nng_sendmsg n sock body in
      match state with
      | NNG_OK => Some (NNG_OK, n)
      | NNG_EAGAIN | NNG_ETIMEDOUT =>
          if 0 <? retries then
            let spin_retries := spin_retries - 1 in
            let retries := if spin_retries <=? 0 then retries - 1 else retries in
            let spin_retries := if spin_retries <=? 0 then 1000 else spin_retries in
            if 0 <? retries then send_loop_nng fuel' n sock body spin_retries retries else Some (state, n)
          else Some (state, n)
      | _ => Some (state, n)
      end
  end.

(** The result is the message to return, [None] for nil, errno and the library. *)
Definition send_msg_nng (mctx : msg_ctx) n (msg : mbuf) (sock retries : Z) : comp (option mbuf * Z * N) :=
  buf ← fill_header_nng mctx msg;
  h ← deref (m_header msg);
  tr_len ← RMR_TR_LEN buf h;
  let msg := set_tp_buf (Some buf) msg in
  let spin_retries := if retries =? 0 then 100 else 1000 in
  let retries := if retries =? 0 then 1 else retries in
  if Z.land (m_flags msg) MFL_ZEROCOPY =? 0
  then Ret (Some (set_tp_state E_NOTSUP (set_state RMR_ERR_SENDFAILED msg)), E_NOTSUP, n)
  else
    match send_loop_nng (Z.to_nat (spin_retries + 1000 * Z.max 0 (retries - 1))) n sock buf spin_retries retries with
    | None => UB
    | Some (NNG_OK, n) =>
        if Z.land (m_flags msg) MFL_NOALLOC =? 0
        then m ← alloc_zcmsg_nng malloc_bytes mctx (Some msg) 0 RMR_OK (i32 tr_len); Ret (Some m, 0, n)
        else Ret (None, 0, n)
    | Some (state, n) =>
        let '(state, errno) := xlate_nng_state state RMR_ERR_SENDFAILED in
        Ret (Some (set_state state msg), errno, n)
    end.

(** ** Links *)

Definition uta_link2_nng nc (id : nat) : bool * nctx :=
  match nc_ep nc id with
  | None => (false, nc)
  | Some e =>
      match ep_name e with
      | Some target =>
          match strchr (target ++ [0]) 0 58 with
          | Some _ =>
              if ep_open e then (true, nc) else
              match nng_push0_open (nc_net nc) with
              | (None, n) => (false, set_nnet nc n)
              | (Some sock, n) =>
                  let e := set_conn e sock false in
                  let nc := upd_nep (set_nnet nc n) id e in
                  let '(created, n) := nng_dialer_create n sock (snprintf NNG_MAXADDRLEN ($"tcp://" ++ target)) in
                  if negb created then (false, set_nnet nc (nng_close n sock))
                  else
                    let '(started, n) := nng_dialer_start n sock (nc_async nc) in
                    if negb started then (false, set_nnet nc (nng_close n sock))
                    else (true, upd_nep (set_nnet nc n) id (set_conn e sock true))
              end
          | None => (false, nc)
          end
      | None => (false, nc)
      end
  end.

Definition rt_link2_ep_nng nc (ep : option nat) : bool * nctx :=
  match ep with
  | None => (false, nc)
  | Some id =>
      match nc_ep nc id with
      | None => (false, nc)
      | Some e =>
          if ep_open e then (true, nc) else
          let nc := (uta_link2_nng nc id).2 in
          (match nc_ep nc id with Some e => ep_open e | None => false end, nc)
      end
  end.

(** The part that the selections share: the socket of an endpoint, linked first
    when it is not open. *)
Definition sock_of_nng nc (id : nat) : option Z * nctx :=
  match nc_ep nc id with
  | None => (None, nc)
  | Some e =>
      if ep_open e then (Some (ep_nn_sock e), nc) else
      let nc := match ep_addr e with None => upd_nep nc id (set_addr e (ep_name e)) | Some _ => nc end in
      let '(ok, nc) := uta_link2_nng nc id in
      match nc_ep nc id with
      | Some e => if ok : bool then (Some (ep_nn_sock e), upd_nep nc id (set_conn e (ep_nn_sock e) true)) else (None, nc)
      | None => (None, nc)
      end
  end.

(** The result is the socket, and the reference that the caller is given.  The name is
    looked up in the table's hash, where the common code keeps no endpoints, and then,
    as rt_ensure_ep does, in the endpoint hash. *)
Definition uta_epsock_byname_nng nc (name : list Z) : option Z * option nat * nctx :=
  match cr_rtable (nc_rt nc) with
  | None => (None, None, nc)
  | Some rt =>
      let ep := match sm_get (rt_hash rt) (AStr 1 name) with Some (TEp id) => Some id | _ => None end in
      let '(id, nc) :=
        match ep with
        | Some id => (Some id, nc)
        | None => let '(id, rt) := rt_ensure_ep gethostbyname (nc_rt nc) name in (id, set_nrt nc rt)
        end in
      match id with
      | None => (None, None, nc)
      | Some id => let '(sock, nc) := sock_of_nng nc id in (sock, ep, nc)
      end
  end.

(** The result is the state (0 is false), [more], the socket, the endpoint. *)
Definition uta_epsock_rr_nng nc (rte_id : nat) (group : Z) : comp (Z * bool * option Z * option nat * nctx) :=
  rte ← deref (cr_rtes (nc_rt nc) !! rte_id);
  if (group <? 0) || (rte_nrrgroups rte <=? group) then Ret (0, false, None, None, nc) else
  match rte_rrgroups rte !! Z.to_nat group with
  | Some (Some rrg) =>
      let more := match rte_rrgroups rte !! Z.to_nat (group + 1) with Some (Some _) => true | _ => false end in
      let nused := zlen (rg_epts rrg) in
      if nused =? 0 then Ret (0, more, None, None, nc) else
      let idx := if nused =? 1 then 0 else rg_ep_idx rrg mod nused in
      let rrg' := if nused =? 1 then rrg else MkRRG (u16 (rg_ep_idx rrg + 1)) (rg_epts rrg) in
      let state := if nused =? 1 then 1 else idx + 1 in
      let rte' := MkRte (rte_key rte) (rte_refs rte) (rte_mtype rte) (<[Z.to_nat group := Some rrg']> (rte_rrgroups rte)) in
      let nc := set_nrt nc (set_rtes (nc_rt nc) (<[rte_id := rte']> (cr_rtes (nc_rt nc)))) in
      p ← deref (rg_epts rrg !! Z.to_nat idx);
      id ← deref p;
      let '(sock, nc) := sock_of_nng nc id in
      Ret (if sock is Some _ then state else 0, more, sock, Some id, nc)
  | _ => Ret (0, false, None, None, nc)
  end.

Definition epsock_meid_nng nc (rt : route_table_t TH) (msg : mbuf) : comp (option Z * option nat * nctx) :=
  h ← deref (m_header msg);
  buf ← deref (m_tp_buf msg);
  match get_meid_owner rt (cstr_of (drop (Z.to_nat (h + o_meid)) buf)) with
  | None => Ret (None, None, nc)
  | Some id => let '(sock, nc) := sock_of_nng nc id in Ret (sock, Some id, nc)
  end.

(** ** Routed sends *)

Definition count_nep nc (state : Z) (ep : option nat) : nctx :=
  match ep with
  | Some id => match nc_ep nc id with Some e => upd_nep nc id (incr_ep_counts state e) | None => nc end
  | None => nc
  end.

(** The loop over the groups; the clone goes on with the state the message had.
    [UB] stands for a lack of fuel too, see [groups_enough_nng]. *)
Fixpoint send_groups_nng (fuel : nat) nc (rt : route_table_t TH) (rte_id : nat) (group : Z) (msg : mbuf) (max_to ok_sends : Z) :
    comp (option mbuf * Z * Z * nctx) :=
  match fuel with
  | O => UB
  | S fuel' =>
      rte ← deref (cr_rtes (nc_rt nc) !! rte_id);
      '(sock_ok, more, sock, ep, nc) ←
        (if 0 <? rte_nrrgroups rte
         then '(st, more, sock, ep, nc) ← uta_epsock_rr_nng nc rte_id group; Ret (negb (st =? 0), more, sock, ep, nc)
         else '(sock, ep, nc) ← epsock_meid_nng nc rt msg; Ret (match sock with Some _ => true | None => false end, false, sock, ep, nc));
      if sock_ok : bool then
        fd ← deref sock;
        if more : bool then
          clone_m ← clone_msg_nng malloc_bytes msg;
          '(r, _, n) ← send_msg_nng (nc_mctx nc) (nc_net nc) (set_flags (Z.lor (m_flags msg) MFL_NOALLOC) msg) fd max_to;
          let ok_sends := match r with Some _ => ok_sends | None => ok_sends + 1 end in
          send_groups_nng fuel' (count_nep (set_nnet nc n) (m_state clone_m) ep) rt rte_id (group + 1) clone_m max_to ok_sends
        else
          '(r, errno, n) ← send_msg_nng (nc_mctx nc) (nc_net nc) msg fd max_to;
          let nc := set_nnet nc n in
          Ret (r, errno, ok_sends, match r with Some m => count_nep nc (m_state m) ep | None => nc end)
      else
        let msg := set_state RMR_ERR_NOENDPT msg in
        if more : bool then send_groups_nng fuel' nc rt rte_id (group + 1) msg max_to ok_sends
        else Ret (Some msg, ENXIO, ok_sends, nc)
  end.

Definition mtosend_msg_nng (ctx : option nctx) (msg : option mbuf) (max_to : Z) : comp (option mbuf * option nctx) :=
  match ctx, msg with
  | Some nc, Some msg =>
      match m_header msg with
      | None => Ret (Some (set_tp_state EBADMSG (set_state RMR_ERR_NOHDR msg)), Some nc)
      | Some _ =>
          let max_to := if max_to <? 0 then nc_send_retries nc else max_to in
          match cr_rtable (nc_rt nc), uta_get_rte (cr_rtable (nc_rt nc)) (m_sub_id msg) (m_mtype msg) true with
          | Some rt, Some id =>
              rte ← deref (cr_rtes (nc_rt nc) !! id);
              '(r, errno, ok_sends, nc) ← send_groups_nng (S (length (rte_rrgroups rte))) nc rt id 0 msg max_to 0;
              Ret (match r with
                   | Some m =>
                       let m := set_flags (Z.land (m_flags m) (Z.lnot MFL_NOALLOC)) m in
                       let m := if negb (ok_sends =? 0) then set_state RMR_OK m else m in
                       Some (set_tp_state errno m)
                   | None => None
                   end, Some nc)
          | _, _ => Ret (Some (set_tp_state ENXIO (set_state RMR_ERR_NOENDPT msg)), Some nc)
          end
      end
  | _, Some msg => Ret (Some (set_tp_state EINVAL (set_state RMR_ERR_BADARG msg)), ctx)
  | _, None => Ret (None, ctx)
  end.

Definition rmr_mtosend_msg_nng (ctx : option nctx) (msg : option mbuf) (max_to : Z) : comp (option mbuf * option nctx) :=
  match msg with
  | Some m => m ← clear_call m; mtosend_msg_nng ctx (Some m) max_to
  | None => mtosend_msg_nng ctx None max_to
  end.

Definition rmr_send_msg_nng (ctx : option nctx) (msg : option mbuf) : comp (option mbuf * option nctx) :=
  match msg with
  | Some m => m ← clear_call m; rmr_mtosend_msg_nng ctx (Some m) (-1)
  | None => rmr_mtosend_msg_nng ctx None (-1)
  end.

Definition send2ep_nng (mctx : msg_ctx) n (e : endpoint) (msg : mbuf) : comp (option mbuf * Z * N) :=
  send_msg_nng mctx n msg (ep_nn_sock e) (-1).

(** ** Return to sender *)

Definition rmr_rts_msg_nng (ctx : option nctx) (msg : option mbuf) : comp (option mbuf * option nctx) :=
  match ctx, msg with
  | Some nc, Some msg =>
      match m_header msg with
      | None => Ret (Some (set_tp_state 0 (set_state RMR_ERR_NOHDR msg)), Some nc)
      | Some h =>
          buf ← deref (m_tp_buf msg);
          _ ← get8 buf (h + o_flags + 3);
          buf ← put buf (h + o_flags) (le_bytes 4 (Z.land (load32 buf (h + o_flags)) (Z.lnot HFL_CALL_MSG)));
          let msg := set_tp_buf (Some buf) msg in
          let '(sock, ep, nc) := uta_epsock_byname_nng nc (cstr_at buf (h + o_src)) in
          '(sock, ep, nc) ←
            match sock with
            | Some fd => Ret (Some fd, ep, nc)
            | None =>
                ver ← HDR_VERSION buf h;
                Ret (if 2 <? ver then uta_epsock_byname_nng nc (cstr_at buf (h + o_srcip)) else (None, ep, nc))
            end;
          match sock with
          | None => Ret (Some (set_state RMR_ERR_NOENDPT msg), Some nc)
          | Some fd =>
              let hold_src := cstr_at buf (h + o_src) in
              let hold_ip := cstr_at buf (h + o_srcip) in
              buf ← strncpy buf (h + o_src) (x_my_name (nc_mctx nc)) RMR_MAX_SRC;
              '(r, _, n) ← send_msg_nng (nc_mctx nc) (nc_net nc) (set_state RMR_OK (set_tp_buf (Some buf) msg)) fd (-1);
              let nc := set_nnet nc n in
              match r with
              | None => Ret (None, Some nc)
              | Some m =>
                  let nc := count_nep nc (m_state m) ep in
                  h ← deref (m_header m);
                  buf ← deref (m_tp_buf m);
                  buf ← strncpy buf (h + o_src) hold_src RMR_MAX_SRC;
                  buf ← strncpy buf (h + o_srcip) hold_ip RMR_MAX_SRC;
                  Ret (Some (set_flags (Z.lor (m_flags m) MFL_ADDSRC) (set_tp_buf (Some buf) m)), Some nc)
              end
          end
      end
  | _, Some msg => Ret (Some (set_tp_state EINVAL (set_state RMR_ERR_BADARG msg)), ctx)
  | _, None => Ret (None, ctx)
  end.

Definition rmr_set_stimeout_nng (ctx : option nctx) (time : Z) : Z * option nctx :=
  match ctx with
  | None => (-1, None)
  | Some nc => (RMR_OK, Some (MkNc (nc_rt nc) (nc_net nc) (nc_mctx nc) (if time <? 0 then 0 else time) (nc_async nc)))
  end.
End nng_send.

(** * Theorems *)

(** ** The attempts *)

Section attempts.
Context {N : Type} `{NngLib N}.
Implicit Types n : N.

Definition soft (st : nng_err) : bool := bool_decide (st = NNG_EAGAIN \/ st = NNG_ETIMEDOUT).

(** At most [S k] sends of the same message, the next one only after a soft error. *)
Fixpoint retry_nng (k : nat) n (sock : Z) (body : list Z) : nng_err * N :=
  let '(st, n') := nng_sendmsg n sock body in
  if soft st then match k with O => (st, n') | S k' => retry_nng k' n' sock body end else (st, n').

Lemma retry_nng_wire k : forall n sock body st n', retry_nng k n sock body = (st, n') ->
  nng_wire n' sock = nng_wire n sock ++ (if decide (st = NNG_OK) then [body] else []) /\
  forall s, s <> sock -> nng_wire n' s = nng_wire n s.
Proof.
  induction k as [|k IH]; intros n sock body st n'; cbn [retry_nng];
    destruct (nng_sendmsg n sock body) as [st1 n1] eqn:E; destruct (soft st1) eqn:Es.
  2, 4: intros [= -> ->]; (split; [|intros; by eapply nng_sendmsg_other]); case_decide as Hd;
    [subst; by eapply nng_sendmsg_ok|rewrite app_nil_r; by eapply nng_sendmsg_fails].
  - intros [= <- <-]. unfold soft in Es. apply bool_decide_eq_true in Es.
    assert (st1 <> NNG_OK) as Hn by (by destruct Es as [->| ->]). rewrite decide_False by done. rewrite app_nil_r.
    split; intros; by eapply nng_sendmsg_fails.
  - unfold soft in Es. apply bool_decide_eq_true in Es. assert (st1 <> NNG_OK) as Hn by (by destruct Es as [->| ->]).
    intros Hr. destruct (IH _ _ _ _ _ Hr) as [H1 H2].
    rewrite H1, (nng_sendmsg_fails _ _ _ _ _ sock E Hn). split; [done|]. intros s Hs. rewrite H2 by done. by eapply nng_sendmsg_fails.
Qed.

Lemma send_loop_nng_retry fuel : forall n sock body spin retries,
  retries <> 0 -> 1 <= spin ->
  let k := if retries <? 0 then 0%nat else Z.to_nat (spin + 1000 * (retries - 1) - 1) in
  (k < fuel)%nat -> send_loop_nng fuel n sock body spin retries = Some (retry_nng k n sock body).
Proof.
  induction fuel as [|fuel IH]; intros n sock body spin retries Hr Hs k Hk; [lia|]. cbn [send_loop_nng].
  assert (forall st n1, soft st = true -> retry_nng k n sock body = match k with O => (st, n1) | S k' => retry_nng k' n1 sock body end ->
    (if 0 <? retries then
       let spin' := spin - 1 in let r' := if spin' <=? 0 then retries - 1 else retries in let s' := if spin' <=? 0 then 1000 else spin' in
       if 0 <? r' then send_loop_nng fuel n1 sock body s' r' else Some (st, n1)
     else Some (st, n1)) = Some (retry_nng k n sock body)) as Hsoft.
  { intros st n1 _ ->. cbv zeta. unfold k in *. destruct (Z.ltb_spec retries 0), (Z.ltb_spec 0 retries); try lia; [done|].
    destruct (Z.leb_spec (spin - 1) 0).
    - assert (spin = 1) as -> by lia. destruct (Z.ltb_spec 0 (retries - 1)).
      + rewrite IH by (try lia; destruct (Z.ltb_spec (retries - 1) 0); lia). destruct (Z.ltb_spec (retries - 1) 0); [lia|].
        replace (Z.to_nat (1 + 1000 * (retries - 1) - 1)) with (S (Z.to_nat (1000 + 1000 * (retries - 1 - 1) - 1))) by lia. done.
      + assert (retries = 1) as -> by lia. done.
    - destruct (Z.ltb_spec 0 retries); [|lia]. rewrite IH by (try lia; destruct (Z.ltb_spec retries 0); lia). destruct (Z.ltb_spec retries 0); [lia|].
      replace (Z.to_nat (spin + 1000 * (retries - 1) - 1)) with (S (Z.to_nat (spin - 1 + 1000 * (retries - 1) - 1))) by lia. done. }
  destruct (nng_sendmsg n sock body) as [st n1] eqn:E. clear IH.
  destruct st; try (cbn -[k]; destruct k; cbn [retry_nng]; by rewrite E); apply Hsoft; try done; destruct k; cbn [retry_nng]; by rewrite E.
Qed.
End attempts.

(** ** The header *)

(** A message to be sent: payload at [p]. *)
Record nng_wf (m : mbuf) (buf : list Z) (l0 l1 l2 l3 : Z) : Prop := {
  nw_buf : m_tp_buf m = Some buf;
  nw_hdr : m_header m = Some 0;
  nw_pay : m_payload m = Some (l0 + l1 + l2 + l3);
  nw_fits : fits buf l0 l1 l2 l3;
  nw_after : sizeof_mhdr <= l0 + l1 + l2 + l3;
  nw_len : 0 <= m_len m /\ l0 + l1 + l2 + l3 + m_len m <= zlen buf
}.

(** Sections that filling the header leaves alone: the version, the transaction
    id, the managed element and the lengths, and all that follows the header. *)
Definition kept (o k : Z) : Prop :=
  (8 <= o /\ o + k <= 76) \/ (140 <= o /\ o + k <= 212) \/ 280 <= o.

Lemma Forall_splice (P : Z -> Prop) buf off src : Forall P buf -> Forall P src -> Forall P (splice buf off src).
Proof. intros. unfold splice. apply Forall_app. split; [by apply Forall_take|]. apply Forall_app. split; [done|by apply Forall_drop]. Qed.

(** A write that keeps the bytes bytes. *)
Lemma put_kept buf off src : Forall is_byte buf -> Forall is_byte src -> 0 <= off -> off + zlen src <= zlen buf ->
  exists b, put buf off src = Ret b /\ Forall is_byte b /\ slice b off (zlen src) = src /\ framed buf b off (zlen src).
Proof.
  intros Hb Hs H0 Hl. exists (splice buf off src). split; [by apply put_ret|]. split; [by apply Forall_splice|].
  split; [by apply slice_splice_eq|by apply framed_splice].
Qed.

Lemma put32n_kept buf off v : Forall is_byte buf -> 0 <= off -> off + 4 <= zlen buf ->
  exists b, put32n buf off v = Ret b /\ Forall is_byte b /\ load32n b off = u32 v /\ framed buf b off 4.
Proof.
  intros Hb H0 Hl. destruct (put_kept buf off (be_bytes 4 v)) as (b & E & Hb' & Hs & F); rewrite ?zlen_be4 in *; try done.
  { unfold be_bytes. apply Forall_rev, le_bytes_ok. }
  exists b. split_and!; try done. unfold load32n. rewrite Hs. apply be_val_bytes.
Qed.

Lemma strncpy_kept buf off s : Forall is_byte buf -> is_cstr s -> 0 <= off -> off + 64 <= zlen buf ->
  exists b, strncpy buf off s 64 = Ret b /\ Forall is_byte b /\ framed buf b off 64.
Proof.
  intros Hb Hs H0 Hl. unfold strncpy. set (src := take _ s ++ _).
  assert (zlen src = 64) as Hz.
  { unfold src, zlen. rewrite length_app, length_replicate, length_take. lia. }
  destruct (put_kept buf off src) as (b & E & Hb' & _ & F); rewrite ?Hz in *; try done.
  - unfold src. apply Forall_app. split; [|apply Forall_replicate; unfold is_byte; lia].
    apply Forall_take. eapply Forall_impl; [exact Hs|]. unfold is_byte. cbn. lia.
  - by exists b.
Qed.

Lemma load32n_framed a b off n o : framed a b off n -> 0 <= o -> o + 4 <= off \/ off + n <= o -> load32n b o = load32n a o.
Proof. intros [_ F] H0 Hd. unfold load32n. by rewrite F by lia. Qed.

Lemma fits_kept a b l0 l1 l2 l3 : fits a l0 l1 l2 l3 -> zlen b = zlen a -> Forall is_byte b ->
  (forall o k, 0 <= o -> 0 <= k -> kept o k -> slice b o k = slice a o k) -> fits b l0 l1 l2 l3.
Proof.
  intros [[Hb Hs [V1 V2] E0 E1 E2 E3 Hsum] Hl] Hz Hbb Hk. split; [|by rewrite Hz].
  assert (forall o, 0 <= o -> kept o 4 -> load32n b o = load32n a o) as Hld by (intros o H0 Hk4; unfold load32n; by rewrite Hk by (done || lia)).
  split; rewrite ?Hz; try done.
  - split; [|by rewrite Hld by (unfold kept, o_rmr_ver; lia)]. unfold load32. by rewrite Hk by (unfold kept, o_rmr_ver; lia).
  - by rewrite Hld by (unfold kept, o_len0; lia).
  - by rewrite Hld by (unfold kept, o_len1; lia).
  - by rewrite Hld by (unfold kept, o_len2; lia).
  - by rewrite Hld by (unfold kept, o_len3; lia).
Qed.

Lemma fill_header_nng_spec mctx m buf l0 l1 l2 l3 :
  nng_wf m buf l0 l1 l2 l3 -> is_cstr (x_my_name mctx) -> is_cstr (x_my_ip mctx) ->
  exists b, fill_header_nng mctx m = Ret b /\ zlen b = zlen buf /\ fits b l0 l1 l2 l3 /\
    load32n b o_mtype = u32 (m_mtype m) /\ load32n b o_plen = m_len m /\ load32n b o_sub_id = u32 (m_sub_id m) /\
    forall o k, 0 <= o -> 0 <= k -> kept o k -> slice b o k = slice buf o k.
Proof.
  intros [Eb Eh _ F _ Hl] Hn Hip. pose proof F as [F0 Hsum]. pose proof (ho_size _ _ _ _ _ F0) as Hsz. pose proof (ho_range F0) as Hr.
  unfold fill_header_nng. rewrite Eb, Eh. cbn [deref mbind comp_bind]. rewrite !Z.add_0_l.
  unfold o_mtype, o_plen, o_sub_id, o_src, o_srcip, sizeof_mhdr, RMR_MAX_SRC in *.
  destruct (put32n_kept buf 0 (m_mtype m) (ho_bytes _ _ _ _ _ F0)) as (b1 & -> & B1 & V1 & F1); [lia..|]. cbn [mbind comp_bind].
  destruct (put32n_kept b1 212 (m_sub_id m) B1) as (b2 & -> & B2 & V2 & F2); [lia|rewrite (proj1 F1); lia|]. cbn [mbind comp_bind].
  destruct (put32n_kept b2 4 (m_len m) B2) as (b3 & -> & B3 & V3 & F3); [lia|rewrite (proj1 F2), (proj1 F1); lia|]. cbn [mbind comp_bind].
  assert (zlen b3 = zlen buf) as Z3 by (by rewrite (proj1 F3), (proj1 F2), (proj1 F1)).
  assert (forall o k, 0 <= o -> 0 <= k -> kept o k -> slice b3 o k = slice buf o k) as K3.
  { intros o k Ho Hk Hd. unfold kept in Hd. rewrite (proj2 F3), (proj2 F2), (proj2 F1) by lia. done. }
  assert (load32n b3 0 = u32 (m_mtype m)) as W1 by (rewrite (load32n_framed _ _ _ _ 0 F3), (load32n_framed _ _ _ _ 0 F2) by lia; done).
  assert (load32n b3 212 = u32 (m_sub_id m)) as W2 by (rewrite (load32n_framed _ _ _ _ 212 F3) by lia; done).
  assert (load32n b3 4 = m_len m) as W3 by (rewrite V3; apply u32_id; lia).
  destruct (negb _).
  2: { exists b3. split; [done|]. split; [done|]. split; [by eapply fits_kept|done]. }
  destruct (strncpy_kept b3 76 _ B3 Hn) as (b4 & -> & B4 & F4); [lia|lia|]. cbn [mbind comp_bind].
  destruct (strncpy_kept b4 216 _ B4 Hip) as (b5 & -> & B5 & F5); [lia|rewrite (proj1 F4); lia|].
  assert (zlen b5 = zlen buf) as Z5 by (by rewrite (proj1 F5), (proj1 F4)).
  assert (forall o k, 0 <= o -> 0 <= k -> kept o k -> slice b5 o k = slice buf o k) as K5.
  { intros o k Ho Hk Hd. unfold kept in Hd. rewrite (proj2 F5), (proj2 F4) by lia. apply K3; unfold kept; lia. }
  exists b5. split; [done|]. split; [done|]. split; [by eapply fits_kept|].
  rewrite !(load32n_framed _ _ _ _ _ F5), !(load32n_framed _ _ _ _ _ F4) by lia. done.
Qed.

(** ** A send *)

Lemma send_msg_nng_spec {N : Type} `{NngLib N} malloc_bytes mctx (n : N) m sock retries buf l0 l1 l2 l3 :
  nng_wf m buf l0 l1 l2 l3 -> is_cstr (x_my_name mctx) -> is_cstr (x_my_ip mctx) -> Z.land (m_flags m) MFL_ZEROCOPY <> 0 ->
  exists b, fill_header_nng mctx m = Ret b /\
    send_msg_nng malloc_bytes mctx n m sock retries =
      let '(st, n') := retry_nng (Z.to_nat (attempts retries - 1)) n sock b in
      match st with
      | NNG_OK => if Z.land (m_flags m) MFL_NOALLOC =? 0
                  then m' ← alloc_zcmsg_nng malloc_bytes mctx (Some (set_tp_buf (Some b) m)) 0 RMR_OK (i32 (load32n b o_len1)); Ret (Some m', 0, n')
                  else Ret (None, 0, n')
      | _ => let '(state, errno) := xlate_nng_state st RMR_ERR_SENDFAILED in Ret (Some (set_state state (set_tp_buf (Some b) m)), errno, n')
      end.
Proof.
  intros W Hn Hip Hz. destruct (fill_header_nng_spec mctx m buf l0 l1 l2 l3 W Hn Hip) as (b & E & Zb & F & _).
  exists b. split; [done|]. unfold send_msg_nng. rewrite E, (nw_hdr _ _ _ _ _ _ W). cbn [deref mbind comp_bind].
  assert (RMR_TR_LEN b 0 = Ret (load32n b o_len1)) as ->.
  { unfold RMR_TR_LEN. pose proof (ho_size _ _ _ _ _ (proj1 F)). rewrite get32n_ret by (unfold o_len1, sizeof_mhdr in *; lia). done. }
  cbn [mbind comp_bind m_flags set_tp_buf]. destruct (Z.eqb_spec (Z.land (m_flags m) MFL_ZEROCOPY) 0); [done|].
  rewrite send_loop_nng_retry.
  2: { destruct (Z.eqb_spec retries 0); lia. } 2: { destruct (retries =? 0); lia. }
  2: { cbv zeta. destruct (Z.eqb_spec retries 0); [subst; cbn; lia|]. destruct (Z.ltb_spec retries 0); lia. }
  assert ((if (if retries =? 0 then 1 else retries) <? 0 then 0%nat
    else Z.to_nat ((if retries =? 0 then 100 else 1000) + 1000 * ((if retries =? 0 then 1 else retries) - 1) - 1)) = Z.to_nat (attempts retries - 1)) as ->.
  { unfold attempts. destruct (Z.eqb_spec retries 0); [done|]. destruct (Z.ltb_spec retries 0); [done|]. f_equal. lia. }
  destruct (retry_nng _ n sock b) as [st n']. by destruct st.
Qed.

(** ** The message that comes back *)

Record nng_blank (ctx : msg_ctx) (room : Z) (m : mbuf) : Prop := {
  nb_state : m_state m = RMR_OK /\ m_mtype m = UNSET_MSGTYPE /\ m_sub_id m = UNSET_SUBID /\ m_len m = 0 /\ m_flags m = MFL_ZEROCOPY;
  nb_alloc : m_alloc_len m = room;
  nb_payload : m_payload m = Some (sizeof_mhdr + x_trace_data_len ctx + x_d1_len ctx);
  nb_buf : exists buf, m_tp_buf m = Some buf /\ zlen buf = room
}.

Lemma strncpy_ex buf off s : 0 <= off -> off + 64 <= zlen buf ->
  exists b, strncpy buf off s 64 = Ret b /\ framed buf b off 64.
Proof.
  intros H0 Hl. unfold strncpy. set (src := take _ s ++ _).
  assert (zlen src = 64) as Hz by (unfold src, zlen; rewrite length_app, length_replicate, length_take; lia).
  destruct (put_ex buf off src) as (b & E & _ & F); rewrite ?Hz in *; try done. by exists b.
Qed.

Lemma alloc_zcmsg_nng_blank malloc_bytes ctx msg size st trlo room :
  (forall n, 0 <= n -> zlen (malloc_bytes n) = n) -> sizeof_mhdr <= room < 2 ^ 31 ->
  match msg with
  | Some m => m_alloc_len m = room
  | None => trlo <= 0 /\ x_d2_len ctx = 0 /\ 0 <= psize_of ctx size /\ sizeof_mhdr + x_trace_data_len ctx + x_d1_len ctx + psize_of ctx size = room
  end ->
  0 <= x_trace_data_len ctx -> 0 <= x_d1_len ctx -> sizeof_mhdr + x_trace_data_len ctx + x_d1_len ctx < 2 ^ 31 ->
  exists m', alloc_zcmsg_nng malloc_bytes ctx msg size st trlo = Ret m' /\ nng_blank ctx room m'.
Proof.
  intros Hm Ha Hroom Ht Hd Hsum. unfold alloc_zcmsg_nng. fold (psize_of ctx size). cbv zeta.
  assert (match msg with None => u64 (u64 (sizeof_mhdr + (if 0 <? trlo then trlo else x_trace_data_len ctx) + x_d1_len ctx + x_d2_len ctx) + psize_of ctx size)
    | Some m => u64 (m_alloc_len m) end = room) as ->.
  { unfold sizeof_mhdr in *. destruct msg as [m|]; [rewrite Hroom; apply u64_id; lia|]. destruct Hroom as (H1 & H2 & H3 & H4).
    destruct (Z.ltb_spec 0 trlo); [lia|]. rewrite H2, (u64_id (_ + 0)) by lia. rewrite u64_id by lia. lia. }
  clear Hroom. rename room into l. assert (zlen (malloc_bytes l) = l) as Zl by (apply Hm; unfold sizeof_mhdr in *; lia).
  unfold SET_HDR_LEN, SET_HDR_TR_LEN, SET_HDR_D1_LEN, sizeof_mhdr, o_rmr_ver, RMR_MSG_VER, o_sub_id, o_len0, o_len1, o_len2, o_src, o_srcip, RMR_MAX_SRC in *.
  rewrite !Z.add_0_l.
  destruct (memset_ex (malloc_bytes l) 0 0 280) as (b1 & -> & S1 & Z1 & F1); [lia..|]. cbn [mbind comp_bind].
  destruct (put32n_ex b1 8 3) as (b2 & -> & V2 & Z2 & F2); [lia..|]. cbn [mbind comp_bind].
  destruct (put32n_ex b2 212 UNSET_SUBID) as (b3 & -> & V3 & Z3 & F3); [lia..|]. cbn [mbind comp_bind].
  destruct (put32n_ex b3 196 280) as (b4 & -> & V4 & Z4 & F4); [lia..|]. cbn [mbind comp_bind].
  destruct (put32n_ex b4 200 (x_trace_data_len ctx)) as (b5 & -> & V5 & Z5 & F5); [lia..|]. cbn [mbind comp_bind].
  destruct (put32n_ex b5 204 (x_d1_len ctx)) as (b6 & -> & V6 & Z6 & F6); [lia..|]. cbn [mbind comp_bind].
  rewrite u32_id in V4, V5, V6 by lia. unfold load32n in V4, V5, V6.
  assert (slice b6 208 4 = replicate 4 0) as S6.
  { frame. replace 208 with (0 + 208) by lia. rewrite <-(slice_slice b1 0 280) by lia. by rewrite S1. }
  assert (PAYLOAD_ADDR b6 0 = Ret (280 + x_trace_data_len ctx + x_d1_len ctx)) as ->.
  { unfold PAYLOAD_ADDR, hdr_lens, o_len0, o_len1, o_len2, o_len3. rewrite !Z.add_0_l, !get32n_ret by lia. cbn [mbind comp_bind].
    unfold load32n. rewrite S6. rewrite (proj2 (conj Z6 F6) 200 4), V5 by lia. rewrite V6.
    replace (slice b6 196 4) with (slice b4 196 4) by (by frame). rewrite V4.
    change (be_val (replicate 4 0)) with 0. f_equal. lia. }
  cbn [mbind comp_bind].
  destruct (strncpy_ex b6 76 (x_my_name ctx)) as (b7 & -> & Z7 & F7); [lia..|]. cbn [mbind comp_bind].
  destruct (strncpy_ex b7 216 (x_my_ip ctx)) as (b8 & -> & Z8 & F8); [lia..|]. cbn [mbind comp_bind].
  eexists. split; [done|]. rewrite (i32_id l) by (unfold in_i32; lia). split; cbn; try done. exists b8. split; [done|lia].
Qed.

(** ** Sent and received *)

(** What the application sees of a message. *)
Definition nng_content (m : mbuf) : Z * Z * Z * list Z :=
  (m_mtype m, m_sub_id m, m_len m,
   match m_payload m, m_tp_buf m with Some p, Some b => slice b p (m_len m) | _, _ => [] end).

(** A message that the library can take, and that can be allocated again. *)
Record nng_sendable (ctx : msg_ctx) (m : mbuf) (buf : list Z) (l0 l1 l2 l3 : Z) : Prop := {
  ns_wf : nng_wf m buf l0 l1 l2 l3;
  ns_zc : Z.land (m_flags m) MFL_ZEROCOPY <> 0;
  ns_ids : in_i32 (m_mtype m) /\ in_i32 (m_sub_id m);
  ns_alloc : m_alloc_len m = zlen buf;
  ns_names : is_cstr (x_my_name ctx) /\ is_cstr (x_my_ip ctx);
  ns_lens : 0 <= x_trace_data_len ctx /\ 0 <= x_d1_len ctx /\ sizeof_mhdr + x_trace_data_len ctx + x_d1_len ctx < 2 ^ 31
}.

(** The body made of a message is a message of the same content to a receiver. *)
Lemma filled_is_received ctx m buf l0 l1 l2 l3 b old :
  nng_sendable ctx m buf l0 l1 l2 l3 -> fill_header_nng ctx m = Ret b ->
  exists got, rcv_msg_nng old (NNG_OK, Some b) = Ret got /\ m_state got = RMR_OK /\ nng_content got = nng_content m /\
    m_tp_buf got = Some b /\ slice b o_xid 32 = slice buf o_xid 32 /\ slice b o_meid 32 = slice buf o_meid 32.
Proof.
  intros [W Hz [Hmt Hsid] Ha [Hn Hip] _] Hf.
  destruct (fill_header_nng_spec ctx m buf l0 l1 l2 l3 W Hn Hip) as (b0 & E & Zb & F & Vm & Vp & Vs & K).
  rewrite Hf in E. injection E as <-. destruct W as [Eb Eh Ep _ Haft [Hl0 Hl1]].
  pose proof (ho_size _ _ _ _ _ (proj1 F)) as Hsz. pose proof (ho_range (proj1 F)) as Hr.
  destruct (rcv_nonempty old b) as (m0 & Hb & ->); [unfold sizeof_v1mhdr, sizeof_mhdr in *; lia|].
  rewrite (ho_ref (proj1 F)) by done. cbn [mbind comp_bind]. eexists. split; [done|].
  rewrite Vp, Vm, Vs, !i32_u32 by done. rewrite (i32_id (m_len m)) by (unfold in_i32; lia).
  destruct (Z.ltb_spec (zlen b - (l0 + l1 + l2 + l3)) (m_len m)); [lia|]. split; [done|].
  split; [|split; [done|split; apply K; unfold kept, o_xid, o_meid; lia]].
  unfold nng_content. cbn [m_mtype m_sub_id m_len m_payload m_tp_buf set_flags]. rewrite Ep, Eb.
  rewrite K; [done|lia|lia|]. unfold kept, sizeof_mhdr in *. lia.
Qed.

(** C14.  A send with NNG ends, after the attempts that the retry argument stands for, in
    one of two ways.  The message was taken: the wire of the socket has one more
    body, a receiver gets the same type, subscription, length, payload and
    transaction id from it, and the caller gets an empty message of the same size
    (nothing for a call).  Or it was not: the wire is unchanged and the caller has
    the message with its content, marked for a retry exactly when the library
    said to try again.  No other wire is written to. *)
Theorem nng_sent_is_received {N : Type} `{NngLib N} malloc_bytes ctx (n : N) m sock retries buf l0 l1 l2 l3 :
  (forall n, 0 <= n -> zlen (malloc_bytes n) = n) -> nng_sendable ctx m buf l0 l1 l2 l3 ->
  exists r errno n', send_msg_nng malloc_bytes ctx n m sock retries = Ret (r, errno, n') /\
    (forall s, s <> sock -> nng_wire n' s = nng_wire n s) /\
    ((exists b, nng_wire n' sock = nng_wire n sock ++ [b] /\
        (forall old, exists got, rcv_msg_nng old (NNG_OK, Some b) = Ret got /\ m_state got = RMR_OK /\
           nng_content got = nng_content m /\ slice b o_xid 32 = slice buf o_xid 32) /\
        match r with
        | None => Z.land (m_flags m) MFL_NOALLOC <> 0
        | Some m' => Z.land (m_flags m) MFL_NOALLOC = 0 /\ nng_blank ctx (zlen buf) m'
        end) \/
     (nng_wire n' sock = nng_wire n sock /\ exists m', r = Some m' /\ nng_content m' = nng_content m /\
        (m_state m' = RMR_ERR_RETRY /\ errno = E_AGAIN \/ m_state m' = RMR_ERR_SENDFAILED /\ errno <> E_AGAIN))).
Proof.
  intros Hm S. pose proof S as [W Hz _ Ha [Hn Hip] [Ht [Hd Hsum]]].
  destruct (send_msg_nng_spec malloc_bytes ctx n m sock retries buf l0 l1 l2 l3 W Hn Hip Hz) as (b & E & ->).
  destruct (retry_nng _ n sock b) as [st n'] eqn:Er. destruct (retry_nng_wire _ _ _ _ _ _ Er) as [W1 W2].
  assert (nng_content (set_tp_buf (Some b) m) = nng_content m) as Hc.
  { destruct (filled_is_received ctx m buf l0 l1 l2 l3 b None S E) as (got & _ & _ & Eg & Hb & _). clear -E W Hn Hip.
    destruct (fill_header_nng_spec ctx m buf l0 l1 l2 l3 W Hn Hip) as (b0 & E0 & _ & F & _ & _ & _ & K). rewrite E in E0. injection E0 as <-.
    destruct W as [Eb _ Ep _ Haft [Hl0 Hl1]]. unfold nng_content. cbn [m_mtype m_sub_id m_len m_payload m_tp_buf set_tp_buf]. rewrite Ep, Eb.
    rewrite K; [done|pose proof (ho_range (proj1 F)); lia|lia|]. unfold kept, sizeof_mhdr in *. lia. }
  destruct (decide (st = NNG_OK)) as [->|Hst].
  - assert (exists r, (if Z.land (m_flags m) MFL_NOALLOC =? 0
        then m' ← alloc_zcmsg_nng malloc_bytes ctx (Some (set_tp_buf (Some b) m)) 0 RMR_OK (i32 (load32n b o_len1)); Ret (Some m', 0, n')
        else Ret (None, 0, n')) = Ret (r, 0, n') /\
      match r with None => Z.land (m_flags m) MFL_NOALLOC <> 0 | Some m' => Z.land (m_flags m) MFL_NOALLOC = 0 /\ nng_blank ctx (zlen buf) m' end) as (r & -> & Hr).
    { destruct (Z.eqb_spec (Z.land (m_flags m) MFL_NOALLOC) 0); [|by exists None]. pose proof (ho_size _ _ _ _ _ (proj1 (nw_fits _ _ _ _ _ _ W))).
      destruct (alloc_zcmsg_nng_blank malloc_bytes ctx (Some (set_tp_buf (Some b) m)) 0 RMR_OK (i32 (load32n b o_len1)) (m_alloc_len m)) as (m' & -> & B); try done; [lia|].
      exists (Some m'). rewrite <-Ha. done. }
    exists r, 0, n'. split; [done|]. split; [done|]. left. exists b. split; [done|]. split; [|done]. intros old.
    destruct (filled_is_received ctx m buf l0 l1 l2 l3 b old S E) as (got & Eg & St & Cg & _ & X & _). by exists got.
  - rewrite app_nil_r in W1. destruct st; try done; cbn [xlate_nng_state]; (do 3 eexists; split; [done|]; split; [done|]; right; split; [done|];
      eexists; split; [done|]; split; [exact Hc|]; cbn; (by left) || (by right)).
Qed.

(** ** The loop over the groups *)

Section groups.
Context {TH TE N : Type} `{Symbols TH thing} `{Symbols TE nat} `{NngLib N}.
Variable malloc_bytes : Z -> list Z.
Implicit Types nc : nng_ctx TH TE N.

Definition ngroups nc (id : nat) : option nat := (fun r => length (rte_rrgroups r)) <$> cr_rtes (nc_rt nc) !! id.

Lemma ngroups_link nc id i : ngroups (uta_link2_nng nc id).2 i = ngroups nc i.
Proof.
  unfold uta_link2_nng. destruct (nc_ep nc id) as [e|]; [|done]. destruct (ep_name e) as [t|]; [|done].
  destruct (strchr _ _ _); [|done]. destruct (ep_open e); [done|]. destruct (nng_push0_open _) as [[sock|] n0]; [|done].
  destruct (nng_dialer_create _ _ _) as [created n1]. destruct created; [|done]. by destruct (nng_dialer_start _ _ _) as [[] ?].
Qed.

Lemma ngroups_sock nc id i : ngroups (sock_of_nng nc id).2 i = ngroups nc i.
Proof.
  unfold sock_of_nng. destruct (nc_ep nc id) as [e|]; [|done]. destruct (ep_open e); [done|].
  set (nc0 := match ep_addr e with None => _ | Some _ => _ end).
  assert (ngroups nc0 i = ngroups nc i) as <- by (unfold nc0; by destruct (ep_addr e)).
  pose proof (ngroups_link nc0 id i) as L. destruct (uta_link2_nng nc0 id) as [ok nc1]. cbn in L. rewrite <-L.
  destruct (nc_ep nc1 id); [|done]. by destruct ok.
Qed.

Lemma ngroups_rr nc id g st more sock ep nc' : uta_epsock_rr_nng nc id g = Ret (st, more, sock, ep, nc') ->
  (forall i, ngroups nc' i = ngroups nc i) /\ (more = true -> exists k, ngroups nc id = Some k /\ 0 <= g /\ (Z.to_nat (g + 1) < k)%nat).
Proof.
  unfold uta_epsock_rr_nng. destruct (cr_rtes (nc_rt nc) !! id) as [rte|] eqn:Er; [|done]. cbn [deref mbind comp_bind].
  destruct (Z.ltb_spec g 0); [by intros [= <- <- <- <- <-]|]. cbn [orb]. destruct (_ <=? _); [by intros [= <- <- <- <- <-]|].
  destruct (rte_rrgroups rte !! Z.to_nat g) as [[rrg|]|] eqn:Eg; [|by intros [= <- <- <- <- <-]..].
  set (mr := match rte_rrgroups rte !! Z.to_nat (g + 1) with Some (Some _) => true | _ => false end).
  assert (mr = true -> exists k, ngroups nc id = Some k /\ 0 <= g /\ (Z.to_nat (g + 1) < k)%nat) as Hm.
  { unfold mr. destruct (rte_rrgroups rte !! Z.to_nat (g + 1)) as [[x|]|] eqn:E1; [|done..]. intros _. eexists. unfold ngroups. rewrite Er.
    split; [done|]. split; [done|]. by eapply lookup_lt_Some. }
  destruct (_ =? 0); [intros [= <- <- <- <- <-]; by split|]. set (nc1 := set_nrt nc _).
  assert (forall i, ngroups nc1 i = ngroups nc i) as Hn1.
  { intros i. unfold ngroups, nc1. cbn. destruct (decide (i = id)) as [->|Hne].
    - rewrite lookup_insert_eq, Er. cbn. by rewrite length_insert.
    - by rewrite lookup_insert_ne. }
  destruct (rg_epts rrg !! _) as [p|]; [|done]. cbn [deref mbind comp_bind]. destruct p as [eid|]; [|done]. cbn [deref mbind comp_bind].
  pose proof (ngroups_sock nc1 eid) as Hn2. destruct (sock_of_nng nc1 eid) as [s nc2]. cbn in Hn2. intros [= <- <- <- <- <-].
  split; [|done]. intros i. by rewrite Hn2, Hn1.
Qed.

Lemma ngroups_count nc st ep i : ngroups (count_nep nc st ep) i = ngroups nc i.
Proof. unfold count_nep. destruct ep as [id|]; [|done]. by destruct (nc_ep nc id). Qed.

(** One pass for each group is enough. *)
Lemma groups_enough_nng rt id k : forall f1 f2 nc g msg max_to ok,
  ngroups nc id = Some k -> 0 <= g -> (k < f1 + Z.to_nat g)%nat -> (k < f2 + Z.to_nat g)%nat -> (0 < f1)%nat -> (0 < f2)%nat ->
  send_groups_nng malloc_bytes f1 nc rt id g msg max_to ok = send_groups_nng malloc_bytes f2 nc rt id g msg max_to ok.
Proof.
  induction f1 as [|f1 IH]; intros f2 nc g msg max_to ok Hk Hg Hb1 Hb2 Hf1 Hf2; [lia|]. destruct f2 as [|f2]; [lia|]. clear Hf1 Hf2.
  cbn [send_groups_nng]. destruct (cr_rtes (nc_rt nc) !! id) as [rte|] eqn:Er; [|done]. cbn [deref mbind comp_bind].
  assert (forall nc', (forall i, ngroups nc' i = ngroups nc i) -> (exists k', ngroups nc id = Some k' /\ 0 <= g /\ (Z.to_nat (g + 1) < k')%nat) ->
    forall msg max_to ok, send_groups_nng malloc_bytes f1 nc' rt id (g + 1) msg max_to ok = send_groups_nng malloc_bytes f2 nc' rt id (g + 1) msg max_to ok) as Step.
  { intros nc' Hn (k' & Hk' & _ & Hlt) *. rewrite Hk in Hk'. injection Hk' as <-. apply IH; [by rewrite Hn|lia..]. }
  destruct (0 <? rte_nrrgroups rte).
  - destruct (uta_epsock_rr_nng nc id g) as [[[[[st more] sock] ep] nc']|] eqn:E; [|done]. cbn [mbind comp_bind].
    destruct (ngroups_rr _ _ _ _ _ _ _ _ E) as [Hn Hm]. destruct (negb (st =? 0)).
    + destruct sock as [fd|]; [|done]. cbn [deref mbind comp_bind]. destruct more; [|done].
      destruct (clone_msg_nng _ _) as [cm|]; [|done]. cbn [mbind comp_bind].
      destruct (send_msg_nng _ _ _ _ _ _) as [[[r er] n0]|]; [|done]. cbn [mbind comp_bind]. apply Step; [|by apply Hm].
      intros i. rewrite ngroups_count. by rewrite <-Hn.
    + destruct more; [|done]. apply Step; [done|by apply Hm].
  - destruct (epsock_meid_nng nc rt msg) as [[[s ep] nc']|]; [|done]. cbn [mbind comp_bind]. by destruct s.
Qed.
End groups.

(** ** Examples *)

(** A library that takes everything. *)
Definition nng_net : Type := Z -> list (list Z).

#[export] Program Instance nng_net_lib : NngLib nng_net := {
  nng_push0_open n := (Some 5, n);
  nng_dialer_create n _ _ := (true, n);
  nng_dialer_start n _ _ := (true, n);
  nng_close n _ := n;
  nng_sendmsg n s b := (NNG_OK, fun s' => if s' =? s then n s' ++ [b] else n s');
  nng_wire n s := n s
}.
Next Obligation. intros n s b n' [= <-]. by rewrite Z.eqb_refl. Qed.
Next Obligation. by intros n s b st n' s' [= <- <-]. Qed.
Next Obligation. intros n s b st n' s' [= <- <-] Hs. by rewrite (proj2 (Z.eqb_neq _ _) Hs). Qed.

Definition ex_nmsg : mbuf := Eval vm_compute in
  let m := default mbuf0 (comp_get None (rmr_alloc_msg_nng junk (Some ctx0) 100)) in
  MkMbuf (m_state m) 12 5 (m_payload m) (m_xaction m) (m_sub_id m) (m_tp_state m)
    (Some (splice (splice (default [] (m_tp_buf m)) 304 $"hello") 12 $"req1")) (m_header m) (m_flags m) (m_alloc_len m) (m_rts_fd m) (m_cookie m).
Definition ex_nbuf : list Z := Eval vm_compute in default [] (m_tp_buf ex_nmsg).

Definition bytes_ok (l : list Z) : bool := forallb (fun b => (0 <=? b) && (b <? 256)) l.
Lemma bytes_ok_spec l : bytes_ok l = true -> Forall is_byte l.
Proof.
  induction l as [|x l IH]; cbn; intros Hb; constructor; apply andb_true_iff in Hb as [H1 H2]; [|by apply IH].
  apply andb_true_iff in H1. unfold is_byte. lia.
Qed.

(** A check that a body's lengths fit. *)
Definition fits_ok (b : list Z) : bool :=
  bytes_ok b && (sizeof_mhdr <=? zlen b) && (zlen b <? 2 ^ 31) && negb (load32 b o_rmr_ver =? 1) && negb (load32n b o_rmr_ver =? 1) &&
  (load32n b o_len0 + load32n b o_len1 + load32n b o_len2 + load32n b o_len3 <=? zlen b).

Lemma fits_ok_spec b : fits_ok b = true -> fits b (load32n b o_len0) (load32n b o_len1) (load32n b o_len2) (load32n b o_len3).
Proof.
  unfold fits_ok. rewrite !andb_true_iff, !negb_true_iff, !Z.eqb_neq. intros (((((Hb & H1) & H2) & H3) & H4) & H5).
  split; [|lia]. split; try done; [by apply bytes_ok_spec|lia|lia].
Qed.

Lemma ex_nbuf_fits : fits ex_nbuf 280 20 4 0.
Proof. apply (fits_ok_spec ex_nbuf). vm_compute. reflexivity. Qed.

Lemma ex_nmsg_sendable : nng_sendable ctx0 ex_nmsg ex_nbuf 280 20 4 0.
Proof.
  split; try (vm_compute; (reflexivity || discriminate || (repeat split; discriminate))).
  - split; try (vm_compute; reflexivity).
    + exact ex_nbuf_fits.
    + vm_compute. discriminate.
    + vm_compute. split; discriminate.
  - split; apply (bool_decide_unpack _); vm_compute; exact I.
Qed.

Definition ex_nsend : comp (option mbuf * Z * nng_net) := send_msg_nng junk ctx0 ((fun _ => []) : nng_net) ex_nmsg 5 1.

Lemma ex_nsend_taken : match ex_nsend with Ret (_, _, n) => bool_decide (n 5 = []) | UB => true end = false.
Proof. vm_compute. reflexivity. Qed.

Lemma nng_sent_is_received_witness :
  exists r errno n' b got, ex_nsend = Ret (r, errno, n') /\
    n' 5 = [b] /\ rcv_msg_nng None (NNG_OK, Some b) = Ret got /\ nng_content got = nng_content ex_nmsg.
Proof.
  destruct (nng_sent_is_received junk ctx0 ((fun _ => []) : nng_net) ex_nmsg 5 1 ex_nbuf 280 20 4 0 junk_len ex_nmsg_sendable)
    as (r & errno & n' & E & _ & [(b & Hw & Hr & _)|(Hw & m' & _)]).
  - destruct (Hr None) as (got & Eg & _ & Hc & _). exists r, errno, n', b, got. split; [exact E|]. split; [exact Hw|]. split; [exact Eg|exact Hc].
  - exfalso. pose proof ex_nsend_taken as Ht. unfold ex_nsend in Ht. rewrite E in Ht. cbn in Hw. rewrite Hw in Ht. discriminate Ht.
Defined.
