(* ===== verification/NngRcv.v ===== *)
(** Receiving and calling with the NNG transport: the receive and call functions
    of src/src/rmr/nng/src/rmr_nng.c and the receive thread of
    src/src/rmr/nng/src/mt_call_nng_static.c.

    What nng_recvmsg gives is a list, in the order of the calls; a function that
    needs more than there is, or more waits on a semaphore, is still blocked
    ([None]).  The ring and the chutes are those of River.v, their other fields are
    not used. *)

From S2P Require Import Prelude Bytes Symtab SymIface Tools Ring Mbuf Endpoint River RouteTable Send SendSpec Fanout MtCall MtSpec NngMbuf NngSend.

Definition RMR_ERR_CALLFAILED : Z := 6.

Definition nng_got : Type := nng_err * option (list Z).

(** The part of the context that receives; [nr_mtc]: CFL_MTC_ENABLED, [nr_eps]:
    the epoll information exists. *)
Record nng_rx := MkNrx { nr_rx : rx_ctx; nr_mtc : bool; nr_eps : bool; nr_mctx : msg_ctx }.
Definition set_nrx (c : nng_rx) (rx : rx_ctx) : nng_rx := MkNrx rx (nr_mtc c) (nr_eps c) (nr_mctx c).

Definition bad_arg (m : mbuf) : mbuf := set_tp_state EINVAL (set_state RMR_ERR_BADARG m).

(** ** Receive *)

Definition rmr_mt_rcv_nng (lk : bool) (ctx : option nng_rx) (msg : option mbuf) (ws : list wait_res) : option (option mbuf * option nng_rx) :=
  match ctx with
  | None => Some (option_map bad_arg msg, None)
  | Some c =>
      if negb (nr_mtc c) then Some (option_map (fun m => set_tp_state EINVAL (set_state RMR_ERR_NOTSUPP m)) msg, Some c)
      else
        let ombuf := option_map (fun m => set_len 0 (set_state RMR_ERR_TIMEOUT m)) msg in
        match sem_loop ws with
        | None => None
        | Some (w, _) =>
            if negb (w_err w =? 0) then Some (option_map (set_tp_state (w_err w)) ombuf, Some (set_nrx c (w_rx w)))
            else
              let '(got, ring) := uta_ring_extract lk (rx_mring (w_rx w)) in
              Some (match got with
                    | Some m => Some (set_tp_state 0 (set_state RMR_OK m))
                    | None => option_map (set_tp_state ETIMEDOUT) ombuf
                    end, Some (set_nrx c (set_ring (w_rx w) ring)))
        end
  end.

Definition rmr_rcv_msg_nng (lk : bool) (ctx : option nng_rx) (old_msg : option mbuf) (gots : list nng_got) (ws : list wait_res) :
    comp (option (option mbuf * option nng_rx)) :=
  match ctx with
  | None => Ret (Some (option_map bad_arg old_msg, None))
  | Some c =>
      if nr_mtc c then Ret (rmr_mt_rcv_nng lk ctx old_msg ws)
      else
        let '(qm, ring) := uta_ring_extract lk (rx_mring (nr_rx c)) in
        match qm with
        | Some m => Ret (Some (Some m, Some (set_nrx c (set_ring (nr_rx c) ring))))
        | None =>
            match gots with
            | [] => Ret None
            | g :: _ => m ← rcv_msg_nng old_msg g; Ret (Some (Some m, Some (set_nrx c (set_ring (nr_rx c) ring))))
            end
        end
  end.

(** epoll: errno of a failed epoll_create1 and of a failed epoll_ctl (0: none), how
    many are ready, and errno after the wait. *)
Record epoll_res := MkEpoll { er_create : Z; er_ctl : Z; er_ready : Z; er_errno : Z }.

Definition rmr_torcv_msg_nng (malloc_bytes : Z -> list Z) (lk : bool) (ctx : option nng_rx) (old_msg : option mbuf) (ep : epoll_res)
    (gots : list nng_got) (ws : list wait_res) : comp (option (option mbuf * option nng_rx)) :=
  match ctx with
  | None => Ret (Some (option_map bad_arg old_msg, None))
  | Some c =>
      if nr_mtc c then Ret (rmr_mt_rcv_nng lk ctx old_msg ws)
      else
        let '(qm, ring) := uta_ring_extract lk (rx_mring (nr_rx c)) in
        let c := set_nrx c (set_ring (nr_rx c) ring) in
        let init_failed errno := option_map (fun m => set_tp_state errno (set_state RMR_ERR_INITFAILED m)) old_msg in
        match qm with
        | Some m => Ret (Some (Some m, Some c))
        | None =>
            if negb (nr_eps c) && negb (er_create ep =? 0) then Ret (Some (init_failed (er_create ep), Some c))
            else if negb (nr_eps c) && negb (er_ctl ep =? 0) then Ret (Some (init_failed (er_ctl ep), Some c))
            else
              let c := MkNrx (nr_rx c) (nr_mtc c) true (nr_mctx c) in
              msg ← match old_msg with
                    | Some m => Ret m
                    | None => alloc_zcmsg_nng malloc_bytes (nr_mctx c) None MAX_RCV_BYTES RMR_OK (-1)
                    end;
              if er_ready ep <=? 0 then Ret (Some (Some (set_tp_state (er_errno ep) (set_state RMR_ERR_TIMEOUT msg)), Some c))
              else
                match gots with
                | [] => Ret None
                | g :: _ => m ← rcv_msg_nng (Some msg) g; Ret (Some (Some m, Some c))
                end
        end
  end.

(** ** Receive of a given transaction *)

Fixpoint specific_loop_nng (lk : bool) (rx : rx_ctx) (msg : option mbuf) (expect : list Z) (queued allow2queue : Z) (gots : list nng_got) :
    comp (option (option mbuf * Z * rx_ctx)) :=
  if queued <? allow2queue then
    match gots with
    | [] => Ret None
    | g :: gots' =>
        m ← rcv_msg_nng msg g;
        if m_state m =? RMR_OK then
          x ← xact_bytes m (zlen expect);
          if bool_decide (x = expect) then Ret (Some (Some m, 0, rx))
          else
            let r := uta_ring_insert lk (rx_mring rx) (Some m) in
            if r.1 =? 0 then Ret (Some (None, ENOBUFS, rx))
            else specific_loop_nng lk (set_ring rx r.2) None expect (queued + 1) allow2queue gots'
        else specific_loop_nng lk rx (Some m) expect queued allow2queue gots'
    end
  else Ret (Some (None, ETIMEDOUT, rx)).

Definition rmr_rcv_specific_nng (lk : bool) (ctx : option nng_rx) (msg : option mbuf) (expect : option (list Z)) (allow2queue : Z)
    (gots : list nng_got) (ws : list wait_res) : comp (option (option mbuf * Z * option nng_rx)) :=
  match ctx with
  | None => Ret (Some (option_map bad_arg msg, EINVAL, None))
  | Some c =>
      match expect with
      | None | Some [] =>
          r ← rmr_rcv_msg_nng lk ctx msg gots ws;
          Ret (match r with Some (m, ctx) => Some (m, 0, ctx) | None => None end)
      | Some s =>
          r ← specific_loop_nng lk (nr_rx c) msg (take (Z.to_nat RMR_MAX_XID) s) 0 allow2queue gots;
          Ret (match r with Some (m, e, rx) => Some (m, e, Some (set_nrx c rx)) | None => None end)
      end
  end.

(** ** Calls *)

Section call_nng.
Context {TH TE N : Type} `{Symbols TH thing} `{Symbols TE nat} `{NngLib N}.
Variable malloc_bytes : Z -> list Z.
Abbreviation nctx := (nng_ctx TH TE N).
Implicit Types nc : nctx.

(** [ep]: the socket of the endpoint of a wormhole.  [rx_sent]: what the receive
    thread does during the send. *)
Definition mt_call_nng (ctx : option (nctx * nng_rx)) (msg : option mbuf) (call_id : Z) (ep : option Z)
    (rx_sent : rx_ctx -> rx_ctx) (ws : list wait_res) : comp (option (option mbuf * Z * option (nctx * nng_rx))) :=
  match ctx, msg with
  | Some (nc, c), Some m =>
      if negb (nr_mtc c) then Ret (Some (Some (set_tp_state EINVAL (set_state RMR_ERR_NOTSUPP m)), EINVAL, ctx))
      else if (MAX_CALL_ID <? call_id) || (call_id <? 2) then Ret (Some (Some (bad_arg m), EINVAL, ctx))
      else
        let i := Z.to_nat call_id in
        ch ← deref (rx_chutes (nr_rx c) !! i);
        expect ← xact_bytes m RMR_MAX_XID;
        m ← mark_call m call_id;
        let rx := put_chute (nr_rx c) i (MkChute None (ch_barrier ch) expect) in
        '(r, nc) ← match ep with
                   | None => '(r, nc') ← mtosend_msg_nng malloc_bytes (Some nc) (Some m) 0; Ret (r, default nc nc')
                   | Some sock => '(r, errno, n) ← send_msg_nng malloc_bytes (nc_mctx nc) (nc_net nc) m sock (-1);
                                  Ret (option_map (fun m => if m_state m =? RMR_OK then m else set_tp_state errno m) r, set_nnet nc n)
                   end;
        let rx := rx_sent rx in
        let sent := match r with Some m => m_state m =? RMR_OK | None => true end in
        if negb sent then Ret (Some (r, default 0 (m_tp_state <$> r), Some (nc, set_nrx c rx)))
        else
          x ← call_wait ws rx i (-1) 0;
          match x with
          | None => Ret None
          | Some (state, errno, rx) =>
              if state <? 0 then Ret (Some (None, errno, Some (nc, set_nrx c rx)))
              else
                ch ← deref (rx_chutes rx !! i);
                Ret (Some (option_map (set_state RMR_OK) (ch_mbuf ch), errno,
                           Some (nc, set_nrx c (put_chute rx i (MkChute None (ch_barrier ch) (ch_expect ch))))))
          end
  | _, m => Ret (Some (option_map bad_arg m, EINVAL, ctx))
  end.

Definition rmr_mt_call_nng (ctx : option (nctx * nng_rx)) (msg : option mbuf) (call_id : Z)
    (rx_sent : rx_ctx -> rx_ctx) (ws : list wait_res) : comp (option (option mbuf * Z * option (nctx * nng_rx))) :=
  mt_call_nng ctx msg call_id None rx_sent ws.

(** After a failed send errno is in the message already.  Without the receive
    thread the answer is what [gots] brings. *)
Definition rmr_call_nng (lk : bool) (ctx : option (nctx * nng_rx)) (msg : option mbuf) (rx_sent : rx_ctx -> rx_ctx)
    (gots : list nng_got) (ws : list wait_res) : comp (option (option mbuf * Z * option (nctx * nng_rx))) :=
  match ctx, msg with
  | Some (nc, c), Some m =>
      if nr_mtc c then rmr_mt_call_nng ctx msg 1 rx_sent ws
      else
        x ← xact_bytes m RMR_MAX_XID;
        let expected_id := cstr_of (x ++ [0]) in
        '(r, nc') ← rmr_send_msg_nng malloc_bytes (Some nc) (Some (set_flags (Z.lor (m_flags m) MFL_NOALLOC) m));
        let nc := default nc nc' in
        match r with
        | Some m =>
            let m := if m_state m =? RMR_ERR_RETRY then m else set_state RMR_ERR_CALLFAILED m in
            Ret (Some (Some m, m_tp_state m, Some (nc, c)))
        | None =>
            r ← rmr_rcv_specific_nng lk (Some c) None (Some expected_id) 20 gots ws;
            Ret (match r with Some (m, e, c') => Some (m, e, Some (nc, default c c')) | None => None end)
        end
  | _, m => Ret (Some (option_map (set_state RMR_ERR_BADARG) m, 0, ctx))
  end.

(** ** Small functions of the context *)

Definition rmr_init_trace_nng (ctx : option nctx) (tr_len : Z) : Z * option nctx :=
  match ctx with
  | None => (0, None)
  | Some nc =>
      let x := nc_mctx nc in
      (1, Some (MkNc (nc_rt nc) (nc_net nc) (MkMsgCtx (x_max_plen x) tr_len (x_d1_len x) (x_d2_len x) (x_my_name x) (x_my_ip x))
                  (nc_send_retries nc) (nc_async nc)))
  end.
End call_nng.

(** ** The receive thread *)

(** A message that the ring does not take is freed. *)
Definition queue_normal_nng (rx : rx_ctx) (m : mbuf) : rx_ctx :=
  let r := uta_ring_insert true (rx_mring rx) (Some m) in
  if r.1 =? 0 then set_ring rx r.2 else set_chutes (set_ring rx r.2) (post_chute (rx_chutes rx) 0).

Definition mt_receive_msg_nng (rx : rx_ctx) (g : nng_got) : comp rx_ctx :=
  mbuf ← rcv_msg_nng None g;
  match m_header mbuf, m_payload mbuf with
  | Some h, Some _ =>
      buf ← deref (m_tp_buf mbuf);
      _ ← get8 buf (h + o_flags + 3);
      if negb (Z.land (load32 buf (h + o_flags)) HFL_CALL_MSG =? 0) then Ret (queue_normal_nng rx mbuf) else
      d1_len ← RMR_D1_LEN buf h;
      if d1_len <=? 0 then Ret (queue_normal_nng rx mbuf) else
      d1 ← DATA1_ADDR buf h;
      call_id ← get8 buf (d1 + D1_CALLID_IDX);
      if call_id =? 0 then Ret (queue_normal_nng rx mbuf)
      else
        _ ← deref (rx_chutes rx !! Z.to_nat call_id);
        Ret (set_chutes rx (alter (fun c => MkChute (Some mbuf) (ch_barrier c + 1) (ch_expect c)) (Z.to_nat call_id) (rx_chutes rx)))
  | _, _ => Ret rx
  end.

(** A round: what the others do before it, the shutdown flag, and what is received. *)
Fixpoint mt_receive_nng (rx : rx_ctx) (rounds : list ((rx_ctx -> rx_ctx) * bool * nng_got)) : comp rx_ctx :=
  match rounds with
  | [] => Ret rx
  | (others, shutdown, g) :: rounds' =>
      let rx := others rx in
      if shutdown : bool then Ret rx else rx ← mt_receive_msg_nng rx g; mt_receive_nng rx rounds'
  end.

(** * Theorems *)

(** ** Receive of a given transaction *)

(** The messages that arrive in a good state; a failed receive is repeated with its
    message. *)
Fixpoint good_msgs (old : option mbuf) (gots : list nng_got) : comp (list mbuf) :=
  match gots with
  | [] => Ret []
  | g :: gots' =>
      m ← rcv_msg_nng old g;
      if m_state m =? RMR_OK then ms ← good_msgs None gots'; Ret (m :: ms) else good_msgs (Some m) gots'
  end.

Definition has_id (expect : list Z) (m : mbuf) : bool :=
  match xact_bytes m (zlen expect) with Ret x => bool_decide (x = expect) | UB => false end.

(** What is promised: the message, nil and errno, or nothing yet; and the messages that are
    left on the ring for later. *)
Fixpoint pick (expect : list Z) (allow room : nat) (ms : list mbuf) : option (option mbuf * Z) * list mbuf :=
  match allow with
  | O => (Some (None, ETIMEDOUT), [])
  | S allow' =>
      match ms with
      | [] => (None, [])
      | m :: ms' =>
          if has_id expect m then (Some (Some m, 0), [])
          else match room with
               | O => (Some (None, ENOBUFS), [])
               | S room' => let r := pick expect allow' room' ms' in (r.1, m :: r.2)
               end
      end
  end.

Lemma rcv_ok_shape old g m : rcv_msg_nng old g = Ret m -> m_state m = RMR_OK ->
  exists body, m_tp_buf m = Some body /\ m_xaction m = Some o_xid /\ sizeof_v1mhdr <= zlen body.
Proof.
  unfold rcv_msg_nng. destruct (xlate_nng_state g.1 RMR_ERR_RCVFAILED) as [state errno]. set (m0 := match old with Some _ => _ | None => _ end).
  destruct (Z.eqb_spec state RMR_OK) as [->|Hs]; cbn [negb]; [|by intros [= <-]]. destruct g.2 as [body|]; [|by intros [= <-]].
  destruct (Z.leb_spec sizeof_v1mhdr (zlen body)); [|by intros [= <-]]. unfold ref_tpbuf_nng. cbn [m_tp_buf set_tp_state set_state set_tp_buf deref mbind comp_bind].
  destruct (get32n body o_rmr_ver); [|done]. cbn [mbind comp_bind].
  destruct (load32 body o_rmr_ver =? 1); cbn [mbind comp_bind].
  - destruct (put32n_ex body o_rmr_ver 1) as (b & -> & _ & Hb & _); [unfold o_rmr_ver, sizeof_v1mhdr in *; lia..|]. cbn [mbind comp_bind].
    destruct (get32n b o_plen); [|done]. cbn [mbind comp_bind]. destruct (get32n b o_mtype); [|done]. cbn [mbind comp_bind].
    change (1 =? 1) with true. cbv iota. cbn [mbind comp_bind]. intros [= <-] _. exists b. by rewrite Hb.
  - destruct (get32n body o_plen); [|done]. cbn [mbind comp_bind]. destruct (get32n body o_mtype); [|done]. cbn [mbind comp_bind].
    match goal with |- context [if ?c then _ else _] => destruct c end; cbn [mbind comp_bind]; [by intros [= <-] _; exists body|].
    destruct (PAYLOAD_ADDR body 0); [|done]. cbn [mbind comp_bind]. destruct (get32n body o_sub_id); [|done]. cbn [mbind comp_bind].
    destruct (RMR_HDR_LEN body 0); [|done]. cbn [mbind comp_bind]. intros [= <-] _. by exists body.
Qed.

Lemma rcv_ok_id old g m expect : rcv_msg_nng old g = Ret m -> m_state m = RMR_OK -> zlen expect <= RMR_MAX_XID ->
  exists x, xact_bytes m (zlen expect) = Ret x /\ has_id expect m = bool_decide (x = expect).
Proof.
  intros E Hs Hx. destruct (rcv_ok_shape _ _ _ E Hs) as (body & Hb & Hxa & Hl). unfold has_id, xact_bytes. rewrite Hb, Hxa.
  cbn [deref mbind comp_bind]. unfold o_xid, RMR_MAX_XID, sizeof_v1mhdr in *. destruct (Z.ltb_spec (zlen body) (12 + zlen expect)); [lia|].
  by eexists.
Qed.

Lemma specific_loop_refines expect : zlen expect <= RMR_MAX_XID -> forall gots old rx queued allow ms,
  ring_wf (rx_mring rx) -> 0 <= queued -> good_msgs old gots = Ret ms ->
  let r := pick expect (Z.to_nat (allow - queued)) (Z.to_nat (r_nelements (rx_mring rx) - 1 - ring_count (rx_mring rx))) ms in
  match r.1 with
  | None => specific_loop_nng true rx old expect queued allow gots = Ret None
  | Some (m, e) => exists ring, specific_loop_nng true rx old expect queued allow gots = Ret (Some (m, e, set_ring rx ring)) /\
      ring_wf ring /\ ring_contents ring = ring_contents (rx_mring rx) ++ (Some <$> r.2)
  end.
Proof.
  intros Hx. induction gots as [|g gots IH]; intros old rx queued allow ms Hw Hq Hg; cbv zeta; cbn [specific_loop_nng].
  - injection Hg as <-. destruct (Z.ltb_spec queued allow).
    + destruct (Z.to_nat (allow - queued)) eqn:E; [lia|]. done.
    + replace (Z.to_nat (allow - queued)) with 0%nat by lia. cbn. exists (rx_mring rx). rewrite app_nil_r. by destruct rx.
  - destruct (Z.ltb_spec queued allow).
    2: { replace (Z.to_nat (allow - queued)) with 0%nat by lia. cbn. exists (rx_mring rx). rewrite app_nil_r. by destruct rx. }
    cbn [good_msgs] in Hg. destruct (rcv_msg_nng old g) as [m|] eqn:Er; [|done]. cbn [mbind comp_bind] in *.
    destruct (Z.eqb_spec (m_state m) RMR_OK) as [Hs|Hs]; [|by apply IH].
    destruct (good_msgs None gots) as [ms'|] eqn:Eg; [|done]. injection Hg as <-.
    destruct (rcv_ok_id _ _ _ expect Er Hs Hx) as (x & -> & Hid). cbn [mbind comp_bind].
    replace (Z.to_nat (allow - queued)) with (S (Z.to_nat (allow - (queued + 1)))) by lia. cbn [pick]. rewrite Hid.
    destruct (bool_decide (x = expect)). { cbn. exists (rx_mring rx). rewrite app_nil_r. by destruct rx. }
    pose proof (count_range _ Hw) as Hc. destruct (ring_full (rx_mring rx)) eqn:Hf.
    + assert (uta_ring_insert true (rx_mring rx) (Some m) = (0, rx_mring rx)) as ->.
      { unfold uta_ring_insert. by rewrite andb_false_r, Hf. }
      rewrite ring_full_spec in Hf by done. replace (Z.to_nat (r_nelements (rx_mring rx) - 1 - ring_count (rx_mring rx))) with 0%nat by lia.
      cbn. exists (rx_mring rx). rewrite app_nil_r. by destruct rx.
    + destruct (insert_spec (rx_mring rx) true (Some m) Hw) as (E1 & Hw' & Hc'); [by rewrite andb_false_r|done|].
      pose proof (insert_count (rx_mring rx) true (Some m) Hw ltac:(by rewrite andb_false_r) Hf) as Hcnt.
      assert (r_nelements (uta_ring_insert true (rx_mring rx) (Some m)).2 = r_nelements (rx_mring rx)) as Hn.
      { unfold uta_ring_insert. by rewrite andb_false_r, Hf. }
      rewrite ring_full_spec in Hf by done. rewrite E1. change (1 =? 0) with false. cbv iota.
      set (ring' := (uta_ring_insert true (rx_mring rx) (Some m)).2) in *.
      replace (Z.to_nat (r_nelements (rx_mring rx) - 1 - ring_count (rx_mring rx)))
        with (S (Z.to_nat (r_nelements ring' - 1 - ring_count ring'))) by lia.
      specialize (IH None (set_ring rx ring') (queued + 1) allow ms' Hw' ltac:(lia) Eg). cbv zeta in IH. cbn [rx_mring set_ring] in IH.
      cbn [fst snd]. destruct (pick _ _ _ _) as [[[r e]|] q]; cbn [fst snd] in *; [|done].
      destruct IH as (ring & E & Hwr & Hcr). exists ring. split; [done|]. split; [done|]. rewrite Hcr, Hc', <-app_assoc. done.
Qed.

Lemma good_msgs_failed gots : forall old, Forall (fun g => g.1 <> NNG_OK) gots -> good_msgs old gots = Ret [].
Proof.
  induction gots as [|g gots IH]; intros old Hf; [done|]. apply Forall_cons in Hf as [Hg Hf]. cbn [good_msgs].
  assert (exists m, rcv_msg_nng old g = Ret m /\ m_state m <> RMR_OK) as (m & -> & Hm).
  { unfold rcv_msg_nng. destruct g as [st b]. cbn [fst snd] in *. destruct st; try done; cbn; eexists; (split; [done|]); by cbn. }
  cbn [mbind comp_bind]. rewrite (proj2 (Z.eqb_neq _ _) Hm). by apply IH.
Qed.

Section calls_nng.
Context {TH TE N : Type} `{Symbols TH thing} `{Symbols TE nat} `{NngLib N}.
Variable malloc_bytes : Z -> list Z.
Implicit Types (nc : nng_ctx TH TE N) (c : nng_rx).

(** The call that receives for itself, when the request was sent. *)
Lemma call_sent_nng nc c m x nc' gots rx_sent ws :
  nr_mtc c = false -> xact_bytes m RMR_MAX_XID = Ret x -> cstr_of (x ++ [0]) <> [] ->
  rmr_send_msg_nng malloc_bytes (Some nc) (Some (set_flags (Z.lor (m_flags m) MFL_NOALLOC) m)) = Ret (None, Some nc') ->
  rmr_call_nng malloc_bytes true (Some (nc, c)) (Some m) rx_sent gots ws =
    (r ← specific_loop_nng true (nr_rx c) None (take (Z.to_nat RMR_MAX_XID) (cstr_of (x ++ [0]))) 0 20 gots;
     Ret (match r with Some (m, e, rx) => Some (m, e, Some (nc', set_nrx c rx)) | None => None end)).
Proof.
  intros Hc Hx Hn Hs. unfold rmr_call_nng. rewrite Hc, Hx. cbn [mbind comp_bind]. rewrite Hs. cbn [mbind comp_bind default].
  unfold rmr_rcv_specific_nng. destruct (cstr_of (x ++ [0])) as [|b s] eqn:E; [done|].
  destruct (specific_loop_nng _ _ _ _ _ _ _) as [[[[r e] rx]|]|]; done.
Qed.
End calls_nng.

(** C16.  A call without the receive thread gives the answer to its request: of the
    messages that arrive after the request was sent, at most 20, the first that
    carries its transaction id is returned and those before it are on the ring, in
    order, for later receives; nil and ETIMEDOUT when 20 others came, nil and ENOBUFS when
    the ring is full; and it is blocked before that.  Failed receives are not
    counted, so that a call whose receives all fail never returns. *)
Theorem nng_call_picks_its_answer {TH TE N : Type} `{Symbols TH thing} `{Symbols TE nat} `{NngLib N}
    malloc_bytes (nc : nng_ctx TH TE N) c m x nc' gots rx_sent ws ms :
  let ring := rx_mring (nr_rx c) in
  let call := rmr_call_nng malloc_bytes true (Some (nc, c)) (Some m) rx_sent in
  nr_mtc c = false -> ring_wf ring -> xact_bytes m RMR_MAX_XID = Ret x -> cstr_of (x ++ [0]) <> [] ->
  rmr_send_msg_nng malloc_bytes (Some nc) (Some (set_flags (Z.lor (m_flags m) MFL_NOALLOC) m)) = Ret (None, Some nc') ->
  good_msgs None gots = Ret ms ->
  (let r := pick (take (Z.to_nat RMR_MAX_XID) (cstr_of (x ++ [0]))) 20 (Z.to_nat (r_nelements ring - 1 - ring_count ring)) ms in
   match r.1 with
   | None => call gots ws = Ret None
   | Some (m', e) => exists ring', call gots ws = Ret (Some (m', e, Some (nc', set_nrx c (set_ring (nr_rx c) ring')))) /\
       ring_wf ring' /\ ring_contents ring' = ring_contents ring ++ (Some <$> r.2)
   end) /\
  forall fails, Forall (fun g => g.1 <> NNG_OK) fails -> call fails ws = Ret None.
Proof.
  intros ring call Hc Hw Hx Hn Hs Hg. unfold call. set (expect := take (Z.to_nat RMR_MAX_XID) (cstr_of (x ++ [0]))).
  assert (zlen expect <= RMR_MAX_XID) as He by (unfold expect, zlen; rewrite length_take; unfold RMR_MAX_XID; lia).
  split.
  - rewrite (call_sent_nng malloc_bytes nc c m x nc' gots rx_sent ws) by done. fold expect.
    pose proof (specific_loop_refines expect He gots None (nr_rx c) 0 20 ms Hw ltac:(lia) Hg) as R. cbv zeta in R.
    change (Z.to_nat (20 - 0)) with 20%nat in R. fold ring in R. destruct (pick expect 20 _ ms) as [[[m' e]|] q]; cbn [fst snd] in *.
    + destruct R as (ring' & -> & R). exists ring'. done.
    + by rewrite R.
  - intros fails Hf. rewrite (call_sent_nng malloc_bytes nc c m x nc' fails rx_sent ws) by done. fold expect.
    pose proof (specific_loop_refines expect He fails None (nr_rx c) 0 20 [] Hw ltac:(lia) (good_msgs_failed _ _ Hf)) as R.
    cbv zeta in R. change (Z.to_nat (20 - 0)) with 20%nat in R. cbn [pick fst snd] in R. by rewrite R.
Qed.

(** With the receive thread calls do not work as documented: rmr_call sends nothing,
    its reserved call id being refused, and an answer that is in the chute before
    the caller waits for it is not returned; the result is nil with errno 0. *)
Theorem nng_thread_calls_fail {TH TE N : Type} `{Symbols TH thing} `{Symbols TE nat} `{NngLib N}
    malloc_bytes (nc : nng_ctx TH TE N) c m rx_sent gots ws :
  nr_mtc c = true ->
  rmr_call_nng malloc_bytes true (Some (nc, c)) (Some m) rx_sent gots ws = Ret (Some (Some (bad_arg m), EINVAL, Some (nc, c))) /\
  forall call_id sock ch x m2 n ans answered,
    2 <= call_id <= MAX_CALL_ID -> rx_chutes (nr_rx c) !! Z.to_nat call_id = Some ch -> xact_bytes m RMR_MAX_XID = Ret x ->
    mark_call m call_id = Ret m2 -> send_msg_nng malloc_bytes (nc_mctx nc) (nc_net nc) m2 sock (-1) = Ret (None, 0, n) ->
    rx_chutes answered !! Z.to_nat call_id = Some ans -> ch_mbuf ans <> None ->
    mt_call_nng malloc_bytes (Some (nc, c)) (Some m) call_id (Some sock) (fun _ => answered) ws =
      Ret (Some (None, 0, Some (set_nnet nc n, set_nrx c answered))).
Proof.
  intros Hc. split.
  - unfold rmr_call_nng, rmr_mt_call_nng, mt_call_nng. by rewrite Hc.
  - intros call_id sock ch x m2 n ans answered Hid Hch Hx Hm Hs Ha Hm'. unfold mt_call_nng. rewrite Hc. cbn [negb].
    destruct (Z.ltb_spec MAX_CALL_ID call_id); [lia|]. destruct (Z.ltb_spec call_id 2); [lia|]. cbn [orb].
    rewrite Hch. cbn [deref mbind comp_bind]. rewrite Hx. cbn [mbind comp_bind]. rewrite Hm. cbn [mbind comp_bind]. rewrite Hs.
    cbn [mbind comp_bind option_map negb]. destruct (ch_mbuf ans) as [am|] eqn:E; [|done].
    destruct ws; cbn [call_wait]; rewrite Ha; cbn [deref mbind comp_bind]; rewrite E; done.
Qed.

(** ** The receive thread *)

Lemma queue_normal_nng_spec rx m : ring_wf (rx_mring rx) ->
  let rx' := queue_normal_nng rx m in
  if ring_full (rx_mring rx) then rx' = rx
  else ring_wf (rx_mring rx') /\ ring_contents (rx_mring rx') = ring_contents (rx_mring rx) ++ [Some m] /\
    rx_chutes rx' = post_chute (rx_chutes rx) 0.
Proof.
  intros Hw. unfold queue_normal_nng. destruct (ring_full (rx_mring rx)) eqn:Hf.
  - unfold uta_ring_insert. rewrite andb_false_r, Hf. by destruct rx.
  - destruct (insert_spec (rx_mring rx) true (Some m) Hw) as (E1 & Hw' & Hc'); [by rewrite andb_false_r|done|].
    rewrite E1. change (1 =? 0) with false. done.
Qed.

(** Where the receive thread puts a message whose lengths fit: a call's request,
    or a message without a call id, goes to the end of the ring and is counted by the
    semaphore of chute 0, or is dropped when the ring is full; an answer goes to the chute
    of its call id, whose semaphore is posted, and the ring is left alone. *)
Theorem nng_thread_delivers rx body l0 l1 l2 l3 :
  fits body l0 l1 l2 l3 -> ring_wf (rx_mring rx) -> length (rx_chutes rx) = 256%nat ->
  exists m rx', rcv_msg_nng None (NNG_OK, Some body) = Ret m /\ mt_receive_msg_nng rx (NNG_OK, Some body) = Ret rx' /\
    let id := default 0 (body !! Z.to_nat (l0 + l1)) in
    if negb (Z.land (load32 body o_flags) HFL_CALL_MSG =? 0) || (l2 <=? 0) || (id =? 0) then
      if ring_full (rx_mring rx) then rx' = rx
      else ring_wf (rx_mring rx') /\ ring_contents (rx_mring rx') = ring_contents (rx_mring rx) ++ [Some m] /\
        rx_chutes rx' = post_chute (rx_chutes rx) 0
    else rx_mring rx' = rx_mring rx /\ exists ch, rx_chutes rx !! Z.to_nat id = Some ch /\
      rx_chutes rx' = <[Z.to_nat id := MkChute (Some m) (ch_barrier ch + 1) (ch_expect ch)]> (rx_chutes rx).
Proof.
  intros [F Hsum] Hw Hl. pose proof (ho_size _ _ _ _ _ F) as Hsz. pose proof (ho_range F) as Hr.
  assert (exists m, rcv_msg_nng None (NNG_OK, Some body) = Ret m /\ m_tp_buf m = Some body /\ m_header m = Some 0 /\ is_Some (m_payload m)) as (m & Em & Hb & Hh & Hp).
  { destruct (rcv_nonempty None body) as (m0 & Hb & ->); [unfold sizeof_v1mhdr, sizeof_mhdr in *; lia|].
    rewrite (ho_ref F) by done. cbn [mbind comp_bind]. eexists. split; [done|]. done. }
  pose proof (queue_normal_nng_spec rx m Hw) as Hq. cbv zeta in Hq.
  exists m. unfold mt_receive_msg_nng. rewrite Em. cbn [mbind comp_bind]. rewrite Hh. destruct Hp as [p ->]. rewrite Hb. cbn [deref mbind comp_bind].
  unfold o_flags, sizeof_mhdr in *. rewrite !Z.add_0_l.
  assert (forall o, 0 <= o < zlen body -> get8 body o = Ret (default 0 (body !! Z.to_nat o))) as Hg8.
  { intros o Ho. destruct (lookup_lt_is_Some_2 body (Z.to_nat o)) as [c Hc]; [unfold zlen in *; lia|]. rewrite Hc. apply get8_lookup; [lia|exact Hc]. }
  rewrite (Hg8 (192 + 3)) by lia. cbn [mbind comp_bind]. destruct (negb (Z.land (load32 body 192) HFL_CALL_MSG =? 0)) eqn:Ef; cbn [orb].
  { eexists. split; [done|]. split; [done|]. exact Hq. }
  assert (RMR_D1_LEN body 0 = Ret l2) as ->.
  { unfold RMR_D1_LEN. rewrite get32n_ret by (unfold o_len2; lia). by rewrite <-(ho_l2 _ _ _ _ _ F). }
  cbn [mbind comp_bind]. destruct (Z.leb_spec l2 0); cbn [orb]. { eexists. split; [done|]. split; [done|]. exact Hq. }
  assert (DATA1_ADDR body 0 = Ret (l0 + l1)) as ->.
  { unfold DATA1_ADDR, o_len0, o_len1. rewrite !Z.add_0_l, !get32n_ret by lia. cbn [mbind comp_bind].
    rewrite <-(ho_l0 _ _ _ _ _ F), <-(ho_l1 _ _ _ _ _ F). done. }
  cbn [mbind comp_bind]. change D1_CALLID_IDX with 0. rewrite Z.add_0_r, Hg8 by lia. cbn [mbind comp_bind].
  set (id := default 0 (body !! Z.to_nat (l0 + l1))). assert (is_byte id) as Hid.
  { unfold id. destruct (body !! Z.to_nat (l0 + l1)) as [c|] eqn:Ec; [|done]. exact (Forall_lookup_1 _ _ _ _ (ho_bytes _ _ _ _ _ F) Ec). }
  destruct (Z.eqb_spec id 0). { eexists. split; [done|]. split; [done|]. exact Hq. }
  destruct (lookup_lt_is_Some_2 (rx_chutes rx) (Z.to_nat id)) as [ch Hch]; [unfold is_byte in Hid; lia|]. rewrite Hch. cbn [deref mbind comp_bind].
  eexists. split; [done|]. split; [done|]. split; [done|]. exists ch. split; [done|]. cbn [rx_chutes set_chutes]. by rewrite (alter_as_insert _ _ _ _ Hch).
Qed.

(** ** Examples *)

Definition ex_nc : nng_ctx (gmap akey thing) (gmap akey nat) nng_net :=
  MkNc (sc_rt (ex_sc ((fun _ => []) : open_net))) (fun _ => []) ctx0 1 true.
Definition ex_nrx : nng_rx := MkNrx rx0 false false ctx0.
Definition ex_nother : list Z := Eval vm_compute in splice ex_nbuf 12 $"req2".
Definition ex_gots : list nng_got := [(NNG_EAGAIN, None); (NNG_OK, Some ex_nother); (NNG_OK, Some ex_nbuf)].
Definition ex_ngood : list mbuf := Eval vm_compute in default [] (match good_msgs None ex_gots with Ret ms => Some ms | UB => None end).
Definition ex_nsent : comp (option mbuf * option (nng_ctx (gmap akey thing) (gmap akey nat) nng_net)) :=
  rmr_send_msg_nng junk (Some ex_nc) (Some (set_flags (Z.lor (m_flags ex_nmsg) MFL_NOALLOC) ex_nmsg)).

Lemma ex_nsent_nil : exists nc', ex_nsent = Ret (None, Some nc').
Proof.
  assert (match ex_nsent with Ret (None, Some _) => true | _ => false end = true) as E by (vm_compute; reflexivity).
  destruct ex_nsent as [[[m|] [nc'|]]|]; try discriminate. by exists nc'.
Qed.

Lemma nng_call_picks_its_answer_witness :
  exists m ans ctx', ex_ngood = [m; ans] /\
    rmr_call_nng junk true (Some (ex_nc, ex_nrx)) (Some ex_nmsg) (fun rx => rx) ex_gots [] = Ret (Some (Some ans, 0, ctx')).
Proof.
  destruct ex_nsent_nil as [nc' Hs].
  destruct (nng_call_picks_its_answer junk ex_nc ex_nrx ex_nmsg ($"req1" ++ replicate 28 0) nc' ex_gots (fun rx => rx) [] ex_ngood) as [R _].
  - reflexivity.
  - apply (ri_ring _ _ _ rx0_inv).
  - vm_compute. reflexivity.
  - vm_compute. discriminate.
  - exact Hs.
  - vm_cast_no_check (eq_refl (@Ret (list mbuf) ex_ngood)).
  - remember (pick _ _ _ ex_ngood) as r eqn:Er. vm_compute in Er. subst r. destruct R as (ring' & E & _).
    eexists _, _, _. split; [reflexivity|]. exact E.
Defined.

Definition ex_abuf : list Z := Eval vm_compute in splice ex_nbuf 300 [2].

Lemma nng_thread_delivers_witness :
  exists m rx' ch, rcv_msg_nng None (NNG_OK, Some ex_abuf) = Ret m /\ mt_receive_msg_nng rx0 (NNG_OK, Some ex_abuf) = Ret rx' /\
    rx_chutes rx' = <[2%nat := MkChute (Some m) (ch_barrier ch + 1) (ch_expect ch)]> (rx_chutes rx0).
Proof.
  destruct (nng_thread_delivers rx0 ex_abuf 280 20 4 0) as (m & rx' & E1 & E2 & H).
  - apply (fits_ok_spec ex_abuf). vm_compute. reflexivity.
  - apply (ri_ring _ _ _ rx0_inv).
  - reflexivity.
  - destruct H as (_ & ch & _ & H). exists m, rx', ch. split; [exact E1|]. split; [exact E2|exact H].
Defined.
