(* ===== verification/RawRtc.v ===== *)
(** The route table collector for raw messages: raw_rtc of
    src/src/rmr/common/src/rtc_static.c, which the NNG transport starts unless
    RMR_RTG_ISRAW is 0.

    It listens on a private context, and what it receives there is text without a
    header.  A round gets as a [raw_tick] what is outside: what the wait for a
    message brings, the times, the level of the verbose file, the drop count and
    the shutdown flag.  The call of alarm_if_drops has one argument less than the
    function: its decision is kept, no alarm is sent.  The written counts and log
    messages are output. *)

From S2P Require Import Prelude Bytes Symtab SymIface Tools Mbuf Endpoint RouteTable RtParser RtSpec RtRefine Send Rtc NngMbuf NngSend.

Definition DEF_RTG_PORT : list Z := $"tcp:4561".

(** ** Start *)

Definition raw_port (env : option (list Z)) : list Z :=
  match tokenise (match env with Some (c :: s) => c :: s | _ => DEF_RTG_PORT end) 120 58 with
  | [t0] => t0
  | [_; t1] => t1
  | _ => DEF_RTG_PORT
  end.

Section raw.
Context {TH TE : Type} `{Symbols TH thing} `{Symbols TE nat}.
Variable malloc_bytes : Z -> list Z.
Variable gethostbyname : list Z -> option (list Z).

(** [w_ps]: what the parser uses of the application's context. *)
Record raw_st := MkRaw {
  w_ps : parser_t TH TE; w_msg : option mbuf; w_blabber : Z; w_delay : Z; w_bump : Z; w_alarm : drop_alarm; w_pbuf : Z
}.
Implicit Types s : raw_st.

(** What the wait brings ([None]: it timed out); the times of the counts; the level;
    the drop count and the time of its check; the shutdown flag. *)
Record raw_tick := MkRawTick {
  wt_got : option (nng_err * option (list Z)); wt_blab : Z; wt_blab_next : Z; wt_vlevel : Z; wt_dcount : Z; wt_alarm : Z; wt_shutdown : bool
}.

Definition raw_start (ps : parser_t TH TE) (now : Z) (seed : option (list Z)) : comp raw_st :=
  ps ← read_static_rt gethostbyname ps seed;
  Ret (MkRaw ps None 0 30 (i32 (now + 300)) alarm0 0).

(** The body of the inner loop; [mctx]: the private context. *)
Definition raw_receive (mctx : msg_ctx) (t : raw_tick) s : comp raw_st :=
  msg ← match wt_got t with
        | Some g => m ← rcv_payload_nng malloc_bytes mctx (w_msg s) g; Ret (Some m)
        | None => Ret (option_map (fun m => set_state RMR_ERR_TIMEOUT (set_len 0 m)) (w_msg s))
        end;
  let '(blabber, delay) :=
    if (w_blabber s <? wt_blab t) && (0 <=? wt_vlevel t)
    then let b := wt_blab_next t + w_delay s in (b, if w_bump s <? b then 300 else w_delay s)
    else (w_blabber s, w_delay s) in
  let al := (alarm_if_drops (wt_dcount t) (wt_alarm t) (w_alarm s)).2 in
  Ret (MkRaw (w_ps s) msg blabber delay (w_bump s) al (w_pbuf s)).

(** The records of a message; there is no context to acknowledge on. *)
Fixpoint raw_records (ps : parser_t TH TE) (recs : list (list Z)) : comp (parser_t TH TE) :=
  match recs with
  | [] => Ret ps
  | rec :: recs' => '(_, ps) ← parse_rt_rec gethostbyname false [] ps rec; raw_records ps recs'
  end.

(** A message is copied to a buffer of the size [w_pbuf], with a nil byte at its end. *)
Definition raw_handle (t : raw_tick) s : comp (bool * raw_st) :=
  match w_msg s with
  | Some m =>
      if 0 <? m_len m then
        let mlen := m_len m in
        let pbuf_size := if w_pbuf s <=? mlen then (if mlen <? 512 then 512 else mlen * 2) else w_pbuf s in
        buf ← deref (m_tp_buf m);
        payload ← deref (m_payload m);
        if (payload <? 0) || (zlen buf <? payload + mlen) || (pbuf_size <? mlen + 1) || (INT_MAX <? pbuf_size) then UB
        else
          ps ← raw_records (w_ps s) (msg_recs [] (cstr_of (slice buf payload mlen)));
          let msg := if wt_shutdown t then m else set_len 0 m in
          Ret (wt_shutdown t, MkRaw ps (Some msg) (w_blabber s) (w_delay s) (w_bump s) (w_alarm s) pbuf_size)
      else Ret (false, s)
  | None => Ret (false, s)
  end.

(** The inner loop's condition, a pass of it, and what follows when there is a
    message.  The flag tells that the thread ends. *)
Definition raw_round (mctx : msg_ctx) (t : raw_tick) s : comp (bool * raw_st) :=
  s ← (if has_data (w_msg s) then Ret s else raw_receive mctx t s);
  if has_data (w_msg s) then raw_handle t s else Ret (false, s).

Fixpoint raw_run (mctx : msg_ctx) (ts : list raw_tick) s : comp (bool * raw_st) :=
  match ts with
  | [] => Ret (false, s)
  | t :: ts' => '(done, s) ← raw_round mctx t s; if done : bool then Ret (true, s) else raw_run mctx ts' s
  end.
End raw.
Arguments raw_st : clear implicits.

(** * Theorems *)

(** The text that a round brings. *)
Definition text_of (t : raw_tick) : list (list Z) :=
  match wt_got t with Some (NNG_OK, Some (c :: b)) => [c :: b] | _ => [] end.

(** A round in which the thread goes on; a message is there when the receive is good. *)
Definition tick_ok (t : raw_tick) : Prop :=
  wt_shutdown t = false /\
  match wt_got t with Some (NNG_OK, None) => False | Some (_, Some b) => zlen b < 2 ^ 30 | _ => True end.

Section raw_thms.
Context {TH TE : Type} `{Symbols TH thing} `{Symbols TE nat}.
Variable malloc_bytes : Z -> list Z.
Hypothesis malloc_len : forall n, 0 <= n -> zlen (malloc_bytes n) = n.
Variable gethostbyname : list Z -> option (list Z).
Implicit Types s : raw_st TH TE.

(** Between rounds. *)
Record raw_idle s : Prop := {
  ri_msg : match w_msg s with Some m => m_len m = 0 | None => True end;
  ri_pbuf : 0 <= w_pbuf s <= INT_MAX
}.

Lemma raw_records_parse recs : forall (ps : parser_t TH TE) acks ps',
  parse_recs gethostbyname false [] ps recs = Ret (acks, ps') -> raw_records gethostbyname ps recs = Ret ps'.
Proof.
  induction recs as [|rec recs IH]; intros ps acks ps' E; cbn [parse_recs raw_records] in *; [by injection E as <- <-|].
  apply comp_bind_ret in E as ([a1 ps1] & -> & E). apply comp_bind_ret in E as ([a2 ps2] & E2 & [= <- <-]).
  cbn [mbind comp_bind]. by eapply IH.
Qed.

(** The private context allocates an empty message. *)
Definition private_nng (mctx : msg_ctx) : Prop :=
  x_trace_data_len mctx = 0 /\ x_d2_len mctx = 0 /\ 0 <= x_d1_len mctx < 2 ^ 16.

Lemma first_message mctx : private_nng mctx ->
  exists m, alloc_zcmsg_nng malloc_bytes mctx None MAX_RCV_BYTES RMR_OK (-1) = Ret m /\ m_len m = 0.
Proof.
  intros (Ht & Hd2 & Hd1). unfold MAX_RCV_BYTES.
  destruct (alloc_zcmsg_nng_blank malloc_bytes mctx None 2048 RMR_OK (-1) (280 + x_d1_len mctx + 2048)) as (m & E & B);
    unfold psize_of, sizeof_mhdr; rewrite ?Ht; cbn; try done; try lia. exists m. split; [done|]. by destruct (nb_state _ _ _ B) as (_ & _ & _ & -> & _).
Qed.

(** A receive gives the text, or no data. *)
Lemma raw_receive_text mctx t s : private_nng mctx -> raw_idle s -> tick_ok t ->
  exists s', raw_receive malloc_bytes mctx t s = Ret s' /\ w_ps s' = w_ps s /\ w_pbuf s' = w_pbuf s /\
    match text_of t with
    | b :: _ => exists m, w_msg s' = Some m /\ m_tp_buf m = Some b /\ m_payload m = Some 0 /\ m_len m = zlen b /\ 0 < zlen b < 2 ^ 30
    | [] => raw_idle s'
    end.
Proof.
  intros Hc [Hi Hp] [_ Hg]. unfold raw_receive, text_of. destruct (first_message mctx Hc) as (m1 & Em1 & Hl1).
  set (bd := if _ && _ then _ else _). destruct bd as [bl dl].
  destruct (wt_got t) as [[st b]|]; cbn [mbind comp_bind].
  2: { eexists. split; [done|]. do 2 (split; [done|]). split; [|done]. cbn. by destruct (w_msg s). }
  assert (exists m0, (match w_msg s with Some m => Ret m | None => alloc_zcmsg_nng malloc_bytes mctx None MAX_RCV_BYTES RMR_OK (-1) end) = Ret m0 /\ m_len m0 = 0)
    as (m0 & Em & Hl). { destruct (w_msg s) as [m|]; [by exists m|by exists m1]. }
  unfold rcv_payload_nng. rewrite Em. cbn [mbind comp_bind fst snd].
  destruct st; cbn [xlate_nng_state]; try (cbn; eexists; split; [done|]; do 2 (split; [done|]); split; [|done]; cbn; by destruct b).
  destruct b as [b|]; [|done]. change (negb (RMR_OK =? RMR_OK)) with false. cbn [deref mbind comp_bind].
  assert (i32 (zlen b) = zlen b) as Hb by (apply i32_id; unfold in_i32, zlen in *; lia). rewrite Hb.
  eexists. split; [done|]. do 2 (split; [done|]). destruct b as [|c b].
  - split; done.
  - eexists. split; [done|]. do 3 (split; [done|]). unfold zlen in *. cbn in *. lia.
Qed.

Lemma raw_round_recs mctx t s acks ps' : private_nng mctx -> raw_idle s -> tick_ok t ->
  parse_recs gethostbyname false [] (w_ps s) (concat (map (fun b => msg_recs [] (cstr_of b)) (text_of t))) = Ret (acks, ps') ->
  exists s', raw_round malloc_bytes gethostbyname mctx t s = Ret (false, s') /\ w_ps s' = ps' /\ raw_idle s'.
Proof.
  intros Hc Hi Ht Hp. unfold raw_round.
  assert (has_data (w_msg s) = false) as -> by (unfold has_data; pose proof (ri_msg _ Hi); destruct (w_msg s); [by rewrite (proj2 (Z.ltb_ge _ _)) by lia|done]).
  destruct (raw_receive_text mctx t s Hc Hi Ht) as (s1 & -> & Eps & Epb & R). cbn [mbind comp_bind].
  destruct (text_of t) as [|b bs] eqn:Et.
  { assert (has_data (w_msg s1) = false) as -> by (unfold has_data; pose proof (ri_msg _ R); destruct (w_msg s1); [by rewrite (proj2 (Z.ltb_ge _ _)) by lia|done]).
    cbn in Hp. injection Hp as <- <-. by exists s1. }
  assert (bs = []) as -> by (unfold text_of in Et; destruct (wt_got t) as [[[] [[|]|]]|]; by simplify_eq).
  destruct R as (m & Em & Hb & Hpl & Hl & Hz). unfold has_data, raw_handle. rewrite Em, Hl, (proj2 (Z.ltb_lt _ _)) by lia.
  rewrite Hb, Hpl. cbn [deref mbind comp_bind]. destruct Ht as [Hsd _]. rewrite Hsd, Epb, Eps.
  set (pb := if w_pbuf s <=? zlen b then _ else _).
  assert (zlen b < pb /\ pb <= INT_MAX) as [Hpb1 Hpb2].
  { pose proof (ri_pbuf _ Hi). unfold pb, INT_MAX in *. destruct (Z.leb_spec (w_pbuf s) (zlen b)); [destruct (Z.ltb_spec (zlen b) 512)|]; lia. }
  change (0 <? 0) with false. rewrite Z.add_0_l, Z.ltb_irrefl, (proj2 (Z.ltb_ge _ _)), (proj2 (Z.ltb_ge INT_MAX _)) by lia. cbn [orb].
  rewrite slice_all. cbn [map concat] in Hp. rewrite app_nil_r in Hp.
  rewrite (raw_records_parse _ _ _ _ Hp). cbn [mbind comp_bind]. eexists. split; [done|]. split; [done|]. split; [done|]. cbn. lia.
Qed.

Lemma parse_recs_split b1 : forall b2 (ps : parser_t TH TE) acks ps', parse_recs gethostbyname false [] ps (b1 ++ b2) = Ret (acks, ps') ->
  exists a1 ps1 a2, parse_recs gethostbyname false [] ps b1 = Ret (a1, ps1) /\ parse_recs gethostbyname false [] ps1 b2 = Ret (a2, ps').
Proof.
  induction b1 as [|r b1 IH]; intros b2 ps acks ps' E; cbn [app parse_recs] in *; [by exists [], ps, acks|].
  apply comp_bind_ret in E as ([a psa] & -> & E). apply comp_bind_ret in E as ([aa psb] & E2 & [= <- <-]).
  cbn [snd] in E2. destruct (IH _ _ _ _ E2) as (a1 & ps1 & a2 & E1 & E2').
  exists (a :: a1), ps1, a2. split; [|done]. cbn [mbind comp_bind snd]. by rewrite E1.
Qed.

Lemma raw_run_recs mctx ts : private_nng mctx -> forall s acks ps', raw_idle s -> Forall tick_ok ts ->
  parse_recs gethostbyname false [] (w_ps s) (concat (map (fun b => msg_recs [] (cstr_of b)) (concat (map text_of ts)))) = Ret (acks, ps') ->
  exists s', raw_run malloc_bytes gethostbyname mctx ts s = Ret (false, s') /\ w_ps s' = ps' /\ raw_idle s'.
Proof.
  intros Hc. induction ts as [|t ts IH]; intros s acks ps' Hi HF Hp; cbn [raw_run].
  { cbn in Hp. injection Hp as <- <-. by exists s. }
  apply Forall_cons in HF as [Ht HF]. cbn [map concat] in Hp. rewrite map_app, concat_app in Hp.
  destruct (parse_recs_split _ _ _ _ _ Hp) as (a1 & ps1 & a2 & E1 & E2).
  destruct (raw_round_recs mctx t s _ _ Hc Hi Ht E1) as (s1 & -> & <- & Hi1). cbn [mbind comp_bind]. by eapply IH.
Qed.
End raw_thms.

(** C6.  The raw collector builds the tables of the records it gets: whatever way they are
    divided into messages, and whatever waits time out or receives fail in between,
    senders find the routes and owners of the abstract machine for these records,
    without acknowledgements. *)
Theorem raw_collector_follows_manager {TH TE : Type} `{Symbols TH thing} `{Symbols TE nat}
    malloc_bytes gethostbyname my ips mctx ts acks S' (s : raw_st TH TE) :
  (forall n, 0 <= n -> zlen (malloc_bytes n) = n) -> private_nng mctx -> raw_idle s -> w_ps s = ps_init my ips -> Forall tick_ok ts ->
  spec_recs my ips false [] as_init (concat (map (fun b => msg_recs [] (cstr_of b)) (concat (map text_of ts)))) = Ret (acks, S') ->
  exists s', raw_run malloc_bytes gethostbyname mctx ts s = Ret (false, s') /\ raw_idle s' /\ ps_ready (w_ps s') = as_ready S' /\
    (forall sid mtype alt, route_id sid mtype ->
       route_of (ps_ctx (w_ps s')) sid mtype alt = alookup (as_act S') sid mtype alt) /\
    (forall meid, owner_of (ps_ctx (w_ps s')) meid = aowner (as_act S') meid).
Proof.
  intros Hm Hc Hi Hps HF Hs. destruct (parse_recs_refines gethostbyname my ips false [] _ _ _ _ _ (init_refines my ips) Hs) as (ps' & E & R).
  rewrite <-Hps in E. destruct (raw_run_recs malloc_bytes Hm gethostbyname mctx ts Hc s _ _ Hi HF E) as (s' & E' & <- & Hi').
  exists s'. split; [done|]. split; [done|]. split; [apply R|]. split.
  - intros. by eapply route_of_abs.
  - intros. by eapply owner_of_abs.
Qed.

(** ** Examples *)

Definition raw_tick_of (got : option (nng_err * option (list Z))) : raw_tick := MkRawTick got 0 0 0 0 0 false.
Definition raw_ticks : list raw_tick :=
  [ raw_tick_of None; raw_tick_of (Some (NNG_OK, Some ($"newrt|start|T1" ++ [10] ++ $"rte|10|a:1,b:2" ++ [10])));
    raw_tick_of (Some (NNG_EAGAIN, None)); raw_tick_of (Some (NNG_OK, Some ($"newrt|end|1" ++ [10]))) ].
Definition raw_tables : list (option (list Z)) * astate := Eval vm_compute in
  match spec_recs $"me:4560" None false [] as_init (concat (map (fun b => msg_recs [] (cstr_of b)) (concat (map text_of raw_ticks)))) with
  | Ret x => x | UB => ([], as_init)
  end.
Definition raw_mctx : msg_ctx := MkMsgCtx 2048 0 4 0 $"me:4561" $"10.0.0.1:4561".
Definition raw_st0 : raw_st (Sym_tab thing) (Sym_tab nat) := MkRaw (ps_init $"me:4560" None) None 0 30 300 alarm0 0.

Lemma raw_collector_follows_manager_witness :
  exists s', raw_run junk (fun _ => None) raw_mctx raw_ticks raw_st0 = Ret (false, s') /\ ps_ready (w_ps s') = true /\
    route_of (ps_ctx (w_ps s')) (-1) 10 true = Some (10, [Some ex_group]).
Proof.
  destruct (raw_collector_follows_manager junk (fun _ => None) $"me:4560" None raw_mctx raw_ticks raw_tables.1 raw_tables.2 raw_st0 junk_len)
    as (s' & E & _ & Er & Hr & _).
  - split; [reflexivity|]. split; [reflexivity|]. split; [discriminate|reflexivity].
  - split; [exact I|split; discriminate].
  - reflexivity.
  - repeat (apply Forall_cons; split; [split; [reflexivity|cbv; (exact I || reflexivity)]|]). constructor.
  - vm_compute. reflexivity.
  - exists s'. split; [exact E|]. split; [rewrite Er; reflexivity|].
    rewrite Hr by (unfold route_id, in_i32; lia). vm_compute. reflexivity.
Defined.

(** The port of the default address, and of an address of the old style. *)
Example raw_port_default : raw_port None = $"4561" /\ raw_port (Some $"host:4455") = $"4455" /\ raw_port (Some $"4455") = $"4455".
Proof. split_and!; reflexivity. Qed.
