(* ===== verification/NanoMsg.v ===== *)
(** The nanomsg transport: src/src/rmr/nanomsg/src/sr_static.c, the links and the selection of
    an endpoint of src/src/rmr/nanomsg/src/rtable_static.c, and the message functions of
    src/src/rmr/nanomsg/src/rmr.c.

    nanomsg is an interface like NNG in NngSend.v.  The header of a message is the
    start of its transport buffer; as in Mbuf.v the buffer is the field [m_tp_buf],
    also of a clone, whose field tp_buf is nil in the code. *)

From S2P Require Import Prelude Bytes Symtab SymIface Tools Ring Mbuf Endpoint River RouteTable Send SendSpec Fanout MtCall NngMbuf NngSend NngRcv.

(** ** Messages *)

Section messages.
Variable malloc_bytes : Z -> list Z.

Definition alloc_zcmsg_nano (ctx : msg_ctx) (msg : option mbuf) (size state trlo : Z) : comp mbuf :=
  let tr_len := if 0 <? trlo then trlo else x_trace_data_len ctx in
  let mlen := i32 (sizeof_mhdr + tr_len + x_d1_len ctx + x_d2_len ctx) in
  let mlen := i32 (mlen + (if 0 <? size then size else x_max_plen ctx)) in
  let mlen := match msg with Some m => m_alloc_len m | None => mlen end in
  buf ← memset (malloc_bytes mlen) 0 0 sizeof_mhdr;
  buf ← put32n buf o_rmr_ver RMR_MSG_VER;
  buf ← put32n buf o_sub_id UNSET_SUBID;
  buf ← SET_HDR_LEN buf 0;
  buf ← SET_HDR_TR_LEN buf 0 tr_len;
  payload ← PAYLOAD_ADDR buf 0;
  buf ← strncpy buf o_src (x_my_name ctx) RMR_MAX_SRC;
  buf ← strncpy buf o_srcip (x_my_ip ctx) RMR_MAX_SRC;
  Ret (MkMbuf state UNSET_MSGTYPE 0 (Some payload) (Some o_xid) UNSET_SUBID 0 (Some buf) (Some 0) MFL_ZEROCOPY mlen 0 0).

Definition clone_msg_nano (old_msg : option mbuf) : comp (option mbuf) :=
  match old_msg with
  | None => Ret None
  | Some old_msg =>
      obuf ← deref (m_tp_buf old_msg);
      oh ← deref (m_header old_msg);
      opl ← deref (m_payload old_msg);
      hl ← RMR_HDR_LEN obuf oh;
      buf ← memcpy (malloc_bytes (m_alloc_len old_msg)) 0 obuf oh hl;
      payload ← PAYLOAD_ADDR buf 0;
      buf ← memcpy buf payload obuf opl (m_len old_msg);
      Ret (Some (MkMbuf (m_state old_msg) (m_mtype old_msg) (m_len old_msg) (Some payload) (Some o_xid)
             (m_sub_id old_msg) 0 (Some buf) (Some 0) MFL_ZEROCOPY (m_alloc_len old_msg) 0 0))
  end.

(** The data is copied with the old trace length in the new header; in a version
    1 message the payload points at the old buffer. *)
Definition realloc_msg_nano (old_msg : mbuf) (tr_len : Z) : comp mbuf :=
  obuf ← deref (m_tp_buf old_msg);
  oh ← deref (m_header old_msg);
  opl ← deref (m_payload old_msg);
  trl ← RMR_TR_LEN obuf oh;
  let mlen := u64 (m_alloc_len old_msg + (tr_len - i32 trl)) in
  v ← get32n obuf (oh + o_rmr_ver);
  if v =? 1 then UB
  else
    buf ← memcpy (malloc_bytes mlen) 0 obuf oh sizeof_mhdr;
    buf ← copy_data buf 0 obuf oh;
    buf ← SET_HDR_TR_LEN buf 0 tr_len;
    payload ← PAYLOAD_ADDR buf 0;
    buf ← memcpy buf payload obuf opl (m_len old_msg);
    Ret (MkMbuf (m_state old_msg) (m_mtype old_msg) (m_len old_msg) (Some payload) (Some o_xid)
           (m_sub_id old_msg) 0 (Some buf) (Some 0) (Z.lor (m_flags old_msg) MFL_ZEROCOPY) (i32 mlen) 0 0).

(** nn_recv writes what fits and returns the length of the message; [None]: -1. *)
Definition nn_recv (buf : list Z) (off len : Z) (got : option (list Z)) : comp (list Z * Z) :=
  match got with
  | None => Ret (buf, -1)
  | Some b => buf ← put buf off (take (Z.to_nat len) b); Ret (buf, i32 (zlen b))
  end.

(** The comparison with what was received is unsigned; the state of a message that
    was cut is the number subtracted from, and is overwritten. *)
Definition rcv_msg_nano (ctx : msg_ctx) (old_msg : option mbuf) (got : option (list Z)) : comp mbuf :=
  msg ← match old_msg with Some m => Ret m | None => alloc_zcmsg_nano ctx None MAX_RCV_BYTES RMR_OK (-1) end;
  h ← deref (m_header msg);
  buf ← deref (m_tp_buf msg);
  '(buf, state) ← nn_recv buf h (m_alloc_len msg) got;
  let msg := set_tp_buf (Some buf) msg in
  if sizeof_mhdr <? state then
    plen ← get32n buf (h + o_plen);
    hl ← RMR_HDR_LEN buf h;
    mt ← get32n buf (h + o_mtype);
    sid ← get32n buf (h + o_sub_id);
    payload ← PAYLOAD_ADDR buf h;
    let len := if u32 (state - hl) <? plen then i32 (RMR_ERR_TRUNC - hl) else i32 plen in
    Ret (MkMbuf RMR_OK (i32 mt) len (Some payload) (Some (h + o_xid)) (i32 sid) (m_tp_state msg) (Some buf) (Some h)
           (Z.lor (m_flags msg) MFL_ADDSRC) (m_alloc_len msg) (m_rts_fd msg) (m_cookie msg))
  else Ret (set_len 0 (set_state RMR_ERR_EMPTY msg)).

Definition rcv_payload_nano (ctx : msg_ctx) (old_msg : option mbuf) (got : option (list Z)) : comp mbuf :=
  msg ← match old_msg with Some m => Ret m | None => alloc_zcmsg_nano ctx None MAX_RCV_BYTES RMR_OK (-1) end;
  h ← deref (m_header msg);
  buf ← deref (m_tp_buf msg);
  '(buf, state) ← nn_recv buf h (m_alloc_len msg) got;
  Ret (if 0 <=? state
       then MkMbuf RMR_OK UNSET_MSGTYPE state (Some h) None UNSET_SUBID (m_tp_state msg) (Some buf) (Some h) MFL_RAW
              (m_alloc_len msg) (m_rts_fd msg) (m_cookie msg)
       else MkMbuf RMR_ERR_EMPTY UNSET_MSGTYPE 0 None None UNSET_SUBID (m_tp_state msg) (Some buf) (Some h) (m_flags msg)
              (m_alloc_len msg) (m_rts_fd msg) (m_cookie msg)).

Definition rmr_payload_size_nano (m : option mbuf) : comp Z :=
  match m with
  | None => Ret (-1)
  | Some m =>
      match m_header m with
      | None => Ret (-1)
      | Some h => buf ← deref (m_tp_buf m); hl ← RMR_HDR_LEN buf h; Ret (i32 (u32 (m_alloc_len m - hl)))
      end
  end.

Definition rmr_alloc_msg_nano (ctx : option msg_ctx) (size : Z) : comp (option mbuf) :=
  match ctx with None => Ret None | Some ctx => m ← alloc_zcmsg_nano ctx None size 0 (-1); Ret (Some m) end.
End messages.

(** ** The library and the context *)

Class NanoLib (N : Type) := {
  nn_socket : N -> Z * N;                       (* negative: an error *)
  nn_connect : N -> Z -> list Z -> bool * N;
  nn_close : N -> Z -> N;
  nn_send : N -> Z -> list Z -> option Z * N;   (* errno of a failure *)
  nn_setrto : N -> Z -> Z * N;
  nn_wire : N -> Z -> list (list Z);
  nn_send_ok n s b n' : nn_send n s b = (None, n') -> nn_wire n' s = nn_wire n s ++ [b];
  nn_send_fails n s b e n' s' : nn_send n s b = (Some e, n') -> nn_wire n' s' = nn_wire n s';
  nn_send_other n s b e n' s' : nn_send n s b = (e, n') -> s' <> s -> nn_wire n' s' = nn_wire n s'
}.

Record nano_ctx (TH TE N : Type) := MkNano {
  no_rt : rt_ctx TH TE;
  no_net : N;
  no_mctx : msg_ctx;
  no_ring : @ring_t mbuf;
  no_rto : Z
}.
Arguments MkNano {TH TE N}.
Arguments no_rt {TH TE N}.
Arguments no_net {TH TE N}.
Arguments no_mctx {TH TE N}.
Arguments no_ring {TH TE N}.
Arguments no_rto {TH TE N}.

Definition NN_SOCKADDR_MAX : Z := 128.

Section nano.
Context {TH TE N : Type} `{Symbols TH thing} `{Symbols TE nat} `{NanoLib N}.
Variable malloc_bytes : Z -> list Z.
Variable gethostbyname : list Z -> option (list Z).
Abbreviation nactx := (nano_ctx TH TE N).
Implicit Types (nc : nactx) (n : N).

Definition set_nonet nc n : nactx := MkNano (no_rt nc) n (no_mctx nc) (no_ring nc) (no_rto nc).
Definition set_nort nc (rt : rt_ctx TH TE) : nactx := MkNano rt (no_net nc) (no_mctx nc) (no_ring nc) (no_rto nc).
Definition set_noring nc (r : @ring_t mbuf) : nactx := MkNano (no_rt nc) (no_net nc) (no_mctx nc) r (no_rto nc).
Definition set_noep nc (id : nat) (e : endpoint) : nactx := set_nort nc (set_eps (no_rt nc) (<[id := e]> (cr_eps (no_rt nc)))).

(** ** Links *)

Definition uta_link2_nano n (target : option (list Z)) : Z * N :=
  match target with
  | Some t =>
      match strchr (t ++ [0]) 0 58 with
      | Some _ =>
          let '(sock, n) := nn_socket n in
          if sock <? 0 then (-1, n) else
          let '(ok, n) := nn_connect n sock (snprintf NN_SOCKADDR_MAX ($"tcp://" ++ t)) in
          if ok : bool then (sock, n) else (-1, nn_close n sock)
      | None => (-1, n)
      end
  | None => (-1, n)
  end.

(** The comparison comes before the assignment: what is kept as the socket is
    whether there is one. *)
Definition rt_link2_ep_nano nc (ep : option nat) : bool * nactx :=
  match ep with
  | None => (false, nc)
  | Some id =>
      match cr_eps (no_rt nc) !! id with
      | None => (false, nc)
      | Some e =>
          if ep_open e then (true, nc) else
          let '(s, n) := uta_link2_nano (no_net nc) (ep_addr e) in
          let sock := if 0 <=? s then 1 else 0 in
          (0 <=? sock, set_noep (set_nonet nc n) id (set_conn e sock (0 <=? sock)))
      end
  end.

(** The part that the selections share. *)
Definition sock_of_nano nc (id : nat) : Z * nactx :=
  match cr_eps (no_rt nc) !! id with
  | None => (-1, nc)
  | Some e =>
      if ep_open e then (ep_nn_sock e, nc) else
      let e := match ep_addr e with
               | None => set_addr e (match ep_name e with Some nm => uta_h2ip gethostbyname nm | None => None end)
               | Some _ => e
               end in
      let '(sock, n) := uta_link2_nano (no_net nc) (ep_addr e) in
      (sock, set_noep (set_nonet nc n) id (set_conn e sock (0 <=? sock)))
  end.

Definition uta_epsock_byname_nano nc (name : list Z) : Z * nactx :=
  match cr_rtable (no_rt nc) with
  | None => (-1, nc)
  | Some rt =>
      let '(id, nc) :=
        match sm_get (rt_hash rt) (AStr 1 name) with
        | Some (TEp id) => (Some id, nc)
        | _ => let '(id, rt) := rt_ensure_ep gethostbyname (no_rt nc) name in (id, set_nort nc rt)
        end in
      match id with None => (-1, nc) | Some id => sock_of_nano nc id end
  end.

(** The result is the socket and [more]. *)
Definition uta_epsock_rr_nano nc (key group : Z) : comp (Z * bool * nactx) :=
  match cr_rtable (no_rt nc) with
  | None => Ret (-1, false, nc)
  | Some rt =>
      match pull_rte rt key with
      | None => Ret (-1, false, nc)
      | Some rte_id =>
          rte ← deref (cr_rtes (no_rt nc) !! rte_id);
          if (group <? 0) || (rte_nrrgroups rte <=? group) then Ret (-1, false, nc) else
          match rte_rrgroups rte !! Z.to_nat group with
          | Some (Some rrg) =>
              let more := match rte_rrgroups rte !! Z.to_nat (group + 1) with Some (Some _) => true | _ => false end in
              let nused := zlen (rg_epts rrg) in
              if nused =? 0 then Ret (-1, more, nc) else
              let idx := if nused =? 1 then 0 else rg_ep_idx rrg mod nused in
              let rrg' := if nused =? 1 then rrg else MkRRG (u16 (rg_ep_idx rrg + 1)) (rg_epts rrg) in
              let rte' := MkRte (rte_key rte) (rte_refs rte) (rte_mtype rte) (<[Z.to_nat group := Some rrg']> (rte_rrgroups rte)) in
              let nc := set_nort nc (set_rtes (no_rt nc) (<[rte_id := rte']> (cr_rtes (no_rt nc)))) in
              p ← deref (rg_epts rrg !! Z.to_nat idx);
              id ← deref p;
              let '(sock, nc) := sock_of_nano nc id in
              Ret (sock, more, nc)
          | _ => Ret (-1, false, nc)
          end
      end
  end.

(** ** Sending *)

(** The result is the message to return, errno and the library.  A copied message
    is sent with the length of a header without trace or data. *)
Definition send_msg_nano (mctx : msg_ctx) n (msg : mbuf) (sock : Z) : comp (option mbuf * Z * N) :=
  buf ← fill_header_nng mctx msg;
  h ← deref (m_header msg);
  tr_len ← RMR_TR_LEN buf h;
  let msg := set_tp_buf (Some buf) msg in
  let zc := negb (Z.land (m_flags msg) MFL_ZEROCOPY =? 0) in
  let len := sizeof_mhdr + m_len msg in
  if negb zc && ((len <? 0) || (zlen buf <? h + len)) then UB
  else
    let '(e, n) := nn_send n sock (if zc then buf else slice buf h len) in
    let state := match e with Some _ => -1 | None => m_state msg end in
    if 0 <=? state then
      if Z.land (m_flags msg) MFL_NOALLOC =? 0
      then m ← alloc_zcmsg_nano malloc_bytes mctx (Some msg) 0 RMR_OK (i32 tr_len); Ret (Some m, 0, n)
      else Ret (None, 0, n)
    else
      let msg := match e with
                 | None => if zc then MkMbuf (m_state msg) (m_mtype msg) (m_len msg) (m_payload msg) (m_xaction msg) (m_sub_id msg)
                                         (m_tp_state msg) (m_tp_buf msg) None (m_flags msg) (m_alloc_len msg) (m_rts_fd msg) (m_cookie msg)
                           else msg
                 | Some _ => msg
                 end in
      let errno := default 0 e in
      Ret (Some (set_state (if errno =? EAGAIN then RMR_ERR_RETRY else RMR_ERR_SENDFAILED) msg), errno, n).

(** The first attempt and the repeats. *)
Fixpoint send_retry_nano (max_rt : nat) (mctx : msg_ctx) n (msg : mbuf) (sock : Z) : comp (option mbuf * Z * N) :=
  '(r, e, n) ← send_msg_nano mctx n msg sock;
  match r, max_rt with
  | Some m, S k => if m_state m =? RMR_ERR_RETRY then send_retry_nano k mctx n m sock else Ret (r, e, n)
  | _, _ => Ret (r, e, n)
  end.

(** The loop over the groups; [altk]: the key without the subscription may still be
    tried.  A lack of fuel is [UB]. *)
Fixpoint send_groups_nano (fuel : nat) nc (key group : Z) (altk : bool) (msg : mbuf) : comp (option mbuf * Z * nactx) :=
  match fuel with
  | O => UB
  | S fuel' =>
      '(sock, more, nc) ← uta_epsock_rr_nano nc key group;
      if sock <? 0 then
        if altk then send_groups_nano fuel' nc (build_rt_key UNSET_SUBID (m_mtype msg)) group false msg
        else Ret (Some (set_state RMR_ERR_NOENDPT msg), ENXIO, nc)
      else if more : bool then
        c ← clone_msg_nano malloc_bytes (Some msg);
        clone_m ← deref c;
        '(_, _, n) ← send_retry_nano 1000 (no_mctx nc) (no_net nc) (set_flags (Z.lor (m_flags msg) MFL_NOALLOC) msg) sock;
        send_groups_nano fuel' (set_nonet nc n) key (group + 1) altk clone_m
      else
        '(r, e, n) ← send_retry_nano 1000 (no_mctx nc) (no_net nc) msg sock;
        Ret (r, e, set_nonet nc n)
  end.

Definition rmr_send_msg_nano (ctx : option nactx) (msg : option mbuf) (fuel : nat) : comp (option mbuf * Z * option nactx) :=
  match ctx, msg with
  | Some nc, Some msg =>
      match m_header msg with
      | None => Ret (Some (set_state RMR_ERR_NOHDR msg), EBADMSG, Some nc)
      | Some _ =>
          '(r, e, nc) ← send_groups_nano fuel nc (build_rt_key (m_sub_id msg) (m_mtype msg)) 0 (negb (m_sub_id msg =? UNSET_SUBID)) msg;
          Ret (r, e, Some nc)
      end
  | _, Some msg => Ret (Some (set_state RMR_ERR_BADARG msg), EINVAL, ctx)
  | _, None => Ret (None, EINVAL, ctx)
  end.

Definition send2ep_nano (mctx : msg_ctx) n (e : endpoint) (msg : mbuf) : comp (option mbuf * Z * N) :=
  send_msg_nano mctx n msg (ep_nn_sock e).

Definition rmr_rts_msg_nano (ctx : option nactx) (msg : option mbuf) : comp (option mbuf * Z * option nactx) :=
  match ctx, msg with
  | Some nc, Some msg =>
      match m_header msg with
      | None => Ret (Some (set_state RMR_ERR_NOHDR msg), 0, Some nc)
      | Some h =>
          buf ← deref (m_tp_buf msg);
          ver ← HDR_VERSION buf h;
          let '(sock, nc) := if 2 <? ver then uta_epsock_byname_nano nc (cstr_at buf (h + o_srcip)) else (-1, nc) in
          let '(sock, nc) := if sock <? 0 then uta_epsock_byname_nano nc (cstr_at buf (h + o_src)) else (sock, nc) in
          if sock <? 0 then Ret (Some (set_state RMR_ERR_NOENDPT msg), 0, Some nc)
          else
            let hold_src := cstr_at buf (h + o_src) in
            let hold_ip := cstr_at buf (h + o_srcip) in
            buf ← strncpy buf (h + o_src) (x_my_name (no_mctx nc)) RMR_MAX_SRC;
            buf ← strncpy buf (h + o_srcip) (x_my_ip (no_mctx nc)) RMR_MAX_SRC;
            '(r, e, n) ← send_msg_nano (no_mctx nc) (no_net nc) (set_tp_buf (Some buf) msg) sock;
            match r with
            | None => Ret (None, e, Some (set_nonet nc n))
            | Some m =>
                h ← deref (m_header m);
                buf ← deref (m_tp_buf m);
                buf ← strncpy buf (h + o_src) hold_src RMR_MAX_SRC;
                buf ← strncpy buf (h + o_srcip) hold_ip RMR_MAX_SRC;
                Ret (Some (set_flags (Z.lor (m_flags m) MFL_ADDSRC) (set_tp_buf (Some buf) m)), e, Some (set_nonet nc n))
            end
      end
  | _, Some msg => Ret (Some (set_state RMR_ERR_BADARG msg), EINVAL, ctx)
  | _, None => Ret (None, EINVAL, ctx)
  end.

(** ** Receiving and calling; [gots]: what the receives bring, in order *)

Definition rmr_rcv_msg_nano (lk : bool) (ctx : option nactx) (old_msg : option mbuf) (gots : list (option (list Z))) :
    comp (option (option mbuf * option nactx)) :=
  match ctx with
  | None => Ret (Some (option_map (set_state RMR_ERR_BADARG) old_msg, None))
  | Some nc =>
      let '(qm, ring) := uta_ring_extract lk (no_ring nc) in
      match qm with
      | Some m => Ret (Some (Some m, Some (set_noring nc ring)))
      | None =>
          match gots with
          | [] => Ret None
          | g :: _ => m ← rcv_msg_nano malloc_bytes (no_mctx nc) old_msg g; Ret (Some (Some m, Some (set_noring nc ring)))
          end
      end
  end.

Definition rmr_set_rtimeout_nano (ctx : option nactx) (time : Z) : Z * option nactx :=
  match ctx with
  | None => (-1, None)
  | Some nc =>
      if no_rto nc =? time then (0, Some nc)
      else let '(r, n) := nn_setrto (no_net nc) time in (r, Some (MkNano (no_rt nc) n (no_mctx nc) (no_ring nc) time))
  end.

Definition rmr_torcv_msg_nano (lk : bool) (ctx : option nactx) (old_msg : option mbuf) (ms_to : Z) (gots : list (option (list Z))) :
    comp (option (option mbuf * option nactx)) :=
  let ctx := match ctx with
             | Some nc => if no_rto nc =? ms_to then Some nc else (rmr_set_rtimeout_nano (Some nc) ms_to).2
             | None => None
             end in
  rmr_rcv_msg_nano lk ctx old_msg gots.

Fixpoint specific_loop_nano (lk : bool) nc (msg : option mbuf) (expect : list Z) (queued allow2queue : Z) (gots : list (option (list Z))) :
    comp (option (option mbuf * Z * nactx)) :=
  if queued <? allow2queue then
    match gots with
    | [] => Ret None
    | g :: gots' =>
        m ← rcv_msg_nano malloc_bytes (no_mctx nc) msg g;
        if m_state m =? RMR_OK then
          x ← xact_bytes m (zlen expect);
          if bool_decide (x = expect) then Ret (Some (Some m, 0, nc))
          else
            let r := uta_ring_insert lk (no_ring nc) (Some m) in
            if r.1 =? 0 then Ret (Some (None, ENOBUFS, nc))
            else specific_loop_nano lk (set_noring nc r.2) None expect (queued + 1) allow2queue gots'
        else specific_loop_nano lk nc (Some m) expect queued allow2queue gots'
    end
  else Ret (Some (None, ETIMEDOUT, nc)).

Definition rmr_rcv_specific_nano (lk : bool) (ctx : option nactx) (msg : option mbuf) (expect : option (list Z)) (allow2queue : Z)
    (gots : list (option (list Z))) : comp (option (option mbuf * Z * option nactx)) :=
  match ctx with
  | None => Ret (Some (option_map (set_state RMR_ERR_BADARG) msg, EINVAL, None))
  | Some nc =>
      match expect with
      | None | Some [] =>
          r ← rmr_rcv_msg_nano lk ctx msg gots;
          Ret (match r with Some (m, ctx) => Some (m, 0, ctx) | None => None end)
      | Some s =>
          r ← specific_loop_nano lk nc msg (take (Z.to_nat RMR_MAX_XID) s) 0 allow2queue gots;
          Ret (match r with Some (m, e, nc) => Some (m, e, Some nc) | None => None end)
      end
  end.

Definition rmr_call_nano (lk : bool) (ctx : option nactx) (msg : option mbuf) (fuel : nat) (gots : list (option (list Z))) :
    comp (option (option mbuf * Z * option nactx)) :=
  match ctx, msg with
  | Some nc, Some m =>
      x ← xact_bytes m RMR_MAX_XID;
      let expected_id := cstr_of (x ++ [0]) in
      '(r, e, ctx) ← rmr_send_msg_nano (Some nc) (Some (set_flags (Z.lor (m_flags m) MFL_NOALLOC) m)) fuel;
      match r with
      | Some m => Ret (Some (Some (if m_state m =? RMR_ERR_RETRY then m else set_state RMR_ERR_CALLFAILED m), e, ctx))
      | None => rmr_rcv_specific_nano lk ctx None (Some expected_id) 20 gots
      end
  | _, m => Ret (Some (option_map (set_state RMR_ERR_BADARG) m, 0, ctx))
  end.

(** ** Small functions of the context *)

Definition rmr_ready_nano (ctx : option nactx) : bool :=
  match ctx with Some nc => match cr_rtable (no_rt nc) with Some _ => true | None => false end | None => false end.

Definition rmr_init_trace_nano (ctx : option nactx) (tr_len : Z) : Z * option nactx :=
  match ctx with
  | None => (0, None)
  | Some nc =>
      let x := no_mctx nc in
      (1, Some (MkNano (no_rt nc) (no_net nc) (MkMsgCtx (x_max_plen x) tr_len (x_d1_len x) (x_d2_len x) (x_my_name x) (x_my_ip x))
                  (no_ring nc) (no_rto nc)))
  end.
End nano.

(** * Theorems *)

(** ** Receiving *)

(** A buffer to receive into. *)
Record nano_room (m : mbuf) (room : Z) : Prop := {
  nr_hdr : m_header m = Some 0;
  nr_buf : exists buf, m_tp_buf m = Some buf /\ zlen buf = room;
  nr_alloc : m_alloc_len m = room
}.

Lemma received_prefix (ob b : list Z) : zlen b <= zlen ob ->
  exists rb, put ob 0 b = Ret rb /\ zlen rb = zlen ob /\
    forall o k, 0 <= o -> 0 <= k -> o + k <= zlen b -> slice rb o k = slice b o k.
Proof.
  intros Hl. destruct (put_ex ob 0 b) as (rb & E & S & Z1 & _); [lia..|]. exists rb. split; [done|]. split; [done|].
  intros o k Ho Hk Hok. replace o with (0 + o) at 1 by lia. rewrite <-(slice_slice rb 0 (zlen b)) by lia. by rewrite S.
Qed.

(** A receive of a body that has a header: what is got for the payload length. *)
Lemma rcv_msg_nano_body malloc_bytes ctx old room body l0 l1 l2 l3 :
  nano_room old room -> hdr_of body l0 l1 l2 l3 -> sizeof_mhdr < zlen body <= room -> room < 2 ^ 31 ->
  exists rb, zlen rb = room /\ (forall o k, 0 <= o -> 0 <= k -> o + k <= zlen body -> slice rb o k = slice body o k) /\
    rcv_msg_nano malloc_bytes ctx (Some old) (Some body) =
      Ret (MkMbuf RMR_OK (i32 (load32n body o_mtype))
             (if u32 (zlen body - (l0 + l1 + l2 + l3)) <? load32n body o_plen then i32 (RMR_ERR_TRUNC - (l0 + l1 + l2 + l3)) else i32 (load32n body o_plen))
             (Some (l0 + l1 + l2 + l3)) (Some o_xid) (i32 (load32n body o_sub_id)) (m_tp_state old) (Some rb) (Some 0)
             (Z.lor (m_flags old) MFL_ADDSRC) room (m_rts_fd old) (m_cookie old)).
Proof.
  intros [Hh (ob & Hb & Hz) Ha] F Hs Hr. pose proof (ho_range F) as Hl. unfold rcv_msg_nano, nn_recv. cbn [mbind comp_bind].
  rewrite Hh, Hb, Ha. cbn [deref mbind comp_bind]. rewrite take_ge by (unfold zlen in *; lia).
  destruct (received_prefix ob body) as (rb & -> & Zr & P); [lia|]. cbn [mbind comp_bind]. rewrite Hz in Zr.
  exists rb. split; [done|]. split; [done|]. unfold sizeof_mhdr in Hs. rewrite (i32_id (zlen body)) by (unfold in_i32; lia).
  destruct (Z.ltb_spec sizeof_mhdr (zlen body)); [|unfold sizeof_mhdr in *; lia].
  assert (forall o, 0 <= o -> o + 4 <= 280 -> get32n rb o = Ret (load32n body o)) as G.
  { intros o Ho1 Ho2. rewrite get32n_ret by lia. f_equal. unfold load32n. by rewrite P by lia. }
  assert (hdr_lens rb 0 = Ret (l0, l1, l2, l3)) as HL.
  { unfold hdr_lens. rewrite !Z.add_0_l, !G by (unfold o_len0, o_len1, o_len2, o_len3; lia). cbn [mbind comp_bind].
    by rewrite (ho_l0 _ _ _ _ _ F), (ho_l1 _ _ _ _ _ F), (ho_l2 _ _ _ _ _ F), (ho_l3 _ _ _ _ _ F). }
  unfold RMR_HDR_LEN, PAYLOAD_ADDR. rewrite !Z.add_0_l, !G by (unfold o_plen, o_mtype, o_sub_id; lia). rewrite HL. cbn [mbind comp_bind].
  rewrite (u32_id (l0 + l1 + l2 + l3)) by lia. cbn. by rewrite Ha.
Qed.

(** A message whose payload was cut on the way is handed over as good, with a
    negative length: the state that tells of the cut is the number the length is
    computed from, and it is overwritten. *)
Theorem nano_cut_message_is_good malloc_bytes ctx old room body l0 l1 l2 l3 :
  nano_room old room -> hdr_of body l0 l1 l2 l3 -> sizeof_mhdr < zlen body <= room -> room < 2 ^ 31 ->
  sizeof_mhdr <= l0 + l1 + l2 + l3 <= zlen body -> zlen body - (l0 + l1 + l2 + l3) < load32n body o_plen ->
  exists m, rcv_msg_nano malloc_bytes ctx (Some old) (Some body) = Ret m /\ m_state m = RMR_OK /\
    m_len m = RMR_ERR_TRUNC - (l0 + l1 + l2 + l3) /\ m_len m < 0.
Proof.
  intros Hm F Hs Hr Hl Hc. destruct (rcv_msg_nano_body malloc_bytes ctx old room body l0 l1 l2 l3 Hm F Hs Hr) as (rb & _ & _ & E).
  unfold sizeof_mhdr, RMR_ERR_TRUNC in *. rewrite u32_id in E by lia. rewrite (proj2 (Z.ltb_lt _ _) Hc) in E. rewrite (i32_id (14 - _)) in E by (unfold in_i32; lia).
  eexists. split; [exact E|]. cbn. lia.
Qed.

(** ** Sending *)

Lemma alloc_zcmsg_nano_some malloc_bytes ctx m size st trlo tr :
  (forall n, 0 <= n -> zlen (malloc_bytes n) = n) -> sizeof_mhdr <= m_alloc_len m < 2 ^ 31 ->
  tr = (if 0 <? trlo then trlo else x_trace_data_len ctx) -> 0 <= tr < 2 ^ 31 ->
  exists m' buf, alloc_zcmsg_nano malloc_bytes ctx (Some m) size st trlo = Ret m' /\
    m_state m' = st /\ m_len m' = 0 /\ m_alloc_len m' = m_alloc_len m /\ m_payload m' = Some (sizeof_mhdr + tr) /\
    m_tp_buf m' = Some buf /\ zlen buf = m_alloc_len m.
Proof.
  intros Hm Ha Htr Ht. unfold alloc_zcmsg_nano. rewrite <-Htr. cbv zeta. set (l := m_alloc_len m) in *.
  assert (zlen (malloc_bytes l) = l) as Zl by (apply Hm; unfold sizeof_mhdr in *; lia).
  unfold SET_HDR_LEN, SET_HDR_TR_LEN, sizeof_mhdr, o_rmr_ver, RMR_MSG_VER, o_sub_id, o_len0, o_len1, o_src, o_srcip, RMR_MAX_SRC in *.
  rewrite !Z.add_0_l.
  destruct (memset_ex (malloc_bytes l) 0 0 280) as (b1 & -> & S1 & Z1 & F1); [lia..|]. cbn [mbind comp_bind].
  destruct (put32n_ex b1 8 3) as (b2 & -> & V2 & Z2 & F2); [lia..|]. cbn [mbind comp_bind].
  destruct (put32n_ex b2 212 UNSET_SUBID) as (b3 & -> & V3 & Z3 & F3); [lia..|]. cbn [mbind comp_bind].
  destruct (put32n_ex b3 196 280) as (b4 & -> & V4 & Z4 & F4); [lia..|]. cbn [mbind comp_bind].
  destruct (put32n_ex b4 200 tr) as (b5 & -> & V5 & Z5 & F5); [lia..|]. cbn [mbind comp_bind].
  rewrite u32_id in V4, V5 by lia. unfold load32n in V4, V5.
  assert (slice b5 204 8 = replicate 8 0) as S5.
  { frame. replace 204 with (0 + 204) by lia. rewrite <-(slice_slice b1 0 280) by lia. by rewrite S1. }
  assert (PAYLOAD_ADDR b5 0 = Ret (280 + tr)) as ->.
  { unfold PAYLOAD_ADDR, hdr_lens, o_len0, o_len1, o_len2, o_len3. rewrite !Z.add_0_l, !get32n_ret by lia. cbn [mbind comp_bind].
    unfold load32n. rewrite V5. replace (slice b5 196 4) with (slice b4 196 4) by (by frame). rewrite V4.
    replace (slice b5 204 4) with (slice (slice b5 204 8) 0 4) by (by rewrite slice_slice by lia).
    replace (slice b5 208 4) with (slice (slice b5 204 8) 4 4) by (by rewrite slice_slice by lia). rewrite S5. f_equal.
    change (be_val (slice (replicate 8 0) 0 4)) with 0. change (be_val (slice (replicate 8 0) 4 4)) with 0. lia. }
  cbn [mbind comp_bind].
  destruct (strncpy_ex b5 76 (x_my_name ctx)) as (b7 & -> & Z7 & F7); [lia..|]. cbn [mbind comp_bind].
  destruct (strncpy_ex b7 216 (x_my_ip ctx)) as (b8 & -> & Z8 & F8); [lia..|]. cbn [mbind comp_bind].
  eexists _, b8. split; [done|]. cbn. split_and!; try done. lia.
Qed.

Section sends.
Context {N : Type} `{NanoLib N}.
Variable malloc_bytes : Z -> list Z.
Hypothesis malloc_len : forall n, 0 <= n -> zlen (malloc_bytes n) = n.
Implicit Types n : N.

(** A filled message still is one to send, of the same content. *)
Lemma filled_sendable ctx m buf l0 l1 l2 l3 : nng_sendable ctx m buf l0 l1 l2 l3 ->
  exists b, fill_header_nng ctx m = Ret b /\ nng_sendable ctx (set_tp_buf (Some b) m) b l0 l1 l2 l3 /\
    nng_content (set_tp_buf (Some b) m) = nng_content m /\ load32n b o_plen = m_len m /\
    load32n b o_mtype = u32 (m_mtype m) /\ load32n b o_sub_id = u32 (m_sub_id m) /\ slice b o_xid 32 = slice buf o_xid 32.
Proof.
  intros [W Hz Hi Ha [Hn Hip] Hl]. destruct (fill_header_nng_spec ctx m buf l0 l1 l2 l3 W Hn Hip) as (b & E & Zb & F & Vm & Vp & Vs & K).
  exists b. split; [done|]. pose proof W as [Eb Eh Ep _ Haft [Hl0 Hl1]]. split.
  { split; [|done|done|by rewrite Zb|done|done]. split; try done. by rewrite Zb. }
  split; [|split_and!; try done; apply K; unfold kept, o_xid; lia].
  unfold nng_content. cbn [m_mtype m_sub_id m_len m_payload m_tp_buf set_tp_buf]. rewrite Ep, Eb.
  rewrite K; [done|pose proof (ho_range (proj1 F)); lia|lia|]. unfold kept, sizeof_mhdr in *. lia.
Qed.

(** What a receiver with a large enough buffer gets from a body. *)
Definition nano_receives (content : Z * Z * Z * list Z) (xid b : list Z) : Prop :=
  forall ctx old room, nano_room old room -> zlen b <= room < 2 ^ 31 ->
    exists got, rcv_msg_nano malloc_bytes ctx (Some old) (Some b) = Ret got /\ m_state got = RMR_OK /\
      nng_content got = content /\ xact_bytes got 32 = Ret xid.

Lemma filled_received ctx m buf l0 l1 l2 l3 b : nng_sendable ctx m buf l0 l1 l2 l3 -> sizeof_mhdr < zlen buf ->
  fill_header_nng ctx m = Ret b -> nano_receives (nng_content m) (slice buf o_xid 32) b.
Proof.
  intros S Hbig Ef. destruct (filled_sendable ctx m buf l0 l1 l2 l3 S) as (b0 & E & S' & Hc & Vp & Vm & Vs & Hx).
  rewrite Ef in E. injection E as <-. intros ctx' old room Hr Hl. pose proof S' as [[Eb _ Ep F _ [Hl0 Hl1]] _ [Hmt Hsid] Hal _ _].
  cbn in Hmt, Hsid, Hl0, Hl1, Hal. assert (zlen b = zlen buf) as Zb by (rewrite <-Hal; exact (ns_alloc _ _ _ _ _ _ _ S)).
  destruct (rcv_msg_nano_body malloc_bytes ctx' old room b l0 l1 l2 l3 Hr (proj1 F)) as (rb & Zr & P & ->); [lia|lia|].
  pose proof (ho_range (proj1 F)) as Hrg. rewrite Vp, Vm, Vs, !i32_u32, u32_id by (done || lia).
  rewrite (proj2 (Z.ltb_ge _ _)) by lia. rewrite (i32_id (m_len m)) by (unfold in_i32; lia).
  eexists. split; [done|]. split; [done|]. split.
  - rewrite <-Hc. unfold nng_content. cbn [m_mtype m_sub_id m_len m_payload m_tp_buf set_tp_buf]. cbn in Ep. rewrite Ep. by rewrite P by lia.
  - unfold xact_bytes. cbn [m_tp_buf m_xaction deref mbind comp_bind]. unfold o_xid in *. pose proof (ho_size _ _ _ _ _ (proj1 F)). unfold sizeof_mhdr in *.
    rewrite (proj2 (Z.ltb_ge (zlen rb) _)) by lia. cbn [orb]. change (12 <? 0) with false. cbn [orb]. by rewrite P, Hx by lia.
Qed.

(** A send of a message whose state is not negative. *)
Lemma send_msg_nano_spec ctx n m sock buf l0 l1 l2 l3 : nng_sendable ctx m buf l0 l1 l2 l3 -> 0 <= m_state m ->
  exists b r e n', fill_header_nng ctx m = Ret b /\ send_msg_nano malloc_bytes ctx n m sock = Ret (r, default 0 e, n') /\
    nn_send n sock b = (e, n') /\
    match e with
    | None => match r with
              | None => Z.land (m_flags m) MFL_NOALLOC <> 0
              | Some m' => Z.land (m_flags m) MFL_NOALLOC = 0 /\ m_state m' = RMR_OK /\ m_len m' = 0 /\ m_alloc_len m' = m_alloc_len m
              end
    | Some er => r = Some (set_state (if er =? EAGAIN then RMR_ERR_RETRY else RMR_ERR_SENDFAILED) (set_tp_buf (Some b) m))
    end.
Proof.
  intros S Hst. destruct (filled_sendable ctx m buf l0 l1 l2 l3 S) as (b & E & S' & _). pose proof S' as [W Hz _ Ha _ (Ht & Hd & Hsum)].
  pose proof (nw_fits _ _ _ _ _ _ W) as [F _]. pose proof (ho_size _ _ _ _ _ F) as Hsz. pose proof (ho_range F) as Hrg.
  unfold send_msg_nano. rewrite E. cbn [mbind comp_bind]. pose proof (nw_hdr _ _ _ _ _ _ W) as Eh. cbn in Eh, Hz, Ha. rewrite Eh. cbn [deref mbind comp_bind].
  unfold RMR_TR_LEN. rewrite !Z.add_0_l, get32n_ret by (unfold o_len1, sizeof_mhdr in *; lia). rewrite (ho_l1 _ _ _ _ _ F). cbn [mbind comp_bind].
  cbn [m_flags set_tp_buf]. rewrite (proj2 (Z.eqb_neq _ _) Hz). cbn [negb andb].
  destruct (nn_send n sock b) as [e n'] eqn:En. destruct e as [er|].
  - change (0 <=? -1) with false. cbv iota. do 4 eexists. split; [done|]. split; [done|]. split; [done|]. done.
  - cbn [m_state set_tp_buf]. rewrite (proj2 (Z.leb_le _ _) Hst).
    destruct (Z.eqb_spec (Z.land (m_flags m) MFL_NOALLOC) 0).
    + rewrite i32_id by (unfold in_i32; lia). assert (0 <= l1 < 2 ^ 31) as Hl1 by lia.
      destruct (alloc_zcmsg_nano_some malloc_bytes ctx (set_tp_buf (Some b) m) 0 RMR_OK l1 _ malloc_len ltac:(cbn; lia) eq_refl) as (m' & bf & -> & Hs & Hl & Hal & _).
      * unfold sizeof_mhdr in *. destruct (0 <? l1); lia.
      * exists b, (Some m'), None, n'. split_and!; try done.
    + exists b, None, None, n'. split_and!; done.
Qed.

Lemma send_retry_nano_ends ctx sock xid k : forall n m buf l0 l1 l2 l3,
  nng_sendable ctx m buf l0 l1 l2 l3 -> sizeof_mhdr < zlen buf -> 0 <= m_state m -> slice buf o_xid 32 = xid ->
  exists r e n', send_retry_nano malloc_bytes k ctx n m sock = Ret (r, e, n') /\
    (forall s, s <> sock -> nn_wire n' s = nn_wire n s) /\
    ((exists b, nn_wire n' sock = nn_wire n sock ++ [b] /\ zlen b = zlen buf /\ nano_receives (nng_content m) xid b /\
        match r with
        | None => Z.land (m_flags m) MFL_NOALLOC <> 0
        | Some m' => Z.land (m_flags m) MFL_NOALLOC = 0 /\ m_state m' = RMR_OK /\ m_len m' = 0 /\ m_alloc_len m' = zlen buf
        end) \/
     (nn_wire n' sock = nn_wire n sock /\ exists m', r = Some m' /\ nng_content m' = nng_content m /\
        (m_state m' = RMR_ERR_RETRY /\ e = EAGAIN \/ m_state m' = RMR_ERR_SENDFAILED /\ e <> EAGAIN))).
Proof.
  induction k as [|k IH]; intros n m buf l0 l1 l2 l3 S Hbig Hst Hx; cbn [send_retry_nano];
    destruct (send_msg_nano_spec ctx n m sock buf l0 l1 l2 l3 S Hst) as (b & r & e & n' & Ef & -> & En & Hr); cbn [mbind comp_bind];
    pose proof (filled_received ctx m buf l0 l1 l2 l3 b S Hbig Ef) as Hrc; rewrite Hx in Hrc;
    destruct (filled_sendable ctx m buf l0 l1 l2 l3 S) as (b0 & E0 & S' & Hc & _ & _ & _ & Hx'); rewrite Ef in E0; injection E0 as <-;
    assert (zlen b = zlen buf) as Zb by (rewrite <-(ns_alloc _ _ _ _ _ _ _ S'), <-(ns_alloc _ _ _ _ _ _ _ S); done);
    destruct e as [er|]; subst.
  - do 3 eexists. split; [done|]. split; [intros; by eapply nn_send_other|]. right. split; [by eapply nn_send_fails|].
    eexists. split; [done|]. split; [done|]. cbn. destruct (Z.eqb_spec er EAGAIN); [by left|by right].
  - do 3 eexists. split; [by destruct r|]. split; [intros; by eapply nn_send_other|]. left. exists b. split; [by eapply nn_send_ok|]. split; [done|]. split; [done|].
    by rewrite <-(ns_alloc _ _ _ _ _ _ _ S).
  - cbn [m_state set_state default].
    assert (forall er', nng_sendable ctx (set_state er' (set_tp_buf (Some b) m)) b l0 l1 l2 l3) as Sn.
    { intros er'. destruct S' as [[] ? ? ? ? ?]. by split. }
    destruct (Z.eqb_spec er EAGAIN) as [->|Hne].
    + change (RMR_ERR_RETRY =? RMR_ERR_RETRY) with true. cbv iota.
      destruct (IH n' _ _ _ _ _ _ (Sn RMR_ERR_RETRY)) as (r & e & n2 & -> & Ho & Hd); [|done|by rewrite Hx'|].
      { by rewrite Zb. }
      assert (forall s, nn_wire n' s = nn_wire n s) as Hw by (intros; by eapply nn_send_fails).
      exists r, e, n2. split; [done|]. split; [intros s Hs; by rewrite Ho, Hw|]. rewrite Hw in Hd.
      change (nng_content (set_state RMR_ERR_RETRY (set_tp_buf (Some b) m))) with (nng_content (set_tp_buf (Some b) m)) in Hd. rewrite Hc in Hd.
      by rewrite Zb in Hd.
    + change (RMR_ERR_SENDFAILED =? RMR_ERR_RETRY) with false. cbv iota. do 3 eexists. split; [done|].
      split; [intros; by eapply nn_send_other|]. right. split; [by eapply nn_send_fails|]. eexists. split; [done|]. split; [done|]. by right.
  - do 3 eexists. split.
    { destruct r as [m'|]; [|done]. destruct Hr as (_ & -> & _). change (RMR_OK =? RMR_ERR_RETRY) with false. done. }
    split; [intros; by eapply nn_send_other|]. left. exists b. split; [by eapply nn_send_ok|]. split; [done|]. split; [done|].
    by rewrite <-(ns_alloc _ _ _ _ _ _ _ S).
Qed.
End sends.

(** C15.  A send over nanomsg, with up to [max_rt] repeats while the library says to try
    again, ends in one of two ways: the wire has one more body, from which a receiver
    with room for it gets the same type, subscription, length, payload and transaction id,
    and the caller an empty message of the same size (nothing for a call); or the
    wire is unchanged and the caller has its message back, marked for a retry
    exactly when the last failure was EAGAIN.  No other wire is written to. *)
Theorem nano_sent_is_received {N : Type} `{NanoLib N} malloc_bytes ctx (n : N) m sock max_rt buf l0 l1 l2 l3 :
  (forall n, 0 <= n -> zlen (malloc_bytes n) = n) ->
  nng_sendable ctx m buf l0 l1 l2 l3 -> sizeof_mhdr < zlen buf -> 0 <= m_state m ->
  exists r e n', send_retry_nano malloc_bytes max_rt ctx n m sock = Ret (r, e, n') /\
    (forall s, s <> sock -> nn_wire n' s = nn_wire n s) /\
    ((exists b, nn_wire n' sock = nn_wire n sock ++ [b] /\ zlen b = zlen buf /\ nano_receives malloc_bytes (nng_content m) (slice buf o_xid 32) b /\
        match r with
        | None => Z.land (m_flags m) MFL_NOALLOC <> 0
        | Some m' => Z.land (m_flags m) MFL_NOALLOC = 0 /\ m_state m' = RMR_OK /\ m_len m' = 0 /\ m_alloc_len m' = zlen buf
        end) \/
     (nn_wire n' sock = nn_wire n sock /\ exists m', r = Some m' /\ nng_content m' = nng_content m /\
        (m_state m' = RMR_ERR_RETRY /\ e = EAGAIN \/ m_state m' = RMR_ERR_SENDFAILED /\ e <> EAGAIN))).
Proof. intros Hm S Hb Hst. by eapply send_retry_nano_ends. Qed.

(** ** Links *)

(** rt_link2_ep reports every endpoint that has a record as connected, whatever the
    library did; the socket kept is 1 or 0. *)
Theorem nano_link_always_succeeds {TH TE N : Type} `{Symbols TH thing} `{Symbols TE nat} `{NanoLib N} (nc : nano_ctx TH TE N) id e :
  cr_eps (no_rt nc) !! id = Some e ->
  (rt_link2_ep_nano nc (Some id)).1 = true /\
  (ep_open e = false -> exists e', cr_eps (no_rt (rt_link2_ep_nano nc (Some id)).2) !! id = Some e' /\ ep_open e' = true /\
     (ep_nn_sock e' = 0 \/ ep_nn_sock e' = 1)).
Proof.
  intros He. unfold rt_link2_ep_nano. rewrite He. destruct (ep_open e) eqn:Eo; [by split|].
  destruct (uta_link2_nano (no_net nc) (ep_addr e)) as [s n]. destruct (0 <=? s); (split; [done|]); intros _; cbn; rewrite lookup_insert_eq;
    eexists; (split; [done|]); (split; [done|]); cbn; tauto.
Qed.

(** ** Examples *)

Definition nano_net : Type := Z -> list (list Z).

#[export] Program Instance nano_net_lib : NanoLib nano_net := {
  nn_socket n := (5, n);
  nn_connect n _ _ := (true, n);
  nn_close n _ := n;
  nn_send n s b := (None, fun s' => if s' =? s then n s' ++ [b] else n s');
  nn_setrto n _ := (0, n);
  nn_wire n s := n s
}.
Next Obligation. intros n s b n' [= <-]. by rewrite Z.eqb_refl. Qed.
Next Obligation. done. Qed.
Next Obligation. intros n s b e n' s' [= <- <-] Hs. by rewrite (proj2 (Z.eqb_neq _ _) Hs). Qed.

Definition ex_nano_send : comp (option mbuf * Z * nano_net) := send_retry_nano junk 1000 ctx0 ((fun _ => []) : nano_net) ex_nmsg 5.

Lemma ex_nano_taken : match ex_nano_send with Ret (_, _, n) => bool_decide (n 5 = []) | UB => true end = false.
Proof. vm_compute. reflexivity. Qed.

(** The message of the examples of NngSend.v, received in a buffer of its own size. *)
Lemma nano_sent_is_received_witness :
  exists r e n' b got, ex_nano_send = Ret (r, e, n') /\ n' 5 = [b] /\
    rcv_msg_nano junk ctx0 (Some ex_nmsg) (Some b) = Ret got /\ nng_content got = nng_content ex_nmsg.
Proof.
  destruct (nano_sent_is_received junk ctx0 ((fun _ => []) : nano_net) ex_nmsg 5 1000 ex_nbuf 280 20 4 0 junk_len ex_nmsg_sendable)
    as (r & e & n' & E & _ & [(b & Hw & Hz & Hr & _)|(Hw & m' & _)]).
  - reflexivity.
  - discriminate.
  - destruct (Hr ctx0 ex_nmsg (zlen ex_nbuf)) as (got & Eg & _ & Hc & _).
    + split; [reflexivity|exists ex_nbuf; split; reflexivity|reflexivity].
    + rewrite Hz. split; [discriminate|reflexivity].
    + exists r, e, n', b, got. split; [exact E|]. split; [exact Hw|]. split; [exact Eg|exact Hc].
  - exfalso. pose proof ex_nano_taken as Ht. unfold ex_nano_send in Ht. rewrite E in Ht. cbn in Hw. rewrite Hw in Ht. discriminate Ht.
Defined.

Definition ex_nano : nano_ctx (gmap akey thing) (gmap akey nat) nano_net :=
  MkNano (sc_rt (ex_sc ((fun _ => []) : open_net))) (fun _ => []) ctx0 (rx_mring rx0) (-2).

(** The copies for further groups do not have the flag that no new message is wanted:
    a call on a route with two groups is sent to both, and comes back as a failed one. *)
Theorem nano_call_with_groups_fails :
  match rmr_call_nano junk (fun _ => None) true (Some ex_nano) (Some ex_nmsg) 3 [] with
  | Ret (Some (Some m, _, Some nc)) => m_state m = RMR_ERR_CALLFAILED /\ length (no_net nc 8) = 1%nat /\ length (no_net nc 9) = 1%nat
  | _ => False
  end.
Proof. vm_compute. split_and!; reflexivity. Qed.

(** A message of 404 bytes with a payload of 90, of which 350 arrive: 46 bytes of the payload. *)
Definition ex_cut : list Z := Eval vm_compute in take 350 (splice ex_nbuf 4 (be_bytes 4 90)).

Lemma nano_cut_message_is_good_witness :
  exists m, rcv_msg_nano junk ctx0 (Some ex_nmsg) (Some ex_cut) = Ret m /\ m_state m = RMR_OK /\ m_len m = -290.
Proof.
  destruct (nano_cut_message_is_good junk ctx0 ex_nmsg (zlen ex_nbuf) ex_cut 280 20 4 0) as (m & E & Hs & Hl & _).
  - split; [reflexivity|exists ex_nbuf; split; reflexivity|reflexivity].
  - apply (fits_ok_spec ex_cut). vm_compute. reflexivity.
  - split; [reflexivity|discriminate].
  - reflexivity.
  - split; discriminate.
  - reflexivity.
  - exists m. split; [exact E|]. split; [exact Hs|exact Hl].
Defined.
