(* ===== verification/Transports.v ===== *)
(** What the NNG and nanomsg transports have of their own besides messages and
    sends: the route table functions of src/src/rmr/nng/src/rtable_nng_static.c and
    src/src/rmr/nanomsg/src/rtable_static.c, and the allocation with trace data, the
    release of messages and the calls on the life of a context of
    src/src/rmr/nng/src/rmr_nng.c and src/src/rmr/nanomsg/src/rmr.c.

    The functions that the NNG transport copied from the SI one are shown to agree
    with it; those of nanomsg differ. *)

From S2P Require Import Prelude Bytes Symtab SymIface Tools Ring Mbuf Endpoint River RouteTable Send SendSpec Fanout MtCall MtSpec Owners NngMbuf NngSend NngRcv NanoMsg RtInv RtSpec RtParser RtRefine Stats.

(** ** Route tables *)

Section tables.
Context {TH TE : Type} `{Symbols TH thing} `{Symbols TE nat}.
Variable gethostbyname : list Z -> option (list Z).
Abbreviation ctx_t := (rt_ctx TH TE).
Abbreviation table := (route_table_t TH).
Implicit Types (ctx : ctx_t) (rt : table).

Definition put_group ctx (id : nat) (rte : rtable_ent_t) (group : Z) (g : rrgroup_t) : ctx_t :=
  set_rtes ctx (<[id := MkRte (rte_key rte) (rte_refs rte) (rte_mtype rte)
    (<[Z.to_nat group := Some g]> (rte_rrgroups rte))]> (cr_rtes ctx)).

(** NNG: a negative group number is an index outside the array. *)
Definition uta_add_ep_nng ctx (rt : option table) (rte : option nat) (ep_name : list Z) (group : Z) : comp (option nat * ctx_t) :=
  match rte, rt with
  | Some id, Some _ =>
      r ← deref (cr_rtes ctx !! id);
      if rte_nrrgroups r <=? group then Ret (None, ctx)
      else if group <? 0 then UB
      else
        let rrg := match rte_rrgroups r !! Z.to_nat group with Some (Some g) => g | _ => MkRRG 0 [] end in
        let '(ep, ctx) := rt_ensure_ep gethostbyname ctx ep_name in
        if MAX_EP_GROUP <=? zlen (rg_epts rrg) then Ret (None, put_group ctx id r group rrg)
        else Ret (ep, put_group ctx id r group (MkRRG (rg_ep_idx rrg) (rg_epts rrg ++ [ep])))
  | _, _ => Ret (None, ctx)
  end.

Definition uta_get_rte_nng (rt : option table) (sid mtype : Z) (try_alt : bool) : option nat :=
  match rt with
  | None => None
  | Some rt =>
      let rte := pull_rte rt (build_rt_key sid mtype) in
      if (match rte with Some _ => true | None => false end) || negb try_alt then rte
      else if negb (sid =? UNSET_SUBID) then pull_rte rt (build_rt_key UNSET_SUBID mtype)
      else rte
  end.

Definition get_ep_counts_nng (ep : option endpoint) (ubuf_len : option Z) : comp (option (list Z)) :=
  match ep with
  | None => Ret None
  | Some ep =>
      let len := match ubuf_len with Some n => n | None => 256 end in
      name ← deref (ep_name ep);
      Ret (Some (snprintf len (name ++ $" " ++ num (ep_good ep) ++ $" " ++ num (ep_fail ep) ++ $" " ++ num (ep_trans ep))))
  end.

(** nanomsg: a name that is not in the hash of endpoints gets an endpoint, which
    is put into the hash of the route table.  The counters are not used with
    nanomsg. *)
Definition uta_add_ep_nano ctx (rt : option table) (rte : option nat) (ep_name : list Z) (group : Z) :
    comp (option nat * option table * ctx_t) :=
  match rte, rt with
  | Some id, Some rt =>
      r ← deref (cr_rtes ctx !! id);
      if rte_nrrgroups r <=? group then Ret (None, Some rt, ctx)
      else if group <? 0 then UB
      else
        let rrg := match rte_rrgroups r !! Z.to_nat group with Some (Some g) => g | _ => MkRRG 0 [] end in
        let '(ep, rt, ctx) :=
          match uta_get_ep ctx ep_name with
          | Some ep => (ep, rt, ctx)
          | None =>
              let ep := cr_next ctx in
              let e := MkEp (Some ep_name) (uta_h2ip gethostbyname ep_name) (-1) false 0 0 0 true in
              (ep, set_hash rt (sm_put (rt_hash rt) (AStr 1 ep_name) (TEp ep)),
               MkRtCtx (cr_rtes ctx) (<[ep := e]> (cr_eps ctx)) (S ep) (cr_ephash ctx) (cr_rtable ctx) (cr_old ctx) (cr_new ctx)
                 (cr_my_name ctx) (cr_ip_list ctx))
          end in
        if MAX_EP_GROUP <=? zlen (rg_epts rrg) then Ret (None, Some rt, put_group ctx id r group rrg)
        else Ret (Some ep, Some rt, put_group ctx id r group (MkRRG (rg_ep_idx rrg) (rg_epts rrg ++ [Some ep])))
  | _, _ => Ret (None, rt, ctx)
  end.

End tables.

(** ** Messages with trace data, and their release *)

Section messages.
Variable malloc_bytes : Z -> list Z.

Definition rmr_set_trace_nng : option mbuf -> list Z -> Z -> comp (Z * option mbuf) := set_trace_with (realloc_msg_nng malloc_bytes).
Definition rmr_set_trace_nano : option mbuf -> list Z -> Z -> comp (Z * option mbuf) := set_trace_with (realloc_msg_nano malloc_bytes).

Definition rmr_tralloc_msg_nng (ctx : option msg_ctx) (size tr_size : Z) (data : list Z) : comp (option mbuf) :=
  match ctx with
  | None => Ret None
  | Some ctx => tralloc_with (realloc_msg_nng malloc_bytes) (alloc_zcmsg_nng malloc_bytes ctx None size 0 tr_size) tr_size data
  end.
Definition rmr_tralloc_msg_nano (ctx : option msg_ctx) (size tr_size : Z) (data : list Z) : comp (option mbuf) :=
  match ctx with
  | None => Ret None
  | Some ctx => tralloc_with (realloc_msg_nano malloc_bytes) (alloc_zcmsg_nano malloc_bytes ctx None size 0 tr_size) tr_size data
  end.
End messages.

(** NNG releases only what the library owns; nanomsg gives a buffer back to the
    library or frees it, here the same. *)
Definition rmr_free_msg_nng (h : heap) (p : option nat) : comp heap :=
  match p with
  | None => Ret h
  | Some p =>
      '(m, b) ← deref (hp_msgs h !! p);
      h ← (match m_header m with
           | Some _ => if negb (Z.land (m_flags m) MFL_ZEROCOPY =? 0) then free_buf h b else Ret h
           | None => Ret h
           end);
      free_struct h p
  end.
Definition rmr_free_msg_nano (h : heap) (p : option nat) : comp heap :=
  match p with
  | None => Ret h
  | Some p =>
      '(m, b) ← deref (hp_msgs h !! p);
      h ← (match m_header m with Some _ => free_buf h b | None => Ret h end);
      free_struct h p
  end.

(** ** The life of a context *)

Section life.
Context {N : Type} `{NngLib N}.

(** The fields of an NNG context that these calls use. *)
Record nng_life := MkLife { nl_net : N; nl_sock : Z; nl_ready : bool; nl_shutdown : bool }.

(** A receive time out cannot be set with NNG. *)
Definition rmr_set_rtimeout_nng (ctx : option nng_life) (time : Z) : Z := 0.
Definition rmr_ready_nng (ctx : option nng_life) : bool := match ctx with Some c => nl_ready c | None => false end.
Definition rmr_get_rcvfd_nng (nng_getopt_int : N -> Z -> option Z) (ctx : option nng_life) : Z :=
  match ctx with
  | None => -1
  | Some c => match nng_getopt_int (nl_net c) (nl_sock c) with Some fd => fd | None => -1 end
  end.
Definition rmr_close_nng (ctx : option nng_life) : option nng_life :=
  option_map (fun c => MkLife (nng_close (nl_net c) (nl_sock c)) (nl_sock c) (nl_ready c) true) ctx.
End life.

Section nano_life.
Context {TH TE N : Type} `{Symbols TH thing} `{Symbols TE nat} `{NanoLib N}.
Abbreviation nactx := (nano_ctx TH TE N).

Definition rmr_get_rcvfd_nano (ctx : option nactx) : Z := -1.
Definition rmr_close_nano (sock : Z) (ctx : option nactx) : option nactx :=
  option_map (fun nc => set_nonet nc (nn_close (no_net nc) sock)) ctx.

(** Less than 1000 is taken as seconds. *)
Definition stimeout_ms (time : Z) : Z := if (0 <? time) && (time <? 1000) then i32 (time * 1000) else time.
Definition rmr_set_stimeout_nano (nn_setsto : N -> Z -> Z * N) (ctx : option nactx) (time : Z) : Z * option nactx :=
  match ctx with
  | None => (-1, None)
  | Some nc => let '(r, n) := nn_setsto (no_net nc) (stimeout_ms time) in (r, Some (set_nonet nc n))
  end.
End nano_life.

(** * Theorems *)

Section tables_agree.
Context {TH TE : Type} `{Symbols TH thing} `{Symbols TE nat}.
Variable gethostbyname : list Z -> option (list Z).
Implicit Types (ctx : rt_ctx TH TE) (rt : route_table_t TH).

(** The NNG copies agree with the functions of the SI transport: for a group that
    is not negative and entries that are there. *)
Theorem nng_tables_agree ctx rt id ep_name group sid mtype try_alt ep ubuf_len :
  0 <= group ->
  uta_add_ep_nng gethostbyname ctx (Some rt) (Some id) ep_name group = uta_add_ep gethostbyname ctx id ep_name group /\
  uta_get_rte_nng (Some rt) sid mtype try_alt = uta_get_rte (Some rt) sid mtype try_alt /\
  get_ep_counts_nng ep ubuf_len = get_ep_counts ep ubuf_len.
Proof.
  intros Hg. split_and!.
  - unfold uta_add_ep_nng, uta_add_ep. destruct (cr_rtes ctx !! id) as [r|]; [|done]. cbn [deref mbind comp_bind].
    destruct (Z.ltb_spec group 0); [lia|]. rewrite orb_false_r. done.
  - unfold uta_get_rte_nng, uta_get_rte. destruct (pull_rte rt (build_rt_key sid mtype)); [done|]. cbn [orb]. destruct try_alt; [|done].
    cbn [negb]. by destruct (negb _).
  - unfold get_ep_counts_nng, get_ep_counts. destruct ep as [ep|]; [|done]. by destruct ubuf_len.
Qed.

Lemma rte_nrrgroups_put r g x :
  rte_nrrgroups (MkRte (rte_key r) (rte_refs r) (rte_mtype r) (<[g := x]> (rte_rrgroups r))) = rte_nrrgroups r.
Proof. unfold rte_nrrgroups, zlen. cbn. by rewrite length_insert. Qed.

(** A new name in an empty group. *)
Lemma nano_add_fresh ctx rt id r ep_name group :
  uta_get_ep ctx ep_name = None -> cr_rtes ctx !! id = Some r -> 0 <= group < rte_nrrgroups r -> rte_rrgroups r !! Z.to_nat group = Some None ->
  exists ctx',
    uta_add_ep_nano gethostbyname ctx (Some rt) (Some id) ep_name group
      = Ret (Some (cr_next ctx), Some (set_hash rt (sm_put (rt_hash rt) (AStr 1 ep_name) (TEp (cr_next ctx)))), ctx') /\
    uta_get_ep ctx' ep_name = None /\ cr_next ctx' = S (cr_next ctx) /\
    cr_rtes ctx' !! id = Some (MkRte (rte_key r) (rte_refs r) (rte_mtype r)
      (<[Z.to_nat group := Some (MkRRG 0 [Some (cr_next ctx)])]> (rte_rrgroups r))).
Proof.
  intros He Hr Hg E. unfold uta_add_ep_nano. rewrite Hr. cbn [deref mbind comp_bind].
  destruct (Z.leb_spec (rte_nrrgroups r) group); [lia|]. destruct (Z.ltb_spec group 0); [lia|]. rewrite E, He.
  cbn [rg_epts rg_ep_idx app]. change (MAX_EP_GROUP <=? zlen []) with false. cbv iota zeta.
  eexists. split; [reflexivity|]. split; [exact He|]. split; [reflexivity|].
  cbn. apply lookup_insert_eq.
Qed.

(** With nanomsg the endpoint hash is never written: a name added to two groups
    gets two endpoints, and the one found by name is the second, so that the first
    group sends through a connection of its own. *)
Theorem nano_add_ep_duplicates ctx rt id r ep_name g1 g2 :
  sm_ok (rt_hash rt) -> valid_key (AStr 1 ep_name) ->
  uta_get_ep ctx ep_name = None -> cr_rtes ctx !! id = Some r -> 0 <= g1 < rte_nrrgroups r -> 0 <= g2 < rte_nrrgroups r -> g1 <> g2 ->
  rte_rrgroups r !! Z.to_nat g1 = Some None -> rte_rrgroups r !! Z.to_nat g2 = Some None ->
  exists rt1 ctx1 rt2 ctx2,
    uta_add_ep_nano gethostbyname ctx (Some rt) (Some id) ep_name g1 = Ret (Some (cr_next ctx), Some rt1, ctx1) /\
    uta_add_ep_nano gethostbyname ctx1 (Some rt1) (Some id) ep_name g2 = Ret (Some (S (cr_next ctx)), Some rt2, ctx2) /\
    sm_get (rt_hash rt2) (AStr 1 ep_name) = Some (TEp (S (cr_next ctx))).
Proof.
  intros Hok Hk He Hr H1' H2' Hne E1 E2.
  destruct (nano_add_fresh ctx rt id r ep_name g1 He Hr H1' E1) as (ctx1 & Ha & He1 & Hn1 & Hr1).
  edestruct (nano_add_fresh ctx1 (set_hash rt (sm_put (rt_hash rt) (AStr 1 ep_name) (TEp (cr_next ctx)))) id _ ep_name g2 He1 Hr1)
    as (ctx2 & Hb & _ & _ & _).
  { by rewrite rte_nrrgroups_put. }
  { cbn [rte_rrgroups]. rewrite list_lookup_insert_ne by lia. exact E2. }
  rewrite Hn1 in Hb. eexists _, ctx1, _, ctx2. split; [exact Ha|]. split; [exact Hb|].
  cbn [set_hash rt_hash]. rewrite sm_get_put by (done || by apply sm_put_ok). by rewrite decide_True.
Qed.
End tables_agree.

(** A longer time can give a shorter time out. *)
Lemma stimeout_not_monotone : stimeout_ms 999 = 999000 /\ stimeout_ms 1000 = 1000.
Proof. done. Qed.

(** A message that was allocated with room for the trace data gets it without a
    reallocation, whatever the transport. *)
Lemma tralloc_fills realloc m buf hdr tr a data :
  m_tp_buf m = Some buf -> m_header m = Some hdr -> RMR_TR_LEN buf hdr = Ret tr -> TRACE_ADDR buf hdr = Ret a ->
  1 <= tr < 2 ^ 31 -> 0 <= a -> a + tr <= zlen buf -> tr <= zlen data ->
  exists buf', tralloc_with realloc (Ret m) tr data = Ret (Some (set_tp_buf (Some buf') m)) /\
    slice buf' a tr = slice data 0 tr /\ framed buf buf' a tr.
Proof.
  intros Eb Eh Et Ea Ht Ha Hfit Hd. unfold tralloc_with, set_trace_with. cbn [mbind comp_bind].
  destruct (Z.leb_spec tr 0); [lia|]. rewrite Eh, Eb. cbn [deref mbind comp_bind]. rewrite Et. cbn [mbind comp_bind].
  rewrite (i32_id tr) by (unfold in_i32; lia). rewrite Z.eqb_refl. cbn [negb mbind comp_bind]. rewrite Eb, Eh. cbn [deref mbind comp_bind].
  rewrite Ea. cbn [mbind comp_bind]. destruct (memcpy_ex buf a data 0 tr) as (b & -> & S2 & F2); [lia..|].
  cbn [mbind comp_bind]. rewrite Z.eqb_refl. exists b. by split_and!.
Qed.

(** The messages of every transport are released in the same way. *)
Theorem free_msg_agrees h p :
  (forall m b, hp_msgs h !! p = Some (m, b) -> m_header m <> None /\ Z.land (m_flags m) MFL_ZEROCOPY <> 0) ->
  rmr_free_msg_nng h (Some p) = rmr_free_msg h (Some p) /\ rmr_free_msg_nano h (Some p) = rmr_free_msg h (Some p).
Proof.
  intros Hf. unfold rmr_free_msg_nng, rmr_free_msg_nano, rmr_free_msg. destruct (hp_msgs h !! p) as [[m b]|] eqn:E; [|done].
  cbn [deref mbind comp_bind]. destruct (Hf m b eq_refl) as [Hh Hz]. destruct (m_header m); [|done].
  destruct (Z.eqb_spec (Z.land (m_flags m) MFL_ZEROCOPY) 0); [done|]. done.
Qed.

(** A table with one entry of two groups. *)
Lemma nano_add_ep_duplicates_witness :
  let r := MkRte 12 1 12 [None; None] in
  let ctx := MkRtCtx (TH := gmap akey thing) (TE := gmap akey nat) {[ 1%nat := r ]} ∅ 5%nat ∅ None None None [] None in
  exists rt1 ctx1 rt2 ctx2,
    uta_add_ep_nano (fun _ => None) ctx (Some (MkRt false ∅ 0 0 0)) (Some 1%nat) $"a:1" 0 = Ret (Some 5%nat, Some rt1, ctx1) /\
    uta_add_ep_nano (fun _ => None) ctx1 (Some rt1) (Some 1%nat) $"a:1" 1 = Ret (Some 6%nat, Some rt2, ctx2) /\
    sm_get (rt_hash rt2) (AStr 1 $"a:1") = Some (TEp 6%nat).
Proof.
  intros r ctx. apply (nano_add_ep_duplicates (fun _ => None) ctx (MkRt false ∅ 0 0 0) 1%nat r $"a:1" 0 1).
  - exact I.
  - cbn. vm_compute. repeat split; repeat constructor; discriminate || reflexivity.
  - reflexivity.
  - reflexivity.
  - vm_compute. split; discriminate || reflexivity.
  - vm_compute. split; discriminate || reflexivity.
  - discriminate.
  - reflexivity.
  - reflexivity.
Defined.
