(* ===== verification/Consts.v ===== *)
(** The constants given to the bindings: src/src/rmr/common/src/wrapper.c.

    A string in the work buffer is its content up to the terminator; a write past
    the 2048 bytes of the buffer is undefined.  strdup is taken to succeed. *)

From S2P Require Import Prelude Bytes Tools RouteTable Decimal.

Definition WBUF_SIZE : Z := 2048.
Definition ADD_SEP : bool := true.
Definition NO_SEP : bool := false.

(** ** Operations *)

(** The string [strncat( target, src, n )] leaves in a buffer of [size] bytes. *)
Definition strncat (size : Z) (target src : list Z) (n : Z) : comp (list Z) :=
  let src := take (Z.to_nat n) src in
  if size <=? zlen target + zlen src then UB else Ret (target ++ src).

Definition build_ival (name : list Z) (val : Z) (add_sep : bool) : list Z :=
  snprintf 512 ([34] ++ name ++ [34] ++ $": " ++ decimal val ++ (if add_sep then $"," else [])).

Definition build_sval (name val : list Z) (add_sep : bool) : list Z :=
  snprintf 512 ([34] ++ name ++ [34] ++ $": " ++ [34] ++ val ++ [34] ++ (if add_sep then $"," else [])).

(** The count returned and the target; [src] is freed in any case. *)
Definition bang_on (size : Z) (target : list Z) (src : option (list Z)) (max : Z) : comp (Z * list Z) :=
  match src with
  | None => Ret (0, target)
  | Some src =>
      let len := zlen src in
      let rc := if len <=? max then len else 0 in
      if 0 <? rc then t ← strncat size target src len; Ret (rc, t) else Ret (rc, target)
  end.

(** One pair of statements: the phrase is built and added. *)
Definition add_const (st : list Z * Z) (c : list Z * Z * bool) : comp (list Z * Z) :=
  '(n, wbuf) ← bang_on WBUF_SIZE st.1 (Some (build_ival c.1.1 c.1.2 c.2)) st.2;
  Ret (wbuf, st.2 - n).

Fixpoint add_consts (st : list Z * Z) (l : list (list Z * Z * bool)) : comp (list Z * Z) :=
  match l with [] => Ret st | c :: l' => st ← add_const st c; add_consts st l' end.

Definition consts_json (l : list (list Z * Z * bool)) : comp (list Z) :=
  let wbuf := $"{ " in
  '(wbuf, remain) ← add_consts (wbuf, WBUF_SIZE - zlen wbuf - 10) l;
  strncat WBUF_SIZE wbuf $" }" remain.

Definition consts : list (list Z * Z * bool) :=
  [($"RMR_MAX_XID", 32, ADD_SEP); ($"RMR_MAX_SID", 32, ADD_SEP); ($"RMR_MAX_MEID", 32, ADD_SEP);
   ($"RMR_MAX_SRC", 64, ADD_SEP); ($"RMR_MAX_RCV_BYTES", 2048, ADD_SEP); ($"RMRFL_NONE", 0, ADD_SEP);
   ($"RMRFL_AUTO_ALLOC", 3, ADD_SEP); ($"RMRFL_MTCALL", 2, ADD_SEP); ($"RMR_DEF_SIZE", 0, ADD_SEP);
   ($"RMR_VOID_MSGTYPE", -1, ADD_SEP); ($"RMR_VOID_SUBID", -1, ADD_SEP); ($"RMR_OK", 0, ADD_SEP);
   ($"RMR_ERR_BADARG", 1, ADD_SEP); ($"RMR_ERR_NOENDPT", 2, ADD_SEP); ($"RMR_ERR_EMPTY", 3, ADD_SEP);
   ($"RMR_ERR_NOHDR", 4, ADD_SEP); ($"RMR_ERR_SENDFAILED", 5, ADD_SEP); ($"RMR_ERR_CALLFAILED", 6, ADD_SEP);
   ($"RMR_ERR_NOWHOPEN", 7, ADD_SEP); ($"RMR_ERR_WHID", 8, ADD_SEP); ($"RMR_ERR_OVERFLOW", 9, ADD_SEP);
   ($"RMR_ERR_RETRY", 10, ADD_SEP); ($"RMR_ERR_RCVFAILED", 11, ADD_SEP); ($"RMR_ERR_TIMEOUT", 12, ADD_SEP);
   ($"RMR_ERR_UNSET", 13, ADD_SEP); ($"RMR_ERR_TRUNC", 14, ADD_SEP); ($"RMR_ERR_INITFAILED", 15, NO_SEP)].

Definition rmr_get_consts : comp (list Z) := consts_json consts.

(** * Theorems *)

(** ** A reader of such objects *)

(** A quoted name, and what follows the closing quote. *)
Definition read_name (s : list Z) : option (list Z * list Z) :=
  match s with
  | 34 :: s' => let n := cut_at 34 s' in
      match drop (length n) s' with 34 :: r => Some (n, r) | _ => None end
  | _ => None
  end.

(** The members of an object, at most [n] of them, up to the closing brace. *)
Fixpoint read_members (n : nat) (s : list Z) : option (list (list Z * Z)) :=
  match n with
  | O => None
  | S n' =>
      match read_name s with
      | Some (name, 58 :: 32 :: r) =>
          let (v, r) := read_int r in
          match r with
          | 44 :: r => option_map (cons (name, v)) (read_members n' r)
          | [32; 125] => Some [(name, v)]
          | _ => None
          end
      | _ => None
      end
  end.

Definition read_object (n : nat) (s : list Z) : option (list (list Z * Z)) :=
  match s with 123 :: 32 :: r => read_members n r | _ => None end.

(** ** The bound of the buffer *)

Definition phrase (c : list Z * Z * bool) : list Z := build_ival c.1.1 c.1.2 c.2.

(** The phrases that fit are added in order, those that do not are left out. *)
Fixpoint kept (remain : Z) (l : list (list Z * Z * bool)) : list Z :=
  match l with
  | [] => []
  | c :: l' => if zlen (phrase c) <=? remain then phrase c ++ kept (remain - zlen (phrase c)) l' else kept remain l'
  end.

Lemma kept_len l remain : 0 <= remain -> zlen (kept remain l) <= remain.
Proof.
  revert remain. induction l as [|c l IH]; intros remain Hr; cbn [kept]; [done|].
  destruct (Z.leb_spec (zlen (phrase c)) remain); [|by apply IH].
  rewrite zlen_app. specialize (IH (remain - zlen (phrase c)) ltac:(lia)). lia.
Qed.

Lemma zlen_take_le n (s : list Z) : 0 <= n -> zlen (take (Z.to_nat n) s) <= n.
Proof. unfold zlen. rewrite length_take. lia. Qed.

Lemma bang_on_spec target src max : zlen target + max < WBUF_SIZE ->
  bang_on WBUF_SIZE target (Some src) max = Ret (if zlen src <=? max then (zlen src, target ++ src) else (0, target)).
Proof.
  intros Hw. unfold bang_on, strncat. pose proof (zlen_nonneg src). destruct (Z.leb_spec (zlen src) max); [|done].
  destruct (Z.ltb_spec 0 (zlen src)) as [Hp|Hp].
  - rewrite take_ge by (unfold zlen; lia). by destruct (Z.leb_spec WBUF_SIZE (zlen target + zlen src)); [lia|].
  - destruct src; [|unfold zlen in *; cbn in *; lia]. by rewrite app_nil_r.
Qed.

Lemma add_consts_spec l wbuf remain : 0 <= remain -> zlen wbuf + remain < WBUF_SIZE ->
  add_consts (wbuf, remain) l = Ret (wbuf ++ kept remain l, remain - zlen (kept remain l)).
Proof.
  revert wbuf remain. induction l as [|c l IH]; intros wbuf remain Hr Hw; cbn [add_consts kept].
  - rewrite app_nil_r. by rewrite Z.sub_0_r.
  - unfold add_const. cbn [fst snd]. rewrite bang_on_spec by done. unfold phrase. destruct (Z.leb_spec (zlen (build_ival c.1.1 c.1.2 c.2)) remain) as [Hf|Hf].
    + cbn [mbind comp_bind]. rewrite IH by (rewrite ?zlen_app; lia). by rewrite zlen_app, app_assoc, Z.sub_add_distr.
    + cbn [mbind comp_bind]. by rewrite Z.sub_0_r, IH.
Qed.

(** ** What is read back *)

Fixpoint with_seps (ms : list (list Z * Z)) : list (list Z * Z * bool) :=
  match ms with [] => [] | [m] => [(m, NO_SEP)] | m :: ms' => (m, ADD_SEP) :: with_seps ms' end.

Fixpoint total_len (l : list (list Z * Z * bool)) : Z := match l with [] => 0 | c :: l' => zlen (phrase c) + total_len l' end.

(** A name without quotes whose phrase is not cut by snprintf. *)
Definition name_ok (m : list Z * Z) : Prop := (34 ∉ m.1) /\ (zlen m.1 + zlen (decimal m.2) <= 506).

#[export] Instance name_ok_dec m : Decision (name_ok m).
Proof. unfold name_ok. apply _. Defined.

Lemma total_nonneg l : 0 <= total_len l.
Proof. induction l as [|c l IH]; cbn; [done|]. pose proof (zlen_nonneg (phrase c)). lia. Qed.

Lemma kept_all l remain : total_len l <= remain -> kept remain l = concat (phrase <$> l).
Proof.
  revert remain. induction l as [|c l IH]; intros remain Ht; [done|]. cbn in Ht |- *. pose proof (total_nonneg l).
  destruct (Z.leb_spec (zlen (phrase c)) remain); [|lia]. rewrite IH by lia. done.
Qed.

Lemma cut_at_app c n r : c ∉ n -> cut_at c (n ++ c :: r) = n.
Proof.
  induction n as [|b n IH]; intros Hn; cbn; [by rewrite Z.eqb_refl|]. destruct (Z.eqb_spec b c) as [->|]; [exfalso; apply Hn; by left|].
  f_equal. apply IH. intros Hi. apply Hn. by right.
Qed.

Lemma phrase_ok m sep : name_ok m ->
  phrase (m, sep) = [34] ++ m.1 ++ [34] ++ $": " ++ decimal m.2 ++ (if sep then $"," else []).
Proof.
  intros [_ Hl]. unfold phrase, build_ival, snprintf. cbn [fst snd]. rewrite take_ge; [done|].
  unfold zlen in Hl. rewrite !length_app. destruct sep; cbn; lia.
Qed.

Lemma read_phrase n m (sep : bool) r : name_ok m -> no_digit ((if sep then $"," else []) ++ r) ->
  read_members (S n) (phrase (m, sep) ++ r) =
    match (if sep then $"," else []) ++ r with
    | 44 :: r => option_map (cons m) (read_members n r)
    | [32; 125] => Some [m]
    | _ => None
    end.
Proof.
  intros Hm Hd. rewrite phrase_ok by done. destruct Hm as [Hq _]. destruct m as [name v]. cbn [fst snd] in *.
  rewrite <-!app_assoc. cbn [app]. cbn [read_members read_name]. rewrite cut_at_app by done.
  rewrite drop_app_length. change ($": ") with [58; 32]. cbn [app]. by rewrite read_decimal by done.
Qed.

Lemma read_all ms : ms <> [] -> Forall name_ok ms ->
  read_members (length ms) (concat (phrase <$> with_seps ms) ++ $" }") = Some ms.
Proof.
  induction ms as [|m ms IH]; [done|]. intros _ Hf. apply Forall_cons in Hf as [Hm Hf]. destruct ms as [|m' ms].
  - cbn [with_seps fmap list_fmap concat length]. rewrite app_nil_r. by rewrite read_phrase.
  - change (with_seps (m :: m' :: ms)) with ((m, ADD_SEP) :: with_seps (m' :: ms)).
    cbn [fmap list_fmap concat]. rewrite <-app_assoc. change (length (m :: m' :: ms)) with (S (length (m' :: ms))).
    rewrite read_phrase by done. change (if ADD_SEP then $"," else []) with [44]. cbn [app].
    by rewrite IH.
Qed.

(** * Properties *)

(** The text of the constants stays inside its work buffer, whatever the
    names and values are: phrases that do not fit are left out.  When all fit with
    the two bytes of the end, reading the text gives back every name and value in
    order.  The end is cut by what the phrases leave: the bytes set aside for it are
    not used. *)
Theorem constants_text_bounded_and_complete (l : list (list Z * Z * bool)) :
  (exists s, consts_json l = Ret s /\ s = $"{ " ++ kept 2036 l ++ take (Z.to_nat (2036 - zlen (kept 2036 l))) $" }" /\ zlen s <= 2038) /\
  forall ms s, with_seps ms = l -> ms <> [] -> Forall name_ok ms -> total_len l <= 2034 ->
    consts_json l = Ret s -> read_object (length ms) s = Some ms.
Proof.
  assert (consts_json l = Ret ($"{ " ++ kept 2036 l ++ take (Z.to_nat (2036 - zlen (kept 2036 l))) $" }")) as E.
  { unfold consts_json. change (WBUF_SIZE - zlen $"{ " - 10) with 2036.
    rewrite add_consts_spec by (change (zlen $"{ ") with 2; unfold WBUF_SIZE; lia). cbn [mbind comp_bind]. pose proof (kept_len l 2036 ltac:(lia)) as Hk. unfold strncat.
    pose proof (zlen_take_le (2036 - zlen (kept 2036 l)) $" }" ltac:(lia)) as Hc.
    rewrite zlen_app. change (zlen $"{ ") with 2. unfold WBUF_SIZE. case_match eqn:Hb; [apply Z.leb_le in Hb; lia|].
    by rewrite <-app_assoc. }
  split.
  - eexists. split; [done|]. split; [done|]. pose proof (kept_len l 2036 ltac:(lia)) as Hk. rewrite !zlen_app. change (zlen $"{ ") with 2.
    pose proof (zlen_take_le (2036 - zlen (kept 2036 l)) $" }" ltac:(lia)). lia.
  - intros ms s <- Hne Hf Ht. rewrite E. intros [= <-]. rewrite kept_all in * by lia. change ($"{ ") with [123; 32]. cbn [app read_object].
    rewrite take_ge; [by apply read_all|]. rewrite <-(kept_all _ 2034) by done. pose proof (kept_len (with_seps ms) 2034 ltac:(lia)). cbn. lia.
Qed.

Definition members : list (list Z * Z) := fst <$> consts.

Lemma constants_text_bounded_and_complete_witness :
  exists s, rmr_get_consts = Ret s /\ zlen s <= 2038 /\ read_object 27 s = Some members.
Proof.
  destruct (constants_text_bounded_and_complete consts) as [(s & E & _ & Hl) Hr]. exists s. split; [exact E|]. split; [exact Hl|].
  apply (Hr members s); [reflexivity|discriminate| |vm_compute; discriminate|exact E].
  apply (bool_decide_unpack _). vm_compute. exact I.
Defined.
